(* ===== verification/_CoqProject ===== *)
-Q . S2P
Prelude.v
PageAlloc.v
Pmm.v
Vmm.v
Kheap.v
ProcessRegions.v
UserVm.v
Process.v
Bytes.v
Print.v
Input.v
UserCopy.v
Ipc.v
VfsPath.v
Vfs.v
VfsNames.v
VfsHandles.v
Tmpfs.v
Syscalls.v
SyscallSafety.v
SyscallEffects.v
UserImage.v
Spawn.v
SpawnSafety.v
SpawnArgv.v
Block.v
Fat32.v
Fat32Dir.v
Fat32Vfs.v
Fat32Disk.v
Fat32Alloc.v
Fat32Files.v
Fat32Write.v
Fat32Names.v
Fat32Readdir.v
Fat32Demo.v
Framebuffer.v
Gui.v
GuiDraw.v
GuiPaint.v
GuiScene.v
GuiState.v
GuiInv.v
GuiInput.v
GuiSafety.v
SyscallGui.v
WindowPixels.v
WindowCalls.v
Dtb.v
DtbTree.v
Sched.v
SchedSafety.v
Karm.v
KarmStrings.v
KarmDigits.v
KarmFile.v
Dhcp.v
DhcpLease.v
DhcpSent.v
DhcpRequest.v
DhcpExchange.v
Usb.v
Hid.v
HidKeys.v
UsbWalk.v
Runtime.v
RuntimeSafety.v
BootStatus.v
Editor.v
EditorText.v
DeskModel.v
