(* ===== verification/Prelude.v ===== *)
(** A verification library of ArmoniOS, a small operating system for 64-bit ARM.

    * The program

    ArmoniOS is a kernel for AArch64 (QEMU virt and Raspberry Pi 4) with its
    own user programs.  The kernel owns physical pages (mm/pmm.c), page tables
    (mm/vmm.c) and a heap (mm/kheap.c).  Processes (process.c) have user regions
    and mappings (user_vm.c), are started from program images (user_image.c,
    boot_program.c, bootfs.c, panel_boot.c) and enter the kernel through system
    calls (syscall*.c), which check and copy user memory (syscall_helpers.c).
    Files live behind a virtual file system (vfs.c) with three implementations:
    static files, a temporary file system (tmpfs.c) and FAT32 (fat32*.c) on a
    partition of a block device (drivers/storage).  Messages go through ipc.c,
    key strokes through drivers/input.  The desktop (gui_*.c) keeps windows with
    backing buffers and event queues and draws them into a framebuffer
    (drivers/fb, font.c).  EL1 helper threads run under sched/sched.c; the
    device tree is read by dtb*.c at boot, and net/ asks a DHCP server for an
    address.  USB keyboards and mice (drivers/usb) feed the input queue.  Work
    that interrupt handlers defer is done in passes of the runtime service
    (irq.c).  Programs link the small runtime programs/libkarm.

    * How the model reads

    A w-bit integer is a [Z] with its wrap written out ([u8], [u32], [u64],
    [i32], [not64]); a C loop is [for_range] or a [Fixpoint] with fuel; status
    codes are the integers the code returns; memory faults are [None].  Global
    variables are records that the operations thread.  A null pointer is
    [None] where the code tests for it.  Names are those of the source.

    * Files

    - Prelude: machine integers, loops, word-addressed RAM, shared lemmas.
      PageAlloc: the interface [PageAllocator] the page clients are proved
      against, with its laws.
    - Pmm (pmm.c), Vmm (vmm.c, page tables as words of RAM), Kheap (kheap.c,
      block headers as words of RAM), ProcessRegions and Process (process.c),
      UserVm (user_vm.c).
    - Bytes (kstring.c), Print (print.c), Input (drivers/input), Ipc (ipc.c).
    - VfsPath, Vfs (vfs.c, vfs_metadata.c, over the interface [Backend] of
      mounted file systems), VfsNames and VfsHandles (its properties), Tmpfs.
    - UserCopy (syscall_helpers.c over [translate], what the hardware does with
      a user address), Syscalls (syscall*.c and the dispatcher, over [Services]),
      SyscallSafety and SyscallEffects (their properties).
    - UserImage (user_image.c, boot_program.c, bootfs.c, app_image_source.c),
      Spawn (panel_boot.c, panel_boot_argv.c), SpawnSafety, SpawnArgv.
    - Block (block_device.c, block_view.c, mbr.c), Fat32 (fat32.c), Fat32Dir
      (fat32_directory.c), Fat32Vfs (fat32_vfs.c), and the properties of the
      driver in Fat32Disk, Fat32Alloc, Fat32Files, Fat32Write, Fat32Names and
      Fat32Readdir; Fat32Demo holds a small volume on which they are instantiated.
    - Framebuffer (fb.c, font.c and the calculus of paints), Gui (gui_events.c,
      gui_damage.c, gui_backing.c, gui_pool.c, gui_cursor.c, gui_input.c over the
      interface [KernelHeap]), GuiDraw (gui_compositor.c), GuiPaint and GuiScene
      (what is on the screen), GuiState (queues and damage), GuiInv, GuiInput
      and GuiSafety (the invariant of the desktop), SyscallGui (syscall_gui.c),
      WindowPixels (which pixels its calls store) and WindowCalls (its isolation).
    - Dtb (dtb_reader.h, dtb.c, dtb_framebuffer.c) and DtbTree (encoded trees and
      what the reader finds in them); Sched (sched.c, switch.S) and SchedSafety;
      Karm (libkarm string.c, arena.c, buffer.c), KarmStrings (arenas and
      strings), KarmDigits (numerals), KarmFile (file.c, arena_map.c over the
      interface [KliCalls]).
    - Dhcp (dhcp_options.c, dhcp.c over the interface [NetCard]), DhcpLease (what
      answers do), DhcpSent and DhcpRequest (the frames sent), DhcpExchange.
    - Usb (usb_core.c over the interface [UsbHost]), Hid (hid.c, hid_driver.c),
      HidKeys (events of keyboards and mice) and UsbWalk (descriptors); Runtime
      (irq.c's runtime service) and RuntimeSafety; BootStatus (init_status.c,
      panel_boot_recovery.c).
    - Editor (apps/editor.c over [NoteCalls]) and EditorText (pages of lines);
      DeskModel (libarmdesk/rect.h, apps/panel_model.h).

    * What the theorems show

    Memory: first fit and exact effect of page allocation; mapping is atomic and
    a page table gives back every page it took; the heap's block list stays well
    formed and kmalloc and kfree refine a set of disjoint allocations; user
    regions stay disjoint; mmap is all or nothing.  Processes: the table stays
    consistent, a ready process is dispatched within fifteen rounds, an exiting
    process gives back its pages and descriptors; a failed start changes
    nothing, and arguments arrive as they were given.  User boundary: a user
    pointer is accepted exactly when the process may use it, and no call writes
    what the caller could not.  Files: paths cannot leave the root, names and
    handles stay consistent, tmpfs is a map, FAT32 reads and writes are windows
    of the file's contents, its loops end on every disk, and reading a directory
    loses the entries after a file with clusters when the table has a zero byte
    in their place.  Messages and events: the
    queues are bounded queues (messages for all receivers share one).  Desktop:
    any sequence of calls keeps focus, stacking and buffer ownership consistent;
    full and partial redraws end with the same picture when titles fit their bars
    and owner-drawn bars have titles; a click goes to the window that is seen; a
    window call leaves the windows of other processes and their pixels alone
    (focus, restore and the cursor regions of windows without owner apart).
    Boot: the memory a device tree describes is the one that is found.  Threads:
    one runs, each on its own stack, and a thread that yields gets back exactly
    its registers.  Programs: dynamic strings are byte strings whatever they
    share or alias, printed numbers read back, a file read as text is the file.
    Network: a frame is parsed within its received bytes, a request's IPv4
    header passes a receiver's checksum and its options read back, and a poll
    takes answers in order.
    USB: descriptors of any content are walked with no access further than one
    byte past those received, the table of devices does not overflow, and the key
    events of a keyboard follow the keys the driver keeps.  Deferred work: a pass
    does its work or leaves it pending, takes a bounded number of events and
    frames, and forgets no damage of the screen.
    Editor: the buffer and the caret are those of a page of lines under the same
    keys.  Rectangles: an intersection has exactly the common points.
    Findings are theorems too: where the code departs from its documentation or
    reads what it should not, a theorem says under which conditions it does, or a
    lemma shows a run on which it does.

    * Fuel

    Loops without a structural measure take fuel that the theorems show to be
    enough: the path loops one step per byte; the FAT chain loops the number of
    clusters; FAT reads and writes the bytes left; the heap walks the words of
    RAM; page walks of a buffer len/4096 + 2; chunked system calls len + 1;
    program loading the file size + 1; Bresenham's line dx + |dy| + 1 and the
    circle radius + 2; the gradient row width + 1; the window loop 17.
    The device tree loops take the size of the structure block + 1 (a token has
    four bytes); string loops of programs the number of bytes in memory + 1; the
    read loops of libkarm's file.c, endless in the code, take the fuel as an
    argument, and for kli_file_read_text the file size + 1 is shown to be enough.
    The option loop takes its length + 1, the receive loop one step per frame + 1.
    The walk over descriptors takes the length of the buffer + 1.

    * Assumptions

    [user_space] and [caller_ok]: the current address space is the caller's and
    no user page is a page table.  [kernel_layout] and [mmio_quiet]: where the
    linker and the board put the kernel.  [scene_ok] and [win_ok]: windows
    smaller than the screen, titles that fit their bar (the findings say what
    happens otherwise).  [GoodDisk]: a device that returns what was written.
    [KliCallLaws]: what the system-call stubs of a program do.  [NetCardLaws]:
    receiving a frame does not change the card's address.  [tick_calls] and
    [network_calls]: the callbacks of a pass reach the runtime service through
    its calls.
    Signed additions of screen coordinates are taken in [Z]; the code keeps them
    far from overflow.  TLB maintenance, barriers and the cache are no-ops, and
    the system runs one core with interrupts off inside the kernel, as the code
    does.

    * Not modelled

    Device drivers that are sequences of register accesses (virtio, eMMC, xHCI,
    PCI, UART, GIC, mailbox, GPU) and the boards; exception vectors, interrupt
    entry and the boot sequence (assembly, or glue over
    registers); the serial console; the applications other than the
    editor, which are loops over the system calls modelled here; host tools and tests.  The manifest lists each
    with its reason. *)

From stdpp Require Export base gmap list list_numbers numbers sets.
From Stdlib Require Export ZArith Lia.

Declare Scope armonios_scope.
Delimit Scope armonios_scope with arm.
Open Scope Z_scope.

(** * Machine-width integers

    A [uintN_t] value is a [Z] in [0, 2^N); every C operation that can leave
    that range is followed by the matching wrap. *)

Definition UINT8_MAX : Z := 2 ^ 8 - 1.
Definition UINT32_MAX : Z := 2 ^ 32 - 1.
Definition UINT64_MAX : Z := 2 ^ 64 - 1.

Definition u8 (x : Z) : Z := x mod 2 ^ 8.
Definition u32 (x : Z) : Z := x mod 2 ^ 32.
Definition u64 (x : Z) : Z := x mod 2 ^ 64.

(** The value of a [uint64_t] converted to [int64_t]. *)
Definition s64 (x : Z) : Z := if x <? 2 ^ 63 then x else x - 2 ^ 64.

(** [~x] on a [uint64_t]. *)
Definition not64 (x : Z) : Z := u64 (Z.lnot x).

(** C's [x & y] used as a truth value. *)
Definition has_bits (x mask : Z) : bool := negb (Z.land x mask =? 0).

Notation "x '&?' m" := (has_bits x m) (at level 40, no associativity) : armonios_scope.

(** Values a [uint64_t] (resp. [uint32_t], [uint8_t]) object can hold. *)
Definition is_u64 (x : Z) : Prop := 0 <= x < 2 ^ 64.
Definition is_u32 (x : Z) : Prop := 0 <= x < 2 ^ 32.
Definition is_u8 (x : Z) : Prop := 0 <= x < 2 ^ 8.

(** * C loops *)

(** [for (i = lo; i < hi; i++) s = f(i, s);] *)
Definition for_range {S : Type} (lo hi : Z) (f : Z -> S -> S) (s : S) : S :=
  foldl (fun s i => f i s) s (seqZ lo (hi - lo)).

(** [for (i = lo; i < hi; i++) if (p(i)) return i;] as the index found. *)
Definition find_list (p : Z -> bool) (l : list Z) : option Z := head (filter p l).
Definition find_range (lo hi : Z) (p : Z -> bool) : option Z :=
  find_list p (seqZ lo (hi - lo)).

(** * RAM as 64-bit words

    The kernel runs on an identity mapping and its page tables and allocator
    headers are [uint64_t] objects, so RAM is a map from the (8-byte aligned)
    address of a word to its value; absent words read as zero. *)

Definition rd64 (m : gmap Z Z) (a : Z) : Z := default 0 (m !! a).
Definition wr64 (m : gmap Z Z) (a v : Z) : gmap Z Z := <[a := v]> m.

(** One byte store into the little-endian word that holds it. *)
Definition wr8 (m : gmap Z Z) (a v : Z) : gmap Z Z :=
  let w := a - a mod 8 in
  let sh := 8 * (a mod 8) in
  wr64 m w (Z.lor (Z.land (rd64 m w) (not64 (Z.shiftl 255 sh))) (Z.shiftl v sh)).

(** * Tactics *)

(** Turn boolean tests on [Z] in hypotheses and goal into propositions. *)
Ltac b2p :=
  repeat match goal with
  | H : andb _ _ = true |- _ => apply andb_true_iff in H; destruct H
  | H : andb _ _ = false |- _ => apply andb_false_iff in H
  | H : orb _ _ = false |- _ => apply orb_false_iff in H; destruct H
  | H : orb _ _ = true |- _ => apply orb_true_iff in H
  | H : negb _ = true |- _ => apply negb_true_iff in H
  | H : negb _ = false |- _ => apply negb_false_iff in H
  | H : (_ =? _) = true |- _ => apply Z.eqb_eq in H
  | H : (_ =? _) = false |- _ => apply Z.eqb_neq in H
  | H : (_ <? _) = true |- _ => apply Z.ltb_lt in H
  | H : (_ <? _) = false |- _ => apply Z.ltb_ge in H
  | H : (_ <=? _) = true |- _ => apply Z.leb_le in H
  | H : (_ <=? _) = false |- _ => apply Z.leb_gt in H
  | H : (_ >? _) = true |- _ => rewrite Z.gtb_ltb in H; apply Z.ltb_lt in H
  | H : (_ >? _) = false |- _ => rewrite Z.gtb_ltb in H; apply Z.ltb_ge in H
  | H : (_ >=? _) = true |- _ => rewrite Z.geb_leb in H; apply Z.leb_le in H
  | H : (_ >=? _) = false |- _ => rewrite Z.geb_leb in H; apply Z.leb_gt in H
  end.

(** Case split on the next [if] of the goal or of a hypothesis, keeping the
    condition as an equation in propositional form. *)
Ltac case_if :=
  match goal with
  | |- context [if ?b then _ else _] =>
      lazymatch type of b with bool => destruct b eqn:? end
  | H : context [if ?b then _ else _] |- _ =>
      lazymatch type of b with bool => destruct b eqn:? end
  end; b2p.

(** Invert an equation between pairs, options or records built by a code path. *)
Ltac inv_eq H := injection H; clear H; intros; subst.

(** * Lemmas on machine integers *)

Lemma u64_id x : 0 <= x < 2 ^ 64 -> u64 x = x.
Proof. apply Z.mod_small. Qed.

Lemma u64_range x : 0 <= u64 x < 2 ^ 64.
Proof. apply Z.mod_pos_bound. lia. Qed.

Lemma u32_id x : 0 <= x < 2 ^ 32 -> u32 x = x.
Proof. apply Z.mod_small. Qed.

Lemma u32_range x : 0 <= u32 x < 2 ^ 32.
Proof. apply Z.mod_pos_bound. lia. Qed.

Lemma u8_id x : 0 <= x < 2 ^ 8 -> u8 x = x.
Proof. apply Z.mod_small. Qed.

Lemma u8_range x : 0 <= u8 x < 2 ^ 8.
Proof. apply Z.mod_pos_bound. lia. Qed.

Lemma testbit_u64 x i : 0 <= i -> Z.testbit (u64 x) i = (i <? 64) && Z.testbit x i.
Proof.
  intros. unfold u64. destruct (Z.ltb_spec i 64); simpl.
  - apply Z.mod_pow2_bits_low; lia.
  - apply Z.mod_pow2_bits_high; lia.
Qed.

Lemma testbit_not64 x i :
  0 <= i -> Z.testbit (not64 x) i = (i <? 64) && negb (Z.testbit x i).
Proof.
  intros. unfold not64. rewrite testbit_u64 by done.
  by rewrite Z.lnot_spec.
Qed.

Lemma testbit_above x n i : 0 <= x < 2 ^ n -> n <= i -> Z.testbit x i = false.
Proof.
  intros. destruct (Z.lt_ge_cases n 0).
  { rewrite Z.pow_neg_r in H; lia. }
  rewrite <- (Z.mod_small x (2 ^ n)) by done.
  apply Z.mod_pow2_bits_high; lia.
Qed.

(** A value whose bits from [n] on are clear is below [2^n]. *)
Lemma bits_bound x n :
  0 <= x -> 0 <= n -> (forall i, n <= i -> Z.testbit x i = false) -> x < 2 ^ n.
Proof.
  intros Hx Hn H.
  assert (x mod 2 ^ n = x) as <-.
  { apply Z.bits_inj'. intros i Hi.
    destruct (Z.lt_ge_cases i n).
    - apply Z.mod_pow2_bits_low; lia.
    - rewrite Z.mod_pow2_bits_high by lia. by rewrite H. }
  apply Z.mod_pos_bound. lia.
Qed.

Lemma land_lor_bound x y n :
  0 <= n -> 0 <= x < 2 ^ n -> 0 <= y < 2 ^ n ->
  0 <= Z.land x y < 2 ^ n /\ 0 <= Z.lor x y < 2 ^ n.
Proof.
  intros Hn Hx Hy. repeat split.
  - apply Z.land_nonneg; lia.
  - apply bits_bound; [apply Z.land_nonneg; lia|lia|].
    intros i Hi. by rewrite Z.land_spec, (testbit_above x n).
  - apply Z.lor_nonneg; lia.
  - apply bits_bound; [apply Z.lor_nonneg; lia|lia|].
    intros i Hi. by rewrite Z.lor_spec, (testbit_above x n), (testbit_above y n).
Qed.

Lemma not64_range x : 0 <= not64 x < 2 ^ 64.
Proof. apply u64_range. Qed.

(** [x & ((1 << n) - 1)] is the remainder. *)
Lemma land_low_mask x n : 0 <= n -> Z.land x (2 ^ n - 1) = x mod 2 ^ n.
Proof.
  intros. rewrite <- Z.land_ones by done. f_equal.
  rewrite Z.ones_equiv. lia.
Qed.

(** [x & ~((1 << n) - 1)] clears the low bits. *)
Lemma land_high_mask x n :
  0 <= x < 2 ^ 64 -> 0 <= n <= 64 ->
  Z.land x (not64 (2 ^ n - 1)) = x - x mod 2 ^ n.
Proof.
  intros Hx Hn.
  replace (x - x mod 2 ^ n) with (Z.ldiff x (Z.ones n)).
  - apply Z.bits_inj'. intros i Hi.
    rewrite Z.land_spec, Z.ldiff_spec, testbit_not64 by done.
    destruct (Z.ltb_spec i 64); simpl.
    + f_equal. f_equal. f_equal. rewrite Z.ones_equiv. lia.
    + rewrite (testbit_above x 64) by lia. done.
  - rewrite Z.ldiff_ones_r by lia.
    rewrite Z.shiftr_div_pow2, Z.shiftl_mul_pow2 by lia.
    pose proof (Z.div_mod x (2 ^ n)). lia.
Qed.

(** Testing one bit with a mask. *)
Lemma has_bits_pow2 x b : 0 <= b -> has_bits x (Z.shiftl 1 b) = Z.testbit x b.
Proof.
  intros Hb. unfold has_bits.
  destruct (Z.testbit x b) eqn:E.
  - apply negb_true_iff, Z.eqb_neq. intros H0.
    assert (Z.testbit (Z.land x (Z.shiftl 1 b)) b = true) as H1.
    { rewrite Z.land_spec, E, Z.shiftl_spec, Z.sub_diag by lia. done. }
    rewrite H0, Z.bits_0 in H1. done.
  - apply negb_false_iff, Z.eqb_eq. apply Z.bits_inj'. intros i Hi.
    rewrite Z.land_spec, Z.bits_0, Z.shiftl_1_l, Z.pow2_bits_eqb by lia.
    destruct (Z.eqb_spec b i); subst; [by rewrite E|]. by rewrite andb_false_r.
Qed.

(** * Loop rules *)

(** Invariant rule for [for_range]. *)
Lemma for_range_ind {S} (P : Z -> S -> Prop) lo hi (f : Z -> S -> S) s :
  lo <= hi ->
  P lo s ->
  (forall i s, lo <= i < hi -> P i s -> P (i + 1) (f i s)) ->
  P hi (for_range lo hi f s).
Proof.
  intros Hle H0 Hstep. unfold for_range.
  replace hi with (lo + (hi - lo)) at 1 by lia.
  assert (Hb : forall i, lo <= i < lo + (hi - lo) -> lo <= i < hi) by lia.
  remember (hi - lo) as n eqn:En. assert (Hn : 0 <= n) by lia. clear En Hle.
  revert lo s H0 Hstep Hb. pattern n. revert n Hn. apply natlike_ind.
  - intros lo s H0 _ _. simpl. by rewrite Z.add_0_r.
  - intros n Hn IH lo s H0 Hstep Hb.
    rewrite seqZ_cons by lia. simpl. rewrite Z.pred_succ.
    replace (lo + Z.succ n) with (Z.succ lo + n) by lia.
    apply IH.
    + replace (Z.succ lo) with (lo + 1) by lia. apply Hstep; [apply Hb; lia|done].
    + intros i s' Hi. apply Hstep. lia.
    + intros i Hi. specialize (Hb i). lia.
Qed.

Lemma for_range_empty {S} lo hi (f : Z -> S -> S) s : hi <= lo -> for_range lo hi f s = s.
Proof. intros. unfold for_range. by rewrite seqZ_nil by lia. Qed.

Lemma for_range_step {S} lo hi (f : Z -> S -> S) s :
  lo < hi -> for_range lo hi f s = for_range (lo + 1) hi f (f lo s).
Proof.
  intros. unfold for_range. rewrite (seqZ_cons lo) by lia. simpl.
  by replace (Z.pred (hi - lo)) with (hi - (lo + 1)) by lia.
Qed.

(** Specification of the first-match search. *)
Lemma find_list_Some p l x :
  find_list p l = Some x ->
  exists l1 l2, l = l1 ++ x :: l2 /\ p x = true /\ forall y, y ∈ l1 -> p y = false.
Proof.
  unfold find_list. induction l as [|a l IH]; [done|].
  rewrite filter_cons. case_decide as Ha.
  - simpl. intros [= ->]. exists [], l. split_and!; [done| |].
    + by apply Is_true_eq_true.
    + intros y Hy. by apply elem_of_nil in Hy.
  - intros (l1 & l2 & -> & Hx & Hl)%IH. exists (a :: l1), l2.
    split_and!; [done..|]. intros y [->|Hy]%elem_of_cons; [|auto].
    destruct (p a); [|done]. exfalso. apply Ha. done.
Qed.

Lemma find_list_None p l : find_list p l = None -> forall y, y ∈ l -> p y = false.
Proof.
  unfold find_list. induction l as [|a l IH].
  { intros _ y Hy. by apply elem_of_nil in Hy. }
  rewrite filter_cons. case_decide as Ha; [done|].
  intros H y [->|Hy]%elem_of_cons; [|auto].
  destruct (p a); [|done]. exfalso. apply Ha. done.
Qed.

Lemma find_range_Some lo hi p x :
  find_range lo hi p = Some x ->
  lo <= x < hi /\ p x = true /\ forall y, lo <= y < x -> p y = false.
Proof.
  unfold find_range. intros (l1 & l2 & Hl & Hx & Hb)%find_list_Some.
  assert (Hlen : forall i y, (l1 ++ x :: l2) !! i = Some y -> y = lo + Z.of_nat i /\ lo <= y < hi).
  { intros i y Hi. rewrite <- Hl in Hi. apply lookup_seqZ in Hi as [-> ?]. lia. }
  destruct (Hlen (length l1) x) as [-> ?].
  { by rewrite list_lookup_middle. }
  split_and!; [lia..|done|].
  intros y Hy. apply Hb. apply list_elem_of_lookup.
  exists (Z.to_nat (y - lo)).
  destruct (lookup_lt_is_Some_2 l1 (Z.to_nat (y - lo))) as [z Hz]; [lia|].
  rewrite Hz. f_equal.
  destruct (Hlen (Z.to_nat (y - lo)) z); [by apply lookup_app_l_Some|]. lia.
Qed.

Lemma find_range_None lo hi p :
  find_range lo hi p = None -> forall y, lo <= y < hi -> p y = false.
Proof.
  intros H y Hy. eapply find_list_None; [exact H|].
  apply elem_of_seqZ. lia.
Qed.

(** The search succeeds when some index qualifies. *)
Lemma find_range_is_Some lo hi p y :
  lo <= y < hi -> p y = true -> exists x, find_range lo hi p = Some x /\ x <= y.
Proof.
  intros Hy Hp. destruct (find_range lo hi p) as [x|] eqn:E.
  - exists x. split; [done|]. apply find_range_Some in E as (? & ? & Hb).
    destruct (Z.le_gt_cases x y); [done|]. rewrite Hb in Hp by lia. done.
  - rewrite (find_range_None _ _ _ E y) in Hp by done. done.
Qed.

(** The first qualifying index is the one found. *)
Lemma find_range_first lo hi p x :
  lo <= x < hi -> p x = true -> (forall y, lo <= y < x -> p y = false) -> find_range lo hi p = Some x.
Proof.
  intros Hx Hp Hb. destruct (find_range_is_Some lo hi p x Hx Hp) as (y & E & Hy). rewrite E.
  apply find_range_Some in E as (Hr & Hpy & _). f_equal.
  destruct (Z.eq_dec y x) as [|Hne]; [done|]. rewrite Hb in Hpy by lia. done.
Qed.

(** * RAM lemmas *)

Lemma rd64_wr64_eq m a v : rd64 (wr64 m a v) a = v.
Proof. unfold rd64, wr64. by rewrite lookup_insert_eq. Qed.

Lemma rd64_wr64_ne m a b v : a <> b -> rd64 (wr64 m a v) b = rd64 m b.
Proof. intros. unfold rd64, wr64. by rewrite lookup_insert_ne. Qed.

(** Some element of a list satisfies a predicate, across appends and deletions. *)
Lemma ex_lookup_snoc {A} (l : list A) g (P : A -> Prop) :
  (exists k r, (l ++ [g]) !! k = Some r /\ P r) <-> (exists k r, l !! k = Some r /\ P r) \/ P g.
Proof.
  split.
  - intros (k & r & [Hk|[_ Hk]]%lookup_app_Some & Hr); [eauto|].
    apply list_lookup_singleton_Some in Hk as [_ ->]. auto.
  - intros [(k & r & Hk & Hr)|Hg].
    + exists k, r. split; [by apply lookup_app_l_Some|done].
    + exists (length l), g. split; [by apply list_lookup_middle|done].
Qed.

Lemma ex_lookup_delete {A} (l : list A) i g (P : A -> Prop) :
  l !! i = Some g ->
  (exists k r, l !! k = Some r /\ P r) <-> (exists k r, delete i l !! k = Some r /\ P r) \/ P g.
Proof.
  intros Hi. split.
  - intros (k & r & Hk & Hr). destruct (decide (k = i)) as [->|Hne].
    { right. by rewrite Hi in Hk; injection Hk as ->. }
    left. exists (if decide (k < i)%nat then k else pred k), r. split; [|done].
    rewrite list_lookup_delete. repeat case_decide; try lia; [done|].
    by replace (S (Init.Nat.pred k)) with k by lia.
  - intros [(k & r & Hk & Hr)|Hg]; [|eauto]. rewrite list_lookup_delete in Hk. eauto.
Qed.

(** Filters that agree on the elements of the list. *)
Lemma filter_agree {A} (P Q : A -> Prop) `{!forall x, Decision (P x), !forall x, Decision (Q x)} (l : list A) :
  (forall x, x ∈ l -> P x <-> Q x) -> filter P l = filter Q l.
Proof.
  induction l as [|a l IH]; [done|]. intros HP. rewrite !filter_cons, IH by (intros x Hx; apply HP; set_solver).
  specialize (HP a ltac:(set_solver)). repeat case_decide; tauto.
Qed.

Lemma filter_keep {A} (P : A -> Prop) `{!forall x, Decision (P x)} (l : list A) :
  (forall x, x ∈ l -> P x) -> filter P l = l.
Proof.
  induction l as [|a l IH]; [done|]. intros HP. rewrite filter_cons_True by (apply HP; set_solver).
  rewrite IH; [done|]. intros x Hx. apply HP. set_solver.
Qed.

(** A pair is known from its first component and its projection. *)
Lemma pair_of_fst {A B} (p : A * B) a : fst p = a -> p = (a, snd p).
Proof. by intros <-; destruct p. Qed.

Create HintDb armonios.
Create Rewrite HintDb armonios_rw.
#[export] Hint Resolve u64_range u32_range u8_range not64_range : armonios.
#[export] Hint Rewrite @lookup_insert_eq rd64_wr64_eq : armonios_rw.
