(* ===== verification/PageAlloc.v ===== *)
(** What the physical page allocator promises to its clients (the page-table
    manager, user mappings, process teardown): the operations they call and
    the laws they rely on.  kernel/mm/pmm.h declares the interface; Pmm.v
    implements it and proves the laws. *)

From S2P Require Import Prelude.

Definition PAGE_SIZE : Z := 4096.

(** The entry points of pmm.h that allocate and release pages. *)
Class PageAllocator (A : Type) := {
  alloc_page : A -> Z * A;
  alloc_pages : Z -> A -> Z * A;
  free_page : Z -> A -> A;
  (** consistent allocator states *)
  pa_inv : A -> Prop;
  (** the page at this physical address can be handed out *)
  pa_avail : A -> Z -> Prop;
  (** this physical address is that of a page the allocator manages *)
  pa_managed : A -> Z -> Prop }.

(** Address [q] is the start of one of the [n] pages from [r] on. *)
Definition in_run (r n q : Z) : Prop := r <= q < r + n * 4096.

Class PageAllocatorLaws (A : Type) `{PageAllocator A} : Prop := {
  avail_managed a q : pa_inv a -> pa_avail a q -> pa_managed a q /\ q <> 0;
  managed_addr a q : pa_inv a -> pa_managed a q -> q mod 4096 = 0 /\ 0 <= q /\ q + 4096 <= 2 ^ 48;
  alloc_page_law a r a' :
    pa_inv a -> alloc_page a = (r, a') ->
    pa_inv a' /\ (forall q, pa_managed a' q <-> pa_managed a q) /\
    ((r = 0 /\ a' = a /\ forall q, ~ pa_avail a q) \/
     (r <> 0 /\ pa_avail a r /\ forall q, pa_avail a' q <-> pa_avail a q /\ q <> r));
  alloc_pages_law n a r a' :
    pa_inv a -> 0 < n -> alloc_pages n a = (r, a') ->
    pa_inv a' /\ (forall q, pa_managed a' q <-> pa_managed a q) /\
    ((r = 0 /\ a' = a) \/
     (r <> 0 /\ (forall i, 0 <= i < n -> pa_avail a (r + i * 4096)) /\
      forall q, pa_avail a' q <-> pa_avail a q /\ ~ in_run r n q));
  free_page_law p a :
    pa_inv a -> p <> 0 ->
    pa_inv (free_page p a) /\ (forall q, pa_managed (free_page p a) q <-> pa_managed a q) /\
    (forall q, pa_avail (free_page p a) q <-> pa_avail a q \/ (q = p /\ pa_managed a p)) }.

Section Facts.
Context {A : Type} `{PageAllocatorLaws A}.

(** Pages handed out by the allocator are non-null, aligned 48-bit addresses. *)
Lemma avail_addr a q :
  pa_inv a -> pa_avail a q -> q mod 4096 = 0 /\ 0 < q /\ q + 4096 <= 2 ^ 48.
Proof.
  intros Hi Ha. destruct (avail_managed a q Hi Ha) as [Hm Hnz].
  destruct (managed_addr a q Hi Hm) as (? & ? & ?). lia.
Qed.
End Facts.
