(* ===== verification/Pmm.v ===== *)
(** Physical page allocator: kernel/mm/pmm.c.

    The state keeps the bitmap as the 512 [uint64_t] words of [g_bitmap] and
    the three counters; every operation of the file is translated with its
    word/bit arithmetic.  The abstract view is the predicate [page_free]
    together with the counter [count_free]. *)

From S2P Require Import Prelude.
From S2P Require Import PageAlloc.
Open Scope arm.

Definition PMM_MAX_MEMORY : Z := 128 * 1024 * 1024.
Definition PMM_MAX_PAGES : Z := PMM_MAX_MEMORY / PAGE_SIZE.
Definition BITS_PER_WORD : Z := 64.

(** The file-scope variables of pmm.c. *)
Record pmm := mk_pmm {
  g_bitmap : list Z;
  g_mem_base : Z;
  g_total_pages : Z;
  g_free_pages : Z }.

Definition align_down (value : Z) : Z := Z.land value (not64 (PAGE_SIZE - 1)).

Definition align_up (value : Z) : Z :=
  Z.land (u64 (value + PAGE_SIZE - 1)) (not64 (PAGE_SIZE - 1)).

Definition add_saturated (a b : Z) : Z :=
  if a >? UINT64_MAX - b then UINT64_MAX else u64 (a + b).

Definition align_up_saturated (value : Z) : Z :=
  if Z.land value (PAGE_SIZE - 1) =? 0 then value
  else if value >? UINT64_MAX - (PAGE_SIZE - 1) then UINT64_MAX
  else align_up value.

Definition managed_end (s : pmm) : Z :=
  add_saturated (g_mem_base s) (u64 (g_total_pages s * PAGE_SIZE)).

(** [g_bitmap[w]]; the array has a word for every page below PMM_MAX_PAGES. *)
Definition bitmap_word (s : pmm) (w : Z) : Z := default 0 (g_bitmap s !! Z.to_nat w).

Definition set_word (s : pmm) (w v free : Z) : pmm :=
  mk_pmm (<[Z.to_nat w := v]> (g_bitmap s)) (g_mem_base s) (g_total_pages s) free.

Definition set_used (page : Z) (s : pmm) : pmm :=
  let word := page / BITS_PER_WORD in
  let bit := page mod BITS_PER_WORD in
  let mask := u64 (Z.shiftl 1 bit) in
  if Z.land (bitmap_word s word) mask =? 0 then
    set_word s word (Z.lor (bitmap_word s word) mask) (u64 (g_free_pages s - 1))
  else s.

Definition set_free (page : Z) (s : pmm) : pmm :=
  let word := page / BITS_PER_WORD in
  let bit := page mod BITS_PER_WORD in
  let mask := u64 (Z.shiftl 1 bit) in
  if bitmap_word s word &? mask then
    set_word s word (Z.land (bitmap_word s word) (not64 mask)) (u64 (g_free_pages s + 1))
  else s.

Definition pmm_init (mem_base mem_size : Z) : pmm :=
  let pages := mem_size / PAGE_SIZE in
  let total := if pages >? PMM_MAX_PAGES then PMM_MAX_PAGES else pages in
  let s0 := mk_pmm (replicate (Z.to_nat (PMM_MAX_PAGES / BITS_PER_WORD)) (not64 0))
                   mem_base total 0 in
  let s1 := for_range 0 total set_free s0 in
  if (mem_base =? 0) && (total >? 0) then set_used 0 s1 else s1.

Definition pmm_reserve_range (start size : Z) (s : pmm) : pmm :=
  if (size =? 0) || (g_total_pages s =? 0) then s else
  let end_ := add_saturated start size in
  let limit := managed_end s in
  if (end_ <=? g_mem_base s) || (start >=? limit) then s else
  let page_start :=
    if start <? g_mem_base s then 0
    else u64 (align_down start - g_mem_base s) / PAGE_SIZE in
  let page_end :=
    if end_ >=? limit then g_total_pages s
    else let pe := u64 (align_up_saturated end_ - g_mem_base s) / PAGE_SIZE in
         if pe >? g_total_pages s then g_total_pages s else pe in
  for_range page_start page_end set_used s.

(** The test [(g_bitmap[word] & (1ULL << bit)) == 0] of both allocation loops. *)
Definition bit_clear (s : pmm) (page : Z) : bool :=
  Z.land (bitmap_word s (page / BITS_PER_WORD)) (u64 (Z.shiftl 1 (page mod BITS_PER_WORD))) =? 0.

Definition pmm_alloc_page (s : pmm) : Z * pmm :=
  match find_range 0 (g_total_pages s) (bit_clear s) with
  | Some page => (u64 (g_mem_base s + page * PAGE_SIZE), set_used page s)
  | None => (0, s)
  end.

(** The scan of [pmm_alloc_pages]: [run_start]/[run_count] carried over the
    pages still to visit, returning the start of the first run that reaches
    [count]. *)
Fixpoint alloc_scan (s : pmm) (count run_start run_count : Z) (pages : list Z) : option Z :=
  match pages with
  | [] => None
  | page :: rest =>
      if bit_clear s page then
        let run_start := if run_count =? 0 then page else run_start in
        let run_count := run_count + 1 in
        if run_count =? count then Some run_start
        else alloc_scan s count run_start run_count rest
      else alloc_scan s count run_start 0 rest
  end.

Definition pmm_alloc_pages (count : Z) (s : pmm) : Z * pmm :=
  if (count =? 0) || (count >? g_total_pages s) then (0, s) else
  match alloc_scan s count 0 0 (seqZ 0 (g_total_pages s)) with
  | Some run_start =>
      (u64 (g_mem_base s + run_start * PAGE_SIZE),
       for_range run_start (run_start + count) set_used s)
  | None => (0, s)
  end.

Definition pmm_free_page (paddr : Z) (s : pmm) : pmm :=
  if (paddr <? g_mem_base s) || (paddr &? (PAGE_SIZE - 1)) then s else
  let page := (paddr - g_mem_base s) / PAGE_SIZE in
  if page >=? g_total_pages s then s else set_free page s.

Definition pmm_free_count (s : pmm) : Z := g_free_pages s.
Definition pmm_total_count (s : pmm) : Z := g_total_pages s.

(** * Abstract view *)

Definition page_used (s : pmm) (p : Z) : bool :=
  Z.testbit (bitmap_word s (p / BITS_PER_WORD)) (p mod BITS_PER_WORD).

(** Page [p] of the managed range is available. *)
Definition page_free (s : pmm) (p : Z) : Prop :=
  0 <= p < g_total_pages s /\ page_used s p = false.

(** Number of indices of [l] that [f] marks as not used. *)
Definition count_unused (f : Z -> bool) (l : list Z) : Z :=
  Z.of_nat (length (filter (fun p => f p = false) l)).

Definition count_free (s : pmm) : Z :=
  count_unused (page_used s) (seqZ 0 (g_total_pages s)).

(** Well-formed allocator states: the bitmap has its declared size and holds
    64-bit words, the managed range is page aligned and lies in the 48-bit
    physical space, address 0 is never available, and the counter is exact. *)
Record pmm_wf (s : pmm) : Prop := {
  wf_len : length (g_bitmap s) = Z.to_nat (PMM_MAX_PAGES / BITS_PER_WORD);
  wf_words : Forall is_u64 (g_bitmap s);
  wf_total : 0 <= g_total_pages s <= PMM_MAX_PAGES;
  wf_base : 0 <= g_mem_base s /\ g_mem_base s mod PAGE_SIZE = 0;
  wf_end : g_mem_base s + g_total_pages s * PAGE_SIZE <= 2 ^ 48;
  wf_zero : g_mem_base s = 0 -> 0 < g_total_pages s -> page_used s 0 = true;
  wf_count : g_free_pages s = count_free s }.

(** * Bit-level lemmas *)

Lemma word_index p : 0 <= p < PMM_MAX_PAGES -> 0 <= p / 64 < 512 /\ 0 <= p mod 64 < 64.
Proof. change PMM_MAX_PAGES with 32768. Z.div_mod_to_equations. lia. Qed.

Lemma mask_bit b : 0 <= b < 64 -> u64 (Z.shiftl 1 b) = Z.shiftl 1 b.
Proof.
  intros. apply u64_id. rewrite Z.shiftl_1_l. split; [lia|].
  apply Z.pow_lt_mono_r; lia.
Qed.

Lemma bit_clear_spec s p : bit_clear s p = negb (page_used s p).
Proof.
  unfold bit_clear, page_used. change BITS_PER_WORD with 64.
  rewrite mask_bit by (apply Z.mod_pos_bound; lia).
  rewrite <- has_bits_pow2 by (apply Z.mod_pos_bound; lia).
  unfold has_bits. by rewrite negb_involutive.
Qed.

Lemma bitmap_word_set s w w' v f :
  0 <= w < Z.of_nat (length (g_bitmap s)) -> 0 <= w' ->
  bitmap_word (set_word s w v f) w' = if w' =? w then v else bitmap_word s w'.
Proof.
  intros Hw Hw'. unfold bitmap_word, set_word. simpl.
  destruct (Z.eqb_spec w' w) as [->|].
  - rewrite list_lookup_insert_eq by lia. done.
  - rewrite list_lookup_insert_ne by lia. done.
Qed.

Lemma same_page p q : p / 64 = q / 64 -> p mod 64 = q mod 64 -> p = q.
Proof. intros. Z.div_mod_to_equations. lia. Qed.

(** Effect of the two bit setters on the abstract view. *)
Lemma page_used_set_used s p q :
  length (g_bitmap s) = 512%nat -> 0 <= p < PMM_MAX_PAGES -> 0 <= q ->
  page_used (set_used p s) q = (q =? p) || page_used s q.
Proof.
  intros Hl Hp Hq. destruct (word_index p Hp) as [Hw Hb].
  unfold set_used. fold (bit_clear s p). rewrite bit_clear_spec.
  unfold page_used at 2. change BITS_PER_WORD with 64.
  destruct (Z.testbit (bitmap_word s (p / 64)) (p mod 64)) eqn:E; simpl.
  - destruct (Z.eqb_spec q p) as [->|]; [|done]. unfold page_used, BITS_PER_WORD. by rewrite E.
  - unfold page_used at 1. unfold BITS_PER_WORD.
    rewrite bitmap_word_set by (rewrite ?Hl; Z.div_mod_to_equations; lia). rewrite mask_bit by done.
    destruct (Z.eqb_spec (q / 64) (p / 64)) as [Ew|Ew].
    + rewrite Z.lor_spec, Z.shiftl_1_l, Z.pow2_bits_eqb by lia.
      destruct (Z.eqb_spec (p mod 64) (q mod 64)) as [Eb|Eb].
      * rewrite (same_page q p) by lia. rewrite Z.eqb_refl. by rewrite orb_true_r.
      * destruct (Z.eqb_spec q p); [congruence|]. rewrite orb_false_r.
        unfold page_used. change BITS_PER_WORD with 64. by rewrite Ew.
    + destruct (Z.eqb_spec q p); [congruence|]. done.
Qed.

Lemma page_used_set_free s p q :
  length (g_bitmap s) = 512%nat -> 0 <= p < PMM_MAX_PAGES -> 0 <= q ->
  page_used (set_free p s) q = negb (q =? p) && page_used s q.
Proof.
  intros Hl Hp Hq. destruct (word_index p Hp) as [Hw Hb].
  unfold set_free. change BITS_PER_WORD with 64. rewrite mask_bit by done.
  rewrite has_bits_pow2 by lia.
  destruct (Z.testbit (bitmap_word s (p / 64)) (p mod 64)) eqn:E.
  - unfold page_used at 1. unfold BITS_PER_WORD.
    rewrite bitmap_word_set by (rewrite ?Hl; Z.div_mod_to_equations; lia).
    assert (0 <= q mod 64 < 64) by (apply Z.mod_pos_bound; lia).
    destruct (Z.eqb_spec (q / 64) (p / 64)) as [Ew|Ew].
    + rewrite Z.land_spec, testbit_not64, Z.shiftl_1_l, Z.pow2_bits_eqb by lia.
      replace (q mod 64 <? 64) with true by (symmetry; apply Z.ltb_lt; lia). simpl.
      destruct (Z.eqb_spec (p mod 64) (q mod 64)) as [Eb|Eb].
      * rewrite (same_page q p) by lia. rewrite Z.eqb_refl. by rewrite andb_false_r.
      * destruct (Z.eqb_spec q p); [congruence|]. rewrite andb_true_r.
        unfold page_used. change BITS_PER_WORD with 64. by rewrite Ew.
    + destruct (Z.eqb_spec q p); [congruence|]. done.
  - destruct (Z.eqb_spec q p) as [->|]; [|done]. unfold page_used, BITS_PER_WORD. by rewrite E.
Qed.

(** * Counting *)

Lemma count_unused_ext f g l :
  (forall q, q ∈ l -> f q = g q) -> count_unused f l = count_unused g l.
Proof.
  intros H. unfold count_unused. f_equal. induction l as [|a l IH]; [done|].
  rewrite !filter_cons, (H a) by set_solver.
  case_decide; simpl; rewrite IH; set_solver.
Qed.

(** Marking one unused index as used removes one from the count. *)
Lemma count_unused_flip f g l p :
  NoDup l -> p ∈ l -> f p = false -> g p = true -> (forall q, q <> p -> f q = g q) ->
  count_unused f l = count_unused g l + 1.
Proof.
  intros Hnd Hp Hf Hg Heq. induction Hnd as [|a l Ha Hnd IH]; [by apply elem_of_nil in Hp|].
  unfold count_unused in *. rewrite !filter_cons.
  destruct (decide (a = p)) as [->|Hne].
  - rewrite decide_True by done. rewrite decide_False by congruence. simpl.
    pose proof (count_unused_ext f g l) as Hx. unfold count_unused in Hx.
    rewrite Nat2Z.inj_succ, Hx; [lia|]. intros q Hq. apply Heq. set_solver.
  - apply elem_of_cons in Hp as [?|Hp]; [congruence|]. specialize (IH Hp).
    rewrite (Heq a Hne). case_decide; simpl; lia.
Qed.

Lemma count_unused_range f l : 0 <= count_unused f l <= Z.of_nat (length l).
Proof. unfold count_unused. pose proof (length_filter (fun p => f p = false) l). lia. Qed.

Lemma count_unused_all l : count_unused (fun _ => true) l = 0.
Proof. unfold count_unused. induction l as [|a l IH]; [done|]. by rewrite filter_cons. Qed.

(** * Preservation by the bit setters *)

Lemma set_used_fields p s :
  g_mem_base (set_used p s) = g_mem_base s /\ g_total_pages (set_used p s) = g_total_pages s
  /\ length (g_bitmap (set_used p s)) = length (g_bitmap s).
Proof. unfold set_used. case_if; simpl; rewrite ?length_insert; done. Qed.

Lemma set_free_fields p s :
  g_mem_base (set_free p s) = g_mem_base s /\ g_total_pages (set_free p s) = g_total_pages s
  /\ length (g_bitmap (set_free p s)) = length (g_bitmap s).
Proof. unfold set_free. case_if; simpl; rewrite ?length_insert; done. Qed.

Lemma bitmap_word_u64 s w : Forall is_u64 (g_bitmap s) -> is_u64 (bitmap_word s w).
Proof.
  intros H. unfold bitmap_word. destruct (g_bitmap s !! Z.to_nat w) eqn:E; simpl.
  - by eapply Forall_lookup_1 in H.
  - unfold is_u64. lia.
Qed.

Lemma set_used_words p s : Forall is_u64 (g_bitmap s) -> Forall is_u64 (g_bitmap (set_used p s)).
Proof.
  intros H. unfold set_used. case_if; [|done]. simpl. apply Forall_insert; [done|].
  apply (land_lor_bound _ _ 64); [lia|by apply bitmap_word_u64|apply u64_range].
Qed.

Lemma set_free_words p s : Forall is_u64 (g_bitmap s) -> Forall is_u64 (g_bitmap (set_free p s)).
Proof.
  intros H. unfold set_free. case_if; [|done]. simpl. apply Forall_insert; [done|].
  apply (land_lor_bound _ _ 64); [lia|by apply bitmap_word_u64|apply not64_range].
Qed.

(** What both setters do to the counter, given how they change the view. *)
Lemma set_used_count s p :
  length (g_bitmap s) = 512%nat -> 0 <= p < g_total_pages s -> g_total_pages s <= PMM_MAX_PAGES ->
  g_free_pages s = count_free s -> g_free_pages (set_used p s) = count_free (set_used p s).
Proof.
  intros Hl Hp Ht Hc. pose proof (set_used_fields p s) as (_ & Htot & _).
  unfold count_free in *. rewrite Htot.
  assert (Hv : forall q, 0 <= q -> page_used (set_used p s) q = (q =? p) || page_used s q).
  { intros. apply page_used_set_used; lia. }
  destruct (page_used s p) eqn:E.
  - rewrite (count_unused_ext _ (page_used s)).
    + unfold set_used. fold (bit_clear s p). by rewrite bit_clear_spec, E.
    + intros q Hq%elem_of_seqZ. rewrite Hv by lia. destruct (Z.eqb_spec q p); [by subst|done].
  - assert (count_unused (page_used s) (seqZ 0 (g_total_pages s))
            = count_unused (fun q => (q =? p) || page_used s q) (seqZ 0 (g_total_pages s)) + 1) as H1.
    { apply (count_unused_flip _ _ _ p); [apply NoDup_seqZ|apply elem_of_seqZ; lia|done| |].
      - by rewrite Z.eqb_refl.
      - intros q Hq. by apply Z.eqb_neq in Hq as ->. }
    rewrite (count_unused_ext _ (fun q => (q =? p) || page_used s q))
      by (intros q Hq%elem_of_seqZ; apply Hv; lia).
    pose proof (count_unused_range (fun q => (q =? p) || page_used s q) (seqZ 0 (g_total_pages s))) as Hr.
    rewrite length_seqZ in Hr. change PMM_MAX_PAGES with 32768 in Ht.
    unfold set_used. fold (bit_clear s p). rewrite bit_clear_spec, E. simpl.
    rewrite u64_id; lia.
Qed.

Lemma set_free_count s p :
  length (g_bitmap s) = 512%nat -> 0 <= p < g_total_pages s -> g_total_pages s <= PMM_MAX_PAGES ->
  g_free_pages s = count_free s -> g_free_pages (set_free p s) = count_free (set_free p s).
Proof.
  intros Hl Hp Ht Hc. pose proof (set_free_fields p s) as (_ & Htot & _).
  unfold count_free in *. rewrite Htot.
  assert (Hv : forall q, 0 <= q -> page_used (set_free p s) q = negb (q =? p) && page_used s q).
  { intros. apply page_used_set_free; lia. }
  assert (Hm : has_bits (bitmap_word s (p / BITS_PER_WORD)) (u64 (Z.shiftl 1 (p mod BITS_PER_WORD)))
               = page_used s p).
  { pose proof (bit_clear_spec s p) as Hb. unfold bit_clear in Hb. unfold has_bits.
    rewrite Hb. by rewrite negb_involutive. }
  destruct (page_used s p) eqn:E.
  - assert (count_unused (fun q => negb (q =? p) && page_used s q) (seqZ 0 (g_total_pages s))
            = count_unused (page_used s) (seqZ 0 (g_total_pages s)) + 1) as H1.
    { apply (count_unused_flip _ _ _ p); [apply NoDup_seqZ|apply elem_of_seqZ; lia| |done|].
      - by rewrite Z.eqb_refl.
      - intros q Hq. by apply Z.eqb_neq in Hq as ->. }
    rewrite (count_unused_ext _ (fun q => negb (q =? p) && page_used s q))
      by (intros q Hq%elem_of_seqZ; apply Hv; lia).
    pose proof (count_unused_range (page_used s) (seqZ 0 (g_total_pages s))) as Hr.
    rewrite length_seqZ in Hr. change PMM_MAX_PAGES with 32768 in Ht.
    unfold set_free. rewrite Hm. simpl. rewrite u64_id; lia.
  - rewrite (count_unused_ext _ (page_used s)).
    + unfold set_free. by rewrite Hm.
    + intros q Hq%elem_of_seqZ. rewrite Hv by lia. destruct (Z.eqb_spec q p); [|done]. by subst.
Qed.

Lemma set_used_wf s p : pmm_wf s -> 0 <= p < g_total_pages s -> pmm_wf (set_used p s).
Proof.
  intros [Hl Hw Ht Hb He Hz Hc] Hp. pose proof (set_used_fields p s) as (Eb & Et & El).
  split; rewrite ?Eb, ?Et; auto.
  - by rewrite El.
  - by apply set_used_words.
  - intros. rewrite page_used_set_used by (auto; lia). rewrite Hz by done. by rewrite orb_true_r.
  - apply set_used_count; auto; lia.
Qed.

Lemma set_free_wf s p :
  pmm_wf s -> 0 <= p < g_total_pages s -> g_mem_base s + p * PAGE_SIZE <> 0 -> pmm_wf (set_free p s).
Proof.
  intros [Hl Hw Ht Hb He Hz Hc] Hp Hnz. pose proof (set_free_fields p s) as (Eb & Et & El).
  split; rewrite ?Eb, ?Et; auto.
  - by rewrite El.
  - by apply set_free_words.
  - intros H0 ?. rewrite page_used_set_free by (auto; lia). rewrite Hz by done.
    unfold PAGE_SIZE in Hnz. destruct (Z.eqb_spec 0 p); [lia|done].
  - apply set_free_count; auto; lia.
Qed.

(** Marking a whole run of pages. *)
Lemma set_used_run s lo hi :
  pmm_wf s -> 0 <= lo -> hi <= g_total_pages s ->
  let s' := for_range lo hi set_used s in
  pmm_wf s' /\ g_mem_base s' = g_mem_base s /\ g_total_pages s' = g_total_pages s /\
  (forall q, 0 <= q -> page_used s' q = ((lo <=? q) && (q <? hi)) || page_used s q).
Proof.
  intros Hwf Hlo Hhi s'. destruct (Z.le_gt_cases lo hi) as [Hle|Hgt].
  2: { unfold s'. rewrite for_range_empty by lia. split_and!; auto.
       intros q Hq. destruct (Z.leb_spec lo q), (Z.ltb_spec q hi); simpl; auto; lia. }
  unfold s'. apply (for_range_ind (fun i t => pmm_wf t /\ g_mem_base t = g_mem_base s /\
      g_total_pages t = g_total_pages s /\
      (forall q, 0 <= q -> page_used t q = ((lo <=? q) && (q <? i)) || page_used s q))); auto.
  - split_and!; auto. intros q Hq.
    destruct (Z.leb_spec lo q), (Z.ltb_spec q lo); simpl; auto; lia.
  - intros i t Hi (Hwt & Eb & Et & Hu). pose proof (set_used_fields i t) as (Eb' & Et' & _).
    split_and!; [apply set_used_wf; auto; lia|congruence|congruence|].
    intros q Hq. rewrite page_used_set_used; [|apply Hwt| |done].
    + rewrite Hu by done.
      destruct (Z.eqb_spec q i), (Z.leb_spec lo q), (Z.ltb_spec q i), (Z.ltb_spec q (i + 1));
        simpl; auto; lia.
    + pose proof (wf_total _ Hwt). lia.
Qed.

(** * Operations *)

(** Physical address of page [p], and its inverse on managed addresses. *)
Definition page_addr (s : pmm) (p : Z) : Z := g_mem_base s + p * PAGE_SIZE.
Definition managed (s : pmm) (a : Z) : Prop :=
  exists p, 0 <= p < g_total_pages s /\ a = page_addr s p.
Definition avail (s : pmm) (a : Z) : Prop := exists p, page_free s p /\ a = page_addr s p.

Lemma page_addr_inj s p q : page_addr s p = page_addr s q -> p = q.
Proof. unfold page_addr, PAGE_SIZE. lia. Qed.

Lemma page_addr_u64 s p :
  pmm_wf s -> 0 <= p < g_total_pages s -> u64 (g_mem_base s + p * PAGE_SIZE) = page_addr s p.
Proof.
  intros Hwf Hp. pose proof (wf_base _ Hwf). pose proof (wf_end _ Hwf).
  unfold page_addr, PAGE_SIZE in *. apply u64_id. lia.
Qed.

Lemma page_free_nonzero s p : pmm_wf s -> page_free s p -> page_addr s p <> 0.
Proof.
  intros Hwf [Hp Hf] H0. pose proof (wf_base _ Hwf) as [Hb _].
  unfold page_addr, PAGE_SIZE in H0. assert (p = 0) as -> by lia.
  rewrite (wf_zero _ Hwf) in Hf by lia. done.
Qed.

Lemma alloc_page_none s :
  find_range 0 (g_total_pages s) (bit_clear s) = None -> forall p, ~ page_free s p.
Proof.
  intros E p [Hp Hf]. pose proof (find_range_None _ _ _ E p Hp) as Hc.
  rewrite bit_clear_spec, Hf in Hc. done.
Qed.

Lemma alloc_page_some s p :
  find_range 0 (g_total_pages s) (bit_clear s) = Some p ->
  page_free s p /\ forall q, 0 <= q < p -> page_used s q = true.
Proof.
  intros (Hp & Hc & Hlt)%find_range_Some. rewrite bit_clear_spec in Hc. b2p.
  split; [done|]. intros q Hq. specialize (Hlt q Hq).
  rewrite bit_clear_spec in Hlt. by b2p.
Qed.

(** Marking page [p] used removes exactly its address from the available ones. *)
Lemma avail_set_used s p a :
  pmm_wf s -> 0 <= p < g_total_pages s ->
  avail (set_used p s) a <-> avail s a /\ a <> page_addr s p.
Proof.
  intros Hwf Hp. pose proof (set_used_fields p s) as (Eb & Et & _).
  pose proof (wf_len _ Hwf) as Hl. pose proof (wf_total _ Hwf).
  assert (Hu : forall q, 0 <= q -> page_used (set_used p s) q = (q =? p) || page_used s q).
  { intros. apply page_used_set_used; auto; lia. }
  unfold avail, page_free, page_addr. rewrite Eb, Et. split.
  - intros (q & [Hq Hf] & ->). rewrite Hu in Hf by lia. b2p.
    split; [exists q; done|]. intros ?%page_addr_inj. done.
  - intros [(q & [Hq Hf] & ->) Hne]. exists q. rewrite Hu by lia.
    destruct (Z.eqb_spec q p); [congruence|]. done.
Qed.

Lemma avail_set_free s p a :
  pmm_wf s -> 0 <= p < g_total_pages s ->
  avail (set_free p s) a <-> avail s a \/ a = page_addr s p.
Proof.
  intros Hwf Hp. pose proof (set_free_fields p s) as (Eb & Et & _).
  pose proof (wf_len _ Hwf) as Hl. pose proof (wf_total _ Hwf).
  assert (Hu : forall q, 0 <= q -> page_used (set_free p s) q = negb (q =? p) && page_used s q).
  { intros. apply page_used_set_free; auto; lia. }
  unfold avail, page_free, page_addr. rewrite Eb, Et. split.
  - intros (q & [Hq Hf] & ->). rewrite Hu in Hf by lia.
    destruct (Z.eqb_spec q p) as [->|]; [by right|]. left. by exists q.
  - intros [(q & [Hq Hf] & ->)| ->].
    + exists q. rewrite Hu by lia. rewrite Hf. rewrite andb_false_r. done.
    + exists p. rewrite Hu by lia. rewrite Z.eqb_refl. done.
Qed.

(** ** The first-fit scan *)

(** Every window of [count] pages that starts at a page satisfying [R]
    contains a used page. *)
Definition no_run (s : pmm) (count : Z) (R : Z -> Prop) : Prop :=
  forall r, R r -> exists q, r <= q < r + count /\ page_used s q = true.

Lemma alloc_scan_spec s count n : forall p rs rc,
  0 <= n -> 0 <= rc < count -> 0 <= p - rc -> (0 < rc -> rs = p - rc) ->
  (forall q, p - rc <= q < p -> page_used s q = false) ->
  (p - rc = 0 \/ page_used s (p - rc - 1) = true) ->
  no_run s count (fun r => 0 <= r /\ r + count <= p) ->
  match alloc_scan s count rs rc (seqZ p n) with
  | Some r => 0 <= r /\ r + count <= p + n /\
              (forall q, r <= q < r + count -> page_used s q = false) /\
              no_run s count (fun r' => 0 <= r' < r)
  | None => no_run s count (fun r => 0 <= r /\ r + count <= p + n)
  end.
Proof.
  intros p rs rc Hn. revert p rs rc. pattern n. revert n Hn. apply natlike_ind.
  { intros p rs rc Hrc H0 Hrs Hfree Hedge Hno. simpl. by rewrite Z.add_0_r. }
  intros n Hn IH p rs rc Hrc H0 Hrs Hfree Hedge Hno.
  rewrite seqZ_cons by lia. rewrite Z.pred_succ. simpl. rewrite bit_clear_spec.
  replace (p + Z.succ n) with (Z.succ p + n) by lia.
  destruct (page_used s p) eqn:Ep; simpl.
  - apply IH; try lia.
    + right. replace (Z.succ p - 0 - 1) with p by lia. done.
    + intros r [Hr Hr']. destruct (Z.eq_dec (r + count) (Z.succ p)).
      * exists p. split; [lia|done].
      * apply Hno. lia.
  - set (rs' := if rc =? 0 then p else rs).
    assert (Ers : rs' = p - rc).
    { unfold rs'. destruct (Z.eqb_spec rc 0); [lia|]. apply Hrs. lia. }
    destruct (Z.eqb_spec (rc + 1) count) as [Ec|Ec].
    + split_and!; [lia|lia| |].
      * intros q Hq. destruct (Z.eq_dec q p) as [->|]; [done|]. apply Hfree. lia.
      * intros r' Hr'. destruct Hedge as [Hz|Hz]; [lia|].
        destruct (Z.lt_ge_cases (p - rc - 1) (r' + count)).
        -- exists (p - rc - 1). split; [lia|done].
        -- apply Hno. lia.
    + apply IH; try lia.
      * intros q Hq. destruct (Z.eq_dec q p) as [->|]; [done|]. apply Hfree. lia.
      * replace (Z.succ p - (rc + 1)) with (p - rc) by lia. done.
      * intros r [Hr Hr']. destruct (Z.eq_dec (r + count) (Z.succ p)) as [He|].
        -- destruct Hedge as [Hz|Hz]; [lia|].
           exists (p - rc - 1). split; [lia|done].
        -- apply Hno. lia.
Qed.

Lemma alloc_scan_first_fit s count :
  pmm_wf s -> 0 < count ->
  match alloc_scan s count 0 0 (seqZ 0 (g_total_pages s)) with
  | Some r => 0 <= r /\ r + count <= g_total_pages s /\
              (forall q, r <= q < r + count -> page_used s q = false) /\
              no_run s count (fun r' => 0 <= r' < r)
  | None => no_run s count (fun r => 0 <= r /\ r + count <= g_total_pages s)
  end.
Proof.
  intros Hwf Hc. pose proof (wf_total _ Hwf).
  apply (alloc_scan_spec s count (g_total_pages s) 0 0 0); try lia.
  intros r Hr. lia.
Qed.

(** * The allocator implements its interface *)

#[export] Instance pmm_allocator : PageAllocator pmm := {
  alloc_page := pmm_alloc_page;
  alloc_pages := pmm_alloc_pages;
  free_page := pmm_free_page;
  pa_inv := pmm_wf;
  pa_avail := avail;
  pa_managed := managed }.

Lemma managed_same s s' :
  g_mem_base s' = g_mem_base s -> g_total_pages s' = g_total_pages s ->
  forall q, managed s' q <-> managed s q.
Proof. intros Eb Et q. unfold managed, page_addr. by rewrite Eb, Et. Qed.

Lemma pmm_alloc_page_refines s r s' :
  pmm_wf s -> pmm_alloc_page s = (r, s') ->
  pmm_wf s' /\ (forall q, managed s' q <-> managed s q) /\
  ((r = 0 /\ s' = s /\ forall q, ~ avail s q) \/
   (r <> 0 /\ avail s r /\ forall q, avail s' q <-> avail s q /\ q <> r)).
Proof.
  intros Hwf. unfold pmm_alloc_page.
  destruct (find_range _ _ _) as [p|] eqn:E; intros [= <- <-].
  - apply alloc_page_some in E as [Hf _]. pose proof Hf as [Hp _].
    pose proof (set_used_fields p s) as (Eb & Et & _).
    rewrite page_addr_u64 by done.
    split_and!; [by apply set_used_wf|by apply managed_same|].
    right. split_and!; [by apply page_free_nonzero|by exists p|].
    intros q. by apply avail_set_used.
  - split_and!; [done..|]. left. split_and!; [done..|].
    intros q (p & Hf & _). by eapply alloc_page_none.
Qed.

Lemma avail_run s r n :
  pmm_wf s -> 0 < n -> 0 <= r -> r + n <= g_total_pages s ->
  let s' := for_range r (r + n) set_used s in
  (forall q, avail s' q <-> avail s q /\ ~ in_run (page_addr s r) n q).
Proof.
  intros Hwf Hn Hr Hle s' q.
  destruct (set_used_run s r (r + n) Hwf Hr Hle) as (_ & Eb & Et & Hu).
  unfold avail, page_free, page_addr, in_run, PAGE_SIZE in *. fold s' in Eb, Et, Hu.
  rewrite Eb, Et. split.
  - intros (p & [Hp Hf] & ->). rewrite Hu in Hf by lia. b2p.
    split; [exists p; split; done|].
    destruct (Z.leb_spec r p), (Z.ltb_spec p (r + n)); simpl in *; try done; lia.
  - intros [(p & [Hp Hf] & ->) Hno]. exists p. rewrite Hu, Hf by lia.
    destruct (Z.leb_spec r p), (Z.ltb_spec p (r + n)); simpl; try done; lia.
Qed.

Lemma pmm_alloc_pages_refines n s r s' :
  pmm_wf s -> 0 < n -> pmm_alloc_pages n s = (r, s') ->
  pmm_wf s' /\ (forall q, managed s' q <-> managed s q) /\
  ((r = 0 /\ s' = s) \/
   (r <> 0 /\ (forall i, 0 <= i < n -> avail s (r + i * 4096)) /\
    forall q, avail s' q <-> avail s q /\ ~ in_run r n q)).
Proof.
  intros Hwf Hn. unfold pmm_alloc_pages. case_if; [intros [= <- <-]; auto|].
  pose proof (alloc_scan_first_fit s n Hwf Hn) as Hs.
  destruct (alloc_scan _ _ _ _ _) as [p|]; intros [= <- <-]; [|auto].
  destruct Hs as (Hp & Hle & Hf & _).
  destruct (set_used_run s p (p + n) Hwf Hp Hle) as (Hwf' & Eb & Et & _).
  rewrite page_addr_u64 by (auto; lia).
  split_and!; [done|by apply managed_same|]. right.
  assert (Hrun : forall i, 0 <= i < n -> avail s (page_addr s p + i * 4096)).
  { intros i Hi. exists (p + i). split; [split; [lia|apply Hf; lia]|].
    unfold page_addr, PAGE_SIZE. lia. }
  split_and!; [|done|].
  - apply page_free_nonzero; [done|]. split; [lia|apply Hf; lia].
  - intros q. by apply avail_run.
Qed.

Lemma pmm_free_page_refines p s :
  pmm_wf s -> p <> 0 ->
  pmm_wf (pmm_free_page p s) /\ (forall q, managed (pmm_free_page p s) q <-> managed s q) /\
  (forall q, avail (pmm_free_page p s) q <-> avail s q \/ (q = p /\ managed s p)).
Proof.
  intros Hwf Hnz. pose proof (wf_base _ Hwf) as [Hb0 Hbm]. unfold pmm_free_page.
  assert (Hun : (forall k, p = page_addr s k -> ~ 0 <= k < g_total_pages s) ->
    pmm_wf s /\ (forall q, managed s q <-> managed s q) /\
    (forall q, avail s q <-> avail s q \/ (q = p /\ managed s p))).
  { intros Hno. split_and!; [done..|]. intros q. split; [by left|].
    intros [?|[_ (k & Hk & Hp)]]; [done|]. by apply Hno in Hp. }
  unfold has_bits. change (PAGE_SIZE - 1) with (2 ^ 12 - 1). rewrite land_low_mask by lia.
  change (2 ^ 12) with 4096. change PAGE_SIZE with 4096.
  unfold page_addr, PAGE_SIZE in *.
  case_if.
  { apply Hun. intros k -> Hk. destruct Heqb as [Hlt|Hm]; b2p.
    - lia.
    - rewrite Z.mod_add in Hm; lia. }
  assert (Hpm : p mod 4096 = 0) by lia.
  set (k := (p - g_mem_base s) / 4096).
  assert (Hk : p = page_addr s k).
  { unfold page_addr, PAGE_SIZE, k. Z.div_mod_to_equations. lia. }
  case_if.
  { apply Hun. intros j Hj Hjr. unfold page_addr, PAGE_SIZE in Hk. lia. }
  assert (Hkr : 0 <= k < g_total_pages s).
  { split; [|lia]. unfold k. apply Z.div_pos; lia. }
  pose proof (set_free_fields k s) as (Eb & Et & _).
  split_and!; [|by apply managed_same|].
  - apply set_free_wf; try done. unfold page_addr, PAGE_SIZE in *. lia.
  - intros q. rewrite avail_set_free by done. rewrite <- Hk. split.
    + intros [?| ->]; [by left|right]. split; [done|]. by exists k.
    + intros [?|[-> _]]; auto.
Qed.

#[export] Instance pmm_allocator_laws : PageAllocatorLaws pmm.
Proof.
  split; simpl.
  - intros s q Hwf (p & Hf & ->). split; [exists p; split; [apply Hf|done]|].
    by apply page_free_nonzero.
  - intros s q Hwf (p & Hp & ->). pose proof (wf_base _ Hwf). pose proof (wf_end _ Hwf).
    unfold page_addr, PAGE_SIZE in *. split_and!; [|lia|lia].
    rewrite Z.mod_add; lia.
  - apply pmm_alloc_page_refines.
  - apply pmm_alloc_pages_refines.
  - intros p s. apply pmm_free_page_refines.
Qed.

(** * Initialisation *)

Lemma pmm_init_loop base total :
  0 <= total <= PMM_MAX_PAGES ->
  0 <= base -> base mod PAGE_SIZE = 0 -> base + total * PAGE_SIZE <= 2 ^ 48 ->
  let s0 := mk_pmm (replicate (Z.to_nat (PMM_MAX_PAGES / BITS_PER_WORD)) (not64 0)) base total 0 in
  let s1 := for_range 0 total set_free s0 in
  length (g_bitmap s1) = 512%nat /\ Forall is_u64 (g_bitmap s1) /\
  g_mem_base s1 = base /\ g_total_pages s1 = total /\ g_free_pages s1 = count_free s1 /\
  (forall q, 0 <= q < PMM_MAX_PAGES -> page_used s1 q = (total <=? q)).
Proof.
  intros Ht Hb Hm He s0 s1. unfold s1.
  assert (Hs0 : forall q, 0 <= q < PMM_MAX_PAGES -> page_used s0 q = true).
  { intros q Hq. destruct (word_index q Hq) as [Hw Hbit].
    unfold page_used, bitmap_word, s0. cbn [g_bitmap].
    rewrite lookup_replicate_2; [|change (PMM_MAX_PAGES / BITS_PER_WORD) with 512; unfold BITS_PER_WORD; lia].
    unfold BITS_PER_WORD. simpl default. rewrite testbit_not64, Z.bits_0 by lia.
    destruct (Z.ltb_spec (q mod 64) 64); [done|lia]. }
  apply (for_range_ind (fun i t => length (g_bitmap t) = 512%nat /\ Forall is_u64 (g_bitmap t) /\
      g_mem_base t = base /\ g_total_pages t = total /\ g_free_pages t = count_free t /\
      (forall q, 0 <= q < PMM_MAX_PAGES -> page_used t q = (i <=? q)))); [lia| |].
  - split_and!; try done.
    + apply Forall_replicate. apply not64_range.
    + unfold count_free. simpl g_total_pages. simpl g_free_pages.
      rewrite (count_unused_ext _ (fun _ => true)).
      * symmetry. apply count_unused_all.
      * intros q Hq%elem_of_seqZ. apply Hs0. lia.
    + intros q Hq. rewrite Hs0 by done. symmetry. apply Z.leb_le. lia.
  - intros i t Hi (Hl & Hw & Eb & Et & Hc & Hu).
    pose proof (set_free_fields i t) as (Eb' & Et' & El').
    split_and!; try congruence.
    + by apply set_free_words.
    + apply set_free_count; auto; lia.
    + intros q Hq. rewrite page_used_set_free, Hu by (auto; lia).
      destruct (Z.eqb_spec q i), (Z.leb_spec i q), (Z.leb_spec (i + 1) q); simpl; auto; lia.
Qed.

Lemma pmm_init_spec base size :
  0 <= base -> base mod PAGE_SIZE = 0 -> 0 <= size -> base + size <= 2 ^ 48 ->
  let s := pmm_init base size in
  pmm_wf s /\ g_mem_base s = base /\ g_total_pages s = Z.min (size / PAGE_SIZE) PMM_MAX_PAGES /\
  (forall p, 0 <= p < g_total_pages s -> page_used s p = (base =? 0) && (p =? 0)).
Proof.
  intros Hb Hm Hs He. unfold pmm_init.
  set (total := if size / PAGE_SIZE >? PMM_MAX_PAGES then PMM_MAX_PAGES else size / PAGE_SIZE).
  assert (0 <= size / PAGE_SIZE) by (apply Z.div_pos; unfold PAGE_SIZE; lia).
  assert (Etot : total = Z.min (size / PAGE_SIZE) PMM_MAX_PAGES).
  { unfold total. case_if; lia. }
  assert (Htot : 0 <= total <= PMM_MAX_PAGES) by (change PMM_MAX_PAGES with 32768 in *; lia).
  assert (Hend : base + total * PAGE_SIZE <= 2 ^ 48).
  { assert (total * PAGE_SIZE <= size); [|lia]. unfold PAGE_SIZE in *.
    pose proof (Z.mul_div_le size 4096). lia. }
  destruct (pmm_init_loop base total Htot Hb Hm Hend) as (Hl & Hw & Eb & Et & Hc & Hu).
  rewrite <- Etot. cbv zeta. fold total.
  set (s1 := for_range 0 total set_free _) in *.
  case_if.
  - pose proof (set_used_fields 0 s1) as (Eb' & Et' & El').
    assert (Hu' : forall q, 0 <= q < PMM_MAX_PAGES ->
      page_used (set_used 0 s1) q = (q =? 0) || (total <=? q)).
    { intros q Hq. rewrite page_used_set_used, Hu by (auto; lia). done. }
    split_and!; [split| | |]; rewrite ?Eb', ?Et', ?Eb, ?Et, ?El'; auto.
    + by apply set_used_words.
    + intros. by rewrite Hu' by lia.
    + apply set_used_count; auto; lia.
    + intros p Hp. rewrite Hu' by lia. rewrite (proj2 (Z.eqb_eq base 0)) by done. simpl.
      destruct (Z.leb_spec total p); [lia|]. by rewrite orb_false_r.
  - split_and!; [split| | |]; rewrite ?Eb, ?Et; auto.
    + intros. destruct Heqb; b2p; lia.
    + intros p Hp. rewrite Hu by lia.
      destruct (Z.leb_spec total p); [lia|].
      destruct (Z.eqb_spec base 0), (Z.eqb_spec p 0); try done. destruct Heqb; b2p; lia.
Qed.

(** * Reservation *)

Lemma reserve_bounds base t start size :
  0 <= base -> base mod 4096 = 0 -> 0 < t -> base + t * 4096 <= 2 ^ 48 ->
  is_u64 start -> is_u64 size -> 0 < size ->
  let end_ := add_saturated start size in
  base < end_ -> start < base + t * 4096 ->
  let lo := if start <? base then 0 else u64 (align_down start - base) / 4096 in
  let hi := if end_ >=? base + t * 4096 then t
            else let pe := u64 (align_up_saturated end_ - base) / 4096 in
                 if pe >? t then t else pe in
  0 <= lo /\ hi <= t /\
  forall p, 0 <= p < t ->
    (lo <= p < hi <-> base + p * 4096 < start + size /\ start < base + (p + 1) * 4096).
Proof.
  intros Hb Hm Ht He Hs Hz Hz0 end_ Hbe Hsl lo hi. unfold is_u64 in *.
  assert (Eend : end_ = Z.min (start + size) UINT64_MAX).
  { unfold end_, add_saturated. case_if; [lia|]. unfold UINT64_MAX in *. rewrite u64_id; lia. }
  assert (Elo : lo = if start <? base then 0 else (start - base) / 4096).
  { unfold lo, align_down, PAGE_SIZE. case_if; [done|].
    change (4096 - 1) with (2 ^ 12 - 1). rewrite land_high_mask by lia. change (2 ^ 12) with 4096.
    rewrite u64_id by (Z.div_mod_to_equations; lia). Z.div_mod_to_equations. lia. }
  assert (Ehi : hi = if end_ >=? base + t * 4096 then t else (end_ - base + 4095) / 4096).
  { unfold hi. case_if; [done|]. unfold align_up_saturated, align_up, PAGE_SIZE, UINT64_MAX in *.
    change (4096 - 1) with (2 ^ 12 - 1). rewrite land_low_mask by lia.
    assert (Hup : (if end_ mod 2 ^ 12 =? 0 then end_
       else if end_ >? 2 ^ 64 - 1 - (2 ^ 12 - 1) then 2 ^ 64 - 1
       else Z.land (u64 (end_ + 4096 - 1)) (not64 (2 ^ 12 - 1))) = (end_ + 4095) / 4096 * 4096).
    { change (2 ^ 12) with 4096. case_if; [Z.div_mod_to_equations; lia|].
      case_if; [lia|]. change 4096 with (2 ^ 12) at 2. rewrite land_high_mask; [|apply u64_range|lia].
      change (2 ^ 12) with 4096. rewrite u64_id by lia. Z.div_mod_to_equations. lia. }
    rewrite Hup. rewrite u64_id by (Z.div_mod_to_equations; lia).
    case_if; Z.div_mod_to_equations; lia. }
  rewrite Elo, Ehi. clear Elo Ehi lo hi. unfold UINT64_MAX in *.
  destruct (Z.ltb_spec start base), (end_ >=? base + t * 4096) eqn:E1; b2p;
    (split_and!; [Z.div_mod_to_equations; lia|Z.div_mod_to_equations; lia|]);
    intros p Hp; Z.div_mod_to_equations; lia.
Qed.

(** Exactly the managed pages that overlap the reserved bytes become used. *)
Lemma pmm_reserve_range_spec start size s :
  pmm_wf s -> is_u64 start -> is_u64 size ->
  let s' := pmm_reserve_range start size s in
  pmm_wf s' /\ g_mem_base s' = g_mem_base s /\ g_total_pages s' = g_total_pages s /\
  forall p, 0 <= p < g_total_pages s ->
    page_used s' p = page_used s p ||
      ((page_addr s p <? start + size) && (start <? page_addr s p + PAGE_SIZE) && (0 <? size)).
Proof.
  intros Hwf Hs Hz. pose proof (wf_base _ Hwf) as [Hb Hm]. pose proof (wf_end _ Hwf) as He.
  pose proof (wf_total _ Hwf) as Ht. unfold page_addr, pmm_reserve_range, PAGE_SIZE in *.
  unfold is_u64 in *.
  assert (Hlim : managed_end s = g_mem_base s + g_total_pages s * 4096).
  { unfold managed_end, add_saturated, UINT64_MAX, PAGE_SIZE. rewrite (u64_id (_ * _)) by lia.
    case_if; [lia|]. apply u64_id. lia. }
  rewrite Hlim. case_if.
  { split_and!; [done..|]. intros p Hp. destruct Heqb; b2p; [|lia].
    destruct (Z.ltb_spec 0 size); [lia|]. by rewrite andb_false_r, orb_false_r. }
  assert (Eend : add_saturated start size = Z.min (start + size) UINT64_MAX).
  { unfold add_saturated, UINT64_MAX. case_if; [lia|]. rewrite u64_id; lia. }
  case_if.
  { split_and!; [done..|]. intros p Hp. rewrite Eend in Heqb. unfold UINT64_MAX in Heqb.
    destruct (Z.ltb_spec (g_mem_base s + p * 4096) (start + size)),
      (Z.ltb_spec start (g_mem_base s + p * 4096 + 4096)); simpl;
      rewrite ?orb_false_r; try done. destruct Heqb; b2p; lia. }
  destruct (reserve_bounds (g_mem_base s) (g_total_pages s) start size)
    as (Hlo & Hhi & Hiff); try (unfold is_u64; lia).
  unfold PAGE_SIZE.
  edestruct (set_used_run s _ _ Hwf Hlo Hhi) as (Hwf' & Eb & Et & Hu).
  split_and!; [done..|]. intros p Hp. rewrite Hu by lia. rewrite orb_comm. f_equal.
  specialize (Hiff p Hp). apply eq_true_iff_eq. rewrite !andb_true_iff, Z.leb_le, !Z.ltb_lt. lia.
Qed.

(** * Undoing an allocation *)

Lemma set_free_set_used s p :
  pmm_wf s -> page_free s p -> set_free p (set_used p s) = s.
Proof.
  intros Hwf [Hp Hf]. pose proof (wf_total _ Hwf) as Ht. pose proof (wf_len _ Hwf) as Hl.
  pose proof (wf_count _ Hwf) as Hc. change (length (g_bitmap s) = 512%nat) in Hl.
  destruct (word_index p) as [Hw Hb]; [lia|].
  assert (Hc1 : 1 <= count_free s <= PMM_MAX_PAGES).
  { pose proof (set_used_count s p Hl Hp ltac:(lia) Hc) as Hc'.
    assert (Hd : g_free_pages (set_used p s) = u64 (g_free_pages s - 1)).
    { unfold set_used. fold (bit_clear s p). by rewrite bit_clear_spec, Hf. }
    unfold count_free in *. pose proof (set_used_fields p s) as (_ & Et & _).
    pose proof (count_unused_range (page_used s) (seqZ 0 (g_total_pages s))) as Hr.
    pose proof (count_unused_range (page_used (set_used p s)) (seqZ 0 (g_total_pages s))) as Hr'.
    rewrite length_seqZ in Hr, Hr'. rewrite Et in Hc'. change PMM_MAX_PAGES with 32768 in *.
    split; [|lia]. destruct (Z.eq_dec (g_free_pages s) 0) as [E0|]; [|lia].
    rewrite Hd, E0 in Hc'. change (u64 (0 - 1)) with (2 ^ 64 - 1) in Hc'. lia. }
  unfold set_used. fold (bit_clear s p). rewrite bit_clear_spec, Hf. simpl.
  unfold set_free, BITS_PER_WORD. rewrite mask_bit by done.
  rewrite has_bits_pow2, bitmap_word_set, Z.eqb_refl by lia.
  rewrite Z.lor_spec, Z.shiftl_1_l, Z.pow2_bits_true, orb_true_r by lia.
  assert (Hword : Z.land (Z.lor (bitmap_word s (p / 64)) (2 ^ (p mod 64))) (not64 (2 ^ (p mod 64)))
                  = bitmap_word s (p / 64)).
  { pose proof (bitmap_word_u64 s (p / 64) (wf_words _ Hwf)) as Hu.
    apply Z.bits_inj'. intros i Hi.
    rewrite Z.land_spec, Z.lor_spec, testbit_not64, Z.pow2_bits_eqb by lia.
    destruct (Z.ltb_spec i 64); simpl.
    - destruct (Z.eqb_spec (p mod 64) i) as [<-|]; simpl.
      + rewrite andb_false_r. symmetry. apply Hf.
      + by rewrite andb_true_r, orb_false_r.
    - rewrite andb_false_r. symmetry. eapply testbit_above; [exact Hu|lia]. }
  rewrite Hword. unfold set_word. cbn [g_bitmap g_mem_base g_total_pages g_free_pages].
  rewrite list_insert_insert_eq, list_insert_id.
  - change PMM_MAX_PAGES with 32768 in *. rewrite !u64_id by (rewrite ?u64_id; lia).
    destruct s; simpl in *. f_equal. lia.
  - unfold bitmap_word. destruct (g_bitmap s !! Z.to_nat (p / 64)) eqn:E; [done|].
    apply lookup_ge_None in E. lia.
Qed.

Lemma pmm_free_page_addr s p :
  pmm_wf s -> 0 <= p < g_total_pages s -> pmm_free_page (page_addr s p) s = set_free p s.
Proof.
  intros Hwf Hp. pose proof (wf_base _ Hwf) as [Hb Hm]. unfold pmm_free_page, has_bits.
  change (PAGE_SIZE - 1) with (2 ^ 12 - 1). rewrite land_low_mask by lia.
  unfold page_addr, PAGE_SIZE in *. change (2 ^ 12) with 4096.
  rewrite Z.mod_add, Hm by lia.
  destruct (Z.ltb_spec (g_mem_base s + p * 4096) (g_mem_base s)); [lia|]. simpl.
  replace (g_mem_base s + p * 4096 - g_mem_base s) with (p * 4096) by lia.
  rewrite Z.div_mul by lia. case_if; [lia|done].
Qed.

(** * Properties *)

(** pmm_init on a page-aligned RAM range below 2^48 builds a consistent
    allocator: it manages min(size/4096, 32768) pages, the free counter is
    exact, and every managed page is free except page 0 of a RAM that starts
    at address 0, which is reserved so that 0 can mean failure. *)
Theorem pmm_init_ready base size :
  0 <= base -> base mod PAGE_SIZE = 0 -> 0 <= size -> base + size <= 2 ^ 48 ->
  let s := pmm_init base size in
  pmm_wf s /\ g_mem_base s = base /\ pmm_total_count s = Z.min (size / PAGE_SIZE) PMM_MAX_PAGES /\
  pmm_free_count s = count_free s /\
  (forall p, 0 <= p < pmm_total_count s -> page_used s p = (base =? 0) && (p =? 0)).
Proof.
  intros Hb Hm Hs He. destruct (pmm_init_spec base size Hb Hm Hs He) as (Hwf & Eb & Et & Hu).
  split_and!; auto. apply (wf_count _ Hwf).
Qed.

Lemma pmm_init_ready_witness :
  pmm_total_count (pmm_init 0x40000000 0x10000000) = 32768 /\
  page_used (pmm_init 0x40000000 0x10000000) 5 = false.
Proof.
  destruct (pmm_init_ready 0x40000000 0x10000000) as (_ & _ & Ht & _ & Hu);
    [lia|reflexivity|lia|lia|].
  split; [rewrite Ht; reflexivity|]. rewrite Hu; [reflexivity|]. rewrite Ht.
  change (Z.min (268435456 / PAGE_SIZE) PMM_MAX_PAGES) with 32768. lia.
Defined.

(** C1: pmm_alloc_pages is first fit: a non-zero result is the address of the
    lowest run of [count] free pages, all of which (and only which) become
    used; a zero result leaves the state alone and means that no such run
    exists or that the count is 0. *)
Theorem pmm_alloc_pages_first_fit count s r s' :
  pmm_wf s -> 0 <= count -> pmm_alloc_pages count s = (r, s') ->
  pmm_wf s' /\
  ((r = 0 /\ s' = s /\
    (count = 0 \/ no_run s count (fun k => 0 <= k /\ k + count <= g_total_pages s))) \/
   (exists k, r = page_addr s k /\ r <> 0 /\ 0 <= k /\ k + count <= g_total_pages s /\
     (forall q, k <= q < k + count -> page_used s q = false) /\
     no_run s count (fun k' => 0 <= k' < k) /\
     (forall q, 0 <= q -> page_used s' q = ((k <=? q) && (q <? k + count)) || page_used s q))).
Proof.
  intros Hwf Hc. unfold pmm_alloc_pages. case_if.
  { intros [= <- <-]. split; [done|]. left. split_and!; [done..|].
    destruct Heqb; b2p; [by left|right]. intros k Hk. lia. }
  pose proof (alloc_scan_first_fit s count Hwf ltac:(lia)) as Hs.
  destruct (alloc_scan _ _ _ _ _) as [k|]; intros [= <- <-].
  2: { split; [done|]. left. split_and!; auto. }
  destruct Hs as (Hk & Hle & Hf & Hno).
  destruct (set_used_run s k (k + count) Hwf Hk Hle) as (Hwf' & _ & _ & Hu).
  rewrite page_addr_u64 by (auto; lia). split; [done|]. right. exists k.
  split_and!; auto. apply page_free_nonzero; [done|]. split; [lia|]. apply Hf. lia.
Qed.

Lemma pmm_alloc_pages_first_fit_witness :
  let s := pmm_reserve_range 0x40001000 4096 (pmm_init 0x40000000 0x8000) in
  pmm_alloc_pages 2 s = (0x40002000, snd (pmm_alloc_pages 2 s)) /\
  pmm_wf (snd (pmm_alloc_pages 2 s)).
Proof.
  intros s. split; [vm_compute; reflexivity|].
  apply (pmm_alloc_pages_first_fit 2 s 0x40002000 (snd (pmm_alloc_pages 2 s))).
  - refine (proj1 (pmm_reserve_range_spec _ _ _ _ _ _)); [|unfold is_u64; lia..].
    refine (proj1 (pmm_init_spec _ _ _ _ _ _)); [lia|reflexivity|lia|lia].
  - lia.
  - vm_compute. reflexivity.
Defined.

(** freeing the page that pmm_alloc_page just returned restores the
    allocator state exactly: bitmap words and free counter included. *)
Theorem pmm_alloc_free_roundtrip s r s' :
  pmm_wf s -> pmm_alloc_page s = (r, s') -> r <> 0 -> pmm_free_page r s' = s.
Proof.
  intros Hwf. unfold pmm_alloc_page.
  destruct (find_range _ _ _) as [p|] eqn:E; intros [= <- <-]; [|done]. intros _.
  apply alloc_page_some in E as [Hf _]. pose proof Hf as [Hp _].
  pose proof (set_used_fields p s) as (Eb & Et & _).
  rewrite page_addr_u64 by done.
  replace (page_addr s p) with (page_addr (set_used p s) p) by (unfold page_addr; by rewrite Eb).
  rewrite pmm_free_page_addr by (rewrite ?Et; auto using set_used_wf).
  by apply set_free_set_used.
Qed.

Lemma pmm_alloc_free_roundtrip_witness :
  let s := pmm_init 0x40000000 0x8000 in
  pmm_free_page 0x40000000 (snd (pmm_alloc_page s)) = s.
Proof.
  intros s. apply (pmm_alloc_free_roundtrip s 0x40000000 (snd (pmm_alloc_page s))).
  - refine (proj1 (pmm_init_spec _ _ _ _ _ _)); [lia|reflexivity|lia|lia].
  - vm_compute. reflexivity.
  - lia.
Defined.

(** pmm_reserve_range marks exactly the managed pages that overlap the
    reserved byte range (clipped at the top of the 64-bit space) and changes
    no other page; the state stays consistent. *)
Theorem pmm_reserve_range_exact start size s :
  pmm_wf s -> is_u64 start -> is_u64 size ->
  let s' := pmm_reserve_range start size s in
  pmm_wf s' /\
  forall p, 0 <= p < g_total_pages s ->
    page_used s' p = page_used s p ||
      ((page_addr s p <? start + size) && (start <? page_addr s p + PAGE_SIZE) && (0 <? size)).
Proof.
  intros Hwf Hs Hz. destruct (pmm_reserve_range_spec start size s Hwf Hs Hz) as (? & _ & _ & ?).
  by split.
Qed.

Lemma pmm_reserve_range_exact_witness :
  let s := pmm_init 0x40000000 0x8000 in
  page_used (pmm_reserve_range 0x40000fff 2 s) 0 = true /\
  page_used (pmm_reserve_range 0x40000fff 2 s) 2 = false.
Proof.
  intros s.
  destruct (pmm_reserve_range_exact 0x40000fff 2 s) as [_ H];
    [refine (proj1 (pmm_init_spec _ _ _ _ _ _)); [lia|reflexivity|lia|lia]|unfold is_u64; lia..|].
  split; rewrite H by (change (g_total_pages s) with 8; lia); vm_compute; reflexivity.
Defined.

(** releasing physical address 0 on a RAM that starts at 0 hands the
    reserved sentinel page back to the allocator, and the next pmm_alloc_page
    then returns 0, its failure value, whatever other pages are free. *)
Theorem pmm_free_zero_defeats_sentinel s :
  pmm_wf s -> g_mem_base s = 0 -> 0 < g_total_pages s ->
  fst (pmm_alloc_page (pmm_free_page 0 s)) = 0.
Proof.
  intros Hwf H0 Ht. pose proof (wf_total _ Hwf).
  replace 0 with (page_addr s 0) at 1 by (unfold page_addr; lia).
  rewrite pmm_free_page_addr by (auto; lia).
  pose proof (set_free_fields 0 s) as (Eb & Et & El).
  unfold pmm_alloc_page. rewrite Et.
  destruct (find_range_is_Some 0 (g_total_pages s) (bit_clear (set_free 0 s)) 0)
    as (x & Hx & Hle); [lia| |].
  { rewrite bit_clear_spec, page_used_set_free; [done|apply Hwf|lia|lia]. }
  rewrite Hx. apply find_range_Some in Hx as [? _]. assert (x = 0) as -> by lia.
  simpl. rewrite Eb, H0. done.
Qed.

Lemma pmm_free_zero_defeats_sentinel_witness :
  let s := pmm_init 0 0x8000 in
  pmm_free_count s = 7 /\ fst (pmm_alloc_page (pmm_free_page 0 s)) = 0.
Proof.
  intros s. split; [vm_compute; reflexivity|].
  apply pmm_free_zero_defeats_sentinel; [|reflexivity|reflexivity].
  refine (proj1 (pmm_init_spec _ _ _ _ _ _)); [lia|reflexivity|lia|lia].
Defined.
