(* ===== verification/Vmm.v ===== *)
(** AArch64 stage-1 page tables: kernel/mm/vmm.c.

    A machine state is an allocator state (any implementation of the page
    allocator interface) and RAM.  Page tables live in RAM as 512 descriptors
    of 64 bits; a [uint64_t *table] is the table's physical address and
    [table[i]] is the word at [table + 8 * i].  The TLB maintenance
    instructions of vmm_unmap_page are not modelled: the theorems speak of the
    tables in memory. *)

From S2P Require Import Prelude.
From S2P Require Import PageAlloc.
From S2P Require Import Pmm.
Open Scope arm.

Definition VMM_FLAG_READ : Z := Z.shiftl 1 0.
Definition VMM_FLAG_WRITE : Z := Z.shiftl 1 1.
Definition VMM_FLAG_EXEC : Z := Z.shiftl 1 2.
Definition VMM_FLAG_DEVICE : Z := Z.shiftl 1 3.
Definition VMM_FLAG_USER : Z := Z.shiftl 1 4.

Definition TABLE_ENTRIES : Z := 512.
Definition TABLE_INDEX_MASK : Z := 0x1ff.
Definition DESC_VALID : Z := Z.shiftl 1 0.
Definition DESC_TABLE : Z := Z.shiftl 1 1.
Definition DESC_PAGE : Z := Z.shiftl 1 1.
Definition DESC_AF : Z := Z.shiftl 1 10.
Definition DESC_SH_INNER : Z := Z.shiftl 3 8.
Definition DESC_AP_RO : Z := Z.shiftl 1 7.
Definition DESC_AP_USER : Z := Z.shiftl 1 6.
Definition DESC_UXN : Z := Z.shiftl 1 54.
Definition DESC_PXN : Z := Z.shiftl 1 53.
Definition DESC_ATTR_NORMAL : Z := Z.shiftl 0 2.
Definition DESC_ATTR_DEVICE : Z := Z.shiftl 1 2.
Definition DESC_ADDR_MASK : Z := 0x0000fffffffff000.

Definition page_align_down (value : Z) : Z := Z.land value (not64 (PAGE_SIZE - 1)).

Definition page_align_up (value : Z) : Z :=
  Z.land (u64 (value + PAGE_SIZE - 1)) (not64 (PAGE_SIZE - 1)).

(** [page_span(offset, size, &span)]: the span, or None for the -1 return. *)
Definition page_span (offset size : Z) : option Z :=
  if (size =? 0) || (offset >=? PAGE_SIZE) then None
  else if size >? UINT64_MAX - offset then None
  else let end_ := u64 (offset + size) in
       if (end_ &? (PAGE_SIZE - 1)) && (end_ >? UINT64_MAX - (PAGE_SIZE - 1)) then None
       else Some (page_align_up end_).

Definition table_index (vaddr level : Z) : Z :=
  Z.land (Z.shiftr vaddr (39 - level * 9)) TABLE_INDEX_MASK.

(** The kernel's own byte offsets of the pages of a range:
    [for (off = 0; off < end; off += PAGE_SIZE)]. *)
Definition page_offsets (end_ : Z) : list Z :=
  (fun i => i * PAGE_SIZE) <$> seqZ 0 ((end_ + PAGE_SIZE - 1) / PAGE_SIZE).

Definition page_descriptor (paddr flags : Z) : Z :=
  let d := Z.lor (Z.lor (Z.lor (Z.land paddr DESC_ADDR_MASK) DESC_VALID) DESC_PAGE) DESC_AF in
  let d := if flags &? VMM_FLAG_DEVICE
           then Z.lor d (Z.lor (Z.lor DESC_ATTR_DEVICE DESC_UXN) DESC_PXN)
           else Z.lor d (Z.lor DESC_ATTR_NORMAL DESC_SH_INNER) in
  let d := if negb (flags &? VMM_FLAG_WRITE) then Z.lor d DESC_AP_RO else d in
  let d := if flags &? VMM_FLAG_USER then Z.lor d DESC_AP_USER else d in
  if negb (flags &? VMM_FLAG_EXEC) then Z.lor d (Z.lor DESC_UXN DESC_PXN)
  else if flags &? VMM_FLAG_USER then Z.lor d DESC_PXN
  else Z.lor d DESC_UXN.

(** Allocator state and RAM. *)
Record mach (A : Type) := Mach { m_pa : A; m_ram : gmap Z Z }.
Arguments Mach {A} _ _.
Arguments m_pa {A} _.
Arguments m_ram {A} _.

(** [table[i]]. *)
Definition slot (table i : Z) : Z := table + 8 * i.
Definition entry (ram : gmap Z Z) (table i : Z) : Z := rd64 ram (slot table i).

Definition zero_table (table : Z) (ram : gmap Z Z) : gmap Z Z :=
  for_range 0 TABLE_ENTRIES (fun i m => wr64 m (slot table i) 0) ram.

Section Ops.
Context {A : Type} `{PageAllocator A}.

Definition store (st : mach A) (a v : Z) : mach A := Mach (m_pa st) (wr64 (m_ram st) a v).

Definition vmm_new_table (st : mach A) : Z * mach A :=
  let '(paddr, pa) := alloc_page (m_pa st) in
  if paddr =? 0 then (0, Mach pa (m_ram st))
  else (paddr, Mach pa (zero_table paddr (m_ram st))).

(** [free_table_level(table, level)] with [depth = 3 - level]. *)
Fixpoint free_table_level (depth : nat) (table : Z) (st : mach A) : mach A :=
  if table =? 0 then st else
  let st :=
    match depth with
    | O => st
    | S depth' =>
        for_range 0 TABLE_ENTRIES (fun i st =>
          let e := entry (m_ram st) table i in
          if (e &? DESC_VALID) && (e &? DESC_TABLE)
          then free_table_level depth' (Z.land e DESC_ADDR_MASK) st else st) st
    end in
  Mach (free_page table (m_pa st)) (m_ram st).

Definition vmm_free_table (pgd : Z) (st : mach A) : mach A := free_table_level 3 pgd st.

Definition next_table (table index : Z) (st : mach A) : Z * mach A :=
  let e := entry (m_ram st) table index in
  if e &? DESC_VALID then
    if negb (e &? DESC_TABLE) then (0, st) else (Z.land e DESC_ADDR_MASK, st)
  else
    let '(child, st) := vmm_new_table st in
    if child =? 0 then (0, st)
    else (child, store st (slot table index)
            (Z.lor (Z.lor (Z.land child DESC_ADDR_MASK) DESC_VALID) DESC_TABLE)).

Definition vmm_map_page (pgd vaddr paddr flags : Z) (st : mach A) : Z * mach A :=
  if (pgd =? 0) || (vaddr &? (PAGE_SIZE - 1)) || (paddr &? (PAGE_SIZE - 1)) then (-1, st) else
  let '(level1, st) := next_table pgd (table_index vaddr 0) st in
  if level1 =? 0 then (-1, st) else
  let '(level2, st) := next_table level1 (table_index vaddr 1) st in
  if level2 =? 0 then (-1, st) else
  let '(level3, st) := next_table level2 (table_index vaddr 2) st in
  if level3 =? 0 then (-1, st) else
  let index3 := table_index vaddr 3 in
  if entry (m_ram st) level3 index3 &? DESC_VALID then (-1, st)
  else (0, store st (slot level3 index3) (page_descriptor paddr flags)).

(** The loop of leaf_table over the levels still to walk. *)
Fixpoint leaf_walk (ram : gmap Z Z) (vaddr : Z) (levels : list Z) (table : Z) : Z :=
  match levels with
  | [] => table
  | level :: rest =>
      let e := entry ram table (table_index vaddr level) in
      if negb (e &? DESC_VALID) || negb (e &? DESC_TABLE) then 0
      else leaf_walk ram vaddr rest (Z.land e DESC_ADDR_MASK)
  end.

Definition leaf_table (st : mach A) (pgd vaddr : Z) : Z :=
  if pgd =? 0 then 0 else leaf_walk (m_ram st) vaddr [0; 1; 2] pgd.

Definition vmm_unmap_page (pgd vaddr : Z) (st : mach A) : Z * mach A :=
  if (pgd =? 0) || (vaddr &? (PAGE_SIZE - 1)) then (-1, st) else
  let level3 := leaf_table st pgd vaddr in
  if level3 =? 0 then (-1, st) else
  let index3 := table_index vaddr 3 in
  if negb (entry (m_ram st) level3 index3 &? DESC_VALID) then (-1, st)
  else (0, store st (slot level3 index3) 0).

(** The rollback loop of vmm_map_range: every page below [mapped]. *)
Definition unmap_upto (pgd aligned_vaddr mapped : Z) (st : mach A) : mach A :=
  foldl (fun st off => snd (vmm_unmap_page pgd (u64 (aligned_vaddr + off)) st)) st
        (page_offsets mapped).

(** The mapping loop of vmm_map_range over the offsets still to map. *)
Fixpoint map_loop (pgd vaddr paddr flags : Z) (offs : list Z) (st : mach A) : Z * mach A :=
  match offs with
  | [] => (0, st)
  | mapped :: rest =>
      let '(status, st) :=
        vmm_map_page pgd (u64 (vaddr + mapped)) (u64 (paddr + mapped)) flags st in
      if negb (status =? 0) then (-1, unmap_upto pgd vaddr mapped st)
      else map_loop pgd vaddr paddr flags rest st
  end.

Definition vmm_map_range (pgd vaddr paddr size flags : Z) (st : mach A) : Z * mach A :=
  if (pgd =? 0) || (Z.lxor vaddr paddr &? (PAGE_SIZE - 1)) then (-1, st)
  else if size =? 0 then (0, st) else
  let aligned_vaddr := page_align_down vaddr in
  let aligned_paddr := page_align_down paddr in
  match page_span (vaddr - aligned_vaddr) size with
  | None => (-1, st)
  | Some end_ =>
      if (aligned_vaddr >? UINT64_MAX - end_) || (aligned_paddr >? UINT64_MAX - end_)
      then (-1, st)
      else map_loop pgd aligned_vaddr aligned_paddr flags (page_offsets end_) st
  end.

Fixpoint unmap_loop (pgd vaddr : Z) (offs : list Z) (st : mach A) : Z * mach A :=
  match offs with
  | [] => (0, st)
  | unmapped :: rest =>
      let '(status, st) := vmm_unmap_page pgd (u64 (vaddr + unmapped)) st in
      if negb (status =? 0) then (-1, st) else unmap_loop pgd vaddr rest st
  end.

Definition vmm_unmap_range (pgd vaddr size : Z) (st : mach A) : Z * mach A :=
  if pgd =? 0 then (-1, st) else if size =? 0 then (0, st) else
  let aligned_vaddr := page_align_down vaddr in
  match page_span (vaddr - aligned_vaddr) size with
  | None => (-1, st)
  | Some end_ =>
      if aligned_vaddr >? UINT64_MAX - end_ then (-1, st)
      else unmap_loop pgd aligned_vaddr (page_offsets end_) st
  end.

Definition vmm_leaf_entry (st : mach A) (pgd vaddr : Z) : Z :=
  let table := leaf_table st pgd vaddr in
  if table =? 0 then 0 else entry (m_ram st) table (table_index vaddr 3).

Definition vmm_virt_to_phys (st : mach A) (pgd vaddr : Z) : Z :=
  let e := vmm_leaf_entry st pgd vaddr in
  if negb (e &? DESC_VALID) || negb (e &? DESC_PAGE) then 0
  else Z.lor (Z.land e DESC_ADDR_MASK) (Z.land vaddr (PAGE_SIZE - 1)).

(** vmm_map_kernel_identity: the linker-script symbols are arguments, and the
    board's MMIO callback is an optional function on the machine state. *)
Definition vmm_map_kernel_identity (kstart text_end rodata_end data_end : Z)
    (pgd memory_base memory_size : Z) (map_mmio : option (Z -> mach A -> Z * mach A))
    (st : mach A) : Z * mach A :=
  let ram_end := u64 (memory_base + memory_size) in
  if (pgd =? 0) || (memory_size =? 0) then (-1, st) else
  let '(s1, st) :=
    if memory_base <? kstart
    then vmm_map_range pgd memory_base memory_base (kstart - memory_base)
           (Z.lor VMM_FLAG_READ VMM_FLAG_WRITE) st
    else (0, st) in
  if negb (s1 =? 0) then (-1, st) else
  let '(s2, st) :=
    vmm_map_range pgd kstart kstart (u64 (page_align_up text_end - kstart))
      (Z.lor VMM_FLAG_READ VMM_FLAG_EXEC) st in
  if negb (s2 =? 0) then (-1, st) else
  let '(s3, st) :=
    if page_align_up text_end <? page_align_up rodata_end
    then vmm_map_range pgd (page_align_up text_end) (page_align_up text_end)
           (page_align_up rodata_end - page_align_up text_end) VMM_FLAG_READ st
    else (0, st) in
  if negb (s3 =? 0) then (-1, st) else
  let '(s4, st) :=
    if page_align_up rodata_end <? page_align_up data_end
    then vmm_map_range pgd (page_align_up rodata_end) (page_align_up rodata_end)
           (page_align_up data_end - page_align_up rodata_end)
           (Z.lor VMM_FLAG_READ VMM_FLAG_WRITE) st
    else (0, st) in
  if negb (s4 =? 0) then (-1, st) else
  let '(s5, st) :=
    if page_align_up data_end <? ram_end
    then vmm_map_range pgd (page_align_up data_end) (page_align_up data_end)
           (ram_end - page_align_up data_end) (Z.lor VMM_FLAG_READ VMM_FLAG_WRITE) st
    else (0, st) in
  if negb (s5 =? 0) then (-1, st) else
  match map_mmio with
  | None => (0, st)
  | Some f => let '(s6, st) := f pgd st in if negb (s6 =? 0) then (-1, st) else (0, st)
  end.

(** ** Device windows of the QEMU virt board (drivers/boards/qemu_virt) *)

Definition QEMU_VIRT_UART0_BASE : Z := 0x09000000.
Definition QEMU_VIRT_GIC_DIST_BASE : Z := 0x08000000.
Definition QEMU_VIRT_GIC_MMIO_SIZE : Z := 0x00020000.
Definition QEMU_VIRT_VIRTIO_MMIO_BASE : Z := 0x0a000000.
Definition QEMU_VIRT_VIRTIO_MMIO_SIZE : Z := 0x00004000.
Definition QEMU_VIRT_PCIE_ECAM_BASE : Z := 0x4010000000.
Definition QEMU_VIRT_PCIE_ECAM_SIZE : Z := 0x01000000.
Definition QEMU_VIRT_PCIE_MMIO_BASE : Z := 0x10000000.
Definition QEMU_VIRT_PCIE_MMIO_SIZE : Z := 0x30000000.
Definition DEVICE_RW : Z := Z.lor (Z.lor VMM_FLAG_READ VMM_FLAG_WRITE) VMM_FLAG_DEVICE.

(** [if (status == 0) status = vmm_map_range(pgd, base, base, size, ...);] *)
Definition map_device (pgd base size : Z) (r : Z * mach A) : Z * mach A :=
  let '(status, st) := r in
  if status =? 0 then vmm_map_range pgd base base size DEVICE_RW st else (status, st).

(** board_map_mmio; its console messages are not modelled. *)
Definition board_map_mmio (pgd : Z) (st : mach A) : Z * mach A :=
  let r := vmm_map_page pgd QEMU_VIRT_UART0_BASE QEMU_VIRT_UART0_BASE DEVICE_RW st in
  let r := map_device pgd QEMU_VIRT_GIC_DIST_BASE QEMU_VIRT_GIC_MMIO_SIZE r in
  let r := map_device pgd QEMU_VIRT_VIRTIO_MMIO_BASE QEMU_VIRT_VIRTIO_MMIO_SIZE r in
  let r := map_device pgd QEMU_VIRT_PCIE_ECAM_BASE QEMU_VIRT_PCIE_ECAM_SIZE r in
  map_device pgd QEMU_VIRT_PCIE_MMIO_BASE QEMU_VIRT_PCIE_MMIO_SIZE r.

End Ops.

(** * Descriptors and indices *)

Definition e_valid (e : Z) : bool := e &? DESC_VALID.
Definition e_table (e : Z) : bool := e &? DESC_TABLE.
Definition e_child (e : Z) : Z := Z.land e DESC_ADDR_MASK.

Lemma e_valid_bit e : e_valid e = Z.testbit e 0.
Proof. apply (has_bits_pow2 e 0). lia. Qed.

Lemma e_table_bit e : e_table e = Z.testbit e 1.
Proof. apply (has_bits_pow2 e 1). lia. Qed.

Lemma addr_mask_bit i :
  0 <= i -> Z.testbit DESC_ADDR_MASK i = (12 <=? i) && (i <? 48).
Proof.
  intros Hi. change DESC_ADDR_MASK with (Z.shiftl (2 ^ 36 - 1) 12).
  rewrite Z.shiftl_spec by done.
  destruct (Z.leb_spec 12 i); simpl.
  - replace (2 ^ 36 - 1) with (Z.ones 36) by reflexivity.
    destruct (Z.ltb_spec i 48).
    + by rewrite Z.ones_spec_low by lia.
    + by rewrite Z.ones_spec_high by lia.
  - by rewrite Z.testbit_neg_r by lia.
Qed.

(** A page address below 2^48 survives the address mask. *)
Lemma addr_mask_page a :
  a mod 4096 = 0 -> 0 <= a < 2 ^ 48 -> Z.land a DESC_ADDR_MASK = a.
Proof.
  intros Hm Ha. apply Z.bits_inj'. intros i Hi.
  rewrite Z.land_spec, addr_mask_bit by done.
  destruct (Z.leb_spec 12 i); simpl.
  - destruct (Z.ltb_spec i 48); [by rewrite andb_true_r|].
    rewrite andb_false_r. symmetry. eapply testbit_above; [exact Ha|lia].
  - rewrite andb_false_r. symmetry.
    rewrite <- (Z.mod_pow2_bits_low a 12) by lia.
    change (2 ^ 12) with 4096. rewrite Hm. apply Z.bits_0.
Qed.

Lemma addr_mask_lor_low a x :
  0 <= x < 2 ^ 12 -> Z.land (Z.lor a x) DESC_ADDR_MASK = Z.land a DESC_ADDR_MASK.
Proof.
  intros Hx. rewrite Z.land_lor_distr_l.
  replace (Z.land x DESC_ADDR_MASK) with 0; [apply Z.lor_0_r|].
  symmetry. apply Z.bits_inj'. intros i Hi.
  rewrite Z.land_spec, addr_mask_bit, Z.bits_0 by done.
  destruct (Z.leb_spec 12 i); [|by rewrite andb_false_r].
  by rewrite (testbit_above x 12) by lia.
Qed.

(** The descriptor that next_table installs. *)
Lemma table_desc_spec c :
  c mod 4096 = 0 -> 0 <= c < 2 ^ 48 ->
  let d := Z.lor (Z.lor (Z.land c DESC_ADDR_MASK) DESC_VALID) DESC_TABLE in
  e_valid d = true /\ e_table d = true /\ e_child d = c.
Proof.
  intros Hm Hc d. rewrite e_valid_bit, e_table_bit. unfold d, e_child.
  rewrite !Z.lor_spec. split_and!.
  - change (Z.testbit DESC_VALID 0) with true. by rewrite orb_true_r.
  - change (Z.testbit DESC_TABLE 1) with true. by rewrite orb_true_r.
  - rewrite !addr_mask_lor_low by (vm_compute; done).
    by rewrite !(addr_mask_page c) by done.
Qed.

(** Virtual page number that the four-level walk of a 48-bit address uses. *)
Definition vpn (v : Z) : Z := (v / 4096) mod 2 ^ 36.

Lemma table_index_div v k :
  0 <= k <= 3 -> table_index v k = (v / 2 ^ (39 - k * 9)) mod 512.
Proof.
  intros. unfold table_index, TABLE_INDEX_MASK.
  rewrite Z.shiftr_div_pow2 by lia. change 0x1ff with (2 ^ 9 - 1).
  by rewrite land_low_mask by lia.
Qed.

Lemma table_index_range v k : 0 <= k <= 3 -> 0 <= table_index v k < 512.
Proof. intros. rewrite table_index_div by done. apply Z.mod_pos_bound. lia. Qed.

Lemma vpn_indices v :
  vpn v = table_index v 0 * 2 ^ 27 + table_index v 1 * 2 ^ 18 + table_index v 2 * 2 ^ 9 + table_index v 3.
Proof.
  unfold vpn. rewrite !table_index_div by lia.
  change (2 ^ (39 - 0 * 9)) with (2 ^ 39). change (2 ^ (39 - 1 * 9)) with (2 ^ 30).
  change (2 ^ (39 - 2 * 9)) with (2 ^ 21). change (2 ^ (39 - 3 * 9)) with 4096.
  replace (v / 2 ^ 39) with (v / 4096 / 2 ^ 27) by (rewrite Z.div_div by lia; done).
  replace (v / 2 ^ 30) with (v / 4096 / 2 ^ 18) by (rewrite Z.div_div by lia; done).
  replace (v / 2 ^ 21) with (v / 4096 / 2 ^ 9) by (rewrite Z.div_div by lia; done).
  generalize (v / 4096) as n. intros n. Z.div_mod_to_equations. lia.
Qed.

Lemma vpn_eq_indices v v' :
  vpn v = vpn v' <-> forall k, 0 <= k <= 3 -> table_index v k = table_index v' k.
Proof.
  rewrite !vpn_indices. split.
  - intros E k Hk.
    pose proof (table_index_range v 0 ltac:(lia)). pose proof (table_index_range v 1 ltac:(lia)).
    pose proof (table_index_range v 2 ltac:(lia)). pose proof (table_index_range v 3 ltac:(lia)).
    pose proof (table_index_range v' 0 ltac:(lia)). pose proof (table_index_range v' 1 ltac:(lia)).
    pose proof (table_index_range v' 2 ltac:(lia)). pose proof (table_index_range v' 3 ltac:(lia)).
    assert (k = 0 \/ k = 1 \/ k = 2 \/ k = 3) as [-> |[-> |[-> | ->]]] by lia; lia.
  - intros E. rewrite !E by lia. done.
Qed.

(** Slots of page-aligned tables are disjoint. *)
Lemma slot_inj t i t' i' :
  t mod 4096 = 0 -> t' mod 4096 = 0 -> 0 <= i < 512 -> 0 <= i' < 512 ->
  slot t i = slot t' i' -> t = t' /\ i = i'.
Proof. unfold slot. intros. Z.div_mod_to_equations. lia. Qed.

Lemma slot_in_page t i : 0 <= i < 512 -> t <= slot t i < t + 4096.
Proof. unfold slot. lia. Qed.

Lemma zero_table_spec t ram :
  (forall i, 0 <= i < 512 -> entry (zero_table t ram) t i = 0) /\
  (forall a, ~ (t <= a < t + 4096) -> rd64 (zero_table t ram) a = rd64 ram a).
Proof.
  unfold zero_table, TABLE_ENTRIES, entry.
  assert (H : (forall i, 0 <= i < 512 -> rd64 (for_range 0 512 (fun i m => wr64 m (slot t i) 0) ram) (slot t i) = 0) /\
    (forall a, ~ (t <= a < t + 4096) -> rd64 (for_range 0 512 (fun i m => wr64 m (slot t i) 0) ram) a = rd64 ram a)); [|done].
  apply (for_range_ind (fun n m => (forall i, 0 <= i < n -> rd64 m (slot t i) = 0) /\
    (forall a, ~ (t <= a < t + 4096) -> rd64 m a = rd64 ram a))); [lia|split; [lia|done]|].
  intros n m Hn [Hz Hf]. split.
  - intros i Hi. destruct (Z.eq_dec i n) as [->|].
    + apply rd64_wr64_eq.
    + rewrite rd64_wr64_ne by (unfold slot; lia). apply Hz. lia.
  - intros a Ha. rewrite rd64_wr64_ne; [by apply Hf|]. unfold slot. lia.
Qed.

(** * The page-table invariant

    [L] records every table of the hierarchy below [pgd] with its level. *)

Section Invariant.
Context {A : Type} `{PageAllocatorLaws A}.
Implicit Types (st : mach A) (L : gmap Z nat).

Record pt_inv st (pgd : Z) L : Prop := {
  pi_pa : pa_inv (m_pa st);
  pi_root : L !! pgd = Some 0%nat;
  pi_tab : forall t l, L !! t = Some l ->
    (l <= 3)%nat /\ t mod 4096 = 0 /\ 0 < t /\ t + 4096 <= 2 ^ 48 /\
    ~ pa_avail (m_pa st) t /\ pa_managed (m_pa st) t;
  pi_child : forall t l i, L !! t = Some l -> (l < 3)%nat -> 0 <= i < 512 ->
    e_valid (entry (m_ram st) t i) = true ->
    e_table (entry (m_ram st) t i) = true /\ L !! e_child (entry (m_ram st) t i) = Some (S l);
  pi_inj : forall t l i t' l' i', L !! t = Some l -> (l < 3)%nat -> L !! t' = Some l' -> (l' < 3)%nat ->
    0 <= i < 512 -> 0 <= i' < 512 ->
    e_valid (entry (m_ram st) t i) = true -> e_valid (entry (m_ram st) t' i') = true ->
    e_child (entry (m_ram st) t i) = e_child (entry (m_ram st) t' i') -> t = t' /\ i = i';
  pi_parent : forall c l, L !! c = Some (S l) -> exists t i, L !! t = Some l /\ 0 <= i < 512 /\
    e_valid (entry (m_ram st) t i) = true /\ e_child (entry (m_ram st) t i) = c;
  pi_only_root : forall t, L !! t = Some 0%nat -> t = pgd;
  pi_leaf : forall t i, L !! t = Some 3%nat -> 0 <= i < 512 ->
    e_valid (entry (m_ram st) t i) = false -> entry (m_ram st) t i = 0 }.

(** How the machine may change while tables are added: new tables come from
    the allocator and no RAM outside the tables is touched. *)
Record grows st L st' L' : Prop := {
  gr_sub : L ⊆ L';
  gr_new : forall q, is_Some (L' !! q) -> L !! q = None -> pa_avail (m_pa st) q;
  gr_avail : forall q, pa_avail (m_pa st') q <-> pa_avail (m_pa st) q /\ L' !! q = None;
  gr_managed : forall q, pa_managed (m_pa st') q <-> pa_managed (m_pa st) q;
  gr_frame : forall a, (forall t, is_Some (L' !! t) -> ~ (t <= a < t + 4096)) ->
    rd64 (m_ram st') a = rd64 (m_ram st) a }.

Lemma grows_refl st pgd L : pt_inv st pgd L -> grows st L st L.
Proof.
  intros Hi. split; try done.
  - intros q [? Hs] Hn. congruence.
  - intros q. split; [|tauto]. intros Hq. split; [done|].
    destruct (L !! q) as [l|] eqn:E; [|done]. destruct (pi_tab _ _ _ Hi q l E); tauto.
Qed.

Lemma grows_trans st L st1 L1 st2 L2 : grows st L st1 L1 -> grows st1 L1 st2 L2 -> grows st L st2 L2.
Proof.
  intros G1 G2. split.
  - etrans; [apply G1|apply G2].
  - intros q Hq Hn. destruct (L1 !! q) eqn:E.
    + by apply (gr_new _ _ _ _ G1).
    + eapply (gr_avail _ _ _ _ G1). by apply (gr_new _ _ _ _ G2).
  - intros q. rewrite (gr_avail _ _ _ _ G2), (gr_avail _ _ _ _ G1).
    split; [tauto|]. intros [? Hn]. split_and!; auto.
    eapply lookup_weaken_None; [exact Hn|apply G2].
  - intros q. by rewrite (gr_managed _ _ _ _ G2), (gr_managed _ _ _ _ G1).
  - intros a Ha. rewrite (gr_frame _ _ _ _ G2) by done. apply (gr_frame _ _ _ _ G1).
    intros t [l Ht]. apply Ha. exists l. eapply lookup_weaken; [exact Ht|apply G2].
Qed.

(** ** Walking *)

Fixpoint walk (ram : gmap Z Z) (d : nat) (lv t v : Z) : option Z :=
  match d with
  | O => Some t
  | S d' =>
      let e := entry ram t (table_index v lv) in
      if e_valid e && e_table e then walk ram d' (lv + 1) (e_child e) v else None
  end.

Definition entry_from (ram : gmap Z Z) (d : nat) (lv t v : Z) : Z :=
  match walk ram d lv t v with Some t3 => entry ram t3 (table_index v 3) | None => 0 end.

Lemma leaf_walk_walk ram v t :
  leaf_walk ram v [0; 1; 2] t = default 0 (walk ram 3 0 t v).
Proof.
  cbn [leaf_walk walk]. unfold e_valid, e_table, e_child.
  change (0 + 1 + 1) with 2. change (0 + 1) with 1.
  repeat match goal with
  | |- context [negb ?a || negb ?b] => destruct a, b; simpl; try done
  end.
Qed.

Lemma walk_level st pgd L d : forall lv t v t3,
  pt_inv st pgd L -> L !! t = Some lv -> (lv + d <= 3)%nat ->
  walk (m_ram st) d (Z.of_nat lv) t v = Some t3 -> L !! t3 = Some (lv + d)%nat.
Proof.
  induction d as [|d IH]; intros lv t v t3 Hi Ht Hle; simpl.
  - intros [= <-]. by rewrite Nat.add_0_r.
  - case_if; [|done]. intros Hw.
    replace (Z.of_nat lv + 1) with (Z.of_nat (S lv)) in Hw by lia.
    replace (lv + S d)%nat with (S lv + d)%nat by lia.
    eapply IH; [done| |lia|exact Hw].
    eapply (pi_child _ _ _ Hi); [done|lia|apply table_index_range; lia|done].
Qed.

Lemma leaf_table_walk st pgd L v :
  pt_inv st pgd L -> leaf_table st pgd v = default 0 (walk (m_ram st) 3 0 pgd v).
Proof.
  intros Hi. unfold leaf_table. destruct (pi_tab _ _ _ Hi _ _ (pi_root _ _ _ Hi)) as (_ & _ & ? & _).
  destruct (Z.eqb_spec pgd 0); [lia|]. apply leaf_walk_walk.
Qed.

Lemma walk_leaf st pgd L v t3 :
  pt_inv st pgd L -> walk (m_ram st) 3 0 pgd v = Some t3 -> L !! t3 = Some 3%nat /\ t3 <> 0.
Proof.
  intros Hi Hw. assert (Hl : L !! t3 = Some 3%nat).
  { apply (walk_level st pgd L 3 0 pgd v); auto. apply Hi. }
  split; [done|]. destruct (pi_tab _ _ _ Hi t3 3%nat Hl). lia.
Qed.

Lemma leaf_entry_from st pgd L v :
  pt_inv st pgd L -> vmm_leaf_entry st pgd v = entry_from (m_ram st) 3 0 pgd v.
Proof.
  intros Hi. unfold vmm_leaf_entry, entry_from. rewrite (leaf_table_walk st pgd L) by done.
  destruct (walk (m_ram st) 3 0 pgd v) as [t3|] eqn:E; simpl; [|done].
  destruct (walk_leaf st pgd L v t3 Hi E) as [_ ?]. destruct (Z.eqb_spec t3 0); [lia|done].
Qed.

(** Two walks that end in the same leaf table used the same indices. *)
Lemma walk_inj st pgd L d : forall lv t t' v v' x,
  pt_inv st pgd L -> L !! t = Some lv -> L !! t' = Some lv -> (lv + d <= 3)%nat ->
  walk (m_ram st) d (Z.of_nat lv) t v = Some x -> walk (m_ram st) d (Z.of_nat lv) t' v' = Some x ->
  t = t' /\ forall k, Z.of_nat lv <= k < Z.of_nat (lv + d) -> table_index v k = table_index v' k.
Proof.
  induction d as [|d IH]; intros lv t t' v v' x Hi Ht Ht' Hle; simpl.
  - intros [= <-] [= <-]. split; [done|]. lia.
  - case_if; [|done]. intros Hw. case_if; [|done]. intros Hw'.
    replace (Z.of_nat lv + 1) with (Z.of_nat (S lv)) in * by lia.
    assert (Hr : forall u, 0 <= table_index u (Z.of_nat lv) < 512)
      by (intros; apply table_index_range; lia).
    destruct (pi_child _ _ _ Hi t lv _ Ht ltac:(lia) (Hr v)) as [_ Hc]; [done|].
    destruct (pi_child _ _ _ Hi t' lv _ Ht' ltac:(lia) (Hr v')) as [_ Hc']; [done|].
    destruct (IH (S lv) _ _ v v' x Hi Hc Hc' ltac:(lia) Hw Hw') as [Ec Hk].
    destruct (pi_inj _ _ _ Hi t lv _ t' lv _ Ht ltac:(lia) Ht' ltac:(lia) (Hr v) (Hr v'))
      as [Et Ei]; [done..|].
    split; [done|]. intros k Hk'. destruct (Z.eq_dec k (Z.of_nat lv)) as [->|]; [done|].
    apply Hk. lia.
Qed.

Lemma walk_same_page st pgd L v v' t3 :
  pt_inv st pgd L -> walk (m_ram st) 3 0 pgd v = Some t3 -> walk (m_ram st) 3 0 pgd v' = Some t3 ->
  table_index v 3 = table_index v' 3 -> vpn v = vpn v'.
Proof.
  intros Hi Hw Hw' E3.
  destruct (walk_inj st pgd L 3 0 pgd pgd v v' t3 Hi) as [_ Hk]; auto; [apply Hi..|].
  apply vpn_eq_indices. intros k Hkk. destruct (Z.eq_dec k 3) as [->|]; [done|]. apply Hk. lia.
Qed.

(** The walk only depends on the page number. *)
Lemma walk_vpn ram d : forall lv t v v',
  0 <= lv -> lv + Z.of_nat d <= 3 -> vpn v = vpn v' -> walk ram d lv t v = walk ram d lv t v'.
Proof.
  induction d as [|d IH]; intros lv t v v' Hlv Hle E; [done|]. simpl.
  pose proof E as Hk. rewrite vpn_eq_indices in Hk. rewrite (Hk lv) by lia.
  case_if; [|done]. apply IH; [lia|lia|done].
Qed.

Lemma leaf_entry_vpn st pgd L v v' :
  pt_inv st pgd L -> vpn v = vpn v' -> vmm_leaf_entry st pgd v = vmm_leaf_entry st pgd v'.
Proof.
  intros Hi E. rewrite !(leaf_entry_from st pgd L) by done. unfold entry_from.
  rewrite (walk_vpn _ 3 0 pgd v v') by (done || lia).
  rewrite vpn_eq_indices in E. rewrite (E 3) by lia. done.
Qed.

End Invariant.

(** * Adding one table *)

Section NextTable.
Context {A : Type} `{PageAllocatorLaws A}.
Implicit Types (st : mach A) (L : gmap Z nat).

Lemma new_table_spec st r st' :
  pa_inv (m_pa st) -> vmm_new_table st = (r, st') ->
  (r = 0 /\ st' = st) \/
  (r <> 0 /\ pa_inv (m_pa st') /\ pa_avail (m_pa st) r /\
   (forall q, pa_managed (m_pa st') q <-> pa_managed (m_pa st) q) /\
   (forall q, pa_avail (m_pa st') q <-> pa_avail (m_pa st) q /\ q <> r) /\
   (forall i, 0 <= i < 512 -> entry (m_ram st') r i = 0) /\
   (forall a, ~ (r <= a < r + 4096) -> rd64 (m_ram st') a = rd64 (m_ram st) a)).
Proof.
  intros Hi. unfold vmm_new_table. destruct (alloc_page (m_pa st)) as [p pa] eqn:E.
  destruct (alloc_page_law _ _ _ Hi E) as (Hi' & Hm & [(-> & -> & _)|(Hnz & Hav & Ha)]).
  - simpl. intros [= <- <-]. left. by destruct st.
  - destruct (Z.eqb_spec p 0); [done|]. intros [= <- <-]. right. simpl.
    destruct (zero_table_spec p (m_ram st)). split_and!; auto.
Qed.

(** State obtained by hanging a fresh, zeroed table [r] under slot [i] of [t]. *)
Definition linked st1 (t i r : Z) : mach A :=
  store st1 (slot t i) (Z.lor (Z.lor (Z.land r DESC_ADDR_MASK) DESC_VALID) DESC_TABLE).

Section Link.
Context (st st1 : mach A) (pgd : Z) (L : gmap Z nat) (t i r : Z) (l : nat).
Hypothesis (Hinv : pt_inv st pgd L) (Ht : L !! t = Some l) (Hl : (l < 3)%nat) (Hi : 0 <= i < 512).
Hypothesis (Hbad : e_valid (entry (m_ram st) t i) = false).
Hypothesis (Hpa : pa_inv (m_pa st1)) (Hav : pa_avail (m_pa st) r).
Hypothesis (Hman : forall q, pa_managed (m_pa st1) q <-> pa_managed (m_pa st) q).
Hypothesis (Hava : forall q, pa_avail (m_pa st1) q <-> pa_avail (m_pa st) q /\ q <> r).
Hypothesis (Hzero : forall j, 0 <= j < 512 -> entry (m_ram st1) r j = 0).
Hypothesis (Hframe : forall a, ~ (r <= a < r + 4096) -> rd64 (m_ram st1) a = rd64 (m_ram st) a).

Let st2 := linked st1 t i r.
Let L2 := <[r := S l]> L.

Local Lemma r_addr : r mod 4096 = 0 /\ 0 < r /\ r + 4096 <= 2 ^ 48.
Proof. eapply avail_addr; [apply Hinv|done]. Qed.

Local Lemma r_fresh : L !! r = None.
Proof.
  destruct (L !! r) as [k|] eqn:E; [|done].
  destruct (pi_tab _ _ _ Hinv r k E). tauto.
Qed.

Local Lemma t_addr : t mod 4096 = 0 /\ t <> r.
Proof.
  destruct (pi_tab _ _ _ Hinv t l Ht) as (_ & ? & _). split; [done|].
  intros ->. rewrite r_fresh in Ht. done.
Qed.

Local Lemma link_desc :
  let d := entry (m_ram st2) t i in e_valid d = true /\ e_table d = true /\ e_child d = r.
Proof.
  destruct r_addr as (? & ? & ?). unfold st2, linked, store, entry. simpl.
  rewrite rd64_wr64_eq. apply table_desc_spec; lia.
Qed.

(** Entries of the old tables, but for the slot that was linked. *)
Local Lemma link_old x k j :
  L !! x = Some k -> 0 <= j < 512 -> (x, j) <> (t, i) ->
  entry (m_ram st2) x j = entry (m_ram st) x j.
Proof.
  intros Hx Hj Hne. destruct (pi_tab _ _ _ Hinv x k Hx) as (_ & Hxm & _).
  destruct t_addr as [Htm _]. destruct r_addr as (Hrm & _).
  unfold st2, linked, store, entry. simpl.
  rewrite rd64_wr64_ne.
  - apply Hframe. intros Hin. assert (x = r) as ->; [|by rewrite r_fresh in Hx].
    pose proof (slot_in_page x j Hj). Z.div_mod_to_equations. lia.
  - intros E. destruct (slot_inj t i x j Htm Hxm Hi Hj E). congruence.
Qed.

Local Lemma link_new j : 0 <= j < 512 -> entry (m_ram st2) r j = 0.
Proof.
  intros Hj. destruct t_addr as [Htm Hne]. destruct r_addr as (Hrm & _).
  unfold st2, linked, store, entry. simpl. rewrite rd64_wr64_ne; [by apply Hzero|].
  intros E. destruct (slot_inj t i r j Htm Hrm Hi Hj E). done.
Qed.

Local Lemma link_lookup x k : L2 !! x = Some k -> (x = r /\ k = S l) \/ (x <> r /\ L !! x = Some k).
Proof. unfold L2. intros [[-> ->]|[? ?]]%lookup_insert_Some; auto. Qed.

Local Lemma link_keep x k : L !! x = Some k -> L2 !! x = Some k.
Proof.
  intros Hx. unfold L2. rewrite lookup_insert_ne; [done|].
  intros <-. rewrite r_fresh in Hx. done.
Qed.

Local Lemma zero_invalid : e_valid 0 = false.
Proof. done. Qed.

Local Lemma link_edge x k j :
  L2 !! x = Some k -> 0 <= j < 512 -> e_valid (entry (m_ram st2) x j) = true -> (k < 3)%nat ->
  (x = t /\ j = i) \/ (L !! x = Some k /\ (x, j) <> (t, i) /\
    entry (m_ram st2) x j = entry (m_ram st) x j /\ e_valid (entry (m_ram st) x j) = true).
Proof.
  intros Hx Hj Hv Hk. apply link_lookup in Hx as [[-> ->]|[Hne Hx]].
  - rewrite link_new in Hv by done. done.
  - destruct (decide ((x, j) = (t, i))) as [[= -> ->]|Hp]; [by left|].
    right. pose proof (link_old x k j Hx Hj Hp) as E. rewrite E in Hv. done.
Qed.

Lemma link_inv : pt_inv st2 pgd L2.
Proof.
  destruct link_desc as (Hdv & Hdt & Hdc). destruct r_addr as (Hrm & Hr0 & Hr48).
  split.
  - done.
  - apply link_keep, Hinv.
  - intros x k [[-> ->]|[Hne Hx]]%link_lookup; simpl.
    + split_and!; try lia; [|apply Hman; by eapply avail_managed; [apply Hinv|]].
      intros ?%Hava. tauto.
    + destruct (pi_tab _ _ _ Hinv x k Hx) as (? & ? & ? & ? & Hna & Hm).
      split_and!; try done; [|by apply Hman]. intros ?%Hava. tauto.
  - intros x k j Hx Hk Hj Hv. pose proof (link_edge x k j Hx Hj Hv Hk) as [[-> ->]|(Hx' & _ & E & Hv')].
    + apply link_lookup in Hx as [[? _]|[_ Hx]]; [destruct t_addr; congruence|].
      assert (k = l) as -> by congruence. rewrite Hdt, Hdc. split; [done|].
      unfold L2. apply lookup_insert_eq.
    + rewrite E. destruct (pi_child _ _ _ Hinv x k j Hx' Hk Hj Hv') as [? ?].
      split; [done|]. by apply link_keep.
  - intros x k j x' k' j' Hx Hk Hx' Hk' Hj Hj' Hv Hv' Hc.
    pose proof (link_edge x k j Hx Hj Hv Hk) as [[-> ->]|(Lx & Hp & E & Hv2)];
    pose proof (link_edge x' k' j' Hx' Hj' Hv' Hk') as [[-> ->]|(Lx' & Hp' & E' & Hv2')]; [done| | |].
    + rewrite Hdc, E' in Hc. destruct (pi_child _ _ _ Hinv x' k' j' Lx' Hk' Hj' Hv2') as [_ Hch].
      rewrite <- Hc, r_fresh in Hch. done.
    + rewrite Hdc, E in Hc. destruct (pi_child _ _ _ Hinv x k j Lx Hk Hj Hv2) as [_ Hch].
      rewrite Hc, r_fresh in Hch. done.
    + rewrite E, E' in Hc. by eapply (pi_inj _ _ _ Hinv x k j x' k' j').
  - intros c k [[-> [= ->]]|[Hne Hc]]%link_lookup.
    + exists t, i. split_and!; auto using link_keep; lia.
    + destruct (pi_parent _ _ _ Hinv c k Hc) as (x & j & Hx & Hj & Hv & Hch).
      exists x, j. split_and!; auto using link_keep; try lia;
        (rewrite (link_old x k j); [done|done|lia|intros [= -> ->]; congruence]).
  - intros x [[-> ?]|[_ Hx]]%link_lookup; [done|]. by apply (pi_only_root _ _ _ Hinv).
  - intros x j [[-> _]|[_ Hx]]%link_lookup Hj Hv; [by apply link_new|].
    assert (Hp : (x, j) <> (t, i)) by (intros [= -> ->]; rewrite Hx in Ht; inversion Ht; lia).
    rewrite (link_old x 3 j Hx Hj Hp) in *. by apply (pi_leaf _ _ _ Hinv).
Qed.

Lemma link_grows : grows st L st2 L2.
Proof.
  split.
  - apply insert_subseteq, r_fresh.
  - intros q [k Hq] Hn. apply link_lookup in Hq as [[-> _]|[_ Hq]]; [done|congruence].
  - intros q. unfold st2, linked, store. simpl. rewrite Hava. unfold L2.
    destruct (decide (q = r)) as [->|Hne].
    + rewrite lookup_insert_eq. intuition congruence.
    + rewrite lookup_insert_ne by done. split; [|tauto]. intros [Hq _]. split; [done|].
      destruct (L !! q) as [k|] eqn:E; [|done]. destruct (pi_tab _ _ _ Hinv q k E). tauto.
  - done.
  - intros a Ha. unfold st2, linked, store. simpl. rewrite rd64_wr64_ne.
    + apply Hframe. apply Ha. unfold L2. rewrite lookup_insert_eq. by eexists.
    + intros <-. apply (Ha t); [exists l; by apply link_keep|]. by apply slot_in_page.
Qed.

Lemma link_entry_from d : forall lv x v,
  L !! x = Some lv -> (lv + d = 3)%nat ->
  entry_from (m_ram st2) d (Z.of_nat lv) x v = entry_from (m_ram st) d (Z.of_nat lv) x v.
Proof.
  unfold entry_from. destruct link_desc as (Hdv & Hdt & Hdc).
  induction d as [|d IH]; intros lv x v Hx Hlv; cbn [walk].
  - apply (link_old x lv); [done|apply table_index_range; lia|]. intros [= -> ?].
    rewrite Hx in Ht. inversion Ht. lia.
  - assert (Hr : forall u, 0 <= table_index u (Z.of_nat lv) < 512)
      by (intros; apply table_index_range; lia).
    destruct (decide ((x, table_index v (Z.of_nat lv)) = (t, i))) as [[= -> Ei]|Hp].
    + rewrite Ei, Hdv, Hdt, Hdc, Hbad. cbn [andb].
      destruct d as [|d]; cbn [walk].
      * apply link_new, table_index_range. lia.
      * rewrite link_new by (apply table_index_range; lia). done.
    + rewrite (link_old x lv) by done. case_if; [|done].
      replace (Z.of_nat lv + 1) with (Z.of_nat (S lv)) by lia. apply IH; [|lia].
      eapply (pi_child _ _ _ Hinv); [done|lia|done..].
Qed.

Lemma link_leaf v : vmm_leaf_entry st2 pgd v = vmm_leaf_entry st pgd v.
Proof.
  rewrite (leaf_entry_from st2 pgd L2) by apply link_inv.
  rewrite (leaf_entry_from st pgd L) by done.
  apply (link_entry_from 3 0); [apply Hinv|done].
Qed.
End Link.

(** What one next_table call does to a well-formed hierarchy. *)
Lemma next_table_spec st pgd L t l i c st' :
  pt_inv st pgd L -> L !! t = Some l -> (l < 3)%nat -> 0 <= i < 512 ->
  next_table t i st = (c, st') ->
  exists L', pt_inv st' pgd L' /\ grows st L st' L' /\
    (forall v, vmm_leaf_entry st' pgd v = vmm_leaf_entry st pgd v) /\
    (c = 0 \/ (L' !! c = Some (S l) /\ e_valid (entry (m_ram st') t i) = true /\
               e_table (entry (m_ram st') t i) = true /\ e_child (entry (m_ram st') t i) = c)) /\
    (forall x k j, L !! x = Some k -> 0 <= j < 512 -> e_valid (entry (m_ram st) x j) = true ->
       entry (m_ram st') x j = entry (m_ram st) x j).
Proof.
  intros Hinv Ht Hl Hi. unfold next_table. fold (e_valid (entry (m_ram st) t i)).
  destruct (e_valid (entry (m_ram st) t i)) eqn:Ev.
  - destruct (pi_child _ _ _ Hinv t l i Ht Hl Hi Ev) as [Etab Ech].
    fold (e_table (entry (m_ram st) t i)). rewrite Etab. intros [= <- <-].
    exists L. split_and!; eauto using grows_refl.
  - destruct (vmm_new_table st) as [r st1] eqn:En.
    destruct (new_table_spec st r st1 (pi_pa _ _ _ Hinv) En)
      as [[-> ->]|(Hnz & Hpa & Hav & Hman & Hava & Hzero & Hframe)].
    { simpl. intros [= <- <-]. exists L. split_and!; eauto using grows_refl. }
    destruct (Z.eqb_spec r 0); [done|]. intros [= <- <-].
    fold (linked st1 t i r). exists (<[r := S l]> L).
    edestruct (link_desc st st1 pgd L t i r l) as (Hdv & Hdt & Hdc); [done..|].
    split_and!.
    + by apply (link_inv st st1 pgd L t i r l).
    + by apply (link_grows st st1 pgd L t i r l).
    + intros v. by apply (link_leaf st st1 pgd L t i r l).
    + right. split_and!; auto. apply lookup_insert_eq.
    + intros x k j Hx Hj Hv. eapply link_old; eauto. congruence.
Qed.

End NextTable.

(** * Mapping and unmapping one page *)

Section PageOps.
Context {A : Type} `{PageAllocatorLaws A}.
Implicit Types (st : mach A) (L : gmap Z nat).

Lemma has_page_bits x : x &? (PAGE_SIZE - 1) = negb (x mod 4096 =? 0).
Proof.
  unfold has_bits, PAGE_SIZE. change (4096 - 1) with (2 ^ 12 - 1).
  by rewrite land_low_mask by lia.
Qed.

Lemma page_descriptor_valid p f : e_valid (page_descriptor p f) = true.
Proof.
  rewrite e_valid_bit. unfold page_descriptor.
  repeat match goal with |- context [if ?b then _ else _] => destruct b end;
    rewrite !Z.lor_spec; change (Z.testbit DESC_VALID 0) with true;
    rewrite !orb_true_r; done.
Qed.

(** Writing the leaf slot of [v] changes the entry of [v]'s page only. *)
Lemma leaf_store_spec st pgd L v t3 d :
  pt_inv st pgd L -> walk (m_ram st) 3 0 pgd v = Some t3 -> (e_valid d = false -> d = 0) ->
  let st' := store st (slot t3 (table_index v 3)) d in
  pt_inv st' pgd L /\ grows st L st' L /\
  (forall v', vmm_leaf_entry st' pgd v' = if vpn v =? vpn v' then d else vmm_leaf_entry st pgd v').
Proof.
  intros Hi Hw Hd st'. destruct (walk_leaf st pgd L v t3 Hi Hw) as [Ht3 _].
  destruct (pi_tab _ _ _ Hi t3 3%nat Ht3) as (_ & Ht3m & _).
  set (i3 := table_index v 3). assert (Hi3 : 0 <= i3 < 512) by (apply table_index_range; lia).
  assert (Hother : forall x k j, L !! x = Some k -> 0 <= j < 512 -> (x, j) <> (t3, i3) ->
    entry (m_ram st') x j = entry (m_ram st) x j).
  { intros x k j Hx Hj Hne. destruct (pi_tab _ _ _ Hi x k Hx) as (_ & Hxm & _).
    unfold entry, st', store. cbn [m_ram]. apply rd64_wr64_ne.
    intros E. destruct (slot_inj t3 i3 x j Ht3m Hxm Hi3 Hj E). congruence. }
  assert (Hsame : forall x k j, L !! x = Some k -> (k < 3)%nat -> 0 <= j < 512 ->
    entry (m_ram st') x j = entry (m_ram st) x j).
  { intros x k j Hx Hk Hj. apply (Hother x k j Hx Hj). intros [= -> ->].
    rewrite Ht3 in Hx. inversion Hx. lia. }
  assert (Hi' : pt_inv st' pgd L).
  { split; try apply Hi.
    - intros x k j Hx Hk Hj. rewrite (Hsame x k j) by done. by apply (pi_child _ _ _ Hi).
    - intros x k j x' k' j' Hx Hk Hx' Hk' Hj Hj'.
      rewrite (Hsame x k j), (Hsame x' k' j') by done. by apply (pi_inj _ _ _ Hi x k j x' k' j').
    - intros c k Hc. destruct (pi_parent _ _ _ Hi c k Hc) as (x & j & Hx & Hj & Hv & Hch).
      exists x, j. destruct (pi_tab _ _ _ Hi c _ Hc). rewrite (Hsame x k j) by (done || lia). done.
    - intros x j Hx Hj. destruct (decide ((x, j) = (t3, i3))) as [[= -> ->]|Hne].
      + unfold entry, st', store. cbn [m_ram]. rewrite rd64_wr64_eq. done.
      + rewrite (Hother x 3%nat j Hx Hj Hne). by apply (pi_leaf _ _ _ Hi). }
  assert (Hwalk : forall n lv x v', L !! x = Some lv -> (lv + n <= 3)%nat ->
    walk (m_ram st') n (Z.of_nat lv) x v' = walk (m_ram st) n (Z.of_nat lv) x v').
  { induction n as [|n IH]; intros lv x v' Hx Hle; cbn [walk]; [done|].
    assert (0 <= table_index v' (Z.of_nat lv) < 512) by (apply table_index_range; lia).
    rewrite (Hsame x lv) by (done || lia). case_if; [|done].
    replace (Z.of_nat lv + 1) with (Z.of_nat (S lv)) by lia. apply IH; [|lia].
    eapply (pi_child _ _ _ Hi); [done|lia|done..]. }
  split_and!; [done| |].
  - pose proof (grows_refl st pgd L Hi) as [G1 G2 G3 G4 G5]. split; auto.
    intros a Ha. unfold st', store. cbn [m_ram]. apply rd64_wr64_ne.
    intros <-. apply (Ha t3); [by eexists|]. by apply slot_in_page.
  - intros v'. rewrite (leaf_entry_from st' pgd L), (leaf_entry_from st pgd L) by done.
    unfold entry_from. rewrite (Hwalk 3%nat 0%nat) by (done || apply Hi).
    change (Z.of_nat 0) with 0.
    destruct (Z.eqb_spec (vpn v) (vpn v')) as [E|E].
    + rewrite <- (walk_vpn (m_ram st) 3 0 pgd v v') by (done || lia).
      rewrite Hw. rewrite vpn_eq_indices in E. rewrite <- (E 3) by lia.
      unfold entry, st', store. cbn [m_ram]. apply rd64_wr64_eq.
    + destruct (walk (m_ram st) 3 0 pgd v') as [t3'|] eqn:Hw'; [|done].
      destruct (walk_leaf st pgd L v' t3' Hi Hw') as [Ht3' _].
      apply (Hother t3' 3%nat); [done|apply table_index_range; lia|].
      intros [= -> E3]. apply E. eapply (walk_same_page st pgd L); eauto.
Qed.

(** The outcome of vmm_map_page on the translation, whatever happens. *)
Definition map_page_post (pgd v p f : Z) st (status : Z) st' : Prop :=
  (status = 0 /\ v mod 4096 = 0 /\ p mod 4096 = 0 /\
   e_valid (vmm_leaf_entry st pgd v) = false /\
   forall v', vmm_leaf_entry st' pgd v' =
     if vpn v =? vpn v' then page_descriptor p f else vmm_leaf_entry st pgd v') \/
  (status = -1 /\ forall v', vmm_leaf_entry st' pgd v' = vmm_leaf_entry st pgd v').

Lemma vmm_map_page_spec st pgd L v p f status st' :
  pt_inv st pgd L -> vmm_map_page pgd v p f st = (status, st') ->
  exists L', pt_inv st' pgd L' /\ grows st L st' L' /\ map_page_post pgd v p f st status st'.
Proof.
  intros Hi. unfold vmm_map_page. rewrite !has_page_bits.
  destruct (pi_tab _ _ _ Hi _ _ (pi_root _ _ _ Hi)) as (_ & _ & Hp0 & _).
  case_if.
  { intros [= <- <-]. exists L. split_and!; eauto using grows_refl. by right. }
  assert (Hr : forall k, 0 <= k <= 3 -> 0 <= table_index v k < 512) by apply table_index_range.
  destruct (next_table pgd (table_index v 0) st) as [t1 st1] eqn:E1.
  destruct (next_table_spec st pgd L pgd 0 _ t1 st1 Hi (pi_root _ _ _ Hi) ltac:(lia) (Hr 0 ltac:(lia)) E1)
    as (L1 & Hi1 & G1 & Hl1 & Hc1 & _).
  destruct (Z.eqb_spec t1 0) as [->|Hn1].
  { intros [= <- <-]. exists L1. split_and!; auto. right. auto. }
  destruct Hc1 as [?|(Ht1 & Hv1 & Hb1 & Hch1)]; [done|].
  destruct (next_table t1 (table_index v 1) st1) as [t2 st2] eqn:E2.
  destruct (next_table_spec st1 pgd L1 t1 1 _ t2 st2 Hi1 Ht1 ltac:(lia) (Hr 1 ltac:(lia)) E2)
    as (L2 & Hi2 & G2 & Hl2 & Hc2 & Hk2).
  pose proof (grows_trans _ _ _ _ _ _ G1 G2) as G12.
  destruct (Z.eqb_spec t2 0) as [->|Hn2].
  { intros [= <- <-]. exists L2. split_and!; auto. right. split; [done|].
    intros. by rewrite Hl2. }
  destruct Hc2 as [?|(Ht2 & Hv2 & Hb2 & Hch2)]; [done|].
  destruct (next_table t2 (table_index v 2) st2) as [t3 st3] eqn:E3.
  destruct (next_table_spec st2 pgd L2 t2 2 _ t3 st3 Hi2 Ht2 ltac:(lia) (Hr 2 ltac:(lia)) E3)
    as (L3 & Hi3 & G3 & Hl3 & Hc3 & Hk3).
  pose proof (grows_trans _ _ _ _ _ _ G12 G3) as G123.
  assert (Hleaf : forall v', vmm_leaf_entry st3 pgd v' = vmm_leaf_entry st pgd v').
  { intros. by rewrite Hl3, Hl2, Hl1. }
  destruct (Z.eqb_spec t3 0) as [->|Hn3].
  { intros [= <- <-]. exists L3. split_and!; auto. right. auto. }
  destruct Hc3 as [?|(Ht3 & Hv3 & Hb3 & Hch3)]; [done|].
  assert (Hw : walk (m_ram st3) 3 0 pgd v = Some t3).
  { assert (Ea : entry (m_ram st3) pgd (table_index v 0) = entry (m_ram st1) pgd (table_index v 0)).
    { pose proof (lookup_weaken _ _ _ _ (pi_root _ _ _ Hi) (gr_sub _ _ _ _ G1)) as Hp1.
      pose proof (lookup_weaken _ _ _ _ Hp1 (gr_sub _ _ _ _ G2)) as Hp2.
      assert (Eb : entry (m_ram st2) pgd (table_index v 0) = entry (m_ram st1) pgd (table_index v 0)).
      { eapply Hk2; [exact Hp1|apply Hr; lia|done]. }
      rewrite (Hk3 pgd 0%nat); [done|done|apply Hr; lia|by rewrite Eb]. }
    assert (Eb : entry (m_ram st3) t1 (table_index v 1) = entry (m_ram st2) t1 (table_index v 1)).
    { eapply Hk3; [eapply lookup_weaken; [exact Ht1|apply G2]|apply Hr; lia|done]. }
    cbn [walk]. change (0 + 1 + 1) with 2. change (0 + 1) with 1.
    rewrite Ea, Hv1, Hb1, Hch1. simpl. rewrite Eb, Hv2, Hb2, Hch2. simpl.
    rewrite Hv3, Hb3, Hch3. done. }
  assert (Hent : entry (m_ram st3) t3 (table_index v 3) = vmm_leaf_entry st pgd v).
  { rewrite <- Hleaf. rewrite (leaf_entry_from st3 pgd L3) by done. unfold entry_from. by rewrite Hw. }
  rewrite Hent. fold (e_valid (vmm_leaf_entry st pgd v)).
  destruct (e_valid (vmm_leaf_entry st pgd v)) eqn:Ev.
  { intros [= <- <-]. exists L3. split_and!; auto. right. auto. }
  intros [= <- <-].
  destruct (leaf_store_spec st3 pgd L3 v t3 (page_descriptor p f) Hi3 Hw) as (Hi4 & G4 & Hl4).
  { rewrite page_descriptor_valid. done. }
  exists L3. split_and!; [done|by eapply grows_trans|]. left. split_and!; auto.
  intros v'. rewrite Hl4, Hleaf. done.
Qed.

(** vmm_unmap_page succeeds exactly on an aligned, mapped page, and then
    clears that page's entry and no other. *)
Lemma vmm_unmap_page_spec st pgd L v status st' :
  pt_inv st pgd L -> vmm_unmap_page pgd v st = (status, st') ->
  pt_inv st' pgd L /\ grows st L st' L /\
  (if (v mod 4096 =? 0) && e_valid (vmm_leaf_entry st pgd v)
   then status = 0 /\ forall v', vmm_leaf_entry st' pgd v' =
          if vpn v =? vpn v' then 0 else vmm_leaf_entry st pgd v'
   else status = -1 /\ st' = st).
Proof.
  intros Hi. unfold vmm_unmap_page. rewrite has_page_bits.
  destruct (pi_tab _ _ _ Hi _ _ (pi_root _ _ _ Hi)) as (_ & _ & Hp0 & _).
  destruct (Z.eqb_spec pgd 0); [lia|]. simpl.
  destruct (Z.eqb_spec (v mod 4096) 0); simpl.
  2: { intros [= <- <-]. eauto using grows_refl. }
  rewrite (leaf_entry_from st pgd L v) by done. unfold entry_from.
  rewrite (leaf_table_walk st pgd L) by done.
  destruct (walk (m_ram st) 3 0 pgd v) as [t3|] eqn:Hw; simpl.
  2: { intros [= <- <-]. eauto using grows_refl. }
  destruct (walk_leaf st pgd L v t3 Hi Hw) as [Ht3 Hnz].
  destruct (Z.eqb_spec t3 0); [done|]. fold (e_valid (entry (m_ram st) t3 (table_index v 3))).
  case_if; intros [= <- <-].
  - rewrite Heqb. eauto using grows_refl.
  - rewrite Heqb. destruct (leaf_store_spec st pgd L v t3 0 Hi Hw) as (? & ? & ?); auto.
Qed.

End PageOps.

(** * Ranges *)

Section RangeOps.
Context {A : Type} `{PageAllocatorLaws A}.
Implicit Types (st : mach A) (L : gmap Z nat).

Lemma foldl_page_offsets {B} (f : B -> Z -> B) (b : B) n :
  0 <= n -> foldl f b (page_offsets (n * 4096)) = for_range 0 n (fun i b => f b (i * 4096)) b.
Proof.
  intros Hn. unfold page_offsets, PAGE_SIZE, for_range.
  replace ((n * 4096 + 4096 - 1) / 4096) with n by (Z.div_mod_to_equations; lia).
  rewrite Z.sub_0_r. revert b. induction (seqZ 0 n) as [|x l IH]; intros b; [done|].
  simpl. apply IH.
Qed.

Lemma leaf_invalid_zero st pgd L v :
  pt_inv st pgd L -> e_valid (vmm_leaf_entry st pgd v) = false -> vmm_leaf_entry st pgd v = 0.
Proof.
  intros Hi. rewrite (leaf_entry_from st pgd L) by done. unfold entry_from.
  destruct (walk (m_ram st) 3 0 pgd v) as [t3|] eqn:E; [|done].
  destruct (walk_leaf st pgd L v t3 Hi E). apply (pi_leaf _ _ _ Hi); [done|].
  apply table_index_range. lia.
Qed.

(** Pages [k..n-1] of the range at [va] translate to the pages at [pa]; every
    other address translates as in [st0]. *)
Definition maps_range (pgd va pa f k n : Z) st0 st : Prop :=
  (forall i v, k <= i < n -> vpn (va + i * 4096) = vpn v ->
     vmm_leaf_entry st pgd v = page_descriptor (pa + i * 4096) f) /\
  (forall v, (forall i, k <= i < n -> vpn (va + i * 4096) <> vpn v) ->
     vmm_leaf_entry st pgd v = vmm_leaf_entry st0 pgd v).

Definition range_unmapped (pgd va n : Z) st : Prop :=
  forall i, 0 <= i < n -> e_valid (vmm_leaf_entry st pgd (va + i * 4096)) = false.

(** Some page of the range at [va] is the page of [v], or none is. *)
Lemma range_hit_dec va k n v :
  (exists i, k <= i < n /\ vpn (va + i * 4096) = vpn v) \/
  (forall i, k <= i < n -> vpn (va + i * 4096) <> vpn v).
Proof.
  destruct (find_range k n (fun i => vpn (va + i * 4096) =? vpn v)) as [i|] eqn:E.
  - left. apply find_range_Some in E as (? & ? & _). b2p. eauto.
  - right. intros i Hi Hc. apply (find_range_None _ _ _ E) in Hi. b2p. done.
Qed.

(** One more page mapped. *)
Lemma maps_range_snoc pgd va pa f k st0 st st' :
  0 <= k -> maps_range pgd va pa f 0 k st0 st -> range_unmapped pgd va k st0 ->
  map_page_post pgd (va + k * 4096) (pa + k * 4096) f st 0 st' ->
  maps_range pgd va pa f 0 (k + 1) st0 st' /\ range_unmapped pgd va (k + 1) st0.
Proof.
  intros Hk [Ha Hb] Hc [(_ & _ & _ & Hinv & Hp)|[? _]]; [|done].
  assert (Hfresh : forall i, 0 <= i < k -> vpn (va + i * 4096) <> vpn (va + k * 4096)).
  { intros i Hi E. rewrite (Ha i _ Hi E), page_descriptor_valid in Hinv. done. }
  split; [split|].
  - intros i v Hi E. rewrite Hp. destruct (Z.eqb_spec (vpn (va + k * 4096)) (vpn v)) as [E'|E'].
    + destruct (Z.eq_dec i k) as [->|]; [done|]. destruct (Hfresh i); [lia|congruence].
    + apply Ha; [|done]. destruct (Z.eq_dec i k) as [->|]; [done|lia].
  - intros v Hv. rewrite Hp. destruct (Z.eqb_spec (vpn (va + k * 4096)) (vpn v)) as [E'|E'].
    + destruct (Hv k); [lia|done].
    + apply Hb. intros i Hi. apply Hv. lia.
  - intros i Hi. destruct (Z.eq_dec i k) as [->|]; [|apply Hc; lia].
    rewrite <- Hb; [done|]. intros j Hj. by apply Hfresh.
Qed.

(** Unmapping the first page of a mapped range. *)
Lemma maps_range_drop pgd L0 va pa f k n st0 st st' :
  pt_inv st0 pgd L0 -> 0 <= k < n -> range_unmapped pgd va n st0 ->
  maps_range pgd va pa f k n st0 st ->
  (forall v, vmm_leaf_entry st' pgd v =
     if vpn (va + k * 4096) =? vpn v then 0 else vmm_leaf_entry st pgd v) ->
  (forall i, k < i < n -> vpn (va + i * 4096) <> vpn (va + k * 4096)) ->
  maps_range pgd va pa f (k + 1) n st0 st'.
Proof.
  intros Hi0 Hk Hun [Ha Hb] Hst Hne. split.
  - intros i v Hi E. rewrite Hst. destruct (Z.eqb_spec (vpn (va + k * 4096)) (vpn v)).
    + destruct (Hne i); [lia|congruence].
    + apply (Ha i); [lia|done].
  - intros v Hv. rewrite Hst. destruct (Z.eqb_spec (vpn (va + k * 4096)) (vpn v)) as [E|E].
    + assert (Ez : vmm_leaf_entry st0 pgd v = vmm_leaf_entry st0 pgd (va + k * 4096)).
      { symmetry. by eapply leaf_entry_vpn. }
      rewrite Ez. symmetry. eapply leaf_invalid_zero; [done|]. apply Hun. lia.
    + apply Hb. intros i Hi. destruct (Z.eq_dec i k) as [->|]; [done|]. apply Hv. lia.
Qed.

(** Distinct pages of a mapped range have distinct page numbers. *)
Definition range_distinct (va n : Z) : Prop :=
  forall i j, 0 <= i < j -> j < n -> vpn (va + i * 4096) <> vpn (va + j * 4096).

Lemma unmap_upto_spec pgd L0 L va pa f n st0 st :
  pt_inv st0 pgd L0 -> pt_inv st pgd L -> 0 <= n -> va mod 4096 = 0 -> 0 <= va ->
  va + n * 4096 <= UINT64_MAX ->
  range_unmapped pgd va n st0 -> range_distinct va n -> maps_range pgd va pa f 0 n st0 st ->
  let st' := unmap_upto pgd va (n * 4096) st in
  pt_inv st' pgd L /\ grows st L st' L /\
  (forall v, vmm_leaf_entry st' pgd v = vmm_leaf_entry st0 pgd v).
Proof.
  intros Hi0 Hi Hn Hm Hva Hmax Hun Hd Hmap st'. unfold st', unmap_upto.
  rewrite foldl_page_offsets by done.
  assert (HH : pt_inv (for_range 0 n (fun i b => snd (vmm_unmap_page pgd (u64 (va + i * 4096)) b)) st) pgd L /\
    grows st L (for_range 0 n (fun i b => snd (vmm_unmap_page pgd (u64 (va + i * 4096)) b)) st) L /\
    maps_range pgd va pa f n n st0
      (for_range 0 n (fun i b => snd (vmm_unmap_page pgd (u64 (va + i * 4096)) b)) st)).
  { apply (for_range_ind (fun k s => pt_inv s pgd L /\ grows st L s L /\ maps_range pgd va pa f k n st0 s));
      [done|eauto using grows_refl|].
    intros k s Hk (His & Gs & Ms). rewrite u64_id by (unfold UINT64_MAX in *; lia).
    destruct (vmm_unmap_page pgd (va + k * 4096) s) as [status s'] eqn:E. simpl.
    destruct (vmm_unmap_page_spec s pgd L _ status s' His E) as (His' & Gs' & Hres).
    destruct Ms as [Ha Hb]. rewrite (Ha k) in Hres by (done || lia).
    rewrite page_descriptor_valid, Z.mod_add, Hm in Hres by lia. simpl in Hres.
    destruct Hres as [_ Hst]. split_and!; [done|by eapply grows_trans|].
    eapply maps_range_drop; eauto; [by split|]. intros i Hik. apply not_eq_sym, Hd; lia. }
  destruct HH as (? & ? & _ & Hb). split_and!; [done..|]. intros v. apply Hb. lia.
Qed.

(** The mapping loop either maps the whole range or restores the translation. *)
Lemma map_loop_spec pgd va pa f n m : 0 <= m -> forall k st0 L0 st L status st',
  0 <= k -> k + m = n -> va mod 4096 = 0 -> 0 <= va -> va + n * 4096 <= UINT64_MAX ->
  0 <= pa -> pa + n * 4096 <= UINT64_MAX ->
  pt_inv st0 pgd L0 -> pt_inv st pgd L ->
  maps_range pgd va pa f 0 k st0 st -> range_unmapped pgd va k st0 -> range_distinct va k ->
  map_loop pgd va pa f ((fun i => i * 4096) <$> seqZ k m) st = (status, st') ->
  exists L', pt_inv st' pgd L' /\ grows st L st' L' /\
    ((status = 0 /\ maps_range pgd va pa f 0 n st0 st' /\ range_unmapped pgd va n st0 /\
      range_distinct va n) \/
     (status = -1 /\ forall v, vmm_leaf_entry st' pgd v = vmm_leaf_entry st0 pgd v)).
Proof.
  intros Hm. pattern m. revert m Hm. apply natlike_ind.
  { intros k st0 L0 st L status st' Hk Hkn Hvm Hv0 Hvx Hp0 Hpx Hi0 Hi Hmap Hun Hd. simpl.
    intros [= <- <-]. assert (k = n) as -> by lia. exists L. split_and!; eauto using grows_refl. }
  intros m Hm IH k st0 L0 st L status st' Hk Hkn Hvm Hv0 Hvx Hp0 Hpx Hi0 Hi Hmap Hun Hd.
  rewrite seqZ_cons, Z.pred_succ by lia. simpl. unfold UINT64_MAX in *.
  rewrite !u64_id by lia.
  destruct (vmm_map_page _ _ _ _ _) as [s1 st1] eqn:E1.
  destruct (vmm_map_page_spec st pgd L _ _ _ _ _ Hi E1) as (L1 & Hi1 & G1 & Hpost).
  destruct (Z.eqb_spec s1 0) as [->|Hs1]; simpl.
  - destruct (maps_range_snoc pgd va pa f k st0 st st1 Hk Hmap Hun Hpost) as [Hmap1 Hun1].
    assert (Hd1 : range_distinct va (k + 1)).
    { intros i j Hij Hj. destruct (Z.eq_dec j k) as [->|]; [|apply Hd; lia].
      destruct Hpost as [(_ & _ & _ & Hbad & _)|[? _]]; [|done]. intros E.
      destruct Hmap as [Ha _]. rewrite (Ha i) in Hbad by (done || lia).
      rewrite page_descriptor_valid in Hbad. done. }
    intros Hloop. replace (Z.succ k) with (k + 1) in Hloop by lia.
    destruct (IH (k + 1) st0 L0 st1 L1 status st') as (L' & Hi' & G' & Hres); auto; try lia.
    exists L'. split_and!; auto. by eapply grows_trans.
  - destruct Hpost as [(? & _)|[_ Hsame]]; [done|]. intros [= <- <-].
    destruct (unmap_upto_spec pgd L0 L1 va pa f k st0 st1) as (Hi2 & G2 & Hl2); auto;
      try (unfold UINT64_MAX; lia).
    { destruct Hmap as [Ha Hb]. split; intros; rewrite Hsame; eauto. }
    exists L1. split_and!; auto. by eapply grows_trans.
Qed.

End RangeOps.

(** * The range operations as a whole *)

Section Ranges.
Context {A : Type} `{PageAllocatorLaws A}.
Implicit Types (st : mach A) (L : gmap Z nat).

(** Number of pages a byte range touches. *)
Definition span_pages (vaddr size : Z) : Z := (vaddr mod 4096 + size + 4095) / 4096.

Lemma page_align_down_spec x : is_u64 x -> page_align_down x = x - x mod 4096.
Proof.
  intros Hx. unfold page_align_down, PAGE_SIZE. change (4096 - 1) with (2 ^ 12 - 1).
  rewrite land_high_mask by (unfold is_u64 in Hx; lia). done.
Qed.

Lemma page_align_up_spec x : 0 <= x -> x <= UINT64_MAX - 4095 -> page_align_up x = (x + 4095) / 4096 * 4096.
Proof.
  intros Hx Hx'. unfold page_align_up, PAGE_SIZE, UINT64_MAX in *. change (4096 - 1) with (2 ^ 12 - 1).
  rewrite u64_id by lia. rewrite land_high_mask by lia. change (2 ^ 12) with 4096.
  Z.div_mod_to_equations. lia.
Qed.

Lemma page_span_Some off size e :
  0 <= off < 4096 -> is_u64 size -> page_span off size = Some e ->
  0 < size /\ e = (off + size + 4095) / 4096 * 4096 /\ e <= UINT64_MAX.
Proof.
  intros Ho Hs. unfold is_u64, page_span, UINT64_MAX in *.
  change (PAGE_SIZE - 1) with (2 ^ 12 - 1). unfold has_bits. rewrite land_low_mask by lia.
  change (2 ^ 12) with 4096. case_if; [done|]. case_if; [done|].
  rewrite (u64_id (off + size)) by lia.
  case_if; [done|]. intros [= <-]. split; [lia|].
  destruct (Z.eq_dec ((off + size) mod 4096) 0) as [E|E].
  - assert (Hal : page_align_up (off + size) = off + size).
    { unfold page_align_up, PAGE_SIZE. change (4096 - 1) with (2 ^ 12 - 1).
      destruct (Z.le_gt_cases (off + size + 4095) (2 ^ 64 - 1)).
      - rewrite u64_id, land_high_mask by lia. change (2 ^ 12) with 4096.
        Z.div_mod_to_equations. lia.
      - rewrite u64_id by (Z.div_mod_to_equations; lia).
        rewrite land_high_mask by (Z.div_mod_to_equations; lia). change (2 ^ 12) with 4096.
        Z.div_mod_to_equations. lia. }
    rewrite Hal. Z.div_mod_to_equations. lia.
  - destruct Heqb0 as [Hb|Hb]; b2p; [done|].
    rewrite page_align_up_spec by (unfold UINT64_MAX; lia). Z.div_mod_to_equations. lia.
Qed.

Lemma vmm_map_range_spec st pgd L vaddr paddr size f status st' :
  pt_inv st pgd L -> is_u64 vaddr -> is_u64 paddr -> is_u64 size ->
  vmm_map_range pgd vaddr paddr size f st = (status, st') ->
  exists L', pt_inv st' pgd L' /\ grows st L st' L' /\
    ((status = 0 /\ vaddr mod 4096 = paddr mod 4096 /\
      maps_range pgd (vaddr - vaddr mod 4096) (paddr - paddr mod 4096) f 0
        (if size =? 0 then 0 else span_pages vaddr size) st st' /\
      range_unmapped pgd (vaddr - vaddr mod 4096) (if size =? 0 then 0 else span_pages vaddr size) st /\
      range_distinct (vaddr - vaddr mod 4096) (if size =? 0 then 0 else span_pages vaddr size)) \/
     (status = -1 /\ forall v, vmm_leaf_entry st' pgd v = vmm_leaf_entry st pgd v)).
Proof.
  intros Hi Hv Hp Hs. unfold vmm_map_range.
  assert (Hxor : Z.lxor vaddr paddr &? (PAGE_SIZE - 1) = negb (vaddr mod 4096 =? paddr mod 4096)).
  { unfold has_bits, PAGE_SIZE. change (4096 - 1) with (2 ^ 12 - 1).
    rewrite land_low_mask by lia. f_equal. change 4096 with (2 ^ 12).
    apply eq_true_iff_eq. rewrite !Z.eqb_eq. rewrite <- !(Z.land_ones _ 12) by lia. split.
    - intros E. apply Z.lxor_eq. rewrite <- E. apply Z.bits_inj'. intros i Hi'.
      rewrite Z.lxor_spec, !Z.land_spec, Z.lxor_spec.
      by destruct (Z.testbit vaddr i), (Z.testbit paddr i), (Z.testbit (Z.ones 12) i).
    - intros E. apply Z.bits_inj'. intros i Hi'. rewrite Z.bits_0, Z.land_spec, Z.lxor_spec.
      assert (Z.testbit (Z.land vaddr (Z.ones 12)) i = Z.testbit (Z.land paddr (Z.ones 12)) i) as E'
        by (by rewrite E).
      rewrite !Z.land_spec in E'.
      by destruct (Z.testbit vaddr i), (Z.testbit paddr i), (Z.testbit (Z.ones 12) i). }
  rewrite Hxor. destruct (pi_tab _ _ _ Hi _ _ (pi_root _ _ _ Hi)) as (_ & _ & Hp0 & _).
  case_if.
  { intros [= <- <-]. exists L. split_and!; eauto using grows_refl. }
  destruct (Z.eqb_spec size 0) as [->|Hnz].
  { intros [= <- <-]. exists L. split_and!; eauto using grows_refl. left. split_and!; auto.
    - split; [lia|done].
    - intros i Hi'. lia.
    - intros i j Hij Hj. lia. }
  rewrite !page_align_down_spec by done.
  replace (vaddr - (vaddr - vaddr mod 4096)) with (vaddr mod 4096) by lia.
  destruct (page_span _ _) as [e|] eqn:Es.
  2: { intros [= <- <-]. exists L. split_and!; eauto using grows_refl. }
  apply page_span_Some in Es as (Hs0 & Ee & Hmax); [|apply Z.mod_pos_bound; lia|done].
  fold (span_pages vaddr size) in Ee. unfold is_u64 in *.
  assert (Hn : 0 <= span_pages vaddr size).
  { unfold span_pages. pose proof (Z.mod_pos_bound vaddr 4096). apply Z.div_pos; lia. }
  case_if.
  { intros [= <- <-]. exists L. split_and!; eauto using grows_refl. }
  unfold page_offsets, PAGE_SIZE. rewrite Ee.
  replace ((span_pages vaddr size * 4096 + 4096 - 1) / 4096) with (span_pages vaddr size)
    by (Z.div_mod_to_equations; lia).
  intros Hl. rewrite Ee in *.
  assert (Hva : 0 <= vaddr - vaddr mod 4096 /\ (vaddr - vaddr mod 4096) mod 4096 = 0)
    by (Z.div_mod_to_equations; lia).
  assert (Hpa : 0 <= paddr - paddr mod 4096) by (Z.div_mod_to_equations; lia).
  destruct (map_loop_spec pgd (vaddr - vaddr mod 4096) (paddr - paddr mod 4096) f
    (span_pages vaddr size) (span_pages vaddr size) Hn 0 st L st L status st')
    as (L' & Hi' & G' & Hres); auto; try lia.
  - split; [lia|done].
  - intros i Hi'. lia.
  - intros i j Hij Hj. lia.
  - exists L'. split_and!; auto. destruct Hres as [(? & ? & ? & ?)|?]; [left|by right].
    split_and!; auto.
Qed.

(** ** Translation of a mapped range *)

Lemma page_descriptor_addr p f : Z.land (page_descriptor p f) DESC_ADDR_MASK = Z.land p DESC_ADDR_MASK.
Proof.
  unfold page_descriptor.
  repeat match goal with |- context [if ?b then _ else _] => destruct b end;
    rewrite !Z.land_lor_distr_l, <- Z.land_assoc, Z.land_diag;
    repeat match goal with |- context [Z.land ?c DESC_ADDR_MASK] =>
      lazymatch c with p => fail | _ => change (Z.land c DESC_ADDR_MASK) with 0 end end;
    by rewrite ?Z.lor_0_r.
Qed.

Lemma lor_page_offset p o : p mod 4096 = 0 -> 0 <= o < 4096 -> Z.lor p o = p + o.
Proof.
  intros Hp Ho. symmetry. rewrite <- Z.lxor_lor.
  - apply Z.add_nocarry_lxor. apply Z.bits_inj'. intros i Hi. rewrite Z.land_spec, Z.bits_0.
    destruct (Z.lt_ge_cases i 12).
    + rewrite <- (Z.mod_pow2_bits_low p 12) by lia. change (2 ^ 12) with 4096.
      rewrite Hp. by rewrite Z.bits_0.
    + rewrite (testbit_above o 12) by lia. apply andb_false_r.
  - apply Z.bits_inj'. intros i Hi. rewrite Z.land_spec, Z.bits_0.
    destruct (Z.lt_ge_cases i 12).
    + rewrite <- (Z.mod_pow2_bits_low p 12) by lia. change (2 ^ 12) with 4096.
      rewrite Hp. by rewrite Z.bits_0.
    + rewrite (testbit_above o 12) by lia. apply andb_false_r.
Qed.

Lemma page_descriptor_page p f : e_table (page_descriptor p f) = true.
Proof.
  rewrite e_table_bit. unfold page_descriptor.
  repeat match goal with |- context [if ?b then _ else _] => destruct b end;
    rewrite !Z.lor_spec; change (Z.testbit DESC_PAGE 1) with true; rewrite !orb_true_r; done.
Qed.

Lemma virt_to_phys_desc st pgd v p f :
  p mod 4096 = 0 -> 0 <= p < 2 ^ 48 -> vmm_leaf_entry st pgd v = page_descriptor p f ->
  vmm_virt_to_phys st pgd v = p + v mod 4096.
Proof.
  intros Hm Hp E. unfold vmm_virt_to_phys. rewrite E.
  fold (e_valid (page_descriptor p f)). rewrite page_descriptor_valid.
  change (page_descriptor p f &? DESC_PAGE) with (e_table (page_descriptor p f)).
  rewrite page_descriptor_page. simpl. rewrite page_descriptor_addr, addr_mask_page by done.
  unfold PAGE_SIZE. change (4096 - 1) with (2 ^ 12 - 1). rewrite land_low_mask by lia.
  apply lor_page_offset; [done|]. apply Z.mod_pos_bound. lia.
Qed.

Lemma maps_range_translates pgd va pa f n st0 st o :
  maps_range pgd va pa f 0 n st0 st -> va mod 4096 = 0 -> pa mod 4096 = 0 -> 0 <= pa ->
  pa + n * 4096 <= 2 ^ 48 -> 0 <= o < n * 4096 ->
  vmm_virt_to_phys st pgd (va + o) = pa + o.
Proof.
  intros [Ha _] Hvm Hpm Hp0 Hpx Ho.
  assert (Hq : 0 <= o / 4096 < n) by (Z.div_mod_to_equations; lia).
  rewrite (virt_to_phys_desc st pgd (va + o) (pa + o / 4096 * 4096) f).
  - Z.div_mod_to_equations. lia.
  - rewrite Z.mod_add by lia. done.
  - Z.div_mod_to_equations. lia.
  - apply Ha; [done|]. unfold vpn. f_equal. Z.div_mod_to_equations. lia.
Qed.

(** ** Unmapping a range *)

Lemma unmap_loop_spec pgd L va n m : 0 <= m -> forall k st status st',
  0 <= k -> k + m = n -> va mod 4096 = 0 -> 0 <= va -> va + n * 4096 <= UINT64_MAX ->
  pt_inv st pgd L ->
  unmap_loop pgd va ((fun i => i * 4096) <$> seqZ k m) st = (status, st') ->
  pt_inv st' pgd L /\ grows st L st' L /\
  exists j, k <= j <= n /\ (status = 0 -> j = n) /\ (status = 0 \/ status = -1) /\
    (status <> 0 -> j < n /\ e_valid (vmm_leaf_entry st' pgd (va + j * 4096)) = false) /\
    (forall i v, k <= i < j -> vpn (va + i * 4096) = vpn v -> vmm_leaf_entry st' pgd v = 0) /\
    (forall v, (forall i, k <= i < j -> vpn (va + i * 4096) <> vpn v) ->
       vmm_leaf_entry st' pgd v = vmm_leaf_entry st pgd v).
Proof.
  intros Hm. pattern m. revert m Hm. apply natlike_ind.
  { intros k st status st' Hk Hkn Hvm Hv0 Hvx Hi. simpl. intros [= <- <-].
    split_and!; eauto using grows_refl. exists n. split_and!; auto; try lia; done. }
  intros m Hm IH k st status st' Hk Hkn Hvm Hv0 Hvx Hi.
  rewrite seqZ_cons, Z.pred_succ by lia. simpl. unfold UINT64_MAX in *. rewrite u64_id by lia.
  destruct (vmm_unmap_page _ _ _) as [s1 st1] eqn:E1.
  destruct (vmm_unmap_page_spec st pgd L _ _ _ Hi E1) as (Hi1 & G1 & Hres).
  rewrite Z.mod_add, Hvm in Hres by lia. simpl in Hres.
  destruct (e_valid (vmm_leaf_entry st pgd (va + k * 4096))) eqn:Ev.
  - destruct Hres as [-> Hst]. simpl. intros Hl. replace (Z.succ k) with (k + 1) in Hl by lia.
    destruct (IH (k + 1) st1 status st') as (Hi2 & G2 & j & Hj & Hs & Hss & Hbad & Hin & Hout); auto; try lia.
    split_and!; [done|by eapply grows_trans|]. exists j. split_and!; auto; try lia.
    + intros i v Hij E.
      destruct (range_hit_dec va (k + 1) j v) as [(i' & Hi' & E')|Hno]; [by apply (Hin i')|].
      rewrite Hout by done. rewrite Hst.
      destruct (Z.eq_dec i k) as [->|]; [by rewrite (proj2 (Z.eqb_eq _ _) E)|].
      destruct (Hno i); [lia|done].
    + intros v Hv. rewrite Hout by (intros i Hi'; apply Hv; lia). rewrite Hst.
      destruct (Z.eqb_spec (vpn (va + k * 4096)) (vpn v)) as [E|]; [|done].
      destruct (Hv k); [|done]. lia.
  - destruct Hres as [-> ->]. simpl. intros [= <- <-]. split_and!; auto.
    exists k. split_and!; auto; try lia.
    intros _. split; [lia|done].
Qed.

Lemma vmm_unmap_range_spec st pgd L vaddr size status st' :
  pt_inv st pgd L -> is_u64 vaddr -> is_u64 size ->
  vmm_unmap_range pgd vaddr size st = (status, st') ->
  pt_inv st' pgd L /\ grows st L st' L /\ (status = 0 \/ status = -1) /\
  (status = 0 -> forall i v, 0 <= i < (if size =? 0 then 0 else span_pages vaddr size) ->
     vpn (vaddr - vaddr mod 4096 + i * 4096) = vpn v -> vmm_leaf_entry st' pgd v = 0) /\
  (forall v, (forall i, 0 <= i < (if size =? 0 then 0 else span_pages vaddr size) ->
     vpn (vaddr - vaddr mod 4096 + i * 4096) <> vpn v) ->
     vmm_leaf_entry st' pgd v = vmm_leaf_entry st pgd v) /\
  (forall v, vmm_leaf_entry st' pgd v = 0 \/ vmm_leaf_entry st' pgd v = vmm_leaf_entry st pgd v).
Proof.
  intros Hi Hv Hs. unfold vmm_unmap_range.
  destruct (pi_tab _ _ _ Hi _ _ (pi_root _ _ _ Hi)) as (_ & _ & Hp0 & _).
  rewrite (proj2 (Z.eqb_neq pgd 0)) by lia.
  destruct (Z.eqb_spec size 0) as [->|Hnz].
  { intros [= <- <-]. split_and!; eauto using grows_refl. lia. }
  rewrite page_align_down_spec by done.
  replace (vaddr - (vaddr - vaddr mod 4096)) with (vaddr mod 4096) by lia.
  destruct (page_span _ _) as [e|] eqn:Es.
  2: { intros [= <- <-]. split_and!; eauto using grows_refl. lia. }
  apply page_span_Some in Es as (Hs0 & Ee & Hmax); [|apply Z.mod_pos_bound; lia|done].
  fold (span_pages vaddr size) in Ee. unfold is_u64 in *.
  assert (Hn : 0 <= span_pages vaddr size).
  { unfold span_pages. pose proof (Z.mod_pos_bound vaddr 4096). apply Z.div_pos; lia. }
  case_if.
  { intros [= <- <-]. split_and!; eauto using grows_refl. lia. }
  unfold page_offsets, PAGE_SIZE. rewrite Ee in *.
  replace ((span_pages vaddr size * 4096 + 4096 - 1) / 4096) with (span_pages vaddr size)
    by (Z.div_mod_to_equations; lia).
  intros Hl.
  assert (Hva : 0 <= vaddr - vaddr mod 4096 /\ (vaddr - vaddr mod 4096) mod 4096 = 0)
    by (Z.div_mod_to_equations; lia).
  destruct (unmap_loop_spec pgd L (vaddr - vaddr mod 4096) (span_pages vaddr size)
    (span_pages vaddr size) Hn 0 st status st')
    as (Hi' & G' & j & Hj & Hjn & Hst & _ & Hin & Hout); auto; try lia.
  split_and!; auto.
  - intros Hst0. rewrite (Hjn Hst0) in Hin. done.
  - intros v Hv'. apply Hout. intros i Hi''. apply Hv'. lia.
  - intros v. destruct (range_hit_dec (vaddr - vaddr mod 4096) 0 j v) as [(i & Hi0 & Ei)|Hno]; eauto.
Qed.

End Ranges.

(** * Tearing a hierarchy down *)

Section Teardown.
Context {A : Type} `{PageAllocatorLaws A}.
Implicit Types (st : mach A) (L : gmap Z nat).

(** [q] is [t] or a table reachable from it through [d] levels of table
    descriptors. *)
Fixpoint subtable (ram : gmap Z Z) (d : nat) (t q : Z) : Prop :=
  q = t \/
  match d with
  | O => False
  | S d' => exists i, 0 <= i < 512 /\ e_valid (entry ram t i) = true /\
      e_table (entry ram t i) = true /\ subtable ram d' (e_child (entry ram t i)) q
  end.

Lemma subtable_refl ram d t : subtable ram d t t.
Proof. destruct d; by left. Qed.

(** What releasing the tables [F] of a machine state must achieve. *)
Definition freed st (F : Z -> Prop) st' : Prop :=
  pa_inv (m_pa st') /\ m_ram st' = m_ram st /\
  (forall q, pa_managed (m_pa st') q <-> pa_managed (m_pa st) q) /\
  (forall q, pa_avail (m_pa st') q <-> pa_avail (m_pa st) q \/ F q).

Definition releasable st (F : Z -> Prop) : Prop :=
  forall q, F q -> q <> 0 /\ pa_managed (m_pa st) q.

(** The tables below the first [n] entries of [t]. *)
Definition below (ram : gmap Z Z) (d : nat) (t n q : Z) : Prop :=
  exists i, 0 <= i < n /\ e_valid (entry ram t i) = true /\
    e_table (entry ram t i) = true /\ subtable ram d (e_child (entry ram t i)) q.

(** The loop body of free_table_level. *)
Definition free_child (d : nat) (t i : Z) st : mach A :=
  let e := entry (m_ram st) t i in
  if (e &? DESC_VALID) && (e &? DESC_TABLE)
  then free_table_level d (Z.land e DESC_ADDR_MASK) st else st.

Lemma free_table_level_S d t st :
  t <> 0 ->
  free_table_level (S d) t st =
  let st1 := for_range 0 TABLE_ENTRIES (free_child d t) st in
  Mach (free_page t (m_pa st1)) (m_ram st1).
Proof. intros Ht. cbn [free_table_level]. by rewrite (proj2 (Z.eqb_neq t 0)) by done. Qed.

Lemma free_children_spec d t st n :
  (forall t st, pa_inv (m_pa st) -> t <> 0 -> releasable st (subtable (m_ram st) d t) ->
     freed st (subtable (m_ram st) d t) (free_table_level d t st)) ->
  0 <= n -> pa_inv (m_pa st) -> releasable st (below (m_ram st) d t n) ->
  freed st (below (m_ram st) d t n) (for_range 0 n (free_child d t) st).
Proof.
  intros IH Hn Hpa Hsub.
  apply (for_range_ind (fun n st1 => freed st (below (m_ram st) d t n) st1)); [done| |].
  { split_and!; auto; try done. intros q. split; [auto|]. intros [?|(i & ? & _)]; [done|lia]. }
  intros k st1 Hk (Hp1 & Hr1 & Hm1 & Ha1). unfold free_child. rewrite Hr1.
  fold (e_valid (entry (m_ram st) t k)) (e_table (entry (m_ram st) t k))
    (e_child (entry (m_ram st) t k)).
  destruct (e_valid (entry (m_ram st) t k) && e_table (entry (m_ram st) t k)) eqn:Evt.
  - apply andb_true_iff in Evt as [Ev Et].
    destruct (IH (e_child (entry (m_ram st) t k)) st1) as (Hp2 & Hr2 & Hm2 & Ha2); auto.
    + apply Hsub. exists k. split_and!; auto using subtable_refl; lia.
    + intros q. rewrite Hr1. intros Hq. rewrite Hm1. apply Hsub. exists k. auto.
    + split_and!; auto; [congruence|intros q; by rewrite Hm2|].
      intros q. rewrite Ha2, Ha1, Hr1. split.
      * intros [[?|(i & ? & ?)]|?]; [auto|right; exists i; split; [lia|done]|].
        right. exists k. split_and!; auto; lia.
      * intros [?|(i & Hi & E1 & E2 & ?)]; [auto|].
        destruct (Z.eq_dec i k) as [->|]; [auto|]. left. right. exists i. split; [lia|done].
  - split_and!; auto. intros q. rewrite Ha1. split.
    + intros [?|(i & ? & ?)]; [auto|]. right. exists i. split; [lia|done].
    + intros [?|(i & Hi & E1 & E2 & ?)]; [auto|]. right. exists i. split; [|done].
      destruct (Z.eq_dec i k) as [->|]; [|lia]. rewrite E1, E2 in Evt. done.
Qed.

(** free_table_level releases exactly the tables below its argument. *)
Lemma free_table_level_spec d : forall t st,
  pa_inv (m_pa st) -> t <> 0 -> releasable st (subtable (m_ram st) d t) ->
  freed st (subtable (m_ram st) d t) (free_table_level d t st).
Proof.
  induction d as [|d IH]; intros t st Hpa Ht Hsub.
  { cbn [free_table_level]. rewrite (proj2 (Z.eqb_neq t 0)) by done.
    destruct (free_page_law t (m_pa st) Hpa Ht) as (Ha & Hm & Hv).
    destruct (Hsub t) as [_ Hmt]; [by left|]. split_and!; auto. cbn [m_pa m_ram].
    intros q. rewrite Hv. simpl. split; [intros [?|[-> _]]; auto|intros [?|[->|[]]]; auto]. }
  rewrite free_table_level_S by done.
  destruct (free_children_spec d t st TABLE_ENTRIES IH) as (Hp1 & Hr1 & Hm1 & Ha1); auto.
  { unfold TABLE_ENTRIES. lia. }
  { intros q Hq. apply Hsub. right. exact Hq. }
  generalize dependent (for_range 0 TABLE_ENTRIES (free_child d t) st). intros st1 Hp1 Hr1 Hm1 Ha1.
  destruct (free_page_law t _ Hp1 Ht) as (Hp2 & Hm2 & Ha2).
  split_and!; auto; cbn [m_pa m_ram].
  { intros q. by rewrite Hm2. }
  destruct (Hsub t (subtable_refl _ _ _)) as [_ Hmt].
  intros q. rewrite Ha2, Ha1, Hm1. cbn [subtable]. unfold below.
  split; [intros [[?|?]|[-> _]]; auto|intros [?|[->|?]]; auto].
Qed.

(** ** The tables of a well-formed hierarchy are those reachable from its root *)

Lemma subtable_in_L st pgd L d : forall l t q,
  pt_inv st pgd L -> L !! t = Some l -> (l + d = 3)%nat -> subtable (m_ram st) d t q ->
  is_Some (L !! q).
Proof.
  induction d as [|d IH]; intros l t q Hi Ht Hl [->|Hs]; eauto; [done|].
  destruct Hs as (i & Hi' & Hv & _ & Hs).
  destruct (pi_child _ _ _ Hi t l i) as [_ Hc]; auto; [lia|].
  eapply (IH (S l)); eauto. lia.
Qed.

Lemma subtable_child st pgd L d : forall l t q lq i,
  pt_inv st pgd L -> L !! t = Some l -> (l + d = 3)%nat -> subtable (m_ram st) d t q ->
  L !! q = Some lq -> (lq < 3)%nat -> 0 <= i < 512 -> e_valid (entry (m_ram st) q i) = true ->
  subtable (m_ram st) d t (e_child (entry (m_ram st) q i)).
Proof.
  induction d as [|d IH]; intros l t q lq i Hi Ht Hl Hs Hq Hlq Hi' Hv.
  { destruct Hs as [->|[]]. assert (lq = l) by congruence. lia. }
  right. destruct Hs as [->|(j & Hj & Hvj & Htj & Hs)].
  - exists i. split_and!; auto using subtable_refl; try lia. by eapply pi_child.
  - exists j. split_and!; auto; try lia.
    destruct (pi_child _ _ _ Hi t l j) as [_ Hc]; auto; [lia|].
    eapply (IH (S l)); eauto. lia.
Qed.

Lemma subtable_all st pgd L q :
  pt_inv st pgd L -> subtable (m_ram st) 3 pgd q <-> is_Some (L !! q).
Proof.
  intros Hi. split.
  - exact (subtable_in_L st pgd L 3 0 pgd q Hi (pi_root _ _ _ Hi) eq_refl).
  - intros [l Hl]. revert q Hl. induction l as [|l IH]; intros q Hl.
    + rewrite (pi_only_root _ _ _ Hi q Hl). apply subtable_refl.
    + destruct (pi_parent _ _ _ Hi q l Hl) as (t & i & Ht & Hi' & Hv & <-).
      apply (subtable_child st pgd L 3 0 pgd t l i Hi (pi_root _ _ _ Hi) eq_refl); auto.
      destruct (pi_tab _ _ _ Hi _ _ Hl). lia.
Qed.

Lemma vmm_free_table_spec st pgd L :
  pt_inv st pgd L -> freed st (fun q => is_Some (L !! q)) (vmm_free_table pgd st).
Proof.
  intros Hi. destruct (pi_tab _ _ _ Hi _ _ (pi_root _ _ _ Hi)) as (_ & _ & Hp0 & _).
  destruct (free_table_level_spec 3 pgd st) as (Hp & Hr & Hm & Ha); [apply Hi|lia| |].
  - intros q Hq. apply (subtable_all st pgd L q Hi) in Hq as [l Hl].
    destruct (pi_tab _ _ _ Hi _ _ Hl) as (_ & _ & ? & _ & _ & ?). split; [lia|done].
  - split_and!; auto. intros q. unfold vmm_free_table. rewrite Ha.
    by rewrite (subtable_all st pgd L q Hi).
Qed.

(** ** A new root *)

Lemma new_root_inv st r st' :
  pa_inv (m_pa st) -> vmm_new_table st = (r, st') -> r <> 0 ->
  pt_inv st' r {[r := 0%nat]} /\ forall v, vmm_leaf_entry st' r v = 0.
Proof.
  intros Hpa E Hr. destruct (new_table_spec _ _ _ Hpa E) as [[? _]|(_ & Hp' & Hav & Hm & Ha & Hz & _)]; [done|].
  destruct (avail_addr _ _ Hpa Hav) as (Hr1 & Hr2 & Hr3).
  assert (Hno : forall i, 0 <= i < 512 -> e_valid (entry (m_ram st') r i) = false).
  { intros i Hi. by rewrite Hz. }
  assert (Hi : pt_inv st' r {[r := 0%nat]}).
  { split; auto.
    - by rewrite lookup_singleton_eq.
    - intros t l [<- <-]%lookup_singleton_Some. split_and!; auto; try lia.
      + rewrite Ha. tauto.
      + rewrite Hm. by apply avail_managed.
    - intros t l i [<- <-]%lookup_singleton_Some _ Hi Hv. by rewrite Hno in Hv.
    - intros t l i t' l' i' [<- <-]%lookup_singleton_Some _ _ _ Hi _ Hv. by rewrite Hno in Hv.
    - intros c l [_ ?]%lookup_singleton_Some. done.
    - intros t [<- _]%lookup_singleton_Some. done.
    - intros t i [_ ?]%lookup_singleton_Some. done. }
  split; [done|]. intros v. rewrite (leaf_entry_from st' r _ v Hi). unfold entry_from. simpl.
  by rewrite Hno by (apply table_index_range; lia).
Qed.

End Teardown.

(** * Kernel identity mapping *)

Section Kernel.
Context {A : Type} `{PageAllocatorLaws A}.
Implicit Types (st : mach A) (L : gmap Z nat).

(** What every valid leaf of the kernel's identity map satisfies: the physical
    page is the virtual one, EL0 has no access, and the page is read-only or
    not executable at any level. *)
Definition kernel_leaf (v e : Z) : Prop :=
  e_valid e = true ->
  e_table e = true /\ e_child e = vpn v * 4096 /\ Z.testbit e 6 = false /\
  (Z.testbit e 7 = true \/ (Z.testbit e 53 = true /\ Z.testbit e 54 = true)).

Definition kernel_map st (pgd : Z) : Prop := forall v, kernel_leaf v (vmm_leaf_entry st pgd v).

(** Kernel mapping flags: not user, and writable only when not executable. *)
Definition kernel_flags (f : Z) : bool :=
  negb (f &? VMM_FLAG_USER) && negb ((f &? VMM_FLAG_WRITE) && (f &? VMM_FLAG_EXEC)).

Lemma addr_mask_vpn a : a mod 4096 = 0 -> 0 <= a -> Z.land a DESC_ADDR_MASK = vpn a * 4096.
Proof.
  intros Hm Ha.
  assert (E : vpn a * 4096 = a mod 2 ^ 48).
  { unfold vpn. change (2 ^ 48) with (4096 * 2 ^ 36). rewrite Z.rem_mul_r by lia.
    rewrite Hm. lia. }
  rewrite E. apply Z.bits_inj'. intros i Hi.
  rewrite Z.land_spec, addr_mask_bit by done.
  destruct (Z.ltb_spec i 48).
  - rewrite Z.mod_pow2_bits_low by lia. rewrite andb_true_r.
    destruct (Z.leb_spec 12 i); [by rewrite andb_true_r|].
    rewrite <- (Z.mod_pow2_bits_low a 12) by lia. change (2 ^ 12) with 4096.
    by rewrite Hm, Z.bits_0.
  - rewrite Z.mod_pow2_bits_high by lia. by rewrite !andb_false_r.
Qed.

Lemma kernel_leaf_descriptor a v f :
  a mod 4096 = 0 -> 0 <= a -> vpn a = vpn v -> kernel_flags f = true ->
  kernel_leaf v (page_descriptor a f).
Proof.
  intros Hm Ha Hv Hf _. split; [apply page_descriptor_page|]. unfold e_child. rewrite page_descriptor_addr, addr_mask_vpn, Hv by done.
  split; [done|]. unfold kernel_flags in Hf. unfold page_descriptor.
  assert (Hbit : forall b, b < 12 \/ 48 <= b -> 0 <= b -> Z.testbit (Z.land a DESC_ADDR_MASK) b = false).
  { intros b Hb Hb0. rewrite Z.land_spec, addr_mask_bit by done.
    destruct (Z.leb_spec 12 b), (Z.ltb_spec b 48); simpl; try lia; by rewrite andb_false_r. }
  destruct (f &? VMM_FLAG_USER), (f &? VMM_FLAG_WRITE), (f &? VMM_FLAG_EXEC), (f &? VMM_FLAG_DEVICE);
    try discriminate Hf; cbn -[Z.testbit Z.lor DESC_ADDR_MASK]; rewrite !Z.lor_spec;
    rewrite !(Hbit 6), !(Hbit 7), !(Hbit 53), !(Hbit 54) by lia; split; auto.
Qed.

(** Mapping with kernel flags, successful or not, keeps the kernel map and the
    mappings it already had. *)
Definition kernel_step (pgd : Z) st L st' L' : Prop :=
  pt_inv st' pgd L' /\ kernel_map st' pgd /\
  forall v, e_valid (vmm_leaf_entry st pgd v) = true ->
    vmm_leaf_entry st' pgd v = vmm_leaf_entry st pgd v.

Lemma kernel_step_refl pgd st L : pt_inv st pgd L -> kernel_map st pgd -> kernel_step pgd st L st L.
Proof. intros Hi Hk. split_and!; auto. Qed.

Lemma kernel_step_trans pgd st L st1 L1 st2 L2 :
  kernel_step pgd st L st1 L1 -> kernel_step pgd st1 L1 st2 L2 -> kernel_step pgd st L st2 L2.
Proof.
  intros (Hi1 & Hk1 & Hs1) (Hi2 & Hk2 & Hs2). split_and!; auto.
  intros v Hv. rewrite Hs2 by (by rewrite Hs1). by apply Hs1.
Qed.

Definition translates_identically st (pgd lo hi : Z) : Prop :=
  forall v, lo <= v < hi -> hi <= 2 ^ 48 -> vmm_virt_to_phys st pgd v = v.

Lemma kernel_map_range st pgd L a size f :
  pt_inv st pgd L -> kernel_map st pgd -> is_u64 a -> is_u64 size -> kernel_flags f = true ->
  let '(status, st') := vmm_map_range pgd a a size f st in
  exists L', kernel_step pgd st L st' L' /\
    (status = 0 -> forall v, a <= v < a + size -> e_valid (vmm_leaf_entry st' pgd v) = true).
Proof.
  intros Hi Hk Ha Hs Hf. destruct (vmm_map_range _ _ _ _ _ _) as [status st'] eqn:E.
  destruct (vmm_map_range_spec st pgd L a a size f status st' Hi Ha Ha Hs E)
    as (L' & Hi' & _ & [(-> & _ & [Hin Hout] & Hun & _)|[-> Hsame]]); exists L'.
  2: { split; [|done]. split_and!; auto. intros v. rewrite Hsame. apply Hk. }
  set (n := if size =? 0 then 0 else span_pages a size) in *.
  assert (Hal : (a - a mod 4096) mod 4096 = 0 /\ 0 <= a - a mod 4096)
    by (unfold is_u64 in *; Z.div_mod_to_equations; lia).
  split; [split_and!; auto|].
  - intros v. destruct (range_hit_dec (a - a mod 4096) 0 n v) as [(i & Hi0 & Ei)|Hno].
    + rewrite (Hin i) by done. apply kernel_leaf_descriptor; auto; [|lia].
      rewrite Z.mod_add by lia. apply Hal.
    + rewrite Hout by done. apply Hk.
  - intros v Hv. apply Hout. intros i Hi0 Ei.
    rewrite <- (leaf_entry_vpn st pgd L _ _ Hi Ei), Hun in Hv by done. done.
  - intros _ v Hv. rewrite (Hin ((v - (a - a mod 4096)) / 4096) v).
    + apply page_descriptor_valid.
    + unfold n, span_pages. destruct (Z.eqb_spec size 0); [lia|].
      Z.div_mod_to_equations. lia.
    + unfold vpn. f_equal. Z.div_mod_to_equations. lia.
Qed.

(** The same for the conditional steps of vmm_map_kernel_identity. *)
Lemma kernel_map_range_if (b : bool) st pgd L a size f :
  pt_inv st pgd L -> kernel_map st pgd -> is_u64 a -> (b = true -> is_u64 size) ->
  kernel_flags f = true ->
  let '(status, st') := if b then vmm_map_range pgd a a size f st else (0, st) in
  exists L', kernel_step pgd st L st' L' /\
    (status = 0 -> b = true -> forall v, a <= v < a + size -> e_valid (vmm_leaf_entry st' pgd v) = true).
Proof.
  intros. destruct b.
  - pose proof (kernel_map_range st pgd L a size f) as Hr.
    destruct (vmm_map_range _ _ _ _ _ _). destruct Hr as (L' & ? & ?); auto. exists L'. auto.
  - exists L. split; [by apply kernel_step_refl|done].
Qed.

Lemma kernel_map_page st pgd L a f :
  pt_inv st pgd L -> kernel_map st pgd -> 0 <= a -> kernel_flags f = true ->
  exists L', kernel_step pgd st L (snd (vmm_map_page pgd a a f st)) L'.
Proof.
  intros Hi Hk Ha Hf. destruct (vmm_map_page _ _ _ _ _) as [status st'] eqn:E. simpl.
  destruct (vmm_map_page_spec st pgd L _ _ _ _ _ Hi E) as (L' & Hi' & _ & Hpost). exists L'.
  destruct Hpost as [(_ & Hal & _ & Hbad & Hst)|[_ Hsame]].
  - split_and!; auto.
    + intros v. rewrite Hst. destruct (Z.eqb_spec (vpn a) (vpn v)); [|apply Hk].
      by apply kernel_leaf_descriptor.
    + intros v Hv. rewrite Hst. destruct (Z.eqb_spec (vpn a) (vpn v)) as [Ev|]; [|done].
      rewrite <- (leaf_entry_vpn st pgd L _ _ Hi Ev), Hbad in Hv. done.
  - split_and!; auto. intros v. rewrite Hsame. apply Hk.
Qed.

Lemma kernel_map_device pgd st L a size r :
  (exists L1, kernel_step pgd st L (snd r) L1) -> is_u64 a -> is_u64 size ->
  exists L', kernel_step pgd st L (snd (map_device pgd a size r)) L'.
Proof.
  intros [L1 H1] Ha Hs. destruct r as [status st1]. simpl in *. destruct (status =? 0); [|eauto].
  destruct H1 as (Hi1 & Hk1 & Hs1).
  pose proof (kernel_map_range st1 pgd L1 a size DEVICE_RW Hi1 Hk1 Ha Hs eq_refl) as Hr.
  destruct (vmm_map_range _ _ _ _ _ _). destruct Hr as (L' & H2 & _). exists L'.
  eapply kernel_step_trans; [|exact H2]. split_and!; eauto.
Qed.

Lemma board_map_mmio_kernel st pgd L :
  pt_inv st pgd L -> kernel_map st pgd ->
  exists L', kernel_step pgd st L (snd (board_map_mmio pgd st)) L'.
Proof.
  intros Hi Hk. unfold board_map_mmio.
  repeat (apply kernel_map_device; [|vm_compute; split; congruence..]).
  by apply kernel_map_page.
Qed.

Lemma kernel_map_translates st pgd v :
  kernel_map st pgd -> 0 <= v < 2 ^ 48 -> e_valid (vmm_leaf_entry st pgd v) = true ->
  vmm_virt_to_phys st pgd v = v.
Proof.
  intros Hk Hv He. destruct (Hk v He) as (Ht & Hc & _). unfold vmm_virt_to_phys.
  fold (e_valid (vmm_leaf_entry st pgd v)) (e_child (vmm_leaf_entry st pgd v)).
  change (vmm_leaf_entry st pgd v &? DESC_PAGE) with (e_table (vmm_leaf_entry st pgd v)).
  rewrite He, Ht, Hc. cbn [negb orb]. unfold PAGE_SIZE.
  change (4096 - 1) with (2 ^ 12 - 1). rewrite land_low_mask by lia. change (2 ^ 12) with 4096.
  rewrite lor_page_offset by (rewrite ?Z.mod_mul by lia; try apply Z.mod_pos_bound; lia).
  unfold vpn. rewrite Z.mod_small by (Z.div_mod_to_equations; lia). Z.div_mod_to_equations. lia.
Qed.

Lemma page_align_up_u64 x : is_u64 (page_align_up x).
Proof. unfold page_align_up. apply land_lor_bound; [lia|apply u64_range|apply not64_range]. Qed.

(** One step of vmm_map_kernel_identity followed by its error return. *)
Definition kernel_seq (r : Z * mach A) (k : mach A -> Z * mach A) : Z * mach A :=
  let '(s, st) := r in if negb (s =? 0) then (-1, st) else k st.

Definition mapped (pgd lo hi : Z) st : Prop :=
  forall v, lo <= v < hi -> e_valid (vmm_leaf_entry st pgd v) = true.

(** The state after [r] extends the kernel map of [st], and a zero status
    gives [Q]. *)
Definition kernel_result (pgd : Z) st L (r : Z * mach A) (Q : mach A -> Prop) : Prop :=
  exists L', kernel_step pgd st L (snd r) L' /\ (fst r = 0 -> Q (snd r)).

Lemma kernel_seq_spec (b : bool) pgd a size f st L k (Q : mach A -> Prop) :
  pt_inv st pgd L -> kernel_map st pgd -> is_u64 a -> (b = true -> is_u64 size) ->
  kernel_flags f = true ->
  (forall st1 L1, pt_inv st1 pgd L1 -> kernel_map st1 pgd -> kernel_result pgd st1 L1 (k st1) Q) ->
  kernel_result pgd st L (kernel_seq (if b then vmm_map_range pgd a a size f st else (0, st)) k)
    (fun st' => (b = true -> mapped pgd a (a + size) st') /\ Q st').
Proof.
  intros Hi Hkm Ha Hs Hf Hk. unfold kernel_seq.
  pose proof (kernel_map_range_if b st pgd L a size f Hi Hkm Ha Hs Hf) as Hr.
  destruct (if b then _ else _) as [s st1]. destruct Hr as (L1 & Hst1 & Hmapped).
  destruct (Z.eqb_spec s 0) as [->|]; [|by exists L1]. cbn [negb].
  destruct (Hk st1 L1) as (L2 & Hst2 & HQ); [apply Hst1..|].
  exists L2. split; [by eapply kernel_step_trans|]. intros Hz. split; [|auto].
  intros Hb v Hv. destruct Hst2 as (_ & _ & Hkeep). rewrite Hkeep; by apply Hmapped.
Qed.

Lemma kernel_identity_seq kstart text_end rodata_end data_end pgd base size mmio st :
  pgd <> 0 -> size <> 0 ->
  vmm_map_kernel_identity kstart text_end rodata_end data_end pgd base size (Some mmio) st =
  let T := page_align_up text_end in let R := page_align_up rodata_end in
  let D := page_align_up data_end in let E := u64 (base + size) in
  kernel_seq (if base <? kstart then vmm_map_range pgd base base (kstart - base)
                (Z.lor VMM_FLAG_READ VMM_FLAG_WRITE) st else (0, st)) (fun st =>
  kernel_seq (if true then vmm_map_range pgd kstart kstart (u64 (T - kstart))
                (Z.lor VMM_FLAG_READ VMM_FLAG_EXEC) st else (0, st)) (fun st =>
  kernel_seq (if T <? R then vmm_map_range pgd T T (R - T) VMM_FLAG_READ st else (0, st)) (fun st =>
  kernel_seq (if R <? D then vmm_map_range pgd R R (D - R)
                (Z.lor VMM_FLAG_READ VMM_FLAG_WRITE) st else (0, st)) (fun st =>
  kernel_seq (if D <? E then vmm_map_range pgd D D (E - D)
                (Z.lor VMM_FLAG_READ VMM_FLAG_WRITE) st else (0, st)) (fun st =>
  kernel_seq (mmio pgd st) (fun st => (0, st))))))).
Proof.
  intros Hp Hs. unfold vmm_map_kernel_identity, kernel_seq.
  rewrite (proj2 (Z.eqb_neq pgd 0)), (proj2 (Z.eqb_neq size 0)) by done. done.
Qed.

Lemma kernel_identity_spec kstart text_end rodata_end data_end pgd base size st L :
  pt_inv st pgd L -> kernel_map st pgd -> is_u64 kstart -> is_u64 base -> is_u64 size -> size <> 0 ->
  let T := page_align_up text_end in let R := page_align_up rodata_end in
  let D := page_align_up data_end in let E := u64 (base + size) in
  kernel_result pgd st L
    (vmm_map_kernel_identity kstart text_end rodata_end data_end pgd base size
       (Some board_map_mmio) st)
    (fun st' => ((base <? kstart) = true -> mapped pgd base (base + (kstart - base)) st') /\
       (true = true -> mapped pgd kstart (kstart + u64 (T - kstart)) st') /\
       ((T <? R) = true -> mapped pgd T (T + (R - T)) st') /\
       ((R <? D) = true -> mapped pgd R (R + (D - R)) st') /\
       ((D <? E) = true -> mapped pgd D (D + (E - D)) st') /\ True).
Proof.
  intros Hi Hk Hks Hb Hs Hnz T R D E.
  destruct (pi_tab _ _ _ Hi _ _ (pi_root _ _ _ Hi)) as (_ & _ & Hp0 & _).
  rewrite kernel_identity_seq by lia. fold T R D E.
  pose proof (page_align_up_u64 text_end) as HT. pose proof (page_align_up_u64 rodata_end) as HR.
  pose proof (page_align_up_u64 data_end) as HD. pose proof (u64_range (base + size)) as HE.
  pose proof (u64_range (T - kstart)) as HTk.
  fold T in HT. fold R in HR. fold D in HD. fold E in HE. unfold is_u64 in *.
  apply kernel_seq_spec; auto; [intros ?; b2p; unfold is_u64; lia|]. intros st1 L1 Hi1 Hk1.
  apply (kernel_seq_spec true); auto. intros st2 L2 Hi2 Hk2.
  apply kernel_seq_spec; auto; [intros ?; b2p; unfold is_u64; lia|]. intros st3 L3 Hi3 Hk3.
  apply kernel_seq_spec; auto; [intros ?; b2p; unfold is_u64; lia|]. intros st4 L4 Hi4 Hk4.
  apply kernel_seq_spec; auto; [intros ?; b2p; unfold is_u64; lia|]. intros st5 L5 Hi5 Hk5.
  destruct (board_map_mmio_kernel st5 pgd L5 Hi5 Hk5) as [L6 H6]. exists L6.
  unfold kernel_seq. destruct (board_map_mmio pgd st5) as [s6 st6]. simpl in H6.
  destruct (negb (s6 =? 0)); done.
Qed.
End Kernel.

(** ** Mapping and unmapping the same range *)

Section RoundTrip.
Context {A : Type} `{PageAllocatorLaws A}.
Implicit Types (st : mach A) (L : gmap Z nat).

Lemma unmap_loop_total pgd va n st1 L status st2 :
  0 <= n -> va mod 4096 = 0 -> 0 <= va -> va + n * 4096 <= UINT64_MAX -> pt_inv st1 pgd L ->
  (forall i, 0 <= i < n -> e_valid (vmm_leaf_entry st1 pgd (va + i * 4096)) = true) ->
  range_distinct va n ->
  unmap_loop pgd va ((fun i => i * 4096) <$> seqZ 0 n) st1 = (status, st2) -> status = 0.
Proof.
  intros Hn Hm H0v Hx Hi Hin Hd E.
  destruct (unmap_loop_spec pgd L va n n Hn 0 st1 status st2)
    as (_ & _ & j & Hj & _ & Hs & Hbad & _ & Hout); auto; try lia.
  destruct (Z.eq_dec status 0) as [|Hne]; [done|]. destruct (Hbad Hne) as [Hjn Hv].
  rewrite Hout, (Hin j) in Hv; try done; [lia|].
  intros i Hij. apply Hd; lia.
Qed.

(** Unmapping a page-aligned range whose pages are all mapped succeeds. *)
Lemma vmm_unmap_range_total st pgd L va n status st' :
  pt_inv st pgd L -> 0 < n -> va mod 4096 = 0 -> 0 <= va -> va + n * 4096 <= UINT64_MAX ->
  (forall i, 0 <= i < n -> e_valid (vmm_leaf_entry st pgd (va + i * 4096)) = true) ->
  range_distinct va n ->
  vmm_unmap_range pgd va (n * 4096) st = (status, st') -> status = 0.
Proof.
  intros Hi Hn Hm Hv0 Hx Hval Hd. unfold vmm_unmap_range, UINT64_MAX in *.
  destruct (pi_tab _ _ _ Hi _ _ (pi_root _ _ _ Hi)) as (_ & _ & Hp0 & _).
  rewrite (proj2 (Z.eqb_neq pgd 0)), (proj2 (Z.eqb_neq (n * 4096) 0)) by lia.
  rewrite page_align_down_spec by (unfold is_u64; lia).
  rewrite Hm, Z.sub_0_r, Z.sub_diag.
  destruct (page_span 0 (n * 4096)) as [e|] eqn:Es.
  - apply page_span_Some in Es as (_ & -> & _); [|lia|unfold is_u64; lia].
    replace ((0 + n * 4096 + 4095) / 4096 * 4096) with (n * 4096) by (Z.div_mod_to_equations; lia).
    case_if; [unfold UINT64_MAX in *; lia|]. unfold page_offsets, PAGE_SIZE.
    replace ((n * 4096 + 4096 - 1) / 4096) with n by (Z.div_mod_to_equations; lia).
    intros E. eapply (unmap_loop_total pgd va n st L); eauto; unfold UINT64_MAX; lia.
  - revert Es. unfold page_span, PAGE_SIZE, UINT64_MAX.
    destruct (Z.eqb_spec (n * 4096) 0); [lia|]. simpl.
    case_if; [lia|]. rewrite u64_id by lia. unfold has_bits. change (4096 - 1) with (2 ^ 12 - 1).
    rewrite land_low_mask by lia. change (2 ^ 12) with 4096.
    rewrite Z.add_0_l, Z.mod_mul by lia. done.
Qed.

Lemma map_unmap_range st pgd L vaddr paddr size f st1 status st2 :
  pt_inv st pgd L -> is_u64 vaddr -> is_u64 paddr -> is_u64 size ->
  vmm_map_range pgd vaddr paddr size f st = (0, st1) ->
  vmm_unmap_range pgd vaddr size st1 = (status, st2) ->
  status = 0 /\ forall v, vmm_leaf_entry st2 pgd v = vmm_leaf_entry st pgd v.
Proof.
  intros Hi Hv Hp Hs E1 E2.
  destruct (vmm_map_range_spec st pgd L _ _ _ _ _ _ Hi Hv Hp Hs E1)
    as (L1 & Hi1 & _ & [(_ & _ & Hmap & Hun & Hd)|[? _]]); [|done].
  assert (Hst : status = 0).
  { revert E1 E2. unfold vmm_unmap_range, vmm_map_range.
    destruct (pi_tab _ _ _ Hi _ _ (pi_root _ _ _ Hi)) as (_ & _ & Hp0 & _).
    rewrite (proj2 (Z.eqb_neq pgd 0)) by lia. cbn [orb].
    destruct (has_bits _ _); [done|]. destruct (Z.eqb_spec size 0); [congruence|].
    rewrite !page_align_down_spec by done.
    replace (vaddr - (vaddr - vaddr mod 4096)) with (vaddr mod 4096) by lia.
    destruct (page_span _ _) as [e|] eqn:Es; [|done].
    apply page_span_Some in Es as (Hs0 & Ee & Hmax); [|apply Z.mod_pos_bound; lia|done].
    fold (span_pages vaddr size) in Ee.
    destruct (vaddr - vaddr mod 4096 >? UINT64_MAX - e) eqn:Hb; [done|]. b2p. cbn [orb].
    unfold page_offsets, PAGE_SIZE. rewrite Ee in *.
    replace ((span_pages vaddr size * 4096 + 4096 - 1) / 4096) with (span_pages vaddr size)
      by (Z.div_mod_to_equations; lia).
    intros _. unfold is_u64 in *.
    eapply (unmap_loop_total pgd _ (span_pages vaddr size) st1 L1);
      auto; try (Z.div_mod_to_equations; lia).
    2: { intros i Hi0. rewrite (proj1 Hmap i) by done. apply page_descriptor_valid. }
    unfold span_pages. Z.div_mod_to_equations. lia. }
  subst status. split; [done|]. intros v.
  destruct (vmm_unmap_range_spec st1 pgd L1 vaddr size 0 st2 Hi1 Hv Hs E2) as (_ & _ & _ & Hz & Hout & _).
  set (n := if size =? 0 then 0 else span_pages vaddr size) in *.
  destruct (range_hit_dec (vaddr - vaddr mod 4096) 0 n v) as [(i & Hi0 & Ei)|Hno].
  - rewrite (Hz eq_refl i) by done. symmetry.
    rewrite <- (leaf_entry_vpn st pgd L _ _ Hi Ei). eapply leaf_invalid_zero; eauto.
  - rewrite Hout by done. by apply Hmap.
Qed.
End RoundTrip.
(** * Properties *)

Section Properties.
Context {A : Type} `{PageAllocatorLaws A}.

(** C2: vmm_map_range is all-or-nothing.  A zero status means that every byte
    of the range now translates to the matching physical byte and that no other
    page changed; any other status means that no translation changed at all,
    whatever the point at which a page could not be mapped.  The hierarchy stays
    well formed in both cases. *)
Theorem vmm_map_range_atomic (st : mach A) pgd L vaddr paddr size f status st' :
  pt_inv st pgd L -> is_u64 vaddr -> is_u64 paddr -> is_u64 size ->
  vmm_map_range pgd vaddr paddr size f st = (status, st') ->
  exists L', pt_inv st' pgd L' /\ grows st L st' L' /\
    ((status = 0 /\
      (paddr + size <= 2 ^ 48 - 4096 ->
         forall o, 0 <= o < size -> vmm_virt_to_phys st' pgd (vaddr + o) = paddr + o) /\
      (forall v, (forall o, 0 <= o < size -> vpn (vaddr + o) <> vpn v) ->
         vmm_leaf_entry st' pgd v = vmm_leaf_entry st pgd v)) \/
     (status = -1 /\ forall v, vmm_leaf_entry st' pgd v = vmm_leaf_entry st pgd v)).
Proof.
  intros Hi Hv Hp Hs E.
  destruct (vmm_map_range_spec st pgd L _ _ _ _ _ _ Hi Hv Hp Hs E)
    as (L' & Hi' & G & [(-> & Hal & Hmap & Hun & Hd)|Hf]); exists L'; split_and!; auto.
  left. split_and!; auto; unfold is_u64 in *.
  - intros Hpx o Ho. rewrite (proj2 (Z.eqb_neq size 0)) in Hmap by lia.
    replace (vaddr + o) with (vaddr - vaddr mod 4096 + (vaddr mod 4096 + o)) by lia.
    rewrite (maps_range_translates _ _ _ _ _ _ _ _ Hmap); unfold span_pages;
      Z.div_mod_to_equations; lia.
  - intros v Hout. apply Hmap. intros i Hi0.
    destruct (Z.eqb_spec size 0); [lia|]. unfold span_pages in Hi0.
    destruct (Z.eq_dec i 0) as [->|].
    + intros Ev. apply (Hout 0); [lia|]. rewrite <- Ev.
      unfold vpn. f_equal. Z.div_mod_to_equations. lia.
    + replace (vaddr - vaddr mod 4096 + i * 4096) with (vaddr + (i * 4096 - vaddr mod 4096)) by lia.
      apply Hout. Z.div_mod_to_equations. lia.
Qed.

(** unmapping a range that vmm_map_range just mapped succeeds and restores
    every translation of the address space. *)
Theorem vmm_map_unmap_roundtrip (st : mach A) pgd L vaddr paddr size f st1 :
  pt_inv st pgd L -> is_u64 vaddr -> is_u64 paddr -> is_u64 size ->
  vmm_map_range pgd vaddr paddr size f st = (0, st1) ->
  exists st2, vmm_unmap_range pgd vaddr size st1 = (0, st2) /\
    forall v, vmm_leaf_entry st2 pgd v = vmm_leaf_entry st pgd v.
Proof.
  intros Hi Hv Hp Hs E1. destruct (vmm_unmap_range pgd vaddr size st1) as [status st2] eqn:E2.
  destruct (map_unmap_range st pgd L vaddr paddr size f st1 status st2) as [-> Hl]; auto.
  eauto.
Qed.

(** the kernel's identity map is W^X.  Starting from a root whose leaves
    satisfy it (a fresh root does), vmm_map_kernel_identity with the QEMU virt
    board's device windows leaves every valid leaf identity-mapped, closed to
    EL0, and either read-only or non-executable at both levels, even when it
    fails half way; when it succeeds on a kernel image laid out in order inside
    RAM, every byte of RAM translates to itself. *)
Theorem vmm_kernel_identity_wx (st : mach A) pgd L kstart text_end rodata_end data_end base size :
  pt_inv st pgd L -> kernel_map st pgd -> is_u64 kstart -> is_u64 base -> is_u64 size -> size <> 0 ->
  let r := vmm_map_kernel_identity kstart text_end rodata_end data_end pgd base size
             (Some board_map_mmio) st in
  kernel_map (snd r) pgd /\
  (fst r = 0 -> base <= kstart <= text_end -> text_end <= rodata_end <= data_end ->
   data_end <= base + size <= 2 ^ 48 ->
   forall v, base <= v < base + size -> vmm_virt_to_phys (snd r) pgd v = v).
Proof.
  intros Hi Hk Hks Hb Hs Hnz r.
  destruct (kernel_identity_spec kstart text_end rodata_end data_end pgd base size st L)
    as (L' & (Hi' & Hk' & _) & Hmapped); auto.
  split; [done|]. intros Hz H1 H2 H3 v Hv.
  destruct (Hmapped Hz) as (M1 & M2 & M3 & M4 & M5 & _). unfold is_u64, mapped in *.
  apply kernel_map_translates; [done|lia|].
  assert (HT : text_end <= page_align_up text_end <= page_align_up rodata_end).
  { rewrite !page_align_up_spec by (unfold UINT64_MAX; lia). Z.div_mod_to_equations. lia. }
  assert (HD : page_align_up rodata_end <= page_align_up data_end).
  { rewrite !page_align_up_spec by (unfold UINT64_MAX; lia). Z.div_mod_to_equations. lia. }
  pose proof (page_align_up_u64 text_end). unfold is_u64 in *.
  rewrite u64_id in M2 by lia. rewrite u64_id in M5 by lia.
  destruct (Z.lt_ge_cases v kstart); [apply M1; [apply Z.ltb_lt|]; lia|].
  destruct (Z.lt_ge_cases v (page_align_up text_end)); [apply M2; [done|]; lia|].
  destruct (Z.lt_ge_cases v (page_align_up rodata_end)); [apply M3; [apply Z.ltb_lt|]; lia|].
  destruct (Z.lt_ge_cases v (page_align_up data_end)); [apply M4; [apply Z.ltb_lt|]; lia|].
  apply M5; [apply Z.ltb_lt|]; lia.
Qed.

(** Address-space edits a client can request. *)
Inductive vm_op :=
  | OpMap (vaddr paddr size flags : Z)
  | OpUnmap (vaddr size : Z).

Definition run_op (pgd : Z) (st : mach A) (o : vm_op) : mach A :=
  match o with
  | OpMap v p n f => snd (vmm_map_range pgd v p n f st)
  | OpUnmap v n => snd (vmm_unmap_range pgd v n st)
  end.

Definition op_args (o : vm_op) : Prop :=
  match o with
  | OpMap v p n _ => is_u64 v /\ is_u64 p /\ is_u64 n
  | OpUnmap v n => is_u64 v /\ is_u64 n
  end.

Lemma run_ops_grow pgd ops : forall st L,
  pt_inv st pgd L -> Forall op_args ops ->
  exists L', pt_inv (foldl (run_op pgd) st ops) pgd L' /\
    grows st L (foldl (run_op pgd) st ops) L'.
Proof.
  induction ops as [|o ops IH]; intros st L Hi Ho; simpl.
  { exists L. eauto using grows_refl. }
  apply Forall_cons in Ho as [Hok Ho].
  assert (exists L1, pt_inv (run_op pgd st o) pgd L1 /\ grows st L (run_op pgd st o) L1)
    as (L1 & Hi1 & G1).
  { destruct o as [v p n f|v n]; simpl in *.
    - destruct (vmm_map_range _ _ _ _ _ _) as [s st1] eqn:E. destruct Hok as (Hv & Hp & Hn).
      destruct (vmm_map_range_spec st pgd L _ _ _ _ _ _ Hi Hv Hp Hn E)
        as (L1 & ? & ? & _). eauto.
    - destruct (vmm_unmap_range _ _ _ _) as [s st1] eqn:E. destruct Hok as [Hv Hn].
      destruct (vmm_unmap_range_spec st pgd L _ _ _ _ Hi Hv Hn E) as (? & ? & _).
      eauto. }
  destruct (IH _ L1 Hi1 Ho) as (L2 & Hi2 & G2). exists L2. split; [done|].
  by eapply grows_trans.
Qed.

(** no page-table page leaks.  Whatever mappings are made and removed in an
    address space, and whether those calls succeed or fail, vmm_free_table hands
    back exactly the pages the address space took: the allocatable pages are
    those there were before vmm_new_table created its root. *)
Theorem vmm_table_lifecycle (st : mach A) r st1 ops :
  pa_inv (m_pa st) -> vmm_new_table st = (r, st1) -> r <> 0 -> Forall op_args ops ->
  let st' := vmm_free_table r (foldl (run_op r) st1 ops) in
  pa_inv (m_pa st') /\ forall q, pa_avail (m_pa st') q <-> pa_avail (m_pa st) q.
Proof.
  intros Hpa E Hr Hops st'. destruct (new_root_inv _ _ _ Hpa E Hr) as [Hi _].
  destruct (run_ops_grow r ops st1 _ Hi Hops) as (L' & Hi' & G).
  destruct (vmm_free_table_spec _ _ _ Hi') as (Hp & _ & _ & Ha).
  split; [done|]. intros q. unfold st'. rewrite Ha, (gr_avail _ _ _ _ G).
  destruct (new_table_spec _ _ _ Hpa E) as [[? _]|(_ & _ & Hav & _ & Ha1 & _)]; [done|].
  rewrite Ha1. split.
  - intros [[[? _] _]|Hin]; [done|].
    destruct (Z.eq_dec q r) as [->|Hqr]; [done|].
    apply Ha1. apply (gr_new _ _ _ _ G); [done|]. by apply lookup_singleton_ne.
  - intros Hq. destruct (L' !! q) eqn:El; [right; eauto|]. left. split_and!; auto.
    intros ->. assert (L' !! r = Some 0%nat) by apply Hi'. congruence.
Qed.
End Properties.

(** * Witnesses on a 32-page physical memory *)

Definition demo_machine : mach pmm := Mach (pmm_init 0x40000000 0x20000) ∅.
Definition demo_space : mach pmm := snd (vmm_new_table demo_machine).

Lemma demo_machine_inv : pa_inv (m_pa demo_machine).
Proof. refine (proj1 (pmm_init_spec _ _ _ _ _ _)); [lia|reflexivity|lia|lia]. Qed.

Lemma demo_space_inv :
  pt_inv demo_space 0x40000000 {[0x40000000 := 0%nat]} /\
  forall v, vmm_leaf_entry demo_space 0x40000000 v = 0.
Proof.
  apply (new_root_inv demo_machine); [apply demo_machine_inv| |lia].
  apply pair_of_fst. vm_compute. reflexivity.
Qed.

Lemma vmm_map_range_atomic_witness :
  let r := vmm_map_range 0x40000000 0x100000800 0x40010800 0x1000
    (Z.lor VMM_FLAG_READ VMM_FLAG_USER) demo_space in
  fst r = 0 /\ vmm_virt_to_phys (snd r) 0x40000000 0x100001234 = 0x40011234.
Proof.
  intros r. assert (Hz : fst r = 0) by (vm_compute; reflexivity). split; [exact Hz|].
  destruct (vmm_map_range_atomic demo_space 0x40000000 _ 0x100000800 0x40010800 0x1000
    (Z.lor VMM_FLAG_READ VMM_FLAG_USER) 0 (snd r) (proj1 demo_space_inv))
    as (L' & _ & _ & [(_ & Ht & _)|[Hbad _]]);
    [unfold is_u64; lia..|apply pair_of_fst; exact Hz| |done].
  apply (Ht ltac:(lia) 0xa34). lia.
Defined.

Lemma vmm_map_unmap_roundtrip_witness :
  let r := vmm_map_range 0x40000000 0x100000000 0x40010000 0x2000 VMM_FLAG_READ demo_space in
  exists st2, fst r = 0 /\ vmm_unmap_range 0x40000000 0x100000000 0x2000 (snd r) = (0, st2).
Proof.
  intros r. assert (Hz : fst r = 0) by (vm_compute; reflexivity).
  destruct (vmm_map_unmap_roundtrip demo_space 0x40000000 _ 0x100000000 0x40010000 0x2000
      VMM_FLAG_READ (snd r) (proj1 demo_space_inv)) as (st2 & E & _);
    [unfold is_u64; lia..|apply pair_of_fst; exact Hz|].
  exists st2. split; [exact Hz|exact E].
Defined.

Lemma vmm_kernel_identity_wx_witness :
  kernel_map demo_space 0x40000000 /\ kernel_map (snd (vmm_map_kernel_identity 0x40002000 0x40004000 0x40005000 0x40006000 0x40000000
    0x40000000 0x20000 (Some board_map_mmio) demo_space)) 0x40000000.
Proof.
  assert (Hk : kernel_map demo_space 0x40000000).
  { intros v. rewrite (proj2 demo_space_inv). done. }
  split; [exact Hk|].
  apply (vmm_kernel_identity_wx demo_space 0x40000000 _ _ _ _ _ _ _ (proj1 demo_space_inv));
    [exact Hk|unfold is_u64; lia..].
Defined.

Lemma vmm_table_lifecycle_witness :
  let ops := [OpMap 0x100000000 0x40010000 0x3000 VMM_FLAG_READ;
              OpMap 0x100002000 0x40010000 0x3000 VMM_FLAG_READ;
              OpUnmap 0x100001000 0x1000] in
  Forall op_args ops /\
  forall q, pa_avail (m_pa (vmm_free_table 0x40000000 (foldl (run_op 0x40000000) demo_space ops))) q
    <-> pa_avail (m_pa demo_machine) q.
Proof.
  intros ops. assert (Hops : Forall op_args ops) by (repeat constructor; unfold is_u64; lia).
  split; [exact Hops|].
  apply (vmm_table_lifecycle demo_machine 0x40000000 demo_space ops);
    [apply demo_machine_inv|apply pair_of_fst; vm_compute; reflexivity|lia|exact Hops].
Defined.
