(* ===== verification/Kheap.v ===== *)
(** The kernel heap: kernel/mm/kheap.c.

    Block headers live in RAM in front of their payload, linked through
    physical pointers; a [heap_block_t *] is the address of the header and its
    fields are the six 64-bit words from there on.  The heap's own globals are
    a record next to the machine state. *)

From S2P Require Import Prelude.
From S2P Require Import PageAlloc.
From S2P Require Import Pmm.
From S2P Require Import Vmm.
Open Scope arm.

Definition KHEAP_ALIGN : Z := 16.
Definition KHEAP_MIN_SPLIT : Z := 32.
Definition KHEAP_MAGIC : Z := 0x4B484541504F4B21.

(** ** heap_block_t *)

Definition b_magic (ram : gmap Z Z) (b : Z) : Z := rd64 ram b.
Definition b_size (ram : gmap Z Z) (b : Z) : Z := rd64 ram (b + 8).
Definition b_free (ram : gmap Z Z) (b : Z) : Z := rd64 ram (b + 16).
Definition b_next (ram : gmap Z Z) (b : Z) : Z := rd64 ram (b + 24).
Definition b_prev (ram : gmap Z Z) (b : Z) : Z := rd64 ram (b + 32).
Definition b_arena (ram : gmap Z Z) (b : Z) : Z := rd64 ram (b + 40).

Record kheap (A : Type) := Kheap {
  hp : mach A;
  g_heap_head : Z;
  g_heap_tail : Z;
  g_heap_total_bytes : Z;
  g_next_arena_id : Z }.
Arguments Kheap {A} _ _ _ _ _.
Arguments hp {A} _.
Arguments g_heap_head {A} _.
Arguments g_heap_tail {A} _.
Arguments g_heap_total_bytes {A} _.
Arguments g_next_arena_id {A} _.

Definition align_up (value : Z) : Z := Z.land (u64 (value + KHEAP_ALIGN - 1)) (not64 (KHEAP_ALIGN - 1)).

(** [sizeof(heap_block_t)] is 48. *)
Definition header_size : Z := align_up 48.

Definition page_count_for_payload (payload_size : Z) : Z :=
  if payload_size >? UINT64_MAX - header_size then 0 else
  let needed := header_size + payload_size in
  if needed >? UINT64_MAX - (PAGE_SIZE - 1) then 0 else
  u64 (needed + PAGE_SIZE - 1) / PAGE_SIZE.

Definition block_payload_capacity (page_count : Z) : Z := u64 (u64 (page_count * PAGE_SIZE) - header_size).

Definition blocks_are_adjacent (ram : gmap Z Z) (left right : Z) : bool :=
  u64 (left + header_size + b_size ram left) =? right.

Definition blocks_can_coalesce (ram : gmap Z Z) (left right : Z) : bool :=
  negb (left =? 0) && negb (right =? 0) && negb (b_free ram right =? 0) &&
  (b_arena ram left =? b_arena ram right) && blocks_are_adjacent ram left right.

Section Ops.
Context {A : Type} `{PageAllocator A}.
Implicit Types (h : kheap A).

Definition ram h : gmap Z Z := m_ram (hp h).
Definition set_ram h (m : gmap Z Z) : kheap A :=
  Kheap (Mach (m_pa (hp h)) m) (g_heap_head h) (g_heap_tail h) (g_heap_total_bytes h) (g_next_arena_id h).
Definition set_tail h (t : Z) : kheap A :=
  Kheap (hp h) (g_heap_head h) t (g_heap_total_bytes h) (g_next_arena_id h).
Definition set_head h (t : Z) : kheap A :=
  Kheap (hp h) t (g_heap_tail h) (g_heap_total_bytes h) (g_next_arena_id h).

(** [*(uint64_t * )a = v;] *)
Definition wr h (a v : Z) : kheap A := set_ram h (wr64 (ram h) a v).

Definition append_block (block : Z) h : kheap A :=
  let h := wr h (block + 24) 0 in
  let h := wr h (block + 32) (g_heap_tail h) in
  let h := if negb (g_heap_tail h =? 0) then wr h (g_heap_tail h + 24) block else set_head h block in
  set_tail h block.

Definition extend_heap (min_payload_size : Z) h : Z * kheap A :=
  let pages := page_count_for_payload min_payload_size in
  if pages =? 0 then (0, h) else
  let '(addr, pa) := alloc_pages pages (m_pa (hp h)) in
  let h := Kheap (Mach pa (ram h)) (g_heap_head h) (g_heap_tail h) (g_heap_total_bytes h) (g_next_arena_id h) in
  if addr =? 0 then (0, h) else
  let block := addr in
  let h := wr h block KHEAP_MAGIC in
  let h := wr h (block + 8) (block_payload_capacity pages) in
  let h := wr h (block + 16) 1 in
  let h := wr h (block + 40) (g_next_arena_id h) in
  let h := Kheap (hp h) (g_heap_head h) (g_heap_tail h) (g_heap_total_bytes h) (u64 (g_next_arena_id h + 1)) in
  let h := append_block block h in
  (block, Kheap (hp h) (g_heap_head h) (g_heap_tail h) (u64 (g_heap_total_bytes h + b_size (ram h) block))
            (g_next_arena_id h)).

Definition split_block (block size : Z) h : kheap A :=
  let hdr := header_size in
  if b_size (ram h) block <? u64 (u64 (size + hdr) + KHEAP_MIN_SPLIT) then h else
  let next := u64 (block + hdr + size) in
  let h := wr h next KHEAP_MAGIC in
  let h := wr h (next + 8) (u64 (b_size (ram h) block - size - hdr)) in
  let h := wr h (next + 16) 1 in
  let h := wr h (next + 40) (b_arena (ram h) block) in
  let h := wr h (next + 32) block in
  let h := wr h (next + 24) (b_next (ram h) block) in
  let h := if negb (b_next (ram h) block =? 0) then wr h (b_next (ram h) block + 32) next else set_tail h next in
  let h := wr h (block + 24) next in
  wr h (block + 8) size.

Definition coalesce_next (block : Z) h : kheap A :=
  let next := b_next (ram h) block in
  if negb (blocks_can_coalesce (ram h) block next) then h else
  let h := wr h (block + 8) (u64 (b_size (ram h) block + u64 (header_size + b_size (ram h) next))) in
  let h := wr h (block + 24) (b_next (ram h) next) in
  if negb (b_next (ram h) next =? 0) then wr h (b_next (ram h) next + 32) block else set_tail h block.

Definition kheap_init h : kheap A :=
  if negb (g_heap_head h =? 0) then h else
  snd (extend_heap 1 (Kheap (hp h) (g_heap_head h) (g_heap_tail h) (g_heap_total_bytes h) 1)).

(** [while (block != NULL)]: the first free block that is large enough. *)
Fixpoint find_block (fuel : nat) (m : gmap Z Z) (block size : Z) : Z :=
  match fuel with
  | O => 0
  | S fuel' =>
      if block =? 0 then 0 else
      if negb (b_free m block =? 0) && (b_size m block >=? size) then block
      else find_block fuel' m (b_next m block) size
  end.

(** There are at most as many blocks as words of RAM. *)
Definition heap_fuel (m : gmap Z Z) : nat := S (base.size m).

Definition take_block (block size : Z) h : Z * kheap A :=
  let h := split_block block size h in
  (block + header_size, wr h (block + 16) 0).

Definition kmalloc (size : Z) h : Z * kheap A :=
  if (size =? 0) || (size >? UINT64_MAX - (KHEAP_ALIGN - 1)) then (0, h) else
  let aligned_size := align_up size in
  let h := if g_heap_head h =? 0 then kheap_init h else h in
  let block := find_block (heap_fuel (ram h)) (ram h) (g_heap_head h) aligned_size in
  if negb (block =? 0) then take_block block aligned_size h else
  let '(block, h) := extend_heap aligned_size h in
  if block =? 0 then (0, h) else take_block block aligned_size h.

Definition kfree (ptr : Z) h : kheap A :=
  if ptr =? 0 then h else
  let block := u64 (ptr - header_size) in
  if negb (b_magic (ram h) block =? KHEAP_MAGIC) then h else
  if negb (b_free (ram h) block =? 0) then h else
  let h := wr h (block + 16) 1 in
  let h := coalesce_next block h in
  if negb (b_prev (ram h) block =? 0) && negb (b_free (ram h) (b_prev (ram h) block) =? 0)
  then coalesce_next (b_prev (ram h) block) h else h.

Definition kheap_total_bytes h : Z := g_heap_total_bytes h.

Fixpoint free_bytes_loop (fuel : nat) (m : gmap Z Z) (block free_bytes : Z) : Z :=
  match fuel with
  | O => free_bytes
  | S fuel' =>
      if block =? 0 then free_bytes else
      free_bytes_loop fuel' m (b_next m block)
        (if negb (b_free m block =? 0) then u64 (free_bytes + b_size m block) else free_bytes)
  end.

Definition kheap_free_bytes h : Z := free_bytes_loop (heap_fuel (ram h)) (ram h) (g_heap_head h) 0.

End Ops.

(** * The block list *)

Record blk := Blk { ba : Z; bs : Z; bf : bool; bar : Z }.

#[export] Instance blk_eq_dec : EqDecision blk.
Proof. solve_decision. Defined.

(** The header of [b], between [prev] and [next]. *)
Definition hdr (m : gmap Z Z) (b : blk) (prev next : Z) : Prop :=
  b_magic m (ba b) = KHEAP_MAGIC /\ b_size m (ba b) = bs b /\ b_free m (ba b) = (if bf b then 1 else 0) /\
  b_next m (ba b) = next /\ b_prev m (ba b) = prev /\ b_arena m (ba b) = bar b.

Definition next_of (l : list blk) (next : Z) : Z := match l with b :: _ => ba b | [] => next end.
Fixpoint last_of (prev : Z) (l : list blk) : Z := match l with b :: l' => last_of (ba b) l' | [] => prev end.

Fixpoint seg (m : gmap Z Z) (prev : Z) (l : list blk) (next : Z) : Prop :=
  match l with
  | [] => True
  | b :: l' => hdr m b prev (next_of l' next) /\ seg m (ba b) l' next
  end.

Lemma next_of_app l1 l2 n : next_of (l1 ++ l2) n = next_of l1 (next_of l2 n).
Proof. by destruct l1. Qed.

Lemma last_of_app p l1 l2 : last_of p (l1 ++ l2) = last_of (last_of p l1) l2.
Proof. revert p. induction l1 as [|b l1 IH]; intros p; [done|]. apply IH. Qed.

Lemma seg_app m p l1 l2 n :
  seg m p (l1 ++ l2) n <-> seg m p l1 (next_of l2 n) /\ seg m (last_of p l1) l2 n.
Proof.
  revert p. induction l1 as [|b l1 IH]; intros p; cbn [app seg last_of]; [tauto|].
  rewrite IH, next_of_app. tauto.
Qed.

(** [m'] keeps the header of [b]. *)
Definition keeps_hdr (m m' : gmap Z Z) (b : blk) : Prop :=
  forall x, ba b <= x < ba b + 48 -> rd64 m' x = rd64 m x.

Lemma hdr_keep m m' b p n : keeps_hdr m m' b -> hdr m b p n -> hdr m' b p n.
Proof.
  unfold hdr, b_magic, b_size, b_free, b_next, b_prev, b_arena. intros Hk H. rewrite !Hk by lia. done.
Qed.

Lemma seg_keep m m' p l n : (forall b, b ∈ l -> keeps_hdr m m' b) -> seg m p l n -> seg m' p l n.
Proof.
  revert p. induction l as [|b l IH]; intros p Hk; [done|]. intros [Hh Hs]. split.
  - eapply hdr_keep, Hh. apply Hk. set_solver.
  - apply IH; [|done]. intros c Hc. apply Hk. set_solver.
Qed.

(** ** Geometry *)

Definition bend (b : blk) : Z := ba b + 48 + bs b.

Record blk_ok (b : blk) : Prop := {
  bo_addr : 0 < ba b;
  bo_align : ba b mod 16 = 0;
  bo_size : 0 < bs b;
  bo_mult : bs b mod 16 = 0;
  bo_end : bend b <= 2 ^ 48 }.

Definition apart (b c : blk) : Prop := bend b <= ba c \/ bend c <= ba b.

Fixpoint all_apart (l : list blk) : Prop :=
  match l with [] => True | b :: l' => (forall c, c ∈ l' -> apart b c) /\ all_apart l' end.

Lemma apart_sym b c : apart b c -> apart c b.
Proof. unfold apart. tauto. Qed.

Lemma all_apart_app l1 l2 :
  all_apart (l1 ++ l2) <-> all_apart l1 /\ all_apart l2 /\ forall b c, b ∈ l1 -> c ∈ l2 -> apart b c.
Proof.
  induction l1 as [|b l1 IH]; cbn [app all_apart]; [split; [intros; split_and!; set_solver|tauto]|].
  rewrite IH. set_solver.
Qed.

(** The block at a position against all the others. *)
Lemma all_apart_mid l1 b l2 :
  all_apart (l1 ++ b :: l2) <-> all_apart (l1 ++ l2) /\ forall c, c ∈ l1 ++ l2 -> apart b c.
Proof.
  rewrite !all_apart_app. cbn [all_apart]. split.
  - intros (H1 & [H2 H3] & H4). split_and!; [done..|set_solver|].
    intros c [Hc|Hc]%elem_of_app; [apply apart_sym, H4; set_solver|by apply H2].
  - intros [(H1 & H2 & H3) H4]. split_and!; [done|set_solver|done|].
    intros a c Ha [->|Hc]%elem_of_cons; [apply apart_sym, H4; set_solver|by apply H3].
Qed.

(** ** Allocations *)

(** Payload address and size of the blocks in use. *)
Definition live (l : list blk) : list (Z * Z) :=
  (fun b => (ba b + 48, bs b)) <$> filter (fun b => bf b = false) l.

Lemma live_app l1 l2 : live (l1 ++ l2) = live l1 ++ live l2.
Proof. unfold live. by rewrite filter_app, fmap_app. Qed.

Lemma live_cons b l : live (b :: l) = if bf b then live l else (ba b + 48, bs b) :: live l.
Proof. unfold live. rewrite filter_cons. destruct (bf b); case_decide; done. Qed.

Lemma live_elem p s l : (p, s) ∈ live l <-> exists b, b ∈ l /\ bf b = false /\ p = ba b + 48 /\ s = bs b.
Proof.
  unfold live. rewrite list_elem_of_fmap. split.
  - intros (b & [= -> ->] & [Hf Hb]%list_elem_of_filter). eauto.
  - intros (b & Hb & Hf & -> & ->). exists b. split; [done|]. by apply list_elem_of_filter.
Qed.

Section Invariant.
Context {A : Type} `{PageAllocatorLaws A}.
Implicit Types (h : kheap A) (l : list blk) (b c : blk).

(** No page that [b] occupies can be handed out. *)
Definition owned (a : A) (b : blk) : Prop :=
  forall q, q mod 4096 = 0 -> q < bend b -> ba b < q + 4096 -> ~ pa_avail a q.

Record heap_ok h l : Prop := {
  ok_seg : seg (ram h) 0 l 0;
  ok_head : g_heap_head h = next_of l 0;
  ok_tail : g_heap_tail h = last_of 0 l;
  ok_blk : forall b, b ∈ l -> blk_ok b;
  ok_apart : all_apart l;
  ok_pa : pa_inv (m_pa (hp h));
  ok_owned : forall b, b ∈ l -> owned (m_pa (hp h)) b }.

Lemma header_size_48 : header_size = 48.
Proof. reflexivity. Qed.

Lemma ram_wr h a v : ram (wr h a v) = wr64 (ram h) a v.
Proof. done. Qed.

(** Writes outside a block's header. *)
Lemma keeps_wr m x v b : x < ba b \/ ba b + 48 <= x -> keeps_hdr m (wr64 m x v) b.
Proof. intros Hx y Hy. apply rd64_wr64_ne. lia. Qed.

Lemma keeps_trans m1 m2 m3 b : keeps_hdr m1 m2 b -> keeps_hdr m2 m3 b -> keeps_hdr m1 m3 b.
Proof. intros H1 H2 x Hx. by rewrite H2, H1. Qed.

(** ** Changing one part of the list *)

Lemma seg_replace m m' p l1 mid mid' l2 n :
  seg m p (l1 ++ mid ++ l2) n -> mid <> [] -> mid' <> [] -> next_of mid' n = next_of mid n ->
  (forall c, c ∈ l1 -> keeps_hdr m m' c) ->
  seg m' (last_of p l1) mid' (next_of l2 n) -> seg m' (last_of (last_of p l1) mid') l2 n ->
  seg m' p (l1 ++ mid' ++ l2) n.
Proof.
  intros Hs Hm Hm' Hn Hk H1 H2. apply seg_app in Hs as [Hs _]. apply seg_app. split.
  - eapply seg_keep; [done|]. replace (next_of (mid' ++ l2) n) with (next_of (mid ++ l2) n); [done|].
    destruct mid, mid'; cbn in *; congruence.
  - apply seg_app. done.
Qed.

(** The rest of the list behind a new predecessor. *)
Definition relinks (m m' : gmap Z Z) (prev : Z) l : Prop :=
  match l with
  | [] => True
  | c :: l' => rd64 m' (ba c + 32) = prev /\ (forall x, ba c <= x < ba c + 48 -> x <> ba c + 32 -> rd64 m' x = rd64 m x) /\
      forall d, d ∈ l' -> keeps_hdr m m' d
  end.

Lemma seg_relink m m' p p' l n : relinks m m' p' l -> seg m p l n -> seg m' p' l n.
Proof.
  destruct l as [|c l]; [done|]. intros (H1 & H2 & H3) [Hh Hs]. split; [|by eapply seg_keep].
  unfold hdr, b_magic, b_size, b_free, b_next, b_prev, b_arena in *.
  destruct Hh as (? & ? & ? & ? & _ & ?). split_and!; (exact H1 || (rewrite H2 by lia; done)).
Qed.

(** Rewriting of a block by blocks inside its extent keeps the geometry. *)
Definition inside b c : Prop := ba b <= ba c /\ bend c <= bend b.

Lemma apart_inside b b' c : inside b b' -> apart b c -> apart b' c.
Proof. unfold inside, apart. lia. Qed.

Lemma owned_inside a b b' : inside b b' -> owned a b -> owned a b'.
Proof. unfold inside, owned. intros [Hi1 Hi2] Ho q Hq Hq1 Hq2. apply Ho; lia || done. Qed.

Lemma geometry_refine a l1 b mid l2 :
  (forall c, c ∈ mid -> blk_ok c /\ inside b c) -> all_apart mid ->
  (forall c, c ∈ l1 ++ b :: l2 -> blk_ok c) -> all_apart (l1 ++ b :: l2) -> (forall c, c ∈ l1 ++ b :: l2 -> owned a c) ->
  (forall c, c ∈ l1 ++ mid ++ l2 -> blk_ok c) /\ all_apart (l1 ++ mid ++ l2) /\
  (forall c, c ∈ l1 ++ mid ++ l2 -> owned a c).
Proof.
  intros Hm Ha Hb Hall Ho. apply all_apart_mid in Hall as [H12 Hbc]. apply all_apart_app in H12 as (H1 & H2 & H3).
  split_and!.
  - intros c [Hc|[Hc|Hc]%elem_of_app]%elem_of_app; [apply Hb; set_solver|by apply Hm|apply Hb; set_solver].
  - rewrite !all_apart_app. split_and!; try done.
    + intros c d Hc Hd. apply (apart_inside b); [by apply Hm|]. apply Hbc. set_solver.
    + intros c d Hc [Hd|Hd]%elem_of_app; [|by apply H3].
      apply apart_sym, (apart_inside b); [by apply Hm|]. apply Hbc. set_solver.
  - intros c [Hc|[Hc|Hc]%elem_of_app]%elem_of_app; [apply Ho; set_solver| |apply Ho; set_solver].
    apply (owned_inside _ b); [by apply Hm|]. apply Ho. set_solver.
Qed.

(** A memory update that touches [b]'s extent only keeps the other headers. *)
Definition only_in (m m' : gmap Z Z) (lo hi : Z) : Prop := forall x, ~ (lo <= x < hi) -> rd64 m' x = rd64 m x.

Lemma only_in_keeps m m' b c : only_in m m' (ba b) (bend b) -> apart b c -> blk_ok c -> keeps_hdr m m' c.
Proof. intros Hm Ha [] x Hx. apply Hm. unfold apart, bend in *. lia. Qed.

(** ** Marking a block *)

Definition with_free b (f : bool) : blk := Blk (ba b) (bs b) f (bar b).

Lemma mark_ok h l1 b l2 (f : bool) :
  heap_ok h (l1 ++ b :: l2) ->
  heap_ok (wr h (ba b + 16) (if f then 1 else 0)) (l1 ++ with_free b f :: l2) /\
  only_in (ram h) (ram (wr h (ba b + 16) (if f then 1 else 0))) (ba b) (ba b + 48).
Proof.
  intros []. assert (Hb : blk_ok b) by (apply ok_blk0; set_solver).
  assert (Hin : only_in (ram h) (wr64 (ram h) (ba b + 16) (if f then 1 else 0)) (ba b) (ba b + 48)).
  { intros x Hx. apply rd64_wr64_ne. lia. }
  assert (Hin2 : only_in (ram h) (wr64 (ram h) (ba b + 16) (if f then 1 else 0)) (ba b) (bend b)).
  { intros x Hx. apply Hin. unfold bend in *. destruct Hb. lia. }
  split; [|done]. apply all_apart_mid in ok_apart0 as Ha. destruct Ha as [_ Ha].
  destruct (geometry_refine (m_pa (hp h)) l1 b [with_free b f] l2) as (G1 & G2 & G3); try done.
  { intros c ->%list_elem_of_singleton. split; [by destruct Hb|]. unfold inside, bend. cbn. lia. }
  { cbn. set_solver. }
  split; cbn [wr set_ram hp m_ram m_pa g_heap_head g_heap_tail]; try done.
  - apply seg_app in ok_seg0 as Hs. destruct Hs as [_ [Hh Hs]].
    eapply (seg_replace (ram h) _ 0 l1 [b] [with_free b f] l2 0); try done.
    + intros c Hc. apply (only_in_keeps _ _ b); [done| |apply ok_blk0; set_solver]. apply Ha. set_solver.
    + split; [|done]. unfold hdr, b_magic, b_size, b_free, b_next, b_prev, b_arena in *. cbn [with_free ba bs bf bar].
      unfold ram. cbn [wr set_ram hp m_ram]. rewrite rd64_wr64_eq, !rd64_wr64_ne by lia. naive_solver.
    + cbn [last_of with_free ba]. eapply seg_keep, Hs. intros c Hc.
      apply (only_in_keeps _ _ b); [done| |apply ok_blk0; set_solver]. apply Ha. set_solver.
  - rewrite ok_head0. by rewrite !next_of_app.
  - rewrite ok_tail0. by rewrite !last_of_app.
Qed.

(** Reading a field past writes to other words. *)
Ltac fields :=
  unfold b_magic, b_size, b_free, b_next, b_prev, b_arena in *;
  rewrite ?ram_wr; repeat first [rewrite rd64_wr64_ne by lia | rewrite rd64_wr64_eq].

(** The fields of the block at a position. *)
Lemma ok_fields h l1 b l2 :
  heap_ok h (l1 ++ b :: l2) -> hdr (ram h) b (last_of 0 l1) (next_of l2 0) /\ blk_ok b /\
    (forall c, c ∈ l1 ++ l2 -> apart b c /\ blk_ok c).
Proof.
  intros []. apply seg_app in ok_seg0 as [_ [Hh _]]. split; [done|]. split; [apply ok_blk0; set_solver|].
  apply all_apart_mid in ok_apart0 as [_ Ha]. intros c Hc. split; [by apply Ha|apply ok_blk0; set_solver].
Qed.

(** ** Splitting *)

Definition left_part b size : blk := Blk (ba b) size (bf b) (bar b).
Definition right_part b size : blk := Blk (ba b + 48 + size) (bs b - size - 48) true (bar b).

(** The memory after a split. *)
Definition split_ram (m : gmap Z Z) b size next : gmap Z Z :=
  let n := ba b + 48 + size in
  let m := wr64 (wr64 (wr64 (wr64 (wr64 (wr64 m n KHEAP_MAGIC) (n + 8) (bs b - size - 48)) (n + 16) 1)
             (n + 40) (bar b)) (n + 32) (ba b)) (n + 24) next in
  let m := if next =? 0 then m else wr64 m (next + 32) n in
  wr64 (wr64 m (ba b + 24) n) (ba b + 8) size.

Lemma split_block_eq h l1 b l2 size :
  heap_ok h (l1 ++ b :: l2) -> 0 < size -> size + 80 <= bs b ->
  split_block (ba b) size h =
  set_ram (if next_of l2 0 =? 0 then set_tail h (ba b + 48 + size) else h)
    (split_ram (ram h) b size (next_of l2 0)).
Proof.
  intros Hok Hpos Hle. destruct (ok_fields _ _ _ _ Hok) as ((_ & Hs & _ & Hn & _ & Har) & Hb & Ho).
  destruct Hb. unfold bend in *. unfold split_block, split_ram, KHEAP_MIN_SPLIT. cbv zeta.
  rewrite header_size_48. rewrite Hs.
  rewrite (u64_id (size + 48)), (u64_id (size + 48 + 32)), (u64_id (ba b + 48 + size)) by lia.
  destruct (Z.ltb_spec (bs b) (size + 48 + 32)); [lia|].
  assert (Hnx : next_of l2 0 = 0 \/ (0 < next_of l2 0 /\ (bend b <= next_of l2 0 \/ next_of l2 0 + 48 <= ba b))).
  { destruct l2 as [|c l2]; [by left|right]. destruct (Ho c) as [Hap []]; [set_solver|].
    unfold apart, bend in *. cbn. lia. }
  unfold bend in Hnx. set (n := ba b + 48 + size) in *.
  assert (E1 : b_size (ram (wr h n KHEAP_MAGIC)) (ba b) = bs b) by (fields; done). rewrite E1.
  rewrite (u64_id (bs b - size - 48)) by lia.
  set (h3 := wr (wr (wr h n KHEAP_MAGIC) (n + 8) (bs b - size - 48)) (n + 16) 1).
  assert (E2 : b_arena (ram h3) (ba b) = bar b) by (unfold h3; fields; done). rewrite E2.
  set (h5 := wr (wr h3 (n + 40) (bar b)) (n + 32) (ba b)).
  assert (E3 : b_next (ram h5) (ba b) = next_of l2 0) by (unfold h5, h3; fields; done). rewrite E3.
  set (h6 := wr h5 (n + 24) (next_of l2 0)).
  assert (E4 : b_next (ram h6) (ba b) = next_of l2 0) by (unfold h6, h5, h3; fields; done). rewrite E4.
  destruct (Z.eqb_spec (next_of l2 0) 0); cbn [negb]; done.
Qed.

Lemma split_ok h l1 b l2 size :
  heap_ok h (l1 ++ b :: l2) -> 0 < size -> size mod 16 = 0 -> size + 80 <= bs b ->
  heap_ok (split_block (ba b) size h) (l1 ++ [left_part b size; right_part b size] ++ l2) /\
  (forall c x, c ∈ l1 ++ l2 -> ba c + 48 <= x < bend c -> rd64 (ram (split_block (ba b) size h)) x = rd64 (ram h) x).
Proof.
  intros Hok Hpos H16 Hle. rewrite (split_block_eq h l1 b l2 size Hok Hpos Hle).
  destruct (ok_fields _ _ _ _ Hok) as (Hh & Hb & Ho). pose proof Hok as []. pose proof Hb as [].
  set (m' := split_ram (ram h) b size (next_of l2 0)).
  (* every write is inside [b] or is the back link of the next block *)
  assert (Hm : forall x, ~ (ba b <= x < bend b) -> next_of l2 0 = 0 \/ x <> next_of l2 0 + 32 -> rd64 m' x = rd64 (ram h) x).
  { intros x Hx Hne. unfold m', split_ram. unfold bend in *. cbv zeta.
    destruct (Z.eqb_spec (next_of l2 0) 0); rewrite ?rd64_wr64_ne by lia; done. }
  assert (Hkeep : forall c, c ∈ l1 ++ tail l2 -> keeps_hdr (ram h) m' c).
  { intros c Hc x Hx. assert (Hcl : c ∈ l1 ++ l2) by (destruct l2; set_solver).
    destruct (Ho c Hcl) as [Hap [] ]. apply Hm; [unfold apart, bend in *; lia|].
    destruct l2 as [|d l2]; [by left|right]. cbn [next_of].
    assert (apart d c \/ apart c d) as Hd.
    { apply all_apart_mid in ok_apart0 as [Hap2 _]. cbn [tail] in Hc. apply elem_of_app in Hc as [Hc|Hc].
      - right. apply all_apart_app in Hap2 as (_ & _ & Hx2). apply Hx2; set_solver.
      - left. apply all_apart_app in Hap2 as (_ & [Hx2 _] & _). by apply Hx2. }
    destruct (Ho d) as [_ []]; [set_solver|]. unfold apart, bend in *. lia. }
  destruct (geometry_refine (m_pa (hp h)) l1 b [left_part b size; right_part b size] l2) as (G1 & G2 & G3); try done.
  { unfold bend in *.
    intros c [->| ->%list_elem_of_singleton]%elem_of_cons; (split; [split|unfold inside]); unfold bend; cbn; try lia.
    all: clear -bo_align0 bo_mult0 H16; Z.to_euclidean_division_equations; lia. }
  { cbn. split; [|set_solver]. intros c ->%list_elem_of_singleton. left. unfold bend. cbn. lia. }
  assert (Hparts : seg m' (last_of 0 l1) [left_part b size; right_part b size] (next_of l2 0)).
  { destruct Hh as (Hmg & Hsz & Hfr & Hnx & Hpv & Har). unfold bend in *.
    assert (Hd : next_of l2 0 = 0 \/ bend b <= next_of l2 0 \/ next_of l2 0 + 48 <= ba b).
    { destruct l2 as [|d l2]; [by left|right]. destruct (Ho d) as [Hap []]; [set_solver|].
      unfold apart, bend in *. cbn. lia. }
    unfold bend in Hd. unfold m', split_ram. cbn [seg next_of]. unfold hdr. cbn [left_part right_part ba bs bf bar].
    destruct (Z.eqb_spec (next_of l2 0) 0); fields; split_and!; done. }
  split.
  2: { intros c x Hc Hx. destruct (Ho c Hc) as [Hap Hco]. apply Hm; [unfold apart, bend in *; destruct Hco; lia|].
       destruct l2 as [|d l2]; [by left|right]. cbn [next_of].
       destruct (decide (c = d)) as [->|Hne]; [destruct Hco; lia|].
       assert (apart d c) as Hd; [|destruct (Ho d) as [_ []]; [set_solver|]; unfold apart, bend in *; lia].
       apply all_apart_mid in ok_apart0 as [Hap2 _]. apply all_apart_mid in Hap2 as [_ Hx2]. apply Hx2. set_solver. }
  destruct l2 as [|d l2].
  - split; cbn [next_of Z.eqb set_ram set_tail hp m_pa g_heap_head g_heap_tail]; try done.
    + apply (seg_replace (ram h) m' 0 l1 [b] _ []); try done.
      intros c Hc. apply Hkeep. set_solver.
    + rewrite ok_head0. by rewrite !next_of_app.
    + rewrite last_of_app. done.
  - destruct (Ho d) as [Hapd Hdo]; [set_solver|]. pose proof Hdo as []. cbn [next_of] in *.
    rewrite (proj2 (Z.eqb_neq (ba d) 0)) by lia.
    split; cbn [set_ram hp m_pa g_heap_head g_heap_tail]; try done.
    + apply seg_app in ok_seg0 as Hs. destruct Hs as [_ [_ Hs]].
      apply (seg_replace (ram h) m' 0 l1 [b] _ (d :: l2)); try done.
      * intros c Hc. apply Hkeep. set_solver.
      * eapply seg_relink, Hs. cbn [last_of right_part ba]. split_and!.
        -- unfold m', split_ram. rewrite (proj2 (Z.eqb_neq (ba d) 0)) by lia. unfold apart, bend in *.
           rewrite !rd64_wr64_ne by lia. by rewrite rd64_wr64_eq.
        -- intros x Hx Hne. apply Hm; [unfold apart, bend in *; lia|by right].
        -- intros c Hc. apply Hkeep. set_solver.
    + rewrite ok_head0. by rewrite !next_of_app.
    + rewrite ok_tail0, !last_of_app. done.
Qed.

(** ** Merging *)

Definition merged b c : blk := Blk (ba b) (bs b + 48 + bs c) (bf b) (bar b).

(** The merge is legal: [c] is free, in the same arena and right behind [b]. *)
Definition mergeable b c : bool := bf c && (bar b =? bar c) && (bend b =? ba c).

Definition merge_ram (m : gmap Z Z) b c next : gmap Z Z :=
  let m := wr64 (wr64 m (ba b + 8) (bs b + 48 + bs c)) (ba b + 24) next in
  if next =? 0 then m else wr64 m (next + 32) (ba b).

Lemma coalesce_eq h l1 b l2 :
  heap_ok h (l1 ++ b :: l2) ->
  coalesce_next (ba b) h =
  match l2 with
  | c :: l3 => if mergeable b c
               then set_ram (if next_of l3 0 =? 0 then set_tail h (ba b) else h) (merge_ram (ram h) b c (next_of l3 0))
               else h
  | [] => h
  end.
Proof.
  intros Hok. destruct (ok_fields _ _ _ _ Hok) as ((_ & Hs & _ & Hn & _ & Har) & Hb & Ho).
  unfold coalesce_next. cbv zeta. rewrite Hn. destruct l2 as [|c l3].
  { unfold blocks_can_coalesce. cbn [next_of Z.eqb negb andb]. by rewrite andb_false_r. }
  cbn [next_of]. destruct (Ho c) as [Hap Hc]; [set_solver|]. pose proof Hc as []. pose proof Hb as [].
  assert (Hok2 : heap_ok h ((l1 ++ [b]) ++ c :: l3)) by (by rewrite <- app_assoc).
  destruct (ok_fields _ _ _ _ Hok2) as ((_ & Hsc & Hfc & Hnc & _ & Harc) & _ & _).
  assert (E : blocks_can_coalesce (ram h) (ba b) (ba c) = mergeable b c).
  { unfold blocks_can_coalesce, blocks_are_adjacent, mergeable, bend in *. rewrite Hs, Hfc, Har, Harc, header_size_48.
    rewrite (proj2 (Z.eqb_neq (ba b) 0)), (proj2 (Z.eqb_neq (ba c) 0)) by lia. rewrite u64_id by lia.
    by destruct (bf c). }
  rewrite E. destruct (mergeable b c) eqn:Em; [|done]. cbn [negb].
  unfold mergeable, apart, bend in *. b2p. rewrite Hs, Hsc, header_size_48.
  rewrite (u64_id (48 + bs c)), (u64_id (bs b + (48 + bs c))) by lia.
  replace (bs b + (48 + bs c)) with (bs b + 48 + bs c) by lia.
  set (h1 := wr h (ba b + 8) (bs b + 48 + bs c)).
  assert (E1 : b_next (ram h1) (ba c) = next_of l3 0) by (unfold h1; fields; done). rewrite E1.
  set (h2 := wr h1 (ba b + 24) (next_of l3 0)).
  assert (E2 : b_next (ram h2) (ba c) = next_of l3 0) by (unfold h2, h1; fields; done). rewrite E2.
  unfold merge_ram. destruct (Z.eqb_spec (next_of l3 0) 0); cbn [negb]; done.
Qed.

(** What a heap operation must leave alone: the payload of these blocks. *)
Definition keeps_payload h h' l : Prop :=
  forall c x, c ∈ l -> ba c + 48 <= x < bend c -> rd64 (ram h') x = rd64 (ram h) x.

Lemma merge_ok h l1 b c l3 :
  heap_ok h (l1 ++ b :: c :: l3) -> mergeable b c = true ->
  heap_ok (coalesce_next (ba b) h) (l1 ++ merged b c :: l3) /\
  keeps_payload h (coalesce_next (ba b) h) (l1 ++ b :: c :: l3).
Proof.
  intros Hok Em. rewrite (coalesce_eq h l1 b (c :: l3) Hok), Em.
  destruct (ok_fields _ _ _ _ Hok) as (Hh & Hb & Ho). pose proof Hok as []. pose proof Hb as [].
  destruct (Ho c) as [Hap Hc]; [set_solver|]. pose proof Hc as [].
  assert (Hadj : bend b = ba c) by (unfold mergeable in Em; b2p; done).
  set (m' := merge_ram (ram h) b c (next_of l3 0)).
  assert (Hapc : forall d, d ∈ l1 ++ l3 -> apart c d /\ apart b d /\ blk_ok d).
  { intros d Hd. destruct (Ho d) as [? ?]; [set_solver|]. split_and!; try done.
    apply all_apart_mid in ok_apart0 as [Hx _]. apply all_apart_mid in Hx as [_ Hx]. by apply Hx. }
  assert (Hm : forall x, x <> ba b + 8 -> x <> ba b + 24 -> next_of l3 0 = 0 \/ x <> next_of l3 0 + 32 ->
    rd64 m' x = rd64 (ram h) x).
  { intros x Hx1 Hx2 Hx3. unfold m', merge_ram. cbv zeta.
    destruct (Z.eqb_spec (next_of l3 0) 0); rewrite ?rd64_wr64_ne by lia; done. }
  assert (Hl3 : forall d, d ∈ l3 -> next_of l3 0 <> 0).
  { intros d Hd. destruct l3 as [|e l3]; [by apply elem_of_nil in Hd|]. destruct (Hapc e) as (_ & _ & []); [set_solver|].
    cbn. lia. }
  assert (Hnx : forall d x, d ∈ l1 ++ b :: c :: tail l3 -> ba d <= x < bend d -> next_of l3 0 = 0 \/ x <> next_of l3 0 + 32).
  { intros d x Hd Hx. destruct l3 as [|e l3]; [by left|right]. cbn [next_of tail] in *.
    destruct (Hapc e) as (He1 & He2 & []); [set_solver|].
    assert (apart e d) as Hed; [|unfold apart, bend in *; lia].
    apply all_apart_mid in ok_apart0 as [Hx1 _]. apply all_apart_mid in Hx1 as [Hx1 _].
    apply all_apart_mid in Hx1 as [_ Hx1].
    apply elem_of_app in Hd as [Hd|[->|[->|Hd]%elem_of_cons]%elem_of_cons];
      [apply Hx1; set_solver|by apply apart_sym|by apply apart_sym|apply Hx1; set_solver]. }
  assert (Hkeep : forall d, d ∈ l1 ++ tail l3 -> keeps_hdr (ram h) m' d).
  { intros d Hd x Hx. assert (Hd' : d ∈ l1 ++ l3) by (destruct l3; set_solver).
    destruct (Hapc d Hd') as (_ & Hbd & []). apply Hm; [unfold apart, bend in *; lia..|].
    apply (Hnx d); [destruct l3; set_solver|unfold bend; lia]. }
  split.
  2: { intros d x Hd Hx.
       assert (Hd' : d = b \/ d = c \/ d ∈ l1 ++ l3) by set_solver.
       assert (apart b d \/ d = b) as Hbd by (destruct Hd' as [->|[->|Hd']]; [by right|by left|left; by apply Hapc]).
       assert (Hdo : 0 < bs d) by (apply ok_blk0; set_solver).
       destruct l3 as [|e l3].
       - apply Hm; [unfold apart, bend in *; destruct Hbd as [Hbd| ->]; lia..|by left].
       - destruct (decide (d = e)) as [->|Hne].
         + apply Hm; [unfold apart, bend in *; destruct Hbd as [Hbd| ->]; lia..|right; cbn; unfold bend in *; lia].
         + apply Hm; [unfold apart, bend in *; destruct Hbd as [Hbd| ->]; lia..|].
           apply (Hnx d); [|unfold bend in *; lia]. set_solver. }
  assert (Hgeo : (forall d, d ∈ l1 ++ merged b c :: l3 -> blk_ok d) /\ all_apart (l1 ++ merged b c :: l3) /\
    (forall d, d ∈ l1 ++ merged b c :: l3 -> owned (m_pa (hp h)) d)).
  { split_and!.
    - intros d Hd. assert (d = merged b c \/ d ∈ l1 ++ l3) as [->|Hd'] by set_solver; [|by apply Hapc].
      unfold bend in *. split; unfold bend; cbn; try lia.
      clear -bo_mult0 bo_mult1. Z.to_euclidean_division_equations. lia.
    - apply all_apart_mid. apply all_apart_mid in ok_apart0 as [Hx _]. apply all_apart_mid in Hx as [Hx _].
      split; [done|]. intros d Hd. destruct (Hapc d Hd) as (Hcd & Hbd & []). unfold apart, bend in *. cbn. lia.
    - intros d Hd. assert (d = merged b c \/ d ∈ l1 ++ l3) as [->|Hd'] by set_solver; [|apply ok_owned0; set_solver].
      intros q Hq Hq1 Hq2. unfold bend in *. cbn in Hq1, Hq2.
      destruct (Z_lt_le_dec q (bend b)) as [Hlt|Hge]; unfold bend in *.
      + apply (ok_owned0 b); [set_solver|done| |]; unfold bend; lia.
      + apply (ok_owned0 c); [set_solver|done| |]; unfold bend; lia. }
  destruct Hgeo as (G1 & G2 & G3).
  assert (Hmerged : hdr m' (merged b c) (last_of 0 l1) (next_of l3 0)).
  { destruct Hh as (Hmg & Hsz & Hfr & Hnxt & Hpv & Har).
    assert (Hd : next_of l3 0 = 0 \/ bend b <= next_of l3 0 \/ next_of l3 0 + 48 <= ba b).
    { destruct l3 as [|d l3]; [by left|right]. destruct (Hapc d) as (_ & Hbd & []); [set_solver|].
      unfold apart, bend in *. cbn. lia. }
    unfold bend in Hd. unfold m', merge_ram, hdr. cbn [merged ba bs bf bar].
    destruct (Z.eqb_spec (next_of l3 0) 0); fields; split_and!; done. }
  assert (Hhead : g_heap_head h = next_of (l1 ++ merged b c :: l3) 0) by (rewrite ok_head0, !next_of_app; done).
  assert (Hl1 : forall d, d ∈ l1 -> keeps_hdr (ram h) m' d) by (intros d Hd; apply Hkeep; set_solver).
  destruct l3 as [|d l3].
  - split; cbn [next_of Z.eqb set_ram set_tail hp m_pa g_heap_head g_heap_tail]; try done.
    + apply (seg_replace (ram h) m' 0 l1 [b; c] [merged b c] []); done.
    + rewrite last_of_app. done.
  - destruct (Hapc d) as (_ & Hbd & Hdo); [set_solver|]. pose proof Hdo as []. cbn [next_of] in *.
    rewrite (proj2 (Z.eqb_neq (ba d) 0)) by lia.
    split; cbn [set_ram hp m_pa g_heap_head g_heap_tail]; try done.
    + apply seg_app in ok_seg0 as Hs. destruct Hs as [_ (_ & _ & Hs)].
      apply (seg_replace (ram h) m' 0 l1 [b; c] [merged b c] (d :: l3)); try done.
      eapply seg_relink, Hs. cbn [last_of merged ba]. split_and!.
      * unfold m', merge_ram. rewrite (proj2 (Z.eqb_neq (ba d) 0)) by lia. by rewrite rd64_wr64_eq.
      * intros x Hx Hne. apply Hm; [unfold apart, bend in *; lia..|by right].
      * intros e He. apply Hkeep. set_solver.
    + rewrite ok_tail0, !last_of_app. done.
Qed.

(** ** Growing *)

Lemma page_count_spec n :
  0 < n < 2 ^ 64 -> let pages := page_count_for_payload n in
  pages = 0 \/ (0 < pages /\ n + 48 <= pages * 4096 < n + 48 + 4096).
Proof.
  intros Hn. unfold page_count_for_payload, UINT64_MAX. rewrite header_size_48. cbv zeta. change PAGE_SIZE with 4096.
  destruct (Z.gtb_spec n (2 ^ 64 - 1 - 48)); [by left|].
  destruct (Z.gtb_spec (48 + n) (2 ^ 64 - 1 - (4096 - 1))); [by left|]. right.
  rewrite u64_id by lia. pose proof (Z.div_mod (48 + n + 4096 - 1) 4096).
  pose proof (Z.mod_pos_bound (48 + n + 4096 - 1) 4096). lia.
Qed.

Definition arena_ram (m : gmap Z Z) r size arena tail : gmap Z Z :=
  let m := wr64 (wr64 (wr64 (wr64 m r KHEAP_MAGIC) (r + 8) size) (r + 16) 1) (r + 40) arena in
  let m := wr64 (wr64 m (r + 24) 0) (r + 32) tail in
  if tail =? 0 then m else wr64 m (tail + 24) r.

Lemma append_ok h l r n a' total arena :
  heap_ok h l -> 0 < n -> pa_inv a' ->
  r mod 4096 = 0 -> 0 < r -> r + n * 4096 <= 2 ^ 48 ->
  (forall i, 0 <= i < n -> pa_avail (m_pa (hp h)) (r + i * 4096)) ->
  (forall q, pa_avail a' q <-> pa_avail (m_pa (hp h)) q /\ ~ in_run r n q) ->
  let nb := Blk r (n * 4096 - 48) true arena in
  let h' := Kheap (Mach a' (arena_ram (ram h) r (n * 4096 - 48) arena (g_heap_tail h)))
              (if g_heap_tail h =? 0 then r else g_heap_head h) r total (u64 (arena + 1)) in
  heap_ok h' (l ++ [nb]) /\ keeps_payload h h' l.
Proof.
  intros [] Hn Hpa Hr1 Hr2 Hr3 Hav Hav'. cbv zeta. set (nb := Blk r (n * 4096 - 48) true arena).
  assert (Hbe : bend nb = r + n * 4096) by (unfold bend; cbn; lia).
  assert (Hap : forall b, b ∈ l -> apart b nb).
  { intros b Hb. unfold apart. rewrite Hbe. cbn. destruct (ok_blk0 b Hb).
    destruct (Z_le_gt_dec (bend b) r); [by left|]. destruct (Z_le_gt_dec (r + n * 4096) (ba b)); [by right|].
    exfalso. set (i := Z.max 0 ((ba b - r) / 4096)).
    assert (Hi : 0 <= i < n).
    { unfold i. split; [lia|]. apply Z.max_lub_lt; [lia|]. apply Z.div_lt_upper_bound; lia. }
    apply (ok_owned0 b Hb (r + i * 4096)); [| | |by apply Hav].
    - rewrite Z_mod_plus_full. done.
    - unfold i. pose proof (Z.mul_div_le (ba b - r) 4096). unfold bend in *. lia.
    - unfold i. pose proof (Z.mul_succ_div_gt (ba b - r) 4096). lia. }
  assert (Htail : g_heap_tail h = 0 /\ l = [] \/ exists l0 t, l = l0 ++ [t] /\ g_heap_tail h = ba t /\ 0 < ba t).
  { destruct l as [|t l0 _] using rev_ind; [by left|]. right. exists l0, t. rewrite ok_tail0, last_of_app.
    split_and!; try done. apply ok_blk0. set_solver. }
  set (m' := arena_ram (ram h) r (n * 4096 - 48) arena (g_heap_tail h)).
  assert (Hm : forall x, ~ (r <= x < r + 48) -> (g_heap_tail h = 0 \/ x <> g_heap_tail h + 24) -> rd64 m' x = rd64 (ram h) x).
  { intros x Hx1 Hx2. unfold m', arena_ram. cbv zeta.
    destruct (Z.eqb_spec (g_heap_tail h) 0); rewrite ?rd64_wr64_ne by lia; done. }
  assert (Hnb : hdr m' nb (g_heap_tail h) 0).
  { assert (Hd : g_heap_tail h = 0 \/ g_heap_tail h + 48 <= r \/ r + 48 <= g_heap_tail h).
    { destruct Htail as [[? _]|(l0 & t & -> & -> & Ht)]; [by left|right].
      assert (Hat : apart t nb) by (apply Hap; set_solver). destruct (ok_blk0 t); [set_solver|].
      unfold apart, bend in *. cbn in *. lia. }
    unfold m', arena_ram, hdr. cbn [nb ba bs bf bar].
    destruct (Z.eqb_spec (g_heap_tail h) 0); fields; split_and!; done. }
  split.
  2: { intros c x Hc Hx. destruct (ok_blk0 c Hc). pose proof (Hap c Hc) as Hapc. apply Hm.
       - unfold apart, bend in *. cbn in *. lia.
       - destruct Htail as [[? _]|(l0 & t & -> & -> & Ht)]; [by left|right].
         apply elem_of_app in Hc as [Hc| ->%list_elem_of_singleton]; [|lia].
         apply all_apart_app in ok_apart0 as (_ & _ & Ha). specialize (Ha c t Hc ltac:(set_solver)).
         destruct (ok_blk0 t); [set_solver|]. unfold apart, bend in *. lia. }
  split; cbn [hp m_pa m_ram g_heap_head g_heap_tail]; try done.
  - apply seg_app. destruct Htail as [[E ->]|(l0 & t & -> & E & Ht)].
    + split; [done|]. rewrite E in Hnb. split; [exact Hnb|done].
    + rewrite last_of_app. cbn [last_of next_of seg]. rewrite <- E. split; [|by split].
      apply seg_app in ok_seg0 as [Hs0 [Hst _]]. apply seg_app.
      assert (Hat : apart t nb) by (apply Hap; set_solver). destruct (ok_blk0 t) as [Ht1 Ht2 Ht3 Ht4 Ht5]; [set_solver|].
      split.
      * eapply seg_keep, Hs0. intros c Hc x Hx. pose proof (Hap c ltac:(set_solver)) as Hapc.
        destruct (ok_blk0 c); [set_solver|].
        apply all_apart_app in ok_apart0 as (_ & _ & Ha). specialize (Ha c t Hc ltac:(set_solver)).
        apply Hm; [unfold apart, bend in *; cbn in *; lia|right]. unfold apart, bend in *. lia.
      * split; [|done]. unfold hdr, b_magic, b_size, b_free, b_next, b_prev, b_arena in *.
        change (ram {| hp := {| m_pa := a'; m_ram := m' |}; g_heap_head := _; g_heap_tail := r;
          g_heap_total_bytes := total; g_next_arena_id := u64 (arena + 1) |}) with m' in *.
        destruct Hst as (? & ? & ? & _ & ? & ?). unfold apart, bend in *. cbn [nb ba bs] in Hat.
        rewrite !(Hm (ba t)), !(Hm (ba t + 8)), !(Hm (ba t + 16)), !(Hm (ba t + 32)), !(Hm (ba t + 40)) by lia.
        split_and!; try done. cbn [next_of nb ba]. unfold m', arena_ram.
        rewrite (proj2 (Z.eqb_neq (g_heap_tail h) 0)), E by lia. by rewrite rd64_wr64_eq.
  - destruct Htail as [[E ->]|(l0 & t & -> & E & Ht)].
    + by rewrite E.
    + rewrite (proj2 (Z.eqb_neq (g_heap_tail h) 0)) by lia. rewrite ok_head0. by destruct l0.
  - by rewrite last_of_app.
  - intros b [Hb| ->%list_elem_of_singleton]%elem_of_app; [by apply ok_blk0|].
    split; rewrite ?Hbe; cbn; try lia; clear -Hr1; Z.to_euclidean_division_equations; lia.
  - apply all_apart_app. split; [done|]. split; [by cbn; set_solver|]. intros b c Hb ->%list_elem_of_singleton. by apply Hap.
  - intros b [Hb| ->%list_elem_of_singleton]%elem_of_app q Hq Hq1 Hq2 [Hq3 Hq4]%Hav'.
    + by apply (ok_owned0 b Hb q).
    + apply Hq4. unfold in_run. rewrite Hbe in Hq1. cbn in Hq2. clear -Hq Hr1 Hq1 Hq2.
      Z.to_euclidean_division_equations. lia.
Qed.

(** The heap with one more arena at [r]. *)
Definition with_arena (r n : Z) (a' : A) (total : Z) h : kheap A :=
  Kheap (Mach a' (arena_ram (ram h) r (n * 4096 - 48) (g_next_arena_id h) (g_heap_tail h)))
    (if g_heap_tail h =? 0 then r else g_heap_head h) r total (u64 (g_next_arena_id h + 1)).

Lemma extend_heap_eq n h r a' :
  let pages := page_count_for_payload n in
  pages <> 0 -> alloc_pages pages (m_pa (hp h)) = (r, a') -> r <> 0 ->
  block_payload_capacity pages = pages * 4096 - 48 ->
  exists total, extend_heap n h = (r, with_arena r pages a' total h).
Proof.
  cbv zeta. intros Hp Ea Hr Hcap. unfold extend_heap. cbv zeta. rewrite (proj2 (Z.eqb_neq _ _) Hp), Ea.
  rewrite (proj2 (Z.eqb_neq _ _) Hr), Hcap. unfold append_block, with_arena, arena_ram. cbv zeta.
  cbn [wr set_ram hp m_pa m_ram g_heap_tail g_heap_head g_heap_total_bytes g_next_arena_id].
  destruct (g_heap_tail h =? 0); eexists; reflexivity.
Qed.

Lemma extend_ok n h l :
  heap_ok h l -> 0 < n < 2 ^ 64 ->
  let '(r, h') := extend_heap n h in
  (r = 0 /\ heap_ok h' l /\ ram h' = ram h) \/
  exists nb, r = ba nb /\ bf nb = true /\ n <= bs nb /\ heap_ok h' (l ++ [nb]) /\ keeps_payload h h' l.
Proof.
  intros Hok Hn. pose proof (page_count_spec n Hn) as Hpc. cbv zeta in Hpc.
  destruct (Z.eq_dec (page_count_for_payload n) 0) as [E0|E0].
  { unfold extend_heap. rewrite E0. by left. }
  destruct Hpc as [|[Hpos Hpc]]; [done|]. pose proof Hok as [].
  destruct (alloc_pages (page_count_for_payload n) (m_pa (hp h))) as [r a'] eqn:Ea.
  destruct (alloc_pages_law _ _ _ _ ok_pa0 Hpos Ea) as (Hpa & _ & [[-> ->]|(Hr0 & Hav & Hav')]).
  { unfold extend_heap. rewrite (proj2 (Z.eqb_neq _ _) E0), Ea. left. split; [done|]. split; [by split|done]. }
  assert (Haddr : r mod 4096 = 0 /\ 0 < r /\ r + page_count_for_payload n * 4096 <= 2 ^ 48).
  { destruct (avail_addr _ _ ok_pa0 (Hav 0 ltac:(lia))) as (H1 & H2 & _). rewrite Z.mul_0_l, Z.add_0_r in H1, H2.
    destruct (avail_addr _ _ ok_pa0 (Hav (page_count_for_payload n - 1) ltac:(lia))) as (_ & _ & H3). split_and!; lia. }
  destruct Haddr as (Hr1 & Hr2 & Hr3).
  destruct (extend_heap_eq n h r a' E0 Ea Hr0) as [total E].
  { unfold block_payload_capacity. rewrite header_size_48. change PAGE_SIZE with 4096.
    rewrite (u64_id (page_count_for_payload n * 4096)) by lia. apply u64_id. lia. }
  rewrite E. right.
  destruct (append_ok h l r _ a' total (g_next_arena_id h) Hok Hpos Hpa Hr1 Hr2 Hr3 Hav Hav') as [G1 G2].
  eexists. split; [|split; [|split; [|split; [exact G1|exact G2]]]]; cbn; [done..|lia].
Qed.

(** ** Searching *)

Lemma find_block_spec m p l fuel size :
  seg m p l 0 -> (forall b, b ∈ l -> ba b <> 0) -> (length l < fuel)%nat ->
  (find_block fuel m (next_of l 0) size = 0 /\ forall b, b ∈ l -> bf b = true -> bs b < size) \/
  exists l1 b l2, l = l1 ++ b :: l2 /\ bf b = true /\ size <= bs b /\ find_block fuel m (next_of l 0) size = ba b.
Proof.
  revert p fuel. induction l as [|b l IH]; intros p [|fuel] Hs Hnz Hf; cbn [length] in Hf; try lia.
  { left. split; [done|]. intros b Hb. by apply elem_of_nil in Hb. }
  destruct Hs as [(_ & Hsz & Hfr & Hn & _ & _) Hs]. cbn [next_of find_block].
  rewrite (proj2 (Z.eqb_neq (ba b) 0)) by (apply Hnz; set_solver). rewrite Hsz, Hfr, Hn.
  assert (Hrec : negb ((if bf b then 1 else 0) =? 0) && (bs b >=? size) = true \/ (bf b = true -> bs b < size)).
  { destruct (bf b); [|by right]. destruct (Z.geb_spec (bs b) size); [by left|right; lia]. }
  destruct (negb _ && _) eqn:E.
  - right. exists [], b, l. destruct (bf b); [|done]. cbn in E. b2p. split_and!; done.
  - destruct Hrec as [Hrec|Hrec]; [congruence|].
    destruct (IH (ba b) fuel Hs) as [[H1 H2]|(l1 & c & l2 & -> & H2 & H3 & H4)]; [intros; apply Hnz; set_solver|lia| |].
    + left. split; [done|]. intros c [->|Hc]%elem_of_cons; [done|by apply H2].
    + right. exists (b :: l1), c, l2. split_and!; done.
Qed.

(** The loop bound is enough: headers are distinct words of RAM. *)
Lemma seg_magic m p l n b : seg m p l n -> b ∈ l -> rd64 m (ba b) = KHEAP_MAGIC.
Proof.
  revert p. induction l as [|c l IH]; intros p; [by intros _ ?%elem_of_nil|].
  intros [Hh Hs] [->|Hb]%elem_of_cons; [apply Hh|by eapply IH].
Qed.

Lemma heap_fuel_enough h l : heap_ok h l -> (length l < heap_fuel (ram h))%nat.
Proof.
  intros []. unfold heap_fuel. apply Nat.lt_succ_r.
  assert (Hnd : NoDup (ba <$> l)).
  { clear -ok_blk0 ok_apart0. induction l as [|b l IH]; [constructor|]. destruct ok_apart0 as [Ha Hl]. cbn. constructor.
    - intros (c & E & Hc)%list_elem_of_fmap. pose proof (Ha c Hc) as Hap.
      destruct (ok_blk0 b), (ok_blk0 c); [set_solver..|]. unfold apart, bend in *. lia.
    - apply IH; [|done]. intros c Hc. apply ok_blk0. set_solver. }
  rewrite <- (length_fmap ba l), <- (size_list_to_set (C := gset Z)), <- (size_dom (D := gset Z)) by done.
  apply subseteq_size. intros x (b & -> & Hb)%elem_of_list_to_set%list_elem_of_fmap.
  apply elem_of_dom. pose proof (seg_magic _ _ _ _ b ok_seg0 Hb) as Hm. unfold rd64 in Hm.
  destruct (ram h !! ba b) as [v|]; [by exists v|done].
Qed.

(** ** Allocating *)

(** The contents of the allocations [ls] are as they were. *)
Definition keeps_live h h' (ls : list (Z * Z)) : Prop :=
  forall q s x, (q, s) ∈ ls -> q <= x < q + s -> rd64 (ram h') x = rd64 (ram h) x.

Lemma keeps_payload_live h h' l : keeps_payload h h' l -> keeps_live h h' (live l).
Proof.
  intros Hk q s x (b & Hb & _ & -> & ->)%live_elem Hx. apply (Hk b); [done|]. unfold bend. lia.
Qed.

Lemma keeps_live_trans h1 h2 h3 ls : keeps_live h1 h2 ls -> keeps_live h2 h3 ls -> keeps_live h1 h3 ls.
Proof. intros H1 H2 q s x Hq Hx. by rewrite (H2 q s x Hq Hx), (H1 q s x Hq Hx). Qed.

Lemma keeps_payload_app h h' l1 b l2 :
  keeps_payload h h' (l1 ++ l2) -> bf b = true -> keeps_live h h' (live (l1 ++ b :: l2)).
Proof.
  intros Hk Hb. rewrite live_app, live_cons, Hb, <- live_app. by apply keeps_payload_live.
Qed.

(** Marking a block keeps every payload. *)
Lemma mark_keeps h l1 b l2 v :
  heap_ok h (l1 ++ b :: l2) -> keeps_payload h (wr h (ba b + 16) v) (l1 ++ b :: l2).
Proof.
  intros Hok c x Hc Hx. destruct (ok_fields _ _ _ _ Hok) as (_ & [] & Ho). rewrite ram_wr. apply rd64_wr64_ne.
  assert (c = b \/ c ∈ l1 ++ l2) as [->|Hc'] by set_solver; [lia|].
  destruct (Ho c Hc') as [Hap []]. unfold apart, bend in *. lia.
Qed.

Lemma take_ok h l1 b l2 size :
  heap_ok h (l1 ++ b :: l2) -> bf b = true -> 0 < size -> size mod 16 = 0 -> size <= bs b ->
  let '(p, h') := take_block (ba b) size h in
  p = ba b + 48 /\ exists l' sz, heap_ok h' l' /\ size <= sz /\ p + sz <= bend b /\
    (live l' ≡ₚ (p, sz) :: live (l1 ++ b :: l2)) /\ keeps_live h h' (live (l1 ++ b :: l2)).
Proof.
  intros Hok Hb Hs H16 Hle. unfold take_block. rewrite header_size_48. split; [done|].
  destruct (Z_le_gt_dec (size + 80) (bs b)) as [Hsp|Hsp].
  - destruct (split_ok h l1 b l2 size Hok Hs H16 Hsp) as [Hok1 Hk1].
    change ((l1 ++ [left_part b size; right_part b size] ++ l2)) with (l1 ++ left_part b size :: right_part b size :: l2) in Hok1.
    destruct (mark_ok _ _ _ _ false Hok1) as [Hok2 _]. pose proof (mark_keeps _ _ _ _ 0 Hok1) as Hk2.
    cbn [left_part ba] in Hok2, Hk2. eexists _, size. split; [exact Hok2|]. split; [done|]. split; [unfold bend; lia|]. split.
    + rewrite !live_app, !live_cons, Hb. cbn. rewrite <- Permutation_middle. done.
    + apply keeps_payload_app; [|done]. intros c x Hc Hx.
      rewrite (Hk2 c x); [by apply (Hk1 c)|set_solver|done].
  - assert (E : split_block (ba b) size h = h).
    { destruct (ok_fields _ _ _ _ Hok) as ((_ & Hsz & _) & [] & _). unfold bend in *.
      unfold split_block, KHEAP_MIN_SPLIT. cbv zeta. rewrite header_size_48, Hsz.
      rewrite (u64_id (size + 48)), u64_id by lia. destruct (Z.ltb_spec (bs b) (size + 48 + 32)); [done|lia]. }
    rewrite E. destruct (mark_ok _ _ _ _ false Hok) as [Hok2 _]. pose proof (mark_keeps _ _ _ _ 0 Hok) as Hk2.
    eexists _, (bs b). split; [exact Hok2|]. split; [lia|]. split; [unfold bend; lia|]. split.
    + rewrite !live_app, !live_cons, Hb. cbn. by rewrite <- Permutation_middle.
    + by apply keeps_payload_live.
Qed.

Lemma heap_align_spec n : 0 <= n <= 2 ^ 64 - 16 -> n <= align_up n < n + 16 /\ align_up n mod 16 = 0.
Proof.
  intros Hn. unfold align_up, KHEAP_ALIGN. rewrite u64_id by lia. change (16 - 1) with (2 ^ 4 - 1).
  rewrite land_high_mask by lia. change (2 ^ 4) with 16. split; Z.to_euclidean_division_equations; lia.
Qed.

Lemma heap_ok_empty h l : heap_ok h l -> g_heap_head h = 0 -> l = [].
Proof.
  intros [] E. destruct l as [|b l]; [done|]. destruct (ok_blk0 b); [set_solver|]. cbn in *. lia.
Qed.

(** The first call creates the first arena. *)
Lemma first_arena h l :
  heap_ok h l -> let h0 := if g_heap_head h =? 0 then kheap_init h else h in
  exists l0, heap_ok h0 l0 /\ l ⊆ l0 /\ live l0 = live l /\ keeps_live h h0 (live l).
Proof.
  intros Hok. cbv zeta. destruct (Z.eqb_spec (g_heap_head h) 0) as [E|E]; [|by exists l].
  assert (El := heap_ok_empty _ _ Hok E). subst l. unfold kheap_init. rewrite E. cbn [Z.eqb negb].
  set (h1 := Kheap _ _ _ _ _).
  assert (Hok1 : heap_ok h1 []) by (destruct Hok; split; done).
  pose proof (extend_ok 1 h1 [] Hok1 ltac:(lia)) as Hx. destruct (extend_heap 1 h1) as [r h'].
  destruct Hx as [(_ & Hx & _)|(nb & _ & Hf & _ & Hx & _)].
  - exists []. split_and!; try done. by intros ? ? ? ?%elem_of_nil.
  - exists [nb]. split_and!; try done; [set_solver|by rewrite live_cons, Hf|by intros ? ? ? ?%elem_of_nil].
Qed.

(** Live allocations of a well-formed heap never overlap. *)
Lemma live_apart h l1 l2 q s : heap_ok h (l1 ++ l2) -> forall p sz,
  (p, sz) ∈ live l1 -> (q, s) ∈ live l2 -> p + sz <= q - 48 \/ q + s <= p - 48.
Proof.
  intros [] p sz (b & Hb & _ & -> & ->)%live_elem (c & Hc & _ & -> & ->)%live_elem.
  apply all_apart_app in ok_apart0 as (_ & _ & Ha). specialize (Ha b c Hb Hc). unfold apart, bend in *. lia.
Qed.

(** What a successful allocation of [size] bytes at [p] has done. *)
Definition allocated h h' size l l' p : Prop :=
  exists sz, size <= sz /\ 0 < p /\ p mod 16 = 0 /\ p + sz <= 2 ^ 48 /\
    (live l' ≡ₚ (p, sz) :: live l) /\ keeps_live h h' (live l).

Lemma kmalloc_take h0 h l l0 l1 b l2 size :
  heap_ok h (l1 ++ b :: l2) -> bf b = true -> 0 < size <= 2 ^ 64 - 16 -> align_up size <= bs b ->
  live (l1 ++ b :: l2) = live l0 -> live l0 = live l -> keeps_live h0 h (live l) ->
  exists l' p h', take_block (ba b) (align_up size) h = (p, h') /\ heap_ok h' l' /\ allocated h0 h' size l l' p.
Proof.
  intros Hok Hb Hsize Hle E1 E2 Hk. destruct (heap_align_spec size) as [Hal1 Hal2]; [lia|].
  pose proof (take_ok h l1 b l2 (align_up size) Hok Hb ltac:(lia) Hal2 Hle) as Ht.
  destruct (take_block (ba b) (align_up size) h) as [p h'].
  destruct Ht as (-> & l' & sz & Hok' & Hsz & Hend & Hperm & Hk').
  rewrite E1, E2 in Hperm, Hk'. destruct (ok_fields _ _ _ _ Hok) as (_ & [] & _).
  exists l', (ba b + 48), h'. split; [done|]. split; [done|]. exists sz. split_and!; try done; try lia.
  - clear -bo_align0. Z.to_euclidean_division_equations. lia.
  - by eapply keeps_live_trans.
Qed.

Lemma kmalloc_spec h l size :
  heap_ok h l -> 0 <= size < 2 ^ 64 ->
  let '(p, h') := kmalloc size h in
  exists l', heap_ok h' l' /\
  ((p = 0 /\ live l' = live l /\ keeps_live h h' (live l) /\
    (size = 0 \/ 2 ^ 64 - 16 < size \/ forall b, b ∈ l -> bf b = true -> bs b < align_up size)) \/
   allocated h h' size l l' p).
Proof.
  intros Hok Hsize. unfold kmalloc, UINT64_MAX, KHEAP_ALIGN.
  destruct (Z.eqb_spec size 0) as [->|Hnz]; [exists l; split; [done|]; left; split_and!; auto; by intros ? ?|].
  destruct (Z.gtb_spec size (2 ^ 64 - 1 - (16 - 1))); cbn [orb];
    [exists l; split; [done|]; left; split_and!; try done; right; left; lia|].
  destruct (heap_align_spec size) as [Hal1 Hal2]; [lia|].
  destruct (first_arena h l Hok) as (l0 & Hok0 & Hsub & Hlive & Hk0). cbv zeta in *.
  set (h0 := if g_heap_head h =? 0 then kheap_init h else h) in *.
  destruct (find_block_spec (ram h0) 0 l0 (heap_fuel (ram h0)) (align_up size)) as [[Ef Hno]|(l1 & b & l2 & -> & Hbf & Hbs & Ef)].
  { apply Hok0. } { intros b Hb. pose proof (bo_addr _ (ok_blk _ _ Hok0 b Hb)). lia. } { by apply heap_fuel_enough. }
  - rewrite (ok_head _ _ Hok0), Ef. cbn [Z.eqb negb].
    pose proof (extend_ok (align_up size) h0 l0 Hok0 ltac:(lia)) as Hx.
    destruct (extend_heap (align_up size) h0) as [r h1].
    destruct Hx as [(-> & Hok1 & Hram)|(nb & -> & Hf & Hsz & Hok1 & Hk1)].
    + exists l0. split; [done|]. left. split_and!; try done.
      * eapply keeps_live_trans; [done|]. intros q s x _ _. by rewrite Hram.
      * right; right. intros b Hb. apply Hno. by apply Hsub.
    + assert (Hnb : 0 < ba nb) by (apply (ok_blk _ _ Hok1); set_solver).
      rewrite (proj2 (Z.eqb_neq (ba nb) 0)) by lia.
      destruct (kmalloc_take h h1 l l0 l0 nb [] size) as (l' & p & h' & -> & Hok' & Ha); try done; try lia.
      * by rewrite live_app, live_cons, Hf, app_nil_r.
      * eapply keeps_live_trans; [done|]. rewrite <- Hlive. by apply keeps_payload_live.
      * exists l'. split; [done|]. by right.
  - assert (Hb : 0 < ba b) by (apply (ok_blk _ _ Hok0); set_solver).
    rewrite (ok_head _ _ Hok0), Ef. rewrite (proj2 (Z.eqb_neq (ba b) 0)) by lia. cbn [negb].
    destruct (kmalloc_take h h0 l (l1 ++ b :: l2) l1 b l2 size) as (l' & p & h' & -> & Hok' & Ha); try done; try lia.
    exists l'. split; [done|]. by right.
Qed.

(** ** Releasing *)

Lemma coalesce_ok h l1 b l2 :
  heap_ok h (l1 ++ b :: l2) ->
  exists b' l2', heap_ok (coalesce_next (ba b) h) (l1 ++ b' :: l2') /\ ba b' = ba b /\ bf b' = bf b /\ live l2' = live l2 /\
    (bf b = true -> keeps_live h (coalesce_next (ba b) h) (live (l1 ++ b :: l2))).
Proof.
  intros Hok. pose proof (coalesce_eq h l1 b l2 Hok) as E. destruct l2 as [|c l3].
  { rewrite E. exists b, []. split_and!; try done. }
  destruct (mergeable b c) eqn:Em.
  - destruct (merge_ok h l1 b c l3 Hok Em) as [Hok' Hk]. exists (merged b c), l3. split_and!; try done.
    + rewrite live_cons. unfold mergeable in Em. b2p. by destruct (bf c).
    + intros _. by apply keeps_payload_live.
  - rewrite E. exists b, (c :: l3). split_and!; try done.
Qed.

Lemma kfree_spec h l p sz :
  heap_ok h l -> (p, sz) ∈ live l ->
  exists l', heap_ok (kfree p h) l' /\ (live l ≡ₚ (p, sz) :: live l') /\ keeps_live h (kfree p h) (live l').
Proof.
  intros Hok (b & Hb & Hf & -> & ->)%live_elem. apply list_elem_of_split in Hb as (l1 & l2 & ->).
  destruct (ok_fields _ _ _ _ Hok) as ((Hmg & Hsz & Hfr & Hnx & Hpv & Har) & [] & Ho). unfold bend in *.
  unfold kfree. rewrite header_size_48. rewrite (proj2 (Z.eqb_neq (ba b + 48) 0)) by lia.
  replace (ba b + 48 - 48) with (ba b) by lia. rewrite u64_id by lia. rewrite Hmg, Z.eqb_refl, Hfr, Hf. cbn [negb Z.eqb].
  destruct (mark_ok _ _ _ _ true Hok) as [Hok1 _]. pose proof (mark_keeps _ _ _ _ 1 Hok) as Hk1.
  set (h1 := wr h (ba b + 16) 1) in *. cbv zeta.
  change (ba b) with (ba (with_free b true)) in Hok1.
  destruct (coalesce_ok h1 l1 (with_free b true) l2 Hok1) as (b' & l2' & Hok2 & Ha & Hf' & Hl2 & Hk2).
  cbn [with_free ba bf] in *. set (h2 := coalesce_next (ba b) h1) in *.
  assert (Hlive : live (l1 ++ b :: l2) ≡ₚ (ba b + 48, bs b) :: live (l1 ++ l2)).
  { rewrite !live_app, live_cons, Hf. by rewrite <- Permutation_middle. }
  assert (Hlv2 : live (l1 ++ b' :: l2') = live (l1 ++ l2)) by (by rewrite !live_app, live_cons, Hf', Hl2).
  assert (Hk12 : keeps_live h h2 (live (l1 ++ l2))).
  { eapply keeps_live_trans.
    - intros q s x Hq. apply (keeps_payload_live _ _ _ Hk1). rewrite Hlive. set_solver.
    - specialize (Hk2 eq_refl). rewrite live_app, live_cons in Hk2. cbn [with_free bf] in Hk2. by rewrite <- live_app in Hk2. }
  destruct (ok_fields _ _ _ _ Hok2) as ((_ & _ & _ & _ & Hpv2 & _) & _ & _). rewrite Ha in Hpv2. rewrite Hpv2.
  destruct l1 as [|c l1 _] using rev_ind.
  { exists ([] ++ b' :: l2'). split_and!; [done|by rewrite Hlive, <- Hlv2|by rewrite Hlv2]. }
  rewrite last_of_app. cbn [last_of]. rewrite <- app_assoc in Hok2. cbn [app] in Hok2.
  destruct (ok_fields _ _ _ _ Hok2) as ((_ & _ & Hfc & _) & [] & _).
  rewrite (proj2 (Z.eqb_neq (ba c) 0)) by lia. rewrite Hfc. cbn [negb andb].
  destruct (bf c) eqn:Hc; cbn [Z.eqb negb].
  - destruct (coalesce_ok h2 l1 c (b' :: l2') Hok2) as (c' & l3 & Hok3 & _ & Hf3 & Hl3 & Hk3).
    assert (Hlv3 : live (l1 ++ c' :: l3) = live ((l1 ++ [c]) ++ l2)).
    { rewrite <- Hlv2, <- app_assoc. cbn [app]. by rewrite !live_app, !(live_cons c), (live_cons c'), Hf3, Hc, Hl3. }
    exists (l1 ++ c' :: l3). split_and!; [done|by rewrite Hlive, Hlv3|]. rewrite Hlv3. eapply keeps_live_trans; [done|].
    rewrite <- Hlv2, <- app_assoc. by apply Hk3.
  - exists (l1 ++ c :: b' :: l2'). rewrite <- app_assoc in Hlv2. cbn [app] in Hlv2.
    split_and!; [done|by rewrite Hlive, Hlv2|by rewrite Hlv2].
Qed.

(** ** Statistics *)

Definition free_total (l : list blk) : Z := foldr (fun b n => (if bf b then bs b else 0) + n) 0 l.

Lemma free_bytes_loop_spec m p l fuel acc :
  seg m p l 0 -> (forall b, b ∈ l -> ba b <> 0) -> (length l < fuel)%nat ->
  u64 (free_bytes_loop fuel m (next_of l 0) acc) = u64 (acc + free_total l).
Proof.
  revert p fuel acc. induction l as [|b l IH]; intros p [|fuel] acc Hs Hnz Hf; cbn [length] in Hf; try lia.
  { cbn. f_equal. lia. }
  destruct Hs as [(_ & Hsz & Hfr & Hn & _ & _) Hs]. cbn [next_of free_bytes_loop].
  rewrite (proj2 (Z.eqb_neq (ba b) 0)) by (apply Hnz; set_solver). rewrite Hsz, Hfr, Hn.
  rewrite (IH (ba b)); [|done|intros; apply Hnz; set_solver|lia]. cbn [free_total foldr].
  destruct (bf b); cbn [Z.eqb negb]; unfold u64.
  - rewrite Zplus_mod_idemp_l. f_equal. fold (free_total l). lia.
  - reflexivity.
Qed.

(** ** Runs of the heap *)

(** The states reachable from an empty heap by allocations, releases of live
    allocations and stores of clients into their own allocations; [al] lists
    the outstanding allocations with the sizes that were asked for. *)
Inductive heap_run : kheap A -> list (Z * Z) -> Prop :=
  | run_start a m total arena : pa_inv a -> heap_run (Kheap (Mach a m) 0 0 total arena) []
  | run_kmalloc h al size : heap_run h al -> 0 <= size < 2 ^ 64 ->
      heap_run (snd (kmalloc size h))
        (if fst (kmalloc size h) =? 0 then al else (fst (kmalloc size h), size) :: al)
  | run_kfree h al1 p size al2 : heap_run h (al1 ++ (p, size) :: al2) -> heap_run (kfree p h) (al1 ++ al2)
  | run_store h al p size a v : heap_run h al -> (p, size) ∈ al -> p <= a -> a + 8 <= p + size ->
      heap_run (wr h a v) al.

(** An allocation as the client asked for it, and as the heap keeps it. *)
Definition served (x y : Z * Z) : Prop := fst x = fst y /\ 0 <= snd x <= snd y.

Lemma store_ok h l p sz a v :
  heap_ok h l -> (p, sz) ∈ live l -> p <= a < p + sz -> heap_ok (wr h a v) l.
Proof.
  intros [] (b & Hb & _ & -> & ->)%live_elem Hx. split; try done. cbn [wr set_ram].
  eapply seg_keep, ok_seg0. intros c Hc. apply keeps_wr.
  apply list_elem_of_split in Hb as (l1 & l2 & ->). apply all_apart_mid in ok_apart0 as [_ Ha].
  assert (c = b \/ c ∈ l1 ++ l2) as [->|Hc'] by set_solver; [lia|].
  specialize (Ha c Hc'). destruct (ok_blk0 c Hc). unfold apart, bend in *. lia.
Qed.

Lemma heap_run_ok h al :
  heap_run h al -> exists l ls, heap_ok h l /\ (live l ≡ₚ ls) /\ Forall2 served al ls.
Proof.
  induction 1 as [a m total arena Ha|h al size _ (l & ls & Hok & Hp & Hs) Hsz|
    h al1 p size al2 _ (l & ls & Hok & Hp & Hs)|h al p size a v _ (l & ls & Hok & Hp & Hs) Hin Hlo Hhi].
  - exists [], []. split; [|done]. split; try done; by intros b ?%elem_of_nil.
  - pose proof (kmalloc_spec h l size Hok Hsz) as Hm. destruct (kmalloc size h) as [p h']. cbn [fst snd].
    destruct Hm as (l' & Hok' & [(-> & Hl & _)|(sz & Hle & Hpos & _ & _ & Hl & _)]).
    + exists l', ls. by rewrite Hl.
    + rewrite (proj2 (Z.eqb_neq p 0)) by lia. exists l', ((p, sz) :: ls). rewrite Hl, Hp. split_and!; try done.
      constructor; [|done]. split; cbn; [done|lia].
  - apply Forall2_app_inv_l in Hs as (ls1 & ls2' & Hs1 & Hs2 & ->).
    inversion Hs2 as [|? [q s] ? ls2 [Hq Hqs] Hs2' Ex Ey]; subst. cbn in Hq, Hqs. subst q.
    destruct (kfree_spec h l p s Hok) as (l' & Hok' & Hp' & _).
    { rewrite Hp. set_solver. }
    exists l', (ls1 ++ ls2). split_and!; [done| |by apply Forall2_app].
    apply (Permutation_cons_inv (a := (p, s))). by rewrite <- Hp', Hp, Permutation_middle.
  - exists l, ls. split_and!; try done. apply list_elem_of_lookup in Hin as [i Hi].
    destruct (Forall2_lookup_l _ _ _ _ _ Hs Hi) as ([q s] & Hj & [Hq Hqs]). cbn in Hq, Hqs. subst q.
    eapply (store_ok h l p s); [done| |lia]. rewrite Hp. by eapply list_elem_of_lookup_2.
Qed.

(** Live payloads of different blocks are apart. *)
Lemma live_positions h l i j p n q s :
  heap_ok h l -> i <> j -> live l !! i = Some (p, n) -> live l !! j = Some (q, s) -> p + n <= q \/ q + s <= p.
Proof.
  intros Hok Hij Hi Hj. destruct Hok as [_ _ _ _ Ha _ _]. revert i j Hij Hi Hj.
  induction l as [|b l IH]; intros i j Hij; [done|]. destruct Ha as [Hb Ha]. rewrite live_cons.
  destruct (bf b); [by apply IH|]. destruct i as [|i], j as [|j]; cbn [lookup list_lookup]; [done| | |].
  - intros [= <- <-] (c & Hc & _ & -> & ->)%list_elem_of_lookup_2%live_elem. specialize (Hb c Hc).
    unfold apart, bend in *. lia.
  - intros (c & Hc & _ & -> & ->)%list_elem_of_lookup_2%live_elem [= <- <-]. specialize (Hb c Hc).
    unfold apart, bend in *. lia.
  - intros Hi Hj. by apply (IH Ha i j); [lia|..].
Qed.
End Invariant.

(** * Properties *)

Section Properties.
Context {A : Type} `{PageAllocatorLaws A}.
Implicit Types (h : kheap A) (l : list blk).

(** C3: whatever sequence of allocations, releases and client stores has run,
    the block list in RAM is well formed: a doubly linked list of 16-byte
    aligned, pairwise disjoint blocks with intact headers from g_heap_head to
    g_heap_tail, on pages the allocator will not hand out again; and
    kheap_free_bytes is the payload of its free blocks. *)
Theorem kheap_well_formed h al :
  heap_run h al -> exists l, heap_ok h l /\ u64 (kheap_free_bytes h) = u64 (free_total l).
Proof.
  intros (l & ls & Hok & _)%heap_run_ok. exists l. split; [done|]. unfold kheap_free_bytes. rewrite (ok_head _ _ Hok).
  rewrite (free_bytes_loop_spec (ram h) 0 l); [done|apply Hok| |by apply heap_fuel_enough].
  intros b Hb. pose proof (bo_addr _ (ok_blk _ _ Hok b Hb)). lia.
Qed.

(** the allocations outstanding after any run are non-null, 16-byte
    aligned and do not overlap one another. *)
Theorem kheap_allocations_disjoint h al :
  heap_run h al ->
  Forall (fun x => 0 < fst x /\ fst x mod 16 = 0) al /\
  forall i j p n q s, i <> j -> al !! i = Some (p, n) -> al !! j = Some (q, s) -> p + n <= q \/ q + s <= p.
Proof.
  intros (l & ls & Hok & Hp & Hs)%heap_run_ok. split.
  - apply Forall_forall. intros [p n] Hin. apply list_elem_of_lookup in Hin as [i Hi].
    destruct (Forall2_lookup_l _ _ _ _ _ Hs Hi) as ([q s] & Hj & [Hq _]). cbn in *. subst q.
    apply list_elem_of_lookup_2 in Hj. rewrite <- Hp in Hj. apply live_elem in Hj as (b & Hb & _ & -> & _).
    destruct (ok_blk _ _ Hok b Hb). split; [lia|]. clear -bo_align0. Z.to_euclidean_division_equations. lia.
  - intros i j p n q s Hij Hi Hj.
    destruct (Forall2_lookup_l _ _ _ _ _ Hs Hi) as ([p' n'] & Hi' & [Ep En]).
    destruct (Forall2_lookup_l _ _ _ _ _ Hs Hj) as ([q' s'] & Hj' & [Eq Es]). cbn in *. subst p' q'.
    symmetry in Hp. apply Permutation_inj in Hp as [_ (f & Hf & Hperm)]. rewrite Hperm in Hi', Hj'.
    pose proof (live_positions h l (f i) (f j) p n' q s' Hok) as Hd.
    destruct Hd as [Hd|Hd]; [by intros ?%Hf|done|done|lia|lia].
Qed.

(** C4: kmalloc either returns NULL and leaves every allocation as it was
    (only when the size is 0, too close to 2^64, or no free block of the heap
    holds it), or adds one allocation of at least the size asked for at a
    16-byte aligned address, the contents of all the others unchanged. *)
Theorem kmalloc_refines h l size :
  heap_ok h l -> 0 <= size < 2 ^ 64 ->
  let '(p, h') := kmalloc size h in
  exists l', heap_ok h' l' /\
  ((p = 0 /\ live l' = live l /\ keeps_live h h' (live l) /\
    (size = 0 \/ 2 ^ 64 - 16 < size \/ forall b, b ∈ l -> bf b = true -> bs b < align_up size)) \/
   allocated h h' size l l' p).
Proof. apply kmalloc_spec. Qed.

(** C5: kfree of an outstanding allocation removes exactly that one from the
    heap, merging it with its free neighbours of the same arena, and keeps the
    contents of every other allocation. *)
Theorem kfree_refines h l p sz :
  heap_ok h l -> (p, sz) ∈ live l ->
  exists l', heap_ok (kfree p h) l' /\ (live l ≡ₚ (p, sz) :: live l') /\ keeps_live h (kfree p h) (live l').
Proof. apply kfree_spec. Qed.
End Properties.

(** * A concrete heap *)

Definition demo_heap : kheap pmm := Kheap (Mach (m_pa demo_machine) ∅) 0 0 0 0.
Definition demo_heap1 : kheap pmm := snd (kmalloc 100 demo_heap).

(** Two allocations of 100 bytes. *)
Definition demo_heap2 : kheap pmm := snd (kmalloc 100 demo_heap1).

Lemma run_kmalloc_ok (h : kheap pmm) al size p :
  heap_run h al -> 0 <= size < 2 ^ 64 -> fst (kmalloc size h) = p -> p <> 0 ->
  heap_run (snd (kmalloc size h)) ((p, size) :: al).
Proof.
  intros Hr Hs <- Hp. pose proof (run_kmalloc h al size Hr Hs) as H1. by rewrite (proj2 (Z.eqb_neq _ _) Hp) in H1.
Qed.

Lemma demo_heap_run : heap_run demo_heap2 [(0x400000d0, 100); (0x40000030, 100)].
Proof.
  assert (H0 : heap_run demo_heap []) by exact (run_start (m_pa demo_machine) ∅ 0 0 demo_machine_inv).
  assert (H1 : heap_run demo_heap1 [(0x40000030, 100)]).
  { apply (run_kmalloc_ok demo_heap []); [exact H0|lia|vm_compute; reflexivity|lia]. }
  apply (run_kmalloc_ok demo_heap1); [exact H1|lia|vm_compute; reflexivity|lia].
Qed.

Lemma kheap_well_formed_witness :
  kheap_free_bytes (kfree 0x40000030 demo_heap2) = 3840 /\
  exists l, heap_ok (kfree 0x40000030 demo_heap2) l /\ u64 3840 = u64 (free_total l).
Proof.
  assert (E : kheap_free_bytes (kfree 0x40000030 demo_heap2) = 3840) by (vm_compute; reflexivity).
  split; [exact E|].
  destruct (kheap_well_formed (kfree 0x40000030 demo_heap2) [(0x400000d0, 100)]) as (l & Hok & Hl).
  - apply (run_kfree demo_heap2 [(0x400000d0, 100)] 0x40000030 100 []), demo_heap_run.
  - exists l. split; [exact Hok|]. rewrite <- E. exact Hl.
Defined.

Lemma kheap_allocations_disjoint_witness :
  heap_run demo_heap2 [(0x400000d0, 100); (0x40000030, 100)] /\ (0x400000d0 + 100 <= 0x40000030 \/ 0x40000030 + 100 <= 0x400000d0).
Proof.
  split; [apply demo_heap_run|].
  destruct (kheap_allocations_disjoint _ _ demo_heap_run) as [_ Hd].
  apply (Hd 0%nat 1%nat); [lia|reflexivity|reflexivity].
Defined.

Lemma kmalloc_refines_witness :
  heap_ok demo_heap [] /\
  let '(p, h') := kmalloc 100 demo_heap in exists l', heap_ok h' l' /\ allocated demo_heap h' 100 [] l' p.
Proof.
  assert (H0 : heap_ok demo_heap []).
  { split; [exact I|reflexivity|reflexivity|intros b []%elem_of_nil|exact I|apply demo_machine_inv|intros b []%elem_of_nil]. }
  split; [exact H0|].
  assert (Hp : fst (kmalloc 100 demo_heap) <> 0) by (vm_compute; discriminate).
  pose proof (kmalloc_refines demo_heap [] 100 H0 ltac:(lia)) as Hm.
  destruct (kmalloc 100 demo_heap) as [p h']. destruct Hm as (l' & Hok & [[E _]|Ha]); [contradiction|].
  exists l'. split; assumption.
Defined.

Lemma kfree_refines_witness :
  exists l sz, heap_ok demo_heap2 l /\ (0x400000d0, sz) ∈ live l /\
  exists l', heap_ok (kfree 0x400000d0 demo_heap2) l' /\ (live l ≡ₚ (0x400000d0, sz) :: live l').
Proof.
  destruct (heap_run_ok _ _ demo_heap_run) as (l & ls & Hok & Hp & Hs).
  inversion Hs as [|? [q sz] ? ls2 [Hq _] Hs2 Ex Ey]; subst. cbn [fst] in Hq. subst q.
  assert (Hin : (0x400000d0, sz) ∈ live l) by (rewrite Hp; apply elem_of_cons; left; reflexivity).
  exists l, sz. split; [exact Hok|]. split; [exact Hin|].
  destruct (kfree_refines demo_heap2 l 0x400000d0 sz Hok Hin) as (l' & Hok' & Hl & _).
  exists l'. split; assumption.
Defined.
