(* ===== verification/ProcessRegions.v ===== *)
(** The process-control block and its user regions: the data types of
    kernel/process.h and the region half of kernel/process.c (add, allocate,
    set mapping, find, remove, range check).

    [user_regions] is the C array of eight entries and [user_region_count] its
    fill count, as in the struct; [live] is the logical list of regions they
    denote.  Out-parameters are results: [None] stands for the -1 return. *)

From S2P Require Import Prelude.
Open Scope arm.

Definition PROCESS_MAX_USER_REGIONS : Z := 8.
Definition PROCESS_NAME_LEN : Z := 16.
Definition PROCESS_USER_MMAP_BASE : Z := 0x0000000100000000.
Definition PROCESS_USER_MMAP_LIMIT : Z := 0x0000000200000000.
Definition PROCESS_USER_REGION_OWNED_PAGES : Z := Z.shiftl 1 0.
Definition USER_REGION_ALIGN : Z := 4096.

Inductive process_state :=
  | PROCESS_UNUSED | PROCESS_READY | PROCESS_RUNNING | PROCESS_BLOCKED | PROCESS_ZOMBIE.

#[export] Instance process_state_eq_dec : EqDecision process_state.
Proof. solve_decision. Defined.

Record process_user_region := Region {
  r_start : Z;
  r_end : Z;
  r_paddr : Z;
  r_flags : Z }.

(** The [name] pointer is null or points at the process's own storage. *)
Inductive name_ptr := NameNull | NameStorage.

Record process := Process {
  pid : Z;
  parent_pid : Z;
  name : name_ptr;
  name_storage : list Z;
  regs : list Z;
  sp : Z;
  pc : Z;
  pstate : Z;
  page_table : Z;
  state : process_state;
  exit_code : Z;
  next_user_vaddr : Z;
  user_regions : list process_user_region;
  user_region_count : Z }.

Definition set_regions (p : process) (rs : list process_user_region) (n : Z) : process :=
  Process (pid p) (parent_pid p) (name p) (name_storage p) (regs p) (sp p) (pc p) (pstate p)
    (page_table p) (state p) (exit_code p) (next_user_vaddr p) rs n.

Definition set_next_user_vaddr (p : process) (v : Z) : process :=
  Process (pid p) (parent_pid p) (name p) (name_storage p) (regs p) (sp p) (pc p) (pstate p)
    (page_table p) (state p) (exit_code p) v (user_regions p) (user_region_count p).

Definition process_set_page_table (p : process) (t : Z) : process :=
  Process (pid p) (parent_pid p) (name p) (name_storage p) (regs p) (sp p) (pc p) (pstate p)
    t (state p) (exit_code p) (next_user_vaddr p) (user_regions p) (user_region_count p).

(** An all-zero region, as region_clear leaves it. *)
Definition region_clear : process_user_region := Region 0 0 0 0.

(** [process->user_regions[i]]. *)
Definition region_at (p : process) (i : Z) : process_user_region :=
  default region_clear (user_regions p !! Z.to_nat i).

Definition align_up (value alignment : Z) : Z :=
  Z.land (u64 (value + alignment - 1)) (not64 (alignment - 1)).

Definition user_region_end (start size : Z) : option Z :=
  if (size =? 0) || (start >? UINT64_MAX - size) then None else Some (u64 (start + size)).

(** The first region that is exactly [start, end). *)
Definition find_exact (p : process) (start end_ : Z) : option Z :=
  find_range 0 (user_region_count p) (fun i =>
    (r_start (region_at p i) =? start) && (r_end (region_at p i) =? end_)).

Definition process_add_user_region (p : process) (start size : Z) : Z * process :=
  if user_region_count p >=? PROCESS_MAX_USER_REGIONS then (-1, p) else
  match user_region_end start size with
  | None => (-1, p)
  | Some end_ =>
      match find_range 0 (user_region_count p) (fun i =>
              (start <? r_end (region_at p i)) && (end_ >? r_start (region_at p i))) with
      | Some _ => (-1, p)
      | None =>
          (0, set_regions p
                (<[Z.to_nat (user_region_count p) := Region start end_ 0 0]> (user_regions p))
                (user_region_count p + 1))
      end
  end.

Definition process_alloc_user_region (p : process) (size : Z) : option Z * process :=
  if size =? 0 then (None, p) else
  let aligned_size := align_up size USER_REGION_ALIGN in
  if aligned_size <? size then (None, p) else
  let start := align_up (next_user_vaddr p) USER_REGION_ALIGN in
  if start <? next_user_vaddr p then (None, p) else
  match user_region_end start aligned_size with
  | None => (None, p)
  | Some end_ =>
      if end_ >? PROCESS_USER_MMAP_LIMIT then (None, p) else
      let '(status, p') := process_add_user_region p start aligned_size in
      if negb (status =? 0) then (None, p')
      else (Some start, set_next_user_vaddr p' end_)
  end.

Definition process_set_user_region_mapping (p : process) (start size paddr flags : Z) : Z * process :=
  match user_region_end start size with
  | None => (-1, p)
  | Some end_ =>
      match find_exact p start end_ with
      | None => (-1, p)
      | Some i =>
          (0, set_regions p
                (<[Z.to_nat i := Region (r_start (region_at p i)) (r_end (region_at p i)) paddr flags]>
                   (user_regions p)) (user_region_count p))
      end
  end.

Definition process_find_user_region (p : process) (start size : Z) : option process_user_region :=
  match user_region_end start size with
  | None => None
  | Some end_ => region_at p <$> find_exact p start end_
  end.

(** [for (j = i + 1; j < count; j++) user_regions[j - 1] = user_regions[j];] *)
Definition shift_down (i count : Z) (rs : list process_user_region) : list process_user_region :=
  for_range (i + 1) count (fun j rs =>
    <[Z.to_nat (j - 1) := default region_clear (rs !! Z.to_nat j)]> rs) rs.

Definition process_remove_user_region_info (p : process) (start size : Z)
    : option process_user_region * process :=
  match user_region_end start size with
  | None => (None, p)
  | Some end_ =>
      match find_exact p start end_ with
      | None => (None, p)
      | Some i =>
          let count := user_region_count p in
          (Some (region_at p i),
           set_regions p (<[Z.to_nat (count - 1) := region_clear]> (shift_down i count (user_regions p)))
             (count - 1))
      end
  end.

(** The return code only: 0 when a region was removed. *)
Definition process_remove_user_region (p : process) (start size : Z) : Z * process :=
  let '(removed, p') := process_remove_user_region_info p start size in
  (match removed with Some _ => 0 | None => -1 end, p').

Definition process_user_range_contains (p : process) (start size : Z) : bool :=
  if size =? 0 then true else
  match user_region_end start size with
  | None => false
  | Some end_ =>
      match find_range 0 (user_region_count p) (fun i =>
              (start >=? r_start (region_at p i)) && (end_ <=? r_end (region_at p i))) with
      | Some _ => true
      | None => false
      end
  end.

(** [for (i = 0; i + 1 < PROCESS_NAME_LEN && name[i] != 0; i++) storage[i] = name[i];]
    on what is left of the string ([n] is the room left). *)
Fixpoint copy_name_loop (n : nat) (i : nat) (str : list Z) (storage : list Z) : list Z :=
  match n, str with
  | S n', c :: str' => if c =? 0 then storage else copy_name_loop n' (S i) str' (<[i := c]> storage)
  | _, _ => storage
  end.

(** process_copy_name: a C string is the list of its characters up to the
    terminating NUL; [None] is a null pointer. *)
Definition process_copy_name (str : option (list Z)) : list Z :=
  let storage := replicate (Z.to_nat PROCESS_NAME_LEN) 0 in
  match str with
  | None => storage
  | Some s => copy_name_loop (Z.to_nat (PROCESS_NAME_LEN - 1)) 0 s storage
  end.

(** process_init overwrites every field of the slot. *)
Definition process_init (new_pid : Z) (str : option (list Z)) : process :=
  Process new_pid 0 NameStorage (process_copy_name str) (replicate 31 0) 0 0 0 0 PROCESS_READY 0
    PROCESS_USER_MMAP_BASE (replicate (Z.to_nat PROCESS_MAX_USER_REGIONS) region_clear) 0.

(** * The logical list of regions *)

Definition live (p : process) : list process_user_region :=
  take (Z.to_nat (user_region_count p)) (user_regions p).

(** Byte [a] belongs to region [r]. *)
Definition in_region (r : process_user_region) (a : Z) : Prop := r_start r <= a < r_end r.

Definition region_disjoint (r r' : process_user_region) : Prop :=
  r_end r <= r_start r' \/ r_end r' <= r_start r.

(** Regions are non-empty half-open ranges that do not wrap, pairwise
    disjoint, and the mmap cursor stays inside its window. *)
Record regions_wf (p : process) : Prop := {
  rw_len : length (user_regions p) = 8%nat;
  rw_count : 0 <= user_region_count p <= 8;
  rw_range : forall i r, live p !! i = Some r -> 0 <= r_start r < r_end r /\ r_end r <= UINT64_MAX;
  rw_disj : forall i j r r', live p !! i = Some r -> live p !! j = Some r' -> i <> j ->
    region_disjoint r r';
  rw_next : PROCESS_USER_MMAP_BASE <= next_user_vaddr p <= PROCESS_USER_MMAP_LIMIT;
  rw_align : next_user_vaddr p mod 4096 = 0 }.

Lemma live_length p : regions_wf p -> length (live p) = Z.to_nat (user_region_count p).
Proof. intros Hw. unfold live. rewrite length_take, (rw_len _ Hw). pose proof (rw_count _ Hw). lia. Qed.

Lemma live_region_at p i :
  regions_wf p -> 0 <= i < user_region_count p -> live p !! Z.to_nat i = Some (region_at p i).
Proof.
  intros Hw Hi. unfold live, region_at. rewrite lookup_take_lt by lia.
  destruct (lookup_lt_is_Some_2 (user_regions p) (Z.to_nat i)) as [r Hr].
  { rewrite (rw_len _ Hw). pose proof (rw_count _ Hw). lia. }
  by rewrite Hr.
Qed.

Lemma live_lookup p k r :
  regions_wf p -> live p !! k = Some r ->
  0 <= Z.of_nat k < user_region_count p /\ region_at p (Z.of_nat k) = r.
Proof.
  intros Hw Hk. pose proof (lookup_lt_Some _ _ _ Hk) as Hlt. rewrite live_length in Hlt by done.
  pose proof (rw_count _ Hw). split; [lia|].
  pose proof (live_region_at p (Z.of_nat k) Hw ltac:(lia)) as Hr. rewrite Nat2Z.id in Hr. congruence.
Qed.

(** Searching the live entries by index is searching the logical list. *)
Lemma find_live p (f : process_user_region -> bool) :
  regions_wf p ->
  match find_range 0 (user_region_count p) (fun i => f (region_at p i)) with
  | Some i => 0 <= i < user_region_count p /\ live p !! Z.to_nat i = Some (region_at p i) /\
      f (region_at p i) = true
  | None => forall k r, live p !! k = Some r -> f r = false
  end.
Proof.
  intros Hw. destruct (find_range _ _ _) as [i|] eqn:E.
  - apply find_range_Some in E as (Hi & Hf & _). split_and!; auto; try lia.
    by apply live_region_at.
  - intros k r Hk. destruct (live_lookup p k r Hw Hk) as [Hk' <-].
    exact (find_range_None _ _ _ E _ Hk').
Qed.

Lemma user_region_end_spec start size :
  0 <= start -> 0 <= size <= UINT64_MAX ->
  user_region_end start size =
    if (0 <? size) && (start + size <=? UINT64_MAX) then Some (start + size) else None.
Proof.
  intros Hs Hz. unfold user_region_end, UINT64_MAX in *.
  destruct (Z.eqb_spec size 0) as [->|]; [done|]. simpl.
  rewrite (proj2 (Z.ltb_lt 0 size)) by lia. simpl.
  destruct (Z.leb_spec (start + size) (2 ^ 64 - 1)).
  - destruct (start >? _) eqn:Hg; b2p; [lia|].
    by rewrite u64_id by lia.
  - destruct (start >? _) eqn:Hg; b2p; [done|lia].
Qed.

(** * Functional specifications *)

(** The range [start, start+size) is non-empty and does not wrap. *)
Definition valid_range (start size : Z) : Prop := 0 < size /\ start + size <= UINT64_MAX.

#[export] Instance valid_range_dec start size : Decision (valid_range start size).
Proof. unfold valid_range. apply _. Defined.

Lemma user_region_end_cases start size :
  is_u64 start -> is_u64 size ->
  (valid_range start size /\ user_region_end start size = Some (start + size)) \/
  (~ valid_range start size /\ user_region_end start size = None).
Proof.
  unfold is_u64. intros Hs Hz. rewrite user_region_end_spec by (unfold UINT64_MAX; lia).
  unfold valid_range. destruct (Z.ltb_spec 0 size), (Z.leb_spec (start + size) UINT64_MAX); simpl;
    [left|right; split; [lia|done]..]. split; [lia|done].
Qed.

(** Changing the region array and count only. *)
Lemma live_set p rs n : live (set_regions p rs n) = take (Z.to_nat n) rs.
Proof. done. Qed.

Lemma regions_wf_set p rs n l :
  regions_wf p -> length rs = 8%nat -> 0 <= n <= 8 -> take (Z.to_nat n) rs = l ->
  (forall i r, l !! i = Some r -> 0 <= r_start r < r_end r /\ r_end r <= UINT64_MAX) ->
  (forall i j r r', l !! i = Some r -> l !! j = Some r' -> i <> j -> region_disjoint r r') ->
  regions_wf (set_regions p rs n) /\ live (set_regions p rs n) = l.
Proof. intros [] Hl Hn <- Hr Hd. split; [split; auto|done]. Qed.

Definition overlaps_live (p : process) (start size : Z) : Prop :=
  exists k r, live p !! k = Some r /\ start < r_end r /\ r_start r < start + size.

Lemma process_add_user_region_spec p start size status p' :
  regions_wf p -> is_u64 start -> is_u64 size ->
  process_add_user_region p start size = (status, p') ->
  (status = 0 /\ regions_wf p' /\ live p' = live p ++ [Region start (start + size) 0 0] /\
   valid_range start size /\ ~ overlaps_live p start size /\ user_region_count p < 8 /\
   p' = set_regions p (user_regions p') (user_region_count p + 1)) \/
  (status = -1 /\ p' = p /\
   (user_region_count p = 8 \/ ~ valid_range start size \/ overlaps_live p start size)).
Proof.
  intros Hw Hs Hz. unfold process_add_user_region, PROCESS_MAX_USER_REGIONS.
  pose proof (rw_count _ Hw). pose proof (rw_len _ Hw) as Hlen.
  case_if. { intros [= <- <-]. right. split_and!; auto. left. lia. }
  destruct (user_region_end_cases start size Hs Hz) as [[Hv ->]|[Hv ->]].
  2: { intros [= <- <-]. right. auto. }
  pose proof (find_live p (fun r => (start <? r_end r) && (start + size >? r_start r)) Hw) as Hf.
  simpl in Hf. destruct (find_range _ _ _) as [i|].
  { intros [= <- <-]. destruct Hf as (_ & Hk & Hb). b2p. right. split_and!; auto. right. right.
    eexists _, _. split_and!; eauto; lia. }
  intros [= <- <-]. left. unfold is_u64, valid_range in *.
  destruct (regions_wf_set p
    (<[Z.to_nat (user_region_count p) := Region start (start + size) 0 0]> (user_regions p))
    (user_region_count p + 1) (live p ++ [Region start (start + size) 0 0])) as [Hw' Hl]; auto; try lia.
  - by rewrite length_insert.
  - replace (Z.to_nat (user_region_count p + 1)) with (S (Z.to_nat (user_region_count p))) by lia.
    erewrite take_S_r by (apply list_lookup_insert_eq; lia).
    by rewrite take_insert_ge by lia.
  - intros i r [Hi|[_ Hi]]%lookup_app_Some; [by eapply rw_range|].
    apply list_lookup_singleton_Some in Hi as [_ <-]. simpl. lia.
  - assert (Hnew : forall k r, live p !! k = Some r ->
      region_disjoint r (Region start (start + size) 0 0)).
    { intros k r Hk. specialize (Hf k r Hk). unfold region_disjoint. simpl. b2p.
      destruct Hf; b2p; lia. }
    intros i j r r' [Hi|[Hi Hi']]%lookup_app_Some [Hj|[Hj Hj']]%lookup_app_Some Hij.
    + by eapply rw_disj.
    + apply list_lookup_singleton_Some in Hj' as [_ <-]. eauto.
    + apply list_lookup_singleton_Some in Hi' as [_ <-].
      specialize (Hnew _ _ Hj). unfold region_disjoint in *. tauto.
    + apply list_lookup_singleton_Some in Hi' as [? _], Hj' as [? _]. lia.
  - split_and!; auto; try lia. intros (k & r & Hk & H1 & H2). specialize (Hf k r Hk). b2p.
    destruct Hf; b2p; lia.
Qed.

Lemma align_up_spec x : 0 <= x -> x <= UINT64_MAX - 4095 ->
  align_up x USER_REGION_ALIGN = (x + 4095) / 4096 * 4096.
Proof.
  intros Hx Hx'. unfold align_up, USER_REGION_ALIGN, UINT64_MAX in *. change (4096 - 1) with (2 ^ 12 - 1).
  rewrite u64_id by lia. rewrite land_high_mask by lia. change (2 ^ 12) with 4096.
  Z.div_mod_to_equations. lia.
Qed.

(** The wrap test of process_alloc_user_region catches exactly the sizes that
    have no page-aligned 64-bit upper bound. *)
Lemma align_up_wraps x : is_u64 x -> x > UINT64_MAX - 4095 -> align_up x USER_REGION_ALIGN < x.
Proof.
  intros Hx Hx'. unfold is_u64, align_up, USER_REGION_ALIGN, UINT64_MAX in *.
  change (4096 - 1) with (2 ^ 12 - 1).
  assert (E : u64 (x + 4096 - 1) = x + 4095 - 2 ^ 64).
  { unfold u64. symmetry. apply (Z.mod_unique_pos _ _ 1); lia. }
  rewrite E, land_high_mask by lia. pose proof (Z.mod_pos_bound (x + 4095 - 2 ^ 64) (2 ^ 12)). lia.
Qed.

Lemma process_alloc_user_region_spec p size r p' :
  regions_wf p -> is_u64 size -> process_alloc_user_region p size = (r, p') ->
  let n := (size + 4095) / 4096 * 4096 in
  (r = Some (next_user_vaddr p) /\ regions_wf p' /\ 0 < size /\
   next_user_vaddr p + n <= PROCESS_USER_MMAP_LIMIT /\
   live p' = live p ++ [Region (next_user_vaddr p) (next_user_vaddr p + n) 0 0] /\
   p' = set_next_user_vaddr (set_regions p (user_regions p') (user_region_count p + 1))
          (next_user_vaddr p + n)) \/
  (r = None /\ p' = p).
Proof.
  intros Hw Hz E n. revert E. unfold process_alloc_user_region.
  destruct (Z.eqb_spec size 0) as [|Hs0]; [intros [= <- <-]; auto|].
  pose proof (rw_next _ Hw) as Hn. pose proof (rw_align _ Hw) as Ha.
  unfold is_u64, PROCESS_USER_MMAP_BASE, PROCESS_USER_MMAP_LIMIT in *.
  destruct (Z.le_gt_cases size (UINT64_MAX - 4095)) as [Hle|Hgt].
  2: { rewrite (proj2 (Z.ltb_lt _ _)) by (apply align_up_wraps; [done|lia]). intros [= <- <-]. auto. }
  rewrite (align_up_spec size) by lia. fold n. unfold UINT64_MAX in Hle.
  assert (Hn' : 0 < n <= UINT64_MAX /\ size <= n /\ n mod 4096 = 0).
  { unfold n, UINT64_MAX. split; [Z.div_mod_to_equations; lia|]. split; [Z.div_mod_to_equations; lia|].
    apply Z.mod_mul. lia. }
  rewrite (proj2 (Z.ltb_ge n size)) by lia.
  rewrite (align_up_spec (next_user_vaddr p)) by (unfold UINT64_MAX; lia).
  replace ((next_user_vaddr p + 4095) / 4096 * 4096) with (next_user_vaddr p)
    by (Z.div_mod_to_equations; lia).
  rewrite Z.ltb_irrefl.
  destruct (user_region_end_cases (next_user_vaddr p) n) as [[Hv ->]|[Hv ->]];
    [unfold is_u64, UINT64_MAX in *; lia..| |intros [= <- <-]; auto].
  case_if; [intros [= <- <-]; auto|].
  destruct (process_add_user_region p (next_user_vaddr p) n) as [status p1] eqn:Ea.
  destruct (process_add_user_region_spec p (next_user_vaddr p) n status p1 Hw)
    as [(-> & Hw1 & Hl1 & _ & _ & _ & Hp1)|(-> & -> & _)]; auto; [unfold is_u64, UINT64_MAX in *; lia..| |].
  - simpl. intros [= <- <-]. left. split_and!; auto; try lia.
    + destruct Hw1 as [H1 H2 H3 H4 H5 H6]. rewrite Hp1 in *. split; auto; simpl in *.
      * unfold PROCESS_USER_MMAP_BASE, PROCESS_USER_MMAP_LIMIT. lia.
      * rewrite Z.add_mod, Ha by lia. by rewrite (proj2 (proj2 Hn')).
    + rewrite Hp1 at 1. done.
  - simpl. intros [= <- <-]. auto.
Qed.

Lemma find_exact_spec p start size :
  regions_wf p ->
  match find_exact p start (start + size) with
  | Some i => 0 <= i < user_region_count p /\ live p !! Z.to_nat i = Some (region_at p i) /\
      r_start (region_at p i) = start /\ r_end (region_at p i) = start + size
  | None => forall k r, live p !! k = Some r -> ~ (r_start r = start /\ r_end r = start + size)
  end.
Proof.
  intros Hw.
  pose proof (find_live p (fun r => (r_start r =? start) && (r_end r =? start + size)) Hw) as Hf.
  unfold find_exact. simpl in Hf. destruct (find_range _ _ _) as [i|].
  - destruct Hf as (? & ? & Hb). b2p. auto.
  - intros k r Hk [H1 H2]. specialize (Hf k r Hk). rewrite H1, H2, !Z.eqb_refl in Hf. done.
Qed.

(** Regions are disjoint, so an exact match is unique. *)
Lemma exact_unique p i j r r' :
  regions_wf p -> live p !! i = Some r -> live p !! j = Some r' ->
  r_start r = r_start r' -> i = j.
Proof.
  intros Hw Hi Hj E. destruct (decide (i = j)) as [|Hne]; [done|].
  pose proof (rw_disj _ Hw _ _ _ _ Hi Hj Hne) as Hd.
  pose proof (rw_range _ Hw _ _ Hi). pose proof (rw_range _ Hw _ _ Hj).
  unfold region_disjoint in Hd. lia.
Qed.

Lemma process_set_user_region_mapping_spec p start size paddr flags status p' :
  regions_wf p -> is_u64 start -> is_u64 size ->
  process_set_user_region_mapping p start size paddr flags = (status, p') ->
  (status = 0 /\ regions_wf p' /\ valid_range start size /\
   p' = set_regions p (user_regions p') (user_region_count p) /\
   exists k r, live p !! k = Some r /\ r_start r = start /\ r_end r = start + size /\
     live p' = <[k := Region start (start + size) paddr flags]> (live p)) \/
  (status = -1 /\ p' = p /\
   forall k r, live p !! k = Some r -> ~ (r_start r = start /\ r_end r = start + size)).
Proof.
  intros Hw Hs Hz. unfold process_set_user_region_mapping.
  destruct (user_region_end_cases start size Hs Hz) as [[Hv ->]|[Hv ->]].
  2: { intros [= <- <-]. right. split_and!; auto. intros k r Hk [E1 E2].
       pose proof (rw_range _ Hw _ _ Hk). unfold valid_range, is_u64 in *. lia. }
  pose proof (find_exact_spec p start size Hw) as Hf.
  destruct (find_exact _ _ _) as [i|]; [|intros [= <- <-]; auto].
  destruct Hf as (Hi & Hk & E1 & E2). rewrite E1, E2. intros [= <- <-]. left.
  pose proof (rw_count _ Hw).
  destruct (regions_wf_set p
    (<[Z.to_nat i := Region start (start + size) paddr flags]> (user_regions p))
    (user_region_count p) (<[Z.to_nat i := Region start (start + size) paddr flags]> (live p)))
    as [Hw' Hl]; auto.
  - rewrite length_insert. apply (rw_len _ Hw).
  - unfold live. by rewrite take_insert_lt by lia.
  - intros j r. rewrite list_lookup_insert_Some. intros [(<- & <- & _)|[_ Hj]]; [|by eapply rw_range].
    pose proof (rw_range _ Hw _ _ Hk). simpl. lia.
  - intros a b r r'. rewrite !list_lookup_insert_Some.
    intros [(<- & <- & _)|[Ha Ha']] [(<- & <- & _)|[Hb Hb']] Hab; try done.
    + pose proof (rw_disj _ Hw _ _ _ _ Hk Hb' Hb) as Hd. unfold region_disjoint in *. simpl. lia.
    + pose proof (rw_disj _ Hw _ _ _ _ Hk Ha' Ha) as Hd. unfold region_disjoint in *. simpl. lia.
    + by eapply (rw_disj _ Hw a b).
  - split_and!; auto. eexists _, _. split_and!; eauto.
Qed.

Lemma process_find_user_region_spec p start size :
  regions_wf p -> is_u64 start -> is_u64 size ->
  match process_find_user_region p start size with
  | Some r => valid_range start size /\ exists k, live p !! k = Some r /\ r_start r = start /\ r_end r = start + size
  | None => forall k r, live p !! k = Some r -> ~ (r_start r = start /\ r_end r = start + size)
  end.
Proof.
  intros Hw Hs Hz. unfold process_find_user_region.
  destruct (user_region_end_cases start size Hs Hz) as [[Hv ->]|[Hv ->]].
  - pose proof (find_exact_spec p start size Hw) as Hf. destruct (find_exact _ _ _); simpl; [|done].
    destruct Hf as (_ & ? & ? & ?). eauto.
  - intros k r Hk [E1 E2]. pose proof (rw_range _ Hw _ _ Hk). unfold valid_range, is_u64 in *. lia.
Qed.

(** The shifting loop deletes entry [i] of the first [count] ones. *)
Lemma shift_down_lookup i count rs : 0 <= i < count -> count <= Z.of_nat (length rs) ->
  let rs' := shift_down i count rs in
  length rs' = length rs /\
  forall k, rs' !! k = if (Z.of_nat k <? i) || (count - 1 <=? Z.of_nat k)
                       then rs !! k else rs !! S k.
Proof.
  intros Hi Hc. unfold shift_down.
  apply (for_range_ind (fun j l => length l = length rs /\
    forall k, l !! k = if (Z.of_nat k <? i) || (j - 1 <=? Z.of_nat k)
                       then rs !! k else rs !! S k)); [lia| |].
  { split; [done|]. intros k. case_if; [done|]. lia. }
  intros j l Hj [Hl Hk]. split; [by rewrite length_insert|]. intros k.
  destruct (decide (k = Z.to_nat (j - 1))) as [->|Hne].
  - rewrite list_lookup_insert_eq by lia. rewrite Hk.
    rewrite (proj2 (orb_true_iff _ _)) by (right; apply Z.leb_le; lia).
    rewrite (proj2 (orb_false_iff _ _)) by (split; [apply Z.ltb_ge|apply Z.leb_gt]; lia).
    replace (S (Z.to_nat (j - 1))) with (Z.to_nat j) by lia.
    destruct (lookup_lt_is_Some_2 rs (Z.to_nat j)) as [r Hr]; [lia|]. by rewrite Hr.
  - rewrite list_lookup_insert_ne by done. rewrite Hk.
    repeat case_if; try done; lia.
Qed.

Lemma process_remove_user_region_info_spec p start size r p' :
  regions_wf p -> is_u64 start -> is_u64 size ->
  process_remove_user_region_info p start size = (r, p') ->
  match r with
  | Some g => regions_wf p' /\ p' = set_regions p (user_regions p') (user_region_count p - 1) /\
      valid_range start size /\
      exists k, live p !! k = Some g /\ r_start g = start /\ r_end g = start + size /\
        live p' = delete k (live p)
  | None => p' = p /\ forall k r, live p !! k = Some r -> ~ (r_start r = start /\ r_end r = start + size)
  end.
Proof.
  intros Hw Hs Hz. unfold process_remove_user_region_info.
  destruct (user_region_end_cases start size Hs Hz) as [[Hv ->]|[Hv ->]].
  2: { intros [= <- <-]. split; auto. intros k r' Hk [E1 E2].
       pose proof (rw_range _ Hw _ _ Hk). unfold valid_range, is_u64 in *. lia. }
  pose proof (find_exact_spec p start size Hw) as Hf.
  destruct (find_exact _ _ _) as [i|]; [|intros [= <- <-]; auto].
  destruct Hf as (Hi & Hk & E1 & E2). intros [= <- <-].
  pose proof (rw_count _ Hw). pose proof (rw_len _ Hw) as Hlen.
  destruct (shift_down_lookup i (user_region_count p) (user_regions p)) as [Hsl Hsk]; [lia..|].
  set (rs := shift_down _ _ _) in *.
  assert (Hdel : forall j r, delete (Z.to_nat i) (live p) !! j = Some r ->
    live p !! (if decide (j < Z.to_nat i)%nat then j else S j) = Some r).
  { intros j r. rewrite list_lookup_delete. by case_decide. }
  destruct (regions_wf_set p (<[Z.to_nat (user_region_count p - 1) := region_clear]> rs)
    (user_region_count p - 1) (delete (Z.to_nat i) (live p))) as [Hw' Hl]; auto; try lia.
  - rewrite length_insert. lia.
  - rewrite take_insert_ge by lia. apply list_eq. intros k.
    rewrite list_lookup_delete. unfold live.
    destruct (decide (k < Z.to_nat (user_region_count p - 1))%nat).
    + rewrite lookup_take_lt, Hsk by lia.
      case_if; case_decide; rewrite ?lookup_take_lt by lia; try done; lia.
    + rewrite lookup_take_ge by lia. case_decide; rewrite lookup_take_ge by lia; done.
  - intros j r Hj. eapply rw_range; eauto.
  - intros a b r r' Ha Hb Hab. eapply (rw_disj _ Hw); eauto. repeat case_decide; lia.
  - split_and!; auto. eexists. split_and!; eauto.
Qed.

Lemma process_user_range_contains_spec p start size :
  regions_wf p -> is_u64 start -> is_u64 size ->
  process_user_range_contains p start size = true <->
  size = 0 \/ (valid_range start size /\
    exists k r, live p !! k = Some r /\ r_start r <= start /\ start + size <= r_end r).
Proof.
  intros Hw Hs Hz. unfold process_user_range_contains.
  destruct (Z.eqb_spec size 0) as [|Hne]; [tauto|].
  destruct (user_region_end_cases start size Hs Hz) as [[Hv ->]|[Hv ->]].
  2: { split; [done|]. intros [?|[? _]]; done. }
  pose proof (find_live p (fun r => (start >=? r_start r) && (start + size <=? r_end r)) Hw) as Hf.
  simpl in Hf. destruct (find_range _ _ _) as [i|].
  - destruct Hf as (_ & Hk & Hb). b2p. split; [|done]. intros _. right. split; [done|]. eauto.
  - split; [done|]. intros [?|(_ & k & r & Hk & H1 & H2)]; [done|].
    specialize (Hf k r Hk). b2p. destruct Hf; b2p; lia.
Qed.

Lemma process_init_regions_wf n str : regions_wf (process_init n str) /\ live (process_init n str) = [].
Proof. split; [|done]. split; try done; simpl; unfold PROCESS_USER_MMAP_BASE, PROCESS_USER_MMAP_LIMIT; lia. Qed.

Lemma regions_wf_page_table p t :
  regions_wf p -> regions_wf (process_set_page_table p t) /\ live (process_set_page_table p t) = live p.
Proof. intros []. split; [split; auto|done]. Qed.

(** * Properties *)

(** The calls that edit a process's regions. *)
Inductive region_op :=
  | AddRegion (start size : Z)
  | AllocRegion (size : Z)
  | SetMapping (start size paddr flags : Z)
  | RemoveRegion (start size : Z).

Definition run_region_op (p : process) (o : region_op) : process :=
  match o with
  | AddRegion s n => snd (process_add_user_region p s n)
  | AllocRegion n => snd (process_alloc_user_region p n)
  | SetMapping s n a f => snd (process_set_user_region_mapping p s n a f)
  | RemoveRegion s n => snd (process_remove_user_region p s n)
  end.

Definition region_op_args (o : region_op) : Prop :=
  match o with
  | AddRegion s n | RemoveRegion s n | SetMapping s n _ _ => is_u64 s /\ is_u64 n
  | AllocRegion n => is_u64 n
  end.

Lemma run_region_op_wf p o : regions_wf p -> region_op_args o -> regions_wf (run_region_op p o).
Proof.
  intros Hw. destruct o as [s n|n|s n a f|s n]; simpl.
  - intros [Hs Hn]. destruct (process_add_user_region p s n) as [st p'] eqn:E.
    destruct (process_add_user_region_spec _ _ _ _ _ Hw Hs Hn E) as [(_ & ? & _)|(_ & -> & _)]; done.
  - intros Hn. destruct (process_alloc_user_region p n) as [r p'] eqn:E.
    destruct (process_alloc_user_region_spec _ _ _ _ Hw Hn E) as [(_ & ? & _)|(_ & ->)]; done.
  - intros [Hs Hn]. destruct (process_set_user_region_mapping p s n a f) as [st p'] eqn:E.
    destruct (process_set_user_region_mapping_spec _ _ _ _ _ _ _ Hw Hs Hn E)
      as [(_ & ? & _)|(_ & -> & _)]; done.
  - intros [Hs Hn]. unfold process_remove_user_region.
    destruct (process_remove_user_region_info p s n) as [r p'] eqn:E.
    pose proof (process_remove_user_region_info_spec _ _ _ _ _ Hw Hs Hn E) as Hr.
    destruct r; simpl; [apply Hr|]. by destruct Hr as [-> _].
Qed.

(** C6: whatever sequence of region calls runs on a freshly initialised
    process, and whichever of them fail, its regions stay non-empty,
    non-wrapping and pairwise disjoint, there are at most eight of them, and
    the mmap cursor stays page aligned inside the mmap window. *)
Theorem process_regions_invariant n str ops :
  Forall region_op_args ops ->
  regions_wf (foldl run_region_op (process_init n str) ops).
Proof.
  intros Hops. pose proof (proj1 (process_init_regions_wf n str)) as Hw.
  revert Hw. generalize (process_init n str). induction Hops as [|o ops Ho _ IH]; intros p Hw; simpl; [done|].
  apply IH. by apply run_region_op_wf.
Qed.

Lemma process_regions_invariant_witness :
  let ops := [AddRegion 0x400000 0x2000; AddRegion 0x401000 0x1000; AllocRegion 5000;
              SetMapping 0x400000 0x2000 0x40010000 1; RemoveRegion 0x400000 0x2000; AllocRegion 1] in
  live (foldl run_region_op (process_init 1 None) ops) =
    [Region 0x100000000 0x100002000 0 0; Region 0x100002000 0x100003000 0 0] /\
  regions_wf (foldl run_region_op (process_init 1 None) ops).
Proof.
  intros ops. split; [vm_compute; reflexivity|].
  apply (process_regions_invariant 1 None ops). repeat constructor; unfold is_u64; lia.
Defined.

(** the user-pointer check is exact.  A non-empty range is accepted exactly
    when it does not wrap and every one of its bytes lies in one region of the
    process; in particular no accepted range reaches outside the regions. *)
Theorem process_user_range_contains_exact p start size :
  regions_wf p -> is_u64 start -> is_u64 size ->
  process_user_range_contains p start size = true <->
  size = 0 \/ (0 < size /\ start + size <= UINT64_MAX /\
    exists k r, live p !! k = Some r /\ forall a, start <= a < start + size -> in_region r a).
Proof.
  intros Hw Hs Hz. rewrite process_user_range_contains_spec by done. unfold valid_range, in_region.
  split.
  - intros [?|([? ?] & k & r & Hk & ? & ?)]; [by left|]. right. split_and!; auto.
    exists k, r. split; [done|]. intros. lia.
  - intros [?|(Hp & Hm & k & r & Hk & Ha)]; [by left|]. right. split; [done|].
    exists k, r. split; [done|]. pose proof (Ha start). pose proof (Ha (start + size - 1)). lia.
Qed.

Lemma process_user_range_contains_exact_witness :
  let p := snd (process_alloc_user_region (process_init 1 None) 4096) in
  process_user_range_contains p 0x100000ff0 16 = true /\
  process_user_range_contains p 0x100000ff0 17 = false.
Proof.
  intros p. assert (Hw : regions_wf p).
  { apply (run_region_op_wf (process_init 1 None) (AllocRegion 4096));
      [apply process_init_regions_wf|unfold region_op_args, is_u64; lia]. }
  split.
  - apply (process_user_range_contains_exact p 0x100000ff0 16 Hw); [unfold is_u64; lia..|].
    right. split; [lia|]. split; [unfold UINT64_MAX; lia|].
    exists 0%nat, (Region 0x100000000 0x100001000 0 0). split; [vm_compute; reflexivity|].
    unfold in_region; simpl. lia.
  - vm_compute. reflexivity.
Defined.
