(* ===== verification/UserVm.v ===== *)
(** User mappings: kernel/user_vm.c over the process regions, the page-table
    manager and the page allocator.

    A [process_t *] argument is [None] when null.  The functions return the
    status, the process and the machine state they leave behind. *)

From S2P Require Import Prelude.
From S2P Require Import PageAlloc.
From S2P Require Import Pmm.
From S2P Require Import Vmm.
From S2P Require Import ProcessRegions.
Open Scope arm.

Definition USER_VM_PROT_READ : Z := 0x01.
Definition USER_VM_PROT_WRITE : Z := 0x02.
Definition USER_VM_PROT_EXEC : Z := 0x04.
Definition USER_VM_ERR_NOMEM : Z := -2.
Definition USER_VM_ERR_INVAL : Z := -7.

Definition USER_VM_SUPPORTED_FLAGS : Z :=
  Z.lor (Z.lor USER_VM_PROT_READ USER_VM_PROT_WRITE) USER_VM_PROT_EXEC.

Definition page_align_up (value : Z) : Z :=
  if (value =? 0) || (value >? UINT64_MAX - (PAGE_SIZE - 1)) then 0
  else Z.land (u64 (value + PAGE_SIZE - 1)) (not64 (PAGE_SIZE - 1)).

Definition flags_to_vmm (flags : Z) : option Z :=
  if flags &? not64 USER_VM_SUPPORTED_FLAGS then None else
  let flags := if flags =? 0 then Z.lor USER_VM_PROT_READ USER_VM_PROT_WRITE else flags in
  if (flags &? USER_VM_PROT_WRITE) && (flags &? USER_VM_PROT_EXEC) then None else
  let result := VMM_FLAG_USER in
  let result :=
    if flags &? USER_VM_PROT_WRITE then Z.lor result (Z.lor VMM_FLAG_READ VMM_FLAG_WRITE)
    else if flags &? USER_VM_PROT_READ then Z.lor result VMM_FLAG_READ
    else result in
  Some (if flags &? USER_VM_PROT_EXEC then Z.lor result VMM_FLAG_EXEC else result).

(** The byte loop that clears freshly allocated pages. *)
Definition zero_bytes (paddr size : Z) (ram : gmap Z Z) : gmap Z Z :=
  for_range 0 size (fun i m => wr8 m (paddr + i) 0) ram.

Section Ops.
Context {A : Type} `{PageAllocator A}.

Definition free_page_range (paddr size : Z) (st : mach A) : mach A :=
  foldl (fun st offset => Mach (free_page (u64 (paddr + offset)) (m_pa st)) (m_ram st)) st
        (page_offsets size).

Definition user_vm_map_anonymous (process : option process) (hint size flags : Z) (st : mach A)
    : Z * option ProcessRegions.process * mach A :=
  let aligned_size := page_align_up size in
  match process with
  | None => (USER_VM_ERR_INVAL, None, st)
  | Some p =>
    if (page_table p =? 0) || negb (hint =? 0) || (aligned_size =? 0)
    then (USER_VM_ERR_INVAL, Some p, st) else
    match flags_to_vmm flags with
    | None => (USER_VM_ERR_INVAL, Some p, st)
    | Some vmm_flags =>
      match process_alloc_user_region p aligned_size with
      | (None, p) => (USER_VM_ERR_INVAL, Some p, st)
      | (Some addr, p) =>
        let page_count := aligned_size / PAGE_SIZE in
        let '(paddr, pa) := alloc_pages page_count (m_pa st) in
        let st := Mach pa (m_ram st) in
        if paddr =? 0 then
          (USER_VM_ERR_NOMEM, Some (snd (process_remove_user_region p addr aligned_size)), st)
        else
        let st := Mach (m_pa st) (zero_bytes paddr aligned_size (m_ram st)) in
        let '(mapped, st) := vmm_map_range (page_table p) addr paddr aligned_size vmm_flags st in
        if negb (mapped =? 0) then
          let st := snd (vmm_unmap_range (page_table p) addr aligned_size st) in
          let p := snd (process_remove_user_region p addr aligned_size) in
          (USER_VM_ERR_NOMEM, Some p, free_page_range paddr aligned_size st)
        else
        let '(recorded, p) :=
          process_set_user_region_mapping p addr aligned_size paddr PROCESS_USER_REGION_OWNED_PAGES in
        if negb (recorded =? 0) then
          let st := snd (vmm_unmap_range (page_table p) addr aligned_size st) in
          let p := snd (process_remove_user_region p addr aligned_size) in
          (USER_VM_ERR_INVAL, Some p, free_page_range paddr aligned_size st)
        else (s64 addr, Some p, st)
      end
    end
  end.

Definition user_vm_unmap_anonymous (process : option process) (addr size : Z) (st : mach A)
    : Z * option ProcessRegions.process * mach A :=
  let aligned_size := page_align_up size in
  match process with
  | None => (USER_VM_ERR_INVAL, None, st)
  | Some p =>
    if (page_table p =? 0) || (aligned_size =? 0) then (USER_VM_ERR_INVAL, Some p, st) else
    match process_find_user_region p addr aligned_size with
    | None => (USER_VM_ERR_INVAL, Some p, st)
    | Some region =>
      if negb (r_flags region &? PROCESS_USER_REGION_OWNED_PAGES) || (r_paddr region =? 0)
      then (USER_VM_ERR_INVAL, Some p, st) else
      let '(unmapped, st) := vmm_unmap_range (page_table p) addr aligned_size st in
      if negb (unmapped =? 0) then (USER_VM_ERR_INVAL, Some p, st) else
      let '(removed, p) := process_remove_user_region p addr aligned_size in
      if negb (removed =? 0) then (USER_VM_ERR_INVAL, Some p, st)
      else (0, Some p, free_page_range (r_paddr region) aligned_size st)
    end
  end.

Definition user_vm_map_physical (process : option process) (vaddr paddr size flags : Z) (st : mach A)
    : Z * option ProcessRegions.process * mach A :=
  match process with
  | None => (-1, None, st)
  | Some p =>
    if (page_table p =? 0) || (vaddr =? 0) || (paddr =? 0) || (size =? 0) then (-1, Some p, st) else
    match flags_to_vmm flags, process_find_user_region p vaddr size with
    | Some vmm_flags, Some _ =>
      let '(mapped, st) := vmm_map_range (page_table p) vaddr paddr size vmm_flags st in
      if negb (mapped =? 0) then
        (-1, Some p, snd (vmm_unmap_range (page_table p) vaddr size st))
      else
      let '(recorded, p) := process_set_user_region_mapping p vaddr size paddr 0 in
      if negb (recorded =? 0) then
        (-1, Some p, snd (vmm_unmap_range (page_table p) vaddr size st))
      else (0, Some p, st)
    | _, _ => (-1, Some p, st)
    end
  end.

End Ops.

(** * Flags *)

(** Evaluate the flag tests of a goal whose flags are constants. *)
Ltac eval_flags :=
  repeat match goal with |- context [has_bits ?a ?b] =>
    let v := eval vm_compute in (has_bits a b) in change (has_bits a b) with v end;
  cbn [negb andb orb].

(** the permission translation is W^X for user pages.  Whenever
    flags_to_vmm accepts a request, the page descriptor that vmm_map_page builds
    from it is accessible to EL0, never executable in the kernel, and never both
    writable and executable; requests with unknown bits or with write and
    execute together are refused. *)
Theorem user_mapping_wx flags f paddr :
  flags_to_vmm flags = Some f ->
  let d := page_descriptor paddr f in
  Z.testbit d 6 = true /\ Z.testbit d 53 = true /\
  (Z.testbit d 7 = true \/ Z.testbit d 54 = true) /\
  (flags &? USER_VM_PROT_WRITE) && (flags &? USER_VM_PROT_EXEC) = false.
Proof.
  unfold flags_to_vmm. case_if; [done|].
  destruct (Z.eqb_spec flags 0) as [->|Hne].
  { intros [= <-]. unfold page_descriptor. eval_flags. rewrite !Z.lor_spec, ?orb_true_r. auto. }
  destruct ((flags &? USER_VM_PROT_WRITE) && (flags &? USER_VM_PROT_EXEC)) eqn:Hwx; [done|].
  destruct (flags &? USER_VM_PROT_WRITE), (flags &? USER_VM_PROT_READ), (flags &? USER_VM_PROT_EXEC);
    try discriminate Hwx; intros [= <-]; unfold page_descriptor; eval_flags;
    rewrite !Z.lor_spec, ?orb_true_r; auto 10.
Qed.

Lemma user_mapping_wx_witness :
  flags_to_vmm 5 = Some 0x15 /\ Z.testbit (page_descriptor 0x40010000 0x15) 53 = true.
Proof.
  split; [vm_compute; reflexivity|].
  apply (user_mapping_wx 5 0x15 0x40010000). vm_compute. reflexivity.
Defined.

(** * Memory effects *)

Lemma wr8_frame m a v b : b mod 8 = 0 -> ~ (b <= a < b + 8) -> rd64 (wr8 m a v) b = rd64 m b.
Proof.
  intros Hb Ha. unfold wr8. apply rd64_wr64_ne. intros E. apply Ha.
  pose proof (Z.mod_pos_bound a 8). lia.
Qed.

(** Bytes [0..k-1] of the word at [b] are zero. *)
Definition low_bytes_zero (w k : Z) : Prop := forall i, 0 <= i < 8 * k -> Z.testbit w i = false.

Lemma wr8_zero_bits m b k :
  b mod 8 = 0 -> 0 <= k < 8 ->
  rd64 (wr8 m (b + k) 0) b = Z.land (rd64 m b) (not64 (Z.shiftl 255 (8 * k))).
Proof.
  intros Hb Hk. unfold wr8.
  assert (E : (b + k) mod 8 = k) by (Z.div_mod_to_equations; lia).
  rewrite E. replace (b + k - k) with b by lia. rewrite rd64_wr64_eq.
  by rewrite Z.shiftl_0_l, Z.lor_0_r.
Qed.

Lemma wr8_zero_low m b k :
  b mod 8 = 0 -> 0 <= k < 8 -> low_bytes_zero (rd64 m b) k ->
  low_bytes_zero (rd64 (wr8 m (b + k) 0) b) (k + 1).
Proof.
  intros Hb Hk Hl i Hi. rewrite wr8_zero_bits, Z.land_spec by done.
  destruct (Z.lt_ge_cases i (8 * k)); [by rewrite Hl by lia|].
  rewrite testbit_not64 by lia. rewrite Z.shiftl_spec by lia.
  change 255 with (Z.ones 8). rewrite Z.ones_spec_low by lia. by rewrite !andb_false_r.
Qed.

Lemma word_zero m b : b mod 8 = 0 -> low_bytes_zero (rd64 m b) 7 -> rd64 (wr8 m (b + 7) 0) b = 0.
Proof.
  intros Hb Hl. apply Z.bits_inj'. intros i Hi. rewrite Z.bits_0.
  destruct (Z.lt_ge_cases i 64).
  - apply (wr8_zero_low m b 7); [done|lia|done|lia].
  - rewrite wr8_zero_bits, Z.land_spec, testbit_not64 by (done || lia).
    destruct (Z.ltb_spec i 64); [lia|]. by rewrite andb_false_r.
Qed.

(** The clearing loop zeroes every word of the pages and no other word. *)
Lemma zero_bytes_spec p n ram :
  p mod 8 = 0 -> 0 <= n -> n mod 8 = 0 ->
  forall b, b mod 8 = 0 ->
  rd64 (zero_bytes p n ram) b = if (p <=? b) && (b <? p + n) then 0 else rd64 ram b.
Proof.
  intros Hp Hn Hn8. unfold zero_bytes.
  assert (Hinv : forall b, b mod 8 = 0 ->
    let m := for_range 0 n (fun i m => wr8 m (p + i) 0) ram in
    (p <= b -> b + 8 <= p + n -> rd64 m b = 0) /\
    (p <= b < p + n -> p + n < b + 8 -> low_bytes_zero (rd64 m b) (p + n - b)) /\
    (b < p \/ p + n <= b -> rd64 m b = rd64 ram b)).
  { apply (for_range_ind (fun k m => forall b, b mod 8 = 0 ->
      (p <= b -> b + 8 <= p + k -> rd64 m b = 0) /\
      (p <= b < p + k -> p + k < b + 8 -> low_bytes_zero (rd64 m b) (p + k - b)) /\
      (b < p \/ p + k <= b -> rd64 m b = rd64 ram b))); [done| |].
    { intros b Hb. split_and!; [lia..|done]. }
    intros k m Hk IH b Hb. destruct (IH b Hb) as (I1 & I2 & I3).
    destruct (Z.lt_ge_cases (p + k) b); [|destruct (Z.le_gt_cases (b + 8) (p + k))].
    - rewrite wr8_frame by (done || lia). split_and!; [lia..|]. intros _. apply I3. lia.
    - rewrite wr8_frame by (done || lia). split_and!; [auto|lia|]. intros. apply I3. lia.
    - assert (Hl : p <= b -> low_bytes_zero (rd64 m b) (p + k - b)).
      { intros Hpb. destruct (Z.eq_dec b (p + k)) as [->|]; [|apply I2; lia]. intros i Hi. lia. }
      replace (p + k) with (b + (p + k - b)) by lia. split_and!.
      + intros Hpb Hbk. assert (p + k - b = 7) as E by lia. rewrite E in *. apply word_zero; auto.
      + intros [Hpb _] Hbk. replace (p + (k + 1) - b) with (p + k - b + 1) by lia.
        apply wr8_zero_low; auto. lia.
      + intros [Hb1|?]; [|lia]. exfalso. Z.div_mod_to_equations. lia. }
  intros b Hb. destruct (Hinv b Hb) as (I1 & _ & I3).
  destruct (Z.leb_spec p b), (Z.ltb_spec b (p + n)); simpl; try (apply I3; lia).
  apply I1; [done|]. Z.div_mod_to_equations. lia.
Qed.

Section Frames.
Context {A : Type} `{PageAllocatorLaws A}.
Implicit Types (st : mach A) (L : gmap Z nat).

(** The hierarchy survives any change that leaves its tables' words and their
    allocation status alone. *)
Lemma pt_inv_frame st st' pgd L :
  pt_inv st pgd L -> pa_inv (m_pa st') ->
  (forall q, pa_managed (m_pa st') q <-> pa_managed (m_pa st) q) ->
  (forall t, is_Some (L !! t) -> ~ pa_avail (m_pa st') t) ->
  (forall t i, is_Some (L !! t) -> 0 <= i < 512 -> entry (m_ram st') t i = entry (m_ram st) t i) ->
  pt_inv st' pgd L /\ forall v, vmm_leaf_entry st' pgd v = vmm_leaf_entry st pgd v.
Proof.
  intros Hi Hp Hm Ha He.
  assert (Hi' : pt_inv st' pgd L).
  { destruct Hi as [H1 H2 H3 H4 H5 H6 H7 H8]. split; auto.
    - intros t l Ht. destruct (H3 t l Ht) as (? & ? & ? & ? & ? & ?). split_and!; auto.
      by apply Hm.
    - intros t l i Ht Hl Hi. rewrite !He by eauto. by apply H4.
    - intros t l i t' l' i' Ht Hl Ht' Hl' Hi Hi''. rewrite !He by eauto. by eapply H5.
    - intros c l Hc. destruct (H6 c l Hc) as (t & i & Ht & Hi & Hv & Hch). exists t, i.
      rewrite !He by eauto. auto.
    - intros t i Ht Hi. rewrite !He by eauto. by apply H8. }
  split; [done|]. intros v. rewrite !(leaf_entry_from _ _ _ _ Hi), !(leaf_entry_from _ _ _ _ Hi').
  assert (Hw : forall d lv t, L !! t = Some (3 - d)%nat -> (d <= 3)%nat -> 0 <= lv -> lv + Z.of_nat d = 3 ->
    entry_from (m_ram st') d lv t v = entry_from (m_ram st) d lv t v).
  { unfold entry_from. induction d as [|d IH]; intros lv t Ht Hd Hlv Hld; simpl.
    - rewrite He by (eauto; apply table_index_range; lia). done.
    - rewrite He by (eauto; apply table_index_range; lia).
      destruct (e_valid _) eqn:Ev; simpl; [|done].
      destruct (pi_child _ _ _ Hi t (3 - S d)%nat (table_index v lv)) as [-> Hc]; auto;
        [lia|apply table_index_range; lia|].
      apply IH; try lia. rewrite Hc. f_equal. lia. }
  apply (Hw 3%nat); try lia. apply Hi.
Qed.

(** Releasing a run of pages. *)
Lemma free_page_range_spec p n st :
  pa_inv (m_pa st) -> 0 < p -> 0 <= n -> p + n * 4096 <= 2 ^ 64 ->
  (forall i, 0 <= i < n -> pa_managed (m_pa st) (p + i * 4096)) ->
  freed st (fun q => exists i, 0 <= i < n /\ q = p + i * 4096) (free_page_range p (n * 4096) st).
Proof.
  intros Hpa Hp Hn Hx Hm. unfold free_page_range. rewrite foldl_page_offsets by done.
  apply (for_range_ind (fun k s => freed st (fun q => exists i, 0 <= i < k /\ q = p + i * 4096) s));
    [done| |].
  { split_and!; auto; try done. intros q. split; [auto|]. intros [?|(i & ? & _)]; [done|lia]. }
  intros k s Hk (Hp1 & Hr1 & Hm1 & Ha1). unfold PAGE_SIZE. rewrite u64_id by lia.
  destruct (free_page_law (p + k * 4096) (m_pa s) Hp1) as (Hp2 & Hm2 & Ha2); [lia|].
  split_and!; cbn [m_pa m_ram]; auto.
  - intros q. by rewrite Hm2.
  - intros q. rewrite Ha2, Ha1, Hm1. split.
    + intros [[?|(i & ? & ?)]|[-> _]]; [auto|right; exists i; split; [lia|done]|right; exists k; split; [lia|done]].
    + intros [?|(i & Hi & ->)]; [auto|]. destruct (Z.eq_dec i k) as [->|].
      * right. split; [done|]. apply Hm. lia.
      * left. right. exists i. split; [lia|done].
Qed.

End Frames.

(** * What a process's address space satisfies *)

Section Space.
Context {A : Type} `{PageAllocatorLaws A}.
Implicit Types (st : mach A) (L : gmap Z nat) (p : process) (r : process_user_region).

Definition owned r : bool :=
  (r_flags r &? PROCESS_USER_REGION_OWNED_PAGES) && negb (r_paddr r =? 0).

Definition region_size r : Z := r_end r - r_start r.

(** [q] is the address of one of the physical pages behind region [r]. *)
Definition backs r (q : Z) : Prop :=
  q mod 4096 = 0 /\ r_paddr r <= q < r_paddr r + region_size r.

(** An owned region: page aligned, below the end of the mmap window (a
    program's image and stack lie below its start), backed by pages
    that are neither allocatable nor page tables, and fully mapped. *)
Record owned_region st L (pgd : Z) r : Prop := {
  or_align : r_start r mod 4096 = 0 /\ region_size r mod 4096 = 0 /\ r_paddr r mod 4096 = 0;
  or_window : 0 < r_start r /\ r_end r <= PROCESS_USER_MMAP_LIMIT;
  or_phys : 0 < r_paddr r /\ r_paddr r + region_size r <= 2 ^ 48;
  or_pages : forall q, backs r q -> pa_managed (m_pa st) q /\ ~ pa_avail (m_pa st) q /\ L !! q = None;
  or_mapped : forall v, in_region r v ->
    e_valid (vmm_leaf_entry st pgd v) = true /\
    vmm_virt_to_phys st pgd v = r_paddr r + (v - r_start r) }.

Record vm_inv p st L : Prop := {
  vi_pt : pt_inv st (page_table p) L;
  vi_regions : regions_wf p;
  vi_window : forall v, PROCESS_USER_MMAP_BASE <= v < PROCESS_USER_MMAP_LIMIT ->
    e_valid (vmm_leaf_entry st (page_table p) v) = true ->
    exists k r, live p !! k = Some r /\ in_region r v;
  vi_owned : forall k r, live p !! k = Some r -> owned r = true ->
    owned_region st L (page_table p) r;
  vi_sep : forall i j r r' q, live p !! i = Some r -> live p !! j = Some r' ->
    owned r = true -> owned r' = true -> i <> j -> backs r q -> ~ backs r' q }.

Lemma vm_inv_live p p' st L :
  vm_inv p st L -> page_table p' = page_table p -> live p' = live p -> regions_wf p' -> vm_inv p' st L.
Proof. intros [H1 H2 H3 H4 H5] Et El Hw. split; rewrite ?Et, ?El; auto. Qed.

(** Changes that keep the translations and the owned pages. *)
Lemma owned_region_frame st st' L L' pgd r :
  owned_region st L pgd r ->
  (forall q, pa_managed (m_pa st') q <-> pa_managed (m_pa st) q) ->
  (forall q, backs r q -> ~ pa_avail (m_pa st) q -> L !! q = None ->
     ~ pa_avail (m_pa st') q /\ L' !! q = None) ->
  (forall v, in_region r v -> vmm_leaf_entry st' pgd v = vmm_leaf_entry st pgd v) ->
  owned_region st' L' pgd r.
Proof.
  intros [H1 H2 H3 H4 H5] Hm Hq Hl. split; auto.
  - intros q Hb. destruct (H4 q Hb) as (? & ? & ?). rewrite Hm. split; [done|]. by apply Hq.
  - intros v Hv. unfold vmm_virt_to_phys. rewrite Hl by done. by apply H5.
Qed.

Lemma vm_inv_frame p st st' L L' :
  vm_inv p st L -> pt_inv st' (page_table p) L' ->
  (forall q, pa_managed (m_pa st') q <-> pa_managed (m_pa st) q) ->
  (forall q, ~ pa_avail (m_pa st) q -> L !! q = None ->
     (exists k r, live p !! k = Some r /\ owned r = true /\ backs r q) ->
     ~ pa_avail (m_pa st') q /\ L' !! q = None) ->
  (forall v, vmm_leaf_entry st' (page_table p) v = vmm_leaf_entry st (page_table p) v) ->
  vm_inv p st' L'.
Proof.
  intros [H1 H2 H3 H4 H5] Hi Hm Hq Hl. split; auto.
  - intros v Hv He. rewrite Hl in He. eauto.
  - intros k r Hk Ho. eapply (owned_region_frame st st'); eauto.
    intros q Hb Hna Hn. apply Hq; eauto.
Qed.

(** In the mmap window, the walk distinguishes all pages. *)
Lemma vpn_window v v' :
  0 <= v < 2 ^ 48 -> 0 <= v' < 2 ^ 48 -> vpn v = vpn v' -> v / 4096 = v' / 4096.
Proof. unfold vpn. intros. rewrite !Z.mod_small in H3 by (Z.div_mod_to_equations; lia). done. Qed.

Lemma user_align_up_spec size :
  is_u64 size ->
  (page_align_up size = 0 /\ (size = 0 \/ size > UINT64_MAX - 4095)) \/
  (page_align_up size = (size + 4095) / 4096 * 4096 /\ 0 < size <= UINT64_MAX - 4095).
Proof.
  intros Hs. unfold is_u64, page_align_up, PAGE_SIZE, UINT64_MAX in *.
  case_if; [left; split; [done|]; lia|]. right. split; [|lia].
  rewrite u64_id by lia. change (4096 - 1) with (2 ^ 12 - 1). rewrite land_high_mask by lia.
  change (2 ^ 12) with 4096. Z.div_mod_to_equations. lia.
Qed.

(** Removing the region that was appended last. *)
Lemma remove_last_region p p1 a n pd f status p2 :
  regions_wf p1 -> is_u64 a -> is_u64 n ->
  live p1 = live p ++ [Region a (a + n) pd f] ->
  process_remove_user_region p1 a n = (status, p2) ->
  status = 0 /\ regions_wf p2 /\ live p2 = live p /\ page_table p2 = page_table p1 /\
  next_user_vaddr p2 = next_user_vaddr p1.
Proof.
  intros Hw Ha Hn Hl. unfold process_remove_user_region.
  destruct (process_remove_user_region_info p1 a n) as [o p'] eqn:E.
  pose proof (process_remove_user_region_info_spec _ _ _ _ _ Hw Ha Hn E) as Hr.
  assert (Hlast : live p1 !! length (live p) = Some (Region a (a + n) pd f)).
  { rewrite Hl. by apply list_lookup_middle. }
  destruct o as [g|].
  - destruct Hr as (Hw' & Hp' & _ & k & Hk & Es & Ee & Hd). intros [= <- <-].
    assert (k = length (live p)) as -> by (exact (exact_unique _ _ _ _ _ Hw Hk Hlast Es)).
    split_and!; auto; try (by rewrite Hp').
    rewrite Hd, Hl. rewrite delete_middle. apply app_nil_r.
  - destruct Hr as [_ Hno]. destruct (Hno _ _ Hlast). done.
Qed.

(** Recording the mapping of the region that was appended last. *)
Lemma set_last_region p p1 a n pd f pd' f' status p2 :
  regions_wf p1 -> is_u64 a -> is_u64 n ->
  live p1 = live p ++ [Region a (a + n) pd f] ->
  process_set_user_region_mapping p1 a n pd' f' = (status, p2) ->
  status = 0 /\ regions_wf p2 /\ live p2 = live p ++ [Region a (a + n) pd' f'] /\
  page_table p2 = page_table p1.
Proof.
  intros Hw Ha Hn Hl E.
  assert (Hlast : live p1 !! length (live p) = Some (Region a (a + n) pd f)).
  { rewrite Hl. by apply list_lookup_middle. }
  destruct (process_set_user_region_mapping_spec _ _ _ _ _ _ _ Hw Ha Hn E)
    as [(-> & Hw2 & _ & Hp2 & k & g & Hk & Es & Ee & Hl2)|(_ & _ & Hno)].
  - assert (k = length (live p)) as -> by (exact (exact_unique _ _ _ _ _ Hw Hk Hlast Es)).
    split_and!; auto; [|by rewrite Hp2]. rewrite Hl2, Hl.
    rewrite insert_app_r_alt, Nat.sub_diag by done. done.
  - destruct (Hno _ _ Hlast). done.
Qed.

(** ** Allocating and clearing the backing pages *)

(** State after pmm_alloc_pages and the clearing loop: [n] pages at [paddr]
    left the allocator, are zero, and nothing else changed. *)
Record cleared_pages p st L (n paddr : Z) st1 : Prop := {
  cp_pt : pt_inv st1 (page_table p) L;
  cp_leaf : forall v, vmm_leaf_entry st1 (page_table p) v = vmm_leaf_entry st (page_table p) v;
  cp_managed : forall q, pa_managed (m_pa st1) q <-> pa_managed (m_pa st) q;
  cp_avail : forall q, pa_avail (m_pa st1) q <-> pa_avail (m_pa st) q /\ ~ in_run paddr n q;
  cp_run : forall i, 0 <= i < n -> pa_avail (m_pa st) (paddr + i * 4096);
  cp_align : paddr mod 4096 = 0;
  cp_pos : 0 < paddr;
  cp_end : paddr + n * 4096 <= 2 ^ 48;
  cp_zero : forall b, b mod 8 = 0 -> paddr <= b < paddr + n * 4096 -> rd64 (m_ram st1) b = 0 }.

Lemma alloc_and_zero p st L n paddr pa :
  vm_inv p st L -> 0 < n -> alloc_pages n (m_pa st) = (paddr, pa) -> paddr <> 0 ->
  cleared_pages p st L n paddr (Mach pa (zero_bytes paddr (n * 4096) (m_ram st))).
Proof.
  intros Hv Hn E Hp. pose proof (pi_pa _ _ _ (vi_pt _ _ _ Hv)) as Hpa.
  destruct (alloc_pages_law n _ _ _ Hpa Hn E) as (Hpa' & Hm & [[? _]|(_ & Hav & Ha)]); [done|].
  destruct (avail_addr _ _ Hpa (Hav 0 ltac:(lia))) as (Hal & Hpos & _).
  destruct (avail_addr _ _ Hpa (Hav (n - 1) ltac:(lia))) as (_ & _ & Hend).
  rewrite Z.mul_0_l, Z.add_0_r in *.
  assert (Hz : forall b, b mod 8 = 0 -> rd64 (zero_bytes paddr (n * 4096) (m_ram st)) b =
    if (paddr <=? b) && (b <? paddr + n * 4096) then 0 else rd64 (m_ram st) b).
  { apply zero_bytes_spec; Z.div_mod_to_equations; lia. }
  assert (Hdis : forall t, is_Some (L !! t) -> ~ (paddr <= t < paddr + n * 4096) /\ t mod 4096 = 0).
  { intros t [l Ht]. destruct (pi_tab _ _ _ (vi_pt _ _ _ Hv) t l Ht) as (_ & Htm & _ & _ & Hna & _).
    split; [|done]. intros Hin. apply Hna.
    replace t with (paddr + (t - paddr) / 4096 * 4096) by (Z.div_mod_to_equations; lia).
    apply Hav. Z.div_mod_to_equations. lia. }
  destruct (pt_inv_frame st (Mach pa (zero_bytes paddr (n * 4096) (m_ram st))) (page_table p) L)
    as [Hi Hl]; auto.
  - apply Hv.
  - simpl. intros t [l Ht]. rewrite Ha. intros [? _].
    destruct (pi_tab _ _ _ (vi_pt _ _ _ Hv) t l Ht) as (_ & _ & _ & _ & Hna & _). done.
  - intros t i Ht Hi. unfold entry. simpl. destruct (Hdis t Ht) as [Hd Htm].
    rewrite Hz by (unfold slot; Z.div_mod_to_equations; lia). unfold slot.
    destruct (Z.leb_spec paddr (t + 8 * i)), (Z.ltb_spec (t + 8 * i) (paddr + n * 4096)); simpl; try done.
    exfalso. apply Hd. Z.div_mod_to_equations. lia.
  - split; auto; try lia. intros b Hb Hin. simpl. rewrite Hz by done.
    rewrite (proj2 (Z.leb_le _ _)), (proj2 (Z.ltb_lt _ _)) by lia. done.
Qed.

(** A page address is in a run exactly when it is one of its pages. *)
Lemma in_run_page b n q :
  b mod 4096 = 0 -> q mod 4096 = 0 -> in_run b n q <-> exists i, 0 <= i < n /\ q = b + i * 4096.
Proof.
  intros Hr Hq. unfold in_run. split; [|intros (i & ? & ->); lia].
  intros Hin. exists ((q - b) / 4096). Z.div_mod_to_equations. lia.
Qed.

(** The range of a fresh region is unmapped, whatever address in a page of it
    is used. *)
Lemma fresh_unmapped p st L a n v v' :
  vm_inv p st L -> PROCESS_USER_MMAP_BASE <= a -> a + n <= PROCESS_USER_MMAP_LIMIT ->
  a mod 4096 = 0 -> n mod 4096 = 0 ->
  (forall k r, live p !! k = Some r -> region_disjoint r (Region a (a + n) 0 0)) ->
  a <= v < a + n -> vpn v = vpn v' -> e_valid (vmm_leaf_entry st (page_table p) v') = false.
Proof.
  intros Hv Hb Hl _ _ Hd Hin E.
  rewrite <- (leaf_entry_vpn st _ L v v' (vi_pt _ _ _ Hv) E).
  destruct (e_valid _) eqn:Ev; [|done].
  destruct (vi_window _ _ _ Hv v) as (k & r & Hk & Hr); [lia|done|].
  specialize (Hd k r Hk). unfold region_disjoint, in_region in *. simpl in Hd. lia.
Qed.

(** ** Undoing a failed mapping *)

Lemma rollback p st L a n paddr st1 st2 L2 st3 status :
  vm_inv p st L -> is_u64 a -> is_u64 (n * 4096) -> 0 < n ->
  PROCESS_USER_MMAP_BASE <= a -> a + n * 4096 <= PROCESS_USER_MMAP_LIMIT -> a mod 4096 = 0 ->
  (forall k r, live p !! k = Some r -> region_disjoint r (Region a (a + n * 4096) 0 0)) ->
  cleared_pages p st L n paddr st1 ->
  pt_inv st2 (page_table p) L2 -> grows st1 L st2 L2 ->
  (forall v, vmm_leaf_entry st2 (page_table p) v = vmm_leaf_entry st1 (page_table p) v) ->
  vmm_unmap_range (page_table p) a (n * 4096) st2 = (status, st3) ->
  let st4 := free_page_range paddr (n * 4096) st3 in
  vm_inv p st4 L2 /\ L ⊆ L2 /\
  (forall v, vmm_leaf_entry st4 (page_table p) v = vmm_leaf_entry st (page_table p) v) /\
  (forall q, pa_avail (m_pa st4) q <-> pa_avail (m_pa st) q /\ L2 !! q = None).
Proof.
  intros Hv Ha Hn64 Hn Hb Hlim Ham Hdis [Hi1 Hl1 Hm1 Ha1 Hrun Hpm Hp0 Hpx _] Hi2 G2 Hl2 E3 st4.
  destruct (vmm_unmap_range_spec st2 _ L2 _ _ _ _ Hi2 Ha Hn64 E3) as (Hi3 & G3 & _ & _ & Hout & Hor).
  assert (Hl3 : forall v, vmm_leaf_entry st3 (page_table p) v = vmm_leaf_entry st (page_table p) v).
  { intros v. rewrite <- Hl1, <- Hl2. destruct (e_valid (vmm_leaf_entry st2 (page_table p) v)) eqn:Ev.
    - apply Hout. intros i Hir Ei. rewrite Ham, Z.sub_0_r in *.
      destruct (Z.eqb_spec (n * 4096) 0); [lia|].
      assert (Hsp : span_pages a (n * 4096) = n)
        by (unfold span_pages; rewrite Ham; Z.div_mod_to_equations; lia).
      rewrite Hsp in Hir.
      rewrite Hl2, Hl1, (fresh_unmapped p st L a (n * 4096) (a + i * 4096) v) in Ev; auto; try lia; try done.
      apply Z.mod_mul. lia.
    - destruct (Hor v) as [Hz|?]; [|done]. rewrite Hz. symmetry. eapply leaf_invalid_zero; eauto. }
  assert (Hrun2 : forall i, 0 <= i < n -> L2 !! (paddr + i * 4096) = None).
  { intros i Hin. destruct (L2 !! (paddr + i * 4096)) as [l|] eqn:El; [|done]. exfalso.
    assert (Hno : L !! (paddr + i * 4096) = None).
    { destruct (L !! (paddr + i * 4096)) eqn:EL; [|done].
      destruct (pi_tab _ _ _ (vi_pt _ _ _ Hv) _ _ EL) as (_ & _ & _ & _ & Hna & _).
      by destruct Hna; apply Hrun. }
    pose proof (gr_new _ _ _ _ G2 _ (ex_intro _ l El) Hno) as Hc. rewrite Ha1 in Hc.
    apply (proj2 Hc). unfold in_run. lia. }
  assert (Hav3 : forall q, pa_avail (m_pa st3) q <-> (pa_avail (m_pa st) q /\ ~ in_run paddr n q) /\ L2 !! q = None).
  { intros q. rewrite (gr_avail _ _ _ _ G3), (gr_avail _ _ _ _ G2), Ha1. tauto. }
  assert (Hmg3 : forall q, pa_managed (m_pa st3) q <-> pa_managed (m_pa st) q).
  { intros q. by rewrite (gr_managed _ _ _ _ G3), (gr_managed _ _ _ _ G2), Hm1. }
  pose proof (pi_pa _ _ _ (vi_pt _ _ _ Hv)) as Hpa.
  destruct (free_page_range_spec paddr n st3) as (Hp4 & Hr4 & Hm4 & Ha4); try lia.
  { apply Hi3. }
  { intros i Hin. apply Hmg3. by apply (avail_managed _ _ Hpa), Hrun. }
  fold st4 in Hp4, Hr4, Hm4, Ha4.
  assert (Hav4 : forall q, pa_avail (m_pa st4) q <-> pa_avail (m_pa st) q /\ L2 !! q = None).
  { intros q. rewrite Ha4, Hav3. split.
    - intros [[[? _] ?]|(i & Hin & ->)]; [done|]. split; [by apply Hrun|by apply Hrun2].
    - intros [Hq Hn2]. destruct (avail_addr _ _ Hpa Hq) as (Hqm & _).
      destruct (decide (in_run paddr n q)) as [Hr|]; [right|left; auto].
      by apply in_run_page. }
  destruct (pt_inv_frame st3 st4 (page_table p) L2) as [Hi4 Hl4]; auto.
  { intros t [l Ht]. rewrite Hav4, Ht. by intros [_ ?]. }
  { intros t i _ _. by rewrite Hr4. }
  split_and!; auto; [|apply G2|intros v; rewrite Hl4; apply Hl3].
  eapply (vm_inv_frame p st); eauto.
  - intros q. by rewrite Hm4, Hmg3.
  - intros q Hna HL (k & r & Hk & Ho & Hbk). split; [rewrite Hav4; tauto|].
    destruct (L2 !! q) eqn:E2; [|done]. exfalso. apply Hna.
    pose proof (gr_new _ _ _ _ G2 q ltac:(eauto) HL) as Hc. rewrite Ha1 in Hc. apply Hc.
  - intros v. rewrite Hl4. apply Hl3.
Qed.

(** ** Completing a successful mapping *)

Lemma backs_new paddr n a q :
  paddr mod 4096 = 0 ->
  backs (Region a (a + n * 4096) paddr PROCESS_USER_REGION_OWNED_PAGES) q ->
  exists i, 0 <= i < n /\ q = paddr + i * 4096.
Proof.
  intros Hpm [Hq1 Hq2]. unfold region_size in Hq2. simpl in Hq2.
  apply in_run_page; [done..|]. unfold in_run. lia.
Qed.

Lemma new_region_owned p st L n paddr st1 a f st2 L2 :
  vm_inv p st L -> 0 < n -> a mod 4096 = 0 ->
  PROCESS_USER_MMAP_BASE <= a -> a + n * 4096 <= PROCESS_USER_MMAP_LIMIT ->
  cleared_pages p st L n paddr st1 ->
  grows st1 L st2 L2 -> maps_range (page_table p) a paddr f 0 n st1 st2 ->
  owned_region st2 L2 (page_table p)
    (Region a (a + n * 4096) paddr PROCESS_USER_REGION_OWNED_PAGES).
Proof.
  intros Hv Hn Ham Hb Hlim [Hi1 Hl1 Hm1 Ha1 Hrun Hpm Hp0 Hpx _] G2 Hmap.
  unfold PROCESS_USER_MMAP_BASE, PROCESS_USER_MMAP_LIMIT in *.
  pose proof (pi_pa _ _ _ (vi_pt _ _ _ Hv)) as Hpa.
  split; unfold region_size; simpl.
  - split_and!; auto. replace (a + n * 4096 - a) with (n * 4096) by lia. apply Z.mod_mul. lia.
  - unfold PROCESS_USER_MMAP_BASE, PROCESS_USER_MMAP_LIMIT. lia.
  - lia.
  - intros q Hq. destruct (backs_new _ _ _ _ Hpm Hq) as (i & Hin & ->).
    assert (Hna1 : ~ pa_avail (m_pa st1) (paddr + i * 4096)).
    { rewrite Ha1. intros [_ Hc]. apply Hc. unfold in_run. lia. }
    rewrite (gr_managed _ _ _ _ G2), Hm1, (gr_avail _ _ _ _ G2).
    split; [by apply (avail_managed _ _ Hpa), Hrun|]. split; [tauto|].
    destruct (L2 !! (paddr + i * 4096)) as [l|] eqn:E; [|done]. exfalso.
    destruct (L !! (paddr + i * 4096)) as [l0|] eqn:E0.
    + destruct (pi_tab _ _ _ (vi_pt _ _ _ Hv) _ _ E0) as (_ & _ & _ & _ & Hna & _).
      by destruct Hna; apply Hrun.
    + apply Hna1. by apply (gr_new _ _ _ _ G2).
  - intros v Hin. unfold in_region in Hin. simpl in Hin. split.
    + rewrite (proj1 Hmap ((v - a) / 4096) v); [apply page_descriptor_valid|Z.div_mod_to_equations; lia|].
      unfold vpn. f_equal. Z.div_mod_to_equations. lia.
    + replace v with (a + (v - a)) at 1 by lia.
      rewrite (maps_range_translates _ _ _ _ _ _ _ _ Hmap); auto; lia.
Qed.

Lemma mapped_outside p st L n paddr st1 a f st2 :
  a mod 4096 = 0 -> PROCESS_USER_MMAP_BASE <= a -> a + n * 4096 <= PROCESS_USER_MMAP_LIMIT ->
  cleared_pages p st L n paddr st1 -> maps_range (page_table p) a paddr f 0 n st1 st2 ->
  forall v, 0 <= v < 2 ^ 48 -> ~ (a <= v < a + n * 4096) ->
  vmm_leaf_entry st2 (page_table p) v = vmm_leaf_entry st (page_table p) v.
Proof.
  unfold PROCESS_USER_MMAP_BASE, PROCESS_USER_MMAP_LIMIT.
  intros Ham Hb Hlim Hcp [_ Hout] v Hv0 Hv1. rewrite <- (cp_leaf _ _ _ _ _ _ Hcp). apply Hout.
  intros i Hin Ei. apply vpn_window in Ei; Z.div_mod_to_equations; lia.
Qed.

(** Adding an owned region whose pages have just been mapped. *)
Lemma vm_inv_extend p p' st L n paddr st1 a f st2 L2 :
  vm_inv p st L -> 0 < n -> a mod 4096 = 0 ->
  PROCESS_USER_MMAP_BASE <= a -> a + n * 4096 <= PROCESS_USER_MMAP_LIMIT ->
  (forall k r, live p !! k = Some r -> region_disjoint r (Region a (a + n * 4096) 0 0)) ->
  cleared_pages p st L n paddr st1 ->
  pt_inv st2 (page_table p) L2 -> grows st1 L st2 L2 ->
  maps_range (page_table p) a paddr f 0 n st1 st2 ->
  regions_wf p' -> page_table p' = page_table p ->
  live p' = live p ++ [Region a (a + n * 4096) paddr PROCESS_USER_REGION_OWNED_PAGES] ->
  vm_inv p' st2 L2.
Proof.
  intros Hv Hn Ham Hb Hlim Hdis Hcp Hi2 G2 Hmap Hw' Et Hl'.
  pose proof Hcp as [Hi1 Hl1 Hm1 Ha1 Hrun Hpm Hp0 Hpx _].
  set (g := Region a (a + n * 4096) paddr PROCESS_USER_REGION_OWNED_PAGES) in *.
  unfold PROCESS_USER_MMAP_BASE, PROCESS_USER_MMAP_LIMIT in *.
  pose proof (pi_pa _ _ _ (vi_pt _ _ _ Hv)) as Hpa.
  pose proof (fun q => backs_new paddr n a q Hpm) as Hbacks. fold g in Hbacks.
  assert (Hold : forall v, 0 <= v < 2 ^ 48 -> ~ (a <= v < a + n * 4096) ->
    vmm_leaf_entry st2 (page_table p) v = vmm_leaf_entry st (page_table p) v).
  { by eapply mapped_outside. }
  assert (Hnew : forall q, ~ pa_avail (m_pa st) q -> L !! q = None -> L2 !! q = None).
  { intros q Hna HL. destruct (L2 !! q) eqn:E; [|done]. exfalso. apply Hna.
    pose proof (gr_new _ _ _ _ G2 q ltac:(eauto) HL) as Hc. rewrite Ha1 in Hc. apply Hc. }
  assert (Hg : owned_region st2 L2 (page_table p) g).
  { by eapply new_region_owned. }
  split; rewrite ?Et, ?Hl'; auto.
  - intros v Hvw He. destruct (decide (a <= v < a + n * 4096)) as [Hin|Hno].
    + exists (length (live p)), g. split; [by apply list_lookup_middle|done].
    + rewrite Hold in He by (unfold PROCESS_USER_MMAP_BASE, PROCESS_USER_MMAP_LIMIT in *; lia).
      destruct (vi_window _ _ _ Hv v Hvw He) as (k & r & Hk & Hr).
      exists k, r. split; [by apply lookup_app_l_Some|done].
  - intros k r [Hk|[_ Hk]]%lookup_app_Some Ho.
    + pose proof (vi_owned _ _ _ Hv k r Hk Ho) as Hor.
      eapply (owned_region_frame st st2 L L2); eauto.
      * intros q. by rewrite (gr_managed _ _ _ _ G2), Hm1.
      * intros q _ Hna HL. rewrite (gr_avail _ _ _ _ G2), Ha1. split; [tauto|eauto].
      * intros v Hr. pose proof (or_window _ _ _ _ Hor). specialize (Hdis k r Hk).
        unfold in_region, region_disjoint, PROCESS_USER_MMAP_BASE, PROCESS_USER_MMAP_LIMIT in *.
        simpl in Hdis. apply Hold; lia.
    + by apply list_lookup_singleton_Some in Hk as [_ <-].
  - assert (Hsep : forall k r q, live p !! k = Some r -> owned r = true -> backs r q -> ~ backs g q).
    { intros k r q Hk Ho Hbq Hgq. destruct (Hbacks q Hgq) as (i & Hin & ->).
      destruct (or_pages _ _ _ _ (vi_owned _ _ _ Hv k r Hk Ho) _ Hbq) as (_ & Hna & _).
      by apply Hna, Hrun. }
    intros i j r r' q [Hi|[Hi Hi']]%lookup_app_Some [Hj|[Hj Hj']]%lookup_app_Some Ho Ho' Hij Hbq.
    + by eapply (vi_sep _ _ _ Hv i j).
    + apply list_lookup_singleton_Some in Hj' as [_ <-]. eauto.
    + apply list_lookup_singleton_Some in Hi' as [_ <-]. intros Hb'. by eapply Hsep.
    + apply list_lookup_singleton_Some in Hi' as [? _], Hj' as [? _]. lia.
Qed.

(** The pages stay zero while tables are added. *)
Lemma cleared_stay_zero p st L n paddr st1 a f st2 L2 :
  vm_inv p st L -> 0 < n -> a mod 4096 = 0 ->
  PROCESS_USER_MMAP_BASE <= a -> a + n * 4096 <= PROCESS_USER_MMAP_LIMIT ->
  cleared_pages p st L n paddr st1 -> pt_inv st2 (page_table p) L2 ->
  grows st1 L st2 L2 -> maps_range (page_table p) a paddr f 0 n st1 st2 ->
  forall b, b mod 8 = 0 -> paddr <= b < paddr + n * 4096 -> rd64 (m_ram st2) b = 0.
Proof.
  intros Hv Hn Ham Hb Hlim Hcp Hi2 G2 Hmap b Hb8 Hin.
  pose proof (new_region_owned _ _ _ _ _ _ _ _ _ _ Hv Hn Ham Hb Hlim Hcp G2 Hmap) as Hor.
  pose proof (cp_align _ _ _ _ _ _ Hcp) as Hpm.
  rewrite (gr_frame _ _ _ _ G2); [by apply (cp_zero _ _ _ _ _ _ Hcp)|].
  intros t [l Ht] Htb. destruct (pi_tab _ _ _ Hi2 t l Ht) as (_ & Htm & _).
  destruct (or_pages _ _ _ _ Hor t) as (_ & _ & Hnone); [|congruence].
  split; [done|]. unfold region_size. simpl. Z.div_mod_to_equations. lia.
Qed.

(** ** user_vm_map_anonymous on every path *)

Definition pages_of (size : Z) : Z := (size + 4095) / 4096.

(** The call succeeded: a new owned region at the mmap cursor, backed by pages
    taken from the allocator and cleared. *)
Definition mapped_new p st (size ret : Z) (q : process) st' L' : Prop :=
  exists paddr, let n := pages_of size * 4096 in
    ret = next_user_vaddr p /\ 0 < size /\
    live q = live p ++ [Region ret (ret + n) paddr PROCESS_USER_REGION_OWNED_PAGES] /\
    0 < paddr /\
    (forall x, x mod 4096 = 0 -> paddr <= x < paddr + n -> pa_avail (m_pa st) x) /\
    (forall b, b mod 8 = 0 -> paddr <= b < paddr + n -> rd64 (m_ram st') b = 0) /\
    (forall v, 0 <= v < 2 ^ 48 -> ~ (ret <= v < ret + n) ->
       vmm_leaf_entry st' (page_table p) v = vmm_leaf_entry st (page_table p) v) /\
    (forall x, pa_avail (m_pa st') x <->
       pa_avail (m_pa st) x /\ L' !! x = None /\ ~ (paddr <= x < paddr + n)).

(** The call failed: same regions, same translations, and no page lost except
    those now serving as page tables. *)
Definition mapped_nothing p st (ret : Z) (q : process) st' L' : Prop :=
  (ret = USER_VM_ERR_NOMEM \/ ret = USER_VM_ERR_INVAL) /\ live q = live p /\
  (forall v, vmm_leaf_entry st' (page_table p) v = vmm_leaf_entry st (page_table p) v) /\
  (forall x, pa_avail (m_pa st') x <-> pa_avail (m_pa st) x /\ L' !! x = None).

Definition map_anon_post p st L (size : Z) (res : Z * option process * mach A) : Prop :=
  exists ret q st' L', res = (ret, Some q, st') /\ vm_inv q st' L' /\ L ⊆ L' /\
    page_table q = page_table p /\
    (forall x, is_Some (L' !! x) -> is_Some (L !! x) \/ pa_avail (m_pa st) x) /\
    (mapped_new p st size ret q st' L' \/ mapped_nothing p st ret q st' L').

Lemma map_anon_noop p st L size e q :
  vm_inv p st L -> e = USER_VM_ERR_NOMEM \/ e = USER_VM_ERR_INVAL ->
  page_table q = page_table p -> live q = live p -> regions_wf q ->
  map_anon_post p st L size (e, Some q, st).
Proof.
  intros Hv He Et El Hw. exists e, q, st, L. split_and!; auto.
  - by eapply vm_inv_live.
  - right. split_and!; auto. apply (grows_refl st _ L (vi_pt _ _ _ Hv)).
Qed.

Lemma new_tables_avail p st L n paddr st1 st2 L2 :
  cleared_pages p st L n paddr st1 -> grows st1 L st2 L2 ->
  forall x, is_Some (L2 !! x) -> is_Some (L !! x) \/ pa_avail (m_pa st) x.
Proof.
  intros Hcp G2 x Hx. destruct (L !! x) eqn:E; [eauto|]. right.
  pose proof (gr_new _ _ _ _ G2 x Hx E) as Ha. by apply (cp_avail _ _ _ _ _ _ Hcp) in Ha as [? _].
Qed.

(** From the page allocation on, for a region [a, a + n pages) just added. *)
Lemma map_anon_pages p p1 st L size f a :
  vm_inv p st L -> 0 < size -> let n := pages_of size in
  a = next_user_vaddr p -> a mod 4096 = 0 ->
  PROCESS_USER_MMAP_BASE <= a -> a + n * 4096 <= PROCESS_USER_MMAP_LIMIT ->
  regions_wf p1 -> page_table p1 = page_table p ->
  live p1 = live p ++ [Region a (a + n * 4096) 0 0] ->
  map_anon_post p st L size
   (let '(paddr, pa) := alloc_pages n (m_pa st) in
    let st := Mach pa (m_ram st) in
    if paddr =? 0 then
      (USER_VM_ERR_NOMEM, Some (snd (process_remove_user_region p1 a (n * 4096))), st)
    else
    let st := Mach (m_pa st) (zero_bytes paddr (n * 4096) (m_ram st)) in
    let '(mapped, st) := vmm_map_range (page_table p1) a paddr (n * 4096) f st in
    if negb (mapped =? 0) then
      let st := snd (vmm_unmap_range (page_table p1) a (n * 4096) st) in
      let p := snd (process_remove_user_region p1 a (n * 4096)) in
      (USER_VM_ERR_NOMEM, Some p, free_page_range paddr (n * 4096) st)
    else
    let '(recorded, p) :=
      process_set_user_region_mapping p1 a (n * 4096) paddr PROCESS_USER_REGION_OWNED_PAGES in
    if negb (recorded =? 0) then
      let st := snd (vmm_unmap_range (page_table p) a (n * 4096) st) in
      let p := snd (process_remove_user_region p a (n * 4096)) in
      (USER_VM_ERR_INVAL, Some p, free_page_range paddr (n * 4096) st)
    else (s64 a, Some p, st)).
Proof.
  intros Hv Hs n Ea Ham Hb Hlim Hw1 Et1 Hl1.
  assert (Hn : 0 < n) by (unfold n, pages_of; Z.div_mod_to_equations; lia).
  assert (Hau : is_u64 a /\ is_u64 (n * 4096)).
  { unfold is_u64, PROCESS_USER_MMAP_BASE, PROCESS_USER_MMAP_LIMIT in *. lia. }
  destruct Hau as [Hau Hnu].
  assert (Hdis : forall k r, live p !! k = Some r -> region_disjoint r (Region a (a + n * 4096) 0 0)).
  { intros k r Hk. eapply (rw_disj _ Hw1 k (length (live p))).
    - rewrite Hl1. by apply lookup_app_l_Some.
    - rewrite Hl1. by apply list_lookup_middle.
    - apply lookup_lt_Some in Hk. lia. }
  destruct (process_remove_user_region p1 a (n * 4096)) as [rs p2] eqn:Erm.
  destruct (remove_last_region p p1 a _ _ _ _ _ Hw1 Hau Hnu Hl1 Erm) as (_ & Hw2 & Hl2 & Et2 & _).
  destruct (alloc_pages n (m_pa st)) as [paddr pa] eqn:Ep.
  destruct (Z.eqb_spec paddr 0) as [->|Hp].
  { destruct (alloc_pages_law n _ _ _ (pi_pa _ _ _ (vi_pt _ _ _ Hv)) Hn Ep) as (_ & _ & [[_ ->]|[? _]]); [|done].
    replace (Mach (m_pa st) (m_ram st)) with st by (by destruct st).
    cbn [snd]. apply map_anon_noop; auto. congruence. }
  pose proof (alloc_and_zero p st L n paddr pa Hv Hn Ep Hp) as Hcp. cbn [m_pa m_ram].
  set (st1 := Mach pa (zero_bytes paddr (n * 4096) (m_ram st))) in *. rewrite Et1.
  destruct (vmm_map_range _ _ _ _ _ st1) as [mapped st2] eqn:Em.
  assert (Hpu : is_u64 paddr).
  { pose proof (cp_pos _ _ _ _ _ _ Hcp). pose proof (cp_end _ _ _ _ _ _ Hcp). unfold is_u64. lia. }
  destruct (vmm_map_range_spec st1 _ L _ _ _ _ _ _ (cp_pt _ _ _ _ _ _ Hcp) Hau Hpu Hnu Em)
    as (L2 & Hi2 & G2 & [(-> & _ & Hmap & _)|[-> Hsame]]); cbn [negb Z.eqb].
  - destruct (process_set_user_region_mapping p1 a (n * 4096) paddr _) as [rec p3] eqn:Eset.
    destruct (set_last_region p p1 a (n * 4096) _ _ _ _ _ _ Hw1 Hau Hnu Hl1 Eset) as (-> & Hw3 & Hl3 & Et3).
    cbn [negb Z.eqb].
    assert (Hmap' : maps_range (page_table p) a paddr f 0 n st1 st2).
    { rewrite Ham, (cp_align _ _ _ _ _ _ Hcp), !Z.sub_0_r in Hmap.
      destruct (Z.eqb_spec (n * 4096) 0); [lia|]. unfold span_pages in Hmap. rewrite Ham in Hmap.
      replace ((0 + n * 4096 + 4095) / 4096) with n in Hmap by (Z.div_mod_to_equations; lia). done. }
    assert (Es : s64 a = a).
    { unfold s64. rewrite (proj2 (Z.ltb_lt _ _)); [done|].
      unfold PROCESS_USER_MMAP_LIMIT in Hlim. lia. }
    rewrite Es. exists a, p3, st2, L2. split_and!; auto; [|by apply G2|congruence| |].
    + eapply (vm_inv_extend p p3 st L n paddr st1); eauto. congruence.
    + by eapply new_tables_avail.
    + left. exists paddr. split_and!; auto; [apply Hcp| | | |].
      * intros x Hx Hin. apply in_run_page in Hin as (i & Hin & ->); [|apply Hcp|done].
        by apply (cp_run _ _ _ _ _ _ Hcp).
      * eapply cleared_stay_zero; eauto.
      * eapply mapped_outside; eauto.
      * intros x. rewrite (gr_avail _ _ _ _ G2), (cp_avail _ _ _ _ _ _ Hcp). unfold in_run, n. tauto.
  - destruct (vmm_unmap_range _ _ _ st2) as [us st3] eqn:Eu. cbn [snd].
    destruct (rollback p st L a n paddr st1 st2 L2 st3 us) as (Hv4 & Hsub & Hl4 & Ha4); auto.
    exists USER_VM_ERR_NOMEM, p2, (free_page_range paddr (n * 4096) st3), L2.
    split_and!; auto; [|congruence| |].
    + eapply vm_inv_live; eauto. congruence.
    + by eapply new_tables_avail.
    + right. split_and!; auto.
Qed.

Lemma map_anonymous_spec p st L hint size flags :
  vm_inv p st L -> is_u64 size ->
  map_anon_post p st L size (user_vm_map_anonymous (Some p) hint size flags st).
Proof.
  intros Hv Hs. unfold user_vm_map_anonymous. pose proof (vi_regions _ _ _ Hv) as Hw.
  case_if; [by apply map_anon_noop; auto|].
  destruct (flags_to_vmm flags) as [f|]; [|by apply map_anon_noop; auto].
  destruct (user_align_up_spec size Hs) as [[? _]|[Eal Hsz]]; [lia|].
  fold (pages_of size) in Eal. rewrite Eal.
  assert (Hnu : is_u64 (pages_of size * 4096)).
  { unfold is_u64, pages_of, UINT64_MAX in *. Z.div_mod_to_equations. lia. }
  destruct (process_alloc_user_region p (pages_of size * 4096)) as [o p1] eqn:Ea.
  destruct (process_alloc_user_region_spec _ _ _ _ Hw Hnu Ea)
    as [(-> & Hw1 & _ & Hlim & Hl1 & Hp1)|[-> ->]]; [|by apply map_anon_noop; auto].
  replace ((pages_of size * 4096 + 4095) / 4096 * 4096) with (pages_of size * 4096) in *
    by (Z.div_mod_to_equations; lia).
  unfold PAGE_SIZE. rewrite Z.div_mul by lia.
  apply map_anon_pages; auto; try lia; try apply Hw. by rewrite Hp1.
Qed.

(** ** user_vm_unmap_anonymous on every path *)

(** Dropping owned region [k] after its pages were unmapped and released. *)
Lemma vm_inv_shrink p q st L st1 st2 k r :
  vm_inv p st L -> live p !! k = Some r -> owned r = true ->
  pt_inv st1 (page_table p) L -> grows st L st1 L ->
  (forall v, in_region r v -> vmm_leaf_entry st1 (page_table p) v = 0) ->
  (forall v, 0 <= v < 2 ^ 48 -> ~ in_region r v ->
     vmm_leaf_entry st1 (page_table p) v = vmm_leaf_entry st (page_table p) v) ->
  freed st1 (backs r) st2 ->
  regions_wf q -> page_table q = page_table p -> live q = delete k (live p) ->
  vm_inv q st2 L /\ forall v, vmm_leaf_entry st2 (page_table p) v = vmm_leaf_entry st1 (page_table p) v.
Proof.
  intros Hv Hk Ho Hi1 G1 Hin Hout (Hp2 & Hr2 & Hm2 & Ha2) Hwq Et El.
  pose proof (vi_owned _ _ _ Hv k r Hk Ho) as Hor.
  destruct (pt_inv_frame st1 st2 (page_table p) L) as [Hi2 Hl2]; auto.
  { intros t [l Ht]. rewrite Ha2, (gr_avail _ _ _ _ G1), Ht. intros [[_ ?]|Hb]; [done|].
    destruct (or_pages _ _ _ _ Hor t Hb) as (_ & _ & ?). congruence. }
  { intros t i _ _. by rewrite Hr2. }
  split; [|done].
  assert (Hdel : forall j g, live q !! j = Some g ->
    exists j', j' <> k /\ live p !! j' = Some g /\ (forall i g', live q !! i = Some g' -> i <> j ->
      exists i', i' <> k /\ i' <> j' /\ live p !! i' = Some g')).
  { rewrite El. intros j g. rewrite list_lookup_delete. intros Hj. eexists. split_and!; [|exact Hj|].
    { case_decide; lia. }
    intros i g'. rewrite list_lookup_delete. intros Hi Hij. eexists. split_and!; [| |exact Hi];
      repeat case_decide; lia. }
  split; rewrite ?Et; auto.
  - intros v Hvw He. rewrite Hl2 in He. destruct (decide (r_start r <= v < r_end r)) as [Hir|Hno].
    { by rewrite Hin in He. }
    rewrite Hout in He;
      [|unfold PROCESS_USER_MMAP_BASE, PROCESS_USER_MMAP_LIMIT in *; lia|done].
    destruct (vi_window _ _ _ Hv v Hvw He) as (j & g & Hj & Hg).
    assert (j <> k) by (intros ->; rewrite Hk in Hj; inv_eq Hj; done).
    rewrite El. exists (if decide (j < k)%nat then j else pred j), g. split; [|done].
    rewrite list_lookup_delete. repeat case_decide; try lia; [done|].
    by replace (S (Init.Nat.pred j)) with j by lia.
  - intros j g Hj Hg. destruct (Hdel j g Hj) as (j' & Hne & Hj' & _).
    pose proof (vi_owned _ _ _ Hv j' g Hj' Hg) as Hog.
    eapply (owned_region_frame st st2 L L); eauto.
    + intros x. by rewrite Hm2, (gr_managed _ _ _ _ G1).
    + intros x Hb Hna HL. split; [|done]. rewrite Ha2, (gr_avail _ _ _ _ G1).
      intros [[? _]|Hbr]; [done|]. by apply (vi_sep _ _ _ Hv j' k g r x).
    + intros v Hgv. rewrite Hl2. pose proof (or_window _ _ _ _ Hog) as Hwg.
      pose proof (rw_disj _ (vi_regions _ _ _ Hv) _ _ _ _ Hj' Hk Hne) as Hd.
      unfold in_region, region_disjoint, PROCESS_USER_MMAP_BASE, PROCESS_USER_MMAP_LIMIT in *.
      apply Hout; lia.
  - intros i j g g' x Hi Hj Hg Hg' Hij. destruct (Hdel j g' Hj) as (j' & Hne & Hj' & Hoth).
    destruct (Hoth i g Hi Hij) as (i' & _ & Hi'ne & Hi'). by eapply (vi_sep _ _ _ Hv i' j').
Qed.

Definition unmap_anon_post p st L (addr size : Z) (res : Z * option process * mach A) : Prop :=
  (res = (USER_VM_ERR_INVAL, Some p, st) /\
   forall k r, live p !! k = Some r -> owned r = true -> r_start r = addr ->
     region_size r = pages_of size * 4096 -> 0 < size <= UINT64_MAX - 4095 -> False) \/
  (exists k r q st', res = (0, Some q, st') /\ live p !! k = Some r /\ owned r = true /\
     r_start r = addr /\ region_size r = pages_of size * 4096 /\
     vm_inv q st' L /\ live q = delete k (live p) /\ page_table q = page_table p /\
     (forall v, in_region r v -> vmm_leaf_entry st' (page_table p) v = 0) /\
     (forall v, 0 <= v < 2 ^ 48 -> ~ in_region r v ->
        vmm_leaf_entry st' (page_table p) v = vmm_leaf_entry st (page_table p) v) /\
     (forall x, pa_avail (m_pa st') x <-> pa_avail (m_pa st) x \/ backs r x)).

(** Unmapping and releasing the pages of an owned region. *)
Lemma unmap_owned_region p st L k r n status st1 :
  vm_inv p st L -> live p !! k = Some r -> owned r = true -> region_size r = n * 4096 ->
  vmm_unmap_range (page_table p) (r_start r) (n * 4096) st = (status, st1) ->
  status = 0 /\ pt_inv st1 (page_table p) L /\ grows st L st1 L /\
  (forall v, in_region r v -> vmm_leaf_entry st1 (page_table p) v = 0) /\
  (forall v, 0 <= v < 2 ^ 48 -> ~ in_region r v ->
     vmm_leaf_entry st1 (page_table p) v = vmm_leaf_entry st (page_table p) v) /\
  freed st1 (backs r) (free_page_range (r_paddr r) (n * 4096) st1).
Proof.
  intros Hv Hk Ho Hsz E. pose proof (vi_owned _ _ _ Hv k r Hk Ho) as Hor.
  pose proof (rw_range _ (vi_regions _ _ _ Hv) k r Hk) as Hrange.
  destruct (or_align _ _ _ _ Hor) as (Has & _ & Hap). pose proof (or_window _ _ _ _ Hor) as Hwin.
  pose proof (or_phys _ _ _ _ Hor) as Hphys. unfold region_size in *.
  unfold PROCESS_USER_MMAP_BASE, PROCESS_USER_MMAP_LIMIT in *.
  assert (Hst : status = 0).
  { refine (vmm_unmap_range_total st _ L (r_start r) n status st1 (vi_pt _ _ _ Hv) _ Has _ _ _ _ E).
    - lia.
    - lia.
    - unfold UINT64_MAX. lia.
    - intros i Hi. apply (or_mapped _ _ _ _ Hor). unfold in_region. lia.
    - intros i j Hij Hj Ev. apply vpn_window in Ev; Z.div_mod_to_equations; lia. }
  destruct (vmm_unmap_range_spec st (page_table p) L (r_start r) (n * 4096) status st1)
    as (Hi1 & G1 & _ & Hin & Hout & _); [apply Hv|unfold is_u64; lia..|done|].
  assert (Hsp : (if n * 4096 =? 0 then 0 else span_pages (r_start r) (n * 4096)) = n).
  { destruct (Z.eqb_spec (n * 4096) 0); [lia|]. unfold span_pages. rewrite Has.
    Z.div_mod_to_equations. lia. }
  rewrite Hsp, Has, Z.sub_0_r in *. split_and!; auto.
  - intros v Hrv. unfold in_region in Hrv.
    apply (Hin Hst ((v - r_start r) / 4096)); [Z.div_mod_to_equations; lia|].
    unfold vpn. f_equal. Z.div_mod_to_equations. lia.
  - intros v Hv0 Hno. apply Hout. intros i Hi Ei. apply Hno. unfold in_region.
    apply vpn_window in Ei; Z.div_mod_to_equations; lia.
  - destruct (free_page_range_spec (r_paddr r) n st1) as (H1 & H2 & H3 & H4); try lia.
    + apply Hi1.
    + intros i Hi. rewrite (gr_managed _ _ _ _ G1). apply (or_pages _ _ _ _ Hor).
      unfold backs, region_size. rewrite Z.mod_add by lia. split; [done|lia].
    + split_and!; auto. intros x. rewrite H4. unfold backs, region_size. split.
      * intros [?|(i & Hi & ->)]; [auto|]. right. rewrite Z.mod_add by lia. split; [done|lia].
      * intros [?|[Hx1 Hx2]]; [auto|]. right. apply in_run_page; [done..|]. unfold in_run. lia.
Qed.

Lemma unmap_anonymous_spec p st L addr size :
  vm_inv p st L -> is_u64 addr -> is_u64 size ->
  unmap_anon_post p st L addr size (user_vm_unmap_anonymous (Some p) addr size st).
Proof.
  intros Hv Ha Hs. unfold user_vm_unmap_anonymous. pose proof (vi_regions _ _ _ Hv) as Hw.
  destruct (pi_tab _ _ _ (vi_pt _ _ _ Hv) _ _ (pi_root _ _ _ (vi_pt _ _ _ Hv))) as (_ & _ & Hp0 & _).
  rewrite (proj2 (Z.eqb_neq (page_table p) 0)) by lia. cbn [orb].
  destruct (user_align_up_spec size Hs) as [[-> Hsz]|[Eal Hsz]].
  { cbn [Z.eqb]. left. split; [done|]. intros. lia. }
  fold (pages_of size) in Eal. rewrite Eal.
  assert (Hnu : is_u64 (pages_of size * 4096) /\ 0 < pages_of size).
  { unfold is_u64, pages_of, UINT64_MAX in *. Z.div_mod_to_equations. lia. }
  destruct Hnu as [Hnu Hn]. rewrite (proj2 (Z.eqb_neq _ 0)) by lia.
  pose proof (process_find_user_region_spec p addr (pages_of size * 4096) Hw Ha Hnu) as Hf.
  destruct (process_find_user_region _ _ _) as [r|].
  2: { left. split; [done|]. intros k r Hk _ Hst Hrs _. apply (Hf k r Hk). unfold region_size in Hrs. lia. }
  destruct Hf as (_ & k & Hk & Est & Een).
  destruct (negb _ || _) eqn:Hown.
  { left. split; [done|]. intros j g Hj Hgo Hgs _ _.
    assert (j = k) as -> by (eapply (exact_unique p); eauto; congruence).
    rewrite Hk in Hj. inv_eq Hj. unfold owned in Hgo. by destruct (has_bits _ _), (_ =? _). }
  assert (Ho : owned r = true) by (unfold owned; by destruct (has_bits _ _), (_ =? _)).
  assert (Hrs : region_size r = pages_of size * 4096) by (unfold region_size; lia).
  destruct (vmm_unmap_range _ _ _ _) as [us st1] eqn:Eu. rewrite <- Est in Eu.
  destruct (unmap_owned_region p st L k r _ us st1 Hv Hk Ho Hrs Eu)
    as (-> & Hi1 & G1 & Hin & Hout & Hfr). cbn [negb Z.eqb].
  unfold process_remove_user_region.
  destruct (process_remove_user_region_info p addr _) as [o q] eqn:Erm.
  pose proof (process_remove_user_region_info_spec _ _ _ _ _ Hw Ha Hnu Erm) as Hrm.
  destruct o as [g|]; [|exfalso; by apply (proj2 Hrm k r Hk)].
  destruct Hrm as (Hwq & Hq & _ & k' & Hk' & Est' & _ & Hlq). cbn [negb Z.eqb].
  assert (k' = k) as -> by (eapply (exact_unique p); eauto; congruence).
  right. exists k, r, q, (free_page_range (r_paddr r) (pages_of size * 4096) st1).
  destruct (vm_inv_shrink p q st L st1 _ k r Hv Hk Ho Hi1 G1 Hin Hout Hfr Hwq) as [Hvq Hlf];
    [by rewrite Hq|done|].
  split_and!; auto; try (by rewrite Hq).
  - intros v Hrv. rewrite Hlf. auto.
  - intros v Hv0 Hrv. rewrite Hlf. auto.
  - intros x. destruct Hfr as (_ & _ & _ & Hax). rewrite Hax, (gr_avail _ _ _ _ G1).
    split; [intros [[? _]|?]; auto|]. intros [Hx|?]; [|auto]. left. split; [done|].
    by apply (grows_refl _ _ _ (vi_pt _ _ _ Hv)).
Qed.

(** A process with a root table and no mapping in the mmap window. *)
Lemma vm_inv_fresh p st L :
  pt_inv st (page_table p) L -> regions_wf p -> live p = [] ->
  (forall v, PROCESS_USER_MMAP_BASE <= v < PROCESS_USER_MMAP_LIMIT ->
     vmm_leaf_entry st (page_table p) v = 0) -> vm_inv p st L.
Proof.
  intros Hi Hw Hl Hz. split; rewrite ?Hl; auto.
  - intros v Hv He. by rewrite Hz in He.
  - intros k r Hk. by rewrite lookup_nil in Hk.
  - intros i j r r' q Hk. by rewrite lookup_nil in Hk.
Qed.

(** * Properties *)

(** anonymous mmap, on every path.  Success returns the mmap cursor as the
    address of a new region, appended to the process's regions, whose every
    byte translates to the matching byte of a run of physical pages taken from
    the allocator and cleared to zero; failure, at whichever step, leaves the
    regions, all translations and the set of allocatable pages as they were,
    except for pages that became page tables and remain reachable from the root.
    The address-space invariant holds again in both cases. *)
Theorem user_vm_map_anonymous_correct p st L hint size flags :
  vm_inv p st L -> is_u64 size ->
  exists ret q st' L', user_vm_map_anonymous (Some p) hint size flags st = (ret, Some q, st') /\
    vm_inv q st' L' /\ L ⊆ L' /\
    (mapped_nothing p st ret q st' L' \/
     (mapped_new p st size ret q st' L' /\
      exists paddr, forall o, 0 <= o < size ->
        vmm_virt_to_phys st' (page_table q) (ret + o) = paddr + o)).
Proof.
  intros Hv Hs. destruct (map_anonymous_spec p st L hint size flags Hv Hs)
    as (ret & q & st' & L' & E & Hvq & Hsub & _ & _ & Hres).
  exists ret, q, st', L'. split_and!; auto. destruct Hres as [Hnew|Hno]; [right|by left].
  split; [done|]. destruct Hnew as (paddr & Hret & Hsz & Hl & Hp & _). exists paddr. intros o Ho.
  set (g := Region ret (ret + pages_of size * 4096) paddr PROCESS_USER_REGION_OWNED_PAGES) in *.
  assert (Hg : live q !! length (live p) = Some g) by (rewrite Hl; by apply list_lookup_middle).
  assert (Hog : owned g = true).
  { unfold owned, g. simpl. rewrite (proj2 (Z.eqb_neq paddr 0)) by lia. done. }
  destruct (or_mapped _ _ _ _ (vi_owned _ _ _ Hvq _ _ Hg Hog) (ret + o)) as [_ ->].
  - unfold in_region, g, pages_of. simpl. Z.div_mod_to_equations. lia.
  - unfold g. simpl. lia.
Qed.

(** munmap undoes mmap.  Unmapping what an anonymous mmap of the same size
    returned succeeds and restores the regions, every translation below 2^48 and
    the allocatable pages, page tables excepted. *)
Theorem user_vm_map_unmap_roundtrip p st L size flags addr q st1 :
  vm_inv p st L -> is_u64 size ->
  user_vm_map_anonymous (Some p) 0 size flags st = (addr, Some q, st1) -> 0 <= addr ->
  exists p2 st2 L2, user_vm_unmap_anonymous (Some q) addr size st1 = (0, Some p2, st2) /\
    vm_inv p2 st2 L2 /\ live p2 = live p /\
    (forall v, 0 <= v < 2 ^ 48 ->
       vmm_leaf_entry st2 (page_table p) v = vmm_leaf_entry st (page_table p) v) /\
    (forall x, pa_avail (m_pa st2) x <-> pa_avail (m_pa st) x /\ L2 !! x = None).
Proof.
  intros Hv Hs E Hpos. destruct (map_anonymous_spec p st L 0 size flags Hv Hs)
    as (ret & q' & st' & L1 & E' & Hvq & _ & Et & _ & Hres).
  rewrite E in E'. injection E' as <- <- <-.
  destruct Hres as [(pd & Hret & Hsz & Hl & Hp & Hrun & _ & Hout & Hav)|[[?|?] _]];
    [|unfold USER_VM_ERR_NOMEM, USER_VM_ERR_INVAL in *; lia..].
  set (n := pages_of size * 4096) in *.
  set (g := Region addr (addr + n) pd PROCESS_USER_REGION_OWNED_PAGES) in *.
  assert (Hg : live q !! length (live p) = Some g) by (rewrite Hl; by apply list_lookup_middle).
  assert (Hog : owned g = true).
  { unfold owned, g. simpl. rewrite (proj2 (Z.eqb_neq pd 0)) by lia. done. }
  pose proof (vi_owned _ _ _ Hvq _ _ Hg Hog) as Hor.
  pose proof (or_window _ _ _ _ Hor) as Hwin. unfold g, region_size in Hwin. simpl in Hwin.
  pose proof (rw_next _ (vi_regions _ _ _ Hv)) as Hnext. rewrite <- Hret in Hnext.
  destruct (or_align _ _ _ _ Hor) as (Has & Hns & Hps). unfold g, region_size in Has, Hns, Hps. simpl in *.
  assert (Hsz' : size <= n) by (unfold n, pages_of; Z.div_mod_to_equations; lia).
  unfold PROCESS_USER_MMAP_BASE, PROCESS_USER_MMAP_LIMIT in *.
  destruct (unmap_anonymous_spec q st1 L1 addr size Hvq) as [[_ Hno]|Hyes];
    [unfold is_u64; lia|done| |].
  { exfalso. apply (Hno _ g Hg Hog); [done|unfold region_size, g; simpl; lia|unfold UINT64_MAX; lia]. }
  destruct Hyes as (k & r & p2 & st2 & E2 & Hk & _ & Hrs & _ & Hv2 & Hl2 & Et2 & Hin2 & Hout2 & Ha2).
  assert (k = length (live p)) as ->.
  { eapply (exact_unique q); [apply Hvq|eauto..]. }
  rewrite Hg in Hk. injection Hk as <-. exists p2, st2, L1. split_and!; auto.
  - rewrite Hl2, Hl, delete_middle. apply app_nil_r.
  - intros v Hv0. rewrite Et in *. destruct (decide (addr <= v < addr + n)) as [Hin|Hno].
    + rewrite Hin2 by done. symmetry. eapply leaf_invalid_zero; [apply Hv|].
      eapply (fresh_unmapped p st L addr n v); eauto;
        unfold PROCESS_USER_MMAP_BASE, PROCESS_USER_MMAP_LIMIT; try lia.
      { unfold n. apply Z.mod_mul. lia. }
      intros j r Hj. pose proof (lookup_lt_Some _ _ _ Hj).
      apply (rw_disj _ (vi_regions _ _ _ Hvq) j (length (live p)) r g); [|done|lia].
      rewrite Hl. by apply lookup_app_l_Some.
    + rewrite Hout2 by done. by apply Hout.
  - intros x. rewrite Ha2, Hav. unfold backs, region_size, g. simpl. split.
    + intros [(? & ? & _)|[Hx1 Hx2]]; [done|].
      assert (Hbk : backs g x) by (split; [done|unfold region_size, g; simpl; lia]).
      destruct (or_pages _ _ _ _ Hor x Hbk) as (_ & _ & HL). split; [|done]. apply Hrun; [done|lia].
    + intros [Hx HL]. destruct (decide (pd <= x < pd + n)) as [Hr|]; [right|left; auto].
      destruct (avail_addr _ _ (pi_pa _ _ _ (vi_pt _ _ _ Hv)) Hx). split; [done|lia].
Qed.

(** a failing user_vm_map_physical is not a no-op.  Called on a registered
    region whose pages are already mapped, it returns -1, and its cleanup call to
    vmm_unmap_range (vmm_map_range has already rolled back its own work) removes
    the mapping that was there before: every address of the region stops
    translating. *)
Theorem user_vm_map_physical_failure_unmaps p st L vaddr paddr n flags f r :
  pt_inv st (page_table p) L -> regions_wf p ->
  0 < vaddr -> vaddr mod 4096 = 0 -> vaddr + n * 4096 <= 2 ^ 48 -> 0 < n ->
  is_u64 paddr -> paddr <> 0 -> flags_to_vmm flags = Some f ->
  process_find_user_region p vaddr (n * 4096) = Some r ->
  (forall v, vaddr <= v < vaddr + n * 4096 -> e_valid (vmm_leaf_entry st (page_table p) v) = true) ->
  exists st', user_vm_map_physical (Some p) vaddr paddr (n * 4096) flags st = (-1, Some p, st') /\
    forall v, vaddr <= v < vaddr + n * 4096 -> vmm_virt_to_phys st' (page_table p) v = 0.
Proof.
  intros Hi Hw Hv0 Hvm Hvx Hn Hp Hp0 Hf Hr Hmapped. unfold user_vm_map_physical.
  destruct (pi_tab _ _ _ Hi _ _ (pi_root _ _ _ Hi)) as (_ & _ & Ht0 & _).
  rewrite !(proj2 (Z.eqb_neq _ 0)) by lia. cbn [orb]. rewrite Hf, Hr.
  assert (Hu : is_u64 vaddr /\ is_u64 (n * 4096)) by (unfold is_u64; lia). destruct Hu as [Hvu Hnu].
  destruct (vmm_map_range _ _ _ _ _ _) as [ms st1] eqn:Em.
  destruct (vmm_map_range_spec st _ L _ _ _ _ _ _ Hi Hvu Hp Hnu Em)
    as (L1 & Hi1 & _ & [(-> & _ & _ & Hun & _)|[-> Hsame]]).
  { exfalso. specialize (Hun 0). rewrite Hvm, Z.sub_0_r in Hun. rewrite Hmapped in Hun by lia.
    destruct (Z.eqb_spec (n * 4096) 0); [lia|]. unfold span_pages in Hun. rewrite Hvm in Hun.
    discriminate Hun. Z.div_mod_to_equations. lia. }
  cbn [negb Z.eqb]. destruct (vmm_unmap_range _ _ _ st1) as [us st2] eqn:Eu.
  exists st2. split; [done|]. intros v Hv.
  assert (us = 0) as ->.
  { refine (vmm_unmap_range_total st1 _ L1 vaddr n us st2 Hi1 Hn Hvm _ _ _ _ Eu).
    - lia.
    - unfold UINT64_MAX. lia.
    - intros i Hin. rewrite Hsame. apply Hmapped. lia.
    - intros i j Hij Hj Ev. apply vpn_window in Ev; Z.div_mod_to_equations; lia. }
  destruct (vmm_unmap_range_spec st1 _ L1 _ _ _ _ Hi1 Hvu Hnu Eu) as (_ & _ & _ & Hin & _).
  unfold vmm_virt_to_phys. rewrite (Hin eq_refl ((v - vaddr) / 4096)).
  - done.
  - destruct (Z.eqb_spec (n * 4096) 0); [lia|]. unfold span_pages. rewrite Hvm.
    Z.div_mod_to_equations. lia.
  - rewrite Hvm, Z.sub_0_r. unfold vpn. f_equal. Z.div_mod_to_equations. lia.
Qed.
End Space.

(** * Witnesses *)

Definition demo_process : process := process_set_page_table (process_init 7 None) 0x40000000.

Lemma demo_vm_inv : vm_inv demo_process demo_space {[0x40000000 := 0%nat]}.
Proof.
  destruct demo_space_inv as [Hi Hz].
  destruct (process_init_regions_wf 7 None) as [Hw Hl].
  destruct (regions_wf_page_table _ 0x40000000 Hw) as [Hw' Hl'].
  apply vm_inv_fresh; auto.
Qed.

(** Two anonymous pages. *)
Definition demo_mapped : Z * option process * mach pmm :=
  user_vm_map_anonymous (Some demo_process) 0 5000 (Z.lor USER_VM_PROT_READ USER_VM_PROT_WRITE) demo_space.

Lemma demo_mapped_addr : fst (fst demo_mapped) = 0x100000000.
Proof. vm_compute. reflexivity. Qed.

Lemma user_vm_map_anonymous_correct_witness :
  fst (fst demo_mapped) = 0x100000000 /\
  exists ret q st' L', demo_mapped = (ret, Some q, st') /\ vm_inv q st' L'.
Proof.
  split; [exact demo_mapped_addr|].
  destruct (user_vm_map_anonymous_correct demo_process demo_space _ 0 5000
    (Z.lor USER_VM_PROT_READ USER_VM_PROT_WRITE) demo_vm_inv) as (ret & q & st' & L' & E & Hv & _); [unfold is_u64; lia|].
  exists ret, q, st', L'. split; [exact E|exact Hv].
Defined.

Lemma user_vm_map_unmap_roundtrip_witness :
  exists q st1 p2 st2, demo_mapped = (0x100000000, Some q, st1) /\
    user_vm_unmap_anonymous (Some q) 0x100000000 5000 st1 = (0, Some p2, st2) /\ live p2 = [].
Proof.
  destruct (map_anonymous_spec demo_process demo_space _ 0 5000
    (Z.lor USER_VM_PROT_READ USER_VM_PROT_WRITE) demo_vm_inv) as (ret & q & st1 & L' & E & _); [unfold is_u64; lia|].
  assert (E' : demo_mapped = (ret, Some q, st1)) by exact E.
  assert (Hret : ret = 0x100000000) by (rewrite <- demo_mapped_addr, E'; reflexivity).
  rewrite Hret in E, E'. clear Hret.
  destruct (user_vm_map_unmap_roundtrip demo_process demo_space _ 5000 (Z.lor USER_VM_PROT_READ USER_VM_PROT_WRITE)
    0x100000000 q st1 demo_vm_inv)
    as (p2 & st2 & L2 & E2 & _ & Hl & _); [unfold is_u64; lia|exact E|lia|].
  exists q, st1, p2, st2. split; [exact E'|]. split; [exact E2|exact Hl].
Defined.

(** A registered one-page region, mapped once. *)
Definition demo_region_process : process := snd (process_add_user_region demo_process 0x400000 4096).

Lemma user_vm_map_physical_failure_unmaps_witness :
  let st1 := snd (vmm_map_range 0x40000000 0x400000 0x40010000 4096 VMM_FLAG_USER demo_space) in
  vmm_virt_to_phys st1 0x40000000 0x400010 = 0x40010010 /\
  exists st2, user_vm_map_physical (Some demo_region_process) 0x400000 0x40010000 (1 * 4096) 1 st1
    = (-1, Some demo_region_process, st2) /\ vmm_virt_to_phys st2 0x40000000 0x400010 = 0.
Proof.
  intros st1. split; [vm_compute; reflexivity|].
  assert (E1 : fst (vmm_map_range 0x40000000 0x400000 0x40010000 4096 VMM_FLAG_USER demo_space) = 0)
    by (vm_compute; reflexivity).
  apply pair_of_fst in E1. fold st1 in E1. clearbody st1.
  destruct (vmm_map_range_spec demo_space 0x40000000 _ 0x400000 0x40010000 4096 VMM_FLAG_USER 0 st1
    (proj1 demo_space_inv)) as (L1 & Hi1 & _ & [(_ & _ & Hmap & _)|[Hbad _]]);
    [unfold is_u64; lia|unfold is_u64; lia|unfold is_u64; lia|exact E1| |done].
  destruct (user_vm_map_physical_failure_unmaps demo_region_process st1 L1 0x400000 0x40010000 1 1
    (Z.lor VMM_FLAG_USER VMM_FLAG_READ) (Region 0x400000 0x401000 0 0) Hi1) as (st2 & E & Hz);
    [ |lia|reflexivity|lia|lia|unfold is_u64; lia|lia|vm_compute; reflexivity|vm_compute; reflexivity| |].
  - apply (run_region_op_wf demo_process (AddRegion 0x400000 4096)); [apply demo_vm_inv|].
    simpl. unfold is_u64. lia.
  - intros v Hv. change (page_table demo_region_process) with 0x40000000.
    rewrite (proj1 Hmap 0 v); [apply page_descriptor_valid| |].
    + vm_compute. split; congruence.
    + unfold vpn. f_equal. change (0x400000 - 0x400000 mod 4096 + 0 * 4096) with 0x400000.
      Z.div_mod_to_equations. lia.
  - exists st2. split; [exact E|]. apply Hz. lia.
Defined.
