(* ===== verification/Process.v ===== *)
(** The process table: kernel/process.c apart from the region calls
    (ProcessRegions.v).

    A [process_t *] is the index of the object it points to: the first
    [PROCESS_MAX_PROCESSES] objects of the heap are the slots of [g_processes],
    later ones stand for process objects elsewhere, and [None] is the null
    pointer.  vfs_close_all_for_pid and gui_destroy_windows_for_pid, which
    process_mark_exited calls, are an interface on the rest of the kernel's
    state. *)

From S2P Require Import Prelude.
From S2P Require Import PageAlloc.
From S2P Require Import Pmm.
From S2P Require Import Vmm.
From S2P Require Import ProcessRegions.
From S2P Require Import UserVm.
Open Scope arm.

Definition PROCESS_MAX_PROCESSES : Z := 16.

Inductive process_dispatch_policy := PROCESS_DISPATCH_EXIT | PROCESS_DISPATCH_PREEMPT.

#[export] Instance dispatch_policy_eq_dec : EqDecision process_dispatch_policy.
Proof. solve_decision. Defined.

Record exception_frame := Frame { x : list Z; elr : Z; spsr : Z; sp_el0 : Z }.

(** What process exit asks of the file and window layers. *)
Class ExitHooks (W : Type) := {
  vfs_close_all_for_pid : Z -> W -> W;
  gui_destroy_windows_for_pid : Z -> W -> W }.

(** * Operations on one process *)

Definition set_state (p : process) (s : process_state) : process :=
  Process (pid p) (parent_pid p) (name p) (name_storage p) (regs p) (sp p) (pc p) (pstate p)
    (page_table p) s (exit_code p) (next_user_vaddr p) (user_regions p) (user_region_count p).

Definition set_exit_code (p : process) (c : Z) : process :=
  Process (pid p) (parent_pid p) (name p) (name_storage p) (regs p) (sp p) (pc p) (pstate p)
    (page_table p) (state p) c (next_user_vaddr p) (user_regions p) (user_region_count p).

Definition process_set_entry (p : process) (new_pc new_sp new_pstate : Z) : process :=
  Process (pid p) (parent_pid p) (name p) (name_storage p) (regs p) new_sp new_pc new_pstate
    (page_table p) (state p) (exit_code p) (next_user_vaddr p) (user_regions p) (user_region_count p).

(** [for (i = 0; i < 31; i++) dst[i] = src[i];] *)
Definition copy_regs (dst src : list Z) : list Z :=
  for_range 0 31 (fun i d => <[Z.to_nat i := default 0 (src !! Z.to_nat i)]> d) dst.

Definition process_save_context (p : process) (new_regs : list Z) (new_pc new_pstate new_sp : Z)
    : process :=
  Process (pid p) (parent_pid p) (name p) (name_storage p) (copy_regs (regs p) new_regs)
    new_sp new_pc new_pstate
    (page_table p) (state p) (exit_code p) (next_user_vaddr p) (user_regions p) (user_region_count p).

Definition process_load_context (p : process) (frame : exception_frame) : exception_frame :=
  Frame (copy_regs (x frame) (regs p)) (pc p) (pstate p) (sp p).

Section Resources.
Context {A : Type} `{PageAllocator A}.

(** One iteration of the region loop of process_free_resources. *)
Definition free_region (i : Z) (s : process * mach A) : process * mach A :=
  let '(p, st) := s in
  let region := region_at p i in
  if negb (r_flags region &? PROCESS_USER_REGION_OWNED_PAGES) || (r_paddr region =? 0) then (p, st) else
  let st :=
    if r_end region >? r_start region
    then free_page_range (r_paddr region) (r_end region - r_start region) st else st in
  (set_regions p
     (<[Z.to_nat i := Region (r_start region) (r_end region) 0
          (Z.land (r_flags region) (not64 PROCESS_USER_REGION_OWNED_PAGES))]> (user_regions p))
     (user_region_count p), st).

Definition process_free_resources (p : process) (st : mach A) : process * mach A :=
  let '(p, st) :=
    for_range 0 (Z.min (user_region_count p) PROCESS_MAX_USER_REGIONS) free_region (p, st) in
  if negb (page_table p =? 0)
  then (process_set_page_table p 0, vmm_free_table (page_table p) st)
  else (p, st).
End Resources.

(** * The process table *)

Record ptable (A W : Type) := PTable {
  objects : list process;
  g_current_process : option nat;
  g_process_count : Z;
  mem : mach A;
  ttbr0 : Z;
  world : W }.
Arguments PTable {A W} _ _ _ _ _ _.
Arguments objects {A W} _.
Arguments g_current_process {A W} _.
Arguments g_process_count {A W} _.
Arguments mem {A W} _.
Arguments ttbr0 {A W} _.
Arguments world {A W} _.

Section Table.
Context {A W : Type} `{PageAllocator A} `{ExitHooks W}.
Implicit Types (t : ptable A W).

Definition obj t (k : nat) : process := default (process_init 0 None) (objects t !! k).

Definition set_obj t (k : nat) (p : process) : ptable A W :=
  PTable (<[k := p]> (objects t)) (g_current_process t) (g_process_count t) (mem t) (ttbr0 t) (world t).

Definition process_set_current t (c : option nat) : ptable A W :=
  PTable (objects t) c (g_process_count t) (mem t) (ttbr0 t) (world t).

Definition set_count t (n : Z) : ptable A W :=
  PTable (objects t) (g_current_process t) n (mem t) (ttbr0 t) (world t).

Definition set_mem t (m : mach A) : ptable A W :=
  PTable (objects t) (g_current_process t) (g_process_count t) m (ttbr0 t) (world t).

Definition process_current t : option nat := g_current_process t.

Definition process_count t : Z := g_process_count t.

Definition process_in_table (k : nat) : bool := Z.of_nat k <? PROCESS_MAX_PROCESSES.

Definition process_table_init t : ptable A W :=
  let t := set_count (process_set_current t None) 0 in
  for_range 0 PROCESS_MAX_PROCESSES (fun i t =>
    set_obj t (Z.to_nat i) (set_state (process_init 0 None) PROCESS_UNUSED)) t.

(** The first table slot that satisfies a test. *)
Definition find_slot t (f : process -> bool) : option nat :=
  Z.to_nat <$> find_range 0 PROCESS_MAX_PROCESSES (fun i => f (obj t (Z.to_nat i))).

Definition process_find t (wanted : Z) : option nat :=
  if wanted =? 0 then None else
  find_slot t (fun p => negb (bool_decide (state p = PROCESS_UNUSED)) && (pid p =? wanted)).

Definition process_alloc t (new_pid : Z) (str : option (list Z)) : option nat * ptable A W :=
  if (new_pid =? 0) || bool_decide (is_Some (process_find t new_pid)) then (None, t) else
  match find_slot t (fun p => bool_decide (state p = PROCESS_UNUSED)) with
  | Some k => (Some k, set_count (set_obj t k (process_init new_pid str)) (u32 (g_process_count t + 1)))
  | None => (None, t)
  end.

Definition process_release t (process : option nat) : ptable A W :=
  match process with
  | None => t
  | Some k =>
      if bool_decide (state (obj t k) = PROCESS_UNUSED) && (page_table (obj t k) =? 0) &&
         (user_region_count (obj t k) =? 0) then t else
      let t := if bool_decide (g_current_process t = Some k) then process_set_current t None else t in
      let counted := process_in_table k && negb (bool_decide (state (obj t k) = PROCESS_UNUSED)) in
      let '(p, st) := process_free_resources (obj t k) (mem t) in
      let t := set_mem (set_obj t k p) st in
      let t := set_obj t k (set_state (process_init 0 None) PROCESS_UNUSED) in
      if counted && (g_process_count t >? 0) then set_count t (g_process_count t - 1) else t
  end.

Definition process_at t (index : Z) : option nat :=
  if (index >=? PROCESS_MAX_PROCESSES) ||
     bool_decide (state (obj t (Z.to_nat index)) = PROCESS_UNUSED)
  then None else Some (Z.to_nat index).

Definition process_index (process : option nat) : option Z :=
  match process with
  | Some k => if process_in_table k then Some (Z.of_nat k) else None
  | None => None
  end.

Definition process_next_runnable t (after : option nat) : option nat :=
  let '(start, count) :=
    match after with
    | Some k => if process_in_table k then (Z.of_nat k + 1, PROCESS_MAX_PROCESSES - 1)
                else (0, PROCESS_MAX_PROCESSES)
    | None => (0, PROCESS_MAX_PROCESSES)
    end in
  (fun offset => Z.to_nat ((start + offset) mod PROCESS_MAX_PROCESSES)) <$>
  find_range 0 count (fun offset =>
    bool_decide (state (obj t (Z.to_nat ((start + offset) mod PROCESS_MAX_PROCESSES))) = PROCESS_READY)).

(** process_activate_context: switch the translation root, then load the
    registers. *)
Definition process_activate_context t (k : nat) (frame : exception_frame)
    : exception_frame * ptable A W :=
  let p := obj t k in
  let t := if negb (page_table p =? 0)
           then PTable (objects t) (g_current_process t) (g_process_count t) (mem t) (page_table p) (world t)
           else t in
  (process_load_context p frame, t).

Definition process_dispatch_next t (current : option nat) (frame : exception_frame)
    (policy : process_dispatch_policy) : Z * exception_frame * ptable A W :=
  if bool_decide (current = None) && bool_decide (policy = PROCESS_DISPATCH_PREEMPT) then (0, frame, t) else
  match process_next_runnable t current with
  | None => (0, frame, t)
  | Some next =>
      let t :=
        match current with
        | Some c =>
            if bool_decide (policy = PROCESS_DISPATCH_PREEMPT) &&
               bool_decide (state (obj t c) = PROCESS_RUNNING)
            then set_obj t c (set_state (obj t c) PROCESS_READY) else t
        | None => t
        end in
      let t := set_obj t next (set_state (obj t next) PROCESS_RUNNING) in
      let t := process_set_current t (Some next) in
      let '(frame, t) := process_activate_context t next frame in
      (1, frame, t)
  end.

Definition process_mark_exited t (process : option nat) (code : Z) : ptable A W :=
  match process with
  | None => t
  | Some k =>
      if bool_decide (state (obj t k) = PROCESS_ZOMBIE) then t else
      let w := vfs_close_all_for_pid (pid (obj t k)) (world t) in
      let w := gui_destroy_windows_for_pid (pid (obj t k)) w in
      let t := PTable (objects t) (g_current_process t) (g_process_count t) (mem t) (ttbr0 t) w in
      let t := set_obj t k (set_exit_code (obj t k) code) in
      set_obj t k (set_state (obj t k) PROCESS_ZOMBIE)
  end.

(** The exit code when the wait succeeds. *)
Definition process_wait_zombie t (wanted : Z) : option Z * ptable A W :=
  match process_find t wanted with
  | None => (None, t)
  | Some k =>
      if bool_decide (g_current_process t = Some k) ||
         negb (bool_decide (state (obj t k) = PROCESS_ZOMBIE)) then (None, t)
      else (Some (exit_code (obj t k)), process_release t (Some k))
  end.

Definition process_kill t (wanted code : Z) : Z * ptable A W :=
  match process_find t wanted with
  | None => (-1, t)
  | Some k =>
      if bool_decide (g_current_process t = Some k) ||
         bool_decide (state (obj t k) = PROCESS_ZOMBIE) then (-1, t)
      else (0, process_mark_exited t (Some k) code)
  end.

(** The parent that keeps a zombie waiting, if any. *)
Definition live_parent t (zombie : process) : bool :=
  let parent := if parent_pid zombie =? 0 then None else process_find t (parent_pid zombie) in
  negb (parent_pid zombie =? 0) &&
  match parent with
  | Some q => negb (bool_decide (state (obj t q) = PROCESS_UNUSED)) &&
              negb (bool_decide (state (obj t q) = PROCESS_ZOMBIE))
  | None => false
  end.

Definition process_reclaim_zombies t : ptable A W :=
  for_range 0 PROCESS_MAX_PROCESSES (fun i t =>
    let zombie := obj t (Z.to_nat i) in
    if negb (bool_decide (state zombie = PROCESS_ZOMBIE)) then t
    else if live_parent t zombie then t
    else process_release t (Some (Z.to_nat i))) t.

End Table.

(** * Releasing a process's memory *)

Section Release.
Context {A : Type} `{PageAllocatorLaws A}.
Implicit Types (st : mach A) (L : gmap Z nat) (p : process).

(** [a] is a physical page of one of the owned regions before index [n]. *)
Definition backed_below p (n a : Z) : Prop :=
  exists i, 0 <= i < n /\ i < user_region_count p /\ owned (region_at p i) = true /\ backs (region_at p i) a.

(** What free_region leaves in the entry. *)
Definition disowned (r : process_user_region) : process_user_region :=
  if owned r
  then Region (r_start r) (r_end r) 0 (Z.land (r_flags r) (not64 PROCESS_USER_REGION_OWNED_PAGES))
  else r.

Lemma disowned_not_owned r : owned (disowned r) = false.
Proof. unfold disowned. destruct (owned r) eqn:E; [|done]. unfold owned. simpl. apply andb_false_r. Qed.

Lemma owned_test r :
  negb (r_flags r &? PROCESS_USER_REGION_OWNED_PAGES) || (r_paddr r =? 0) = negb (owned r).
Proof. unfold owned. by destruct (has_bits _ _), (_ =? _). Qed.

Lemma freed_ext st (F F' : Z -> Prop) st' :
  (forall a, F a <-> F' a) -> freed st F st' -> freed st F' st'.
Proof.
  intros HF (H1 & H2 & H3 & H4). split_and!; auto. intros q. rewrite H4. by rewrite HF.
Qed.

(** The physical pages behind a region: aligned, neither allocatable nor page
    tables. *)
Record region_frames st L (r : process_user_region) : Prop := {
  rf_align : region_size r mod 4096 = 0 /\ r_paddr r mod 4096 = 0;
  rf_phys : 0 < r_paddr r /\ r_paddr r + region_size r <= 2 ^ 48;
  rf_pages : forall q, backs r q -> pa_managed (m_pa st) q /\ ~ pa_avail (m_pa st) q /\ L !! q = None }.

(** What releasing a process relies on. *)
Record frames_inv p st L : Prop := {
  fi_pt : pt_inv st (page_table p) L;
  fi_regions : regions_wf p;
  fi_owned : forall k r, live p !! k = Some r -> owned r = true -> region_frames st L r }.

Lemma vm_inv_frames p st L : vm_inv p st L -> frames_inv p st L.
Proof.
  intros [V1 V2 _ V4 _]. split; [done..|]. intros k r Hk Ho. destruct (V4 k r Hk Ho) as [(? & ? & ?) _ ? ? _]. by split.
Qed.

(** Releasing the pages of one more owned region. *)
Lemma free_backing p st L k r (F : Z -> Prop) st1 :
  frames_inv p st L -> live p !! k = Some r -> owned r = true -> freed st F st1 ->
  freed st (fun a => F a \/ backs r a)
    (if r_end r >? r_start r then free_page_range (r_paddr r) (r_end r - r_start r) st1 else st1).
Proof.
  intros Hv Hk Ho (Hp1 & Hr1 & Hm1 & Ha1).
  pose proof (fi_owned _ _ _ Hv _ _ Hk Ho) as Hor.
  destruct (rw_range _ (fi_regions _ _ _ Hv) _ _ Hk) as [Hrg1 Hrg2].
  destruct (rf_align _ _ _ Hor) as (Hsm & Hpm). pose proof (rf_phys _ _ _ Hor) as Hph.
  unfold region_size in *.
  destruct (r_end r >? r_start r) eqn:Hgt; b2p; [|lia].
  assert (E : r_end r - r_start r = (r_end r - r_start r) / 4096 * 4096) by (Z.div_mod_to_equations; lia).
  rewrite E. destruct (free_page_range_spec (r_paddr r) ((r_end r - r_start r) / 4096) st1)
    as (Hp2 & Hr2 & Hm2 & Ha2); auto; try lia; try (Z.div_mod_to_equations; lia).
  { intros i Hi. rewrite Hm1. apply (rf_pages _ _ _ Hor). unfold backs, region_size.
    rewrite Z.mod_add by lia. split; [done|]. Z.div_mod_to_equations. lia. }
  split_and!; auto; [congruence|intros q; by rewrite Hm2|].
  intros q. rewrite Ha2, Ha1. unfold backs, region_size. split.
  - intros [[?|?]|(i & Hi & ->)]; auto. right. right. rewrite Z.mod_add by lia. split; [done|].
    Z.div_mod_to_equations. lia.
  - intros [?|[?|[Hq1 Hq2]]]; auto. right. apply in_run_page; [done..|]. unfold in_run.
    rewrite <- E. lia.
Qed.

(** The array after the loop has treated the entries below [n]. *)
Definition disowned_below p (n : Z) (rs : list process_user_region) : Prop :=
  length rs = 8%nat /\
  forall k, rs !! k = if Z.of_nat k <? n then disowned <$> (user_regions p !! k) else user_regions p !! k.

Lemma disowned_below_step p n rs r :
  disowned_below p n rs -> 0 <= n < 8 -> user_regions p !! Z.to_nat n = Some r ->
  disowned_below p (n + 1) (<[Z.to_nat n := disowned r]> rs).
Proof.
  intros [Hl Hk] Hn Hr. split; [by rewrite length_insert|]. intros k.
  destruct (decide (k = Z.to_nat n)) as [->|Hne].
  - rewrite list_lookup_insert_eq by lia.
    destruct (Z.ltb_spec (Z.of_nat (Z.to_nat n)) (n + 1)); [|lia]. by rewrite Hr.
  - rewrite list_lookup_insert_ne by done. rewrite Hk.
    destruct (Z.ltb_spec (Z.of_nat k) n), (Z.ltb_spec (Z.of_nat k) (n + 1)); try done; lia.
Qed.

Lemma free_region_loop p st L n :
  frames_inv p st L -> 0 <= n <= user_region_count p ->
  let '(p', st') := for_range 0 n free_region (p, st) in
  (exists rs, p' = set_regions p rs (user_region_count p) /\ disowned_below p n rs) /\
  freed st (backed_below p n) st'.
Proof.
  intros Hv Hn. pose proof (rw_len _ (fi_regions _ _ _ Hv)) as Hlen.
  pose proof (rw_count _ (fi_regions _ _ _ Hv)) as Hcnt.
  apply (for_range_ind (fun n s => let '(p', st') := s in
    (exists rs, p' = set_regions p rs (user_region_count p) /\ disowned_below p n rs) /\
    freed st (backed_below p n) st')); [lia| |].
  { split.
    - exists (user_regions p). split; [by destruct p|]. split; [done|].
      intros k. destruct (Z.ltb_spec (Z.of_nat k) 0); [lia|done].
    - split_and!; auto; try done; [apply Hv|]. intros a. split; [auto|].
      intros [?|(i & ? & _)]; [done|lia]. }
  intros i [p1 st1] Hi ((rs & -> & Hrs) & Hf). unfold free_region.
  assert (Hat : region_at (set_regions p rs (user_region_count p)) i = region_at p i).
  { unfold region_at. simpl. rewrite (proj2 Hrs).
    destruct (Z.ltb_spec (Z.of_nat (Z.to_nat i)) i); [lia|done]. }
  rewrite Hat, owned_test.
  pose proof (live_region_at p i (fi_regions _ _ _ Hv) ltac:(lia)) as Hlive.
  assert (Hreg : user_regions p !! Z.to_nat i = Some (region_at p i)).
  { unfold live in Hlive. by apply lookup_take_Some in Hlive as [? _]. }
  pose proof (disowned_below_step p i rs _ Hrs ltac:(lia) Hreg) as Hrs'.
  assert (Hbb : forall a, backed_below p (i + 1) a <->
    backed_below p i a \/ (owned (region_at p i) = true /\ backs (region_at p i) a)).
  { intros a. unfold backed_below. split.
    - intros (j & Hj & Hc & Ho & Hb). destruct (Z.eq_dec j i) as [->|]; [auto|].
      left. exists j. split_and!; auto; lia.
    - intros [(j & ? & ?)|[? ?]]; [exists j; split; [lia|done]|exists i; split_and!; auto; lia]. }
  destruct (owned (region_at p i)) eqn:Ho; cbn [negb].
  - split.
    + exists (<[Z.to_nat i := disowned (region_at p i)]> rs). split; [|done].
      unfold set_regions, disowned. simpl. by rewrite Ho.
    + eapply freed_ext; [|by eapply free_backing]. intros a. simpl. rewrite Hbb. tauto.
  - split.
    + exists rs. split; [done|]. unfold disowned in Hrs'. rewrite Ho in Hrs'.
      rewrite list_insert_id in Hrs'; [done|]. rewrite (proj2 Hrs).
      destruct (Z.ltb_spec (Z.of_nat (Z.to_nat i)) i); [lia|done].
    + eapply freed_ext; [|exact Hf]. intros a. rewrite Hbb.
      split; [auto|intros [?|[? _]]; done].
Qed.

(** Pages a process holds: tables and backing pages. *)
Definition holds p L (a : Z) : Prop :=
  is_Some (L !! a) \/ exists k r, live p !! k = Some r /\ owned r = true /\ backs r a.

Lemma backed_below_all p a :
  regions_wf p ->
  backed_below p (user_region_count p) a <->
  exists k r, live p !! k = Some r /\ owned r = true /\ backs r a.
Proof.
  intros Hw. split.
  - intros (i & Hi & _ & Ho & Hb). exists (Z.to_nat i), (region_at p i).
    split; [by apply live_region_at|done].
  - intros (k & r & Hk & Ho & Hb). destruct (live_lookup p k r Hw Hk) as [Hi <-].
    exists (Z.of_nat k). split_and!; auto; lia.
Qed.

Lemma disowned_regions_wf p rs :
  regions_wf p -> disowned_below p (user_region_count p) rs ->
  regions_wf (process_set_page_table (set_regions p rs (user_region_count p)) 0) /\
  forall k r, take (Z.to_nat (user_region_count p)) rs !! k = Some r -> owned r = false.
Proof.
  intros Hw [Hl Hrs].
  assert (Hlive : forall k r, take (Z.to_nat (user_region_count p)) rs !! k = Some r ->
    exists g, live p !! k = Some g /\ r = disowned g).
  { intros k r [Hk Hlt]%lookup_take_Some. rewrite Hrs in Hk.
    destruct (Z.ltb_spec (Z.of_nat k) (user_region_count p)); [|lia].
    apply fmap_Some in Hk as (g & Hg & ->). exists g. split; [|done].
    unfold live. by rewrite lookup_take_lt by lia. }
  assert (Hse : forall g, r_start (disowned g) = r_start g /\ r_end (disowned g) = r_end g).
  { intros g. unfold disowned. by destruct (owned g). }
  destruct (regions_wf_set p rs (user_region_count p) (take (Z.to_nat (user_region_count p)) rs) Hw)
    as [Hw' _]; auto using rw_count.
  - intros k r Hk. destruct (Hlive k r Hk) as (g & Hg & ->). destruct (Hse g) as [-> ->].
    by eapply rw_range.
  - intros i j r r' Hi Hj Hij. destruct (Hlive i r Hi) as (g & Hg & ->), (Hlive j r' Hj) as (g' & Hg' & ->).
    unfold region_disjoint. destruct (Hse g) as [-> ->], (Hse g') as [-> ->]. by eapply rw_disj.
  - split; [by apply regions_wf_page_table|]. intros k r Hk.
    destruct (Hlive k r Hk) as (g & _ & ->). apply disowned_not_owned.
Qed.

Lemma free_resources_spec p st L p' st' :
  frames_inv p st L -> process_free_resources p st = (p', st') ->
  freed st (holds p L) st' /\ page_table p' = 0 /\ regions_wf p' /\
  (forall k r, live p' !! k = Some r -> owned r = false).
Proof.
  intros Hv. unfold process_free_resources.
  pose proof (rw_count _ (fi_regions _ _ _ Hv)) as Hcnt.
  pose proof (rw_len _ (fi_regions _ _ _ Hv)) as Hlen.
  rewrite Z.min_l by (unfold PROCESS_MAX_USER_REGIONS; lia).
  pose proof (free_region_loop p st L (user_region_count p) Hv ltac:(lia)) as Hloop.
  destruct (for_range _ _ _ _) as [p1 st1]. destruct Hloop as ((rs & -> & Hrs) & Hf).
  destruct (disowned_regions_wf p rs (fi_regions _ _ _ Hv) Hrs) as [Hw' Hno].
  destruct (pi_tab _ _ _ (fi_pt _ _ _ Hv) _ _ (pi_root _ _ _ (fi_pt _ _ _ Hv))) as (_ & _ & Hp0 & _).
  change (page_table (set_regions p rs (user_region_count p))) with (page_table p).
  rewrite (proj2 (Z.eqb_neq (page_table p) 0)) by lia. cbn [negb]. intros [= <- <-].
  pose proof Hf as (Hp1 & Hr1 & Hm1 & Ha1).
  destruct (pt_inv_frame st st1 (page_table p) L) as [Hi1 _]; auto.
  { apply Hv. }
  { intros t [l Ht]. rewrite Ha1. intros [Hav|Hb].
    - destruct (pi_tab _ _ _ (fi_pt _ _ _ Hv) t l Ht) as (_ & _ & _ & _ & Hna & _). done.
    - apply backed_below_all in Hb as (k & r & Hk & Ho & Hb); [|apply Hv].
      destruct (rf_pages _ _ _ (fi_owned _ _ _ Hv k r Hk Ho) t Hb) as (_ & _ & ?). congruence. }
  { intros t i _ _. by rewrite Hr1. }
  destruct (vmm_free_table_spec st1 _ L Hi1) as (Hp2 & Hr2 & Hm2 & Ha2).
  split_and!; auto. split_and!; auto; [congruence|intros q; by rewrite Hm2|].
  intros q. rewrite Ha2, Ha1, backed_below_all by apply Hv. unfold holds. tauto.
Qed.

Lemma free_resources_noop p st :
  page_table p = 0 -> regions_wf p -> (forall k r, live p !! k = Some r -> owned r = false) ->
  process_free_resources p st = (p, st).
Proof.
  intros Ht Hw Ho. unfold process_free_resources. pose proof (rw_count _ Hw).
  rewrite Z.min_l by (unfold PROCESS_MAX_USER_REGIONS; lia).
  assert (E : for_range 0 (user_region_count p) free_region (p, st) = (p, st)).
  { apply (for_range_ind (fun _ s => s = (p, st))); [lia|done|].
    intros i s Hi ->. unfold free_region. rewrite owned_test.
    by rewrite (Ho _ _ (live_region_at p i Hw ltac:(lia))). }
  rewrite E, Ht. done.
Qed.

(** ** A process's memory over its whole life *)

(** The memory calls of a running process. *)
Inductive vm_call :=
  | CallMap (hint size flags : Z)
  | CallUnmap (addr size : Z).

Definition run_vm_call (s : option process * mach A) (c : vm_call) : option process * mach A :=
  let '(p, st) := s in
  match c with
  | CallMap h n f => let '(_, p, st) := user_vm_map_anonymous p h n f st in (p, st)
  | CallUnmap a n => let '(_, p, st) := user_vm_unmap_anonymous p a n st in (p, st)
  end.

Definition vm_call_args (c : vm_call) : Prop :=
  match c with
  | CallMap _ n _ => is_u64 n
  | CallUnmap a n => is_u64 a /\ is_u64 n
  end.

(** Every page is allocatable or held by the process, as at the start. *)
Definition conserves (start : Z -> Prop) p st L : Prop :=
  forall a, start a <-> pa_avail (m_pa st) a \/ holds p L a.

Lemma run_vm_call_conserves start p st L c :
  vm_inv p st L -> conserves start p st L -> vm_call_args c ->
  exists p' st' L', run_vm_call (Some p, st) c = (Some p', st') /\ vm_inv p' st' L' /\
    conserves start p' st' L'.
Proof.
  unfold conserves. intros Hv Hc. destruct c as [h n f|addr n]; cbn [run_vm_call vm_call_args].
  - intros Hn. destruct (map_anonymous_spec p st L h n f Hv Hn)
      as (ret & q & st' & L' & -> & Hvq & Hsub & _ & Hnew & Hres).
    exists q, st', L'. split_and!; auto. intros a. rewrite Hc. unfold holds.
    assert (HL : is_Some (L !! a) -> is_Some (L' !! a)).
    { intros [l Hl]. exists l. by eapply lookup_weaken. }
    destruct Hres as [(pd & Hret & Hsz & Hl & Hp & Hrun & _ & _ & Hav)|(_ & Hl & _ & Hav)];
      rewrite Hav, Hl.
    + rewrite (ex_lookup_snoc (live p) _ (fun r => owned r = true /\ backs r a)).
      unfold owned at 3, backs at 3, region_size; simpl.
      rewrite (proj2 (Z.eqb_neq pd 0)) by lia.
      replace (ret + pages_of n * 4096 - ret) with (pages_of n * 4096) by lia.
      assert (Hal : pa_avail (m_pa st) a -> a mod 4096 = 0).
      { intros Hx. apply (avail_addr _ _ (pi_pa _ _ _ (vi_pt _ _ _ Hv)) Hx). }
      specialize (Hrun a). specialize (Hnew a).
      destruct (L' !! a) eqn:E; destruct (decide (pd <= a < pd + pages_of n * 4096)); naive_solver.
    + specialize (Hnew a). destruct (L' !! a) eqn:E; naive_solver.
  - intros [Ha Hn]. destruct (unmap_anonymous_spec p st L addr n Hv Ha Hn)
      as [[-> _]|(k & r & q & st' & -> & Hk & Ho & _ & _ & Hvq & Hl & _ & _ & _ & Hav)].
    + exists p, st, L. auto.
    + exists q, st', L. split_and!; auto. intros a. rewrite Hc, Hav. unfold holds. rewrite Hl.
      rewrite (ex_lookup_delete (live p) k r (fun r => owned r = true /\ backs r a) Hk). tauto.
Qed.

Lemma run_vm_calls_conserve start calls : forall p st L,
  vm_inv p st L -> conserves start p st L -> Forall vm_call_args calls ->
  exists p' st' L', foldl run_vm_call (Some p, st) calls = (Some p', st') /\ vm_inv p' st' L' /\
    conserves start p' st' L'.
Proof.
  induction calls as [|c calls IH]; intros p st L Hv Hc Hargs; [by exists p, st, L|].
  apply Forall_cons in Hargs as [Hok Hargs].
  destruct (run_vm_call_conserves start p st L c Hv Hc Hok) as (p1 & st1 & L1 & E & Hv1 & Hc1).
  cbn [foldl]. rewrite E. by eapply IH.
Qed.

(** C7: no physical page leaks over a process's life.  Start from a process
    with a fresh root table and no region; after any sequence of anonymous mmap
    and munmap calls, failed ones included, process_free_resources makes
    allocatable exactly the pages that were allocatable before the root table
    was created; the process keeps no table and no owned region, so calling it
    again changes nothing. *)
Theorem process_memory_lifecycle st root st1 n str calls :
  pa_inv (m_pa st) -> vmm_new_table st = (root, st1) -> root <> 0 -> Forall vm_call_args calls ->
  exists p st2,
    foldl run_vm_call (Some (process_set_page_table (process_init n str) root), st1) calls = (Some p, st2) /\
    let '(p', st') := process_free_resources p st2 in
    pa_inv (m_pa st') /\ (forall a, pa_avail (m_pa st') a <-> pa_avail (m_pa st) a) /\
    page_table p' = 0 /\ (forall k r, live p' !! k = Some r -> owned r = false) /\
    process_free_resources p' st' = (p', st').
Proof.
  intros Hpa E Hr Hargs. destruct (new_root_inv _ _ _ Hpa E Hr) as [Hi Hz].
  destruct (process_init_regions_wf n str) as [Hw Hl].
  destruct (regions_wf_page_table _ root Hw) as [Hw' Hl'].
  set (p0 := process_set_page_table (process_init n str) root) in *.
  assert (Hv : vm_inv p0 st1 {[root := 0%nat]}) by (apply vm_inv_fresh; auto).
  destruct (run_vm_calls_conserve (pa_avail (m_pa st)) calls p0 st1 _ Hv)
    as (p & st2 & L & Ec & Hv2 & Hc); [|done|].
  { intros a. destruct (new_table_spec _ _ _ Hpa E) as [[? _]|(_ & _ & Hav & _ & Ha1 & _)]; [done|].
    rewrite Ha1. unfold holds. rewrite Hl', Hl. split.
    - intros Ha. destruct (decide (a = root)) as [->|]; [|auto].
      right. left. by rewrite lookup_singleton_eq.
    - intros [[? _]|[Hs|(k & r & Hk & _)]]; [done| |by rewrite lookup_nil in Hk].
      destruct Hs as [l [<- _]%lookup_singleton_Some]. done. }
  exists p, st2. split; [done|]. destruct (process_free_resources p st2) as [p' st'] eqn:Ef.
  destruct (free_resources_spec _ _ _ _ _ (vm_inv_frames _ _ _ Hv2) Ef) as ((H1 & _ & _ & Ha) & Ht & Hw2 & Ho).
  split_and!; auto using free_resources_noop. intros a. rewrite Ha. symmetry. apply Hc.
Qed.
End Release.

Lemma process_memory_lifecycle_witness :
  let calls := [CallMap 0 5000 0; CallMap 0 0x1000000 0; CallUnmap 0x100000000 5000; CallMap 0 1 5] in
  exists p st2,
    foldl run_vm_call (Some (process_set_page_table (process_init 7 None) 0x40000000), demo_space) calls
      = (Some p, st2) /\
    let '(p', st') := process_free_resources p st2 in
    forall a, pa_avail (m_pa st') a <-> pa_avail (m_pa demo_machine) a.
Proof.
  intros calls.
  destruct (process_memory_lifecycle demo_machine 0x40000000 demo_space 7 None calls demo_machine_inv)
    as (p & st2 & E & Hf); [apply pair_of_fst; vm_compute; reflexivity|lia| |].
  - repeat constructor; unfold is_u64; lia.
  - exists p, st2. split; [exact E|]. destruct (process_free_resources p st2). apply Hf.
Defined.

(** * The table invariant *)

(** How many of the first [n] indices satisfy [f]. *)
Fixpoint count_below (f : nat -> bool) (n : nat) : Z :=
  match n with O => 0 | S n' => count_below f n' + Z.b2z (f n') end.

Lemma count_below_ext f g n : (forall k, (k < n)%nat -> f k = g k) -> count_below f n = count_below g n.
Proof. induction n as [|n IH]; intros E; [done|]. simpl. rewrite (E n), IH; auto. Qed.

Lemma count_below_update f g n k :
  (k < n)%nat -> (forall j, j <> k -> f j = g j) ->
  count_below g n = count_below f n + Z.b2z (g k) - Z.b2z (f k).
Proof.
  induction n as [|n IH]; intros Hk E; [lia|]. simpl. destruct (decide (k = n)) as [->|].
  - rewrite (count_below_ext g f n); [lia|]. intros j Hj. symmetry. apply E. lia.
  - rewrite IH, (E n) by (auto; lia). lia.
Qed.

Lemma count_below_bounds f n : 0 <= count_below f n <= Z.of_nat n.
Proof. induction n as [|n IH]; simpl; [lia|]. destruct (f n); simpl; lia. Qed.

Lemma count_below_pos f n k : (k < n)%nat -> f k = true -> 0 < count_below f n.
Proof.
  induction n as [|n IH]; intros Hk Hf; [lia|]. simpl. pose proof (count_below_bounds f n).
  destruct (decide (k = n)) as [->|]; [rewrite Hf; simpl; lia|].
  specialize (IH ltac:(lia) Hf). destruct (f n); simpl; lia.
Qed.

Section TableInv.
Context {A W : Type} `{PageAllocator A} `{ExitHooks W}.
Implicit Types (t : ptable A W).

Definition used t (k : nat) : bool := negb (bool_decide (state (obj t k) = PROCESS_UNUSED)).

(** The counter counts the used slots; used slots have distinct non-zero pids. *)
Record table_wf t : Prop := {
  tw_len : (16 <= length (objects t))%nat;
  tw_count : g_process_count t = count_below (used t) 16;
  tw_pid : forall k, (k < 16)%nat -> used t k = true -> pid (obj t k) <> 0;
  tw_uniq : forall i j, (i < 16)%nat -> (j < 16)%nat -> used t i = true -> used t j = true ->
    pid (obj t i) = pid (obj t j) -> i = j }.

Lemma obj_set t k p j :
  (k < length (objects t))%nat -> obj (set_obj t k p) j = if decide (j = k) then p else obj t j.
Proof.
  intros Hk. unfold obj, set_obj. simpl. case_decide as E.
  - subst. by rewrite list_lookup_insert_eq.
  - by rewrite list_lookup_insert_ne by done.
Qed.

(** Only the objects and the counter matter to the invariant. *)
Lemma table_wf_same t t' :
  table_wf t -> (16 <= length (objects t'))%nat -> g_process_count t' = g_process_count t ->
  (forall k, (k < 16)%nat -> used t' k = used t k /\ pid (obj t' k) = pid (obj t k)) -> table_wf t'.
Proof.
  intros [H1 H2 H3 H4] Hl Hc Ho. split; auto.
  - rewrite Hc, H2. apply count_below_ext. intros k Hk. symmetry. by apply Ho.
  - intros k Hk. destruct (Ho k Hk) as [-> ->]. auto.
  - intros i j Hi Hj. destruct (Ho i Hi) as [-> ->], (Ho j Hj) as [-> ->]. auto.
Qed.

(** Changing one object without changing its pid or freeing it. *)
Lemma table_wf_set t k p :
  table_wf t -> (k < length (objects t))%nat -> pid p = pid (obj t k) ->
  (state p = PROCESS_UNUSED <-> state (obj t k) = PROCESS_UNUSED) -> table_wf (set_obj t k p).
Proof.
  intros Hw Hk Hp Hs. eapply table_wf_same; [exact Hw| |done|].
  - unfold set_obj. simpl. rewrite length_insert. apply Hw.
  - intros j Hj. unfold used. rewrite obj_set by done. case_decide as E; [subst|done].
    split; [|done]. f_equal. by apply bool_decide_ext.
Qed.

Lemma find_slot_Some t f k :
  find_slot t f = Some k ->
  (k < 16)%nat /\ f (obj t k) = true /\ forall j, (j < k)%nat -> f (obj t j) = false.
Proof.
  unfold find_slot. intros (i & Ei & ->)%fmap_Some.
  apply find_range_Some in Ei as (Hi & Hf & Hb). unfold PROCESS_MAX_PROCESSES in Hi.
  split_and!; [lia|done|]. intros j Hj. specialize (Hb (Z.of_nat j)).
  rewrite Nat2Z.id in Hb. apply Hb. lia.
Qed.

Lemma find_slot_None t f k : find_slot t f = None -> (k < 16)%nat -> f (obj t k) = false.
Proof.
  unfold find_slot. intros E%fmap_None Hk.
  pose proof (find_range_None _ _ _ E (Z.of_nat k)) as Hf. cbn beta in Hf.
  rewrite Nat2Z.id in Hf. apply Hf. unfold PROCESS_MAX_PROCESSES. lia.
Qed.

(** process_find returns the slot that holds the pid. *)
Lemma process_find_Some t n k :
  process_find t n = Some k -> (k < 16)%nat /\ used t k = true /\ pid (obj t k) = n.
Proof.
  unfold process_find. destruct (n =? 0); [done|].
  intros (Hk & Hf & _)%find_slot_Some. b2p. split_and!; auto. unfold used. by apply negb_true_iff.
Qed.

Lemma process_find_None t n k :
  process_find t n = None -> n <> 0 -> (k < 16)%nat -> used t k = true -> pid (obj t k) <> n.
Proof.
  unfold process_find. intros E Hn Hk Hu Hp. rewrite (proj2 (Z.eqb_neq n 0)) in E by done.
  pose proof (find_slot_None _ _ _ E Hk) as Hf. cbn beta in Hf. unfold used in Hu.
  rewrite Hu, Hp, Z.eqb_refl in Hf. done.
Qed.

Lemma process_find_unique t k :
  table_wf t -> (k < 16)%nat -> used t k = true -> process_find t (pid (obj t k)) = Some k.
Proof.
  intros Hw Hk Hu. destruct (process_find t _) as [j|] eqn:E.
  - destruct (process_find_Some _ _ _ E) as (Hj & Huj & Hp). f_equal. by eapply tw_uniq.
  - exfalso. eapply process_find_None; eauto. by eapply tw_pid.
Qed.

Lemma process_alloc_wf t n str :
  table_wf t -> table_wf (snd (process_alloc t n str)).
Proof.
  intros Hw. unfold process_alloc. destruct (Z.eqb_spec n 0) as [|Hn]; [done|]. simpl.
  case_bool_decide as Hf; [done|].
  assert (Hno : process_find t n = None).
  { destruct (process_find t n); [|done]. destruct Hf. eauto. }
  destruct (find_slot t _) as [k|] eqn:Ek; [|done]. simpl.
  apply find_slot_Some in Ek as (Hk & Hs & _). apply bool_decide_eq_true in Hs.
  pose proof (tw_len _ Hw) as Hlen. assert (Hk' : (k < length (objects t))%nat) by lia.
  pose proof (count_below_bounds (used t) 16) as Hb.
  assert (Hu : forall j, used (set_obj t k (process_init n str)) j = if decide (j = k) then true else used t j).
  { intros j. unfold used. rewrite obj_set by done. by case_decide. }
  assert (Hp : forall j, pid (obj (set_obj t k (process_init n str)) j) = if decide (j = k) then n else pid (obj t j)).
  { intros j. rewrite obj_set by done. by case_decide. }
  assert (Hfree : used t k = false) by (unfold used; by rewrite bool_decide_true).
  split.
  - simpl. rewrite length_insert. done.
  - change (used (set_count _ _)) with (used (set_obj t k (process_init n str))).
    cbn [g_process_count set_count].
    rewrite (count_below_update (used t) _ 16 k), Hu, decide_True, Hfree, (tw_count _ Hw); auto.
    + cbn [Z.b2z]. rewrite u32_id by lia. lia.
    + intros j Hj. rewrite Hu. by rewrite decide_False.
  - intros j Hj. change (used (set_count _ _)) with (used (set_obj t k (process_init n str))).
    change (obj (set_count _ _)) with (obj (set_obj t k (process_init n str))). rewrite Hu, Hp.
    case_decide; [done|]. by apply tw_pid.
  - intros i j Hi Hj. change (used (set_count _ _)) with (used (set_obj t k (process_init n str))).
    change (obj (set_count _ _)) with (obj (set_obj t k (process_init n str))). rewrite !Hu, !Hp.
    repeat case_decide; intros; subst; auto.
    + exfalso. by eapply (process_find_None t (pid (obj t j)) j).
    + exfalso. by eapply (process_find_None t (pid (obj t i)) i).
    + by eapply tw_uniq.
Qed.

Definition cleared_slot : process := set_state (process_init 0 None) PROCESS_UNUSED.

(** What releasing object [k] does to the table. *)
Lemma process_release_objects t k :
  (k < length (objects t))%nat ->
  let t' := process_release t (Some k) in
  length (objects t') = length (objects t) /\
  (forall j, j <> k -> obj t' j = obj t j) /\ used t' k = false /\
  (used t k = true -> obj t' k = cleared_slot) /\
  world t' = world t /\
  g_process_count t' =
    (if process_in_table k && used t k && (g_process_count t >? 0)
     then g_process_count t - 1 else g_process_count t).
Proof.
  intros Hk. unfold process_release. destruct (_ && _ && _) eqn:Hno.
  { b2p. apply bool_decide_eq_true in H1.
    assert (Hu : used t k = false) by (unfold used; by rewrite bool_decide_true).
    rewrite Hu, andb_false_r. split_and!; auto. intros Hc. congruence. }
  clear Hno.
  set (t0 := if bool_decide (g_current_process t = Some k) then process_set_current t None else t).
  assert (Ho : objects t0 = objects t /\ g_process_count t0 = g_process_count t /\ world t0 = world t).
  { unfold t0. by case_bool_decide. }
  destruct Ho as (Ho & Hc & Hw).
  assert (Hobj : forall j, obj t0 j = obj t j) by (intros j; unfold obj; by rewrite Ho).
  destruct (process_free_resources (obj t0 k) (mem t0)) as [p st]. rewrite Hobj.
  fold (used t k). change (set_state (process_init 0 None) PROCESS_UNUSED) with cleared_slot.
  set (t1 := set_obj (set_mem (set_obj t0 k p) st) k cleared_slot).
  assert (Hlen1 : length (objects t1) = length (objects t)).
  { unfold t1. simpl. rewrite !length_insert. by rewrite Ho. }
  assert (Hobj1 : forall j, obj t1 j = if decide (j = k) then cleared_slot else obj t j).
  { intros j. unfold t1. rewrite obj_set by (simpl; rewrite length_insert, Ho; done).
    case_decide; [done|]. change (obj (set_mem (set_obj t0 k p) st) j) with (obj (set_obj t0 k p) j).
    rewrite obj_set by (by rewrite Ho). by rewrite decide_False. }
  assert (Hc1 : g_process_count t1 = g_process_count t) by (unfold t1; simpl; by rewrite Hc).
  rewrite Hc1.
  assert (Hbody : forall t2, objects t2 = objects t1 -> world t2 = world t1 ->
    length (objects t2) = length (objects t) /\ (forall j, j <> k -> obj t2 j = obj t j) /\
    used t2 k = false /\ (used t k = true -> obj t2 k = cleared_slot) /\ world t2 = world t).
  { intros t2 E2 Ew. assert (Hobj2 : forall j, obj t2 j = obj t1 j) by (intros; unfold obj; by rewrite E2).
    split_and!.
    - by rewrite E2.
    - intros j Hj. rewrite Hobj2, Hobj1. by rewrite decide_False.
    - unfold used. rewrite Hobj2, Hobj1, decide_True by done. done.
    - intros _. rewrite Hobj2, Hobj1. by rewrite decide_True.
    - rewrite Ew. unfold t1. simpl. done. }
  case_if.
  - destruct (Hbody (set_count t1 (g_process_count t - 1))) as (? & ? & ? & ? & ?); auto.
    split_and!; auto. 
  - destruct (Hbody t1) as (? & ? & ? & ? & ?); auto. split_and!; auto.
Qed.

Lemma process_release_wf t k :
  table_wf t -> (k < length (objects t))%nat -> table_wf (process_release t (Some k)).
Proof.
  intros Hw Hk. destruct (process_release_objects t k Hk) as (Hl & Ho & Hu & _ & _ & Hc).
  set (t' := process_release t (Some k)) in *.
  assert (Hused : forall j, used t' j = if decide (j = k) then false else used t j).
  { intros j. case_decide as E; [by subst|]. unfold used. by rewrite Ho. }
  split.
  - rewrite Hl. apply Hw.
  - rewrite Hc, (tw_count _ Hw). unfold process_in_table, PROCESS_MAX_PROCESSES.
    destruct (Z.ltb_spec (Z.of_nat k) 16).
    + rewrite (count_below_update (used t) (used t') 16 k), Hu by
        (lia || (intros j Hj; rewrite Hused; by rewrite decide_False)).
      destruct (used t k) eqn:Huk; cbn [andb Z.b2z]; [|lia].
      pose proof (count_below_pos (used t) 16 k ltac:(lia) Huk) as Hp.
      destruct (count_below (used t) 16 >? 0) eqn:Hg; b2p; lia.
    + apply count_below_ext. intros j Hj. rewrite Hused. rewrite decide_False; [done|lia].
  - intros j Hj. rewrite Hused. case_decide; [done|]. rewrite Ho by done. by apply tw_pid.
  - intros i j Hi Hj. rewrite !Hused. repeat case_decide; try done. rewrite !Ho by done.
    by apply tw_uniq.
Qed.

(** A transition of the table: one kernel call, with the preconditions its
    callers establish. *)
Inductive table_step t : ptable A W -> Prop :=
  | StepAlloc n str : table_step t (snd (process_alloc t n str))
  | StepRelease k : (k < length (objects t))%nat -> table_step t (process_release t (Some k))
  | StepExit k code : (k < length (objects t))%nat -> used t k = true ->
      table_step t (process_mark_exited t (Some k) code)
  | StepKill n code : table_step t (snd (process_kill t n code))
  | StepWait n : table_step t (snd (process_wait_zombie t n))
  | StepReclaim : table_step t (process_reclaim_zombies t)
  | StepDispatch c frame policy :
      match c with Some k => (k < length (objects t))%nat | None => True end ->
      table_step t (snd (process_dispatch_next t c frame policy)).

Lemma process_mark_exited_wf t k code :
  table_wf t -> (k < length (objects t))%nat -> used t k = true ->
  table_wf (process_mark_exited t (Some k) code).
Proof.
  intros Hw Hk Hu. unfold process_mark_exited. case_bool_decide; [done|].
  assert (Hs : state (obj t k) <> PROCESS_UNUSED).
  { unfold used in Hu. by case_bool_decide. }
  set (t0 := PTable _ _ _ _ _ _).
  assert (Hw0 : table_wf t0) by (eapply table_wf_same; [exact Hw|apply Hw|done|done]).
  apply table_wf_set.
  - apply table_wf_set; auto.
  - simpl. by rewrite length_insert.
  - rewrite obj_set by done. by rewrite decide_True.
  - rewrite obj_set by done. rewrite decide_True by done. simpl.
    split; [done|]. intros Hc. destruct Hs. exact Hc.
Qed.

Lemma process_reclaim_zombies_wf t : table_wf t -> table_wf (process_reclaim_zombies t).
Proof.
  intros Hw. unfold process_reclaim_zombies, PROCESS_MAX_PROCESSES.
  apply (for_range_ind (fun _ t => table_wf t)); [lia|done|].
  intros i t1 Hi Hw1. destruct (negb _); [done|]. destruct (live_parent _ _); [done|].
  apply process_release_wf; [done|]. pose proof (tw_len _ Hw1). lia.
Qed.

Lemma next_runnable_ready t c k :
  process_next_runnable t c = Some k -> (k < 16)%nat /\ state (obj t k) = PROCESS_READY.
Proof.
  unfold process_next_runnable. destruct (match c with Some _ => _ | None => _ end) as [s n].
  intros (o & Ho & ->)%fmap_Some. apply find_range_Some in Ho as (_ & Hr & _).
  apply bool_decide_eq_true in Hr. split; [|done]. unfold PROCESS_MAX_PROCESSES.
  pose proof (Z.mod_pos_bound (s + o) 16). lia.
Qed.

Lemma process_dispatch_next_wf t c frame policy :
  table_wf t -> match c with Some k => (k < length (objects t))%nat | None => True end ->
  table_wf (snd (process_dispatch_next t c frame policy)).
Proof.
  intros Hw Hc. unfold process_dispatch_next.
  destruct (bool_decide _ && bool_decide _); [done|].
  destruct (process_next_runnable t c) as [k|] eqn:Ek; [|done].
  destruct (next_runnable_ready _ _ _ Ek) as [Hk Hr].
  set (t1 := match c with Some _ => _ | None => t end).
  assert (Ht1 : table_wf t1 /\ state (obj t1 k) <> PROCESS_UNUSED).
  { unfold t1. destruct c as [c|]; [|split; [done|congruence]].
    destruct (bool_decide (policy = PROCESS_DISPATCH_PREEMPT) && bool_decide _) eqn:Hb;
      [|split; [done|congruence]]. b2p. apply bool_decide_eq_true in H2.
    split.
    - apply table_wf_set; auto. simpl. split; [done|congruence].
    - rewrite obj_set by done. destruct (decide (k = c)); [discriminate|congruence]. }
  destruct Ht1 as [Hw1 Hs1].
  assert (Hw2 : table_wf (set_obj t1 k (set_state (obj t1 k) PROCESS_RUNNING))).
  { pose proof (tw_len _ Hw1). apply table_wf_set; auto; [lia|]. simpl. split; [done|congruence]. }
  unfold process_activate_context. simpl.
  eapply table_wf_same; [exact Hw2| | |]; destruct (negb _); try apply Hw2; done.
Qed.

Lemma table_step_wf t t' : table_wf t -> table_step t t' -> table_wf t'.
Proof.
  intros Hw. destruct 1 as [n str|k Hk|k code Hk Hu|n code|n| |c frame policy Hc].
  - by apply process_alloc_wf.
  - by apply process_release_wf.
  - by apply process_mark_exited_wf.
  - unfold process_kill. destruct (process_find t n) as [k|] eqn:Ek; [|done].
    destruct (_ || _); [done|]. destruct (process_find_Some _ _ _ Ek) as (Hk & Hu & _).
    pose proof (tw_len _ Hw). apply process_mark_exited_wf; auto. lia.
  - unfold process_wait_zombie. destruct (process_find t n) as [k|] eqn:Ek; [|done].
    destruct (_ || _); [done|]. destruct (process_find_Some _ _ _ Ek) as (Hk & _).
    pose proof (tw_len _ Hw). apply process_release_wf; auto. lia.
  - by apply process_reclaim_zombies_wf.
  - by apply process_dispatch_next_wf.
Qed.

Lemma process_table_init_wf t :
  (16 <= length (objects t))%nat -> table_wf (process_table_init t).
Proof.
  intros Hl. unfold process_table_init, PROCESS_MAX_PROCESSES.
  assert (Hi : let t' := for_range 0 16 (fun i t => set_obj t (Z.to_nat i) cleared_slot)
      (set_count (process_set_current t None) 0) in
    length (objects t') = length (objects t) /\ g_process_count t' = 0 /\
    forall k, Z.of_nat k < 16 -> obj t' k = cleared_slot).
  { apply (for_range_ind (fun n t' => length (objects t') = length (objects t) /\ g_process_count t' = 0 /\
      forall k, Z.of_nat k < n -> obj t' k = cleared_slot)); [lia|split_and!; auto; lia|].
    intros n t1 Hn (H1' & H2' & H3'). split_and!; [simpl; by rewrite length_insert|done|].
    intros k Hk. rewrite obj_set by lia. case_decide; [done|]. apply H3'. lia. }
  fold cleared_slot. destruct Hi as (H1' & H2' & H3'). set (t' := for_range _ _ _ _) in *.
  assert (Hu : forall k, (k < 16)%nat -> used t' k = false).
  { intros k Hk. unfold used. rewrite H3' by lia. done. }
  split.
  - lia.
  - rewrite H2', (count_below_ext _ (fun _ => false)); [done|]. intros k Hk. by apply Hu.
  - intros k Hk Huk. by rewrite Hu in Huk.
  - intros i j Hi Hj Hui. by rewrite Hu in Hui.
Qed.
End TableInv.

(** * Scheduling and exit *)

Lemma copy_regs_eq dst src : length dst = 31%nat -> length src = 31%nat -> copy_regs dst src = src.
Proof.
  intros Hd Hs. unfold copy_regs.
  assert (Hi : let d := for_range 0 31 (fun i d => <[Z.to_nat i := default 0 (src !! Z.to_nat i)]> d) dst in
    length d = 31%nat /\ forall k, Z.of_nat k < 31 -> d !! k = src !! k).
  { apply (for_range_ind (fun n d => length d = 31%nat /\ forall k, Z.of_nat k < n -> d !! k = src !! k));
      [lia|split; [done|lia]|].
    intros n d Hn [Hl Hk]. split; [by rewrite length_insert|]. intros k Hkn.
    destruct (decide (k = Z.to_nat n)) as [->|].
    - rewrite list_lookup_insert_eq by lia.
      destruct (lookup_lt_is_Some_2 src (Z.to_nat n)) as [v Hv]; [lia|]. by rewrite Hv.
    - rewrite list_lookup_insert_ne by done. apply Hk. lia. }
  destruct Hi as [Hl Hk]. apply list_eq. intros k.
  destruct (decide (k < 31)%nat); [apply Hk; lia|]. rewrite !lookup_ge_None_2 by lia. done.
Qed.

Section Scheduling.
Context {A W : Type} `{PageAllocator A} `{ExitHooks W}.
Implicit Types (t : ptable A W).

(** Slots a scan from [k] meets before reaching [j]. *)
Definition distance (k j : nat) : Z := (Z.of_nat j - Z.of_nat k) mod 16.

Lemma next_runnable_spec t k :
  (k < 16)%nat ->
  match process_next_runnable t (Some k) with
  | Some n => (n < 16)%nat /\ n <> k /\ state (obj t n) = PROCESS_READY /\
      forall j, (j < 16)%nat -> j <> k -> state (obj t j) = PROCESS_READY -> distance k n <= distance k j
  | None => forall j, (j < 16)%nat -> j <> k -> state (obj t j) <> PROCESS_READY
  end.
Proof.
  intros Hk. unfold process_next_runnable, process_in_table, PROCESS_MAX_PROCESSES.
  rewrite (proj2 (Z.ltb_lt (Z.of_nat k) 16)) by lia.
  assert (Hpos : forall j, (j < 16)%nat -> j <> k ->
    0 <= distance k j - 1 < 15 /\ Z.to_nat ((Z.of_nat k + 1 + (distance k j - 1)) mod 16) = j).
  { intros j Hj Hne. unfold distance. split; [Z.div_mod_to_equations; lia|].
    replace (Z.of_nat k + 1 + ((Z.of_nat j - Z.of_nat k) mod 16 - 1))
      with (Z.of_nat k + (Z.of_nat j - Z.of_nat k) mod 16) by lia.
    rewrite Z.add_mod_idemp_r by lia. replace (Z.of_nat k + (Z.of_nat j - Z.of_nat k)) with (Z.of_nat j) by lia.
    rewrite Z.mod_small by lia. lia. }
  destruct (find_range _ _ _) as [o|] eqn:E; simpl.
  - apply find_range_Some in E as (Ho & Hr & Hb). apply bool_decide_eq_true in Hr.
    pose proof (Z.mod_pos_bound (Z.of_nat k + 1 + o) 16) as Hm. split_and!; [lia| |done|].
    + intros Ek. revert Ho Ek. Z.div_mod_to_equations. lia.
    + intros j Hj Hne Hjr. destruct (Hpos j Hj Hne) as [Hd Ej].
      assert (distance k (Z.to_nat ((Z.of_nat k + 1 + o) mod 16)) = o + 1) as ->.
      { unfold distance. rewrite Z2Nat.id by lia. rewrite Zminus_mod_idemp_l.
        replace (Z.of_nat k + 1 + o - Z.of_nat k) with (o + 1) by lia. apply Z.mod_small. lia. }
      destruct (Z.le_gt_cases (o + 1) (distance k j)) as [|Hlt]; [done|].
      specialize (Hb (distance k j - 1) ltac:(lia)). rewrite Ej in Hb.
      by rewrite bool_decide_true in Hb.
  - intros j Hj Hne Hjr. destruct (Hpos j Hj Hne) as [Hd Ej].
    pose proof (find_range_None _ _ _ E (distance k j - 1) ltac:(lia)) as Hf. cbn beta in Hf.
    rewrite Ej in Hf. by rewrite bool_decide_true in Hf.
Qed.

(** Moving on from [k] to [n] brings every slot not yet met closer. *)
Lemma distance_step k n j :
  (k < 16)%nat -> (n < 16)%nat -> (j < 16)%nat -> n <> k -> j <> k -> n <> j ->
  distance k n <= distance k j -> distance n j < distance k j.
Proof. unfold distance. intros. Z.div_mod_to_equations. lia. Qed.

(** C9: round-robin scheduling is fair.  Take any run of dispatches that starts
    at slot [cur 0], each picking process_next_runnable after the previous one
    in the table of its time.  A slot that stays READY until it is picked is
    picked within 15 dispatches, whatever the other slots do meanwhile. *)
Theorem process_dispatch_fair (ts : nat -> ptable A W) (cur : nat -> nat) j :
  (cur 0 < 16)%nat -> (j < 16)%nat -> j <> cur 0%nat ->
  (forall i, process_next_runnable (ts i) (Some (cur i)) = Some (cur (S i))) ->
  (forall i, (forall m, (m <= i)%nat -> cur m <> j) -> state (obj (ts i) j) = PROCESS_READY) ->
  exists i, (1 <= i <= 15)%nat /\ cur i = j.
Proof.
  intros Hc0 Hj Hne Hstep Hready.
  assert (Hrun : forall n, (exists i, (1 <= i <= n)%nat /\ cur i = j) \/
    ((cur n < 16)%nat /\ (forall m, (m <= n)%nat -> cur m <> j) /\
     distance (cur n) j <= 15 - Z.of_nat n)).
  { induction n as [|n [(i & Hi & Ei)|(Hc & Hno & Hd)]].
    - right. split_and!; auto.
      + intros m Hm. assert (m = 0%nat) as -> by lia. done.
      + unfold distance. pose proof (Z.mod_pos_bound (Z.of_nat j - Z.of_nat (cur 0%nat)) 16). lia.
    - left. exists i. split; [lia|done].
    - pose proof (next_runnable_spec (ts n) (cur n) Hc) as Hs. rewrite Hstep in Hs.
      destruct Hs as (Hn & Hnk & _ & Hmin).
      destruct (decide (cur (S n) = j)) as [Ej|Hnj]; [left; exists (S n); split; [lia|done]|].
      right. split_and!; auto.
      + intros m Hm. destruct (decide (m = S n)) as [->|]; [done|]. apply Hno. lia.
      + assert (Hjk : j <> cur n) by (intros ->; by apply (Hno n)).
        pose proof (distance_step (cur n) (cur (S n)) j Hc Hn Hj Hnk Hjk Hnj
          (Hmin j Hj Hjk (Hready n Hno))). lia. }
  destruct (Hrun 15%nat) as [(i & Hi & Ei)|(Hc & Hno & Hd)]; [eauto|]. exfalso.
  apply (Hno 15%nat); [lia|]. unfold distance in Hd. revert Hd. Z.div_mod_to_equations. lia.
Qed.

Lemma dispatch_preempt_eq t c n frame :
  process_next_runnable t (Some c) = Some n -> state (obj t c) = PROCESS_RUNNING ->
  process_dispatch_next t (Some c) frame PROCESS_DISPATCH_PREEMPT =
  let t1 := set_obj t c (set_state (obj t c) PROCESS_READY) in
  let t2 := process_set_current (set_obj t1 n (set_state (obj t1 n) PROCESS_RUNNING)) (Some n) in
  let '(frame, t3) := process_activate_context t2 n frame in (1, frame, t3).
Proof.
  intros Hn Hr. unfold process_dispatch_next. rewrite Hn, bool_decide_false by done.
  cbn [andb]. by rewrite bool_decide_true, bool_decide_true by done.
Qed.

(** preemption switches contexts without losing state.  When the timer path
    saves the interrupted frame into the running process and dispatches, then
    either no other process is ready and nothing changes but the saved context,
    or another READY process becomes the RUNNING current one, the frame now holds
    that process's saved registers, its page table (if any) is installed, the
    interrupted process is READY, and loading its context back yields exactly
    the frame that was interrupted; no other object changes. *)
Theorem process_preempt_switch t c frame :
  (16 <= length (objects t))%nat -> (c < 16)%nat -> state (obj t c) = PROCESS_RUNNING ->
  length (x frame) = 31%nat -> (forall k, length (regs (obj t k)) = 31%nat) ->
  let t1 := set_obj t c (process_save_context (obj t c) (x frame) (elr frame) (spsr frame) (sp_el0 frame)) in
  let '(r, frame', t2) := process_dispatch_next t1 (Some c) frame PROCESS_DISPATCH_PREEMPT in
  (r = 0 /\ frame' = frame /\ t2 = t1 /\
   forall j, (j < 16)%nat -> j <> c -> state (obj t j) <> PROCESS_READY) \/
  (r = 1 /\ exists n, g_current_process t2 = Some n /\ n <> c /\
     state (obj t n) = PROCESS_READY /\ state (obj t2 n) = PROCESS_RUNNING /\
     frame' = Frame (regs (obj t n)) (pc (obj t n)) (pstate (obj t n)) (sp (obj t n)) /\
     (page_table (obj t n) <> 0 -> ttbr0 t2 = page_table (obj t n)) /\
     state (obj t2 c) = PROCESS_READY /\ process_load_context (obj t2 c) frame' = frame /\
     forall j, j <> c -> j <> n -> obj t2 j = obj t j).
Proof.
  intros Hl Hc Hrun Hx Hregs t1.
  set (pc1 := process_save_context (obj t c) (x frame) (elr frame) (spsr frame) (sp_el0 frame)) in *.
  assert (Ho1 : forall j, obj t1 j = if decide (j = c) then pc1 else obj t j) by (intros; apply obj_set; lia).
  pose proof (next_runnable_spec t1 c Hc) as Hn.
  destruct (process_next_runnable t1 (Some c)) as [n|] eqn:En.
  2: { unfold process_dispatch_next. rewrite En, bool_decide_false by done. cbn [andb].
       left. split_and!; auto. intros j Hj Hjc. specialize (Hn j Hj Hjc). rewrite Ho1 in Hn.
       by rewrite decide_False in Hn. }
  destruct Hn as (Hn16 & Hnc & Hnr & _). rewrite Ho1, decide_False in Hnr by done.
  assert (Hs1 : state (obj t1 c) = PROCESS_RUNNING) by (rewrite Ho1, decide_True by done; done).
  rewrite (dispatch_preempt_eq t1 c n frame En Hs1). cbn zeta.
  set (t1' := set_obj t1 c (set_state (obj t1 c) PROCESS_READY)).
  set (t2 := process_set_current (set_obj t1' n (set_state (obj t1' n) PROCESS_RUNNING)) (Some n)).
  assert (Hlen1 : length (objects t1) = length (objects t)) by (simpl; apply length_insert).
  assert (Hlen1' : length (objects t1') = length (objects t)) by (simpl; by rewrite !length_insert).
  assert (Ho2 : forall j, obj t2 j = if decide (j = n) then set_state (obj t n) PROCESS_RUNNING
      else if decide (j = c) then set_state pc1 PROCESS_READY else obj t j).
  { intros j. unfold t2.
    change (obj (process_set_current ?u _) j) with (obj u j). rewrite obj_set by lia.
    unfold t1'. rewrite !obj_set by lia. rewrite !Ho1.
    rewrite (decide_False (P := n = c)), (decide_True (P := c = c)) by done.
    repeat case_decide; try done; by subst. }
  unfold process_activate_context. cbn zeta.
  set (t3 := if negb (page_table (obj t2 n) =? 0) then _ else t2).
  assert (Ho3 : forall j, obj t3 j = obj t2 j) by (intros j; unfold t3; by destruct (negb _)).
  assert (Hcur : g_current_process t3 = Some n) by (unfold t3; by destruct (negb _)).
  assert (Etn : obj t2 n = set_state (obj t n) PROCESS_RUNNING) by (rewrite Ho2; by rewrite decide_True).
  right. split; [done|]. exists n. rewrite !Ho3. split_and!; auto.
  - by rewrite Etn.
  - rewrite Etn. unfold process_load_context. simpl. by rewrite copy_regs_eq.
  - intros Hpt. unfold t3. rewrite Etn. simpl. rewrite (proj2 (Z.eqb_neq _ 0)) by done. done.
  - rewrite Ho2, decide_False, decide_True by done. done.
  - rewrite Ho2, decide_False, decide_True, Etn by done. unfold process_load_context, pc1. simpl.
    rewrite (copy_regs_eq (regs (obj t c)) (x frame)) by auto.
    rewrite copy_regs_eq; [by destruct frame| |done].
    rewrite copy_regs_eq by auto. auto.
  - intros j Hjc Hjn. by rewrite Ho3, Ho2, !decide_False by done.
Qed.

(** ** Reaping *)

Definition alive (p : process) : Prop := state p <> PROCESS_UNUSED /\ state p <> PROCESS_ZOMBIE.

Lemma live_parent_iff t z :
  table_wf t ->
  live_parent t z = true <->
  parent_pid z <> 0 /\ exists q, (q < 16)%nat /\ pid (obj t q) = parent_pid z /\ alive (obj t q).
Proof.
  intros Hw. unfold live_parent. destruct (Z.eqb_spec (parent_pid z) 0) as [E|Hnz]; simpl.
  { split; [done|]. intros [? _]. done. }
  destruct (process_find t (parent_pid z)) as [q|] eqn:Ef.
  - destruct (process_find_Some _ _ _ Ef) as (Hq & Hu & Hp). split.
    + intros Hb. b2p. split; [done|]. exists q.
      split_and!; auto. split; eapply bool_decide_eq_false_1; eassumption.
    + intros [_ (q' & Hq' & Hp' & Ha & Hz)].
      assert (q' = q) as ->.
      { apply (tw_uniq _ Hw); auto; [|congruence]. unfold used. by rewrite bool_decide_false. }
      by rewrite !bool_decide_false.
  - split; [done|]. intros [_ (q & Hq & Hp & Ha & _)]. exfalso.
    eapply (process_find_None t _ q Ef Hnz Hq); [|done]. unfold used. by rewrite bool_decide_false.
Qed.

(** Slot [k] holds a zombie nobody can wait for. *)
Definition orphan t (k : nat) : bool :=
  bool_decide (state (obj t k) = PROCESS_ZOMBIE) && negb (live_parent t (obj t k)).

(** The table after the reaping loop has treated the slots below [i]. *)
Definition reclaimed t (i : Z) t1 : Prop :=
  table_wf t1 /\ forall k, (k < 16)%nat ->
    obj t1 k = if (Z.of_nat k <? i) && orphan t k then cleared_slot else obj t k.

Lemma reclaimed_live_parent t i t1 z :
  table_wf t -> reclaimed t i t1 -> live_parent t1 z = live_parent t z.
Proof.
  intros Hw [Hw1 Ho].
  assert (Halive : forall q, (q < 16)%nat -> alive (obj t1 q) \/ alive (obj t q) -> obj t1 q = obj t q).
  { intros q Hq Ha. rewrite Ho in * by done. destruct (_ && orphan t q) eqn:Eb; [|done].
    apply andb_true_iff in Eb as [_ [Ez _]%andb_true_iff]. apply bool_decide_eq_true in Ez.
    destruct Ha as [[Hc _]|[_ Hc]]; done. }
  apply eq_true_iff_eq. rewrite !live_parent_iff by done.
  split; intros [Hp (q & Hq & Hpq & Ha)]; (split; [done|]); exists q;
    pose proof (Halive q Hq ltac:(auto)) as E; rewrite E in *; auto.
Qed.

Lemma reclaimed_step t i t1 :
  table_wf t -> 0 <= i < 16 -> reclaimed t i t1 ->
  reclaimed t (i + 1)
    (if negb (bool_decide (state (obj t1 (Z.to_nat i)) = PROCESS_ZOMBIE)) then t1
     else if live_parent t1 (obj t1 (Z.to_nat i)) then t1 else process_release t1 (Some (Z.to_nat i))).
Proof.
  intros Hw Hi Hr. rewrite (reclaimed_live_parent t i t1 _ Hw Hr). destruct Hr as [Hw1 Ho].
  assert (Eo : obj t1 (Z.to_nat i) = obj t (Z.to_nat i)).
  { rewrite Ho by lia. destruct (Z.ltb_spec (Z.of_nat (Z.to_nat i)) i); [lia|done]. }
  assert (Hskip : orphan t (Z.to_nat i) = false -> reclaimed t (i + 1) t1).
  { intros Hno. split; [done|]. intros k Hk. rewrite Ho by done.
    destruct (decide (k = Z.to_nat i)) as [->|]; [by rewrite Hno, !andb_false_r|].
    destruct (Z.ltb_spec (Z.of_nat k) i), (Z.ltb_spec (Z.of_nat k) (i + 1)); try done; lia. }
  rewrite Eo. unfold orphan in Hskip.
  destruct (bool_decide (state (obj t (Z.to_nat i)) = PROCESS_ZOMBIE)) eqn:Ez; cbn [negb andb] in *; [|auto].
  destruct (live_parent t (obj t (Z.to_nat i))) eqn:Ep; cbn [negb] in *; [auto|].
  pose proof (tw_len _ Hw1) as Hl1. split; [apply process_release_wf; [done|lia]|].
  destruct (process_release_objects t1 (Z.to_nat i)) as (_ & Hoth & _ & Hclr & _); [lia|].
  intros k Hk. destruct (decide (k = Z.to_nat i)) as [->|Hne].
  - unfold orphan. rewrite Ez, Ep. destruct (Z.ltb_spec (Z.of_nat (Z.to_nat i)) (i + 1)); [|lia].
    apply Hclr. unfold used. rewrite Eo. apply bool_decide_eq_true in Ez. by rewrite Ez.
  - rewrite Hoth, Ho by done.
    destruct (Z.ltb_spec (Z.of_nat k) i), (Z.ltb_spec (Z.of_nat k) (i + 1)); try done; lia.
Qed.

(** process_reclaim_zombies frees exactly the orphaned zombies.  Whatever
    the order of the slots, a slot is cleared if and only if it held a zombie
    whose parent pid is 0 or does not belong to a live, non-zombie process of the
    table as it was before the call; every other slot is untouched and the table
    stays consistent. *)
Theorem process_reclaim_zombies_exact t :
  table_wf t ->
  table_wf (process_reclaim_zombies t) /\
  forall k, (k < 16)%nat ->
    (state (obj t k) = PROCESS_ZOMBIE /\
     ~ (parent_pid (obj t k) <> 0 /\
        exists q, (q < 16)%nat /\ pid (obj t q) = parent_pid (obj t k) /\ alive (obj t q)) /\
     obj (process_reclaim_zombies t) k = cleared_slot) \/
    (~ (state (obj t k) = PROCESS_ZOMBIE /\
        ~ (parent_pid (obj t k) <> 0 /\
           exists q, (q < 16)%nat /\ pid (obj t q) = parent_pid (obj t k) /\ alive (obj t q))) /\
     obj (process_reclaim_zombies t) k = obj t k).
Proof.
  intros Hw. split; [by apply process_reclaim_zombies_wf|].
  assert (Hloop : reclaimed t 16 (process_reclaim_zombies t)).
  { unfold process_reclaim_zombies, PROCESS_MAX_PROCESSES.
    apply (for_range_ind (reclaimed t)); [lia| |intros; by apply reclaimed_step].
    split; [done|]. intros k Hk. destruct (Z.ltb_spec (Z.of_nat k) 0); [lia|done]. }
  destruct Hloop as [_ Hk]. intros k Hlt. rewrite (Hk k Hlt).
  rewrite (proj2 (Z.ltb_lt (Z.of_nat k) 16)) by lia. cbn [andb]. unfold orphan.
  rewrite <- (live_parent_iff t (obj t k) Hw).
  case_bool_decide as Ez; cbn [andb]; [|right; tauto].
  destruct (live_parent t (obj t k)); cbn [negb]; [right|left]; split_and!; auto; tauto.
Qed.

(** C8: the process table stays consistent.  From process_table_init on,
    through any sequence of allocations, releases, exits, kills, waits, reaping
    passes and dispatches, the process counter equals the number of used slots,
    every used slot has a non-zero pid, and no two used slots share a pid, so
    that process_find is unambiguous. *)
Theorem process_table_invariant t0 t :
  (16 <= length (objects t0))%nat -> rtc table_step (process_table_init t0) t ->
  table_wf t /\ forall k, (k < 16)%nat -> used t k = true -> process_find t (pid (obj t k)) = Some k.
Proof.
  intros Hl Hsteps.
  assert (Hw : table_wf t).
  { pose proof (process_table_init_wf t0 Hl) as Hw. clear Hl.
    induction Hsteps as [|a b c Hab _ IH]; [done|]. apply IH. by eapply table_step_wf. }
  split; [done|]. intros. by apply process_find_unique.
Qed.
End Scheduling.

(** * Witnesses *)

#[local] Instance unit_hooks : ExitHooks unit :=
  {| vfs_close_all_for_pid := fun _ w => w; gui_destroy_windows_for_pid := fun _ w => w |}.

Definition boot_table : ptable pmm unit :=
  process_table_init (PTable (replicate 16 (process_init 0 None)) (Some 3%nat) 9 demo_machine 0 tt).

(** Two processes, the second one killed. *)
Definition two_processes : ptable pmm unit :=
  snd (process_kill (snd (process_alloc (snd (process_alloc boot_table 7 None)) 9 (Some [65; 66]))) 9 3).

Lemma two_processes_reachable : rtc table_step boot_table two_processes.
Proof.
  eapply rtc_l; [apply (StepAlloc boot_table 7 None)|].
  eapply rtc_l; [apply (StepAlloc _ 9 (Some [65; 66]))|].
  eapply rtc_l; [apply (StepKill _ 9 3)|]. apply rtc_refl.
Qed.

Lemma process_table_invariant_witness :
  g_process_count two_processes = 2 /\ process_find two_processes 9 = Some 1%nat.
Proof.
  split; [vm_compute; reflexivity|].
  destruct (process_table_invariant
    (PTable (replicate 16 (process_init 0 None)) (Some 3%nat) 9 demo_machine 0 tt) two_processes)
    as [_ Hf]; [cbn [objects]; rewrite length_replicate; lia|apply two_processes_reachable|].
  assert (E : pid (obj two_processes 1) = 9) by (vm_compute; reflexivity).
  rewrite <- E. apply Hf; [lia|vm_compute; reflexivity].
Defined.

Lemma process_reclaim_zombies_exact_witness :
  obj (process_reclaim_zombies two_processes) 1 = cleared_slot /\
  state (obj (process_reclaim_zombies two_processes) 0) = PROCESS_READY.
Proof.
  assert (Hw : table_wf two_processes).
  { pose proof two_processes_reachable as Hr.
    assert (H0 : table_wf boot_table) by (apply process_table_init_wf; cbn [objects]; rewrite length_replicate; lia).
    induction Hr as [|a b c Hab _ IH]; [done|]. apply IH. by eapply table_step_wf. }
  destruct (process_reclaim_zombies_exact two_processes Hw) as [_ Hk]. split.
  - destruct (Hk 1%nat) as [(_ & _ & E)|[Hno _]]; [lia|exact E|]. exfalso. apply Hno.
    split; [vm_compute; reflexivity|]. intros [Hp _]. apply Hp. vm_compute. reflexivity.
  - destruct (Hk 0%nat) as [(Hz & _)|[_ E]]; [lia|vm_compute in Hz; done|]. rewrite E. vm_compute. reflexivity.
Defined.

(** Three ready processes. *)
Definition three_ready : ptable pmm unit :=
  snd (process_alloc (snd (process_alloc (snd (process_alloc boot_table 7 None)) 8 None)) 9 None).

Lemma process_dispatch_fair_witness :
  exists i, (1 <= i <= 15)%nat /\ (i mod 3)%nat = 2%nat.
Proof.
  apply (process_dispatch_fair (fun _ => three_ready) (fun i => (i mod 3)%nat) 2);
    [simpl; lia|lia|simpl; lia| |intros; vm_compute; reflexivity].
  intros i. pose proof (Nat.mod_upper_bound i 3 ltac:(lia)) as Hb.
  assert (Hs : (S i mod 3)%nat = if decide ((i mod 3)%nat = 2%nat) then 0%nat else S (i mod 3)).
  { rewrite <- Nat.add_1_r, Nat.Div0.add_mod. case_decide as E; [by rewrite E|].
    change (1 mod 3)%nat with 1%nat. rewrite Nat.mod_small by lia. lia. }
  rewrite Hs. destruct (i mod 3)%nat as [|[|[|m]]] eqn:E; [| | |lia]; vm_compute; reflexivity.
Defined.

Lemma process_preempt_switch_witness :
  let t := set_obj three_ready 0 (set_state (obj three_ready 0) PROCESS_RUNNING) in
  let frame := Frame (seqZ 100 31) 1 2 3 in
  let t1 := set_obj t 0 (process_save_context (obj t 0) (x frame) (elr frame) (spsr frame) (sp_el0 frame)) in
  let '(r, frame', t2) := process_dispatch_next t1 (Some 0%nat) frame PROCESS_DISPATCH_PREEMPT in
  r = 1 /\ process_load_context (obj t2 0) frame' = frame.
Proof.
  intros t frame t1.
  pose proof (process_preempt_switch t 0 frame) as Hsw. cbn zeta in Hsw. fold t1 in Hsw.
  assert (Hr : fst (fst (process_dispatch_next t1 (Some 0%nat) frame PROCESS_DISPATCH_PREEMPT)) = 1)
    by (vm_compute; reflexivity).
  destruct (process_dispatch_next t1 _ _ _) as [[r f'] t2]. simpl in Hr. subst r.
  destruct Hsw as [(Hbad & _)|(_ & n & _ & _ & _ & _ & _ & _ & _ & Hload & _)];
    [vm_compute; lia|lia|vm_compute; reflexivity|vm_compute; reflexivity| |lia|auto].
  intros k. do 17 (destruct k as [|k]; [vm_compute; reflexivity|]). vm_compute. reflexivity.
Defined.
