(* ===== verification/Bytes.v ===== *)
(** Byte buffers and C strings, with kernel/kstring.c.

    A buffer is the list of its bytes.  A [const char *] is the list of the
    bytes it points to; the terminating NUL is the first zero byte or, when
    there is none, the end of the list.  [None] is a null pointer. *)

From S2P Require Import Prelude.
Open Scope arm.

(** [buf[i]]. *)
Definition byte_at (buf : list Z) (i : Z) : Z := default 0 (buf !! Z.to_nat i).

(** The length of a buffer. *)
Definition zlen (l : list Z) : Z := Z.of_nat (length l).

(** [buf[i] = v]. *)
Definition put (i v : Z) (buf : list Z) : list Z := <[Z.to_nat i := v]> buf.

(** [for (i = 0; i < n; i++) dst[doff + i] = src[soff + i];] *)
Definition copy_bytes (dst : list Z) (doff : Z) (src : list Z) (soff n : Z) : list Z :=
  for_range 0 n (fun i d => put (doff + i) (byte_at src (soff + i)) d) dst.

(** [for (i = lo; i < hi; i++) buf[i] = v;] *)
Definition fill_bytes (buf : list Z) (lo hi v : Z) : list Z :=
  for_range lo hi (fun i d => put i v d) buf.

(** The characters before the terminator. *)
Fixpoint str_cut (s : list Z) : list Z :=
  match s with
  | [] => []
  | c :: s' => if c =? 0 then [] else c :: str_cut s'
  end.

(** ** kernel/kstring.c *)

(** The comparison loop shared by kstreq and tmpfs_name_equals. *)
Fixpoint streq_loop (a b : list Z) : bool :=
  match a with
  | [] => byte_at b 0 =? 0
  | x :: a' =>
      if x =? 0 then byte_at b 0 =? x
      else match b with
           | [] => false
           | y :: b' => if y =? 0 then false else if negb (x =? y) then false else streq_loop a' b'
           end
  end.

Definition kstreq (a b : option (list Z)) : bool :=
  match a, b with Some a, Some b => streq_loop a b | _, _ => false end.

Definition kmemcpy (dst src : list Z) (len : Z) : list Z := copy_bytes dst 0 src 0 len.

Definition kmemset (dst : list Z) (v len : Z) : list Z := fill_bytes dst 0 len v.

Definition kmemzero (p : list Z) (len : Z) : list Z := fill_bytes p 0 len 0.

Definition kmemcmp (p q : list Z) (len : Z) : Z :=
  match find_range 0 len (fun i => negb (byte_at p i =? byte_at q i)) with
  | Some i => byte_at p i - byte_at q i
  | None => 0
  end.

(** * Lemmas *)

Lemma put_length i v buf : length (put i v buf) = length buf.
Proof. apply length_insert. Qed.

Lemma put_lookup i v buf k :
  0 <= i < Z.of_nat (length buf) -> put i v buf !! k = if Z.of_nat k =? i then Some v else buf !! k.
Proof.
  intros Hi. unfold put. destruct (Z.eqb_spec (Z.of_nat k) i) as [<-|Hne].
  - rewrite Nat2Z.id. apply list_lookup_insert_eq. lia.
  - rewrite list_lookup_insert_ne; [done|lia].
Qed.

Lemma byte_at_lookup buf i v : 0 <= i -> buf !! Z.to_nat i = Some v -> byte_at buf i = v.
Proof. intros _ E. unfold byte_at. by rewrite E. Qed.

Lemma lookup_byte_at buf k :
  (k < length buf)%nat -> buf !! k = Some (byte_at buf (Z.of_nat k)).
Proof.
  intros Hk. unfold byte_at. rewrite Nat2Z.id.
  destruct (lookup_lt_is_Some_2 buf k Hk) as [v Hv]. by rewrite Hv.
Qed.

Lemma byte_at_put i v buf j :
  0 <= i < Z.of_nat (length buf) -> 0 <= j ->
  byte_at (put i v buf) j = if j =? i then v else byte_at buf j.
Proof.
  intros Hi Hj. unfold byte_at. rewrite put_lookup by done. rewrite Z2Nat.id by done.
  by destruct (j =? i).
Qed.

(** Effect of the copy loop, byte by byte. *)
Lemma copy_bytes_spec dst doff src soff n :
  0 <= doff -> 0 <= n -> doff + n <= Z.of_nat (length dst) ->
  length (copy_bytes dst doff src soff n) = length dst /\
  forall j, 0 <= j ->
    byte_at (copy_bytes dst doff src soff n) j =
    if (doff <=? j) && (j <? doff + n) then byte_at src (soff + (j - doff)) else byte_at dst j.
Proof.
  intros Hd Hn Hl. unfold copy_bytes.
  apply (for_range_ind (fun k d => length d = length dst /\ forall j, 0 <= j ->
    byte_at d j = if (doff <=? j) && (j <? doff + k) then byte_at src (soff + (j - doff)) else byte_at dst j));
    [done| |].
  { split; [done|]. intros j Hj.
    destruct (Z.leb_spec doff j), (Z.ltb_spec j (doff + 0)); simpl; try done; lia. }
  intros k d Hk [Hlen Hb]. split; [by rewrite put_length|]. intros j Hj.
  rewrite byte_at_put by lia. rewrite Hb by done.
  destruct (Z.eqb_spec j (doff + k)) as [E|E];
    destruct (Z.leb_spec doff j), (Z.ltb_spec j (doff + k)), (Z.ltb_spec j (doff + (k + 1))); simpl;
    try lia; try done.
  f_equal. lia.
Qed.

Lemma fill_bytes_spec buf lo hi v :
  0 <= lo <= hi -> hi <= Z.of_nat (length buf) ->
  length (fill_bytes buf lo hi v) = length buf /\
  forall j, 0 <= j ->
    byte_at (fill_bytes buf lo hi v) j = if (lo <=? j) && (j <? hi) then v else byte_at buf j.
Proof.
  intros Hlo Hl. unfold fill_bytes.
  apply (for_range_ind (fun k d => length d = length buf /\ forall j, 0 <= j ->
    byte_at d j = if (lo <=? j) && (j <? k) then v else byte_at buf j)); [lia| |].
  { split; [done|]. intros j Hj. destruct (Z.leb_spec lo j), (Z.ltb_spec j lo); simpl; try done; lia. }
  intros k d Hk [Hlen Hb]. split; [by rewrite put_length|]. intros j Hj.
  rewrite byte_at_put by lia. rewrite Hb by done.
  destruct (Z.eqb_spec j k), (Z.leb_spec lo j), (Z.ltb_spec j k), (Z.ltb_spec j (k + 1)); simpl;
    try lia; done.
Qed.

(** Buffers of one length with the same bytes are equal. *)
Lemma bytes_ext a b :
  length a = length b -> (forall j, 0 <= j < Z.of_nat (length a) -> byte_at a j = byte_at b j) -> a = b.
Proof.
  intros Hl Hb. apply list_eq. intros k. destruct (decide (k < length a)%nat) as [Hk|].
  - rewrite !lookup_byte_at by lia. f_equal. apply Hb. lia.
  - rewrite !lookup_ge_None_2 by lia. done.
Qed.

Lemma byte_at_ge buf j : Z.of_nat (length buf) <= j -> byte_at buf j = 0.
Proof. intros. unfold byte_at. by rewrite lookup_ge_None_2 by lia. Qed.

Lemma byte_at_replicate n v j : 0 <= j < Z.of_nat n -> byte_at (replicate n v) j = v.
Proof. intros. unfold byte_at. by rewrite lookup_replicate_2 by lia. Qed.

Lemma byte_at_app a b j :
  0 <= j -> byte_at (a ++ b) j =
  if j <? Z.of_nat (length a) then byte_at a j else byte_at b (j - Z.of_nat (length a)).
Proof.
  intros Hj. unfold byte_at. destruct (Z.ltb_spec j (Z.of_nat (length a))).
  - by rewrite lookup_app_l by lia.
  - rewrite lookup_app_r by lia. do 2 f_equal. lia.
Qed.

Lemma byte_at_take buf n j :
  0 <= j < Z.of_nat n -> byte_at (take n buf) j = byte_at buf j.
Proof. intros. unfold byte_at. by rewrite lookup_take_lt by lia. Qed.

Lemma byte_at_drop buf n j : 0 <= j -> byte_at (drop n buf) j = byte_at buf (Z.of_nat n + j).
Proof. intros. unfold byte_at. rewrite lookup_drop. do 2 f_equal. lia. Qed.

Lemma str_cut_nonzero s c : c ∈ str_cut s -> c <> 0.
Proof.
  induction s as [|x s IH]; simpl; [by intros ?%elem_of_nil|].
  destruct (Z.eqb_spec x 0); [by intros ?%elem_of_nil|]. intros [->|?]%elem_of_cons; auto.
Qed.

Lemma str_cut_idem s : str_cut (str_cut s) = str_cut s.
Proof.
  induction s as [|x s IH]; simpl; [done|].
  destruct (Z.eqb_spec x 0) as [|Hx]; [done|]. simpl.
  rewrite (proj2 (Z.eqb_neq x 0)) by done. by rewrite IH.
Qed.

Lemma str_cut_app_nul a b : Forall (fun c => c <> 0) a -> str_cut (a ++ 0 :: b) = a.
Proof.
  induction 1 as [|x a Hx _ IH]; [done|]. simpl. rewrite (proj2 (Z.eqb_neq x 0)) by done.
  by rewrite IH.
Qed.

(** The loop decides equality of the strings. *)
Lemma streq_loop_spec a b : streq_loop a b = bool_decide (str_cut a = str_cut b).
Proof.
  assert (Hnil : forall b, (byte_at b 0 =? 0) = bool_decide ([] = str_cut b)).
  { intros [|y b']; [done|]. unfold byte_at. simpl. by destruct (Z.eqb_spec y 0). }
  revert b. induction a as [|x a IH]; intros b; simpl; [apply Hnil|].
  destruct (Z.eqb_spec x 0) as [->|Hx]; [apply Hnil|].
  destruct b as [|y b]; simpl; [done|].
  destruct (Z.eqb_spec y 0) as [->|Hy]; [done|].
  destruct (Z.eqb_spec x y) as [->|Hxy]; simpl.
  - rewrite IH. apply bool_decide_ext. split; [by intros ->|]. by intros [= ?].
  - rewrite bool_decide_false; [done|]. intros [= ? ?]. done.
Qed.

(** kmemcmp returns 0 exactly on equal prefixes. *)
Lemma kmemcmp_zero p q n :
  kmemcmp p q n = 0 <-> forall i, 0 <= i < n -> byte_at p i = byte_at q i.
Proof.
  unfold kmemcmp. destruct (find_range _ _ _) as [i|] eqn:E.
  - apply find_range_Some in E as (Hi & Hne & _). b2p. split; [lia|]. intros Ha.
    specialize (Ha i Hi). lia.
  - split; [|done]. intros _ i Hi. pose proof (find_range_None _ _ _ E i Hi) as Hb. cbn beta in Hb.
    by b2p.
Qed.

#[export] Hint Rewrite put_length : armonios_rw.
