(* ===== verification/Print.v ===== *)
(** Numbers on the serial line: kernel/print.c.  Each function is the list of
    the characters it passes to uart_putc. *)

From S2P Require Import Prelude.
From S2P Require Import Bytes.
Open Scope arm.

(** [digits[d]] *)
Definition hex_digit (d : Z) : Z := if d <? 10 then 48 + d else 87 + d.

Definition print_hex64 (value : Z) : list Z :=
  [48; 120] ++ ((fun i => hex_digit (Z.land (Z.shiftr value (60 - 4 * i)) 0xf)) <$> seqZ 0 16).

Definition print_hex8 (value : Z) : list Z :=
  [hex_digit (Z.land (Z.shiftr value 4) 0xf); hex_digit (Z.land value 0xf)].

(** [while (value > 0 && i < sizeof(buf))]: the digits, last one first. *)
Fixpoint dec_loop (room : nat) (value : Z) : list Z :=
  match room with
  | O => []
  | S room' => if value >? 0 then (48 + value mod 10) :: dec_loop room' (value / 10) else []
  end.

Definition print_dec64 (value : Z) : list Z := if value =? 0 then [48] else rev (dec_loop 20 value).

Definition print_signed32 (value : Z) : list Z :=
  if value <? 0 then 45 :: print_dec64 (u32 (- value)) else print_dec64 (u32 value).

(** * What the digits mean *)

(** The value of a string of decimal (hexadecimal) digits. *)
Definition dec_value (s : list Z) : Z := foldl (fun n c => 10 * n + (c - 48)) 0 s.
Definition hex_value (s : list Z) : Z := foldl (fun n c => 16 * n + (if c <? 58 then c - 48 else c - 87)) 0 s.

Lemma dec_value_rev_cons c s : dec_value (rev (c :: s)) = 10 * dec_value (rev s) + (c - 48).
Proof. unfold dec_value. cbn [rev]. by rewrite foldl_app. Qed.

Lemma dec_loop_spec room : forall v,
  0 <= v < 10 ^ Z.of_nat room ->
  dec_value (rev (dec_loop room v)) = v /\ Forall (fun c => 48 <= c <= 57) (dec_loop room v) /\
  (0 < v -> exists s c, dec_loop room v = s ++ [c] /\ c <> 48).
Proof.
  induction room as [|room IH]; intros v Hv; cbn [dec_loop].
  { change (10 ^ Z.of_nat 0) with 1 in Hv. split_and!; [cbn; lia|constructor|lia]. }
  destruct (Z.gtb_spec v 0); [|split_and!; [cbn; lia|constructor|lia]].
  assert (Hd : 0 <= v / 10 < 10 ^ Z.of_nat room).
  { split; [apply Z.div_pos; lia|]. apply Z.div_lt_upper_bound; [lia|].
    rewrite Nat2Z.inj_succ, Z.pow_succ_r in Hv by lia. lia. }
  destruct (IH (v / 10) Hd) as (I1 & I2 & I3). pose proof (Z.mod_pos_bound v 10). split_and!.
  - rewrite dec_value_rev_cons, I1. pose proof (Z.div_mod v 10). lia.
  - constructor; [lia|done].
  - intros _. destruct (Z.eq_dec (v / 10) 0) as [E|E].
    + exists [], (48 + v mod 10). rewrite E. split; [by destruct room|]. pose proof (Z.div_mod v 10). lia.
    + destruct (I3 ltac:(lia)) as (s & c & -> & Hc). by exists ((48 + v mod 10) :: s), c.
Qed.

Lemma hex_value_snoc s c : hex_value (s ++ [c]) = 16 * hex_value s + (if c <? 58 then c - 48 else c - 87).
Proof. unfold hex_value. by rewrite foldl_app. Qed.

Lemma hex_digit_value d : 0 <= d < 16 -> (if hex_digit d <? 58 then hex_digit d - 48 else hex_digit d - 87) = d.
Proof.
  intros Hd. unfold hex_digit. destruct (Z.ltb_spec d 10).
  - destruct (Z.ltb_spec (48 + d) 58); lia.
  - destruct (Z.ltb_spec (87 + d) 58); lia.
Qed.

Lemma hex_prefix value n : 0 <= n <= 16 -> 0 <= value < 2 ^ 64 ->
  hex_value ((fun i => hex_digit (Z.land (Z.shiftr value (60 - 4 * i)) 0xf)) <$> seqZ 0 n) = Z.shiftr value (64 - 4 * n).
Proof.
  intros Hn Hv. pose proof (proj1 Hn) as H0. revert Hn. pattern n. apply natlike_ind; [| |exact H0]; clear n H0.
  - intros _. cbn. symmetry. rewrite Z.shiftr_div_pow2 by lia. apply Z.div_small. lia.
  - intros k Hk IH Hk'. replace (seqZ 0 (Z.succ k)) with (seqZ 0 (k + 1)) by (f_equal; lia). rewrite (seqZ_app 0 k 1) by lia. rewrite fmap_app. cbn [fmap list_fmap seqZ].
    change (seqZ (0 + k) 1) with [0 + k]. cbn [fmap list_fmap]. rewrite hex_value_snoc, IH by lia.
    rewrite hex_digit_value.
    + change 0xf with (2 ^ 4 - 1). rewrite land_low_mask by lia. rewrite !Z.shiftr_div_pow2 by lia.
      replace (64 - 4 * k) with ((60 - 4 * k) + 4) by lia. replace (64 - 4 * Z.succ k) with (60 - 4 * k) by lia.
      rewrite Z.pow_add_r, <- Z.div_div by lia. rewrite Z.add_0_l. pose proof (Z.div_mod (value / 2 ^ (60 - 4 * k)) (2 ^ 4)). lia.
    + change 0xf with (2 ^ 4 - 1). rewrite land_low_mask by lia. apply Z.mod_pos_bound. lia.
Qed.

(** print_dec64 prints the decimal numeral of every 64-bit value, without
    a leading zero and within its 20-byte buffer, and print_hex64 prints "0x"
    and the 16 hexadecimal digits: reading the digits back gives the value. *)
Theorem print_roundtrip value :
  is_u64 value ->
  dec_value (print_dec64 value) = value /\ (length (print_dec64 value) <= 20)%nat /\
  (0 < value -> exists c s, print_dec64 value = c :: s /\ c <> 48) /\
  exists ds, print_hex64 value = [48; 120] ++ ds /\ length ds = 16%nat /\ hex_value ds = value.
Proof.
  intros Hv. unfold is_u64 in *.
  assert (Hlen : forall n v, (length (dec_loop n v) <= n)%nat).
  { induction n as [|n IH]; intros v; cbn [dec_loop]; [done|]. destruct (v >? 0); cbn; [specialize (IH (v / 10))|]; lia. }
  destruct (dec_loop_spec 20 value) as (D1 & D2 & D3).
  { change (Z.of_nat 20) with 20. lia. }
  unfold print_dec64. destruct (Z.eqb_spec value 0) as [->|Hnz].
  - split_and!; [done|cbn; lia|lia|]. eexists. split_and!; [reflexivity|done|vm_compute; done].
  - split_and!; [done|rewrite length_rev; apply Hlen| |].
    + intros _. destruct (D3 ltac:(lia)) as (s & c & -> & Hc). rewrite rev_app_distr. by exists c, (rev s).
    + eexists. split_and!; [reflexivity|done|]. rewrite hex_prefix by lia. by rewrite Z.shiftr_0_r.
Qed.

Lemma print_roundtrip_witness :
  print_dec64 18446744073709551615 = [49; 56; 52; 52; 54; 55; 52; 52; 48; 55; 51; 55; 48; 57; 53; 53; 49; 54; 49; 53] /\
  dec_value (print_dec64 18446744073709551615) = 18446744073709551615.
Proof. split; [vm_compute; reflexivity|]. apply (print_roundtrip 18446744073709551615). unfold is_u64. lia. Defined.
