(* ===== verification/Input.v ===== *)
(** The input event queue and the terminal key decoder: drivers/input/input.c
    and drivers/input/keymap.c, on a ring-buffer theory that the window event
    queues share.

    Interrupts are off in every critical section of the queue, so each
    operation is one step.  The counters that input_queue_poll reports to the
    runtime statistics are not part of the state. *)

From S2P Require Import Prelude.
Open Scope arm.

(** * Ring buffers *)

Section Ring.
Context {E : Type} (d : E) (N : Z).
Implicit Types (buf : list E) (head tail count : Z).

Definition ring_at buf head (i : Z) : E := default d (buf !! Z.to_nat ((head + i) mod N)).

(** The queued elements, oldest first. *)
Definition ring_list buf head count : list E := ring_at buf head <$> seqZ 0 count.

Record ring_ok buf head tail count : Prop := {
  rk_len : Z.of_nat (length buf) = N;
  rk_pos : 0 < N;
  rk_head : 0 <= head < N;
  rk_tail : tail = (head + count) mod N;
  rk_count : 0 <= count <= N }.

Lemma ring_length buf head tail count : ring_ok buf head tail count -> length (ring_list buf head count) = Z.to_nat count.
Proof. intros []. unfold ring_list. by rewrite length_fmap, length_seqZ. Qed.

Lemma ring_index buf head tail count i j :
  ring_ok buf head tail count -> 0 <= i < N -> 0 <= j < N -> (head + i) mod N = (head + j) mod N -> i = j.
Proof.
  intros [] Hi Hj E0.
  destruct (Z.lt_ge_cases (head + i) N), (Z.lt_ge_cases (head + j) N);
    rewrite ?(Z.mod_small (head + i)), ?(Z.mod_small (head + j)) in E0 by lia; try lia.
  - rewrite <- (Z.mod_unique (head + j) N 1 (head + j - N)) in E0; lia.
  - rewrite <- (Z.mod_unique (head + i) N 1 (head + i - N)) in E0; lia.
  - rewrite <- (Z.mod_unique (head + j) N 1 (head + j - N)), <- (Z.mod_unique (head + i) N 1 (head + i - N)) in E0; lia.
Qed.

Lemma ring_at_insert buf head tail count i j e :
  ring_ok buf head tail count -> 0 <= i < N -> 0 <= j < N ->
  ring_at (<[Z.to_nat ((head + j) mod N) := e]> buf) head i = if i =? j then e else ring_at buf head i.
Proof.
  intros Hr Hi Hj. pose proof Hr as []. unfold ring_at.
  pose proof (Z.mod_pos_bound (head + i) N). pose proof (Z.mod_pos_bound (head + j) N).
  destruct (Z.eqb_spec i j) as [->|Hne].
  - by rewrite list_lookup_insert_eq by lia.
  - rewrite list_lookup_insert_ne; [done|]. intros E0. apply Hne. apply (ring_index buf head tail count); try done. lia.
Qed.

Lemma seqZ_snoc n : 0 <= n -> seqZ 0 (n + 1) = seqZ 0 n ++ [n].
Proof. intros Hn. rewrite seqZ_app by lia. rewrite Z.add_0_l. done. Qed.

Lemma ring_push buf head tail count e :
  ring_ok buf head tail count -> count < N ->
  let buf' := <[Z.to_nat tail := e]> buf in
  ring_ok buf' head ((tail + 1) mod N) (count + 1) /\ ring_list buf' head (count + 1) = ring_list buf head count ++ [e].
Proof.
  intros Hr Hc. pose proof Hr as []. cbv zeta. split.
  - split; try lia; [by rewrite length_insert|]. subst tail. rewrite Zplus_mod_idemp_l. f_equal. lia.
  - unfold ring_list. rewrite seqZ_snoc, fmap_app by lia. f_equal.
    + apply list_fmap_ext. intros k i Hk. apply lookup_seqZ in Hk as [-> Hk]. rewrite rk_tail0.
      rewrite (ring_at_insert buf head tail count) by (done || lia). destruct (Z.eqb_spec (0 + Z.of_nat k) count); [lia|done].
    + cbn. f_equal. rewrite rk_tail0, (ring_at_insert buf head tail count) by (done || lia). by rewrite Z.eqb_refl.
Qed.

Lemma ring_pop buf head tail count :
  ring_ok buf head tail count -> 0 < count ->
  ring_ok buf ((head + 1) mod N) tail (count - 1) /\
  ring_list buf head count = ring_at buf head 0 :: ring_list buf ((head + 1) mod N) (count - 1).
Proof.
  intros [] Hc. split.
  - split; try lia; [apply Z.mod_pos_bound; lia|]. rewrite Zplus_mod_idemp_l, rk_tail0. f_equal. lia.
  - unfold ring_list. rewrite seqZ_cons by lia. cbn [fmap list_fmap]. f_equal.
    replace (Z.pred count) with (count - 1) by lia. change (Z.succ 0) with (1 + 0). rewrite <- (fmap_add_seqZ 1 0), <- list_fmap_compose.
    apply list_fmap_ext. intros k i _. unfold compose, ring_at. do 3 f_equal. rewrite Zplus_mod_idemp_l. f_equal. lia.
Qed.

(** Overwriting the newest element. *)
Lemma ring_set_last buf head tail count e :
  ring_ok buf head tail count -> 0 < count ->
  let prev := if tail =? 0 then N - 1 else tail - 1 in
  ring_at buf head (count - 1) = default d (buf !! Z.to_nat prev) /\
  ring_ok (<[Z.to_nat prev := e]> buf) head tail count /\
  ring_list (<[Z.to_nat prev := e]> buf) head count = ring_list buf head (count - 1) ++ [e].
Proof.
  intros Hr Hc. pose proof Hr as []. cbv zeta.
  assert (E0 : (if tail =? 0 then N - 1 else tail - 1) = (head + (count - 1)) mod N).
  { destruct (Z.lt_ge_cases (head + count) N).
    - rewrite (Z.mod_small (head + count)) in rk_tail0 by lia. rewrite (Z.mod_small (head + (count - 1))) by lia.
      destruct (Z.eqb_spec tail 0); lia.
    - rewrite <- (Z.mod_unique (head + count) N 1 (head + count - N)) in rk_tail0 by lia.
      destruct (Z.eqb_spec tail 0).
      + rewrite Z.mod_small; lia.
      + apply (Z.mod_unique _ _ 1); lia. }
  rewrite E0. split; [done|]. split; [split; try lia; by rewrite length_insert|].
  unfold ring_list. replace count with (count - 1 + 1) at 2 by lia. rewrite seqZ_snoc, fmap_app by lia. f_equal.
  - apply list_fmap_ext. intros k i Hk. apply lookup_seqZ in Hk as [-> Hk].
    rewrite (ring_at_insert buf head tail count) by (done || lia). destruct (Z.eqb_spec (0 + Z.of_nat k) (count - 1)); [lia|done].
  - cbn. f_equal. rewrite (ring_at_insert buf head tail count) by (done || lia). by rewrite Z.eqb_refl.
Qed.
End Ring.

(** * The queue *)

Definition INPUT_EVENT_QUEUE_SIZE : Z := 64.

(** input_event_t without its time stamp, which is always 0. *)
Inductive input_event :=
  | KeyPress (key : Z)
  | KeyRelease (key : Z)
  | MouseMove (dx dy : Z)
  | MouseButton (button pressed : Z).

Inductive esc_state := ESC_STATE_IDLE | ESC_STATE_GOT_ESC | ESC_STATE_GOT_BRACKET | ESC_STATE_GOT_BRACKET_DIGIT.

Record input := Input {
  g_event_queue : list input_event;
  g_event_head : Z;
  g_event_tail : Z;
  g_event_count : Z;
  g_event_high_water : Z;
  g_event_overflow_count : Z;
  g_esc_state : esc_state;
  g_esc_digit : Z }.

Definition set_esc (q : input) (s : esc_state) : input :=
  Input (g_event_queue q) (g_event_head q) (g_event_tail q) (g_event_count q) (g_event_high_water q)
    (g_event_overflow_count q) s (g_esc_digit q).

Definition input_queue_init (q : input) : input := Input (g_event_queue q) 0 0 0 0 0 ESC_STATE_IDLE 0.

Definition input_queue_push (event : option input_event) (q : input) : Z * input :=
  match event with
  | None => (-1, q)
  | Some e =>
      if g_event_count q >=? INPUT_EVENT_QUEUE_SIZE then
        (-1, Input (g_event_queue q) (g_event_head q) (g_event_tail q) (g_event_count q) (g_event_high_water q)
               (u64 (g_event_overflow_count q + 1)) (g_esc_state q) (g_esc_digit q))
      else
        let count := u32 (g_event_count q + 1) in
        (0, Input (<[Z.to_nat (g_event_tail q) := e]> (g_event_queue q)) (g_event_head q)
              (u32 (g_event_tail q + 1) mod INPUT_EVENT_QUEUE_SIZE) count
              (if count >? g_event_high_water q then count else g_event_high_water q)
              (g_event_overflow_count q) (g_esc_state q) (g_esc_digit q))
  end.

(** The event slot at the head, and the queue without it. *)
Definition input_queue_poll (q : input) : option input_event * input :=
  if g_event_count q =? 0 then (None, q) else
  (Some (default (KeyPress 0) (g_event_queue q !! Z.to_nat (g_event_head q))),
    Input (g_event_queue q) (u32 (g_event_head q + 1) mod INPUT_EVENT_QUEUE_SIZE) (g_event_tail q)
      (g_event_count q - 1) (g_event_high_water q) (g_event_overflow_count q) (g_esc_state q) (g_esc_digit q)).

Definition input_queue_peek (q : input) : option input_event :=
  if g_event_count q =? 0 then None else Some (default (KeyPress 0) (g_event_queue q !! Z.to_nat (g_event_head q))).

Definition input_queue_poll_char (q : input) : Z * input :=
  match input_queue_poll q with
  | (Some (KeyPress key), q) => (Z.land key 0xff, q)
  | (_, q) => (-1, q)
  end.

Definition input_queue_available (q : input) : Z := g_event_count q.

(** overflow_count, current_depth, high_water *)
Definition input_queue_get_stats (q : input) : Z * Z * Z :=
  (g_event_overflow_count q, g_event_count q, g_event_high_water q).

(** * Keys *)

Inductive input_nav_key :=
  | INPUT_NAV_UP | INPUT_NAV_DOWN | INPUT_NAV_LEFT | INPUT_NAV_RIGHT | INPUT_NAV_PGUP | INPUT_NAV_PGDN
  | INPUT_NAV_HOME | INPUT_NAV_END | INPUT_NAV_INSERT | INPUT_NAV_DELETE.

Definition input_key_from_nav (nav : input_nav_key) : Z :=
  match nav with
  | INPUT_NAV_UP => 0x101 | INPUT_NAV_DOWN => 0x102 | INPUT_NAV_LEFT => 0x103 | INPUT_NAV_RIGHT => 0x104
  | INPUT_NAV_PGUP => 0x105 | INPUT_NAV_PGDN => 0x106 | INPUT_NAV_HOME => 0x107 | INPUT_NAV_END => 0x108
  | INPUT_NAV_INSERT => 0x109 | INPUT_NAV_DELETE => 0x10a
  end.

Definition input_key_from_ctrl_letter (letter : Z) : Z :=
  if (letter >=? 97) && (letter <=? 122) then letter - 97 + 1 else
  if (letter >=? 65) && (letter <=? 90) then letter - 65 + 1 else 0.

Definition push_key_event (key : Z) (q : input) : input := snd (input_queue_push (Some (KeyPress key)) q).

(** [switch (code)] on the final letter of [ESC \[ letter]. *)
Definition escape_key (code : Z) : option input_nav_key :=
  if code =? 65 then Some INPUT_NAV_UP else if code =? 66 then Some INPUT_NAV_DOWN else
  if code =? 67 then Some INPUT_NAV_RIGHT else if code =? 68 then Some INPUT_NAV_LEFT else
  if code =? 70 then Some INPUT_NAV_END else if code =? 72 then Some INPUT_NAV_HOME else None.

Definition push_escape_key (code : Z) (q : input) : input :=
  match escape_key code with Some nav => push_key_event (input_key_from_nav nav) q | None => q end.

(** [switch (digit)] of [ESC \[ digit ~]. *)
Definition escape_tilde (digit : Z) : option input_nav_key :=
  if (digit =? 49) || (digit =? 55) then Some INPUT_NAV_HOME else if digit =? 50 then Some INPUT_NAV_INSERT else
  if digit =? 51 then Some INPUT_NAV_DELETE else if (digit =? 52) || (digit =? 56) then Some INPUT_NAV_END else
  if digit =? 53 then Some INPUT_NAV_PGUP else if digit =? 54 then Some INPUT_NAV_PGDN else None.

Definition push_escape_tilde (digit : Z) (q : input) : input :=
  match escape_tilde digit with Some nav => push_key_event (input_key_from_nav nav) q | None => q end.

Definition set_digit (q : input) (c : Z) : input :=
  Input (g_event_queue q) (g_event_head q) (g_event_tail q) (g_event_count q) (g_event_high_water q)
    (g_event_overflow_count q) (g_esc_state q) (u8 c).

Definition input_inject_byte (c : Z) (q : input) : input :=
  match g_esc_state q with
  | ESC_STATE_IDLE => if c =? 0x1B then set_esc q ESC_STATE_GOT_ESC else push_key_event (u32 c) q
  | ESC_STATE_GOT_ESC =>
      if c =? 91 then set_esc q ESC_STATE_GOT_BRACKET else
      let q := push_key_event 0x1B (set_esc q ESC_STATE_IDLE) in
      if c =? 0x1B then set_esc q ESC_STATE_GOT_ESC else push_key_event (u32 c) q
  | ESC_STATE_GOT_BRACKET =>
      if (c >=? 48) && (c <=? 57) then set_digit (set_esc q ESC_STATE_GOT_BRACKET_DIGIT) c
      else push_escape_key (u8 c) (set_esc q ESC_STATE_IDLE)
  | ESC_STATE_GOT_BRACKET_DIGIT =>
      let q := set_esc q ESC_STATE_IDLE in
      if c =? 126 then push_escape_tilde (g_esc_digit q) q else q
  end.

(** * The queue is a bounded FIFO *)

Definition queue_ok (q : input) : Prop :=
  ring_ok 64 (g_event_queue q) (g_event_head q) (g_event_tail q) (g_event_count q).

Definition queued (q : input) : list input_event :=
  ring_list (KeyPress 0) 64 (g_event_queue q) (g_event_head q) (g_event_count q).

Lemma push_ok e q :
  queue_ok q ->
  let '(status, q') := input_queue_push (Some e) q in
  queue_ok q' /\ g_esc_state q' = g_esc_state q /\ g_esc_digit q' = g_esc_digit q /\
  ((status = 0 /\ (length (queued q) < 64)%nat /\ queued q' = queued q ++ [e]) \/
   (status = -1 /\ length (queued q) = 64%nat /\ queued q' = queued q)).
Proof.
  intros Hq. pose proof Hq as []. unfold input_queue_push, INPUT_EVENT_QUEUE_SIZE, queued in *.
  pose proof (ring_length (KeyPress 0) 64 _ _ _ _ Hq) as Hlen.
  destruct (Z.geb_spec (g_event_count q) 64).
  - split; [done|]. split_and!; try done. right. split_and!; try done. rewrite Hlen. lia.
  - assert (Ht : 0 <= g_event_tail q < 64) by (rewrite rk_tail0; apply Z.mod_pos_bound; lia).
    destruct (ring_push (KeyPress 0) 64 _ _ _ _ e Hq ltac:(lia)) as [Hok Hl]. unfold u32.
    rewrite (Z.mod_small (g_event_count q + 1)), (Z.mod_small (g_event_tail q + 1)) by lia.
    cbn [g_event_queue g_event_head g_event_tail g_event_count g_esc_state g_esc_digit].
    split; [exact Hok|]. split_and!; try done. left. split_and!; try done. lia.
Qed.

Lemma poll_ok q :
  queue_ok q ->
  let '(r, q') := input_queue_poll q in
  queue_ok q' /\ g_esc_state q' = g_esc_state q /\ g_esc_digit q' = g_esc_digit q /\
  match queued q with [] => r = None /\ q' = q | e :: l => r = Some e /\ queued q' = l end.
Proof.
  intros Hq. pose proof Hq as []. unfold input_queue_poll, INPUT_EVENT_QUEUE_SIZE, queued in *.
  destruct (Z.eqb_spec (g_event_count q) 0) as [E|E].
  - rewrite E. by split_and!.
  - destruct (ring_pop (KeyPress 0) 64 _ _ _ _ Hq ltac:(lia)) as [Hok ->]. unfold u32.
    rewrite (Z.mod_small (g_event_head q + 1)) by lia.
    cbn [g_event_queue g_event_head g_event_tail g_event_count g_esc_state g_esc_digit].
    split; [exact Hok|]. split_and!; try done. unfold ring_at. rewrite Z.add_0_r, Z.mod_small by lia. done.
Qed.

(** ** Runs *)

Inductive input_op := OpPush (e : input_event) | OpPoll.

(** What the queue answers, and what a FIFO of at most 64 events answers. *)
Definition run_input (q : input) (o : input_op) : option (option input_event) * input :=
  match o with
  | OpPush e => let '(status, q) := input_queue_push (Some e) q in (if status =? 0 then Some None else None, q)
  | OpPoll => let '(r, q) := input_queue_poll q in (match r with Some e => Some (Some e) | None => None end, q)
  end.

Definition run_fifo (l : list input_event) (o : input_op) : option (option input_event) * list input_event :=
  match o with
  | OpPush e => if bool_decide (length l < 64)%nat then (Some None, l ++ [e]) else (None, l)
  | OpPoll => match l with [] => (None, []) | e :: l => (Some (Some e), l) end
  end.

Fixpoint answers {S O} (step : S -> O -> option (option input_event) * S) (s : S) (os : list O)
    : list (option (option input_event)) :=
  match os with [] => [] | o :: os' => let '(a, s) := step s o in a :: answers step s os' end.

Lemma run_input_refines q o :
  queue_ok q -> let '(a, q') := run_input q o in run_fifo (queued q) o = (a, queued q') /\ queue_ok q'.
Proof.
  intros Hq. destruct o as [e|]; cbn [run_input run_fifo].
  - pose proof (push_ok e q Hq) as Hp. destruct (input_queue_push (Some e) q) as [s q'].
    destruct Hp as (Hq' & _ & _ & [(-> & Hl & ->)|(-> & Hl & ->)]).
    + by rewrite bool_decide_true.
    + rewrite bool_decide_false by lia. done.
  - pose proof (poll_ok q Hq) as Hp. destruct (input_queue_poll q) as [r q']. destruct Hp as (Hq' & _ & _ & Hp).
    destruct (queued q) as [|e l] eqn:E; destruct Hp as [-> Hp].
    + rewrite Hp, E. split; [done|congruence].
    + by rewrite Hp.
Qed.

(** ** The decoder *)

(** The keys that a byte of terminal input produces, and the decoder's next
    state: a Mealy machine. *)
Definition decode (s : esc_state * Z) (c : Z) : list Z * (esc_state * Z) :=
  let '(st, digit) := s in
  match st with
  | ESC_STATE_IDLE => if c =? 0x1B then ([], (ESC_STATE_GOT_ESC, digit)) else ([c], (ESC_STATE_IDLE, digit))
  | ESC_STATE_GOT_ESC =>
      if c =? 91 then ([], (ESC_STATE_GOT_BRACKET, digit)) else
      if c =? 0x1B then ([0x1B], (ESC_STATE_GOT_ESC, digit)) else ([0x1B; c], (ESC_STATE_IDLE, digit))
  | ESC_STATE_GOT_BRACKET =>
      if (c >=? 48) && (c <=? 57) then ([], (ESC_STATE_GOT_BRACKET_DIGIT, c))
      else (input_key_from_nav <$> option_list (escape_key c), (ESC_STATE_IDLE, digit))
  | ESC_STATE_GOT_BRACKET_DIGIT =>
      (if c =? 126 then input_key_from_nav <$> option_list (escape_tilde digit) else [], (ESC_STATE_IDLE, digit))
  end.

Fixpoint decode_all (s : esc_state * Z) (cs : list Z) : list Z :=
  match cs with [] => [] | c :: cs' => let '(ks, s) := decode s c in ks ++ decode_all s cs' end.

(** Pushing keys into a queue with room. *)
Lemma push_key_ok k q :
  queue_ok q -> (length (queued q) < 64)%nat ->
  queue_ok (push_key_event k q) /\ queued (push_key_event k q) = queued q ++ [KeyPress k] /\
  g_esc_state (push_key_event k q) = g_esc_state q /\ g_esc_digit (push_key_event k q) = g_esc_digit q.
Proof.
  intros Hq Hl. pose proof (push_ok (KeyPress k) q Hq) as Hp. unfold push_key_event.
  destruct (input_queue_push (Some (KeyPress k)) q) as [s q'].
  destruct Hp as (Hq' & ? & ? & [(_ & _ & ?)|(_ & ? & _)]); [done|lia].
Qed.

Lemma inject_ok c q :
  queue_ok q -> (length (queued q) <= 62)%nat -> 0 <= c < 256 ->
  let '(ks, s) := decode (g_esc_state q, g_esc_digit q) c in
  queue_ok (input_inject_byte c q) /\ queued (input_inject_byte c q) = queued q ++ (KeyPress <$> ks) /\
  (g_esc_state (input_inject_byte c q), g_esc_digit (input_inject_byte c q)) = s.
Proof.
  intros Hq Hl Hc. unfold input_inject_byte, decode.
  assert (Eu : u32 c = c) by (unfold u32; apply Z.mod_small; lia). assert (E8 : u8 c = c) by (unfold u8; apply Z.mod_small; lia).
  assert (Hs : forall s, queue_ok (set_esc q s) /\ queued (set_esc q s) = queued q) by done.
  assert (Hopt : forall o s, let q' := match o with Some nav => push_key_event (input_key_from_nav nav) (set_esc q s) | None => set_esc q s end in
    queue_ok q' /\ queued q' = queued q ++ (KeyPress <$> (input_key_from_nav <$> option_list o)) /\
    (g_esc_state q', g_esc_digit q') = (s, g_esc_digit q)).
  { intros [nav|] s; cbv zeta; cbn [option_list fmap list_fmap].
    - destruct (push_key_ok (input_key_from_nav nav) (set_esc q s)) as (H1 & H2 & H3 & H4);
        [done|rewrite (proj2 (Hs s)); lia|].
      rewrite H2, H3, H4. done.
    - by rewrite app_nil_r. }
  destruct (g_esc_state q) eqn:Es; rewrite ?Eu, ?E8.
  - destruct (c =? 27); [by rewrite app_nil_r|].
    destruct (push_key_ok c q) as (H1 & -> & H3 & H4); [done|lia|]. rewrite H3, H4, Es. done.
  - destruct (c =? 91); [by rewrite app_nil_r|].
    destruct (push_key_ok 27 (set_esc q ESC_STATE_IDLE)) as (H1 & H2 & H3 & H4);
      [done|rewrite (proj2 (Hs _)); lia|].
    change (queued (set_esc q ESC_STATE_IDLE)) with (queued q) in H2. cbn [set_esc g_esc_state g_esc_digit] in H3, H4.
    destruct (c =? 27).
    + split; [done|]. split; [exact H2|]. cbn [set_esc g_esc_state g_esc_digit]. by rewrite H4.
    + destruct (push_key_ok c (push_key_event 27 (set_esc q ESC_STATE_IDLE))) as (G1 & G2 & G3 & G4);
        [done|rewrite H2, length_app; cbn; lia|]. rewrite G2, G3, G4, H2, H3, H4. by rewrite <- app_assoc.
  - destruct ((c >=? 48) && (c <=? 57)).
    + rewrite app_nil_r. split_and!; try done. cbn [set_digit g_esc_state g_esc_digit set_esc]. by rewrite E8.
    + apply Hopt.
  - destruct (c =? 126).
    + apply Hopt.
    + rewrite app_nil_r. done.
Qed.

Lemma inject_all_ok cs : forall q,
  queue_ok q -> (length (queued q) + 2 * length cs <= 64)%nat -> Forall (fun c => 0 <= c < 256) cs ->
  queued (foldl (fun q c => input_inject_byte c q) q cs) =
    queued q ++ (KeyPress <$> decode_all (g_esc_state q, g_esc_digit q) cs).
Proof.
  induction cs as [|c cs IH]; intros q Hq Hl Hf; cbn [foldl decode_all]; [by rewrite app_nil_r|].
  apply Forall_cons in Hf as [Hc Hcs]. pose proof (inject_ok c q Hq) as Hi. cbn [length] in Hl.
  assert (Hks : (length (fst (decode (g_esc_state q, g_esc_digit q) c)) <= 2)%nat).
  { unfold decode. destruct (g_esc_state q); repeat case_match; cbn; try lia;
      match goal with |- context [option_list ?o] => destruct o; cbn; lia end. }
  destruct (decode (g_esc_state q, g_esc_digit q) c) as [ks s]. cbn [fst] in Hks.
  destruct Hi as (H1 & H2 & <-); [lia|done|]. rewrite IH; [|done| |done].
  - by rewrite H2, fmap_app, app_assoc.
  - rewrite H2, length_app, length_fmap. lia.
Qed.

Lemma answers_refine os : forall q, queue_ok q -> answers run_input q os = answers run_fifo (queued q) os.
Proof.
  induction os as [|o os IH]; intros q Hq; [done|]. cbn [answers]. pose proof (run_input_refines q o Hq) as Hr.
  destruct (run_input q o) as [a q']. destruct Hr as [-> Hq']. f_equal. by apply IH.
Qed.

(** * Properties *)

(** after input_queue_init, every sequence of pushes and polls is answered
    as by a FIFO of at most 64 events: a full queue rejects the new event, an
    empty one has nothing to poll, and nothing is lost or reordered. *)
Theorem input_queue_fifo q os :
  length (g_event_queue q) = 64%nat -> answers run_input (input_queue_init q) os = answers run_fifo [] os.
Proof.
  intros Hl. assert (Hq : queue_ok (input_queue_init q)) by (split; cbn; lia || done). by rewrite answers_refine.
Qed.

Lemma input_queue_fifo_witness :
  let q := Input (replicate 64 (KeyPress 9)) 7 3 60 64 5 ESC_STATE_GOT_ESC 3 in
  answers run_input (input_queue_init q) [OpPoll; OpPush (KeyPress 65); OpPush (MouseMove 1 (-1)); OpPoll; OpPoll; OpPoll] =
  [None; Some None; Some None; Some (Some (KeyPress 65)); Some (Some (MouseMove 1 (-1))); None].
Proof. intros q. rewrite (input_queue_fifo q) by reflexivity. vm_compute. reflexivity. Defined.

(** while the queue has room, the bytes of the terminal are delivered as
    the keys the escape decoder gives for them, in order: plain bytes as
    themselves, cursor and editing sequences as one navigation key, and an
    ESC that starts no sequence as itself. *)
Theorem input_decodes cs q :
  queue_ok q -> (length (queued q) + 2 * length cs <= 64)%nat -> Forall (fun c => 0 <= c < 256) cs ->
  queued (foldl (fun q c => input_inject_byte c q) q cs) =
    queued q ++ (KeyPress <$> decode_all (g_esc_state q, g_esc_digit q) cs).
Proof. intros. by apply inject_all_ok. Qed.

Lemma input_decodes_witness :
  let q := Input (replicate 64 (KeyPress 0)) 0 0 0 0 0 ESC_STATE_IDLE 0 in
  queued (foldl (fun q c => input_inject_byte c q) q [97; 27; 91; 65; 27; 91; 53; 126; 27; 98]) =
  [KeyPress 97; KeyPress 0x101; KeyPress 0x105; KeyPress 27; KeyPress 98].
Proof.
  intros q. rewrite (input_decodes _ q); [vm_compute; reflexivity|split; cbn; lia || reflexivity|apply Nat.leb_le; vm_compute; reflexivity|].
  repeat constructor; lia.
Defined.
