(* ===== verification/UserCopy.v ===== *)
(** The user boundary: kernel/syscall_helpers.c.

    A system call runs on the address space of the process that made it, so a
    user pointer is dereferenced through the page table in TTBR0.  [user_load]
    and [user_store] are those accesses: [None] is the data abort the
    processor raises when the page is not mapped (or, for a store, is read
    only).  Every function that copies returns [None] when it faults. *)

From S2P Require Import Prelude.
From S2P Require Import PageAlloc.
From S2P Require Import Pmm.
From S2P Require Import Vmm.
From S2P Require Import ProcessRegions.
From S2P Require Import UserVm.
From S2P Require Import Bytes.
Open Scope arm.

Definition ERR_NOENT : Z := -3.
Definition ERR_BADF : Z := -5.
Definition ERR_INVAL : Z := -7.
Definition ERR_AGAIN : Z := -11.
Definition ERR_PERM : Z := -13.

Definition USER_PTE_VALID : Z := Z.shiftl 1 0.
Definition USER_PTE_PAGE : Z := Z.shiftl 1 1.
Definition USER_PTE_AP_USER : Z := Z.shiftl 1 6.
Definition USER_PTE_AP_RO : Z := Z.shiftl 1 7.

Definition PANEL_BOOT_ARGV_MAX_STRINGS : Z := 8.
Definition PANEL_BOOT_ARGV_MAX_BYTES : Z := 256.

Record panel_boot_argv := PanelArgv { av_offsets : list Z; av_bytes_used : Z; av_bytes : list Z }.

(** * Accesses through TTBR0 *)

(** The byte at [a] of its little-endian word. *)
Definition rd8 (m : gmap Z Z) (a : Z) : Z := Z.land (Z.shiftr (rd64 m (a - a mod 8)) (8 * (a mod 8))) 255.

Section Access.
Context {A : Type} `{PageAllocator A}.
Implicit Types (st : mach A).

(** The translation of a virtual address; TTBR0 covers the low 2^48 bytes. *)
Definition translate st (tt v : Z) : option Z :=
  let e := vmm_leaf_entry st tt v in
  if (v <? 2 ^ 48) && (e &? DESC_VALID) && (e &? DESC_PAGE) then Some (vmm_virt_to_phys st tt v) else None.

Definition user_load st (tt v : Z) : option Z := rd8 (m_ram st) <$> translate st tt v.

Definition user_store st (tt v b : Z) : option (mach A) :=
  if vmm_leaf_entry st tt v &? DESC_AP_RO then None
  else (fun a => Mach (m_pa st) (wr8 (m_ram st) a b)) <$> translate st tt v.

(** * Validation *)

(** [for (;;)] over the pages of the buffer. *)
Fixpoint page_loop (fuel : nat) st (pgd page last_page : Z) (require_write : bool) : Z :=
  match fuel with
  | O => ERR_INVAL
  | S fuel' =>
      let entry := vmm_leaf_entry st pgd page in
      if negb (Z.land entry (Z.lor USER_PTE_VALID USER_PTE_PAGE) =? Z.lor USER_PTE_VALID USER_PTE_PAGE) ||
         (Z.land entry USER_PTE_AP_USER =? 0) then ERR_INVAL else
      if require_write && negb (Z.land entry USER_PTE_AP_RO =? 0) then ERR_PERM else
      if page =? last_page then 0 else
      if page >? UINT64_MAX - PAGE_SIZE then ERR_INVAL else
      page_loop fuel' st pgd (page + PAGE_SIZE) last_page require_write
  end.

(** A buffer of [len] bytes touches at most [len / 4096 + 2] pages. *)
Definition page_fuel (len : Z) : nat := Z.to_nat (len / PAGE_SIZE + 2).

Definition user_buf_range st (process : option process) (ptr len : Z) (require_write : bool) : Z :=
  match process with
  | None => ERR_INVAL
  | Some p =>
      if (ptr =? 0) && negb (len =? 0) then ERR_INVAL else
      if len =? 0 then 0 else
      if negb (process_user_range_contains p ptr len) || (page_table p =? 0) ||
         (ptr >? UINT64_MAX - (len - 1)) then ERR_INVAL else
      let last := u64 (ptr + len - 1) in
      let page := Z.land ptr (not64 (PAGE_SIZE - 1)) in
      let last_page := Z.land last (not64 (PAGE_SIZE - 1)) in
      page_loop (page_fuel len) st (page_table p) page last_page require_write
  end.

Definition sys_user_buf_in st process ptr len : Z := user_buf_range st process ptr len false.
Definition sys_user_buf_out st process ptr len : Z := user_buf_range st process ptr len true.

(** * Copies *)

(** [for (i = 0; i < len; i++) dst[i] = src[i];] from user memory. *)
Fixpoint copy_in (n : nat) st (tt ptr : Z) (dst : list Z) (doff i : Z) : option (list Z) :=
  match n with
  | O => Some dst
  | S n' =>
      match user_load st tt (u64 (ptr + i)) with
      | None => None
      | Some b => copy_in n' st tt ptr (put (doff + i) b dst) doff (i + 1)
      end
  end.

(** The same into user memory. *)
Fixpoint copy_out (n : nat) (tt ptr : Z) (src : list Z) (i : Z) st : option (mach A) :=
  match n with
  | O => Some st
  | S n' =>
      match user_store st tt (u64 (ptr + i)) (u8 (byte_at src i)) with
      | None => None
      | Some st => copy_out n' tt ptr src (i + 1) st
      end
  end.

(** [out] is a kernel buffer, to be filled from offset [doff] on. *)
Definition sys_copy_from_user st (tt : Z) process (out : option (list Z)) (doff ptr len : Z)
    : option (Z * option (list Z)) :=
  if bool_decide (out = None) && negb (len =? 0) then Some (ERR_INVAL, out) else
  let status := sys_user_buf_in st process ptr len in
  if negb (status =? 0) then Some (status, out) else
  match out with
  | None => Some (0, None)
  | Some dst =>
      match copy_in (Z.to_nat len) st tt ptr dst doff 0 with
      | None => None
      | Some dst => Some (0, Some dst)
      end
  end.

Definition sys_copy_to_user st (tt : Z) process (ptr : Z) (input : option (list Z)) (len : Z)
    : option (Z * mach A) :=
  if bool_decide (input = None) && negb (len =? 0) then Some (ERR_INVAL, st) else
  let status := sys_user_buf_out st process ptr len in
  if negb (status =? 0) then Some (status, st) else
  match copy_out (Z.to_nat len) tt ptr (default [] input) 0 st with
  | None => None
  | Some st => Some (0, st)
  end.

(** [for (i = 0; i < capacity; i++)]: byte by byte up to the terminator. *)
Fixpoint cstr_loop (n : nat) st (tt : Z) process (ptr : Z) (out : list Z) (doff i : Z) : option (Z * list Z) :=
  match n with
  | O => Some (ERR_INVAL, out)
  | S n' =>
      if ptr >? UINT64_MAX - i then Some (ERR_INVAL, out) else
      match sys_copy_from_user st tt process (Some out) (doff + i) (ptr + i) 1 with
      | None => None
      | Some (status, copied) =>
          let out := default out copied in
          if negb (status =? 0) then Some (ERR_INVAL, out) else
          if byte_at out (doff + i) =? 0 then Some (0, out) else
          cstr_loop n' st tt process ptr out doff (i + 1)
      end
  end.

Definition sys_user_copy_cstr st (tt : Z) process (ptr : Z) (out : option (list Z)) (doff capacity : Z)
    : option (Z * option (list Z)) :=
  match out with
  | None => Some (ERR_INVAL, out)
  | Some buf =>
      if bool_decide (process = None) || (ptr =? 0) || (capacity =? 0) then Some (ERR_INVAL, out) else
      match cstr_loop (Z.to_nat capacity) st tt process ptr buf doff 0 with
      | None => None
      | Some (status, buf) => Some (status, Some buf)
      end
  end.

(** [while (bytes[used++] != 0)] *)
Fixpoint skip_string (fuel : nat) (bytes : list Z) (used : Z) : Z :=
  match fuel with
  | O => used
  | S fuel' => if byte_at bytes used =? 0 then used + 1 else skip_string fuel' bytes (used + 1)
  end.

(** A little-endian 64-bit object from its bytes. *)
Fixpoint le_value (bs : list Z) : Z := match bs with [] => 0 | b :: bs' => b + 256 * le_value bs' end.

Fixpoint argv_loop (n : nat) st (tt : Z) process (argv_ptr : Z) (argv : panel_boot_argv) (i used : Z)
    : option (Z * Z * panel_boot_argv) :=
  match n with
  | O => Some (0, used, argv)
  | S n' =>
      let offset := i * 8 in
      if argv_ptr >? UINT64_MAX - offset then Some (ERR_INVAL, used, argv) else
      match sys_copy_from_user st tt process (Some (replicate 8 0)) 0 (argv_ptr + offset) 8 with
      | None => None
      | Some (status, word) =>
          let user_pointer := le_value (default [] word) in
          if negb (status =? 0) || (user_pointer =? 0) || (used >=? PANEL_BOOT_ARGV_MAX_BYTES)
          then Some (ERR_INVAL, used, argv) else
          let argv := PanelArgv (put i (used mod 2 ^ 16) (av_offsets argv)) (av_bytes_used argv) (av_bytes argv) in
          match sys_user_copy_cstr st tt process user_pointer (Some (av_bytes argv)) used
                  (PANEL_BOOT_ARGV_MAX_BYTES - used) with
          | None => None
          | Some (status, bytes) =>
              let argv := PanelArgv (av_offsets argv) (av_bytes_used argv) (default (av_bytes argv) bytes) in
              if negb (status =? 0) then Some (status, used, argv) else
              argv_loop n' st tt process argv_ptr argv (i + 1)
                (skip_string (Z.to_nat PANEL_BOOT_ARGV_MAX_BYTES) (av_bytes argv) used)
          end
      end
  end.

Definition sys_copy_argv_from_user st (tt : Z) process (argv_ptr argc : Z) (kernel_argv : option panel_boot_argv)
    : option (Z * option panel_boot_argv) :=
  match kernel_argv with
  | None => Some (ERR_INVAL, None)
  | Some argv =>
      if bool_decide (process = None) || (argc >? PANEL_BOOT_ARGV_MAX_STRINGS) ||
         ((argc =? 0) && negb (argv_ptr =? 0)) || (negb (argc =? 0) && (argv_ptr =? 0))
      then Some (ERR_INVAL, kernel_argv) else
      match argv_loop (Z.to_nat argc) st tt process argv_ptr argv 0 0 with
      | None => None
      | Some (status, used, argv) =>
          if negb (status =? 0) then Some (status, Some argv)
          else Some (0, Some (PanelArgv (av_offsets argv) (used mod 2 ^ 16) (av_bytes argv)))
      end
  end.
End Access.

(** * Bytes of RAM *)

Lemma rd8_bits m a i : 0 <= i -> Z.testbit (rd8 m a) i = (i <? 8) && Z.testbit (rd64 m (a - a mod 8)) (8 * (a mod 8) + i).
Proof.
  intros Hi. unfold rd8. pose proof (Z.mod_pos_bound a 8). rewrite Z.land_spec, Z.shiftr_spec by lia.
  change 255 with (Z.ones 8). destruct (Z.ltb_spec i 8).
  - rewrite Z.ones_spec_low by lia. rewrite andb_true_r. cbn [andb]. f_equal. lia.
  - rewrite Z.ones_spec_high by lia. by rewrite andb_false_r.
Qed.

Lemma rd8_range m a : 0 <= rd8 m a < 256.
Proof. unfold rd8. change 255 with (Z.ones 8). rewrite Z.land_ones by lia. apply Z.mod_pos_bound. lia. Qed.

Lemma byte_bits b i : 0 <= b < 256 -> 8 <= i -> Z.testbit b i = false.
Proof.
  intros Hb Hi. destruct (Z.eq_dec b 0) as [->|]; [apply Z.bits_0|]. apply Z.bits_above_log2; [lia|].
  apply Z.log2_lt_pow2; [lia|]. apply Z.lt_le_trans with (2 ^ 8); [lia|]. apply Z.pow_le_mono_r; lia.
Qed.

Lemma rd8_wr8 m a b v : 0 <= v < 256 -> rd8 (wr8 m a v) b = if a =? b then v else rd8 m b.
Proof.
  intros Hv. pose proof (Z.mod_pos_bound a 8). pose proof (Z.mod_pos_bound b 8).
  apply Z.bits_inj'. intros i Hi. rewrite rd8_bits by done. destruct (Z.ltb_spec i 8) as [Hi8|Hi8].
  2: { cbn [andb]. destruct (a =? b); [by rewrite byte_bits|]. rewrite rd8_bits by done. by destruct (Z.ltb_spec i 8); [lia|]. }
  cbn [andb]. unfold wr8. destruct (Z.eq_dec (a - a mod 8) (b - b mod 8)) as [E|E].
  - rewrite <- E, rd64_wr64_eq, Z.lor_spec, Z.land_spec, testbit_not64, !Z.shiftl_spec by lia.
    destruct (Z.ltb_spec (8 * (b mod 8) + i) 64); [|lia]. change 255 with (Z.ones 8). destruct (Z.eqb_spec a b) as [->|Hne].
    + rewrite Z.ones_spec_low by lia. rewrite andb_false_r. cbn [orb]. f_equal. lia.
    + assert (a mod 8 <> b mod 8) by lia. destruct (Z.lt_ge_cases (b mod 8) (a mod 8)).
      * rewrite (Z.testbit_neg_r (Z.ones 8)), (Z.testbit_neg_r v) by lia. cbn [negb andb]. rewrite andb_true_r, orb_false_r, rd8_bits by done.
        rewrite E. by destruct (Z.ltb_spec i 8); [|lia].
      * rewrite Z.ones_spec_high, (byte_bits v) by lia. cbn [negb andb]. rewrite andb_true_r, orb_false_r, rd8_bits by done.
        rewrite E. by destruct (Z.ltb_spec i 8); [|lia].
  - rewrite rd64_wr64_ne by lia. destruct (Z.eqb_spec a b) as [->|]; [done|]. rewrite rd8_bits by done.
    by destruct (Z.ltb_spec i 8); [|lia].
Qed.

(** * Which buffers are accepted *)

Section Validation.
Context {A : Type} `{PageAllocatorLaws A}.
Implicit Types (st : mach A) (p : process) (L : gmap Z nat).

(** EL0 may read (and, with [w], write) the page of [v]. *)
Definition el0_access st (pgd : Z) (w : bool) (v : Z) : Prop :=
  let e := vmm_leaf_entry st pgd v in
  e &? DESC_VALID = true /\ e &? DESC_PAGE = true /\ e &? DESC_AP_USER = true /\ (w = true -> e &? DESC_AP_RO = false).

Lemma pte_present e :
  (Z.land e (Z.lor USER_PTE_VALID USER_PTE_PAGE) =? Z.lor USER_PTE_VALID USER_PTE_PAGE) =
  (e &? DESC_VALID) && (e &? DESC_PAGE).
Proof.
  change (e &? DESC_VALID) with (e_valid e). change (e &? DESC_PAGE) with (e_table e).
  rewrite e_valid_bit, e_table_bit. change (Z.lor USER_PTE_VALID USER_PTE_PAGE) with (2 ^ 2 - 1).
  rewrite land_low_mask by lia. apply eq_true_iff_eq. rewrite Z.eqb_eq, andb_true_iff. split.
  - intros E. rewrite <- (Z.mod_pow2_bits_low e 2 0), <- (Z.mod_pow2_bits_low e 2 1) by lia. rewrite E. done.
  - intros [Hx0 Hx1]. apply Z.bits_inj'. intros i Hi. destruct (Z.lt_ge_cases i 2).
    + rewrite Z.mod_pow2_bits_low by lia. assert (i = 0 \/ i = 1) as [->| ->] by lia; [by rewrite Hx0|by rewrite Hx1].
    + rewrite Z.mod_pow2_bits_high by lia. symmetry. change (2 ^ 2 - 1) with (Z.ones 2). by rewrite Z.ones_spec_high by lia.
Qed.

(** The outcome of the check of one page. *)
Lemma page_check st pgd page (w : bool) :
  (negb (Z.land (vmm_leaf_entry st pgd page) (Z.lor USER_PTE_VALID USER_PTE_PAGE) =? Z.lor USER_PTE_VALID USER_PTE_PAGE) ||
     (Z.land (vmm_leaf_entry st pgd page) USER_PTE_AP_USER =? 0) = false /\
   w && negb (Z.land (vmm_leaf_entry st pgd page) USER_PTE_AP_RO =? 0) = false) <-> el0_access st pgd w page.
Proof.
  rewrite pte_present. unfold el0_access, has_bits.
  change USER_PTE_AP_USER with DESC_AP_USER. change USER_PTE_AP_RO with DESC_AP_RO.
  set (e := vmm_leaf_entry st pgd page).
  destruct (Z.land e DESC_VALID =? 0), (Z.land e DESC_PAGE =? 0), (Z.land e DESC_AP_USER =? 0), w,
    (Z.land e DESC_AP_RO =? 0); cbn; naive_solver.
Qed.

Lemma page_loop_spec pgd w st n : forall fuel page,
  0 <= n -> (Z.to_nat n < fuel)%nat -> 0 <= page -> page + n * 4096 < 2 ^ 64 ->
  let r := page_loop fuel st pgd page (page + n * 4096) w in
  (r = 0 \/ r = ERR_INVAL \/ (r = ERR_PERM /\ w = true)) /\
  (r = 0 <-> forall k, 0 <= k <= n -> el0_access st pgd w (page + k * 4096)).
Proof.
  intros fuel page Hn. revert page fuel.
  apply (natlike_ind (fun n => forall page fuel, (Z.to_nat n < fuel)%nat -> 0 <= page -> page + n * 4096 < 2 ^ 64 ->
    let r := page_loop fuel st pgd page (page + n * 4096) w in
    (r = 0 \/ r = ERR_INVAL \/ (r = ERR_PERM /\ w = true)) /\
    (r = 0 <-> forall k, 0 <= k <= n -> el0_access st pgd w (page + k * 4096)))); [| |done]; clear n Hn.
  - intros page [|fuel] Hf Hp Hx; [lia|]. cbv zeta. cbn [page_loop]. pose proof (page_check st pgd page w) as Hc.
    assert (Hk : (forall k, 0 <= k <= 0 -> el0_access st pgd w (page + k * 4096)) <-> el0_access st pgd w page).
    { split; [intros Hk; specialize (Hk 0); rewrite Z.mul_0_l, Z.add_0_r in Hk; apply Hk; lia|].
      intros Ha k Hk. replace k with 0 by lia. by rewrite Z.mul_0_l, Z.add_0_r. }
    rewrite Hk, <- Hc. destruct (_ || _); [split; [by auto|]; unfold ERR_INVAL; naive_solver lia|].
    destruct (w && _) eqn:Ew; [split; [apply andb_prop in Ew as [-> _]; by auto|]; unfold ERR_PERM; naive_solver lia|].
    rewrite Z.mul_0_l, Z.add_0_r, Z.eqb_refl. naive_solver.
  - intros n Hn IH page [|fuel] Hf Hp Hx; [lia|]. cbv zeta. cbn [page_loop]. pose proof (page_check st pgd page w) as Hc.
    rewrite Z.mul_succ_l in Hx |- *.
    specialize (IH (page + 4096) fuel ltac:(lia) ltac:(lia) ltac:(lia)). cbv zeta in IH.
    replace (page + 4096 + n * 4096) with (page + (n * 4096 + 4096)) in IH by lia.
    assert (Hk : (forall k, 0 <= k <= Z.succ n -> el0_access st pgd w (page + k * 4096)) <->
      el0_access st pgd w page /\ (forall k, 0 <= k <= n -> el0_access st pgd w (page + 4096 + k * 4096))).
    { split.
      - intros Hk. split; [specialize (Hk 0); rewrite Z.mul_0_l, Z.add_0_r in Hk; apply Hk; lia|].
        intros k Hk'. replace (page + 4096 + k * 4096) with (page + (k + 1) * 4096) by lia. apply Hk. lia.
      - intros [Hx0 Hx1] k Hk. destruct (Z.eq_dec k 0) as [->|]; [by rewrite Z.mul_0_l, Z.add_0_r|].
        replace (page + k * 4096) with (page + 4096 + (k - 1) * 4096) by lia. apply Hx1. lia. }
    rewrite Hk, <- Hc. destruct (_ || _); [split; [by auto|]; unfold ERR_INVAL; naive_solver lia|].
    destruct (w && _) eqn:Ew; [split; [apply andb_prop in Ew as [-> _]; by auto|]; unfold ERR_PERM; naive_solver lia|].
    destruct (Z.eqb_spec page (page + (n * 4096 + 4096))); [lia|]. change PAGE_SIZE with 4096. unfold UINT64_MAX.
    destruct (Z.gtb_spec page (2 ^ 64 - 1 - 4096)); [lia|]. naive_solver.
Qed.

(** The buffers a process may hand to the kernel. *)
Definition buf_ok st p (w : bool) (ptr len : Z) : Prop :=
  len = 0 \/
  (0 < ptr /\ 0 < len /\ valid_range ptr len /\
   (exists k r, live p !! k = Some r /\ r_start r <= ptr /\ ptr + len <= r_end r) /\
   forall v, ptr <= v < ptr + len -> el0_access st (page_table p) w v).

Lemma el0_access_page st pgd L w v v' :
  pt_inv st pgd L -> v / 4096 = v' / 4096 -> el0_access st pgd w v <-> el0_access st pgd w v'.
Proof. intros Hi E. unfold el0_access. rewrite (leaf_entry_vpn st pgd L v v') by (done || unfold vpn; by rewrite E). done. Qed.

Lemma user_buf_range_spec st p L (w : bool) ptr len :
  pt_inv st (page_table p) L -> regions_wf p -> is_u64 ptr -> is_u64 len ->
  let r := user_buf_range st (Some p) ptr len w in
  (r = 0 \/ r = ERR_INVAL \/ (r = ERR_PERM /\ w = true)) /\ (r = 0 <-> buf_ok st p w ptr len).
Proof.
  intros Hi Hw Hp Hl. unfold is_u64 in *. cbv zeta. unfold user_buf_range, buf_ok.
  assert (Hbad : forall P : Prop, ~ P -> (ERR_INVAL = 0 \/ ERR_INVAL = ERR_INVAL \/ (ERR_INVAL = ERR_PERM /\ w = true)) /\ (ERR_INVAL = 0 <-> P)).
  { intros P HP. split; [by auto|]. split; [done|by intros ?%HP]. }
  destruct (Z.eqb_spec len 0) as [->|Hnz].
  { rewrite andb_false_r. split; [by left|]. split; [by left|done]. }
  destruct (Z.eqb_spec ptr 0) as [->|Hpz]; cbn [negb andb]; [apply Hbad; lia|].
  pose proof (process_user_range_contains_spec p ptr len Hw Hp Hl) as Hc.
  destruct (process_user_range_contains p ptr len); cbn [negb orb].
  2: { apply Hbad. intros [?|(_ & _ & Hv & Hr & _)]; [lia|]. enough (false = true) by done. apply Hc. right. by split. }
  assert (Hr : valid_range ptr len /\ exists k r, live p !! k = Some r /\ r_start r <= ptr /\ ptr + len <= r_end r).
  { destruct (proj1 Hc eq_refl) as [?|?]; [lia|done]. }
  destruct Hr as [[Hl0 Hend] Hreg]. unfold UINT64_MAX in *.
  destruct (pi_tab _ _ _ Hi _ _ (pi_root _ _ _ Hi)) as (_ & _ & Hpg & _).
  rewrite (proj2 (Z.eqb_neq (page_table p) 0)) by lia.
  destruct (Z.gtb_spec ptr (2 ^ 64 - 1 - (len - 1))); [lia|]. cbn [orb]. rewrite (u64_id (ptr + len - 1)) by lia.
  change (PAGE_SIZE - 1) with (2 ^ 12 - 1). rewrite !land_high_mask by lia. change (2 ^ 12) with 4096.
  set (n := (ptr + len - 1) / 4096 - ptr / 4096).
  replace (ptr + len - 1 - (ptr + len - 1) mod 4096) with (ptr - ptr mod 4096 + n * 4096)
    by (unfold n; Z.to_euclidean_division_equations; lia).
  destruct (page_loop_spec (page_table p) w st n (page_fuel len) (ptr - ptr mod 4096)) as [Hres Hiff].
  { unfold n. Z.to_euclidean_division_equations. lia. }
  { unfold n, page_fuel. change PAGE_SIZE with 4096. Z.to_euclidean_division_equations. lia. }
  { Z.to_euclidean_division_equations. lia. }
  { unfold n. Z.to_euclidean_division_equations. lia. }
  split; [exact Hres|]. rewrite Hiff. split.
  - intros Hall. right. split_and!; try done; try lia. intros v Hv.
    rewrite (el0_access_page st _ L w v (ptr - ptr mod 4096 + (v / 4096 - ptr / 4096) * 4096) Hi).
    + apply Hall. unfold n. Z.to_euclidean_division_equations. lia.
    + Z.to_euclidean_division_equations. lia.
  - intros [?|(_ & _ & _ & _ & Hall)] k Hk; [lia|].
    rewrite (el0_access_page st _ L w _ (Z.max ptr (ptr - ptr mod 4096 + k * 4096)) Hi).
    + apply Hall. unfold n in Hk. Z.to_euclidean_division_equations. lia.
    + unfold n in Hk. Z.to_euclidean_division_equations. lia.
Qed.
End Validation.

(** * Copies never fault and stay inside the buffer *)

Section Copies.
Context {A : Type} `{PageAllocatorLaws A}.
Implicit Types (st : mach A) (p : process) (L : gmap Z nat).

(** The address space a system call runs on: TTBR0 holds the caller's table,
    its regions lie in the range TTBR0 translates, and no page EL0 can write
    is one of the page tables. *)
Record user_space st (tt : Z) p L : Prop := {
  us_tt : tt = page_table p;
  us_pt : pt_inv st (page_table p) L;
  us_regions : regions_wf p;
  us_low : forall k r, live p !! k = Some r -> r_end r <= 2 ^ 48;
  us_frames : forall v, 0 <= v < 2 ^ 48 -> el0_access st (page_table p) true v ->
    L !! e_child (vmm_leaf_entry st (page_table p) v) = None }.

(** The byte a process sees at [v]. *)
Definition user_byte st (tt v : Z) : Z := rd8 (m_ram st) (vmm_virt_to_phys st tt v).

Lemma e_child_aligned e : e_child e mod 4096 = 0.
Proof.
  unfold e_child. apply Z.bits_inj'. intros i Hi. change 4096 with (2 ^ 12). rewrite Z.bits_0.
  destruct (Z.lt_ge_cases i 12).
  - rewrite Z.mod_pow2_bits_low, Z.land_spec, addr_mask_bit by lia. destruct (Z.leb_spec 12 i); [lia|]. apply andb_false_r.
  - by rewrite Z.mod_pow2_bits_high by lia.
Qed.

Lemma access_translate st pgd w v :
  el0_access st pgd w v -> v < 2 ^ 48 ->
  translate st pgd v = Some (vmm_virt_to_phys st pgd v) /\
  vmm_virt_to_phys st pgd v = e_child (vmm_leaf_entry st pgd v) + v mod 4096.
Proof.
  intros (H1 & H2 & _ & _) Hv. unfold translate, vmm_virt_to_phys. cbv zeta. rewrite H1, H2.
  destruct (Z.ltb_spec v (2 ^ 48)); [|lia]. cbn [andb negb orb]. split; [done|].
  change (PAGE_SIZE - 1) with (2 ^ 12 - 1). rewrite land_low_mask by lia.
  change (Z.land (vmm_leaf_entry st pgd v) DESC_ADDR_MASK) with (e_child (vmm_leaf_entry st pgd v)).
  apply lor_page_offset; [apply e_child_aligned|]. apply Z.mod_pos_bound. lia.
Qed.

Lemma access_load st pgd w v : el0_access st pgd w v -> v < 2 ^ 48 -> user_load st pgd v = Some (user_byte st pgd v).
Proof. intros Ha Hv. unfold user_load. by rewrite (proj1 (access_translate st pgd w v Ha Hv)). Qed.

(** Addresses of an accepted buffer. *)
Lemma buf_ok_addr st tt p L w ptr len v :
  user_space st tt p L -> buf_ok st p w ptr len -> ptr <= v < ptr + len -> el0_access st tt w v /\ 0 < v < 2 ^ 48.
Proof.
  intros [] [?|(Hp & Hl & Hv & (k & r & Hr & Hr1 & Hr2) & Ha)] Hx; [lia|]. subst tt. split; [by apply Ha|].
  pose proof (us_low0 k r Hr). lia.
Qed.

(** Two machine states with the same translations. *)
Definition same_space st st' (tt : Z) : Prop :=
  m_pa st' = m_pa st /\ forall v, vmm_leaf_entry st' tt v = vmm_leaf_entry st tt v.

Lemma same_space_phys st st' tt v : same_space st st' tt -> vmm_virt_to_phys st' tt v = vmm_virt_to_phys st tt v.
Proof. intros [_ E]. unfold vmm_virt_to_phys. by rewrite E. Qed.

Lemma same_space_access st st' tt w v : same_space st st' tt -> el0_access st tt w v -> el0_access st' tt w v.
Proof. intros [_ E]. unfold el0_access. by rewrite E. Qed.

Lemma same_space_trans st1 st2 st3 tt : same_space st1 st2 tt -> same_space st2 st3 tt -> same_space st1 st3 tt.
Proof. intros [H1 H2] [H3 H4]. split; [congruence|]. intros v. by rewrite H4, H2. Qed.

Lemma user_store_ok st tt p L v b :
  user_space st tt p L -> el0_access st tt true v -> 0 <= v < 2 ^ 48 ->
  exists st', user_store st tt v b = Some st' /\ user_space st' tt p L /\ same_space st st' tt /\
    m_ram st' = wr8 (m_ram st) (vmm_virt_to_phys st tt v) b.
Proof.
  intros Hs Ha Hv. destruct (access_translate _ _ _ _ Ha (proj2 Hv)) as [Et Ep]. pose proof Hs as []. subst tt.
  pose proof Ha as (_ & _ & _ & Hro). unfold user_store. rewrite Hro, Et by done. cbn [fmap option_fmap option_map].
  eexists. split; [done|]. set (a := vmm_virt_to_phys st (page_table p) v) in *.
  set (st' := Mach (m_pa st) (wr8 (m_ram st) a b)).
  assert (Hf : pt_inv st' (page_table p) L /\ forall v', vmm_leaf_entry st' (page_table p) v' = vmm_leaf_entry st (page_table p) v').
  { pose proof (pi_tab _ _ _ us_pt0) as P3. apply (pt_inv_frame st st'); [done|apply us_pt0|done| |].
    - intros t [l Hl]. by destruct (P3 t l Hl) as (_ & _ & _ & _ & ? & _).
    - intros t i [l Hl] Hi. destruct (P3 t l Hl) as (_ & Htm & _). unfold entry, st'. cbn [m_ram].
      apply wr8_frame; [unfold slot; clear -Htm; Z.to_euclidean_division_equations; lia|].
      intros Hin. specialize (us_frames0 v Hv Ha). pose proof (e_child_aligned (vmm_leaf_entry st (page_table p) v)) as Hc.
      assert (t = e_child (vmm_leaf_entry st (page_table p) v)) as E; [|congruence].
      rewrite Ep in Hin. pose proof (Z.mod_pos_bound v 4096). unfold slot in Hin. clear -Hin Hi Htm Hc H1.
      Z.to_euclidean_division_equations. lia. }
  destruct Hf as [Hf1 Hf2]. split_and!; try done. split; try done.
  intros v' Hlo Hv'. rewrite Hf2. apply us_frames0; [done|]. unfold el0_access in *. by rewrite Hf2 in Hv'.
Qed.

Lemma copy_in_ok st tt p L w ptr len dst doff n : forall i,
  user_space st tt p L -> buf_ok st p w ptr len -> 0 <= i -> i + Z.of_nat n <= len ->
  0 <= doff + i -> doff + i + Z.of_nat n <= Z.of_nat (length dst) ->
  exists dst', copy_in n st tt ptr dst doff i = Some dst' /\ length dst' = length dst /\
    forall j, 0 <= j -> byte_at dst' j =
      if (doff + i <=? j) && (j <? doff + i + Z.of_nat n) then user_byte st tt (ptr + (j - doff)) else byte_at dst j.
Proof.
  revert dst. induction n as [|n IH]; intros dst i Hs Hb Hi Hin Hd Hl; cbn [copy_in].
  { exists dst. split_and!; try done. intros j Hj. by destruct (Z.leb_spec (doff + i) j), (Z.ltb_spec j (doff + i + Z.of_nat 0)); [lia|..]. }
  destruct (buf_ok_addr st tt p L w ptr len (ptr + i) Hs Hb ltac:(lia)) as [Ha Hx].
  rewrite u64_id by lia. rewrite (access_load st tt w) by (done || lia).
  destruct (IH (put (doff + i) (user_byte st tt (ptr + i)) dst) (i + 1) Hs Hb) as (dst' & E & Hlen & Hj);
    [lia|lia|lia|rewrite put_length; lia|]. rewrite put_length in Hlen.
  exists dst'. split_and!; try done. intros j Hj0. rewrite Hj by done. rewrite byte_at_put by lia.
  destruct (Z.leb_spec (doff + (i + 1)) j), (Z.ltb_spec j (doff + (i + 1) + Z.of_nat n)), (Z.leb_spec (doff + i) j),
    (Z.ltb_spec j (doff + i + Z.of_nat (S n))), (Z.eqb_spec j (doff + i)); cbn [andb]; try lia; try done.
  f_equal. lia.
Qed.

(** What a copy of [src] to [ptr, ptr+len) leaves: the bytes behind the buffer
    changed to those of [src] (the last one written where two addresses share
    a page frame), every other byte as it was. *)
Record stores st (tt ptr : Z) (src : list Z) (lo hi : Z) st' : Prop := {
  so_space : same_space st st' tt;
  so_frame : forall a, (forall i, lo <= i < hi -> vmm_virt_to_phys st tt (ptr + i) <> a) -> rd8 (m_ram st') a = rd8 (m_ram st) a;
  so_bytes : forall i, lo <= i < hi ->
    (forall j, i < j < hi -> vmm_virt_to_phys st tt (ptr + j) <> vmm_virt_to_phys st tt (ptr + i)) ->
    rd8 (m_ram st') (vmm_virt_to_phys st tt (ptr + i)) = u8 (byte_at src i) }.

Lemma copy_out_ok tt p L ptr len src n : forall i st,
  user_space st tt p L -> buf_ok st p true ptr len -> 0 <= i -> i + Z.of_nat n <= len ->
  exists st', copy_out n tt ptr src i st = Some st' /\ user_space st' tt p L /\ stores st tt ptr src i (i + Z.of_nat n) st'.
Proof.
  induction n as [|n IH]; intros i st Hs Hb Hi Hin; cbn [copy_out].
  { exists st. split_and!; try done. split; [done|done|lia]. }
  destruct (buf_ok_addr st tt p L true ptr len (ptr + i) Hs Hb ltac:(lia)) as [Ha Hx].
  rewrite u64_id by lia.
  destruct (user_store_ok st tt p L (ptr + i) (u8 (byte_at src i)) Hs Ha ltac:(lia)) as (st1 & -> & Hs1 & Hsp & Hram).
  assert (Hb1 : buf_ok st1 p true ptr len).
  { destruct Hb as [?|(? & ? & ? & ? & Hv)]; [by left|right]. split_and!; try done. intros v Hv'.
    pose proof (us_tt _ _ _ _ Hs) as Ett. rewrite Ett in Hsp. apply (same_space_access st); [done|by apply Hv]. }
  destruct (IH (i + 1) st1 Hs1 Hb1 ltac:(lia) ltac:(lia)) as (st2 & E & Hs2 & [S1 S2 S3]).
  exists st2. split; [done|]. split; [done|].
  assert (Hphys := fun v => same_space_phys st st1 tt v Hsp).
  split.
  - by eapply same_space_trans.
  - intros a Ha'. rewrite S2 by (intros j Hj; rewrite Hphys; apply Ha'; lia).
    rewrite Hram, rd8_wr8 by apply u8_range. destruct (Z.eqb_spec (vmm_virt_to_phys st tt (ptr + i)) a) as [Ea|]; [|done].
    by specialize (Ha' i ltac:(lia)).
  - intros j Hj Hlast. destruct (Z.eq_dec j i) as [->|Hne].
    + rewrite S2.
      * rewrite Hram, rd8_wr8 by apply u8_range. by rewrite Z.eqb_refl.
      * intros k Hk. rewrite Hphys. apply Hlast. lia.
    + rewrite <- Hphys. apply S3; [lia|]. intros k Hk. rewrite !Hphys. apply Hlast. lia.
Qed.

(** ** The checked copies *)

Lemma copy_from_user_ok st tt p L dst doff ptr len :
  user_space st tt p L -> is_u64 ptr -> is_u64 len -> 0 <= doff -> doff + len <= Z.of_nat (length dst) ->
  exists status dst', sys_copy_from_user st tt (Some p) (Some dst) doff ptr len = Some (status, Some dst') /\
  length dst' = length dst /\
  ((status = 0 /\ buf_ok st p false ptr len /\
    forall j, 0 <= j -> byte_at dst' j =
      if (doff <=? j) && (j <? doff + len) then user_byte st tt (ptr + (j - doff)) else byte_at dst j) \/
   (status = ERR_INVAL /\ ~ buf_ok st p false ptr len /\ dst' = dst)).
Proof.
  intros Hs Hp Hl Hd Hlen. unfold sys_copy_from_user, sys_user_buf_in.
  destruct (user_buf_range_spec st p L false ptr len (us_pt _ _ _ _ Hs) (us_regions _ _ _ _ Hs) Hp Hl) as [Hr Hiff].
  cbv zeta in *. set (r := user_buf_range st (Some p) ptr len false) in *. rewrite bool_decide_false by done. cbn [andb].
  destruct (Z.eqb_spec r 0) as [E|E]; cbn [negb].
  - destruct (copy_in_ok st tt p L false ptr len dst doff (Z.to_nat len) 0 Hs) as (dst' & -> & Hl' & Hj);
      unfold is_u64 in *; [by apply Hiff|lia..|].
    exists 0, dst'. split_and!; try done. left. split_and!; [done|by apply Hiff|]. intros j Hj0. rewrite Hj by done.
    rewrite Z2Nat.id, Z.add_0_r by lia. done.
  - exists r, dst. split_and!; try done. right. split_and!; [|by rewrite <- Hiff|done].
    destruct Hr as [?|[?|[_ ?]]]; [lia|done|done].
Qed.

Lemma copy_to_user_ok st tt p L ptr src len :
  user_space st tt p L -> is_u64 ptr -> is_u64 len ->
  exists status st', sys_copy_to_user st tt (Some p) ptr (Some src) len = Some (status, st') /\
  user_space st' tt p L /\
  ((status = 0 /\ buf_ok st p true ptr len /\ stores st tt ptr src 0 len st') \/
   ((status = ERR_INVAL \/ status = ERR_PERM) /\ ~ buf_ok st p true ptr len /\ st' = st)).
Proof.
  intros Hs Hp Hl. unfold sys_copy_to_user, sys_user_buf_out.
  destruct (user_buf_range_spec st p L true ptr len (us_pt _ _ _ _ Hs) (us_regions _ _ _ _ Hs) Hp Hl) as [Hr Hiff].
  cbv zeta in *. set (r := user_buf_range st (Some p) ptr len true) in *. rewrite bool_decide_false by done. cbn [andb]. change (default [] (Some src)) with src.
  destruct (Z.eqb_spec r 0) as [E|E]; cbn [negb].
  - destruct (copy_out_ok tt p L ptr len src (Z.to_nat len) 0 st Hs) as (st' & -> & Hs' & Hst);
      unfold is_u64 in *; [by apply Hiff|lia|lia|].
    exists 0, st'. split_and!; try done. left. split_and!; [done|by apply Hiff|].
    rewrite Z2Nat.id, Z.add_0_l in Hst by lia. done.
  - exists r, st. split_and!; try done. right. split_and!; [|by rewrite <- Hiff|done].
    destruct Hr as [?|[?|[? _]]]; [lia|by left|by right].
Qed.

(** ** Strings *)

(** A readable, NUL-terminated string of [n] characters at [ptr]. *)
Record string_at st (tt : Z) p (ptr n : Z) : Prop := {
  sa_readable : forall i, 0 <= i <= n -> buf_ok st p false (ptr + i) 1;
  sa_chars : forall i, 0 <= i < n -> user_byte st tt (ptr + i) <> 0;
  sa_end : user_byte st tt (ptr + n) = 0 }.

Lemma string_at_unique st tt p ptr n m : 0 <= n -> 0 <= m -> string_at st tt p ptr n -> string_at st tt p ptr m -> n = m.
Proof.
  intros Hn Hm [_ H1 H2] [_ H3 H4]. destruct (Z.lt_trichotomy n m) as [Hlt|[?|Hlt]]; [|done|].
  - by destruct (H3 n ltac:(lia)).
  - by destruct (H1 m ltac:(lia)).
Qed.

Lemma cstr_loop_ok st tt p L ptr cap doff n : forall i out,
  user_space st tt p L -> is_u64 ptr -> 0 <= doff -> 0 <= i -> i + Z.of_nat n = cap ->
  doff + cap <= Z.of_nat (length out) -> cap < 2 ^ 32 ->
  (forall k, 0 <= k < i -> buf_ok st p false (ptr + k) 1 /\ user_byte st tt (ptr + k) <> 0) ->
  exists status out', cstr_loop n st tt (Some p) ptr out doff i = Some (status, out') /\ length out' = length out /\
  ((status = 0 /\ exists m, i <= m < cap /\ string_at st tt p ptr m /\
      forall j, 0 <= j -> byte_at out' j =
        if (doff + i <=? j) && (j <=? doff + m) then user_byte st tt (ptr + (j - doff)) else byte_at out j) \/
   (status = ERR_INVAL /\ (forall m, 0 <= m < cap -> ~ string_at st tt p ptr m) /\
      forall j, 0 <= j -> ~ (doff + i <= j < doff + cap) -> byte_at out' j = byte_at out j)).
Proof.
  induction n as [|n IH]; intros i out Hs Hp Hd Hi Hc Hl Hcap Hprev; cbn [cstr_loop].
  { exists ERR_INVAL, out. split_and!; try done. right. split_and!; try done. intros m Hm [_ _ S3].
    by destruct (Hprev m ltac:(lia)). }
  unfold UINT64_MAX, is_u64 in *. destruct (Z.gtb_spec ptr (2 ^ 64 - 1 - i)) as [Hov|Hov].
  { exists ERR_INVAL, out. split_and!; try done. right. split_and!; try done. intros m Hm [S1 _ S3].
    destruct (Z.lt_ge_cases m i) as [Hlt|Hge]; [by destruct (Hprev m ltac:(lia))|].
    destruct (S1 i ltac:(lia)) as [?|(_ & _ & [_ Hv] & _)]; [lia|]. unfold UINT64_MAX in Hv. lia. }
  destruct (copy_from_user_ok st tt p L out (doff + i) (ptr + i) 1 Hs) as (status & dst & -> & Hld & Hcase);
    [unfold is_u64; lia..|]. change (default out (Some dst)) with dst.
  destruct Hcase as [(-> & Hbuf & Hbytes)|(-> & Hbuf & ->)].
  2: { rewrite (proj2 (Z.eqb_neq ERR_INVAL 0)) by done. cbn [negb]. exists ERR_INVAL, out. split_and!; try done.
       right. split_and!; try done. intros m Hm [S1 _ S3].
       destruct (Z.lt_ge_cases m i) as [Hlt|Hge]; [by destruct (Hprev m ltac:(lia))|]. apply Hbuf, S1. lia. }
  cbn [Z.eqb negb]. rewrite (Hbytes (doff + i)) by lia.
  destruct (Z.leb_spec (doff + i) (doff + i)), (Z.ltb_spec (doff + i) (doff + i + 1)); [|lia..]. cbn [andb].
  replace (ptr + i + (doff + i - (doff + i))) with (ptr + i) by lia.
  assert (Hshift : forall j, ptr + i + (j - (doff + i)) = ptr + (j - doff)) by (intros; lia).
  destruct (Z.eqb_spec (user_byte st tt (ptr + i)) 0) as [Hz|Hz].
  - exists 0, dst. split_and!; try done. left. split; [done|]. exists i. split; [lia|]. split.
    + split; [|by intros k Hk; apply Hprev|done]. intros k Hk. destruct (Z.eq_dec k i) as [->|]; [done|]. apply Hprev. lia.
    + intros j Hj. rewrite Hbytes, Hshift by done.
      destruct (Z.leb_spec (doff + i) j), (Z.ltb_spec j (doff + i + 1)), (Z.leb_spec j (doff + i)); cbn [andb]; try lia; done.
  - destruct (IH (i + 1) dst Hs Hp Hd) as (status & out' & -> & Hlo & Hres); [lia..| |].
    { intros k Hk. destruct (Z.eq_dec k i) as [->|]; [done|]. apply Hprev. lia. }
    exists status, out'. split; [done|]. split; [lia|]. destruct Hres as [(-> & m & Hm & Hsa & Hj)|(-> & Hno & Hj)].
    + left. split; [done|]. exists m. split; [lia|]. split; [done|]. intros j Hj0. rewrite Hj, Hbytes, Hshift by done.
      destruct (Z.leb_spec (doff + (i + 1)) j), (Z.leb_spec j (doff + m)), (Z.leb_spec (doff + i) j),
        (Z.ltb_spec j (doff + i + 1)); cbn [andb]; try lia; done.
    + right. split_and!; try done. intros j Hj0 Hjj. rewrite Hj by lia. rewrite Hbytes by done.
      destruct (Z.leb_spec (doff + i) j), (Z.ltb_spec j (doff + i + 1)); cbn [andb]; try lia; done.
Qed.

(** What the import of a string leaves in the kernel buffer. *)
Definition imported st (tt : Z) (ptr : Z) (out out' : list Z) (doff m : Z) : Prop :=
  length out' = length out /\
  forall j, 0 <= j -> byte_at out' j =
    if (doff <=? j) && (j <=? doff + m) then user_byte st tt (ptr + (j - doff)) else byte_at out j.

Lemma user_copy_cstr_ok st tt p L ptr out doff cap :
  user_space st tt p L -> is_u64 ptr -> 0 <= doff -> 0 <= cap < 2 ^ 32 -> doff + cap <= Z.of_nat (length out) ->
  exists status out', sys_user_copy_cstr st tt (Some p) ptr (Some out) doff cap = Some (status, Some out') /\
  ((status = 0 /\ exists m, 0 <= m < cap /\ string_at st tt p ptr m /\ imported st tt ptr out out' doff m) \/
   (status = ERR_INVAL /\ (forall m, 0 <= m < cap -> ~ string_at st tt p ptr m) /\ length out' = length out /\
    forall j, 0 <= j -> ~ (doff <= j < doff + cap) -> byte_at out' j = byte_at out j)).
Proof.
  intros Hs Hp Hd Hc Hl. unfold sys_user_copy_cstr. rewrite bool_decide_false by done. cbn [orb].
  destruct (Z.eqb_spec ptr 0) as [->|Hpz]; cbn [orb].
  { exists ERR_INVAL, out. split; [done|]. right. split_and!; try done. intros m Hm [S1 _ _].
    destruct (S1 0 ltac:(lia)) as [?|[? _]]; lia. }
  destruct (Z.eqb_spec cap 0) as [->|Hcz].
  { exists ERR_INVAL, out. split; [done|]. right. split_and!; try done. lia. }
  destruct (cstr_loop_ok st tt p L ptr cap doff (Z.to_nat cap) 0 out Hs Hp Hd) as (status & out' & -> & Hlo & Hres);
    [lia..|intros; lia|].
  exists status, out'. split; [done|]. rewrite !Z.add_0_r in Hres.
  destruct Hres as [(-> & m & Hm & Hsa & Hj)|(-> & Hno & Hj)]; [left|right].
  - split; [done|]. exists m. unfold imported. split_and!; try done; lia.
  - split_and!; done.
Qed.

(** An address space all of whose EL0-writable pages belong to anonymous
    mappings satisfies the conditions. *)
Lemma owned_user_space st p L :
  vm_inv p st L -> (forall k r, live p !! k = Some r -> owned r = true) ->
  (forall v, 0 <= v < 2 ^ 48 -> el0_access st (page_table p) true v ->
     PROCESS_USER_MMAP_BASE <= v < PROCESS_USER_MMAP_LIMIT) ->
  user_space st (page_table p) p L.
Proof.
  intros Hv Ho Hw. pose proof Hv as []. split; try done.
  - intros k r Hr. pose proof (vi_owned k r Hr (Ho k r Hr)) as []. destruct or_window.
    unfold PROCESS_USER_MMAP_LIMIT in *. lia.
  - intros v Hlo Ha. specialize (Hw v Hlo Ha). pose proof Ha as (Hval & _).
    destruct (vi_window v Hw Hval) as (k & r & Hr & Hin). pose proof (vi_owned k r Hr (Ho k r Hr)) as [].
    destruct (or_mapped v Hin) as [_ Hphys]. destruct (access_translate _ _ _ _ Ha (proj2 Hlo)) as [_ E].
    apply (or_pages (e_child (vmm_leaf_entry st (page_table p) v))). unfold backs, in_region, region_size in *.
    pose proof (e_child_aligned (vmm_leaf_entry st (page_table p) v)). split; [done|].
    rewrite E in Hphys. clear -Hphys Hin or_align H1. destruct or_align as (? & ? & ?). unfold region_size in *.
    Z.to_euclidean_division_equations. lia.
Qed.
End Copies.

(** * Properties *)

Section Properties.
Context {A : Type} `{PageAllocatorLaws A}.
Implicit Types (st : mach A) (p : process) (L : gmap Z nat).

(** C14: the user-pointer check accepts a buffer exactly when it is empty, or
    lies without wrapping inside one region of the process and EL0 may read
    (write) every byte of it; it reports ERR_PERM only for a write. *)
Theorem user_buf_exact st p L (w : bool) ptr len :
  pt_inv st (page_table p) L -> regions_wf p -> is_u64 ptr -> is_u64 len ->
  let r := if w then sys_user_buf_out st (Some p) ptr len else sys_user_buf_in st (Some p) ptr len in
  (r = 0 \/ r = ERR_INVAL \/ (r = ERR_PERM /\ w = true)) /\ (r = 0 <-> buf_ok st p w ptr len).
Proof. intros Hi Hw Hp Hl. destruct w; by apply (user_buf_range_spec st p L). Qed.

(** sys_copy_to_user never takes a data abort.  It either stores the bytes
    behind the caller's own writable buffer and changes no other byte of RAM
    and no translation, or fails and changes nothing. *)
Theorem copy_to_user_confined st tt p L ptr src len :
  user_space st tt p L -> is_u64 ptr -> is_u64 len ->
  exists status st', sys_copy_to_user st tt (Some p) ptr (Some src) len = Some (status, st') /\
  user_space st' tt p L /\
  ((status = 0 /\ buf_ok st p true ptr len /\ stores st tt ptr src 0 len st') \/
   ((status = ERR_INVAL \/ status = ERR_PERM) /\ ~ buf_ok st p true ptr len /\ st' = st)).
Proof. apply copy_to_user_ok. Qed.

(** what sys_copy_to_user stored in a buffer whose addresses have distinct
    frames, sys_copy_from_user reads back unchanged. *)
Theorem user_copy_roundtrip st tt p L ptr src len st' out :
  user_space st tt p L -> is_u64 ptr -> is_u64 len -> (forall j, 0 <= j < len -> 0 <= byte_at src j < 256) ->
  (forall i j, 0 <= i < j -> j < len -> vmm_virt_to_phys st tt (ptr + i) <> vmm_virt_to_phys st tt (ptr + j)) ->
  len <= Z.of_nat (length out) ->
  sys_copy_to_user st tt (Some p) ptr (Some src) len = Some (0, st') ->
  exists out', sys_copy_from_user st' tt (Some p) (Some out) 0 ptr len = Some (0, Some out') /\
  forall j, 0 <= j < len -> byte_at out' j = byte_at src j.
Proof.
  intros Hs Hp Hl Hsrc Hinj Hout E.
  destruct (copy_to_user_ok st tt p L ptr src len Hs Hp Hl) as (s & st1 & E1 & Hs1 & Hc).
  rewrite E in E1. injection E1 as <- <-. destruct Hc as [(_ & Hb & [S1 S2 S3])|([?|?] & _)]; [|done..].
  destruct (copy_from_user_ok st' tt p L out 0 ptr len Hs1 Hp Hl) as (s & out' & E' & _ & Hc); [lia|lia|].
  destruct Hc as [(-> & _ & Hj)|(_ & Hno & _)].
  - exists out'. split; [done|]. intros j Hj'. rewrite Hj by lia.
    destruct (Z.leb_spec 0 j), (Z.ltb_spec j (0 + len)); [|lia..]. cbn [andb]. rewrite Z.sub_0_r.
    unfold user_byte. rewrite (same_space_phys st st'), S3; [unfold u8; apply Z.mod_small; by apply Hsrc|done| |done].
    intros k Hk Ek. by apply (Hinj j k); [lia..|].
  - exfalso. apply Hno. destruct Hb as [?|(? & ? & ? & ? & Hb)]; [by left|right]. split_and!; try done.
    intros v Hv. rewrite (us_tt _ _ _ _ Hs) in S1. specialize (Hb v Hv).
    apply (same_space_access st st' _ false v S1). destruct Hb as (? & ? & ? & _). done.
Qed.

(** the import of a path or an argument string returns 0 exactly when a
    readable NUL-terminated string shorter than the buffer starts at the
    pointer, and then holds that string; it never takes a data abort and never
    writes outside the given part of the kernel buffer. *)
Theorem user_string_exact st tt p L ptr out doff cap :
  user_space st tt p L -> is_u64 ptr -> 0 <= doff -> 0 <= cap < 2 ^ 32 -> doff + cap <= Z.of_nat (length out) ->
  exists status out', sys_user_copy_cstr st tt (Some p) ptr (Some out) doff cap = Some (status, Some out') /\
  ((status = 0 /\ exists m, 0 <= m < cap /\ string_at st tt p ptr m /\ imported st tt ptr out out' doff m) \/
   (status = ERR_INVAL /\ (forall m, 0 <= m < cap -> ~ string_at st tt p ptr m) /\ length out' = length out /\
    forall j, 0 <= j -> ~ (doff <= j < doff + cap) -> byte_at out' j = byte_at out j)).
Proof. apply user_copy_cstr_ok. Qed.
End Properties.

(** * A process with two anonymous pages *)

Definition demo_user : process := default demo_process (snd (fst demo_mapped)).
Definition demo_mem : mach pmm := snd demo_mapped.

Lemma demo_user_space : page_table demo_user = 0x40000000 /\ exists L, user_space demo_mem 0x40000000 demo_user L.
Proof.
  destruct (map_anonymous_spec demo_process demo_space _ 0 5000 (Z.lor USER_VM_PROT_READ USER_VM_PROT_WRITE) demo_vm_inv)
    as (ret & q & st' & L' & E & Hv & _ & Hpt & _ & Hres); [unfold is_u64; lia|].
  assert (E' : demo_mapped = (ret, Some q, st')) by (unfold demo_mapped; exact E). clear E.
  assert (Hret : ret = 0x100000000) by (rewrite <- demo_mapped_addr, E'; reflexivity).
  assert (Eq : demo_user = q) by (unfold demo_user; rewrite E'; reflexivity).
  assert (Em : demo_mem = st') by (unfold demo_mem; rewrite E'; reflexivity).
  rewrite Eq, Em. change (page_table demo_process) with 0x40000000 in *. split; [exact Hpt|]. exists L'. rewrite <- Hpt.
  destruct Hres as [(paddr & _ & Hsz & Hlive & Hpa & _ & _ & Hleaf & _)|([Hbad|Hbad] & _)];
    [|rewrite Hret in Hbad; discriminate Hbad..].
  rewrite Hret in Hlive, Hleaf. change (pages_of 5000 * 4096) with 8192 in *.
  assert (Hnil : live demo_process = []) by (vm_compute; reflexivity). rewrite Hnil in Hlive.
  apply (owned_user_space st' q L' Hv).
  - intros k r Hr. rewrite Hlive in Hr. destruct k as [|k]; [|discriminate]. injection Hr as <-.
    unfold owned. cbn [r_flags r_paddr]. rewrite (proj2 (Z.eqb_neq paddr 0)) by lia. reflexivity.
  - intros v Hlo Ha. unfold PROCESS_USER_MMAP_BASE, PROCESS_USER_MMAP_LIMIT.
    destruct (Z_le_gt_dec 0x100000000 v), (Z_lt_ge_dec v (0x100000000 + 8192)); [lia|exfalso..].
    all: destruct Ha as [Ha _]; rewrite Hpt, Hleaf in Ha by lia; change (page_table demo_process) with 0x40000000 in Ha;
      rewrite (proj2 demo_space_inv) in Ha; discriminate.
Qed.

(** Ten bytes across the page boundary of the mapping. *)
Definition demo_text : list Z := [104; 101; 108; 108; 111; 0; 1; 2; 3; 255].

Lemma demo_text_bytes j : 0 <= j < 10 -> 0 <= byte_at demo_text j < 256.
Proof.
  intros Hj. assert (Hc : j = 0 \/ j = 1 \/ j = 2 \/ j = 3 \/ j = 4 \/ j = 5 \/ j = 6 \/ j = 7 \/ j = 8 \/ j = 9) by lia.
  repeat (destruct Hc as [->|Hc]; [vm_compute; split; congruence|]). subst j. vm_compute. split; congruence.
Qed.

(** The concrete facts the witnesses use, evaluated together. *)
Lemma demo_facts :
  sys_user_buf_out demo_mem (Some demo_user) 0x100001ff6 10 = 0 /\
  sys_user_buf_out demo_mem (Some demo_user) 0x100001ff6 11 = ERR_INVAL /\
  fst <$> sys_copy_to_user demo_mem 0x40000000 (Some demo_user) 0x100000ffb (Some demo_text) 10 = Some 0 /\
  map (fun k => vmm_virt_to_phys demo_mem 0x40000000 (0x100000ffb + k)) (seqZ 0 10) = seqZ 0x40001ffb 10 /\
  fst <$> sys_user_copy_cstr demo_mem 0x40000000 (Some demo_user) 0x100000fff (Some (replicate 64 9)) 0 64 = Some 0 /\
  user_byte demo_mem 0x40000000 0x100000fff = 0.
Proof. vm_compute. split_and!; reflexivity. Qed.

Lemma user_buf_exact_witness :
  sys_user_buf_out demo_mem (Some demo_user) 0x100001ff6 10 = 0 /\
  sys_user_buf_out demo_mem (Some demo_user) 0x100001ff6 11 = ERR_INVAL /\ buf_ok demo_mem demo_user true 0x100001ff6 10.
Proof.
  destruct demo_user_space as [Hpt [L Hs]].
  destruct demo_facts as (E & E' & _). split; [exact E|]. split; [exact E'|].
  apply (user_buf_exact demo_mem demo_user L true 0x100001ff6 10);
    [exact (us_pt _ _ _ _ Hs)|exact (us_regions _ _ _ _ Hs)|unfold is_u64; lia|unfold is_u64; lia|exact E].
Defined.

Lemma copy_to_user_confined_witness :
  exists st', sys_copy_to_user demo_mem 0x40000000 (Some demo_user) 0x100000ffb (Some demo_text) 10 = Some (0, st') /\
  stores demo_mem 0x40000000 0x100000ffb demo_text 0 10 st'.
Proof.
  destruct demo_user_space as [Hpt [L Hs]].
  destruct demo_facts as (_ & _ & E & _).
  destruct (copy_to_user_confined demo_mem 0x40000000 demo_user L 0x100000ffb demo_text 10 Hs)
    as (s & st' & E1 & _ & Hc); [unfold is_u64; lia|unfold is_u64; lia|].
  rewrite E1 in E. injection E as ->. exists st'. split; [exact E1|].
  destruct Hc as [(_ & _ & Hst)|([Hbad|Hbad] & _)]; [exact Hst|discriminate Hbad|discriminate Hbad].
Defined.

Lemma map_seqZ_eq (f : Z -> Z) a n k : map f (seqZ 0 n) = seqZ a n -> 0 <= k < n -> f k = a + k.
Proof.
  intros E Hk. apply (f_equal (lookup (Z.to_nat k))) in E. rewrite list_lookup_fmap, !lookup_seqZ_lt in E by lia.
  injection E as E. rewrite Z.add_0_l, !Z2Nat.id in E by lia. exact E.
Qed.

Lemma demo_frames i j : 0 <= i < j -> j < 10 ->
  vmm_virt_to_phys demo_mem 0x40000000 (0x100000ffb + i) <> vmm_virt_to_phys demo_mem 0x40000000 (0x100000ffb + j).
Proof.
  intros Hi Hj. assert (Hv : forall k, 0 <= k < 10 ->
    vmm_virt_to_phys demo_mem 0x40000000 (0x100000ffb + k) = 0x40001ffb + k).
  { intros k Hk. destruct demo_facts as (_ & _ & _ & E & _).
    exact (map_seqZ_eq (fun k => vmm_virt_to_phys demo_mem 0x40000000 (0x100000ffb + k)) 0x40001ffb 10 k E Hk). }
  rewrite !Hv by lia. lia.
Qed.

Lemma user_copy_roundtrip_witness :
  exists st' out', sys_copy_to_user demo_mem 0x40000000 (Some demo_user) 0x100000ffb (Some demo_text) 10 = Some (0, st') /\
  sys_copy_from_user st' 0x40000000 (Some demo_user) (Some (replicate 16 7)) 0 0x100000ffb 10 = Some (0, Some out') /\
  byte_at out' 9 = 255.
Proof.
  destruct demo_user_space as [Hpt [L Hs]].
  destruct demo_facts as (_ & _ & E & _).
  destruct (sys_copy_to_user demo_mem 0x40000000 (Some demo_user) 0x100000ffb (Some demo_text) 10) as [[s st']|] eqn:E1;
    [|discriminate E]. injection E as ->. exists st'.
  destruct (user_copy_roundtrip demo_mem 0x40000000 demo_user L 0x100000ffb demo_text 10 st' (replicate 16 7) Hs)
    as (out' & E2 & Hb); [unfold is_u64; lia|unfold is_u64; lia|apply demo_text_bytes|apply demo_frames|cbn; lia|exact E1|].
  exists out'. split; [reflexivity|]. split; [exact E2|]. apply Hb. lia.
Defined.

Lemma user_string_exact_witness :
  exists out', sys_user_copy_cstr demo_mem 0x40000000 (Some demo_user) 0x100000fff (Some (replicate 64 9)) 0 64
    = Some (0, Some out') /\ string_at demo_mem 0x40000000 demo_user 0x100000fff 0.
Proof.
  destruct demo_user_space as [Hpt [L Hs]].
  destruct demo_facts as (_ & _ & _ & _ & E & Hz).
  destruct (user_string_exact demo_mem 0x40000000 demo_user L 0x100000fff (replicate 64 9) 0 64 Hs)
    as (s & out' & E1 & Hc); [unfold is_u64; lia|lia|lia|cbn; lia|].
  rewrite E1 in E. injection E as ->. exists out'. split; [exact E1|].
  destruct Hc as [(_ & m & Hm & Hsa & _)|(Hbad & _)]; [|discriminate Hbad].
  destruct (Z.eq_dec m 0) as [->|]; [exact Hsa|]. exfalso. apply (sa_chars _ _ _ _ _ Hsa 0); [lia|exact Hz].
Defined.
