(* ===== verification/Ipc.v ===== *)
(** The inter-process message queue: kernel/ipc.c.

    Eight slots hold pending messages with the sequence number of their send;
    receivers take the lowest sequence number addressed to them.  The abstract
    specification is one queue of messages in send order. *)

From S2P Require Import Prelude.
From S2P Require Import Bytes.
Open Scope arm.

Definition IPC_MAX_MESSAGES : Z := 8.
Definition IPC_MAX_MESSAGE_SIZE : Z := 16.

Record ipc_message := Message {
  sender_pid : Z;
  target_pid : Z;
  msg_size : Z;
  data : list Z }.

Record ipc_slot := Slot {
  message : ipc_message;
  sequence : Z;
  slot_used : Z }.

Record ipc := Ipc {
  g_ipc_slots : list ipc_slot;
  g_ipc_next_sequence : Z }.

Definition ipc_copy_payload (dest src : list Z) (size : Z) : list Z :=
  fill_bytes (copy_bytes dest 0 src 0 size) size IPC_MAX_MESSAGE_SIZE 0.

Definition ipc_zero_payload (dest : list Z) : list Z := fill_bytes dest 0 IPC_MAX_MESSAGE_SIZE 0.

Definition ipc_clear_slot (s : ipc_slot) : ipc_slot :=
  Slot (Message 0 0 0 (ipc_zero_payload (data (message s)))) 0 0.

Definition zero_slot : ipc_slot :=
  Slot (Message 0 0 0 (replicate (Z.to_nat IPC_MAX_MESSAGE_SIZE) 0)) 0 0.

(** [g_ipc_slots[i]]. *)
Definition slot_at (q : ipc) (i : Z) : ipc_slot := default zero_slot (g_ipc_slots q !! Z.to_nat i).

Definition set_slot (q : ipc) (i : Z) (s : ipc_slot) : ipc :=
  Ipc (<[Z.to_nat i := s]> (g_ipc_slots q)) (g_ipc_next_sequence q).

Definition ipc_find_free_slot (q : ipc) : option Z :=
  find_range 0 IPC_MAX_MESSAGES (fun i => slot_used (slot_at q i) =? 0).

Definition ipc_find_oldest_target_slot (q : ipc) (target : Z) : option Z :=
  for_range 0 IPC_MAX_MESSAGES (fun i oldest =>
    let s := slot_at q i in
    if (slot_used s =? 0) || negb (target_pid (message s) =? target) then oldest
    else match oldest with
         | None => Some i
         | Some o => if sequence s <? sequence (slot_at q o) then Some i else oldest
         end) None.

Definition ipc_init (q : ipc) : ipc :=
  for_range 0 IPC_MAX_MESSAGES (fun i q => set_slot q i (ipc_clear_slot (slot_at q i)))
    (Ipc (g_ipc_slots q) 1).

Definition ipc_send (q : ipc) (sender target : Z) (payload : option (list Z)) (size : Z) : Z * ipc :=
  match payload with
  | None => (-1, q)
  | Some payload =>
    if (sender =? 0) || (target =? 0) || (size =? 0) || (size >? IPC_MAX_MESSAGE_SIZE) then (-1, q) else
    match ipc_find_free_slot q with
    | Some i =>
        let s := Slot (Message sender target size
                         (ipc_copy_payload (data (message (slot_at q i))) payload size))
                   (g_ipc_next_sequence q) 1 in
        let q := set_slot q i s in
        (0, Ipc (g_ipc_slots q) (u64 (g_ipc_next_sequence q + 1)))
    | None => (-1, q)
    end
  end.

(** [out] is the caller's message object; a null pointer is [None]. *)
Definition ipc_recv (q : ipc) (target : Z) (out : option ipc_message) : Z * option ipc_message * ipc :=
  match out with
  | None => (-1, None, q)
  | Some m =>
    if target =? 0 then (-1, Some m, q) else
    match ipc_find_oldest_target_slot q target with
    | Some i =>
        let s := slot_at q i in
        let m := Message (sender_pid (message s)) (target_pid (message s)) (msg_size (message s))
                   (ipc_copy_payload (data m) (data (message s)) (msg_size (message s))) in
        (0, Some m, set_slot q i (ipc_clear_slot s))
    | None => (-1, Some m, q)
    end
  end.

(** * Abstract specification *)

(** A message as its users see it: sender, target and the bytes sent. *)
Record letter := Letter { from : Z; to : Z; body : list Z }.

Definition aqueue := list letter.

(** Sending appends while fewer than eight messages are pending. *)
Definition spec_send (q : aqueue) (sender target : Z) (bytes : list Z) : Z * aqueue :=
  if bool_decide (length q < 8)%nat then (0, q ++ [Letter sender target bytes]) else (-1, q).

(** Receiving removes the first pending message for the target. *)
Fixpoint spec_recv (q : aqueue) (target : Z) : option letter * aqueue :=
  match q with
  | [] => (None, [])
  | l :: q' =>
      if to l =? target then (Some l, q')
      else let '(r, q'') := spec_recv q' target in (r, l :: q'')
  end.

(** * Refinement *)

Definition is_used (s : ipc_slot) : bool := negb (slot_used s =? 0).

(** The letter a used slot holds. *)
Definition letter_of (s : ipc_slot) : letter :=
  Letter (sender_pid (message s)) (target_pid (message s))
    (take (Z.to_nat (msg_size (message s))) (data (message s))).

(** Payload bytes past the size are zero. *)
Definition slot_ok (s : ipc_slot) : Prop :=
  length (data (message s)) = 16%nat /\
  (is_used s = true -> 0 < msg_size (message s) <= 16) /\
  (forall j, msg_size (message s) <= j < 16 -> byte_at (data (message s)) j = 0) /\
  (is_used s = false -> s = zero_slot).

(** [order] lists the used slots by increasing sequence number. *)
Record ordered (q : ipc) (order : list Z) : Prop := {
  od_nodup : NoDup order;
  od_used : forall i, i ∈ order <-> 0 <= i < 8 /\ is_used (slot_at q i) = true;
  od_sorted : forall a b i j, order !! a = Some i -> order !! b = Some j -> (a < b)%nat ->
    sequence (slot_at q i) < sequence (slot_at q j);
  od_bound : forall i, i ∈ order -> sequence (slot_at q i) < g_ipc_next_sequence q }.

Record refines (q : ipc) (a : aqueue) : Prop := {
  rf_len : length (g_ipc_slots q) = 8%nat;
  rf_ok : forall i, 0 <= i < 8 -> slot_ok (slot_at q i);
  rf_order : exists order, ordered q order /\ a = letter_of ∘ slot_at q <$> order }.

Lemma slot_at_set q i s j :
  length (g_ipc_slots q) = 8%nat -> 0 <= i < 8 -> 0 <= j ->
  slot_at (set_slot q i s) j = if j =? i then s else slot_at q j.
Proof.
  intros Hl Hi Hj. unfold slot_at, set_slot. simpl. destruct (Z.eqb_spec j i) as [->|].
  - by rewrite list_lookup_insert_eq by lia.
  - by rewrite list_lookup_insert_ne by lia.
Qed.

Lemma ipc_copy_payload_spec dest src n :
  length dest = 16%nat -> 0 <= n <= 16 ->
  length (ipc_copy_payload dest src n) = 16%nat /\
  forall j, 0 <= j < 16 -> byte_at (ipc_copy_payload dest src n) j = if j <? n then byte_at src j else 0.
Proof.
  intros Hl Hn. unfold ipc_copy_payload, IPC_MAX_MESSAGE_SIZE.
  destruct (copy_bytes_spec dest 0 src 0 n) as [Hl1 Hb1]; [lia..|].
  destruct (fill_bytes_spec (copy_bytes dest 0 src 0 n) n 16 0) as [Hl2 Hb2]; [lia..|].
  split; [lia|]. intros j Hj. rewrite Hb2, Hb1 by lia.
  destruct (Z.leb_spec n j), (Z.ltb_spec j 16), (Z.leb_spec 0 j), (Z.ltb_spec j (0 + n)), (Z.ltb_spec j n);
    simpl; try lia; try done. f_equal. lia.
Qed.

Lemma ipc_zero_payload_spec d : length d = 16%nat -> ipc_zero_payload d = replicate 16 0.
Proof.
  intros Hl. destruct (fill_bytes_spec d 0 16 0) as [Hl' Hb]; [lia..|].
  apply bytes_ext; [by rewrite length_replicate; unfold ipc_zero_payload, IPC_MAX_MESSAGE_SIZE; lia|].
  intros j Hj. unfold ipc_zero_payload, IPC_MAX_MESSAGE_SIZE in *. rewrite Hb by lia.
  rewrite byte_at_replicate by lia.
  destruct (Z.leb_spec 0 j), (Z.ltb_spec j 16); simpl; try lia; done.
Qed.

Lemma ipc_clear_slot_zero s : length (data (message s)) = 16%nat -> ipc_clear_slot s = zero_slot.
Proof. intros Hl. unfold ipc_clear_slot. by rewrite ipc_zero_payload_spec. Qed.

Lemma zero_slot_ok : slot_ok zero_slot.
Proof.
  split_and!; try done. intros j Hj. simpl. apply (byte_at_replicate 16). simpl in Hj. lia.
Qed.

(** Distinct indices of the eight slots: at most eight of them. *)
Lemma order_length q order : ordered q order -> (length order <= 8)%nat.
Proof.
  intros [Hn Hu _ _].
  assert (Hs : order ⊆+ seqZ 0 8).
  { apply NoDup_submseteq; [done|]. intros i Hi. apply elem_of_seqZ. apply Hu in Hi. lia. }
  apply submseteq_length in Hs. by rewrite length_seqZ in Hs.
Qed.

(** A free slot exists exactly when fewer than eight messages are pending. *)
Lemma order_full q order :
  ordered q order -> (forall i, 0 <= i < 8 -> is_used (slot_at q i) = true) -> length order = 8%nat.
Proof.
  intros Ho Hall. pose proof (order_length q order Ho).
  assert (Hs : seqZ 0 8 ⊆+ order).
  { apply NoDup_submseteq; [apply NoDup_seqZ|]. intros i Hi%elem_of_seqZ.
    apply (od_used _ _ Ho). split; [lia|]. apply Hall. lia. }
  apply submseteq_length in Hs. rewrite length_seqZ in Hs. lia.
Qed.

Lemma order_not_full q order i :
  ordered q order -> 0 <= i < 8 -> is_used (slot_at q i) = false -> (length order < 8)%nat.
Proof.
  intros Ho Hi Hf.
  assert (Hni : i ∉ order). { intros Hin. apply (od_used _ _ Ho) in Hin as [_ ?]. congruence. }
  assert (Hs : i :: order ⊆+ seqZ 0 8).
  { apply NoDup_submseteq; [constructor; [done|apply Ho]|].
    intros j [->|Hj]%elem_of_cons; apply elem_of_seqZ; [lia|]. apply (od_used _ _ Ho) in Hj. lia. }
  apply submseteq_length in Hs. rewrite length_seqZ in Hs. simpl in Hs. lia.
Qed.

(** ** Send *)

(** Filling a free slot appends to the order. *)
Lemma ordered_snoc q q' order i s :
  ordered q order -> 0 <= i < 8 -> is_used (slot_at q i) = false -> is_used s = true ->
  sequence s = g_ipc_next_sequence q -> g_ipc_next_sequence q' = g_ipc_next_sequence q + 1 ->
  (forall j, 0 <= j -> slot_at q' j = if j =? i then s else slot_at q j) ->
  ordered q' (order ++ [i]) /\
  letter_of ∘ slot_at q' <$> order ++ [i] = (letter_of ∘ slot_at q <$> order) ++ [letter_of s].
Proof.
  intros Ho Hi Hfree Hus Hss Hnext Hat.
  assert (Hni : i ∉ order). { intros Hin. apply (od_used _ _ Ho) in Hin as [_ ?]. congruence. }
  assert (Hold : forall j, j ∈ order -> slot_at q' j = slot_at q j).
  { intros j Hj. pose proof (proj1 (od_used _ _ Ho j) Hj) as [? _]. rewrite Hat by lia.
    destruct (Z.eqb_spec j i); [by subst|done]. }
  assert (Hnew : slot_at q' i = s) by (rewrite Hat by lia; by rewrite Z.eqb_refl).
  split; [split|].
  - apply NoDup_app. split_and!; [apply Ho| |apply NoDup_singleton].
    intros j Hj [->|[]%elem_of_nil]%elem_of_cons. done.
  - intros j. rewrite elem_of_app, list_elem_of_singleton. split.
    + intros [Hj| ->]; [|rewrite Hnew; done]. rewrite Hold by done. by apply (od_used _ _ Ho).
    + intros [Hj Huj]. destruct (decide (j = i)) as [|Hne]; [by right|]. left.
      apply (od_used _ _ Ho). split; [done|]. rewrite Hat in Huj by lia.
      by rewrite (proj2 (Z.eqb_neq j i)) in Huj by done.
  - intros x y j k [Hx|[Hx Hx']]%lookup_app_Some [Hy|[Hy Hy']]%lookup_app_Some Hxy.
    + rewrite !Hold by (by eapply list_elem_of_lookup_2). by eapply (od_sorted _ _ Ho x y).
    + apply list_lookup_singleton_Some in Hy' as [_ <-]. apply list_elem_of_lookup_2 in Hx.
      rewrite Hnew, Hold, Hss by done. by apply (od_bound _ _ Ho).
    + apply lookup_lt_Some in Hy. lia.
    + apply list_lookup_singleton_Some in Hx' as [? _], Hy' as [? _]. lia.
  - intros j. rewrite elem_of_app, list_elem_of_singleton, Hnext. intros [Hj| ->].
    + rewrite Hold by done. pose proof (od_bound _ _ Ho j Hj). lia.
    + rewrite Hnew. lia.
  - rewrite fmap_app. f_equal; [|by simpl; rewrite Hnew].
    apply list_fmap_ext. intros x j Hj. apply list_elem_of_lookup_2 in Hj. simpl. by rewrite Hold.
Qed.

(** The stored payload is the bytes sent. *)
Lemma payload_take d src n :
  length d = 16%nat -> 0 <= n <= 16 -> n <= Z.of_nat (length src) ->
  (forall j, 0 <= j < 16 -> byte_at d j = if j <? n then byte_at src j else 0) ->
  take (Z.to_nat n) d = take (Z.to_nat n) src.
Proof.
  intros Hd Hn Hs Hb. apply bytes_ext; [rewrite !length_take; lia|].
  intros j Hj. rewrite length_take in Hj. rewrite !byte_at_take, Hb by lia.
  destruct (Z.ltb_spec j n); [done|lia].
Qed.

Lemma ipc_send_refines q a sender target payload size :
  refines q a -> 0 <= g_ipc_next_sequence q < UINT64_MAX ->
  sender <> 0 -> target <> 0 -> 0 < size <= 16 -> size <= Z.of_nat (length payload) ->
  let '(r, q') := ipc_send q sender target (Some payload) size in
  let '(r', a') := spec_send a sender target (take (Z.to_nat size) payload) in
  r = r' /\ refines q' a' /\
  g_ipc_next_sequence q <= g_ipc_next_sequence q' <= g_ipc_next_sequence q + 1.
Proof.
  intros [Hl Hok (order & Ho & ->)] Hseq Hsn Htn Hsz Hpl. unfold ipc_send, spec_send.
  rewrite !(proj2 (Z.eqb_neq _ 0)) by lia. cbn [orb].
  destruct (size >? IPC_MAX_MESSAGE_SIZE) eqn:Hg; unfold IPC_MAX_MESSAGE_SIZE in Hg; b2p; [lia|].
  rewrite length_fmap. unfold ipc_find_free_slot, IPC_MAX_MESSAGES.
  destruct (find_range _ _ _) as [i|] eqn:Ef.
  - apply find_range_Some in Ef as (Hi & Hu & _). b2p.
    assert (Hfree : is_used (slot_at q i) = false) by (unfold is_used; rewrite Hu; done).
    rewrite bool_decide_true by (by eapply order_not_full).
    destruct (ipc_copy_payload_spec (data (message (slot_at q i))) payload size) as [Hcl Hcb];
      [apply Hok; lia|lia|].
    set (d := ipc_copy_payload _ _ _) in *. set (s := Slot _ _ _). set (q' := Ipc _ _).
    assert (Hat : forall j, 0 <= j -> slot_at q' j = if j =? i then s else slot_at q j).
    { intros j Hj. apply (slot_at_set q i s j); auto. }
    assert (Hnext : g_ipc_next_sequence q' = g_ipc_next_sequence q + 1).
    { unfold q'. simpl. unfold UINT64_MAX in *. by rewrite u64_id by lia. }
    destruct (ordered_snoc q q' order i s) as [Ho' Hlet]; auto.
    split_and!; [done| |lia|lia]. split.
    + unfold q'. simpl. by rewrite length_insert.
    + intros j Hj. rewrite Hat by lia. destruct (Z.eqb_spec j i); [|by apply Hok].
      split_and!; simpl; [done|lia| |done]. intros k Hk. rewrite Hcb by lia.
      destruct (Z.ltb_spec k size); [lia|done].
    + exists (order ++ [i]). split; [done|]. rewrite Hlet. do 2 f_equal. unfold letter_of. simpl.
      f_equal. symmetry. apply payload_take; auto. lia.
  - rewrite bool_decide_false; [split_and!; [done| |lia|lia]; split; eauto|].
    rewrite (order_full q order Ho); [lia|]. intros i Hi.
    pose proof (find_range_None _ _ _ Ef i Hi) as Hn. cbn beta in Hn. unfold is_used. by rewrite Hn.
Qed.

(** ** Receive *)

Lemma spec_recv_first a x l target :
  a !! x = Some l -> to l = target ->
  (forall y l', (y < x)%nat -> a !! y = Some l' -> to l' <> target) ->
  spec_recv a target = (Some l, delete x a).
Proof.
  revert x. induction a as [|b a IH]; intros x Hx Ht Hb; [done|].
  destruct x as [|x]; simpl in *.
  - injection Hx as ->. by rewrite Ht, Z.eqb_refl.
  - rewrite (proj2 (Z.eqb_neq _ _)) by (apply (Hb 0%nat); [lia|done]).
    rewrite (IH x); auto. intros y l' Hy Hl. apply (Hb (S y)); [lia|done].
Qed.

Lemma spec_recv_none a target :
  (forall l, l ∈ a -> to l <> target) -> spec_recv a target = (None, a).
Proof.
  induction a as [|b a IH]; intros Ha; [done|]. simpl.
  rewrite (proj2 (Z.eqb_neq _ _)) by (apply Ha; left). rewrite IH; [done|].
  intros l Hl. apply Ha. by right.
Qed.

Definition for_target (q : ipc) (target i : Z) : Prop :=
  is_used (slot_at q i) = true /\ target_pid (message (slot_at q i)) = target.

Lemma find_oldest_spec q target :
  match ipc_find_oldest_target_slot q target with
  | Some i => 0 <= i < 8 /\ for_target q target i /\
      forall j, 0 <= j < 8 -> for_target q target j -> sequence (slot_at q i) <= sequence (slot_at q j)
  | None => forall j, 0 <= j < 8 -> ~ for_target q target j
  end.
Proof.
  unfold ipc_find_oldest_target_slot, IPC_MAX_MESSAGES.
  apply (for_range_ind (fun n o => match o with
    | Some i => 0 <= i < n /\ for_target q target i /\
        forall j, 0 <= j < n -> for_target q target j -> sequence (slot_at q i) <= sequence (slot_at q j)
    | None => forall j, 0 <= j < n -> ~ for_target q target j end)); [lia|lia|].
  intros n o Hn IH. cbn zeta. destruct (_ || _) eqn:Hb.
  - assert (Hno : ~ for_target q target n).
    { intros [Hu Ht]. unfold is_used in Hu. rewrite Ht, Z.eqb_refl in Hb.
      by destruct (slot_used (slot_at q n) =? 0). }
    destruct o as [i|].
    + destruct IH as (Hi & Hf & Hmin). split_and!; [lia..|done|]. intros j Hj Hfj.
      destruct (Z.eq_dec j n) as [->|]; [done|]. apply Hmin; [lia|done].
    + intros j Hj. destruct (Z.eq_dec j n) as [->|]; [done|]. apply IH. lia.
  - b2p. assert (Hyes : for_target q target n).
    { split; [unfold is_used; by rewrite (proj2 (Z.eqb_neq _ _))|done]. }
    destruct o as [i|].
    + destruct IH as (Hi & Hf & Hmin). case_if; (split_and!; [lia..|done|]); intros j Hj Hfj.
      * destruct (Z.eq_dec j n) as [->|]; [lia|]. specialize (Hmin j ltac:(lia) Hfj). lia.
      * destruct (Z.eq_dec j n) as [->|]; [done|]. apply Hmin; [lia|done].
    + split_and!; [lia..|done|]. intros j Hj Hfj. destruct (Z.eq_dec j n) as [->|]; [lia|].
      exfalso. apply (IH j); [lia|done].
Qed.

(** Clearing the slot at position [x] of the order removes it. *)
Lemma ordered_delete q q' order x i :
  ordered q order -> order !! x = Some i ->
  (forall j, 0 <= j -> slot_at q' j = if j =? i then zero_slot else slot_at q j) ->
  g_ipc_next_sequence q' = g_ipc_next_sequence q ->
  ordered q' (delete x order) /\
  letter_of ∘ slot_at q' <$> delete x order = delete x (letter_of ∘ slot_at q <$> order).
Proof.
  intros Ho Hx Hat Hnext.
  assert (Hdel : forall y j, delete x order !! y = Some j ->
    j <> i /\ order !! (if decide (y < x)%nat then y else S y) = Some j).
  { intros y j. rewrite list_lookup_delete. intros Hy.
    assert (Hy' : order !! (if decide (y < x)%nat then y else S y) = Some j) by by case_decide.
    split; [|done]. intros ->. pose proof (NoDup_lookup _ _ _ _ (od_nodup _ _ Ho) Hx Hy') as E.
    case_decide; lia. }
  assert (Hin : forall j, j ∈ delete x order <-> j ∈ order /\ j <> i).
  { intros j. split.
    - intros [y Hy]%list_elem_of_lookup. destruct (Hdel y j Hy) as [? ?].
      split; [by eapply list_elem_of_lookup_2|done].
    - intros [[y Hy]%list_elem_of_lookup Hne].
      assert (y <> x) by (intros ->; rewrite Hx in Hy; congruence).
      apply list_elem_of_lookup. exists (if decide (y < x)%nat then y else pred y).
      rewrite list_lookup_delete. repeat case_decide; try lia; [done|].
      by replace (S (Init.Nat.pred y)) with y by lia. }
  assert (Hold : forall j, j ∈ delete x order -> slot_at q' j = slot_at q j).
  { intros j [Hj Hne]%Hin. apply (od_used _ _ Ho) in Hj as [? _]. rewrite Hat by lia.
    by rewrite (proj2 (Z.eqb_neq _ _)). }
  split; [split|].
  - eapply sublist_NoDup; [apply Ho|apply sublist_delete].
  - intros j. rewrite Hin, (od_used _ _ Ho). split.
    + intros [[Hj Hu] Hne]. split; [done|]. rewrite Hat by lia. by rewrite (proj2 (Z.eqb_neq _ _)).
    + intros [Hj Hu]. rewrite Hat in Hu by lia. destruct (Z.eqb_spec j i); [done|]. auto.
  - intros a b j k Ha Hb Hab. rewrite !Hold by (by eapply list_elem_of_lookup_2).
    destruct (Hdel a j Ha) as [_ Ha'], (Hdel b k Hb) as [_ Hb'].
    eapply (od_sorted _ _ Ho); eauto. repeat case_decide; lia.
  - intros j Hj. rewrite Hold, Hnext by done. apply (od_bound _ _ Ho). by apply Hin.
  - rewrite <- list_fmap_delete. apply list_fmap_ext. intros y j Hj.
    apply list_elem_of_lookup_2 in Hj. simpl. by rewrite Hold.
Qed.

(** The caller's object holds the letter: same ends, same bytes, zero tail. *)
Definition delivers (m : ipc_message) (l : letter) : Prop :=
  sender_pid m = from l /\ target_pid m = to l /\ msg_size m = Z.of_nat (length (body l)) /\
  data m = body l ++ replicate (16 - length (body l)) 0.

Lemma ipc_recv_refines q a target out :
  refines q a -> target <> 0 -> length (data out) = 16%nat ->
  let '(r, out', q') := ipc_recv q target (Some out) in
  let '(l, a') := spec_recv a target in
  refines q' a' /\ g_ipc_next_sequence q' = g_ipc_next_sequence q /\
  match l with
  | Some l => r = 0 /\ exists m, out' = Some m /\ delivers m l
  | None => r = -1 /\ out' = Some out /\ q' = q
  end.
Proof.
  intros [Hl Hok (order & Ho & ->)] Ht Hout. unfold ipc_recv. rewrite (proj2 (Z.eqb_neq target 0)) by done.
  pose proof (find_oldest_spec q target) as Hf.
  destruct (ipc_find_oldest_target_slot q target) as [i|].
  - destruct Hf as (Hi & [Hu Htg] & Hmin). destruct (Hok i Hi) as (Hdl & Hsz & Htail & _).
    specialize (Hsz Hu).
    destruct (proj1 (list_elem_of_lookup order i)) as [x Hx]; [by apply (od_used _ _ Ho)|].
    set (a := letter_of ∘ slot_at q <$> order).
    assert (Hax : a !! x = Some (letter_of (slot_at q i))) by (unfold a; by rewrite list_lookup_fmap, Hx).
    rewrite (spec_recv_first a x _ target Hax Htg).
    2: { intros y l' Hy (j & -> & Ey)%list_lookup_fmap_Some. simpl. intros Etj.
         pose proof (od_sorted _ _ Ho y x j i Ey Hx Hy).
         destruct (proj1 (od_used _ _ Ho j)) as [Hj Huj]; [by eapply list_elem_of_lookup_2|].
         specialize (Hmin j Hj (conj Huj Etj)). lia. }
    rewrite ipc_clear_slot_zero by done.
    destruct (ordered_delete q (set_slot q i zero_slot) order x i Ho Hx) as [Ho' Hlet];
      [by intros; apply slot_at_set|done|].
    split_and!; [split|done|done|].
    + simpl. by rewrite length_insert.
    + intros j Hj. rewrite slot_at_set by (done || lia). destruct (j =? i); [apply zero_slot_ok|by apply Hok].
    + by exists (delete x order).
    + eexists. split; [done|].
      destruct (ipc_copy_payload_spec (data out) (data (message (slot_at q i))) (msg_size (message (slot_at q i))))
        as [Hcl Hcb]; [done|lia|].
      unfold delivers, letter_of. cbn [from to body sender_pid target_pid msg_size data].
      rewrite length_take, Hdl. split_and!; auto; [lia|].
      rewrite <- (payload_take _ (data (message (slot_at q i))) (msg_size (message (slot_at q i))) Hcl)
        by (done || lia).
      apply bytes_ext; [rewrite length_app, length_take, length_replicate; lia|].
      intros j Hj. rewrite byte_at_app, length_take, Hcl by lia.
      destruct (Z.ltb_spec j (Z.of_nat (Z.to_nat (msg_size (message (slot_at q i))) `min` 16))).
      * by rewrite byte_at_take by lia.
      * rewrite byte_at_replicate by lia. rewrite Hcb by lia.
        destruct (Z.ltb_spec j (msg_size (message (slot_at q i)))); [lia|done].
  - rewrite spec_recv_none; [split_and!; auto; split; eauto|].
    intros l (i & -> & Hi)%list_elem_of_fmap. simpl. intros E.
    destruct (proj1 (od_used _ _ Ho i) Hi) as [? ?]. by apply (Hf i).
Qed.

Lemma ipc_init_refines q :
  length (g_ipc_slots q) = 8%nat ->
  (forall i, 0 <= i < 8 -> length (data (message (slot_at q i))) = 16%nat) ->
  refines (ipc_init q) [] /\ g_ipc_next_sequence (ipc_init q) = 1.
Proof.
  intros Hl Hd.
  assert (H : length (g_ipc_slots (ipc_init q)) = 8%nat /\ g_ipc_next_sequence (ipc_init q) = 1 /\
    forall i, 0 <= i -> slot_at (ipc_init q) i = if i <? 8 then zero_slot else slot_at q i).
  { unfold ipc_init, IPC_MAX_MESSAGES.
    apply (for_range_ind (fun n q' => length (g_ipc_slots q') = 8%nat /\ g_ipc_next_sequence q' = 1 /\
      forall i, 0 <= i -> slot_at q' i = if i <? n then zero_slot else slot_at q i)); [lia| |].
    { split_and!; auto. intros i Hi. destruct (Z.ltb_spec i 0); [lia|done]. }
    intros n q' Hn (Hl' & Hn' & Ha). split_and!; [simpl; by rewrite length_insert|done|].
    intros i Hi. rewrite slot_at_set by (done || lia). rewrite !Ha by lia.
    destruct (Z.eqb_spec i n) as [->|].
    - destruct (Z.ltb_spec n n), (Z.ltb_spec n (n + 1)); try lia. by apply ipc_clear_slot_zero, Hd.
    - destruct (Z.ltb_spec i n), (Z.ltb_spec i (n + 1)); try lia; done. }
  destruct H as (H1 & H2 & H3). split; [|done].
  assert (Hz : forall i, 0 <= i < 8 -> slot_at (ipc_init q) i = zero_slot).
  { intros i Hi. rewrite H3 by lia. destruct (Z.ltb_spec i 8); [done|lia]. }
  split; [done| |].
  - intros i Hi. rewrite Hz by done. apply zero_slot_ok.
  - exists []. split; [|done]. split.
    + apply NoDup_nil_2.
    + intros i. split; [by intros ?%elem_of_nil|]. intros [Hi Hu]. by rewrite Hz in Hu.
    + intros x y i j Hx. by rewrite lookup_nil in Hx.
    + intros i Hi. by apply elem_of_nil in Hi.
Qed.

(** * Properties *)

Inductive ipc_call :=
  | Send (sender target : Z) (payload : list Z) (size : Z)
  | Recv (target : Z) (out : ipc_message).

(** Buffers are as large as the call says. *)
Definition call_ok (c : ipc_call) : Prop :=
  match c with
  | Send _ _ payload size => 0 <= size /\ size <= Z.of_nat (length payload)
  | Recv _ out => length (data out) = 16%nat
  end.

Definition run_call (q : ipc) (c : ipc_call) : Z * option ipc_message * ipc :=
  match c with
  | Send s t p n => let '(r, q') := ipc_send q s t (Some p) n in (r, None, q')
  | Recv t out => ipc_recv q t (Some out)
  end.

Definition spec_call (a : aqueue) (c : ipc_call) : Z * option letter * aqueue :=
  match c with
  | Send s t p n =>
      if (s =? 0) || (t =? 0) || (n =? 0) || (n >? 16) then (-1, None, a)
      else let '(r, a') := spec_send a s t (take (Z.to_nat n) p) in (r, None, a')
  | Recv t _ =>
      if t =? 0 then (-1, None, a)
      else let '(l, a') := spec_recv a t in (match l with Some _ => 0 | None => -1 end, l, a')
  end.

(** One call: same return code, and a delivered message exactly when the
    specification delivers one. *)
Definition same_answer (c : ipc_call) (r : Z * option ipc_message) (s : Z * option letter) : Prop :=
  fst r = fst s /\
  match c, snd s with
  | Recv _ _, Some l => exists m, snd r = Some m /\ delivers m l
  | Recv _ out, None => snd r = Some out
  | Send _ _ _ _, _ => True
  end.

Lemma run_call_refines q a c :
  refines q a -> 0 <= g_ipc_next_sequence q < UINT64_MAX -> call_ok c ->
  let '(r, m, q') := run_call q c in
  let '(s, l, a') := spec_call a c in
  same_answer c (r, m) (s, l) /\ refines q' a' /\
  g_ipc_next_sequence q <= g_ipc_next_sequence q' <= g_ipc_next_sequence q + 1.
Proof.
  intros Hr Hs Hc. destruct c as [s t p n|t out]; cbn [run_call spec_call call_ok] in *.
  - destruct (_ || _) eqn:Hb.
    + unfold ipc_send, IPC_MAX_MESSAGE_SIZE. rewrite Hb. split; [done|split; [done|lia]].
    + b2p. pose proof (ipc_send_refines q a s t p n Hr Hs) as Hsend.
      destruct (ipc_send q s t (Some p) n) as [r q'], (spec_send a s t _) as [r' a'].
      destruct Hsend as (-> & ? & ?); auto; [lia|lia|]. split; [done|split; [done|lia]].
  - destruct (Z.eqb_spec t 0) as [->|Ht].
    + unfold ipc_recv. rewrite Z.eqb_refl. split; [done|split; [done|lia]].
    + pose proof (ipc_recv_refines q a t out Hr Ht Hc) as Hrecv.
      destruct (ipc_recv q t (Some out)) as [[r m] q'], (spec_recv a t) as [[l|] a'].
      * destruct Hrecv as (? & -> & -> & m' & -> & ?). split; [split; [done|simpl; eauto]|split; [done|lia]].
      * destruct Hrecv as (? & -> & -> & -> & _). split; [done|split; [done|lia]].
Qed.

(** The answers of a sequence of calls. *)
Fixpoint run_calls (q : ipc) (cs : list ipc_call) : list (Z * option ipc_message) :=
  match cs with
  | [] => []
  | c :: cs => let '(r, m, q') := run_call q c in (r, m) :: run_calls q' cs
  end.

Fixpoint spec_calls (a : aqueue) (cs : list ipc_call) : list (Z * option letter) :=
  match cs with
  | [] => []
  | c :: cs => let '(r, l, a') := spec_call a c in (r, l) :: spec_calls a' cs
  end.

(** C10: the slot table implements a bounded FIFO queue.  From ipc_init on, any
    sequence of sends and receives (fewer than 2^64 - 2 of them, so that the
    sequence counter does not wrap) returns the same codes and delivers the same
    messages as one queue of at most eight letters in send order, from which
    each receive takes the first letter addressed to its target; a delivered
    message carries exactly the bytes sent, with zeros behind them, and a failed
    receive leaves the caller's object alone. *)
Theorem ipc_refines_fifo q cs :
  length (g_ipc_slots q) = 8%nat ->
  (forall i, 0 <= i < 8 -> length (data (message (slot_at q i))) = 16%nat) ->
  Z.of_nat (length cs) < UINT64_MAX - 1 -> Forall call_ok cs ->
  length (run_calls (ipc_init q) cs) = length cs /\
  forall k c r s, cs !! k = Some c -> run_calls (ipc_init q) cs !! k = Some r ->
    spec_calls [] cs !! k = Some s -> same_answer c r s.
Proof.
  intros Hl Hd Hn Hok. destruct (ipc_init_refines q Hl Hd) as [Hr Hs].
  assert (Hb : 0 <= g_ipc_next_sequence (ipc_init q) /\
    g_ipc_next_sequence (ipc_init q) + Z.of_nat (length cs) <= UINT64_MAX) by lia.
  revert Hr Hb. generalize (ipc_init q) ([] : aqueue). clear Hn Hs.
  induction Hok as [|c cs Hc _ IH]; intros q1 a Hr Hb; simpl; [split; [done|intros k ? ? ? Hk; by rewrite lookup_nil in Hk]|].
  simpl in Hb. pose proof (run_call_refines q1 a c Hr ltac:(lia) Hc) as Hstep.
  destruct (run_call q1 c) as [[r m] q2], (spec_call a c) as [[s l] a2].
  destruct Hstep as (Hans & Hr2 & Hq2). destruct (IH q2 a2 Hr2 ltac:(lia)) as [Hlen Hrest].
  split; [simpl; by rewrite Hlen|].
  intros [|k] c' r' s'; simpl; [by intros [= <-] [= <-] [= <-]|]. apply Hrest.
Qed.

(** no payload byte outlives its message.  At any point of any sequence of
    calls, a slot that holds no message is entirely zero, and the bytes past the
    size of a pending message are zero. *)
Theorem ipc_no_stale_bytes q cs :
  length (g_ipc_slots q) = 8%nat ->
  (forall i, 0 <= i < 8 -> length (data (message (slot_at q i))) = 16%nat) ->
  Z.of_nat (length cs) < UINT64_MAX - 1 -> Forall call_ok cs ->
  let q' := foldl (fun q c => snd (run_call q c)) (ipc_init q) cs in
  forall i, 0 <= i < 8 ->
    (slot_used (slot_at q' i) = 0 -> slot_at q' i = zero_slot) /\
    (forall j, msg_size (message (slot_at q' i)) <= j < 16 -> byte_at (data (message (slot_at q' i))) j = 0).
Proof.
  intros Hl Hd Hn Hok. destruct (ipc_init_refines q Hl Hd) as [Hr Hs].
  assert (Hb : 0 <= g_ipc_next_sequence (ipc_init q) /\
    g_ipc_next_sequence (ipc_init q) + Z.of_nat (length cs) <= UINT64_MAX) by lia.
  revert Hr Hb. generalize (ipc_init q) ([] : aqueue). clear Hn Hs.
  induction Hok as [|c cs Hc _ IH]; intros q1 a Hr Hb; simpl.
  - intros i Hi. destruct (rf_ok _ _ Hr i Hi) as (_ & _ & Ht & Hz). split; [|done].
    intros Hu. apply Hz. unfold is_used. by rewrite Hu.
  - simpl in Hb. pose proof (run_call_refines q1 a c Hr ltac:(lia) Hc) as Hstep.
    destruct (run_call q1 c) as [[r m] q2], (spec_call a c) as [[s l] a2].
    destruct Hstep as (_ & Hr2 & Hq2). apply (IH q2 a2 Hr2). lia.
Qed.

(** ** Witnesses *)

Definition empty_ipc : ipc := Ipc (replicate 8 zero_slot) 77.
Definition blank : ipc_message := Message 9 9 9 (replicate 16 255).

Definition demo_calls : list ipc_call :=
  [Send 1 2 [10; 11] 2; Send 1 3 [20] 1; Send 4 2 [30; 31; 32] 3; Recv 2 blank; Recv 2 blank; Recv 2 blank].

Lemma demo_calls_ok : Forall call_ok demo_calls.
Proof. repeat constructor; simpl; lia. Qed.

Lemma empty_ipc_data i : 0 <= i < 8 -> length (data (message (slot_at empty_ipc i))) = 16%nat.
Proof.
  intros Hi. unfold slot_at. simpl. rewrite (lookup_replicate_2 8 zero_slot) by lia. done.
Qed.

Lemma ipc_refines_fifo_witness :
  run_calls (ipc_init empty_ipc) demo_calls !! 4%nat = Some (0, Some (Message 4 2 3 ([30; 31; 32] ++ replicate 13 0))) /\
  length (run_calls (ipc_init empty_ipc) demo_calls) = 6%nat.
Proof.
  split; [vm_compute; reflexivity|].
  apply (ipc_refines_fifo empty_ipc demo_calls);
    [reflexivity|apply empty_ipc_data|vm_compute; reflexivity|apply demo_calls_ok].
Defined.

Lemma ipc_no_stale_bytes_witness :
  let q' := foldl (fun q c => snd (run_call q c)) (ipc_init empty_ipc) demo_calls in
  slot_used (slot_at q' 0) = 0 /\ slot_at q' 0 = zero_slot.
Proof.
  intros q'. assert (Hu : slot_used (slot_at q' 0) = 0) by (vm_compute; reflexivity).
  split; [exact Hu|].
  refine (proj1 (ipc_no_stale_bytes empty_ipc demo_calls _ _ _ _ 0 _) Hu);
    [reflexivity|apply empty_ipc_data|vm_compute; reflexivity|apply demo_calls_ok|lia].
Defined.
