(* ===== verification/VfsPath.v ===== *)
(** Path handling of the virtual file system: vfs_normalize_path and the path
    predicates of kernel/vfs.c, with a component-level specification.

    Paths are byte lists ending at their first zero (Bytes.v); '/' is 47 and
    '.' is 46. *)

From S2P Require Import Prelude.
From S2P Require Import Bytes.
Open Scope arm.

Definition VFS_MAX_PATH : Z := 64.
Definition SLASH : Z := 47.
Definition DOT : Z := 46.

(** * Operations *)

(** [while (input < VFS_MAX_PATH && p(path[input])) input++;] *)
Definition scan_while (path : list Z) (p : Z -> bool) (input : Z) : Z :=
  match find_range input VFS_MAX_PATH (fun k => negb (p (byte_at path k))) with
  | Some k => k
  | None => VFS_MAX_PATH
  end.

(** [while (output > 1 && normalized[output - 1] != '/') output--;] *)
Fixpoint back_to_slash (fuel : nat) (normalized : list Z) (output : Z) : Z :=
  match fuel with
  | O => output
  | S fuel' =>
      if (output >? 1) && negb (byte_at normalized (output - 1) =? SLASH)
      then back_to_slash fuel' normalized (output - 1) else output
  end.

(** The body of the [for (;;)] loop; at most one iteration per input byte. *)
Fixpoint normalize_loop (fuel : nat) (path : list Z) (input output : Z) (normalized : list Z)
    : Z * list Z :=
  match fuel with
  | O => (-1, normalized)
  | S fuel' =>
      let input := scan_while path (fun c => c =? SLASH) input in
      if input >=? VFS_MAX_PATH then (-1, normalized) else
      if byte_at path input =? 0 then (0, put output 0 normalized) else
      let component_start := input in
      let input := scan_while path (fun c => negb (c =? SLASH) && negb (c =? 0)) input in
      if input >=? VFS_MAX_PATH then (-1, normalized) else
      let component_length := input - component_start in
      if (component_length =? 1) && (byte_at path component_start =? DOT)
      then normalize_loop fuel' path input output normalized else
      if (component_length =? 2) && (byte_at path component_start =? DOT) &&
         (byte_at path (component_start + 1) =? DOT) then
        if output =? 1 then (-1, normalized) else
        let output := back_to_slash (Z.to_nat VFS_MAX_PATH) normalized output in
        let output := if output >? 1 then output - 1 else output in
        normalize_loop fuel' path input output normalized
      else
      let required := component_length + (if output >? 1 then 1 else 0) in
      if output >? (VFS_MAX_PATH - 1) - required then (-1, normalized) else
      let '(output, normalized) :=
        if output >? 1 then (output + 1, put output SLASH normalized) else (output, normalized) in
      let normalized := copy_bytes normalized output path component_start component_length in
      normalize_loop fuel' path input (output + component_length) normalized
  end.

(** Status and the contents of the 64-byte output buffer. *)
Definition vfs_normalize_path (path : option (list Z)) (normalized : list Z) : Z * list Z :=
  match path with
  | None => (-1, normalized)
  | Some path =>
      if negb (byte_at path 0 =? SLASH) then (-1, normalized)
      else normalize_loop (Z.to_nat VFS_MAX_PATH) path 1 1 (put 0 SLASH normalized)
  end.

Definition vfs_copy_path (dest : list Z) (path : option (list Z)) : Z * list Z :=
  vfs_normalize_path path dest.

Definition vfs_path_length (path : option (list Z)) : Z :=
  match path with None => 0 | Some p => Z.of_nat (length (str_cut p)) end.

(** [while (mount_path[i] != 0) if (path[i] != mount_path[i]) return 0; else i++;]
    followed by the final test, from index 0 of both. *)
Fixpoint child_loop (path mount_path : list Z) : bool :=
  match mount_path with
  | c :: m' =>
      if c =? 0 then (byte_at path 0 =? SLASH) && negb (byte_at path 1 =? 0)
      else if negb (byte_at path 0 =? c) then false else child_loop (tail path) m'
  | [] => (byte_at path 0 =? SLASH) && negb (byte_at path 1 =? 0)
  end.

Definition vfs_path_is_mount_child (path mount_path : option (list Z)) : bool :=
  match path, mount_path with
  | Some path, Some mount_path =>
      if negb (byte_at path 0 =? SLASH) || negb (byte_at mount_path 0 =? SLASH) then false
      else if (byte_at mount_path 0 =? SLASH) && (byte_at mount_path 1 =? 0)
      then negb (byte_at path 1 =? 0)
      else child_loop path mount_path
  | _, _ => false
  end.

Fixpoint strip_loop (path prefix : list Z) : option (list Z) :=
  match prefix with
  | c :: p' =>
      if c =? 0 then (if byte_at path 0 =? 0 then None else Some path)
      else if negb (byte_at path 0 =? c) then None else strip_loop (tail path) p'
  | [] => if byte_at path 0 =? 0 then None else Some path
  end.

Definition vfs_strip_prefix (path prefix : option (list Z)) : option (list Z) :=
  match path, prefix with
  | Some path, Some prefix => if byte_at prefix 0 =? 0 then None else strip_loop path prefix
  | _, _ => None
  end.

(** * Specification by components *)

(** The pieces between slashes. *)
Fixpoint split_path (l : list Z) : list (list Z) :=
  match l with
  | [] => [[]]
  | c :: l' =>
      if c =? SLASH then [] :: split_path l'
      else match split_path l' with w :: ws => (c :: w) :: ws | [] => [[c]] end
  end.

(** Walk the components, the last directory first on the stack: empty ones and
    "." are dropped, ".." leaves the last directory and fails at the root. *)
Fixpoint resolve (stack ws : list (list Z)) : option (list (list Z)) :=
  match ws with
  | [] => Some stack
  | w :: ws' =>
      if bool_decide (w = []) || bool_decide (w = [DOT]) then resolve stack ws'
      else if bool_decide (w = [DOT; DOT]) then
        match stack with [] => None | _ :: stack' => resolve stack' ws' end
      else resolve (w :: stack) ws'
  end.

(** The canonical spelling of a stack of components. *)
Fixpoint render (stack : list (list Z)) : list Z :=
  match stack with
  | [] => [SLASH]
  | [w] => SLASH :: w
  | w :: stack' => render stack' ++ SLASH :: w
  end.

(** The normal form of an absolute path shorter than the limit. *)
Definition normal_form (s : list Z) : option (list Z) :=
  match s with
  | c :: s' =>
      if (c =? SLASH) && (Z.of_nat (length s) <? VFS_MAX_PATH)
      then render <$> resolve [] (split_path s') else None
  | [] => None
  end.

(** * The loop implements the specification *)

Fixpoint take_while (p : Z -> bool) (l : list Z) : list Z :=
  match l with
  | [] => []
  | c :: l' => if p c then c :: take_while p l' else []
  end.

Lemma take_while_split p l :
  exists r, l = take_while p l ++ r /\ (forall c, c ∈ take_while p l -> p c = true) /\
    match r with [] => True | c :: _ => p c = false end.
Proof.
  induction l as [|c l (r & E & Hin & Hr)]; simpl.
  - exists []. split_and!; auto. by intros c ?%elem_of_nil.
  - destruct (p c) eqn:Hc.
    + exists r. split_and!; auto; [simpl; by f_equal|]. intros d [->|?]%elem_of_cons; auto.
    + exists (c :: l). split_and!; auto. by intros d ?%elem_of_nil.
Qed.

(** A component proper: non-empty, without separators or terminators. *)
Definition good (w : list Z) : Prop := w <> [] /\ forall c, c ∈ w -> c <> SLASH /\ c <> 0.

Definition render_base (stack : list (list Z)) : list Z :=
  match stack with [] => [SLASH] | _ => render stack ++ [SLASH] end.

Lemma render_cons w stack : render (w :: stack) = render_base stack ++ w.
Proof. destruct stack as [|v stack]; [done|]. simpl. rewrite <- app_assoc. done. Qed.

Lemma render_length stack : (1 <= length (render stack))%nat.
Proof.
  destruct stack as [|w stack]; [done|]. rewrite render_cons, length_app.
  destruct stack; simpl; [lia|]. rewrite length_app. simpl. lia.
Qed.

Lemma render_length_cons w stack : good w -> (1 < length (render (w :: stack)))%nat.
Proof.
  intros [Hw _]. rewrite render_cons, length_app. destruct w; [done|]. simpl.
  destruct stack; simpl; [lia|]. rewrite length_app. simpl. lia.
Qed.

Lemma render_nonzero stack : Forall good stack -> forall c, c ∈ render stack -> c <> 0.
Proof.
  induction 1 as [|w stack Hw Hs IH]; intros c.
  - simpl. intros [->|[]%elem_of_nil]%elem_of_cons. done.
  - rewrite render_cons, elem_of_app. intros [Hc|Hc]; [|by apply Hw].
    destruct stack; unfold render_base in Hc.
    + apply elem_of_cons in Hc as [->|[]%elem_of_nil]. done.
    + apply elem_of_app in Hc as [Hc|[->|[]%elem_of_nil]%elem_of_cons]; [auto|done].
Qed.

Lemma split_path_slashes k r stack :
  resolve stack (split_path (replicate k SLASH ++ r)) = resolve stack (split_path r).
Proof. induction k as [|k IH]; [done|]. simpl. exact IH. Qed.

Lemma split_path_word w r stack :
  (forall c, c ∈ w -> c <> SLASH) -> match r with [] => True | c :: _ => c = SLASH end ->
  resolve stack (split_path (w ++ r)) =
  resolve stack (w :: match r with [] => [] | _ :: r' => split_path r' end).
Proof.
  intros Hw Hr. f_equal. induction w as [|c w IH]; simpl.
  - destruct r as [|d r]; [done|]. subst d. done.
  - rewrite (proj2 (Z.eqb_neq c SLASH)) by (apply Hw; left).
    rewrite IH by (intros d Hd; apply Hw; by right). done.
Qed.

(** The same, with the remaining input left whole. *)
Lemma resolve_rest stack r :
  match r with [] => True | c :: _ => c = SLASH end ->
  resolve stack (match r with [] => [] | _ :: r' => split_path r' end) = resolve stack (split_path r).
Proof. destruct r as [|c r]; [done|]. intros ->. done. Qed.

Lemma back_to_slash_spec fuel A w buf :
  (length w <= fuel)%nat -> (forall c, c ∈ w -> c <> SLASH) ->
  take (length (A ++ [SLASH] ++ w)) buf = A ++ [SLASH] ++ w ->
  back_to_slash fuel buf (Z.of_nat (length (A ++ [SLASH] ++ w))) = Z.of_nat (length A) + 1.
Proof.
  intros Hf Hw Hb.
  assert (Hat : forall k, 0 <= k < Z.of_nat (length (A ++ [SLASH] ++ w)) ->
    byte_at buf k = byte_at (A ++ [SLASH] ++ w) k).
  { intros k Hk. rewrite <- Hb. by rewrite byte_at_take. }
  clear Hb. revert Hat. rewrite !length_app. simpl length.
  assert (Hgo : forall m, (m <= length w)%nat -> forall fuel, (m <= fuel)%nat ->
    (forall k, 0 <= k < Z.of_nat (length A + (1 + length w)) -> byte_at buf k = byte_at (A ++ [SLASH] ++ w) k) ->
    back_to_slash fuel buf (Z.of_nat (length A + (1 + m))) = Z.of_nat (length A) + 1).
  { induction m as [|m IH]; intros Hm fuel' Hf' Hat.
    - destruct fuel' as [|fuel']; simpl back_to_slash; [lia|]. rewrite Hat by lia.
      rewrite byte_at_app by lia.
      destruct (Z.ltb_spec (Z.of_nat (length A + 1) - 1) (Z.of_nat (length A))); [lia|].
      replace (Z.of_nat (length A + 1) - 1 - Z.of_nat (length A)) with 0 by lia.
      unfold byte_at at 1. simpl. rewrite andb_false_r. lia.
    - destruct fuel' as [|fuel']; [lia|]. cbn [back_to_slash].
      destruct (Z.of_nat (length A + (1 + S m)) >? 1) eqn:Hg; b2p; [|lia].
      rewrite Hat by lia. rewrite byte_at_app by lia.
      destruct (Z.ltb_spec (Z.of_nat (length A + (1 + S m)) - 1) (Z.of_nat (length A))); [lia|].
      replace (Z.of_nat (length A + (1 + S m)) - 1 - Z.of_nat (length A)) with (1 + Z.of_nat m) by lia.
      assert (Hc : byte_at ([SLASH] ++ w) (1 + Z.of_nat m) <> SLASH).
      { rewrite byte_at_app by lia. simpl length. destruct (Z.ltb_spec (1 + Z.of_nat m) (Z.of_nat 1)); [lia|].
        apply Hw. replace (1 + Z.of_nat m - Z.of_nat 1) with (Z.of_nat m) by lia.
        eapply list_elem_of_lookup_2. apply lookup_byte_at. lia. }
      rewrite (proj2 (Z.eqb_neq _ _)) by done. cbn [negb andb].
      replace (Z.of_nat (length A + (1 + S m)) - 1) with (Z.of_nat (length A + (1 + m))) by lia.
      apply IH; auto; lia. }
  intros Hat. apply Hgo; auto.
Qed.

Section Loop.
Context (path : list Z).
Let s := str_cut path.
Let n := Z.of_nat (length s).

Lemma path_byte k : 0 <= k <= n -> byte_at path k = byte_at s k.
Proof.
  unfold n, s. clear. revert k. induction path as [|c p IH]; simpl; intros k Hk; [done|].
  destruct (Z.eqb_spec c 0) as [->|Hc]; simpl in *.
  - assert (k = 0) as -> by lia. done.
  - destruct (Z.eq_dec k 0) as [->|]; [done|]. unfold byte_at in *.
    replace (Z.to_nat k) with (S (Z.to_nat (k - 1))) by lia. simpl. apply IH. lia.
Qed.

Lemma path_byte_nonzero k : 0 <= k < n -> byte_at path k <> 0.
Proof.
  intros Hk. rewrite path_byte by lia. apply (str_cut_nonzero path).
  fold s. unfold n in Hk. eapply list_elem_of_lookup_2.
  rewrite (lookup_byte_at s (Z.to_nat k)) by lia. by rewrite Z2Nat.id by lia.
Qed.

Lemma path_byte_end : byte_at path n = 0.
Proof. rewrite path_byte by (unfold n; lia). apply byte_at_ge. unfold n. lia. Qed.

(** A scan stops behind the longest run of accepted bytes. *)
Lemma scan_while_spec p i :
  p 0 = false -> 0 <= i <= n -> n < 64 ->
  scan_while path p i = i + Z.of_nat (length (take_while p (drop (Z.to_nat i) s))).
Proof.
  intros Hp0 Hi Hn. destruct (take_while_split p (drop (Z.to_nat i) s)) as (r & E & Hin & Hr).
  set (w := take_while p (drop (Z.to_nat i) s)) in *.
  assert (Hlen : Z.of_nat (length w) + Z.of_nat (length r) = n - i).
  { apply (f_equal length) in E. rewrite length_drop, length_app in E. unfold n in *. lia. }
  assert (Hb : forall k, 0 <= k <= n - i -> byte_at path (i + k) = byte_at (w ++ r) k).
  { intros k Hk. rewrite path_byte, <- E, byte_at_drop by lia. f_equal. lia. }
  unfold scan_while. rewrite (find_range_first i VFS_MAX_PATH _ (i + Z.of_nat (length w))).
  - done.
  - unfold VFS_MAX_PATH. lia.
  - rewrite Hb by lia. rewrite byte_at_app by lia.
    destruct (Z.ltb_spec (Z.of_nat (length w)) (Z.of_nat (length w))); [lia|].
    rewrite Z.sub_diag. destruct r as [|c r]; unfold byte_at; simpl; [by rewrite Hp0|by rewrite Hr].
  - intros y Hy. replace y with (i + (y - i)) by lia. rewrite Hb by lia. rewrite byte_at_app by lia.
    destruct (Z.ltb_spec (y - i) (Z.of_nat (length w))); [|lia].
    rewrite Hin; [done|]. eapply list_elem_of_lookup_2. rewrite (lookup_byte_at w (Z.to_nat (y - i))) by lia.
    by rewrite Z2Nat.id by lia.
Qed.

(** Paths of 64 bytes or more never reach the end-of-string test. *)
Lemma normalize_loop_long fuel : forall i output buf,
  64 <= n -> 0 <= i -> fst (normalize_loop fuel path i output buf) = -1.
Proof.
  induction fuel as [|fuel IH]; intros i output buf Hn Hi; [done|]. cbn [normalize_loop]. cbn zeta.
  assert (Hscan : forall p j, 0 <= j -> 0 <= scan_while path p j).
  { intros p j Hj. unfold scan_while. destruct (find_range _ _ _) eqn:E; [|unfold VFS_MAX_PATH; lia].
    apply find_range_Some in E. lia. }
  pose proof (Hscan (fun c => c =? SLASH) i Hi) as H1. set (i1 := scan_while _ _ i) in *.
  case_if; [done|]. unfold VFS_MAX_PATH in Heqb.
  rewrite (proj2 (Z.eqb_neq _ 0)) by (apply path_byte_nonzero; lia).
  pose proof (Hscan (fun c => negb (c =? SLASH) && negb (c =? 0)) i1 H1) as H2.
  set (i2 := scan_while _ _ i1) in *.
  case_if; [done|]. case_if; [by apply IH|]. case_if.
  - case_if; [done|]. by apply IH.
  - case_if; [done|]. destruct (output >? 1); by apply IH.
Qed.

(** What holds at the head of each iteration. *)
Record at_head (i output : Z) (buf : list Z) (stack : list (list Z)) : Prop := {
  ah_input : 1 <= i <= n;
  ah_buf : length buf = 64%nat;
  ah_good : Forall good stack;
  ah_out : output = Z.of_nat (length (render stack));
  ah_text : take (length (render stack)) buf = render stack;
  ah_room : output <= i;
  ah_sep : stack = [] \/ i = n \/ byte_at s i = SLASH }.

(** The two scans of an iteration split what is left of the input into
    separators, one component and the rest. *)
Lemma scan_split i :
  1 <= i <= n -> n < 64 ->
  exists k w r, drop (Z.to_nat i) s = replicate k SLASH ++ w ++ r /\
    (w <> [] -> good w) /\ match r with [] => True | c :: _ => c = SLASH end /\
    scan_while path (fun c => c =? SLASH) i = i + Z.of_nat k /\
    (w = [] -> r = [] /\ i + Z.of_nat k = n) /\
    scan_while path (fun c => negb (c =? SLASH) && negb (c =? 0)) (i + Z.of_nat k) =
      i + Z.of_nat k + Z.of_nat (length w) /\
    i + Z.of_nat k + Z.of_nat (length w) + Z.of_nat (length r) = n /\
    drop (Z.to_nat (i + Z.of_nat k + Z.of_nat (length w))) s = r.
Proof.
  intros Hi Hn.
  destruct (take_while_split (fun c => c =? SLASH) (drop (Z.to_nat i) s)) as (r1 & E1 & Hin1 & Hr1).
  set (ss := take_while _ (drop (Z.to_nat i) s)) in *.
  assert (Hss : ss = replicate (length ss) SLASH).
  { symmetry. apply replicate_as_elem_of. split; [done|]. intros c Hc. specialize (Hin1 c Hc). by b2p. }
  assert (Hl1 : Z.of_nat (length ss) + Z.of_nat (length r1) = n - i).
  { apply (f_equal length) in E1. rewrite length_drop, length_app in E1. unfold n in *. lia. }
  assert (Hd1 : drop (Z.to_nat (i + Z.of_nat (length ss))) s = r1).
  { replace (Z.to_nat (i + Z.of_nat (length ss))) with (Z.to_nat i + length ss)%nat by lia.
    rewrite <- drop_drop, E1. apply drop_app_length. }
  destruct (take_while_split (fun c => negb (c =? SLASH) && negb (c =? 0)) r1) as (r & E2 & Hin2 & Hr2).
  set (w := take_while _ r1) in *.
  assert (Hl2 : Z.of_nat (length w) + Z.of_nat (length r) = Z.of_nat (length r1)).
  { apply (f_equal length) in E2. rewrite length_app in E2. lia. }
  assert (Hnz : forall c, c ∈ r1 -> c <> 0).
  { intros c Hc. apply (str_cut_nonzero path). fold s. rewrite <- Hd1 in Hc.
    rewrite <- (take_drop (Z.to_nat (i + Z.of_nat (length ss))) s). apply elem_of_app. by right. }
  assert (Hr : match r with [] => True | c :: _ => c = SLASH end).
  { destruct r as [|c r]; [done|].
    assert (c <> 0) by (apply Hnz; rewrite E2; apply elem_of_app; right; left).
    destruct (Z.eqb_spec c SLASH), (Z.eqb_spec c 0); try done. }
  exists (length ss), w, r. rewrite <- Hss. split_and!; auto.
  - rewrite E1. f_equal. exact E2.
  - intros Hw. split; [done|]. intros c Hc. specialize (Hin2 c Hc). by b2p.
  - rewrite scan_while_spec by (done || lia). done.
  - intros Hw. rewrite Hw in *. destruct r as [|c r]; [split; [done|simpl in *; lia]|]. exfalso.
    simpl in E2. rewrite E2 in Hr1. rewrite Hr in Hr1. rewrite Z.eqb_refl in Hr1. done.
  - rewrite scan_while_spec by (done || lia). by rewrite Hd1.
  - lia.
  - replace (Z.to_nat (i + Z.of_nat (length ss) + Z.of_nat (length w)))
      with (Z.to_nat (i + Z.of_nat (length ss)) + length w)%nat by lia.
    rewrite <- drop_drop, Hd1. rewrite E2 at 1. apply drop_app_length.
Qed.

(** Reading the current component through the path. *)
Lemma word_bytes i k w r j :
  drop (Z.to_nat i) s = replicate k SLASH ++ w ++ r -> 1 <= i <= n ->
  0 <= j < Z.of_nat (length w) -> byte_at path (i + Z.of_nat k + j) = byte_at w j.
Proof.
  intros E Hi Hj.
  assert (Hl : Z.of_nat k + Z.of_nat (length w) + Z.of_nat (length r) = n - i).
  { apply (f_equal length) in E. rewrite length_drop, !length_app, length_replicate in E. unfold n in *. lia. }
  rewrite path_byte by lia.
  replace (i + Z.of_nat k + j) with (Z.of_nat (Z.to_nat i) + (Z.of_nat k + j)) by lia.
  rewrite <- byte_at_drop, E by lia. rewrite byte_at_app, length_replicate by lia.
  destruct (Z.ltb_spec (Z.of_nat k + j) (Z.of_nat k)); [lia|].
  rewrite byte_at_app by lia.
  destruct (Z.ltb_spec (Z.of_nat k + j - Z.of_nat k) (Z.of_nat (length w))); [|lia].
  f_equal. lia.
Qed.

(** The dot tests of the loop, on the component. *)
Lemma dot_tests cs w :
  w <> [] -> (forall j, 0 <= j < Z.of_nat (length w) -> byte_at path (cs + j) = byte_at w j) ->
  (Z.of_nat (length w) =? 1) && (byte_at path cs =? DOT) = bool_decide (w = [DOT]) /\
  (Z.of_nat (length w) =? 2) && (byte_at path cs =? DOT) && (byte_at path (cs + 1) =? DOT)
    = bool_decide (w = [DOT; DOT]).
Proof.
  intros Hw Hb. assert (H0 : byte_at path cs = byte_at w 0).
  { rewrite <- (Z.add_0_r cs). apply Hb. destruct w; [done|]. simpl. lia. }
  destruct w as [|a [|b [|c w]]]; [done| | |].
  - rewrite H0. unfold byte_at at 1 2. simpl. split; [|by rewrite bool_decide_false].
    destruct (Z.eqb_spec a DOT) as [->|]; [by rewrite bool_decide_true|].
    rewrite bool_decide_false; [done|congruence].
  - rewrite H0, (Hb 1) by (simpl; lia). unfold byte_at. simpl. split; [by rewrite bool_decide_false|].
    destruct (Z.eqb_spec a DOT) as [->|]; simpl; [|rewrite bool_decide_false; [done|congruence]].
    destruct (Z.eqb_spec b DOT) as [->|]; [by rewrite bool_decide_true|]. rewrite bool_decide_false; [done|congruence].
  - rewrite !bool_decide_false by done. simpl length.
    destruct (Z.eqb_spec (Z.of_nat (S (S (S (length w))))) 1); [lia|].
    destruct (Z.eqb_spec (Z.of_nat (S (S (S (length w))))) 2); [lia|done].
Qed.

(** Popping the last component. *)
Lemma pop_step i output buf w stack j :
  at_head i output buf (w :: stack) -> i <= j <= n -> (j = n \/ byte_at s j = SLASH) ->
  let o := back_to_slash (Z.to_nat VFS_MAX_PATH) buf output in
  output <> 1 /\ at_head j (if o >? 1 then o - 1 else o) buf stack.
Proof.
  intros [Hi Hl Hg Ho Ht Hroom _] Hj Hsep. apply Forall_cons in Hg as [Hw Hg].
  pose proof (render_length_cons w stack Hw) as H1.
  pose proof (render_length stack) as H2.
  set (A := match stack with [] => [] | _ => render stack end).
  assert (E : render (w :: stack) = A ++ [SLASH] ++ w).
  { rewrite render_cons. unfold render_base, A. destruct stack; [done|]. by rewrite <- app_assoc. }
  assert (HlA : length (render (w :: stack)) = (length A + 1 + length w)%nat).
  { rewrite E, !length_app. simpl. lia. }
  assert (Hbs : back_to_slash (Z.to_nat VFS_MAX_PATH) buf output = Z.of_nat (length A) + 1).
  { rewrite Ho, E. rewrite E in Ht. apply back_to_slash_spec; [|by intros; apply Hw|done].
    apply (f_equal length) in Ht. rewrite length_take, <- E in Ht. unfold VFS_MAX_PATH. lia. }
  split; [lia|]. rewrite Hbs.
  assert (Ho' : (if Z.of_nat (length A) + 1 >? 1 then Z.of_nat (length A) + 1 - 1 else Z.of_nat (length A) + 1)
    = Z.of_nat (length (render stack))).
  { unfold A. destruct stack as [|v stack]; [done|].
    destruct (Z.of_nat (length (render (v :: stack))) + 1 >? 1) eqn:Hgt; b2p; lia. }
  assert (Hle : (length (render stack) <= length (render (w :: stack)))%nat).
  { rewrite render_cons, length_app. unfold render_base. destruct stack; [simpl; lia|].
    rewrite length_app. lia. }
  rewrite Ho'. split; auto; try lia.
  - assert (Hp : take (length (render stack)) (render (w :: stack)) = render stack).
    { rewrite render_cons. unfold render_base. destruct stack as [|v stack]; [done|].
      rewrite <- app_assoc. apply take_app_length. }
    rewrite <- Hp at 2. rewrite <- Ht, take_take. f_equal.
    apply (f_equal length) in Hp. rewrite length_take in Hp. lia.
Qed.

(** Appending a component. *)
Lemma push_step i output buf stack k w r :
  at_head i output buf stack -> n < 64 ->
  drop (Z.to_nat i) s = replicate k SLASH ++ w ++ r -> good w ->
  match r with [] => True | c :: _ => c = SLASH end ->
  i + Z.of_nat k + Z.of_nat (length w) + Z.of_nat (length r) = n ->
  let cs := i + Z.of_nat k in let len := Z.of_nat (length w) in
  (output >? VFS_MAX_PATH - 1 - (len + (if output >? 1 then 1 else 0))) = false /\
  let '(o, b) := if output >? 1 then (output + 1, put output SLASH buf) else (output, buf) in
  at_head (cs + len) (o + len) (copy_bytes b o path cs len) (w :: stack).
Proof.
  intros [Hi Hl Hg Ho Ht Hroom Hsep] Hn E Hw Hr Hsum cs len.
  assert (Hgt : (output >? 1) = match stack with [] => false | _ => true end).
  { destruct stack as [|v stack]; [rewrite Ho; reflexivity|]. apply Forall_cons in Hg as [Hv _].
    pose proof (render_length_cons v stack Hv). destruct (output >? 1) eqn:Hx; b2p; [done|lia]. }
  assert (Hfit : output + (if output >? 1 then 1 else 0) <= cs).
  { rewrite Hgt. destruct stack as [|v stack]; [unfold cs; lia|].
    destruct Hsep as [?|[Hin|Hsl]]; [done| |].
    - exfalso. destruct Hw as [Hw _]. destruct w; [done|]. simpl in Hsum. lia.
    - destruct k as [|k]; [|unfold cs; lia]. exfalso. destruct Hw as [Hw0 Hw].
      destruct w as [|c w]; [done|].
      pose proof (word_bytes i 0 (c :: w) r 0 E Hi ltac:(simpl; lia)) as Hb.
      rewrite path_byte in Hb by (simpl in *; lia).
      replace (i + Z.of_nat 0 + 0) with i in Hb by lia. unfold byte_at at 2 in Hb. simpl in Hb.
      destruct (Hw c) as [Hns _]; [left|]. congruence. }
  assert (Hend : cs + len <= n) by (unfold cs, len in *; lia). unfold VFS_MAX_PATH.
  split.
  { rewrite Z.gtb_ltb. apply Z.ltb_ge. unfold cs, len in *.
    generalize dependent (if output >? 1 then 1 else 0). intros. lia. }
  set (o := output + (if output >? 1 then 1 else 0)).
  set (b := if output >? 1 then put output SLASH buf else buf).
  assert (Hob : (if output >? 1 then (output + 1, put output SLASH buf) else (output, buf)) = (o, b)).
  { unfold o, b. destruct (output >? 1); [done|]. by rewrite Z.add_0_r. }
  rewrite Hob. clear Hob.
  assert (Hlb : length b = 64%nat) by (unfold b; destruct (output >? 1); [by rewrite put_length|done]).
  assert (Hpre : take (Z.to_nat o) b = render_base stack /\ o = Z.of_nat (length (render_base stack))).
  { unfold o, b. rewrite Hgt. destruct stack as [|v stack].
    - rewrite Z.add_0_r, Ho. by rewrite Nat2Z.id.
    - unfold render_base. rewrite length_app. cbn [length]. split; [|lia].
      replace (Z.to_nat (output + 1)) with (S (Z.to_nat output)) by lia. unfold put.
      assert (Hlt : (Z.to_nat output < length buf)%nat) by (rewrite Hl; lia).
      erewrite take_S_r by (by apply list_lookup_insert_eq).
      rewrite take_insert_ge by lia. f_equal. rewrite Ho, Nat2Z.id. done. }
  destruct Hpre as [Hpre Hlo].
  destruct (copy_bytes_spec b o path cs len) as [Hcl Hcb]; [unfold o; lia|unfold len; lia|unfold o in *; lia|].
  assert (Hrl : length (render (w :: stack)) = (Z.to_nat o + length w)%nat).
  { rewrite render_cons, length_app. lia. }
  split.
  - unfold cs, len in *. lia.
  - by rewrite Hcl.
  - by constructor.
  - rewrite Hrl. unfold len. lia.
  - rewrite render_cons. rewrite <- Hpre at 2. rewrite <- render_cons, Hrl.
    apply bytes_ext; [rewrite length_app, !length_take, Hcl; lia|].
    intros j Hj. rewrite length_take, Hcl in Hj. rewrite byte_at_take by lia. rewrite Hcb by lia.
    rewrite byte_at_app by lia. rewrite length_take.
    destruct (Z.leb_spec o j), (Z.ltb_spec j (o + len)), (Z.ltb_spec j (Z.of_nat (Z.to_nat o `min` length b)));
      simpl; try (unfold len in *; lia).
    + rewrite (word_bytes i k w r) by (done || (unfold len in *; lia)). f_equal. unfold len in *. lia.
    + by rewrite byte_at_take by lia.
  - unfold o in *. lia.
  - right. destruct r as [|c r]; [left; simpl in Hsum; unfold cs, len; lia|]. right. subst c.
    assert (Ed : drop (Z.to_nat (cs + len)) s = SLASH :: r).
    { replace (Z.to_nat (cs + len)) with (Z.to_nat i + (k + length w))%nat by (unfold cs, len; lia).
      rewrite <- drop_drop, E, app_assoc.
      replace (k + length w)%nat with (length (replicate k SLASH ++ w)) by (rewrite length_app, length_replicate; lia).
      apply drop_app_length. }
    pose proof (byte_at_drop s (Z.to_nat (cs + len)) 0 ltac:(lia)) as Hb. rewrite Ed in Hb.
    rewrite Z2Nat.id, Z.add_0_r in Hb by (unfold cs, len; lia). rewrite <- Hb. done.
Qed.

Lemma at_head_skip i output buf stack j :
  at_head i output buf stack -> i <= j <= n -> (j = n \/ byte_at s j = SLASH) -> at_head j output buf stack.
Proof. intros [] Hj Hs. split; auto; lia. Qed.

(** The rest of the input starts at a separator or is empty. *)
Lemma rest_sep j r :
  drop (Z.to_nat j) s = r -> 0 <= j -> j + Z.of_nat (length r) = n ->
  match r with [] => True | c :: _ => c = SLASH end -> j = n \/ byte_at s j = SLASH.
Proof.
  intros E Hj Hl Hr. destruct r as [|c r]; [left; simpl in Hl; lia|]. right.
  pose proof (byte_at_drop s (Z.to_nat j) 0 ltac:(lia)) as Hb. rewrite E, Z2Nat.id, Z.add_0_r in Hb by lia.
  rewrite <- Hb. unfold byte_at. simpl. done.
Qed.

(** The terminator makes the output buffer a string. *)
Lemma finish i output buf stack :
  at_head i output buf stack -> n < 64 ->
  length (put output 0 buf) = 64%nat /\ str_cut (put output 0 buf) = render stack.
Proof.
  intros [Hi Hl Hg Ho Ht Hroom _] Hn. split; [by rewrite put_length|].
  assert (E : put output 0 buf = render stack ++ 0 :: drop (S (Z.to_nat output)) buf).
  { rewrite <- Ht at 1. replace (length (render stack)) with (Z.to_nat output) by lia.
    unfold put. rewrite insert_take_drop by lia. done. }
  rewrite E. apply str_cut_app_nul. apply Forall_forall. intros c Hc. by eapply render_nonzero.
Qed.

Lemma normalize_loop_spec fuel : forall i output buf stack,
  at_head i output buf stack -> n < 64 -> n - i < Z.of_nat fuel ->
  match resolve stack (split_path (drop (Z.to_nat i) s)) with
  | Some st => exists buf', normalize_loop fuel path i output buf = (0, buf') /\ length buf' = 64%nat /\
      str_cut buf' = render st /\ Z.of_nat (length (render st)) <= n
  | None => fst (normalize_loop fuel path i output buf) = -1
  end.
Proof.
  induction fuel as [|fuel IH]; intros i output buf stack Hh Hn Hf; [pose proof (ah_input _ _ _ _ Hh); lia|].
  pose proof (ah_input _ _ _ _ Hh) as Hi.
  destruct (scan_split i Hi Hn) as (k & w & r & E & Hgood & Hr & Hs1 & Hempty & Hs2 & Hsum & Hrest).
  cbn [normalize_loop]. cbn zeta. rewrite Hs1.
  assert (Hlt1 : (i + Z.of_nat k >=? VFS_MAX_PATH) = false).
  { rewrite Z.geb_leb. apply Z.leb_gt. unfold VFS_MAX_PATH. lia. }
  rewrite Hlt1, E, split_path_slashes.
  destruct (decide (w = [])) as [Hw|Hw].
  { destruct (Hempty Hw) as [-> Hend]. rewrite Hw, Hend, path_byte_end. simpl.
    destruct (finish i output buf stack Hh Hn) as [Hl Hc]. exists (put output 0 buf).
    split_and!; auto. pose proof (ah_out _ _ _ _ Hh). pose proof (ah_room _ _ _ _ Hh). lia. }
  specialize (Hgood Hw).
  assert (Hwl : (0 < length w)%nat) by (destruct w; [done|simpl; lia]).
  rewrite (proj2 (Z.eqb_neq _ 0)) by (apply path_byte_nonzero; lia).
  rewrite Hs2.
  assert (Hlt2 : (i + Z.of_nat k + Z.of_nat (length w) >=? VFS_MAX_PATH) = false).
  { rewrite Z.geb_leb. apply Z.leb_gt. unfold VFS_MAX_PATH. lia. }
  rewrite Hlt2, Z.add_simpl_l.
  rewrite (split_path_word w r stack) by (done || (intros c Hc; by apply Hgood)).
  destruct (dot_tests (i + Z.of_nat k) w Hw) as [Hd1 Hd2].
  { intros j Hj. by eapply word_bytes. }
  rewrite Hd1, Hd2. cbn [resolve]. rewrite (bool_decide_false (w = [])) by done. cbn [orb].
  set (j := i + Z.of_nat k + Z.of_nat (length w)) in *.
  assert (Hsep : j = n \/ byte_at s j = SLASH) by (eapply rest_sep; eauto; lia).
  destruct (decide (w = [DOT])) as [Ed1|Ed1].
  { rewrite (bool_decide_true (w = [DOT])) by done.
    rewrite (resolve_rest stack r Hr), <- Hrest. apply IH; [|done|lia].
    eapply at_head_skip; eauto; lia. }
  rewrite (bool_decide_false (w = [DOT])) by done. cbn [orb].
  destruct (decide (w = [DOT; DOT])) as [Ed2|Ed2].
  { rewrite (bool_decide_true (w = [DOT; DOT])) by done. destruct stack as [|v stack].
    - pose proof (ah_out _ _ _ _ Hh) as ->. simpl. done.
    - destruct (pop_step i output buf v stack j Hh) as [Hne Hh']; [lia|done|].
      rewrite (proj2 (Z.eqb_neq output 1)) by done.
      rewrite (resolve_rest stack r Hr), <- Hrest. apply IH; [done|done|lia]. }
  rewrite (bool_decide_false (w = [DOT; DOT])) by done.
  destruct (push_step i output buf stack k w r Hh Hn E Hgood Hr Hsum) as [Hok Hh'].
  rewrite Hok. destruct (if output >? 1 then (output + 1, put output SLASH buf) else (output, buf)) as [o b].
  rewrite (resolve_rest (w :: stack) r Hr), <- Hrest. apply IH; [exact Hh'|done|lia].
Qed.
End Loop.

(** vfs_normalize_path computes the normal form. *)
Lemma normalize_path_spec p buf :
  length buf = 64%nat ->
  match normal_form (str_cut p) with
  | Some r => exists buf', vfs_normalize_path (Some p) buf = (0, buf') /\ length buf' = 64%nat /\
      str_cut buf' = r /\ (length r <= length (str_cut p))%nat
  | None => fst (vfs_normalize_path (Some p) buf) = -1
  end.
Proof.
  intros Hl. unfold vfs_normalize_path, normal_form.
  destruct (str_cut p) as [|c s'] eqn:Es.
  { pose proof (path_byte_end p) as Hb. rewrite Es in Hb. change (Z.of_nat (length (@nil Z))) with 0 in Hb. rewrite Hb. done. }
  assert (Hb0 : byte_at p 0 = c).
  { rewrite path_byte by (rewrite Es; simpl; lia). by rewrite Es. }
  rewrite Hb0. destruct (Z.eqb_spec c SLASH) as [->|]; [|done]. cbn [andb negb].
  destruct (Z.ltb_spec (Z.of_nat (length (SLASH :: s'))) VFS_MAX_PATH) as [Hn|Hn];
    unfold VFS_MAX_PATH in Hn.
  - assert (Hh : at_head p 1 1 (put 0 SLASH buf) []).
    { split; rewrite ?put_length; auto; try (rewrite Es; simpl length; lia); try lia.
      destruct buf; [done|]. done. }
    pose proof (normalize_loop_spec p (Z.to_nat VFS_MAX_PATH) 1 1 _ [] Hh) as Hloop.
    rewrite Es in Hloop. specialize (Hloop ltac:(lia) ltac:(unfold VFS_MAX_PATH; lia)).
    change (drop (Z.to_nat 1) (SLASH :: s')) with s' in Hloop.
    destruct (resolve [] (split_path s')) as [st|]; simpl fmap; [|done].
    destruct Hloop as (buf' & ? & ? & ? & Hle). exists buf'. split_and!; auto. lia.
  - apply normalize_loop_long; [rewrite Es; lia|lia].
Qed.

(** * Normal forms are canonical *)

(** A component that the walk keeps. *)
Definition proper (w : list Z) : Prop := good w /\ w <> [DOT] /\ w <> [DOT; DOT].

Lemma split_path_good s :
  (forall c, c ∈ s -> c <> 0) -> Forall (fun w => w = [] \/ good w) (split_path s).
Proof.
  induction s as [|c s IH]; intros Hs; simpl; [apply Forall_singleton; by left|].
  assert (Hs' : forall d, d ∈ s -> d <> 0) by (intros; apply Hs; by right).
  specialize (IH Hs'). destruct (Z.eqb_spec c SLASH) as [->|Hc]; [constructor; auto|].
  assert (Hc0 : c <> 0) by (apply Hs; left).
  assert (Hone : forall w, w = [] \/ good w -> good (c :: w)).
  { intros w Hw. split; [done|]. intros d [->|Hd]%elem_of_cons; [done|].
    destruct Hw as [->|[_ Hw]]; [by apply elem_of_nil in Hd|by apply Hw]. }
  destruct (split_path s) as [|w ws]; [apply Forall_singleton; right; apply Hone; by left|].
  apply Forall_cons in IH as [Hw IH]. constructor; auto.
Qed.

Lemma resolve_proper ws : forall stack st,
  Forall proper stack -> Forall (fun w => w = [] \/ good w) ws ->
  resolve stack ws = Some st -> Forall proper st.
Proof.
  induction ws as [|w ws IH]; simpl; intros stack st Hst Hws E; [by simplify_eq|].
  apply Forall_cons in Hws as [Hw Hws].
  destruct (decide (w = [])) as [->|H0]; [by apply (IH stack)|].
  rewrite (bool_decide_false (w = [])) in E by done.
  destruct (decide (w = [DOT])) as [->|H1]; [by apply (IH stack)|].
  rewrite (bool_decide_false (w = [DOT])) in E by done. cbn [orb] in E.
  destruct (decide (w = [DOT; DOT])) as [->|H2].
  - rewrite bool_decide_true in E by done. destruct stack as [|v stack]; [done|].
    apply Forall_cons in Hst as [_ Hst]. by apply (IH stack).
  - rewrite bool_decide_false in E by done. apply (IH (w :: stack)); auto.
    constructor; auto. split_and!; auto. by destruct Hw.
Qed.

(** Walking proper components just stacks them. *)
Lemma resolve_all ws : forall stack,
  Forall proper ws -> resolve stack ws = Some (rev ws ++ stack).
Proof.
  induction ws as [|w ws IH]; intros stack H; simpl; [done|].
  apply Forall_cons in H as [((H0 & _) & H1 & H2) H].
  rewrite !bool_decide_false by done. cbn [orb]. rewrite IH by done. by rewrite <- app_assoc.
Qed.

Lemma split_path_app s w :
  Forall (fun c => c <> SLASH) w -> split_path (s ++ SLASH :: w) = split_path s ++ [w].
Proof.
  intros Hw. induction s as [|c s IH]; simpl.
  - f_equal. induction Hw as [|c w Hc Hw IHw]; [done|]. simpl.
    rewrite (proj2 (Z.eqb_neq c SLASH)) by done. by rewrite IHw.
  - rewrite IH. destruct (c =? SLASH); [done|].
    destruct (split_path s) as [|v vs] eqn:E; [|done].
    destruct s as [|d s]; [done|]. simpl in E. destruct (d =? SLASH); [done|]. by destruct (split_path s).
Qed.

Lemma split_path_word1 w : Forall (fun c => c <> SLASH) w -> split_path w = [w].
Proof.
  intros Hw. induction Hw as [|c w Hc Hw IH]; [done|]. simpl.
  rewrite (proj2 (Z.eqb_neq c SLASH)) by done. by rewrite IH.
Qed.

Lemma good_no_slash w : good w -> Forall (fun c => c <> SLASH) w.
Proof. intros [_ H]. apply Forall_forall. intros c Hc. by apply H. Qed.

Lemma split_render w stack :
  Forall good (w :: stack) -> split_path (tail (render (w :: stack))) = rev (w :: stack).
Proof.
  revert w. induction stack as [|v stack IH]; intros w [Hw Hst]%Forall_cons.
  - simpl. by apply split_path_word1, good_no_slash.
  - specialize (IH v Hst).
    assert (E : tail (render (w :: v :: stack)) = tail (render (v :: stack)) ++ SLASH :: w).
    { change (render (w :: v :: stack)) with (render (v :: stack) ++ SLASH :: w).
      pose proof (render_length (v :: stack)). destruct (render (v :: stack)); [simpl in *; lia|done]. }
    rewrite E, split_path_app by (by apply good_no_slash). by rewrite IH.
Qed.

(** A rendered stack of proper components is its own normal form. *)
Lemma normal_form_render st :
  Forall proper st -> Z.of_nat (length (render st)) < VFS_MAX_PATH ->
  normal_form (render st) = Some (render st).
Proof.
  intros Hp Hl. assert (Hg : Forall good st) by (eapply Forall_impl; [exact Hp|by intros w []]).
  assert (Hh : exists l, render st = SLASH :: l).
  { clear -st. induction st as [|w st [l IH]]; [by exists []|]. rewrite render_cons.
    destruct st; [by exists w|]. unfold render_base. rewrite IH. eauto. }
  destruct Hh as [l E]. unfold normal_form. rewrite E. cbn [Z.eqb].
  rewrite Z.eqb_refl. rewrite <- E. apply Z.ltb_lt in Hl. rewrite Hl. cbn [andb].
  replace l with (tail (render st)) by (by rewrite E).
  destruct st as [|w st].
  - by inversion E.
  - rewrite split_render by done. rewrite resolve_all by (by apply Forall_rev).
    rewrite rev_involutive, app_nil_r. done.
Qed.

Lemma normal_form_some s r :
  (forall c, c ∈ s -> c <> 0) -> normal_form s = Some r ->
  exists st, r = render st /\ Forall proper st /\ Z.of_nat (length s) < VFS_MAX_PATH.
Proof.
  intros Hs. unfold normal_form. destruct s as [|c s]; [done|].
  destruct ((c =? SLASH) && _) eqn:E; [|done]. b2p.
  intros (st & Hst & ->)%fmap_Some. exists st. split_and!; auto.
  eapply resolve_proper; [| |exact Hst]; [done|].
  apply split_path_good. intros d Hd. apply Hs. by right.
Qed.

(** C11: Path resolution cannot be escaped: for every NUL-terminated input,
    vfs_normalize_path succeeds exactly when the path is absolute, shorter than
    64 bytes and never takes ".." above the root, and then leaves in the output
    buffer the component-wise resolution (empty and "." components dropped,
    ".." removing the last one), terminated, within the 64 bytes. *)
Theorem normalize_path_refines (p buf : list Z) (Hbuf : length buf = 64%nat) :
  let '(status, out) := vfs_normalize_path (Some p) buf in
  match normal_form (str_cut p) with
  | Some r => status = 0 /\ length out = 64%nat /\ str_cut out = r /\ (length r < 64)%nat
  | None => status = -1
  end.
Proof.
  pose proof (normalize_path_spec p buf Hbuf) as H.
  destruct (normal_form (str_cut p)) as [r|] eqn:E.
  - destruct H as (out & -> & Hl & Hc & Hle). split_and!; auto.
    apply normal_form_some in E as (_ & _ & _ & Hn); [|by intros; apply (str_cut_nonzero p)].
    unfold VFS_MAX_PATH in Hn. lia.
  - destruct (vfs_normalize_path (Some p) buf). done.
Qed.

(** "/a//b/../c/." becomes "/a/c". *)
Lemma normalize_path_refines_witness :
  length (replicate 64 7) = 64%nat /\
  let '(status, out) := vfs_normalize_path (Some [47;97;47;47;98;47;46;46;47;99;47;46]) (replicate 64 7) in
  match normal_form (str_cut [47;97;47;47;98;47;46;46;47;99;47;46]) with
  | Some r => status = 0 /\ length out = 64%nat /\ str_cut out = r /\ (length r < 64)%nat
  | None => status = -1
  end.
Proof. split; [done|]. apply (normalize_path_refines _ (replicate 64 7)). done. Defined.

(** Normal paths are canonical: whatever vfs_normalize_path accepts is
    spelled as proper components (non-empty, free of separators, not "." or
    ".."), and normalizing the result again changes nothing, so two paths
    reach the same table entry exactly when their resolutions agree. *)
Theorem normalize_path_canonical (p buf buf2 : list Z)
    (Hbuf : length buf = 64%nat) (Hbuf2 : length buf2 = 64%nat)
    (Hok : fst (vfs_normalize_path (Some p) buf) = 0) :
  let out := snd (vfs_normalize_path (Some p) buf) in
  (exists st, Forall proper st /\ str_cut out = render st) /\
  fst (vfs_normalize_path (Some out) buf2) = 0 /\
  str_cut (snd (vfs_normalize_path (Some out) buf2)) = str_cut out.
Proof.
  pose proof (normalize_path_spec p buf Hbuf) as H.
  destruct (normal_form (str_cut p)) as [r|] eqn:E; [|lia].
  destruct H as (out & Eo & Hl & Hc & Hle). rewrite Eo. cbn [snd].
  apply normal_form_some in E as (st & -> & Hst & Hn); [|by intros; apply (str_cut_nonzero p)].
  split; [by exists st|].
  pose proof (normalize_path_spec out buf2 Hbuf2) as H2. rewrite Hc in H2.
  rewrite normal_form_render in H2 by (done || lia).
  destruct H2 as (out2 & E2 & _ & Hc2 & _). rewrite E2. cbn [fst snd]. by rewrite Hc2, Hc.
Qed.

Lemma normalize_path_canonical_witness :
  fst (vfs_normalize_path (Some [47;97;47;47;98;47;46;46;47;99;47;46]) (replicate 64 7)) = 0 /\
  let out := snd (vfs_normalize_path (Some [47;97;47;47;98;47;46;46;47;99;47;46]) (replicate 64 7)) in
  (exists st, Forall proper st /\ str_cut out = render st) /\
  fst (vfs_normalize_path (Some out) (replicate 64 0)) = 0 /\
  str_cut (snd (vfs_normalize_path (Some out) (replicate 64 0))) = str_cut out.
Proof.
  split; [vm_compute; reflexivity|].
  apply (normalize_path_canonical _ (replicate 64 7) (replicate 64 0)); [done|done|vm_compute; reflexivity].
Defined.

(** * Prefix tests *)

(** A path is below a mount point when the mount path, a separator and at
    least one more byte make it up; below "/" is every path but "/". *)
Lemma child_end path :
  (byte_at path 0 =? SLASH) && negb (byte_at path 1 =? 0) = true <->
  exists rest, rest <> [] /\ str_cut path = SLASH :: rest.
Proof.
  unfold byte_at. destruct path as [|c [|d path]]; simpl.
  - split; [done|]. by intros (r & _ & ?).
  - rewrite andb_false_r. split; [done|]. intros (r & Hr & E). destruct (c =? 0); simplify_eq.
  - rewrite andb_true_iff, negb_true_iff, Z.eqb_eq, Z.eqb_neq. split.
    + intros [-> Hd]. apply Z.eqb_neq in Hd. exists (d :: str_cut path). split; [done|]. simpl. by rewrite Hd.
    + intros (r & Hr & E). destruct (Z.eqb_spec c 0); [done|].
      destruct (Z.eqb_spec d 0); simplify_eq. done.
Qed.

Lemma child_loop_spec mount_path : forall path,
  child_loop path mount_path = true <->
  exists rest, rest <> [] /\ str_cut path = str_cut mount_path ++ SLASH :: rest.
Proof.
  induction mount_path as [|c m IH]; intros path; [apply child_end|]. simpl.
  destruct (Z.eqb_spec c 0) as [->|Hc]; [apply child_end|].
  destruct path as [|d path]; unfold byte_at at 1; simpl.
  - destruct c; [done| |]; (split; [done|]; by intros (r & _ & ?)).
  - destruct (Z.eqb_spec d c) as [->|Hd]; simpl.
    + rewrite IH. rewrite (proj2 (Z.eqb_neq c 0)) by done. simpl.
      split; intros (r & Hr & E); exists r; (split; [done|]); [by rewrite E|by simplify_eq].
    + split; [done|]. intros (r & Hr & E). destruct (d =? 0); simplify_eq.
Qed.

Definition mount_base (m : list Z) : list Z := if bool_decide (m = [SLASH]) then [SLASH] else m ++ [SLASH].

Lemma mount_child_spec path mount_path :
  str_cut mount_path !! 0%nat = Some SLASH ->
  vfs_path_is_mount_child (Some path) (Some mount_path) = true <->
  exists rest, rest <> [] /\ str_cut path = mount_base (str_cut mount_path) ++ rest.
Proof.
  intros Hm. unfold vfs_path_is_mount_child, mount_base.
  destruct mount_path as [|b m]; [done|]. simpl in Hm.
  destruct (Z.eqb_spec b 0) as [->|]; [done|]. simpl in Hm. simplify_eq.
  change (byte_at (SLASH :: m) 0) with SLASH. rewrite Z.eqb_refl. cbn [negb orb andb].
  rewrite orb_false_r.
  assert (H1 : byte_at (SLASH :: m) 1 = byte_at m 0) by done. rewrite H1.
  assert (Hhead : str_cut (SLASH :: m) = SLASH :: str_cut m) by done.
  destruct (Z.eqb_spec (byte_at m 0) 0) as [Hz|Hz].
  - assert (Hcut : str_cut m = []).
    { destruct m as [|c m]; [done|]. unfold byte_at in Hz. simpl in *. subst c. done. }
    rewrite Hhead, Hcut, bool_decide_true by done. simpl app. rewrite <- child_end.
    destruct (byte_at path 0 =? SLASH); done.
  - assert (Hcut : str_cut m <> []).
    { destruct m as [|c m]; [done|]. unfold byte_at in Hz. simpl in *.
      by rewrite (proj2 (Z.eqb_neq c 0)). }
    rewrite bool_decide_false by (rewrite Hhead; congruence).
    setoid_rewrite <- app_assoc. cbn [app]. rewrite <- child_loop_spec. rewrite Hhead || idtac.
    destruct (Z.eqb_spec (byte_at path 0) SLASH) as [|Hp]; [done|]. simpl.
    rewrite (proj2 (Z.eqb_neq _ _)) by done. done.
Qed.

(** vfs_strip_prefix returns the rest of the path behind a proper prefix. *)
Lemma strip_loop_spec prefix : forall path,
  match strip_loop path prefix with
  | Some rest => str_cut rest <> [] /\ str_cut path = str_cut prefix ++ str_cut rest
  | None => ~ exists r, r <> [] /\ str_cut path = str_cut prefix ++ r
  end.
Proof.
  assert (Hend : forall path : list Z,
    match (if byte_at path 0 =? 0 then None else Some path) with
    | Some rest => str_cut rest <> [] /\ str_cut path = str_cut rest
    | None => ~ exists r, r <> [] /\ str_cut path = r
    end).
  { intros [|c path]; unfold byte_at; simpl; [by intros (? & ? & <-)|].
    destruct (Z.eqb_spec c 0) as [|Hc]; [by intros (? & ? & <-)|]. simpl.
    by rewrite (proj2 (Z.eqb_neq c 0) Hc). }
  induction prefix as [|c m IH]; intros path; [apply Hend|]. simpl.
  destruct (Z.eqb_spec c 0) as [->|Hc]; [apply Hend|].
  destruct path as [|d path]; unfold byte_at at 1; simpl.
  - destruct c; [done| |]; by intros (r & _ & ?).
  - destruct (Z.eqb_spec d c) as [->|Hd]; simpl.
    + specialize (IH path). rewrite (proj2 (Z.eqb_neq c 0)) by done.
      destruct (strip_loop path m) as [rest|].
      * destruct IH as [? ->]. done.
      * intros (r & Hr & E). apply IH. exists r. by simplify_eq.
    + intros (r & Hr & E). destruct (d =? 0); simplify_eq.
Qed.
