(* ===== verification/Vfs.v ===== *)
(** The virtual file system of kernel/vfs.c: the static node table, the mount
    table and the per-process descriptors.  Path handling is in VfsPath.v, the
    theorems in VfsHandles.v and VfsNames.v.

    Function pointers and contexts are numbers (0 is the null pointer) whose
    meaning is the interface [Backend] on the state of everything outside the
    VFS.  Only a mount's [open] callback may call back into the VFS, so it also
    transforms the VFS state.  The buffers a caller passes are byte lists and
    out-parameters are passed in and returned. *)

From S2P Require Import Prelude.
From S2P Require Import Bytes.
From S2P Require Import VfsPath.
From S2P Require Import ProcessRegions.
From S2P Require Import Process.
Open Scope arm.

Definition VFS_MAX_NODES : Z := 24.
Definition VFS_MAX_MOUNTS : Z := 4.
Definition VFS_MAX_OPEN_FILES : Z := 8.
Definition VFS_MAX_GLOBAL_OPEN_FILES : Z := VFS_MAX_OPEN_FILES * 16.
Definition VFS_NAME_MAX : Z := 64.
Definition VFS_FILESYSTEM_NAME_MAX : Z := 16.
Definition VFS_READDIR_MAX_ENTRIES : Z := 8.
Definition VFS_STRUCTURED_SCAN_LIMIT : Z := 4096.
Definition VFS_O_RDONLY : Z := 0.
Definition VFS_O_WRONLY : Z := 1.
Definition VFS_O_RDWR : Z := 2.
Definition VFS_O_ACCMODE : Z := 3.
Definition VFS_O_CREAT : Z := 0x40.
Definition VFS_O_ALLOWED : Z := Z.lor VFS_O_ACCMODE VFS_O_CREAT.
Definition VFS_FILE_TYPE_UNKNOWN : Z := 0.
Definition VFS_FILE_TYPE_REGULAR : Z := 1.
Definition VFS_FILE_TYPE_DIRECTORY : Z := 2.
Definition ARMONIOS_ERR_NOENT : Z := -3.
Definition ARMONIOS_ERR_INVAL : Z := -7.
Definition ARMONIOS_ERR_NOTSUP : Z := -20.
Definition ARMONIOS_ERR_RANGE : Z := -21.
Definition NEWLINE : Z := 10.

Record vfs_node := Node {
  n_path : option (list Z);
  n_size : Z;
  n_read : Z;
  n_write : Z;
  n_stat : Z;
  n_context : Z }.

Record vfs_mount_ops := MountOps {
  op_open : Z;
  op_read_path : Z;
  op_list : Z;
  op_stat_path : Z;
  op_list_path : Z;
  op_metadata_path : Z;
  op_readdir_path : Z;
  op_fsinfo : Z;
  op_unlink : Z;
  op_rename : Z }.

Record vfs_mount_t := Mount {
  m_path : list Z;
  m_ops : vfs_mount_ops;
  m_context : Z;
  m_used : bool }.

Record vfs_open_file := OpenFile {
  f_node : option nat;
  f_offset : Z;
  f_flags : Z;
  f_owner_pid : Z;
  f_local_fd : Z;
  f_used : bool }.

Record vfs_metadata_t := Metadata { md_size : Z; md_type : Z; md_attributes : Z }.
Record vfs_dirent := Dirent { d_name : list Z; d_metadata : vfs_metadata_t }.
Record vfs_fsinfo_t := FsInfo {
  total_bytes : Z;
  free_bytes : Z;
  block_size : Z;
  max_name_length : Z;
  max_path_length : Z;
  fs_flags : Z;
  filesystem : list Z }.

(** The file-scope variables.  A live table node points to its own entry of
    [g_vfs_paths]. *)
Record vfs := Vfs {
  g_vfs_nodes : list vfs_node;
  g_vfs_paths : list (list Z);
  g_vfs_node_count : Z;
  g_mounts : list vfs_mount_t;
  g_open_files : list vfs_open_file }.

Definition set_files (s : vfs) (fs : list vfs_open_file) : vfs :=
  Vfs (g_vfs_nodes s) (g_vfs_paths s) (g_vfs_node_count s) (g_mounts s) fs.

(** What the VFS calls through the pointers stored in its tables. *)
Class Backend (W : Type) := {
  call_read : Z -> Z -> Z -> list Z -> Z -> W -> Z * Z * list Z * W;
  call_write : Z -> Z -> Z -> list Z -> Z -> W -> Z * Z * W;
  call_stat : Z -> Z -> Z -> W -> Z * Z * W;
  call_list : Z -> Z -> Z -> list Z -> Z -> W -> Z * Z * list Z * W;
  call_open : Z -> Z -> list Z -> Z -> vfs * W -> Z * (vfs * W);
  call_read_path : Z -> Z -> list Z -> Z -> list Z -> Z -> W -> Z * Z * list Z * W;
  call_stat_path : Z -> Z -> list Z -> Z -> W -> Z * Z * W;
  call_list_path : Z -> Z -> list Z -> Z -> list Z -> Z -> W -> Z * Z * list Z * W;
  call_metadata_path : Z -> Z -> list Z -> vfs_metadata_t -> W -> Z * vfs_metadata_t * W;
  call_readdir_path : Z -> Z -> list Z -> Z -> list vfs_dirent -> Z -> W -> Z * Z * list vfs_dirent * W;
  call_fsinfo : Z -> Z -> list Z -> vfs_fsinfo_t -> W -> Z * vfs_fsinfo_t * W;
  call_unlink : Z -> Z -> list Z -> W -> Z * W;
  call_rename : Z -> Z -> list Z -> list Z -> W -> Z * W }.

(** * Table entries *)

Definition null_node : vfs_node := Node None 0 0 0 0 0.
Definition null_ops : vfs_mount_ops := MountOps 0 0 0 0 0 0 0 0 0 0.

Definition vfs_clear_open_file : vfs_open_file := OpenFile None 0 VFS_O_RDONLY 0 0 false.
Definition vfs_clear_mount : vfs_mount_t := Mount (replicate 64 0) null_ops 0 false.

Definition node_at (s : vfs) (i : Z) : vfs_node := default null_node (g_vfs_nodes s !! Z.to_nat i).
Definition mount_at (s : vfs) (i : Z) : vfs_mount_t := default vfs_clear_mount (g_mounts s !! Z.to_nat i).
Definition file_at (s : vfs) (i : Z) : vfs_open_file :=
  default vfs_clear_open_file (g_open_files s !! Z.to_nat i).
Definition live (n : vfs_node) : bool := bool_decide (is_Some (n_path n)).

Definition vfs_clear_node (s : vfs) (index : Z) : vfs :=
  if index >=? VFS_MAX_NODES then s else
  Vfs (<[Z.to_nat index := null_node]> (g_vfs_nodes s))
      (<[Z.to_nat index := replicate 64 0]> (g_vfs_paths s))
      (g_vfs_node_count s) (g_mounts s) (g_open_files s).

(** [for (i...) if (test(g_open_files[i])) vfs_clear_open_file(&g_open_files[i]);] *)
Definition clear_files_where (test : vfs_open_file -> bool) (fs : list vfs_open_file) : list vfs_open_file :=
  (fun f => if test f then vfs_clear_open_file else f) <$> fs.

Definition vfs_drop_open_files_for_node (s : vfs) (node : nat) : vfs :=
  set_files s (clear_files_where (fun f => f_used f && bool_decide (f_node f = Some node)) (g_open_files s)).

Definition vfs_free_node_count (s : vfs) : Z :=
  Z.of_nat (length (filter (fun n => live n = false) (g_vfs_nodes s))).

Definition vfs_find_free_node (s : vfs) : option Z :=
  find_range 0 VFS_MAX_NODES (fun i => negb (live (node_at s i))).

Definition vfs_local_fd_in_use (s : vfs) (owner_pid local_fd : Z) : bool :=
  bool_decide (is_Some (find_range 0 VFS_MAX_GLOBAL_OPEN_FILES (fun i =>
    f_used (file_at s i) && (f_owner_pid (file_at s i) =? owner_pid) &&
    (f_local_fd (file_at s i) =? local_fd)))).

Definition vfs_find_free_local_fd (s : vfs) (owner_pid : Z) : option Z :=
  find_range 0 VFS_MAX_OPEN_FILES (fun fd => negb (vfs_local_fd_in_use s owner_pid fd)).

Definition vfs_find_free_global_handle (s : vfs) : option Z :=
  find_range 0 VFS_MAX_GLOBAL_OPEN_FILES (fun i => negb (f_used (file_at s i))).

Definition vfs_find_mount_exact (s : vfs) (path : list Z) : option Z :=
  find_range 0 VFS_MAX_MOUNTS (fun i =>
    m_used (mount_at s i) && kstreq (Some (m_path (mount_at s i))) (Some path)).

Definition vfs_find_mount_for_path (s : vfs) (path : list Z) : option Z :=
  fst (for_range 0 VFS_MAX_MOUNTS (fun i '(best, best_length) =>
    if negb (m_used (mount_at s i)) ||
       negb (vfs_path_is_mount_child (Some path) (Some (m_path (mount_at s i))))
    then (best, best_length) else
    let length := vfs_path_length (Some (m_path (mount_at s i))) in
    if bool_decide (best = None) || (length >? best_length) then (Some i, length) else (best, best_length))
    (None, 0)).

(** [mount = vfs_find_mount_exact(p); if (mount == 0) mount = vfs_find_mount_for_path(p);] *)
Definition find_mount (s : vfs) (path : list Z) : option Z :=
  match vfs_find_mount_exact s path with
  | Some m => Some m
  | None => vfs_find_mount_for_path s path
  end.

Definition vfs_read_result_valid (offset file_size capacity count : Z) : bool :=
  if (offset >? file_size) || (count >? capacity) then false else count <=? file_size - offset.

Definition vfs_write_result_valid (offset requested count : Z) : bool :=
  if (count >? requested) || (offset >? UINT64_MAX - count) then false else true.

Definition vfs_open_access_mode (flags : Z) : Z := Z.land flags VFS_O_ACCMODE.

Definition vfs_open_flags_valid (flags : Z) : bool :=
  let mode := vfs_open_access_mode flags in
  if flags &? u32 (Z.lnot VFS_O_ALLOWED) then false
  else (mode =? VFS_O_RDONLY) || (mode =? VFS_O_WRONLY) || (mode =? VFS_O_RDWR).

(** A call of vfs_normalize_path with a local [char canonical[VFS_MAX_PATH]]. *)
Definition canonicalize (path : option (list Z)) : option (list Z) :=
  let '(status, canonical) := vfs_normalize_path path (replicate 64 0) in
  if status =? 0 then Some canonical else None.

(** * Names *)

Definition vfs_reset (s : vfs) : vfs :=
  let s := for_range 0 VFS_MAX_NODES (fun i s => vfs_clear_node s i) s in
  Vfs (g_vfs_nodes s) (g_vfs_paths s) 0
    ((fun _ => vfs_clear_mount) <$> g_mounts s) ((fun _ => vfs_clear_open_file) <$> g_open_files s).

Definition vfs_find_canonical (s : vfs) (path : list Z) : option Z :=
  find_range 0 (g_vfs_node_count s) (fun i =>
    live (node_at s i) && kstreq (n_path (node_at s i)) (Some path)).

(** The validation of node [node], [previous] being the nodes before it. *)
Definition mount_node_ok (s : vfs) (previous : list vfs_node) (node : vfs_node) : bool :=
  match canonicalize (n_path node) with
  | None => false
  | Some normalized =>
      if (n_read node =? 0) && (n_write node =? 0) then false else
      if bool_decide (is_Some (vfs_find_canonical s normalized)) then false else
      forallb (fun p => match canonicalize (n_path p) with
                        | None => false
                        | Some previous => negb (kstreq (Some previous) (Some normalized))
                        end) previous
  end.

Fixpoint mount_check (s : vfs) (previous nodes : list vfs_node) : bool :=
  match nodes with
  | [] => true
  | node :: nodes' => mount_node_ok s previous node && mount_check s (previous ++ [node]) nodes'
  end.

(** One iteration of the installing loop. *)
Definition mount_one (s : vfs) (node : vfs_node) : Z * vfs :=
  match vfs_find_free_node s with
  | None => (-1, s)
  | Some index =>
      let '(status, dest) := vfs_copy_path (default [] (g_vfs_paths s !! Z.to_nat index)) (n_path node) in
      let paths := <[Z.to_nat index := dest]> (g_vfs_paths s) in
      if negb (status =? 0)
      then (-1, Vfs (g_vfs_nodes s) paths (g_vfs_node_count s) (g_mounts s) (g_open_files s)) else
      (0, Vfs (<[Z.to_nat index := Node (Some dest) (n_size node) (n_read node) (n_write node)
                                     (n_stat node) (n_context node)]> (g_vfs_nodes s))
              paths
              (if index >=? g_vfs_node_count s then index + 1 else g_vfs_node_count s)
              (g_mounts s) (g_open_files s))
  end.

Fixpoint mount_install (s : vfs) (nodes : list vfs_node) : Z * vfs :=
  match nodes with
  | [] => (0, s)
  | node :: nodes' =>
      let '(status, s) := mount_one s node in
      if status =? 0 then mount_install s nodes' else (status, s)
  end.

Definition vfs_mount_static (s : vfs) (nodes : list vfs_node) : Z * vfs :=
  if (Z.of_nat (length nodes) =? 0) || (Z.of_nat (length nodes) >? vfs_free_node_count s) then (-1, s) else
  if mount_check s [] nodes then mount_install s nodes else (-1, s).

Definition vfs_unmount_static (s : vfs) (path : option (list Z)) : Z * vfs :=
  match canonicalize path with
  | None => (-1, s)
  | Some canonical =>
      match vfs_find_canonical s canonical with
      | Some i => (0, vfs_clear_node (vfs_drop_open_files_for_node s (Z.to_nat i)) i)
      | None => (-1, s)
      end
  end.

Definition ops_all_null (ops : vfs_mount_ops) : bool :=
  (op_open ops =? 0) && (op_read_path ops =? 0) && (op_list ops =? 0) && (op_stat_path ops =? 0) &&
  (op_list_path ops =? 0) && (op_metadata_path ops =? 0) && (op_readdir_path ops =? 0) &&
  (op_fsinfo ops =? 0) && (op_unlink ops =? 0) && (op_rename ops =? 0).

Definition set_mounts (s : vfs) (ms : list vfs_mount_t) : vfs :=
  Vfs (g_vfs_nodes s) (g_vfs_paths s) (g_vfs_node_count s) ms (g_open_files s).

Definition vfs_mount (s : vfs) (path : option (list Z)) (ops : vfs_mount_ops) (context : Z) : Z * vfs :=
  match canonicalize path with
  | None => (-1, s)
  | Some canonical =>
      if ops_all_null ops || bool_decide (is_Some (vfs_find_mount_exact s canonical)) then (-1, s) else
      match find_range 0 VFS_MAX_MOUNTS (fun i => negb (m_used (mount_at s i))) with
      | None => (-1, s)
      | Some i =>
          let m := mount_at s i in
          let '(status, dest) := vfs_copy_path (m_path m) (Some canonical) in
          if negb (status =? 0)
          then (-1, set_mounts s (<[Z.to_nat i := Mount dest (m_ops m) (m_context m) (m_used m)]> (g_mounts s)))
          else (0, set_mounts s (<[Z.to_nat i := Mount dest ops context true]> (g_mounts s)))
      end
  end.

Definition vfs_mount_list (s : vfs) (path : option (list Z)) (list_fn context : Z) : Z * vfs :=
  if list_fn =? 0 then (-1, s) else vfs_mount s path (MountOps 0 0 list_fn 0 0 0 0 0 0 0) context.

Definition vfs_find (s : vfs) (path : option (list Z)) : option Z :=
  match canonicalize path with
  | None => None
  | Some canonical => vfs_find_canonical s canonical
  end.

(** * Access by path *)

Section Io.
Context {W : Type} `{Backend W}.
Implicit Types (s : vfs) (w : W).

Definition vfs_node_size (node : vfs_node) (size : Z) (w : W) : Z * Z * W :=
  if negb (n_stat node =? 0) then
    let '(status, stat, w) := call_stat (n_stat node) (n_context node) 0 w in
    if negb (status =? 0) then (-1, size, w) else (0, stat, w)
  else (0, n_size node, w).

(** The common end of the reading calls. *)
Definition read_result (status offset size capacity bytes_read : Z) : Z * Z :=
  if negb (status =? 0) || negb (vfs_read_result_valid offset size capacity bytes_read)
  then (if negb (status =? 0) then status else -1, 0)
  else (0, bytes_read).

Definition write_result (status offset size bytes_written : Z) : Z * Z :=
  if negb (status =? 0) || negb (vfs_write_result_valid offset size bytes_written)
  then (if negb (status =? 0) then status else -1, 0)
  else (0, bytes_written).

Definition list_result (status capacity bytes_written : Z) : Z * Z :=
  if negb (status =? 0) || (bytes_written >? capacity)
  then (if negb (status =? 0) then status else -1, 0)
  else (0, bytes_written).

Definition vfs_list_emit_byte (offset capacity position out : Z) (buffer : list Z) (value : Z)
    : option (Z * Z * list Z) :=
  if position >=? offset then
    if out >=? capacity then None else Some (position + 1, out + 1, put out value buffer)
  else Some (position + 1, out, buffer).

(** The bytes of one line, until the buffer is full. *)
Fixpoint emit_line (offset capacity position out : Z) (buffer line : list Z) : bool * (Z * Z * list Z) :=
  match line with
  | [] => (true, (position, out, buffer))
  | value :: line' =>
      match vfs_list_emit_byte offset capacity position out buffer value with
      | None => (false, (position, out, buffer))
      | Some (position, out, buffer) => emit_line offset capacity position out buffer line'
      end
  end.

Fixpoint emit_nodes (offset capacity position out : Z) (buffer : list Z) (nodes : list vfs_node)
    : Z * list Z :=
  match nodes with
  | [] => (out, buffer)
  | node :: nodes' =>
      match n_path node with
      | None => emit_nodes offset capacity position out buffer nodes'
      | Some path =>
          let '(more, (position, out, buffer)) :=
            emit_line offset capacity position out buffer (str_cut path ++ [NEWLINE]) in
          if more then emit_nodes offset capacity position out buffer nodes' else (out, buffer)
      end
  end.

Definition vfs_list_at (s : vfs) (path : option (list Z)) (offset : Z) (buffer : option (list Z))
    (capacity : Z) (w : W) : Z * Z * option (list Z) * W :=
  match buffer, canonicalize path with
  | Some buf, Some canonical =>
      let exact := vfs_find_mount_exact s canonical in
      let m := mount_at s (default 0 exact) in
      if bool_decide (is_Some exact) && negb (op_list_path (m_ops m) =? 0) then
        let '(status, n, buf, w) :=
          call_list_path (op_list_path (m_ops m)) (m_context m) canonical offset buf capacity w in
        (list_result status capacity n, Some buf, w)
      else if bool_decide (is_Some exact) && negb (op_list (m_ops m) =? 0) then
        let '(status, n, buf, w) := call_list (op_list (m_ops m)) (m_context m) offset buf capacity w in
        (list_result status capacity n, Some buf, w)
      else
        let inner := if bool_decide (exact = None) then vfs_find_mount_for_path s canonical else None in
        let m := mount_at s (default 0 inner) in
        if bool_decide (is_Some inner) && negb (op_list_path (m_ops m) =? 0) then
          let '(status, n, buf, w) :=
            call_list_path (op_list_path (m_ops m)) (m_context m) canonical offset buf capacity w in
          (list_result status capacity n, Some buf, w)
        else if negb (kstreq (Some canonical) (Some [SLASH])) then (-1, 0, Some buf, w)
        else
          let '(out, buf) :=
            emit_nodes offset capacity 0 0 buf (take (Z.to_nat (g_vfs_node_count s)) (g_vfs_nodes s)) in
          (0, out, Some buf, w)
  | _, _ => (-1, 0, buffer, w)
  end.

Definition vfs_list (s : vfs) (path : option (list Z)) (buffer : option (list Z)) (capacity : Z) (w : W)
    : Z * Z * option (list Z) * W := vfs_list_at s path 0 buffer capacity w.

Definition vfs_metadata_clear : vfs_metadata_t := Metadata 0 VFS_FILE_TYPE_UNKNOWN 0.

Definition vfs_metadata_type_valid (type : Z) : bool :=
  (type =? VFS_FILE_TYPE_UNKNOWN) || (type =? VFS_FILE_TYPE_REGULAR) || (type =? VFS_FILE_TYPE_DIRECTORY).

(** Whether a one-byte listing probe of the path succeeds. *)
Definition list_probe (s : vfs) (canonical : list Z) (w : W) : bool * W :=
  let '(status, _, _, w) := vfs_list_at s (Some canonical) 0 (Some [0]) 1 w in (status =? 0, w).

Definition vfs_metadata (s : vfs) (path : option (list Z)) (metadata : vfs_metadata_t) (w : W)
    : Z * vfs_metadata_t * W :=
  match canonicalize path with
  | None => (-1, metadata, w)
  | Some canonical =>
      let metadata := vfs_metadata_clear in
      match vfs_find_canonical s canonical with
      | Some i =>
          let '(status, size, w) := vfs_node_size (node_at s i) (md_size metadata) w in
          if negb (status =? 0) then (-1, metadata, w)
          else (0, Metadata size VFS_FILE_TYPE_REGULAR (md_attributes metadata), w)
      | None =>
          let mount := find_mount s canonical in
          let m := mount_at s (default 0 mount) in
          if bool_decide (is_Some mount) && negb (op_metadata_path (m_ops m) =? 0) then
            let '(status, metadata, w) :=
              call_metadata_path (op_metadata_path (m_ops m)) (m_context m) canonical metadata w in
            if negb (status =? 0) || negb (vfs_metadata_type_valid (md_type metadata))
            then (if negb (status =? 0) then status else -1, vfs_metadata_clear, w)
            else (0, metadata, w)
          else if bool_decide (is_Some mount) && negb (op_stat_path (m_ops m) =? 0) then
            let '(status, legacy, w) :=
              call_stat_path (op_stat_path (m_ops m)) (m_context m) canonical 0 w in
            if negb (status =? 0) then (-1, metadata, w) else
            let '(listed, w) := list_probe s canonical w in
            (0, Metadata legacy (if listed then VFS_FILE_TYPE_DIRECTORY else VFS_FILE_TYPE_REGULAR) 0, w)
          else
            let '(listed, w) := list_probe s canonical w in
            if listed then (0, Metadata 0 VFS_FILE_TYPE_DIRECTORY 0, w) else (-1, metadata, w)
      end
  end.

Definition vfs_read (s : vfs) (path : option (list Z)) (offset : Z) (buffer : option (list Z))
    (capacity : Z) (w : W) : Z * Z * option (list Z) * W :=
  match buffer, canonicalize path with
  | Some buf, Some canonical =>
      match vfs_find_canonical s canonical with
      | Some i =>
          let node := node_at s i in
          if n_read node =? 0 then (-1, 0, buffer, w) else
          let '(st, size, w) := vfs_node_size node 0 w in
          if negb (st =? 0) || (offset >? size) then (-1, 0, buffer, w) else
          let '(status, n, buf, w) := call_read (n_read node) (n_context node) offset buf capacity w in
          (read_result status offset size capacity n, Some buf, w)
      | None =>
          let mount := find_mount s canonical in
          let m := mount_at s (default 0 mount) in
          if bool_decide (mount = None) || (op_read_path (m_ops m) =? 0) then (-1, 0, buffer, w) else
          let '(st, metadata, w) := vfs_metadata s (Some canonical) vfs_metadata_clear w in
          if negb (st =? 0) || negb (md_type metadata =? VFS_FILE_TYPE_REGULAR) ||
             (offset >? md_size metadata) then (-1, 0, buffer, w) else
          let '(status, n, buf, w) :=
            call_read_path (op_read_path (m_ops m)) (m_context m) canonical offset buf capacity w in
          (read_result status offset (md_size metadata) capacity n, Some buf, w)
      end
  | _, _ => (-1, 0, buffer, w)
  end.

Definition vfs_write (s : vfs) (path : option (list Z)) (offset : Z) (buffer : option (list Z))
    (size : Z) (w : W) : Z * Z * W :=
  match vfs_find s path, buffer with
  | Some i, Some buf =>
      let node := node_at s i in
      if n_write node =? 0 then (-1, 0, w) else
      let '(st, current_size, w) := vfs_node_size node 0 w in
      if negb (st =? 0) || (offset >? current_size) then (-1, 0, w) else
      let '(status, n, w) := call_write (n_write node) (n_context node) offset buf size w in
      (write_result status offset size n, w)
  | _, _ => (-1, 0, w)
  end.

Definition vfs_stat (s : vfs) (path : option (list Z)) (stat : Z) (w : W) : Z * Z * W :=
  match canonicalize path with
  | None => (-1, stat, w)
  | Some canonical =>
      match vfs_find_canonical s canonical with
      | Some i => vfs_node_size (node_at s i) stat w
      | None =>
          let mount := find_mount s canonical in
          let m := mount_at s (default 0 mount) in
          if bool_decide (mount = None) || (op_stat_path (m_ops m) =? 0) then (-1, stat, w)
          else call_stat_path (op_stat_path (m_ops m)) (m_context m) canonical stat w
      end
  end.

(** * Directories *)

Definition vfs_dirent_clear : vfs_dirent := Dirent (replicate 64 0) vfs_metadata_clear.

(** Terminated within the array, and not empty. *)
Definition name_valid (limit : Z) (name : list Z) : bool :=
  if byte_at name 0 =? 0 then false
  else bool_decide (is_Some (find_range 0 limit (fun i => byte_at name i =? 0))).

Definition vfs_dirent_name_valid (name : list Z) : bool := name_valid VFS_NAME_MAX name.

Definition vfs_dirent_copy_name (destination source : list Z) (length : Z) : Z * list Z :=
  if (length =? 0) || (length >=? VFS_NAME_MAX) then (-1, destination)
  else (0, put length 0 (copy_bytes destination 0 source 0 length)).

(** Append the bytes of a string at [out]; [None] when the path limit is hit. *)
Fixpoint child_append (child : list Z) (out : Z) (str : list Z) : option (Z * list Z) :=
  match str with
  | [] => Some (out, child)
  | c :: str' => if out + 1 >=? VFS_MAX_PATH then None else child_append (put out c child) (out + 1) str'
  end.

Definition vfs_metadata_child_path (directory name child : list Z) : option (list Z) :=
  if negb (byte_at directory 0 =? SLASH) then None else
  match child_append child 0 (str_cut directory) with
  | None => None
  | Some (out, child) =>
      let sep := if out >? 1 then
                   if out + 1 >=? VFS_MAX_PATH then None else Some (out + 1, put out SLASH child)
                 else Some (out, child) in
      match sep with
      | None => None
      | Some (out, child) =>
          match child_append child out (str_cut name) with
          | None => None
          | Some (out, child) => Some (put out 0 child)
          end
      end
  end.

(** The loop that parses a byte listing into entries; [scanned] counts down
    from VFS_STRUCTURED_SCAN_LIMIT. *)
Fixpoint readdir_loop (scanned : nat) (s : vfs) (canonical : list Z) (start_index max_entries : Z)
    (entries : list vfs_dirent) (line : list Z) (byte_offset logical_index output line_length : Z) (w : W)
    : Z * Z * list vfs_dirent * W :=
  match scanned with
  | O => (-1, 0, entries, w)
  | S scanned' =>
      let '(status, count, probe, w) := vfs_list_at s (Some canonical) byte_offset (Some [0]) 1 w in
      let value := byte_at (default [] probe) 0 in
      if negb (status =? 0) then (-1, 0, entries, w) else
      if count =? 0 then
        if negb (line_length =? 0) then (-1, 0, entries, w) else (0, output, entries, w)
      else
      let byte_offset := u64 (byte_offset + 1) in
      if negb (value =? NEWLINE) then
        if line_length >=? VFS_NAME_MAX then (-1, 0, entries, w) else
        readdir_loop scanned' s canonical start_index max_entries entries (put line_length value line)
          byte_offset logical_index output (line_length + 1) w
      else if line_length =? 0 then
        readdir_loop scanned' s canonical start_index max_entries entries line
          byte_offset logical_index output line_length w
      else
      if logical_index <? start_index then
        readdir_loop scanned' s canonical start_index max_entries entries line
          byte_offset (u64 (logical_index + 1)) output 0 w
      else
      let entry := vfs_dirent_clear in
      let directory_hint := byte_at line (line_length - 1) =? SLASH in
      let name_length := if directory_hint then line_length - 1 else line_length in
      let '(st, new_name) := vfs_dirent_copy_name (d_name entry) line name_length in
      let entry := Dirent new_name (d_metadata entry) in
      let entries := <[Z.to_nat output := entry]> entries in
      if negb (st =? 0) then (-1, 0, entries, w) else
      let '(md, w) :=
        let hint md := Metadata (md_size md)
          (if directory_hint then VFS_FILE_TYPE_DIRECTORY else VFS_FILE_TYPE_REGULAR) (md_attributes md) in
        match vfs_metadata_child_path canonical (d_name entry) (replicate 64 0) with
        | None => (hint (d_metadata entry), w)
        | Some child =>
            let '(st, md, w) := vfs_metadata s (Some child) (d_metadata entry) w in
            if st =? 0 then (md, w) else (hint md, w)
        end in
      let entries := <[Z.to_nat output := Dirent (d_name entry) md]> entries in
      let output := output + 1 in
      if output =? max_entries then (0, output, entries, w) else
      readdir_loop scanned' s canonical start_index max_entries entries line
        byte_offset (u64 (logical_index + 1)) output 0 w
  end.

Definition dirent_at (entries : list vfs_dirent) (i : Z) : vfs_dirent :=
  default vfs_dirent_clear (entries !! Z.to_nat i).

Definition vfs_readdir (s : vfs) (path : option (list Z)) (start_index : Z)
    (entries : option (list vfs_dirent)) (max_entries : Z) (w : W)
    : Z * Z * option (list vfs_dirent) * W :=
  match entries, canonicalize path with
  | Some es, Some canonical =>
      if (max_entries =? 0) || (max_entries >? VFS_READDIR_MAX_ENTRIES) then (-1, 0, entries, w) else
      let mount := find_mount s canonical in
      let m := mount_at s (default 0 mount) in
      if bool_decide (is_Some mount) && negb (op_readdir_path (m_ops m) =? 0) then
        let '(status, n, es, w) :=
          call_readdir_path (op_readdir_path (m_ops m)) (m_context m) canonical start_index es max_entries w in
        if negb (status =? 0) || (n >? max_entries)
        then (if negb (status =? 0) then status else -1, 0, Some es, w) else
        if bool_decide (is_Some (find_range 0 n (fun i =>
             negb (vfs_dirent_name_valid (d_name (dirent_at es i))) ||
             negb (vfs_metadata_type_valid (md_type (d_metadata (dirent_at es i)))))))
        then (-1, 0, Some es, w) else (0, n, Some es, w)
      else
        let '(status, n, es, w) :=
          readdir_loop (Z.to_nat VFS_STRUCTURED_SCAN_LIMIT) s canonical start_index max_entries es
            (replicate 65 0) 0 0 0 0 w in
        (status, n, Some es, w)
  | _, _ => (-1, 0, entries, w)
  end.

Definition vfs_fsinfo_clear : vfs_fsinfo_t := FsInfo 0 0 0 0 0 0 (replicate 16 0).

Definition vfs_fsinfo_name_valid (name : list Z) : bool := name_valid VFS_FILESYSTEM_NAME_MAX name.

Definition VFS_FS_FLAG_FREE_BYTES_VALID : Z := 0x20.
Definition fsinfo_allowed_flags : Z := 0x3F.

Definition vfs_fsinfo (s : vfs) (path : option (list Z)) (info : vfs_fsinfo_t) (w : W)
    : Z * vfs_fsinfo_t * W :=
  match canonicalize path with
  | None => (ARMONIOS_ERR_INVAL, info, w)
  | Some canonical =>
      let info := vfs_fsinfo_clear in
      let mount := find_mount s canonical in
      let m := mount_at s (default 0 mount) in
      if bool_decide (mount = None) then (ARMONIOS_ERR_NOENT, info, w) else
      if op_fsinfo (m_ops m) =? 0 then (ARMONIOS_ERR_NOTSUP, info, w) else
      let '(status, info, w) := call_fsinfo (op_fsinfo (m_ops m)) (m_context m) canonical info w in
      if negb (status =? 0) then (status, vfs_fsinfo_clear, w) else
      if negb (vfs_fsinfo_name_valid (filesystem info)) ||
         (total_bytes info =? 0) || (block_size info =? 0) ||
         (max_name_length info =? 0) || (max_name_length info >=? VFS_NAME_MAX) ||
         (max_path_length info =? 0) || (max_path_length info >=? VFS_MAX_PATH) ||
         (fs_flags info &? u32 (Z.lnot fsinfo_allowed_flags)) ||
         ((fs_flags info &? VFS_FS_FLAG_FREE_BYTES_VALID) && (free_bytes info >? total_bytes info))
      then (ARMONIOS_ERR_RANGE, vfs_fsinfo_clear, w) else (0, info, w)
  end.

(** * Descriptors of the current process *)

Section Descriptors.
Context {A PW : Type} (t : ptable A PW).

Definition vfs_current_owner_pid : Z :=
  match process_current t with Some k => pid (obj t k) | None => 0 end.

Definition vfs_owner_is_alive (p : Z) : bool :=
  let running k := negb (bool_decide (state (obj t k) = PROCESS_UNUSED)) &&
                   negb (bool_decide (state (obj t k) = PROCESS_ZOMBIE)) in
  if p =? 0 then true else
  let lookup := match process_find t p with Some k => running k | None => false end in
  match process_current t with
  | Some k => if pid (obj t k) =? p then running k else lookup
  | None => lookup
  end.

Definition vfs_reap_dead_owners (s : vfs) : vfs :=
  set_files s (clear_files_where (fun f => f_used f && negb (vfs_owner_is_alive (f_owner_pid f)))
    (g_open_files s)).

(** The entry the descriptor denotes, and the state after reaping. *)
Definition vfs_fd_at (s : vfs) (fd : Z) : option Z * vfs :=
  if (fd <? 0) || (fd >=? VFS_MAX_OPEN_FILES) then (None, s) else
  let s := vfs_reap_dead_owners s in
  let owner_pid := vfs_current_owner_pid in
  (find_range 0 VFS_MAX_GLOBAL_OPEN_FILES (fun i =>
     f_used (file_at s i) && bool_decide (is_Some (f_node (file_at s i))) &&
     (f_owner_pid (file_at s i) =? owner_pid) && (f_local_fd (file_at s i) =? fd)), s).

Definition set_offset (s : vfs) (i offset : Z) : vfs :=
  let f := file_at s i in
  set_files s (<[Z.to_nat i := OpenFile (f_node f) offset (f_flags f) (f_owner_pid f) (f_local_fd f)
                                 (f_used f)]> (g_open_files s)).

(** The node an open file refers to. *)
Definition file_node (s : vfs) (i : Z) : vfs_node :=
  node_at s (Z.of_nat (default O (f_node (file_at s i)))).

Definition vfs_open_flags (path : option (list Z)) (flags : Z) (sw : vfs * W) : Z * (vfs * W) :=
  let '(s, w) := sw in
  let mode := vfs_open_access_mode flags in
  if negb (vfs_open_flags_valid flags) then (-1, sw) else
  match canonicalize path with
  | None => (-1, sw)
  | Some canonical =>
      let '(node, (s, w)) :=
        match vfs_find_canonical s canonical with
        | Some i => (Some i, (s, w))
        | None =>
            let mount := vfs_find_mount_for_path s canonical in
            let m := mount_at s (default 0 mount) in
            if bool_decide (mount = None) || (op_open (m_ops m) =? 0) then (None, (s, w)) else
            let '(status, (s, w)) := call_open (op_open (m_ops m)) (m_context m) canonical flags (s, w) in
            (if negb (status =? 0) then None else vfs_find_canonical s canonical, (s, w))
        end in
      match node with
      | None => (-1, (s, w))
      | Some i =>
          if ((mode =? VFS_O_RDONLY) || (mode =? VFS_O_RDWR)) && (n_read (node_at s i) =? 0) ||
             ((mode =? VFS_O_WRONLY) || (mode =? VFS_O_RDWR)) && (n_write (node_at s i) =? 0)
          then (-1, (s, w)) else
          let s := vfs_reap_dead_owners s in
          let owner_pid := vfs_current_owner_pid in
          match vfs_find_free_local_fd s owner_pid with
          | None => (-1, (s, w))
          | Some local_fd =>
              match vfs_find_free_global_handle s with
              | None => (-1, (s, w))
              | Some k =>
                  (local_fd,
                    (set_files s (<[Z.to_nat k := OpenFile (Some (Z.to_nat i)) 0 mode owner_pid local_fd true]>
                       (g_open_files s)), w))
              end
          end
      end
  end.

Definition vfs_open (path : option (list Z)) (sw : vfs * W) : Z * (vfs * W) :=
  vfs_open_flags path VFS_O_RDONLY sw.

Definition vfs_read_fd (fd : Z) (buffer : option (list Z)) (capacity : Z) (sw : vfs * W)
    : Z * Z * option (list Z) * (vfs * W) :=
  let '(s, w) := sw in
  match buffer with
  | None => (-1, 0, buffer, sw)
  | Some buf =>
      match vfs_fd_at s fd with
      | (None, s) => (-1, 0, buffer, (s, w))
      | (Some i, s) =>
          let f := file_at s i in
          let node := file_node s i in
          if (n_read node =? 0) || (f_flags f =? VFS_O_WRONLY) then (-1, 0, buffer, (s, w)) else
          let '(st, size, w) := vfs_node_size node 0 w in
          if negb (st =? 0) || (f_offset f >? size) then (-1, 0, buffer, (s, w)) else
          let '(status, n, buf, w) := call_read (n_read node) (n_context node) (f_offset f) buf capacity w in
          let '(status, n) := read_result status (f_offset f) size capacity n in
          if negb (status =? 0) then (status, n, Some buf, (s, w))
          else (0, n, Some buf, (set_offset s i (u64 (f_offset f + n)), w))
      end
  end.

Definition vfs_write_fd (fd : Z) (buffer : option (list Z)) (size : Z) (sw : vfs * W)
    : Z * Z * (vfs * W) :=
  let '(s, w) := sw in
  match buffer with
  | None => (-1, 0, sw)
  | Some buf =>
      match vfs_fd_at s fd with
      | (None, s) => (-1, 0, (s, w))
      | (Some i, s) =>
          let f := file_at s i in
          let node := file_node s i in
          if (n_write node =? 0) || (f_flags f =? VFS_O_RDONLY) then (-1, 0, (s, w)) else
          let '(st, current_size, w) := vfs_node_size node 0 w in
          if negb (st =? 0) || (f_offset f >? current_size) then (-1, 0, (s, w)) else
          let '(status, n, w) := call_write (n_write node) (n_context node) (f_offset f) buf size w in
          let '(status, n) := write_result status (f_offset f) size n in
          if negb (status =? 0) then (status, n, (s, w))
          else (0, n, (set_offset s i (u64 (f_offset f + n)), w))
      end
  end.

Definition vfs_seek (fd offset : Z) (sw : vfs * W) : Z * (vfs * W) :=
  let '(s, w) := sw in
  match vfs_fd_at s fd with
  | (None, s) => (-1, (s, w))
  | (Some i, s) =>
      let '(st, size, w) := vfs_node_size (file_node s i) 0 w in
      if negb (st =? 0) || (offset >? size) then (-1, (s, w)) else (0, (set_offset s i offset, w))
  end.

Definition vfs_close (fd : Z) (s : vfs) : Z * vfs :=
  match vfs_fd_at s fd with
  | (None, s) => (-1, s)
  | (Some i, s) => (0, set_files s (<[Z.to_nat i := vfs_clear_open_file]> (g_open_files s)))
  end.
End Descriptors.

(** The number of closed handles, and the state. *)
Definition vfs_close_all_for_pid (p : Z) (s : vfs) : Z * vfs :=
  let test f := f_used f && (f_owner_pid f =? p) in
  (Z.of_nat (length (filter (fun f => test f = true) (g_open_files s))),
   set_files s (clear_files_where test (g_open_files s))).

Definition vfs_unlink (path : option (list Z)) (sw : vfs * W) : Z * (vfs * W) :=
  let '(s, w) := sw in
  match canonicalize path with
  | None => (-1, sw)
  | Some canonical =>
      let mount := vfs_find_mount_for_path s canonical in
      let m := mount_at s (default 0 mount) in
      if bool_decide (mount = None) || (op_unlink (m_ops m) =? 0) then (-1, sw) else
      let '(status, w) := call_unlink (op_unlink (m_ops m)) (m_context m) canonical w in
      if negb (status =? 0) then (-1, (s, w))
      else (0, (snd (vfs_unmount_static s (Some canonical)), w))
  end.

Definition vfs_rename (old_path new_path : option (list Z)) (sw : vfs * W) : Z * (vfs * W) :=
  let '(s, w) := sw in
  match canonicalize old_path, canonicalize new_path with
  | Some canonical_old, Some canonical_new =>
      let old_mount := vfs_find_mount_for_path s canonical_old in
      let new_mount := vfs_find_mount_for_path s canonical_new in
      let m := mount_at s (default 0 old_mount) in
      if bool_decide (old_mount = None) || negb (bool_decide (old_mount = new_mount)) ||
         (op_rename (m_ops m) =? 0) then (-1, sw) else
      let '(status, w) := call_rename (op_rename (m_ops m)) (m_context m) canonical_old canonical_new w in
      if negb (status =? 0) then (-1, (s, w)) else
      let s := snd (vfs_unmount_static s (Some canonical_old)) in
      (0, (snd (vfs_unmount_static s (Some canonical_new)), w))
  | _, _ => (-1, sw)
  end.

(** * The public metadata calls (kernel/vfs_metadata.c) *)

Definition ARM_VFS_METADATA_VERSION : Z := 2.
Definition ARM_DIRENT_NAME_MAX : Z := 64.

Record arm_stat_v2 := StatV2 {
  st2_version : Z; st2_struct_size : Z; st2_size : Z; st2_type : Z; st2_attributes : Z; st2_reserved : Z }.
Record arm_dirent_v2 := DirentV2 {
  de2_version : Z; de2_struct_size : Z; de2_size : Z; de2_type : Z; de2_attributes : Z; de2_reserved : Z;
  de2_name : list Z }.

Definition vfs_public_type (type : Z) : Z :=
  if type =? VFS_FILE_TYPE_REGULAR then 1 else if type =? VFS_FILE_TYPE_DIRECTORY then 2 else 0.

Definition vfs_public_attributes (attributes : Z) : Z :=
  let value := 0 in
  let value := if attributes &? 1 then Z.lor value 1 else value in
  let value := if attributes &? 2 then Z.lor value 2 else value in
  let value := if attributes &? 4 then Z.lor value 4 else value in
  if attributes &? 8 then Z.lor value 8 else value.

Definition vfs_public_clear_stat : arm_stat_v2 := StatV2 ARM_VFS_METADATA_VERSION 32 0 0 0 0.
Definition vfs_public_clear_dirent : arm_dirent_v2 :=
  DirentV2 ARM_VFS_METADATA_VERSION 96 0 0 0 0 (replicate 64 0).

(** [while (i < VFS_NAME_MAX && source[i] != 0) ...]: whether the name fits so
    far, the index reached and the destination. *)
Fixpoint public_copy_loop (fuel : nat) (destination source : list Z) (i : Z) : bool * Z * list Z :=
  match fuel with
  | O => (true, i, destination)
  | S fuel' =>
      if (i <? VFS_NAME_MAX) && negb (byte_at source i =? 0) then
        if i + 1 >=? ARM_DIRENT_NAME_MAX then (false, i, destination)
        else public_copy_loop fuel' (put i (byte_at source i) destination) source (i + 1)
      else (true, i, destination)
  end.

Definition vfs_public_copy_name (destination source : list Z) : Z * list Z :=
  if byte_at source 0 =? 0 then (-1, destination) else
  let '(fits, i, destination) := public_copy_loop (Z.to_nat VFS_NAME_MAX) destination source 0 in
  if negb fits || (i =? VFS_NAME_MAX) then (-1, destination) else (0, put i 0 destination).

Definition vfs_stat_v2 (s : vfs) (path : option (list Z)) (stat : arm_stat_v2) (w : W)
    : Z * arm_stat_v2 * W :=
  match path with
  | None => (-1, stat, w)
  | Some _ =>
      let '(st, metadata, w) := vfs_metadata s path vfs_metadata_clear w in
      if negb (st =? 0) then (-1, stat, w) else
      let c := vfs_public_clear_stat in
      (0, StatV2 (st2_version c) (st2_struct_size c) (md_size metadata) (vfs_public_type (md_type metadata))
            (vfs_public_attributes (md_attributes metadata)) (st2_reserved c), w)
  end.

(** The translation loop; it stops at a name that does not fit. *)
Fixpoint readdir_v2_loop (n : nat) (i : Z) (native : list vfs_dirent) (entries : list arm_dirent_v2)
    : bool * list arm_dirent_v2 :=
  match n with
  | O => (true, entries)
  | S n' =>
      let e := dirent_at native i in
      let c := vfs_public_clear_dirent in
      let '(status, public_name) := vfs_public_copy_name (de2_name c) (d_name e) in
      if negb (status =? 0) then
        (false, <[Z.to_nat i := DirentV2 (de2_version c) (de2_struct_size c) (de2_size c) (de2_type c)
                                  (de2_attributes c) (de2_reserved c) public_name]> entries)
      else
        readdir_v2_loop n' (i + 1) native
          (<[Z.to_nat i := DirentV2 (de2_version c) (de2_struct_size c) (md_size (d_metadata e))
               (vfs_public_type (md_type (d_metadata e)))
               (vfs_public_attributes (md_attributes (d_metadata e))) (de2_reserved c) public_name]> entries)
  end.

Definition vfs_readdir_v2 (s : vfs) (path : option (list Z)) (start_index : Z)
    (entries : option (list arm_dirent_v2)) (max_entries : Z) (w : W)
    : Z * Z * option (list arm_dirent_v2) * W :=
  match path, entries with
  | Some _, Some es =>
      if (max_entries =? 0) || (max_entries >? VFS_READDIR_MAX_ENTRIES) then (-1, 0, entries, w) else
      let '(st, written, native, w) :=
        vfs_readdir s path start_index (Some (replicate 8 vfs_dirent_clear)) max_entries w in
      if negb (st =? 0) || (written >? max_entries) then (-1, 0, entries, w) else
      let '(ok, es) := readdir_v2_loop (Z.to_nat written) 0 (default [] native) es in
      if ok then (0, written, Some es, w) else (-1, 0, Some es, w)
  | _, _ => (-1, 0, entries, w)
  end.
End Io.
