(* ===== verification/VfsNames.v ===== *)
(** The name tables of the VFS: static nodes by canonical name, mounts by
    longest prefix, and the root listing. *)

From S2P Require Import Prelude.
From S2P Require Import Bytes.
From S2P Require Import VfsPath.
From S2P Require Import ProcessRegions.
From S2P Require Import Process.
From S2P Require Import Vfs.
Open Scope arm.

(** * Canonical names *)

Definition name_of (path : option (list Z)) : option (list Z) :=
  path ≫= (fun p => normal_form (str_cut p)).

Lemma canonicalize_spec path :
  match name_of path with
  | Some r => exists c, canonicalize path = Some c /\ length c = 64%nat /\ str_cut c = r
  | None => canonicalize path = None
  end.
Proof.
  unfold canonicalize, name_of. destruct path as [p|]; [|done]. simpl mbind.
  pose proof (normalize_path_spec p (replicate 64 0) eq_refl) as Hs.
  destruct (normal_form (str_cut p)) as [r|].
  - destruct Hs as (out & -> & ? & ? & _). exists out. done.
  - destruct (vfs_normalize_path (Some p) (replicate 64 0)) as [st out]. simpl in Hs. subst st. done.
Qed.

Lemma canonicalize_Some path c :
  canonicalize path = Some c -> length c = 64%nat /\ name_of path = Some (str_cut c).
Proof.
  intros E. pose proof (canonicalize_spec path) as Hs. destruct (name_of path) as [r|]; [|congruence].
  destruct Hs as (c' & E' & Hl & Hc). rewrite E in E'. simplify_eq. done.
Qed.

Lemma copy_path_spec dest path :
  length dest = 64%nat ->
  match name_of path with
  | Some r => exists c, vfs_copy_path dest path = (0, c) /\ length c = 64%nat /\ str_cut c = r
  | None => fst (vfs_copy_path dest path) = -1
  end.
Proof.
  intros Hl. unfold vfs_copy_path, name_of. destruct path as [p|]; [|done]. simpl mbind.
  pose proof (normalize_path_spec p dest Hl) as Hs.
  destruct (normal_form (str_cut p)) as [r|]; [|done].
  destruct Hs as (out & -> & ? & ? & _). exists out. done.
Qed.

(** Canonical names are fixed points. *)
Lemma name_of_canonical path r : name_of path = Some r -> forall c, str_cut c = r -> name_of (Some c) = Some r.
Proof.
  unfold name_of. destruct path as [p|]; [|done]. simpl. intros E c Hc. rewrite Hc.
  pose proof (normalize_path_spec p (replicate 64 0) eq_refl) as Hs. rewrite E in Hs.
  destruct Hs as (out & _ & Hl & Ho & Hle).
  apply normal_form_some in E as (st & -> & Hst & Hn); [|by intros; apply (str_cut_nonzero p)].
  apply normal_form_render; [done|lia].
Qed.

Lemma kstreq_spec a b : kstreq (Some a) (Some b) = bool_decide (str_cut a = str_cut b).
Proof. apply streq_loop_spec. Qed.

(** * The node table *)

(** The name of a table entry. *)
Definition node_name (s : vfs) (i : Z) : option (list Z) := str_cut <$> n_path (node_at s i).

Record names_wf (s : vfs) : Prop := {
  nw_nodes : length (g_vfs_nodes s) = 24%nat;
  nw_paths : length (g_vfs_paths s) = 24%nat;
  nw_buffers : Forall (fun p => length p = 64%nat) (g_vfs_paths s);
  nw_count : 0 <= g_vfs_node_count s <= VFS_MAX_NODES;
  nw_tail : forall i, g_vfs_node_count s <= i -> node_name s i = None;
  nw_canonical : forall i nm, 0 <= i -> node_name s i = Some nm -> normal_form nm = Some nm;
  nw_distinct : forall i j nm, 0 <= i -> 0 <= j ->
    node_name s i = Some nm -> node_name s j = Some nm -> i = j }.

Lemma live_name s i : live (node_at s i) = true <-> exists nm, node_name s i = Some nm.
Proof.
  unfold live, node_name. rewrite bool_decide_eq_true. unfold is_Some.
  split; intros [x E]; [|apply fmap_Some in E as (y & E & _); eauto].
  rewrite E. simpl. eauto.
Qed.

Lemma find_test s i path :
  live (node_at s i) && kstreq (n_path (node_at s i)) (Some path) =
  bool_decide (node_name s i = Some (str_cut path)).
Proof.
  unfold live, node_name. destruct (n_path (node_at s i)) as [p|]; simpl fmap.
  - rewrite bool_decide_true by eauto. rewrite kstreq_spec. simpl. apply bool_decide_ext. split; congruence.
  - rewrite !bool_decide_false; [done|done|by intros [? ?]].
Qed.

Lemma find_canonical_spec s path i :
  names_wf s ->
  vfs_find_canonical s path = Some i <-> 0 <= i /\ node_name s i = Some (str_cut path).
Proof.
  intros Hwf. unfold vfs_find_canonical. split.
  - intros E. apply find_range_Some in E as (Hi & Ht & _). rewrite find_test in Ht.
    apply bool_decide_eq_true in Ht. split; [lia|done].
  - intros [Hi Hn]. destruct (find_range 0 (g_vfs_node_count s) _) as [j|] eqn:E.
    + apply find_range_Some in E as (Hj & Ht & _). rewrite find_test in Ht.
      apply bool_decide_eq_true in Ht. f_equal. eapply (nw_distinct s Hwf); eauto. lia.
    + exfalso. destruct (Z_lt_le_dec i (g_vfs_node_count s)).
      * pose proof (find_range_None _ _ _ E i ltac:(lia)) as Hf. cbv beta in Hf.
        rewrite find_test in Hf. by apply bool_decide_eq_false in Hf.
      * by rewrite (nw_tail s Hwf) in Hn by lia.
Qed.

Lemma find_canonical_None s path :
  names_wf s -> vfs_find_canonical s path = None <-> forall i, 0 <= i -> node_name s i <> Some (str_cut path).
Proof.
  intros Hwf. split.
  - intros E i Hi Hn. assert (vfs_find_canonical s path = Some i) by (by apply find_canonical_spec). congruence.
  - intros Hn. destruct (vfs_find_canonical s path) as [i|] eqn:E; [|done]. exfalso.
    apply find_canonical_spec in E as [? ?]; [|done]. by eapply Hn.
Qed.

(** vfs_find looks the canonical name up. *)
Lemma vfs_find_spec s path i :
  names_wf s -> vfs_find s path = Some i <->
  0 <= i /\ exists nm, name_of path = Some nm /\ node_name s i = Some nm.
Proof.
  intros Hwf. unfold vfs_find. destruct (canonicalize path) as [c|] eqn:E.
  - apply canonicalize_Some in E as [_ E]. rewrite find_canonical_spec by done. rewrite E. naive_solver.
  - pose proof (canonicalize_spec path) as Hs. destruct (name_of path); [|naive_solver].
    destruct Hs as (? & ? & _). congruence.
Qed.

(** Node updates. *)
Lemma node_at_insert nodes i n paths c ms fs j :
  0 <= i < Z.of_nat (length nodes) -> 0 <= j ->
  node_at (Vfs (<[Z.to_nat i := n]> nodes) paths c ms fs) j =
  if j =? i then n else node_at (Vfs nodes paths c ms fs) j.
Proof.
  intros Hi Hj. unfold node_at. simpl. destruct (Z.eqb_spec j i) as [->|Hne].
  - by rewrite list_lookup_insert_eq by lia.
  - by rewrite list_lookup_insert_ne by lia.
Qed.

Lemma node_at_nodes s s' i : g_vfs_nodes s = g_vfs_nodes s' -> node_at s i = node_at s' i.
Proof. unfold node_at. by intros ->. Qed.

Lemma node_name_nodes s s' i : g_vfs_nodes s = g_vfs_nodes s' -> node_name s i = node_name s' i.
Proof. intros E. unfold node_name. by rewrite (node_at_nodes s s' i E). Qed.

(** The name invariant only looks at the node table. *)
Lemma names_wf_files s fs : names_wf s -> names_wf (set_files s fs).
Proof. intros []. by split. Qed.

Lemma names_wf_mounts s ms : names_wf s -> names_wf (set_mounts s ms).
Proof. intros []. by split. Qed.

Lemma node_at_out s i : 24 <= i -> length (g_vfs_nodes s) = 24%nat -> node_at s i = null_node.
Proof. intros Hi Hl. unfold node_at. by rewrite lookup_ge_None_2 by lia. Qed.

(** ** Removing a node *)

Lemma clear_node_name s i j :
  names_wf s -> 0 <= i < 24 -> 0 <= j ->
  node_name (vfs_clear_node s i) j = if j =? i then None else node_name s j.
Proof.
  intros Hwf Hi Hj. unfold vfs_clear_node, VFS_MAX_NODES.
  destruct (Z.geb_spec i 24); [lia|].
  unfold node_name. rewrite node_at_insert by (rewrite ?(nw_nodes s Hwf); lia).
  destruct (j =? i); [done|]. by erewrite node_at_nodes.
Qed.

Lemma clear_node_wf s i : names_wf s -> 0 <= i < 24 -> names_wf (vfs_clear_node s i).
Proof.
  intros Hwf Hi. pose proof (clear_node_name s i) as Hn.
  assert (Hs : forall j nm, 0 <= j -> node_name (vfs_clear_node s i) j = Some nm -> node_name s j = Some nm).
  { intros j nm Hj E. rewrite Hn in E by done. by destruct (j =? i). }
  assert (E : g_vfs_node_count (vfs_clear_node s i) = g_vfs_node_count s).
  { unfold vfs_clear_node. by destruct (i >=? VFS_MAX_NODES). }
  split; rewrite ?E.
  - unfold vfs_clear_node. destruct (i >=? VFS_MAX_NODES); simpl; rewrite ?length_insert; apply Hwf.
  - unfold vfs_clear_node. destruct (i >=? VFS_MAX_NODES); simpl; rewrite ?length_insert; apply Hwf.
  - unfold vfs_clear_node. destruct (i >=? VFS_MAX_NODES); simpl; [apply Hwf|].
    apply Forall_insert; [apply Hwf|done].
  - apply Hwf.
  - intros j Hj. pose proof (nw_count s Hwf). rewrite Hn by (done || lia). destruct (j =? i); [done|].
    by apply (nw_tail s Hwf).
  - intros j nm Hj Hnm. apply Hs in Hnm; [|done]. by apply (nw_canonical s Hwf) in Hnm.
  - intros j k nm Hj Hk E1 E2. apply Hs in E1, E2; [|done..]. by eapply (nw_distinct s Hwf).
Qed.

Lemma find_canonical_range s path i : names_wf s -> vfs_find_canonical s path = Some i -> 0 <= i < 24.
Proof.
  intros Hwf E. apply find_range_Some in E. pose proof (nw_count s Hwf). unfold VFS_MAX_NODES in *. lia.
Qed.

(** What vfs_unmount_static does. *)
Lemma unmount_static_spec s path :
  names_wf s ->
  match vfs_find s path with
  | Some i => vfs_unmount_static s path = (0, vfs_clear_node (vfs_drop_open_files_for_node s (Z.to_nat i)) i)
      /\ 0 <= i < 24
  | None => vfs_unmount_static s path = (-1, s)
  end.
Proof.
  intros Hwf. unfold vfs_find, vfs_unmount_static. destruct (canonicalize path) as [c|]; [|done].
  destruct (vfs_find_canonical s c) as [i|] eqn:E; [|done]. split; [done|]. by eapply find_canonical_range.
Qed.

Lemma unmount_static_wf s path : names_wf s -> names_wf (snd (vfs_unmount_static s path)).
Proof.
  intros Hwf. pose proof (unmount_static_spec s path Hwf) as Hs.
  destruct (vfs_find s path) as [i|]; [|by rewrite Hs].
  destruct Hs as [-> Hi]. apply clear_node_wf; [|done]. by apply names_wf_files.
Qed.

Lemma unmount_static_names s path j :
  names_wf s -> 0 <= j ->
  node_name (snd (vfs_unmount_static s path)) j =
  if bool_decide (vfs_find s path = Some j) then None else node_name s j.
Proof.
  intros Hwf Hj. pose proof (unmount_static_spec s path Hwf) as Hs.
  destruct (vfs_find s path) as [i|] eqn:E.
  - destruct Hs as [-> Hi]. cbn [snd]. rewrite clear_node_name by (try apply names_wf_files; done).
    destruct (Z.eqb_spec j i) as [->|]; [by rewrite bool_decide_true|].
    rewrite bool_decide_false by congruence. done.
  - rewrite Hs. by rewrite bool_decide_false.
Qed.

(** ** Adding nodes *)

Definition payload (n : vfs_node) : Z * Z * Z * Z * Z := (n_size n, n_read n, n_write n, n_stat n, n_context n).
Definition absent (s : vfs) (nm : list Z) : Prop := forall i, 0 <= i -> node_name s i <> Some nm.
Definition has_callback (n : vfs_node) : Prop := n_read n <> 0 \/ n_write n <> 0.

Lemma not_live_name s i : live (node_at s i) = false <-> node_name s i = None.
Proof.
  unfold live, node_name. rewrite bool_decide_eq_false, eq_None_not_Some, fmap_is_Some. done.
Qed.

Lemma free_node_exists s :
  names_wf s -> 0 < vfs_free_node_count s ->
  exists i, vfs_find_free_node s = Some i /\ 0 <= i < 24 /\ node_name s i = None.
Proof.
  intros Hwf Hf. unfold vfs_free_node_count in Hf.
  destruct (filter (fun n => live n = false) (g_vfs_nodes s)) as [|n l] eqn:E; [simpl in Hf; lia|].
  assert (Hn : n ∈ filter (fun n => live n = false) (g_vfs_nodes s)) by (rewrite E; left).
  apply list_elem_of_filter in Hn as [Hl Hn]. apply list_elem_of_lookup_1 in Hn as [k Hk].
  pose proof (lookup_lt_Some _ _ _ Hk) as Hlt. rewrite (nw_nodes s Hwf) in Hlt.
  assert (Hnk : node_at s (Z.of_nat k) = n) by (unfold node_at; by rewrite Nat2Z.id, Hk).
  unfold vfs_find_free_node.
  destruct (find_range_is_Some 0 VFS_MAX_NODES (fun i => negb (live (node_at s i))) (Z.of_nat k)) as [i [Hi _]].
  { unfold VFS_MAX_NODES. lia. }
  { cbv beta. by rewrite Hnk, Hl. }
  exists i. split; [exact Hi|]. apply find_range_Some in Hi as (Hr & Ht & _). unfold VFS_MAX_NODES in Hr.
  split; [lia|]. apply not_live_name. by destruct (live (node_at s i)).
Qed.

Lemma filter_insert_length (p : vfs_node -> bool) (l : list vfs_node) k x y :
  l !! k = Some x -> p x = false -> p y = true ->
  length (filter (fun n => p n = false) l) = S (length (filter (fun n => p n = false) (<[k := y]> l))).
Proof.
  intros Hk Hx Hy. pose proof (lookup_lt_Some _ _ _ Hk) as Hlt.
  rewrite insert_take_drop by done. rewrite <- (take_drop_middle l k x Hk) at 1.
  rewrite !filter_app, !length_app, !filter_cons.
  rewrite decide_True by done. rewrite decide_False by congruence. simpl. lia.
Qed.

Record added (s s' : vfs) (nd : vfs_node) (nm : list Z) (i : Z) : Prop := {
  ad_index : 0 <= i < 24;
  ad_free : node_name s i = None;
  ad_name : node_name s' i = Some nm;
  ad_payload : payload (node_at s' i) = payload nd;
  ad_frame : forall j, 0 <= j -> j <> i -> node_at s' j = node_at s j;
  ad_mounts : g_mounts s' = g_mounts s;
  ad_files : g_open_files s' = g_open_files s;
  ad_count : vfs_free_node_count s' = vfs_free_node_count s - 1 }.

Lemma mount_one_spec s nd nm :
  names_wf s -> name_of (n_path nd) = Some nm -> absent s nm -> 0 < vfs_free_node_count s ->
  exists s' i, mount_one s nd = (0, s') /\ names_wf s' /\ added s s' nd nm i.
Proof.
  intros Hwf Hnm Habs Hfree. destruct (free_node_exists s Hwf Hfree) as (i & Hi & Hr & Hnone).
  unfold mount_one. rewrite Hi.
  destruct (lookup_lt_is_Some_2 (g_vfs_paths s) (Z.to_nat i)) as [buf Hbuf]; [rewrite (nw_paths s Hwf); lia|].
  rewrite Hbuf. change (default [] (Some buf)) with buf. assert (Hbl : length buf = 64%nat).
  { pose proof (nw_buffers s Hwf) as Hf. rewrite Forall_forall in Hf. apply Hf. by eapply list_elem_of_lookup_2. }
  pose proof (copy_path_spec buf (n_path nd) Hbl) as Hc. rewrite Hnm in Hc.
  destruct Hc as (c & Ec & Hcl & Hcc). rewrite Ec. cbn [Z.eqb negb].
  set (n' := Node (Some c) _ _ _ _ _). set (cnt := if i >=? g_vfs_node_count s then _ else _).
  set (s' := Vfs _ _ _ _ _).
  assert (Hat : forall j, 0 <= j -> node_at s' j = if j =? i then n' else node_at s j).
  { intros j Hj. unfold s'. rewrite node_at_insert by (rewrite ?(nw_nodes s Hwf); lia).
    destruct (j =? i); [done|]. by apply node_at_nodes. }
  assert (Hname : forall j, 0 <= j -> node_name s' j = if j =? i then Some nm else node_name s j).
  { intros j Hj. unfold node_name. rewrite Hat by done. destruct (j =? i); [|done]. simpl. by rewrite Hcc. }
  assert (Hcnt : g_vfs_node_count s <= cnt <= 24 /\ i < cnt).
  { pose proof (nw_count s Hwf) as Hc. unfold VFS_MAX_NODES in Hc.
    unfold cnt. destruct (Z.geb_spec i (g_vfs_node_count s)); lia. }
  exists s', i. split; [done|]. split.
  - split; simpl.
    + rewrite length_insert. apply Hwf.
    + rewrite length_insert. apply Hwf.
    + apply Forall_insert; [apply Hwf|done].
    + unfold VFS_MAX_NODES. pose proof (nw_count s Hwf). fold cnt. lia.
    + fold cnt. intros j Hj. pose proof (nw_count s Hwf). rewrite Hname by lia.
      destruct (Z.eqb_spec j i); [lia|]. apply (nw_tail s Hwf). lia.
    + intros j m Hj. rewrite Hname by done. destruct (j =? i); [|by apply (nw_canonical s Hwf)].
      intros [= <-]. pose proof (name_of_canonical _ _ Hnm c Hcc) as Hn. unfold name_of in Hn. simpl in Hn.
      by rewrite Hcc in Hn.
    + intros j k m Hj Hk. rewrite !Hname by done.
      destruct (Z.eqb_spec j i) as [->|], (Z.eqb_spec k i) as [->|]; intros E1 E2; simplify_eq; auto.
      * exfalso. eapply Habs; [|eassumption]; done.
      * exfalso. eapply Habs; [|eassumption]; done.
      * by eapply (nw_distinct s Hwf).
  - split; auto.
    + rewrite Hname, Z.eqb_refl by lia. done.
    + rewrite Hat, Z.eqb_refl by lia. done.
    + intros j Hj Hne. rewrite Hat by done. by rewrite (proj2 (Z.eqb_neq j i)).
    + unfold vfs_free_node_count. simpl.
      destruct (lookup_lt_is_Some_2 (g_vfs_nodes s) (Z.to_nat i)) as [x Hx]; [rewrite (nw_nodes s Hwf); lia|].
      rewrite (filter_insert_length live (g_vfs_nodes s) (Z.to_nat i) x n' Hx).
      * lia.
      * apply not_live_name in Hnone. unfold node_at in Hnone. by rewrite Hx in Hnone.
      * done.
Qed.

(** The result of installing a list of nodes under the given names. *)
Record installed (s s' : vfs) (nodes : list vfs_node) (nms : list (list Z)) : Prop := {
  in_found : forall k nd nm, nodes !! k = Some nd -> nms !! k = Some nm ->
    exists i, 0 <= i < 24 /\ node_name s' i = Some nm /\ payload (node_at s' i) = payload nd;
  in_kept : forall i nm, 0 <= i -> node_name s i = Some nm -> node_at s' i = node_at s i;
  in_only : forall i nm, 0 <= i -> node_name s' i = Some nm -> node_name s i = Some nm \/ nm ∈ nms;
  in_mounts : g_mounts s' = g_mounts s;
  in_files : g_open_files s' = g_open_files s }.

Lemma mount_install_spec nodes : forall nms s,
  names_wf s -> Forall2 (fun nd nm => name_of (n_path nd) = Some nm) nodes nms ->
  NoDup nms -> Forall (absent s) nms -> Z.of_nat (length nodes) <= vfs_free_node_count s ->
  exists s', mount_install s nodes = (0, s') /\ names_wf s' /\ installed s s' nodes nms.
Proof.
  induction nodes as [|nd nodes IH]; intros nms s Hwf Hn Hnd Habs Hlen.
  - apply Forall2_nil_inv_l in Hn as ->. exists s. split; [done|]. split; [done|]. split; auto. done.
  - apply Forall2_cons_inv_l in Hn as (nm & nms' & Hnm & Hn & ->).
    apply NoDup_cons in Hnd as [Hni Hnd]. apply Forall_cons in Habs as [Ha Habs].
    cbn [length] in Hlen.
    destruct (mount_one_spec s nd nm Hwf Hnm Ha) as (s1 & i & E & Hwf1 & Had); [lia|].
    cbn [mount_install]. rewrite E. cbn [Z.eqb].
    assert (Hname : forall j, 0 <= j -> j <> i -> node_name s1 j = node_name s j).
    { intros j Hj Hne. unfold node_name. by rewrite (ad_frame _ _ _ _ _ Had). }
    destruct (IH nms' s1 Hwf1 Hn Hnd) as (s2 & E2 & Hwf2 & Hin).
    { apply Forall_forall. intros m Hm j Hj Hc. rewrite Forall_forall in Habs.
      destruct (decide (j = i)) as [->|Hne]; [rewrite (ad_name _ _ _ _ _ Had) in Hc; by simplify_eq|].
      rewrite Hname in Hc by done. by eapply Habs. }
    { rewrite (ad_count _ _ _ _ _ Had). lia. }
    exists s2. split; [done|]. split; [done|]. split.
    + intros [|k] nd' nm' Hk1 Hk2; simpl in Hk1, Hk2; [|by eapply (in_found _ _ _ _ Hin)].
      simplify_eq. exists i. pose proof (in_kept _ _ _ _ Hin i nm') as Hk.
      rewrite Hk by (try apply (ad_name _ _ _ _ _ Had); pose proof (ad_index _ _ _ _ _ Had); lia).
      unfold node_name. rewrite Hk by (try apply (ad_name _ _ _ _ _ Had); pose proof (ad_index _ _ _ _ _ Had); lia).
      split; [apply Had|]. split; [apply Had|apply Had].
    + intros j m Hj Hm.
      assert (j <> i) by (intros ->; rewrite (ad_free _ _ _ _ _ Had) in Hm; done).
      rewrite (in_kept _ _ _ _ Hin j m), (ad_frame _ _ _ _ _ Had); auto. by rewrite Hname.
    + intros j m Hj Hm. apply (in_only _ _ _ _ Hin) in Hm as [Hm|Hm]; [|right; by right|done].
      destruct (decide (j = i)) as [->|Hne]; [rewrite (ad_name _ _ _ _ _ Had) in Hm; simplify_eq; right; left|].
      left. by rewrite <- Hname.
    + rewrite (in_mounts _ _ _ _ Hin). apply Had.
    + rewrite (in_files _ _ _ _ Hin). apply Had.
Qed.

(** ** The validation loop *)

Lemma mount_node_ok_spec s previous pnms nd :
  names_wf s -> Forall2 (fun nd nm => name_of (n_path nd) = Some nm) previous pnms ->
  mount_node_ok s previous nd = true <->
  exists nm, name_of (n_path nd) = Some nm /\ has_callback nd /\ absent s nm /\ nm ∉ pnms.
Proof.
  intros Hwf Hp. unfold mount_node_ok. pose proof (canonicalize_spec (n_path nd)) as Hc.
  destruct (name_of (n_path nd)) as [nm|]; [|rewrite Hc; naive_solver].
  destruct Hc as (c & -> & Hl & Hcc).
  assert (Hall : forallb (fun p => match canonicalize (n_path p) with
      | None => false | Some previous => negb (kstreq (Some previous) (Some c)) end) previous = true <-> nm ∉ pnms).
  { induction Hp as [|p pn ps pns Hpn Hp IH]; [split; [intros _; apply not_elem_of_nil|done]|].
    cbn [forallb]. rewrite andb_true_iff, IH, not_elem_of_cons.
    pose proof (canonicalize_spec (n_path p)) as Hcp. rewrite Hpn in Hcp. destruct Hcp as (c' & -> & _ & Hc').
    rewrite kstreq_spec, negb_true_iff, bool_decide_eq_false, Hc', Hcc. naive_solver. }
  destruct ((n_read nd =? 0) && (n_write nd =? 0)) eqn:Ecb.
  { b2p. split; [done|]. intros (nm' & _ & [Hr|Hr] & _); congruence. }
  assert (Hcb : has_callback nd) by (unfold has_callback; apply andb_false_iff in Ecb as [?|?]; b2p; auto).
  case_bool_decide as Ef.
  - split; [done|]. destruct Ef as [i Ef]. apply find_canonical_spec in Ef as [Hi Ef]; [|done].
    intros (nm' & [= <-] & _ & Habs & _). exfalso. eapply Habs; [exact Hi|]. by rewrite Ef, Hcc.
  - rewrite Hall. assert (Habs : absent s nm).
    { intros i Hi Hn. apply Ef. exists i. apply find_canonical_spec; [done|]. by rewrite Hcc. }
    naive_solver.
Qed.

Definition mountable (s : vfs) (nodes : list vfs_node) (pnms nms : list (list Z)) : Prop :=
  Forall2 (fun nd nm => name_of (n_path nd) = Some nm) nodes nms /\ NoDup nms /\
  (forall nm, nm ∈ nms -> nm ∉ pnms) /\ Forall (absent s) nms /\ Forall has_callback nodes.

Lemma mount_check_spec s nodes : forall previous pnms,
  names_wf s -> Forall2 (fun nd nm => name_of (n_path nd) = Some nm) previous pnms ->
  mount_check s previous nodes = true <-> exists nms, mountable s nodes pnms nms.
Proof.
  induction nodes as [|nd nodes IH]; intros previous pnms Hwf Hp; cbn [mount_check].
  - split; [|done]. intros _. exists []. repeat split; auto; [constructor|by intros ? ?%elem_of_nil].
  - rewrite andb_true_iff, (mount_node_ok_spec s previous pnms nd Hwf Hp). split.
    + intros [(nm & Hnm & Hcb & Ha & Hni) Hrest].
      apply (IH (previous ++ [nd]) (pnms ++ [nm])) in Hrest as (nms & Hn & Hnd & Hd & Habs & Hcbs);
        [|done|by apply Forall2_app; auto].
      exists (nm :: nms). split_and!; auto.
      * constructor; [|done]. intros Hin. apply (Hd nm Hin). apply elem_of_app. right. by left.
      * intros m [->|Hm]%elem_of_cons; [done|]. intros Hc. apply (Hd m Hm). apply elem_of_app. by left.
    + intros (nms0 & Hn & Hnd & Hd & Habs & Hcbs).
      apply Forall2_cons_inv_l in Hn as (nm & nms & Hnm & Hn & ->).
      apply NoDup_cons in Hnd as [Hni Hnd]. apply Forall_cons in Habs as [Ha Habs].
      apply Forall_cons in Hcbs as [Hcb Hcbs]. split.
      * exists nm. split_and!; auto. apply Hd. left.
      * apply (IH (previous ++ [nd]) (pnms ++ [nm])); [done|by apply Forall2_app; auto|].
        exists nms. split_and!; auto. intros m Hm [Hc|[->|[]%elem_of_nil]%elem_of_cons]%elem_of_app; [|done].
        by apply (Hd m); [right|].
Qed.

(** ** Registration and removal as operations on a name map *)

Lemma mount_static_cases s nodes :
  names_wf s ->
  (vfs_mount_static s nodes = (-1, s) /\
    ~ (nodes <> [] /\ Z.of_nat (length nodes) <= vfs_free_node_count s /\ exists nms, mountable s nodes [] nms)) \/
  (exists s' nms, vfs_mount_static s nodes = (0, s') /\ nodes <> [] /\
    Z.of_nat (length nodes) <= vfs_free_node_count s /\ mountable s nodes [] nms /\
    names_wf s' /\ installed s s' nodes nms).
Proof.
  intros Hwf. unfold vfs_mount_static. destruct ((Z.of_nat (length nodes) =? 0) || _) eqn:E1.
  { left. split; [done|]. intros (Hne & Hle & _). apply orb_true_iff in E1 as [E1|E1]; b2p; [|lia].
    destruct nodes; [done|]. simpl in E1. lia. }
  apply orb_false_iff in E1 as [E1 E2]; b2p.
  pose proof (mount_check_spec s nodes [] [] Hwf ltac:(constructor)) as Hchk.
  destruct (mount_check s [] nodes).
  - right. destruct (proj1 Hchk eq_refl) as (nms & Hm). pose proof Hm as (Hn & Hnd & _ & Habs & Hcb).
    destruct (mount_install_spec nodes nms s Hwf Hn Hnd Habs) as (s' & E & Hwf' & Hin); [lia|].
    exists s', nms. split_and!; auto. intros ->. done.
  - left. split; [done|]. intros (_ & _ & Hm). apply Hchk in Hm. done.
Qed.

(** ** The root listing *)

Definition window (offset capacity : Z) (l : list Z) : list Z := take (Z.to_nat capacity) (drop (Z.to_nat offset) l).

(** One line per live node. *)
Definition listing (nodes : list vfs_node) : list Z :=
  concat ((fun n => match n_path n with Some p => str_cut p ++ [NEWLINE] | None => [] end) <$> nodes).

Section Listing.
Context (offset capacity : Z) (buf0 : list Z).
Hypothesis Hoff : 0 <= offset.
Hypothesis Hcap : 0 <= capacity <= Z.of_nat (length buf0).

(** The buffer once the bytes [l] of the listing have been produced. *)
Definition emitted (l : list Z) (out : Z) (buf : list Z) : Prop :=
  out = Z.of_nat (length (window offset capacity l)) /\
  buf = window offset capacity l ++ drop (length (window offset capacity l)) buf0.

Lemma window_length l : (length (window offset capacity l) <= Z.to_nat capacity)%nat.
Proof. unfold window. rewrite length_take. lia. Qed.

Lemma window_full l rest :
  capacity <= Z.of_nat (length (window offset capacity l)) ->
  window offset capacity (l ++ rest) = window offset capacity l.
Proof.
  unfold window. rewrite length_take, length_drop. intros H.
  destruct (decide (Z.to_nat capacity = 0%nat)) as [->|Hc]; [by rewrite !take_0|].
  rewrite drop_app_le by lia. apply take_app_le. rewrite length_drop. lia.
Qed.

Lemma emit_byte_step l out buf c :
  emitted l out buf ->
  match vfs_list_emit_byte offset capacity (Z.of_nat (length l)) out buf c with
  | Some (position, out', buf') => position = Z.of_nat (length (l ++ [c])) /\ emitted (l ++ [c]) out' buf'
  | None => forall rest, window offset capacity (l ++ rest) = window offset capacity l
  end.
Proof.
  intros [Ho Hb]. unfold vfs_list_emit_byte.
  destruct (Z.geb_spec (Z.of_nat (length l)) offset) as [Hge|Hlt].
  - destruct (Z.geb_spec out capacity) as [Hfull|Hroom].
    + intros rest. apply window_full. lia.
    + rewrite length_app. simpl. split; [lia|].
      assert (Hw : window offset capacity (l ++ [c]) = window offset capacity l ++ [c]).
      { revert Hroom. rewrite Ho. unfold window. rewrite length_take, length_drop. intros Hroom.
        rewrite drop_app_le by lia. rewrite !take_ge; rewrite ?length_app, ?length_drop; simpl; [done|lia|lia]. }
      unfold emitted. rewrite Hw, !length_app. simpl. split; [lia|].
      rewrite Hb, Ho. unfold put. rewrite Nat2Z.id. rewrite insert_app_r_alt by lia. rewrite Nat.sub_diag.
      assert (Hl : (length (window offset capacity l) < length buf0)%nat) by lia.
      rewrite <- app_assoc. f_equal.
      destruct (drop (length (window offset capacity l)) buf0) as [|x r] eqn:Ed.
      { apply (f_equal length) in Ed. rewrite length_drop in Ed. simpl in Ed. lia. }
      simpl. f_equal. rewrite Nat.add_1_r. change r with (drop 1 (x :: r)). rewrite <- Ed, drop_drop. f_equal. lia.
  - rewrite length_app. simpl. split; [lia|].
    assert (Hw : forall l', (length l' <= Z.to_nat offset)%nat -> window offset capacity l' = []).
    { intros l' Hl'. unfold window. by rewrite drop_ge, take_nil by lia. }
    unfold emitted in *. rewrite Hw in Ho, Hb by lia. rewrite Hw by (rewrite length_app; simpl; lia). done.
Qed.

Lemma emit_line_spec line : forall l out buf,
  emitted l out buf ->
  let '(more, (position, out', buf')) :=
    emit_line offset capacity (Z.of_nat (length l)) out buf line in
  if more then position = Z.of_nat (length (l ++ line)) /\ emitted (l ++ line) out' buf'
  else forall rest, emitted (l ++ line ++ rest) out' buf'.
Proof.
  induction line as [|c line IH]; intros l out buf He; cbn [emit_line].
  - by rewrite app_nil_r.
  - pose proof (emit_byte_step l out buf c He) as Hs.
    destruct (vfs_list_emit_byte _ _ _ _ _ _) as [[[position out'] buf']|].
    + destruct Hs as [-> He']. specialize (IH (l ++ [c]) out' buf' He').
      destruct (emit_line _ _ _ _ _ _) as [more [[p o] b]].
      rewrite <- (app_assoc l [c] line) in IH. destruct more; [done|].
      intros rest. specialize (IH rest). by rewrite <- app_assoc in IH.
    + intros rest. unfold emitted. by rewrite Hs.
Qed.

Lemma emit_nodes_spec nodes : forall l out buf,
  emitted l out buf ->
  let '(out', buf') := emit_nodes offset capacity (Z.of_nat (length l)) out buf nodes in
  emitted (l ++ listing nodes) out' buf'.
Proof.
  induction nodes as [|n nodes IH]; intros l out buf He; cbn [emit_nodes].
  - unfold listing. simpl. by rewrite app_nil_r.
  - unfold listing. cbn [fmap list_fmap concat]. destruct (n_path n) as [p|].
    + pose proof (emit_line_spec (str_cut p ++ [NEWLINE]) l out buf He) as Hl.
      destruct (emit_line _ _ _ _ _ _) as [more [[position out'] buf']]. destruct more.
      * destruct Hl as [-> He']. specialize (IH _ _ _ He').
        destruct (emit_nodes _ _ _ _ _ _) as [o b]. by rewrite <- app_assoc in IH.
      * apply Hl.
    + by apply IH.
Qed.
End Listing.

(** ** Choosing a mount *)

Definition below (mount path : list Z) : Prop :=
  exists rest, rest <> [] /\ str_cut path = mount_base (str_cut mount) ++ rest.

Record mounts_wf (s : vfs) : Prop := {
  mw_length : length (g_mounts s) = 4%nat;
  mw_buffers : forall i, length (m_path (mount_at s i)) = 64%nat;
  mw_canonical : forall i, m_used (mount_at s i) = true ->
    name_of (Some (m_path (mount_at s i))) = Some (str_cut (m_path (mount_at s i)));
  mw_distinct : forall i j, 0 <= i -> 0 <= j -> m_used (mount_at s i) = true -> m_used (mount_at s j) = true ->
    str_cut (m_path (mount_at s i)) = str_cut (m_path (mount_at s j)) -> i = j }.

Lemma normal_head nm r : normal_form nm = Some r -> nm !! 0%nat = Some SLASH.
Proof.
  unfold normal_form. destruct nm as [|c nm]; [done|]. destruct (Z.eqb_spec c SLASH) as [->|]; done.
Qed.

Lemma mount_test s i path :
  mounts_wf s ->
  negb (m_used (mount_at s i)) ||
    negb (vfs_path_is_mount_child (Some path) (Some (m_path (mount_at s i)))) = false <->
  m_used (mount_at s i) = true /\ below (m_path (mount_at s i)) path.
Proof.
  intros Hwf. rewrite orb_false_iff, !negb_false_iff. split; intros [Hu Hc]; (split; [done|]);
    pose proof (normal_head _ _ (mw_canonical s Hwf i Hu)) as Hh; by apply mount_child_spec.
Qed.

Definition mount_length (s : vfs) (i : Z) : nat := length (str_cut (m_path (mount_at s i))).

Lemma find_mount_for_path_spec s path :
  mounts_wf s ->
  match vfs_find_mount_for_path s path with
  | Some i => 0 <= i < 4 /\ m_used (mount_at s i) = true /\ below (m_path (mount_at s i)) path /\
      forall j, 0 <= j < 4 -> m_used (mount_at s j) = true -> below (m_path (mount_at s j)) path ->
        (mount_length s j <= mount_length s i)%nat
  | None => forall j, 0 <= j < 4 -> m_used (mount_at s j) = true -> ~ below (m_path (mount_at s j)) path
  end.
Proof.
  intros Hwf. unfold vfs_find_mount_for_path.
  set (f := fun (i : Z) '(best, best_length) => _).
  assert (Hinv : let '(best, len) := for_range 0 VFS_MAX_MOUNTS f (None, 0) in
    match best with
    | Some i => 0 <= i < 4 /\ m_used (mount_at s i) = true /\ below (m_path (mount_at s i)) path /\
        len = Z.of_nat (mount_length s i) /\
        forall j, 0 <= j < VFS_MAX_MOUNTS -> m_used (mount_at s j) = true ->
          below (m_path (mount_at s j)) path -> (mount_length s j <= mount_length s i)%nat
    | None => forall j, 0 <= j < VFS_MAX_MOUNTS -> m_used (mount_at s j) = true -> ~ below (m_path (mount_at s j)) path
    end).
  { apply (for_range_ind (fun k '(best, len) => match best with
      | Some i => 0 <= i < 4 /\ m_used (mount_at s i) = true /\ below (m_path (mount_at s i)) path /\
          len = Z.of_nat (mount_length s i) /\
          forall j, 0 <= j < k -> m_used (mount_at s j) = true ->
            below (m_path (mount_at s j)) path -> (mount_length s j <= mount_length s i)%nat
      | None => forall j, 0 <= j < k -> m_used (mount_at s j) = true -> ~ below (m_path (mount_at s j)) path
      end)); [done|intros; lia|].
    intros k [best len] Hk Hi. unfold VFS_MAX_MOUNTS in Hk. unfold f.
    destruct (negb (m_used (mount_at s k)) || _) eqn:Et.
    - assert (Hno : ~ (m_used (mount_at s k) = true /\ below (m_path (mount_at s k)) path)).
      { intros Hy. apply mount_test in Hy; [|done]. congruence. }
      destruct best as [i|].
      + destruct Hi as (? & ? & ? & ? & Hm). split_and!; auto; try lia. intros j Hj Hu Hb.
        destruct (decide (j = k)) as [->|]; [tauto|]. apply Hm; auto; lia.
      + intros j Hj Hu Hb. destruct (decide (j = k)) as [->|]; [tauto|]. eapply (Hi j); auto; lia.
    - apply mount_test in Et as [Hu Hb]; [|done]. unfold vfs_path_length. fold (mount_length s k).
      destruct best as [i|]; simpl.
      + destruct Hi as (? & ? & ? & Hl & Hm). destruct (Z.gtb_spec (Z.of_nat (mount_length s k)) len).
        * split_and!; auto; try lia. intros j Hj Huj Hbj.
          destruct (decide (j = k)) as [->|]; [lia|]. etransitivity; [apply Hm; auto; lia|lia].
        * split_and!; auto; try lia. intros j Hj Huj Hbj.
          destruct (decide (j = k)) as [->|]; [lia|]. apply Hm; auto; lia.
      + split_and!; auto; try lia. intros j Hj Huj Hbj.
        destruct (decide (j = k)) as [->|]; [lia|]. exfalso. eapply (Hi j); auto; lia. }
  destruct (for_range 0 VFS_MAX_MOUNTS f (None, 0)) as [best len]. cbn [fst].
  unfold VFS_MAX_MOUNTS in Hinv. destruct best; [|done]. destruct Hinv as (? & ? & ? & _ & ?). done.
Qed.

Lemma mount_at_insert s i m j :
  length (g_mounts s) = 4%nat -> 0 <= i < 4 -> 0 <= j ->
  mount_at (set_mounts s (<[Z.to_nat i := m]> (g_mounts s))) j = if j =? i then m else mount_at s j.
Proof.
  intros Hl Hi Hj. unfold mount_at. simpl. destruct (Z.eqb_spec j i) as [->|].
  - by rewrite list_lookup_insert_eq by lia.
  - by rewrite list_lookup_insert_ne by lia.
Qed.

Lemma mount_at_neg s j : j < 0 -> mount_at s j = mount_at s 0.
Proof. intros Hj. unfold mount_at. by replace (Z.to_nat j) with (Z.to_nat 0) by lia. Qed.

Lemma find_mount_exact_None s c :
  vfs_find_mount_exact s c = None ->
  forall j, 0 <= j < 4 -> m_used (mount_at s j) = true -> str_cut (m_path (mount_at s j)) <> str_cut c.
Proof.
  intros E j Hj Hu Hc. pose proof (find_range_None _ _ _ E j ltac:(unfold VFS_MAX_MOUNTS; lia)) as Ht.
  cbv beta in Ht. rewrite Hu, kstreq_spec, bool_decide_true in Ht by done. done.
Qed.

Lemma mount_at_out s j : length (g_mounts s) = 4%nat -> 4 <= j -> m_used (mount_at s j) = false.
Proof. intros Hl Hj. unfold mount_at. by rewrite lookup_ge_None_2 by lia. Qed.

(** A successful vfs_mount adds exactly one mount, under its canonical name. *)
Lemma vfs_mount_spec s path ops context :
  mounts_wf s ->
  let '(status, s') := vfs_mount s path ops context in
  mounts_wf s' /\
  ((status = -1 /\ s' = s) \/
   (status = 0 /\ exists i c, 0 <= i < 4 /\ name_of path = Some (str_cut c) /\
      m_used (mount_at s i) = false /\ mount_at s' i = Mount c ops context true /\
      forall j, 0 <= j -> j <> i -> mount_at s' j = mount_at s j)).
Proof.
  intros Hwf. unfold vfs_mount. destruct (canonicalize path) as [c0|] eqn:Ec; [|by auto].
  apply canonicalize_Some in Ec as [Hl0 Hnm].
  destruct (ops_all_null ops || _) eqn:Eo; [by auto|].
  apply orb_false_iff in Eo as [_ Eo]. apply bool_decide_eq_false, eq_None_not_Some in Eo.
  destruct (find_range 0 VFS_MAX_MOUNTS _) as [i|] eqn:Ei; [|by auto].
  apply find_range_Some in Ei as (Hi & Hu & _). unfold VFS_MAX_MOUNTS in Hi.
  apply negb_true_iff in Hu.
  pose proof (name_of_canonical path _ Hnm c0 eq_refl) as Hnm0.
  pose proof (copy_path_spec (m_path (mount_at s i)) (Some c0) (mw_buffers s Hwf i)) as Hc.
  rewrite Hnm0 in Hc. destruct Hc as (c & -> & Hcl & Hcc). cbn [Z.eqb negb].
  set (s' := set_mounts s _).
  assert (Hat : forall j, 0 <= j -> mount_at s' j = if j =? i then Mount c ops context true else mount_at s j).
  { intros j Hj. apply mount_at_insert; [apply Hwf|done|done]. }
  assert (Hpos : forall j, exists k, 0 <= k /\ mount_at s' j = mount_at s' k).
  { intros j. destruct (Z_lt_le_dec j 0); [exists 0|by exists j]. split; [done|]. by apply mount_at_neg. }
  assert (Hne : forall j, 0 <= j -> m_used (mount_at s j) = true -> str_cut (m_path (mount_at s j)) <> str_cut c).
  { intros j Hj Huj. rewrite Hcc. destruct (Z_lt_le_dec j 4); [by apply (find_mount_exact_None s c0)|].
    by rewrite mount_at_out in Huj by (apply Hwf || done). }
  split.
  - split.
    + simpl. rewrite length_insert. apply Hwf.
    + intros j. destruct (Hpos j) as (k & Hk & ->). rewrite Hat by done. destruct (k =? i); [done|apply Hwf].
    + intros j. destruct (Hpos j) as (k & Hk & ->). rewrite Hat by done.
      destruct (k =? i); [|apply Hwf]. intros _. simpl m_path.
      rewrite (name_of_canonical path _ Hnm c Hcc). by rewrite Hcc.
    + intros j k Hj Hk. rewrite !Hat by done.
      destruct (Z.eqb_spec j i) as [->|], (Z.eqb_spec k i) as [->|]; simpl; auto.
      * intros _ Huk Heq. by destruct (Hne k Hk Huk).
      * intros Huj _ Heq. by destruct (Hne j Hj Huj).
      * by apply (mw_distinct s Hwf).
  - right. split; [done|]. exists i, c. rewrite Hcc. split_and!; auto; try lia.
    + rewrite Hat, Z.eqb_refl by lia. done.
    + intros j Hj Hji. rewrite Hat by done. by rewrite (proj2 (Z.eqb_neq j i)).
Qed.

(** * The properties *)

(** The state after vfs_reset, for any table contents of the right size. *)
Definition vfs_empty : vfs :=
  Vfs (replicate 24 null_node) (replicate 24 (replicate 64 0)) 0 (replicate 4 vfs_clear_mount)
    (replicate 128 vfs_clear_open_file).

Lemma vfs_empty_names : names_wf vfs_empty.
Proof.
  assert (H : forall i, node_name vfs_empty i = None).
  { intros i. unfold node_name, node_at, vfs_empty. cbn [g_vfs_nodes].
    destruct (replicate 24 null_node !! Z.to_nat i) as [n|] eqn:E; [|done].
    apply lookup_replicate in E as [-> _]. done. }
  split; try done; try (intros; rewrite H in *; done).
  by apply Forall_replicate.
Qed.

Lemma vfs_empty_mounts : mounts_wf vfs_empty.
Proof.
  assert (H : forall i, mount_at vfs_empty i = vfs_clear_mount).
  { intros i. unfold mount_at, vfs_empty. cbn [g_mounts].
    destruct (replicate 4 vfs_clear_mount !! Z.to_nat i) as [n|] eqn:E; [|done].
    by apply lookup_replicate in E as [-> _]. }
  split; try done; intros; rewrite H in *; done.
Qed.

(** Registering static nodes is all or nothing.  vfs_mount_static succeeds
    exactly when there is at least one node, they fit the free slots, every
    path resolves, every node has a callback, and the canonical names are new
    and pairwise different.  Then each node is found under its path with the
    given size, callbacks and context, the nodes already there keep their
    slots and contents, no other name appears and mounts and handles are
    untouched; otherwise nothing changes at all. *)
Theorem mount_static_atomic (s : vfs) (nodes : list vfs_node) (Hwf : names_wf s) :
  let '(status, s') := vfs_mount_static s nodes in
  names_wf s' /\
  (status = 0 <-> nodes <> [] /\ Z.of_nat (length nodes) <= vfs_free_node_count s /\
     exists nms, mountable s nodes [] nms) /\
  (status <> 0 -> status = -1 /\ s' = s) /\
  (status = 0 ->
     (forall nd, nd ∈ nodes -> exists i, vfs_find s' (n_path nd) = Some i /\ payload (node_at s' i) = payload nd) /\
     (forall p i, vfs_find s p = Some i -> vfs_find s' p = Some i /\ node_at s' i = node_at s i) /\
     (forall p i, vfs_find s' p = Some i ->
        vfs_find s p = Some i \/ exists nd, nd ∈ nodes /\ name_of p = name_of (n_path nd)) /\
     g_mounts s' = g_mounts s /\ g_open_files s' = g_open_files s).
Proof.
  destruct (mount_static_cases s nodes Hwf) as [[-> Hno]|(s' & nms & -> & Hne & Hle & Hm & Hwf' & Hin)].
  - split; [done|]. split; [split; [done|tauto]|]. split; [done|done].
  - pose proof Hm as (Hn & _). split; [done|]. split; [split; [eauto|done]|]. split; [done|]. intros _.
    split_and!.
    + intros nd [k Hk]%list_elem_of_lookup. destruct (Forall2_lookup_l _ _ _ _ _ Hn Hk) as (nm & Hk2 & Hnm).
      destruct (in_found _ _ _ _ Hin k nd nm Hk Hk2) as (i & Hi & Hname & Hp).
      exists i. split; [|done]. apply vfs_find_spec; [done|]. split; [lia|]. eauto.
    + intros p i Hf. apply vfs_find_spec in Hf as (Hi & nm & Hp & Hname); [|done].
      pose proof (in_kept _ _ _ _ Hin i nm Hi Hname) as Hk. split; [|done].
      apply vfs_find_spec; [done|]. split; [done|]. exists nm. split; [done|]. unfold node_name. by rewrite Hk.
    + intros p i Hf. apply vfs_find_spec in Hf as (Hi & nm & Hp & Hname); [|done].
      apply (in_only _ _ _ _ Hin) in Hname as [Hname|Hname]; [|right|done].
      * left. apply vfs_find_spec; eauto.
      * apply list_elem_of_lookup in Hname as [k Hk].
        destruct (Forall2_lookup_r _ _ _ _ _ Hn Hk) as (nd & Hk2 & Hnm).
        exists nd. split; [by eapply list_elem_of_lookup_2|]. by rewrite Hp, Hnm.
    + apply Hin.
    + apply Hin.
Qed.

(** "/tmp//a" and "/b" on the empty table. *)
Definition two_nodes : list vfs_node :=
  [Node (Some [47;116;109;112;47;47;97]) 5 1 2 3 4; Node (Some [47;98]) 6 1 0 0 7].

Lemma mount_static_atomic_witness :
  fst (vfs_mount_static vfs_empty two_nodes) = 0 /\
  names_wf (snd (vfs_mount_static vfs_empty two_nodes)) /\
  (exists i, vfs_find (snd (vfs_mount_static vfs_empty two_nodes)) (Some [47;98]) = Some i /\
     payload (node_at (snd (vfs_mount_static vfs_empty two_nodes)) i) = (6, 1, 0, 0, 7)).
Proof.
  assert (E : fst (vfs_mount_static vfs_empty two_nodes) = 0) by (vm_compute; reflexivity).
  pose proof (mount_static_atomic vfs_empty two_nodes vfs_empty_names) as H.
  rewrite (pair_of_fst _ _ E) in H. destruct H as (Hwf & _ & _ & H). specialize (H eq_refl).
  destruct H as (H & _). split; [done|]. split; [done|]. apply (H (Node (Some [47;98]) 6 1 0 0 7)).
  right. left.
Defined.

(** Unmounting invalidates: when vfs_unmount_static succeeds, the name
    resolves no more, no open handle refers to the freed slot, and every other
    name and every handle on another node is as before; when it fails (the
    path resolves to nothing) nothing changes. *)
Theorem unmount_static_invalidates (s : vfs) (path : option (list Z)) (Hwf : names_wf s) :
  let '(status, s') := vfs_unmount_static s path in
  match vfs_find s path with
  | None => status = -1 /\ s' = s
  | Some i => status = 0 /\ vfs_find s' path = None /\
      (forall f, f ∈ g_open_files s' -> f_used f = true -> f_node f <> Some (Z.to_nat i)) /\
      (forall q, name_of q <> name_of path -> vfs_find s' q = vfs_find s q) /\
      (forall j, 0 <= j -> j <> i -> node_at s' j = node_at s j) /\
      (forall k f, g_open_files s !! k = Some f -> f_node f <> Some (Z.to_nat i) ->
         g_open_files s' !! k = Some f)
  end.
Proof.
  pose proof (unmount_static_spec s path Hwf) as Hs.
  pose proof (unmount_static_names s path) as Hn. pose proof (unmount_static_wf s path Hwf) as Hwf'.
  destruct (vfs_find s path) as [i|] eqn:Ef; [|by rewrite Hs].
  destruct Hs as [E Hi]. rewrite E in *. cbn [snd] in *. set (s' := vfs_clear_node _ i) in *.
  assert (Hfiles : g_open_files s' = clear_files_where
    (fun f => f_used f && bool_decide (f_node f = Some (Z.to_nat i))) (g_open_files s)).
  { unfold s', vfs_clear_node. by destruct (i >=? VFS_MAX_NODES). }
  pose proof Ef as (Hi0 & nm & Hnm & Hname)%vfs_find_spec; [|done].
  split; [done|]. split_and!.
  - destruct (vfs_find s' path) as [j|] eqn:E2; [|done].
    apply vfs_find_spec in E2 as (Hj & nm' & Hnm' & E2); [|done]. rewrite Hn in E2 by done.
    case_bool_decide as Hij; [done|]. exfalso. apply Hij. f_equal. simplify_eq.
    by eapply (nw_distinct s Hwf).
  - intros f Hf Hu Hc. rewrite Hfiles in Hf. apply list_elem_of_fmap in Hf as (g & -> & Hg).
    destruct (f_used g && _) eqn:Eg; [done|]. rewrite Hu, Hc, bool_decide_true in Eg by done. done.
  - intros q Hq. apply option_eq. intros j. rewrite !vfs_find_spec by done.
    split; intros (Hj & nm' & Hnm' & E2); (split; [done|]); exists nm'; (split; [done|]);
      rewrite Hn in * by done; case_bool_decide; simplify_eq; try done.
    exfalso. apply Hq. congruence.
  - intros j Hj Hne. unfold s', vfs_clear_node, VFS_MAX_NODES. destruct (Z.geb_spec i 24); [lia|].
    rewrite node_at_insert by (simpl; rewrite ?(nw_nodes s Hwf); lia).
    rewrite (proj2 (Z.eqb_neq j i)) by done. done.
  - intros k f Hk Hne. rewrite Hfiles. unfold clear_files_where. rewrite list_lookup_fmap, Hk. simpl.
    rewrite (bool_decide_false (f_node f = _)) by done. by rewrite andb_false_r.
Qed.

Lemma unmount_static_invalidates_witness :
  vfs_find (snd (vfs_mount_static vfs_empty two_nodes)) (Some [47;98]) = Some 1 /\
  vfs_find (snd (vfs_unmount_static (snd (vfs_mount_static vfs_empty two_nodes)) (Some [47;98]))) (Some [47;98]) = None.
Proof.
  assert (Hwf : names_wf (snd (vfs_mount_static vfs_empty two_nodes))).
  { destruct (mount_static_cases vfs_empty two_nodes vfs_empty_names) as [[-> _]|(s' & nms & -> & _ & _ & _ & ? & _)];
      [apply vfs_empty_names|done]. }
  assert (E : vfs_find (snd (vfs_mount_static vfs_empty two_nodes)) (Some [47;98]) = Some 1) by (vm_compute; reflexivity).
  split; [done|].
  pose proof (unmount_static_invalidates _ (Some [47;98]) Hwf) as H. rewrite E in H.
  destruct (vfs_unmount_static (snd (vfs_mount_static vfs_empty two_nodes)) (Some [47;98])) as [st s'].
  by destruct H as (_ & ? & _).
Defined.

(** A path below several mount points is served by the innermost one: the
    mount vfs_find_mount_for_path picks contains the path, and no used mount
    that contains the path has a longer name; it picks none only when no mount
    contains the path. *)
Theorem mount_longest_prefix (s : vfs) (path : list Z) (Hwf : mounts_wf s) :
  match vfs_find_mount_for_path s path with
  | Some i => 0 <= i < 4 /\ m_used (mount_at s i) = true /\ below (m_path (mount_at s i)) path /\
      forall j, 0 <= j < 4 -> m_used (mount_at s j) = true -> below (m_path (mount_at s j)) path ->
        (mount_length s j <= mount_length s i)%nat
  | None => forall j, 0 <= j < 4 -> m_used (mount_at s j) = true -> ~ below (m_path (mount_at s j)) path
  end.
Proof. by apply find_mount_for_path_spec. Qed.

(** "/" and "/fat" mounted; "/fat/x" goes to the second. *)
Definition two_mounts : vfs :=
  snd (vfs_mount (snd (vfs_mount vfs_empty (Some [47]) (MountOps 1 0 0 0 0 0 0 0 0 0) 5))
    (Some [47;102;97;116]) (MountOps 2 0 0 0 0 0 0 0 0 0) 6).

Lemma two_mounts_wf : mounts_wf two_mounts.
Proof.
  unfold two_mounts.
  pose proof (vfs_mount_spec vfs_empty (Some [47]) (MountOps 1 0 0 0 0 0 0 0 0 0) 5 vfs_empty_mounts) as H1.
  destruct (vfs_mount vfs_empty _ _ _) as [st1 s1]. destruct H1 as [H1 _]. cbn [snd].
  pose proof (vfs_mount_spec s1 (Some [47;102;97;116]) (MountOps 2 0 0 0 0 0 0 0 0 0) 6 H1) as H2.
  destruct (vfs_mount s1 _ _ _) as [st2 s2]. by destruct H2 as [H2 _].
Qed.

Lemma mount_longest_prefix_witness :
  vfs_find_mount_for_path two_mounts [47;102;97;116;47;120] = Some 1 /\
  below (m_path (mount_at two_mounts 1)) [47;102;97;116;47;120].
Proof.
  assert (E : vfs_find_mount_for_path two_mounts [47;102;97;116;47;120] = Some 1) by (vm_compute; reflexivity).
  pose proof (mount_longest_prefix two_mounts [47;102;97;116;47;120] two_mounts_wf) as H.
  rewrite E in H. destruct H as (_ & _ & H & _). done.
Defined.

(** ** Listing through vfs_list_at *)

Lemma listing_tail s :
  names_wf s -> listing (take (Z.to_nat (g_vfs_node_count s)) (g_vfs_nodes s)) = listing (g_vfs_nodes s).
Proof.
  intros Hwf. set (k := Z.to_nat (g_vfs_node_count s)).
  rewrite <- (take_drop k (g_vfs_nodes s)) at 2. unfold listing.
  rewrite fmap_app, concat_app.
  assert (Hnil : concat ((fun n => match n_path n with Some p => str_cut p ++ [NEWLINE] | None => [] end) <$>
    drop k (g_vfs_nodes s)) = []); [|by rewrite Hnil, app_nil_r].
  apply concat_nil_Forall, Forall_fmap, Forall_forall. intros n [j Hj]%list_elem_of_lookup.
  rewrite lookup_drop in Hj. pose proof (nw_tail s Hwf (Z.of_nat (k + j))) as Ht.
  unfold node_name, node_at in Ht. rewrite Nat2Z.id, Hj in Ht. simpl in *.
  pose proof (nw_count s Hwf). destruct (n_path n); [|done].
  specialize (Ht ltac:(unfold k; lia)). done.
Qed.

Lemma not_below_root m c : str_cut c = [SLASH] -> ~ below m c.
Proof.
  intros Hc (rest & Hr & E). rewrite Hc in E. apply (f_equal length) in E. rewrite length_app in E.
  assert (1 <= length (mount_base (str_cut m)))%nat.
  { unfold mount_base. case_bool_decide; simpl; [lia|]. rewrite length_app. simpl. lia. }
  destruct rest; [done|]. simpl in E. lia.
Qed.

(** The root directory listing is consistent at every offset: unless a
    mount took over "/", vfs_list_at on any spelling of "/" returns exactly the
    bytes [offset, offset + capacity) of the listing that has one line per
    registered node, reports how many there are, and leaves the rest of the
    caller's buffer alone; so chunked reads reassemble the listing. *)
Theorem root_listing_window {W : Type} {B : Backend W} (s : vfs) (path : option (list Z))
    (offset capacity : Z) (buf : list Z) (w : W)
    (Hnames : names_wf s) (Hmounts : mounts_wf s) (Hroot : name_of path = Some [SLASH])
    (Hfree : forall i, 0 <= i < 4 -> m_used (mount_at s i) = true -> str_cut (m_path (mount_at s i)) <> [SLASH])
    (Hoff : 0 <= offset) (Hcap : 0 <= capacity <= Z.of_nat (length buf)) :
  let win := window offset capacity (listing (g_vfs_nodes s)) in
  vfs_list_at s path offset (Some buf) capacity w =
    (0, Z.of_nat (length win), Some (win ++ drop (length win) buf), w).
Proof.
  unfold vfs_list_at. pose proof (canonicalize_spec path) as Hc. rewrite Hroot in Hc.
  destruct Hc as (c & -> & Hl & Hc).
  assert (Hex : vfs_find_mount_exact s c = None).
  { destruct (vfs_find_mount_exact s c) as [i|] eqn:E; [|done]. exfalso.
    apply find_range_Some in E as (Hi & Ht & _). unfold VFS_MAX_MOUNTS in Hi.
    rewrite kstreq_spec, Hc in Ht. apply andb_true_iff in Ht as [Hu Ht]. apply bool_decide_eq_true in Ht.
    by apply (Hfree i). }
  assert (Hin : vfs_find_mount_for_path s c = None).
  { pose proof (find_mount_for_path_spec s c Hmounts) as Hs.
    destruct (vfs_find_mount_for_path s c) as [i|]; [|done]. exfalso.
    destruct Hs as (_ & _ & Hb & _). by eapply not_below_root. }
  rewrite Hex, Hin. cbn zeta. rewrite (bool_decide_false (is_Some None)) by (by intros []).
  rewrite (bool_decide_true (@None Z = None)) by done.
  rewrite (bool_decide_false (is_Some None)) by (by intros []). cbn [andb].
  rewrite kstreq_spec, bool_decide_true by (by rewrite Hc). cbn [negb].
  pose proof (emit_nodes_spec offset capacity buf Hcap
    (take (Z.to_nat (g_vfs_node_count s)) (g_vfs_nodes s)) [] 0 buf) as He.
  simpl length in He. rewrite listing_tail in He by done.
  change (Z.of_nat 0) with 0 in He.
  destruct (emit_nodes _ _ _ _ _ _) as [out b]. destruct He as [-> ->]; [|done].
  split; unfold window; by rewrite drop_nil, take_nil.
Qed.

(** A world whose only files are read-only texts, for concrete instances. *)
#[export] Instance text_backend : Backend (list Z) := {|
  call_read _ _ offset buffer capacity w :=
    let n := Z.min capacity (Z.of_nat (length w) - offset) in (0, n, copy_bytes buffer 0 w offset n, w);
  call_write _ _ _ _ _ w := (-1, 0, w);
  call_stat _ _ _ w := (0, Z.of_nat (length w), w);
  call_list _ _ _ buffer _ w := (-1, 0, buffer, w);
  call_open _ _ _ _ sw := (-1, sw);
  call_read_path _ _ _ _ buffer _ w := (-1, 0, buffer, w);
  call_stat_path _ _ _ size w := (-1, size, w);
  call_list_path _ _ _ _ buffer _ w := (-1, 0, buffer, w);
  call_metadata_path _ _ _ md w := (-1, md, w);
  call_readdir_path _ _ _ _ entries _ w := (-1, 0, entries, w);
  call_fsinfo _ _ _ info w := (-1, info, w);
  call_unlink _ _ _ w := (-1, w);
  call_rename _ _ _ _ w := (-1, w) |}.

Lemma root_listing_window_witness :
  vfs_list_at (snd (vfs_mount_static vfs_empty two_nodes)) (Some [47]) 7 (Some [9;9;9;9]) 3 [1;2] =
    (0, 3, Some [47;98;10;9], [1;2]).
Proof.
  set (s := snd (vfs_mount_static vfs_empty two_nodes)).
  assert (Hs : names_wf s /\ mounts_wf s).
  { unfold s. destruct (mount_static_cases vfs_empty two_nodes vfs_empty_names)
      as [[-> _]|(s' & nms & -> & _ & _ & _ & ? & Hin)]; [split; [apply vfs_empty_names|apply vfs_empty_mounts]|].
    split; [done|]. pose proof vfs_empty_mounts as []. pose proof (in_mounts _ _ _ _ Hin) as E.
    split; unfold mount_at in *; cbn [snd]; rewrite E; done. }
  destruct Hs as [H1 H2].
  assert (Hu : forall i, 0 <= i < 4 -> m_used (mount_at s i) = true -> str_cut (m_path (mount_at s i)) <> [SLASH]).
  { intros i Hi. assert (i = 0 \/ i = 1 \/ i = 2 \/ i = 3) as [->|[->|[->| ->]]] by lia; by vm_compute. }
  pose proof (root_listing_window s (Some [47]) 7 3 [9;9;9;9] [1;2] H1 H2 ltac:(vm_compute; reflexivity) Hu
    ltac:(lia) ltac:(simpl; lia)) as H.
  cbv zeta in H.
  assert (E : window 7 3 (listing (g_vfs_nodes s)) = [47;98;10]) by (vm_compute; reflexivity).
  rewrite E in H. exact H.
Defined.
