(* ===== verification/VfsHandles.v ===== *)
(** The descriptors of the VFS: the invariant of the handle pool, the
    per-process descriptor tables it implements, and the properties of the
    descriptor calls. *)

From S2P Require Import Prelude.
From S2P Require Import Bytes.
From S2P Require Import VfsPath.
From S2P Require Import ProcessRegions.
From S2P Require Import Process.
From S2P Require Import Vfs.
From S2P Require Import VfsNames.
Open Scope arm.

(** * The invariant *)

(** The node supports what the handle was opened for. *)
Definition mode_ok (flags : Z) (n : vfs_node) : Prop :=
  (flags = VFS_O_RDONLY \/ flags = VFS_O_WRONLY \/ flags = VFS_O_RDWR) /\
  (flags <> VFS_O_WRONLY -> n_read n <> 0) /\ (flags <> VFS_O_RDONLY -> n_write n <> 0).

Definition handle_ok (s : vfs) (f : vfs_open_file) : Prop :=
  exists i : nat, f_node f = Some i /\ (i < 24)%nat /\ live (node_at s (Z.of_nat i)) = true /\
    0 <= f_local_fd f < VFS_MAX_OPEN_FILES /\ mode_ok (f_flags f) (node_at s (Z.of_nat i)).

Record pool_wf (fs : list vfs_open_file) : Prop := {
  pw_length : length fs = 128%nat;
  pw_unique : forall k1 k2 f1 f2, fs !! k1 = Some f1 -> fs !! k2 = Some f2 ->
    f_used f1 = true -> f_used f2 = true ->
    f_owner_pid f1 = f_owner_pid f2 -> f_local_fd f1 = f_local_fd f2 -> k1 = k2 }.

Record vfs_inv (s : vfs) : Prop := {
  vi_names : names_wf s;
  vi_mounts : mounts_wf s;
  vi_pool : pool_wf (g_open_files s);
  vi_handles : forall k f, g_open_files s !! k = Some f -> f_used f = true -> handle_ok s f }.

(** * The descriptor table of each process *)

Definition of_owner (p fd : Z) (f : vfs_open_file) : bool :=
  f_used f && (f_owner_pid f =? p) && (f_local_fd f =? fd).

(** What descriptor [fd] of process [p] denotes: node, offset and mode. *)
Definition view (s : vfs) (p fd : Z) : option (option nat * Z * Z) :=
  match find_range 0 VFS_MAX_GLOBAL_OPEN_FILES (fun i => of_owner p fd (file_at s i)) with
  | Some i => Some (f_node (file_at s i), f_offset (file_at s i), f_flags (file_at s i))
  | None => None
  end.

Lemma of_owner_true p fd f :
  of_owner p fd f = true <-> f_used f = true /\ f_owner_pid f = p /\ f_local_fd f = fd.
Proof. unfold of_owner. rewrite !andb_true_iff, !Z.eqb_eq. tauto. Qed.

Lemma file_at_lookup s k f : g_open_files s !! k = Some f -> file_at s (Z.of_nat k) = f.
Proof. intros E. unfold file_at. by rewrite Nat2Z.id, E. Qed.

Lemma lookup_file_at s i :
  pool_wf (g_open_files s) -> 0 <= i < 128 -> g_open_files s !! Z.to_nat i = Some (file_at s i).
Proof.
  intros Hwf Hi. unfold file_at.
  destruct (lookup_lt_is_Some_2 (g_open_files s) (Z.to_nat i)) as [f ->]; [rewrite (pw_length _ Hwf); lia|done].
Qed.

Lemma view_Some s p fd v :
  pool_wf (g_open_files s) ->
  view s p fd = Some v <-> exists k f, g_open_files s !! k = Some f /\ of_owner p fd f = true /\
    v = (f_node f, f_offset f, f_flags f).
Proof.
  intros Hwf. unfold view. split.
  - destruct (find_range _ _ _) as [i|] eqn:E; [|done]. intros [= <-].
    apply find_range_Some in E as (Hi & Ht & _). unfold VFS_MAX_GLOBAL_OPEN_FILES, VFS_MAX_OPEN_FILES in Hi.
    exists (Z.to_nat i), (file_at s i). split; [apply lookup_file_at; [done|lia]|done].
  - intros (k & f & Hk & Ht & ->). pose proof (lookup_lt_Some _ _ _ Hk) as Hlt. rewrite (pw_length _ Hwf) in Hlt.
    destruct (find_range_is_Some 0 VFS_MAX_GLOBAL_OPEN_FILES (fun i => of_owner p fd (file_at s i)) (Z.of_nat k))
      as (i & E & _).
    { unfold VFS_MAX_GLOBAL_OPEN_FILES, VFS_MAX_OPEN_FILES. lia. }
    { cbv beta. by rewrite (file_at_lookup s k f Hk). }
    rewrite E. apply find_range_Some in E as (Hi & Ht2 & _).
    unfold VFS_MAX_GLOBAL_OPEN_FILES, VFS_MAX_OPEN_FILES in Hi.
    pose proof (lookup_file_at s i Hwf ltac:(lia)) as Hl.
    apply of_owner_true in Ht as (? & ? & ?), Ht2 as (? & ? & ?).
    assert (Hk2 : Z.to_nat i = k) by (eapply (pw_unique _ Hwf); [exact Hl|exact Hk|..]; congruence).
    subst k. rewrite Hk in Hl. congruence.
Qed.

Lemma view_None s p fd :
  pool_wf (g_open_files s) ->
  view s p fd = None <-> forall k f, g_open_files s !! k = Some f -> of_owner p fd f = false.
Proof.
  intros Hwf. rewrite eq_None_not_Some. split.
  - intros Hn k f Hk. apply not_true_is_false. intros Ht. apply Hn. eexists. apply view_Some; eauto.
  - intros Hall [v Hv]. apply view_Some in Hv as (k & f & Hk & Ht & _); [|done].
    by rewrite (Hall k f Hk) in Ht.
Qed.

Lemma view_files s s' p fd : g_open_files s = g_open_files s' -> view s p fd = view s' p fd.
Proof. intros E. unfold view, file_at. by rewrite E. Qed.

(** ** Clearing handles *)

Lemma clear_where_lookup test fs k f :
  clear_files_where test fs !! k = Some f -> f_used f = true -> fs !! k = Some f /\ test f = false.
Proof.
  unfold clear_files_where. rewrite list_lookup_fmap. intros (g & Hk & ->)%fmap_Some.
  destruct (test g) eqn:E; [done|]. done.
Qed.

Lemma clear_where_keep test fs k f :
  fs !! k = Some f -> test f = false -> clear_files_where test fs !! k = Some f.
Proof. intros Hk Ht. unfold clear_files_where. rewrite list_lookup_fmap, Hk. simpl. by rewrite Ht. Qed.

Lemma clear_where_wf test fs : pool_wf fs -> pool_wf (clear_files_where test fs).
Proof.
  intros Hwf. split.
  - unfold clear_files_where. rewrite length_fmap. apply Hwf.
  - intros k1 k2 f1 f2 H1 H2 U1 U2. apply clear_where_lookup in H1 as [H1 _], H2 as [H2 _]; [|done..].
    by eapply (pw_unique _ Hwf).
Qed.

Lemma clear_where_inv s test : vfs_inv s -> vfs_inv (set_files s (clear_files_where test (g_open_files s))).
Proof.
  intros Hi. split.
  - by apply names_wf_files, Hi.
  - destruct (vi_mounts s Hi). by split.
  - by apply clear_where_wf, Hi.
  - intros k f Hk Hu. apply clear_where_lookup in Hk as [Hk _]; [|done]. by apply (vi_handles s Hi k).
Qed.

(** The views after clearing, when the test only looks at the owner. *)
Lemma view_clear_owner s (dead : Z -> bool) p fd :
  pool_wf (g_open_files s) ->
  view (set_files s (clear_files_where (fun f => f_used f && dead (f_owner_pid f)) (g_open_files s))) p fd =
  if dead p then None else view s p fd.
Proof.
  intros Hwf. assert (Hwf' := clear_where_wf (fun f => f_used f && dead (f_owner_pid f)) _ Hwf).
  destruct (dead p) eqn:Ed.
  - apply view_None; [done|]. intros k f Hk. apply not_true_is_false. intros (Hu & Ho & _)%of_owner_true.
    apply clear_where_lookup in Hk as [_ Ht]; [|done]. by rewrite Hu, Ho, Ed in Ht.
  - apply option_eq. intros v. rewrite !view_Some by done. split.
    + intros (k & f & Hk & Ht & ->). exists k, f. apply clear_where_lookup in Hk as [Hk _]; [done|].
      by apply of_owner_true in Ht as [? _].
    + intros (k & f & Hk & Ht & ->). exists k, f. split; [|done]. apply clear_where_keep; [done|].
      apply of_owner_true in Ht as (_ & -> & _). by rewrite Ed, andb_false_r.
Qed.

(** ** Replacing one handle *)

Lemma pool_insert fs k f f' :
  pool_wf fs -> fs !! k = Some f -> f_used f = true ->
  (f_used f' = true -> f_owner_pid f' = f_owner_pid f /\ f_local_fd f' = f_local_fd f) ->
  pool_wf (<[k := f']> fs).
Proof.
  intros Hwf Hk Hu Hsame. pose proof (lookup_lt_Some _ _ _ Hk) as Hlt. split.
  - rewrite length_insert. apply Hwf.
  - assert (Hback : forall j g, <[k := f']> fs !! j = Some g -> f_used g = true ->
      exists g0, fs !! j = Some g0 /\ f_used g0 = true /\ f_owner_pid g0 = f_owner_pid g /\
        f_local_fd g0 = f_local_fd g).
    { intros j g Hj Hg. apply list_lookup_insert_Some in Hj as [(<- & <- & _)|(? & Hj)].
      - destruct (Hsame Hg) as [? ?]. exists f. done.
      - exists g. done. }
    intros k1 k2 f1 f2 H1 H2 U1 U2 Ho Hf.
    apply Hback in H1 as (g1 & ? & ? & ? & ?), H2 as (g2 & ? & ? & ? & ?); [|done..].
    eapply (pw_unique _ Hwf); eauto; congruence.
Qed.

Lemma view_insert s k f f' p fd :
  pool_wf (g_open_files s) -> g_open_files s !! k = Some f -> f_used f = true ->
  (f_used f' = true -> f_owner_pid f' = f_owner_pid f /\ f_local_fd f' = f_local_fd f) ->
  view (set_files s (<[k := f']> (g_open_files s))) p fd =
  if (p =? f_owner_pid f) && (fd =? f_local_fd f)
  then (if f_used f' then Some (f_node f', f_offset f', f_flags f') else None) else view s p fd.
Proof.
  intros Hwf Hk Hu Hsame. pose proof (lookup_lt_Some _ _ _ Hk) as Hlt.
  assert (Hwf' := pool_insert _ k f f' Hwf Hk Hu Hsame).
  destruct ((p =? f_owner_pid f) && (fd =? f_local_fd f)) eqn:Et.
  - b2p. destruct (f_used f') eqn:Hu'.
    + apply view_Some; [done|]. exists k, f'. simpl. rewrite list_lookup_insert_eq by done.
      split; [done|]. split; [|done]. destruct (Hsame eq_refl). apply of_owner_true. split_and!; congruence.
    + apply view_None; [done|]. intros j g Hj. apply not_true_is_false. intros (Hg & Ho & Hf)%of_owner_true.
      simpl in Hj. apply list_lookup_insert_Some in Hj as [(<- & <- & _)|(Hne & Hj)]; [congruence|].
      apply Hne. eapply (pw_unique _ Hwf); [exact Hk|exact Hj|..]; congruence.
  - assert (Hno : of_owner p fd f = false).
    { apply not_true_is_false. intros (_ & E1 & E2)%of_owner_true. by rewrite E1, E2, !Z.eqb_refl in Et. }
    assert (Hno' : of_owner p fd f' = false).
    { apply not_true_is_false. intros Ht. apply of_owner_true in Ht as (Hu' & Ho & Hf).
      destruct (Hsame Hu'). rewrite <- Ho, <- Hf in Et. apply andb_false_iff in Et as [?|?]; b2p; congruence. }
    apply option_eq. intros v. rewrite !view_Some by done.
    split; intros (j & g & Hj & Ht & ->); exists j, g; (split; [|done]).
    + simpl in Hj. apply list_lookup_insert_Some in Hj as [(<- & <- & _)|(? & Hj)]; [congruence|done].
    + simpl. destruct (decide (j = k)) as [->|]; [congruence|]. by rewrite list_lookup_insert_ne.
Qed.

(** Changing a handle's offset, or clearing it, keeps the invariant. *)
Lemma inv_insert s k f f' :
  vfs_inv s -> g_open_files s !! k = Some f -> f_used f = true ->
  (f_used f' = true -> f_owner_pid f' = f_owner_pid f /\ f_local_fd f' = f_local_fd f /\
     f_node f' = f_node f /\ f_flags f' = f_flags f) ->
  vfs_inv (set_files s (<[k := f']> (g_open_files s))).
Proof.
  intros Hi Hk Hu Hsame. split.
  - by apply names_wf_files, Hi.
  - destruct (vi_mounts s Hi). by split.
  - eapply pool_insert; [apply Hi|done|done|naive_solver].
  - intros j g Hj Hg. simpl in Hj. apply list_lookup_insert_Some in Hj as [(<- & <- & _)|(_ & Hj)];
      [|by apply (vi_handles s Hi j)].
    destruct (Hsame Hg) as (? & E1 & E2 & E3).
    destruct (vi_handles s Hi k f Hk Hu) as (i & ? & ? & ? & ? & ?). exists i. rewrite E1, E2, E3. done.
Qed.

(** ** Filling a free handle *)

Lemma insert_free s k f f' :
  vfs_inv s -> g_open_files s !! k = Some f -> f_used f = false -> f_used f' = true -> handle_ok s f' ->
  view s (f_owner_pid f') (f_local_fd f') = None ->
  let s' := set_files s (<[k := f']> (g_open_files s)) in
  vfs_inv s' /\
  forall p fd, view s' p fd = if (p =? f_owner_pid f') && (fd =? f_local_fd f')
    then Some (f_node f', f_offset f', f_flags f') else view s p fd.
Proof.
  intros Hi Hk Hu Hu' Hok Hfree s'. pose proof (lookup_lt_Some _ _ _ Hk) as Hlt.
  rewrite view_None in Hfree by apply Hi.
  assert (Hcase : forall j g, g_open_files s' !! j = Some g -> f_used g = true ->
    (j = k /\ g = f') \/ (j <> k /\ g_open_files s !! j = Some g)).
  { intros j g Hj Hg. simpl in Hj. apply list_lookup_insert_Some in Hj as [(<- & <- & _)|(? & Hj)]; auto. }
  assert (Hne : forall j g, g_open_files s !! j = Some g -> f_used g = true ->
    f_owner_pid g = f_owner_pid f' -> f_local_fd g = f_local_fd f' -> False).
  { intros j g Hj Hg Ho Hf. specialize (Hfree j g Hj).
    rewrite (proj2 (of_owner_true _ _ _)) in Hfree by done. done. }
  assert (Hpool : pool_wf (g_open_files s')).
  { split; [simpl; rewrite length_insert; apply Hi|].
    intros k1 k2 f1 f2 H1 H2 U1 U2 Ho Hf.
    destruct (Hcase k1 f1 H1 U1) as [[-> ->]|[N1 L1]], (Hcase k2 f2 H2 U2) as [[-> ->]|[N2 L2]]; auto.
    - exfalso. eapply (Hne k2 f2); eauto.
    - exfalso. eapply (Hne k1 f1); eauto.
    - eapply (pw_unique _ (vi_pool s Hi)); eauto. }
  split.
  - split; [by apply names_wf_files, Hi|destruct (vi_mounts s Hi); by split|done|].
    intros j g Hj Hg. destruct (Hcase j g Hj Hg) as [[-> ->]|[_ L]]; [done|].
    by apply (vi_handles s Hi j).
  - intros p fd. apply option_eq. intros v. rewrite view_Some by done.
    destruct ((p =? f_owner_pid f') && (fd =? f_local_fd f')) eqn:Et.
    + b2p. split.
      * intros (j & g & Hj & (Hg & Ho & Hf)%of_owner_true & ->).
        destruct (Hcase j g Hj Hg) as [[-> ->]|[_ L]]; [done|]. exfalso. eapply (Hne j g L Hg); congruence.
      * intros [= <-]. exists k, f'. split; [simpl; by rewrite list_lookup_insert_eq|].
        split; [by apply of_owner_true|done].
    + rewrite view_Some by apply Hi. split; intros (j & g & Hj & Ht & ->); exists j, g; (split; [|done]);
        apply of_owner_true in Ht as (Hg & Ho & Hf).
      * destruct (Hcase j g Hj Hg) as [[-> ->]|[_ L]]; [|done].
        rewrite Ho, Hf, !Z.eqb_refl in Et. done.
      * simpl. destruct (decide (j = k)) as [->|]; [congruence|]. by rewrite list_lookup_insert_ne.
Qed.

Lemma fd_in_use_spec s p fd : vfs_local_fd_in_use s p fd = bool_decide (is_Some (view s p fd)).
Proof.
  unfold vfs_local_fd_in_use, view. apply bool_decide_ext. unfold of_owner.
  destruct (find_range _ _ _); split; intros [? ?]; eauto; done.
Qed.

(** * Changes to the names keep the handles *)

Lemma inv_nodes s s' :
  vfs_inv s -> names_wf s' -> mounts_wf s' -> g_open_files s' = g_open_files s ->
  (forall i, 0 <= i -> live (node_at s i) = true -> node_at s' i = node_at s i) -> vfs_inv s'.
Proof.
  intros Hi Hn Hm Hf Hk. split; [done|done|rewrite Hf; apply Hi|].
  intros k f Hkf Hu. rewrite Hf in Hkf. destruct (vi_handles s Hi k f Hkf Hu) as (i & ? & ? & Hl & ? & ?).
  exists i. rewrite Hk by (done || lia). done.
Qed.

Lemma mount_static_inv s nodes : vfs_inv s -> vfs_inv (snd (vfs_mount_static s nodes)).
Proof.
  intros Hi. destruct (mount_static_cases s nodes (vi_names s Hi)) as [[-> _]|(s' & nms & -> & _ & _ & _ & Hwf & Hin)];
    [done|]. cbn [snd]. apply (inv_nodes s); auto.
  - pose proof (vi_mounts s Hi) as []. pose proof (in_mounts _ _ _ _ Hin) as E.
    split; unfold mount_at in *; rewrite E; done.
  - apply Hin.
  - intros i Hi0 Hl. apply live_name in Hl as [nm Hl]. by eapply (in_kept _ _ _ _ Hin).
Qed.

Lemma mount_inv s path ops context : vfs_inv s -> vfs_inv (snd (vfs_mount s path ops context)).
Proof.
  intros Hi. pose proof (vfs_mount_spec s path ops context (vi_mounts s Hi)) as Hs.
  assert (E : exists ms, snd (vfs_mount s path ops context) = set_mounts s ms).
  { unfold vfs_mount. destruct (canonicalize path); [|exists (g_mounts s); by destruct s].
    destruct (_ || _); [exists (g_mounts s); by destruct s|].
    destruct (find_range _ _ _); [|exists (g_mounts s); by destruct s].
    destruct (vfs_copy_path _ _) as [st d]. destruct (negb _); eauto. }
  destruct (vfs_mount s path ops context) as [st s']. destruct Hs as [Hm _]. cbn [snd] in *.
  destruct E as [ms ->]. apply (inv_nodes s); auto. by apply names_wf_mounts, Hi.
Qed.

Lemma unmount_inv s path : vfs_inv s -> vfs_inv (snd (vfs_unmount_static s path)).
Proof.
  intros Hi. pose proof (unmount_static_spec s path (vi_names s Hi)) as Hs.
  destruct (vfs_find s path) as [i|]; [|by rewrite Hs]. destruct Hs as [-> Hr]. cbn [snd].
  set (s1 := vfs_drop_open_files_for_node s (Z.to_nat i)).
  assert (Hi1 : vfs_inv s1) by (by apply clear_where_inv).
  assert (Hg : g_open_files (vfs_clear_node s1 i) = g_open_files s1).
  { unfold vfs_clear_node. by destruct (i >=? VFS_MAX_NODES). }
  split.
  - apply clear_node_wf; [apply Hi1|done].
  - pose proof (vi_mounts s1 Hi1) as [].
    assert (E : g_mounts (vfs_clear_node s1 i) = g_mounts s1) by (unfold vfs_clear_node; by destruct (i >=? VFS_MAX_NODES)).
    split; unfold mount_at in *; rewrite E; done.
  - rewrite Hg. apply Hi1.
  - intros k f Hk Hu. rewrite Hg in Hk. pose proof Hk as Hk0. apply clear_where_lookup in Hk0 as [_ Ht]; [|done].
    destruct (vi_handles s1 Hi1 k f Hk Hu) as (j & Hj & Hjl & ? & ? & ?). exists j.
    assert (Hji : Z.of_nat j <> i).
    { intros <-. rewrite Hu, Hj, Nat2Z.id, bool_decide_true in Ht by done. done. }
    assert (E : node_at (vfs_clear_node s1 i) (Z.of_nat j) = node_at s1 (Z.of_nat j)).
    { unfold vfs_clear_node. destruct (i >=? VFS_MAX_NODES); [done|].
      rewrite node_at_insert by (rewrite ?(nw_nodes s1 (vi_names s1 Hi1)); lia).
      by rewrite (proj2 (Z.eqb_neq _ _) Hji). }
    rewrite E. done.
Qed.

(** A backend whose open callbacks keep the tables of the VFS consistent. *)
Class BackendOk (W : Type) {B : Backend W} : Prop := {
  open_keeps_inv : forall fn ctx path flags s w,
    vfs_inv s -> vfs_inv (fst (snd (call_open fn ctx path flags (s, w)))) }.

(** * Descriptor calls *)

Section Calls.
Context {W : Type} {B : Backend W} {A PW : Type} (t : ptable A PW).
Implicit Types (s : vfs) (w : W).

Let alive := vfs_owner_is_alive t.
Let cur := vfs_current_owner_pid t.

(** Seen by the live processes, nothing changed. *)
Definition same_views s s' : Prop :=
  forall p fd, vfs_owner_is_alive t p = true -> view s' p fd = view s p fd.

(** Seen by the live processes, only one descriptor changed. *)
Definition updated_view s s' (p0 fd0 : Z) (v : option (option nat * Z * Z)) : Prop :=
  forall p fd, vfs_owner_is_alive t p = true ->
    view s' p fd = if (p =? p0) && (fd =? fd0) then v else view s p fd.

Lemma reap_inv s : vfs_inv s -> vfs_inv (vfs_reap_dead_owners t s).
Proof. apply clear_where_inv. Qed.

Lemma reap_view s p fd :
  pool_wf (g_open_files s) ->
  view (vfs_reap_dead_owners t s) p fd = if alive p then view s p fd else None.
Proof.
  intros Hwf. unfold vfs_reap_dead_owners. rewrite (view_clear_owner s (fun q => negb (alive q))) by done.
  by destruct (alive p).
Qed.

Lemma reap_same s : pool_wf (g_open_files s) -> same_views s (vfs_reap_dead_owners t s).
Proof. intros Hwf p fd Ha. rewrite reap_view by done. unfold alive. by rewrite Ha. Qed.

Lemma reap_lookup s k f :
  g_open_files (vfs_reap_dead_owners t s) !! k = Some f -> f_used f = true ->
  g_open_files s !! k = Some f /\ alive (f_owner_pid f) = true.
Proof.
  intros Hk Hu. simpl in Hk. apply clear_where_lookup in Hk as [Hk Ht]; [|done]. split; [done|].
  rewrite Hu in Ht. unfold alive. by destruct (vfs_owner_is_alive t (f_owner_pid f)).
Qed.

(** Either the descriptor of the current process, or nothing. *)
Lemma fd_at_spec s fd :
  vfs_inv s ->
  match vfs_fd_at t s fd with
  | (Some i, s') => s' = vfs_reap_dead_owners t s /\ alive cur = true /\
      g_open_files s' !! Z.to_nat i = Some (file_at s' i) /\ f_used (file_at s' i) = true /\
      f_owner_pid (file_at s' i) = cur /\ f_local_fd (file_at s' i) = fd /\
      view s cur fd = Some (f_node (file_at s' i), f_offset (file_at s' i), f_flags (file_at s' i))
  | (None, s') => (s' = s \/ s' = vfs_reap_dead_owners t s) /\ (alive cur = true -> view s cur fd = None)
  end.
Proof.
  intros Hi. unfold vfs_fd_at. destruct ((fd <? 0) || (fd >=? VFS_MAX_OPEN_FILES)) eqn:Er.
  { split; [by left|]. intros _. apply view_None; [apply Hi|]. intros k f Hk.
    apply not_true_is_false. intros (Hu & _ & Hf)%of_owner_true.
    destruct (vi_handles s Hi k f Hk Hu) as (? & _ & _ & _ & Hr & _).
    unfold VFS_MAX_OPEN_FILES in *. apply orb_true_iff in Er as [?|?]; b2p; lia. }
  cbn zeta. set (s' := vfs_reap_dead_owners t s).
  assert (Hi' : vfs_inv s') by (by apply reap_inv).
  destruct (find_range _ _ _) as [i|] eqn:E.
  - apply find_range_Some in E as (Hr & Ht & _). unfold VFS_MAX_GLOBAL_OPEN_FILES, VFS_MAX_OPEN_FILES in Hr.
    rewrite !andb_true_iff, !Z.eqb_eq in Ht. destruct Ht as (((Hu & _) & Ho) & Hf).
    pose proof (lookup_file_at s' i (vi_pool s' Hi') ltac:(lia)) as Hl.
    destruct (reap_lookup s (Z.to_nat i) (file_at s' i) Hl Hu) as [Hl0 Ha]. rewrite Ho in Ha.
    split_and!; auto. apply view_Some; [apply Hi|]. exists (Z.to_nat i), (file_at s' i).
    split; [done|]. split; [|done]. by apply of_owner_true.
  - split; [by right|]. intros Ha. rewrite <- (reap_same s (vi_pool s Hi) cur fd Ha). fold s'.
    apply view_None; [apply Hi'|]. intros k f Hk. apply not_true_is_false. intros Ht.
    pose proof (lookup_lt_Some _ _ _ Hk) as Hlt. rewrite (pw_length _ (vi_pool s' Hi')) in Hlt.
    pose proof (find_range_None _ _ _ E (Z.of_nat k)) as Hn. cbv beta in Hn.
    rewrite (file_at_lookup s' k f Hk) in Hn.
    apply of_owner_true in Ht as (Hu & Ho & Hf).
    destruct (vi_handles s' Hi' k f Hk Hu) as (nd & Hnd & _).
    rewrite Hu, Hnd, Ho, Hf in Hn. unfold cur in Hn. rewrite !Z.eqb_refl in Hn.
    rewrite bool_decide_true in Hn by eauto.
    specialize (Hn ltac:(unfold VFS_MAX_GLOBAL_OPEN_FILES, VFS_MAX_OPEN_FILES; lia)). done.
Qed.

Lemma none_same s s' : vfs_inv s -> s' = s \/ s' = vfs_reap_dead_owners t s -> vfs_inv s' /\ same_views s s'.
Proof. intros Hi [->| ->]; [done|]. split; [by apply reap_inv|apply reap_same, Hi]. Qed.

(** Replacing the entry of a found descriptor. *)
Lemma entry_update s i fd f' :
  vfs_inv s -> let s1 := vfs_reap_dead_owners t s in let f := file_at s1 i in
  g_open_files s1 !! Z.to_nat i = Some f -> f_used f = true -> f_owner_pid f = cur -> f_local_fd f = fd ->
  (f_used f' = true -> f_owner_pid f' = f_owner_pid f /\ f_local_fd f' = f_local_fd f /\
     f_node f' = f_node f /\ f_flags f' = f_flags f) ->
  let s2 := set_files s1 (<[Z.to_nat i := f']> (g_open_files s1)) in
  vfs_inv s2 /\
  updated_view s s2 cur fd (if f_used f' then Some (f_node f', f_offset f', f_flags f') else None).
Proof.
  intros Hi s1 f Hk Hu Ho Hf Hsame s2. assert (Hi1 : vfs_inv s1) by (by apply reap_inv).
  split; [by eapply inv_insert|]. intros p fd' Ha. unfold s2.
  rewrite (view_insert s1 _ f) by (try apply Hi1; naive_solver). rewrite Ho, Hf.
  destruct ((p =? cur) && (fd' =? fd)); [done|]. by apply reap_same; [apply Hi|].
Qed.

(** What a descriptor lookup offers its caller. *)
Lemma fd_at_cases s fd :
  vfs_inv s ->
  match vfs_fd_at t s fd with
  | (Some i, s1) =>
      let f := file_at s1 i in
      vfs_inv s1 /\ g_vfs_nodes s1 = g_vfs_nodes s /\ same_views s s1 /\ alive cur = true /\
      exists nd, file_node s1 i = node_at s (Z.of_nat nd) /\ live (node_at s (Z.of_nat nd)) = true /\
        view s cur fd = Some (Some nd, f_offset f, f_flags f) /\
        (forall o, vfs_inv (set_offset s1 i o) /\ g_vfs_nodes (set_offset s1 i o) = g_vfs_nodes s /\
           updated_view s (set_offset s1 i o) cur fd (Some (Some nd, o, f_flags f))) /\
        let s2 := set_files s1 (<[Z.to_nat i := vfs_clear_open_file]> (g_open_files s1)) in
        vfs_inv s2 /\ g_vfs_nodes s2 = g_vfs_nodes s /\ updated_view s s2 cur fd None
  | (None, s1) => vfs_inv s1 /\ g_vfs_nodes s1 = g_vfs_nodes s /\ same_views s s1 /\
      (alive cur = true -> view s cur fd = None)
  end.
Proof.
  intros Hi. pose proof (fd_at_spec s fd Hi) as Hf. destruct (vfs_fd_at t s fd) as [[i|] s1].
  - destruct Hf as (-> & Ha & Hl & Hu & Ho & Hfd & Hv). set (s1 := vfs_reap_dead_owners t s) in *.
    assert (Hi1 : vfs_inv s1) by (by apply reap_inv). cbv zeta.
    split; [done|]. split; [done|]. split; [apply reap_same, Hi|]. split; [done|].
    destruct (vi_handles s1 Hi1 _ _ Hl Hu) as (nd & Hnd & _ & Hlive & _ & _).
    exists nd. rewrite Hnd in Hv. split; [unfold file_node; by rewrite Hnd|]. split; [done|]. split; [done|]. split.
    + intros o. pose proof (entry_update s i fd (OpenFile (f_node (file_at s1 i)) o (f_flags (file_at s1 i))
        (f_owner_pid (file_at s1 i)) (f_local_fd (file_at s1 i)) (f_used (file_at s1 i))) Hi Hl Hu Ho Hfd) as H.
      cbn [f_used f_node f_offset f_flags f_owner_pid f_local_fd] in H. rewrite Hu in H at 4.
      destruct H as [H1 H2]; [done|]. rewrite Hnd in H2 at 2. split; [done|]. split; [done|]. done.
    + pose proof (entry_update s i fd vfs_clear_open_file Hi Hl Hu Ho Hfd) as H.
      destruct H as [H1 H2]; [done|]. done.
  - destruct Hf as [Hs1 Hv]. destruct (none_same s s1 Hi Hs1) as [? ?]. split_and!; auto.
    by destruct Hs1 as [->| ->].
Qed.

Lemma read_result_cases status o size cap n :
  let '(st, n') := read_result status o size cap n in
  (st = 0 /\ n' = n /\ status = 0 /\ o <= size /\ n <= cap /\ n <= size - o) \/ (st <> 0 /\ n' = 0).
Proof.
  unfold read_result, vfs_read_result_valid. destruct (Z.eqb_spec status 0) as [->|]; cbn [negb orb].
  - destruct ((o >? size) || (n >? cap)) eqn:E1; cbn [negb]; [by right|].
    apply orb_false_iff in E1 as [? ?]. destruct (Z.leb_spec n (size - o)); cbn [negb]; [left|by right].
    b2p. split_and!; auto.
  - by right.
Qed.

Lemma write_result_cases status o size n :
  let '(st, n') := write_result status o size n in
  (st = 0 /\ n' = n /\ status = 0 /\ n <= size /\ o + n <= UINT64_MAX) \/ (st <> 0 /\ n' = 0).
Proof.
  unfold write_result, vfs_write_result_valid. destruct (Z.eqb_spec status 0) as [->|]; cbn [negb orb].
  - destruct ((n >? size) || (o >? UINT64_MAX - n)) eqn:E1; cbn [negb]; [by right|].
    apply orb_false_iff in E1 as [? ?]. b2p. left. split_and!; auto. lia.
  - by right.
Qed.

Definition read_post s w fd buf capacity (r : Z * Z * option (list Z) * (vfs * W)) : Prop :=
  let '(status, n, buf', (s', w')) := r in
  vfs_inv s' /\ g_vfs_nodes s' = g_vfs_nodes s /\
  ((status = 0 /\ exists nd o flags size w1 b,
      view s cur fd = Some (Some nd, o, flags) /\ flags <> VFS_O_WRONLY /\
      vfs_node_size (node_at s (Z.of_nat nd)) 0 w = (0, size, w1) /\
      call_read (n_read (node_at s (Z.of_nat nd))) (n_context (node_at s (Z.of_nat nd))) o buf capacity w1
        = (0, n, b, w') /\ buf' = Some b /\ n <= capacity /\ o + n <= size /\
      updated_view s s' cur fd (Some (Some nd, u64 (o + n), flags))) \/
   (status <> 0 /\ n = 0 /\ same_views s s')).

Lemma read_fd_spec s w fd buf capacity :
  vfs_inv s -> read_post s w fd buf capacity (vfs_read_fd t fd (Some buf) capacity (s, w)).
Proof.
  intros Hi. unfold vfs_read_fd, read_post. pose proof (fd_at_cases s fd Hi) as Hf.
  destruct (vfs_fd_at t s fd) as [[i|] s1].
  2: { destruct Hf as (? & ? & ? & _). split; [done|]. split; [done|]. right. done. }
  destruct Hf as (Hi1 & Hn1 & Hsame & _ & nd & Hfn & _ & Hv & Hset & _).
  rewrite Hfn. cbn zeta.
  destruct ((n_read (node_at s (Z.of_nat nd)) =? 0) || (f_flags (file_at s1 i) =? VFS_O_WRONLY)) eqn:Eg;
    [by split; [|split; [|right]]|].
  apply orb_false_iff in Eg as [_ Hfl]. apply Z.eqb_neq in Hfl.
  destruct (vfs_node_size (node_at s (Z.of_nat nd)) 0 w) as [[st size] w1] eqn:Esz.
  destruct (negb (st =? 0) || (f_offset (file_at s1 i) >? size)) eqn:Eg2; [by split; [|split; [|right]]|].
  apply orb_false_iff in Eg2 as [Est _]. apply negb_false_iff, Z.eqb_eq in Est. subst st.
  destruct (call_read _ _ _ _ _ _) as [[[status n] b] w2] eqn:Ecr.
  pose proof (read_result_cases status (f_offset (file_at s1 i)) size capacity n) as Hr.
  destruct (read_result _ _ _ _ _) as [st n']. destruct Hr as [(-> & -> & -> & Hle & Hc & Hs)|(Hne & ->)].
  - cbn [Z.eqb negb]. destruct (Hset (u64 (f_offset (file_at s1 i) + n))) as (H1 & H2 & H3).
    split; [done|]. split; [done|]. left. split; [done|].
    exists nd, (f_offset (file_at s1 i)), (f_flags (file_at s1 i)), size, w1, b. b2p. split_and!; auto. lia.
  - rewrite (proj2 (Z.eqb_neq st 0)) by done. cbn [negb]. split; [done|]. split; [done|]. right. done.
Qed.

Definition write_post s w fd buf size (r : Z * Z * (vfs * W)) : Prop :=
  let '(status, n, (s', w')) := r in
  vfs_inv s' /\ g_vfs_nodes s' = g_vfs_nodes s /\
  ((status = 0 /\ exists nd o flags current_size w1,
      view s cur fd = Some (Some nd, o, flags) /\ flags <> VFS_O_RDONLY /\
      vfs_node_size (node_at s (Z.of_nat nd)) 0 w = (0, current_size, w1) /\ o <= current_size /\
      call_write (n_write (node_at s (Z.of_nat nd))) (n_context (node_at s (Z.of_nat nd))) o buf size w1
        = (0, n, w') /\ n <= size /\ o + n <= UINT64_MAX /\
      updated_view s s' cur fd (Some (Some nd, u64 (o + n), flags))) \/
   (status <> 0 /\ n = 0 /\ same_views s s')).

Lemma write_fd_spec s w fd buf size :
  vfs_inv s -> write_post s w fd buf size (vfs_write_fd t fd (Some buf) size (s, w)).
Proof.
  intros Hi. unfold vfs_write_fd, write_post. pose proof (fd_at_cases s fd Hi) as Hf.
  destruct (vfs_fd_at t s fd) as [[i|] s1].
  2: { destruct Hf as (? & ? & ? & _). split; [done|]. split; [done|]. right. done. }
  destruct Hf as (Hi1 & Hn1 & Hsame & _ & nd & Hfn & _ & Hv & Hset & _).
  rewrite Hfn. cbn zeta.
  destruct ((n_write (node_at s (Z.of_nat nd)) =? 0) || (f_flags (file_at s1 i) =? VFS_O_RDONLY)) eqn:Eg;
    [by split; [|split; [|right]]|].
  apply orb_false_iff in Eg as [_ Hfl]. apply Z.eqb_neq in Hfl.
  destruct (vfs_node_size (node_at s (Z.of_nat nd)) 0 w) as [[st csize] w1] eqn:Esz.
  destruct (negb (st =? 0) || (f_offset (file_at s1 i) >? csize)) eqn:Eg2; [by split; [|split; [|right]]|].
  apply orb_false_iff in Eg2 as [Est Hoc]. apply negb_false_iff, Z.eqb_eq in Est. subst st.
  destruct (call_write _ _ _ _ _ _) as [[status n] w2] eqn:Ecr.
  pose proof (write_result_cases status (f_offset (file_at s1 i)) size n) as Hr.
  destruct (write_result _ _ _ _) as [st n']. destruct Hr as [(-> & -> & -> & Hle & Hc)|(Hne & ->)].
  - cbn [Z.eqb negb]. destruct (Hset (u64 (f_offset (file_at s1 i) + n))) as (H1 & H2 & H3).
    split; [done|]. split; [done|]. left. split; [done|].
    exists nd, (f_offset (file_at s1 i)), (f_flags (file_at s1 i)), csize, w1. b2p. split_and!; auto. 
  - rewrite (proj2 (Z.eqb_neq st 0)) by done. cbn [negb]. split; [done|]. split; [done|]. right. done.
Qed.

Lemma seek_spec s w fd offset :
  vfs_inv s ->
  let '(status, (s', w')) := vfs_seek t fd offset (s, w) in
  vfs_inv s' /\ g_vfs_nodes s' = g_vfs_nodes s /\
  ((status = 0 /\ exists nd o flags size,
      view s cur fd = Some (Some nd, o, flags) /\
      vfs_node_size (node_at s (Z.of_nat nd)) 0 w = (0, size, w') /\ offset <= size /\
      updated_view s s' cur fd (Some (Some nd, offset, flags))) \/
   (status = -1 /\ same_views s s')).
Proof.
  intros Hi. unfold vfs_seek. pose proof (fd_at_cases s fd Hi) as Hf.
  destruct (vfs_fd_at t s fd) as [[i|] s1].
  2: { destruct Hf as (? & ? & ? & _). split; [done|]. split; [done|]. right. done. }
  destruct Hf as (Hi1 & Hn1 & Hsame & _ & nd & Hfn & _ & Hv & Hset & _). rewrite Hfn.
  destruct (vfs_node_size (node_at s (Z.of_nat nd)) 0 w) as [[st size] w1] eqn:Esz.
  destruct (negb (st =? 0) || (offset >? size)) eqn:Eg; [by split; [|split; [|right]]|].
  apply orb_false_iff in Eg as [Est Hoc]. apply negb_false_iff, Z.eqb_eq in Est. subst st. b2p.
  destruct (Hset offset) as (H1 & H2 & H3). split; [done|]. split; [done|]. left. split; [done|].
  exists nd, (f_offset (file_at s1 i)), (f_flags (file_at s1 i)), size. done.
Qed.

Lemma close_spec s fd :
  vfs_inv s ->
  let '(status, s') := vfs_close t fd s in
  vfs_inv s' /\ g_vfs_nodes s' = g_vfs_nodes s /\
  ((status = 0 /\ view s cur fd <> None /\ updated_view s s' cur fd None) \/
   (status = -1 /\ (vfs_owner_is_alive t cur = true -> view s cur fd = None) /\ same_views s s')).
Proof.
  intros Hi. unfold vfs_close. pose proof (fd_at_cases s fd Hi) as Hf.
  destruct (vfs_fd_at t s fd) as [[i|] s1].
  - destruct Hf as (Hi1 & Hn1 & Hsame & _ & nd & Hfn & _ & Hv & _ & H1 & H2 & H3).
    split; [done|]. split; [done|]. left. by rewrite Hv.
  - destruct Hf as (? & ? & ? & ?). split; [done|]. split; [done|]. right. done.
Qed.

(** The node an open request settles on, and the state it finds it in: the
    tables as they are, or as the mount's open callback left them. *)
Definition opened_from s w flags s1 w1 : Prop :=
  (s1 = s /\ w1 = w) \/
  exists i c st, 0 <= i < 4 /\ m_used (mount_at s i) = true /\ below (m_path (mount_at s i)) c /\
    call_open (op_open (m_ops (mount_at s i))) (m_context (mount_at s i)) c flags (s, w) = (st, (s1, w1)).

Lemma flags_valid_mode flags :
  vfs_open_flags_valid flags = true ->
  let mode := vfs_open_access_mode flags in
  mode = VFS_O_RDONLY \/ mode = VFS_O_WRONLY \/ mode = VFS_O_RDWR.
Proof.
  unfold vfs_open_flags_valid. destruct (_ &? _); [done|].
  rewrite !orb_true_iff, !Z.eqb_eq. tauto.
Qed.

Lemma mode_guard mode n :
  mode = VFS_O_RDONLY \/ mode = VFS_O_WRONLY \/ mode = VFS_O_RDWR ->
  ((mode =? VFS_O_RDONLY) || (mode =? VFS_O_RDWR)) && (n_read n =? 0) ||
  ((mode =? VFS_O_WRONLY) || (mode =? VFS_O_RDWR)) && (n_write n =? 0) = false -> mode_ok mode n.
Proof.
  intros Hm Hg. split; [done|]. apply orb_false_iff in Hg as [H1 H2].
  destruct Hm as [->|[->| ->]]; cbn [Z.eqb orb andb VFS_O_RDONLY VFS_O_WRONLY VFS_O_RDWR Pos.eqb] in H1, H2;
    b2p; split; intros ?; try done; try congruence.
Qed.

Lemma open_spec {Bok : BackendOk W} s w path flags :
  vfs_inv s ->
  let '(fd, (s', w')) := vfs_open_flags t path flags (s, w) in
  vfs_inv s' /\ exists s1, opened_from s w flags s1 w' /\
  ((fd = -1 /\ same_views s1 s') \/
   (0 <= fd < VFS_MAX_OPEN_FILES /\ exists i nm,
      let mode := vfs_open_access_mode flags in
      name_of path = Some nm /\ 0 <= i < 24 /\ node_name s1 i = Some nm /\ mode_ok mode (node_at s1 i) /\
      g_vfs_nodes s' = g_vfs_nodes s1 /\
      (forall fd', 0 <= fd' < fd -> is_Some (view (vfs_reap_dead_owners t s1) cur fd')) /\
      view (vfs_reap_dead_owners t s1) cur fd = None /\
      view s' cur fd = Some (Some (Z.to_nat i), 0, mode) /\
      updated_view s1 s' cur fd (Some (Some (Z.to_nat i), 0, mode)))).
Proof.
  intros Hi. unfold vfs_open_flags. cbn zeta.
  assert (Hkeep : opened_from s w flags s w) by (by left).
  destruct (vfs_open_flags_valid flags) eqn:Efl; cbn [negb]; [|split; [done|exists s; split; [done|by left]]].
  destruct (canonicalize path) as [c|] eqn:Ec; [|split; [done|exists s; split; [done|by left]]].
  apply canonicalize_Some in Ec as [_ Hnm].
  set (nsw := match vfs_find_canonical s c with Some i => _ | None => _ end).
  assert (Hpre : let '(node, (s1, w1)) := nsw in vfs_inv s1 /\ opened_from s w flags s1 w1 /\
    match node with Some i => 0 <= i < 24 /\ node_name s1 i = Some (str_cut c) | None => True end).
  { unfold nsw. destruct (vfs_find_canonical s c) as [i|] eqn:Ef.
    - split; [done|]. split; [done|]. pose proof (find_canonical_range s c i (vi_names s Hi) Ef).
      by apply find_canonical_spec in Ef as [_ ?]; [|apply Hi].
    - pose proof (find_mount_for_path_spec s c (vi_mounts s Hi)) as Hm.
      destruct (vfs_find_mount_for_path s c) as [m|].
      + rewrite bool_decide_false by done. change (default 0 (Some m)) with m. cbn [orb].
        destruct (op_open (m_ops (mount_at s m)) =? 0); [done|].
        destruct (call_open _ _ _ _ _) as [st [s1 w1]] eqn:Eo.
        simpl default in Eo.
        pose proof (open_keeps_inv (op_open (m_ops (mount_at s m))) (m_context (mount_at s m)) c flags s w Hi) as Hi1.
        rewrite Eo in Hi1. cbn [fst snd] in Hi1. split; [done|]. split.
        { right. destruct Hm as (? & ? & ? & _). exists m, c, st. done. }
        destruct (negb (st =? 0)); [done|]. destruct (vfs_find_canonical s1 c) as [i|] eqn:Ef1; [|done].
        pose proof (find_canonical_range s1 c i (vi_names s1 Hi1) Ef1).
        by apply find_canonical_spec in Ef1 as [_ ?]; [|apply Hi1].
      + rewrite bool_decide_true by done. done. }
  destruct nsw as [node [s1 w1]]. destruct Hpre as (Hi1 & Hfrom & Hnode).
  destruct node as [i|]; [|split; [done|exists s1; split; [done|by left]]].
  destruct Hnode as [Hr Hname].
  destruct (_ || _) eqn:Eg; [split; [done|exists s1; split; [done|by left]]|].
  apply mode_guard in Eg; [|by apply flags_valid_mode].
  set (s2 := vfs_reap_dead_owners t s1). assert (Hi2 : vfs_inv s2) by (by apply reap_inv).
  assert (Hsame : same_views s1 s2) by (apply reap_same, Hi1).
  destruct (vfs_find_free_local_fd s2 _) as [fd|] eqn:Efd; [|split; [done|exists s1; split; [done|by left]]].
  destruct (vfs_find_free_global_handle s2) as [k|] eqn:Ek; [|split; [done|exists s1; split; [done|by left]]].
  apply find_range_Some in Efd as (Hfd & Hfree & Hbelow). cbv beta in Hfree.
  rewrite fd_in_use_spec, negb_true_iff, bool_decide_eq_false, <- eq_None_not_Some in Hfree.
  apply find_range_Some in Ek as (Hk & Hku & _). apply negb_true_iff in Hku.
  unfold VFS_MAX_GLOBAL_OPEN_FILES, VFS_MAX_OPEN_FILES in Hk.
  pose proof (lookup_file_at s2 k (vi_pool s2 Hi2) ltac:(lia)) as Hl.
  destruct (insert_free s2 (Z.to_nat k) (file_at s2 k)
    (OpenFile (Some (Z.to_nat i)) 0 (vfs_open_access_mode flags) cur fd true) Hi2 Hl Hku) as [Hi3 Hview];
    [done| |done|].
  { exists (Z.to_nat i). cbn [f_node f_local_fd f_flags]. rewrite Z2Nat.id by lia.
    split; [done|]. split; [lia|]. split; [apply live_name; by exists (str_cut c)|]. done. }
  split; [done|]. exists s1. split; [done|]. right. split; [done|]. exists i, (str_cut c).
  split; [done|]. split; [done|]. split; [done|]. split; [done|]. split; [done|]. split; [|split; [done|split]].
  - intros fd' Hfd'. specialize (Hbelow fd' ltac:(lia)). cbv beta in Hbelow.
    rewrite fd_in_use_spec, negb_false_iff, bool_decide_eq_true in Hbelow. done.
  - rewrite Hview. cbn [f_owner_pid f_local_fd f_node f_offset f_flags]. by rewrite !Z.eqb_refl.
  - intros p fd' Ha. rewrite Hview. cbn [f_owner_pid f_local_fd f_node f_offset f_flags].
    destruct ((p =? cur) && (fd' =? fd)); [done|]. by apply Hsame.
Qed.

End Calls.

(** ** The remaining operations *)

Lemma close_all_inv p s : vfs_inv s -> vfs_inv (snd (vfs_close_all_for_pid p s)).
Proof. apply clear_where_inv. Qed.

Lemma close_all_view p s q fd :
  pool_wf (g_open_files s) ->
  view (snd (vfs_close_all_for_pid p s)) q fd = if q =? p then None else view s q fd.
Proof. intros Hwf. by apply (view_clear_owner s (fun o => o =? p)). Qed.

Lemma unlink_inv {W} {B : Backend W} path s (w : W) : vfs_inv s -> vfs_inv (fst (snd (vfs_unlink path (s, w)))).
Proof.
  intros Hi. unfold vfs_unlink. destruct (canonicalize path) as [c|]; [|done]. cbn zeta.
  destruct (_ || _); [done|]. destruct (call_unlink _ _ _ _) as [st w'].
  destruct (negb _); [done|]. by apply unmount_inv.
Qed.

Lemma rename_inv {W} {B : Backend W} a b s (w : W) : vfs_inv s -> vfs_inv (fst (snd (vfs_rename a b (s, w)))).
Proof.
  intros Hi. unfold vfs_rename. destruct (canonicalize a) as [c|]; [|done].
  destruct (canonicalize b) as [d|]; [|done]. cbn zeta.
  destruct (_ || _); [done|]. destruct (call_rename _ _ _ _ _) as [st w'].
  destruct (negb _); [done|]. by apply unmount_inv, unmount_inv.
Qed.

(** Resetting erases everything. *)
Lemma vfs_reset_empty s :
  length (g_vfs_nodes s) = 24%nat -> length (g_vfs_paths s) = 24%nat -> length (g_mounts s) = 4%nat ->
  length (g_open_files s) = 128%nat -> vfs_reset s = vfs_empty.
Proof.
  intros Hn Hp Hm Hf. unfold vfs_reset.
  set (s1 := for_range 0 VFS_MAX_NODES _ s).
  assert (H : length (g_vfs_nodes s1) = 24%nat /\ length (g_vfs_paths s1) = 24%nat /\
    g_mounts s1 = g_mounts s /\ g_open_files s1 = g_open_files s /\
    forall j, (Z.of_nat j < VFS_MAX_NODES) -> g_vfs_nodes s1 !! j = Some null_node /\
      g_vfs_paths s1 !! j = Some (replicate 64 0)).
  { unfold s1. apply (for_range_ind (fun k s1 => length (g_vfs_nodes s1) = 24%nat /\
      length (g_vfs_paths s1) = 24%nat /\ g_mounts s1 = g_mounts s /\ g_open_files s1 = g_open_files s /\
      forall j, (Z.of_nat j < k) -> g_vfs_nodes s1 !! j = Some null_node /\
        g_vfs_paths s1 !! j = Some (replicate 64 0))); [done|split_and!; auto; lia|].
    intros k s' Hk (L1 & L2 & E1 & E2 & Hall). unfold vfs_clear_node.
    destruct (Z.geb_spec k VFS_MAX_NODES); [lia|]. unfold VFS_MAX_NODES in *. simpl.
    rewrite !length_insert. split_and!; auto. intros j Hj.
    destruct (decide (j = Z.to_nat k)) as [->|].
    - rewrite !list_lookup_insert_eq by lia. done.
    - rewrite !list_lookup_insert_ne by lia. apply Hall. lia. }
  destruct H as (L1 & L2 & -> & -> & Hall). unfold vfs_empty.
  assert (Hmap : forall (X : Type) (c : X) (l : list X) n, length l = n -> (fun _ => c) <$> l = replicate n c).
  { clear. intros X c l n <-. induction l; simpl; [done|]. by f_equal. }
  assert (Hrep : forall (X : Type) (c : X) (l : list X), length l = 24%nat -> (forall j, Z.of_nat j < VFS_MAX_NODES -> l !! j = Some c) ->
    l = replicate 24 c).
  { clear. intros X c l Hl Hall. symmetry. apply replicate_as_elem_of. split; [done|].
    intros x [j Hj]%list_elem_of_lookup. pose proof (lookup_lt_Some _ _ _ Hj).
    rewrite Hall in Hj by (unfold VFS_MAX_NODES; lia). congruence. }
  f_equal.
  - apply Hrep; [done|]. intros j Hj. by apply Hall.
  - apply Hrep; [done|]. intros j Hj. by apply Hall.
  - by apply Hmap.
  - by apply Hmap.
Qed.

Lemma vfs_empty_inv : vfs_inv vfs_empty.
Proof.
  assert (Hun : forall k f, g_open_files vfs_empty !! k = Some f -> f_used f = false).
  { intros k f Hk. apply lookup_replicate in Hk as [-> _]. done. }
  split; [apply vfs_empty_names|apply vfs_empty_mounts| |].
  - split; [done|]. intros k1 k2 f1 f2 H1 _ U1. by rewrite (Hun k1 f1 H1) in U1.
  - intros k f Hk Hu. by rewrite (Hun k f Hk) in Hu.
Qed.

Lemma reset_inv s : vfs_inv s -> vfs_inv (vfs_reset s).
Proof.
  intros Hi. rewrite vfs_reset_empty; [apply vfs_empty_inv|apply Hi..].
Qed.

(** * Reachable states *)

(** One call into the VFS, on behalf of whatever process is current, or a
    change of the world outside it. *)
Inductive vfs_step {W : Type} {B : Backend W} {A PW : Type} : vfs * W -> vfs * W -> Prop :=
  | StepReset s w : vfs_step (s, w) (vfs_reset s, w)
  | StepMountStatic s w nodes : vfs_step (s, w) (snd (vfs_mount_static s nodes), w)
  | StepUnmount s w path : vfs_step (s, w) (snd (vfs_unmount_static s path), w)
  | StepMount s w path ops context : vfs_step (s, w) (snd (vfs_mount s path ops context), w)
  | StepMountList s w path fn context : vfs_step (s, w) (snd (vfs_mount_list s path fn context), w)
  | StepOpen (t : ptable A PW) s w path flags : vfs_step (s, w) (snd (vfs_open_flags t path flags (s, w)))
  | StepRead (t : ptable A PW) s w fd buf capacity :
      vfs_step (s, w) (snd (vfs_read_fd t fd (Some buf) capacity (s, w)))
  | StepWrite (t : ptable A PW) s w fd buf size :
      vfs_step (s, w) (snd (vfs_write_fd t fd (Some buf) size (s, w)))
  | StepSeek (t : ptable A PW) s w fd offset : vfs_step (s, w) (snd (vfs_seek t fd offset (s, w)))
  | StepClose (t : ptable A PW) s w fd : vfs_step (s, w) (snd (vfs_close t fd s), w)
  | StepCloseAll s w p : vfs_step (s, w) (snd (vfs_close_all_for_pid p s), w)
  | StepUnlink s w path : vfs_step (s, w) (snd (vfs_unlink path (s, w)))
  | StepRename s w a b : vfs_step (s, w) (snd (vfs_rename a b (s, w)))
  | StepWorld s w w' : vfs_step (s, w) (s, w').

Lemma step_inv {W A PW : Type} {B : Backend W} {Bok : BackendOk W} (x y : vfs * W) :
  vfs_step (A:=A) (PW:=PW) x y -> vfs_inv (fst x) -> vfs_inv (fst y).
Proof.
  destruct 1; cbn [fst]; intros Hi.
  - by apply reset_inv.
  - by apply mount_static_inv.
  - by apply unmount_inv.
  - by apply mount_inv.
  - unfold vfs_mount_list. destruct (fn =? 0); [done|]. by apply mount_inv.
  - pose proof (open_spec t s w path flags Hi) as H. destruct (vfs_open_flags _ _ _ _) as [fd [s' w']]. by destruct H.
  - pose proof (read_fd_spec t s w fd buf capacity Hi) as H.
    destruct (vfs_read_fd _ _ _ _ _) as [[[st n] b'] [s' w']]. by destruct H.
  - pose proof (write_fd_spec t s w fd buf size Hi) as H.
    destruct (vfs_write_fd _ _ _ _ _) as [[st n] [s' w']]. by destruct H.
  - pose proof (seek_spec t s w fd offset Hi) as H. destruct (vfs_seek _ _ _ _) as [st [s' w']]. by destruct H.
  - pose proof (close_spec t s fd Hi) as H. destruct (vfs_close _ _ _) as [st s']. by destruct H.
  - by apply close_all_inv.
  - by apply unlink_inv.
  - by apply rename_inv.
  - done.
Qed.

(** C12: The VFS tables stay consistent: in every state reachable from the empty
    tables, canonical names of nodes and of mounts are unique, and every open
    handle belongs to a live node that supports the mode it was opened with,
    has a descriptor number below 8 and shares its (process, descriptor) pair
    with no other handle. *)
Theorem vfs_tables_consistent {W A PW : Type} {B : Backend W} {Bok : BackendOk W} (w : W) (x : vfs * W)
    (Hreach : rtc (vfs_step (A:=A) (PW:=PW)) (vfs_empty, w) x) :
  vfs_inv (fst x).
Proof.
  remember (vfs_empty, w) as x0 eqn:E. assert (H0 : vfs_inv (fst x0)) by (subst x0; apply vfs_empty_inv).
  clear E. induction Hreach as [x|x y z Hs Hr IH]; [done|]. apply IH. by eapply step_inv.
Qed.

(** Opening yields a fresh, independent descriptor: on success the result
    is the lowest descriptor number the current process does not use (dead
    processes' handles having been reclaimed), it denotes the node registered
    under the path's canonical name (by the mount's open callback, if need
    be) at offset 0 with the requested mode, which the node supports, and no
    other descriptor of any live process changes; on failure none does. *)
Theorem open_fresh_descriptor {W A PW : Type} {B : Backend W} {Bok : BackendOk W} (t : ptable A PW)
    (s : vfs) (w : W) (path : option (list Z)) (flags : Z) (Hi : vfs_inv s) :
  let cur := vfs_current_owner_pid t in
  let '(fd, (s', w')) := vfs_open_flags t path flags (s, w) in
  vfs_inv s' /\ exists s1, opened_from s w flags s1 w' /\
  ((fd = -1 /\ same_views t s1 s') \/
   (0 <= fd < VFS_MAX_OPEN_FILES /\ exists i nm,
      let mode := vfs_open_access_mode flags in
      name_of path = Some nm /\ 0 <= i < 24 /\ node_name s1 i = Some nm /\ mode_ok mode (node_at s1 i) /\
      g_vfs_nodes s' = g_vfs_nodes s1 /\
      (forall fd', 0 <= fd' < fd -> is_Some (view (vfs_reap_dead_owners t s1) cur fd')) /\
      view (vfs_reap_dead_owners t s1) cur fd = None /\
      view s' cur fd = Some (Some (Z.to_nat i), 0, mode) /\
      updated_view t s1 s' cur fd (Some (Some (Z.to_nat i), 0, mode)))).
Proof. by apply open_spec. Qed.

(** Descriptor I/O is sequential and bounded: a successful vfs_read_fd or
    vfs_write_fd calls the node's callback at the descriptor's offset, with a
    mode that allows it, transfers at most the requested count (a read never
    past the reported size) and advances that descriptor's offset by exactly
    the count; a failed call reports 0 bytes; in either case no other
    descriptor of any live process moves. *)
Theorem descriptor_io_sequential {W A PW : Type} {B : Backend W} (t : ptable A PW)
    (s : vfs) (w : W) (fd : Z) (buf : list Z) (count : Z) (Hi : vfs_inv s) :
  read_post t s w fd buf count (vfs_read_fd t fd (Some buf) count (s, w)) /\
  write_post t s w fd buf count (vfs_write_fd t fd (Some buf) count (s, w)).
Proof. split; [by apply read_fd_spec|by apply write_fd_spec]. Qed.

(** Seeking and closing act on the caller's own descriptor: vfs_seek
    succeeds only within the node's size and sets the offset to what was
    asked; vfs_close succeeds exactly on an open descriptor and frees it; every
    other descriptor of every live process is as before. *)
Theorem seek_close_own_descriptor {W A PW : Type} {B : Backend W} (t : ptable A PW)
    (s : vfs) (w : W) (fd offset : Z) (Hi : vfs_inv s) :
  let cur := vfs_current_owner_pid t in
  (let '(status, (s', w')) := vfs_seek t fd offset (s, w) in
   (status = 0 /\ exists nd o flags size,
      view s cur fd = Some (Some nd, o, flags) /\
      vfs_node_size (node_at s (Z.of_nat nd)) 0 w = (0, size, w') /\ offset <= size /\
      updated_view t s s' cur fd (Some (Some nd, offset, flags))) \/
   (status = -1 /\ same_views t s s')) /\
  (let '(status, s') := vfs_close t fd s in
   (status = 0 /\ view s cur fd <> None /\ updated_view t s s' cur fd None) \/
   (status = -1 /\ (vfs_owner_is_alive t cur = true -> view s cur fd = None) /\ same_views t s s')).
Proof.
  split.
  - pose proof (seek_spec t s w fd offset Hi) as H. destruct (vfs_seek t fd offset (s, w)) as [st [s' w']].
    by destruct H as (_ & _ & H).
  - pose proof (close_spec t s fd Hi) as H. destruct (vfs_close t fd s) as [st s']. by destruct H as (_ & _ & H).
Qed.

(** * Process exit *)

(** process_mark_exited on a world that holds the VFS and the window layer. *)
#[export] Instance vfs_exit_hooks {G : Type} (gui : Z -> G -> G) : ExitHooks (vfs * G) :=
  {| Process.vfs_close_all_for_pid := fun p x => (snd (vfs_close_all_for_pid p (fst x)), snd x);
     Process.gui_destroy_windows_for_pid := fun p x => (fst x, gui p (snd x)) |}.

(** Exit releases every file: once process_mark_exited has run for a
    process that was not a zombie, none of its descriptors is open and every
    other process's descriptors are exactly as before. *)
Theorem exit_closes_descriptors {A G : Type} (gui : Z -> G -> G) (t : ptable A (vfs * G)) (k : nat) (code : Z)
    (Hpool : pool_wf (g_open_files (fst (world t)))) (Hz : state (obj t k) <> PROCESS_ZOMBIE) (p fd : Z) :
  let t' := process_mark_exited (H0 := vfs_exit_hooks gui) t (Some k) code in
  view (fst (world t')) p fd = if p =? pid (obj t k) then None else view (fst (world t)) p fd.
Proof.
  unfold process_mark_exited. rewrite bool_decide_false by done. cbn zeta.
  cbn [world set_obj Process.vfs_close_all_for_pid Process.gui_destroy_windows_for_pid vfs_exit_hooks fst].
  by apply close_all_view.
Qed.

(** * Concrete runs *)

#[export] Instance text_backend_ok : BackendOk (list Z).
Proof. split. done. Qed.

(** "/tmp/a" and "/b" registered; "/b" opened by the kernel (process 0). *)
Definition run_mounted : vfs := snd (vfs_mount_static vfs_empty two_nodes).
Definition run_opened : vfs * list Z := snd (vfs_open_flags boot_table (Some [47;98]) 0 (run_mounted, [7;8;9])).

Lemma run_mounted_inv : vfs_inv run_mounted.
Proof. apply mount_static_inv, vfs_empty_inv. Qed.

Lemma run_opened_inv : vfs_inv (fst run_opened).
Proof.
  unfold run_opened. pose proof (open_spec boot_table run_mounted [7;8;9] (Some [47;98]) 0 run_mounted_inv) as H.
  destruct (vfs_open_flags _ _ _ _) as [fd [s' w']]. by destruct H.
Qed.

Lemma vfs_tables_consistent_witness :
  vfs_inv (fst run_opened) /\ f_used (file_at (fst run_opened) 0) = true.
Proof.
  split; [|vm_compute; reflexivity].
  apply (vfs_tables_consistent (A:=Pmm.pmm) (PW:=unit) [7;8;9] run_opened).
  eapply rtc_l; [apply (StepMountStatic vfs_empty [7;8;9] two_nodes)|].
  apply rtc_once. apply (StepOpen boot_table run_mounted [7;8;9] (Some [47;98]) 0).
Defined.

Lemma open_fresh_descriptor_witness :
  vfs_inv run_mounted /\ fst (vfs_open_flags boot_table (Some [47;98]) 0 (run_mounted, [7;8;9])) = 0 /\
  (exists i, view (fst run_opened) 0 0 = Some (Some (Z.to_nat i), 0, 0)).
Proof.
  split; [apply run_mounted_inv|].
  assert (E : fst (vfs_open_flags boot_table (Some [47;98]) 0 (run_mounted, [7;8;9])) = 0) by (vm_compute; reflexivity).
  split; [done|].
  pose proof (open_fresh_descriptor boot_table run_mounted [7;8;9] (Some [47;98]) 0 run_mounted_inv) as H.
  unfold run_opened. destruct (vfs_open_flags _ _ _ _) as [fd [s' w']]. cbn [fst snd] in *. subst fd.
  destruct H as (_ & s1 & _ & [[? _]|(_ & i & nm & H)]); [done|].
  exists i. by destruct H as (_ & _ & _ & _ & _ & _ & _ & H & _).
Defined.

Lemma descriptor_io_sequential_witness :
  vfs_inv (fst run_opened) /\
  read_post boot_table (fst run_opened) [7;8;9] 0 [0;0;0;0] 2
    (vfs_read_fd boot_table 0 (Some [0;0;0;0]) 2 (fst run_opened, [7;8;9])) /\
  view (fst (snd (vfs_read_fd boot_table 0 (Some [0;0;0;0]) 2 (fst run_opened, [7;8;9])))) 0 0
    = Some (Some 1%nat, 2, 0).
Proof.
  split; [apply run_opened_inv|]. split; [|vm_compute; reflexivity].
  exact (proj1 (descriptor_io_sequential boot_table (fst run_opened) [7;8;9] 0 [0;0;0;0] 2 run_opened_inv)).
Defined.

Lemma seek_close_own_descriptor_witness :
  vfs_inv (fst run_opened) /\ fst (vfs_close boot_table 0 (fst run_opened)) = 0 /\
  view (snd (vfs_close boot_table 0 (fst run_opened))) 0 0 = None.
Proof.
  split; [apply run_opened_inv|].
  assert (E : fst (vfs_close boot_table 0 (fst run_opened)) = 0) by (vm_compute; reflexivity).
  split; [done|].
  pose proof (seek_close_own_descriptor boot_table (fst run_opened) [7;8;9] 0 4 run_opened_inv) as [_ H].
  rewrite (pair_of_fst _ _ E) in H. destruct H as [(_ & _ & H)|(? & _)]; [|done].
  by apply (H 0 0).
Defined.

(** The same handle, owned by process 0, with process 0 exiting. *)
Definition run_processes : ptable Pmm.pmm (vfs * unit) :=
  PTable (objects boot_table) None 0 (mem boot_table) 0 (fst run_opened, tt).

Lemma exit_closes_descriptors_witness :
  is_Some (view (fst (world run_processes)) 0 0) /\
  view (fst (world (process_mark_exited (H0 := vfs_exit_hooks (fun _ g => g)) run_processes (Some 0%nat) 1))) 0 0 = None.
Proof.
  split; [apply is_Some_alt; by vm_compute|].
  pose proof (exit_closes_descriptors (fun _ (g : unit) => g) run_processes 0 1) as H.
  specialize (H (vi_pool _ run_opened_inv) ltac:(by vm_compute) 0 0). cbv zeta in H. exact H.
Defined.
