(* ===== verification/Tmpfs.v ===== *)
(** The temporary file system of kernel/tmpfs.c: a table of eight files of at
    most 256 bytes, its registration with the VFS, and the refinement of a map
    from names to contents.

    The context a tmpfs node hands to the VFS points into [g_tmpfs_vfs_names];
    the pointer to entry [i] is the number [i + 1].  The three callbacks are
    the function numbers 1, 2 and 3. *)

From S2P Require Import Prelude.
From S2P Require Import Bytes.
From S2P Require Import VfsPath.
From S2P Require Import ProcessRegions.
From S2P Require Import Process.
From S2P Require Import Vfs.
From S2P Require Import VfsNames.
From S2P Require Import VfsHandles.
Open Scope arm.

Definition TMPFS_MAX_FILES : Z := 8.
Definition TMPFS_MAX_FILE_SIZE : Z := 256.
Definition TMPFS_MAX_NAME : Z := 32.
Definition TMPFS_VFS_READ : Z := 1.
Definition TMPFS_VFS_WRITE : Z := 2.
Definition TMPFS_VFS_STAT : Z := 3.

Record tmpfs_file := TmpFile {
  tf_name : list Z;
  tf_data : list Z;
  tf_size : Z;
  tf_used : bool }.

Record tmpfs := Tmpfs {
  g_tmpfs_files : list tmpfs_file;
  g_tmpfs_vfs_nodes : list vfs_node;
  g_tmpfs_vfs_names : list (list Z);
  g_tmpfs_vfs_node_count : Z }.

(** * Operations *)

Definition tmpfs_clear_file : tmpfs_file := TmpFile (replicate 32 0) (replicate 256 0) 0 false.

Definition tfile_at (fs : tmpfs) (i : Z) : tmpfs_file := default tmpfs_clear_file (g_tmpfs_files fs !! Z.to_nat i).

Definition set_tfile (fs : tmpfs) (i : Z) (f : tmpfs_file) : tmpfs :=
  Tmpfs (<[Z.to_nat i := f]> (g_tmpfs_files fs)) (g_tmpfs_vfs_nodes fs) (g_tmpfs_vfs_names fs)
    (g_tmpfs_vfs_node_count fs).

Definition tmpfs_clear_vfs_slot (fs : tmpfs) (index : Z) : tmpfs :=
  if index >=? TMPFS_MAX_FILES then fs else
  Tmpfs (g_tmpfs_files fs) (<[Z.to_nat index := null_node]> (g_tmpfs_vfs_nodes fs))
    (<[Z.to_nat index := replicate 32 0]> (g_tmpfs_vfs_names fs)) (g_tmpfs_vfs_node_count fs).

(** The loop is that of kstreq. *)
Definition tmpfs_name_equals (left right : option (list Z)) : bool :=
  match left, right with
  | Some l, Some r => streq_loop l r
  | _, _ => false
  end.

Definition tmpfs_find_file (fs : tmpfs) (name : option (list Z)) : option Z :=
  match name with
  | None => None
  | Some nm =>
      if byte_at nm 0 =? 0 then None else
      find_range 0 TMPFS_MAX_FILES (fun i =>
        tf_used (tfile_at fs i) && tmpfs_name_equals (Some (tf_name (tfile_at fs i))) name)
  end.

(** [while (name[i] != 0) { if (i + 1 >= MAX) return -1; dest[i] = name[i]; i++; }] *)
Fixpoint copy_name_loop (dest : list Z) (i : Z) (name : list Z) : bool * Z * list Z :=
  match name with
  | [] => (true, i, dest)
  | c :: name' =>
      if i + 1 >=? TMPFS_MAX_NAME then (false, i, dest) else copy_name_loop (put i c dest) (i + 1) name'
  end.

Definition tmpfs_copy_name (dest : list Z) (name : option (list Z)) : Z * list Z :=
  match name with
  | None => (-1, dest)
  | Some nm =>
      if byte_at nm 0 =? 0 then (-1, dest) else
      let '(fits, i, dest) := copy_name_loop dest 0 (str_cut nm) in
      if fits then (0, put i 0 dest) else (-1, dest)
  end.

Definition tmpfs_reset (fs : tmpfs) : tmpfs :=
  let fs := for_range 0 TMPFS_MAX_FILES (fun i fs =>
    tmpfs_clear_vfs_slot (set_tfile fs i tmpfs_clear_file) i) fs in
  Tmpfs (g_tmpfs_files fs) (g_tmpfs_vfs_nodes fs) (g_tmpfs_vfs_names fs) 0.

Definition tmpfs_create (fs : tmpfs) (name : option (list Z)) : Z * tmpfs :=
  match name with
  | None => (-1, fs)
  | Some nm =>
      if (byte_at nm 0 =? 0) || bool_decide (is_Some (tmpfs_find_file fs name)) then (-1, fs) else
      match find_range 0 TMPFS_MAX_FILES (fun i => negb (tf_used (tfile_at fs i))) with
      | None => (-1, fs)
      | Some i =>
          let f := tmpfs_clear_file in
          let '(status, dest) := tmpfs_copy_name (tf_name f) name in
          if negb (status =? 0) then (-1, set_tfile fs i (TmpFile dest (tf_data f) (tf_size f) (tf_used f)))
          else (0, set_tfile fs i (TmpFile dest (tf_data f) 0 true))
      end
  end.

Definition tmpfs_delete (fs : tmpfs) (name : option (list Z)) : Z * tmpfs :=
  match tmpfs_find_file fs name with
  | None => (-1, fs)
  | Some i => (0, set_tfile fs i tmpfs_clear_file)
  end.

(** Status, count and state. *)
Definition tmpfs_write (fs : tmpfs) (name : option (list Z)) (offset : Z) (buffer : option (list Z))
    (size : Z) : Z * Z * tmpfs :=
  match tmpfs_find_file fs name, buffer with
  | Some i, Some buf =>
      if offset >? TMPFS_MAX_FILE_SIZE then (-1, 0, fs) else
      let f := tfile_at fs i in
      let count := if size >? TMPFS_MAX_FILE_SIZE - offset then TMPFS_MAX_FILE_SIZE - offset else size in
      let data := copy_bytes (tf_data f) offset buf 0 count in
      let new_size := if offset + count >? tf_size f then offset + count else tf_size f in
      (0, count, set_tfile fs i (TmpFile (tf_name f) data new_size (tf_used f)))
  | _, _ => (-1, 0, fs)
  end.

(** Status, count and the caller's buffer. *)
Definition tmpfs_read (fs : tmpfs) (name : option (list Z)) (offset : Z) (buffer : option (list Z))
    (capacity : Z) : Z * Z * option (list Z) :=
  match tmpfs_find_file fs name, buffer with
  | Some i, Some buf =>
      let f := tfile_at fs i in
      if offset >? tf_size f then (-1, 0, buffer) else
      let count := if capacity >? tf_size f - offset then tf_size f - offset else capacity in
      (0, count, Some (copy_bytes buf 0 (tf_data f) offset count))
  | _, _ => (-1, 0, buffer)
  end.

Definition tmpfs_stat (fs : tmpfs) (name : option (list Z)) (stat : Z) : Z * Z :=
  match tmpfs_find_file fs name with
  | None => (-1, stat)
  | Some i => (0, tf_size (tfile_at fs i))
  end.

(** ** The VFS side *)

(** The name a context points to. *)
Definition context_name (fs : tmpfs) (context : Z) : option (list Z) :=
  if context =? 0 then None else g_tmpfs_vfs_names fs !! Z.to_nat (context - 1).

Definition tmpfs_vfs_read (context offset : Z) (buffer : list Z) (capacity : Z) (fs : tmpfs)
    : Z * Z * list Z * tmpfs :=
  let '(status, n, buf) := tmpfs_read fs (context_name fs context) offset (Some buffer) capacity in
  (status, n, default buffer buf, fs).

Definition tmpfs_vfs_write (context offset : Z) (buffer : list Z) (size : Z) (fs : tmpfs) : Z * Z * tmpfs :=
  tmpfs_write fs (context_name fs context) offset (Some buffer) size.

Definition tmpfs_vfs_stat (context stat : Z) (fs : tmpfs) : Z * Z * tmpfs :=
  let '(status, size) := tmpfs_stat fs (context_name fs context) 0 in
  if negb (status =? 0) then (-1, stat, fs) else (0, size, fs).

(** The callbacks the VFS can reach when only tmpfs nodes are registered. *)
#[export] Instance tmpfs_backend : Backend tmpfs := {|
  call_read fn ctx offset buffer capacity w :=
    if fn =? TMPFS_VFS_READ then tmpfs_vfs_read ctx offset buffer capacity w else (-1, 0, buffer, w);
  call_write fn ctx offset buffer size w :=
    if fn =? TMPFS_VFS_WRITE then tmpfs_vfs_write ctx offset buffer size w else (-1, 0, w);
  call_stat fn ctx stat w := if fn =? TMPFS_VFS_STAT then tmpfs_vfs_stat ctx stat w else (-1, stat, w);
  call_list _ _ _ buffer _ w := (-1, 0, buffer, w);
  call_open _ _ _ _ sw := (-1, sw);
  call_read_path _ _ _ _ buffer _ w := (-1, 0, buffer, w);
  call_stat_path _ _ _ size w := (-1, size, w);
  call_list_path _ _ _ _ buffer _ w := (-1, 0, buffer, w);
  call_metadata_path _ _ _ md w := (-1, md, w);
  call_readdir_path _ _ _ _ entries _ w := (-1, 0, entries, w);
  call_fsinfo _ _ _ info w := (-1, info, w);
  call_unlink _ _ _ w := (-1, w);
  call_rename _ _ _ _ w := (-1, w) |}.

Definition tmpfs_mount_vfs (fs : tmpfs) (s : vfs) (path name : option (list Z)) : Z * (tmpfs * vfs) :=
  let index := g_tmpfs_vfs_node_count fs in
  match path, tmpfs_find_file fs name with
  | Some p, Some i =>
      if negb (byte_at p 0 =? SLASH) || (index >=? TMPFS_MAX_FILES) then (-1, (fs, s)) else
      let '(status, dest) := tmpfs_copy_name (default [] (g_tmpfs_vfs_names fs !! Z.to_nat index)) name in
      let names := <[Z.to_nat index := dest]> (g_tmpfs_vfs_names fs) in
      if negb (status =? 0)
      then (-1, (Tmpfs (g_tmpfs_files fs) (g_tmpfs_vfs_nodes fs) names (g_tmpfs_vfs_node_count fs), s)) else
      let node := Node path (tf_size (tfile_at fs i)) TMPFS_VFS_READ TMPFS_VFS_WRITE TMPFS_VFS_STAT (index + 1) in
      let fs := Tmpfs (g_tmpfs_files fs) (<[Z.to_nat index := node]> (g_tmpfs_vfs_nodes fs)) names
                  (g_tmpfs_vfs_node_count fs) in
      let '(st, s) := vfs_mount_static s [node] in
      if negb (st =? 0) then (-1, (tmpfs_clear_vfs_slot fs index, s)) else
      (0, (Tmpfs (g_tmpfs_files fs) (g_tmpfs_vfs_nodes fs) (g_tmpfs_vfs_names fs)
             (g_tmpfs_vfs_node_count fs + 1), s))
  | _, _ => (-1, (fs, s))
  end.

(** * The table as a map from names to contents *)

Record tfile_wf (f : tmpfs_file) : Prop := {
  tw_name : length (tf_name f) = 32%nat;
  tw_data : length (tf_data f) = 256%nat;
  tw_size : 0 <= tf_size f <= TMPFS_MAX_FILE_SIZE;
  tw_rest : forall j, tf_size f <= j -> byte_at (tf_data f) j = 0;
  tw_named : tf_used f = true -> str_cut (tf_name f) <> [] }.

Record tmpfs_wf (fs : tmpfs) : Prop := {
  ts_files : length (g_tmpfs_files fs) = 8%nat;
  ts_each : forall i, tfile_wf (tfile_at fs i);
  ts_distinct : forall i j, 0 <= i -> 0 <= j -> tf_used (tfile_at fs i) = true -> tf_used (tfile_at fs j) = true ->
    str_cut (tf_name (tfile_at fs i)) = str_cut (tf_name (tfile_at fs j)) -> i = j;
  ts_names : length (g_tmpfs_vfs_names fs) = 8%nat /\ Forall (fun n => length n = 32%nat) (g_tmpfs_vfs_names fs);
  ts_count : 0 <= g_tmpfs_vfs_node_count fs }.

Definition contents (f : tmpfs_file) : list Z := take (Z.to_nat (tf_size f)) (tf_data f).

Definition is_file (fs : tmpfs) (k : list Z) (i : Z) : Prop :=
  0 <= i < 8 /\ tf_used (tfile_at fs i) = true /\ str_cut (tf_name (tfile_at fs i)) = k.

(** The contents stored under a name. *)
Definition lookup_file (fs : tmpfs) (k : list Z) : option (list Z) :=
  (fun i => contents (tfile_at fs i)) <$> tmpfs_find_file fs (Some k).

Lemma tfile_out fs i : length (g_tmpfs_files fs) = 8%nat -> 8 <= i -> tfile_at fs i = tmpfs_clear_file.
Proof. intros Hl Hi. unfold tfile_at. by rewrite lookup_ge_None_2 by lia. Qed.

Lemma str_cut_head nm : (byte_at nm 0 =? 0) = bool_decide (str_cut nm = []).
Proof. destruct nm as [|c nm]; [done|]. unfold byte_at. simpl. by destruct (Z.eqb_spec c 0). Qed.

Lemma find_file_spec fs nm i :
  tmpfs_wf fs -> tmpfs_find_file fs (Some nm) = Some i <-> is_file fs (str_cut nm) i.
Proof.
  intros Hwf. unfold tmpfs_find_file, is_file. rewrite str_cut_head. unfold tmpfs_name_equals.
  case_bool_decide as E.
  { split; [done|]. intros (_ & Hu & Hn). by destruct (tw_named _ (ts_each fs Hwf i) Hu); rewrite Hn. }
  split.
  - intros Hf. apply find_range_Some in Hf as (Hr & Ht & _). apply andb_true_iff in Ht as [Hu Ht].
    rewrite streq_loop_spec in Ht. apply bool_decide_eq_true in Ht. unfold TMPFS_MAX_FILES in Hr. done.
  - intros (Hr & Hu & Hn).
    destruct (find_range_is_Some 0 TMPFS_MAX_FILES (fun i => tf_used (tfile_at fs i) &&
      streq_loop (tf_name (tfile_at fs i)) nm) i) as (j & Hj & _).
    { unfold TMPFS_MAX_FILES. lia. }
    { cbv beta. rewrite Hu, streq_loop_spec, Hn. by rewrite bool_decide_true. }
    rewrite Hj. apply find_range_Some in Hj as (Hjr & Ht & _). apply andb_true_iff in Ht as [Huj Ht].
    rewrite streq_loop_spec in Ht. apply bool_decide_eq_true in Ht.
    f_equal. apply (ts_distinct fs Hwf); try lia; congruence.
Qed.

Lemma find_file_cut fs nm : tmpfs_wf fs -> tmpfs_find_file fs (Some (str_cut nm)) = tmpfs_find_file fs (Some nm).
Proof. intros Hwf. apply option_eq. intros i. rewrite !find_file_spec by done. by rewrite str_cut_idem. Qed.

Lemma lookup_file_Some fs nm c :
  tmpfs_wf fs -> lookup_file fs nm = Some c <-> exists i, is_file fs (str_cut nm) i /\ c = contents (tfile_at fs i).
Proof.
  intros Hwf. unfold lookup_file. rewrite fmap_Some. split; intros (i & H1 & H2); exists i;
    (split; [by apply find_file_spec|done]).
Qed.

Lemma is_file_unique fs k i j : tmpfs_wf fs -> is_file fs k i -> is_file fs k j -> i = j.
Proof. intros Hwf (? & ? & ?) (? & ? & ?). apply (ts_distinct fs Hwf); try lia; congruence. Qed.

(** ** Replacing one slot *)

Lemma tfile_set fs i f j :
  length (g_tmpfs_files fs) = 8%nat -> 0 <= i < 8 -> 0 <= j ->
  tfile_at (set_tfile fs i f) j = if j =? i then f else tfile_at fs j.
Proof.
  intros Hl Hi Hj. unfold tfile_at, set_tfile. simpl. destruct (Z.eqb_spec j i) as [->|].
  - by rewrite list_lookup_insert_eq by lia.
  - by rewrite list_lookup_insert_ne by lia.
Qed.

Lemma set_tfile_wf fs i f :
  tmpfs_wf fs -> 0 <= i < 8 -> tfile_wf f ->
  (tf_used f = true -> forall j, is_file fs (str_cut (tf_name f)) j -> j = i) -> tmpfs_wf (set_tfile fs i f).
Proof.
  intros Hwf Hi Hf Hfresh. pose proof (fun j => tfile_set fs i f j (ts_files fs Hwf) Hi) as Hat.
  assert (Hno : forall j, 0 <= j -> j <> i -> tf_used f = true -> tf_used (tfile_at fs j) = true ->
    str_cut (tf_name (tfile_at fs j)) <> str_cut (tf_name f)).
  { intros j Hj Hne Huf Hu E. destruct (Z_lt_le_dec j 8).
    - apply Hne. by apply Hfresh.
    - by rewrite tfile_out in Hu by (apply Hwf || done). }
  split.
  - simpl. rewrite length_insert. apply Hwf.
  - intros j. destruct (Z_lt_le_dec j 0).
    + assert (E : tfile_at (set_tfile fs i f) j = tfile_at (set_tfile fs i f) 0).
      { unfold tfile_at. by replace (Z.to_nat j) with (Z.to_nat 0) by lia. }
      rewrite E, Hat by lia. destruct (0 =? i); [done|apply Hwf].
    + rewrite Hat by done. destruct (j =? i); [done|apply Hwf].
  - intros j k Hj Hk. rewrite !Hat by done.
    destruct (Z.eqb_spec j i) as [->|Hji], (Z.eqb_spec k i) as [->|Hki]; auto.
    + intros U1 U2 E. by destruct (Hno k Hk Hki U1 U2).
    + intros U1 U2 E. by destruct (Hno j Hj Hji U2 U1).
    + by apply (ts_distinct fs Hwf).
  - apply Hwf.
  - apply Hwf.
Qed.

Lemma is_file_set fs i f k j :
  tmpfs_wf fs -> 0 <= i < 8 ->
  is_file (set_tfile fs i f) k j <->
  (j = i /\ tf_used f = true /\ str_cut (tf_name f) = k) \/ (j <> i /\ is_file fs k j).
Proof.
  intros Hwf Hi. unfold is_file. destruct (Z_le_gt_dec 0 j); [|lia].
  rewrite tfile_set by (apply Hwf || done). destruct (Z.eqb_spec j i) as [->|]; split; intuition.
Qed.

(** The map after replacing slot [i], which held the name [old] or nothing. *)
Lemma lookup_set fs i f nm :
  tmpfs_wf fs -> 0 <= i < 8 -> tmpfs_wf (set_tfile fs i f) ->
  lookup_file (set_tfile fs i f) nm =
  if tf_used f && bool_decide (str_cut (tf_name f) = str_cut nm) then Some (contents f)
  else if bool_decide (tmpfs_find_file fs (Some nm) = Some i) then None else lookup_file fs nm.
Proof.
  intros Hwf Hi Hwf'. apply option_eq. intros c. rewrite lookup_file_Some by done.
  setoid_rewrite is_file_set; [|done|done].
  destruct (tf_used f && bool_decide (str_cut (tf_name f) = str_cut nm)) eqn:E.
  - apply andb_true_iff in E as [Hu Hn]. apply bool_decide_eq_true in Hn. split.
    + intros (j & [(-> & _ & _)|(Hne & Hj)] & ->).
      * by rewrite tfile_set, Z.eqb_refl by (apply Hwf || lia).
      * exfalso. apply Hne. apply (is_file_unique (set_tfile fs i f) (str_cut nm)); [done| |].
        -- apply is_file_set; [done|done|]. by right.
        -- apply is_file_set; [done|done|]. by left.
    + intros [= <-]. exists i. split; [by left|]. by rewrite tfile_set, Z.eqb_refl by (apply Hwf || lia).
  - assert (Hno : ~ (tf_used f = true /\ str_cut (tf_name f) = str_cut nm)).
    { intros [Hu Hn]. by rewrite Hu, bool_decide_true in E. }
    clear E. case_bool_decide as Ef.
    + split; [|done]. intros (j & [(-> & ? & ?)|(Hne & Hj)] & _); [tauto|]. exfalso. apply Hne.
      apply find_file_spec in Ef; [|done]. apply (is_file_unique fs (str_cut nm)); done.
    + rewrite lookup_file_Some by done. split.
      * intros (j & [(-> & ? & ?)|(Hne & Hj)] & ->); [tauto|]. exists j. split; [done|].
        rewrite tfile_set by (apply Hwf || done || apply Hj). by rewrite (proj2 (Z.eqb_neq j i)).
      * intros (j & Hj & ->). assert (Hne : j <> i) by (intros ->; apply Ef; by apply find_file_spec).
        exists j. split; [by right|]. rewrite tfile_set by (apply Hwf || done || apply Hj).
        by rewrite (proj2 (Z.eqb_neq j i)).
Qed.

Lemma byte_at_zeros n j : byte_at (replicate n 0) j = 0.
Proof.
  unfold byte_at. destruct (replicate n 0 !! Z.to_nat j) as [v|] eqn:E; [|done].
  by apply lookup_replicate in E as [-> _].
Qed.

Lemma clear_file_wf : tfile_wf tmpfs_clear_file.
Proof. split; try done. intros j Hj. apply byte_at_zeros. Qed.

(** ** Copying names *)

Lemma copy_name_loop_spec l : forall dest i,
  length dest = 32%nat -> 0 <= i < 32 ->
  let '(fits, i', dest') := copy_name_loop dest i l in
  length dest' = 32%nat /\
  if i + Z.of_nat (length l) <? 32
  then fits = true /\ i' = i + Z.of_nat (length l) /\ take (Z.to_nat i') dest' = take (Z.to_nat i) dest ++ l
  else fits = false.
Proof.
  induction l as [|c l IH]; intros dest i Hl Hi; cbn [copy_name_loop].
  - split; [done|]. cbn [length]. rewrite Z.add_0_r, app_nil_r. by rewrite (proj2 (Z.ltb_lt i 32)) by lia.
  - unfold TMPFS_MAX_NAME. destruct (Z.geb_spec (i + 1) 32).
    + split; [done|]. cbn [length]. by destruct (Z.ltb_spec (i + Z.of_nat (S (length l))) 32); [lia|].
    + specialize (IH (put i c dest) (i + 1)). rewrite put_length in IH. specialize (IH Hl ltac:(lia)).
      destruct (copy_name_loop (put i c dest) (i + 1) l) as [[fits i'] dest'].
      destruct IH as [Hl' IH]. split; [done|]. cbn [length].
      replace (i + Z.of_nat (S (length l))) with (i + 1 + Z.of_nat (length l)) by lia.
      destruct (i + 1 + Z.of_nat (length l) <? 32); [|done].
      destruct IH as (-> & -> & E). split; [done|]. split; [done|]. rewrite E.
      replace (Z.to_nat (i + 1)) with (S (Z.to_nat i)) by lia. unfold put.
      erewrite take_S_r by (apply list_lookup_insert_eq; lia).
      rewrite take_insert_ge by lia. by rewrite <- app_assoc.
Qed.

(** A name fits when it is not empty and shorter than 32 bytes. *)
Definition name_fits (nm : list Z) : bool :=
  negb (bool_decide (str_cut nm = [])) && (Z.of_nat (length (str_cut nm)) <? TMPFS_MAX_NAME).

Lemma copy_name_spec dest nm :
  length dest = 32%nat ->
  let '(status, dest') := tmpfs_copy_name dest (Some nm) in
  length dest' = 32%nat /\
  if name_fits nm then status = 0 /\ str_cut dest' = str_cut nm else status = -1.
Proof.
  intros Hl. unfold tmpfs_copy_name, name_fits. rewrite str_cut_head.
  destruct (decide (str_cut nm = [])) as [E|E]; [by rewrite bool_decide_true by done|].
  rewrite bool_decide_false by done. cbn [negb andb].
  pose proof (copy_name_loop_spec (str_cut nm) dest 0 Hl ltac:(lia)) as Hs.
  destruct (copy_name_loop dest 0 (str_cut nm)) as [[fits i] dest']. destruct Hs as [Hl' Hs].
  rewrite Z.add_0_l in Hs. unfold TMPFS_MAX_NAME.
  destruct (Z.ltb_spec (Z.of_nat (length (str_cut nm))) 32); [|by subst fits].
  destruct Hs as (-> & -> & Ht). split; [by rewrite put_length|]. split; [done|].
  change (take (Z.to_nat 0) dest) with (@nil Z) in Ht. cbn [app] in Ht.
  unfold put. rewrite insert_take_drop by (rewrite Nat2Z.id; lia).
  rewrite Ht. apply str_cut_app_nul. apply Forall_forall. intros c. apply str_cut_nonzero.
Qed.

(** ** Contents *)

(** Overwrite [b] at [off], zero-filling a gap. *)
Definition splice (off : nat) (b c : list Z) : list Z :=
  take off (c ++ replicate (off - length c) 0) ++ b ++ drop (off + length b) c.

Lemma contents_length f : tfile_wf f -> length (contents f) = Z.to_nat (tf_size f).
Proof.
  intros Hf. unfold contents. rewrite length_take, (tw_data f Hf).
  pose proof (tw_size f Hf). unfold TMPFS_MAX_FILE_SIZE in *. lia.
Qed.

Lemma contents_byte f j : tfile_wf f -> 0 <= j -> byte_at (contents f) j = byte_at (tf_data f) j.
Proof.
  intros Hf Hj. destruct (Z_lt_le_dec j (tf_size f)).
  - unfold contents. apply byte_at_take. lia.
  - rewrite (tw_rest f Hf) by done. apply byte_at_ge. rewrite contents_length by done.
    pose proof (tw_size f Hf). lia.
Qed.

Lemma splice_length off b c : length (splice off b c) = Nat.max (off + length b) (length c).
Proof.
  unfold splice. rewrite !length_app, length_take, length_app, length_replicate, length_drop. lia.
Qed.

Lemma splice_byte off b c j :
  0 <= j -> byte_at (splice off b c) j =
  if (Z.of_nat off <=? j) && (j <? Z.of_nat off + Z.of_nat (length b)) then byte_at b (j - Z.of_nat off) else byte_at c j.
Proof.
  intros Hj. unfold splice. rewrite byte_at_app by done.
  rewrite length_take, length_app, length_replicate.
  replace (off `min` (length c + (off - length c)))%nat with off by lia.
  destruct (Z.ltb_spec j (Z.of_nat off)), (Z.leb_spec (Z.of_nat off) j); try lia; cbn [andb].
  - rewrite byte_at_take by lia. rewrite byte_at_app by done.
    destruct (Z.ltb_spec j (Z.of_nat (length c))); [done|]. rewrite byte_at_zeros. symmetry. apply byte_at_ge. lia.
  - rewrite byte_at_app by lia.
    destruct (Z.ltb_spec (j - Z.of_nat off) (Z.of_nat (length b))),
      (Z.ltb_spec j (Z.of_nat off + Z.of_nat (length b))); try lia.
    rewrite byte_at_drop by lia. f_equal. lia.
Qed.

(** What a write stores. *)
Lemma written_file_wf f off buf n :
  tfile_wf f -> 0 <= off -> 0 <= n -> off + n <= 256 -> n <= Z.of_nat (length buf) ->
  let f' := TmpFile (tf_name f) (copy_bytes (tf_data f) off buf 0 n)
              (if off + n >? tf_size f then off + n else tf_size f) (tf_used f) in
  tfile_wf f' /\ contents f' = splice (Z.to_nat off) (take (Z.to_nat n) buf) (contents f).
Proof.
  intros Hf Ho Hn Hle Hb f'.
  destruct (copy_bytes_spec (tf_data f) off buf 0 n) as [Hl Hbyte]; [done|done|rewrite (tw_data f Hf); lia|].
  pose proof (tw_size f Hf) as Hs. unfold TMPFS_MAX_FILE_SIZE in Hs.
  assert (Hsz : tf_size f' = Z.max (off + n) (tf_size f)).
  { unfold f'. cbn [tf_size]. destruct (Z.gtb_spec (off + n) (tf_size f)); lia. }
  assert (Hwf : tfile_wf f').
  { split.
    - apply Hf.
    - unfold f'. cbn [tf_data]. rewrite Hl. apply Hf.
    - rewrite Hsz. unfold TMPFS_MAX_FILE_SIZE. lia.
    - rewrite Hsz. intros j Hj. unfold f'. cbn [tf_data]. rewrite Hbyte by lia.
      destruct (Z.leb_spec off j), (Z.ltb_spec j (off + n)); cbn [andb]; try lia; apply (tw_rest f Hf); lia.
    - apply Hf. }
  split; [done|]. apply bytes_ext.
  - rewrite contents_length, splice_length, contents_length, length_take by done. rewrite Hsz. lia.
  - intros j [Hj _]. rewrite contents_byte by done. unfold f' at 1. cbn [tf_data]. rewrite Hbyte by done.
    rewrite splice_byte, contents_byte, length_take by done. rewrite Z2Nat.id by done.
    replace (Z.of_nat (Z.to_nat n `min` length buf)) with n by lia.
    destruct (Z.leb_spec off j), (Z.ltb_spec j (off + n)); cbn [andb]; try done.
    rewrite byte_at_take by lia. f_equal; lia.
Qed.

(** What a read returns. *)
Lemma read_bytes f off cap buf :
  tfile_wf f -> 0 <= off <= tf_size f -> 0 <= cap <= Z.of_nat (length buf) ->
  let win := window off cap (contents f) in
  let n := if cap >? tf_size f - off then tf_size f - off else cap in
  n = Z.of_nat (length win) /\ copy_bytes buf 0 (tf_data f) off n = win ++ drop (length win) buf.
Proof.
  intros Hf Ho Hc win n.
  assert (Hwl : length win = Z.to_nat n).
  { unfold win, window, n. rewrite length_take, length_drop, contents_length by done.
    destruct (Z.gtb_spec cap (tf_size f - off)); lia. }
  assert (Hn : 0 <= n <= cap) by (unfold n; destruct (Z.gtb_spec cap (tf_size f - off)); lia).
  split; [lia|].
  destruct (copy_bytes_spec buf 0 (tf_data f) off n) as [Hl Hb]; [done|lia|lia|].
  apply bytes_ext; [rewrite length_app, length_drop; lia|].
  intros j [Hj Hj2]. rewrite Hb, byte_at_app by done. rewrite Hwl, Z2Nat.id by lia.
  destruct (Z.leb_spec 0 j), (Z.ltb_spec j (0 + n)), (Z.ltb_spec j n); cbn [andb]; try lia.
  - unfold win, window. rewrite byte_at_take, byte_at_drop, contents_byte by (done || lia).
    f_equal. lia.
  - rewrite byte_at_drop by lia. f_equal. lia.
Qed.

(** ** Each operation on the map *)

Definition has_free_slot (fs : tmpfs) : Prop := exists i, 0 <= i < 8 /\ tf_used (tfile_at fs i) = false.

Lemma lookup_file_None fs nm : lookup_file fs nm = None <-> tmpfs_find_file fs (Some nm) = None.
Proof. unfold lookup_file. by rewrite fmap_None. Qed.

Lemma name_fits_nonempty nm : name_fits nm = true -> str_cut nm <> [].
Proof. unfold name_fits. by case_bool_decide. Qed.

Lemma create_spec fs nm :
  tmpfs_wf fs ->
  let '(status, fs') := tmpfs_create fs (Some nm) in
  tmpfs_wf fs' /\ (status = 0 \/ status = -1) /\
  (status = 0 <-> name_fits nm = true /\ lookup_file fs nm = None /\ has_free_slot fs) /\
  forall q, lookup_file fs' q =
    if (status =? 0) && bool_decide (str_cut q = str_cut nm) then Some [] else lookup_file fs q.
Proof.
  intros Hwf. unfold tmpfs_create. rewrite str_cut_head.
  destruct (bool_decide (str_cut nm = []) || bool_decide (is_Some (tmpfs_find_file fs (Some nm)))) eqn:Eg.
  { split; [done|]. split; [by right|]. split; [|done]. split; [done|]. intros (Hf & Hl & _).
    apply name_fits_nonempty in Hf. apply lookup_file_None in Hl. rewrite Hl in Eg.
    by rewrite !bool_decide_false in Eg by (done || by intros []). }
  apply orb_false_iff in Eg as [_ Ef]. apply bool_decide_eq_false, eq_None_not_Some in Ef.
  destruct (find_range 0 TMPFS_MAX_FILES _) as [i|] eqn:Ei.
  2: { split; [done|]. split; [by right|]. split; [|done]. split; [done|]. intros (_ & _ & i & Hi & Hu).
       pose proof (find_range_None _ _ _ Ei i ltac:(unfold TMPFS_MAX_FILES; lia)) as Hn. cbv beta in Hn.
       by rewrite Hu in Hn. }
  apply find_range_Some in Ei as (Hi & Hu & _). apply negb_true_iff in Hu. unfold TMPFS_MAX_FILES in Hi.
  pose proof (copy_name_spec (tf_name tmpfs_clear_file) nm eq_refl) as Hc.
  destruct (tmpfs_copy_name _ _) as [status dest]. destruct Hc as [Hdl Hc].
  assert (Hfree : forall q, tmpfs_find_file fs (Some q) <> Some i).
  { intros q Hq. apply find_file_spec in Hq as (_ & Hq & _); [congruence|done]. }
  assert (Hslot : has_free_slot fs) by (exists i; done).
  destruct (name_fits nm) eqn:Hfit.
  - destruct Hc as [-> Hdc]. cbn [Z.eqb negb].
    set (f := TmpFile dest _ 0 true).
    assert (Hf : tfile_wf f).
    { pose proof clear_file_wf as []. split; auto. intros _. unfold f. cbn [tf_name]. rewrite Hdc. by apply name_fits_nonempty. }
    assert (Hwf' : tmpfs_wf (set_tfile fs i f)).
    { apply set_tfile_wf; [done|lia|done|]. intros _ j Hj. exfalso. change (tf_name f) with dest in Hj. rewrite Hdc in Hj.
      apply find_file_spec in Hj; [|done]. congruence. }
    split; [done|]. split; [by left|]. split; [by rewrite lookup_file_None|]. intros q.
    rewrite lookup_set by (done || lia). change (tf_used f) with true. change (tf_name f) with dest. cbn [andb]. rewrite Hdc.
    rewrite (bool_decide_false (tmpfs_find_file fs (Some q) = Some i)) by done.
    rewrite (bool_decide_ext (str_cut nm = str_cut q) (str_cut q = str_cut nm)) by done. done.
  - subst status. cbn [Z.eqb negb]. set (f := TmpFile dest _ _ _).
    assert (Hf : tfile_wf f) by (pose proof clear_file_wf as []; by split).
    assert (Hwf' : tmpfs_wf (set_tfile fs i f)) by (apply set_tfile_wf; [done|lia|done|done]).
    split; [done|]. split; [by right|]. split; [split; [done|by intros []]|]. intros q.
    rewrite lookup_set by (done || lia). change (tf_used f) with false. cbn [andb].
    by rewrite (bool_decide_false (tmpfs_find_file fs (Some q) = Some i)).
Qed.

Lemma find_file_same fs q nm i :
  tmpfs_wf fs -> tmpfs_find_file fs (Some nm) = Some i ->
  tmpfs_find_file fs (Some q) = Some i <-> str_cut q = str_cut nm.
Proof.
  intros Hwf Hf. rewrite find_file_spec in Hf by done. rewrite find_file_spec by done.
  destruct Hf as (? & ? & Hn). unfold is_file. split; [intros (_ & _ & ?); congruence|by intros ->].
Qed.

Lemma delete_spec fs nm :
  tmpfs_wf fs ->
  let '(status, fs') := tmpfs_delete fs (Some nm) in
  tmpfs_wf fs' /\
  status = (if bool_decide (lookup_file fs nm = None) then -1 else 0) /\
  forall q, lookup_file fs' q = if bool_decide (str_cut q = str_cut nm) then None else lookup_file fs q.
Proof.
  intros Hwf. unfold tmpfs_delete. destruct (tmpfs_find_file fs (Some nm)) as [i|] eqn:Ef.
  - assert (Hr : 0 <= i < 8) by (by apply find_file_spec in Ef as [? _]).
    assert (Hwf' : tmpfs_wf (set_tfile fs i tmpfs_clear_file)).
    { apply set_tfile_wf; [done|done|apply clear_file_wf|done]. }
    split; [done|]. split.
    + rewrite bool_decide_false; [done|]. rewrite lookup_file_None. congruence.
    + intros q. rewrite lookup_set by done. cbn [tf_used tmpfs_clear_file andb].
      by rewrite (bool_decide_ext _ _ (find_file_same fs q nm i Hwf Ef)).
  - split; [done|]. split; [by rewrite bool_decide_true by (by apply lookup_file_None)|].
    intros q. case_bool_decide as Eq; [|done]. apply lookup_file_None.
    rewrite <- find_file_cut, Eq, find_file_cut by done. done.
Qed.

Lemma write_spec fs nm off buf size :
  tmpfs_wf fs -> 0 <= off -> 0 <= size <= Z.of_nat (length buf) ->
  let n := Z.min size (TMPFS_MAX_FILE_SIZE - off) in
  let '(status, count, fs') := tmpfs_write fs (Some nm) off (Some buf) size in
  tmpfs_wf fs' /\
  match lookup_file fs nm with
  | Some c =>
      if off <=? TMPFS_MAX_FILE_SIZE then
        status = 0 /\ count = n /\
        forall q, lookup_file fs' q = if bool_decide (str_cut q = str_cut nm)
          then Some (splice (Z.to_nat off) (take (Z.to_nat n) buf) c) else lookup_file fs q
      else status = -1 /\ count = 0 /\ fs' = fs
  | None => status = -1 /\ count = 0 /\ fs' = fs
  end.
Proof.
  intros Hwf Ho Hs n. unfold tmpfs_write, lookup_file at 1.
  destruct (tmpfs_find_file fs (Some nm)) as [i|] eqn:Ef; [|done]. cbn [fmap option_fmap option_map].
  destruct (Z.gtb_spec off TMPFS_MAX_FILE_SIZE), (Z.leb_spec off TMPFS_MAX_FILE_SIZE); try lia; [done|].
  assert (Hn : (if size >? TMPFS_MAX_FILE_SIZE - off then TMPFS_MAX_FILE_SIZE - off else size) = n).
  { unfold n. destruct (Z.gtb_spec size (TMPFS_MAX_FILE_SIZE - off)); lia. }
  rewrite Hn. clear Hn. unfold TMPFS_MAX_FILE_SIZE in *.
  assert (Hr : 0 <= i < 8) by (by apply find_file_spec in Ef as [? _]).
  assert (Hui : tf_used (tfile_at fs i) = true) by (by apply find_file_spec in Ef as (_ & ? & _)).
  assert (Hni : str_cut (tf_name (tfile_at fs i)) = str_cut nm) by (by apply find_file_spec in Ef as (_ & _ & ?)).
  destruct (written_file_wf (tfile_at fs i) off buf n (ts_each fs Hwf i)) as [Hf Hc]; try lia.
  set (f := TmpFile _ _ _ _) in *.
  assert (Hwf' : tmpfs_wf (set_tfile fs i f)).
  { apply set_tfile_wf; [done|done|done|]. intros _ j Hj. change (tf_name f) with (tf_name (tfile_at fs i)) in Hj. rewrite Hni in Hj.
    apply find_file_spec in Hj; [|done]. congruence. }
  split; [done|]. split; [done|]. split; [done|]. intros q. rewrite lookup_set by done.
  change (tf_used f) with (tf_used (tfile_at fs i)). change (tf_name f) with (tf_name (tfile_at fs i)). rewrite Hui, Hni. cbn [andb].
  rewrite (bool_decide_ext (str_cut nm = str_cut q) (str_cut q = str_cut nm)) by done.
  case_bool_decide as Eq; [by rewrite Hc|]. rewrite bool_decide_false; [done|].
  by rewrite (find_file_same fs q nm i Hwf Ef).
Qed.

Lemma read_spec fs nm off buf cap :
  tmpfs_wf fs -> 0 <= off -> 0 <= cap <= Z.of_nat (length buf) ->
  tmpfs_read fs (Some nm) off (Some buf) cap =
  match lookup_file fs nm with
  | Some c =>
      if off <=? Z.of_nat (length c) then
        let win := window off cap c in (0, Z.of_nat (length win), Some (win ++ drop (length win) buf))
      else (-1, 0, Some buf)
  | None => (-1, 0, Some buf)
  end.
Proof.
  intros Hwf Ho Hc. unfold tmpfs_read, lookup_file.
  destruct (tmpfs_find_file fs (Some nm)) as [i|] eqn:Ef; [|done]. cbn [fmap option_fmap option_map].
  pose proof (ts_each fs Hwf i) as Hf. pose proof (tw_size _ Hf) as Hs.
  rewrite contents_length, Z2Nat.id by (done || lia).
  destruct (Z.gtb_spec off (tf_size (tfile_at fs i))), (Z.leb_spec off (tf_size (tfile_at fs i))); try lia; [done|].
  destruct (read_bytes (tfile_at fs i) off cap buf Hf ltac:(lia) Hc) as [Hn Hb]. cbv zeta. cbv zeta in Hn, Hb.
  rewrite Hb, Hn. done.
Qed.

(** * The properties *)

(** C13: tmpfs refines a map from names to byte strings.  tmpfs_create succeeds
    exactly for a fitting, new name while a slot is free and maps it to the
    empty string (never to bytes of a deleted file); tmpfs_delete removes just
    that name; tmpfs_write overwrites at the offset, zero-filling a gap and
    clamping at 256 bytes, and reports the count; tmpfs_read returns exactly
    the window of the contents and leaves the rest of the caller's buffer
    alone.  Every operation keeps the table well formed and every other file
    as it was; failures change nothing. *)
Theorem tmpfs_refines_map (fs : tmpfs) (nm buf : list Z) (off size : Z)
    (Hwf : tmpfs_wf fs) (Hoff : 0 <= off) (Hsize : 0 <= size <= Z.of_nat (length buf)) :
  (let '(status, fs') := tmpfs_create fs (Some nm) in
   tmpfs_wf fs' /\ (status = 0 \/ status = -1) /\
   (status = 0 <-> name_fits nm = true /\ lookup_file fs nm = None /\ has_free_slot fs) /\
   forall q, lookup_file fs' q =
     if (status =? 0) && bool_decide (str_cut q = str_cut nm) then Some [] else lookup_file fs q) /\
  (let '(status, fs') := tmpfs_delete fs (Some nm) in
   tmpfs_wf fs' /\ status = (if bool_decide (lookup_file fs nm = None) then -1 else 0) /\
   forall q, lookup_file fs' q = if bool_decide (str_cut q = str_cut nm) then None else lookup_file fs q) /\
  (let n := Z.min size (TMPFS_MAX_FILE_SIZE - off) in
   let '(status, count, fs') := tmpfs_write fs (Some nm) off (Some buf) size in
   tmpfs_wf fs' /\
   match lookup_file fs nm with
   | Some c =>
       if off <=? TMPFS_MAX_FILE_SIZE then
         status = 0 /\ count = n /\
         forall q, lookup_file fs' q = if bool_decide (str_cut q = str_cut nm)
           then Some (splice (Z.to_nat off) (take (Z.to_nat n) buf) c) else lookup_file fs q
       else status = -1 /\ count = 0 /\ fs' = fs
   | None => status = -1 /\ count = 0 /\ fs' = fs
   end) /\
  tmpfs_read fs (Some nm) off (Some buf) size =
  match lookup_file fs nm with
  | Some c =>
      if off <=? Z.of_nat (length c) then
        let win := window off size c in (0, Z.of_nat (length win), Some (win ++ drop (length win) buf))
      else (-1, 0, Some buf)
  | None => (-1, 0, Some buf)
  end.
Proof.
  split_and!; [by apply create_spec|by apply delete_spec|by apply write_spec|by apply read_spec].
Qed.

(** The state after tmpfs_reset. *)
Definition tmpfs_empty : tmpfs :=
  Tmpfs (replicate 8 tmpfs_clear_file) (replicate 8 null_node) (replicate 8 (replicate 32 0)) 0.

Lemma tmpfs_empty_wf : tmpfs_wf tmpfs_empty.
Proof.
  assert (H : forall i, tfile_at tmpfs_empty i = tmpfs_clear_file).
  { intros i. unfold tfile_at, tmpfs_empty. cbn [g_tmpfs_files].
    destruct (replicate 8 tmpfs_clear_file !! Z.to_nat i) as [f|] eqn:E; [|done].
    by apply lookup_replicate in E as [-> _]. }
  split; try done.
  - intros i. rewrite H. apply clear_file_wf.
  - intros i j _ _ U. by rewrite H in U.
  - split; [done|]. by apply Forall_replicate.
Qed.

(** A file "a" and a stale slot behind it. *)
Definition demo_tmpfs : tmpfs := snd (tmpfs_create tmpfs_empty (Some [97])).

Lemma demo_tmpfs_wf : tmpfs_wf demo_tmpfs.
Proof.
  unfold demo_tmpfs. pose proof (create_spec tmpfs_empty [97] tmpfs_empty_wf) as H.
  destruct (tmpfs_create tmpfs_empty (Some [97])) as [st fs]. by destruct H.
Qed.

Lemma tmpfs_refines_map_witness :
  tmpfs_wf demo_tmpfs /\ lookup_file demo_tmpfs [97] = Some [] /\
  (let '(status, count, fs') := tmpfs_write demo_tmpfs (Some [97]) 2 (Some [5;6;7]) 2 in
   status = 0 /\ count = 2 /\ lookup_file fs' [97] = Some [0;0;5;6]).
Proof.
  split; [apply demo_tmpfs_wf|]. assert (E : lookup_file demo_tmpfs [97] = Some []) by (vm_compute; reflexivity).
  split; [done|].
  pose proof (tmpfs_refines_map demo_tmpfs [97] [5;6;7] 2 2 demo_tmpfs_wf ltac:(lia) ltac:(simpl; lia))
    as (_ & _ & H & _).
  rewrite E in H. cbv zeta in H.
  destruct (tmpfs_write demo_tmpfs (Some [97]) 2 (Some [5;6;7]) 2) as [[st n] fs'].
  destruct H as (_ & H). change (2 <=? TMPFS_MAX_FILE_SIZE) with true in H. destruct H as (H1 & H2 & H3).
  split; [exact H1|]. split; [exact H2|]. rewrite H3. vm_compute. reflexivity.
Defined.

(** ** Through the VFS *)

#[export] Instance tmpfs_backend_ok : BackendOk tmpfs.
Proof. split. done. Qed.

(** What a successful tmpfs_mount_vfs leaves behind. *)
Lemma mount_vfs_spec fs s p nm fs' s' :
  tmpfs_wf fs -> names_wf s -> tmpfs_mount_vfs fs s (Some p) (Some nm) = (0, (fs', s')) ->
  names_wf s' /\ tmpfs_wf fs' /\ (forall q, lookup_file fs' q = lookup_file fs q) /\
  exists i ctx r, vfs_find s' (Some p) = Some i /\
    payload (node_at s' i) = (r, TMPFS_VFS_READ, TMPFS_VFS_WRITE, TMPFS_VFS_STAT, ctx) /\
    (exists d, context_name fs' ctx = Some d /\ str_cut d = str_cut nm).
Proof.
  intros Hwf Hn. unfold tmpfs_mount_vfs. destruct (tmpfs_find_file fs (Some nm)) as [k|] eqn:Ef; [|done].
  destruct (negb (byte_at p 0 =? SLASH) || _) eqn:Eg; [done|].
  apply orb_false_iff in Eg as [_ Hidx]. unfold TMPFS_MAX_FILES in Hidx. b2p.
  destruct (ts_names fs Hwf) as [Hnl Hnb]. pose proof (ts_count fs Hwf) as Hc0.
  set (index := g_tmpfs_vfs_node_count fs) in *.
  destruct (lookup_lt_is_Some_2 (g_tmpfs_vfs_names fs) (Z.to_nat index)) as [d0 Hd0]; [lia|].
  rewrite Hd0. change (default [] (Some d0)) with d0.
  assert (Hd0l : length d0 = 32%nat) by (rewrite Forall_forall in Hnb; apply Hnb; by eapply list_elem_of_lookup_2).
  pose proof (copy_name_spec d0 nm Hd0l) as Hcp.
  destruct (tmpfs_copy_name d0 (Some nm)) as [st dest]. destruct Hcp as [Hdl Hdest].
  destruct (Z.eqb_spec st 0) as [->|]; cbn [negb]; [|done].
  destruct (name_fits nm); [|done]. destruct Hdest as [_ Hdest].
  set (node := Node _ _ _ _ _ _).
  destruct (mount_static_cases s [node] Hn) as [[-> _]|(s1 & nms & -> & _ & _ & Hm & Hn1 & Hin)]; [done|].
  cbn [Z.eqb negb]. intros [= <- <-]. split; [done|]. split.
  { destruct Hwf as [W1 W2 W3 W4 W5]. split; auto; cbn [g_tmpfs_vfs_names g_tmpfs_vfs_node_count].
    - split; [by rewrite length_insert|]. by apply Forall_insert.
    - fold index. lia. }
  split; [done|].
  destruct Hm as (Hnm & _). apply Forall2_cons_inv_l in Hnm as (nm1 & nms' & Hnm1 & _ & ->).
  destruct (in_found _ _ _ _ Hin 0%nat node nm1 eq_refl eq_refl) as (i & Hi & Hname & Hp).
  exists i, (index + 1), (tf_size (tfile_at fs k)). split.
  { apply vfs_find_spec; [done|]. split; [lia|]. by exists nm1. }
  split; [by rewrite Hp|]. exists dest. split; [|done]. unfold context_name. cbn [g_tmpfs_vfs_names].
  destruct (Z.eqb_spec (index + 1) 0); [lia|]. rewrite Z.add_simpl_r. by rewrite list_lookup_insert_eq by lia.
Qed.

(** The callbacks on a context that names a file. *)
Lemma find_file_name fs d nm : tmpfs_wf fs -> str_cut d = str_cut nm ->
  tmpfs_find_file fs (Some d) = tmpfs_find_file fs (Some nm).
Proof. intros Hwf E. by rewrite <- find_file_cut, E, find_file_cut by done. Qed.

Lemma stat_spec fs nm x :
  tmpfs_wf fs -> tmpfs_stat fs (Some nm) x =
  match lookup_file fs nm with Some c => (0, Z.of_nat (length c)) | None => (-1, x) end.
Proof.
  intros Hwf. unfold tmpfs_stat, lookup_file. destruct (tmpfs_find_file fs (Some nm)) as [i|]; [|done].
  cbn [fmap option_fmap option_map]. rewrite contents_length, Z2Nat.id; [done| |apply Hwf].
  apply (tw_size _ (ts_each fs Hwf i)).
Qed.

Lemma lookup_file_cut fs d nm : tmpfs_wf fs -> str_cut d = str_cut nm -> lookup_file fs d = lookup_file fs nm.
Proof. intros Hwf E. unfold lookup_file. by rewrite (find_file_name fs d nm Hwf E). Qed.

(** vfs_node_size of a tmpfs node asks tmpfs. *)
Lemma tmpfs_node_size fs n r ctx d nm c x :
  tmpfs_wf fs -> payload n = (r, TMPFS_VFS_READ, TMPFS_VFS_WRITE, TMPFS_VFS_STAT, ctx) ->
  context_name fs ctx = Some d -> str_cut d = str_cut nm -> lookup_file fs nm = Some c ->
  vfs_node_size n x fs = (0, Z.of_nat (length c), fs).
Proof.
  intros Hwf Hp Hd Hn Hc. unfold payload in Hp. injection Hp as _ _ _ Hst Hctx. unfold vfs_node_size.
  rewrite Hst, Hctx. cbn [Z.eqb TMPFS_VFS_STAT negb call_stat tmpfs_backend Pos.eqb]. unfold tmpfs_vfs_stat.
  rewrite Hd, stat_spec by done. rewrite (lookup_file_cut fs d nm) by done. rewrite Hc. done.
Qed.

Lemma vfs_write_tmpfs fs s p nm i ctx r d c off data size :
  tmpfs_wf fs -> vfs_find s (Some p) = Some i ->
  payload (node_at s i) = (r, TMPFS_VFS_READ, TMPFS_VFS_WRITE, TMPFS_VFS_STAT, ctx) ->
  context_name fs ctx = Some d -> str_cut d = str_cut nm -> lookup_file fs nm = Some c ->
  0 <= off <= Z.of_nat (length c) -> off <= TMPFS_MAX_FILE_SIZE -> 0 <= size <= Z.of_nat (length data) ->
  let n := Z.min size (TMPFS_MAX_FILE_SIZE - off) in
  exists fs', vfs_write s (Some p) off (Some data) size fs = (0, n, fs') /\ tmpfs_wf fs' /\
    g_tmpfs_vfs_names fs' = g_tmpfs_vfs_names fs /\
    forall q, lookup_file fs' q = if bool_decide (str_cut q = str_cut nm)
      then Some (splice (Z.to_nat off) (take (Z.to_nat n) data) c) else lookup_file fs q.
Proof.
  intros Hwf Hf Hp Hd Hn Hc Ho Hm Hs n. unfold vfs_write. rewrite Hf.
  pose proof Hp as Hp'. unfold payload in Hp'. injection Hp' as _ _ Hw _ Hctx.
  rewrite Hw. cbn [Z.eqb TMPFS_VFS_WRITE].
  rewrite (tmpfs_node_size fs (node_at s i) r ctx d nm c 0) by done. cbn [Z.eqb negb orb].
  destruct (Z.gtb_spec off (Z.of_nat (length c))); [lia|].
  cbn [call_write tmpfs_backend]. rewrite Z.eqb_refl. unfold tmpfs_vfs_write. rewrite Hctx, Hd.
  pose proof (write_spec fs d off data size Hwf ltac:(lia) Hs) as Hws. cbv zeta in Hws. fold n in Hws.
  assert (Hnames : forall x, g_tmpfs_vfs_names (snd (tmpfs_write fs (Some d) off x size)) = g_tmpfs_vfs_names fs).
  { intros x. unfold tmpfs_write. destruct (tmpfs_find_file fs (Some d)), x; try done. by destruct (off >? _). }
  specialize (Hnames (Some data)).
  destruct (tmpfs_write fs (Some d) off (Some data) size) as [[st cnt] fs']. cbn [snd] in Hnames.
  rewrite (lookup_file_cut fs d nm), Hc in Hws by done.
  destruct Hws as [Hwf' Hws]. destruct (Z.leb_spec off TMPFS_MAX_FILE_SIZE); [|lia].
  destruct Hws as (-> & -> & Hl). exists fs'. split.
  - unfold write_result, vfs_write_result_valid. cbn [Z.eqb negb orb]. unfold TMPFS_MAX_FILE_SIZE, UINT64_MAX in *.
    destruct (Z.gtb_spec n size); [lia|]. destruct (Z.gtb_spec off (2 ^ 64 - 1 - n)); [lia|]. done.
  - split; [done|]. split; [done|]. intros q. rewrite Hl, Hn. done.
Qed.

Lemma vfs_read_tmpfs fs s p nm i ctx r d c off buf cap :
  tmpfs_wf fs -> vfs_find s (Some p) = Some i ->
  payload (node_at s i) = (r, TMPFS_VFS_READ, TMPFS_VFS_WRITE, TMPFS_VFS_STAT, ctx) ->
  context_name fs ctx = Some d -> str_cut d = str_cut nm -> lookup_file fs nm = Some c ->
  0 <= off <= Z.of_nat (length c) -> 0 <= cap <= Z.of_nat (length buf) ->
  let win := window off cap c in
  vfs_read s (Some p) off (Some buf) cap fs =
    (0, Z.of_nat (length win), Some (win ++ drop (length win) buf), fs).
Proof.
  intros Hwf Hf Hp Hd Hn Hc Ho Hcap win. unfold vfs_read, vfs_find in *.
  destruct (canonicalize (Some p)) as [cn|]; [|done]. rewrite Hf.
  pose proof Hp as Hp'. unfold payload in Hp'. injection Hp' as _ Hr _ _ Hctx.
  rewrite Hr. cbn [Z.eqb TMPFS_VFS_READ].
  rewrite (tmpfs_node_size fs (node_at s i) r ctx d nm c 0) by done. cbn [Z.eqb negb orb].
  destruct (Z.gtb_spec off (Z.of_nat (length c))); [lia|].
  cbn [call_read tmpfs_backend]. rewrite Z.eqb_refl. unfold tmpfs_vfs_read. rewrite Hctx, Hd.
  rewrite read_spec by (done || lia). rewrite (lookup_file_cut fs d nm), Hc by done.
  destruct (Z.leb_spec off (Z.of_nat (length c))); [|lia]. cbv zeta. fold win.
  assert (Hl : Z.of_nat (length win) <= cap /\ Z.of_nat (length win) <= Z.of_nat (length c) - off).
  { unfold win, window. rewrite length_take, length_drop. lia. }
  unfold read_result, vfs_read_result_valid. cbn [Z.eqb negb orb default].
  destruct (Z.gtb_spec off (Z.of_nat (length c))); [lia|].
  destruct (Z.gtb_spec (Z.of_nat (length win)) cap); [lia|]. cbn [orb].
  destruct (Z.leb_spec (Z.of_nat (length win)) (Z.of_nat (length c) - off)); [|lia]. done.
Qed.

(** A tmpfs file mounted in the VFS reads back what was written through the
    VFS: after tmpfs_mount_vfs succeeds, vfs_write at an offset inside the file
    succeeds, reports the count clamped to the 256-byte file, and a following
    vfs_read of any window returns the bytes of the updated contents. *)
Theorem tmpfs_vfs_roundtrip (fs fs1 : tmpfs) (s s1 : vfs) (p nm c data buf : list Z) (off size roff cap : Z)
    (Hfs : tmpfs_wf fs) (Hs : names_wf s) (Hc : lookup_file fs nm = Some c)
    (Hmount : tmpfs_mount_vfs fs s (Some p) (Some nm) = (0, (fs1, s1)))
    (Hoff : 0 <= off <= Z.of_nat (length c)) (Hsize : 0 <= size <= Z.of_nat (length data))
    (Hcap : 0 <= cap <= Z.of_nat (length buf)) :
  let n := Z.min size (TMPFS_MAX_FILE_SIZE - off) in
  let c' := splice (Z.to_nat off) (take (Z.to_nat n) data) c in
  exists fs2, vfs_write s1 (Some p) off (Some data) size fs1 = (0, n, fs2) /\
    (0 <= roff <= Z.of_nat (length c') ->
     let win := window roff cap c' in
     vfs_read s1 (Some p) roff (Some buf) cap fs2 =
       (0, Z.of_nat (length win), Some (win ++ drop (length win) buf), fs2)).
Proof.
  destruct (mount_vfs_spec fs s p nm fs1 s1 Hfs Hs Hmount) as (Hs1 & Hfs1 & Hl & i & ctx & r & Hi & Hp & d & Hd & Hdn).
  assert (Hc256 : off <= TMPFS_MAX_FILE_SIZE).
  { apply lookup_file_Some in Hc as (k & _ & ->); [|done]. rewrite contents_length in Hoff by apply Hfs.
    pose proof (tw_size _ (ts_each fs Hfs k)). lia. }
  assert (Hc1 : lookup_file fs1 nm = Some c) by (by rewrite Hl).
  destruct (vfs_write_tmpfs fs1 s1 p nm i ctx r d c off data size) as (fs2 & Hw & Hfs2 & Hnames & Hl2); try done.
  cbv zeta. exists fs2. split; [done|]. intros Hr.
  apply (vfs_read_tmpfs fs2 s1 p nm i ctx r d); try done.
  - unfold context_name in *. by rewrite Hnames.
  - rewrite Hl2. by rewrite bool_decide_true.
Qed.

(** "a" mounted at "/tmp/a". *)
Lemma tmpfs_vfs_roundtrip_witness :
  fst (tmpfs_mount_vfs demo_tmpfs vfs_empty (Some [47;116;109;112;47;97]) (Some [97])) = 0 /\
  exists fs2, vfs_write (snd (snd (tmpfs_mount_vfs demo_tmpfs vfs_empty (Some [47;116;109;112;47;97]) (Some [97]))))
      (Some [47;116;109;112;47;97]) 0 (Some [5;6;7]) 3
      (fst (snd (tmpfs_mount_vfs demo_tmpfs vfs_empty (Some [47;116;109;112;47;97]) (Some [97])))) = (0, 3, fs2) /\
    vfs_read (snd (snd (tmpfs_mount_vfs demo_tmpfs vfs_empty (Some [47;116;109;112;47;97]) (Some [97]))))
      (Some [47;116;109;112;47;97]) 1 (Some [9;9;9]) 3 fs2 = (0, 2, Some [6;7;9], fs2).
Proof.
  set (r := tmpfs_mount_vfs demo_tmpfs vfs_empty (Some [47;116;109;112;47;97]) (Some [97])).
  assert (E : fst r = 0) by (vm_compute; reflexivity). split; [exact E|].
  assert (Hr : r = (0, (fst (snd r), snd (snd r)))).
  { rewrite (pair_of_fst r 0 E) at 1. by destruct (snd r). }
  assert (Hc : lookup_file demo_tmpfs [97] = Some []) by (vm_compute; reflexivity).
  pose proof (tmpfs_vfs_roundtrip demo_tmpfs (fst (snd r)) vfs_empty (snd (snd r)) [47;116;109;112;47;97] [97] []
    [5;6;7] [9;9;9] 0 3 1 3 demo_tmpfs_wf vfs_empty_names Hc Hr ltac:(simpl; lia) ltac:(simpl; lia) ltac:(simpl; lia))
    as (fs2 & H1 & H2).
  exists fs2. split; [exact H1|]. specialize (H2 ltac:(vm_compute; split; discriminate)). exact H2.
Defined.
