(* ===== verification/Syscalls.v ===== *)
(** The system calls: kernel/syscall.c, syscall_vfs.c, syscall_vfs_metadata.c,
    syscall_vfs_fsinfo.c, vfs_fsinfo.c, syscall_ipc.c, syscall_process.c and
    syscall_info.c.

    The state is the process table (with RAM, TTBR0 and the file layer in its
    world), the message queue, the input queue, the characters sent to the
    serial line and the tick counters.  A call returns [None] when the kernel
    takes a data abort on a user pointer.  [process] is the index of the
    calling process, [None] for a null pointer.  Uninitialised stack buffers
    start as zero bytes. *)

From S2P Require Import Prelude.
From S2P Require Import PageAlloc.
From S2P Require Import Vmm.
From S2P Require Import ProcessRegions.
From S2P Require Import UserVm.
From S2P Require Import Process.
From S2P Require Import Bytes.
From S2P Require Import Ipc.
From S2P Require Import VfsPath.
From S2P Require Import Vfs.
From S2P Require Import VfsHandles.
From S2P Require Import Input.
From S2P Require Import Print.
From S2P Require Import UserCopy.
Open Scope arm.

Definition FD_STDIN : Z := 0.
Definition FD_STDOUT : Z := 1.
Definition FD_STDERR : Z := 2.
Definition FD_FILE_BASE : Z := 3.
Definition SYSCALL_VFS_IO_CHUNK : Z := 256.
Definition SYSCALL_READDIR_V2_MAX_ENTRIES : Z := 8.
Definition KERNEL_USER_KILL_EXIT_CODE : Z := 0x80.
Definition AARCH64_SPSR_EL1H_DAIF_MASKED : Z := 0x3c5.
Definition UINT32_MAX : Z := 2 ^ 32 - 1.

(** An [int64_t] (here: the value of a [uint64_t]) converted to [int]. *)
Definition to_int (v : Z) : Z := let w := u32 v in if w <? 2 ^ 31 then w else w - 2 ^ 32.

(** The descriptor passed to the VFS: [(int64_t)fd - FD_FILE_BASE]. *)
Definition vfs_fd_of (fd : Z) : Z := to_int (s64 fd - FD_FILE_BASE).

(** The bytes of an [n]-byte little-endian object. *)
Fixpoint le_bytes (n : nat) (v : Z) : list Z :=
  match n with O => [] | S n' => v mod 256 :: le_bytes n' (v / 256) end.

Record kernel (A W : Type) := Kernel {
  k_tab : ptable A (vfs * W);
  k_ipc : ipc;
  k_input : input;
  k_uart : list Z;
  k_timer_ticks : Z;
  k_sched_ticks : Z;
  k_sched_quantums : Z }.
Arguments Kernel {A W} _ _ _ _ _ _ _.
Arguments k_tab {A W} _.
Arguments k_ipc {A W} _.
Arguments k_input {A W} _.
Arguments k_uart {A W} _.
Arguments k_timer_ticks {A W} _.
Arguments k_sched_ticks {A W} _.
Arguments k_sched_quantums {A W} _.

Section Calls.
Context {A W : Type} `{PageAllocator A} `{Backend W} (gui_destroy_windows_for_pid : Z -> W -> W).
Implicit Types (k : kernel A W) (process : option nat).

#[local] Instance exit_hooks : ExitHooks (vfs * W) := vfs_exit_hooks gui_destroy_windows_for_pid.

Definition set_tab k (t : ptable A (vfs * W)) : kernel A W :=
  Kernel t (k_ipc k) (k_input k) (k_uart k) (k_timer_ticks k) (k_sched_ticks k) (k_sched_quantums k).
Definition set_world k (w : vfs * W) : kernel A W :=
  set_tab k (let t := k_tab k in PTable (objects t) (g_current_process t) (g_process_count t) (mem t) (ttbr0 t) w).
Definition set_machine k (m : mach A) : kernel A W := set_tab k (set_mem (k_tab k) m).
Definition set_ipc k (q : ipc) : kernel A W :=
  Kernel (k_tab k) q (k_input k) (k_uart k) (k_timer_ticks k) (k_sched_ticks k) (k_sched_quantums k).
Definition set_input k (q : input) : kernel A W :=
  Kernel (k_tab k) (k_ipc k) q (k_uart k) (k_timer_ticks k) (k_sched_ticks k) (k_sched_quantums k).
Definition uart_put k (cs : list Z) : kernel A W :=
  Kernel (k_tab k) (k_ipc k) (k_input k) (k_uart k ++ cs) (k_timer_ticks k) (k_sched_ticks k) (k_sched_quantums k).

Definition kmem k : mach A := mem (k_tab k).
Definition ktt k : Z := ttbr0 (k_tab k).
Definition kworld k : vfs * W := world (k_tab k).
Definition proc k process : option ProcessRegions.process := obj (k_tab k) <$> process.

(** The helpers of syscall_helpers.c on the kernel state; pointers and lengths
    are [uint64_t] parameters. *)
Definition buf_in k process ptr len : Z := sys_user_buf_in (kmem k) (proc k process) (u64 ptr) (u64 len).
Definition buf_out k process ptr len : Z := sys_user_buf_out (kmem k) (proc k process) (u64 ptr) (u64 len).
Definition copy_from k process (out : list Z) ptr len : option (Z * list Z) :=
  match sys_copy_from_user (kmem k) (ktt k) (proc k process) (Some out) 0 (u64 ptr) (u64 len) with
  | None => None
  | Some (status, out') => Some (status, default out out')
  end.
Definition copy_to k process ptr (input : list Z) len : option (Z * kernel A W) :=
  match sys_copy_to_user (kmem k) (ktt k) (proc k process) (u64 ptr) (Some input) (u64 len) with
  | None => None
  | Some (status, m) => Some (status, set_machine k m)
  end.
Definition copy_cstr k process ptr (capacity : Z) : option (Z * list Z) :=
  match sys_user_copy_cstr (kmem k) (ktt k) (proc k process) (u64 ptr) (Some (replicate (Z.to_nat capacity) 0)) 0 capacity with
  | None => None
  | Some (status, out) => Some (status, default [] out)
  end.

(** * syscall_vfs.c *)

Definition syscall_vfs_chunk_size (remaining : Z) : Z :=
  if remaining >? SYSCALL_VFS_IO_CHUNK then SYSCALL_VFS_IO_CHUNK else remaining.

Definition kernel_buffer : list Z := replicate (Z.to_nat SYSCALL_VFS_IO_CHUNK) 0.

(** [total != 0 ? (int64_t)total : status] *)
Definition partial (total status : Z) : Z := if negb (total =? 0) then s64 total else status.

(** The loop of sys_write on a file: [while (total < len)]. *)
Fixpoint write_file_loop (fuel : nat) process (vfs_fd buf len total : Z) (kb : list Z) k : option (Z * kernel A W) :=
  match fuel with
  | O => Some (s64 total, k)
  | S fuel' =>
      if total <? len then
        let requested := syscall_vfs_chunk_size (len - total) in
        match copy_from k process kb (u64 (buf + total)) requested with
        | None => None
        | Some (status, kb) =>
            if negb (status =? 0) then Some (partial total status, k) else
            let '(status, bytes_written, w) := vfs_write_fd (k_tab k) vfs_fd (Some kb) requested (kworld k) in
            let k := set_world k w in
            if negb (status =? 0) then Some (partial total ERR_BADF, k) else
            let total := u64 (total + bytes_written) in
            if bytes_written <? requested then Some (s64 total, k)
            else write_file_loop fuel' process vfs_fd buf len total kb k
        end
      else Some (s64 total, k)
  end.

(** The loop of sys_write on the serial line. *)
Fixpoint write_uart_loop (fuel : nat) process (buf len total : Z) (kb : list Z) k : option (Z * kernel A W) :=
  match fuel with
  | O => Some (s64 total, k)
  | S fuel' =>
      if total <? len then
        let requested := syscall_vfs_chunk_size (len - total) in
        match copy_from k process kb (u64 (buf + total)) requested with
        | None => None
        | Some (status, kb) =>
            if negb (status =? 0) then Some (partial total status, k) else
            write_uart_loop fuel' process buf len (u64 (total + requested)) kb
              (uart_put k (take (Z.to_nat requested) kb))
        end
      else Some (s64 total, k)
  end.

(** Every iteration transfers at least one byte. *)
Definition io_fuel (len : Z) : nat := S (Z.to_nat len).

Definition sys_write process (fd buf len : Z) k : option (Z * kernel A W) :=
  let status := buf_in k process buf len in
  if negb (status =? 0) then Some (status, k) else
  if fd >=? FD_FILE_BASE then
    let vfs_fd := vfs_fd_of fd in
    if len =? 0 then
      if buf =? 0 then Some (ERR_BADF, k) else
      let '(status, bytes_written, w) := vfs_write_fd (k_tab k) vfs_fd (Some kernel_buffer) 0 (kworld k) in
      Some (if negb (status =? 0) then ERR_BADF else s64 bytes_written, set_world k w)
    else write_file_loop (io_fuel len) process vfs_fd buf len 0 kernel_buffer k
  else if negb (fd =? FD_STDOUT) && negb (fd =? FD_STDERR) then Some (ERR_BADF, k)
  else write_uart_loop (io_fuel len) process buf len 0 kernel_buffer k.

Definition sys_open process (path_ptr flags : Z) k : option (Z * kernel A W) :=
  if (flags &? u32 (Z.lnot VFS_O_ALLOWED)) || (Z.land flags VFS_O_ACCMODE =? VFS_O_ACCMODE) then Some (ERR_INVAL, k) else
  match copy_cstr k process path_ptr VFS_MAX_PATH with
  | None => None
  | Some (status, path) =>
      if negb (status =? 0) then Some (ERR_INVAL, k) else
      let '(fd, w) := vfs_open_flags (k_tab k) (Some path) (u32 flags) (kworld k) in
      Some (if fd <? 0 then ERR_NOENT else fd + FD_FILE_BASE, set_world k w)
  end.

Definition sys_close (fd : Z) k : option (Z * kernel A W) :=
  if fd <? FD_FILE_BASE then Some (ERR_BADF, k) else
  let '(status, s) := vfs_close (k_tab k) (vfs_fd_of fd) (fst (kworld k)) in
  Some (if negb (status =? 0) then ERR_BADF else 0, set_world k (s, snd (kworld k))).

Definition sys_seek (fd offset whence : Z) k : option (Z * kernel A W) :=
  if (fd <? FD_FILE_BASE) || negb (whence =? 0) then Some (ERR_INVAL, k) else
  let '(status, w) := vfs_seek (k_tab k) (vfs_fd_of fd) offset (kworld k) in
  Some (if negb (status =? 0) then ERR_BADF else s64 offset, set_world k w).

(** The loop of sys_read on a file. *)
Fixpoint read_file_loop (fuel : nat) process (vfs_fd buf len total : Z) (kb : list Z) k : option (Z * kernel A W) :=
  match fuel with
  | O => Some (s64 total, k)
  | S fuel' =>
      if total <? len then
        let requested := syscall_vfs_chunk_size (len - total) in
        let '(status, bytes_read, kb', w) := vfs_read_fd (k_tab k) vfs_fd (Some kb) requested (kworld k) in
        let kb := default kb kb' in
        let k := set_world k w in
        if negb (status =? 0) then Some (partial total ERR_BADF, k) else
        if bytes_read =? 0 then Some (s64 total, k) else
        match copy_to k process (u64 (buf + total)) kb bytes_read with
        | None => None
        | Some (status, k) =>
            if negb (status =? 0) then Some (partial total status, k) else
            let total := u64 (total + bytes_read) in
            if bytes_read <? requested then Some (s64 total, k)
            else read_file_loop fuel' process vfs_fd buf len total kb k
        end
      else Some (s64 total, k)
  end.

Definition sys_read process (fd buf len : Z) k : option (Z * kernel A W) :=
  if fd =? FD_STDIN then
    let status := buf_out k process buf len in
    if negb (status =? 0) then Some (status, k) else
    if len =? 0 then Some (0, k) else
    let '(c, q) := input_queue_poll_char (k_input k) in
    let k := set_input k q in
    if c <? 0 then Some (ERR_AGAIN, k) else
    match copy_to k process buf (put 0 (u8 c) kernel_buffer) 1 with
    | None => None
    | Some (status, k) => Some (if status =? 0 then 1 else status, k)
    end
  else if fd <? FD_FILE_BASE then Some (ERR_BADF, k) else
  let status := buf_out k process buf len in
  if negb (status =? 0) then Some (status, k) else
  if len =? 0 then
    if buf =? 0 then Some (ERR_BADF, k) else
    let '(status, bytes_read, _, w) := vfs_read_fd (k_tab k) (vfs_fd_of fd) (Some kernel_buffer) 0 (kworld k) in
    Some (if negb (status =? 0) then ERR_BADF else s64 bytes_read, set_world k w)
  else read_file_loop (io_fuel len) process (vfs_fd_of fd) buf len 0 kernel_buffer k.

Definition sys_stat process (path_ptr stat_ptr : Z) k : option (Z * kernel A W) :=
  match copy_cstr k process path_ptr VFS_MAX_PATH with
  | None => None
  | Some (status, path) =>
      if negb (status =? 0) || negb (buf_out k process stat_ptr 8 =? 0) then Some (ERR_INVAL, k) else
      let '(status, size, w) := vfs_stat (fst (kworld k)) (Some path) 0 (snd (kworld k)) in
      let k := set_world k (fst (kworld k), w) in
      if negb (status =? 0) then Some (ERR_NOENT, k) else
      match copy_to k process stat_ptr (le_bytes 8 size) 8 with
      | None => None
      | Some (status, k) => Some (if status =? 0 then 0 else ERR_INVAL, k)
      end
  end.

Fixpoint readdir_loop (fuel : nat) process (path : list Z) (buf len total : Z) (kb : list Z) k
    : option (Z * kernel A W) :=
  match fuel with
  | O => Some (s64 total, k)
  | S fuel' =>
      if total <? len then
        let requested := syscall_vfs_chunk_size (len - total) in
        let '(status, bytes_written, kb', w) :=
          vfs_list_at (fst (kworld k)) (Some path) total (Some kb) requested (snd (kworld k)) in
        let kb := default kb kb' in
        let k := set_world k (fst (kworld k), w) in
        if negb (status =? 0) then Some (partial total ERR_NOENT, k) else
        if bytes_written =? 0 then Some (s64 total, k) else
        match copy_to k process (u64 (buf + total)) kb bytes_written with
        | None => None
        | Some (status, k) =>
            if negb (status =? 0) then Some (partial total status, k) else
            let total := u64 (total + bytes_written) in
            if bytes_written <? requested then Some (s64 total, k)
            else readdir_loop fuel' process path buf len total kb k
        end
      else Some (s64 total, k)
  end.

Definition sys_readdir process (path_ptr buf len : Z) k : option (Z * kernel A W) :=
  match copy_cstr k process path_ptr VFS_MAX_PATH with
  | None => None
  | Some (status, path) =>
      if negb (status =? 0) || negb (buf_out k process buf len =? 0) then Some (ERR_INVAL, k) else
      if len =? 0 then
        if buf =? 0 then Some (ERR_NOENT, k) else
        let '(status, bytes_written, _, w) :=
          vfs_list_at (fst (kworld k)) (Some path) 0 (Some kernel_buffer) 0 (snd (kworld k)) in
        Some (if negb (status =? 0) then ERR_NOENT else s64 bytes_written, set_world k (fst (kworld k), w))
      else readdir_loop (io_fuel len) process path buf len 0 kernel_buffer k
  end.

Definition sys_unlink process (path_ptr : Z) k : option (Z * kernel A W) :=
  match copy_cstr k process path_ptr VFS_MAX_PATH with
  | None => None
  | Some (status, path) =>
      if negb (status =? 0) then Some (ERR_INVAL, k) else
      let '(status, w) := vfs_unlink (Some path) (kworld k) in
      Some (if negb (status =? 0) then ERR_NOENT else 0, set_world k w)
  end.

Definition sys_rename process (old_ptr new_ptr : Z) k : option (Z * kernel A W) :=
  match copy_cstr k process old_ptr VFS_MAX_PATH with
  | None => None
  | Some (status, old_path) =>
      if negb (status =? 0) then Some (ERR_INVAL, k) else
      match copy_cstr k process new_ptr VFS_MAX_PATH with
      | None => None
      | Some (status, new_path) =>
          if negb (status =? 0) then Some (ERR_INVAL, k) else
          let '(status, w) := vfs_rename (Some old_path) (Some new_path) (kworld k) in
          Some (if negb (status =? 0) then ERR_NOENT else 0, set_world k w)
      end
  end.

(** * syscall_vfs_metadata.c *)

(** The bytes of arm_stat_v2_t and arm_dirent_v2_t. *)
Definition stat_v2_bytes (s : arm_stat_v2) : list Z :=
  le_bytes 4 (st2_version s) ++ le_bytes 4 (st2_struct_size s) ++ le_bytes 8 (st2_size s) ++
  le_bytes 4 (st2_type s) ++ le_bytes 4 (st2_attributes s) ++ le_bytes 8 (st2_reserved s).
Definition dirent_v2_bytes (d : arm_dirent_v2) : list Z :=
  le_bytes 4 (de2_version d) ++ le_bytes 4 (de2_struct_size d) ++ le_bytes 8 (de2_size d) ++
  le_bytes 4 (de2_type d) ++ le_bytes 4 (de2_attributes d) ++ le_bytes 8 (de2_reserved d) ++ de2_name d.

(** A caller's structure starts with its version and size: the import of that
    header and the checks of both, shared by sys_stat_v2 and sys_fsinfo. *)
Definition check_header k process (ptr version size : Z) : option bool :=
  if negb (buf_in k process ptr 8 =? 0) then Some false else
  match copy_from k process (replicate 8 0) ptr 8 with
  | None => None
  | Some (status, header) =>
      Some ((status =? 0) && (le_value (take 4 header) =? version) && (le_value (drop 4 header) =? size) &&
            (buf_out k process ptr size =? 0))
  end.

Definition sys_stat_v2 process (path_ptr stat_ptr : Z) k : option (Z * kernel A W) :=
  match copy_cstr k process path_ptr VFS_MAX_PATH with
  | None => None
  | Some (status, path) =>
      if negb (status =? 0) then Some (ERR_INVAL, k) else
      match check_header k process stat_ptr ARM_VFS_METADATA_VERSION 32 with
      | None => None
      | Some false => Some (ERR_INVAL, k)
      | Some true =>
          let '(status, stat, w) := vfs_stat_v2 (fst (kworld k)) (Some path) vfs_public_clear_stat (snd (kworld k)) in
          let k := set_world k (fst (kworld k), w) in
          if negb (status =? 0) then Some (ERR_NOENT, k) else
          match copy_to k process stat_ptr (stat_v2_bytes stat) 32 with
          | None => None
          | Some (status, k) => Some (if status =? 0 then 0 else ERR_INVAL, k)
          end
      end
  end.

Definition sys_readdir_v2 process (path_ptr start_index entries_ptr max_entries : Z) k : option (Z * kernel A W) :=
  if (max_entries =? 0) || (max_entries >? SYSCALL_READDIR_V2_MAX_ENTRIES) || (max_entries >? UINT64_MAX / 96)
  then Some (ERR_INVAL, k) else
  let bytes := u64 (max_entries * 96) in
  match copy_cstr k process path_ptr VFS_MAX_PATH with
  | None => None
  | Some (status, path) =>
      if negb (status =? 0) || negb (buf_out k process entries_ptr bytes =? 0) then Some (ERR_INVAL, k) else
      let '(status, written, entries, w) :=
        vfs_readdir_v2 (fst (kworld k)) (Some path) start_index (Some (replicate 8 vfs_public_clear_dirent))
          max_entries (snd (kworld k)) in
      let k := set_world k (fst (kworld k), w) in
      if negb (status =? 0) then Some (ERR_NOENT, k) else
      if written >? max_entries then Some (ERR_INVAL, k) else
      if written =? 0 then Some (s64 written, k) else
      match copy_to k process entries_ptr (concat (dirent_v2_bytes <$> default [] entries)) (u64 (written * 96)) with
      | None => None
      | Some (status, k) => Some (if status =? 0 then s64 written else ERR_INVAL, k)
      end
  end.

(** * vfs_fsinfo.c and syscall_vfs_fsinfo.c *)

Definition ARM_FSINFO_VERSION : Z := 1.
Definition ARM_FS_NAME_MAX : Z := 16.

Record arm_fsinfo := ArmFsInfo {
  fi_version : Z; fi_struct_size : Z; fi_total_bytes : Z; fi_free_bytes : Z; fi_block_size : Z;
  fi_max_name_length : Z; fi_max_path_length : Z; fi_flags : Z; fi_filesystem : list Z; fi_reserved : Z }.

Definition fsinfo_bytes (i : arm_fsinfo) : list Z :=
  le_bytes 4 (fi_version i) ++ le_bytes 4 (fi_struct_size i) ++ le_bytes 8 (fi_total_bytes i) ++
  le_bytes 8 (fi_free_bytes i) ++ le_bytes 4 (fi_block_size i) ++ le_bytes 4 (fi_max_name_length i) ++
  le_bytes 4 (fi_max_path_length i) ++ le_bytes 4 (fi_flags i) ++ fi_filesystem i ++ le_bytes 8 (fi_reserved i).

Definition vfs_public_clear_fsinfo : arm_fsinfo := ArmFsInfo ARM_FSINFO_VERSION 64 0 0 0 0 0 0 (replicate 16 0) 0.

(** [while (i < VFS_FILESYSTEM_NAME_MAX && source[i] != 0)]: the destination,
    and the end index unless the name does not fit. *)
Fixpoint copy_fs_loop (fuel : nat) (destination source : list Z) (i : Z) : option Z * list Z :=
  match fuel with
  | O => (Some i, destination)
  | S fuel' =>
      if (i <? VFS_FILESYSTEM_NAME_MAX) && negb (byte_at source i =? 0) then
        if i + 1 >=? ARM_FS_NAME_MAX then (None, destination)
        else copy_fs_loop fuel' (put i (byte_at source i) destination) source (i + 1)
      else (Some i, destination)
  end.

Definition vfs_public_copy_filesystem (destination source : list Z) : Z * list Z :=
  if byte_at source 0 =? 0 then (ARMONIOS_ERR_RANGE, destination) else
  match copy_fs_loop (S (Z.to_nat VFS_FILESYSTEM_NAME_MAX)) destination source 0 with
  | (None, destination) => (ARMONIOS_ERR_RANGE, destination)
  | (Some i, destination) =>
      if i =? VFS_FILESYSTEM_NAME_MAX then (ARMONIOS_ERR_RANGE, destination) else (0, put i 0 destination)
  end.

Definition vfs_fsinfo_v1 (s : vfs) (path : option (list Z)) (info : option arm_fsinfo) (w : W)
    : Z * option arm_fsinfo * W :=
  match path, info with
  | Some _, Some _ =>
      let '(status, native, w) := vfs_fsinfo s path vfs_fsinfo_clear w in
      if negb (status =? 0) then (status, info, w) else
      let c := vfs_public_clear_fsinfo in
      let '(status, filesystem) := vfs_public_copy_filesystem (fi_filesystem c) (filesystem native) in
      (status, Some (ArmFsInfo (fi_version c) (fi_struct_size c) (total_bytes native) (free_bytes native)
         (block_size native) (max_name_length native) (max_path_length native) (fs_flags native) filesystem
         (fi_reserved c)), w)
  | _, _ => (ARMONIOS_ERR_INVAL, info, w)
  end.

Definition sys_fsinfo process (path_ptr info_ptr : Z) k : option (Z * kernel A W) :=
  match copy_cstr k process path_ptr VFS_MAX_PATH with
  | None => None
  | Some (status, path) =>
      if negb (status =? 0) then Some (ERR_INVAL, k) else
      match check_header k process info_ptr ARM_FSINFO_VERSION 64 with
      | None => None
      | Some false => Some (ERR_INVAL, k)
      | Some true =>
          let '(status, info, w) := vfs_fsinfo_v1 (fst (kworld k)) (Some path) (Some vfs_public_clear_fsinfo) (snd (kworld k)) in
          let k := set_world k (fst (kworld k), w) in
          if negb (status =? 0) then Some (status, k) else
          match copy_to k process info_ptr (fsinfo_bytes (default vfs_public_clear_fsinfo info)) 64 with
          | None => None
          | Some (status, k) => Some (if status =? 0 then 0 else ERR_INVAL, k)
          end
      end
  end.

(** * syscall_ipc.c *)

Definition sys_ipc_send process (target_pid buf len : Z) k : option (Z * kernel A W) :=
  match proc k process with
  | None => Some (ERR_INVAL, k)
  | Some p =>
      if (target_pid =? 0) || (len =? 0) || (target_pid >? UINT32_MAX) || (len >? IPC_MAX_MESSAGE_SIZE)
      then Some (ERR_INVAL, k) else
      match copy_from k process (replicate 16 0) buf len with
      | None => None
      | Some (status, payload) =>
          if negb (status =? 0) then Some (status, k) else
          let '(status, q) := ipc_send (k_ipc k) (pid p) (u32 target_pid) (Some payload) (u32 len) in
          Some (if negb (status =? 0) then ERR_AGAIN else s64 len, set_ipc k q)
      end
  end.

Definition sys_ipc_recv process (buf capacity : Z) k : option (Z * kernel A W) :=
  match proc k process with
  | None => Some (ERR_INVAL, k)
  | Some p =>
      if negb (capacity =? IPC_MAX_MESSAGE_SIZE) then Some (ERR_INVAL, k) else
      let status := buf_out k process buf capacity in
      if negb (status =? 0) then Some (status, k) else
      let '(status, message, q) := ipc_recv (k_ipc k) (pid p) (Some (Message 0 0 0 (replicate 16 0))) in
      let k := set_ipc k q in
      if negb (status =? 0) then Some (ERR_AGAIN, k) else
      match message with
      | None => Some (ERR_AGAIN, k)
      | Some m =>
          if msg_size m >? capacity then Some (ERR_INVAL, k) else
          match copy_to k process buf (data m) (msg_size m) with
          | None => None
          | Some (status, k) => Some (if negb (status =? 0) then status else s64 (msg_size m), k)
          end
      end
  end.

(** * syscall_info.c *)

(** Page counts are the allocator's, as arguments. *)
Definition sys_meminfo (total free : A -> Z) process (info_ptr : Z) k : option (Z * kernel A W) :=
  copy_to k process info_ptr (le_bytes 8 (total (m_pa (kmem k))) ++ le_bytes 8 (free (m_pa (kmem k)))) 16.

Definition sys_timeinfo process (info_ptr : Z) k : option (Z * kernel A W) :=
  copy_to k process info_ptr
    (le_bytes 8 (k_timer_ticks k) ++ le_bytes 8 (k_sched_ticks k) ++ le_bytes 8 (k_sched_quantums k)) 24.

Definition process_state_code (s : process_state) : Z :=
  match s with
  | PROCESS_UNUSED => 0 | PROCESS_READY => 1 | PROCESS_RUNNING => 2 | PROCESS_BLOCKED => 3 | PROCESS_ZOMBIE => 4
  end.

(** [entry.name]: the first 15 characters, padded with zeros to 16. *)
Definition entry_name (p : ProcessRegions.process) : list Z :=
  let n := match name p with NameNull => [] | NameStorage => take 15 (str_cut (name_storage p)) end in
  n ++ replicate (16 - length n) 0.

Definition process_entry_bytes (p : ProcessRegions.process) : list Z :=
  le_bytes 4 (pid p) ++ le_bytes 4 (process_state_code (state p)) ++ entry_name p.

(** [for (i = 0; i < PROCESS_MAX_PROCESSES && written < max_entries; i++)]; the
    entries are stored with kmemcpy into the buffer checked before. *)
Fixpoint proclist_loop (n : nat) (i entries_ptr max_entries written : Z) k : option (Z * kernel A W) :=
  match n with
  | O => Some (s64 written, k)
  | S n' =>
      if negb (written <? max_entries) then Some (s64 written, k) else
      match process_at (k_tab k) i with
      | None => proclist_loop n' (i + 1) entries_ptr max_entries written k
      | Some slot =>
          let p := obj (k_tab k) slot in
          if bool_decide (state p = PROCESS_ZOMBIE) then proclist_loop n' (i + 1) entries_ptr max_entries written k else
          match copy_out 24 (ktt k) (u64 (entries_ptr + written * 24)) (process_entry_bytes p) 0 (kmem k) with
          | None => None
          | Some m => proclist_loop n' (i + 1) entries_ptr max_entries (written + 1) (set_machine k m)
          end
      end
  end.

Definition sys_proclist process (entries_ptr max_entries : Z) k : option (Z * kernel A W) :=
  if max_entries =? 0 then Some (0, k) else
  if max_entries >? PROCESS_MAX_PROCESSES then Some (ERR_INVAL, k) else
  let status := buf_out k process entries_ptr (max_entries * 24) in
  if negb (status =? 0) then Some (status, k) else
  proclist_loop (Z.to_nat PROCESS_MAX_PROCESSES) 0 entries_ptr max_entries 0 k.

(** * syscall_process.c *)

(** app_spawn_vfs loads and starts a program; it is an argument of the calls
    that use it: path, entry index, packed arguments. *)
Definition spawn_fn : Type := list Z -> Z -> option panel_boot_argv -> Z -> kernel A W -> Z * kernel A W.

Definition sys_spawn (app_spawn_vfs : spawn_fn) process (path_ptr entry_index : Z) k : option (Z * kernel A W) :=
  if entry_index >? UINT32_MAX then Some (ERR_INVAL, k) else
  match copy_cstr k process path_ptr VFS_MAX_PATH with
  | None => None
  | Some (status, path) =>
      if negb (status =? 0) then Some (ERR_INVAL, k) else
      let '(pid, k) := app_spawn_vfs path (u32 entry_index) None 0 k in
      Some (if pid <? 0 then ERR_NOENT else pid, k)
  end.

Definition sys_spawn_argv (app_spawn_vfs : spawn_fn) process (path_ptr entry_index argv_ptr argc : Z) k
    : option (Z * kernel A W) :=
  if (entry_index >? UINT32_MAX) || (argc >? PANEL_BOOT_ARGV_MAX_STRINGS) then Some (ERR_INVAL, k) else
  match copy_cstr k process path_ptr VFS_MAX_PATH with
  | None => None
  | Some (status, path) =>
      if negb (status =? 0) then Some (ERR_INVAL, k) else
      match sys_copy_argv_from_user (kmem k) (ktt k) (proc k process) argv_ptr (u32 argc)
              (Some (PanelArgv (replicate 8 0) 0 (replicate 256 0))) with
      | None => None
      | Some (status, argv) =>
          if negb (status =? 0) then Some (status, k) else
          let '(pid, k) := app_spawn_vfs path (u32 entry_index) (if argc =? 0 then None else argv) (u32 argc) k in
          Some (if pid <? 0 then ERR_NOENT else pid, k)
      end
  end.

Definition sys_wait process (wanted : Z) k : option (Z * kernel A W) :=
  match proc k process with
  | None => Some (ERR_INVAL, k)
  | Some p =>
      if (wanted =? 0) || (wanted >? UINT32_MAX) then Some (ERR_INVAL, k) else
      match process_find (k_tab k) (u32 wanted) with
      | None => Some (ERR_NOENT, k)
      | Some child =>
          if negb (parent_pid (obj (k_tab k) child) =? pid p) then Some (ERR_PERM, k) else
          if negb (bool_decide (state (obj (k_tab k) child) = PROCESS_ZOMBIE)) then Some (ERR_AGAIN, k) else
          match process_wait_zombie (k_tab k) (u32 wanted) with
          | (None, t) => Some (ERR_INVAL, set_tab k t)
          | (Some code, t) => Some (s64 code, set_tab k t)
          end
      end
  end.

Definition sys_kill (wanted : Z) k : option (Z * kernel A W) :=
  if (wanted =? 0) || (wanted >? UINT32_MAX) then Some (ERR_INVAL, k) else
  if bool_decide (process_find (k_tab k) (u32 wanted) = None) then Some (ERR_NOENT, k) else
  let '(status, t) := process_kill (k_tab k) (u32 wanted) KERNEL_USER_KILL_EXIT_CODE in
  Some (if negb (status =? 0) then ERR_INVAL else 0, set_tab k t).

(** The result of a user_vm call stored back into the table. *)
Definition put_process k process (r : Z * option ProcessRegions.process * mach A) : option (Z * kernel A W) :=
  let '(ret, p, m) := r in
  let k := set_machine k m in
  Some (ret, match process, p with
             | Some i, Some p => set_tab k (set_obj (k_tab k) i p)
             | _, _ => k
             end).

Definition sys_munmap process (addr size : Z) k : option (Z * kernel A W) :=
  put_process k process (user_vm_unmap_anonymous (proc k process) addr size (kmem k)).

Definition sys_mmap process (hint size flags : Z) k : option (Z * kernel A W) :=
  put_process k process (user_vm_map_anonymous (proc k process) hint size flags (kmem k)).

Definition set_reg0 (p : ProcessRegions.process) (v : Z) : ProcessRegions.process :=
  Process (pid p) (parent_pid p) (name p) (name_storage p) (<[0%nat := v]> (regs p)) (sp p) (pc p) (pstate p)
    (page_table p) (state p) (exit_code p) (next_user_vaddr p) (user_regions p) (user_region_count p).

Definition sys_yield_process (frame : exception_frame) k : Z * exception_frame * kernel A W :=
  match process_current (k_tab k) with
  | None => (0, frame, k)
  | Some current =>
      let t := set_obj (k_tab k) current (set_reg0 (obj (k_tab k) current) 0) in
      let '(r, frame, t) := process_dispatch_next t (Some current) frame PROCESS_DISPATCH_PREEMPT in
      (r, frame, set_tab k t)
  end.

(** [el0_return_address()] is the address of a label in user_entry.S. *)
Definition sys_exit (el0_return_address : Z) (frame : exception_frame) (code : Z) k : exception_frame * kernel A W :=
  let current := process_current (k_tab k) in
  let k := set_tab k (process_mark_exited (k_tab k) current code) in
  let k := uart_put k ([85; 83; 69; 82; 32; 101; 120; 105; 116; 58; 32] ++ print_hex64 code ++ [10]) in
  let '(r, frame, t) := process_dispatch_next (k_tab k) current frame PROCESS_DISPATCH_EXIT in
  let k := set_tab k t in
  if negb (r =? 0) then (frame, k)
  else (Frame (<[0%nat := code]> (x frame)) el0_return_address AARCH64_SPSR_EL1H_DAIF_MASKED (sp_el0 frame), k).
End Calls.

(** * syscall.c *)

Definition SYS_EXIT : Z := 1.
Definition SYS_YIELD : Z := 2.
Definition SYS_GETPID : Z := 3.
Definition SYS_SPAWN : Z := 4.
Definition SYS_WAIT : Z := 6.
Definition SYS_KILL : Z := 7.
Definition SYS_SPAWN_ARGV : Z := 8.
Definition SYS_MMAP : Z := 20.
Definition SYS_MUNMAP : Z := 21.
Definition SYS_OPEN : Z := 40.
Definition SYS_CLOSE : Z := 41.
Definition SYS_READ : Z := 42.
Definition SYS_WRITE : Z := 43.
Definition SYS_SEEK : Z := 44.
Definition SYS_STAT : Z := 45.
Definition SYS_READDIR : Z := 46.
Definition SYS_UNLINK : Z := 47.
Definition SYS_RENAME : Z := 48.
Definition SYS_STAT_V2 : Z := 49.
Definition SYS_READDIR_V2 : Z := 50.
Definition SYS_FSINFO : Z := 51.
Definition SYS_IPC_SEND : Z := 60.
Definition SYS_IPC_RECV : Z := 61.
Definition SYS_WINDOW_CREATE : Z := 70.
Definition SYS_CURSOR_REGISTER_REGION : Z := 86.
Definition SYS_TIMEINFO : Z := 100.
Definition SYS_MEMINFO : Z := 101.
Definition SYS_PROCLIST : Z := 102.

(** What the dispatcher asks of the parts outside this file: the program
    loader, the window calls (numbers 70 to 86), the drain of the input
    devices, the network poll and the kernel threads. *)
Class Services (A W : Type) := {
  gui_destroy_windows : Z -> W -> W;
  spawn_app : spawn_fn (A := A) (W := W);
  window_call : Z -> option nat -> list Z -> kernel A W -> option (Z * kernel A W);
  pump_input : Z -> kernel A W -> kernel A W;
  poll_network : kernel A W -> kernel A W;
  yield_thread : kernel A W -> kernel A W;
  total_pages : A -> Z;
  free_pages : A -> Z;
  el0_return : Z }.

Section Dispatch.
Context {A W : Type} `{PageAllocator A} `{Backend W} `{Services A W}.
Implicit Types (k : kernel A W).

Definition arg (xs : list Z) (i : nat) : Z := default 0 (xs !! i).

(** The [switch (x[8])]; the result is the value of [x0], a [uint64_t]. *)
Definition syscall_call (current : option nat) (xs : list Z) k : option (Z * kernel A W) :=
  let n := arg xs 8 in
  let x0 := arg xs 0 in let x1 := arg xs 1 in let x2 := arg xs 2 in let x3 := arg xs 3 in
  let r :=
    if n =? SYS_GETPID then Some (match proc k current with None => ERR_INVAL | Some p => pid p end, k) else
    if n =? SYS_SPAWN then sys_spawn spawn_app current x0 x1 k else
    if n =? SYS_SPAWN_ARGV then sys_spawn_argv spawn_app current x0 x1 x2 x3 k else
    if n =? SYS_WAIT then sys_wait current x0 k else
    if n =? SYS_KILL then sys_kill gui_destroy_windows x0 k else
    if n =? SYS_OPEN then sys_open current x0 x1 k else
    if n =? SYS_CLOSE then sys_close x0 k else
    if n =? SYS_READ then sys_read current x0 x1 x2 k else
    if n =? SYS_MMAP then sys_mmap current x0 x1 x2 k else
    if n =? SYS_MUNMAP then sys_munmap current x0 x1 k else
    if n =? SYS_WRITE then sys_write current x0 x1 x2 k else
    if n =? SYS_SEEK then sys_seek x0 x1 x2 k else
    if n =? SYS_STAT then sys_stat current x0 x1 k else
    if n =? SYS_READDIR then sys_readdir current x0 x1 x2 k else
    if n =? SYS_UNLINK then sys_unlink current x0 k else
    if n =? SYS_RENAME then sys_rename current x0 x1 k else
    if n =? SYS_STAT_V2 then sys_stat_v2 current x0 x1 k else
    if n =? SYS_READDIR_V2 then sys_readdir_v2 current x0 x1 x2 x3 k else
    if n =? SYS_FSINFO then sys_fsinfo current x0 x1 k else
    if n =? SYS_IPC_SEND then sys_ipc_send current x0 x1 x2 k else
    if n =? SYS_IPC_RECV then sys_ipc_recv current x0 x1 k else
    if (SYS_WINDOW_CREATE <=? n) && (n <=? SYS_CURSOR_REGISTER_REGION) then window_call n current xs k else
    if n =? SYS_TIMEINFO then sys_timeinfo current x0 k else
    if n =? SYS_MEMINFO then sys_meminfo total_pages free_pages current x0 k else
    if n =? SYS_PROCLIST then sys_proclist current x0 x1 k else
    Some (ERR_INVAL, k) in
  match r with None => None | Some (v, k) => Some (u64 v, k) end.

(** The process that is current afterwards gets the frame's state. *)
Definition write_back (frame : exception_frame) k : kernel A W :=
  match process_current (k_tab k) with
  | None => k
  | Some c =>
      let p := set_reg0 (obj (k_tab k) c) (arg (x frame) 0) in
      set_tab k (set_obj (k_tab k) c (process_set_entry p (elr frame) (sp_el0 frame) (spsr frame)))
  end.

Definition syscall_dispatch (frame : exception_frame) k : option (exception_frame * kernel A W) :=
  let current := process_current (k_tab k) in
  let n := arg (x frame) 8 in
  let k := poll_network (pump_input n k) in
  let k := match current with
           | None => k
           | Some c => set_tab k (set_obj (k_tab k) c
                (process_save_context (obj (k_tab k) c) (x frame) (elr frame) (spsr frame) (sp_el0 frame)))
           end in
  let r :=
    if n =? SYS_EXIT then Some (sys_exit gui_destroy_windows el0_return frame (arg (x frame) 0) k) else
    if n =? SYS_YIELD then
      let '(switched, frame, k) := sys_yield_process frame k in
      if switched =? 0
      then Some (Frame (<[0%nat := 0]> (x frame)) (elr frame) (spsr frame) (sp_el0 frame), yield_thread k)
      else Some (frame, k)
    else
      match syscall_call current (x frame) k with
      | None => None
      | Some (v, k) => Some (Frame (<[0%nat := v]> (x frame)) (elr frame) (spsr frame) (sp_el0 frame), k)
      end in
  match r with
  | None => None
  | Some (frame, k) => Some (frame, write_back frame k)
  end.
End Dispatch.
