(* ===== verification/SyscallSafety.v ===== *)
(** What every system call guarantees to the rest of the machine: no data
    abort on a user pointer, and no store outside the pages the caller itself
    may write.  The proofs follow the structure of the calls through a small
    set of step rules. *)

From S2P Require Import Prelude.
From S2P Require Import PageAlloc.
From S2P Require Import Vmm.
From S2P Require Import ProcessRegions.
From S2P Require Import UserVm.
From S2P Require Import Process.
From S2P Require Import Bytes.
From S2P Require Import Ipc.
From S2P Require Import VfsPath.
From S2P Require Import Vfs.
From S2P Require Import VfsHandles.
From S2P Require Import Input.
From S2P Require Import UserCopy.
From S2P Require Import Syscalls.
Open Scope arm.

Section Safety.
Context {A W : Type} `{PageAllocatorLaws A} `{Backend W}.
Implicit Types (k : kernel A W) (c : nat) (L : gmap Z nat).

(** The calling process [c] runs on its own address space. *)
Definition caller_ok c L k : Prop := user_space (kmem k) (ktt k) (obj (k_tab k) c) L.

(** The change from [k] to [k'] is confined to what [c] may write itself. *)
Record confined c k k' : Prop := {
  cf_obj : obj (k_tab k') c = obj (k_tab k) c;
  cf_tt : ktt k' = ktt k;
  cf_space : same_space (kmem k) (kmem k') (ktt k);
  cf_frame : forall a,
    (forall v, 0 <= v < 2 ^ 48 -> el0_access (kmem k) (ktt k) true v -> vmm_virt_to_phys (kmem k) (ktt k) v <> a) ->
    rd8 (m_ram (kmem k')) a = rd8 (m_ram (kmem k)) a }.

Lemma confined_refl c k : confined c k k.
Proof. by split. Qed.

Lemma confined_trans c k1 k2 k3 : confined c k1 k2 -> confined c k2 k3 -> confined c k1 k3.
Proof.
  intros [O1 T1 S1 F1] [O2 T2 S2 F2]. rewrite T1 in S2. split; [congruence|congruence|by eapply same_space_trans|].
  intros a Ha. rewrite F2, F1; [done|done|]. intros v Hv Hacc. rewrite T1 in Hacc |- *.
  rewrite (same_space_phys _ _ _ _ S1). apply Ha; [done|]. destruct S1 as [_ E]. unfold el0_access in *. by rewrite E in Hacc.
Qed.

(** The call returns, with the caller's space intact and its effect confined. *)
Definition safe c L k (r : option (Z * kernel A W)) : Prop :=
  exists v k', r = Some (v, k') /\ caller_ok c L k' /\ confined c k k'.

Lemma safe_ret c L k v : caller_ok c L k -> safe c L k (Some (v, k)).
Proof. intros Hc. exists v, k. split_and!; [done|done|apply confined_refl]. Qed.

(** Continuing after a confined change. *)
Lemma safe_after c L k k1 r : confined c k k1 -> safe c L k1 r -> safe c L k r.
Proof.
  intros Hc (v & k' & -> & Hok & Hc'). exists v, k'. split_and!; [done|done|by eapply confined_trans].
Qed.

(** Changes outside memory and the process objects. *)
Lemma world_ok c L k w : caller_ok c L k -> caller_ok c L (set_world k w) /\ confined c k (set_world k w).
Proof. intros Hc. split; [exact Hc|]. by split. Qed.

Lemma input_ok c L k q : caller_ok c L k -> caller_ok c L (set_input k q) /\ confined c k (set_input k q).
Proof. intros Hc. split; [exact Hc|]. by split. Qed.

Lemma ipc_ok c L k q : caller_ok c L k -> caller_ok c L (set_ipc k q) /\ confined c k (set_ipc k q).
Proof. intros Hc. split; [exact Hc|]. by split. Qed.

Lemma uart_ok c L k cs : caller_ok c L k -> caller_ok c L (uart_put k cs) /\ confined c k (uart_put k cs).
Proof. intros Hc. split; [exact Hc|]. by split. Qed.

(** ** The helpers *)

Lemma copy_from_total c L k out ptr len :
  caller_ok c L k -> u64 len <= Z.of_nat (length out) ->
  exists status out', copy_from k (Some c) out ptr len = Some (status, out') /\ length out' = length out.
Proof.
  intros Hc Hl. unfold copy_from, proc. cbn [fmap option_fmap option_map].
  destruct (copy_from_user_ok (kmem k) (ktt k) (obj (k_tab k) c) L out 0 (u64 ptr) (u64 len) Hc)
    as (s & out' & -> & Hlen & _); [apply u64_range|apply u64_range|lia|lia|].
  by exists s, out'.
Qed.

Lemma copy_cstr_total c L k ptr :
  caller_ok c L k -> exists status out, copy_cstr k (Some c) ptr VFS_MAX_PATH = Some (status, out).
Proof.
  intros Hc. unfold copy_cstr, proc. cbn [fmap option_fmap option_map].
  destruct (user_copy_cstr_ok (kmem k) (ktt k) (obj (k_tab k) c) L (u64 ptr) (replicate (Z.to_nat VFS_MAX_PATH) 0) 0 VFS_MAX_PATH Hc)
    as (s & out' & -> & _); [apply u64_range|lia|unfold VFS_MAX_PATH; lia|rewrite length_replicate; unfold VFS_MAX_PATH; lia|].
  by eexists _, _.
Qed.

(** Stores behind a buffer the caller may write are confined. *)
Lemma stores_confined c L k m ptr src len :
  caller_ok c L k -> buf_ok (kmem k) (obj (k_tab k) c) true ptr len -> stores (kmem k) (ktt k) ptr src 0 len m ->
  confined c k (set_machine k m).
Proof.
  intros Hc Hb [S1 S2 S3]. split; try done. intros a Ha. change (kmem (set_machine k m)) with m.
  apply S2. intros i Hi. destruct (buf_ok_addr _ _ _ _ _ _ _ (ptr + i) Hc Hb ltac:(lia)) as [Hacc Hv].
  apply Ha; [lia|done].
Qed.

Lemma copy_to_ok c L k ptr src len :
  caller_ok c L k -> exists status k', copy_to k (Some c) ptr src len = Some (status, k') /\ caller_ok c L k' /\ confined c k k'.
Proof.
  intros Hc. unfold copy_to, proc. cbn [fmap option_fmap option_map].
  destruct (copy_to_user_ok (kmem k) (ktt k) (obj (k_tab k) c) L (u64 ptr) src (u64 len) Hc)
    as (s & m & -> & Hs & Hcase); [apply u64_range|apply u64_range|].
  exists s, (set_machine k m). split; [done|]. split; [exact Hs|].
  destruct Hcase as [(_ & Hb & Hst)|(_ & _ & ->)].
  - by eapply stores_confined.
  - by split.
Qed.

(** ** Step rules as a tactic *)

Ltac safe_step :=
  lazymatch goal with
  | Hc : caller_ok ?c ?L ?k |- safe ?c ?L ?k (Some (_, ?k)) => apply safe_ret, Hc
  | Hc : caller_ok ?c ?L ?k |- safe ?c ?L ?k (Some (_, set_world ?k ?w)) =>
      destruct (world_ok c L k w Hc); eapply safe_after; [eassumption|apply safe_ret; assumption]
  | Hc : caller_ok ?c ?L ?k |- safe ?c ?L ?k (Some (_, set_ipc ?k ?w)) =>
      destruct (ipc_ok c L k w Hc); eapply safe_after; [eassumption|apply safe_ret; assumption]
  | |- safe _ _ _ (if ?b then _ else _) => destruct b
  | Hc : caller_ok ?c ?L ?k |- context [copy_cstr ?k (Some ?c) ?p VFS_MAX_PATH] =>
      let s := fresh "status" in let o := fresh "path" in let E := fresh "E" in
      destruct (copy_cstr_total c L k p Hc) as (s & o & E); rewrite E; clear E
  | Hc : caller_ok ?c ?L ?k |- safe ?c ?L ?k (match copy_to ?k (Some ?c) ?p ?s ?n with _ => _ end) =>
      let st := fresh "status" in let k' := fresh "k" in let E := fresh "E" in
      let H1 := fresh "Hok" in let H2 := fresh "Hcf" in
      destruct (copy_to_ok c L k p s n Hc) as (st & k' & E & H1 & H2); rewrite E; clear E;
      apply (safe_after c L k k' _ H2); clear Hc H2
  end.

(** Moving to the state after the file layer has run. *)
Lemma safe_world c L k w r : caller_ok c L k -> (caller_ok c L (set_world k w) -> safe c L (set_world k w) r) -> safe c L k r.
Proof. intros Hc Hr. destruct (world_ok c L k w Hc). eapply safe_after; [eassumption|by apply Hr]. Qed.

(** ** Files *)

Lemma write_file_safe c L vfs_fd buf len fuel : forall total kb k,
  caller_ok c L k -> length kb = 256%nat -> safe c L k (write_file_loop fuel (Some c) vfs_fd buf len total kb k).
Proof.
  induction fuel as [|fuel IH]; intros total kb k Hc Hkb; cbn [write_file_loop]; [by apply safe_ret|].
  destruct (Z.ltb_spec total len) as [Hlt|]; [|by apply safe_ret]. cbv zeta.
  set (req := syscall_vfs_chunk_size (len - total)).
  assert (Hreq : 0 <= req <= 256) by (unfold req, syscall_vfs_chunk_size, SYSCALL_VFS_IO_CHUNK; destruct (Z.gtb_spec (len - total) 256); lia).
  destruct (copy_from_total c L k kb (u64 (buf + total)) req Hc) as (s & kb' & -> & Hl).
  { rewrite Hkb, u64_id by lia. lia. }
  destruct (negb (s =? 0)); [by apply safe_ret|].
  destruct (vfs_write_fd (k_tab k) vfs_fd (Some kb') req (kworld k)) as [[st n] w].
  apply (safe_world c L k w); [done|]. intros Hc'. destruct (negb (st =? 0)); [by apply safe_ret|].
  destruct (n <? req); [by apply safe_ret|]. apply IH; [done|congruence].
Qed.

Lemma write_uart_safe c L buf len fuel : forall total kb k,
  caller_ok c L k -> length kb = 256%nat -> safe c L k (write_uart_loop fuel (Some c) buf len total kb k).
Proof.
  induction fuel as [|fuel IH]; intros total kb k Hc Hkb; cbn [write_uart_loop]; [by apply safe_ret|].
  destruct (Z.ltb_spec total len) as [Hlt|]; [|by apply safe_ret]. cbv zeta.
  set (req := syscall_vfs_chunk_size (len - total)).
  assert (Hreq : 0 <= req <= 256) by (unfold req, syscall_vfs_chunk_size, SYSCALL_VFS_IO_CHUNK; destruct (Z.gtb_spec (len - total) 256); lia).
  destruct (copy_from_total c L k kb (u64 (buf + total)) req Hc) as (s & kb' & -> & Hl).
  { rewrite Hkb, u64_id by lia. lia. }
  destruct (negb (s =? 0)); [by apply safe_ret|].
  destruct (uart_ok c L k (take (Z.to_nat req) kb') Hc) as [Hc' Hcf].
  eapply safe_after; [exact Hcf|]. apply IH; [done|congruence].
Qed.

Lemma sys_write_safe c L fd buf len k : caller_ok c L k -> safe c L k (sys_write (Some c) fd buf len k).
Proof.
  intros Hc. unfold sys_write. destruct (negb _); [by apply safe_ret|]. destruct (fd >=? FD_FILE_BASE).
  - destruct (len =? 0).
    + destruct (buf =? 0); [by apply safe_ret|].
      destruct (vfs_write_fd _ _ _ _ _) as [[st n] w]. by safe_step.
    + by apply write_file_safe.
  - destruct (_ && _); [by apply safe_ret|]. by apply write_uart_safe.
Qed.

Lemma read_file_safe c L vfs_fd buf len fuel : forall total kb k,
  caller_ok c L k -> safe c L k (read_file_loop fuel (Some c) vfs_fd buf len total kb k).
Proof.
  induction fuel as [|fuel IH]; intros total kb k Hc; cbn [read_file_loop]; [by apply safe_ret|].
  destruct (total <? len); [|by apply safe_ret]. cbv zeta.
  destruct (vfs_read_fd _ _ _ _ _) as [[[st n] kb'] w].
  apply (safe_world c L k w); [done|]. intros Hc'. destruct (negb (st =? 0)); [by apply safe_ret|].
  destruct (n =? 0); [by apply safe_ret|]. safe_step. destruct (negb _); [by apply safe_ret|].
  destruct (n <? _); [by apply safe_ret|]. by apply IH.
Qed.

Lemma sys_read_safe c L fd buf len k : caller_ok c L k -> safe c L k (sys_read (Some c) fd buf len k).
Proof.
  intros Hc. unfold sys_read. destruct (fd =? FD_STDIN).
  - destruct (negb _); [by apply safe_ret|]. destruct (len =? 0); [by apply safe_ret|].
    destruct (input_queue_poll_char (k_input k)) as [ch q]. destruct (input_ok c L k q Hc) as [Hc' Hcf].
    cbv zeta. eapply safe_after; [exact Hcf|]. destruct (ch <? 0); [by apply safe_ret|]. safe_step. by apply safe_ret.
  - destruct (fd <? FD_FILE_BASE); [by apply safe_ret|]. cbv zeta. destruct (negb _); [by apply safe_ret|].
    destruct (len =? 0); [|by apply read_file_safe]. destruct (buf =? 0); [by apply safe_ret|].
    destruct (vfs_read_fd _ _ _ _ _) as [[[st n] kb'] w]. by safe_step.
Qed.

Lemma sys_open_safe c L path_ptr flags k : caller_ok c L k -> safe c L k (sys_open (Some c) path_ptr flags k).
Proof.
  intros Hc. unfold sys_open. safe_step; [by safe_step|]. safe_step. safe_step; [by safe_step|].
  destruct (vfs_open_flags _ _ _ _) as [fd w]. by safe_step.
Qed.

Lemma sys_close_safe c L fd k : caller_ok c L k -> safe c L k (sys_close fd k).
Proof.
  intros Hc. unfold sys_close. safe_step; [by safe_step|]. destruct (vfs_close _ _ _) as [st s]. by safe_step.
Qed.

Lemma sys_seek_safe c L fd offset whence k : caller_ok c L k -> safe c L k (sys_seek fd offset whence k).
Proof.
  intros Hc. unfold sys_seek. safe_step; [by safe_step|]. destruct (vfs_seek _ _ _ _) as [st w]. by safe_step.
Qed.

Lemma sys_unlink_safe c L path_ptr k : caller_ok c L k -> safe c L k (sys_unlink (Some c) path_ptr k).
Proof.
  intros Hc. unfold sys_unlink. safe_step. safe_step; [by safe_step|]. destruct (vfs_unlink _ _) as [st w]. by safe_step.
Qed.

Lemma sys_rename_safe c L old_ptr new_ptr k : caller_ok c L k -> safe c L k (sys_rename (Some c) old_ptr new_ptr k).
Proof.
  intros Hc. unfold sys_rename. safe_step. safe_step; [by safe_step|]. safe_step. safe_step; [by safe_step|].
  destruct (vfs_rename _ _ _) as [st w]. by safe_step.
Qed.

(** The common end: store the result structure, map the status. *)
Lemma store_result_safe c L k ptr src n (f : Z -> Z) :
  caller_ok c L k ->
  safe c L k (match copy_to k (Some c) ptr src n with None => None | Some (status, k) => Some (f status, k) end).
Proof. intros Hc. safe_step. by safe_step. Qed.

Lemma sys_stat_safe c L path_ptr stat_ptr k : caller_ok c L k -> safe c L k (sys_stat (Some c) path_ptr stat_ptr k).
Proof.
  intros Hc. unfold sys_stat. safe_step. safe_step; [by safe_step|]. destruct (vfs_stat _ _ _ _) as [[st sz] w].
  cbv zeta. apply (safe_world c L k (fst (kworld k), w) _ Hc). intros Hc'. safe_step; [by safe_step|].
  by apply (store_result_safe _ _ _ _ _ _ (fun s => if s =? 0 then 0 else ERR_INVAL)).
Qed.

Lemma readdir_safe c L path buf len fuel : forall total kb k,
  caller_ok c L k -> safe c L k (Syscalls.readdir_loop fuel (Some c) path buf len total kb k).
Proof.
  induction fuel as [|fuel IH]; intros total kb k Hc; cbn [Syscalls.readdir_loop]; [by apply safe_ret|].
  destruct (total <? len); [|by apply safe_ret]. cbv zeta.
  destruct (vfs_list_at _ _ _ _ _ _) as [[[st n] kb'] w].
  apply (safe_world c L k (fst (kworld k), w) _ Hc). intros Hc'. safe_step; [by safe_step|].
  destruct (n =? 0); [by apply safe_ret|]. safe_step. destruct (negb _); [by apply safe_ret|].
  destruct (n <? _); [by apply safe_ret|]. by apply IH.
Qed.

Lemma sys_readdir_safe c L path_ptr buf len k : caller_ok c L k -> safe c L k (sys_readdir (Some c) path_ptr buf len k).
Proof.
  intros Hc. unfold sys_readdir. safe_step. safe_step; [by safe_step|]. safe_step; [|by apply readdir_safe].
  safe_step; [by safe_step|]. destruct (vfs_list_at _ _ _ _ _ _) as [[[st n] kb'] w]. by safe_step.
Qed.

Lemma check_header_total c L k ptr version size : caller_ok c L k -> exists b, check_header k (Some c) ptr version size = Some b.
Proof.
  intros Hc. unfold check_header. destruct (negb _); [by eexists|].
  destruct (copy_from_total c L k (replicate 8 0) ptr 8 Hc) as (s & o & -> & _); [rewrite u64_id, length_replicate by lia; lia|]. by eexists.
Qed.

Lemma sys_stat_v2_safe c L path_ptr stat_ptr k : caller_ok c L k -> safe c L k (sys_stat_v2 (Some c) path_ptr stat_ptr k).
Proof.
  intros Hc. unfold sys_stat_v2. safe_step. safe_step; [by safe_step|].
  destruct (check_header_total c L k stat_ptr ARM_VFS_METADATA_VERSION 32 Hc) as ([] & ->); [|by safe_step].
  destruct (vfs_stat_v2 _ _ _ _) as [[st sz] w]. cbv zeta. apply (safe_world c L k (fst (kworld k), w) _ Hc). intros Hc'.
  safe_step; [by safe_step|]. by apply (store_result_safe _ _ _ _ _ _ (fun s => if s =? 0 then 0 else ERR_INVAL)).
Qed.

Lemma sys_fsinfo_safe c L path_ptr info_ptr k : caller_ok c L k -> safe c L k (sys_fsinfo (Some c) path_ptr info_ptr k).
Proof.
  intros Hc. unfold sys_fsinfo. safe_step. safe_step; [by safe_step|].
  destruct (check_header_total c L k info_ptr ARM_FSINFO_VERSION 64 Hc) as ([] & ->); [|by safe_step].
  destruct (vfs_fsinfo_v1 _ _ _ _) as [[st sz] w]. cbv zeta. apply (safe_world c L k (fst (kworld k), w) _ Hc). intros Hc'.
  safe_step; [by safe_step|]. by apply (store_result_safe _ _ _ _ _ _ (fun s => if s =? 0 then 0 else ERR_INVAL)).
Qed.

Lemma sys_readdir_v2_safe c L path_ptr start entries_ptr max k :
  caller_ok c L k -> safe c L k (sys_readdir_v2 (Some c) path_ptr start entries_ptr max k).
Proof.
  intros Hc. unfold sys_readdir_v2. safe_step; [by safe_step|]. cbv zeta. safe_step. safe_step; [by safe_step|].
  destruct (vfs_readdir_v2 _ _ _ _ _ _) as [[[st n] es] w]. apply (safe_world c L k (fst (kworld k), w) _ Hc). intros Hc'.
  safe_step; [by safe_step|]. safe_step; [by safe_step|]. safe_step; [by safe_step|].
  by apply (store_result_safe _ _ _ _ _ _ (fun s => if s =? 0 then s64 n else ERR_INVAL)).
Qed.

(** ** Messages and information *)

Lemma sys_ipc_send_safe c L target buf len k :
  caller_ok c L k -> is_u64 len -> safe c L k (sys_ipc_send (Some c) target buf len k).
Proof.
  intros Hc Hu. unfold sys_ipc_send, proc. cbn [fmap option_fmap option_map].
  destruct (_ || _) eqn:Eg; [by safe_step|]. b2p. unfold IPC_MAX_MESSAGE_SIZE in *.
  destruct (copy_from_total c L k (replicate 16 0) buf len Hc) as (s & o & -> & _).
  { rewrite length_replicate, u64_id by done. unfold is_u64 in Hu. lia. }
  safe_step; [by safe_step|]. destruct (ipc_send _ _ _ _ _) as [st q]. by safe_step.
Qed.

Lemma sys_ipc_recv_safe c L buf capacity k : caller_ok c L k -> safe c L k (sys_ipc_recv (Some c) buf capacity k).
Proof.
  intros Hc. unfold sys_ipc_recv, proc. cbn [fmap option_fmap option_map]. safe_step; [by safe_step|]. cbv zeta.
  safe_step; [by safe_step|]. destruct (ipc_recv _ _ _) as [[st m] q].
  destruct (ipc_ok c L k q Hc) as [Hc' Hcf]. eapply safe_after; [exact Hcf|]. safe_step; [by safe_step|].
  destruct m as [m|]; [|by safe_step]. safe_step; [by safe_step|].
  by apply (store_result_safe _ _ _ _ _ _ (fun s => if negb (s =? 0) then s else s64 (msg_size m))).
Qed.

Lemma sys_timeinfo_safe c L ptr k : caller_ok c L k -> safe c L k (sys_timeinfo (Some c) ptr k).
Proof. intros Hc. unfold sys_timeinfo. by apply copy_to_ok. Qed.

Lemma sys_meminfo_safe c L total free ptr k : caller_ok c L k -> safe c L k (sys_meminfo total free (Some c) ptr k).
Proof. intros Hc. unfold sys_meminfo. by apply copy_to_ok. Qed.

(** A part of an accepted buffer is accepted. *)
Lemma buf_ok_sub st p w ptr len off n :
  buf_ok (A := A) st p w ptr len -> 0 <= off -> 0 < n -> off + n <= len -> buf_ok st p w (ptr + off) n.
Proof.
  intros [?|(Hp & Hl & [Hv1 Hv2] & (i & r & Hr & Hr1 & Hr2) & Hacc)] Ho Hn Hle; [lia|]. right.
  split_and!; [lia|lia|split; lia| |].
  - exists i, r. split_and!; [done|lia|lia].
  - intros v Hv. apply Hacc. lia.
Qed.

Lemma buf_ok_same st st' p w ptr len :
  same_space (A := A) st st' (page_table p) -> buf_ok st p w ptr len -> buf_ok st' p w ptr len.
Proof.
  intros Hs [?|(? & ? & ? & ? & Hacc)]; [by left|right]. split_and!; try done. intros v Hv.
  apply (same_space_access st); [done|]. by apply Hacc.
Qed.

Lemma proclist_safe c L ptr max n : forall i written k,
  caller_ok c L k -> 0 <= written -> is_u64 ptr -> 0 < max <= 16 ->
  buf_ok (kmem k) (obj (k_tab k) c) true ptr (max * 24) -> safe c L k (proclist_loop n i ptr max written k).
Proof.
  induction n as [|n IH]; intros i written k Hc Hw Hp Hm Hb; cbn [proclist_loop]; [by apply safe_ret|].
  destruct (Z.ltb_spec written max) as [Hlt|]; cbn [negb]; [|by apply safe_ret].
  destruct (process_at (k_tab k) i) as [slot|]; [|by apply IH]. cbv zeta. destruct (bool_decide _); [by apply IH|].
  assert (Hv : ptr + max * 24 <= UINT64_MAX) by (destruct Hb as [?|(_ & _ & [_ ?] & _)]; [lia|done]).
  unfold is_u64, UINT64_MAX in *. rewrite u64_id by lia.
  pose proof (buf_ok_sub _ _ _ _ _ (written * 24) 24 Hb ltac:(lia) ltac:(lia) ltac:(lia)) as Hsub.
  destruct (copy_out_ok (ktt k) (obj (k_tab k) c) L (ptr + written * 24) 24 (process_entry_bytes (obj (k_tab k) slot)) 24 0 (kmem k) Hc Hsub)
    as (m & -> & Hs & Hst); [lia|lia|].
  change (0 + Z.of_nat 24) with 24 in Hst.
  pose proof (stores_confined c L k m (ptr + written * 24) _ 24 Hc Hsub Hst) as Hcf.
  eapply safe_after; [exact Hcf|]. apply IH; [exact Hs|lia|lia|lia|].
  destruct Hst as [S1 _ _]. pose proof (us_tt _ _ _ _ Hc) as Ett. rewrite Ett in S1. by apply (buf_ok_same (kmem k)).
Qed.

Lemma sys_proclist_safe c L ptr max k :
  caller_ok c L k -> is_u64 ptr -> is_u64 max -> safe c L k (sys_proclist (Some c) ptr max k).
Proof.
  intros Hc Hp Hm. unfold sys_proclist, PROCESS_MAX_PROCESSES, is_u64 in *.
  destruct (Z.eqb_spec max 0); [by apply safe_ret|]. destruct (Z.gtb_spec max 16); [by apply safe_ret|]. cbv zeta.
  destruct (Z.eqb_spec (buf_out k (Some c) ptr (max * 24)) 0) as [E|E]; cbn [negb]; [|by apply safe_ret].
  apply proclist_safe; try done; try lia.
  unfold buf_out, proc in E. cbn [fmap option_fmap option_map] in E. rewrite !u64_id in E by lia.
  destruct (user_buf_range_spec (kmem k) (obj (k_tab k) c) L true ptr (max * 24)) as [_ Hiff];
    [apply Hc|apply Hc|unfold is_u64; lia|unfold is_u64; lia|]. by apply Hiff.
Qed.
End Safety.

(** * The dispatcher *)

(** The calls that manage processes, address spaces and windows; every other
    number, known or not, is a call of the file, message and information
    layers. *)
Definition manages (n : Z) : bool :=
  (n =? SYS_SPAWN) || (n =? SYS_SPAWN_ARGV) || (n =? SYS_WAIT) || (n =? SYS_KILL) || (n =? SYS_MMAP) ||
  (n =? SYS_MUNMAP) || ((SYS_WINDOW_CREATE <=? n) && (n <=? SYS_CURSOR_REGISTER_REGION)).

Lemma arg_u64 xs i : Forall is_u64 xs -> is_u64 (arg xs i).
Proof.
  intros Hf. unfold arg. destruct (xs !! i) as [v|] eqn:E; cbn; [|unfold is_u64; lia].
  by apply (Forall_lookup_1 _ _ _ _ Hf E).
Qed.

(** C15: a file, message or information call can do no harm through its
    pointers: whatever its registers hold, the kernel takes no data abort, the
    caller's address space is as it was, and every byte of RAM that the caller
    could not write itself keeps its value. *)
Theorem syscall_confined {A W : Type} `{PageAllocatorLaws A} `{Backend W} `{Services A W}
    (k : kernel A W) (c : nat) (L : gmap Z nat) (xs : list Z) :
  caller_ok c L k -> Forall is_u64 xs -> manages (arg xs 8) = false ->
  exists v k', syscall_call (Some c) xs k = Some (v, k') /\ caller_ok c L k' /\ confined c k k'.
Proof.
  intros Hc Hx Hm. pose proof (arg_u64 xs 0 Hx). pose proof (arg_u64 xs 1 Hx). pose proof (arg_u64 xs 2 Hx).
  assert (Hs : forall r, safe c L k r -> exists v k', match r with None => None | Some (v, k) => Some (u64 v, k) end = Some (v, k') /\
    caller_ok c L k' /\ confined c k k').
  { intros r (v & k' & -> & Hk1 & Hk2). by exists (u64 v), k'. }
  unfold syscall_call. apply Hs. unfold manages in Hm. cbv zeta. set (n := arg xs 8) in *. clearbody n. clear Hs.
  repeat match goal with Hx : _ || _ = false |- _ => apply orb_false_elim in Hx; destruct Hx end.
  repeat match goal with Hx : _ = false |- _ => rewrite Hx; clear Hx end.
  repeat (destruct (n =? _); [solve [eauto using safe_ret, sys_open_safe, sys_close_safe, sys_read_safe, sys_write_safe,
    sys_seek_safe, sys_stat_safe, sys_readdir_safe, sys_unlink_safe, sys_rename_safe, sys_stat_v2_safe,
    sys_readdir_v2_safe, sys_fsinfo_safe, sys_ipc_send_safe, sys_ipc_recv_safe, sys_timeinfo_safe, sys_meminfo_safe,
    sys_proclist_safe]|]).
  by apply safe_ret.
Qed.
