(* ===== verification/SyscallEffects.v ===== *)
(** What the calls do for the caller: messages between processes, output to
    the serial line, and the descriptor numbers they accept. *)

From S2P Require Import Prelude.
From S2P Require Import PageAlloc.
From S2P Require Import Pmm.
From S2P Require Import Vmm.
From S2P Require Import ProcessRegions.
From S2P Require Import UserVm.
From S2P Require Import Process.
From S2P Require Import Bytes.
From S2P Require Import Ipc.
From S2P Require Import Vfs.
From S2P Require Import VfsNames.
From S2P Require Import VfsHandles.
From S2P Require Import Tmpfs.
From S2P Require Import Input.
From S2P Require Import UserCopy.
From S2P Require Import Syscalls.
From S2P Require Import SyscallSafety.
Open Scope arm.

Section Effects.
Context {A W : Type} `{PageAllocatorLaws A} `{Backend W}.
Implicit Types (k : kernel A W) (c : nat) (L : gmap Z nat).

(** The [n] bytes the running process sees from [v] on. *)
Definition user_bytes k (v n : Z) : list Z := (fun i => user_byte (kmem k) (ktt k) (v + i)) <$> seqZ 0 n.

Lemma user_bytes_length k v n : length (user_bytes k v n) = Z.to_nat n.
Proof. unfold user_bytes. by rewrite length_fmap, length_seqZ. Qed.

Lemma user_bytes_at k v n j : 0 <= j < n -> byte_at (user_bytes k v n) j = user_byte (kmem k) (ktt k) (v + j).
Proof.
  intros Hj. unfold byte_at, user_bytes. rewrite list_lookup_fmap, lookup_seqZ_lt by lia. cbn. f_equal. lia.
Qed.

Lemma user_bytes_app k v n m : 0 <= n -> 0 <= m -> user_bytes k v n ++ user_bytes k (v + n) m = user_bytes k v (n + m).
Proof.
  intros Hn Hm. unfold user_bytes. rewrite (seqZ_app 0 n m) by lia. rewrite fmap_app. f_equal.
  replace (seqZ (0 + n) m) with (Z.add n <$> seqZ 0 m) by (rewrite fmap_add_seqZ; f_equal; lia).
  rewrite <- list_fmap_compose. apply list_fmap_ext.
  intros i x _. unfold compose. f_equal. lia.
Qed.

(** ** Copies, with their contents *)

Lemma copy_from_bytes c L k out ptr len :
  caller_ok c L k -> is_u64 ptr -> is_u64 len -> len <= Z.of_nat (length out) ->
  buf_ok (kmem k) (obj (k_tab k) c) false ptr len ->
  exists out', copy_from k (Some c) out ptr len = Some (0, out') /\ length out' = length out /\
    take (Z.to_nat len) out' = user_bytes k ptr len.
Proof.
  intros Hc Hp Hl Hout Hb. unfold copy_from, proc. cbn [fmap option_fmap option_map]. unfold is_u64 in *. rewrite !u64_id by lia.
  destruct (copy_from_user_ok (kmem k) (ktt k) (obj (k_tab k) c) L out 0 ptr len Hc)
    as (s & out' & -> & Hlen & [(-> & _ & Hbytes)|(_ & Hno & _)]); [unfold is_u64; lia..| |done].
  exists out'. split; [done|]. split; [done|]. apply bytes_ext; [rewrite length_take, user_bytes_length; lia|].
  intros j Hj. rewrite length_take in Hj. rewrite byte_at_take, Hbytes, user_bytes_at by lia.
  destruct (Z.leb_spec 0 j), (Z.ltb_spec j (0 + len)); [|lia..]. cbn [andb]. f_equal. lia.
Qed.

Lemma stores_ext st tt ptr src src' lo hi st' :
  stores (A := A) st tt ptr src lo hi st' -> (forall i, lo <= i < hi -> byte_at src' i = byte_at src i) ->
  stores st tt ptr src' lo hi st'.
Proof. intros [S1 S2 S3] E. split; try done. intros i Hi Hlast. rewrite E by done. by apply S3. Qed.

Lemma copy_to_bytes c L k src ptr len :
  caller_ok c L k -> is_u64 ptr -> is_u64 len -> buf_ok (kmem k) (obj (k_tab k) c) true ptr len ->
  exists m, copy_to k (Some c) ptr src len = Some (0, set_machine k m) /\
    caller_ok c L (set_machine k m) /\ stores (kmem k) (ktt k) ptr src 0 len m.
Proof.
  intros Hc Hp Hl Hb. unfold copy_to, proc. cbn [fmap option_fmap option_map]. unfold is_u64 in *. rewrite !u64_id by lia.
  destruct (copy_to_user_ok (kmem k) (ktt k) (obj (k_tab k) c) L ptr src len Hc)
    as (s & m & -> & Hs & [(-> & _ & Hst)|(_ & Hno & _)]); [unfold is_u64; lia..| |done].
  by exists m.
Qed.

(** An accepted buffer lies below 2^48. *)
Lemma buf_ok_end c L k w ptr len : caller_ok c L k -> buf_ok (kmem k) (obj (k_tab k) c) w ptr len -> 0 < len -> 0 < ptr /\ ptr + len <= 2 ^ 48.
Proof.
  intros Hc Hb Hl. destruct (buf_ok_addr _ _ _ _ _ _ _ ptr Hc Hb ltac:(lia)) as [_ ?].
  destruct (buf_ok_addr _ _ _ _ _ _ _ (ptr + len - 1) Hc Hb ltac:(lia)) as [_ ?]. lia.
Qed.

(** ** Messages *)

Lemma ipc_send_call c L k a target buf len :
  caller_ok c L k -> refines (k_ipc k) a -> 0 <= g_ipc_next_sequence (k_ipc k) < UINT64_MAX ->
  pid (obj (k_tab k) c) <> 0 -> 0 < target <= UINT32_MAX -> 0 < len <= 16 -> is_u64 buf ->
  buf_ok (kmem k) (obj (k_tab k) c) false buf len ->
  exists r q', sys_ipc_send (Some c) target buf len k = Some (r, set_ipc k q') /\
  if bool_decide (length a < 8)%nat
  then r = len /\ refines q' (a ++ [Letter (pid (obj (k_tab k) c)) target (user_bytes k buf len)])
  else r = ERR_AGAIN /\ refines q' a.
Proof.
  intros Hc Hq Hseq Hpid Ht Hl Hbuf Hb. unfold sys_ipc_send, proc, UINT32_MAX, IPC_MAX_MESSAGE_SIZE in *.
  cbn [fmap option_fmap option_map]. rewrite !(proj2 (Z.eqb_neq _ 0)) by lia.
  destruct (Z.gtb_spec target (2 ^ 32 - 1)); [lia|]. destruct (Z.gtb_spec len 16); [lia|]. cbn [orb].
  destruct (copy_from_bytes c L k (replicate 16 0) buf len Hc Hbuf) as (out & -> & Hlo & Hto);
    [unfold is_u64; lia|rewrite length_replicate; lia|done|]. rewrite length_replicate in Hlo. cbn [Z.eqb negb].
  unfold u32. rewrite !Z.mod_small by lia.
  pose proof (ipc_send_refines (k_ipc k) a (pid (obj (k_tab k) c)) target out len Hq Hseq Hpid ltac:(lia) Hl ltac:(lia)) as Hr.
  destruct (ipc_send _ _ _ _ _) as [r q']. unfold spec_send in Hr. rewrite Hto in Hr.
  destruct (bool_decide (length a < 8)%nat); destruct Hr as (-> & Hq' & _).
  - exists len, q'. split; [|done]. cbn [Z.eqb negb]. unfold s64. by destruct (Z.ltb_spec len (2 ^ 63)); [|lia].
  - exists ERR_AGAIN, q'. done.
Qed.

Lemma spec_recv_elem a t l a' : spec_recv a t = (Some l, a') -> l ∈ a.
Proof.
  revert a'. induction a as [|x a IH]; intros a'; cbn [spec_recv]; [done|]. destruct (to x =? t).
  - intros [= -> _]. set_solver.
  - destruct (spec_recv a t) as [r a'']. intros [= -> _]. apply elem_of_cons. right. by eapply IH.
Qed.

(** A message fits its buffer. *)
Lemma refines_body q a l : refines q a -> l ∈ a -> (length (body l) <= 16)%nat.
Proof.
  intros [_ Hok (order & Ho & ->)] (i & -> & Hi)%list_elem_of_fmap. apply (od_used _ _ Ho) in Hi as [Hi _].
  destruct (Hok i Hi) as [Hlen _]. unfold compose, letter_of. cbn [body]. rewrite length_take. lia.
Qed.

Lemma ipc_recv_call c L k a buf :
  caller_ok c L k -> refines (k_ipc k) a -> pid (obj (k_tab k) c) <> 0 -> is_u64 buf ->
  buf_ok (kmem k) (obj (k_tab k) c) true buf 16 ->
  exists r k', sys_ipc_recv (Some c) buf 16 k = Some (r, k') /\
  let '(l, a') := spec_recv a (pid (obj (k_tab k) c)) in
  refines (k_ipc k') a' /\
  match l with
  | None => r = ERR_AGAIN /\ k' = k
  | Some l => r = Z.of_nat (length (body l)) /\ (length (body l) <= 16)%nat /\
      stores (kmem k) (ktt k) buf (body l) 0 r (kmem k')
  end.
Proof.
  intros Hc Hq Hpid Hbuf Hb. unfold sys_ipc_recv, proc, IPC_MAX_MESSAGE_SIZE. cbn [fmap option_fmap option_map Z.eqb negb].
  assert (E : buf_out k (Some c) buf 16 = 0).
  { unfold buf_out, proc. cbn [fmap option_fmap option_map]. unfold is_u64 in *. rewrite !u64_id by lia.
    destruct (user_buf_range_spec (kmem k) (obj (k_tab k) c) L true buf 16) as [_ Hiff];
      [apply Hc|apply Hc|unfold is_u64; lia|unfold is_u64; lia|]. by apply Hiff. }
  change (16 =? 16) with true. cbn [negb]. cbv zeta. rewrite E. cbn [Z.eqb negb].
  pose proof (ipc_recv_refines (k_ipc k) a (pid (obj (k_tab k) c)) (Message 0 0 0 (replicate 16 0)) Hq Hpid eq_refl) as Hr.
  destruct (ipc_recv _ _ _) as [[r m] q']. destruct (spec_recv a (pid (obj (k_tab k) c))) as [[l|] a'] eqn:Ea.
  - destruct Hr as (Hq' & _ & -> & m' & -> & (_ & _ & Hsz & Hdata)). cbn [Z.eqb negb].
    destruct (ipc_ok c L k q' Hc) as [Hc' _].
    assert (Hlen : (length (body l) <= 16)%nat) by (eapply refines_body, spec_recv_elem, Ea; exact Hq).
    destruct (Z.gtb_spec (msg_size m') 16); [lia|].
      destruct (copy_to_bytes c L (set_ipc k q') (data m') buf (msg_size m') Hc' Hbuf) as (mm & -> & Hs & Hst).
      { unfold is_u64. lia. }
      { destruct (Z.eq_dec (msg_size m') 0) as [E0|E0]; [by left|].
        replace buf with (buf + 0) by lia. apply (buf_ok_sub _ _ _ _ 16); [exact Hb|lia|lia|lia]. }
      cbn [Z.eqb negb]. eexists _, _. split; [reflexivity|]. split; [exact Hq'|].
      assert (Es : s64 (msg_size m') = Z.of_nat (length (body l))).
      { rewrite Hsz. unfold s64. destruct (Z.ltb_spec (Z.of_nat (length (body l))) (2 ^ 63)); lia. }
      rewrite Es. split; [done|]. split; [done|].
      eapply stores_ext; [rewrite <- Hsz; exact Hst|]. intros i Hi. rewrite Hdata, byte_at_app by lia.
      destruct (Z.ltb_spec i (Z.of_nat (length (body l)))); [done|lia].
  - destruct Hr as (Hq' & _ & -> & -> & ->). cbn [Z.eqb negb].
    exists ERR_AGAIN, k. split; [by destruct k|]. done.
Qed.

(** ** Output *)

Lemma uart_put_app k a b : uart_put (uart_put k a) b = uart_put k (a ++ b).
Proof. unfold uart_put. cbn. by rewrite app_assoc. Qed.

Lemma write_uart_exact c L buf len fuel : forall total kb k,
  caller_ok c L k -> buf_ok (kmem k) (obj (k_tab k) c) false buf len -> 0 < len ->
  length kb = 256%nat -> 0 <= total <= len -> (Z.to_nat (len - total) < fuel)%nat ->
  write_uart_loop fuel (Some c) buf len total kb k = Some (len, uart_put k (user_bytes k (buf + total) (len - total))).
Proof.
  induction fuel as [|fuel IH]; intros total kb k Hc Hb Hl Hkb Ht Hf; [lia|]. cbn [write_uart_loop].
  pose proof (buf_ok_end c L k false buf len Hc Hb Hl) as Hend.
  destruct (Z.ltb_spec total len) as [Hlt|Hge].
  2: { assert (total = len) as -> by lia. rewrite Z.sub_diag. unfold s64. destruct (Z.ltb_spec len (2 ^ 63)); [|lia].
       unfold user_bytes. cbn. unfold uart_put. rewrite app_nil_r. by destruct k. }
  cbv zeta. set (req := syscall_vfs_chunk_size (len - total)).
  assert (Hreq : 0 < req <= 256 /\ req <= len - total).
  { unfold req, syscall_vfs_chunk_size, SYSCALL_VFS_IO_CHUNK. destruct (Z.gtb_spec (len - total) 256); lia. }
  rewrite (u64_id (buf + total)) by lia.
  destruct (copy_from_bytes c L k kb (buf + total) req Hc) as (kb' & -> & Hl' & Htake);
    [unfold is_u64; lia|unfold is_u64; lia|lia|apply (buf_ok_sub _ _ _ _ len); (done || lia)|].
  cbn [Z.eqb negb]. rewrite (u64_id (total + req)) by lia. rewrite Htake.
  rewrite IH; [|exact Hc|exact Hb|done|lia|lia|lia].
  rewrite uart_put_app. do 3 f_equal.
  change (user_bytes (uart_put k (user_bytes k (buf + total) req)) (buf + (total + req)) (len - (total + req)))
    with (user_bytes k (buf + (total + req)) (len - (total + req))).
  replace (buf + (total + req)) with (buf + total + req) by lia. rewrite user_bytes_app by lia. f_equal. lia.
Qed.

(** ** Properties *)

(** SYS_WRITE on standard output or standard error prints exactly the
    caller's bytes, in order, however many 256-byte chunks that takes, and
    returns their number; nothing else changes. *)
Theorem stdout_write_exact c L k fd buf len :
  caller_ok c L k -> is_u64 buf -> is_u64 len -> 0 < len -> fd = FD_STDOUT \/ fd = FD_STDERR ->
  buf_ok (kmem k) (obj (k_tab k) c) false buf len ->
  sys_write (Some c) fd buf len k = Some (len, uart_put k (user_bytes k buf len)).
Proof.
  intros Hc Hbuf Hlen Hl Hfd Hb. unfold sys_write.
  assert (E : buf_in k (Some c) buf len = 0).
  { unfold buf_in, proc. cbn [fmap option_fmap option_map]. unfold is_u64 in *. rewrite !u64_id by lia.
    destruct (user_buf_range_spec (kmem k) (obj (k_tab k) c) L false buf len) as [_ Hiff];
      [apply Hc|apply Hc|unfold is_u64; lia|unfold is_u64; lia|]. by apply Hiff. }
  rewrite E. cbn [Z.eqb negb]. unfold FD_FILE_BASE, FD_STDOUT, FD_STDERR in *.
  destruct (Z.geb_spec fd 3); [lia|].
  assert (negb (fd =? 1) && negb (fd =? 2) = false) as -> by (destruct Hfd as [->| ->]; done).
  rewrite (write_uart_exact c L); try done; [|lia|].
  - by rewrite Z.add_0_r, Z.sub_0_r.
  - unfold io_fuel. lia.
Qed.

(** SYS_IPC_SEND and SYS_IPC_RECV are the message queue of the abstract
    specification, on user memory: a send queues the caller's bytes for the
    target, or answers ERR_AGAIN when eight messages are pending; a receive
    hands the oldest message for the caller to its buffer, or answers
    ERR_AGAIN. *)
Theorem ipc_syscalls_refine c L k a target buf len :
  caller_ok c L k -> refines (k_ipc k) a -> 0 <= g_ipc_next_sequence (k_ipc k) < UINT64_MAX ->
  pid (obj (k_tab k) c) <> 0 -> 0 < target <= UINT32_MAX -> 0 < len <= 16 -> is_u64 buf ->
  (buf_ok (kmem k) (obj (k_tab k) c) false buf len ->
   exists r q', sys_ipc_send (Some c) target buf len k = Some (r, set_ipc k q') /\
   if bool_decide (length a < 8)%nat
   then r = len /\ refines q' (a ++ [Letter (pid (obj (k_tab k) c)) target (user_bytes k buf len)])
   else r = ERR_AGAIN /\ refines q' a) /\
  (buf_ok (kmem k) (obj (k_tab k) c) true buf 16 ->
   exists r k', sys_ipc_recv (Some c) buf 16 k = Some (r, k') /\
   let '(l, a') := spec_recv a (pid (obj (k_tab k) c)) in
   refines (k_ipc k') a' /\
   match l with
   | None => r = ERR_AGAIN /\ k' = k
   | Some l => r = Z.of_nat (length (body l)) /\ (length (body l) <= 16)%nat /\
       stores (kmem k) (ktt k) buf (body l) 0 r (kmem k')
   end).
Proof.
  intros Hc Hq Hseq Hpid Ht Hl Hbuf. split; intros Hb; [by eapply ipc_send_call|by eapply ipc_recv_call].
Qed.

(** C16: a descriptor number is cut to 32 bits before the file layer sees it:
    SYS_CLOSE, SYS_SEEK, SYS_READ and SYS_WRITE accept fd + 2^32 as fd. *)
Theorem descriptor_numbers_alias process fd buf len offset whence k :
  FD_FILE_BASE <= fd < 2 ^ 31 ->
  sys_close (fd + 2 ^ 32) k = sys_close fd k /\
  sys_seek (fd + 2 ^ 32) offset whence k = sys_seek fd offset whence k /\
  sys_read process (fd + 2 ^ 32) buf len k = sys_read process fd buf len k /\
  sys_write process (fd + 2 ^ 32) buf len k = sys_write process fd buf len k.
Proof.
  intros Hfd. unfold FD_FILE_BASE in *.
  assert (E : vfs_fd_of (fd + 2 ^ 32) = vfs_fd_of fd).
  { unfold vfs_fd_of, to_int, u32, s64, FD_FILE_BASE. destruct (Z.ltb_spec (fd + 2 ^ 32) (2 ^ 63)), (Z.ltb_spec fd (2 ^ 63)); [|lia..].
    replace (fd + 2 ^ 32 - 3) with (fd - 3 + 1 * 2 ^ 32) by lia. by rewrite Z_mod_plus_full. }
  unfold sys_close, sys_seek, sys_read, sys_write, FD_FILE_BASE, FD_STDIN. rewrite E.
  destruct (Z.ltb_spec (fd + 2 ^ 32) 3), (Z.ltb_spec fd 3); try lia.
  destruct (Z.eqb_spec (fd + 2 ^ 32) 0), (Z.eqb_spec fd 0); try lia.
  destruct (Z.geb_spec (fd + 2 ^ 32) 3), (Z.geb_spec fd 3); try lia. done.
Qed.
End Effects.

(** * A running kernel *)

#[local] Instance demo_services : Services pmm tmpfs := {|
  gui_destroy_windows := fun _ w => w;
  spawn_app := fun _ _ _ _ k => (-1, k);
  window_call := fun _ _ _ k => Some (ERR_INVAL, k);
  pump_input := fun _ k => k;
  poll_network := fun k => k;
  yield_thread := fun k => k;
  total_pages := pmm_total_count;
  free_pages := pmm_free_count;
  el0_return := 0x40080000 |}.

(** One process, with the two pages of [demo_user], whose first bytes hold
    [demo_text]. *)
Definition demo_written : mach pmm :=
  snd (default (0, demo_mem) (sys_copy_to_user demo_mem 0x40000000 (Some demo_user) 0x100000000 (Some demo_text) 10)).

Definition demo_kernel : kernel pmm tmpfs :=
  Kernel (PTable [demo_user] (Some 0%nat) 1 demo_written 0x40000000 (vfs_empty, demo_tmpfs)) (ipc_init empty_ipc)
    (Input (replicate 64 (KeyPress 0)) 0 0 0 0 0 ESC_STATE_IDLE 0) [] 0 0 0.

Lemma demo_caller : exists L, caller_ok 0 L demo_kernel.
Proof.
  destruct demo_user_space as [Hpt [L Hs]]. exists L. unfold caller_ok, kmem, ktt. cbn [demo_kernel k_tab mem ttbr0].
  change (obj (k_tab demo_kernel) 0) with demo_user.
  destruct (copy_to_user_ok demo_mem 0x40000000 demo_user L 0x100000000 demo_text 10 Hs) as (s & st & E & Hs' & _);
    [unfold is_u64; lia|unfold is_u64; lia|].
  unfold demo_written. rewrite E. exact Hs'.
Qed.

(** A 4096-byte write call from the mapped pages to standard output. *)
Definition demo_regs : list Z := [1; 0x100000000; 4096; 0; 0; 0; 0; 0; SYS_WRITE].

Lemma syscall_confined_witness :
  exists v k', syscall_call (Some 0%nat) demo_regs demo_kernel = Some (v, k') /\ confined 0 demo_kernel k'.
Proof.
  destruct demo_caller as [L Hc].
  destruct (syscall_confined demo_kernel 0 L demo_regs Hc) as (v & k' & E & _ & Hcf);
    [repeat constructor; unfold is_u64, SYS_WRITE; lia|reflexivity|].
  exists v, k'. split; [exact E|exact Hcf].
Defined.

Lemma demo_buf (w : bool) ptr len L :
  caller_ok 0 L demo_kernel -> is_u64 ptr -> is_u64 len ->
  (if w then sys_user_buf_out demo_written (Some demo_user) ptr len else sys_user_buf_in demo_written (Some demo_user) ptr len) = 0 ->
  buf_ok (kmem demo_kernel) (obj (k_tab demo_kernel) 0) w ptr len.
Proof.
  intros Hc Hp Hl E.
  destruct (user_buf_range_spec (kmem demo_kernel) (obj (k_tab demo_kernel) 0) L w ptr len) as [_ Hiff];
    [apply Hc|apply Hc|exact Hp|exact Hl|]. apply Hiff. destruct w; exact E.
Qed.

(** The concrete facts the witnesses use, evaluated together. *)
Lemma demo_kernel_facts :
  user_bytes demo_kernel 0x100000000 5 = [104; 101; 108; 108; 111] /\
  sys_user_buf_in demo_written (Some demo_user) 0x100000000 300 = 0 /\
  sys_user_buf_in demo_written (Some demo_user) 0x100000000 5 = 0 /\
  pid demo_user = 7.
Proof. vm_compute. split_and!; reflexivity. Qed.

Lemma stdout_write_exact_witness :
  sys_write (Some 0%nat) FD_STDOUT 0x100000000 300 demo_kernel =
  Some (300, uart_put demo_kernel (user_bytes demo_kernel 0x100000000 300)) /\
  user_bytes demo_kernel 0x100000000 5 = [104; 101; 108; 108; 111].
Proof.
  destruct demo_caller as [L Hc]. destruct demo_kernel_facts as (E1 & E2 & _). split; [|exact E1].
  apply (stdout_write_exact 0 L); [exact Hc|unfold is_u64; lia|unfold is_u64; lia|lia|left; reflexivity|].
  apply (demo_buf false _ _ L Hc); [unfold is_u64; lia|unfold is_u64; lia|exact E2].
Defined.

Lemma ipc_syscalls_refine_witness :
  exists q', sys_ipc_send (Some 0%nat) 9 0x100000000 5 demo_kernel = Some (5, set_ipc demo_kernel q') /\
  refines q' [Letter 7 9 (user_bytes demo_kernel 0x100000000 5)].
Proof.
  destruct demo_caller as [L Hc].
  destruct (ipc_init_refines empty_ipc) as [Hq Hseq]; [reflexivity|exact empty_ipc_data|].
  destruct demo_kernel_facts as (_ & _ & E2 & Epid).
  assert (Hpid : pid (obj (k_tab demo_kernel) 0) = 7) by (change (obj (k_tab demo_kernel) 0) with demo_user; exact Epid).
  destruct (ipc_syscalls_refine 0 L demo_kernel [] 9 0x100000000 5 Hc Hq) as [Hsend _];
    [change (k_ipc demo_kernel) with (ipc_init empty_ipc); rewrite Hseq; unfold UINT64_MAX; lia
    |rewrite Hpid; lia|unfold UINT32_MAX; lia|lia|unfold is_u64; lia|].
  destruct Hsend as (r & q' & E & -> & Hq');
    [apply (demo_buf false _ _ L Hc); [unfold is_u64; lia|unfold is_u64; lia|exact E2]|].
  rewrite Hpid in Hq'. exists q'. split; [exact E|exact Hq'].
Defined.

Lemma descriptor_numbers_alias_witness :
  sys_close (3 + 2 ^ 32) demo_kernel = sys_close 3 demo_kernel.
Proof. apply (descriptor_numbers_alias None 3 0 0 0 0 demo_kernel). unfold FD_FILE_BASE. lia. Defined.
