(* ===== verification/UserImage.v ===== *)
(** Program images: kernel/user_image.c, kernel/boot_program.c,
    kernel/bootfs.c and kernel/app_image_source.c.

    An image is loaded into physical memory, so the loader works on the bytes
    of RAM ([rd8], [wr8]); the header fields of a KLI1 image are little-endian
    objects read from it.  The addresses at which the linker placed the
    embedded programs are an argument of the definitions that use them. *)

From Stdlib Require Import String Ascii.
From S2P Require Import Prelude.
From S2P Require Import PageAlloc.
From S2P Require Import Vmm.
From S2P Require Import ProcessRegions.
From S2P Require Import UserVm.
From S2P Require Import Process.
From S2P Require Import Bytes.
From S2P Require Import UserCopy.
From S2P Require Import VfsPath.
From S2P Require Import Vfs.
Open Scope arm.

(** The bytes of a string literal. *)
Definition chars (s : string) : list Z := map (fun c => Z.of_N (N_of_ascii c)) (list_ascii_of_string s).
Arguments chars s%_string_scope.

(** * KLI1 images *)

Definition ARM_KLI1_MAGIC : Z := 0x31494c4b.
Definition ARM_KLI1_MAX_ENTRIES : Z := 8.
Definition ARM_KLI1_HEADER_SIZE : Z := 80.

(** The [n]-byte little-endian object at [a]. *)
Definition rd_le (m : gmap Z Z) (a n : Z) : Z := le_value (map (fun i => rd8 m (a + i)) (seqZ 0 n)).

(** The fields of the [arm_kli1_header_t] at an address. *)
Definition kli_magic (m : gmap Z Z) (h : Z) : Z := rd_le m h 4.
Definition kli_header_size (m : gmap Z Z) (h : Z) : Z := rd_le m (h + 4) 2.
Definition kli_entry_count (m : gmap Z Z) (h : Z) : Z := rd_le m (h + 6) 2.
Definition kli_image_size (m : gmap Z Z) (h : Z) : Z := rd_le m (h + 8) 8.
Definition kli_entry_offset (m : gmap Z Z) (h i : Z) : Z := rd_le m (h + 16 + 8 * i) 8.

Record user_image := UserImg { ui_name : list Z; ui_base : Z; ui_size : Z; ui_entry_offset : Z }.

Definition add_u64_checked (a b : Z) : option Z := if a >? UINT64_MAX - b then None else Some (a + b).

Definition user_image_entry (image : option user_image) : Z :=
  match image with
  | None => 0
  | Some image =>
      if (ui_base image =? 0) || (ui_size image =? 0) || (ui_entry_offset image >=? ui_size image) then 0
      else default 0 (add_u64_checked (ui_base image) (ui_entry_offset image))
  end.

(** [for (i = 0; i < size; i++) load[i] = source[i];] *)
Definition copy_ram (load source size : Z) (m : gmap Z Z) : gmap Z Z :=
  for_range 0 size (fun i m => wr8 m (load + i) (rd8 m (source + i))) m.

Definition user_image_load_copy (image : option user_image) (name : list Z)
    (load_base load_capacity source_base source_size source_entry : Z) (m : gmap Z Z)
    : Z * option user_image * gmap Z Z :=
  if bool_decide (image = None) || (load_base =? 0) || (load_capacity =? 0) || (source_base =? 0) ||
     (source_size =? 0) || (source_size >? load_capacity) || (source_entry <? source_base) ||
     (source_entry - source_base >=? source_size) then (-1, image, m) else
  (0, Some (UserImg name load_base source_size (source_entry - source_base)),
   copy_ram load_base source_base source_size m).

Definition user_image_load_flat (image : option user_image) (name : list Z)
    (load_base load_capacity source_base source_capacity entry_index : Z) (m : gmap Z Z)
    : Z * option user_image * gmap Z Z :=
  if (source_base =? 0) || (source_capacity <? 4) then (-1, image, m) else
  if negb (kli_magic m source_base =? ARM_KLI1_MAGIC) then (-1, image, m) else
  if (source_capacity <? ARM_KLI1_HEADER_SIZE) ||
     negb (kli_header_size m source_base =? ARM_KLI1_HEADER_SIZE) ||
     (kli_header_size m source_base >? kli_image_size m source_base) ||
     (kli_entry_count m source_base =? 0) ||
     (kli_entry_count m source_base >? ARM_KLI1_MAX_ENTRIES) ||
     (entry_index >=? kli_entry_count m source_base) ||
     (kli_image_size m source_base >? source_capacity) then (-1, image, m) else
  let header_size := kli_header_size m source_base in
  let image_size := kli_image_size m source_base in
  let entry_offset := kli_entry_offset m source_base entry_index in
  if (entry_offset <? header_size) || (entry_offset >=? image_size) ||
     negb (Z.land entry_offset 3 =? 0) then (-1, image, m) else
  match add_u64_checked source_base entry_offset with
  | None => (-1, image, m)
  | Some source_entry =>
      user_image_load_copy image name load_base load_capacity source_base image_size source_entry m
  end.

(** * Embedded programs *)

Record boot_program := BootProgram { bp_name : list Z; bp_image : Z; bp_size : Z }.

(** The catalog: the name and the bootfs path of each embedded program. *)
Definition app_catalog : list (list Z * list Z) :=
  map (fun id => (chars id, chars "/armonios/" ++ chars id))
    ["shell"; "editor"; "files"; "monitor"; "control"; "clock"; "panel"]%string.

Section BootPrograms.
(** The linker's [__app_<id>_start] and [__app_<id>_end], by catalog index. *)
Variable app_start app_end : Z -> Z.

Definition catalog_name (i : Z) : list Z := fst (default ([], []) (app_catalog !! Z.to_nat i)).
Definition catalog_path (i : Z) : list Z := snd (default ([], []) (app_catalog !! Z.to_nat i)).
Definition BOOT_PROGRAM_COUNT : Z := Z.of_nat (length app_catalog).

(** The size of the program's blob when it holds a KLI1 image. *)
Definition boot_program_source_is_kli1 (m : gmap Z Z) (i : Z) : option Z :=
  let start := app_start i in
  let end_ := app_end i in
  if (start =? 0) || (end_ <=? start) then None else
  let size := end_ - start in
  if size <? ARM_KLI1_HEADER_SIZE then None else
  if negb (kli_magic m start =? ARM_KLI1_MAGIC) ||
     negb (kli_header_size m start =? ARM_KLI1_HEADER_SIZE) ||
     (kli_image_size m start >? size) || (kli_entry_count m start =? 0) ||
     (kli_entry_count m start >? ARM_KLI1_MAX_ENTRIES) then None else
  match find_range 0 (kli_entry_count m start) (fun j =>
          (kli_entry_offset m start j <? kli_header_size m start) ||
          (kli_entry_offset m start j >=? kli_image_size m start)) with
  | Some _ => None
  | None => Some size
  end.

Definition boot_program_find (m : gmap Z Z) (name : option (list Z)) : option boot_program :=
  match name with
  | None => None
  | Some s =>
      if byte_at s 0 =? 0 then None else
      match find_range 0 BOOT_PROGRAM_COUNT (fun i =>
              kstreq (Some (catalog_name i)) name && bool_decide (is_Some (boot_program_source_is_kli1 m i))) with
      | None => None
      | Some i => Some (BootProgram (catalog_name i) (app_start i) (default 0 (boot_program_source_is_kli1 m i)))
      end
  end.

(** ** bootfs.c *)

(** bootfs_find; a [bootfs_file_t] has the fields of a [boot_program_t]. *)
Definition bootfs_find (m : gmap Z Z) (name : option (list Z)) : option boot_program :=
  match boot_program_find m name with
  | None => None
  | Some program =>
      match find_range 0 BOOT_PROGRAM_COUNT (fun i => kstreq (Some (bp_name program)) (Some (catalog_name i))) with
      | None => None
      | Some _ => Some program
      end
  end.

(** The common body of bootfs_vfs_read and bootfs_read. *)
Definition bootfs_vfs_read (m : gmap Z Z) (file : option boot_program) (offset : Z) (buffer : option (list Z))
    (capacity : Z) : Z * Z * option (list Z) :=
  match file, buffer with
  | Some f, Some buf =>
      if offset >? bp_size f then (-1, 0, buffer) else
      let available := bp_size f - offset in
      let count := if capacity >? available then available else capacity in
      (0, count, Some (for_range 0 (u32 count) (fun i d => put i (rd8 m (bp_image f + offset + i)) d) buf))
  | _, _ => (-1, 0, buffer)
  end.

Definition bootfs_read (m : gmap Z Z) (name : option (list Z)) (offset : Z) (buffer : option (list Z))
    (capacity : Z) : Z * Z * option (list Z) :=
  bootfs_vfs_read m (bootfs_find m name) offset buffer capacity.

(** bootfs_mount_vfs: [read_cb] is the callback number of bootfs_vfs_read and
    [context i] the address of the file entry for catalog index [i]. *)
Definition bootfs_mount_vfs (read_cb : Z) (context : Z -> Z) (m : gmap Z Z) (s : vfs) : Z * vfs :=
  let nodes := for_range 0 BOOT_PROGRAM_COUNT (fun i nodes =>
    match bootfs_find m (Some (catalog_name i)) with
    | None => nodes
    | Some file =>
        if bp_size file =? 0 then nodes
        else nodes ++ [Node (Some (catalog_path i)) (bp_size file) read_cb 0 0 (context i)]
    end) [] in
  if Z.of_nat (length nodes) =? 0 then (-1, s) else vfs_mount_static s nodes.

Definition user_image_load_bootfs_flat (image : option user_image) (image_name : list Z)
    (bootfs_name : option (list Z)) (load_base load_capacity entry_index : Z) (m : gmap Z Z)
    : Z * option user_image * gmap Z Z :=
  match bootfs_find m bootfs_name with
  | None => (-1, image, m)
  | Some file =>
      user_image_load_flat image image_name load_base load_capacity (bp_image file) (bp_size file) entry_index m
  end.
End BootPrograms.

(** * Images in the file system *)

Section VfsImages.
Context {W : Type} `{Backend W}.

(** The [n] bytes of RAM from [a] on, and a buffer stored back there. *)
Definition ram_bytes (m : gmap Z Z) (a n : Z) : list Z := map (fun i => rd8 m (a + i)) (seqZ 0 n).
Definition put_ram (m : gmap Z Z) (a n : Z) (buf : list Z) : gmap Z Z :=
  for_range 0 n (fun i m => wr8 m (a + i) (u8 (byte_at buf i))) m.

(** [while (offset < metadata.size)]: every iteration reads at least one byte. *)
Fixpoint image_read_loop (fuel : nat) (s : vfs) (path : option (list Z)) (load size offset : Z)
    (m : gmap Z Z) (w : W) : Z * gmap Z Z * W :=
  match fuel with
  | O => (0, m, w)
  | S fuel' =>
      if negb (offset <? size) then (0, m, w) else
      let '(status, count, buf, w) :=
        vfs_read s path offset (Some (ram_bytes m (load + offset) (size - offset))) (size - offset) w in
      let m := put_ram m (load + offset) (size - offset) (default [] buf) in
      let count := u64 count in
      if negb (status =? 0) || (count =? 0) || (count >? size - offset) then (-1, m, w) else
      image_read_loop fuel' s path load size (offset + count) m w
  end.

Definition user_image_load_vfs_flat (s : vfs) (image : option user_image) (image_name path : option (list Z))
    (load_base load_capacity entry_index : Z) (m : gmap Z Z) (w : W) : Z * option user_image * gmap Z Z * W :=
  match image_name with
  | None => (-1, image, m, w)
  | Some name =>
      if bool_decide (image = None) || bool_decide (path = None) || (load_base =? 0) || (load_capacity =? 0)
      then (-1, image, m, w) else
      let '(status, metadata, w) := vfs_metadata s path vfs_metadata_clear w in
      if negb (status =? 0) || negb (md_type metadata =? VFS_FILE_TYPE_REGULAR) ||
         (md_size metadata <? ARM_KLI1_HEADER_SIZE) || (md_size metadata >? load_capacity)
      then (-1, image, m, w) else
      let '(status, m, w) :=
        image_read_loop (S (Z.to_nat (md_size metadata))) s path load_base (md_size metadata) 0 m w in
      if negb (status =? 0) then (-1, image, m, w) else
      if negb (kli_image_size m load_base =? md_size metadata) then (-1, image, m, w) else
      let '(status, image, m) :=
        user_image_load_flat image name load_base load_capacity load_base (md_size metadata) entry_index m in
      (status, image, m, w)
  end.
End VfsImages.

(** * The process's view of an image *)

Definition user_image_prepare_process (p : option process) (image : option user_image)
    (stack_start stack_size new_pstate : Z) : Z * option process :=
  let entry := user_image_entry image in
  match p, image with
  | Some p, Some img =>
      if (entry =? 0) || (stack_start =? 0) || (stack_size =? 0) then (-1, Some p) else
      match add_u64_checked stack_start stack_size with
      | None => (-1, Some p)
      | Some stack_top =>
          let old_pc := pc p in let old_sp := sp p in let old_pstate := pstate p in
          let p := process_set_entry p entry stack_top new_pstate in
          let '(added, p) := process_add_user_region p (ui_base img) (ui_size img) in
          if negb (added =? 0) then (-1, Some (process_set_entry p old_pc old_sp old_pstate)) else
          let '(added, p) := process_add_user_region p stack_start stack_size in
          if negb (added =? 0) then
            let '(_, p) := process_remove_user_region p (ui_base img) (ui_size img) in
            (-1, Some (process_set_entry p old_pc old_sp old_pstate))
          else (0, Some p)
      end
  | _, _ => (-1, p)
  end.

(** * app_image_source.c *)

Definition APP_IMAGE_NAME_MAX : Z := 32.

Inductive app_image_source_kind := APP_IMAGE_SOURCE_BOOTFS | APP_IMAGE_SOURCE_VFS.

#[export] Instance app_image_source_kind_eq_dec : EqDecision app_image_source_kind.
Proof. solve_decision. Defined.

(** [source->path]: null, or a pointer to one of the two arrays. *)
Inductive source_path := PathNull | PathName | PathStorage.

Record app_image_source := AppSource {
  as_kind : app_image_source_kind;
  as_path : source_path;
  as_path_storage : list Z;
  as_name : list Z }.

(** The string [source->path] points to. *)
Definition source_string (s : app_image_source) : option (list Z) :=
  match as_path s with
  | PathNull => None
  | PathName => Some (as_name s)
  | PathStorage => Some (as_path_storage s)
  end.

Definition clear_source : app_image_source :=
  AppSource APP_IMAGE_SOURCE_BOOTFS PathNull (replicate (Z.to_nat VFS_MAX_PATH) 0)
    (replicate (Z.to_nat APP_IMAGE_NAME_MAX) 0).

(** [while (prefix[i] != 0)]: the matched length. *)
Fixpoint prefix_loop (text prefix : list Z) (i : Z) : option Z :=
  match prefix with
  | [] => Some i
  | c :: prefix' =>
      if c =? 0 then Some i
      else if negb (byte_at text 0 =? c) then None else prefix_loop (tail text) prefix' (i + 1)
  end.

Definition prefix_matches (text : option (list Z)) (prefix : list Z) : option Z :=
  match text with None => None | Some t => prefix_loop t prefix 0 end.

(** [while (name[length] != 0)] *)
Fixpoint copy_name_loop (name out : list Z) (len : Z) : Z * list Z :=
  match name with
  | [] => (0, put len 0 out)
  | c :: name' =>
      if c =? 0 then (0, put len 0 out) else
      if (c =? SLASH) || (len + 1 >=? APP_IMAGE_NAME_MAX) then (-1, out) else
      copy_name_loop name' (put len c out) (len + 1)
  end.

Definition copy_name (out name : list Z) : Z * list Z :=
  if byte_at name 0 =? 0 then (-1, out) else copy_name_loop name out 0.

(** [for (i = 1; storage[i] != 0; i++)]: the start of the last component. *)
Fixpoint basename_loop (fuel : nat) (storage : list Z) (i basename : Z) : Z :=
  match fuel with
  | O => basename
  | S fuel' =>
      if byte_at storage i =? 0 then basename else
      basename_loop fuel' storage (i + 1) (if byte_at storage i =? SLASH then i + 1 else basename)
  end.

(** [&a[i]] *)
Definition from (i : Z) (a : list Z) : list Z := drop (Z.to_nat i) a.

Definition app_image_source_resolve (path : option (list Z)) : Z * app_image_source :=
  let source := clear_source in
  let candidate :=
    match prefix_matches path (chars "/armonios//") with
    | Some prefix_length => from (prefix_length - 1) <$> path
    | None => path
    end in
  let '(status, storage) := vfs_normalize_path candidate (as_path_storage source) in
  let source := AppSource (as_kind source) (as_path source) storage (as_name source) in
  if negb (status =? 0) || negb (byte_at storage 0 =? SLASH) || (byte_at storage 1 =? 0) then (-1, source) else
  match prefix_matches (Some storage) (chars "/armonios/") with
  | Some prefix_length =>
      let '(status, name) := copy_name (as_name source) (from prefix_length storage) in
      if negb (status =? 0) then (-1, clear_source)
      else (0, AppSource APP_IMAGE_SOURCE_BOOTFS PathName storage name)
  | None =>
      if streq_loop storage (chars "/armonios") then (-1, clear_source) else
      let basename := basename_loop (Z.to_nat VFS_MAX_PATH) storage 1 1 in
      let '(status, name) := copy_name (as_name source) (from basename storage) in
      if negb (status =? 0) then (-1, clear_source)
      else (0, AppSource APP_IMAGE_SOURCE_VFS PathStorage storage name)
  end.

(** * Loading *)

(** The two memories agree on the words outside [a .. a + n). *)
Definition within (a n : Z) (m m' : gmap Z Z) : Prop :=
  forall b, b mod 8 = 0 -> b + 8 <= a \/ a + n <= b -> rd64 m' b = rd64 m b.

Lemma within_refl a n m : within a n m m.
Proof. done. Qed.

Lemma within_trans a n m1 m2 m3 : within a n m1 m2 -> within a n m2 m3 -> within a n m1 m3.
Proof. intros W1 W2 b Hb Ho. by rewrite W2, W1. Qed.

Lemma within_weaken a n a' n' m m' : within a n m m' -> a' <= a -> a + n <= a' + n' -> within a' n' m m'.
Proof. intros Hw Ha Hn b Hb Ho. apply Hw; [done|lia]. Qed.

Lemma store_loop_within a n (f : Z -> gmap Z Z -> Z) m :
  within a n m (for_range 0 n (fun i m => wr8 m (a + i) (f i m)) m).
Proof.
  intros b Hb Ho. destruct (Z.lt_ge_cases n 0) as [Hn|Hn].
  { unfold for_range. by rewrite seqZ_nil by lia. }
  apply (for_range_ind (fun _ m' => rd64 m' b = rd64 m b)); [done..|].
  intros i m' Hi IH. rewrite wr8_frame by (done || lia). done.
Qed.

(** The bytes a store loop leaves, when what it stores does not depend on
    what it has already stored. *)
Lemma store_loop_bytes a n (f : Z -> gmap Z Z -> Z) m :
  (forall i m', 0 <= i < n -> 0 <= f i m' < 256) ->
  (forall i m', 0 <= i < n -> (forall b, ~ (a <= b < a + i) -> rd8 m' b = rd8 m b) -> f i m' = f i m) ->
  forall b, rd8 (for_range 0 n (fun i m => wr8 m (a + i) (f i m)) m) b =
    if (a <=? b) && (b <? a + n) then f (b - a) m else rd8 m b.
Proof.
  intros Hr Hf b. destruct (Z.lt_ge_cases n 0) as [Hn|Hn].
  { unfold for_range. rewrite seqZ_nil by lia. cbn [foldl].
    destruct (Z.leb_spec a b), (Z.ltb_spec b (a + n)); cbn [andb]; try done. lia. }
  assert (Hinv : forall k, 0 <= k <= n -> forall b,
    rd8 (for_range 0 k (fun i m => wr8 m (a + i) (f i m)) m) b =
    if (a <=? b) && (b <? a + k) then f (b - a) m else rd8 m b).
  { intros k Hk. apply (for_range_ind (fun k m' => k <= n -> forall b,
      rd8 m' b = if (a <=? b) && (b <? a + k) then f (b - a) m else rd8 m b)); [lia| |..|lia].
    - intros _ c. destruct (Z.leb_spec a c), (Z.ltb_spec c (a + 0)); cbn [andb]; try done. lia.
    - intros i m' Hi IH Hi' c. specialize (IH ltac:(lia)).
      rewrite rd8_wr8 by (apply Hr; lia). rewrite IH.
      destruct (Z.eqb_spec (a + i) c) as [<-|Hne].
      + destruct (Z.leb_spec a (a + i)), (Z.ltb_spec (a + i) (a + (i + 1))); cbn [andb]; try lia.
        replace (a + i - a) with i by lia. apply Hf; [lia|]. intros c Hc. rewrite IH.
        destruct (Z.leb_spec a c), (Z.ltb_spec c (a + i)); cbn [andb]; try done. lia.
      + destruct (Z.leb_spec a c), (Z.ltb_spec c (a + i)), (Z.ltb_spec c (a + (i + 1))); cbn [andb]; try done; lia. }
  apply Hinv. lia.
Qed.

(** A copy onto itself, or between ranges that do not overlap. *)
Lemma copy_ram_bytes load source size m :
  load = source \/ load + size <= source \/ source + size <= load ->
  forall b, rd8 (copy_ram load source size m) b =
    if (load <=? b) && (b <? load + size) then rd8 m (source + (b - load)) else rd8 m b.
Proof.
  intros Hap b. unfold copy_ram. apply (store_loop_bytes load size (fun i m => rd8 m (source + i)) m).
  - intros. apply rd8_range.
  - intros i m' Hi Hout. apply Hout. lia.
Qed.

(** When a KLI1 image can be started at one of its entries. *)
Record kli1_loadable (m : gmap Z Z) (capacity base available index : Z) : Prop := {
  kl_magic : kli_magic m base = ARM_KLI1_MAGIC;
  kl_header : kli_header_size m base = ARM_KLI1_HEADER_SIZE;
  kl_entries : index < kli_entry_count m base <= ARM_KLI1_MAX_ENTRIES;
  kl_size : ARM_KLI1_HEADER_SIZE <= kli_image_size m base <= available;
  kl_fits : kli_image_size m base <= capacity;
  kl_entry : ARM_KLI1_HEADER_SIZE <= kli_entry_offset m base index < kli_image_size m base;
  kl_aligned : kli_entry_offset m base index mod 4 = 0 }.

Lemma le_value_nonneg bs : (forall b, In b bs -> 0 <= b) -> 0 <= le_value bs.
Proof.
  induction bs as [|b bs IH]; intros Hb; cbn [le_value]; [lia|].
  pose proof (Hb b (or_introl eq_refl)). assert (0 <= le_value bs) by (apply IH; intros; apply Hb; by right). lia.
Qed.

Lemma rd_le_nonneg m a n : 0 <= rd_le m a n.
Proof.
  unfold rd_le. apply le_value_nonneg. intros b (i & <- & _)%in_map_iff. apply (rd8_range m (a + i)).
Qed.

(** Close the paths on which an error was returned. *)
Ltac refuse :=
  match goal with E : (?s, ?o, ?m) = _ |- _ => injection E as <- <- <- end;
  right; split_and!; [done| |done|done]; intros [K1 K2 K3 K4 K5 K6 K7];
  unfold ARM_KLI1_HEADER_SIZE, ARM_KLI1_MAX_ENTRIES in *;
  repeat (match goal with D : _ \/ _ |- _ => destruct D as [D|D] end; b2p); lia.

Lemma load_flat_spec img nm load_base load_capacity base available index m status img' m' :
  0 < load_base -> 0 < load_capacity -> 0 < base -> base + available <= 2 ^ 64 -> 0 <= index ->
  user_image_load_flat (Some img) nm load_base load_capacity base available index m = (status, img', m') ->
  (status = 0 /\ kli1_loadable m load_capacity base available index /\
   img' = Some (UserImg nm load_base (kli_image_size m base) (kli_entry_offset m base index)) /\
   m' = copy_ram load_base base (kli_image_size m base) m) \/
  (status = -1 /\ ~ kli1_loadable m load_capacity base available index /\ img' = Some img /\ m' = m).
Proof.
  intros Hlb Hlc Hb Hav Hix E. unfold user_image_load_flat, user_image_load_copy, add_u64_checked in E.
  pose proof (land_low_mask (kli_entry_offset m base index) 2 ltac:(lia)) as Hmask.
  change (2 ^ 2 - 1) with 3 in Hmask. change (2 ^ 2) with 4 in Hmask. rewrite Hmask in E. clear Hmask.
  unfold ARM_KLI1_HEADER_SIZE, ARM_KLI1_MAX_ENTRIES, UINT64_MAX in E.
  rewrite (bool_decide_false (Some img = None)) in E by done.
  assert (Hc0 : 0 <= kli_entry_count m base) by apply rd_le_nonneg.
  assert (Hs0 : 0 <= kli_image_size m base) by apply rd_le_nonneg.
  do 4 (case_if; [refuse|]).
  destruct (base >? _) eqn:Hov in E; b2p; [lia|].
  replace (base + kli_entry_offset m base index - base) with (kli_entry_offset m base index) in E by lia.
  cbn [orb] in E. case_if; [refuse|]. injection E as <- <- <-. left. split_and!; [done| |done|done].
  split; unfold ARM_KLI1_HEADER_SIZE, ARM_KLI1_MAX_ENTRIES; lia.
Qed.

(** the KLI1 loader accepts an image exactly when its header is valid, the
    image fits both its source and the destination, and the entry asked for is
    a word-aligned offset inside the image past the header.  It then reports
    that entry, has copied the image byte by byte and has changed no byte
    outside the destination; otherwise it has changed nothing. *)
Theorem user_image_load_flat_exact img nm load_base load_capacity base available index m :
  0 < load_base -> load_base + load_capacity <= 2 ^ 64 -> 0 < load_capacity ->
  0 < base -> base + available <= 2 ^ 64 -> 0 <= index ->
  load_base = base \/ load_base + load_capacity <= base \/ base + available <= load_base ->
  let '(status, img', m') :=
    user_image_load_flat (Some img) nm load_base load_capacity base available index m in
  let size := kli_image_size m base in
  (status = 0 /\ kli1_loadable m load_capacity base available index /\
   user_image_entry img' = load_base + kli_entry_offset m base index /\
   (forall i, 0 <= i < size -> rd8 m' (load_base + i) = rd8 m (base + i)) /\
   (forall b, ~ (load_base <= b < load_base + size) -> rd8 m' b = rd8 m b)) \/
  (status = -1 /\ ~ kli1_loadable m load_capacity base available index /\ img' = Some img /\ m' = m).
Proof.
  intros Hlb Hlu Hlc Hb Hav Hix Hap. destruct (user_image_load_flat _ _ _ _ _ _ _ _) as [[status img'] m'] eqn:E.
  destruct (load_flat_spec _ _ _ _ _ _ _ _ _ _ _ Hlb Hlc Hb Hav Hix E) as [(-> & Hk & -> & ->)|Hno]; [left|by right].
  pose proof Hk as [_ _ _ K4 K5 K6 _]. unfold ARM_KLI1_HEADER_SIZE in *.
  assert (Hcopy := copy_ram_bytes load_base base (kli_image_size m base) m ltac:(lia)). split_and!; try done.
  - cbn [user_image_entry ui_base ui_size ui_entry_offset]. unfold add_u64_checked, UINT64_MAX.
    rewrite !(proj2 (Z.eqb_neq _ 0)) by lia. cbn [orb].
    destruct (Z.geb_spec (kli_entry_offset m base index) (kli_image_size m base)); [lia|].
    destruct (Z.gtb_spec load_base (2 ^ 64 - 1 - kli_entry_offset m base index)); [lia|done].
  - intros i Hi. rewrite Hcopy. destruct (Z.leb_spec load_base (load_base + i)), (Z.ltb_spec (load_base + i)
      (load_base + kli_image_size m base)); cbn [andb]; try lia. f_equal. lia.
  - intros b Hb'. rewrite Hcopy.
    destruct (Z.leb_spec load_base b), (Z.ltb_spec b (load_base + kli_image_size m base)); cbn [andb]; try done. lia.
Qed.

(** * A small image *)

(** An 88-byte KLI1 image at 0x40001000 with its one entry at offset 80. *)
Definition demo_blob : gmap Z Z :=
  <[0x40001000 := 0x31494c4b + Z.shiftl 80 32 + Z.shiftl 1 48]> (<[0x40001008 := 88]> (<[0x40001010 := 80]> ∅)).

Lemma user_image_load_flat_exact_witness :
  let '(status, img, m) :=
    user_image_load_flat (Some (UserImg [] 0 0 0)) [] 0x40008000 8192 0x40001000 88 0 demo_blob in
  status = 0 /\ user_image_entry img = 0x40008050 /\ rd8 m 0x40008008 = 88.
Proof.
  pose proof (user_image_load_flat_exact (UserImg [] 0 0 0) [] 0x40008000 8192 0x40001000 88 0 demo_blob
    ltac:(lia) ltac:(lia) ltac:(lia) ltac:(lia) ltac:(lia) ltac:(lia) ltac:(lia)) as Hex.
  assert (Hok : kli1_loadable demo_blob 8192 0x40001000 88 0) by (split; vm_compute; repeat split; congruence).
  assert (Hsz : kli_image_size demo_blob 0x40001000 = 88) by (vm_compute; reflexivity).
  assert (Hoff : kli_entry_offset demo_blob 0x40001000 0 = 80) by (vm_compute; reflexivity).
  assert (Hb : rd8 demo_blob 0x40001008 = 88) by (vm_compute; reflexivity).
  destruct (user_image_load_flat _ _ _ _ _ _ _ _) as [[status img] m]. rewrite Hsz, Hoff in Hex.
  destruct Hex as [(E & _ & He & Hc & _)|(_ & Hno & _)]; [|by destruct Hno].
  split; [exact E|]. split; [exact He|]. etransitivity; [exact (Hc 8 ltac:(lia))|exact Hb].
Defined.
