(* ===== verification/Spawn.v ===== *)
(** Starting programs: kernel/panel_boot.c and kernel/panel_boot_argv.c.

    A program is loaded into pages of its own, gets a page table that holds
    the kernel's identity map and its image and stack, and finds its arguments
    on its stack.  The functions work on the process slot they are given and
    on the machine state, and return both on every path, because the caller
    releases the half-built process when they fail. *)

From S2P Require Import Prelude.
From S2P Require Import PageAlloc.
From S2P Require Import Pmm.
From S2P Require Import Vmm.
From S2P Require Import ProcessRegions.
From S2P Require Import UserVm.
From S2P Require Import Process.
From S2P Require Import Bytes.
From S2P Require Import UserCopy.
From S2P Require Import VfsPath.
From S2P Require Import Vfs.
From S2P Require Import UserImage.
From S2P Require Import Syscalls.
Open Scope arm.

(** * kernel/layout.h *)

Definition KERNEL_USER_IMAGE_VA_BASE : Z := 0x400000.
Definition KERNEL_USER_IMAGE_VA_STRIDE : Z := 0x10000.
Definition KERNEL_USER_IMAGE_SLOT_SIZE : Z := 8192.
Definition KERNEL_USER_IMAGE_SLOT_PAGES : Z := (KERNEL_USER_IMAGE_SLOT_SIZE + PAGE_SIZE - 1) / PAGE_SIZE.
Definition KERNEL_USER_STACK_VA_BASE : Z := 0x800000.
Definition KERNEL_USER_STACK_VA_STRIDE : Z := 0x10000.
Definition KERNEL_USER_STACK_SIZE : Z := 4096.
Definition KERNEL_USER_STACK_PAGES : Z := (KERNEL_USER_STACK_SIZE + PAGE_SIZE - 1) / PAGE_SIZE.

Definition AARCH64_SPSR_EL0T_DAF_MASKED : Z := 0x340.

Definition panel_image_vaddr (slot : Z) : Z := KERNEL_USER_IMAGE_VA_BASE + slot * KERNEL_USER_IMAGE_VA_STRIDE.
Definition panel_stack_vaddr (slot : Z) : Z := KERNEL_USER_STACK_VA_BASE + slot * KERNEL_USER_STACK_VA_STRIDE.

(** * Arguments on the stack: panel_boot_argv.c *)

Definition store_u64 (dst value : Z) (m : gmap Z Z) : gmap Z Z :=
  for_range 0 8 (fun i m => wr8 m (dst + i) (u8 (Z.shiftr value (i * 8)))) m.

(** [offsets[i]] *)
Definition argv_offset (argv : panel_boot_argv) (i : Z) : Z := byte_at (av_offsets argv) i.

(** [stack] is the address of the stack's first byte in RAM, [stack_base] the
    address at which the new process sees it.  The result carries the value of
    [*out_argv_vaddr]. *)
Definition panel_boot_place_argv_on_stack (stack stack_base stack_size : Z) (argv : option panel_boot_argv)
    (argc out_argv_vaddr : Z) (m : gmap Z Z) : Z * Z * gmap Z Z :=
  if (stack =? 0) || (stack_size =? 0) then (-1, out_argv_vaddr, m) else
  if argc =? 0 then (0, 0, m) else
  match argv with
  | None => (-1, out_argv_vaddr, m)
  | Some argv =>
      if (argc >? PANEL_BOOT_ARGV_MAX_STRINGS) || (av_bytes_used argv =? 0) ||
         (av_bytes_used argv >? PANEL_BOOT_ARGV_MAX_BYTES) then (-1, out_argv_vaddr, m) else
      match find_range 0 argc (fun i => argv_offset argv i >=? av_bytes_used argv) with
      | Some _ => (-1, out_argv_vaddr, m)
      | None =>
          let pointer_bytes := u64 (u32 (argc + 1) * 8) in
          let total := Z.land (u64 (pointer_bytes + av_bytes_used argv + 15)) (not64 15) in
          if (total >? stack_size) || (stack_base >? UINT64_MAX - stack_size) then (-1, out_argv_vaddr, m) else
          let argv_vaddr := u64 (stack_base + stack_size - total) in
          let strings_vaddr := u64 (argv_vaddr + pointer_bytes) in
          let strings_offset := u64 (strings_vaddr - stack_base) in
          let m := for_range 0 (av_bytes_used argv) (fun i m =>
                     wr8 m (stack + strings_offset + i) (u8 (byte_at (av_bytes argv) i))) m in
          let m := for_range 0 argc (fun i m =>
                     store_u64 (stack + u64 (argv_vaddr - stack_base) + i * 8)
                       (u64 (strings_vaddr + argv_offset argv i)) m) m in
          let m := store_u64 (stack + u64 (argv_vaddr - stack_base) + argc * 8) 0 m in
          (0, argv_vaddr, m)
      end
  end.

(** * panel_boot.c *)

Record panel_user_storage := Storage { image_paddr : Z; stack_paddr : Z }.

Definition set_parent_pid (p : process) (v : Z) : process :=
  Process (pid p) v (name p) (name_storage p) (regs p) (sp p) (pc p) (pstate p) (page_table p) (state p)
    (exit_code p) (next_user_vaddr p) (user_regions p) (user_region_count p).

Definition set_regs (p : process) (rs : list Z) : process :=
  Process (pid p) (parent_pid p) (name p) (name_storage p) rs (sp p) (pc p) (pstate p) (page_table p) (state p)
    (exit_code p) (next_user_vaddr p) (user_regions p) (user_region_count p).

Definition set_sp (p : process) (v : Z) : process :=
  Process (pid p) (parent_pid p) (name p) (name_storage p) (regs p) v (pc p) (pstate p) (page_table p) (state p)
    (exit_code p) (next_user_vaddr p) (user_regions p) (user_region_count p).

(** The linker's symbols: the sections of the kernel image and the embedded
    programs. *)
Record linker := Linker {
  kernel_start : Z; text_end : Z; rodata_end : Z; data_end : Z;
  app_start : Z -> Z; app_end : Z -> Z }.

(** The statics of panel_boot.c. *)
Record spawner (A : Type) := Spawner {
  g_spawn_memory_base : Z;
  g_spawn_memory_size : Z;
  g_spawn_map_mmio : option (Z -> mach A -> Z * mach A);
  g_next_spawn_pid : Z }.
Arguments Spawner {A} _ _ _ _.
Arguments g_spawn_memory_base {A} _.
Arguments g_spawn_memory_size {A} _.
Arguments g_spawn_map_mmio {A} _.
Arguments g_next_spawn_pid {A} _.

Section Spawn.
Context {A W : Type} `{PageAllocator A} `{Backend W} (lk : linker).
Implicit Types (st : mach A) (t : ptable A (vfs * W)).

Definition zero_memory (paddr size : Z) st : mach A := Mach (m_pa st) (zero_bytes paddr size (m_ram st)).

Definition free_image_pages (paddr : Z) st : mach A :=
  if paddr =? 0 then st else
  for_range 0 KERNEL_USER_IMAGE_SLOT_PAGES (fun i st =>
    Mach (free_page (u64 (paddr + i * PAGE_SIZE)) (m_pa st)) (m_ram st)) st.

Definition free_user_storage (s : panel_user_storage) st : mach A :=
  let st := free_image_pages (image_paddr s) st in
  if negb (stack_paddr s =? 0) then Mach (free_page (stack_paddr s) (m_pa st)) (m_ram st) else st.

Definition load_image (name bootfs_name vfs_path : option (list Z)) (image : user_image) (slot entry_index : Z)
    (storage : panel_user_storage) st (vw : vfs * W)
    : Z * user_image * panel_user_storage * mach A * (vfs * W) :=
  match name with
  | None => (-1, image, storage, st, vw)
  | Some nm =>
      if negb (image_paddr storage =? 0) || eqb (bool_decide (bootfs_name = None)) (bool_decide (vfs_path = None))
      then (-1, image, storage, st, vw) else
      let '(paddr, pa) := alloc_pages KERNEL_USER_IMAGE_SLOT_PAGES (m_pa st) in
      let st := Mach pa (m_ram st) in
      if paddr =? 0 then (-1, image, storage, st, vw) else
      let st := zero_memory paddr KERNEL_USER_IMAGE_SLOT_SIZE st in
      let '(status, loaded, m, vw) :=
        match bootfs_name with
        | Some _ =>
            let '(status, loaded, m) :=
              user_image_load_bootfs_flat (app_start lk) (app_end lk) (Some image) nm bootfs_name paddr
                KERNEL_USER_IMAGE_SLOT_SIZE entry_index (m_ram st) in
            (status, loaded, m, vw)
        | None =>
            let '(status, loaded, m, w) :=
              user_image_load_vfs_flat (fst vw) (Some image) name vfs_path paddr
                KERNEL_USER_IMAGE_SLOT_SIZE entry_index (m_ram st) (snd vw) in
            (status, loaded, m, (fst vw, w))
        end in
      let st := Mach (m_pa st) m in
      let image := default image loaded in
      if negb (status =? 0) then (-1, image, storage, free_image_pages paddr st, vw) else
      (0, UserImg (ui_name image) (panel_image_vaddr slot) KERNEL_USER_IMAGE_SLOT_SIZE (ui_entry_offset image),
       Storage paddr (stack_paddr storage), st, vw)
  end.

Definition map_kernel_identity (pgd memory_base memory_size : Z)
    (map_mmio : option (Z -> mach A -> Z * mach A)) st : Z * mach A :=
  vmm_map_kernel_identity (kernel_start lk) (text_end lk) (rodata_end lk) (data_end lk)
    pgd memory_base memory_size map_mmio st.

Definition create_panel_page_table (p : process) (image : user_image)
    (image_paddr stack_vaddr stack_paddr stack_size memory_base memory_size : Z)
    (map_mmio : option (Z -> mach A -> Z * mach A)) st : Z * process * mach A :=
  let '(pgd, st) := vmm_new_table st in
  if pgd =? 0 then (-1, p, st) else
  let '(status, st) := map_kernel_identity pgd memory_base memory_size map_mmio st in
  if negb (status =? 0) then (-1, p, vmm_free_table pgd st) else
  let p := process_set_page_table p pgd in
  let '(status, q, st) := user_vm_map_physical (Some p) (ui_base image) image_paddr (ui_size image)
                            (Z.lor USER_VM_PROT_READ USER_VM_PROT_EXEC) st in
  let p := default p q in
  if negb (status =? 0) then (-1, p, st) else
  let '(status, q, st) := user_vm_map_physical (Some p) stack_vaddr stack_paddr stack_size
                            (Z.lor USER_VM_PROT_READ USER_VM_PROT_WRITE) st in
  let p := default p q in
  if negb (status =? 0) then (-1, p, st) else (0, p, st).

Definition init_panel_process (p : process) (image : user_image) (storage : panel_user_storage)
    (slot memory_base memory_size : Z) (map_mmio : option (Z -> mach A -> Z * mach A)) st
    : Z * process * panel_user_storage * mach A :=
  if (slot >=? PROCESS_MAX_PROCESSES) || (image_paddr storage =? 0) then (-1, p, storage, st) else
  let '(paddr, pa) := alloc_pages KERNEL_USER_STACK_PAGES (m_pa st) in
  let st := Mach pa (m_ram st) in
  let storage := Storage (image_paddr storage) paddr in
  if paddr =? 0 then (-1, p, storage, st) else
  let st := zero_memory paddr KERNEL_USER_STACK_SIZE st in
  let stack_vaddr := panel_stack_vaddr slot in
  let '(status, q) := user_image_prepare_process (Some p) (Some image) stack_vaddr KERNEL_USER_STACK_SIZE
                        AARCH64_SPSR_EL0T_DAF_MASKED in
  let p := default p q in
  if negb (status =? 0) then (-1, p, storage, st) else
  let '(status, p, st) := create_panel_page_table p image (image_paddr storage) stack_vaddr (stack_paddr storage)
                            KERNEL_USER_STACK_SIZE memory_base memory_size map_mmio st in
  if negb (status =? 0) then (-1, p, storage, st) else
  let '(status, p) := process_set_user_region_mapping p (ui_base image) (ui_size image) (image_paddr storage)
                        PROCESS_USER_REGION_OWNED_PAGES in
  if negb (status =? 0) then (-1, p, storage, st) else
  let storage := Storage 0 (stack_paddr storage) in
  let '(status, p) := process_set_user_region_mapping p stack_vaddr KERNEL_USER_STACK_SIZE (stack_paddr storage)
                        PROCESS_USER_REGION_OWNED_PAGES in
  if negb (status =? 0) then (-1, p, storage, st) else (0, p, storage, st).

Definition place_argv_on_stack (stack_paddr slot : Z) (argv : option panel_boot_argv) (argc out : Z) st
    : Z * Z * mach A :=
  if (stack_paddr =? 0) || (slot >=? PROCESS_MAX_PROCESSES) then (-1, out, st) else
  let '(status, out, m) := panel_boot_place_argv_on_stack stack_paddr (panel_stack_vaddr slot)
                             KERNEL_USER_STACK_SIZE argv argc out (m_ram st) in
  (status, out, Mach (m_pa st) m).

Definition set_tworld t (w : vfs * W) : ptable A (vfs * W) :=
  PTable (objects t) (g_current_process t) (g_process_count t) (mem t) (ttbr0 t) w.

(** [process->regs[0] = a; process->regs[1] = b;] *)
Definition set_args (p : process) (a b : Z) : process := set_regs p (<[1%nat := b]> (<[0%nat := a]> (regs p))).

Definition app_spawn_vfs (path : list Z) (entry_index : Z) (argv : option panel_boot_argv) (argc : Z)
    (g : spawner A) t : Z * spawner A * ptable A (vfs * W) :=
  if g_spawn_memory_size g =? 0 then (-1, g, t) else
  let '(status, source) := app_image_source_resolve (Some path) in
  if negb (status =? 0) then (-1, g, t) else
  let t := process_reclaim_zombies t in
  let parent := process_current t in
  let '(process, t) := process_alloc t (g_next_spawn_pid g) (Some (as_name source)) in
  let g := Spawner (g_spawn_memory_base g) (g_spawn_memory_size g) (g_spawn_map_mmio g)
             (u32 (g_next_spawn_pid g + 1)) in
  match process with
  | None => (-1, g, t)
  | Some k =>
      let t := set_obj t k (set_parent_pid (obj t k) (match parent with Some q => pid (obj t q) | None => 0 end)) in
      let t := set_obj t k (set_state (obj t k) PROCESS_BLOCKED) in
      match process_index process with
      | None => (-1, g, process_release t process)
      | Some slot =>
          if slot >=? PROCESS_MAX_PROCESSES then (-1, g, process_release t process) else
          let '(status, image, storage, st, vw) :=
            load_image (Some (as_name source))
              (if bool_decide (as_kind source = APP_IMAGE_SOURCE_BOOTFS) then source_string source else None)
              (if bool_decide (as_kind source = APP_IMAGE_SOURCE_VFS) then source_string source else None)
              (UserImg [] 0 0 0) slot entry_index (Storage 0 0) (mem t) (world t) in
          let t := set_tworld (set_mem t st) vw in
          if negb (status =? 0) then
            let t := process_release t process in
            (-1, g, set_mem t (free_user_storage storage (mem t)))
          else
          let '(status, p, storage, st) :=
            init_panel_process (obj t k) image storage slot (g_spawn_memory_base g) (g_spawn_memory_size g)
              (g_spawn_map_mmio g) (mem t) in
          let t := set_mem (set_obj t k p) st in
          if negb (status =? 0) then
            let t := process_release t process in
            (-1, g, set_mem t (free_user_storage storage (mem t)))
          else
          let t := set_obj t k (set_args (obj t k) 0 0) in
          let '(status, argv_vaddr, st) := place_argv_on_stack (stack_paddr storage) slot argv argc 0 (mem t) in
          let t := set_mem t st in
          if negb (status =? 0) then (-1, g, process_release t process) else
          let t := if negb (argv_vaddr =? 0)
                   then set_obj t k (set_args (set_sp (obj t k) argv_vaddr) argc argv_vaddr) else t in
          let t := set_obj t k (set_state (obj t k) PROCESS_READY) in
          (to_int (pid (obj t k)), g, t)
      end
  end.
End Spawn.
