(* ===== verification/SpawnSafety.v ===== *)
(** What starting a program does to memory.

    [took st0 F st] says that, since [st0], exactly the pages [F] have been
    taken from the allocator and that no word outside the pages that were
    allocatable in [st0] has changed.  Every step of app_spawn_vfs is described
    by the pages it adds to [F] or gives back. *)

From Stdlib Require Import String Ascii.
From S2P Require Import Prelude.
From S2P Require Import PageAlloc.
From S2P Require Import Pmm.
From S2P Require Import Vmm.
From S2P Require Import Bytes.
From S2P Require Import UserCopy.
From S2P Require Import VfsPath.
From S2P Require Import Vfs.
From S2P Require Import VfsNames.
From S2P Require Import Tmpfs.
From S2P Require Import ProcessRegions.
From S2P Require Import UserVm.
From S2P Require Import Process.
From S2P Require Import UserImage.
From S2P Require Import Syscalls.
From S2P Require Import Spawn.
Import ProcessRegions.
Open Scope arm.

Section Took.
Context {A : Type} `{PageAllocatorLaws A}.
Implicit Types (st : mach A) (L : gmap Z nat) (F R : Z -> Prop).

Record took st0 F st : Prop := {
  tk_pa : pa_inv (m_pa st);
  tk_managed : forall q, pa_managed (m_pa st) q <-> pa_managed (m_pa st0) q;
  tk_split : forall q, pa_avail (m_pa st0) q <-> pa_avail (m_pa st) q \/ F q;
  tk_out : forall q, F q -> ~ pa_avail (m_pa st) q;
  tk_ram : forall b, b mod 8 = 0 -> (forall q, pa_avail (m_pa st0) q -> ~ (q <= b < q + 4096)) ->
    rd64 (m_ram st) b = rd64 (m_ram st0) b }.

Lemma took_refl st : pa_inv (m_pa st) -> took st (fun _ => False) st.
Proof. intros Hp. split; try done. intros q. tauto. Qed.

Lemma took_ext st0 F F' st : took st0 F st -> (forall q, F q <-> F' q) -> took st0 F' st.
Proof.
  intros [T1 T2 T3 T4 T5] E. split; try done.
  - intros q. by rewrite <- E.
  - intros q Hq. apply T4. by apply E.
Qed.

(** The pages of a run of [n] from [r]. *)
Definition run_page (r n q : Z) : Prop := q mod 4096 = 0 /\ in_run r n q.

Lemma took_alloc st0 F st n r pa :
  pa_inv (m_pa st0) -> took st0 F st -> 0 < n -> alloc_pages n (m_pa st) = (r, pa) ->
  (r = 0 /\ Mach pa (m_ram st) = st) \/
  (r mod 4096 = 0 /\ 0 < r /\ r + n * 4096 <= 2 ^ 48 /\
   (forall q, run_page r n q -> pa_avail (m_pa st0) q /\ pa_managed pa q /\ ~ F q) /\
   took st0 (fun q => F q \/ run_page r n q) (Mach pa (m_ram st))).
Proof.
  intros Hp0 [T1 T2 T3 T4 T5] Hn E. destruct (alloc_pages_law n _ _ _ T1 Hn E) as (Hpa & Hm & Hres).
  destruct Hres as [[-> ->]|(Hr & Hav & Ha)]; [left; split; [done|by destruct st]|right].
  pose proof (avail_addr _ _ T1 (Hav 0 ltac:(lia))) as (Hr1 & Hr2 & _).
  rewrite Z.add_0_r in *. assert (Hlast := avail_addr _ _ T1 (Hav (n - 1) ltac:(lia))).
  assert (Hrun : forall q, run_page r n q -> pa_avail (m_pa st) q).
  { intros q [Hq Hin]. apply in_run_page in Hin as (i & Hi & ->); [|done..]. by apply Hav. }
  split_and!; [done|lia|lia| |].
  - intros q Hq. pose proof (Hrun q Hq) as Hq'. split; [apply T3; by left|]. split; [|intros Hf; by apply (T4 q)].
    apply Hm. by apply (avail_managed _ _ T1).
  - split; cbn [m_pa m_ram]; try done.
    + intros q. by rewrite Hm, T2.
    + intros q. rewrite T3, Ha. split.
      * intros [Hq|?]; [|by right; left]. destruct (decide (in_run r n q)) as [Hin|]; [|by left].
        right; right. split; [apply (avail_addr _ _ T1 Hq)|done].
      * intros [[? _]|[?|Hq]]; [by left|by right|left; by apply Hrun].
    + intros q [Hq|[Hq Hin]]; rewrite Ha; [|tauto]. intros [Hav' _]. by apply (T4 q).
Qed.

(** Stores inside pages that have been taken. *)
Lemma took_write st0 F st m :
  took st0 F st ->
  (forall b, b mod 8 = 0 -> (forall q, F q -> ~ (q <= b < q + 4096)) -> rd64 m b = rd64 (m_ram st) b) ->
  took st0 F (Mach (m_pa st) m).
Proof.
  intros [T1 T2 T3 T4 T5] Hw. split; cbn [m_pa m_ram]; try done.
  intros b Hb Ho. rewrite Hw; [by apply T5|done|]. intros q Hq. apply Ho, T3. by right.
Qed.

(** Page tables that grow. *)
Lemma took_grow st0 F st pgd L st' L' :
  took st0 (fun q => F q \/ is_Some (L !! q)) st -> (forall q, F q -> L !! q = None) ->
  pt_inv st' pgd L' -> grows st L st' L' ->
  (forall q, F q -> L' !! q = None) /\ took st0 (fun q => F q \/ is_Some (L' !! q)) st'.
Proof.
  intros [T1 T2 T3 T4 T5] HF Hi [G1 G2 G3 G4 G5].
  assert (Hsub : forall q, is_Some (L !! q) -> is_Some (L' !! q)).
  { intros q [l Hq]. exists l. by eapply lookup_weaken. }
  assert (HF' : forall q, F q -> L' !! q = None).
  { intros q Hq. destruct (L' !! q) eqn:E; [|done]. exfalso. apply (T4 q (or_introl Hq)), G2; [by eexists|by apply HF]. }
  assert (Hnew : forall q, is_Some (L' !! q) -> pa_avail (m_pa st0) q).
  { intros q Hq. apply T3. destruct (L !! q) eqn:E; [right; right; by eexists|left; by apply G2]. }
  split; [done|]. split.
  - apply Hi.
  - intros q. by rewrite G4, T2.
  - intros q. split.
    + intros Hq. pose proof (proj1 (T3 q) Hq) as [Ha|[Hf|Hl]]; [|tauto|right; right; by apply Hsub].
      destruct (L' !! q) eqn:E; [right; right; by eexists|left; by apply G3].
    + rewrite G3. intros [[? _]|[?|?]]; [apply T3; tauto|apply T3; tauto|by apply Hnew].
  - intros q Hq. rewrite G3. intros [Ha Hn]. destruct Hq as [Hf|[l Hl]]; [|congruence]. apply (T4 q); tauto.
  - intros b Hb Ho. rewrite G5; [by apply T5|]. intros t Ht. apply Ho. by apply Hnew.
Qed.

(** Pages given back. *)
Lemma took_free st0 F F' R st st' :
  took st0 F st -> freed st R st' -> (forall q, F q <-> F' q \/ R q) -> (forall q, F' q -> ~ R q) ->
  took st0 F' st'.
Proof.
  intros [T1 T2 T3 T4 T5] (D1 & D2 & D3 & D4) HF Hd. split.
  - done.
  - intros q. by rewrite D3, T2.
  - intros q. rewrite T3, D4, HF. tauto.
  - intros q Hq. rewrite D4. intros [Ha|Hr]; [|by apply (Hd q)]. apply (T4 q); [|done]. apply HF. by left.
  - intros b Hb Ho. rewrite D2. by apply T5.
Qed.
End Took.

(** * Mappings that stay out of the mmap window *)

Section Quiet.
Context {A : Type} `{PageAllocatorLaws A}.
Implicit Types (st : mach A) (L : gmap Z nat).

Definition window (v : Z) : Prop := PROCESS_USER_MMAP_BASE <= v < PROCESS_USER_MMAP_LIMIT.

Definition quiet (pgd : Z) st L (r : Z * mach A) : Prop :=
  exists L', pt_inv (snd r) pgd L' /\ grows st L (snd r) L' /\
    forall v, window v -> vmm_leaf_entry (snd r) pgd v = vmm_leaf_entry st pgd v.

(** What the board's MMIO callback must do; the other boards' windows also lie
    outside the mmap window. *)
Definition mmio_quiet (f : Z -> mach A -> Z * mach A) : Prop :=
  forall pgd st L, pt_inv st pgd L -> quiet pgd st L (f pgd st).

Lemma quiet_refl pgd st L s : pt_inv st pgd L -> quiet pgd st L (s, st).
Proof. intros Hi. exists L. split_and!; [done|by eapply grows_refl|done]. Qed.

Lemma quiet_trans pgd st L s st1 r :
  quiet pgd st L (s, st1) -> (forall L1, pt_inv st1 pgd L1 -> quiet pgd st1 L1 r) -> quiet pgd st L r.
Proof.
  intros (L1 & Q1 & Q2 & Q3) Hk. destruct (Hk L1 Q1) as (L2 & K1 & K2 & K3). exists L2. cbn [snd] in *.
  split_and!; [done|by eapply grows_trans|]. intros v Hv. by rewrite K3, Q3.
Qed.

(** Addresses outside the window whose pages cannot be pages of it. *)
Definition off_window (a size : Z) : Prop :=
  size = 0 \/ a + size <= 2 ^ 32 \/ (2 ^ 33 <= a /\ a + size <= 2 ^ 48).

Lemma off_window_page a size i v :
  0 <= a -> 0 <= size -> off_window a size -> 0 <= i < (if size =? 0 then 0 else span_pages a size) -> window v ->
  vpn (a - a mod 4096 + i * 4096) <> vpn v.
Proof.
  unfold off_window, window, PROCESS_USER_MMAP_BASE, PROCESS_USER_MMAP_LIMIT, span_pages. intros Ha Hs Ho Hi Hv Ev.
  destruct (Z.eqb_spec size 0); [lia|]. destruct Ho as [?|Ho]; [done|].
  apply vpn_window in Ev; Z.to_euclidean_division_equations; lia.
Qed.

Lemma quiet_range st pgd L a pa size f :
  pt_inv st pgd L -> is_u64 a -> is_u64 pa -> is_u64 size -> off_window a size ->
  quiet pgd st L (vmm_map_range pgd a pa size f st).
Proof.
  intros Hi Ha Hp Hs Ho. destruct (vmm_map_range _ _ _ _ _ _) as [s st'] eqn:E.
  destruct (vmm_map_range_spec st pgd L _ _ _ _ _ _ Hi Ha Hp Hs E)
    as (L' & Hi' & G & [(_ & _ & [_ Hout] & _)|[_ Hsame]]); exists L'; split_and!; try done.
  intros v Hv. apply Hout. intros i Hi0. unfold is_u64 in *. apply (off_window_page a size); [lia|lia|done..].
Qed.

Lemma quiet_page st pgd L a pa f :
  pt_inv st pgd L -> 0 <= a -> off_window a 1 -> quiet pgd st L (vmm_map_page pgd a pa f st).
Proof.
  intros Hi Ha Ho. destruct (vmm_map_page _ _ _ _ _) as [s st'] eqn:E.
  destruct (vmm_map_page_spec st pgd L _ _ _ _ _ Hi E) as (L' & Hi' & G & Hpost). exists L'. split_and!; try done.
  cbn [snd]. intros v Hv. destruct Hpost as [(_ & Hal & _ & _ & Hst)|[_ Hsame]]; [|by rewrite Hsame].
  rewrite Hst. destruct (Z.eqb_spec (vpn a) (vpn v)) as [Ev|]; [|done]. exfalso.
  apply (off_window_page a 1 0 v Ha ltac:(lia) Ho); [|done|].
  - unfold span_pages. cbn [Z.eqb]. Z.to_euclidean_division_equations. lia.
  - rewrite <- Ev. unfold vpn. f_equal. Z.to_euclidean_division_equations. lia.
Qed.

Lemma quiet_device pgd st L a size r :
  quiet pgd st L r -> is_u64 a -> is_u64 size -> off_window a size -> quiet pgd st L (map_device pgd a size r).
Proof.
  intros Hq Ha Hs Ho. destruct r as [s st1]. cbn [map_device]. destruct (s =? 0); [|done].
  eapply quiet_trans; [exact Hq|]. intros L1 Hi1. by apply quiet_range.
Qed.

Lemma board_map_mmio_quiet : mmio_quiet board_map_mmio.
Proof.
  intros pgd st L Hi. unfold board_map_mmio.
  repeat (apply quiet_device; [|vm_compute; split; congruence|vm_compute; split; congruence|]);
    try (apply quiet_page; [done|vm_compute; congruence|]);
    unfold off_window, QEMU_VIRT_UART0_BASE, QEMU_VIRT_GIC_DIST_BASE, QEMU_VIRT_GIC_MMIO_SIZE,
      QEMU_VIRT_VIRTIO_MMIO_BASE, QEMU_VIRT_VIRTIO_MMIO_SIZE, QEMU_VIRT_PCIE_ECAM_BASE, QEMU_VIRT_PCIE_ECAM_SIZE,
      QEMU_VIRT_PCIE_MMIO_BASE, QEMU_VIRT_PCIE_MMIO_SIZE; lia.
Qed.

(** The kernel image lies in RAM, and RAM below 4 GiB. *)
Record kernel_layout (lk : linker) (base size : Z) : Prop := {
  ly_ram : 0 <= base /\ 0 <= size /\ base + size <= 2 ^ 32;
  ly_text : 0 <= kernel_start lk <= text_end lk;
  ly_data : text_end lk <= rodata_end lk <= data_end lk;
  ly_end : data_end lk <= 2 ^ 32 }.

Lemma quiet_seq (b : bool) pgd st L a pa size f k :
  pt_inv st pgd L -> is_u64 a -> is_u64 pa -> (b = true -> is_u64 size /\ off_window a size) ->
  (forall st1 L1, pt_inv st1 pgd L1 -> quiet pgd st1 L1 (k st1)) ->
  quiet pgd st L (kernel_seq (if b then vmm_map_range pgd a pa size f st else (0, st)) k).
Proof.
  intros Hi Ha Hp Hs Hk. unfold kernel_seq.
  assert (Hq : quiet pgd st L (if b then vmm_map_range pgd a pa size f st else (0, st))).
  { destruct b; [|by apply quiet_refl]. destruct (Hs eq_refl). by apply quiet_range. }
  destruct (if b then _ else _) as [s st1]. destruct (negb (s =? 0)).
  - destruct Hq as (L1 & Q). by exists L1.
  - eapply quiet_trans; [exact Hq|]. intros L1 Hi1. by apply Hk.
Qed.

Lemma align_up_between x y : 0 <= x <= y -> y <= 2 ^ 32 ->
  x <= Vmm.page_align_up x <= Vmm.page_align_up y /\ Vmm.page_align_up y <= 2 ^ 32.
Proof.
  intros Hx Hy. rewrite !Vmm.page_align_up_spec by (unfold UINT64_MAX; lia). Z.to_euclidean_division_equations. lia.
Qed.

Lemma kernel_identity_quiet lk pgd base size mmio st L :
  kernel_layout lk base size -> pt_inv st pgd L -> (forall f, mmio = Some f -> mmio_quiet f) ->
  quiet pgd st L (map_kernel_identity lk pgd base size mmio st).
Proof.
  intros [(Hb & Hs & He) Ht Hd Hl] Hi Hm. unfold map_kernel_identity, vmm_map_kernel_identity.
  destruct ((pgd =? 0) || (size =? 0)) eqn:Ez; [by apply quiet_refl|].
  destruct (align_up_between (text_end lk) (rodata_end lk)) as [A1 A2]; [lia..|].
  destruct (align_up_between (rodata_end lk) (data_end lk)) as [A3 A4]; [lia..|].
  rewrite !u64_id by (unfold is_u64; lia).
  set (T := Vmm.page_align_up (text_end lk)) in *. set (R := Vmm.page_align_up (rodata_end lk)) in *.
  set (D := Vmm.page_align_up (data_end lk)) in *. unfold off_window, is_u64 in *.
  apply (quiet_seq (base <? kernel_start lk) pgd st L base base); [done|unfold is_u64; lia..| |].
  { intros E%Z.ltb_lt. unfold is_u64, off_window. lia. }
  intros st1 L1 Hi1. apply (quiet_seq true pgd st1 L1 (kernel_start lk) (kernel_start lk)); [done|unfold is_u64; lia..| |].
  { intros _. unfold is_u64, off_window. lia. }
  intros st2 L2 Hi2. apply (quiet_seq (T <? R) pgd st2 L2 T T); [done|unfold is_u64; lia..| |].
  { intros E%Z.ltb_lt. unfold is_u64, off_window. lia. }
  intros st3 L3 Hi3. apply (quiet_seq (R <? D) pgd st3 L3 R R); [done|unfold is_u64; lia..| |].
  { intros E%Z.ltb_lt. unfold is_u64, off_window. lia. }
  intros st4 L4 Hi4. apply (quiet_seq (D <? base + size) pgd st4 L4 D D); [done|unfold is_u64; lia..| |].
  { intros E%Z.ltb_lt. unfold is_u64, off_window. lia. }
  intros st5 L5 Hi5. destruct mmio as [f|]; [|by apply quiet_refl].
  pose proof (Hm f eq_refl pgd st5 L5 Hi5) as Hq. destruct (f pgd st5) as [s st6].
  destruct Hq as (L6 & Q). exists L6. by destruct (negb (s =? 0)).
Qed.
End Quiet.

(** * The two mappings of a new program *)

Section Build.
Context {A : Type} `{PageAllocatorLaws A}.
Implicit Types (st : mach A) (L : gmap Z nat) (p : process).

(** The identity and the entry state of a process, which memory calls keep. *)
Definition same_ids p p' : Prop :=
  pid p' = pid p /\ pc p' = pc p /\ sp p' = sp p /\ pstate p' = pstate p /\ state p' = state p.

Lemma map_physical_spec p st L vaddr paddr size flags status q st' :
  pt_inv st (page_table p) L -> regions_wf p -> is_u64 vaddr -> is_u64 paddr -> is_u64 size ->
  user_vm_map_physical (Some p) vaddr paddr size flags st = (status, q, st') ->
  exists p' L', q = Some p' /\ page_table p' = page_table p /\ same_ids p p' /\ regions_wf p' /\
    pt_inv st' (page_table p) L' /\ grows st L st' L' /\
    ((status = 0 /\ size <> 0 /\ vaddr mod 4096 = paddr mod 4096 /\
      (exists k r, live p !! k = Some r /\ r_start r = vaddr /\ r_end r = vaddr + size /\
         live p' = <[k := Region vaddr (vaddr + size) paddr 0]> (live p)) /\
      exists f, maps_range (page_table p) (vaddr - vaddr mod 4096) (paddr - paddr mod 4096) f 0
        (span_pages vaddr size) st st') \/
     (status = -1 /\ p' = p)).
Proof.
  intros Hi Hw Hv Hp Hs E. unfold user_vm_map_physical in E.
  assert (Hfail : forall st1 L1, pt_inv st1 (page_table p) L1 -> grows st L st1 L1 -> exists p' L',
    Some p = Some p' /\ page_table p' = page_table p /\ same_ids p p' /\ regions_wf p' /\ pt_inv st1 (page_table p) L' /\
    grows st L st1 L' /\ ((-1 = 0 /\ size <> 0 /\ vaddr mod 4096 = paddr mod 4096 /\
      (exists k r, live p !! k = Some r /\ r_start r = vaddr /\ r_end r = vaddr + size /\
         live p' = <[k := Region vaddr (vaddr + size) paddr 0]> (live p)) /\
      exists f, maps_range (page_table p) (vaddr - vaddr mod 4096) (paddr - paddr mod 4096) f 0
        (span_pages vaddr size) st st1) \/ (-1 = -1 /\ p' = p))).
  { intros st1 L1 Hi1 G1. exists p, L1. split_and!; try done. by right. }
  destruct (_ || _) eqn:Hz in E; [injection E as <- <- <-; eapply Hfail; [exact Hi|by eapply grows_refl]|].
  destruct (flags_to_vmm flags) as [f|]; [|injection E as <- <- <-; eapply Hfail; [exact Hi|by eapply grows_refl]].
  destruct (process_find_user_region p vaddr size) as [r|];
    [|injection E as <- <- <-; eapply Hfail; [exact Hi|by eapply grows_refl]].
  b2p. destruct (vmm_map_range _ _ _ _ _ _) as [ms st1] eqn:Em.
  destruct (vmm_map_range_spec st _ L _ _ _ _ _ _ Hi Hv Hp Hs Em) as (L1 & Hi1 & G1 & Hres).
  assert (Hun : exists L2, pt_inv (snd (vmm_unmap_range (page_table p) vaddr size st1)) (page_table p) L2 /\
    grows st L (snd (vmm_unmap_range (page_table p) vaddr size st1)) L2).
  { destruct (vmm_unmap_range _ _ _ st1) as [us st2] eqn:Eu.
    destruct (vmm_unmap_range_spec st1 _ L1 _ _ _ _ Hi1 Hv Hs Eu) as (Hi2 & G2 & _).
    exists L1. split; [done|by eapply grows_trans]. }
  destruct Hun as (L2 & Hi2 & G2).
  destruct Hres as [(-> & Hal & Hmap & _)|[-> _]].
  2: { injection E as <- <- <-. by eapply Hfail. }
  cbn [Z.eqb negb] in E. destruct (process_set_user_region_mapping _ _ _ _ _) as [rs p2] eqn:Es.
  destruct (process_set_user_region_mapping_spec p vaddr size paddr 0 rs p2 Hw Hv Hs Es)
    as [(-> & Hw2 & _ & Ep2 & k & g & Hk & Hg1 & Hg2 & Hl)|(-> & -> & _)].
  2: { injection E as <- <- <-. by eapply Hfail. }
  injection E as <- <- <-. exists p2, L1. split_and!; try done.
  - by rewrite Ep2.
  - rewrite Ep2. done.
  - left. rewrite (proj2 (Z.eqb_neq size 0)) in Hmap by done. split_and!; try done; [by exists k, g|by exists f].
Qed.

(** What releasing a half-built process relies on. *)
Definition release_ready p st L : Prop :=
  (page_table p = 0 /\ L = ∅ /\ regions_wf p /\ forall k r, live p !! k = Some r -> owned r = false) \/
  frames_inv p st L.

Lemma release_ready_freed p st L :
  pa_inv (m_pa st) -> release_ready p st L -> freed st (holds p L) (snd (process_free_resources p st)).
Proof.
  intros Hpa [(Ht & -> & Hw & Ho)|Hf].
  - rewrite free_resources_noop by done. cbn [snd]. split_and!; try done. intros q. split; [by left|].
    intros [?|[[l Hl]|(k & r & Hk & Hr & _)]]; [done|by rewrite lookup_empty in Hl|].
    rewrite (Ho k r Hk) in Hr. discriminate Hr.
  - destruct (process_free_resources p st) as [p' st'] eqn:E. by apply (free_resources_spec _ _ _ _ _ Hf E).
Qed.

(** ** Storage not yet owned by the process *)

Definition stored (s : panel_user_storage) (q : Z) : Prop :=
  (image_paddr s <> 0 /\ run_page (image_paddr s) 2 q) \/ (stack_paddr s <> 0 /\ run_page (stack_paddr s) 1 q).

Definition page_run_ok (r n : Z) : Prop := r mod 4096 = 0 /\ 0 < r /\ r + n * 4096 <= 2 ^ 48.

Record storage_ok st (s : panel_user_storage) : Prop := {
  so_image : image_paddr s = 0 \/ page_run_ok (image_paddr s) 2;
  so_stack : stack_paddr s = 0 \/ page_run_ok (stack_paddr s) 1;
  so_managed : forall q, stored s q -> pa_managed (m_pa st) q;
  so_apart : forall q, image_paddr s <> 0 -> run_page (image_paddr s) 2 q -> ~ run_page (stack_paddr s) 1 q }.

Lemma run_page_one r q : r mod 4096 = 0 -> run_page r 1 q <-> q = r.
Proof. unfold run_page, in_run. intros Hr. split; [Z.to_euclidean_division_equations; lia|intros ->; split; [done|lia]]. Qed.

Lemma run_page_two r q : r mod 4096 = 0 -> run_page r 2 q <-> q = r \/ q = r + 4096.
Proof.
  unfold run_page, in_run. intros Hr. split; [Z.to_euclidean_division_equations; lia|].
  intros [->| ->]; (split; [|lia]); [done|]. Z.to_euclidean_division_equations. lia.
Qed.

Lemma freed_page st r :
  pa_inv (m_pa st) -> r <> 0 -> pa_managed (m_pa st) r ->
  freed st (fun q => q = r) (Mach (free_page r (m_pa st)) (m_ram st)).
Proof.
  intros Hpa Hr Hm. destruct (free_page_law r _ Hpa Hr) as (F1 & F2 & F3). split_and!; try done.
  intros q. cbn [m_pa]. rewrite F3. naive_solver.
Qed.

Lemma freed_trans st F st1 G st2 :
  freed st F st1 -> freed st1 G st2 -> freed st (fun q => F q \/ G q) st2.
Proof.
  intros (A1 & A2 & A3 & A4) (B1 & B2 & B3 & B4). split_and!; [done|congruence|intros q; by rewrite B3, A3|].
  intros q. rewrite B4, A4. tauto.
Qed.

Lemma free_image_pages_freed st r :
  pa_inv (m_pa st) -> page_run_ok r 2 -> (forall q, run_page r 2 q -> pa_managed (m_pa st) q) ->
  freed st (run_page r 2) (free_image_pages r st).
Proof.
  intros Hpa (Hm & Hr & Hx) Hman. unfold free_image_pages. rewrite (proj2 (Z.eqb_neq r 0)) by lia.
  change KERNEL_USER_IMAGE_SLOT_PAGES with 2. unfold for_range. change (seqZ 0 (2 - 0)) with [0; 1]. cbn [foldl].
  unfold PAGE_SIZE. rewrite !u64_id by (unfold is_u64; lia). rewrite Z.mul_0_l, Z.add_0_r, Z.mul_1_l.
  pose proof (freed_page st r Hpa ltac:(lia) ltac:(apply Hman, run_page_two; [done|by left])) as F1.
  pose proof F1 as (Hpa1 & _ & Hm1 & _).
  pose proof (freed_page _ (r + 4096) Hpa1 ltac:(lia)) as F2.
  eapply freed_ext; [|eapply freed_trans; [exact F1|apply F2]].
  - intros q. simpl. by rewrite run_page_two.
  - apply Hm1, Hman, run_page_two; [done|by right].
Qed.

Lemma free_user_storage_took st0 s st :
  storage_ok st s -> took st0 (stored s) st -> took st0 (fun _ => False) (free_user_storage s st).
Proof.
  intros [S1 S2 S3 S4] Ht. unfold free_user_storage.
  set (F1 := fun q => stack_paddr s <> 0 /\ run_page (stack_paddr s) 1 q).
  assert (H1 : took st0 F1 (free_image_pages (image_paddr s) st) /\
    forall q, F1 q -> pa_managed (m_pa (free_image_pages (image_paddr s) st)) q).
  { destruct (Z.eq_dec (image_paddr s) 0) as [Ez|Hnz].
    - unfold free_image_pages. rewrite Ez. cbn [Z.eqb]. split; [|intros q Hq; apply S3; by right].
      eapply took_ext; [exact Ht|]. unfold stored, F1. tauto.
    - destruct S1 as [?|S1]; [done|].
      assert (Hf : freed st (run_page (image_paddr s) 2) (free_image_pages (image_paddr s) st)).
      { apply free_image_pages_freed; [apply Ht|done|]. intros q Hq. apply S3. by left. }
      split.
      + eapply took_free; [exact Ht|exact Hf|unfold stored, F1; intros; tauto|].
        intros q [_ Hq] Hi. by apply (S4 q Hnz Hi).
      + intros q Hq. destruct Hf as (_ & _ & Hm & _). apply Hm, S3. by right. }
  destruct H1 as [H1 H2]. destruct (Z.eqb_spec (stack_paddr s) 0) as [Ez|Hnz]; cbn [negb].
  - eapply took_ext; [exact H1|]. unfold F1. tauto.
  - destruct S2 as [?|(Hm & Hp & Hx)]; [done|].
    assert (Hin : F1 (stack_paddr s)) by (split; [done|by apply run_page_one]).
    eapply took_free; [exact H1|apply freed_page; [apply H1|done|by apply H2]| |done].
    intros q. unfold F1. rewrite run_page_one by done. naive_solver.
Qed.

(** ** The regions *)

Definition unowned p : Prop := forall k r, live p !! k = Some r -> owned r = false.

Lemma holds_unowned p L q : unowned p -> holds p L q <-> is_Some (L !! q).
Proof.
  intros Hu. split; [|by left]. intros [?|(k & r & Hk & Ho & _)]; [done|]. rewrite (Hu k r Hk) in Ho. discriminate Ho.
Qed.

Lemma set_entry_regions p a b c :
  regions_wf p -> regions_wf (process_set_entry p a b c) /\ live (process_set_entry p a b c) = live p /\
  page_table (process_set_entry p a b c) = page_table p.
Proof. intros []. split; [split; auto|done]. Qed.

Lemma prepare_process_spec p img sv ss ps status q :
  user_image_prepare_process (Some p) (Some img) sv ss ps = (status, q) ->
  regions_wf p -> live p = [] -> is_u64 (ui_base img) -> is_u64 (ui_size img) -> is_u64 sv -> is_u64 ss ->
  exists p', q = Some p' /\ regions_wf p' /\ page_table p' = page_table p /\ unowned p' /\ state p' = state p /\
  (status = 0 \/ status = -1) /\
  (status = 0 -> live p' = [Region (ui_base img) (ui_base img + ui_size img) 0 0; Region sv (sv + ss) 0 0] /\
     pid p' = pid p /\ pc p' = user_image_entry (Some img) /\ sp p' = sv + ss /\ pstate p' = ps).
Proof.
  intros E Hw Hl Hb Hs Hv Hss. unfold user_image_prepare_process in E.
  assert (Hnil : forall p', live p' = [] -> unowned p') by (intros p' E' k r Hk; by rewrite E', lookup_nil in Hk).
  destruct (_ || _) in E; [injection E as <- <-; exists p; split_and!; auto; discriminate|].
  destruct (add_u64_checked sv ss) as [top|] eqn:Et; [|injection E as <- <-; exists p; split_and!; auto; discriminate].
  assert (Htop : top = sv + ss) by (unfold add_u64_checked in Et; destruct (_ >? _) in Et; [discriminate Et|by injection Et as <-]).
  destruct (set_entry_regions p (user_image_entry (Some img)) top ps Hw) as (Hw1 & Hl1 & Ht1).
  set (p1 := process_set_entry p _ _ _) in *. rewrite Hl in Hl1.
  destruct (process_add_user_region p1 _ _) as [a1 p2] eqn:E1.
  destruct (process_add_user_region_spec p1 _ _ _ _ Hw1 Hb Hs E1) as [(-> & Hw2 & Hl2 & _ & _ & _ & Ep2)|(-> & -> & _)].
  2: { cbn [negb Z.eqb] in E. injection E as <- <-.
       destruct (set_entry_regions p1 (pc p) (sp p) (pstate p) Hw1) as (Hw3 & Hl3 & Ht3).
       eexists. split_and!; [done|done|congruence|apply Hnil; congruence|done|by right|discriminate]. }
  cbn [negb Z.eqb] in E. rewrite Hl1 in Hl2. cbn [app] in Hl2.
  destruct (process_add_user_region p2 _ _) as [a2 p3] eqn:E2.
  destruct (process_add_user_region_spec p2 _ _ _ _ Hw2 Hv Hss E2) as [(-> & Hw3 & Hl3 & _ & _ & _ & Ep3)|(-> & -> & _)].
  - cbn [negb Z.eqb] in E. injection E as <- <-. rewrite Hl2 in Hl3. 
    assert (Hf : page_table p3 = page_table p /\ pid p3 = pid p /\ pc p3 = user_image_entry (Some img) /\
      sp p3 = top /\ pstate p3 = ps /\ state p3 = state p) by (rewrite Ep3, Ep2; done).
    destruct Hf as (F1 & F2 & F3 & F4 & F5 & F6). exists p3. split_and!; auto.
    + intros k r Hk. rewrite Hl3 in Hk. destruct k as [|[|k]]; [injection Hk as <-; done..|discriminate Hk].
    + intros _. split_and!; try done. congruence.
  - cbn [negb Z.eqb] in E. unfold process_remove_user_region in E.
    destruct (process_remove_user_region_info p2 _ _) as [g p4] eqn:E4.
    pose proof (process_remove_user_region_info_spec p2 _ _ _ _ Hw2 Hb Hs E4) as Hr.
    assert (Hp4 : regions_wf p4 /\ page_table p4 = page_table p /\ state p4 = state p /\ unowned p4).
    { destruct g as [g|].
      - destruct Hr as (Hw4 & Ep4 & _ & k & Hk & _ & _ & Hl4). split_and!; [done|by rewrite Ep4, Ep2|by rewrite Ep4, Ep2|].
        intros j r Hj. rewrite Hl4, Hl2 in Hj. destruct k as [|k]; [discriminate Hj|].
        rewrite Hl2 in Hk. destruct k; discriminate Hk.
      - destruct Hr as [-> _]. split_and!; [done|by rewrite Ep2|by rewrite Ep2|]. intros k r Hk. rewrite Hl2 in Hk.
        destruct k; [injection Hk as <-; done|discriminate Hk]. }
    destruct Hp4 as (Hw4 & Ht4 & Hst4 & Hu4).
    injection E as <- <-. destruct (set_entry_regions p4 (pc p) (sp p) (pstate p) Hw4) as (Hw5 & Hl5 & Ht5).
    eexists. split_and!; [done|done|congruence| |done|by right|discriminate].
    intros k r Hk. rewrite Hl5 in Hk. by apply (Hu4 k).
Qed.

(** ** The translations *)

Definition region_maps st (pgd vaddr paddr size : Z) : Prop :=
  forall v, vaddr <= v < vaddr + size ->
    e_valid (vmm_leaf_entry st pgd v) = true /\ vmm_virt_to_phys st pgd v = paddr + (v - vaddr).

Lemma span_aligned v n : v mod 4096 = 0 -> 0 < n -> span_pages v (n * 4096) = n.
Proof. intros Hv Hn. unfold span_pages. rewrite Hv. Z.to_euclidean_division_equations. lia. Qed.

Lemma maps_range_region pgd va pa f n st0 st :
  maps_range pgd va pa f 0 n st0 st -> va mod 4096 = 0 -> pa mod 4096 = 0 -> 0 <= pa -> pa + n * 4096 <= 2 ^ 48 ->
  region_maps st pgd va pa (n * 4096).
Proof.
  intros Hm Hva Hpa Hp Hx v Hv. split.
  - rewrite (proj1 Hm ((v - va) / 4096) v); [apply page_descriptor_valid|Z.to_euclidean_division_equations; lia|].
    unfold vpn. f_equal. Z.to_euclidean_division_equations. lia.
  - replace v with (va + (v - va)) at 1 by lia. eapply maps_range_translates; [exact Hm|done..|lia].
Qed.

Lemma region_maps_keep st st' pgd vaddr paddr size :
  region_maps st pgd vaddr paddr size ->
  (forall v, vaddr <= v < vaddr + size -> vmm_leaf_entry st' pgd v = vmm_leaf_entry st pgd v) ->
  region_maps st' pgd vaddr paddr size.
Proof. intros Hr He v Hv. destruct (Hr v Hv). unfold vmm_virt_to_phys. by rewrite He. Qed.

Lemma maps_range_disjoint pgd va pa f n st0 st v :
  maps_range pgd va pa f 0 n st0 st -> va mod 4096 = 0 -> 0 <= va -> va + n * 4096 <= 2 ^ 48 -> 0 <= v < 2 ^ 48 ->
  ~ (va <= v < va + n * 4096) -> vmm_leaf_entry st pgd v = vmm_leaf_entry st0 pgd v.
Proof.
  intros [_ Hout] Hm Hva Hx Hv Hno. apply Hout. intros i Hi Ev. apply Hno.
  apply vpn_window in Ev; Z.to_euclidean_division_equations; lia.
Qed.

(** The state of a half-built process: the pages [F] are taken and still
    unmapped or unowned, its tables are [L]. *)
Record building st0 F p st L : Prop := {
  bd_took : took st0 (fun q => F q \/ is_Some (L !! q)) st;
  bd_apart : forall q, F q -> L !! q = None;
  bd_ready : release_ready p st L }.

Lemma building_map st0 F p st L vaddr paddr n flags status q st' :
  user_vm_map_physical (Some p) vaddr paddr (n * 4096) flags st = (status, q, st') ->
  building st0 F p st L -> pt_inv st (page_table p) L -> regions_wf p -> unowned p ->
  is_u64 vaddr -> is_u64 paddr -> is_u64 (n * 4096) -> 0 < n ->
  vaddr mod 4096 = 0 -> paddr mod 4096 = 0 -> paddr + n * 4096 <= 2 ^ 48 ->
  exists p' L', q = Some p' /\ building st0 F p' st' L' /\ pt_inv st' (page_table p') L' /\
    page_table p' = page_table p /\ same_ids p p' /\ regions_wf p' /\ unowned p' /\ (status = 0 \/ status = -1) /\
    (status = 0 -> region_maps st' (page_table p) vaddr paddr (n * 4096) /\
       (exists k r, live p !! k = Some r /\ r_start r = vaddr /\ r_end r = vaddr + n * 4096 /\
          live p' = <[k := Region vaddr (vaddr + n * 4096) paddr 0]> (live p)) /\
       forall v, vaddr + n * 4096 <= 2 ^ 48 -> 0 <= v < 2 ^ 48 -> ~ (vaddr <= v < vaddr + n * 4096) ->
         vmm_leaf_entry st' (page_table p) v = vmm_leaf_entry st (page_table p) v).
Proof.
  intros E [B1 B2 _] Hi Hw Hu Hv Hp Hs Hn Hvm Hpm Hpx.
  destruct (map_physical_spec p st L _ _ _ _ _ _ _ Hi Hw Hv Hp Hs E) as (p' & L' & -> & Ht & Hids & Hw' & Hi' & G & Hres).
  destruct (took_grow st0 F st (page_table p) L st' L' B1 B2 Hi' G) as [B2' B1'].
  assert (Hu' : unowned p').
  { destruct Hres as [(_ & _ & _ & (k & r & _ & _ & _ & Hl) & _)|[_ ->]]; [|done].
    intros j g Hj. rewrite Hl in Hj. apply list_lookup_insert_Some in Hj as [(_ & <- & _)|[_ Hj]]; [done|].
    by apply (Hu j). }
  exists p', L'. split; [done|]. split; [split; try done; right; split; [by rewrite Ht|done|]|].
  { intros k r Hk Ho. rewrite (Hu' k r Hk) in Ho. discriminate Ho. }
  split_and!; auto; [by rewrite Ht|naive_solver|]. intros ->. destruct Hres as [(_ & _ & _ & Hk & f & Hm)|[? _]]; [|done].
  rewrite Hvm, Hpm, !Z.sub_0_r, span_aligned in Hm by done. unfold is_u64 in *. split_and!; [|done|].
  - eapply maps_range_region; [exact Hm|done..|lia|lia].
  - intros v Hvx Hv0 Hno. eapply maps_range_disjoint; [exact Hm|done|lia..].
Qed.

(** The image and stack slots of a process. *)
Lemma slot_addresses slot : 0 <= slot < 16 ->
  0 < panel_image_vaddr slot /\ panel_image_vaddr slot mod 4096 = 0 /\
  panel_image_vaddr slot + 8192 <= panel_stack_vaddr slot /\ panel_stack_vaddr slot mod 4096 = 0 /\
  panel_stack_vaddr slot + 4096 <= 2 ^ 32.
Proof.
  intros Hs. unfold panel_image_vaddr, panel_stack_vaddr, KERNEL_USER_IMAGE_VA_BASE, KERNEL_USER_IMAGE_VA_STRIDE,
    KERNEL_USER_STACK_VA_BASE, KERNEL_USER_STACK_VA_STRIDE. split_and!; Z.to_euclidean_division_equations; lia.
Qed.

Lemma same_ids_trans p1 p2 p3 : same_ids p1 p2 -> same_ids p2 p3 -> same_ids p1 p3.
Proof. unfold same_ids. intuition congruence. Qed.

Lemma took_root st0 F st r st1 :
  took st0 F st -> vmm_new_table st = (r, st1) ->
  (r = 0 /\ st1 = st) \/
  (r <> 0 /\ pt_inv st1 r {[r := 0%nat]} /\ (forall v, vmm_leaf_entry st1 r v = 0) /\
   (forall q, F q -> ({[r := 0%nat]} : gmap Z nat) !! q = None) /\
   took st0 (fun q => F q \/ is_Some (({[r := 0%nat]} : gmap Z nat) !! q)) st1).
Proof.
  intros Ht E. pose proof Ht as [T1 T2 T3 T4 T5].
  destruct (new_table_spec st r st1 T1 E) as [?|(Hr & N1 & N2 & N3 & N4 & _ & N6)]; [by left|right].
  destruct (new_root_inv _ _ _ T1 E Hr) as [Hi Hz].
  assert (Hone : forall q, is_Some (({[r := 0%nat]} : gmap Z nat) !! q) <-> q = r).
  { intros q. split; [intros [l [<- _]%lookup_singleton_Some]; done|intros ->; rewrite lookup_singleton_eq; by eexists]. }
  assert (HF : forall q, F q -> q <> r) by (intros q Hq ->; by apply (T4 r Hq)).
  split_and!; try done.
  - intros q Hq. apply lookup_singleton_None. intros E'. by apply (HF q).
  - split; try done.
    + intros q. by rewrite N3, T2.
    + intros q. rewrite T3, N4, Hone. destruct (Z.eq_dec q r) as [->|]; tauto.
    + intros q. rewrite N4, Hone. intros [Hq|Hq] [Ha Hne]; [by apply (T4 q)|done].
    + intros b Hb Ho. rewrite N6; [by apply T5|]. apply Ho, T3. by left.
Qed.

Lemma building_empty st0 F p st :
  took st0 F st -> page_table p = 0 -> regions_wf p -> unowned p -> building st0 F p st ∅.
Proof.
  intros Ht Hp Hw Hu. split; [|intros; apply lookup_empty|by left].
  eapply took_ext; [exact Ht|]. intros q. rewrite lookup_empty. split; [by left|intros [?|[? ?]]; done].
Qed.

Lemma create_page_table_spec lk st0 F p img ip sv sp base size mmio st status p' st' :
  create_panel_page_table lk p img ip sv sp 4096 base size mmio st = (status, p', st') ->
  kernel_layout lk base size -> (forall f, mmio = Some f -> mmio_quiet f) ->
  took st0 F st -> page_table p = 0 -> regions_wf p -> unowned p ->
  page_run_ok ip 2 -> page_run_ok sp 1 ->
  0 < ui_base img -> ui_base img mod 4096 = 0 -> ui_base img + 8192 <= sv -> sv mod 4096 = 0 -> sv + 4096 <= 2 ^ 32 ->
  ui_size img = 8192 ->
  live p = [Region (ui_base img) (ui_base img + 8192) 0 0; Region sv (sv + 4096) 0 0] ->
  exists L, building st0 F p' st' L /\ same_ids p p' /\ regions_wf p' /\ unowned p' /\ (status = 0 \/ status = -1) /\
    (status = 0 -> pt_inv st' (page_table p') L /\
       live p' = [Region (ui_base img) (ui_base img + 8192) ip 0; Region sv (sv + 4096) sp 0] /\
       region_maps st' (page_table p') (ui_base img) ip 8192 /\ region_maps st' (page_table p') sv sp 4096 /\
       forall v, window v -> vmm_leaf_entry st' (page_table p') v = 0).
Proof.
  intros E Hly Hmm Ht Hp0 Hw Hu (Ip1 & Ip2 & Ip3) (Sp1 & Sp2 & Sp3) Hb0 Hbm Hbs Hsm Hsx Hsz Hl.
  unfold create_panel_page_table in E. rewrite Hsz in E.
  destruct (vmm_new_table st) as [pgd st1] eqn:En.
  destruct (took_root st0 F st pgd st1 Ht En) as [[-> ->]|(Hr & Hi1 & Hz1 & HF1 & Ht1)].
  { injection E as <- <- <-. exists ∅. split_and!; auto; [by apply building_empty|done|discriminate]. }
  rewrite (proj2 (Z.eqb_neq pgd 0)) in E by done.
  destruct (map_kernel_identity lk pgd base size mmio st1) as [ks st2] eqn:Ek.
  pose proof (kernel_identity_quiet lk pgd base size mmio st1 _ Hly Hi1 Hmm) as (L2 & Hi2 & G2 & Hq2).
  rewrite Ek in Hi2, G2, Hq2. cbn [snd] in Hi2, G2, Hq2.
  destruct (took_grow st0 F st1 pgd _ st2 L2 Ht1 HF1 Hi2 G2) as [HF2 Ht2].
  destruct (negb (ks =? 0)).
  { injection E as <- <- <-. exists ∅. split_and!; auto; [|done|discriminate]. apply building_empty; try done.
    eapply took_free; [exact Ht2|by apply vmm_free_table_spec|done|]. intros q Hq [l Hl']. by rewrite HF2 in Hl'. }
  destruct (regions_wf_page_table p pgd Hw) as [Hw3 Hl3].
  set (p3 := process_set_page_table p pgd) in *.
  assert (Hu3 : unowned p3) by (intros k r Hk; rewrite Hl3 in Hk; by apply (Hu k)).
  assert (Hids3 : same_ids p p3) by done.
  assert (Hb3 : building st0 F p3 st2 L2).
  { split; [done..|]. right. split; [done|done|]. intros k r Hk Ho. rewrite (Hu3 k r Hk) in Ho. discriminate Ho. }
  change 8192 with (2 * 4096) in E. change 4096 with (1 * 4096) in E at 2.
  destruct (user_vm_map_physical (Some p3) _ ip _ _ st2) as [[s4 q4] st4] eqn:E4.
  destruct (building_map st0 F p3 st2 L2 _ _ 2 _ _ _ _ E4 Hb3 Hi2 Hw3 Hu3)
    as (p4 & L4 & -> & Hb4 & Hi4 & Ht4 & Hids4 & Hw4 & Hu4 & Hs4 & Hm4); [unfold is_u64; lia..|].
  cbn [default id] in E. change (page_table p3) with pgd in *.
  destruct Hs4 as [->| ->]; cbn [Z.eqb negb] in E.
  2: { injection E as <- <- <-. exists L4. split_and!; auto; discriminate. }
  destruct (Hm4 eq_refl) as (Hm4a & (k & r & Hk & Hr1 & Hr2 & Hl4) & Hm4c).
  assert (k = 0%nat) as ->.
  { rewrite Hl3, Hl in Hk. destruct k as [|[|k]]; [done| |discriminate Hk]. injection Hk as <-. cbn in Hr1. lia. }
  rewrite Hl3, Hl in Hl4. cbn [list_insert insert] in Hl4.
  destruct (user_vm_map_physical (Some p4) sv sp _ _ st4) as [[s5 q5] st5] eqn:E5.
  destruct (building_map st0 F p4 st4 L4 _ _ 1 _ _ _ _ E5 Hb4)
    as (p5 & L5 & -> & Hb5 & Hi5 & Ht5 & Hids5 & Hw5 & Hu5 & Hs5 & Hm5); [by rewrite ?Ht4 in *|done|done|unfold is_u64; lia..|].
  cbn [default id] in E. assert (Hids : same_ids p p5) by eauto using same_ids_trans.
  destruct Hs5 as [->| ->]; cbn [Z.eqb negb] in E; injection E as <- <- <-; exists L5;
    [|split_and!; auto; discriminate].
  destruct (Hm5 eq_refl) as (Hm5a & (k & g & Hk5 & Hg1 & Hg2 & Hl5) & Hm5c). rewrite Ht4 in *.
  assert (k = 1%nat) as ->.
  { rewrite Hl4 in Hk5. destruct k as [|[|k]]; [|done|discriminate Hk5]. injection Hk5 as <-. cbn in Hg1. lia. }
  rewrite Hl4 in Hl5. cbn [list_insert insert] in Hl5. rewrite Ht5 in *.
  split_and!; auto. intros _. split_and!; [done|exact Hl5| |exact Hm5a|].
  - eapply region_maps_keep; [exact Hm4a|]. intros v Hv. apply Hm5c; lia.
  - intros v Hv. unfold window, PROCESS_USER_MMAP_BASE, PROCESS_USER_MMAP_LIMIT in Hv.
    rewrite Hm5c, Hm4c by lia. rewrite Hq2 by done. apply Hz1.
Qed.

(** ** The finished process *)

(** The two regions of a new program, owned by it. *)
Definition program_regions (ib ip sv sp : Z) : list process_user_region :=
  [Region ib (ib + 8192) ip PROCESS_USER_REGION_OWNED_PAGES; Region sv (sv + 4096) sp PROCESS_USER_REGION_OWNED_PAGES].

Lemma backs_region v n paddr f q : backs (Region v (v + n * 4096) paddr f) q <-> run_page paddr n q.
Proof. unfold backs, run_page, in_run, region_size. cbn [r_paddr r_start r_end]. rewrite Z.add_simpl_l. done. Qed.

Lemma owned_program_region v n paddr : paddr <> 0 -> owned (Region v (v + n * 4096) paddr PROCESS_USER_REGION_OWNED_PAGES) = true.
Proof. intros Hp. unfold owned. cbn [r_flags r_paddr]. by rewrite (proj2 (Z.eqb_neq paddr 0)). Qed.

Lemma program_region_ok st L pgd v n paddr :
  0 < n -> page_run_ok paddr n -> 0 < v -> v mod 4096 = 0 -> v + n * 4096 <= 2 ^ 32 ->
  (forall q, run_page paddr n q -> pa_managed (m_pa st) q /\ ~ pa_avail (m_pa st) q /\ L !! q = None) ->
  region_maps st pgd v paddr (n * 4096) ->
  owned_region st L pgd (Region v (v + n * 4096) paddr PROCESS_USER_REGION_OWNED_PAGES).
Proof.
  intros Hn (Hm & Hp & Hx) Hv Hvm Hvx Hpg Hmap. split; unfold region_size; cbn [r_start r_end r_paddr]; rewrite ?Z.add_simpl_l.
  - split_and!; [done|by apply Z.mod_mul|done].
  - unfold PROCESS_USER_MMAP_LIMIT. lia.
  - lia.
  - intros q Hq. apply Hpg. by apply (backs_region v n paddr PROCESS_USER_REGION_OWNED_PAGES).
  - intros u Hu. by apply Hmap.
Qed.

Lemma holds_program p L ib ip sv sp q :
  live p = program_regions ib ip sv sp -> ip <> 0 -> sp <> 0 ->
  holds p L q <-> (run_page ip 2 q \/ run_page sp 1 q) \/ is_Some (L !! q).
Proof.
  intros Hl Hi Hs. unfold holds. rewrite Hl. unfold program_regions. split.
  - intros [?|(k & r & Hk & _ & Hb)]; [by right|left]. destruct k as [|[|k]]; [| |discriminate Hk]; injection Hk as <-.
    + left. by apply (backs_region ib 2 ip PROCESS_USER_REGION_OWNED_PAGES).
    + right. by apply (backs_region sv 1 sp PROCESS_USER_REGION_OWNED_PAGES).
  - intros [[Hr|Hr]|?]; [right|right|by left].
    + exists 0%nat. eexists. split; [done|]. split; [by apply (owned_program_region ib 2)|by apply (backs_region ib 2)].
    + exists 1%nat. eexists. split; [done|]. split; [by apply (owned_program_region sv 1)|by apply (backs_region sv 1)].
Qed.

Lemma program_vm_inv st0 p st L ib ip sv sp :
  took st0 (fun q => (run_page ip 2 q \/ run_page sp 1 q) \/ is_Some (L !! q)) st ->
  (forall q, run_page ip 2 q \/ run_page sp 1 q -> pa_managed (m_pa st) q /\ L !! q = None) ->
  (forall q, run_page ip 2 q -> ~ run_page sp 1 q) ->
  page_run_ok ip 2 -> page_run_ok sp 1 -> 0 < ib -> ib mod 4096 = 0 -> ib + 8192 <= sv -> sv mod 4096 = 0 ->
  sv + 4096 <= 2 ^ 32 -> pt_inv st (page_table p) L -> regions_wf p -> live p = program_regions ib ip sv sp ->
  region_maps st (page_table p) ib ip 8192 -> region_maps st (page_table p) sv sp 4096 ->
  (forall v, window v -> vmm_leaf_entry st (page_table p) v = 0) ->
  vm_inv p st L.
Proof.
  intros Ht HF Hap Hip Hsp Hb0 Hbm Hbs Hsm Hsx Hi Hw Hl Hm1 Hm2 Hz.
  assert (Hpg : forall q, run_page ip 2 q \/ run_page sp 1 q ->
    pa_managed (m_pa st) q /\ ~ pa_avail (m_pa st) q /\ L !! q = None).
  { intros q Hq. destruct (HF q Hq) as [H1 H2]. split_and!; try done. apply (tk_out _ _ _ Ht). by left. }
  split; [done|done| | |].
  - intros v Hv He. rewrite Hz in He by done. discriminate He.
  - intros k r Hk _. rewrite Hl in Hk. destruct k as [|[|k]]; [| |discriminate Hk]; injection Hk as <-.
    + apply (program_region_ok st L (page_table p) ib 2 ip); [lia|done|lia|done|lia|auto|done].
    + apply (program_region_ok st L (page_table p) sv 1 sp); [lia|done|lia|done|lia|auto|done].
  - intros i j r r' q Hi' Hj _ _ Hij Hbr Hbr'. rewrite Hl in Hi', Hj.
    destruct i as [|[|i]], j as [|[|j]]; try discriminate Hi'; try discriminate Hj; try done;
      injection Hi' as <-; injection Hj as <-.
    + apply (backs_region ib 2) in Hbr. apply (backs_region sv 1) in Hbr'. by apply (Hap q).
    + apply (backs_region sv 1) in Hbr. apply (backs_region ib 2) in Hbr'. by apply (Hap q).
Qed.

(** The two calls that hand the pages over to the process cannot fail. *)
Lemma hand_over p ib ip sv sp status p1 :
  regions_wf p -> live p = [Region ib (ib + 8192) ip 0; Region sv (sv + 4096) sp 0] ->
  0 < ib -> ib + 8192 <= sv -> sv + 4096 <= 2 ^ 32 ->
  process_set_user_region_mapping p ib 8192 ip PROCESS_USER_REGION_OWNED_PAGES = (status, p1) ->
  status = 0 /\ exists p2, process_set_user_region_mapping p1 sv 4096 sp PROCESS_USER_REGION_OWNED_PAGES = (0, p2) /\
    regions_wf p2 /\ live p2 = program_regions ib ip sv sp /\ page_table p2 = page_table p /\ same_ids p p2.
Proof.
  intros Hw Hl Hb Hbs Hsx E.
  destruct (process_set_user_region_mapping_spec p ib 8192 _ _ _ _ Hw ltac:(unfold is_u64; lia) ltac:(unfold is_u64; lia) E)
    as [(-> & Hw1 & _ & Ep1 & k & r & Hk & Hr1 & Hr2 & Hl1)|(_ & _ & Hno)].
  2: { exfalso. apply (Hno 0%nat (Region ib (ib + 8192) ip 0)); [by rewrite Hl|done]. }
  split; [done|]. rewrite Hl in Hk.
  assert (k = 0%nat) as ->.
  { destruct k as [|[|k]]; [done| |discriminate Hk]. injection Hk as <-. cbn in Hr1. lia. }
  rewrite Hl in Hl1. cbn [list_insert insert] in Hl1.
  destruct (process_set_user_region_mapping p1 sv 4096 _ _) as [s2 p2] eqn:E2.
  destruct (process_set_user_region_mapping_spec p1 sv 4096 _ _ _ _ Hw1 ltac:(unfold is_u64; lia) ltac:(unfold is_u64; lia) E2)
    as [(-> & Hw2 & _ & Ep2 & k & g & Hk2 & Hg1 & Hg2 & Hl2)|(_ & _ & Hno)].
  2: { exfalso. apply (Hno 1%nat (Region sv (sv + 4096) sp 0)); [by rewrite Hl1|done]. }
  rewrite Hl1 in Hk2, Hl2.
  assert (k = 1%nat) as ->.
  { destruct k as [|[|k]]; [|done|discriminate Hk2]. injection Hk2 as <-. cbn in Hg1. lia. }
  exists p2. split_and!; try done; rewrite Ep2, Ep1; done.
Qed.

(** Pages taken so far, split between the process and the loader's storage. *)
Definition undecided st0 p (s : panel_user_storage) st L : Prop :=
  release_ready p st L /\ storage_ok st s /\ (forall q, stored s q -> ~ holds p L q) /\
  took st0 (fun q => stored s q \/ holds p L q) st.

Lemma building_undecided st0 F p s st L :
  building st0 F p st L -> unowned p -> (forall q, F q <-> stored s q) -> storage_ok st s -> undecided st0 p s st L.
Proof.
  intros [B1 B2 B3] Hu HF Hs. split_and!; try done.
  - intros q Hq%HF. rewrite holds_unowned by done. rewrite B2 by done. by intros [? ?].
  - eapply took_ext; [exact B1|]. intros q. simpl. rewrite holds_unowned by done. by rewrite HF.
Qed.

Lemma stored_both ip sp q : ip <> 0 -> sp <> 0 -> run_page ip 2 q \/ run_page sp 1 q <-> stored (Storage ip sp) q.
Proof. unfold stored. cbn [image_paddr stack_paddr]. tauto. Qed.

Lemma took_managed st0 F st q : pa_inv (m_pa st0) -> took st0 F st -> F q -> pa_managed (m_pa st) q.
Proof.
  intros Hp Ht Hq. apply (tk_managed _ _ _ Ht), (avail_managed _ _ Hp), (tk_split _ _ _ Ht). by right.
Qed.

Lemma init_panel_process_spec lk st0 p img ip slot base size mmio st status p' s' st' :
  kernel_layout lk base size -> (forall f, mmio = Some f -> mmio_quiet f) -> pa_inv (m_pa st0) ->
  took st0 (run_page ip 2) st -> page_run_ok ip 2 -> 0 <= slot < 16 ->
  regions_wf p -> live p = [] -> page_table p = 0 ->
  ui_base img = panel_image_vaddr slot -> ui_size img = 8192 ->
  init_panel_process lk p img (Storage ip 0) slot base size mmio st = (status, p', s', st') ->
  state p' = state p /\
  ((status = -1 /\ exists L, undecided st0 p' s' st' L) \/
  (status = 0 /\ exists L sp', s' = Storage 0 sp' /\ page_run_ok sp' 1 /\ vm_inv p' st' L /\ took st0 (holds p' L) st' /\
     live p' = program_regions (panel_image_vaddr slot) ip (panel_stack_vaddr slot) sp' /\
     pid p' = pid p /\ pc p' = user_image_entry (Some img) /\ sp p' = panel_stack_vaddr slot + 4096)).
Proof.
  intros Hly Hmm Hp0 Ht Hip Hslot Hw Hl Hpt Hub Hus E. unfold init_panel_process in E.
  destruct (slot_addresses slot Hslot) as (A1 & A2 & A3 & A4 & A5). pose proof Hip as (I1 & I2 & I3).
  unfold PROCESS_MAX_PROCESSES in E. cbn [image_paddr stack_paddr] in E.
  destruct (Z.geb_spec slot 16); [lia|]. rewrite (proj2 (Z.eqb_neq ip 0)) in E by lia. cbn [orb] in E.
  change KERNEL_USER_STACK_PAGES with 1 in E. change KERNEL_USER_STACK_SIZE with 4096 in E.
  assert (Hu0 : unowned p) by (intros k r Hk; by rewrite Hl, lookup_nil in Hk).
  destruct (alloc_pages 1 (m_pa st)) as [sq pa] eqn:Ea.
  destruct (took_alloc st0 _ st 1 sq pa Hp0 Ht ltac:(lia) Ea) as [[-> Est]|(S1 & S2 & S3 & Srun & Ht1)].
  { rewrite Est in E. injection E as <- <- <- <-. split; [congruence|]. left. split; [done|]. exists ∅.
    apply (building_undecided st0 (run_page ip 2)); [by apply building_empty|done| |].
    - intros q. unfold stored. cbn [image_paddr stack_paddr]. split; [intros Hq; left; split; [lia|done]|tauto].
    - split; cbn [image_paddr stack_paddr]; [by right|by left| |].
      + intros q [[_ Hq]|[? _]]; [by eapply took_managed|done].
      + intros q _ [_ Hq] [_ Hq']. unfold in_run in *. clear -Hq Hq' I1 I2. Z.to_euclidean_division_equations. lia. }
  rewrite (proj2 (Z.eqb_neq sq 0)) in E by lia. cbn [stack_paddr image_paddr] in E.
  set (F := fun q => run_page ip 2 q \/ run_page sq 1 q) in *.
  set (st2 := zero_memory sq 4096 (Mach pa (m_ram st))) in *.
  assert (Ht2 : took st0 F st2).
  { unfold st2, zero_memory. cbn [m_pa m_ram]. apply (took_write st0 F (Mach pa (m_ram st)) _ Ht1).
    intros b Hb Ho. cbn [m_ram]. rewrite zero_bytes_spec by (try done; Z.to_euclidean_division_equations; lia).
    assert (Hno : ~ (sq <= b < sq + 4096)) by (apply Ho; right; by apply run_page_one).
    destruct (Z.leb_spec sq b), (Z.ltb_spec b (sq + 4096)); cbn [andb]; try done; lia. }
  assert (Hst : forall st3, took st0 F st3 \/ (exists L, took st0 (fun q => F q \/ is_Some (L !! q)) st3) ->
    storage_ok st3 (Storage ip sq)).
  { intros st3 Hst3. assert (Hm3 : forall q, F q -> pa_managed (m_pa st3) q).
    { intros q Hq. destruct Hst3 as [Hst3|[L Hst3]];
        [by apply (took_managed st0 F)|eapply took_managed; [done|exact Hst3|by left]]. }
    split; cbn [image_paddr stack_paddr]; [by right|right; by split_and!| |].
    - intros q Hq. apply Hm3. by apply stored_both; [lia..|].
    - intros q _ Hq Hs. by apply (Srun q Hs). }
  destruct (user_image_prepare_process _ _ _ _ _) as [ps q] eqn:Ep.
  destruct (prepare_process_spec p img _ _ _ _ _ Ep Hw Hl)
    as (p1 & -> & Hw1 & Hpt1 & Hu1 & Hst1 & Hs1 & Hok1); [rewrite ?Hub, ?Hus; unfold is_u64; lia..|].
  cbn [default id] in E. destruct Hs1 as [->| ->]; cbn [Z.eqb negb] in E.
  2: { injection E as <- <- <- <-. split; [congruence|]. left. split; [done|]. exists ∅.
       apply (building_undecided st0 F); [apply building_empty; [done|congruence|done|done]|done| |apply Hst; by left].
       intros q. apply stored_both; lia. }
  destruct (Hok1 eq_refl) as (Hl1 & Hid1 & Hpc1 & Hsp1 & _). rewrite Hub, Hus in Hl1.
  destruct (create_panel_page_table _ _ _ _ _ _ _ _ _ _ _) as [[cs p2] st3] eqn:Ec.
  destruct (create_page_table_spec lk st0 F p1 img ip _ sq _ _ mmio st2 cs p2 st3 Ec Hly Hmm Ht2)
    as (L & Hb2 & Hids2 & Hw2 & Hu2 & Hs2 & Hok2); rewrite ?Hub; try done; try lia; try congruence.
  pose proof Hids2 as (D1 & D2 & D3 & _ & D5). rewrite Hub, ?Hus in *.
  destruct Hs2 as [->| ->]; cbn [Z.eqb negb] in E.
  2: { injection E as <- <- <- <-. split; [congruence|]. left. split; [done|]. exists L.
       apply (building_undecided st0 F); [done|done|intros q; apply stored_both; lia|].
       apply Hst. right. exists L. apply Hb2. }
  destruct (Hok2 eq_refl) as (Hi3 & Hl3 & Hm1 & Hm2 & Hz3).
  destruct (process_set_user_region_mapping p2 _ _ _ _) as [hs p3] eqn:Eh.
  destruct (hand_over p2 _ ip _ sq hs p3 Hw2 Hl3 A1 A3 A5 Eh) as (-> & p4 & E4 & Hw4 & Hl4 & Hpt4 & Hids4).
  cbn [Z.eqb negb stack_paddr] in E. rewrite E4 in E. cbn [Z.eqb negb] in E. injection E as <- <- <- <-.
  pose proof Hids4 as (E1 & E2 & E3 & _ & E5). split; [congruence|]. right. split; [done|]. exists L, sq.
  split; [done|]. split; [done|]. split_and!; [| |done|congruence|congruence|congruence].
  - rewrite <- Hpt4 in *. apply (program_vm_inv st0 p4 st3 L (panel_image_vaddr slot) ip (panel_stack_vaddr slot) sq); try done.
    + apply Hb2.
    + intros q Hq. split; [|by apply (bd_apart _ _ _ _ _ Hb2)].
      eapply took_managed; [done|apply Hb2|by left].
    + intros q Hq Hs. by apply (Srun q Hs).
  - eapply took_ext; [apply Hb2|]. intros q. simpl.
    rewrite (holds_program p4 L _ ip _ sq q Hl4) by lia. done.
Qed.
End Build.

(** * Loading into fresh pages *)

Lemma load_flat_within image nm lb cap sb sc idx m status image' m' :
  user_image_load_flat image nm lb cap sb sc idx m = (status, image', m') ->
  within lb cap m m' /\
  (status = -1 \/ (status = 0 /\ exists size off, image' = Some (UserImg nm lb size off) /\ 80 <= off < size /\ size <= cap)).
Proof.
  intros E. unfold user_image_load_flat in E.
  repeat (destruct (_ || _) eqn:? in E; [injection E as <- <- <-; split; [apply within_refl|by left]|]).
  destruct (negb _) in E; [injection E as <- <- <-; split; [apply within_refl|by left]|].
  do 2 (destruct (_ || _) eqn:? in E; [injection E as <- <- <-; split; [apply within_refl|by left]|]).
  destruct (add_u64_checked _ _) as [se|] eqn:Ese; [|injection E as <- <- <-; split; [apply within_refl|by left]].
  assert (Hse : se = sb + kli_entry_offset m sb idx).
  { unfold add_u64_checked in Ese. destruct (_ >? _) in Ese; [discriminate Ese|by injection Ese as <-]. }
  unfold user_image_load_copy in E.
  destruct (_ || _) eqn:Hc in E; injection E as <- <- <-; [split; [apply within_refl|by left]|]. b2p.
  unfold ARM_KLI1_HEADER_SIZE in *. split.
  - eapply within_weaken; [apply (store_loop_within lb (kli_image_size m sb) (fun i m => rd8 m (sb + i)))|lia|lia].
  - right. split; [done|]. do 2 eexists. split; [done|]. lia.
Qed.

Section Load.
Context {A W : Type} `{PageAllocatorLaws A} `{Backend W}.
Implicit Types (st : mach A).

Lemma image_read_loop_within fuel : forall (s : vfs) path load size offset m (w : W) status m' w',
  0 <= offset -> image_read_loop fuel s path load size offset m w = (status, m', w') -> within load size m m'.
Proof.
  induction fuel as [|fuel IH]; intros s path load size offset m w status m' w' Ho E; cbn [image_read_loop] in E.
  { injection E as <- <- <-. apply within_refl. }
  destruct (negb _) in E; [injection E as <- <- <-; apply within_refl|].
  destruct (vfs_read _ _ _ _ _ _) as [[[st count] buf] w1].
  set (m1 := put_ram _ _ _ _) in E.
  assert (Hw1 : within load size m m1).
  { eapply within_weaken; [apply (store_loop_within (load + offset) (size - offset) (fun i _ => u8 (byte_at (default [] buf) i)))|lia|lia]. }
  destruct (_ || _) in E; [injection E as <- <- <-; done|].
  eapply within_trans; [exact Hw1|]. eapply IH; [|exact E]. pose proof (u64_range count). lia.
Qed.

Lemma load_vfs_within s image nm path lb cap idx m (w : W) status image' m' w' :
  user_image_load_vfs_flat s image nm path lb cap idx m w = (status, image', m', w') ->
  within lb cap m m' /\
  (status = -1 \/ (status = 0 /\ exists n size off, image' = Some (UserImg n lb size off) /\ 80 <= off < size /\ size <= cap)).
Proof.
  intros E. unfold user_image_load_vfs_flat in E.
  destruct nm as [n|]; [|injection E as <- <- <- <-; split; [apply within_refl|by left]].
  destruct (_ || _) in E; [injection E as <- <- <- <-; split; [apply within_refl|by left]|].
  destruct (vfs_metadata _ _ _ _) as [[ms md] w1].
  destruct (_ || _) eqn:Hc in E; [injection E as <- <- <- <-; split; [apply within_refl|by left]|]. b2p.
  destruct (image_read_loop _ _ _ _ _ _ _ _) as [[rs m1] w2] eqn:El.
  pose proof (image_read_loop_within _ _ _ _ _ _ _ _ _ _ _ (Z.le_refl 0) El) as Hw.
  assert (Hw1 : within lb cap m m1) by (eapply within_weaken; [exact Hw|lia|lia]).
  destruct (negb (rs =? 0)) in E; [injection E as <- <- <- <-; split; [done|by left]|].
  destruct (negb _) in E; [injection E as <- <- <- <-; split; [done|by left]|].
  destruct (user_image_load_flat _ _ _ _ _ _ _ _) as [[fs im] m2] eqn:Ef. injection E as <- <- <- <-.
  destruct (load_flat_within _ _ _ _ _ _ _ _ _ _ _ Ef) as [Hw2 Hres].
  split; [by eapply within_trans|]. destruct Hres as [?|(-> & size & off & -> & Ho)]; [by left|right]. eauto 10.
Qed.

Lemma load_image_spec lk nm bn vp img0 slot idx st vw status img s st' vw' :
  pa_inv (m_pa st) ->
  load_image lk nm bn vp img0 slot idx (Storage 0 0) st vw = (status, img, s, st', vw') ->
  fst vw' = fst vw /\
  ((status = -1 /\ s = Storage 0 0 /\ took st (fun _ => False) st') \/
   (status = 0 /\ exists ip, s = Storage ip 0 /\ page_run_ok ip 2 /\ took st (run_page ip 2) st' /\
      ui_base img = panel_image_vaddr slot /\ ui_size img = 8192 /\ 80 <= ui_entry_offset img < 8192)).
Proof.
  intros Hpa E. unfold load_image in E. pose proof (took_refl st Hpa) as Ht0.
  destruct nm as [n|]; [|injection E as <- <- <- <- <-; split; [done|by left]].
  destruct (_ || _) in E; [injection E as <- <- <- <- <-; split; [done|by left]|].
  change KERNEL_USER_IMAGE_SLOT_PAGES with 2 in E. change KERNEL_USER_IMAGE_SLOT_SIZE with 8192 in E.
  destruct (alloc_pages 2 (m_pa st)) as [ip pa] eqn:Ea.
  destruct (took_alloc st _ st 2 ip pa Hpa Ht0 ltac:(lia) Ea) as [[-> Est]|(I1 & I2 & I3 & Irun & Ht1)].
  { rewrite Est in E. injection E as <- <- <- <- <-. split; [done|by left]. }
  rewrite (proj2 (Z.eqb_neq ip 0)) in E by lia.
  set (st1 := zero_memory _ _ _) in E.
  assert (Ht2 : took st (run_page ip 2) st1 /\ forall m, within ip 8192 (m_ram st1) m ->
    took st (run_page ip 2) (Mach (m_pa st1) m)).
  { assert (Hin : forall st2 m, took st (run_page ip 2) st2 -> within ip 8192 (m_ram st2) m ->
      took st (run_page ip 2) (Mach (m_pa st2) m)).
    { intros st2 m Ht Hw. apply (took_write _ _ _ _ Ht). intros b Hb Ho. apply Hw; [done|].
      assert (O1 := Ho ip). assert (O2 := Ho (ip + 4096)). rewrite !run_page_two in O1, O2 by done.
      assert (Hb8 : b + 8 <= ip \/ ip <= b) by (clear -Hb I1; Z.to_euclidean_division_equations; lia).
      specialize (O1 ltac:(tauto)). specialize (O2 ltac:(tauto)). lia. }
    assert (Hs1 : took st (run_page ip 2) st1).
    { apply (Hin (Mach pa (m_ram st))); [eapply took_ext; [exact Ht1|]; intros; tauto|].
      apply (store_loop_within ip 8192 (fun _ _ => 0)). }
    split; [done|]. intros m. by apply Hin. }
  destruct Ht2 as [Ht2 Hwr]. clearbody st1. assert (Hok : page_run_ok ip 2) by (unfold page_run_ok; auto).
  assert (Hload : forall fs (loaded : option user_image) m vw1,
    within ip 8192 (m_ram st1) m -> fst vw1 = fst vw ->
    (fs = -1 \/ (fs = 0 /\ exists n size off, loaded = Some (UserImg n ip size off) /\ 80 <= off < size /\ size <= 8192)) ->
    (if negb (fs =? 0)
     then (-1, default img0 loaded, Storage 0 0, free_image_pages ip (Mach (m_pa st1) m), vw1)
     else (0, UserImg (ui_name (default img0 loaded)) (panel_image_vaddr slot) 8192 (ui_entry_offset (default img0 loaded)),
           Storage ip 0, Mach (m_pa st1) m, vw1)) = (status, img, s, st', vw') ->
    fst vw' = fst vw /\
    ((status = -1 /\ s = Storage 0 0 /\ took st (fun _ => False) st') \/
     (status = 0 /\ exists ip, s = Storage ip 0 /\ page_run_ok ip 2 /\ took st (run_page ip 2) st' /\
        ui_base img = panel_image_vaddr slot /\ ui_size img = 8192 /\ 80 <= ui_entry_offset img < 8192))).
  { intros fs loaded m vw1 Hw Hvw [->|(-> & n' & size & off & -> & Ho)] Eq; cbn [Z.eqb negb] in Eq;
      injection Eq as <- <- <- <- <-; (split; [done|]); [left|right].
    - split_and!; try done. pose proof (Hwr m Hw) as Htm. apply (took_free st (run_page ip 2) _ (run_page ip 2) _ _ Htm); [|intros q; tauto|done].
      + apply free_image_pages_freed; [apply Htm|done|]. intros q Hq. by eapply took_managed.
    - split; [done|]. exists ip. split_and!; try done; [by apply Hwr|cbn [default id ui_entry_offset]; lia..]. }
  destruct bn as [bn'|].
  - destruct (user_image_load_bootfs_flat _ _ _ _ _ _ _ _ _) as [[fs loaded] m] eqn:El.
    unfold user_image_load_bootfs_flat in El. cbn [stack_paddr] in E.
    destruct (bootfs_find _ _ _ _) as [file|].
    + destruct (load_flat_within _ _ _ _ _ _ _ _ _ _ _ El) as [Hw Hres].
      apply (Hload fs loaded m vw Hw eq_refl); [|exact E].
      destruct Hres as [?|(-> & size & off & -> & Ho)]; [by left|right]; eauto 10.
    + injection El as <- <- <-. apply (Hload (-1) (Some img0) (m_ram st1) vw); [apply within_refl|done|by left|exact E].
  - destruct (user_image_load_vfs_flat _ _ _ _ _ _ _ _ _) as [[[fs loaded] m] w] eqn:El. cbn [stack_paddr] in E.
    destruct (load_vfs_within _ _ _ _ _ _ _ _ _ _ _ _ _ El) as [Hw Hres].
    by apply (Hload fs loaded m (fst vw, w) Hw eq_refl Hres).
Qed.
End Load.

(** * Arguments stay on the stack *)

Lemma store_u64_within dst v m : within dst 8 m (store_u64 dst v m).
Proof. apply (store_loop_within dst 8 (fun i _ => u8 (Z.shiftr v (i * 8)))). Qed.

(** The layout of the arguments: the pointer array starts at offset
    [size - argv_total], the strings follow it. *)
Definition argv_total (argc used : Z) : Z := ((argc + 1) * 8 + used + 15) / 16 * 16.

Lemma argv_total_code argc used : 0 <= argc <= 8 -> 0 <= used <= 256 ->
  Z.land (u64 (u64 (u32 (argc + 1) * 8) + used + 15)) (not64 15) = argv_total argc used.
Proof.
  intros Hc Hu. rewrite (u64_id (u32 (argc + 1) * 8)), u32_id by (unfold u32; Z.to_euclidean_division_equations; lia).
  rewrite u64_id by lia. unfold argv_total. change (not64 15) with (not64 (2 ^ 4 - 1)).
  rewrite land_high_mask by lia. change (2 ^ 4) with 16. Z.to_euclidean_division_equations. lia.
Qed.

Lemma place_argv_inv stack base size argv argc out m status out' m' :
  0 < stack -> is_u64 base -> 0 < size < 2 ^ 32 -> 0 <= argc -> (forall a, argv = Some a -> 0 <= av_bytes_used a) ->
  panel_boot_place_argv_on_stack stack base size argv argc out m = (status, out', m') ->
  (status = -1 /\ m' = m) \/
  (status = 0 /\ argc = 0 /\ out' = 0 /\ m' = m) \/
  (status = 0 /\ exists a, argv = Some a /\ 0 < argc <= 8 /\ 0 < av_bytes_used a <= 256 /\
   (forall i, 0 <= i < argc -> argv_offset a i < av_bytes_used a) /\
   let total := argv_total argc (av_bytes_used a) in
   let at_ := stack + (size - total) in
   let strings := (argc + 1) * 8 in
   strings + av_bytes_used a <= total <= size /\ base + size < 2 ^ 64 /\ out' = base + (size - total) /\
   m' = store_u64 (at_ + argc * 8) 0
          (for_range 0 argc (fun i m => store_u64 (at_ + i * 8) (u64 (out' + strings + argv_offset a i)) m)
             (for_range 0 (av_bytes_used a) (fun i m => wr8 m (at_ + strings + i) (u8 (byte_at (av_bytes a) i))) m))).
Proof.
  intros Hst Hb Hsz Hc Hu E. unfold panel_boot_place_argv_on_stack in E. unfold is_u64 in *.
  rewrite !(proj2 (Z.eqb_neq _ 0)) in E by lia. cbn [orb] in E.
  destruct (Z.eqb_spec argc 0) as [->|Hc0]; [injection E as <- <- <-; right; by left|].
  destruct argv as [a|]; [|injection E as <- <- <-; by left]. specialize (Hu a eq_refl).
  unfold PANEL_BOOT_ARGV_MAX_STRINGS, PANEL_BOOT_ARGV_MAX_BYTES in E.
  destruct (_ || _) eqn:Hg in E; [injection E as <- <- <-; by left|]. b2p.
  destruct (find_range _ _ _) eqn:Hf in E; [injection E as <- <- <-; by left|].
  set (used := av_bytes_used a) in *.
  rewrite argv_total_code in E by lia. set (total := argv_total argc used) in *.
  assert (Ht : (argc + 1) * 8 + used <= total) by (unfold total, argv_total; Z.to_euclidean_division_equations; lia).
  destruct (_ || _) eqn:Hg2 in E; [injection E as <- <- <-; by left|]. b2p. unfold UINT64_MAX in *.
  right; right. injection E as <- <- <-. split; [done|]. exists a.
  assert (Hpb : u64 (u32 (argc + 1) * 8) = (argc + 1) * 8) by (rewrite u32_id, u64_id by lia; done).
  rewrite Hpb. rewrite (u64_id (base + size - total)) by lia. rewrite (u64_id (base + size - total - base)) by lia.
  rewrite (u64_id (base + size - total + (argc + 1) * 8)) by lia.
  rewrite (u64_id (base + size - total + (argc + 1) * 8 - base)) by lia.
  cbv zeta. fold used total.
  replace (stack + (base + size - total + (argc + 1) * 8 - base)) with (stack + (size - total) + (argc + 1) * 8) by lia.
  replace (stack + (base + size - total - base)) with (stack + (size - total)) by lia.
  replace (base + size - total) with (base + (size - total)) by lia.
  split_and!; try done; try lia.
  intros i Hi. pose proof (find_range_None _ _ _ Hf i Hi) as Hx. cbv beta in Hx. b2p. lia.
Qed.

Lemma loop_within a n k (f : Z -> gmap Z Z -> gmap Z Z) m :
  0 <= k -> (forall i m, 0 <= i < k -> within a n m (f i m)) -> within a n m (for_range 0 k f m).
Proof.
  intros Hk Hf. apply (for_range_ind (fun _ m' => within a n m m')); [done|apply within_refl|].
  intros i m' Hi Hm. eapply within_trans; [exact Hm|by apply Hf].
Qed.

Lemma place_argv_within stack base size argv argc out m status out' m' :
  0 < stack -> is_u64 base -> 0 < size < 2 ^ 32 -> 0 <= argc -> (forall a, argv = Some a -> 0 <= av_bytes_used a) ->
  panel_boot_place_argv_on_stack stack base size argv argc out m = (status, out', m') ->
  (status = 0 \/ status = -1) /\ within stack size m m'.
Proof.
  intros Hst Hb Hsz Hc Hu E. destruct (place_argv_inv _ _ _ _ _ _ _ _ _ _ Hst Hb Hsz Hc Hu E)
    as [[-> ->]|[(-> & _ & _ & ->)|(-> & a & -> & Hargc & Hused & _ & Hfit & _ & _ & ->)]];
    [split; [by right|apply within_refl]|split; [by left|apply within_refl]|split; [by left|]].
  eapply within_trans; [|eapply within_weaken; [apply store_u64_within|lia|lia]].
  eapply within_trans; [|apply loop_within; [lia|intros i m1 Hi; eapply within_weaken; [apply store_u64_within|lia|lia]]].
  eapply within_weaken;
    [apply (store_loop_within _ (av_bytes_used a) (fun i _ => u8 (byte_at (av_bytes a) i)))|lia|lia].
Qed.

Section Spawning.
Context {A W : Type} `{PageAllocatorLaws A} `{Backend W}.
Implicit Types (st : mach A) (L : gmap Z nat) (t : ptable A (vfs * W)).

(** Stores outside the page tables keep the address space. *)
Lemma vm_inv_write p st L a n m :
  vm_inv p st L -> within a n (m_ram st) m ->
  (forall q, is_Some (L !! q) -> q + 4096 <= a \/ a + n <= q) ->
  vm_inv p (Mach (m_pa st) m) L.
Proof.
  intros Hv Hw Hout. pose proof (vi_pt _ _ _ Hv) as Hi.
  destruct (pt_inv_frame st (Mach (m_pa st) m) (page_table p) L Hi) as [Hi' Hl]; try done.
  - apply Hi.
  - intros q [l Hq]. apply (pi_tab _ _ _ Hi q l Hq).
  - intros q i [l Hq] Hi0. unfold entry. cbn [m_ram]. destruct (pi_tab _ _ _ Hi q l Hq) as (_ & Hqm & _).
    assert (Ho := Hout q ltac:(by eexists)). apply Hw; unfold slot; [|lia].
    clear -Hqm. Z.to_euclidean_division_equations. lia.
  - eapply vm_inv_frame; [exact Hv|done|done| |done]. intros. done.
Qed.

Lemma process_release_mem t k :
  state (obj t k) <> PROCESS_UNUSED ->
  mem (process_release t (Some k)) = snd (process_free_resources (obj t k) (mem t)).
Proof.
  intros Hs. unfold process_release. rewrite (bool_decide_false (state (obj t k) = PROCESS_UNUSED)) by done. cbn [andb].
  assert (E : (if bool_decide (g_current_process t = Some k) then process_set_current t None else t) =
    PTable (objects t) (if bool_decide (g_current_process t = Some k) then None else g_current_process t)
      (g_process_count t) (mem t) (ttbr0 t) (world t)) by (destruct t; by destruct (bool_decide _)).
  rewrite E. unfold obj at 1 2. cbn [objects mem]. fold (obj t k).
  destruct (process_free_resources (obj t k) (mem t)) as [p' st']. by destruct (_ && _).
Qed.

(** Releasing a half-built process and its storage gives everything back. *)
Lemma undecided_released st0 t k s L :
  state (obj t k) <> PROCESS_UNUSED -> undecided st0 (obj t k) s (mem t) L ->
  let t' := process_release t (Some k) in
  took st0 (fun _ => False) (mem (set_mem t' (free_user_storage s (mem t')))).
Proof.
  intros Hs (Hr & Hso & Hd & Ht) t'. cbn [set_mem mem]. unfold t'. rewrite process_release_mem by done.
  pose proof (release_ready_freed _ _ _ (tk_pa _ _ _ Ht) Hr) as Hf.
  set (st1 := snd (process_free_resources (obj t k) (mem t))) in *.
  apply free_user_storage_took.
  - destruct Hso as [S1 S2 S3 S4]. split; try done. intros q Hq. destruct Hf as (_ & _ & Hm & _). by apply Hm, S3.
  - eapply took_free; [exact Ht|exact Hf|done|done].
Qed.

(** The slot app_spawn_vfs builds the new process in. *)
Definition new_slot t (n : Z) (str : option (list Z)) (parent : Z) (k : nat) : ptable A (vfs * W) :=
  set_obj (set_count t (u32 (g_process_count t + 1))) k
    (set_state (set_parent_pid (process_init n str) parent) PROCESS_BLOCKED).

Lemma set_obj_set t k p q : set_obj (set_obj t k p) k q = set_obj t k q.
Proof. unfold set_obj. cbn [objects]. by rewrite list_insert_insert_eq. Qed.

Lemma alloc_slot t n str k t2 parent :
  (16 <= length (objects t))%nat -> process_alloc t n str = (Some k, t2) ->
  (k < 16)%nat /\ used t k = false /\
  exists pp, set_obj (set_obj t2 k (set_parent_pid (obj t2 k)
      (match parent with Some q => pid (obj t2 q) | None => 0 end))) k
    (set_state (obj (set_obj t2 k (set_parent_pid (obj t2 k)
      (match parent with Some q => pid (obj t2 q) | None => 0 end))) k) PROCESS_BLOCKED) = new_slot t n str pp k.
Proof.
  intros Hl E. unfold process_alloc in E. destruct (_ || _) in E; [discriminate E|].
  destruct (find_slot t _) as [k'|] eqn:Ef; [|discriminate E]. injection E as -> <-.
  apply find_slot_Some in Ef as (Hk & Hs & _). split; [done|]. split; [unfold used; by rewrite Hs|].
  eexists. rewrite !set_obj_set. unfold new_slot.
  rewrite !obj_set by (cbn [set_obj set_count objects]; rewrite ?length_insert; lia).
  rewrite !(decide_True (P := k = k)) by done.
  change (set_count (set_obj t k (process_init n str)) (u32 (g_process_count t + 1)))
    with (set_obj (set_count t (u32 (g_process_count t + 1))) k (process_init n str)).
  rewrite !set_obj_set. rewrite obj_set by (cbn [set_count objects]; lia). rewrite decide_True by done. reflexivity.
Qed.


(** A process that keeps its memory: only registers and state differ. *)
Lemma vm_inv_registers p p' st L :
  vm_inv p st L -> page_table p' = page_table p -> user_regions p' = user_regions p ->
  user_region_count p' = user_region_count p -> next_user_vaddr p' = next_user_vaddr p -> vm_inv p' st L.
Proof.
  intros Hv E1 E2 E3 E4. assert (El : live p' = live p) by (unfold live; by rewrite E2, E3).
  eapply vm_inv_live; [exact Hv|done|done|]. destruct (vi_regions _ _ _ Hv) as [R1 R2 R3 R4 R5 R6].
  split; rewrite ?El, ?E2, ?E3, ?E4; done.
Qed.

Lemma holds_registers p p' L q :
  user_regions p' = user_regions p -> user_region_count p' = user_region_count p -> holds p' L q <-> holds p L q.
Proof. intros E2 E3. unfold holds, live. by rewrite E2, E3. Qed.

(** Stores on the stack of a finished process. *)
Lemma stack_write st0 p st L ib ip sv sq m :
  vm_inv p st L -> took st0 (holds p L) st -> live p = program_regions ib ip sv sq -> ip <> 0 -> page_run_ok sq 1 ->
  within sq 4096 (m_ram st) m ->
  vm_inv p (Mach (m_pa st) m) L /\ took st0 (holds p L) (Mach (m_pa st) m).
Proof.
  intros Hv Ht Hl Hip (S1 & S2 & S3) Hw.
  assert (Hh : holds p L sq).
  { apply (holds_program p L ib ip sv sq); [done|done|lia|]. left; right. by apply run_page_one. }
  assert (HL : L !! sq = None).
  { assert (Hk : live p !! 1%nat = Some (Region sv (sv + 1 * 4096) sq PROCESS_USER_REGION_OWNED_PAGES)) by (by rewrite Hl).
    pose proof (vi_owned _ _ _ Hv _ _ Hk (owned_program_region sv 1 sq ltac:(lia))) as [_ _ _ Hpg _].
    apply Hpg. apply backs_region. by apply run_page_one. }
  split.
  - eapply vm_inv_write; [exact Hv|exact Hw|]. intros q [l Hq].
    destruct (pi_tab _ _ _ (vi_pt _ _ _ Hv) q l Hq) as (_ & Hqm & _).
    assert (q <> sq) by congruence. clear -Hqm S1 H2. Z.to_euclidean_division_equations. lia.
  - apply (took_write _ _ _ _ Ht). intros b Hb Ho. apply Hw; [done|]. specialize (Ho sq Hh).
    clear -Hb Ho S1. Z.to_euclidean_division_equations. lia.
Qed.

Lemma released_took st0 t k L :
  state (obj t k) <> PROCESS_UNUSED -> vm_inv (obj t k) (mem t) L -> took st0 (holds (obj t k) L) (mem t) ->
  took st0 (fun _ => False) (mem (process_release t (Some k))).
Proof.
  intros Hs Hv Ht. rewrite process_release_mem by done.
  pose proof (release_ready_freed _ _ _ (tk_pa _ _ _ Ht) (or_intror (vm_inv_frames _ _ _ Hv))) as Hf.
  eapply took_free; [exact Ht|exact Hf|intros; tauto|done].
Qed.

(** ** What app_spawn_vfs achieves *)

(** A new process in slot [k], ready to run, whose memory is exactly what was
    taken from the allocator. *)
Record spawned (n : Z) t1 t' (k : nat) L : Prop := {
  sn_slot : (k < 16)%nat /\ used t1 k = false;
  sn_pid : pid (obj t' k) = n;
  sn_ready : state (obj t' k) = PROCESS_READY;
  sn_space : vm_inv (obj t' k) (mem t') L;
  sn_pages : took (mem t1) (holds (obj t' k) L) (mem t');
  sn_entry : panel_image_vaddr (Z.of_nat k) + 80 <= pc (obj t' k) < panel_image_vaddr (Z.of_nat k) + 8192;
  sn_others : forall j, j <> k -> obj t' j = obj t1 j }.

(** Nothing was started and nothing is lost. *)
Record not_spawned t1 t' : Prop := {
  ns_pages : took (mem t1) (fun _ => False) (mem t');
  ns_others : forall j, used t1 j = true -> obj t' j = obj t1 j;
  ns_used : forall j, (j < 16)%nat -> used t' j = used t1 j }.

Lemma release_not_spawned t1 t3 k (f : mach A -> mach A) :
  (k < length (objects t3))%nat -> used t1 k = false -> (forall j, j <> k -> obj t3 j = obj t1 j) ->
  let t' := process_release t3 (Some k) in
  took (mem t1) (fun _ => False) (f (mem t')) -> not_spawned t1 (set_mem t' (f (mem t'))).
Proof.
  intros Hk Hu Ho t' Ht. destruct (process_release_objects t3 k Hk) as (_ & R2 & R3 & _). fold t' in R2, R3. split.
  - done.
  - intros j Hj. assert (j <> k) by congruence. change (obj (set_mem t' (f (mem t'))) j) with (obj t' j).
    rewrite R2, Ho; done.
  - intros j Hj. change (used (set_mem t' (f (mem t'))) j) with (used t' j).
    destruct (decide (j = k)) as [->|Hne]; [congruence|]. unfold used. by rewrite R2, Ho.
Qed.

Lemma set_mem_same t : set_mem t (mem t) = t.
Proof. by destruct t. Qed.

(** The last steps, once the process is built. *)
Lemma set_obj_set_mem t m k p : set_obj (set_mem t m) k p = set_mem (set_obj t k p) m.
Proof. done. Qed.

Lemma finish_spawn t1 t3 k img ip argv argc p st (slot := Z.of_nat k) n L sq :
  (k < 16)%nat -> (k < length (objects t3))%nat -> used t1 k = false -> (forall j, j <> k -> obj t3 j = obj t1 j) ->
  0 <= argc -> (forall a, argv = Some a -> 0 <= av_bytes_used a) ->
  vm_inv p st L -> took (mem t1) (holds p L) st ->
  live p = program_regions (panel_image_vaddr slot) ip (panel_stack_vaddr slot) sq -> ip <> 0 -> page_run_ok sq 1 ->
  pid p = n -> pc p = user_image_entry (Some img) -> ui_base img = panel_image_vaddr slot -> ui_size img = 8192 ->
  80 <= ui_entry_offset img < 8192 -> state p <> PROCESS_UNUSED ->
  let t := set_mem (set_obj t3 k p) st in
  let t := set_obj t k (set_args (obj t k) 0 0) in
  let '(status, argv_vaddr, st) := place_argv_on_stack sq slot argv argc 0 (mem t) in
  let t := set_mem t st in
  if negb (status =? 0) then not_spawned t1 (process_release t (Some k)) else
  let t := if negb (argv_vaddr =? 0)
           then set_obj t k (set_args (set_sp (obj t k) argv_vaddr) argc argv_vaddr) else t in
  let t := set_obj t k (set_state (obj t k) PROCESS_READY) in
  spawned n t1 t k L /\ pid (obj t k) = n.
Proof.
  intros Hk16 Hk Hu Ho Hc Ha Hv Ht Hl Hip Hsq Hpid Hpc Hb Hsz Hoff Hst t ta.
  assert (Ht3 : forall p' m, obj (set_mem (set_obj t3 k p') m) k = p').
  { intros p' m. change (obj (set_mem (set_obj t3 k p') m) k) with (obj (set_obj t3 k p') k).
    rewrite obj_set by done. by rewrite decide_True. }
  assert (Eta : ta = set_mem (set_obj t3 k (set_args p 0 0)) st).
  { unfold ta, t. by rewrite Ht3, set_obj_set_mem, set_obj_set. }
  clearbody ta. subst ta. cbn [mem set_mem]. clear t.
  unfold place_argv_on_stack. pose proof Hsq as (S1 & S2 & S3). unfold PROCESS_MAX_PROCESSES.
  rewrite (proj2 (Z.eqb_neq sq 0)) by lia. destruct (Z.geb_spec slot 16); [lia|]. cbn [orb].
  change KERNEL_USER_STACK_SIZE with 4096.
  destruct (panel_boot_place_argv_on_stack _ _ _ _ _ _ _) as [[status out] m] eqn:Ep.
  destruct (slot_addresses slot ltac:(lia)) as (A1 & A2 & A3 & A4 & A5).
  destruct (place_argv_within sq (panel_stack_vaddr slot) 4096 argv argc 0 (m_ram st) status out m S2 ltac:(unfold is_u64; lia) ltac:(lia) Hc Ha Ep) as [Hstat Hw].
  destruct (stack_write (mem t1) p st L _ ip _ sq m Hv Ht Hl Hip Hsq Hw) as [Hv' Ht'].
  change (set_mem (set_mem (set_obj t3 k (set_args p 0 0)) st) (Mach (m_pa st) m))
    with (set_mem (set_obj t3 k (set_args p 0 0)) (Mach (m_pa st) m)).
  set (st' := Mach (m_pa st) m) in *.
  assert (Hoth : forall p' j, j <> k -> obj (set_mem (set_obj t3 k p') st') j = obj t1 j).
  { intros p' j Hj. change (obj (set_mem (set_obj t3 k p') st') j) with (obj (set_obj t3 k p') j).
    rewrite obj_set by done. rewrite decide_False by done. by apply Ho. }
  destruct (Z.eqb_spec status 0) as [->|Hnz]; cbn [negb].
  2: { set (tz := set_mem _ st'). rewrite <- (set_mem_same (process_release tz (Some k))).
       apply (release_not_spawned t1 tz k (fun m => m)); [cbn; by rewrite length_insert|done|apply Hoth|].
       apply (released_took (mem t1) tz k L); unfold tz; rewrite Ht3.
       - done.
       - by apply (vm_inv_registers p).
       - eapply took_ext; [exact Ht'|]. intros q. symmetry. by apply holds_registers. }
  assert (Hfin : forall pf, page_table pf = page_table p -> user_regions pf = user_regions p ->
    user_region_count pf = user_region_count p -> next_user_vaddr pf = next_user_vaddr p -> pid pf = pid p ->
    pc pf = pc p -> state pf = PROCESS_READY -> spawned n t1 (set_mem (set_obj t3 k pf) st') k L /\ pid pf = n).
  { intros pf F1 F2 F3 F4 F5 F6 F7. split; [|congruence]. split; rewrite ?Ht3; try done.
    - congruence.
    - by apply (vm_inv_registers p).
    - eapply took_ext; [exact Ht'|]. intros q. symmetry. by apply holds_registers.
    - rewrite F6, Hpc. unfold user_image_entry, add_u64_checked, UINT64_MAX. rewrite Hb, Hsz.
      rewrite (proj2 (Z.eqb_neq _ 0)) by lia. cbn [Z.eqb orb].
      destruct (Z.geb_spec (ui_entry_offset img) 8192); [lia|].
      destruct (Z.gtb_spec (panel_image_vaddr slot) (2 ^ 64 - 1 - ui_entry_offset img)); [lia|]. cbn [default id]. fold slot. lia.
    - apply Hoth. }
  destruct (negb (out =? 0)); rewrite !Ht3, ?set_obj_set_mem, ?set_obj_set, ?Ht3, ?set_obj_set_mem, ?set_obj_set;
    by apply Hfin.
Qed.

Lemma new_slot_obj t n str pp k :
  (k < length (objects t))%nat ->
  obj (new_slot t n str pp k) k = set_state (set_parent_pid (process_init n str) pp) PROCESS_BLOCKED /\
  (forall j, j <> k -> obj (new_slot t n str pp k) j = obj t j) /\
  length (objects (new_slot t n str pp k)) = length (objects t) /\ mem (new_slot t n str pp k) = mem t.
Proof.
  intros Hk. unfold new_slot. split_and!; [| |by cbn; rewrite length_insert|done].
  - rewrite obj_set by done. by rewrite decide_True.
  - intros j Hj. rewrite obj_set by done. by rewrite decide_False.
Qed.

(** The steps after the slot has been reserved. *)
Lemma spawn_in_slot lk (g g' : spawner A) t1 n str pp k image_name bn vp idx argv argc (r : Z) t' :
  (16 <= length (objects t1))%nat -> pa_inv (m_pa (mem t1)) ->
  kernel_layout lk (g_spawn_memory_base g) (g_spawn_memory_size g) ->
  (forall f, g_spawn_map_mmio g = Some f -> mmio_quiet f) ->
  0 <= argc -> (forall a, argv = Some a -> 0 <= av_bytes_used a) ->
  (k < 16)%nat -> used t1 k = false ->
  (let slot := Z.of_nat k in
   let t := new_slot t1 n str pp k in
   let '(status, image, storage, st, vw) :=
     load_image lk image_name bn vp (UserImg [] 0 0 0) slot idx (Storage 0 0) (mem t) (world t) in
   let t := set_tworld (set_mem t st) vw in
   if negb (status =? 0) then
     let t := process_release t (Some k) in
     (-1, g', set_mem t (free_user_storage storage (mem t)))
   else
   let '(status, p, storage, st) :=
     init_panel_process lk (obj t k) image storage slot (g_spawn_memory_base g) (g_spawn_memory_size g)
       (g_spawn_map_mmio g) (mem t) in
   let t := set_mem (set_obj t k p) st in
   if negb (status =? 0) then
     let t := process_release t (Some k) in
     (-1, g', set_mem t (free_user_storage storage (mem t)))
   else
   let t := set_obj t k (set_args (obj t k) 0 0) in
   let '(status, argv_vaddr, st) := place_argv_on_stack (stack_paddr storage) slot argv argc 0 (mem t) in
   let t := set_mem t st in
   if negb (status =? 0) then (-1, g', process_release t (Some k)) else
   let t := if negb (argv_vaddr =? 0)
            then set_obj t k (set_args (set_sp (obj t k) argv_vaddr) argc argv_vaddr) else t in
   let t := set_obj t k (set_state (obj t k) PROCESS_READY) in
   (to_int (pid (obj t k)), g', t)) = (r, g', t') ->
  (r = -1 /\ not_spawned t1 t') \/ (exists L, r = to_int n /\ spawned n t1 t' k L).
Proof.
  intros Hlen Hpa Hly Hmm Hc Ha Hk Hu E. cbv zeta in E.
  destruct (new_slot_obj t1 n str pp k ltac:(lia)) as (N1 & N2 & N3 & N4).
  set (t3 := new_slot t1 n str pp k) in *.
  destruct (load_image lk image_name bn vp _ _ idx _ (mem t3) (world t3)) as [[[[ls img] s1] st1] vw1] eqn:El.
  rewrite N4 in El. destruct (load_image_spec _ _ _ _ _ _ _ _ _ _ _ _ _ _ Hpa El) as [_ Hload].
  set (t4 := set_tworld (set_mem t3 st1) vw1) in *.
  assert (O4 : forall j, obj t4 j = obj t3 j) by done.
  assert (L4 : (k < length (objects t4))%nat) by (change (objects t4) with (objects t3); lia).
  assert (Hb4 : state (obj t4 k) <> PROCESS_UNUSED) by (rewrite O4, N1; done).
  assert (Hi4 : regions_wf (obj t4 k) /\ live (obj t4 k) = [] /\ page_table (obj t4 k) = 0 /\ pid (obj t4 k) = n).
  { rewrite O4, N1. destruct (process_init_regions_wf n str) as [[R1 R2 R3 R4 R5 R6] Rl]. split; [|done]. split; done. }
  destruct Hi4 as (Hw4 & Hl4 & Hp4 & Hid4).
  assert (Hoth4 : forall j, j <> k -> obj t4 j = obj t1 j) by (intros; rewrite O4; by apply N2).
  destruct Hload as [(-> & -> & Ht1)|(-> & ip & -> & Hip & Ht1 & Hb & Hsz & Hoff)]; cbn [Z.eqb negb] in E.
  { injection E as <- <-. left. split; [done|].
    apply (release_not_spawned t1 t4 k (free_user_storage (Storage 0 0))); try done.
    apply (undecided_released (mem t1) t4 k (Storage 0 0) ∅); [done|].
    apply (building_undecided _ (fun _ => False)); [apply building_empty; try done| | |].
    - intros j p Hj. by rewrite Hl4, lookup_nil in Hj.
    - intros j p Hj. by rewrite Hl4, lookup_nil in Hj.
    - intros q. unfold stored. cbn. tauto.
    - split; cbn; [by left|by left|intros q [[? _]|[? _]]; done|done]. }
  destruct (init_panel_process lk (obj t4 k) img (Storage ip 0) _ _ _ _ (mem t4)) as [[[is_ p5] s5] st5] eqn:Ei.
  destruct (init_panel_process_spec lk (mem t1) (obj t4 k) img ip (Z.of_nat k) _ _ _ _ _ _ _ _ Hly Hmm Hpa Ht1 Hip
    ltac:(lia) Hw4 Hl4 Hp4 Hb Hsz Ei) as [Hst5 Hinit].
  assert (O5 : obj (set_mem (set_obj t4 k p5) st5) k = p5).
  { change (obj (set_mem (set_obj t4 k p5) st5) k) with (obj (set_obj t4 k p5) k).
    rewrite obj_set by done. by rewrite decide_True. }
  destruct Hinit as [(-> & L & Hund)|(-> & L & sq & -> & Hsq & Hv & Ht & Hl & Hpid & Hpc & _)]; cbn [Z.eqb negb] in E.
  { injection E as <- <-. left. split; [done|]. set (t5 := set_mem (set_obj t4 k p5) st5) in *.
    apply (release_not_spawned t1 t5 k (free_user_storage s5)); try done.
    - cbn. by rewrite length_insert.
    - intros j Hj. change (obj t5 j) with (obj (set_obj t4 k p5) j). rewrite obj_set by done.
      rewrite decide_False by done. by apply Hoth4.
    - apply (undecided_released (mem t1) t5 k s5 L); rewrite O5; [congruence|done]. }
  destruct Hip as (I1 & I2 & I3).
  pose proof (finish_spawn t1 t4 k img ip argv argc p5 st5 n L sq Hk L4 Hu Hoth4 Hc Ha Hv Ht Hl ltac:(lia) Hsq
    ltac:(congruence) Hpc Hb Hsz Hoff ltac:(congruence)) as Hfin. cbv zeta in Hfin. cbn [stack_paddr] in E.
  destruct (place_argv_on_stack sq _ argv argc 0 _) as [[as_ av] st6].
  destruct (negb (as_ =? 0)).
  { injection E as <- <-. by left. }
  injection E as <- <-. right. exists L. destruct Hfin as [Hs Hp]. rewrite Hp. done.
Qed.
End Spawning.

Section Properties.
Context {A W : Type} `{PageAllocatorLaws A} `{Backend W}.

(** C17: starting a program neither leaks nor touches memory it does not own.
    Whatever path, arguments and file contents app_spawn_vfs is given, either
    it returns -1 and every page is as allocatable as before, no process has
    changed and no slot is taken; or it returns the pid of a READY process in a
    free slot whose entry lies in its image, whose address space is well
    formed, and which holds exactly the pages taken from the allocator.  In
    both cases no word outside previously allocatable pages has changed. *)
Theorem spawn_conserves (lk : linker) (g : spawner A) (t : ptable A (vfs * W)) path idx argv argc r g' t' :
  let t1 := process_reclaim_zombies t in
  (16 <= length (objects t1))%nat -> pa_inv (m_pa (mem t1)) ->
  kernel_layout lk (g_spawn_memory_base g) (g_spawn_memory_size g) ->
  (forall f, g_spawn_map_mmio g = Some f -> mmio_quiet f) ->
  0 <= argc -> (forall a, argv = Some a -> 0 <= av_bytes_used a) ->
  app_spawn_vfs lk path idx argv argc g t = (r, g', t') ->
  (r = -1 /\ (t' = t \/ not_spawned t1 t')) \/
  (exists k L, r = to_int (g_next_spawn_pid g) /\ spawned (g_next_spawn_pid g) t1 t' k L).
Proof.
  intros t1 Hlen Hpa Hly Hmm Hc Ha E. unfold app_spawn_vfs in E.
  destruct (g_spawn_memory_size g =? 0); [injection E as <- <- <-; left; split; [done|by left]|].
  destruct (app_image_source_resolve (Some path)) as [rs source].
  destruct (negb (rs =? 0)); [injection E as <- <- <-; left; split; [done|by left]|].
  fold t1 in E. destruct (process_alloc t1 _ _) as [[k|] t2] eqn:Eal.
  2: { injection E as <- <- <-. left. split; [done|]. right. unfold process_alloc in Eal.
       assert (t2 = t1) as ->; [|split; [by apply took_refl|done|done]].
       destruct (_ || _) in Eal; [by injection Eal|]. destruct (find_slot _ _) in Eal; [discriminate Eal|by injection Eal]. }
  destruct (alloc_slot t1 _ _ k t2 (process_current t1) Hlen Eal) as (Hk & Hu & pp & Enew).
  rewrite Enew in E. cbn [process_index] in E. unfold process_in_table, PROCESS_MAX_PROCESSES in E.
  destruct (Z.ltb_spec (Z.of_nat k) 16) as [_|]; [|lia]. destruct (Z.geb_spec (Z.of_nat k) 16); [lia|].
  cbn [g_spawn_memory_base g_spawn_memory_size g_spawn_map_mmio] in E.
  match type of E with context [(-1, ?G, _)] => assert (G = g') as Hg end.
  { clear -E. destruct (load_image _ _ _ _ _ _ _ _ _ _) as [[[[? ?] ?] ?] ?] in E.
    destruct (negb _) in E; [exact (f_equal (fun x => snd (fst x)) E)|].
    destruct (init_panel_process _ _ _ _ _ _ _ _ _) as [[[? ?] ?] ?] in E.
    destruct (negb _) in E; [exact (f_equal (fun x => snd (fst x)) E)|].
    destruct (place_argv_on_stack _ _ _ _ _ _) as [[? ?] ?] in E.
    destruct (negb _) in E; exact (f_equal (fun x => snd (fst x)) E). }
  rewrite Hg in E.
  destruct (spawn_in_slot lk g g' t1 _ _ pp k _ _ _ idx argv argc r t' Hlen Hpa Hly Hmm Hc Ha Hk Hu E)
    as [[-> Hn]|(L & -> & Hs)]; [left; split; [done|by right]|right; by exists k, L].
Qed.
End Properties.

(** * A first program *)

(** 64 pages of RAM with a three-page kernel that embeds one program. *)
Definition demo_linker : linker :=
  Linker 0x40001000 0x40001800 0x40002000 0x40003000 (fun _ => 0x40001000) (fun _ => 0x40001058).

Definition demo_boot_pmm : pmm := pmm_reserve_range 0x40000000 0x3000 (pmm_init 0x40000000 0x40000).

Definition demo_spawner : spawner pmm := Spawner 0x40000000 0x40000 (Some board_map_mmio) 2.

Definition demo_boot : ptable pmm (vfs * tmpfs) :=
  PTable (replicate 16 cleared_slot) None 0 (Mach demo_boot_pmm demo_blob) 0 (vfs_empty, demo_tmpfs).

Lemma reclaim_none {A W : Type} `{PageAllocator A} (t : ptable A W) :
  (forall k, (k < 16)%nat -> state (obj t k) <> PROCESS_ZOMBIE) -> process_reclaim_zombies t = t.
Proof.
  intros Hz. unfold process_reclaim_zombies. apply (for_range_ind (fun _ t' => t' = t)); [done|done|].
  intros i t' Hi ->. rewrite bool_decide_false; [done|]. apply Hz. unfold PROCESS_MAX_PROCESSES in Hi. lia.
Qed.

Lemma demo_boot_reclaimed : process_reclaim_zombies demo_boot = demo_boot.
Proof.
  apply reclaim_none. intros k Hk. unfold obj, demo_boot. cbn [objects]. rewrite lookup_replicate_2 by lia. done.
Qed.

Lemma demo_boot_pmm_ok : pa_inv demo_boot_pmm.
Proof.
  refine (proj1 (pmm_reserve_range_spec 0x40000000 0x3000 _ _ _ _)); [|unfold is_u64; lia..].
  refine (proj1 (pmm_init_spec _ _ _ _ _ _)); [lia|reflexivity|lia|lia].
Qed.

Lemma spawn_conserves_witness :
  exists r g' t', app_spawn_vfs demo_linker (chars "/armonios/shell") 0 None 0 demo_spawner demo_boot = (r, g', t') /\
  ((r = -1 /\ (t' = demo_boot \/ not_spawned demo_boot t')) \/ exists k L, r = 2 /\ spawned 2 demo_boot t' k L).
Proof.
  destruct (app_spawn_vfs demo_linker (chars "/armonios/shell") 0 None 0 demo_spawner demo_boot) as [[r g'] t'] eqn:E.
  exists r, g', t'. split; [reflexivity|].
  assert (H := spawn_conserves demo_linker demo_spawner demo_boot (chars "/armonios/shell") 0 None 0 r g' t').
  cbv zeta in H. rewrite demo_boot_reclaimed in H. apply H; clear H.
  - cbn. lia.
  - exact demo_boot_pmm_ok.
  - split; cbn; lia.
  - intros f [= <-]. apply board_map_mmio_quiet.
  - lia.
  - intros a Ha. discriminate Ha.
  - exact E.
Defined.
