(* ===== verification/SpawnArgv.v ===== *)
(** Arguments from the caller's memory to the new program's stack: the import
    of an argument vector (kernel/syscall_helpers.c) composed with its
    placement on the stack (kernel/panel_boot_argv.c). *)

From S2P Require Import Prelude.
From S2P Require Import PageAlloc.
From S2P Require Import Pmm.
From S2P Require Import Vmm.
From S2P Require Import ProcessRegions.
From S2P Require Import UserVm.
From S2P Require Import Bytes.
From S2P Require Import UserCopy.
From S2P Require Import UserImage.
From S2P Require Import Spawn.
From S2P Require Import SpawnSafety.
Open Scope arm.

(** * Words as bytes *)

Lemma seqZ_cons' m n : 0 < n -> seqZ m n = m :: seqZ (m + 1) (n - 1).
Proof. intros Hn. rewrite seqZ_cons by lia. f_equal. Qed.

Lemma le_value_digits n : forall v, 0 <= v ->
  le_value (map (fun i => u8 (Z.shiftr v (i * 8))) (seqZ 0 (Z.of_nat n))) = v mod 2 ^ (8 * Z.of_nat n).
Proof.
  induction n as [|n IH]; intros v Hv; [by rewrite Z.mod_1_r|].
  rewrite seqZ_cons' by lia. cbn [map le_value]. replace (Z.of_nat (S n) - 1) with (Z.of_nat n) by lia.
  assert (E : map (fun i => u8 (Z.shiftr v (i * 8))) (seqZ (0 + 1) (Z.of_nat n)) =
    map (fun i => u8 (Z.shiftr (v / 256) (i * 8))) (seqZ 0 (Z.of_nat n))).
  { apply list_eq. intros i. rewrite !list_lookup_fmap. destruct (decide (i < n)%nat).
    - rewrite !lookup_seqZ_lt by lia. cbn. f_equal. f_equal. change 256 with (2 ^ 8).
      rewrite <- Z.shiftr_div_pow2, Z.shiftr_shiftr by lia. f_equal. lia.
    - rewrite !lookup_seqZ_ge by lia. done. }
  rewrite E, IH by (apply Z.div_pos; lia). rewrite Z.mul_0_l, Z.shiftr_0_r. unfold u8.
  replace (8 * Z.of_nat (S n)) with (8 + 8 * Z.of_nat n) by lia. rewrite Z.pow_add_r by lia.
  change (2 ^ 8) with 256. rewrite Z.rem_mul_r by lia. done.
Qed.

Lemma store_u64_bytes dst v m b : rd8 (store_u64 dst v m) b =
  if (dst <=? b) && (b <? dst + 8) then u8 (Z.shiftr v ((b - dst) * 8)) else rd8 m b.
Proof.
  apply (store_loop_bytes dst 8 (fun i _ => u8 (Z.shiftr v (i * 8))) m); [intros; apply u8_range|done].
Qed.

Lemma rd_le_ext m m' a a' n : (forall i, 0 <= i < n -> rd8 m' (a' + i) = rd8 m (a + i)) -> rd_le m' a' n = rd_le m a n.
Proof.
  intros Hb. unfold rd_le. f_equal. apply map_ext_in. intros i Hi. apply Hb.
  apply list_elem_of_In, elem_of_seqZ in Hi. lia.
Qed.

Lemma rd_le_store dst v m : is_u64 v -> rd_le (store_u64 dst v m) dst 8 = v.
Proof.
  intros Hv. unfold is_u64 in Hv. pose proof (le_value_digits 8 v ltac:(lia)) as E. change (Z.of_nat 8) with 8 in E.
  change (8 * 8) with 64 in E. rewrite Z.mod_small in E by lia. rewrite <- E at 2. unfold rd_le. f_equal.
  apply map_ext_in. intros i Hi. apply list_elem_of_In, elem_of_seqZ in Hi. rewrite store_u64_bytes.
  destruct (Z.leb_spec dst (dst + i)), (Z.ltb_spec (dst + i) (dst + 8)); cbn [andb]; try lia. by rewrite Z.add_simpl_l.
Qed.

(** The pointer array. *)
Lemma pointer_loop a k (f : Z -> Z) m : 0 <= k -> (forall i, is_u64 (f i)) ->
  let m' := for_range 0 k (fun i m => store_u64 (a + i * 8) (f i) m) m in
  (forall i, 0 <= i < k -> rd_le m' (a + i * 8) 8 = f i) /\
  (forall b, ~ (a <= b < a + k * 8) -> rd8 m' b = rd8 m b).
Proof.
  intros Hk Hf. apply (for_range_ind (fun k m' => (forall i, 0 <= i < k -> rd_le m' (a + i * 8) 8 = f i) /\
    (forall b, ~ (a <= b < a + k * 8) -> rd8 m' b = rd8 m b))); [done|split; [intros; lia|done]|].
  intros n m' Hn [IH1 IH2]. split.
  - intros i Hi. destruct (Z.eq_dec i n) as [->|]; [by apply rd_le_store|].
    etransitivity; [|apply (IH1 i); lia]. apply rd_le_ext. intros j Hj. rewrite store_u64_bytes.
    destruct (Z.leb_spec (a + n * 8) (a + i * 8 + j)), (Z.ltb_spec (a + i * 8 + j) (a + n * 8 + 8)); cbn [andb]; try done. lia.
  - intros b Hb. rewrite store_u64_bytes, <- (IH2 b) by lia.
    destruct (Z.leb_spec (a + n * 8) b), (Z.ltb_spec b (a + n * 8 + 8)); cbn [andb]; try done. lia.
Qed.

(** * Placement *)

(** Memory [m'] holds, from [at_] on, the pointer array of [argc] arguments, a
    null pointer and the packed strings; the program sees [at_] as [vaddr]. *)
Record argv_placed (m' : gmap Z Z) (at_ vaddr argc : Z) (a : panel_boot_argv) : Prop := {
  ap_pointer : forall i, 0 <= i < argc -> rd_le m' (at_ + i * 8) 8 = vaddr + (argc + 1) * 8 + argv_offset a i;
  ap_null : rd_le m' (at_ + argc * 8) 8 = 0;
  ap_bytes : forall j, 0 <= j < av_bytes_used a -> rd8 m' (at_ + (argc + 1) * 8 + j) = u8 (byte_at (av_bytes a) j) }.

Lemma argv_total_bounds argc used : 0 < argc <= 8 -> 0 < used <= 256 ->
  (argc + 1) * 8 + used <= argv_total argc used <= 336 /\ argv_total argc used mod 16 = 0.
Proof. intros. unfold argv_total. split; Z.to_euclidean_division_equations; lia. Qed.

Lemma place_argv_ok stack base size a argc out m :
  0 < stack -> is_u64 base -> 336 <= size < 2 ^ 32 -> base + size < 2 ^ 64 -> 0 < argc <= 8 ->
  0 < av_bytes_used a <= 256 -> (forall i, 0 <= i < argc -> 0 <= argv_offset a i < av_bytes_used a) ->
  let vaddr := base + (size - argv_total argc (av_bytes_used a)) in
  exists m', panel_boot_place_argv_on_stack stack base size (Some a) argc out m = (0, vaddr, m') /\
    argv_placed m' (stack + (vaddr - base)) vaddr argc a.
Proof.
  intros Hst Hb Hsz Hx Hc Hu Ho vaddr. unfold is_u64 in Hb.
  destruct (argv_total_bounds argc (av_bytes_used a) Hc Hu) as [Ht _].
  destruct (panel_boot_place_argv_on_stack stack base size (Some a) argc out m) as [[status out'] m'] eqn:E.
  assert (Hok : status = 0).
  { clear -E Hst Hb Hsz Hx Hc Hu Ho Ht. unfold panel_boot_place_argv_on_stack in E.
    rewrite !(proj2 (Z.eqb_neq _ 0)) in E by lia. cbn [orb] in E.
    unfold PANEL_BOOT_ARGV_MAX_STRINGS, PANEL_BOOT_ARGV_MAX_BYTES in E.
    destruct (Z.gtb_spec argc 8); [lia|]. destruct (Z.gtb_spec (av_bytes_used a) 256); [lia|]. cbn [orb] in E.
    destruct (find_range _ _ _) as [i|] eqn:Hf in E.
    { apply find_range_Some in Hf as (Hi & Hbad & _). cbv beta in Hbad. b2p. specialize (Ho i Hi). lia. }
    rewrite argv_total_code in E by lia.
    destruct (Z.gtb_spec (argv_total argc (av_bytes_used a)) size); [lia|].
    destruct (Z.gtb_spec base (UINT64_MAX - size)); [unfold UINT64_MAX in *; lia|]. cbn [orb] in E.
    exact (f_equal (fun x => fst (fst x)) (eq_sym E)). }
  subst status. destruct (place_argv_inv stack base size (Some a) argc out m 0 out' m' Hst Hb ltac:(lia) ltac:(lia))
    as [[? _]|[(_ & ? & _)|(_ & a' & Ea & _ & _ & _ & Hfit & _ & -> & ->)]]; [|exact E|done|lia|].
  { intros a' [= <-]. lia. }
  injection Ea as <-. fold vaddr. eexists. split; [reflexivity|].
  replace (stack + (vaddr - base)) with (stack + (size - argv_total argc (av_bytes_used a))) by (unfold vaddr; lia).
  set (at_ := stack + (size - argv_total argc (av_bytes_used a))).
  set (m1 := for_range 0 (av_bytes_used a) _ m).
  assert (Hm1 : forall b, rd8 m1 b = if (at_ + (argc + 1) * 8 <=? b) && (b <? at_ + (argc + 1) * 8 + av_bytes_used a)
    then u8 (byte_at (av_bytes a) (b - (at_ + (argc + 1) * 8))) else rd8 m b).
  { apply (store_loop_bytes (at_ + (argc + 1) * 8) (av_bytes_used a) (fun i _ => u8 (byte_at (av_bytes a) i)) m);
      [intros; apply u8_range|done]. }
  destruct (pointer_loop at_ argc (fun i => u64 (vaddr + (argc + 1) * 8 + argv_offset a i)) m1 ltac:(lia)
    (fun i => u64_range _)) as [Hp1 Hp2].
  set (m2 := for_range 0 argc _ m1) in *. split.
  - intros i Hi. etransitivity; [|etransitivity; [apply (Hp1 i Hi)|apply u64_id; specialize (Ho i Hi); unfold vaddr; lia]].
    apply rd_le_ext. intros j Hj. rewrite store_u64_bytes.
    destruct (Z.leb_spec (at_ + argc * 8) (at_ + i * 8 + j)), (Z.ltb_spec (at_ + i * 8 + j) (at_ + argc * 8 + 8));
      cbn [andb]; try done; lia.
  - by apply rd_le_store.
  - intros j Hj. rewrite store_u64_bytes.
    destruct (Z.leb_spec (at_ + argc * 8) (at_ + (argc + 1) * 8 + j)),
      (Z.ltb_spec (at_ + (argc + 1) * 8 + j) (at_ + argc * 8 + 8)); cbn [andb]; try lia.
    rewrite Hp2, Hm1 by lia.
    destruct (Z.leb_spec (at_ + (argc + 1) * 8) (at_ + (argc + 1) * 8 + j)),
      (Z.ltb_spec (at_ + (argc + 1) * 8 + j) (at_ + (argc + 1) * 8 + av_bytes_used a)); cbn [andb]; try lia.
    do 2 f_equal. lia.
Qed.

(** * Import *)

Section Crossing.
Context {A : Type} `{PageAllocatorLaws A}.
Implicit Types (st : mach A) (L : gmap Z nat) (p : process).

(** The 64-bit word a process sees at [v]. *)
Definition user_word st (tt v : Z) : Z := le_value (map (fun i => user_byte st tt (v + i)) (seqZ 0 8)).

Lemma le_value_bytes bs : (forall b, In b bs -> 0 <= b < 256) -> 0 <= le_value bs < 2 ^ (8 * Z.of_nat (length bs)).
Proof.
  induction bs as [|b bs IH]; intros Hb; [cbn; lia|]. cbn [le_value length].
  pose proof (Hb b (or_introl eq_refl)). assert (Hr := IH (fun c Hc => Hb c (or_intror Hc))).
  replace (8 * Z.of_nat (S (length bs))) with (8 + 8 * Z.of_nat (length bs)) by lia. rewrite Z.pow_add_r by lia.
  change (2 ^ 8) with 256. lia.
Qed.

Lemma user_word_u64 st tt v : is_u64 (user_word st tt v).
Proof.
  unfold is_u64, user_word. set (bs := map _ _).
  assert (Hl : length bs = 8%nat) by (unfold bs; by rewrite length_map, length_seqZ).
  pose proof (le_value_bytes bs) as Hr. rewrite Hl in Hr. apply Hr.
  intros b (i & <- & _)%in_map_iff. apply rd8_range.
Qed.

Lemma bytes_word (f : Z -> Z) dst :
  length dst = 8%nat -> (forall j, 0 <= j < 8 -> byte_at dst j = f j) -> le_value dst = le_value (map f (seqZ 0 8)).
Proof.
  intros Hl Hb. f_equal. apply list_eq. intros i. rewrite list_lookup_fmap. destruct (decide (i < 8)%nat).
  - rewrite lookup_byte_at by lia. rewrite lookup_seqZ_lt by lia. cbn. f_equal. rewrite Hb by lia. f_equal; lia.
  - rewrite lookup_ge_None_2 by lia. by rewrite lookup_seqZ_ge by lia.
Qed.

(** Skipping the string that starts at [used]. *)
Lemma skip_string_spec bytes n fuel : forall used, (n < fuel)%nat ->
  (forall j, 0 <= j < Z.of_nat n -> byte_at bytes (used + j) <> 0) -> byte_at bytes (used + Z.of_nat n) = 0 ->
  skip_string fuel bytes used = used + Z.of_nat n + 1.
Proof.
  revert fuel. induction n as [|n IH]; intros fuel used Hf Hnz Hz; destruct fuel as [|fuel]; [lia| |lia|]; cbn [skip_string].
  - rewrite Z.add_0_r in Hz. rewrite Hz. cbn. lia.
  - rewrite (proj2 (Z.eqb_neq _ 0)) by (specialize (Hnz 0 ltac:(lia)); by rewrite Z.add_0_r in Hnz).
    rewrite IH; [lia|lia| |].
    + intros j Hj. replace (used + 1 + j) with (used + (1 + j)) by lia. apply Hnz. lia.
    + rewrite <- Hz. f_equal. lia.
Qed.

(** Argument [k] of the caller's vector is a string, and [a] holds a copy of
    it that ends before [used]. *)
Definition arg_copied st (tt : Z) p (argv_ptr : Z) (a : panel_boot_argv) (used k : Z) : Prop :=
  exists n, string_at st tt p (user_word st tt (argv_ptr + k * 8)) n /\ 0 <= n /\
    0 <= argv_offset a k /\ argv_offset a k + n < used /\
    forall j, 0 <= j <= n -> byte_at (av_bytes a) (argv_offset a k + j) =
      user_byte st tt (user_word st tt (argv_ptr + k * 8) + j).

Definition argv_sized (a : panel_boot_argv) : Prop := length (av_offsets a) = 8%nat /\ length (av_bytes a) = 256%nat.

Lemma argv_loop_ok st tt p L argv_ptr n : forall i used a,
  user_space st tt p L -> is_u64 argv_ptr -> argv_sized a -> 0 <= i -> i + Z.of_nat n <= 8 -> 0 <= used <= 256 ->
  (forall k, 0 <= k < i -> arg_copied st tt p argv_ptr a used k) ->
  exists status used' a', argv_loop n st tt (Some p) argv_ptr a i used = Some (status, used', a') /\ argv_sized a' /\
    (status = 0 \/ status = ERR_INVAL) /\
    (status = 0 -> used <= used' <= 256 /\ (n <> 0%nat -> 0 < used') /\
       forall k, 0 <= k < i + Z.of_nat n -> arg_copied st tt p argv_ptr a' used' k).
Proof.
  induction n as [|n IH]; intros i used a Hs Hp Hsz Hi Hn Hu Hold; cbn [argv_loop].
  { exists 0, used, a. split_and!; auto. intros _. split_and!; [lia|lia|done|]. intros k Hk. apply Hold. lia. }
  assert (Hinv : forall a1, argv_sized a1 -> exists status used' a', Some (ERR_INVAL, used, a1) = Some (status, used', a') /\
    argv_sized a' /\ (status = 0 \/ status = ERR_INVAL) /\
    (status = 0 -> used <= used' <= 256 /\ (S n <> 0%nat -> 0 < used') /\
       forall k, 0 <= k < i + Z.of_nat (S n) -> arg_copied st tt p argv_ptr a' used' k)).
  { intros a1 H1. exists ERR_INVAL, used, a1. split_and!; auto. discriminate. }
  unfold is_u64, UINT64_MAX in *. destruct (Z.gtb_spec argv_ptr (2 ^ 64 - 1 - i * 8)) as [|Hov]; [by apply Hinv|].
  destruct (copy_from_user_ok st tt p L (replicate 8 0) 0 (argv_ptr + i * 8) 8 Hs) as (status & word & -> & Hlw & Hres);
    [unfold is_u64; lia|unfold is_u64; lia|lia|cbn; lia|].
  cbn [default id]. destruct Hres as [(-> & _ & Hbytes)|(-> & _ & _)]; cbn [Z.eqb negb orb]; [|by apply Hinv].
  assert (Ew : le_value word = user_word st tt (argv_ptr + i * 8)).
  { apply bytes_word; [by rewrite Hlw|]. intros j Hj. rewrite Hbytes by lia.
    destruct (Z.leb_spec 0 j), (Z.ltb_spec j (0 + 8)); cbn [andb]; try lia. by rewrite Z.sub_0_r. }
  rewrite Ew. set (ptr := user_word st tt (argv_ptr + i * 8)) in *.
  destruct (ptr =? 0); cbn [orb]; [by apply Hinv|]. unfold PANEL_BOOT_ARGV_MAX_BYTES.
  destruct (Z.geb_spec used 256); [by apply Hinv|]. destruct Hsz as [Hso Hsb]. cbn [av_bytes av_offsets].
  destruct (user_copy_cstr_ok st tt p L ptr (av_bytes a) used (256 - used) Hs) as (s & out & -> & Hres);
    [apply user_word_u64|lia|lia|lia|]. cbn [default id].
  destruct Hres as [(-> & m & Hm & Hsa & Hlo & Himp)|(-> & _ & Hlo & _)]; cbn [Z.eqb negb].
  2: { apply Hinv. split; cbn [av_offsets av_bytes]; [by rewrite put_length|lia]. }
  assert (Hmod : used mod 2 ^ 16 = used) by (apply Z.mod_small; lia). rewrite Hmod.
  set (a1 := PanelArgv (put i used (av_offsets a)) (av_bytes_used a) out).
  assert (Hskip : skip_string (Z.to_nat 256) out used = used + m + 1).
  { rewrite (skip_string_spec out (Z.to_nat m)); [lia|lia| |]; rewrite ?Z2Nat.id by lia.
    - intros j Hj. rewrite Himp by lia. destruct (Z.leb_spec used (used + j)), (Z.leb_spec (used + j) (used + m)); cbn [andb]; try lia.
      rewrite Z.add_simpl_l. apply (sa_chars _ _ _ _ _ Hsa). lia.
    - rewrite Himp by lia. destruct (Z.leb_spec used (used + m)), (Z.leb_spec (used + m) (used + m)); cbn [andb]; try lia.
      rewrite Z.add_simpl_l. apply (sa_end _ _ _ _ _ Hsa). }
  rewrite Hskip.
  assert (Hoff : forall k, 0 <= k -> argv_offset a1 k = if k =? i then used else argv_offset a k).
  { intros k Hk. unfold argv_offset, a1. cbn [av_offsets]. apply byte_at_put; lia. }
  destruct (IH (i + 1) (used + m + 1) a1 Hs Hp) as (s & used' & a' & E & Hsz' & Hst & Hok);
    [split; cbn [a1 av_offsets av_bytes]; [by rewrite put_length|lia]|lia|lia|lia| |].
  { intros k Hk. unfold arg_copied. rewrite Hoff by lia. destruct (Z.eqb_spec k i) as [->|Hne].
    - exists m. split_and!; [exact Hsa|lia|lia|lia|]. intros j Hj. cbn [a1 av_bytes]. rewrite Himp by lia.
      destruct (Z.leb_spec used (used + j)), (Z.leb_spec (used + j) (used + m)); cbn [andb]; try lia. by rewrite Z.add_simpl_l.
    - destruct (Hold k ltac:(lia)) as (q & Hq1 & Hq2 & Hq3 & Hq4 & Hq5). exists q. split_and!; [done|done|done|lia|].
      intros j Hj. rewrite <- Hq5 by done. cbn [a1 av_bytes]. rewrite Himp by lia.
      destruct (Z.leb_spec used (argv_offset a k + j)), (Z.leb_spec (argv_offset a k + j) (used + m)); cbn [andb]; try lia; done. }
  exists s, used', a'. split_and!; try done. intros Hz. destruct (Hok Hz) as (B1 & _ & B3).
  split_and!; [lia|lia|lia|]. intros k Hk. apply B3. lia.
Qed.

Lemma copy_argv_ok st tt p L argv_ptr argc a :
  user_space st tt p L -> is_u64 argv_ptr -> argv_sized a -> 0 < argc ->
  exists status a', sys_copy_argv_from_user st tt (Some p) argv_ptr argc (Some a) = Some (status, Some a') /\
    (status = 0 \/ status = ERR_INVAL) /\
    (status = 0 -> argc <= 8 /\ 0 < av_bytes_used a' <= 256 /\
       forall k, 0 <= k < argc -> arg_copied st tt p argv_ptr a' (av_bytes_used a') k).
Proof.
  intros Hs Hp Hsz Hc. unfold sys_copy_argv_from_user, PANEL_BOOT_ARGV_MAX_STRINGS.
  destruct (_ || _) eqn:Hg; [exists ERR_INVAL, a; split_and!; auto; discriminate|]. b2p.
  destruct (argv_loop_ok st tt p L argv_ptr (Z.to_nat argc) 0 0 a Hs Hp Hsz) as (s & used & a' & -> & _ & Hst & Hok);
    [lia|lia|lia|intros; lia|].
  destruct Hst as [->| ->]; cbn [Z.eqb negb]; [|exists ERR_INVAL, a'; split_and!; auto; discriminate].
  destruct (Hok eq_refl) as (B1 & B2 & B3). eexists 0, _. split; [reflexivity|]. split; [by left|]. intros _.
  cbn [av_bytes_used]. rewrite Z.mod_small by lia. split_and!; [lia|apply B2; lia|lia|].
  intros k Hk. apply B3. lia.
Qed.

(** C18: arguments reach a new program unchanged.  The import of an argument
    vector never takes a data abort; when it succeeds, placing the result on
    the stack of the new program succeeds too, the vector found there ends with
    a null pointer and keeps the stack's alignment, and each of its pointers
    points into the stack at a copy, terminator included, of the string that
    the caller's vector pointed to. *)
Theorem argv_crosses st tt p L argv_ptr argc a stack base size m :
  user_space st tt p L -> is_u64 argv_ptr -> argv_sized a -> 0 < argc ->
  0 < stack -> is_u64 base -> 336 <= size < 2 ^ 32 -> base + size < 2 ^ 64 ->
  exists status a', sys_copy_argv_from_user st tt (Some p) argv_ptr argc (Some a) = Some (status, Some a') /\
  (status = 0 \/ status = ERR_INVAL) /\
  (status = 0 ->
   exists vaddr m', panel_boot_place_argv_on_stack stack base size (Some a') argc 0 m = (0, vaddr, m') /\
   base <= vaddr /\ vaddr mod 16 = (base + size) mod 16 /\
   rd_le m' (stack + (vaddr - base) + argc * 8) 8 = 0 /\
   forall i, 0 <= i < argc -> exists arg n,
     rd_le m' (stack + (vaddr - base) + i * 8) 8 = arg /\ base <= arg /\ 0 <= n /\ arg + n < base + size /\
     string_at st tt p (user_word st tt (argv_ptr + i * 8)) n /\
     forall j, 0 <= j <= n ->
       rd8 m' (stack + (arg - base) + j) = user_byte st tt (user_word st tt (argv_ptr + i * 8) + j)).
Proof.
  intros Hs Hp Hsz Hc Hst Hb Hz Hx.
  destruct (copy_argv_ok st tt p L argv_ptr argc a Hs Hp Hsz Hc) as (status & a' & E & Hres & Hok).
  exists status, a'. split_and!; try done. intros Hzero. destruct (Hok Hzero) as (B1 & B2 & B3).
  destruct (place_argv_ok stack base size a' argc 0 m Hst Hb Hz Hx ltac:(lia) B2) as (m' & Ep & [P1 P2 P3]).
  { intros i Hi. destruct (B3 i Hi) as (n & _ & ? & ? & ? & _). lia. }
  destruct (argv_total_bounds argc (av_bytes_used a') ltac:(lia) B2) as [T1 T2].
  set (vaddr := base + (size - argv_total argc (av_bytes_used a'))) in *.
  exists vaddr, m'. split_and!; [done|lia| |done|].
  - unfold vaddr. clear -T2. Z.to_euclidean_division_equations. lia.
  - intros i Hi. destruct (B3 i Hi) as (n & Hn1 & Hn2 & Hn3 & Hn4 & Hn5). eexists _, n.
    split_and!; [by apply P1|lia|done|unfold vaddr; lia|done|]. intros j Hj.
    rewrite <- Hn5 by done. replace (stack + (vaddr + (argc + 1) * 8 + argv_offset a' i - base) + j)
      with (stack + (vaddr - base) + (argc + 1) * 8 + (argv_offset a' i + j)) by lia.
    rewrite P3 by lia. apply u8_id. rewrite Hn5 by done. apply (rd8_range (m_ram st)).
Qed.
End Crossing.

(** * A concrete vector *)

(** One pointer, the null that ends the vector, and the string it points to. *)
Definition demo_vector : list Z := [0x10; 0; 0; 0; 1; 0; 0; 0] ++ replicate 8 0 ++ [104; 105; 0].

Definition demo_argv : panel_boot_argv := PanelArgv (replicate 8 0) 0 (replicate 256 0).

Lemma demo_import :
  match sys_copy_to_user demo_mem 0x40000000 (Some demo_user) 0x100000000 (Some demo_vector) 19 with
  | Some (s, st') =>
      s = 0 /\ fst <$> sys_copy_argv_from_user st' 0x40000000 (Some demo_user) 0x100000000 1 (Some demo_argv) = Some 0
  | None => False
  end.
Proof. vm_compute. split; reflexivity. Qed.

Lemma argv_crosses_witness :
  exists (st' : mach pmm) a', sys_copy_argv_from_user st' 0x40000000 (Some demo_user) 0x100000000 1 (Some demo_argv) = Some (0, Some a') /\
  exists vaddr m', panel_boot_place_argv_on_stack 0x5000 0x600000 65536 (Some a') 1 0 ∅ = (0, vaddr, m') /\
  rd_le m' (0x5000 + (vaddr - 0x600000) + 1 * 8) 8 = 0.
Proof.
  destruct demo_user_space as [_ [L Hs]].
  destruct (copy_to_user_ok demo_mem 0x40000000 demo_user L 0x100000000 demo_vector 19 Hs)
    as (s & st' & E & Hs' & _); [unfold is_u64; lia|unfold is_u64; lia|].
  pose proof demo_import as Hd. rewrite E in Hd. destruct Hd as [_ Hd].
  destruct (argv_crosses st' 0x40000000 demo_user L 0x100000000 1 demo_argv 0x5000 0x600000 65536 ∅ Hs')
    as (status & a' & Ei & _ & Hok); [unfold is_u64; lia|split; reflexivity|lia|lia|unfold is_u64; lia|lia|lia|].
  rewrite Ei in Hd. assert (Hz : status = 0) by (cbn in Hd; congruence). subst status.
  exists st', a'. split; [exact Ei|]. destruct (Hok eq_refl) as (vaddr & m' & Ep & _ & _ & Hn & _).
  exists vaddr, m'. split; [exact Ep|exact Hn].
Defined.
