(* ===== verification/Block.v ===== *)
(** Block storage: drivers/storage/block_device.c, block_view.c and mbr.c.

    A callback together with its context pointer is a function on the state
    [D] of the hardware behind it, and [None] is the null pointer; the object a
    context points to (a view and its parent device) is what the function
    closes over.  Buffers are byte lists, passed in and returned. *)

From S2P Require Import Prelude.
From S2P Require Import Bytes.
Open Scope arm.

Definition BLOCK_DEVICE_FLAG_READ_ONLY : Z := Z.shiftl 1 0.
Definition MBR_SECTOR_SIZE : Z := 512.
Definition MBR_PARTITION_TABLE_OFFSET : Z := 446.
Definition MBR_PARTITION_ENTRY_SIZE : Z := 16.
Definition MBR_PARTITION_COUNT : Z := 4.

(** ** Little-endian fields of a byte buffer *)

Definition le16_at (buf : list Z) (i : Z) : Z :=
  Z.lor (byte_at buf i) (Z.shiftl (byte_at buf (i + 1)) 8).

Definition le32_at (buf : list Z) (i : Z) : Z :=
  Z.lor (Z.lor (Z.lor (byte_at buf i) (Z.shiftl (byte_at buf (i + 1)) 8))
    (Z.shiftl (byte_at buf (i + 2)) 16)) (Z.shiftl (byte_at buf (i + 3)) 24).

Definition is_null {A : Type} (p : option A) : bool := match p with None => true | Some _ => false end.

Section Device.
Context {D : Type}.

(** First block, block count and buffer. *)
Definition block_read_fn : Type := Z -> Z -> list Z -> D -> Z * list Z * D.
Definition block_write_fn : Type := Z -> Z -> list Z -> D -> Z * D.

Record block_device := BlockDevice {
  bd_read : option block_read_fn;
  bd_write : option block_write_fn;
  bd_flush : option (D -> Z * D);
  bd_block_count : Z;
  bd_block_size : Z;
  bd_flags : Z }.

Record block_device_view := BlockDeviceView {
  bv_device : block_device;
  bv_parent : block_device;
  bv_base_block : Z }.

(** * Devices *)

Definition block_device_range_valid (device : block_device) (first_block block_count : Z) : bool :=
  if is_null (bd_read device) || (bd_block_count device =? 0) || (bd_block_size device =? 0) then false else
  if block_count =? 0 then first_block <=? bd_block_count device
  else (first_block <? bd_block_count device) && (block_count <=? bd_block_count device - first_block).

(** Bits other than the read-only flag. *)
Definition unknown_flags (flags : Z) : bool := flags &? u32 (Z.lnot BLOCK_DEVICE_FLAG_READ_ONLY).
Definition read_only_flag (flags : Z) : bool := flags &? BLOCK_DEVICE_FLAG_READ_ONLY.

Definition block_device_init (read : option block_read_fn) (write : option block_write_fn)
    (flush : option (D -> Z * D)) (block_count block_size flags : Z) : option block_device :=
  if is_null read || (block_count =? 0) || (block_size =? 0) || unknown_flags flags ||
     (negb (read_only_flag flags) && is_null write)
  then None
  else Some (BlockDevice read write flush block_count block_size flags).

Definition block_device_read (device : block_device) (first_block block_count : Z)
    (buffer : option (list Z)) (d : D) : Z * option (list Z) * D :=
  if negb (block_device_range_valid device first_block block_count) ||
     (negb (block_count =? 0) && is_null buffer) then (-1, buffer, d) else
  if block_count =? 0 then (0, buffer, d) else
  match bd_read device, buffer with
  | Some read, Some buf =>
      let '(status, buf, d) := read first_block block_count buf d in (status, Some buf, d)
  | _, _ => (-1, buffer, d)
  end.

Definition block_device_write (device : block_device) (first_block block_count : Z)
    (buffer : option (list Z)) (d : D) : Z * D :=
  if negb (block_device_range_valid device first_block block_count) ||
     (negb (block_count =? 0) && is_null buffer) || read_only_flag (bd_flags device) ||
     is_null (bd_write device) then (-1, d) else
  if block_count =? 0 then (0, d) else
  match bd_write device, buffer with
  | Some write, Some buf => write first_block block_count buf d
  | _, _ => (-1, d)
  end.

Definition block_device_flush (device : block_device) (d : D) : Z * D :=
  if is_null (bd_read device) || (bd_block_count device =? 0) || (bd_block_size device =? 0) then (-1, d) else
  match bd_flush device with
  | None => (0, d)
  | Some flush => flush d
  end.

Definition block_device_is_read_only (device : block_device) : bool := read_only_flag (bd_flags device).

(** * Views of a range of a parent device *)

Definition block_device_view_read (parent : block_device) (base_block : Z) : block_read_fn :=
  fun first_block block_count buffer d =>
    if first_block >? UINT64_MAX - base_block then (-1, buffer, d) else
    let '(status, buf, d) :=
      block_device_read parent (u64 (base_block + first_block)) block_count (Some buffer) d in
    (status, default buffer buf, d).

Definition block_device_view_write (parent : block_device) (base_block : Z) : block_write_fn :=
  fun first_block block_count buffer d =>
    if first_block >? UINT64_MAX - base_block then (-1, d) else
    block_device_write parent (u64 (base_block + first_block)) block_count (Some buffer) d.

Definition block_device_view_flush (parent : block_device) : D -> Z * D := block_device_flush parent.

Definition block_device_view_init (parent : block_device) (base_block block_count flags : Z)
    : option block_device_view :=
  if is_null (bd_read parent) || (bd_block_count parent =? 0) || (bd_block_size parent =? 0) ||
     unknown_flags (bd_flags parent) ||
     (negb (read_only_flag (bd_flags parent)) && is_null (bd_write parent)) ||
     unknown_flags flags || (block_count =? 0) || (base_block >=? bd_block_count parent) ||
     (block_count >? bd_block_count parent - base_block)
  then None else
  let child_flags := Z.lor (bd_flags parent) flags in
  let write := if read_only_flag child_flags then None else Some (block_device_view_write parent base_block) in
  let flush := if is_null (bd_flush parent) then None else Some (block_device_view_flush parent) in
  match block_device_init (Some (block_device_view_read parent base_block)) write flush block_count
          (bd_block_size parent) child_flags with
  | Some device => Some (BlockDeviceView device parent base_block)
  | None => None
  end.

(** * Single-sector views (block_view.c) *)

Definition sector_read_fn : Type := Z -> list Z -> D -> Z * list Z * D.
Definition sector_write_fn : Type := Z -> list Z -> D -> Z * D.

Record block_view := BlockView {
  vw_read_sector : option sector_read_fn;
  vw_write_sector : option sector_write_fn;
  vw_base_lba : Z;
  vw_sector_count : Z }.

Definition block_view_init (read_sector : option sector_read_fn) (write_sector : option sector_write_fn)
    (base_lba sector_count : Z) : option block_view :=
  if is_null read_sector || (sector_count =? 0) || (base_lba >? UINT32_MAX - (sector_count - 1)) then None
  else Some (BlockView read_sector write_sector base_lba sector_count).

Definition block_view_read_sector (view : block_view) (lba : Z) (buffer : list Z) (d : D) : Z * list Z * D :=
  match vw_read_sector view with
  | Some read => if lba >=? vw_sector_count view then (-1, buffer, d)
                 else read (u32 (vw_base_lba view + lba)) buffer d
  | None => (-1, buffer, d)
  end.

Definition block_view_write_sector (view : block_view) (lba : Z) (buffer : list Z) (d : D) : Z * D :=
  match vw_write_sector view with
  | Some write => if lba >=? vw_sector_count view then (-1, d) else write (u32 (vw_base_lba view + lba)) buffer d
  | None => (-1, d)
  end.

(** * Partitions *)

Record mbr_partition := Partition { start_lba : Z; sector_count : Z; partition_type : Z }.

Definition mbr_type_is_fat32 (type : Z) : bool :=
  (type =? 0x0b) || (type =? 0x0c) || (type =? 0x1b) || (type =? 0x1c).

(** The partition that table entry [index] describes, if it is acceptable. *)
Definition mbr_entry (sector : list Z) (index : Z) : option mbr_partition :=
  let entry := MBR_PARTITION_TABLE_OFFSET + index * MBR_PARTITION_ENTRY_SIZE in
  let boot := byte_at sector entry in
  let type := byte_at sector (entry + 4) in
  if (negb (boot =? 0x00) && negb (boot =? 0x80)) || negb (mbr_type_is_fat32 type) then None else
  let start := le32_at sector (entry + 8) in
  let count := le32_at sector (entry + 12) in
  if (start =? 0) || (count =? 0) || (start >? UINT32_MAX - (count - 1)) then None
  else Some (Partition start count type).

Definition mbr_find_fat32_partition (sector : list Z) : option mbr_partition :=
  if negb (byte_at sector 510 =? 0x55) || negb (byte_at sector 511 =? 0xaa) then None else
  match find_range 0 MBR_PARTITION_COUNT (fun index => negb (is_null (mbr_entry sector index))) with
  | Some index => mbr_entry sector index
  | None => None
  end.

Definition mbr_open_fat32_partition (device : block_device) (d : D)
    : option (block_device_view * mbr_partition) * D :=
  if negb (bd_block_size device =? MBR_SECTOR_SIZE) then (None, d) else
  let '(status, sector, d) := block_device_read device 0 1 (Some (replicate 512 0)) d in
  if negb (status =? 0) then (None, d) else
  match mbr_find_fat32_partition (default [] sector) with
  | None => (None, d)
  | Some partition =>
      match block_device_view_init device (start_lba partition) (sector_count partition) 0 with
      | Some view => (Some (view, partition), d)
      | None => (None, d)
      end
  end.
End Device.
Arguments block_device : clear implicits.
Arguments block_device_view : clear implicits.
Arguments block_view : clear implicits.

(** * Byte order *)

Definition is_bytes (buf : list Z) : Prop := Forall is_u8 buf.

Lemma byte_at_u8 buf i : is_bytes buf -> 0 <= byte_at buf i < 256.
Proof.
  intros Hb. unfold byte_at. destruct (buf !! Z.to_nat i) as [v|] eqn:E; [|simpl; lia].
  apply list_elem_of_lookup_2 in E. pose proof (proj1 (Forall_forall _ _) Hb v E) as Hv.
  unfold is_u8 in Hv. simpl. lia.
Qed.

(** Or-ing a byte above [n] bits is adding it. *)
Lemma lor_shift x y n : 0 <= n -> 0 <= x < 2 ^ n -> 0 <= y -> Z.lor x (Z.shiftl y n) = x + y * 2 ^ n.
Proof.
  intros Hn Hx Hy. rewrite Z.shiftl_mul_pow2 by done. symmetry. rewrite <- Z.lxor_lor.
  - apply Z.add_nocarry_lxor. apply Z.bits_inj'. intros i Hi. rewrite Z.land_spec, Z.bits_0.
    destruct (Z_lt_le_dec i n).
    + rewrite Z.mul_pow2_bits_low by done. apply andb_false_r.
    + rewrite (testbit_above x n i) by done. done.
  - apply Z.bits_inj'. intros i Hi. rewrite Z.land_spec, Z.bits_0.
    destruct (Z_lt_le_dec i n).
    + rewrite Z.mul_pow2_bits_low by done. apply andb_false_r.
    + rewrite (testbit_above x n i) by done. done.
Qed.

Lemma le16_at_sum buf i :
  is_bytes buf -> le16_at buf i = byte_at buf i + byte_at buf (i + 1) * 256.
Proof.
  intros Hb. unfold le16_at. pose proof (byte_at_u8 buf i Hb). pose proof (byte_at_u8 buf (i + 1) Hb).
  rewrite (lor_shift _ _ 8) by lia. done.
Qed.

Lemma le32_at_sum buf i :
  is_bytes buf -> le32_at buf i = byte_at buf i + byte_at buf (i + 1) * 256 +
    byte_at buf (i + 2) * 65536 + byte_at buf (i + 3) * 16777216.
Proof.
  intros Hb. unfold le32_at. pose proof (byte_at_u8 buf i Hb). pose proof (byte_at_u8 buf (i + 1) Hb).
  pose proof (byte_at_u8 buf (i + 2) Hb). pose proof (byte_at_u8 buf (i + 3) Hb).
  rewrite (lor_shift _ _ 8) by lia. rewrite (lor_shift _ _ 16) by lia. rewrite (lor_shift _ _ 24) by lia. done.
Qed.

Lemma le16_at_range buf i : is_bytes buf -> 0 <= le16_at buf i < 65536.
Proof.
  intros Hb. rewrite le16_at_sum by done. pose proof (byte_at_u8 buf i Hb). pose proof (byte_at_u8 buf (i + 1) Hb). lia.
Qed.

Lemma le32_at_range buf i : is_bytes buf -> 0 <= le32_at buf i < 2 ^ 32.
Proof.
  intros Hb. rewrite le32_at_sum by done. pose proof (byte_at_u8 buf i Hb). pose proof (byte_at_u8 buf (i + 1) Hb).
  pose proof (byte_at_u8 buf (i + 2) Hb). pose proof (byte_at_u8 buf (i + 3) Hb). lia.
Qed.

(** * Views stay inside their range *)

Section Confined.
Context {D : Type}.
Implicit Types (parent : block_device D) (v : block_device_view D).

(** What a view of [count] blocks at [base] of [parent] does with a transfer. *)
Definition in_view (count first n : Z) : bool := (first <? count) && (n <=? count - first).

Lemma view_init_spec parent base count flags v :
  0 <= count -> block_device_view_init parent base count flags = Some v ->
  0 < count /\ base < bd_block_count parent /\ count <= bd_block_count parent - base /\
  bv_base_block v = base /\ bv_parent v = parent /\
  bv_device v = BlockDevice (Some (block_device_view_read parent base))
    (if read_only_flag (Z.lor (bd_flags parent) flags) then None else Some (block_device_view_write parent base))
    (if is_null (bd_flush parent) then None else Some (block_device_view_flush parent))
    count (bd_block_size parent) (Z.lor (bd_flags parent) flags) /\
  is_null (bd_read parent) = false /\ bd_block_count parent <> 0 /\ bd_block_size parent <> 0.
Proof.
  intros Hc0. unfold block_device_view_init.
  destruct (is_null (bd_read parent)) eqn:E1; [done|]. cbn [orb].
  destruct (Z.eqb_spec (bd_block_count parent) 0); [done|].
  destruct (Z.eqb_spec (bd_block_size parent) 0); [done|]. cbn [orb].
  destruct (unknown_flags (bd_flags parent)); [done|]. cbn [orb].
  destruct (negb (read_only_flag (bd_flags parent)) && is_null (bd_write parent)); [done|]. cbn [orb].
  destruct (unknown_flags flags); [done|]. cbn [orb].
  destruct (Z.eqb_spec count 0); [done|]. cbn [orb].
  destruct (Z.geb_spec base (bd_block_count parent)); [done|]. cbn [orb].
  destruct (Z.gtb_spec count (bd_block_count parent - base)); [done|].
  unfold block_device_init. destruct (_ || _); [done|]. intros [= <-]. cbn [bv_base_block bv_parent bv_device].
  split_and!; auto; lia.
Qed.

(** Parent and child transfers correspond. *)
Lemma view_read_spec parent base count flags v first n buf d :
  block_device_view_init parent base count flags = Some v ->
  0 <= base -> 0 < count -> bd_block_count parent < 2 ^ 64 -> 0 <= first -> 0 < n ->
  block_device_read (bv_device v) first n (Some buf) d =
  if in_view count first n then block_device_read parent (base + first) n (Some buf) d else (-1, Some buf, d).
Proof.
  intros Hv Hb Hc Hp Hf Hn. apply view_init_spec in Hv; [|lia].
  destruct Hv as (_ & Hbase & Hcount & _ & _ & -> & Hr & _ & Hs).
  unfold block_device_read at 1, block_device_range_valid at 1, in_view.
  cbn [bd_read bd_block_count bd_block_size is_null orb].
  rewrite (proj2 (Z.eqb_neq count 0)), (proj2 (Z.eqb_neq _ 0) Hs), (proj2 (Z.eqb_neq n 0)) by lia.
  cbn [orb negb andb]. rewrite orb_false_r.
  destruct (Z.ltb_spec first count), (Z.leb_spec n (count - first)); cbn [andb negb]; try done.
  unfold block_device_view_read. destruct (Z.gtb_spec first (UINT64_MAX - base)); [unfold UINT64_MAX in *; lia|].
  rewrite u64_id by lia.
  unfold block_device_read. destruct (negb _ || _); [done|]. rewrite (proj2 (Z.eqb_neq n 0)) by lia.
  destruct (bd_read parent) as [rd|]; [|done].
  destruct (rd (base + first) n buf d) as [[st b] d']. done.
Qed.

Lemma view_write_spec parent base count flags v first n buf d :
  block_device_view_init parent base count flags = Some v ->
  0 <= base -> 0 < count -> bd_block_count parent < 2 ^ 64 -> 0 <= first -> 0 < n ->
  block_device_write (bv_device v) first n (Some buf) d =
  if in_view count first n && negb (read_only_flag (Z.lor (bd_flags parent) flags))
  then block_device_write parent (base + first) n (Some buf) d else (-1, d).
Proof.
  intros Hv Hb Hc Hp Hf Hn. apply view_init_spec in Hv; [|lia].
  destruct Hv as (_ & Hbase & Hcount & _ & _ & -> & Hr & _ & Hs).
  unfold block_device_write at 1, block_device_range_valid at 1, in_view.
  cbn [bd_read bd_block_count bd_block_size bd_flags bd_write is_null orb].
  rewrite (proj2 (Z.eqb_neq count 0)), (proj2 (Z.eqb_neq _ 0) Hs), (proj2 (Z.eqb_neq n 0)) by lia.
  cbn [orb negb andb]. rewrite orb_false_r.
  destruct (read_only_flag (Z.lor (bd_flags parent) flags)); rewrite ?orb_true_r, ?andb_false_r; [done|].
  cbn [is_null orb negb]. rewrite !orb_false_r, andb_true_r.
  destruct (Z.ltb_spec first count), (Z.leb_spec n (count - first)); cbn [andb negb]; try done.
  unfold block_device_view_write. destruct (Z.gtb_spec first (UINT64_MAX - base)); [unfold UINT64_MAX in *; lia|].
  by rewrite u64_id by lia.
Qed.

(** ** The partition table *)

Lemma mbr_entry_spec sector i p :
  is_bytes sector -> mbr_entry sector i = Some p ->
  0 < start_lba p /\ 0 < sector_count p /\ start_lba p + sector_count p <= 2 ^ 32 /\
  mbr_type_is_fat32 (partition_type p) = true.
Proof.
  intros Hb. unfold mbr_entry. destruct (_ || negb (mbr_type_is_fat32 _)) eqn:E1; [done|].
  apply orb_false_iff in E1 as [_ E1]. apply negb_false_iff in E1.
  pose proof (le32_at_range sector (MBR_PARTITION_TABLE_OFFSET + i * MBR_PARTITION_ENTRY_SIZE + 8) Hb).
  pose proof (le32_at_range sector (MBR_PARTITION_TABLE_OFFSET + i * MBR_PARTITION_ENTRY_SIZE + 12) Hb).
  destruct (_ || _) eqn:E2; [done|]. apply orb_false_iff in E2 as [E2 E3]. apply orb_false_iff in E2 as [E2 E4].
  intros [= <-]. cbn [start_lba sector_count partition_type]. unfold UINT32_MAX in *. b2p. split_and!; auto; lia.
Qed.

Lemma mbr_find_spec sector p :
  is_bytes sector -> mbr_find_fat32_partition sector = Some p ->
  0 < start_lba p /\ 0 < sector_count p /\ start_lba p + sector_count p <= 2 ^ 32 /\
  exists i, 0 <= i < 4 /\ mbr_entry sector i = Some p /\ forall j, 0 <= j < i -> mbr_entry sector j = None.
Proof.
  intros Hb. unfold mbr_find_fat32_partition. destruct (_ || _); [done|].
  destruct (find_range _ _ _) as [i|] eqn:E; [|done]. intros Hp.
  destruct (mbr_entry_spec sector i p Hb Hp) as (? & ? & ? & _). split_and!; auto.
  apply find_range_Some in E as (Hi & _ & Hf). unfold MBR_PARTITION_COUNT in Hi. exists i.
  split_and!; auto; try lia. intros j Hj. specialize (Hf j ltac:(lia)). cbv beta in Hf.
  by destruct (mbr_entry sector j).
Qed.

(** A mounted partition cannot reach outside itself: the view
    mbr_open_fat32_partition builds is the first acceptable FAT32 entry of the
    partition table, lies inside the device and past the table's own sector,
    and every block read or write through it is either the same transfer
    shifted into [start, start + count) of the device or refused without
    touching it; writes are refused on a read-only device. *)
Theorem partition_view_confined (dev : block_device D) (d d1 : D) v p first n buf d2
    (Hcount : 0 <= bd_block_count dev < 2 ^ 64)
    (Hbytes : forall st b d', block_device_read dev 0 1 (Some (replicate 512 0)) d = (st, Some b, d') -> is_bytes b)
    (Hopen : mbr_open_fat32_partition dev d = (Some (v, p), d1))
    (Hfirst : 0 <= first) (Hn : 0 < n) :
  0 < start_lba p /\ start_lba p + sector_count p <= bd_block_count dev /\
  block_device_read (bv_device v) first n (Some buf) d2 =
    (if (first + n <=? sector_count p) then block_device_read dev (start_lba p + first) n (Some buf) d2
     else (-1, Some buf, d2)) /\
  block_device_write (bv_device v) first n (Some buf) d2 =
    (if (first + n <=? sector_count p) && negb (read_only_flag (bd_flags dev))
     then block_device_write dev (start_lba p + first) n (Some buf) d2 else (-1, d2)).
Proof.
  unfold mbr_open_fat32_partition in Hopen. destruct (negb _); [done|].
  destruct (block_device_read dev 0 1 _ d) as [[st b] d'] eqn:Er. destruct (negb _); [done|].
  destruct b as [b|]; [|by vm_compute in Hopen]. simpl default in Hopen.
  specialize (Hbytes _ _ _ eq_refl).
  destruct (mbr_find_fat32_partition b) as [q|] eqn:Ef; [|done].
  destruct (block_device_view_init dev (start_lba q) (sector_count q) 0) as [v'|] eqn:Ev; [|done].
  injection Hopen as -> -> _. apply mbr_find_spec in Ef as (H1 & H2 & H3 & _); [|done].
  pose proof Ev as Hv. apply view_init_spec in Hv as (_ & Hbase & Hcnt & _); [|lia].
  assert (Hin : in_view (sector_count p) first n = (first + n <=? sector_count p)).
  { unfold in_view. destruct (Z.ltb_spec first (sector_count p)), (Z.leb_spec n (sector_count p - first)),
      (Z.leb_spec (first + n) (sector_count p)); try done; lia. }
  split; [done|]. split; [lia|]. split.
  - rewrite (view_read_spec dev (start_lba p) (sector_count p) 0 v) by (done || lia). by rewrite Hin.
  - rewrite (view_write_spec dev (start_lba p) (sector_count p) 0 v) by (done || lia).
    by rewrite Hin, Z.lor_0_r.
Qed.
End Confined.

(** * A RAM disk, for concrete instances *)

Definition ramdisk : Type := gmap Z (list Z).

Definition ram_block (d : ramdisk) (lba : Z) : list Z := default (replicate 512 0) (d !! lba).

Definition ram_read : block_read_fn (D := ramdisk) := fun first n buffer d =>
  (0, for_range 0 n (fun i buf => copy_bytes buf (512 * i) (ram_block d (first + i)) 0 512) buffer, d).

Definition ram_write : block_write_fn (D := ramdisk) := fun first n buffer d =>
  (0, for_range 0 n (fun i d => <[first + i := take 512 (drop (Z.to_nat (512 * i)) buffer)]> d) d).

Definition ram_device (blocks : Z) : block_device ramdisk :=
  BlockDevice (Some ram_read) (Some ram_write) None blocks 512 0.

(** Partition 1: blocks 2 to 4, type 0x0c. *)
Definition demo_mbr : list Z :=
  put 510 0x55 (put 511 0xaa (put 458 3 (put 454 2 (put 450 0x0c (replicate 512 0))))).
Definition demo_disk : ramdisk := {[ 0 := demo_mbr ]}.

Lemma partition_view_confined_witness :
  exists v p, fst (mbr_open_fat32_partition (ram_device 8) demo_disk) = Some (v, p) /\
    start_lba p = 2 /\
    fst (block_device_write (bv_device v) 2 1 (Some [7]) demo_disk) = 0 /\
    block_device_write (bv_device v) 3 1 (Some [7]) demo_disk = (-1, demo_disk).
Proof.
  destruct (mbr_open_fat32_partition (ram_device 8) demo_disk) as [[[v p]|] d1] eqn:E.
  2: { assert (H : is_null (fst (mbr_open_fat32_partition (ram_device 8) demo_disk)) = false)
         by (vm_compute; reflexivity). rewrite E in H. discriminate H. }
  assert (Hb : forall st b d', block_device_read (ram_device 8) 0 1 (Some (replicate 512 0)) demo_disk = (st, Some b, d') ->
    is_bytes b).
  { intros st b d' Hr. vm_compute in Hr. injection Hr as _ <- _. unfold is_bytes, is_u8.
    repeat (apply Forall_cons; split; [lia|]). apply Forall_nil. done. }
  assert (Hp : start_lba p = 2 /\ sector_count p = 3).
  { assert (H : (fun x => (start_lba (snd x), sector_count (snd x))) <$>
      fst (mbr_open_fat32_partition (ram_device 8) demo_disk) = Some (2, 3)) by (vm_compute; reflexivity).
    rewrite E in H. injection H as H1 H2. split; [exact H1|exact H2]. }
  destruct Hp as [Hp1 Hp2].
  exists v, p. split; [reflexivity|]. split; [exact Hp1|].
  pose proof (fun first n H1 H2 => partition_view_confined (ram_device 8) demo_disk d1 v p first n [7] demo_disk
    ltac:(simpl; lia) Hb E H1 H2) as H. rewrite Hp1, Hp2 in H.
  split.
  - destruct (H 2 1 ltac:(lia) ltac:(lia)) as (_ & _ & _ & ->). vm_compute. reflexivity.
  - destruct (H 3 1 ltac:(lia) ltac:(lia)) as (_ & _ & _ & ->). reflexivity.
Defined.
