(* ===== verification/Fat32.v ===== *)
(** The FAT32 driver: kernel/fat32.c and kernel/fat32_device.c.

    Every call works on the mounted file system (its geometry and its two
    sector buffers), the state [D] of the disk behind the sector callbacks and
    an object of type [X] of the caller that the call fills in or updates (the
    file, the byte buffer, the list output).  [fm X A] is a call that returns
    -1 ([None]) or succeeds with an [A]; either way the state is what the call
    left behind, so that partial effects of failing calls are kept. *)

From S2P Require Import Prelude.
From S2P Require Import Bytes.
From S2P Require Import Block.
Open Scope arm.

Definition FAT32_SECTOR_SIZE : Z := 512.
Definition FAT32_SHORT_NAME_MAX : Z := 13.
Definition FAT32_ATTR_VOLUME_ID : Z := 0x08.
Definition FAT32_ATTR_DIRECTORY : Z := 0x10.
Definition FAT32_ATTR_LONG_NAME : Z := 0x0f.
Definition FAT32_CLUSTER_MASK : Z := 0x0fffffff.
Definition FAT32_CLUSTER_EOC : Z := 0x0ffffff8.
Definition FAT32_CLUSTER_BAD : Z := 0x0ffffff7.

Record fat32_file := FatFile {
  first_cluster : Z;
  dir_lba : Z;
  dir_offset : Z;
  capacity : Z;
  size : Z }.

Record geometry := Geometry {
  bytes_per_sector : Z;
  sectors_per_cluster : Z;
  reserved_sectors : Z;
  fat_count : Z;
  sectors_per_fat : Z;
  total_sectors : Z;
  fat_start_lba : Z;
  data_start_lba : Z;
  root_cluster : Z;
  cluster_count : Z }.

(** * Byte order and names *)

Definition put_le16 (buf : list Z) (i value : Z) : list Z :=
  put (i + 1) (u8 (Z.shiftr value 8)) (put i (u8 value) buf).

Definition put_le32 (buf : list Z) (i value : Z) : list Z :=
  put (i + 3) (u8 (Z.shiftr value 24)) (put (i + 2) (u8 (Z.shiftr value 16))
    (put (i + 1) (u8 (Z.shiftr value 8)) (put i (u8 value) buf))).

Definition cluster_is_eoc (cluster : Z) : bool := cluster >=? FAT32_CLUSTER_EOC.

Definition cluster_is_data (g : geometry) (cluster : Z) : bool :=
  (cluster >=? 2) && (u32 (cluster - 2) <? cluster_count g).

Definition ascii_upper (c : Z) : Z := if (c >=? 97) && (c <=? 122) then c - (97 - 65) else c.

(** Characters a short name may not contain, '/' and '.' apart. *)
Definition short_name_forbidden (c : Z) : bool :=
  (c <=? 32) || (c =? 34) || (c =? 42) || (c =? 43) || (c =? 44) || (c =? 58) || (c =? 59) ||
  (c =? 60) || (c =? 61) || (c =? 62) || (c =? 63) || (c =? 91) || (c =? 92) || (c =? 93) || (c =? 124).

(** The loop of make_short_name over the rest of the name. *)
Fixpoint short_name_loop (name out : list Z) (base ext : Z) (in_ext : bool) : option (list Z) :=
  match name with
  | [] => if (base =? 0) || (in_ext && (ext =? 0)) then None else Some out
  | ch :: name' =>
      let c := ascii_upper ch in
      if c =? 47 then None else
      if c =? 46 then
        if in_ext || (base =? 0) then None else short_name_loop name' out base ext true
      else if short_name_forbidden c then None else
      if negb in_ext then
        if base >=? 8 then None else short_name_loop name' (put base (u8 c) out) (base + 1) ext in_ext
      else
        if ext >=? 3 then None else short_name_loop name' (put (8 + ext) (u8 c) out) base (ext + 1) in_ext
  end.

Definition make_short_name (name : option (list Z)) : option (list Z) :=
  match name with
  | None => None
  | Some nm =>
      match str_cut nm with
      | [] => None
      | c :: rest =>
          let name := if c =? 47 then rest else c :: rest in
          match name with
          | [] => None
          | _ => short_name_loop name (replicate 11 32) 0 0 false
          end
      end
  end.

(** * The monad *)

Section Monad.
Context {D : Type}.

(** The sector reader: a legacy callback, or fat32_device_read_sector with the
    device as its context. *)
Inductive sector_reader := ReadCallback (f : sector_read_fn (D := D)) | ReadDevice (device : block_device D).

Record fat32_fs := FatFs {
  reader : option sector_reader;
  writer : option (sector_write_fn (D := D));
  geo : geometry;
  sector : list Z;
  write_sector_buffer : list Z;
  mounted : bool;
  flush_supported : bool }.

Definition fm (X A : Type) : Type := fat32_fs * D * X -> option A * (fat32_fs * D * X).

Definition fret {X A : Type} (a : A) : fm X A := fun st => (Some a, st).
Definition ffail {X A : Type} : fm X A := fun st => (None, st).
Definition fbind {X A B : Type} (m : fm X A) (k : A -> fm X B) : fm X B := fun st =>
  match m st with
  | (Some a, st) => k a st
  | (None, st) => (None, st)
  end.

(** The outcome of a call whose failure the caller tests. *)
Definition ftry {X A : Type} (m : fm X A) : fm X (option A) := fun st => let '(r, st) := m st in (Some r, st).
Definition fget {X : Type} : fm X fat32_fs := fun st => (Some (fst (fst st)), st).
Definition fobj {X : Type} : fm X X := fun st => (Some (snd st), st).
Definition fset {X : Type} (x : X) : fm X unit := fun st => (Some tt, (fst st, x)).

End Monad.
Arguments sector_reader : clear implicits.
Arguments fat32_fs : clear implicits.
Arguments fm : clear implicits.

Notation "'let!' x := m 'in' k" := (fbind m (fun x => k))
  (at level 10, x pattern, k at level 200) : armonios_scope.
Notation "m ;;! k" := (fbind m (fun _ => k)) (at level 100, right associativity) : armonios_scope.

Section Fat.
Context {D : Type}.
Abbreviation fat32_fs := (fat32_fs D).
Abbreviation sector_reader := (sector_reader D).
Abbreviation fm := (fm D).

Definition set_sector (fs : fat32_fs) (buf : list Z) : fat32_fs :=
  FatFs (reader fs) (writer fs) (geo fs) buf (write_sector_buffer fs) (mounted fs) (flush_supported fs).
Definition set_write_buffer (fs : fat32_fs) (buf : list Z) : fat32_fs :=
  FatFs (reader fs) (writer fs) (geo fs) (sector fs) buf (mounted fs) (flush_supported fs).

Definition fsector {X : Type} (buf : list Z) : fm X unit := fun '(fs, d, x) => (Some tt, (set_sector fs buf, d, x)).
Definition fwbuf {X : Type} (buf : list Z) : fm X unit := fun '(fs, d, x) => (Some tt, (set_write_buffer fs buf, d, x)).

(** * Sectors *)

Definition fat32_device_read_sector (device : block_device D) (lba : Z) (buffer : list Z) (d : D)
    : Z * list Z * D :=
  let '(status, buf, d) := block_device_read device lba 1 (Some buffer) d in (status, default buffer buf, d).

Definition fat32_device_write_sector (device : block_device D) : sector_write_fn := fun lba buffer d =>
  block_device_write device lba 1 (Some buffer) d.

Definition call_reader (r : sector_reader) (lba : Z) (buffer : list Z) (d : D) : Z * list Z * D :=
  match r with
  | ReadCallback f => f lba buffer d
  | ReadDevice device => fat32_device_read_sector device lba buffer d
  end.

(** The reader's call on [fs->sector]. *)
Definition load_sector {X : Type} (r : sector_reader) (lba : Z) : fm X unit := fun '(fs, d, x) =>
  let '(status, buf, d) := call_reader r lba (sector fs) d in
  (if status =? 0 then Some tt else None, (set_sector fs buf, d, x)).

Definition read_sector {X : Type} (lba : Z) : fm X unit :=
  let! fs := fget in
  match reader fs with
  | None => ffail
  | Some r => if mounted fs && (lba >=? total_sectors (geo fs)) then ffail else load_sector r lba
  end.

Definition write_sector {X : Type} (lba : Z) (buffer : list Z) : fm X unit :=
  let! fs := fget in
  match writer fs with
  | None => ffail
  | Some w =>
      if negb (mounted fs) || (lba >=? total_sectors (geo fs)) then ffail else
      fun '(fs, d, x) =>
        let '(status, d) := w lba buffer d in (if status =? 0 then Some tt else None, (fs, d, x))
  end.

Definition cluster_to_lba (g : geometry) (cluster : Z) : Z :=
  u32 (data_start_lba g + u32 (u32 (cluster - 2) * sectors_per_cluster g)).

(** * The file allocation table *)

Definition read_fat_entry {X : Type} (cluster : Z) (chain : bool) : fm X Z :=
  let! fs := fget in
  if negb (cluster_is_data (geo fs) cluster) then ffail else
  let fat_offset := u32 (cluster * 4) in
  let fat_sector := u32 (fat_start_lba (geo fs) + fat_offset / FAT32_SECTOR_SIZE) in
  let entry_offset := fat_offset mod FAT32_SECTOR_SIZE in
  read_sector fat_sector ;;!
  let! fs := fget in
  let value := Z.land (le32_at (sector fs) entry_offset) FAT32_CLUSTER_MASK in
  if (value =? FAT32_CLUSTER_BAD) ||
     (chain && negb (cluster_is_eoc value) && negb (cluster_is_data (geo fs) value))
  then ffail else fret value.

(** The loop over the FAT copies; [n] copies are left. *)
Fixpoint write_fat_copies {X : Type} (n : nat) (copy fat_offset value : Z) : fm X unit :=
  match n with
  | O => fret tt
  | S n' =>
      let! fs := fget in
      let sector_index := u32 (u32 (fat_start_lba (geo fs) + u32 (copy * sectors_per_fat (geo fs))) +
                               fat_offset / FAT32_SECTOR_SIZE) in
      read_sector sector_index ;;!
      let! fs := fget in
      fsector (put_le32 (sector fs) (fat_offset mod FAT32_SECTOR_SIZE) (Z.land value FAT32_CLUSTER_MASK)) ;;!
      let! fs := fget in
      write_sector sector_index (sector fs) ;;!
      write_fat_copies n' (copy + 1) fat_offset value
  end.

Definition write_fat_entry {X : Type} (cluster value : Z) : fm X unit :=
  let! fs := fget in
  if is_null (writer fs) || negb (cluster_is_data (geo fs) cluster) ||
     (negb (value =? 0) && negb (cluster_is_eoc value) && negb (cluster_is_data (geo fs) value))
  then ffail else
  write_fat_copies (Z.to_nat (fat_count (geo fs))) 0 (u32 (cluster * 4)) value.

(** [n] clusters, from [cluster] on, are left to try; 0 is the failure value. *)
Fixpoint find_free_loop {X : Type} (n : nat) (cluster : Z) : fm X Z :=
  match n with
  | O => fret 0
  | S n' =>
      let! value := ftry (read_fat_entry cluster false) in
      match value with
      | None => fret 0
      | Some v => if v =? 0 then fret cluster else find_free_loop n' (cluster + 1)
      end
  end.

Definition find_free_cluster {X : Type} : fm X Z :=
  let! fs := fget in find_free_loop (Z.to_nat (cluster_count (geo fs))) 2.

(** The new cluster; its 0 return is a failure. *)
Definition allocate_cluster {X : Type} (prev_cluster : Z) : fm X Z :=
  let! new_cluster := find_free_cluster in
  if new_cluster =? 0 then ffail else
  if negb (prev_cluster =? 0) then
    let! prev_value := read_fat_entry prev_cluster true in
    if negb (cluster_is_eoc prev_value) then ffail else
    write_fat_entry prev_cluster new_cluster ;;!
    write_fat_entry new_cluster FAT32_CLUSTER_EOC ;;!
    fret new_cluster
  else
    write_fat_entry new_cluster FAT32_CLUSTER_EOC ;;!
    fret new_cluster.

Definition set_capacity (f : fat32_file) (c : Z) : fat32_file :=
  FatFile (first_cluster f) (dir_lba f) (dir_offset f) c (size f).

(** The next cluster of the file in hand. *)
Definition advance_or_allocate_cluster (cluster_size cluster : Z) : fm fat32_file Z :=
  if cluster <? 2 then ffail else
  let! next := read_fat_entry cluster true in
  if cluster_is_eoc next then
    let! file := fobj in
    if (cluster_size >? 0xffffffff) || (capacity file >? 0xffffffff - u32 cluster_size) then ffail else
    let! new_cluster := allocate_cluster cluster in
    let! file := fobj in
    fset (set_capacity file (u32 (capacity file + u32 cluster_size))) ;;!
    fret new_cluster
  else if next <? 2 then ffail else fret next.

(** [while (cluster_is_data(fs, cluster) && remaining-- != 0)] *)
Fixpoint free_chain_loop {X : Type} (remaining : nat) (cluster : Z) : fm X unit :=
  let! fs := fget in
  if negb (cluster_is_data (geo fs) cluster) then ffail else
  match remaining with
  | O => ffail
  | S remaining' =>
      let! next := read_fat_entry cluster true in
      write_fat_entry cluster 0 ;;!
      if cluster_is_eoc next then fret tt else free_chain_loop remaining' next
  end.

Definition free_cluster_chain {X : Type} (first : Z) : fm X unit :=
  let! fs := fget in free_chain_loop (Z.to_nat (cluster_count (geo fs))) first.

Fixpoint chain_capacity_loop {X : Type} (remaining : nat) (cluster total cluster_size : Z) : fm X Z :=
  match remaining with
  | O => ffail
  | S remaining' =>
      let total := total + cluster_size in
      if total >? UINT32_MAX then ffail else
      let! cluster := read_fat_entry cluster true in
      if cluster_is_eoc cluster then fret total
      else chain_capacity_loop remaining' cluster total cluster_size
  end.

Definition file_chain_capacity {X : Type} (first : Z) : fm X Z :=
  let! fs := fget in
  if negb (cluster_is_data (geo fs) first) then ffail else
  chain_capacity_loop (Z.to_nat (cluster_count (geo fs))) first 0
    (u32 (sectors_per_cluster (geo fs) * FAT32_SECTOR_SIZE)).

(** * Mounting *)

(** The geometry the boot sector describes, if it is acceptable. *)
Definition boot_geometry (s : list Z) : option geometry :=
  let bytes := le16_at s 11 in
  let spc := byte_at s 13 in
  let reserved := le16_at s 14 in
  let fats := byte_at s 16 in
  let root_entries := le16_at s 17 in
  let total := if le16_at s 19 =? 0 then le32_at s 32 else le16_at s 19 in
  let spf := le32_at s 36 in
  let root := le32_at s 44 in
  if negb (bytes =? FAT32_SECTOR_SIZE) || (spc =? 0) || (spc >? 128) ||
     negb (Z.land spc (spc - 1) =? 0) || (reserved =? 0) || (fats =? 0) || negb (root_entries =? 0) ||
     (total =? 0) || (spf =? 0) || (spf >? (UINT32_MAX - reserved) / fats) then None else
  let data_start := u32 (reserved + u32 (fats * spf)) in
  if data_start >=? total then None else
  let clusters := (total - data_start) / spc in
  if (clusters =? 0) || (clusters >? FAT32_CLUSTER_BAD - 2) ||
     (u32 (clusters + 2 + 127) / 128 >? spf) || (root <? 2) || (u32 (root - 2) >=? clusters) then None else
  Some (Geometry bytes spc reserved fats spf total reserved data_start root clusters).

Definition fat32_mount (fs : fat32_fs) (r : option sector_reader) (d : D) : Z * (fat32_fs * D) :=
  match r with
  | None => (-1, (fs, d))
  | Some rd =>
      let fs := FatFs (Some rd) None (geo fs) (sector fs) (write_sector_buffer fs) false false in
      let '(ok, (fs, d, _)) := read_sector 0 (fs, d, tt) in
      match ok with
      | None => (-1, (fs, d))
      | Some _ =>
          match boot_geometry (sector fs) with
          | None => (-1, (fs, d))
          | Some g =>
              (0, (FatFs (reader fs) (writer fs) g (sector fs) (write_sector_buffer fs) true (flush_supported fs), d))
          end
      end
  end.

Definition fat32_set_write_sector (fs : fat32_fs) (w : option sector_write_fn) : fat32_fs :=
  FatFs (reader fs) w (geo fs) (sector fs) (write_sector_buffer fs) (mounted fs) (flush_supported fs).

Definition fat32_mount_device (fs : fat32_fs) (device : block_device D) (d : D) : Z * (fat32_fs * D) :=
  if is_null (bd_read device) || (bd_block_count device =? 0) ||
     negb (bd_block_size device =? FAT32_SECTOR_SIZE) || unknown_flags (bd_flags device) ||
     (negb (read_only_flag (bd_flags device)) && is_null (bd_write device)) then (-1, (fs, d)) else
  let '(status, (fs, d)) := fat32_mount fs (Some (ReadDevice device)) d in
  if negb (status =? 0) then (-1, (fs, d)) else
  if total_sectors (geo fs) >? bd_block_count device then
    (-1, (FatFs (reader fs) (writer fs) (geo fs) (sector fs) (write_sector_buffer fs) false (flush_supported fs), d))
  else
  let fs := FatFs (reader fs) (writer fs) (geo fs) (sector fs) (write_sector_buffer fs) (mounted fs)
              (negb (is_null (bd_flush device))) in
  (0, (if negb (block_device_is_read_only device)
       then fat32_set_write_sector fs (Some (fat32_device_write_sector device)) else fs, d)).

Definition fat32_flush (fs : fat32_fs) (d : D) : Z * D :=
  if negb (mounted fs) then (-1, d) else
  match reader fs with
  | Some (ReadDevice device) => block_device_flush device d
  | _ => (0, d)
  end.

(** * Directories *)

(** The result of looking at one directory entry. *)
Inductive walk (A R : Type) := Next (a : A) | Stop (r : R).
Arguments Next {A R} a.
Arguments Stop {A R} r.

Section Walk.
Context {X A R : Type}.
Context (rd : Z -> fm X unit) (next : Z -> fm X Z) (visit : Z -> Z -> A -> fm X (walk A R)).

(** [for (offset = 0; offset < FAT32_SECTOR_SIZE; offset += 32)]; [n] entries are left. *)
Fixpoint walk_entries (n : nat) (lba offset : Z) (acc : A) : fm X (walk A R) :=
  match n with
  | O => fret (Next acc)
  | S n' =>
      let! r := visit lba offset acc in
      match r with
      | Stop r => fret (Stop r)
      | Next acc => walk_entries n' lba (offset + 32) acc
      end
  end.

(** [for (sector = 0; sector < sectors_per_cluster; sector++)]; [n] sectors are left. *)
Fixpoint walk_sectors (n : nat) (cluster sector : Z) (acc : A) : fm X (walk A R) :=
  match n with
  | O => fret (Next acc)
  | S n' =>
      let! fs := fget in
      let lba := u32 (cluster_to_lba (geo fs) cluster + sector) in
      rd lba ;;!
      let! r := walk_entries 16 lba 0 acc in
      match r with
      | Stop r => fret (Stop r)
      | Next acc => walk_sectors n' cluster (sector + 1) acc
      end
  end.

(** [while (cluster_is_data(fs, cluster) && remaining-- != 0)]: the result
    of the visit that stopped, or the cluster the loop ended at. *)
Fixpoint walk_chain (remaining : nat) (cluster : Z) (acc : A) : fm X (walk (Z * A) R) :=
  let! fs := fget in
  if negb (cluster_is_data (geo fs) cluster) then fret (Next (cluster, acc)) else
  match remaining with
  | O => fret (Next (cluster, acc))
  | S remaining' =>
      let! r := walk_sectors (Z.to_nat (sectors_per_cluster (geo fs))) cluster 0 acc in
      match r with
      | Stop r => fret (Stop r)
      | Next acc =>
          let! cluster := next cluster in
          walk_chain remaining' cluster acc
      end
  end.
End Walk.

(** The loops of fat32.c over the root directory. *)
Definition walk_root {X A R : Type} (visit : Z -> Z -> A -> fm X (walk A R)) (acc : A)
    : fm X (walk (Z * A) R) :=
  let! fs := fget in
  walk_chain read_sector (fun c => read_fat_entry c true) visit
    (Z.to_nat (cluster_count (geo fs))) (root_cluster (geo fs)) acc.

(** Bytes [off, off + n) of a buffer. *)
Definition sub_bytes (buf : list Z) (off n : Z) : list Z := take (Z.to_nat n) (drop (Z.to_nat off) buf).

Definition entry_cluster (buf : list Z) (offset : Z) : Z :=
  Z.lor (Z.shiftl (le16_at buf (offset + 20)) 16) (le16_at buf (offset + 26)).

Definition open_visit {X : Type} (wanted : list Z) (lba offset : Z) (_ : unit) : fm X (walk unit fat32_file) :=
  let! fs := fget in
  let s := sector fs in
  let attr := byte_at s (offset + 11) in
  if byte_at s offset =? 0 then ffail else
  if (byte_at s offset =? 0xe5) || (attr =? FAT32_ATTR_LONG_NAME) || (attr &? FAT32_ATTR_DIRECTORY)
  then fret (Next tt) else
  if negb (kmemcmp (drop (Z.to_nat offset) s) wanted 11 =? 0) then fret (Next tt) else
  let first := entry_cluster s offset in
  let file_size := le32_at s (offset + 28) in
  if negb (file_size =? 0) && (first <? 2) then ffail else
  if first >=? 2 then
    let! cap := file_chain_capacity first in
    if file_size >? cap then ffail else fret (Stop (FatFile first lba offset cap file_size))
  else fret (Stop (FatFile first lba offset 0 file_size)).

Definition fat32_open_root {X : Type} (name : option (list Z)) : fm X fat32_file :=
  let! fs := fget in
  if negb (mounted fs) then ffail else
  match make_short_name name with
  | None => ffail
  | Some wanted =>
      let! r := walk_root (open_visit wanted) tt in
      match r with Stop file => fret file | Next _ => ffail end
  end.

(** ** Listing *)

Record list_output := ListOutput {
  lo_buffer : list Z;
  lo_capacity : Z;
  lo_offset : Z;
  lo_position : Z;
  lo_written : Z }.

Definition append_list_byte (out : list_output) (value : Z) : option list_output :=
  let step w b := ListOutput b (lo_capacity out) (lo_offset out) (lo_position out + 1) w in
  if lo_position out >=? lo_offset out then
    if lo_written out >=? lo_capacity out then None
    else Some (step (lo_written out + 1) (put (lo_written out) value (lo_buffer out)))
  else Some (step (lo_written out) (lo_buffer out)).

(** Append bytes until the buffer is full. *)
Fixpoint append_list_bytes (out : list_output) (bytes : list Z) : bool * list_output :=
  match bytes with
  | [] => (true, out)
  | b :: bytes' =>
      match append_list_byte out b with
      | None => (false, out)
      | Some out => append_list_bytes out bytes'
      end
  end.

(** [while (end > 0 && entry[base + end - 1] == ' ') end--;] *)
Fixpoint trim_end (entry : list Z) (base : Z) (n : nat) : Z :=
  match n with
  | O => 0
  | S n' => if byte_at entry (base + Z.of_nat n') =? 32 then trim_end entry base n' else Z.of_nat n
  end.

(** The text of one directory entry. *)
Definition short_name_text (entry : list Z) (attr : Z) : list Z :=
  let base_end := trim_end entry 0 8 in
  let ext_end := trim_end entry 8 3 in
  sub_bytes entry 0 base_end ++
  (if ext_end >? 0 then 46 :: sub_bytes entry 8 ext_end else []) ++
  (if attr &? FAT32_ATTR_DIRECTORY then [47] else []) ++ [10].

Definition append_short_name (entry : list Z) (attr : Z) (out : list_output) : bool * list_output :=
  append_list_bytes out (short_name_text entry attr).

(** Stops when the directory ends or the buffer is full. *)
Definition list_visit (skip : list Z -> bool) (lba offset : Z) (_ : unit) : fm list_output (walk unit unit) :=
  let! fs := fget in
  let entry := drop (Z.to_nat offset) (sector fs) in
  let attr := byte_at entry 11 in
  if byte_at entry 0 =? 0 then fret (Stop tt) else
  if (byte_at entry 0 =? 0xe5) || (attr =? FAT32_ATTR_LONG_NAME) || (attr &? FAT32_ATTR_VOLUME_ID) ||
     skip entry then fret (Next tt) else
  let! out := fobj in
  let '(more, out) := append_short_name entry attr out in
  fset out ;;!
  fret (if more then Next tt else Stop tt).

(** Status, bytes written and the caller's buffer. *)
Definition list_finish (r : option (walk (Z * unit) unit) * (fat32_fs * D * list_output))
    : Z * Z * list Z * (fat32_fs * D) :=
  let '(r, (st, out)) := r in
  match r with
  | Some (Stop _) => (0, lo_written out, lo_buffer out, st)
  | Some (Next (cluster, _)) =>
      if cluster_is_eoc cluster then (0, lo_written out, lo_buffer out, st) else (-1, 0, lo_buffer out, st)
  | None => (-1, 0, lo_buffer out, st)
  end.

Definition fat32_list_root_at (offset : Z) (buffer : list Z) (cap : Z) (st : fat32_fs * D)
    : Z * Z * list Z * (fat32_fs * D) :=
  if negb (mounted (fst st)) then (-1, 0, buffer, st) else
  list_finish (walk_root (list_visit (fun _ => false)) tt (st, ListOutput buffer cap offset 0 0)).

Definition fat32_list_root (buffer : list Z) (cap : Z) (st : fat32_fs * D) : Z * Z * list Z * (fat32_fs * D) :=
  fat32_list_root_at 0 buffer cap st.

(** * Reading *)

(** [while (skip >= cluster_size)]: at most [fuel] steps. *)
Fixpoint skip_clusters {X : Type} (step : Z -> fm X Z) (fuel : nat) (skip cluster_size cluster : Z) : fm X (Z * Z) :=
  if skip >=? cluster_size then
    match fuel with
    | O => ffail
    | S fuel' =>
        let! cluster := step cluster in
        skip_clusters step fuel' (skip - cluster_size) cluster_size cluster
    end
  else fret (skip, cluster).

(** Follow the chain of an existing file. *)
Definition read_step {X : Type} (cluster : Z) : fm X Z :=
  let! next := read_fat_entry cluster true in
  if cluster_is_eoc next || (next <? 2) then ffail else fret next.

(** The loop over the sectors of a cluster, [n] of them left: the offset into
    the next sector, the bytes still wanted and the bytes copied so far; the
    caller's object is the destination buffer. *)
Fixpoint read_sectors (n : nat) (cluster sect cluster_offset remaining copied : Z) : fm (list Z) (Z * Z) :=
  match n with
  | O => fret (remaining, copied)
  | S n' =>
      if remaining >? 0 then
        if cluster_offset >=? FAT32_SECTOR_SIZE
        then read_sectors n' cluster (sect + 1) (cluster_offset - FAT32_SECTOR_SIZE) remaining copied
        else
          let! fs := fget in
          read_sector (u32 (cluster_to_lba (geo fs) cluster + sect)) ;;!
          let count := Z.min (FAT32_SECTOR_SIZE - cluster_offset) remaining in
          let! fs := fget in
          let! buffer := fobj in
          fset (copy_bytes buffer copied (sector fs) cluster_offset count) ;;!
          read_sectors n' cluster (sect + 1) 0 (remaining - count) (copied + count)
      else fret (remaining, copied)
  end.

(** [while (remaining > 0)]: at most [fuel] clusters. *)
Fixpoint read_clusters (fuel : nat) (cluster skip remaining copied : Z) : fm (list Z) Z :=
  if remaining >? 0 then
    match fuel with
    | O => ffail
    | S fuel' =>
        let! fs := fget in
        let! (remaining, copied) :=
          read_sectors (Z.to_nat (sectors_per_cluster (geo fs))) cluster 0 skip remaining copied in
        if remaining >? 0 then
          let! cluster := read_step cluster in
          read_clusters fuel' cluster 0 remaining copied
        else fret copied
    end
  else fret copied.

Definition cluster_bytes (g : geometry) : Z := sectors_per_cluster g * FAT32_SECTOR_SIZE.

Definition fat32_read (file : fat32_file) (offset cap : Z) : fm (list Z) Z :=
  let! fs := fget in
  if negb (mounted fs) || (offset >? size file) then ffail else
  let remaining := if size file - offset >? cap then cap else size file - offset in
  if remaining =? 0 then fret 0 else
  if first_cluster file <? 2 then ffail else
  let! (skip, cluster) :=
    skip_clusters read_step (Z.to_nat offset) offset (cluster_bytes (geo fs)) (first_cluster file) in
  read_clusters (Z.to_nat remaining) cluster skip remaining 0.

(** * Writing *)

(** Rewrite the directory sector of the file. *)
Definition patch_dir {X : Type} (lba : Z) (patch : list Z -> list Z) : fm X unit :=
  read_sector lba ;;!
  let! fs := fget in
  fsector (patch (sector fs)) ;;!
  let! fs := fget in
  write_sector lba (sector fs).

Fixpoint write_sectors (n : nat) (buffer : list Z) (cluster sect cluster_offset remaining copied : Z)
    : fm fat32_file (Z * Z) :=
  match n with
  | O => fret (remaining, copied)
  | S n' =>
      if remaining >? 0 then
        if cluster_offset >=? FAT32_SECTOR_SIZE
        then write_sectors n' buffer cluster (sect + 1) (cluster_offset - FAT32_SECTOR_SIZE) remaining copied
        else
          let! fs := fget in
          let lba := u32 (cluster_to_lba (geo fs) cluster + sect) in
          read_sector lba ;;!
          let! fs := fget in
          fwbuf (copy_bytes (write_sector_buffer fs) 0 (sector fs) 0 FAT32_SECTOR_SIZE) ;;!
          let count := Z.min (FAT32_SECTOR_SIZE - cluster_offset) remaining in
          let! fs := fget in
          fwbuf (copy_bytes (write_sector_buffer fs) cluster_offset buffer copied count) ;;!
          let! fs := fget in
          write_sector lba (write_sector_buffer fs) ;;!
          write_sectors n' buffer cluster (sect + 1) 0 (remaining - count) (copied + count)
      else fret (remaining, copied)
  end.

Fixpoint write_clusters (fuel : nat) (buffer : list Z) (cluster skip remaining copied : Z) : fm fat32_file Z :=
  if remaining >? 0 then
    match fuel with
    | O => ffail
    | S fuel' =>
        if (cluster <? 2) || cluster_is_eoc cluster then ffail else
        let! fs := fget in
        let! (remaining, copied) :=
          write_sectors (Z.to_nat (sectors_per_cluster (geo fs))) buffer cluster 0 skip remaining copied in
        if remaining >? 0 then
          let! cluster := advance_or_allocate_cluster (cluster_bytes (geo fs)) cluster in
          write_clusters fuel' buffer cluster 0 remaining copied
        else fret copied
    end
  else fret copied.

Definition set_size (f : fat32_file) (n : Z) : fat32_file :=
  FatFile (first_cluster f) (dir_lba f) (dir_offset f) (capacity f) n.

(** Give an empty file its first cluster. *)
Definition first_cluster_bootstrap : fm fat32_file unit :=
  let! file := fobj in
  if first_cluster file <? 2 then
    let! head := allocate_cluster 0 in
    let! fs := fget in
    fset (FatFile head (dir_lba file) (dir_offset file) (u32 (cluster_bytes (geo fs))) (size file)) ;;!
    patch_dir (dir_lba file) (fun s =>
      put_le16 (put_le16 s (dir_offset file + 20) (Z.shiftr head 16)) (dir_offset file + 26) (Z.land head 0xffff))
  else fret tt.

Definition fat32_write (offset : Z) (buffer : list Z) (count : Z) : fm fat32_file Z :=
  let! fs := fget in
  let! file := fobj in
  if negb (mounted fs) || is_null (writer fs) || (offset >? size file) || (offset >? capacity file) ||
     (dir_lba file >=? total_sectors (geo fs)) || (u32 (dir_offset file + 32) >? FAT32_SECTOR_SIZE)
  then ffail else
  if count =? 0 then
    let new_size := u32 offset in
    patch_dir (dir_lba file) (fun s => put_le32 s (dir_offset file + 28) new_size) ;;!
    fset (set_size file new_size) ;;!
    fret 0
  else
  first_cluster_bootstrap ;;!
  let! file := fobj in
  let! fs := fget in
  let! (skip, cluster) :=
    skip_clusters (advance_or_allocate_cluster (cluster_bytes (geo fs))) (Z.to_nat offset) offset
      (cluster_bytes (geo fs)) (first_cluster file) in
  let! copied := write_clusters (Z.to_nat count) buffer cluster skip count 0 in
  let new_size := u32 (offset + copied) in
  patch_dir (dir_lba file) (fun s => put_le32 s (dir_offset file + 28) new_size) ;;!
  let! file := fobj in
  fset (set_size file new_size) ;;!
  fret copied.

(** * Creating, deleting and renaming in the root directory *)

Definition free_entry_visit {X : Type} (lba offset : Z) (_ : unit) : fm X (walk unit (Z * Z)) :=
  let! fs := fget in
  let first := byte_at (sector fs) offset in
  if (first =? 0) || (first =? 0xe5) then fret (Stop (lba, offset)) else fret (Next tt).

Definition find_free_dir_entry {X : Type} : fm X (Z * Z) :=
  let! r := walk_root free_entry_visit tt in
  match r with Stop slot => fret slot | Next _ => ffail end.

Definition write_dir_entry (s : list Z) (offset : Z) (short_name : list Z) (attr first file_size : Z) : list Z :=
  let s := fill_bytes s offset (offset + 32) 0 in
  let s := copy_bytes s offset short_name 0 11 in
  let s := put (offset + 11) attr s in
  let s := put_le16 s (offset + 20) (Z.shiftr first 16) in
  let s := put_le16 s (offset + 26) (Z.land first 0xffff) in
  put_le32 s (offset + 28) file_size.

(** [for (s = 0; s < sectors_per_cluster; s++)]; [n] sectors are left. *)
Fixpoint zero_sectors {X : Type} (n : nat) (lba s : Z) : fm X unit :=
  match n with
  | O => fret tt
  | S n' =>
      let! fs := fget in
      write_sector (u32 (lba + s)) (write_sector_buffer fs) ;;!
      zero_sectors n' lba (s + 1)
  end.

Definition fat32_create {X : Type} (name : option (list Z)) : fm X fat32_file :=
  let! fs := fget in
  if negb (mounted fs) || is_null (writer fs) then ffail else
  match make_short_name name with
  | None => ffail
  | Some short_name =>
      let! existing := ftry (fat32_open_root name) in
      match existing with
      | Some _ => ffail
      | None =>
          let! (lba, offset) := find_free_dir_entry in
          let! new_cluster := allocate_cluster 0 in
          patch_dir lba (fun s => write_dir_entry s offset short_name 0x20 new_cluster 0) ;;!
          let! fs := fget in
          fwbuf (fill_bytes (write_sector_buffer fs) 0 FAT32_SECTOR_SIZE 0) ;;!
          zero_sectors (Z.to_nat (sectors_per_cluster (geo fs))) (cluster_to_lba (geo fs) new_cluster) 0 ;;!
          fret (FatFile new_cluster lba offset (u32 (cluster_bytes (geo fs))) 0)
      end
  end.

Definition fat32_delete {X : Type} (name : option (list Z)) : fm X unit :=
  let! fs := fget in
  if negb (mounted fs) || is_null (writer fs) || is_null (make_short_name name) then ffail else
  let! file := fat32_open_root name in
  (if first_cluster file >=? 2 then free_cluster_chain (first_cluster file) else fret tt) ;;!
  patch_dir (dir_lba file) (put (dir_offset file) 0xe5).

Definition fat32_rename {X : Type} (old_name new_name : option (list Z)) : fm X unit :=
  let! fs := fget in
  if negb (mounted fs) || is_null (writer fs) then ffail else
  match make_short_name new_name with
  | None => ffail
  | Some new_short =>
      let! file := fat32_open_root old_name in
      let! existing := ftry (fat32_open_root new_name) in
      match existing with
      | Some _ => ffail
      | None => patch_dir (dir_lba file) (fun s => copy_bytes s (dir_offset file) new_short 0 11)
      end
  end.
End Fat.
Arguments Next {A R} a.
Arguments Stop {A R} r.
