(* ===== verification/Fat32Dir.v ===== *)
(** Directory traversal of the FAT32 driver: kernel/fat32_directory.c. *)

From S2P Require Import Prelude.
From S2P Require Import Bytes.
From S2P Require Import Block.
From S2P Require Import Fat32.
Open Scope arm.

Definition FAT32_COMPONENT_MAX : Z := 12.

Record fat32_path_info := PathInfo {
  pi_first_cluster : Z;
  pi_dir_lba : Z;
  pi_dir_offset : Z;
  pi_capacity : Z;
  pi_size : Z;
  pi_attributes : Z }.

Record fat32_dirent := FatDirent {
  fd_name : list Z;
  fd_size : Z;
  fd_attributes : Z }.

Section Dir.
Context {D : Type}.
Abbreviation fat32_fs := (fat32_fs D).
Abbreviation fm := (fm D).

(** ** Private copies of the low-level helpers *)

Definition dir_cluster_is_eoc (cluster : Z) : bool := cluster >=? FAT32_CLUSTER_EOC.

Definition dir_cluster_is_data (g : geometry) (cluster : Z) : bool :=
  (cluster >=? 2) && (u32 (cluster - 2) <? cluster_count g).

Definition dir_read_sector {X : Type} (lba : Z) : fm X unit :=
  let! fs := fget in
  match reader fs with
  | None => ffail
  | Some r => if negb (mounted fs) || (lba >=? total_sectors (geo fs)) then ffail else load_sector r lba
  end.

Definition dir_read_fat_entry {X : Type} (cluster : Z) : fm X Z :=
  let! fs := fget in
  if negb (dir_cluster_is_data (geo fs) cluster) then ffail else
  let fat_offset := u32 (cluster * 4) in
  let lba := u32 (fat_start_lba (geo fs) + fat_offset / FAT32_SECTOR_SIZE) in
  let offset := fat_offset mod FAT32_SECTOR_SIZE in
  dir_read_sector lba ;;!
  let! fs := fget in
  let value := Z.land (le32_at (sector fs) offset) FAT32_CLUSTER_MASK in
  if (value =? FAT32_CLUSTER_BAD) ||
     (negb (dir_cluster_is_eoc value) && negb (dir_cluster_is_data (geo fs) value))
  then ffail else fret value.

Definition dir_forbidden (c : Z) : bool :=
  (c <=? 32) || (c =? 34) || (c =? 42) || (c =? 43) || (c =? 44) || (c =? 58) || (c =? 59) ||
  (c =? 60) || (c =? 61) || (c =? 62) || (c =? 63) || (c =? 91) || (c =? 93) || (c =? 124).

Fixpoint dir_short_name_loop (name out : list Z) (base ext : Z) (in_ext : bool) : option (list Z) :=
  match name with
  | [] => if negb (base =? 0) && (negb in_ext || negb (ext =? 0)) then Some out else None
  | ch :: name' =>
      let c := ascii_upper ch in
      if (c =? 47) || (c =? 92) then None else
      if c =? 46 then
        if in_ext || (base =? 0) then None else dir_short_name_loop name' out base ext true
      else if dir_forbidden c then None else
      if negb in_ext then
        if base >=? 8 then None else dir_short_name_loop name' (put base (u8 c) out) (base + 1) ext in_ext
      else
        if ext >=? 3 then None else dir_short_name_loop name' (put (8 + ext) (u8 c) out) base (ext + 1) in_ext
  end.

Definition dir_make_short_name (name : list Z) : option (list Z) :=
  match str_cut name with
  | [] => None
  | nm => dir_short_name_loop nm (replicate 11 32) 0 0 false
  end.

Fixpoint dir_capacity_loop {X : Type} (remaining : nat) (cluster total cluster_size : Z) : fm X Z :=
  match remaining with
  | O => ffail
  | S remaining' =>
      let total := total + cluster_size in
      if total >? UINT32_MAX then ffail else
      let! cluster := dir_read_fat_entry cluster in
      if dir_cluster_is_eoc cluster then fret total
      else dir_capacity_loop remaining' cluster total cluster_size
  end.

Definition dir_file_capacity {X : Type} (first : Z) : fm X Z :=
  let! fs := fget in
  if negb (dir_cluster_is_data (geo fs) first) then ffail else
  dir_capacity_loop (Z.to_nat (cluster_count (geo fs))) first 0
    (u32 (sectors_per_cluster (geo fs) * FAT32_SECTOR_SIZE)).

(** The entry at [offset] of the sector in the buffer. *)
Definition dir_fill_info {X : Type} (lba offset : Z) : fm X fat32_path_info :=
  let! fs := fget in
  let s := sector fs in
  let first := entry_cluster s offset in
  let file_size := le32_at s (offset + 28) in
  let attributes := byte_at s (offset + 11) in
  let info := PathInfo first lba offset 0 file_size attributes in
  if attributes &? FAT32_ATTR_DIRECTORY then
    if dir_cluster_is_data (geo fs) first then fret info else ffail
  else
  if negb (file_size =? 0) && negb (dir_cluster_is_data (geo fs) first) then ffail else
  if dir_cluster_is_data (geo fs) first then
    let! cap := dir_file_capacity first in
    if file_size >? cap then ffail else fret (PathInfo first lba offset cap file_size attributes)
  else fret info.

(** The directory loops of this file. *)
Definition walk_dir {X A R : Type} (visit : Z -> Z -> A -> fm X (walk A R)) (cluster : Z) (acc : A)
    : fm X (walk (Z * A) R) :=
  let! fs := fget in
  walk_chain dir_read_sector dir_read_fat_entry visit (Z.to_nat (cluster_count (geo fs))) cluster acc.

Definition find_visit {X : Type} (wanted : list Z) (lba offset : Z) (_ : unit)
    : fm X (walk unit fat32_path_info) :=
  let! fs := fget in
  let s := sector fs in
  let attr := byte_at s (offset + 11) in
  if byte_at s offset =? 0 then ffail else
  if (byte_at s offset =? 0xe5) || (attr =? FAT32_ATTR_LONG_NAME) || (attr &? FAT32_ATTR_VOLUME_ID)
  then fret (Next tt) else
  if kmemcmp (drop (Z.to_nat offset) s) wanted 11 =? 0 then
    let! info := dir_fill_info lba offset in fret (Stop info)
  else fret (Next tt).

Definition dir_find_entry {X : Type} (directory_cluster : Z) (component : list Z) : fm X fat32_path_info :=
  let! fs := fget in
  if negb (dir_cluster_is_data (geo fs) directory_cluster) then ffail else
  match dir_make_short_name component with
  | None => ffail
  | Some wanted =>
      let! r := walk_dir (find_visit wanted) directory_cluster tt in
      match r with Stop info => fret info | Next _ => ffail end
  end.

(** [while ( *p == '/') p++;] *)
Fixpoint skip_slashes (p : list Z) : list Z :=
  match p with
  | c :: p' => if c =? 47 then skip_slashes p' else p
  | [] => []
  end.

(** [while (p[length] != 0 && p[length] != '/')]: the component and the rest;
    [None] when it is longer than FAT32_COMPONENT_MAX. *)
Fixpoint take_component (room : nat) (p : list Z) : option (list Z * list Z) :=
  match p with
  | [] => Some ([], [])
  | c :: p' =>
      if c =? 47 then Some ([], p) else
      match room with
      | O => None
      | S room' =>
          match take_component room' p' with
          | Some (w, rest) => Some (c :: w, rest)
          | None => None
          end
      end
  end.

(** The component, whether more follow, and the new cursor. *)
Definition dir_next_component (cursor : list Z) : option (list Z * bool * list Z) :=
  match skip_slashes cursor with
  | [] => None
  | p =>
      match take_component (Z.to_nat FAT32_COMPONENT_MAX) p with
      | None => None
      | Some (component, rest) =>
          let rest := skip_slashes rest in
          match component with
          | [] => None
          | _ => Some (component, match rest with [] => false | _ => true end, rest)
          end
      end
  end.

(** The [for (;;)] loop over the components; each consumes at least one byte
    of the path. *)
Fixpoint lookup_loop {X : Type} (fuel : nat) (cursor : list Z) (directory_cluster : Z) : fm X fat32_path_info :=
  match fuel with
  | O => ffail
  | S fuel' =>
      match dir_next_component cursor with
      | None => ffail
      | Some (component, has_more, cursor) =>
          let! current := dir_find_entry directory_cluster component in
          if negb has_more then fret current else
          let! fs := fget in
          if negb (pi_attributes current &? FAT32_ATTR_DIRECTORY) ||
             negb (dir_cluster_is_data (geo fs) (pi_first_cluster current)) then ffail else
          lookup_loop fuel' cursor (pi_first_cluster current)
      end
  end.

Definition fat32_lookup_path {X : Type} (path : option (list Z)) : fm X fat32_path_info :=
  let! fs := fget in
  match path with
  | None => ffail
  | Some p =>
      if negb (mounted fs) then ffail else
      match skip_slashes (str_cut p) with
      | [] => fret (PathInfo (root_cluster (geo fs)) 0 0 0 0 FAT32_ATTR_DIRECTORY)
      | cursor => lookup_loop (length cursor) cursor (root_cluster (geo fs))
      end
  end.

Definition fat32_open_path {X : Type} (path : option (list Z)) : fm X fat32_file :=
  let! info := fat32_lookup_path path in
  if pi_attributes info &? FAT32_ATTR_DIRECTORY then ffail else
  fret (FatFile (pi_first_cluster info) (pi_dir_lba info) (pi_dir_offset info) (pi_capacity info) (pi_size info)).

Definition dir_is_dot_entry (entry : list Z) : bool :=
  (byte_at entry 0 =? 46) && ((byte_at entry 1 =? 32) || ((byte_at entry 1 =? 46) && (byte_at entry 2 =? 32))).

(** [name[out++] = ...] for each byte; [None] when the name does not fit. *)
Fixpoint name_append (name : list Z) (out : Z) (bytes : list Z) : bool * Z * list Z :=
  match bytes with
  | [] => (true, out, name)
  | b :: bytes' =>
      if out + 1 >=? FAT32_SHORT_NAME_MAX then (false, out, name)
      else name_append (put out b name) (out + 1) bytes'
  end.

Definition dir_copy_name (entry name : list Z) : bool * list Z :=
  let base_end := trim_end entry 0 8 in
  let ext_end := trim_end entry 8 3 in
  if base_end =? 0 then (false, name) else
  let '(fits, out, name) :=
    name_append name 0 (sub_bytes entry 0 base_end ++
      (if ext_end >? 0 then 46 :: sub_bytes entry 8 ext_end else [])) in
  if fits then (true, put out 0 name) else (false, name).

Definition empty_dirent : fat32_dirent := FatDirent (replicate 13 0) 0 0.
Definition fat_dirent_at (entries : list fat32_dirent) (i : Z) : fat32_dirent :=
  default empty_dirent (entries !! Z.to_nat i).

(** The accumulator is [logical_index] and [output]; the caller's object is
    the array of entries. *)
Definition readdir_visit (start_index max_entries : Z) (lba offset : Z) (acc : Z * Z)
    : fm (list fat32_dirent) (walk (Z * Z) Z) :=
  let '(logical_index, output) := acc in
  let! fs := fget in
  let entry := drop (Z.to_nat offset) (sector fs) in
  let attr := byte_at entry 11 in
  if byte_at entry 0 =? 0 then fret (Stop output) else
  if (byte_at entry 0 =? 0xe5) || (attr =? FAT32_ATTR_LONG_NAME) || (attr &? FAT32_ATTR_VOLUME_ID) ||
     dir_is_dot_entry entry then fret (Next acc) else
  if logical_index <? start_index then fret (Next (logical_index + 1, output)) else
  let! entries := fobj in
  let e := fat_dirent_at entries output in
  let '(fits, new_name) := dir_copy_name entry (fd_name e) in
  fset (<[Z.to_nat output := FatDirent new_name (fd_size e) (fd_attributes e)]> entries) ;;!
  if negb fits then ffail else
  let! info := dir_fill_info lba offset in
  let! entries := fobj in
  fset (<[Z.to_nat output := FatDirent new_name (pi_size info) (pi_attributes info)]> entries) ;;!
  let output := output + 1 in
  if output =? max_entries then fret (Stop output) else fret (Next (logical_index + 1, output)).

Definition fat32_readdir_path (path : option (list Z)) (start_index max_entries : Z)
    : fm (list fat32_dirent) Z :=
  if max_entries =? 0 then ffail else
  let! directory := fat32_lookup_path path in
  if negb (pi_attributes directory &? FAT32_ATTR_DIRECTORY) then ffail else
  let! r := walk_dir (readdir_visit start_index max_entries) (pi_first_cluster directory) (0, 0) in
  match r with
  | Stop output => fret output
  | Next (cluster, (_, output)) => if dir_cluster_is_eoc cluster then fret output else ffail
  end.

(** dir_append_byte and dir_append_name are append_list_byte and
    append_short_name on an identical structure. *)
Definition fat32_list_path_at (path : option (list Z)) (offset : Z) (buffer : list Z) (cap : Z)
    (st : fat32_fs * D) : Z * Z * list Z * (fat32_fs * D) :=
  list_finish ((let! info := fat32_lookup_path path in
    if negb (pi_attributes info &? FAT32_ATTR_DIRECTORY) then ffail else
    walk_dir (list_visit dir_is_dot_entry) (pi_first_cluster info) tt)
    (st, ListOutput buffer cap offset 0 0)).

Definition fat32_list_path (path : option (list Z)) (buffer : list Z) (cap : Z) (st : fat32_fs * D)
    : Z * Z * list Z * (fat32_fs * D) := fat32_list_path_at path 0 buffer cap st.
End Dir.
