(* ===== verification/Fat32Vfs.v ===== *)
(** The FAT32 volume in the VFS: kernel/fat32_vfs.c.

    There is one [fat32_fs_t] object, so a pointer to it is a flag.  The
    context of a file node is the number [i + 1] of its entry in
    [g_fat32_vfs_files]; the mount's context is the number 1.  The callbacks
    have the function numbers 11 to 22. *)

From S2P Require Import Prelude.
From S2P Require Import Bytes.
From S2P Require Import VfsPath.
From S2P Require Import ProcessRegions.
From S2P Require Import Process.
From S2P Require Import Vfs.
From S2P Require Import VfsNames.
From S2P Require Import VfsHandles.
From S2P Require Import Block.
From S2P Require Import Fat32.
From S2P Require Import Fat32Dir.
Open Scope arm.

Definition FAT32_MAX_VFS_FILES : Z := 8.
Definition FAT32_VFS_ROOT_PATH : list Z := [47; 102; 97; 116].
Definition FN_READ : Z := 11.
Definition FN_WRITE : Z := 12.
Definition FN_STAT : Z := 13.
Definition FN_OPEN_PATH : Z := 14.
Definition FN_READ_PATH : Z := 15.
Definition FN_LIST_ROOT : Z := 16.
Definition FN_STAT_PATH : Z := 17.
Definition FN_LIST_PATH : Z := 18.
Definition FN_METADATA_PATH : Z := 19.
Definition FN_READDIR_PATH : Z := 20.
Definition FN_FSINFO : Z := 21.
Definition FN_UNLINK_PATH : Z := 22.
Definition FN_RENAME_PATH : Z := 23.
Definition MOUNT_CONTEXT : Z := 1.
Definition VFS_FS_FLAG_READ_ONLY : Z := 0x01.
Definition VFS_FS_FLAG_DIRECTORIES : Z := 0x02.
Definition VFS_FS_FLAG_FLUSH : Z := 0x08.
Definition FAT32_ATTR_READ_ONLY : Z := 0x01.
Definition FAT32_ATTR_HIDDEN : Z := 0x02.
Definition FAT32_ATTR_SYSTEM : Z := 0x04.
Definition FAT32_ATTR_ARCHIVE : Z := 0x20.

Record fat32_vfs_file := FatVfsFile { vf_fs : bool; vf_file : fat32_file }.

Record fatvfs (D : Type) := FatVfs {
  volume : fat32_fs D;
  disk : D;
  g_fat32_vfs_files : list fat32_vfs_file;
  g_fat32_vfs_nodes : list vfs_node;
  g_fat32_vfs_count : Z;
  g_fat32_vfs_mount : bool;
  g_fat32_vfs_registered : bool }.
Arguments FatVfs {D} _ _ _ _ _ _ _.
Arguments volume {D} _.
Arguments disk {D} _.
Arguments g_fat32_vfs_files {D} _.
Arguments g_fat32_vfs_nodes {D} _.
Arguments g_fat32_vfs_count {D} _.
Arguments g_fat32_vfs_mount {D} _.
Arguments g_fat32_vfs_registered {D} _.

(** * Paths *)

(** Copy into a char[VFS_MAX_PATH]; [None] when it does not fit. *)
Definition bounded_copy (limit : Z) (s : list Z) : option (list Z) :=
  if Z.of_nat (length s) <? limit then Some s else None.

(** The path below "/fat"; the root is the empty string. *)
Definition fat32_vfs_relative_path (path : list Z) : option (list Z) :=
  if bool_decide (str_cut path = FAT32_VFS_ROOT_PATH) then Some [] else
  match vfs_strip_prefix (Some path) (Some FAT32_VFS_ROOT_PATH) with
  | None => None
  | Some suffix =>
      if negb (byte_at suffix 0 =? SLASH) || (byte_at suffix 1 =? 0) then None
      else bounded_copy VFS_MAX_PATH (str_cut (tail suffix))
  end.

(** A path naming an entry of the root directory. *)
Definition fat32_vfs_root_name (path : list Z) (out_size : Z) : option (list Z) :=
  match fat32_vfs_relative_path path with
  | None | Some [] => None
  | Some relative =>
      if existsb (fun c => c =? SLASH) relative then None else bounded_copy out_size relative
  end.

Definition fat32_vfs_attributes (attributes : Z) : Z :=
  let value := 0 in
  let value := if attributes &? FAT32_ATTR_READ_ONLY then Z.lor value 1 else value in
  let value := if attributes &? FAT32_ATTR_HIDDEN then Z.lor value 2 else value in
  let value := if attributes &? FAT32_ATTR_SYSTEM then Z.lor value 4 else value in
  if attributes &? FAT32_ATTR_ARCHIVE then Z.lor value 8 else value.

Section Callbacks.
Context {D : Type}.
Implicit Types (v : fatvfs D).

Definition empty_slot : fat32_vfs_file := FatVfsFile false (FatFile 0 0 0 0 0).

Definition vfile_at v (i : Z) : fat32_vfs_file := default empty_slot (g_fat32_vfs_files v !! Z.to_nat i).

Definition set_volume v (st : fat32_fs D * D) : fatvfs D :=
  FatVfs (fst st) (snd st) (g_fat32_vfs_files v) (g_fat32_vfs_nodes v) (g_fat32_vfs_count v)
    (g_fat32_vfs_mount v) (g_fat32_vfs_registered v).

Definition set_slot v (i : Z) (f : fat32_vfs_file) (n : vfs_node) : fatvfs D :=
  FatVfs (volume v) (disk v) (<[Z.to_nat i := f]> (g_fat32_vfs_files v))
    (<[Z.to_nat i := n]> (g_fat32_vfs_nodes v)) (g_fat32_vfs_count v) (g_fat32_vfs_mount v)
    (g_fat32_vfs_registered v).

Definition set_count v (n : Z) : fatvfs D :=
  FatVfs (volume v) (disk v) (g_fat32_vfs_files v) (g_fat32_vfs_nodes v) n (g_fat32_vfs_mount v)
    (g_fat32_vfs_registered v).

(** Run a driver call with a caller's object. *)
Definition run {X A : Type} v (m : fm D X A) (x : X) : option A * X * fatvfs D :=
  let '(r, (st, x)) := m (volume v, disk v, x) in (r, x, set_volume v st).

Definition clear_vfs_slot v (index : Z) : fatvfs D :=
  if index >=? FAT32_MAX_VFS_FILES then v else set_slot v index empty_slot null_node.

(** Whether the mount's context leads to a mounted volume. *)
Definition fat32_vfs_fs v (context : Z) : bool :=
  (context =? MOUNT_CONTEXT) && g_fat32_vfs_mount v && mounted (volume v).

(** The entry a node's context points to, when its [fs] is set. *)
Definition mounted_file v (context : Z) : option fat32_file :=
  if context =? 0 then None else
  let slot := vfile_at v (context - 1) in
  if vf_fs slot then Some (vf_file slot) else None.

Definition fat32_vfs_read (context offset : Z) (buffer : list Z) (cap : Z) v : Z * Z * list Z * fatvfs D :=
  match mounted_file v context with
  | None => (-1, 0, buffer, v)
  | Some file =>
      let '(r, buffer, v) := run v (fat32_read file offset cap) buffer in
      match r with Some n => (0, n, buffer, v) | None => (-1, 0, buffer, v) end
  end.

Definition fat32_vfs_write (context offset : Z) (buffer : list Z) (count : Z) v : Z * Z * fatvfs D :=
  match mounted_file v context with
  | None => (-1, 0, v)
  | Some file =>
      let '(r, file, v) := run v (fat32_write offset buffer count) file in
      let i := context - 1 in
      let v := set_slot v i (FatVfsFile true file) (default null_node (g_fat32_vfs_nodes v !! Z.to_nat i)) in
      match r with Some n => (0, n, v) | None => (-1, 0, v) end
  end.

Definition fat32_vfs_stat (context stat : Z) v : Z * Z * fatvfs D :=
  match mounted_file v context with
  | None => (-1, stat, v)
  | Some file => (0, size file, v)
  end.

Definition fat32_vfs_read_path (context : Z) (path : list Z) (offset : Z) (buffer : list Z) (cap : Z) v
    : Z * Z * list Z * fatvfs D :=
  if negb (fat32_vfs_fs v context) then (-1, 0, buffer, v) else
  match fat32_vfs_relative_path path with
  | None | Some [] => (-1, 0, buffer, v)
  | Some relative =>
      let '(info, _, v) := run v (fat32_lookup_path (Some relative)) tt in
      match info with
      | None => (-1, 0, buffer, v)
      | Some info =>
          if (pi_attributes info &? FAT32_ATTR_DIRECTORY) || (offset >? pi_size info) then (-1, 0, buffer, v) else
          let '(file, _, v) := run v (fat32_open_path (Some relative)) tt in
          match file with
          | None => (-1, 0, buffer, v)
          | Some file =>
              let '(r, buffer, v) := run v (fat32_read file offset cap) buffer in
              match r with Some n => (0, n, buffer, v) | None => (-1, 0, buffer, v) end
          end
      end
  end.

Definition fat32_vfs_stat_path (context : Z) (path : list Z) (stat : Z) v : Z * Z * fatvfs D :=
  if negb (fat32_vfs_fs v context) then (-1, stat, v) else
  match fat32_vfs_relative_path path with
  | None => (-1, stat, v)
  | Some relative =>
      let '(info, _, v) := run v (fat32_lookup_path (Some relative)) tt in
      match info with None => (-1, stat, v) | Some info => (0, pi_size info, v) end
  end.

Definition type_of_attributes (attributes : Z) : Z :=
  if attributes &? FAT32_ATTR_DIRECTORY then VFS_FILE_TYPE_DIRECTORY else VFS_FILE_TYPE_REGULAR.

Definition fat32_vfs_metadata_path (context : Z) (path : list Z) (md : vfs_metadata_t) v
    : Z * vfs_metadata_t * fatvfs D :=
  if negb (fat32_vfs_fs v context) then (-1, md, v) else
  match fat32_vfs_relative_path path with
  | None => (-1, md, v)
  | Some relative =>
      let '(info, _, v) := run v (fat32_lookup_path (Some relative)) tt in
      match info with
      | None => (-1, md, v)
      | Some info =>
          (0, Metadata (pi_size info) (type_of_attributes (pi_attributes info))
                (fat32_vfs_attributes (pi_attributes info)), v)
      end
  end.

(** The conversion loop: the native name (13 bytes, terminated) padded with
    zeroes to VFS_NAME_MAX; [n] entries are left. *)
Fixpoint convert_entries (n : nat) (i : Z) (native : list fat32_dirent) (entries : list vfs_dirent)
    : list vfs_dirent :=
  match n with
  | O => entries
  | S n' =>
      let e := fat_dirent_at native i in
      let name := str_cut (fd_name e) in
      convert_entries n' (i + 1) native
        (<[Z.to_nat i := Dirent (name ++ replicate (64 - length name) 0)
             (Metadata (fd_size e) (type_of_attributes (fd_attributes e))
                (fat32_vfs_attributes (fd_attributes e)))]> entries)
  end.

Definition fat32_vfs_readdir_path (context : Z) (path : list Z) (start_index : Z) (entries : list vfs_dirent)
    (max_entries : Z) v : Z * Z * list vfs_dirent * fatvfs D :=
  if negb (fat32_vfs_fs v context) || (max_entries =? 0) || (max_entries >? VFS_READDIR_MAX_ENTRIES)
  then (-1, 0, entries, v) else
  match fat32_vfs_relative_path path with
  | None => (-1, 0, entries, v)
  | Some relative =>
      let '(written, native, v) :=
        run v (fat32_readdir_path (Some relative) start_index max_entries) (replicate 8 empty_dirent) in
      match written with
      | None => (-1, 0, entries, v)
      | Some written =>
          if written >? max_entries then (-1, 0, entries, v)
          else (0, written, convert_entries (Z.to_nat written) 0 native entries, v)
      end
  end.

Definition fat32_vfs_list_path (context : Z) (path : list Z) (offset : Z) (buffer : list Z) (cap : Z) v
    : Z * Z * list Z * fatvfs D :=
  if negb (fat32_vfs_fs v context) then (-1, 0, buffer, v) else
  match fat32_vfs_relative_path path with
  | None => (-1, 0, buffer, v)
  | Some relative =>
      let '(status, n, buffer, st) := fat32_list_path_at (Some relative) offset buffer cap (volume v, disk v) in
      (status, n, buffer, set_volume v st)
  end.

Definition fat32_vfs_list_root (context offset : Z) (buffer : list Z) (cap : Z) v : Z * Z * list Z * fatvfs D :=
  if negb (fat32_vfs_fs v context) then (-1, 0, buffer, v) else
  let '(status, n, buffer, st) := fat32_list_path_at (Some []) offset buffer cap (volume v, disk v) in
  (status, n, buffer, set_volume v st).

Definition fat32_vfs_fsinfo (context : Z) (path : list Z) (info : vfs_fsinfo_t) v
    : Z * vfs_fsinfo_t * fatvfs D :=
  if negb (fat32_vfs_fs v context) || is_null (fat32_vfs_relative_path path) ||
     (total_sectors (geo (volume v)) =? 0) then (ARMONIOS_ERR_INVAL, info, v) else
  let flags := VFS_FS_FLAG_DIRECTORIES in
  let flags := if is_null (writer (volume v)) then Z.lor flags VFS_FS_FLAG_READ_ONLY else flags in
  let flags := if flush_supported (volume v) then Z.lor flags VFS_FS_FLAG_FLUSH else flags in
  (0, FsInfo (total_sectors (geo (volume v)) * FAT32_SECTOR_SIZE) 0 FAT32_SECTOR_SIZE
        (FAT32_SHORT_NAME_MAX - 1) (VFS_MAX_PATH - 1) flags
        ([102; 97; 116; 51; 50] ++ replicate 11 0), v).

(** ** Registration *)

Definition fat32_mount_vfs_file (path : list Z) (name : list Z) (sv : vfs * fatvfs D) : Z * (vfs * fatvfs D) :=
  let '(s, v) := sv in
  let index := g_fat32_vfs_count v in
  if negb (mounted (volume v)) || negb (byte_at path 0 =? SLASH) || (index >=? FAT32_MAX_VFS_FILES)
  then (-1, sv) else
  let v := clear_vfs_slot v index in
  let '(file, _, v) := run v (fat32_open_path (Some name)) tt in
  match file with
  | None => (-1, (s, v))
  | Some file =>
      let node := Node (Some path) (size file) FN_READ FN_WRITE FN_STAT (index + 1) in
      let v := set_slot v index (FatVfsFile true file) node in
      let '(status, s) := vfs_mount_static s [node] in
      if negb (status =? 0) then (-1, (s, clear_vfs_slot v index))
      else (0, (s, set_count v (index + 1)))
  end.

Definition fat32_vfs_open_path (context : Z) (path : list Z) (flags : Z) (sv : vfs * fatvfs D)
    : Z * (vfs * fatvfs D) :=
  let '(s, v) := sv in
  if negb (fat32_vfs_fs v context) then (-1, sv) else
  match fat32_vfs_relative_path path with
  | None | Some [] => (-1, sv)
  | Some relative =>
      let '(file, _, v) := run v (fat32_open_path (Some relative)) tt in
      match file with
      | Some _ => fat32_mount_vfs_file path relative (s, v)
      | None =>
          if negb (flags &? VFS_O_CREAT) then (-1, (s, v)) else
          match fat32_vfs_root_name path VFS_MAX_PATH with
          | None => (-1, (s, v))
          | Some root_name =>
              let '(file, _, v) := run v (fat32_create (Some root_name)) tt in
              match file with
              | None => (-1, (s, v))
              | Some _ => fat32_mount_vfs_file path relative (s, v)
              end
          end
      end
  end.

Definition fat32_vfs_unlink_path (context : Z) (path : list Z) v : Z * fatvfs D :=
  if negb (fat32_vfs_fs v context) then (-1, v) else
  match fat32_vfs_root_name path VFS_MAX_PATH with
  | None => (-1, v)
  | Some name =>
      let '(r, _, v) := run v (fat32_delete (Some name)) tt in
      (match r with Some _ => 0 | None => -1 end, v)
  end.

Definition fat32_vfs_rename_path (context : Z) (old_path new_path : list Z) v : Z * fatvfs D :=
  if negb (fat32_vfs_fs v context) then (-1, v) else
  match fat32_vfs_root_name old_path VFS_MAX_PATH, fat32_vfs_root_name new_path VFS_MAX_PATH with
  | Some old_name, Some new_name =>
      let '(r, _, v) := run v (fat32_rename (Some old_name) (Some new_name)) tt in
      (match r with Some _ => 0 | None => -1 end, v)
  | _, _ => (-1, v)
  end.

Definition g_fat32_vfs_ops : vfs_mount_ops :=
  MountOps FN_OPEN_PATH FN_READ_PATH FN_LIST_ROOT FN_STAT_PATH FN_LIST_PATH FN_METADATA_PATH FN_READDIR_PATH
    FN_FSINFO FN_UNLINK_PATH FN_RENAME_PATH.

Definition fat32_vfs_reset (s : vfs) v : vfs * fatvfs D :=
  let v := for_range 0 FAT32_MAX_VFS_FILES (fun i v => clear_vfs_slot v i) v in
  let '(status, s) := vfs_mount s (Some FAT32_VFS_ROOT_PATH) g_fat32_vfs_ops MOUNT_CONTEXT in
  (s, FatVfs (volume v) (disk v) (g_fat32_vfs_files v) (g_fat32_vfs_nodes v) 0 false (status =? 0)).

Definition fat32_mount_vfs_root (path : list Z) v : Z * fatvfs D :=
  if negb (g_fat32_vfs_registered v) || negb (mounted (volume v)) ||
     negb (bool_decide (str_cut path = FAT32_VFS_ROOT_PATH)) then (-1, v) else
  (0, FatVfs (volume v) (disk v) (g_fat32_vfs_files v) (g_fat32_vfs_nodes v) (g_fat32_vfs_count v) true
        (g_fat32_vfs_registered v)).

(** The driver as a VFS backend. *)
#[export] Instance fat32_backend : Backend (fatvfs D) := {|
  call_read fn ctx offset buffer cap v :=
    if fn =? FN_READ then fat32_vfs_read ctx offset buffer cap v else (-1, 0, buffer, v);
  call_write fn ctx offset buffer count v :=
    if fn =? FN_WRITE then fat32_vfs_write ctx offset buffer count v else (-1, 0, v);
  call_stat fn ctx stat v := if fn =? FN_STAT then fat32_vfs_stat ctx stat v else (-1, stat, v);
  call_list fn ctx offset buffer cap v :=
    if fn =? FN_LIST_ROOT then fat32_vfs_list_root ctx offset buffer cap v else (-1, 0, buffer, v);
  call_open fn ctx path flags sv := if fn =? FN_OPEN_PATH then fat32_vfs_open_path ctx path flags sv else (-1, sv);
  call_read_path fn ctx path offset buffer cap v :=
    if fn =? FN_READ_PATH then fat32_vfs_read_path ctx path offset buffer cap v else (-1, 0, buffer, v);
  call_stat_path fn ctx path stat v :=
    if fn =? FN_STAT_PATH then fat32_vfs_stat_path ctx path stat v else (-1, stat, v);
  call_list_path fn ctx path offset buffer cap v :=
    if fn =? FN_LIST_PATH then fat32_vfs_list_path ctx path offset buffer cap v else (-1, 0, buffer, v);
  call_metadata_path fn ctx path md v :=
    if fn =? FN_METADATA_PATH then fat32_vfs_metadata_path ctx path md v else (-1, md, v);
  call_readdir_path fn ctx path start entries max v :=
    if fn =? FN_READDIR_PATH then fat32_vfs_readdir_path ctx path start entries max v else (-1, 0, entries, v);
  call_fsinfo fn ctx path info v :=
    if fn =? FN_FSINFO then fat32_vfs_fsinfo ctx path info v else (-1, info, v);
  call_unlink fn ctx path v := if fn =? FN_UNLINK_PATH then fat32_vfs_unlink_path ctx path v else (-1, v);
  call_rename fn ctx old new v := if fn =? FN_RENAME_PATH then fat32_vfs_rename_path ctx old new v else (-1, v) |}.

(** Opening through the mount keeps the VFS tables consistent. *)
Lemma mount_vfs_file_inv path name s v :
  vfs_inv s -> vfs_inv (fst (snd (fat32_mount_vfs_file path name (s, v)))).
Proof.
  intros Hi. unfold fat32_mount_vfs_file. destruct (_ || _); [done|].
  destruct (run _ _ tt) as [[[file|] u] v']; [|done].
  destruct (vfs_mount_static s _) as [st s'] eqn:E.
  assert (vfs_inv s') by (apply (f_equal snd) in E; cbn [snd] in E; subst s'; by apply mount_static_inv).
  by destruct (negb _).
Qed.

#[export] Instance fat32_backend_ok : BackendOk (fatvfs D).
Proof.
  split. intros fn ctx path flags s v Hi. cbn [call_open fat32_backend].
  destruct (fn =? FN_OPEN_PATH); [|done]. unfold fat32_vfs_open_path.
  destruct (negb _); [done|]. destruct (fat32_vfs_relative_path path) as [[|c relative]|]; [done| |done].
  destruct (run _ _ tt) as [[[file|] u] v1]; [by apply mount_vfs_file_inv|].
  destruct (negb _); [done|]. destruct (fat32_vfs_root_name path VFS_MAX_PATH); [|done].
  destruct (run _ _ tt) as [[[file|] u2] v2]; [by apply mount_vfs_file_inv|done].
Qed.
End Callbacks.
