(* ===== verification/Fat32Disk.v ===== *)
(** The FAT32 driver over a disk that works: sectors and the allocation table.

    [GoodDisk] says what the driver may expect of its sector callbacks: a read
    inside the volume succeeds and returns the sector, a write inside the
    volume succeeds and changes that sector only.  [run m s o s'] is then an
    exact account of a driver call over abstract states: the sectors as a
    function, the two sector buffers and the caller's object. *)

From S2P Require Import Prelude.
From S2P Require Import Bytes.
From S2P Require Import Block.
From S2P Require Import Fat32.
Open Scope arm.

(** * Little-endian stores *)

Lemma put_le16_length buf i v : length (put_le16 buf i v) = length buf.
Proof. unfold put_le16. by autorewrite with armonios_rw. Qed.

Lemma put_le32_length buf i v : length (put_le32 buf i v) = length buf.
Proof. unfold put_le32. by autorewrite with armonios_rw. Qed.

#[export] Hint Rewrite put_le16_length put_le32_length : armonios_rw.

Lemma byte_at_put_le32 buf i v j :
  0 <= i -> i + 4 <= Z.of_nat (length buf) -> 0 <= j ->
  byte_at (put_le32 buf i v) j =
  if (i <=? j) && (j <? i + 4) then u8 (Z.shiftr v (8 * (j - i))) else byte_at buf j.
Proof.
  intros Hi Hl Hj. unfold put_le32. rewrite !byte_at_put by (autorewrite with armonios_rw; lia).
  destruct (Z.leb_spec i j), (Z.ltb_spec j (i + 4)); cbn [andb];
    destruct (Z.eqb_spec j (i + 3)), (Z.eqb_spec j (i + 2)), (Z.eqb_spec j (i + 1)), (Z.eqb_spec j i);
    try lia; try done; f_equal; try (f_equal; lia).
  replace (8 * (j - i)) with 0 by lia. by rewrite Z.shiftr_0_r.
Qed.

Lemma le32_put_eq buf i v :
  0 <= i -> i + 4 <= Z.of_nat (length buf) -> 0 <= v < 2 ^ 32 -> le32_at (put_le32 buf i v) i = v.
Proof.
  intros Hi Hl Hv. unfold le32_at. rewrite !byte_at_put_le32 by lia.
  repeat (match goal with |- context [if ?b then _ else _] =>
    replace b with true by (symmetry; apply andb_true_iff; lia) end).
  replace (8 * (i - i)) with 0 by lia. replace (8 * (i + 1 - i)) with 8 by lia.
  replace (8 * (i + 2 - i)) with 16 by lia. replace (8 * (i + 3 - i)) with 24 by lia.
  pose proof (u8_range (Z.shiftr v 0)). pose proof (u8_range (Z.shiftr v 8)).
  pose proof (u8_range (Z.shiftr v 16)). pose proof (u8_range (Z.shiftr v 24)).
  rewrite (lor_shift _ _ 8), (lor_shift _ _ 16), (lor_shift _ _ 24) by lia.
  rewrite !Z.shiftr_div_pow2 by lia. unfold u8. clear -Hv. Z.to_euclidean_division_equations. lia.
Qed.

Lemma le32_put_ne buf i v j :
  0 <= i -> i + 4 <= Z.of_nat (length buf) -> 0 <= j -> j + 4 <= i \/ i + 4 <= j ->
  le32_at (put_le32 buf i v) j = le32_at buf j.
Proof.
  intros Hi Hl Hj Hd. unfold le32_at. rewrite !byte_at_put_le32 by lia.
  repeat (match goal with |- context [if ?b then _ else _] =>
    replace b with false by (symmetry; apply andb_false_iff; lia) end). done.
Qed.

Lemma land_mask_range x : 0 <= Z.land x FAT32_CLUSTER_MASK < 2 ^ 28.
Proof. change FAT32_CLUSTER_MASK with (2 ^ 28 - 1). rewrite land_low_mask by lia. apply Z.mod_pos_bound. lia. Qed.

Lemma land_mask_id x : 0 <= x < 2 ^ 28 -> Z.land x FAT32_CLUSTER_MASK = x.
Proof. intros. change FAT32_CLUSTER_MASK with (2 ^ 28 - 1). rewrite land_low_mask by lia. by apply Z.mod_small. Qed.

Lemma cluster_is_eoc_spec c : cluster_is_eoc c = (FAT32_CLUSTER_EOC <=? c).
Proof. apply Z.geb_leb. Qed.

(** * Geometry *)

(** What fat32_mount establishes about the geometry. *)
Record geo_ok (g : geometry) : Prop := {
  gk_spc : 1 <= sectors_per_cluster g <= 128;
  gk_start : 1 <= fat_start_lba g;
  gk_fats : 1 <= fat_count g;
  gk_spf : 1 <= sectors_per_fat g;
  gk_data : data_start_lba g = fat_start_lba g + fat_count g * sectors_per_fat g;
  gk_total : data_start_lba g + cluster_count g * sectors_per_cluster g <= total_sectors g < 2 ^ 32;
  gk_count : 1 <= cluster_count g <= FAT32_CLUSTER_BAD - 2;
  gk_fat : cluster_count g + 2 <= 128 * sectors_per_fat g;
  gk_root : 2 <= root_cluster g < cluster_count g + 2 }.

Lemma boot_geometry_ok s g : is_bytes s -> boot_geometry s = Some g -> geo_ok g.
Proof.
  intros Hb. unfold boot_geometry.
  pose proof (byte_at_u8 s 13 Hb). pose proof (byte_at_u8 s 16 Hb). pose proof (le16_at_range s 14 Hb).
  pose proof (le16_at_range s 19 Hb). pose proof (le32_at_range s 32 Hb). pose proof (le32_at_range s 36 Hb).
  pose proof (le32_at_range s 44 Hb).
  set (spc := byte_at s 13) in *. set (fats := byte_at s 16) in *. set (res := le16_at s 14) in *.
  set (spf := le32_at s 36) in *. set (root := le32_at s 44) in *.
  assert (Ht : 0 <= (if le16_at s 19 =? 0 then le32_at s 32 else le16_at s 19) < 2 ^ 32) by (case_if; lia).
  set (total := if le16_at s 19 =? 0 then le32_at s 32 else le16_at s 19) in *.
  destruct (_ || _) eqn:E1; [done|]. b2p.
  destruct (Z.geb_spec (u32 (res + u32 (fats * spf))) total); [done|].
  destruct (_ || _) eqn:E2; [done|]. b2p. intros [= <-]. unfold UINT32_MAX in *.
  assert (Hmul : fats * spf <= 2 ^ 32 - 1 - res).
  { etransitivity; [apply Z.mul_le_mono_nonneg_l; [lia|eassumption]|]. apply Z.mul_div_le. lia. }
  rewrite (u32_id (fats * spf)) in * by nia. rewrite (u32_id (res + fats * spf)) in * by nia.
  set (cc := (total - (res + fats * spf)) / spc) in *.
  assert (Hcc : spc * cc <= total - (res + fats * spf)) by (apply Z.mul_div_le; lia).
  unfold FAT32_CLUSTER_BAD in *.
  assert (0 <= cc) by (apply Z.div_pos; lia).
  pose proof (u32_id (cc + 2 + 127) ltac:(lia)) as Eu. pose proof (u32_id (root - 2) ltac:(lia)).
  match goal with H : u32 (cc + 2 + 127) / 128 <= _ |- _ => rewrite Eu in H end.
  pose proof (Z.div_mod (cc + 2 + 127) 128). pose proof (Z.mod_pos_bound (cc + 2 + 127) 128).
  split; cbn; unfold FAT32_CLUSTER_BAD; lia.
Qed.

Section Geometry.
Context (g : geometry) (Hg : geo_ok g).

Lemma cluster_data_iff c : cluster_is_data g c = true <-> 2 <= c < cluster_count g + 2 /\ c < 2 ^ 32 \/
  (2 <= c /\ 2 ^ 32 <= c /\ u32 (c - 2) < cluster_count g).
Proof.
  unfold cluster_is_data. destruct Hg. unfold FAT32_CLUSTER_BAD in *. split.
  - intros Hc. b2p. destruct (Z_lt_le_dec c (2 ^ 32)); [left|right; lia]. rewrite u32_id in * by lia. lia.
  - intros [?|?]; apply andb_true_iff; [rewrite u32_id by lia|]; lia.
Qed.

(** A cluster number the driver computed. *)
Lemma cluster_data_spec c : c < 2 ^ 32 -> cluster_is_data g c = true <-> 2 <= c < cluster_count g + 2.
Proof. intros. rewrite cluster_data_iff. destruct Hg. unfold FAT32_CLUSTER_BAD in *. lia. Qed.

Lemma cluster_data_false c : c < 2 ^ 32 -> cluster_is_data g c = false <-> ~ (2 <= c < cluster_count g + 2).
Proof. intros Hc. rewrite <- cluster_data_spec by done. destruct (cluster_is_data g c); naive_solver. Qed.

Definition is_cluster (c : Z) : Prop := 2 <= c < cluster_count g + 2.

Lemma is_cluster_data c : is_cluster c -> cluster_is_data g c = true.
Proof.
  intros Hc. apply cluster_data_iff. left. destruct Hg. unfold is_cluster, FAT32_CLUSTER_BAD in *. lia.
Qed.

Lemma is_cluster_not_eoc c : is_cluster c -> cluster_is_eoc c = false /\ c <> FAT32_CLUSTER_BAD /\ 0 <= c < 2 ^ 28.
Proof.
  intros Hc. destruct Hg. unfold is_cluster, cluster_is_eoc, FAT32_CLUSTER_BAD, FAT32_CLUSTER_EOC in *.
  split_and!; try lia.
Qed.

(** The data sectors of a cluster. *)
Definition data_lba (c s : Z) : Z := data_start_lba g + (c - 2) * sectors_per_cluster g + s.

Lemma data_lba_range c s :
  is_cluster c -> 0 <= s < sectors_per_cluster g -> data_start_lba g <= data_lba c s < total_sectors g.
Proof. intros [] Hs. destruct Hg. unfold data_lba. nia. Qed.

Lemma cluster_to_lba_eq c s :
  is_cluster c -> 0 <= s < sectors_per_cluster g -> u32 (cluster_to_lba g c + s) = data_lba c s.
Proof.
  intros Hc Hs. pose proof (data_lba_range c s Hc Hs). pose proof (data_lba_range c 0 Hc).
  destruct Hc. unfold data_lba, cluster_to_lba, FAT32_CLUSTER_BAD in *.
  assert (0 <= (c - 2) * sectors_per_cluster g < 2 ^ 32) by (destruct Hg; nia).
  assert (0 <= data_start_lba g) by (destruct Hg; nia).
  destruct Hg as [? ? ? ? ? ? Hcc]. unfold FAT32_CLUSTER_BAD in Hcc.
  rewrite (u32_id (c - 2)) by lia. rewrite (u32_id ((c - 2) * _)) by lia.
  rewrite (u32_id (data_start_lba g + _)) by lia. apply u32_id. lia.
Qed.

Lemma data_lba_inj c s c' s' :
  0 <= s < sectors_per_cluster g -> 0 <= s' < sectors_per_cluster g ->
  data_lba c s = data_lba c' s' -> c = c' /\ s = s'.
Proof.
  unfold data_lba. intros Hs Hs' E. assert (c = c'); [|subst; lia].
  assert ((c - 2) * sectors_per_cluster g + s = (c' - 2) * sectors_per_cluster g + s') as E' by lia.
  destruct (Z.lt_total c c') as [|[|]]; [exfalso; nia|done|exfalso; nia].
Qed.

(** The sector and offset of the table entry of a cluster, in each copy. *)
Definition fat_lba (copy c : Z) : Z := fat_start_lba g + copy * sectors_per_fat g + 4 * c / 512.

Lemma fat_index_range c : is_cluster c -> 0 <= 4 * c / 512 < sectors_per_fat g.
Proof. intros []. destruct Hg. split; [apply Z.div_pos; lia|apply Z.div_lt_upper_bound; lia]. Qed.

Lemma fat_lba_range copy c :
  is_cluster c -> 0 <= copy < fat_count g -> fat_start_lba g <= fat_lba copy c < data_start_lba g.
Proof. intros Hc Hn. pose proof (fat_index_range c Hc). destruct Hg. unfold fat_lba. nia. Qed.

Lemma data_le_total : data_start_lba g < total_sectors g.
Proof. destruct Hg. nia. Qed.

Lemma fat_lba_eq copy c :
  is_cluster c -> 0 <= copy < fat_count g ->
  u32 (u32 (fat_start_lba g + u32 (copy * sectors_per_fat g)) + u32 (c * 4) / FAT32_SECTOR_SIZE) = fat_lba copy c.
Proof.
  intros Hc Hn. pose proof (fat_lba_range copy c Hc Hn) as Hr. pose proof (fat_index_range c Hc).
  pose proof data_le_total. destruct Hc. destruct Hg as [? ? ? ? ? ? Hcc].
  unfold fat_lba, FAT32_SECTOR_SIZE, FAT32_CLUSTER_BAD in *.
  rewrite (u32_id (c * 4)) by lia. rewrite (Z.mul_comm c 4).
  assert (0 <= copy * sectors_per_fat g) by nia.
  rewrite (u32_id (copy * _)) by lia. rewrite (u32_id (fat_start_lba g + copy * _)) by lia. apply u32_id. lia.
Qed.

Lemma fat_lba0_eq c :
  is_cluster c -> u32 (fat_start_lba g + u32 (c * 4) / FAT32_SECTOR_SIZE) = fat_lba 0 c.
Proof.
  intros Hc. assert (0 <= 0 < fat_count g) as Hn by (destruct Hg; lia).
  rewrite <- (fat_lba_eq 0 c Hc Hn). rewrite Z.mul_0_l, (u32_id 0), Z.add_0_r by lia.
  rewrite (u32_id (fat_start_lba g)); [done|]. pose proof data_le_total. destruct Hg. nia.
Qed.

Lemma fat_offset_range c : 0 <= (4 * c) mod 512 /\ (4 * c) mod 512 + 4 <= 512.
Proof. pose proof (Z.mod_pos_bound (4 * c) 512). Z.to_euclidean_division_equations. lia. Qed.

Lemma fat_offset_eq c : is_cluster c -> u32 (c * 4) mod FAT32_SECTOR_SIZE = (4 * c) mod 512.
Proof.
  intros []. destruct Hg as [? ? ? ? ? ? Hcc]. unfold FAT32_CLUSTER_BAD in Hcc.
  rewrite u32_id by lia. by rewrite (Z.mul_comm c 4).
Qed.

End Geometry.

(** * Runs over a working disk *)

(** What the driver relies on of the callbacks it was mounted with, on a
    volume of [total] sectors: [contents d lba] is the sector a disk in state
    [d] holds at [lba]. *)
Class GoodDisk {D : Type} (R : sector_reader D) (W : option (sector_write_fn (D := D))) (total : Z) := {
  contents : D -> Z -> list Z;
  disk_ok : D -> Prop;
  disk_sector : forall d lba, disk_ok d -> length (contents d lba) = 512%nat;
  disk_read : forall d lba buf, disk_ok d -> 0 <= lba < total -> length buf = 512%nat ->
    exists d', call_reader R lba buf d = (0, contents d lba, d') /\ disk_ok d' /\
      forall l, contents d' l = contents d l;
  disk_write : forall w d lba buf, W = Some w -> disk_ok d -> 0 <= lba < total -> length buf = 512%nat ->
    exists d', w lba buf d = (0, d') /\ disk_ok d' /\
      forall l, contents d' l = if l =? lba then buf else contents d l }.

(** Sectors, the two buffers and the caller's object. *)
Record ast (X : Type) := Ast {
  a_disk : Z -> list Z;
  a_buf : list Z;
  a_wbuf : list Z;
  a_obj : X }.
Arguments Ast {X} _ _ _ _.
Arguments a_disk {X} _.
Arguments a_buf {X} _.
Arguments a_wbuf {X} _.
Arguments a_obj {X} _.

Definition upd (lba : Z) (buf : list Z) (S : Z -> list Z) : Z -> list Z :=
  fun l => if l =? lba then buf else S l.

Section Runs.
Context {D : Type} (R : sector_reader D) (W : option (sector_write_fn (D := D))) (g : geometry).
Context `{!GoodDisk R W (total_sectors g)} (Hg : geo_ok g).
Implicit Types (S : Z -> list Z) (d : D) (b w : list Z).

(** A mounted file system over disk [d] in abstract state [s]. *)
Record rep {X : Type} (fs : fat32_fs D) (d : D) (s : ast X) : Prop := {
  rp_reader : reader fs = Some R;
  rp_writer : writer fs = W;
  rp_geo : geo fs = g;
  rp_mounted : mounted fs = true;
  rp_buf : sector fs = a_buf s;
  rp_wbuf : write_sector_buffer fs = a_wbuf s;
  rp_buf_len : length (a_buf s) = 512%nat;
  rp_wbuf_len : length (a_wbuf s) = 512%nat;
  rp_disk : disk_ok d;
  rp_contents : forall l, contents d l = a_disk s l }.

(** From any representation of [s], the call returns [o] and leaves [s']. *)
Definition run {X A : Type} (m : fm D X A) (s : ast X) (o : option A) (s' : ast X) : Prop :=
  forall fs d, rep fs d s ->
  exists fs' d', m (fs, d, a_obj s) = (o, (fs', d', a_obj s')) /\ rep fs' d' s'.

(** Facts every represented state has. *)
Definition wf_ast {X : Type} (s : ast X) : Prop :=
  length (a_buf s) = 512%nat /\ length (a_wbuf s) = 512%nat /\ forall l, length (a_disk s l) = 512%nat.

Lemma run_wf {X A} (m : fm D X A) s o s' : (wf_ast s -> run m s o s') -> run m s o s'.
Proof.
  intros H fs d Hr. apply H; [|done]. destruct Hr. split_and!; [done..|].
  intros l. by rewrite <- rp_contents0, disk_sector.
Qed.

Lemma run_ext {X A} (m : fm D X A) s o S S' b w x :
  (forall l, S l = S' l) -> run m s o (Ast S b w x) -> run m s o (Ast S' b w x).
Proof.
  intros HS Hm fs d Hr. destruct (Hm fs d Hr) as (fs' & d' & E & []). exists fs', d'.
  split; [done|]. split; try done. intros l. cbn in *. by rewrite <- HS.
Qed.

(** ** The monad *)

Lemma run_ret {X A} (a : A) (s : ast X) : run (fret a) s (Some a) s.
Proof. intros fs d Hr. by exists fs, d. Qed.

Lemma run_fail {X A} (s : ast X) : run (A := A) ffail s None s.
Proof. intros fs d Hr. by exists fs, d. Qed.

Lemma run_bind {X A B} (m : fm D X A) (k : A -> fm D X B) s a s1 o s2 :
  run m s (Some a) s1 -> run (k a) s1 o s2 -> run (fbind m k) s o s2.
Proof.
  intros Hm Hk fs d Hr. destruct (Hm fs d Hr) as (fs1 & d1 & E & Hr1).
  destruct (Hk fs1 d1 Hr1) as (fs2 & d2 & E2 & Hr2). exists fs2, d2. split; [|done].
  unfold fbind. by rewrite E.
Qed.

Lemma run_bind_fail {X A B} (m : fm D X A) (k : A -> fm D X B) s s1 :
  run m s None s1 -> run (fbind m k) s None s1.
Proof.
  intros Hm fs d Hr. destruct (Hm fs d Hr) as (fs1 & d1 & E & Hr1). exists fs1, d1.
  split; [|done]. unfold fbind. by rewrite E.
Qed.

Lemma run_try {X A} (m : fm D X A) s o s1 : run m s o s1 -> run (ftry m) s (Some o) s1.
Proof.
  intros Hm fs d Hr. destruct (Hm fs d Hr) as (fs1 & d1 & E & Hr1). exists fs1, d1.
  split; [|done]. unfold ftry. by rewrite E.
Qed.

(** What the code sees of the file system. *)
Definition sees {X : Type} (fs : fat32_fs D) (s : ast X) : Prop :=
  reader fs = Some R /\ writer fs = W /\ geo fs = g /\ mounted fs = true /\
  sector fs = a_buf s /\ write_sector_buffer fs = a_wbuf s.

Lemma run_get {X B} (k : fat32_fs D -> fm D X B) s o s' :
  (forall fs, sees fs s -> run (k fs) s o s') -> run (fbind fget k) s o s'.
Proof.
  intros Hk fs d Hr. apply (Hk fs); [|done]. destruct Hr. split_and!; done.
Qed.

Lemma run_obj {X B} (k : X -> fm D X B) s o s' : run (k (a_obj s)) s o s' -> run (fbind fobj k) s o s'.
Proof. intros Hk fs d Hr. by apply Hk. Qed.

Lemma run_set {X B} (x : X) (k : unit -> fm D X B) S b w x0 o s' :
  run (k tt) (Ast S b w x) o s' -> run (fbind (fset x) k) (Ast S b w x0) o s'.
Proof. intros Hk fs d []. apply Hk. by split. Qed.

Lemma run_fsector {X} buf S b w (x : X) :
  length buf = 512%nat -> run (fsector buf) (Ast S b w x) (Some tt) (Ast S buf w x).
Proof. intros Hl fs d []. exists (set_sector fs buf), d. split; [done|]. by split. Qed.

Lemma run_fwbuf {X} buf S b w (x : X) :
  length buf = 512%nat -> run (fwbuf buf) (Ast S b w x) (Some tt) (Ast S b buf x).
Proof. intros Hl fs d []. exists (set_write_buffer fs buf), d. split; [done|]. by split. Qed.

(** ** Sectors *)

Lemma run_read_sector {X} lba S b w (x : X) :
  0 <= lba < total_sectors g -> run (read_sector lba) (Ast S b w x) (Some tt) (Ast S (S lba) w x).
Proof.
  intros Hl. apply run_get. intros fs0 (-> & _ & -> & -> & _ & _).
  destruct (Z.geb_spec lba (total_sectors g)); [lia|]. cbn [andb].
  intros fs d []. unfold load_sector. cbn in *.
  destruct (disk_read d lba (sector fs)) as (d' & E & Hok & Hc); [done..|congruence|].
  rewrite E. exists (set_sector fs (contents d lba)), d'. split; [done|].
  split; cbn; try done.
  - rewrite <- rp_contents0. by apply disk_sector.
  - intros l. by rewrite Hc.
Qed.

Lemma run_write_sector {X} wr lba buf S b w (x : X) :
  W = Some wr -> 0 <= lba < total_sectors g -> length buf = 512%nat ->
  run (write_sector lba buf) (Ast S b w x) (Some tt) (Ast (upd lba buf S) b w x).
Proof.
  intros HW Hl Hlen. apply run_get. intros fs0 (_ & -> & -> & -> & _ & _). rewrite HW.
  destruct (Z.geb_spec lba (total_sectors g)); [lia|]. cbn [negb orb].
  intros fs d []. destruct (disk_write wr d lba buf) as (d' & E & Hok & Hc); [done..|].
  rewrite E. exists fs, d'. split; [done|]. split; cbn in *; try done.
  intros l. rewrite Hc. unfold upd. by rewrite rp_contents0.
Qed.

(** * The allocation table *)

(** The table entry of a cluster, as the first copy holds it. *)
Definition fat (S : Z -> list Z) (c : Z) : Z :=
  Z.land (le32_at (S (fat_lba g 0 c)) ((4 * c) mod 512)) FAT32_CLUSTER_MASK.

(** What read_fat_entry makes of an entry. *)
Definition fat_result (chain : bool) (v : Z) : option Z :=
  if (v =? FAT32_CLUSTER_BAD) || (chain && negb (cluster_is_eoc v) && negb (cluster_is_data g v))
  then None else Some v.

Lemma fat_range S c : 0 <= fat S c < 2 ^ 28.
Proof. apply land_mask_range. Qed.

Lemma run_read_fat {X} c chain S b w (x : X) :
  is_cluster g c ->
  run (read_fat_entry c chain) (Ast S b w x) (fat_result chain (fat S c)) (Ast S (S (fat_lba g 0 c)) w x).
Proof.
  intros Hc. apply run_get. intros fs (_ & _ & -> & _). rewrite is_cluster_data by done. cbn [negb].
  rewrite (fat_lba0_eq g Hg), (fat_offset_eq g Hg) by done. eapply run_bind.
  { apply run_read_sector. pose proof (fat_lba_range g Hg 0 c Hc). pose proof (data_le_total g Hg).
    destruct Hg; lia. }
  apply run_get. intros fs' (_ & _ & -> & _ & -> & _). cbn [a_buf]. fold (fat S c).
  unfold fat_result. destruct (_ || _); [apply run_fail|apply run_ret].
Qed.

(** An entry that links to a cluster, or ends a chain. *)
Lemma fat_result_link chain v : is_cluster g v -> fat_result chain v = Some v.
Proof.
  intros Hv. destruct (is_cluster_not_eoc g Hg v Hv) as (He & Hb & _). unfold fat_result.
  rewrite is_cluster_data by done. destruct (Z.eqb_spec v FAT32_CLUSTER_BAD); [done|].
  by rewrite andb_false_r.
Qed.

Lemma fat_result_eoc chain v : cluster_is_eoc v = true -> fat_result chain v = Some v.
Proof.
  intros He. assert (v <> FAT32_CLUSTER_BAD) as Hv.
  { intros ->. discriminate He. }
  unfold fat_result. rewrite He, (proj2 (Z.eqb_neq _ _) Hv). cbn [negb]. by rewrite andb_false_r.
Qed.

(** An entry read in chain mode ends the chain or is a cluster. *)
Lemma fat_result_chain S c v :
  fat_result true (fat S c) = Some v -> v = fat S c /\ (cluster_is_eoc v = true \/ is_cluster g v).
Proof.
  unfold fat_result. destruct (_ || _) eqn:E; [done|]. intros [= <-]. split; [done|].
  apply orb_false_iff in E as [_ E]. cbn [andb] in E. apply andb_false_iff in E as [E|E].
  - left. by apply negb_false_iff in E.
  - right. apply negb_false_iff in E. pose proof (fat_range S c).
    apply (cluster_data_spec g Hg) in E; [done|lia].
Qed.

(** ** Writing an entry *)

(** Copies [lo, hi) of the table with entry [c] set to [v]. *)
Definition set_copies (lo hi c v : Z) (S : Z -> list Z) : Z -> list Z := fun l =>
  let q := (l - fat_start_lba g) / sectors_per_fat g in
  if (lo <=? q) && (q <? hi) && ((l - fat_start_lba g) mod sectors_per_fat g =? 4 * c / 512)
  then put_le32 (S l) ((4 * c) mod 512) (Z.land v FAT32_CLUSTER_MASK) else S l.

Definition set_fat (c v : Z) : (Z -> list Z) -> Z -> list Z := set_copies 0 (fat_count g) c v.

Lemma fat_lba_unique l copy c :
  is_cluster g c ->
  l = fat_lba g copy c <-> (l - fat_start_lba g) / sectors_per_fat g = copy /\
                           (l - fat_start_lba g) mod sectors_per_fat g = 4 * c / 512.
Proof.
  intros Hc. pose proof (fat_index_range g Hg c Hc) as Hi. assert (1 <= sectors_per_fat g) by (destruct Hg; lia).
  unfold fat_lba. split.
  - intros ->. replace (fat_start_lba g + copy * sectors_per_fat g + 4 * c / 512 - fat_start_lba g)
      with (4 * c / 512 + copy * sectors_per_fat g) by lia.
    rewrite Z.div_add, Z_mod_plus_full, Z.div_small, Z.mod_small by lia. lia.
  - intros [H1 H2]. pose proof (Z.div_mod (l - fat_start_lba g) (sectors_per_fat g)). nia.
Qed.

Lemma set_copies_step lo hi c v S l :
  is_cluster g c -> lo < hi ->
  set_copies (lo + 1) hi c v
    (upd (fat_lba g lo c) (put_le32 (S (fat_lba g lo c)) ((4 * c) mod 512) (Z.land v FAT32_CLUSTER_MASK)) S) l =
  set_copies lo hi c v S l.
Proof.
  intros Hc Hlt. unfold set_copies, upd. pose proof (fat_lba_unique l lo c Hc) as Hu.
  destruct (Z.eqb_spec l (fat_lba g lo c)) as [->|Hne].
  - destruct Hu as [[-> ->] _]; [done|].
    replace (lo + 1 <=? lo) with false by lia. replace (lo <=? lo) with true by lia.
    replace (lo <? hi) with true by lia. by rewrite Z.eqb_refl.
  - destruct (Z.eqb_spec ((l - fat_start_lba g) mod sectors_per_fat g) (4 * c / 512)) as [E|];
      [|by rewrite !andb_false_r].
    replace (lo + 1 <=? (l - fat_start_lba g) / sectors_per_fat g)
      with (lo <=? (l - fat_start_lba g) / sectors_per_fat g); [done|].
    assert ((l - fat_start_lba g) / sectors_per_fat g <> lo) by tauto. lia.
Qed.

Context (wr : sector_write_fn (D := D)) (HW : W = Some wr).

Lemma run_write_copies {X} c v n copy S b w (x : X) :
  is_cluster g c -> 0 <= copy -> copy + Z.of_nat n <= fat_count g ->
  exists b', run (write_fat_copies n copy (u32 (c * 4)) v) (Ast S b w x) (Some tt)
    (Ast (set_copies copy (copy + Z.of_nat n) c v S) b' w x).
Proof.
  intros Hc. revert copy S b. induction n as [|n IH]; intros copy S b H0 Hn.
  - exists b. eapply run_ext, run_ret. intros l. unfold set_copies.
    set (q := (l - fat_start_lba g) / sectors_per_fat g).
    destruct (Z.leb_spec copy q), (Z.ltb_spec q (copy + Z.of_nat 0)); cbn [andb]; try done. lia.
  - set (S1 := upd (fat_lba g copy c)
      (put_le32 (S (fat_lba g copy c)) ((4 * c) mod 512) (Z.land v FAT32_CLUSTER_MASK)) S).
    edestruct (IH (copy + 1) S1) as [b' Hb]; [lia..|]. exists b'. cbn [write_fat_copies].
    assert (Hr : 0 <= fat_lba g copy c < total_sectors g).
    { pose proof (fat_lba_range g Hg copy c Hc ltac:(lia)). pose proof (data_le_total g Hg). destruct Hg; lia. }
    apply run_wf. intros (_ & _ & HS). cbn in HS.
    apply run_get. intros fs (_ & _ & -> & _). rewrite (fat_lba_eq g Hg), (fat_offset_eq g Hg) by (done || lia).
    eapply run_bind; [by apply run_read_sector|]. apply run_get. intros fs1 (_ & _ & _ & _ & -> & _).
    eapply run_bind; [apply run_fsector; autorewrite with armonios_rw; apply HS|].
    apply run_get. intros fs2 (_ & _ & _ & _ & -> & _). cbn [a_buf].
    eapply run_bind; [eapply run_write_sector; [done..|autorewrite with armonios_rw; apply HS]|].
    eapply run_ext, Hb. intros l. rewrite <- (set_copies_step copy) by (done || lia).
    by replace (copy + Z.of_nat (Datatypes.S n)) with (copy + 1 + Z.of_nat n) by lia.
Qed.

(** A value that may be stored in the table. *)
Definition fat_value (v : Z) : Prop := v = 0 \/ cluster_is_eoc v = true \/ is_cluster g v.

Lemma run_write_fat {X} c v S b w (x : X) :
  is_cluster g c -> fat_value v ->
  exists b', run (write_fat_entry c v) (Ast S b w x) (Some tt) (Ast (set_fat c v S) b' w x).
Proof.
  intros Hc Hv. assert (1 <= fat_count g) by (destruct Hg; lia).
  destruct (run_write_copies c v (Z.to_nat (fat_count g)) 0 S b w x) as [b' Hb]; [done|lia..|].
  exists b'. apply run_get. intros fs (_ & -> & -> & _). rewrite HW, is_cluster_data by done. cbn [is_null negb orb].
  replace (_ && _) with false.
  { unfold set_fat. by replace (fat_count g) with (0 + Z.of_nat (Z.to_nat (fat_count g))) at 2 by lia. }
  symmetry. destruct Hv as [->|[->|Hv]]; [done|by rewrite andb_false_r|].
  by rewrite (is_cluster_data g Hg v Hv), !andb_false_r.
Qed.

(** ** Reading it back *)

Lemma set_copies_other lo hi c v S l :
  0 <= lo -> hi <= fat_count g -> ~ (fat_start_lba g <= l < data_start_lba g) -> set_copies lo hi c v S l = S l.
Proof.
  intros Hlo Hhi Hl. unfold set_copies. set (q := (l - fat_start_lba g) / sectors_per_fat g).
  destruct (Z.leb_spec lo q), (Z.ltb_spec q hi); try done. exfalso. apply Hl. clear Hl. destruct Hg.
  pose proof (Z.div_mod (l - fat_start_lba g) (sectors_per_fat g)).
  pose proof (Z.mod_pos_bound (l - fat_start_lba g) (sectors_per_fat g)). fold q in H1.
  rewrite gk_data0. nia.
Qed.

Lemma set_fat_other c v S l :
  ~ (fat_start_lba g <= l < data_start_lba g) -> set_fat c v S l = S l.
Proof. apply set_copies_other; lia. Qed.

Lemma set_fat_data c v S c' s :
  is_cluster g c' -> 0 <= s < sectors_per_cluster g -> set_fat c v S (data_lba g c' s) = S (data_lba g c' s).
Proof. intros Hc Hs. apply set_fat_other. pose proof (data_lba_range g Hg c' s Hc Hs). lia. Qed.

(** The same entry in copy [k]. *)
Definition fat_copy (k : Z) (S : Z -> list Z) (c : Z) : Z :=
  Z.land (le32_at (S (fat_lba g k c)) ((4 * c) mod 512)) FAT32_CLUSTER_MASK.

Lemma fat_copy_set k c v S c' :
  is_cluster g c -> is_cluster g c' -> 0 <= k < fat_count g -> (forall l, length (S l) = 512%nat) ->
  0 <= v < 2 ^ 28 ->
  fat_copy k (set_fat c v S) c' = if c' =? c then v else fat_copy k S c'.
Proof.
  intros Hc Hc' Hk HS Hv. unfold fat_copy, set_fat, set_copies.
  destruct (proj1 (fat_lba_unique (fat_lba g k c') k c' Hc') eq_refl) as [-> ->].
  replace (0 <=? k) with true by lia. replace (k <? fat_count g) with true by lia. cbn [andb].
  pose proof (fat_offset_range c). pose proof (fat_offset_range c').
  rewrite (land_mask_id v Hv).
  destruct (Z.eqb_spec c' c) as [->|Hne].
  - rewrite Z.eqb_refl, le32_put_eq by (rewrite ?HS; lia). by apply land_mask_id.
  - destruct (Z.eqb_spec (4 * c' / 512) (4 * c / 512)) as [E|]; [|done].
    rewrite le32_put_ne; [done|rewrite ?HS; try lia..].
    Z.to_euclidean_division_equations. lia.
Qed.

Lemma fat_set c v S c' :
  is_cluster g c -> is_cluster g c' -> (forall l, length (S l) = 512%nat) -> 0 <= v < 2 ^ 28 ->
  fat (set_fat c v S) c' = if c' =? c then v else fat S c'.
Proof. intros. apply fat_copy_set; try done. destruct Hg; lia. Qed.

Lemma set_fat_len c v S : (forall l, length (S l) = 512%nat) -> forall l, length (set_fat c v S l) = 512%nat.
Proof. intros HS l. unfold set_fat, set_copies. case_match; autorewrite with armonios_rw; apply HS. Qed.
End Runs.

(** * Mounting *)

(** C25: A mounted volume has a sound layout: when fat32_mount succeeds, the
    sector of every part of every cluster is computed without 32-bit overflow
    and lies between the start of the data area and the end of the volume, no
    two clusters share a sector, and the table entry of every cluster, in every
    copy of the table, lies between the reserved sectors and the data area.  A
    boot sector that does not describe such a volume is refused and leaves the
    file system unmounted. *)
Theorem fat32_mount_sound {D : Type} (fs fs' : fat32_fs D) (r : sector_reader D) (d d' : D) (status : Z)
    (Hmount : fat32_mount fs (Some r) d = (status, (fs', d'))) (Hbytes : is_bytes (sector fs')) :
  if status =? 0 then
    mounted fs' = true /\ reader fs' = Some r /\ writer fs' = None /\
    cluster_is_data (geo fs') (root_cluster (geo fs')) = true /\
    (forall c s c2 s2, is_cluster (geo fs') c -> 0 <= s < sectors_per_cluster (geo fs') ->
       let lba := u32 (cluster_to_lba (geo fs') c + s) in
       lba = data_start_lba (geo fs') + (c - 2) * sectors_per_cluster (geo fs') + s /\
       data_start_lba (geo fs') <= lba < total_sectors (geo fs') /\
       (is_cluster (geo fs') c2 -> 0 <= s2 < sectors_per_cluster (geo fs') ->
          u32 (cluster_to_lba (geo fs') c2 + s2) = lba -> c2 = c /\ s2 = s)) /\
    (forall c k, is_cluster (geo fs') c -> 0 <= k < fat_count (geo fs') ->
       let lba := u32 (u32 (fat_start_lba (geo fs') + u32 (k * sectors_per_fat (geo fs'))) +
                       u32 (c * 4) / FAT32_SECTOR_SIZE) in
       fat_start_lba (geo fs') <= lba < data_start_lba (geo fs') /\ u32 (c * 4) mod FAT32_SECTOR_SIZE <= 508)
  else status = -1 /\ mounted fs' = false.
Proof.
  unfold fat32_mount in Hmount.
  set (fs0 := FatFs (Some r) None (geo fs) (sector fs) (write_sector_buffer fs) false false) in Hmount.
  assert (Hrs : forall o st, read_sector 0 (fs0, d, tt) = (o, st) ->
    reader (fst (fst st)) = Some r /\ writer (fst (fst st)) = None /\ mounted (fst (fst st)) = false).
  { intros o st. unfold read_sector, fbind, fget, load_sector. cbn. destruct (call_reader _ _ _ _) as [[? ?] ?].
    by intros [= <- <-]. }
  destruct (read_sector 0 (fs0, d, tt)) as [ok [[fs1 d1] x1]] eqn:Er.
  destruct (Hrs _ _ eq_refl) as (Hr & Hw & Hm). cbn [fst] in *.
  destruct ok as [u|]; [|injection Hmount as <- <- <-; split; done].
  destruct (boot_geometry (sector fs1)) as [g|] eqn:Eg; [|injection Hmount as <- <- <-; split; done].
  injection Hmount as <- <- _. cbn [sector mounted reader writer geo] in *. cbn [Z.eqb].
  pose proof (boot_geometry_ok _ _ Hbytes Eg) as Hg.
  split; [done|]. split; [done|]. split; [done|].
  split; [apply is_cluster_data; [done|]; unfold is_cluster; by destruct Hg|]. split.
  - intros c s c2 s2 Hc Hs. cbv zeta. rewrite (cluster_to_lba_eq g Hg) by done. split; [done|].
    split; [by apply data_lba_range|]. intros Hc2 Hs2. rewrite (cluster_to_lba_eq g Hg) by done.
    intros E. by apply data_lba_inj in E.
  - intros c k Hc Hk. cbv zeta. rewrite (fat_lba_eq g Hg), (fat_offset_eq g Hg) by done.
    split; [by apply fat_lba_range|]. pose proof (fat_offset_range c). lia.
Qed.

(** * The RAM disk is a working disk *)

Section Ram.
Context (blocks : Z).

Lemma ram_read_one lba buf (d : ramdisk) :
  0 <= lba < blocks -> length buf = 512%nat -> length (ram_block d lba) = 512%nat ->
  fat32_device_read_sector (ram_device blocks) lba buf d = (0, ram_block d lba, d).
Proof.
  intros Hl Hb Hd. unfold fat32_device_read_sector, block_device_read, block_device_range_valid.
  cbn [ram_device bd_read bd_block_count bd_block_size is_null orb].
  rewrite (proj2 (Z.eqb_neq blocks 0)) by lia. cbn [Z.eqb orb]. replace (lba <? blocks) with true by lia.
  replace (1 <=? blocks - lba) with true by lia. cbn [andb negb orb]. unfold ram_read.
  rewrite for_range_step, for_range_empty by lia. rewrite Z.add_0_r. unfold from_option, id. f_equal. f_equal.
  destruct (copy_bytes_spec buf (512 * 0) (ram_block d lba) 0 512) as [L H]; [lia..|].
  apply bytes_ext; [congruence|]. intros j Hj. rewrite H by lia.
  replace ((512 * 0 <=? j) && (j <? 512 * 0 + 512)) with true by lia. f_equal. lia.
Qed.

Lemma ram_write_one lba buf (d : ramdisk) :
  0 <= lba < blocks -> length buf = 512%nat ->
  fat32_device_write_sector (ram_device blocks) lba buf d = (0, <[lba := buf]> d).
Proof.
  intros Hl Hb. unfold fat32_device_write_sector, block_device_write, block_device_range_valid.
  cbn [ram_device bd_read bd_write bd_flags bd_block_count bd_block_size is_null orb].
  rewrite (proj2 (Z.eqb_neq blocks 0)) by lia. cbn [Z.eqb orb]. replace (lba <? blocks) with true by lia.
  replace (1 <=? blocks - lba) with true by lia. cbn [andb negb orb read_only_flag has_bits Z.land Z.eqb]. unfold ram_write.
  rewrite for_range_step, for_range_empty by lia. rewrite Z.add_0_r.
  change (Z.to_nat (512 * 0)) with 0%nat. rewrite drop_0. by rewrite take_ge by lia.
Qed.

#[export, program] Instance ram_good : GoodDisk (ReadDevice (ram_device blocks))
    (Some (fat32_device_write_sector (ram_device blocks))) blocks := {|
  contents := ram_block;
  disk_ok d := map_Forall (fun _ b => length b = 512%nat) d |}.
Next Obligation.
  intros d lba Hd. unfold ram_block. destruct (d !! lba) as [v|] eqn:E; [by apply (Hd lba)|done].
Qed.
Next Obligation.
  intros d lba buf Hd Hl Hb. exists d. split; [|done]. apply ram_read_one; [done..|].
  unfold ram_block. destruct (d !! lba) as [v|] eqn:E; [by apply (Hd lba)|done].
Qed.
Next Obligation.
  intros w d lba buf [= <-] Hd Hl Hb. exists (<[lba := buf]> d). rewrite ram_write_one by done. split; [done|].
  split; [by apply map_Forall_insert_2|]. intros k. unfold ram_block. destruct (Z.eqb_spec k lba) as [->|Hne].
  - exact (f_equal (default _) (lookup_insert_eq (M := gmap Z) d lba buf)).
  - apply (f_equal (default _)). by apply (lookup_insert_ne (M := gmap Z)).
Qed.
End Ram.
