(* ===== verification/Fat32Alloc.v ===== *)
(** Cluster allocation of the FAT32 driver over a working disk: chains,
    allocate_cluster, free_cluster_chain and file_chain_capacity. *)

From S2P Require Import Prelude.
From S2P Require Import Bytes.
From S2P Require Import Block.
From S2P Require Import Fat32.
From S2P Require Import Fat32Disk.
Open Scope arm.

Section Alloc.
Context {D : Type} (R : sector_reader D) (wr : sector_write_fn (D := D)) (g : geometry).
Context `{!GoodDisk R (Some wr) (total_sectors g)} (Hg : geo_ok g).
Implicit Types (S : Z -> list Z) (b w : list Z).
Abbreviation run := (run R (Some wr) g).
Abbreviation fat := (fat g).
Abbreviation is_cluster := (is_cluster g).
Abbreviation set_fat := (set_fat g).

(** The allocation table is mirrored and addressed exactly: storing a legal
    value with write_fat_entry succeeds, sets that entry in every copy of the
    table, leaves every other entry of every copy and every sector outside the
    table as it was, and read_fat_entry then returns the stored value. *)
Theorem fat_entry_roundtrip {X : Type} (S : Z -> list Z) (b w : list Z) (x : X) (c v : Z)
    (Hc : is_cluster c) (Hv : fat_value g v) (Hr : v < 2 ^ 28) (Hlen : forall l, length (S l) = 512%nat) :
  exists S' b',
    run (write_fat_entry c v) (Ast S b w x) (Some tt) (Ast S' b' w x) /\
    run (read_fat_entry c false) (Ast S' b' w x) (Some v) (Ast S' (S' (fat_lba g 0 c)) w x) /\
    (forall k c', 0 <= k < fat_count g -> is_cluster c' ->
       fat_copy g k S' c' = if c' =? c then v else fat_copy g k S c') /\
    (forall l, ~ (fat_start_lba g <= l < data_start_lba g) -> S' l = S l).
Proof.
  assert (0 <= v).
  { destruct Hv as [->|[He|Hv]]; [done| |]; [|destruct Hv; lia].
    rewrite cluster_is_eoc_spec in He. apply Z.leb_le in He. unfold FAT32_CLUSTER_EOC in He. lia. }
  destruct (run_write_fat R (Some wr) g Hg wr eq_refl c v S b w x Hc Hv) as [b' Hb].
  exists (set_fat c v S), b'. split_and!.
  - done.
  - replace (Some v) with (fat_result g false (fat (set_fat c v S) c)); [by apply run_read_fat|].
    rewrite fat_set, Z.eqb_refl by done. unfold fat_result. cbn [andb]. rewrite orb_false_r.
    destruct (Z.eqb_spec v FAT32_CLUSTER_BAD) as [->|]; [|done].
    destruct Hv as [?|[?|Hv]]; [discriminate..|]. by destruct (is_cluster_not_eoc g Hg _ Hv) as (_ & ? & _).
  - intros k c' Hk Hc'. by apply fat_copy_set.
  - intros l. by apply set_fat_other.
Qed.

(** * Allocation *)

(** The scan of find_free_cluster stops at a free entry and also at one
    marked bad, which it takes for a read error. *)
Definition scan_stop S (c : Z) : bool := (fat S c =? 0) || (fat S c =? FAT32_CLUSTER_BAD).
Definition scan_free S (c : Z) : option Z :=
  match find_range c (cluster_count g + 2) (scan_stop S) with
  | Some c => if fat S c =? 0 then Some c else None
  | None => None
  end.

Lemma find_range_cons lo hi p : lo < hi ->
  find_range lo hi p = if p lo then Some lo else find_range (lo + 1) hi p.
Proof.
  intros. unfold find_range. rewrite (seqZ_cons lo) by lia. unfold find_list. rewrite filter_cons.
  replace (Z.pred (hi - lo)) with (hi - (lo + 1)) by lia. replace (Z.succ lo) with (lo + 1) by lia.
  by destruct (p lo).
Qed.

Lemma run_find_free {X} n c S b w (x : X) :
  2 <= c -> c + Z.of_nat n = cluster_count g + 2 ->
  exists b', run (find_free_loop n c) (Ast S b w x) (Some (default 0 (scan_free S c))) (Ast S b' w x).
Proof.
  revert c b. induction n as [|n IH]; intros c b Hc Hn.
  - exists b. unfold scan_free, find_range. rewrite seqZ_nil by lia. apply run_ret.
  - assert (Hcl : is_cluster c) by (unfold Fat32Disk.is_cluster; lia).
    unfold scan_free. rewrite find_range_cons by lia. unfold scan_stop at 1.
    pose proof (run_read_fat R (Some wr) g Hg c false S b w x Hcl) as Hr. unfold fat_result in Hr.
    cbn [andb] in Hr. rewrite orb_false_r in Hr.
    destruct (Z.eqb_spec (fat S c) 0) as [E|E].
    + rewrite E in Hr. cbn [orb]. eexists. cbn [find_free_loop].
      eapply run_bind; [apply run_try, Hr|]. cbn. rewrite E. apply run_ret.
    + destruct (Z.eqb_spec (fat S c) FAT32_CLUSTER_BAD) as [Eb|Eb]; cbn [orb] in *.
      * eexists. cbn [find_free_loop]. eapply run_bind; [apply run_try, Hr|].
        destruct (Z.eqb_spec (fat S c) 0); [done|]. apply run_ret.
      * destruct (IH (c + 1) (S (fat_lba g 0 c))) as [b' Hb]; [lia..|]. exists b'. cbn [find_free_loop].
        eapply run_bind; [apply run_try, Hr|]. cbn beta iota.
        destruct (Z.eqb_spec (fat S c) 0); [done|]. apply Hb.
Qed.

Lemma run_find_free_cluster {X} S b w (x : X) :
  exists b', run find_free_cluster (Ast S b w x) (Some (default 0 (scan_free S 2))) (Ast S b' w x).
Proof.
  assert (1 <= cluster_count g) by (destruct Hg; lia).
  destruct (run_find_free (Z.to_nat (cluster_count g)) 2 S b w x) as [b' Hb]; [lia..|].
  exists b'. apply run_get. intros fs (_ & _ & -> & _). apply Hb.
Qed.

Lemma scan_free_Some S c :
  scan_free S 2 = Some c -> is_cluster c /\ fat S c = 0 /\ forall c', 2 <= c' < c -> fat S c' <> 0.
Proof.
  unfold scan_free. destruct (find_range _ _ _) as [c'|] eqn:E; [|done].
  apply find_range_Some in E as (Hr & Hs & Hb). destruct (Z.eqb_spec (fat S c') 0); [|done]. intros [= <-].
  split_and!; [done..|]. intros c Hc. specialize (Hb c Hc). unfold scan_stop in Hb. b2p. done.
Qed.

Lemma scan_free_first S c :
  is_cluster c -> fat S c = 0 -> (forall c', 2 <= c' < c -> fat S c' <> 0 /\ fat S c' <> FAT32_CLUSTER_BAD) ->
  scan_free S 2 = Some c.
Proof.
  intros Hc Hf Hb. unfold scan_free. rewrite (find_range_first _ _ _ c); [by rewrite Hf|done| |].
  - unfold scan_stop. by rewrite Hf.
  - intros c' Hc'. unfold scan_stop. destruct (Hb c' Hc').
    by rewrite (proj2 (Z.eqb_neq _ _)), (proj2 (Z.eqb_neq _ _)).
Qed.

(** The table after [new] was allocated behind [prev] (0 for none). *)
Definition alloc_fat (prev new : Z) S : Z -> list Z :=
  set_fat new FAT32_CLUSTER_EOC (if prev =? 0 then S else set_fat prev new S).

Definition chain_tail S (prev : Z) : Prop := prev = 0 \/ is_cluster prev /\ cluster_is_eoc (fat S prev) = true.

Lemma run_allocate {X} prev c S b w (x : X) :
  chain_tail S prev -> scan_free S 2 = Some c ->
  exists b', run (allocate_cluster prev) (Ast S b w x) (Some c) (Ast (alloc_fat prev c S) b' w x).
Proof.
  intros Hp Hs. destruct (run_find_free_cluster S b w x) as [b1 H1]. rewrite Hs in H1. change (default 0 (Some c)) with c in H1.
  apply scan_free_Some in Hs as (Hc & _ & _).
  assert (Hc0 : (c =? 0) = false) by (destruct Hc; lia).
  destruct Hp as [->|[Hcp Hep]].
  - destruct (run_write_fat R (Some wr) g Hg wr eq_refl c FAT32_CLUSTER_EOC S b1 w x Hc) as [b2 H2]; [by right; left|].
    exists b2. eapply run_bind; [apply H1|]. cbn beta. rewrite Hc0. cbn [negb Z.eqb].
    eapply run_bind; [apply H2|]. apply run_ret.
  - pose proof (run_read_fat R (Some wr) g Hg prev true S b1 w x Hcp) as H2.
    rewrite fat_result_eoc in H2 by done.
    destruct (run_write_fat R (Some wr) g Hg wr eq_refl prev c S (S (fat_lba g 0 prev)) w x Hcp) as [b3 H3];
      [by right; right|].
    destruct (run_write_fat R (Some wr) g Hg wr eq_refl c FAT32_CLUSTER_EOC (set_fat prev c S) b3 w x Hc)
      as [b4 H4]; [by right; left|].
    exists b4. eapply run_bind; [apply H1|]. cbn beta. rewrite Hc0.
    assert ((prev =? 0) = false) as Hp0 by (destruct Hcp; lia). unfold alloc_fat. rewrite Hp0. cbn [negb].
    eapply run_bind; [apply H2|]. rewrite Hep. cbn [negb].
    eapply run_bind; [apply H3|]. eapply run_bind; [apply H4|]. apply run_ret.
Qed.

Lemma run_allocate_full {X} prev S b w (x : X) :
  scan_free S 2 = None -> exists b', run (allocate_cluster prev) (Ast S b w x) None (Ast S b' w x).
Proof.
  intros Hs. destruct (run_find_free_cluster S b w x) as [b1 H1]. rewrite Hs in H1. exists b1.
  eapply run_bind; [apply H1|]. apply run_fail.
Qed.

Lemma alloc_fat_spec prev c S c' :
  (forall l, length (S l) = 512%nat) -> chain_tail S prev -> is_cluster c -> is_cluster c' ->
  fat (alloc_fat prev c S) c' =
  if c' =? c then FAT32_CLUSTER_EOC else if c' =? prev then c else fat S c'.
Proof.
  intros HS Hp Hc Hc'. unfold alloc_fat. destruct (is_cluster_not_eoc g Hg c Hc) as (_ & _ & Hr).
  rewrite fat_set; [|done..|by destruct (prev =? 0); [|apply set_fat_len]|done].
  destruct (c' =? c); [done|]. destruct Hp as [->|[Hp _]].
  - cbn. destruct (Z.eqb_spec c' 0); [|done]. destruct Hc'. lia.
  - rewrite (proj2 (Z.eqb_neq prev 0)) by (destruct Hp; lia). by rewrite fat_set.
Qed.

(** allocate_cluster takes the lowest free cluster: when no entry below it
    is marked bad, the new cluster becomes the end of the chain it is linked
    behind (or a chain of its own), every other entry of the table is kept,
    and nothing outside the table is written.  When no cluster is free the
    call fails and the disk is as it was. *)
Theorem allocate_cluster_lowest {X : Type} (S : Z -> list Z) (b w : list Z) (x : X) (prev : Z)
    (Hlen : forall l, length (S l) = 512%nat) (Hprev : chain_tail S prev) :
  (forall c, is_cluster c -> fat S c = 0 ->
     (forall c', 2 <= c' < c -> fat S c' <> 0 /\ fat S c' <> FAT32_CLUSTER_BAD) ->
     exists S' b', run (allocate_cluster prev) (Ast S b w x) (Some c) (Ast S' b' w x) /\
       (forall c', is_cluster c' -> fat S' c' =
          if c' =? c then FAT32_CLUSTER_EOC else if c' =? prev then c else fat S c') /\
       (forall l, ~ (fat_start_lba g <= l < data_start_lba g) -> S' l = S l)) /\
  ((forall c, is_cluster c -> fat S c <> 0) ->
     exists b', run (allocate_cluster prev) (Ast S b w x) None (Ast S b' w x)).
Proof.
  split.
  - intros c Hc Hf Hb. pose proof (scan_free_first S c Hc Hf Hb) as Hs.
    destruct (run_allocate prev c S b w x Hprev Hs) as [b' Hr].
    exists (alloc_fat prev c S), b'. split_and!; [done| |].
    + intros c' Hc'. by apply alloc_fat_spec.
    + intros l Hl. unfold alloc_fat. rewrite set_fat_other by done.
      destruct (prev =? 0); [done|]. by apply set_fat_other.
  - intros Hfull. apply run_allocate_full. destruct (scan_free S 2) as [c|] eqn:E; [|done].
    apply scan_free_Some in E as (Hc & Hf & _). by destruct (Hfull c Hc).
Qed.

(** The table entry carries the bad-cluster mark. *)
Definition marked_bad S (c : Z) : Prop := fat S c = FAT32_CLUSTER_BAD.

(** One bad cluster disables allocation: when an entry below the first free
    cluster carries the bad-cluster mark, the scan takes it for a read error
    and allocation fails although a free cluster exists. *)
Theorem bad_cluster_blocks_allocation {X : Type} (S : Z -> list Z) (b w : list Z) (x : X) (prev bad : Z)
    (Hbad : is_cluster bad) (Hmark : marked_bad S bad)
    (Hfirst : forall c, 2 <= c < bad -> fat S c <> 0) :
  exists b', run (allocate_cluster prev) (Ast S b w x) None (Ast S b' w x).
Proof.
  unfold marked_bad in Hmark. apply run_allocate_full. unfold scan_free.
  destruct (find_range_is_Some 2 (cluster_count g + 2) (scan_stop S) bad) as (c & E & Hle); [done| |].
  { unfold scan_stop. by rewrite Hmark. }
  rewrite E. destruct (Z.eqb_spec (fat S c) 0) as [E0|]; [|done].
  destruct (decide (c = bad)) as [->|Hne]; [by rewrite Hmark in E0|].
  apply find_range_Some in E as (Hc & _ & _). destruct (Hfirst c); [lia|done].
Qed.

(** * Chains *)

(** [l] is a chain of the table: each entry links to the next cluster and the
    last one ends the chain. *)
Fixpoint chain S (l : list Z) : Prop :=
  match l with
  | [] => False
  | c :: rest =>
      is_cluster c /\
      match rest with
      | [] => cluster_is_eoc (fat S c) = true
      | c' :: _ => fat S c = c' /\ chain S rest
      end
  end.

Lemma chain_cluster S l c : chain S l -> c ∈ l -> is_cluster c.
Proof.
  induction l as [|a l IH]; [done|]. intros [Ha Hl] [->|Hc]%elem_of_cons; [done|].
  destruct l; [by apply elem_of_nil in Hc|]. by apply IH; [apply Hl|].
Qed.

Lemma chain_det S c l1 l2 : chain S (c :: l1) -> chain S (c :: l2) -> l1 = l2.
Proof.
  revert c l2. induction l1 as [|a l1 IH]; intros c l2 [Hc H1] [_ H2].
  - destruct l2 as [|a l2]; [done|]. destruct H2 as [E Hl2]. exfalso.
    pose proof (chain_cluster S (a :: l2) a Hl2 ltac:(set_solver)) as Ha.
    destruct (is_cluster_not_eoc g Hg a Ha) as [He _]. rewrite E in H1. congruence.
  - destruct H1 as [E Hl1]. destruct l2 as [|a' l2].
    + exfalso. pose proof (chain_cluster S (a :: l1) a Hl1 ltac:(set_solver)) as Ha.
      destruct (is_cluster_not_eoc g Hg a Ha) as [He _]. rewrite E in H2. congruence.
    + destruct H2 as [E' Hl2]. assert (a' = a) as -> by congruence. f_equal. by apply (IH a).
Qed.

Lemma chain_suffix S l1 l2 : l2 <> [] -> chain S (l1 ++ l2) -> chain S l2.
Proof.
  intros Hne. induction l1 as [|a l1 IH]; [done|]. intros [_ Hl]. apply IH.
  destruct (l1 ++ l2) eqn:E; [|by destruct Hl]. by destruct l1, l2.
Qed.

(** A chain cannot visit a cluster twice. *)
Lemma chain_NoDup S l : chain S l -> NoDup l.
Proof.
  induction l as [|a l IH]; [constructor|]. intros H. constructor.
  - intros Hin. apply list_elem_of_split in Hin as (l1 & l2 & ->).
    pose proof (chain_suffix S (a :: l1) (a :: l2) ltac:(done) H) as H2.
    pose proof (chain_det S a _ _ H H2) as E. apply (f_equal length) in E.
    rewrite length_app in E. cbn in E. lia.
  - destruct l; [constructor|]. apply IH, H.
Qed.

(** So it is no longer than the number of clusters, which bounds the loops. *)
Lemma chain_length S l : chain S l -> Z.of_nat (length l) <= cluster_count g.
Proof.
  intros H. pose proof (chain_NoDup S l H) as Hn. assert (0 <= cluster_count g) by (destruct Hg; lia).
  assert (Hsub : l ⊆ seqZ 2 (cluster_count g)).
  { intros c Hc. apply elem_of_seqZ. pose proof (chain_cluster S l c H Hc) as []. lia. }
  pose proof (NoDup_submseteq _ _ Hn Hsub) as Hs. apply submseteq_length in Hs. rewrite length_seqZ in Hs. lia.
Qed.

(** Chains depend on the entries of their clusters only. *)
Lemma chain_ext S S' l : (forall c, c ∈ l -> fat S' c = fat S c) -> chain S l -> chain S' l.
Proof.
  induction l as [|a l IH]; [done|]. intros He [Ha Hl]. split; [done|].
  rewrite (He a) by set_solver. destruct l; [done|]. destruct Hl as [? Hl]. split; [done|].
  apply IH; [|done]. intros c Hc. apply He. set_solver.
Qed.

(** ** Freeing *)

(** The table with the entries of [l] cleared. *)
Definition clear_fat l S : Z -> list Z := foldl (fun S c => set_fat c 0 S) S l.

Lemma clear_fat_len l S : (forall k, length (S k) = 512%nat) -> forall k, length (clear_fat l S k) = 512%nat.
Proof. revert S. induction l as [|c l IH]; intros S HS; [done|]. apply IH. by apply set_fat_len. Qed.

Lemma clear_fat_spec l S c :
  (forall k, length (S k) = 512%nat) -> (forall c, c ∈ l -> is_cluster c) -> is_cluster c ->
  fat (clear_fat l S) c = if bool_decide (c ∈ l) then 0 else fat S c.
Proof.
  intros HS Hl Hc. revert S HS. induction l as [|a l IH]; intros S HS; [done|].
  change (clear_fat (a :: l) S) with (clear_fat l (set_fat a 0 S)). rewrite IH; [|set_solver|by apply set_fat_len]. rewrite fat_set by (done || set_solver || lia).
  destruct (Z.eqb_spec c a) as [->|Hne].
  - rewrite (bool_decide_eq_true_2 (a ∈ a :: l)) by set_solver. by destruct (bool_decide _).
  - case_bool_decide; case_bool_decide; set_solver.
Qed.

Lemma clear_fat_other l S k : ~ (fat_start_lba g <= k < data_start_lba g) -> clear_fat l S k = S k.
Proof. intros Hk. revert S. induction l as [|a l IH]; intros S; [done|].
  change (clear_fat (a :: l) S) with (clear_fat l (set_fat a 0 S)). rewrite IH. by apply set_fat_other. Qed.

Lemma run_free_chain {X} n l c S b w (x : X) :
  (forall k, length (S k) = 512%nat) -> chain S (c :: l) -> (length l < n)%nat ->
  exists b', run (free_chain_loop n c) (Ast S b w x) (Some tt) (Ast (clear_fat (c :: l) S) b' w x).
Proof.
  revert n c S b. induction l as [|a l IH]; intros [|n] c S b HS Hch Hn; cbn in Hn; try lia.
  all: pose proof (chain_NoDup _ _ Hch) as Hnd; destruct Hch as [Hc Hch].
  all: pose proof (run_read_fat R (Some wr) g Hg c true S b w x Hc) as H1.
  all: destruct (run_write_fat R (Some wr) g Hg wr eq_refl c 0 S (S (fat_lba g 0 c)) w x Hc (or_introl eq_refl)) as [b2 H2].
  - rewrite fat_result_eoc in H1 by done. exists b2. cbn [free_chain_loop].
    apply run_get. intros fs (_ & _ & -> & _). rewrite is_cluster_data by done. cbn [negb].
    eapply run_bind; [apply H1|]. eapply run_bind; [apply H2|]. rewrite Hch. apply run_ret.
  - destruct Hch as [E Hch]. assert (Ha : is_cluster a) by (apply (chain_cluster S (a :: l)); [done|set_solver]).
    rewrite E, fat_result_link in H1 by done.
    destruct (IH n a (set_fat c 0 S) b2) as [b3 H3]; [by apply set_fat_len| |lia|].
    { apply (chain_ext S); [|done]. intros c' Hc'. rewrite fat_set by (done || lia || by eapply chain_cluster).
      destruct (Z.eqb_spec c' c) as [->|]; [|done]. by apply NoDup_cons in Hnd as []. }
    exists b3. cbn [free_chain_loop].
    apply run_get. intros fs (_ & _ & -> & _). rewrite is_cluster_data by done. cbn [negb].
    eapply run_bind; [apply H1|]. eapply run_bind; [apply H2|].
    destruct (is_cluster_not_eoc g Hg a Ha) as [-> _]. apply H3.
Qed.

(** free_cluster_chain releases a chain and nothing else: on the head of a
    chain it runs to the end within its budget of cluster_count steps, every
    cluster of the chain becomes free, every other table entry keeps its
    value, and no sector outside the table changes. *)
Theorem free_cluster_chain_exact {X : Type} (S : Z -> list Z) (b w : list Z) (x : X) (c : Z) (l : list Z)
    (Hlen : forall k, length (S k) = 512%nat) (Hchain : chain S (c :: l)) :
  exists S' b', run (free_cluster_chain c) (Ast S b w x) (Some tt) (Ast S' b' w x) /\
    (forall c', is_cluster c' -> fat S' c' = if bool_decide (c' ∈ c :: l) then 0 else fat S c') /\
    (forall k, ~ (fat_start_lba g <= k < data_start_lba g) -> S' k = S k).
Proof.
  pose proof (chain_length _ _ Hchain) as Hn. cbn in Hn.
  destruct (run_free_chain (Z.to_nat (cluster_count g)) l c S b w x Hlen Hchain) as [b' H]; [lia|].
  exists (clear_fat (c :: l) S), b'. split_and!.
  - apply run_get. intros fs (_ & _ & -> & _). apply H.
  - intros c' Hc'. apply clear_fat_spec; [done| |done]. intros a Ha. by eapply chain_cluster.
  - intros k. apply clear_fat_other.
Qed.

(** ** Capacity *)

Lemma run_chain_capacity {X} n l c total S b w (x : X) :
  chain S (c :: l) -> (length l < n)%nat ->
  total + Z.of_nat (Datatypes.S (length l)) * cluster_bytes g <= UINT32_MAX ->
  exists b', run (chain_capacity_loop n c total (cluster_bytes g)) (Ast S b w x)
    (Some (total + Z.of_nat (Datatypes.S (length l)) * cluster_bytes g)) (Ast S b' w x).
Proof.
  assert (0 < cluster_bytes g) by (unfold cluster_bytes, FAT32_SECTOR_SIZE; destruct Hg; lia).
  revert n c total b. induction l as [|a l IH]; intros [|n] c total b Hch Hn Hmax; cbn in Hn; try lia.
  all: destruct Hch as [Hc Hch]; pose proof (run_read_fat R (Some wr) g Hg c true S b w x Hc) as H1.
  all: cbn [chain_capacity_loop].
  - rewrite fat_result_eoc in H1 by done. exists (S (fat_lba g 0 c)). cbn [length] in *.
    destruct (Z.gtb_spec (total + cluster_bytes g) UINT32_MAX); [lia|].
    eapply run_bind; [apply H1|]. rewrite Hch. replace (total + Z.of_nat 1 * cluster_bytes g) with (total + cluster_bytes g) by lia. apply run_ret.
  - destruct Hch as [E Hch]. assert (Ha : is_cluster a) by (apply (chain_cluster S (a :: l)); [done|set_solver]).
    rewrite E, fat_result_link in H1 by done. cbn [length] in *.
    destruct (IH n a (total + cluster_bytes g) (S (fat_lba g 0 c))) as [b' H2]; [done|lia|lia|].
    exists b'. destruct (Z.gtb_spec (total + cluster_bytes g) UINT32_MAX); [lia|].
    eapply run_bind; [apply H1|]. destruct (is_cluster_not_eoc g Hg a Ha) as [-> _].
    replace (total + Z.of_nat (Datatypes.S (Datatypes.S (length l))) * cluster_bytes g) with (total + cluster_bytes g + Z.of_nat (Datatypes.S (length l)) * cluster_bytes g) by lia.
    apply H2.
Qed.

Lemma run_file_capacity {X} l c S b w (x : X) :
  chain S (c :: l) -> Z.of_nat (length (c :: l)) * cluster_bytes g <= UINT32_MAX ->
  exists b', run (file_chain_capacity c) (Ast S b w x)
    (Some (Z.of_nat (length (c :: l)) * cluster_bytes g)) (Ast S b' w x).
Proof.
  intros Hch Hmax. pose proof (chain_length _ _ Hch) as Hn. cbn in Hn.
  destruct (run_chain_capacity (Z.to_nat (cluster_count g)) l c 0 S b w x Hch) as [b' H]; [lia|cbn in *; lia|].
  exists b'. apply run_get. intros fs (_ & _ & -> & _). rewrite is_cluster_data by (done || apply Hch). cbn [negb].
  rewrite u32_id; [apply H|]. destruct Hg. unfold FAT32_SECTOR_SIZE. lia.
Qed.

(** ** Free clusters *)

(** The free clusters, lowest first. *)
Definition free_list S : list Z := filter (fun c => fat S c = 0) (seqZ 2 (cluster_count g)).

(** No cluster carries the bad-cluster mark. *)
Definition no_bad S : Prop := forall c, is_cluster c -> fat S c <> FAT32_CLUSTER_BAD.

Lemma free_list_spec S c : c ∈ free_list S <-> is_cluster c /\ fat S c = 0.
Proof.
  unfold free_list, Fat32Disk.is_cluster. rewrite list_elem_of_filter, elem_of_seqZ. intuition lia.
Qed.

Lemma free_list_ext S S' : (forall c, is_cluster c -> fat S' c = fat S c) -> free_list S' = free_list S.
Proof.
  intros He. apply filter_agree. intros c Hc%elem_of_seqZ. rewrite He; [done|].
  unfold Fat32Disk.is_cluster. lia.
Qed.

Lemma chain_not_free S l c : chain S l -> c ∈ l -> fat S c <> 0.
Proof.
  induction l as [|a l IH]; [done|]. intros [Ha Hl] [->|Hc]%elem_of_cons.
  - destruct l as [|c' l]; [by intros E; rewrite E in Hl|]. destruct Hl as [-> Hl].
    assert (is_cluster c') as [] by apply Hl. lia.
  - destruct l; [by apply elem_of_nil in Hc|]. by apply IH; [apply Hl|].
Qed.

Lemma scan_free_head S : no_bad S -> scan_free S 2 = head (free_list S).
Proof.
  intros Hb. unfold scan_free, free_list, find_range, find_list.
  replace (cluster_count g + 2 - 2) with (cluster_count g) by lia.
  rewrite (filter_agree (fun c => Is_true (scan_stop S c)) (fun c => fat S c = 0)).
  - destruct (filter _ _) as [|c fl] eqn:E; [done|]. cbn.
    assert (c ∈ filter (fun c => fat S c = 0) (seqZ 2 (cluster_count g))) as [-> _]%list_elem_of_filter
      by (rewrite E; set_solver). done.
  - intros c Hc%elem_of_seqZ. unfold scan_stop. specialize (Hb c ltac:(unfold Fat32Disk.is_cluster; lia)).
    destruct (Z.eqb_spec (fat S c) 0) as [E|E]; [done|].
    rewrite (proj2 (Z.eqb_neq _ _) Hb). done.
Qed.

Lemma free_list_alloc S prev n fl :
  (forall k, length (S k) = 512%nat) -> chain_tail S prev -> free_list S = n :: fl ->
  free_list (alloc_fat prev n S) = fl.
Proof.
  intros HS Hp Hf. assert (Hn : is_cluster n /\ fat S n = 0) by (apply free_list_spec; rewrite Hf; set_solver).
  assert (Hnd : NoDup (n :: fl)) by (rewrite <- Hf; apply NoDup_filter, NoDup_seqZ).
  apply NoDup_cons in Hnd as [Hni _].
  transitivity (filter (fun c => c <> n) (n :: fl)).
  - rewrite <- Hf. unfold free_list. rewrite list_filter_filter. apply filter_agree.
    intros c Hc%elem_of_seqZ. assert (Hcl : is_cluster c) by (unfold Fat32Disk.is_cluster; lia).
    rewrite alloc_fat_spec by (done || apply Hn).
    destruct (Z.eqb_spec c n) as [->|]; [split; [done|by intros []]|].
    destruct (Z.eqb_spec c prev) as [->|]; [|tauto].
    destruct Hp as [->|[_ He]]; [by destruct Hcl|].
    destruct Hn as [[] _]. split; [lia|]. intros [_ E]. by rewrite E in He.
  - rewrite filter_cons_False by (intros []; done). apply filter_keep. set_solver.
Qed.

Lemma no_bad_alloc S prev n :
  (forall k, length (S k) = 512%nat) -> chain_tail S prev -> is_cluster n -> no_bad S -> no_bad (alloc_fat prev n S).
Proof.
  intros HS Hp Hn Hb c Hc. rewrite alloc_fat_spec by done. destruct (c =? n); [done|].
  destruct (c =? prev); [by destruct (is_cluster_not_eoc g Hg n Hn) as (_ & ? & _)|by apply Hb].
Qed.

Lemma alloc_fat_len prev n S : (forall k, length (S k) = 512%nat) -> forall k, length (alloc_fat prev n S k) = 512%nat.
Proof. intros HS. apply set_fat_len. destruct (prev =? 0); [done|]. by apply set_fat_len. Qed.

Lemma alloc_fat_other prev n S k : ~ (fat_start_lba g <= k < data_start_lba g) -> alloc_fat prev n S k = S k.
Proof.
  intros Hk. unfold alloc_fat. rewrite set_fat_other by done.
  destruct (prev =? 0); [done|]. by apply set_fat_other.
Qed.

(** Replacing the tail of a chain. *)
Lemma chain_glue S S' l1 c l2 l2' :
  chain S (l1 ++ c :: l2) -> (forall a, a ∈ l1 -> fat S' a = fat S a) -> chain S' (c :: l2') ->
  chain S' (l1 ++ c :: l2').
Proof.
  intros H He H'. induction l1 as [|a l1 IH]; [done|]. destruct H as [Ha H]. split; [done|].
  cbn [app] in *. specialize (He a ltac:(set_solver)) as Ea.
  assert (IH' : chain S (l1 ++ c :: l2) -> chain S' (l1 ++ c :: l2')).
  { intros Hc. apply IH; [done|]. intros a' Ha'. apply He. set_solver. }
  clear IH. destruct l1 as [|a1 l1]; cbn [app] in *; destruct H as [E H]; rewrite Ea; auto.
Qed.
End Alloc.
