(* ===== verification/Fat32Files.v ===== *)
(** File contents of the FAT32 driver over a working disk: fat32_read and
    fat32_write against the bytes of the file's cluster chain. *)

From S2P Require Import Prelude.
From S2P Require Import Bytes.
From S2P Require Import Block.
From S2P Require Import Fat32.
From S2P Require Import Fat32Disk.
From S2P Require Import Fat32Alloc.
Open Scope arm.

(** * The bytes of a chain *)

Section Bytes.
Context (g : geometry) (Hg : geo_ok g).
Implicit Types (S : Z -> list Z) (l : list Z).

(** Byte [o] of cluster [c]. *)
Definition cbyte S (c o : Z) : Z := byte_at (S (data_lba g c (o / 512))) (o mod 512).

(** Byte [p] of the clusters [l], one after the other. *)
Definition fbyte S l (p : Z) : Z :=
  cbyte S (default 0 (l !! Z.to_nat (p / cluster_bytes g))) (p mod cluster_bytes g).

Lemma cluster_bytes_pos : 512 <= cluster_bytes g.
Proof. unfold cluster_bytes, FAT32_SECTOR_SIZE. destruct Hg. lia. Qed.

Lemma cluster_bytes_u32 : cluster_bytes g < 2 ^ 17.
Proof. unfold cluster_bytes, FAT32_SECTOR_SIZE. destruct Hg. lia. Qed.

Lemma sector_of_offset o : 0 <= o < cluster_bytes g -> 0 <= o / 512 < sectors_per_cluster g.
Proof.
  unfold cluster_bytes, FAT32_SECTOR_SIZE. intros Ho. split; [apply Z.div_pos; lia|].
  apply Z.div_lt_upper_bound; lia.
Qed.

Lemma fbyte_cons S c l p :
  0 <= p -> fbyte S (c :: l) p = if p <? cluster_bytes g then cbyte S c p else fbyte S l (p - cluster_bytes g).
Proof.
  intros Hp. pose proof cluster_bytes_pos. unfold fbyte. destruct (Z.ltb_spec p (cluster_bytes g)).
  - rewrite Z.div_small, Z.mod_small by lia. done.
  - replace p with (p - cluster_bytes g + 1 * cluster_bytes g) at 1 2 by lia.
    rewrite Z.div_add, Z_mod_plus_full by lia.
    pose proof (Z.div_pos (p - cluster_bytes g) (cluster_bytes g)).
    replace (Z.to_nat ((p - cluster_bytes g) / cluster_bytes g + 1))
      with (Datatypes.S (Z.to_nat ((p - cluster_bytes g) / cluster_bytes g))) by lia. done.
Qed.

Lemma fbyte_app S l1 l2 p :
  0 <= p -> fbyte S (l1 ++ l2) (Z.of_nat (length l1) * cluster_bytes g + p) = fbyte S l2 p.
Proof.
  intros Hp. pose proof cluster_bytes_pos. induction l1 as [|c l1 IH]; [done|].
  cbn [app length]. rewrite fbyte_cons by lia.
  destruct (Z.ltb_spec (Z.of_nat (Datatypes.S (length l1)) * cluster_bytes g + p) (cluster_bytes g)); [nia|].
  rewrite <- IH. f_equal. lia.
Qed.

Lemma fbyte_app_l S l1 l2 p :
  0 <= p < Z.of_nat (length l1) * cluster_bytes g -> fbyte S (l1 ++ l2) p = fbyte S l1 p.
Proof.
  intros Hp. pose proof cluster_bytes_pos. unfold fbyte. rewrite lookup_app_l; [done|].
  apply Nat2Z.inj_lt. rewrite Z2Nat.id by (apply Z.div_pos; lia). apply Z.div_lt_upper_bound; lia.
Qed.

(** The data sectors of the clusters [l]. *)
Definition in_chain l (k : Z) : Prop :=
  exists c s, c ∈ l /\ 0 <= s < sectors_per_cluster g /\ k = data_lba g c s.

Lemma cbyte_ext S S' c o :
  0 <= o < cluster_bytes g -> (forall s, 0 <= s < sectors_per_cluster g -> S' (data_lba g c s) = S (data_lba g c s)) ->
  cbyte S' c o = cbyte S c o.
Proof. intros Ho He. unfold cbyte. by rewrite He by by apply sector_of_offset. Qed.

Lemma fbyte_ext S S' l p :
  0 <= p < Z.of_nat (length l) * cluster_bytes g -> (forall k, in_chain l k -> S' k = S k) ->
  fbyte S' l p = fbyte S l p.
Proof.
  pose proof cluster_bytes_pos. revert p. induction l as [|c l IH]; intros p Hp He; [cbn in Hp; lia|].
  rewrite !fbyte_cons by lia. destruct (Z.ltb_spec p (cluster_bytes g)).
  - apply cbyte_ext; [lia|]. intros s Hs. apply He. exists c, s. set_solver.
  - cbn [length] in Hp. apply IH; [nia|]. intros k (c' & s & Hc & Hs & ->). apply He. exists c', s. set_solver.
Qed.

Lemma in_chain_data S l k : chain g S l -> in_chain l k -> data_start_lba g <= k < total_sectors g.
Proof. intros Hch (c & s & Hc & Hs & ->). apply data_lba_range; [done| |done]. by eapply chain_cluster. Qed.

Lemma in_chain_cons c l k : in_chain l k -> in_chain (c :: l) k.
Proof. intros (c' & s & Hc & Hs & ->). exists c', s. set_solver. Qed.

(** Distinct clusters share no sector. *)
Lemma not_in_chain S c l s :
  chain g S (c :: l) -> 0 <= s < sectors_per_cluster g -> ~ in_chain l (data_lba g c s).
Proof.
  intros Hch Hs (c' & s' & Hc & Hs' & E). apply data_lba_inj in E as [-> _]; [|done..].
  apply chain_NoDup in Hch; [|done]. by apply NoDup_cons in Hch as [].
Qed.

(** The table is outside the data sectors. *)
Lemma fat_ext S S' c :
  is_cluster g c -> (forall k, k < data_start_lba g -> S' k = S k) -> fat g S' c = fat g S c.
Proof.
  intros Hc He. unfold fat. rewrite He; [done|].
  apply (fat_lba_range g Hg 0 c Hc). destruct Hg; lia.
Qed.

Lemma chain_data_ext S S' l :
  (forall k, k < data_start_lba g -> S' k = S k) -> chain g S l -> chain g S' l.
Proof.
  intros He Hch. apply (chain_ext g Hg S); [|done]. intros c Hc. apply fat_ext; [|done]. by eapply chain_cluster.
Qed.
End Bytes.

(** * Reading *)

Section Read.
Context {D : Type} (R : sector_reader D) (W : option (sector_write_fn (D := D))) (g : geometry).
Context `{!GoodDisk R W (total_sectors g)} (Hg : geo_ok g).
Implicit Types (S : Z -> list Z) (b w l dst : list Z).
Abbreviation run := (run R W g).

(** [dst'] is [dst] with [n] bytes from [at] on replaced by [f 0], [f 1], ... *)
Definition window dst (at_ n : Z) (f : Z -> Z) dst' : Prop :=
  length dst' = length dst /\
  forall j, 0 <= j -> byte_at dst' j = if (at_ <=? j) && (j <? at_ + n) then f (j - at_) else byte_at dst j.

Lemma window_nil dst at_ f : window dst at_ 0 f dst.
Proof. split; [done|]. intros j Hj. destruct (Z.leb_spec at_ j), (Z.ltb_spec j (at_ + 0)); cbn; try done; lia. Qed.

Lemma window_app dst at_ n m f1 f2 f d1 d2 :
  0 <= n -> 0 <= m -> window dst at_ n f1 d1 -> window d1 (at_ + n) m f2 d2 ->
  (forall i, 0 <= i < n -> f i = f1 i) -> (forall i, 0 <= i < m -> f (n + i) = f2 i) ->
  window dst at_ (n + m) f d2.
Proof.
  intros Hn Hm [L1 H1] [L2 H2] E1 E2. split; [congruence|]. intros j Hj. rewrite H2, H1 by done.
  destruct (Z.leb_spec at_ j), (Z.leb_spec (at_ + n) j), (Z.ltb_spec j (at_ + n)),
    (Z.ltb_spec j (at_ + n + m)), (Z.ltb_spec j (at_ + (n + m))); cbn; try lia; try done.
  - rewrite <- E2 by lia. f_equal. lia.
  - by rewrite E1 by lia.
Qed.

Lemma window_copy dst at_ src off n :
  0 <= at_ -> 0 <= n -> at_ + n <= Z.of_nat (length dst) ->
  window dst at_ n (fun i => byte_at src (off + i)) (copy_bytes dst at_ src off n).
Proof. intros. by apply copy_bytes_spec. Qed.

Lemma run_read_sectors n c sect co rem cop S b w dst :
  is_cluster g c -> 0 <= sect -> sect + Z.of_nat n = sectors_per_cluster g ->
  0 <= co <= Z.of_nat n * 512 -> 0 <= rem -> 0 <= cop -> cop + rem <= Z.of_nat (length dst) ->
  exists b' dst', let cnt := Z.min rem (Z.of_nat n * 512 - co) in
    run (read_sectors n c sect co rem cop) (Ast S b w dst) (Some (rem - cnt, cop + cnt)) (Ast S b' w dst') /\
    window dst cop cnt (fun i => cbyte g S c (sect * 512 + co + i)) dst'.
Proof.
  intros Hc. revert sect co rem cop b dst.
  induction n as [|n IH]; intros sect co rem cop b dst Hs0 Hs Hco Hrem Hcop Hdst; cbn [read_sectors].
  { exists b, dst. cbv zeta. replace (Z.min rem (Z.of_nat 0 * 512 - co)) with 0 by lia.
    rewrite Z.sub_0_r, Z.add_0_r. split; [apply run_ret|apply window_nil]. }
  destruct (Z.gtb_spec rem 0) as [Hr|Hr].
  2: { exists b, dst. cbv zeta. replace (Z.min rem (Z.of_nat (Datatypes.S n) * 512 - co)) with 0 by lia.
       rewrite Z.sub_0_r, Z.add_0_r. split; [apply run_ret|apply window_nil]. }
  unfold FAT32_SECTOR_SIZE. destruct (Z.geb_spec co 512) as [Hge|Hlt].
  { destruct (IH (sect + 1) (co - 512) rem cop b dst) as (b' & dst' & H1 & H2); [lia..|]. cbv zeta in *.
    replace (Z.min rem (Z.of_nat (Datatypes.S n) * 512 - co)) with (Z.min rem (Z.of_nat n * 512 - (co - 512))) by lia.
    exists b', dst'. split; [exact H1|].
    by replace (sect * 512 + co) with ((sect + 1) * 512 + (co - 512)) by lia. }
  set (count := Z.min (512 - co) rem).
  assert (Hlba : 0 <= data_lba g c sect < total_sectors g).
  { pose proof (data_lba_range g Hg c sect Hc ltac:(lia)). destruct Hg; lia. }
  pose proof (window_copy dst cop (S (data_lba g c sect)) co count) as Hw.
  destruct (IH (sect + 1) 0 (rem - count) (cop + count) (S (data_lba g c sect))
    (copy_bytes dst cop (S (data_lba g c sect)) co count)) as (b' & dst' & H1 & H2); [lia..| |].
  { destruct Hw as [-> _]; lia. }
  cbv zeta in *. exists b', dst'.
  replace (Z.min rem (Z.of_nat (Datatypes.S n) * 512 - co))
    with (count + Z.min (rem - count) (Z.of_nat n * 512 - 0)) by lia.
  split.
  - apply run_get. intros fs (_ & _ & -> & _). rewrite (cluster_to_lba_eq g Hg) by (done || lia).
    eapply run_bind; [by apply run_read_sector|]. apply run_get. intros fs' (_ & _ & _ & _ & -> & _).
    apply run_obj, run_set. rewrite Z.sub_add_distr, Z.add_assoc. exact H1.
  - eapply window_app; [lia|lia|apply Hw; lia|exact H2| |].
    + intros i Hi. unfold cbyte. cbv beta.
      replace (sect * 512 + co + i) with (co + i + sect * 512) by lia.
      rewrite Z.div_add, Z_mod_plus_full, Z.div_small, Z.mod_small by lia. done.
    + intros i Hi. cbv beta. f_equal.
      assert (count = 512 - co) by lia. lia.
Qed.

Lemma run_read_step {X} c c' l S b w (x : X) :
  chain g S (c :: c' :: l) ->
  run (read_step c) (Ast S b w x) (Some c') (Ast S (S (fat_lba g 0 c)) w x).
Proof.
  intros [Hc [E Hl]]. assert (Hc' : is_cluster g c') by apply Hl.
  pose proof (run_read_fat R W g Hg c true S b w x Hc) as H1. rewrite E, fat_result_link in H1 by done.
  eapply run_bind; [apply H1|]. destruct (is_cluster_not_eoc g Hg c' Hc') as [-> _].
  replace (c' <? 2) with false by (destruct Hc'; lia). apply run_ret.
Qed.

Lemma run_read_clusters fuel c l skip rem cop S b w dst :
  chain g S (c :: l) -> 0 <= skip < cluster_bytes g -> 0 <= rem <= Z.of_nat fuel -> 0 <= cop ->
  skip + rem <= Z.of_nat (length (c :: l)) * cluster_bytes g -> cop + rem <= Z.of_nat (length dst) ->
  exists b' dst', run (read_clusters fuel c skip rem cop) (Ast S b w dst) (Some (cop + rem)) (Ast S b' w dst') /\
    window dst cop rem (fun i => fbyte g S (c :: l) (skip + i)) dst'.
Proof.
  pose proof (cluster_bytes_pos g Hg) as Hcb.
  revert c l skip rem cop b dst.
  induction fuel as [|fuel IH]; intros c l skip rem cop b dst Hch Hskip Hrem Hcop Hcap Hdst; cbn [read_clusters].
  { replace rem with 0 by lia. cbn. exists b, dst. rewrite Z.add_0_r. split; [apply run_ret|apply window_nil]. }
  destruct (Z.gtb_spec rem 0) as [Hr|Hr].
  2: { replace rem with 0 by lia. exists b, dst. rewrite Z.add_0_r. split; [apply run_ret|apply window_nil]. }
  assert (Hspc : Z.of_nat (Z.to_nat (sectors_per_cluster g)) = sectors_per_cluster g) by (destruct Hg; lia).
  assert (Hcbe : cluster_bytes g = sectors_per_cluster g * 512) by done.
  destruct (run_read_sectors (Z.to_nat (sectors_per_cluster g)) c 0 skip rem cop S b w dst)
    as (b1 & d1 & H1 & H2); [apply Hch|lia..|]. cbv zeta in *. rewrite Hspc, <- Hcbe in *.
  set (cnt := Z.min rem (cluster_bytes g - skip)) in *.
  assert (Hfirst : forall i, 0 <= i < cnt -> fbyte g S (c :: l) (skip + i) = cbyte g S c (0 * 512 + skip + i)).
  { intros i Hi. rewrite (fbyte_cons g Hg) by lia. by replace (skip + i <? cluster_bytes g) with true by lia. }
  destruct (Z.gtb_spec (rem - cnt) 0) as [Hm|Hm].
  2: { exists b1, d1. assert (cnt = rem) as E by lia. rewrite E in *. split.
       - apply run_get. intros fs (_ & _ & -> & _). eapply run_bind; [apply H1|]. cbn beta iota.
         destruct (Z.gtb_spec (rem - rem) 0); [lia|]. apply run_ret.
       - destruct H2 as [L2 H2]. split; [done|]. intros j Hj. rewrite H2 by done.
         destruct (Z.leb_spec cop j), (Z.ltb_spec j (cop + rem)); cbn [andb]; try done. by rewrite Hfirst by lia. }
  destruct l as [|c' l]; [cbn in Hcap; lia|].
  assert (Hch' : chain g S (c' :: l)) by apply Hch.
  destruct (IH c' l 0 (rem - cnt) (cop + cnt) (S (fat_lba g 0 c)) d1) as (b' & dst' & H3 & H4);
    [done|lia|lia|lia|cbn [length] in *; nia| |].
  { destruct H2 as [-> _]. lia. }
  exists b', dst'. split.
  - apply run_get. intros fs (_ & _ & -> & _). eapply run_bind; [apply H1|]. cbn beta iota.
    destruct (Z.gtb_spec (rem - cnt) 0); [|lia]. eapply run_bind; [by eapply run_read_step|].
    by replace (cop + rem) with (cop + cnt + (rem - cnt)) by lia.
  - replace rem with (cnt + (rem - cnt)) by lia. eapply window_app; [lia|lia|exact H2|exact H4|done|].
    intros i Hi. cbv beta. rewrite (fbyte_cons g Hg S c) by lia.
    replace (skip + (cnt + i) <? cluster_bytes g) with false by lia. f_equal. lia.
Qed.

(** The skip loop ends at the cluster that holds the offset. *)
Lemma run_skip {X} (step : Z -> fm D X Z) fuel c l skip S b w (x : X) :
  (forall c c' l b, chain g S (c :: c' :: l) -> exists b', run (step c) (Ast S b w x) (Some c') (Ast S b' w x)) ->
  chain g S (c :: l) -> 0 <= skip <= Z.of_nat fuel -> skip < Z.of_nat (length (c :: l)) * cluster_bytes g ->
  exists b' l1 c' l2, c :: l = l1 ++ c' :: l2 /\ chain g S (c' :: l2) /\
    let skip' := skip - Z.of_nat (length l1) * cluster_bytes g in
    0 <= skip' < cluster_bytes g /\
    run (skip_clusters step fuel skip (cluster_bytes g) c) (Ast S b w x) (Some (skip', c')) (Ast S b' w x).
Proof.
  intros Hstep. pose proof (cluster_bytes_pos g Hg) as Hcb.
  revert c l skip b. induction fuel as [|fuel IH]; intros c l skip b Hch Hskip Hcap; cbn [skip_clusters].
  { exists b, [], c, l. cbv zeta. cbn [app length]. destruct (Z.geb_spec skip (cluster_bytes g)); [lia|].
    rewrite Z.mul_0_l, Z.sub_0_r. split_and!; try done; try lia. apply run_ret. }
  destruct (Z.geb_spec skip (cluster_bytes g)) as [Hge|Hlt].
  2: { exists b, [], c, l. cbv zeta. cbn [app length]. rewrite Z.mul_0_l, Z.sub_0_r.
       split_and!; try done; try lia. apply run_ret. }
  destruct l as [|c' l]; [cbn in Hcap; lia|]. destruct (Hstep c c' l b Hch) as [b1 H1].
  destruct (IH c' l (skip - cluster_bytes g) b1) as (b' & l1 & c2 & l2 & E & Hc2 & Hs & H2);
    [apply Hch|lia|cbn [length] in *; nia|].
  cbv zeta in *. exists b', (c :: l1), c2, l2. cbn [app length]. rewrite E.
  replace (skip - Z.of_nat (Datatypes.S (length l1)) * cluster_bytes g)
    with (skip - cluster_bytes g - Z.of_nat (length l1) * cluster_bytes g) by lia.
  split_and!; try done; try lia. eapply run_bind; [apply H1|apply H2].
Qed.

Lemma run_fat32_read (S : Z -> list Z) (b w dst : list Z) (file : fat32_file) (l : list Z) (offset cap : Z)
    (Hchain : chain g S (first_cluster file :: l))
    (Hsize : 0 <= size file <= Z.of_nat (length (first_cluster file :: l)) * cluster_bytes g)
    (Hoff : 0 <= offset) (Hcap : 0 <= cap <= Z.of_nat (length dst)) :
  if offset <=? size file then
    exists b' dst', let n := Z.min cap (size file - offset) in
      run (fat32_read file offset cap) (Ast S b w dst) (Some n) (Ast S b' w dst') /\
      length dst' = length dst /\
      (forall j, 0 <= j < n -> byte_at dst' j = fbyte g S (first_cluster file :: l) (offset + j)) /\
      (forall j, n <= j -> byte_at dst' j = byte_at dst j)
  else run (fat32_read file offset cap) (Ast S b w dst) None (Ast S b w dst).
Proof.
  unfold fat32_read. destruct (Z.leb_spec offset (size file)) as [Hle|Hgt].
  2: { apply run_get. intros fs (_ & _ & _ & -> & _). cbn [negb orb].
       destruct (Z.gtb_spec offset (size file)); [apply run_fail|lia]. }
  cbv zeta. set (n := Z.min cap (size file - offset)).
  assert (Hn : (if size file - offset >? cap then cap else size file - offset) = n).
  { destruct (Z.gtb_spec (size file - offset) cap); lia. }
  destruct (Z.eqb_spec n 0) as [E0|E0].
  { exists b, dst. split_and!; [|done|lia|done]. apply run_get. intros fs (_ & _ & _ & -> & _). cbn [negb orb].
    destruct (Z.gtb_spec offset (size file)); [lia|]. rewrite Hn, E0. apply run_ret. }
  destruct (run_skip (X := list Z) read_step (Z.to_nat offset) (first_cluster file) l offset S b w dst)
    as (b1 & l1 & c' & l2 & El & Hch2 & Hs & H1); [|done|lia|lia|].
  { intros c1 c2 l0 b0 Hc0. eexists. by eapply run_read_step. }
  cbv zeta in *. set (skip := offset - Z.of_nat (length l1) * cluster_bytes g) in *.
  destruct (run_read_clusters (Z.to_nat n) c' l2 skip n 0 S b1 w dst) as (b' & dst' & H2 & [L H3]);
    [done|done|lia|lia| |lia|].
  { apply (f_equal length) in El. rewrite length_app in El. cbn [length] in *. nia. }
  exists b', dst'. split_and!; [|done| |].
  - apply run_get. intros fs (_ & _ & -> & -> & _). cbn [negb orb].
    destruct (Z.gtb_spec offset (size file)); [lia|]. rewrite Hn, (proj2 (Z.eqb_neq n 0) E0).
    assert (Hc : is_cluster g (first_cluster file)) by apply Hchain.
    replace (first_cluster file <? 2) with false by (destruct Hc; lia).
    eapply run_bind; [apply H1|]. apply H2.
  - intros j Hj. rewrite H3 by lia. replace ((0 <=? j) && (j <? 0 + n)) with true by lia.
    rewrite El. replace (offset + j) with (Z.of_nat (length l1) * cluster_bytes g + (skip + (j - 0))) by lia.
    by rewrite (fbyte_app g Hg) by lia.
  - intros j Hj. rewrite H3 by lia. by replace ((0 <=? j) && (j <? 0 + n)) with false by lia.
Qed.

(** C26: fat32_read returns the file: on a file whose size fits its chain, a
    read at an offset inside the file runs to the end with the fuel of its
    loops and copies exactly min(capacity, size - offset) bytes, which are the
    bytes of the file's clusters from the offset on, into the start of the
    caller's buffer; the rest of the buffer and the disk are unchanged.  Past
    the end of the file the call fails. *)
Theorem fat32_read_window (S : Z -> list Z) (b w dst : list Z) (file : fat32_file) (l : list Z) (offset cap : Z)
    (Hchain : chain g S (first_cluster file :: l))
    (Hsize : 0 <= size file <= Z.of_nat (length (first_cluster file :: l)) * cluster_bytes g)
    (Hoff : 0 <= offset) (Hcap : 0 <= cap <= Z.of_nat (length dst)) :
  if offset <=? size file then
    exists b' dst', let n := Z.min cap (size file - offset) in
      run (fat32_read file offset cap) (Ast S b w dst) (Some n) (Ast S b' w dst') /\
      length dst' = length dst /\
      (forall j, 0 <= j < n -> byte_at dst' j = fbyte g S (first_cluster file :: l) (offset + j)) /\
      (forall j, n <= j -> byte_at dst' j = byte_at dst j)
  else run (fat32_read file offset cap) (Ast S b w dst) None (Ast S b w dst).
Proof. by apply run_fat32_read. Qed.
End Read.
