(* ===== verification/Fat32Write.v ===== *)
(** fat32_write over a working disk: overwriting, truncating and growing. *)

From S2P Require Import Prelude.
From S2P Require Import Bytes.
From S2P Require Import Block.
From S2P Require Import Fat32.
From S2P Require Import Fat32Disk.
From S2P Require Import Fat32Alloc.
From S2P Require Import Fat32Files.
Open Scope arm.

Section Write.
Context {D : Type} (R : sector_reader D) (wr : sector_write_fn (D := D)) (g : geometry).
Context `{!GoodDisk R (Some wr) (total_sectors g)} (Hg : geo_ok g).
Implicit Types (S : Z -> list Z) (b w l buffer : list Z) (f : fat32_file).
Abbreviation run := (run R (Some wr) g).
Abbreviation cb := (cluster_bytes g).

(** Cluster [c] with [n] bytes from offset [o] on replaced by [src]; every
    other sector is kept. *)
Definition cluster_patched S c o n (src : Z -> Z) S' : Prop :=
  (forall k, length (S' k) = 512%nat) /\
  (forall p, 0 <= p < cb -> cbyte g S' c p = if (o <=? p) && (p <? o + n) then src (p - o) else cbyte g S c p) /\
  (forall k, (forall s, 0 <= s < sectors_per_cluster g -> k <> data_lba g c s) -> S' k = S k).

Lemma cluster_patched_nil S c o src : (forall k, length (S k) = 512%nat) -> cluster_patched S c o 0 src S.
Proof.
  intros HS. split_and!; [done| |done]. intros p Hp.
  destruct (Z.leb_spec o p), (Z.ltb_spec p (o + 0)); cbn; try done; lia.
Qed.

Lemma cluster_patched_app S c o n m s1 s2 src S1 S2 :
  0 <= n -> 0 <= m -> cluster_patched S c o n s1 S1 -> cluster_patched S1 c (o + n) m s2 S2 ->
  (forall i, 0 <= i < n -> src i = s1 i) -> (forall i, 0 <= i < m -> src (n + i) = s2 i) ->
  cluster_patched S c o (n + m) src S2.
Proof.
  intros Hn Hm (L1 & H1 & F1) (L2 & H2 & F2) E1 E2. split_and!; [done| |].
  - intros p Hp. rewrite H2, H1 by done.
    destruct (Z.leb_spec o p), (Z.leb_spec (o + n) p), (Z.ltb_spec p (o + n)),
      (Z.ltb_spec p (o + n + m)), (Z.ltb_spec p (o + (n + m))); cbn; try lia; try done.
    + rewrite <- E2 by lia. f_equal. lia.
    + by rewrite E1 by lia.
  - intros k Hk. by rewrite F2, F1.
Qed.

(** One sector rewritten. *)
Lemma cluster_patched_sector S c sect co n buffer cop w :
  (forall k, length (S k) = 512%nat) -> 0 <= sect < sectors_per_cluster g ->
  0 <= co -> 0 <= n -> co + n <= 512 -> length w = 512%nat ->
  let new := copy_bytes (copy_bytes w 0 (S (data_lba g c sect)) 0 512) co buffer cop n in
  length new = 512%nat /\
  cluster_patched S c (sect * 512 + co) n (fun i => byte_at buffer (cop + i)) (upd (data_lba g c sect) new S).
Proof.
  intros HS Hs Hco Hn Hle Hw new.
  destruct (copy_bytes_spec w 0 (S (data_lba g c sect)) 0 512) as [L1 H1]; [lia..|].
  destruct (copy_bytes_spec (copy_bytes w 0 (S (data_lba g c sect)) 0 512) co buffer cop n) as [L2 H2]; [lia..|].
  fold new in L2, H2. split; [congruence|]. split_and!.
  - intros k. unfold upd. destruct (k =? data_lba g c sect); [congruence|done].
  - intros p Hp. unfold cbyte, upd. pose proof (sector_of_offset g p Hp) as Hsp.
    pose proof (Z.div_mod p 512). pose proof (Z.mod_pos_bound p 512).
    destruct (Z.eqb_spec (data_lba g c (p / 512)) (data_lba g c sect)) as [E|E].
    + apply data_lba_inj in E as [_ E]; [|done..]. rewrite H2, H1 by lia. rewrite E.
      replace ((0 <=? p mod 512) && (p mod 512 <? 0 + 512)) with true by lia.
      destruct (Z.leb_spec co (p mod 512)), (Z.ltb_spec (p mod 512) (co + n)),
        (Z.leb_spec (sect * 512 + co) p), (Z.ltb_spec p (sect * 512 + co + n)); cbn [andb]; try lia; f_equal; lia.
    + assert (p / 512 <> sect) by congruence.
      destruct (Z.leb_spec (sect * 512 + co) p), (Z.ltb_spec p (sect * 512 + co + n)); cbn [andb]; try lia; done.
  - intros k Hk. unfold upd. destruct (Z.eqb_spec k (data_lba g c sect)) as [->|]; [|done].
    by destruct (Hk sect Hs).
Qed.

Lemma run_write_sectors n buffer c sect co rem cop S b w f :
  is_cluster g c -> 0 <= sect -> sect + Z.of_nat n = sectors_per_cluster g ->
  0 <= co <= Z.of_nat n * 512 -> 0 <= rem -> 0 <= cop ->
  (forall k, length (S k) = 512%nat) -> length w = 512%nat ->
  exists S' b' w', let cnt := Z.min rem (Z.of_nat n * 512 - co) in
    run (write_sectors n buffer c sect co rem cop) (Ast S b w f) (Some (rem - cnt, cop + cnt)) (Ast S' b' w' f) /\
    length w' = 512%nat /\
    cluster_patched S c (sect * 512 + co) cnt (fun i => byte_at buffer (cop + i)) S'.
Proof.
  intros Hc. revert sect co rem cop S b w.
  induction n as [|n IH]; intros sect co rem cop S b w Hs0 Hs Hco Hrem Hcop HS Hw; cbn [write_sectors].
  { exists S, b, w. cbv zeta. replace (Z.min rem (Z.of_nat 0 * 512 - co)) with 0 by lia.
    rewrite Z.sub_0_r, Z.add_0_r. split; [apply run_ret|]. split; [done|by apply cluster_patched_nil]. }
  destruct (Z.gtb_spec rem 0) as [Hr|Hr].
  2: { exists S, b, w. cbv zeta. replace (Z.min rem (Z.of_nat (Datatypes.S n) * 512 - co)) with 0 by lia.
       rewrite Z.sub_0_r, Z.add_0_r. split; [apply run_ret|]. split; [done|by apply cluster_patched_nil]. }
  unfold FAT32_SECTOR_SIZE. destruct (Z.geb_spec co 512) as [Hge|Hlt].
  { destruct (IH (sect + 1) (co - 512) rem cop S b w) as (S' & b' & w' & H1 & H2); [done || lia..|]. cbv zeta in *.
    replace (Z.min rem (Z.of_nat (Datatypes.S n) * 512 - co)) with (Z.min rem (Z.of_nat n * 512 - (co - 512))) by lia.
    exists S', b', w'. split; [exact H1|].
    by replace (sect * 512 + co) with ((sect + 1) * 512 + (co - 512)) by lia. }
  set (count := Z.min (512 - co) rem).
  assert (Hlba : 0 <= data_lba g c sect < total_sectors g).
  { pose proof (data_lba_range g Hg c sect Hc ltac:(lia)). destruct Hg; lia. }
  destruct (cluster_patched_sector S c sect co count buffer cop w) as [Ln Hp]; [done || lia..|].
  set (new := copy_bytes (copy_bytes w 0 (S (data_lba g c sect)) 0 512) co buffer cop count) in *.
  destruct (IH (sect + 1) 0 (rem - count) (cop + count) (upd (data_lba g c sect) new S) (S (data_lba g c sect)) new)
    as (S' & b' & w' & H1 & Hw' & H2); [done || lia..|apply Hp|done|].
  cbv zeta in *. exists S', b', w'.
  replace (Z.min rem (Z.of_nat (Datatypes.S n) * 512 - co))
    with (count + Z.min (rem - count) (Z.of_nat n * 512 - 0)) by lia.
  split_and!; [|done|].
  - apply run_get. intros fs (_ & _ & -> & _). rewrite (cluster_to_lba_eq g Hg) by (done || lia).
    eapply run_bind; [by apply run_read_sector|].
    apply run_get. intros fs1 (_ & _ & _ & _ & -> & ->). cbn [a_buf a_wbuf].
    assert (L1 : length (copy_bytes w 0 (S (data_lba g c sect)) 0 512) = 512%nat).
    { destruct (copy_bytes_spec w 0 (S (data_lba g c sect)) 0 512) as [-> _]; lia. }
    eapply run_bind; [by apply run_fwbuf|].
    apply run_get. intros fs2 (_ & _ & _ & _ & _ & ->). cbn [a_wbuf].
    eapply run_bind; [by apply run_fwbuf|].
    apply run_get. intros fs3 (_ & _ & _ & _ & _ & ->). cbn [a_wbuf].
    eapply run_bind; [by eapply run_write_sector|].
    rewrite Z.sub_add_distr, Z.add_assoc. exact H1.
  - eapply cluster_patched_app; [lia|lia|exact Hp| |done|].
    + destruct (Z.eq_dec (count) (512 - co)) as [E|E].
      * replace (sect * 512 + co + count) with ((sect + 1) * 512 + 0) by lia. exact H2.
      * replace (Z.min (rem - count) (Z.of_nat n * 512 - 0)) with 0 in * by lia.
        destruct H2 as (L2 & H2 & F2). split_and!; [done| |done].
        intros p Hp'. rewrite H2 by done.
        destruct (Z.leb_spec ((sect + 1) * 512 + 0) p), (Z.ltb_spec p ((sect + 1) * 512 + 0 + 0)); cbn; try lia;
        destruct (Z.leb_spec (sect * 512 + co + count) p), (Z.ltb_spec p (sect * 512 + co + count + 0)); cbn; try lia; done.
    + intros i Hi. cbv beta. f_equal. lia.
Qed.

(** ** From cluster to cluster *)

Lemma run_advance_link c c' l S b w f :
  chain g S (c :: c' :: l) ->
  exists b', run (advance_or_allocate_cluster cb c) (Ast S b w f) (Some c') (Ast S b' w f).
Proof.
  intros [Hc [E Hl]]. assert (Hc' : is_cluster g c') by apply Hl.
  pose proof (run_read_fat R (Some wr) g Hg c true S b w f Hc) as H1. rewrite E, fat_result_link in H1 by done.
  eexists. unfold advance_or_allocate_cluster. replace (c <? 2) with false by (destruct Hc; lia).
  eapply run_bind; [apply H1|]. destruct (is_cluster_not_eoc g Hg c' Hc') as [-> _].
  replace (c' <? 2) with false by (destruct Hc'; lia). apply run_ret.
Qed.

(** The end of the chain: the lowest free cluster is linked. *)
Lemma run_advance_alloc c n fl S b w f :
  chain g S [c] -> no_bad g S -> free_list g S = n :: fl -> 0 <= capacity f -> capacity f + cb <= UINT32_MAX ->
  exists b', run (advance_or_allocate_cluster cb c) (Ast S b w f) (Some n)
    (Ast (alloc_fat g c n S) b' w (set_capacity f (capacity f + cb))).
Proof.
  intros [Hc He] Hb Hf H0 Hcap. pose proof (cluster_bytes_pos g Hg) as Hcb1. pose proof (cluster_bytes_u32 g Hg) as Hcb2.
  pose proof (run_read_fat R (Some wr) g Hg c true S b w f Hc) as H1. rewrite fat_result_eoc in H1 by done.
  destruct (run_allocate R wr g Hg c n S (S (fat_lba g 0 c)) w f) as [b' H2]; [by right| |].
  { rewrite scan_free_head by done. by rewrite Hf. }
  exists b'. unfold advance_or_allocate_cluster. replace (c <? 2) with false by (destruct Hc; lia).
  eapply run_bind; [apply H1|]. rewrite He. apply run_obj. cbn [a_obj]. rewrite u32_id by lia.
  unfold UINT32_MAX in Hcap.
  replace ((cb >? 0xffffffff) || (capacity f >? 0xffffffff - cb)) with false
    by (symmetry; apply orb_false_iff; rewrite !Z.gtb_ltb, !Z.ltb_ge; lia).
  eapply run_bind; [apply H2|]. apply run_obj, run_set. cbn [a_obj]. rewrite u32_id by lia. apply run_ret.
Qed.

(** ** The effect of a write on the file *)

(** Chain [l] became [l'] (a prefix of [l'] was the file, the rest was free),
    bytes [at, at + n) of it were replaced by [src], and nothing else changed. *)
Record file_patched S l' (at_ n : Z) (src : Z -> Z) fl S' : Prop := {
  fp_len : forall k, length (S' k) = 512%nat;
  fp_chain : chain g S' l';
  fp_bytes : forall p, 0 <= p < Z.of_nat (length l') * cb ->
    fbyte g S' l' p = if (at_ <=? p) && (p <? at_ + n) then src (p - at_) else fbyte g S l' p;
  fp_fat : forall c, is_cluster g c -> c ∉ l' -> fat g S' c = fat g S c;
  fp_frame : forall k, ~ (fat_start_lba g <= k < data_start_lba g) -> ~ in_chain g l' k -> S' k = S k;
  fp_free : free_list g S' = fl;
  fp_bad : no_bad g S' }.

Lemma file_patched_nil S l at_ src :
  (forall k, length (S k) = 512%nat) -> chain g S l -> no_bad g S -> file_patched S l at_ 0 src (free_list g S) S.
Proof.
  intros HS Hch Hb. split; try done. intros p Hp.
  destruct (Z.leb_spec at_ p), (Z.ltb_spec p (at_ + 0)); cbn; try done; lia.
Qed.

(** Writing data keeps the table. *)
Lemma patched_fat S c o n src S' c' :
  is_cluster g c -> is_cluster g c' -> cluster_patched S c o n src S' -> fat g S' c' = fat g S c'.
Proof.
  intros Hc Hc' (_ & _ & F). apply (fat_ext g Hg); [done|]. intros k Hk. apply F. intros s Hs ->.
  pose proof (data_lba_range g Hg c s Hc Hs). lia.
Qed.

Lemma patched_frame S c o n src S' l k :
  cluster_patched S c o n src S' -> ~ in_chain g (c :: l) k -> S' k = S k.
Proof.
  intros (_ & _ & F) Hk. apply F. intros s Hs ->. apply Hk. exists c, s. set_solver.
Qed.

(** The last cluster of the write. *)
Lemma file_patched_one S c l at_ n src S' :
  0 <= at_ -> 0 <= n -> at_ + n <= cb -> chain g S (c :: l) -> no_bad g S -> cluster_patched S c at_ n src S' ->
  file_patched S (c :: l) at_ n src (free_list g S) S'.
Proof.
  intros Ha Hn Hcap Hch Hb Hp. assert (Hc : is_cluster g c) by apply Hch.
  assert (Hf : forall c', is_cluster g c' -> fat g S' c' = fat g S c')
    by (intros c' Hc'; exact (patched_fat S c at_ n src S' c' Hc Hc' Hp)).
  pose proof Hp as (L & H & F). split; try done.
  - apply (chain_ext g Hg S); [|done]. intros a Ha'. apply Hf. by eapply chain_cluster.
  - intros p Hpr. rewrite !(fbyte_cons g Hg S' c), !(fbyte_cons g Hg S c) by lia.
    destruct (Z.ltb_spec p cb); [apply H; lia|].
    replace ((at_ <=? p) && (p <? at_ + n)) with false by (symmetry; apply andb_false_iff; lia).
    cbn [length] in Hpr. apply (fbyte_ext g Hg); [lia|]. intros k Hk. apply F. intros s Hs ->.
    by eapply not_in_chain.
  - intros c' Hc' _. by apply Hf.
  - intros k _ Hk. by eapply patched_frame.
  - apply free_list_ext. done.
  - intros c' Hc'. rewrite Hf by done. by apply Hb.
Qed.

(** One cluster written, then the rest of the chain. *)
Lemma file_patched_cons S c o n m s1 s2 src l' fl S1 S2 S3 :
  0 <= o -> 0 <= n -> o + n = cb -> 0 <= m -> (forall k, length (S k) = 512%nat) ->
  is_cluster g c -> cluster_patched S c o n s1 S1 ->
  (forall k, ~ (fat_start_lba g <= k < data_start_lba g) -> S2 k = S1 k) ->
  (forall c', is_cluster g c' -> c' ∉ c :: l' -> fat g S2 c' = fat g S1 c') ->
  file_patched S2 l' 0 m s2 fl S3 -> chain g S3 (c :: l') ->
  (forall i, 0 <= i < n -> src i = s1 i) -> (forall i, 0 <= i < m -> src (n + i) = s2 i) ->
  file_patched S (c :: l') o (n + m) src fl S3.
Proof.
  intros Ho Hn Hon Hm HS Hc Hp Hd Hf [] Hch E1 E2. pose proof Hp as (L & H & F).
  assert (Hdata : forall c' s, is_cluster g c' -> 0 <= s < sectors_per_cluster g ->
    S2 (data_lba g c' s) = S1 (data_lba g c' s)).
  { intros c' s Hc' Hs. apply Hd. pose proof (data_lba_range g Hg c' s Hc' Hs). lia. }
  split; try done.
  - intros p Hpr. rewrite (fbyte_cons g Hg S3 c), (fbyte_cons g Hg S c) by lia. cbn [length] in Hpr.
    destruct (Z.ltb_spec p cb) as [Hlt|Hge].
    + rewrite (cbyte_ext g S1); [|lia|].
      * rewrite H by lia. destruct (Z.leb_spec o p), (Z.ltb_spec p (o + n)), (Z.ltb_spec p (o + (n + m)));
          cbn [andb]; try lia; [|done..]. by rewrite E1 by lia.
      * intros s Hs. rewrite <- Hdata by done. apply fp_frame0.
        -- pose proof (data_lba_range g Hg c s Hc Hs). lia.
        -- by eapply not_in_chain.
    + rewrite fp_bytes0 by lia.
      destruct (Z.leb_spec 0 (p - cb)), (Z.ltb_spec (p - cb) (0 + m)), (Z.leb_spec o p),
        (Z.ltb_spec p (o + (n + m))); cbn [andb]; try lia.
      * rewrite <- E2 by lia. f_equal. lia.
      * apply (fbyte_ext g Hg); [lia|]. intros k Hk. pose proof Hk as (c' & s & Hc' & Hs & ->).
        assert (is_cluster g c') by (apply (chain_cluster g S3 (c :: l')); [done|set_solver]).
        rewrite Hdata by done. apply F. intros s' Hs' E. rewrite E in Hk. by eapply not_in_chain.
  - intros c' Hc' Hni. rewrite fp_fat0 by (done || set_solver). rewrite Hf by done. exact (patched_fat S c o n s1 S1 c' Hc Hc' Hp).
  - intros k Hk Hni. rewrite fp_frame0; [|done|].
    + rewrite Hd by done. by eapply patched_frame.
    + intros Hin. apply Hni. by apply in_chain_cons.
Qed.

Lemma set_capacity_same f : set_capacity f (capacity f + Z.of_nat 0 * cb) = f.
Proof. destruct f. unfold set_capacity. cbn. by rewrite Z.add_0_r. Qed.

(** The rest of the chain does not contain its head. *)
Lemma chain_head_fresh S c l ext rest :
  chain g S (c :: l) -> free_list g S = ext ++ rest -> c ∉ l ++ ext.
Proof.
  intros Hch Hf [Hl|He]%elem_of_app.
  - apply chain_NoDup in Hch; [|done]. by apply NoDup_cons in Hch as [].
  - apply (chain_not_free g S (c :: l) c Hch); [set_solver|].
    apply (free_list_spec g S c). rewrite Hf. set_solver.
Qed.

(** Clusters of a write: [ext] is what the write needs beyond the chain. *)
Definition extends l ext (len : Z) : Prop :=
  len <= Z.of_nat (length (l ++ ext)) * cb /\ (ext = [] \/ Z.of_nat (length (l ++ ext)) * cb < len + cb).

(** What a call that has [rem] bytes left to write achieves. *)
Definition writes (m : fm D fat32_file Z) buffer c l ext rest skip rem cop S b w f : Prop :=
  exists S' b' w', run m (Ast S b w f) (Some (cop + rem))
      (Ast S' b' w' (set_capacity f (capacity f + Z.of_nat (length ext) * cb))) /\
    length w' = 512%nat /\
    file_patched S (c :: l ++ ext) skip rem (fun i => byte_at buffer (cop + i)) rest S'.

(** A write that ends in the first cluster needs no more clusters. *)
Lemma extends_nil c l ext len : extends (c :: l) ext len -> len <= cb -> ext = [].
Proof.
  pose proof (cluster_bytes_pos g Hg). intros [_ [|Hx]] Hlen; [done|]. destruct ext; [done|].
  cbn [length app] in Hx. rewrite length_app in Hx. cbn [length] in Hx. nia.
Qed.

Lemma writes_nothing buffer c l ext rest skip rem cop S b w f :
  chain g S (c :: l) -> no_bad g S -> free_list g S = ext ++ rest ->
  (forall k, length (S k) = 512%nat) -> length w = 512%nat -> skip < cb -> rem = 0 ->
  extends (c :: l) ext (skip + rem) -> writes (fret cop) buffer c l ext rest skip rem cop S b w f.
Proof.
  intros Hch Hb Hf HS Hw Hskip -> Hx. apply extends_nil in Hx as ->; [|lia].
  exists S, b, w. rewrite Z.add_0_r, app_nil_r. cbn [length]. rewrite set_capacity_same.
  split; [apply run_ret|]. split; [done|].
  replace rest with (free_list g S) by done. by apply file_patched_nil.
Qed.

(** The code after the sectors of a cluster are written. *)
Definition after_cluster (fuel : nat) buffer (c rem cop : Z) : fm D fat32_file Z :=
  if rem >? 0 then
    let! cluster := advance_or_allocate_cluster cb c in write_clusters fuel buffer cluster 0 rem cop
  else fret cop.

(** Facts that writing data into a cluster keeps. *)
Definition same_table S S1 : Prop :=
  (forall k, length (S1 k) = 512%nat) /\ forall c, is_cluster g c -> fat g S1 c = fat g S c.

Lemma same_table_keeps S S1 l :
  same_table S S1 -> chain g S l -> no_bad g S ->
  chain g S1 l /\ no_bad g S1 /\ free_list g S1 = free_list g S.
Proof.
  intros [_ Hf] Hch Hb. split_and!.
  - apply (chain_ext g Hg S); [|done]. intros a Ha. apply Hf. by eapply chain_cluster.
  - intros a Ha. rewrite Hf by done. by apply Hb.
  - by apply free_list_ext.
Qed.

Lemma run_write_cluster fuel buffer c skip rem cop S b w f :
  is_cluster g c -> (forall k, length (S k) = 512%nat) -> length w = 512%nat ->
  0 <= skip < cb -> 0 < rem -> 0 <= cop ->
  exists S1 b1 w1, let cnt := Z.min rem (cb - skip) in
    length w1 = 512%nat /\ same_table S S1 /\
    cluster_patched S c skip cnt (fun i => byte_at buffer (cop + i)) S1 /\
    forall o s', run (after_cluster fuel buffer c (rem - cnt) (cop + cnt)) (Ast S1 b1 w1 f) o s' ->
      run (write_clusters (Datatypes.S fuel) buffer c skip rem cop) (Ast S b w f) o s'.
Proof.
  intros Hc HS Hw Hskip Hr Hcop.
  assert (Hspc : Z.of_nat (Z.to_nat (sectors_per_cluster g)) = sectors_per_cluster g) by (destruct Hg; lia).
  assert (Hcbe : cb = sectors_per_cluster g * 512) by done.
  destruct (run_write_sectors (Z.to_nat (sectors_per_cluster g)) buffer c 0 skip rem cop S b w f)
    as (S1 & b1 & w1 & H1 & Hw1 & Hp); [done || lia..|]. cbv zeta in *. rewrite Hspc, <- Hcbe in *.
  replace (0 * 512 + skip) with skip in Hp by lia.
  exists S1, b1, w1. split; [done|]. split; [|split; [done|]].
  - split; [apply Hp|]. intros c' Hc'. exact (patched_fat S c _ _ _ S1 c' Hc Hc' Hp).
  - intros o s' Hrun. cbn [write_clusters]. destruct (Z.gtb_spec rem 0); [|lia].
    destruct (is_cluster_not_eoc g Hg c Hc) as [-> _]. replace (c <? 2) with false by (destruct Hc; lia). cbn [orb].
    apply run_get. intros fs (_ & _ & -> & _). eapply run_bind; [apply H1|]. exact Hrun.
Qed.

Lemma run_write_clusters fuel buffer c l ext rest skip rem cop S b w f :
  chain g S (c :: l) -> no_bad g S -> free_list g S = ext ++ rest ->
  (forall k, length (S k) = 512%nat) -> length w = 512%nat ->
  0 <= skip < cb -> 0 <= rem <= Z.of_nat fuel -> 0 <= cop -> 0 <= capacity f ->
  capacity f + Z.of_nat (length ext) * cb <= UINT32_MAX -> extends (c :: l) ext (skip + rem) ->
  writes (write_clusters fuel buffer c skip rem cop) buffer c l ext rest skip rem cop S b w f.
Proof.
  pose proof (cluster_bytes_pos g Hg) as Hcb.
  revert c l ext skip rem cop S b w f.
  induction fuel as [|fuel IH]; intros c l ext skip rem cop S b w f Hch Hb Hf HS Hw Hskip Hrem Hcop Hcap0 Hcap Hx.
  { cbn [write_clusters]. destruct (Z.gtb_spec rem 0); [lia|]. apply writes_nothing; done || lia. }
  destruct (Z.eq_dec rem 0) as [E0|E0].
  { cbn [write_clusters]. destruct (Z.gtb_spec rem 0); [lia|]. apply writes_nothing; done || lia. }
  assert (Hc : is_cluster g c) by apply Hch.
  destruct (run_write_cluster fuel buffer c skip rem cop S b w f)
    as (S1 & b1 & w1 & Hw1 & Ht & Hp & Hrun); [done || lia..|]. cbv zeta in *.
  destruct (same_table_keeps S S1 (c :: l) Ht Hch Hb) as (Hch1 & Hb1 & Hf1). rewrite Hf in Hf1.
  destruct Ht as [HS1 Hfat]. pose proof (chain_head_fresh S1 c l ext rest Hch1 Hf1) as Hfresh.
  set (cnt := Z.min rem (cb - skip)) in *. unfold after_cluster in Hrun.
  destruct (Z.gtb_spec (rem - cnt) 0) as [Hm|Hm].
  2: { assert (cnt = rem) as E by lia. rewrite E in *. apply extends_nil in Hx as ->; [|lia].
       exists S1, b1, w1. cbn [length]. rewrite set_capacity_same, app_nil_r. split; [apply Hrun, run_ret|].
       split; [done|]. replace rest with (free_list g S) by done. apply file_patched_one; done || lia. }
  assert (Hfin : forall S2 S3 c' l' rest',
    l ++ ext = c' :: l' -> (forall k, ~ (fat_start_lba g <= k < data_start_lba g) -> S2 k = S1 k) ->
    (forall a, is_cluster g a -> a ∉ [c; c'] -> fat g S2 a = fat g S1 a) -> fat g S2 c = c' ->
    file_patched S2 (c' :: l') 0 (rem - cnt) (fun i => byte_at buffer (cop + cnt + i)) rest' S3 ->
    file_patched S (c :: l ++ ext) skip rem (fun i => byte_at buffer (cop + i)) rest' S3).
  { intros S2 S3 c' l' rest' El Hd Hf2 Hl2 Hp3. rewrite El in *. replace rem with (cnt + (rem - cnt)) by lia.
    eapply (file_patched_cons S c skip cnt (rem - cnt) _ _ _ (c' :: l') rest' S1 S2 S3);
      [lia|lia|lia|lia|done|done|exact Hp|done| |exact Hp3| |done|].
    - intros a Ha Hni. apply Hf2; [done|set_solver].
    - split; [done|]. split; [|apply Hp3]. rewrite (fp_fat _ _ _ _ _ _ _ Hp3) by done. done.
    - intros i Hi. cbv beta. f_equal. lia. }
  destruct Hx as [Hle Hext]. destruct l as [|c' l].
  - destruct ext as [|n ext]; [cbn in Hle; lia|]. cbn [app] in *.
    assert (Hn : is_cluster g n /\ fat g S1 n = 0) by (apply free_list_spec; rewrite Hf1; set_solver).
    assert (Htail : chain_tail g S1 c) by (right; apply Hch1).
    destruct (run_advance_alloc c n (ext ++ rest) S1 b1 w1 f Hch1 Hb1 Hf1 Hcap0) as [b2 H2];
      [cbn [length] in Hcap; nia|].
    set (S2 := alloc_fat g c n S1) in *. set (f2 := set_capacity f (capacity f + cb)) in *.
    assert (Hfat2 : forall a, is_cluster g a -> fat g S2 a =
      if a =? n then FAT32_CLUSTER_EOC else if a =? c then n else fat g S1 a)
      by (intros a Ha; apply alloc_fat_spec; done || apply Hn).
    destruct (IH n [] ext 0 (rem - cnt) (cop + cnt) S2 b2 w1 f2) as (S3 & b3 & w3 & H3 & Hw3 & Hp3);
      [|by apply no_bad_alloc; try apply Hn|by apply free_list_alloc|by apply alloc_fat_len|done|lia|lia|lia| | | |].
    { split; [apply Hn|]. rewrite Hfat2, Z.eqb_refl by apply Hn. done. }
    { unfold f2. cbn. lia. }
    { unfold f2. cbn [capacity set_capacity]. cbn [length] in Hcap. nia. }
    { unfold extends in *. cbn [length app] in *. split; [nia|]. right. destruct Hext as [|Hext]; [done|]. nia. }
    exists S3, b3, w3. split_and!; [|done|].
    + apply Hrun. eapply run_bind; [apply H2|]. replace (cop + rem) with (cop + cnt + (rem - cnt)) by lia.
      replace (set_capacity f _) with (set_capacity f2 (capacity f2 + Z.of_nat (length ext) * cb)); [apply H3|].
      unfold f2, set_capacity. cbn [capacity first_cluster dir_lba dir_offset size length]. f_equal. lia.
    + eapply (Hfin S2 S3 n ext); [done|intros k Hk; by apply alloc_fat_other| | |exact Hp3].
      * intros a Ha Hni. rewrite Hfat2 by done.
        rewrite (proj2 (Z.eqb_neq a n)), (proj2 (Z.eqb_neq a c)) by set_solver. done.
      * rewrite Hfat2, Z.eqb_refl by done. rewrite (proj2 (Z.eqb_neq c n)) by set_solver. done.
  - destruct (run_advance_link c c' l S1 b1 w1 f Hch1) as [b2 H2]. cbn [app] in *.
    destruct (IH c' l ext 0 (rem - cnt) (cop + cnt) S1 b2 w1 f) as (S3 & b3 & w3 & H3 & Hw3 & Hp3);
      [apply Hch1|done|done|done|done|lia|lia|lia|done|done| |].
    { unfold extends in *. cbn [length app] in *. split; [nia|]. destruct Hext as [|Hext]; [by left|right]. nia. }
    exists S3, b3, w3. split_and!; [|done|].
    + apply Hrun. eapply run_bind; [apply H2|]. by replace (cop + rem) with (cop + cnt + (rem - cnt)) by lia.
    + eapply (Hfin S1 S3 c' (l ++ ext)); try done. apply Hch1.
Qed.

(** ** Locating the offset *)

(** An offset at the very end of the chain allocates one more cluster. *)
Lemma run_skip_alloc fuel c l n fl skip S b w f :
  chain g S (c :: l) -> skip = Z.of_nat (length (c :: l)) * cb -> skip <= Z.of_nat fuel ->
  no_bad g S -> free_list g S = n :: fl -> 0 <= capacity f -> capacity f + cb <= UINT32_MAX ->
  exists b' l1 c', c :: l = l1 ++ [c'] /\ chain g S [c'] /\
    run (skip_clusters (advance_or_allocate_cluster cb) fuel skip cb c) (Ast S b w f) (Some (0, n))
      (Ast (alloc_fat g c' n S) b' w (set_capacity f (capacity f + cb))).
Proof.
  intros Hch Hskip Hfuel Hb Hf H0 Hcap. pose proof (cluster_bytes_pos g Hg) as Hcb.
  revert fuel c skip b Hch Hskip Hfuel. induction l as [|a l IH]; intros fuel c skip b Hch Hskip Hfuel.
  - cbn [length] in Hskip. destruct fuel as [|fuel]; [lia|].
    destruct (run_advance_alloc c n fl S b w f Hch Hb Hf H0 Hcap) as [b' H1].
    exists b', [], c. split; [done|]. split; [done|]. cbn [skip_clusters].
    destruct (Z.geb_spec skip cb); [|lia]. eapply run_bind; [apply H1|].
    replace (skip - cb) with 0 by lia. destruct fuel; cbn [skip_clusters];
      (destruct (Z.geb_spec 0 cb); [lia|apply run_ret]).
  - cbn [length] in Hskip. destruct fuel as [|fuel]; [nia|].
    destruct (run_advance_link c a l S b w f Hch) as [b1 H1].
    destruct (IH fuel a (skip - cb) b1) as (b' & l1 & c' & El & Hc' & H2);
      [apply Hch|cbn [length]; lia|lia|].
    exists b', (c :: l1), c'. rewrite El. split; [done|]. split; [done|]. cbn [skip_clusters].
    destruct (Z.geb_spec skip cb); [|nia]. eapply run_bind; [apply H1|apply H2].
Qed.

(** ** Putting the prefix of the chain back *)

Lemma file_patched_prefix S S2 l1 c l' at_ n src fl S3 :
  file_patched S2 (c :: l') at_ n src fl S3 -> 0 <= at_ ->
  (forall k, ~ (fat_start_lba g <= k < data_start_lba g) -> S2 k = S k) ->
  (forall a, is_cluster g a -> a ∉ l1 ++ c :: l' -> fat g S2 a = fat g S a) ->
  chain g S3 (l1 ++ c :: l') ->
  file_patched S (l1 ++ c :: l') (Z.of_nat (length l1) * cb + at_) n src fl S3.
Proof.
  intros [] Hat Hd Hf Hch. pose proof (cluster_bytes_pos g Hg) as Hcb.
  assert (Hdata : forall l k, chain g S3 l -> in_chain g l k -> S2 k = S k).
  { intros l k Hl Hk. apply Hd. pose proof (in_chain_data g Hg S3 l k Hl Hk). lia. }
  split; try done.
  - intros p Hp. rewrite length_app in Hp.
    destruct (Z_lt_le_dec p (Z.of_nat (length l1) * cb)) as [Hlt|Hge].
    + rewrite !(fbyte_app_l g Hg) by lia.
      destruct (Z.leb_spec (Z.of_nat (length l1) * cb + at_) p); [lia|]. cbn [andb].
      apply (fbyte_ext g Hg); [lia|]. intros k (c' & s & Hc' & Hs & ->).
      assert (Hcl : is_cluster g c') by (apply (chain_cluster g S3 (l1 ++ c :: l')); [done|set_solver]).
      pose proof (data_lba_range g Hg c' s Hcl Hs). rewrite fp_frame0; [apply Hd; lia|lia|].
      intros (c2 & s2 & Hc2 & Hs2 & E). apply data_lba_inj in E as [-> _]; [|done..].
      apply chain_NoDup, NoDup_app in Hch as (_ & Hdis & _); [|done]. by destruct (Hdis c2).
    + replace p with (Z.of_nat (length l1) * cb + (p - Z.of_nat (length l1) * cb)) at 1 5 by lia.
      rewrite !(fbyte_app g Hg) by lia. rewrite fp_bytes0 by lia.
      destruct (Z.leb_spec at_ (p - Z.of_nat (length l1) * cb)),
        (Z.ltb_spec (p - Z.of_nat (length l1) * cb) (at_ + n)),
        (Z.leb_spec (Z.of_nat (length l1) * cb + at_) p),
        (Z.ltb_spec p (Z.of_nat (length l1) * cb + at_ + n)); cbn [andb]; try lia.
      1: f_equal; lia.
      all: apply (fbyte_ext g Hg); [lia|]; intros k Hk; by apply (Hdata (c :: l')).
  - intros a Ha Hni. rewrite fp_fat0 by (done || set_solver). by apply Hf.
  - intros k Hk Hni. rewrite fp_frame0; [by apply Hd|done|]. intros (c' & s & Hc' & Hs & ->).
    apply Hni. exists c', s. set_solver.
Qed.

Lemma run_patch_dir {X} lba patch S b w (x : X) :
  0 <= lba < total_sectors g -> length (patch (S lba)) = 512%nat ->
  run (patch_dir lba patch) (Ast S b w x) (Some tt) (Ast (upd lba (patch (S lba)) S) (patch (S lba)) w x).
Proof.
  intros Hl Hlen. eapply run_bind; [by apply run_read_sector|].
  apply run_get. intros fs (_ & _ & _ & _ & -> & _). eapply run_bind; [by apply run_fsector|].
  apply run_get. intros fs' (_ & _ & _ & _ & -> & _). by eapply run_write_sector.
Qed.

(** Clusters before the current one are neither ahead in the chain nor free. *)
Lemma prefix_fresh S l1 c l2 ext rest a :
  chain g S (l1 ++ c :: l2) -> free_list g S = ext ++ rest -> a ∈ l1 -> is_cluster g a /\ a ∉ c :: l2 ++ ext.
Proof.
  intros Hch Hf Ha. split; [apply (chain_cluster g S (l1 ++ c :: l2)); [done|set_solver]|].
  pose proof (chain_NoDup g Hg _ _ Hch) as Hnd. apply NoDup_app in Hnd as (_ & Hdis & _).
  change (c :: l2 ++ ext) with ((c :: l2) ++ ext). intros [Hin|Hin]%elem_of_app; [by apply (Hdis a Ha)|].
  apply (chain_not_free g S (l1 ++ c :: l2) a Hch); [set_solver|].
  apply (free_list_spec g S a). rewrite Hf. set_solver.
Qed.

(** The data part of fat32_write: locate the offset, then write. *)
Definition data_written buffer c l ext rest offset count S b w f : Prop :=
  exists skip cluster s1 S' b' w',
    run (skip_clusters (advance_or_allocate_cluster cb) (Z.to_nat offset) offset cb c) (Ast S b w f)
      (Some (skip, cluster)) s1 /\
    run (write_clusters (Z.to_nat count) buffer cluster skip count 0) s1 (Some count)
      (Ast S' b' w' (set_capacity f (capacity f + Z.of_nat (length ext) * cb))) /\
    length w' = 512%nat /\ file_patched S (c :: l ++ ext) offset count (byte_at buffer) rest S'.

Section Data.
Context (buffer : list Z) (c : Z) (l ext rest : list Z) (offset count : Z).
Context (S : Z -> list Z) (b w : list Z) (f : fat32_file).
Context (Hch : chain g S (c :: l)) (Hb : no_bad g S) (Hf : free_list g S = ext ++ rest).
Context (HS : forall k, length (S k) = 512%nat) (Hw : length w = 512%nat).
Context (Hcap : capacity f = Z.of_nat (length (c :: l)) * cb) (Hcount : 0 < count).
Context (Hmax : capacity f + Z.of_nat (length ext) * cb <= UINT32_MAX).
Context (Hx : extends (c :: l) ext (offset + count)).

Lemma run_write_inside : 0 <= offset < capacity f -> data_written buffer c l ext rest offset count S b w f.
Proof.
  intros Hlt. pose proof (cluster_bytes_pos g Hg) as Hcb.
  destruct (run_skip R (Some wr) g Hg (advance_or_allocate_cluster cb) (Z.to_nat offset) c l offset S b w f)
    as (b1 & l1 & c' & l2 & El & Hch2 & Hs & H1); [|done|lia|lia|].
  { intros c1 c2 l0 b0 Hc0. by eapply run_advance_link. }
  cbv zeta in *. set (skip := offset - Z.of_nat (length l1) * cb) in *.
  pose proof (f_equal length El) as Elen. rewrite length_app in Elen.
  destruct (run_write_clusters (Z.to_nat count) buffer c' l2 ext rest skip count 0 S b1 w f)
    as (S' & b' & w' & H2 & Hw' & Hp); [done|done|done|done|done|lia|lia|lia|lia|done| |].
  { destruct Hx as [Hx1 Hx2]. unfold extends in *. rewrite length_app in *. cbn [length] in *. split; [nia|].
    destruct Hx2 as [|Hx2']; [by left|right]. nia. }
  eexists _, _, _, S', b', w'. split; [apply H1|]. split; [apply H2|]. split; [done|].
  change (c :: l ++ ext) with ((c :: l) ++ ext). rewrite El, <- app_assoc. cbn [app].
  replace offset with (Z.of_nat (length l1) * cb + skip) by lia.
  apply (file_patched_prefix S S); [done|lia|done|done|].
  apply (chain_glue g Hg S S' l1 c' l2); [by rewrite <- El| |apply Hp].
  intros a Ha. assert (Hch' := Hch). rewrite El in Hch'.
  destruct (prefix_fresh S l1 c' l2 ext rest a) as [Hca Hni]; [done..|].
  by apply (fp_fat _ _ _ _ _ _ _ Hp).
Qed.

Lemma run_write_at_end : 0 <= offset -> offset = capacity f -> data_written buffer c l ext rest offset count S b w f.
Proof.
  intros H0 Eo. pose proof (cluster_bytes_pos g Hg) as Hcb. destruct Hx as [Hx1 Hx2].
  destruct ext as [|n ext']; [rewrite app_nil_r in Hx1; lia|]. cbn [app] in Hf.
  assert (Hn : is_cluster g n /\ fat g S n = 0) by (apply free_list_spec; rewrite Hf; set_solver).
  destruct (run_skip_alloc (Z.to_nat offset) c l n (ext' ++ rest) offset S b w f)
    as (b1 & l1 & c' & El & Hch2 & H1); [done|lia|lia|done|done|lia|cbn [length] in Hmax; nia|].
  assert (Htail : chain_tail g S c') by (right; apply Hch2).
  assert (Hc' : is_cluster g c') by apply Hch2.
  assert (Hfat2 : forall a, is_cluster g a -> fat g (alloc_fat g c' n S) a =
    if a =? n then FAT32_CLUSTER_EOC else if a =? c' then n else fat g S a)
    by (intros a Ha; apply alloc_fat_spec; done || apply Hn).
  set (S2 := alloc_fat g c' n S) in *. set (f2 := set_capacity f (capacity f + cb)) in *.
  destruct (run_write_clusters (Z.to_nat count) buffer n [] ext' rest 0 count 0 S2 b1 w f2)
    as (S' & b' & w' & H2 & Hw' & Hp);
    [|by apply no_bad_alloc; try apply Hn|by apply free_list_alloc|by apply alloc_fat_len|done|lia|lia|lia| | | |].
  { split; [apply Hn|]. rewrite Hfat2, Z.eqb_refl by apply Hn. done. }
  { unfold f2. cbn. lia. }
  { unfold f2. cbn [capacity set_capacity]. cbn [length] in Hmax. nia. }
  { unfold extends. cbn [length app] in *. rewrite !length_app in *. cbn [length] in *. split; [nia|].
    right. destruct Hx2 as [|Hx2']; [done|]. nia. }
  eexists _, _, _, S', b', w'. split; [apply H1|]. split; [|split; [done|]].
  { replace (set_capacity f _) with (set_capacity f2 (capacity f2 + Z.of_nat (length ext') * cb)); [apply H2|].
    unfold f2, set_capacity. cbn [capacity first_cluster dir_lba dir_offset size length]. f_equal. lia. }
  change (c :: l ++ n :: ext') with ((c :: l) ++ n :: ext').
  replace offset with (Z.of_nat (length (c :: l)) * cb + 0) by lia.
  assert (Hch' := Hch). rewrite El in Hch'.
  assert (Hkeep : forall a, is_cluster g a -> a ∉ [c'; n] -> fat g S2 a = fat g S a).
  { intros a Ha Hni. rewrite Hfat2 by done.
    rewrite (proj2 (Z.eqb_neq a n)), (proj2 (Z.eqb_neq a c')) by set_solver. done. }
  pose proof (chain_head_fresh S c' [] (n :: ext') rest Hch2 Hf) as Hfresh. cbn [app] in Hfresh.
  apply (file_patched_prefix S S2); [done|lia|intros k Hk; by apply alloc_fat_other| |].
  - intros a Ha Hni. apply Hkeep; [done|]. rewrite El in Hni. set_solver.
  - rewrite El, <- app_assoc. cbn [app]. apply (chain_glue g Hg S S' l1 c' []); [done| |].
    + intros a Ha. destruct (prefix_fresh S l1 c' [] (n :: ext') rest a) as [Hca Hni]; [done..|].
      cbn [app] in Hni. rewrite (fp_fat _ _ _ _ _ _ _ Hp); [|done|cbn [app]; set_solver].
      apply Hkeep; [done|set_solver].
    + split; [done|]. split; [|apply Hp]. rewrite (fp_fat _ _ _ _ _ _ _ Hp) by done.
      rewrite Hfat2, Z.eqb_refl by done. by rewrite (proj2 (Z.eqb_neq c' n)) by set_solver.
Qed.

Lemma run_write_data : 0 <= offset <= capacity f -> data_written buffer c l ext rest offset count S b w f.
Proof.
  intros Hoff. destruct (Z.eq_dec offset (capacity f)).
  - apply run_write_at_end; lia.
  - apply run_write_inside. lia.
Qed.
End Data.

(** ** The whole call *)

Section Whole.
Context (S : Z -> list Z) (b w buffer : list Z) (file : fat32_file) (l ext rest : list Z) (offset count : Z).
Abbreviation clusters := (first_cluster file :: l).
Context (Hlen : forall k, length (S k) = 512%nat) (Hw : length w = 512%nat).
Context (Hchain : chain g S clusters) (Hbad : no_bad g S) (Hfree : free_list g S = ext ++ rest).
Context (Hcap : capacity file = Z.of_nat (length clusters) * cb) (Hsize : size file <= capacity file).
Context (Hoff : 0 <= offset <= size file) (Hcount : 0 <= count).
Context (Hneed : extends clusters ext (offset + count)).
Context (Hmax : Z.of_nat (length (clusters ++ ext)) * cb <= UINT32_MAX).
Context (Hdir : data_start_lba g <= dir_lba file < total_sectors g) (Hent : 0 <= dir_offset file <= 480).
Context (Hsep : ~ in_chain g (clusters ++ ext) (dir_lba file)).

(** The disk after the write: the data, then the size in the directory. *)
Definition with_size S1 : Z -> list Z :=
  upd (dir_lba file) (put_le32 (S1 (dir_lba file)) (dir_offset file + 28) (offset + count)) S1.

Definition written_file : fat32_file :=
  FatFile (first_cluster file) (dir_lba file) (dir_offset file)
    (Z.of_nat (length (clusters ++ ext)) * cb) (offset + count).

Lemma new_size_u32 : u32 (offset + count) = offset + count.
Proof. apply u32_id. destruct Hneed as [Hn _]. unfold UINT32_MAX in Hmax. lia. Qed.

Lemma run_size_patch {X} S1 b1 w1 (x : X) :
  (forall k, length (S1 k) = 512%nat) ->
  exists b2, run (patch_dir (dir_lba file) (fun s => put_le32 s (dir_offset file + 28) (offset + count)))
    (Ast S1 b1 w1 x) (Some tt) (Ast (with_size S1) b2 w1 x).
Proof.
  intros HS1. eexists. apply run_patch_dir; [destruct Hg; nia|]. by autorewrite with armonios_rw.
Qed.

Lemma run_fat32_write :
  exists S1 b' w', run (fat32_write offset buffer count) (Ast S b w file) (Some count)
      (Ast (with_size S1) b' w' written_file) /\
    length w' = 512%nat /\
    file_patched S (clusters ++ ext) offset count (byte_at buffer) rest S1.
Proof.
  assert (Hc : is_cluster g (first_cluster file)) by apply Hchain.
  assert (Hguard : (offset >? size file) || (offset >? capacity file) || (dir_lba file >=? total_sectors g) ||
    (u32 (dir_offset file + 32) >? FAT32_SECTOR_SIZE) = false).
  { rewrite u32_id by lia. unfold FAT32_SECTOR_SIZE.
    rewrite !orb_false_iff, !Z.gtb_ltb, !Z.ltb_ge, Z.geb_leb, Z.leb_gt. lia. }
  rewrite <- !orb_assoc in Hguard.
  assert (Hstart : forall o s', run (
      if count =? 0 then
        patch_dir (dir_lba file) (fun s => put_le32 s (dir_offset file + 28) (u32 offset)) ;;!
        fset (set_size file (u32 offset)) ;;! fret 0
      else
      first_cluster_bootstrap ;;!
      let! file := fobj in
      let! fs := fget in
      let! (skip, cluster) :=
        skip_clusters (advance_or_allocate_cluster (cluster_bytes (geo fs))) (Z.to_nat offset) offset
          (cluster_bytes (geo fs)) (first_cluster file) in
      let! copied := write_clusters (Z.to_nat count) buffer cluster skip count 0 in
      let new_size := u32 (offset + copied) in
      patch_dir (dir_lba file) (fun s => put_le32 s (dir_offset file + 28) new_size) ;;!
      let! file := fobj in
      fset (set_size file new_size) ;;!
      fret copied) (Ast S b w file) o s' -> run (fat32_write offset buffer count) (Ast S b w file) o s').
  { intros o s' Hrun. apply run_get. intros fs (_ & -> & -> & -> & _). apply run_obj. cbn [a_obj is_null negb orb].
    rewrite <- !orb_assoc, Hguard. exact Hrun. }
  destruct (Z.eqb_spec count 0) as [E0|E0].
  - assert (ext = []) as Eext.
    { destruct Hneed as [_ [|Hx]]; [done|]. rewrite length_app in Hx. pose proof (cluster_bytes_pos g Hg).
      destruct ext; [done|]. cbn [length] in Hx, Hcap. nia. }
    destruct (run_size_patch S b w file Hlen) as [b2 H2]. exists S, b2, w. split; [|split; [done|]].
    + apply Hstart. assert (u32 offset = offset + count) as ->.
      { rewrite <- new_size_u32. f_equal. lia. }
      eapply run_bind; [apply H2|]. apply run_set.
      replace (Some count) with (Some 0) by congruence.
      replace (set_size file (offset + count)) with written_file; [apply run_ret|].
      unfold written_file, set_size. by rewrite Eext, app_nil_r, Hcap.
    + rewrite Eext in *. rewrite app_nil_r, E0. replace rest with (free_list g S) by done. by apply file_patched_nil.
  - destruct (run_write_data buffer (first_cluster file) l ext rest offset count S b w file)
      as (skip & cl & s1 & S1 & b1 & w1 & H1 & H2 & Hw1 & Hp); try done; [lia| |lia|].
    { rewrite length_app in Hmax. lia. }
    destruct (run_size_patch S1 b1 w1 (set_capacity file (capacity file + Z.of_nat (length ext) * cb)))
      as [b2 H3]; [apply Hp|].
    exists S1, b2, w1. split; [|split; [done|exact Hp]]. apply Hstart.
    eapply run_bind.
    { apply run_obj. cbn [a_obj]. replace (first_cluster file <? 2) with false by (destruct Hc; lia). apply run_ret. }
    apply run_obj, run_get. intros fs (_ & _ & -> & _). cbn [a_obj].
    eapply run_bind; [apply H1|]. eapply run_bind; [apply H2|]. cbv zeta. rewrite new_size_u32.
    eapply run_bind; [apply H3|]. apply run_obj, run_set. cbn [a_obj].
    replace (set_size _ _) with written_file; [apply run_ret|].
    unfold written_file, set_size, set_capacity. cbn [first_cluster dir_lba dir_offset capacity size].
    rewrite length_app. f_equal. lia.
Qed.

Lemma with_size_other S1 k : k <> dir_lba file -> with_size S1 k = S1 k.
Proof. intros Hk. unfold with_size, upd. by rewrite (proj2 (Z.eqb_neq _ _) Hk). Qed.

Lemma with_size_chain S1 : chain g S1 (clusters ++ ext) -> chain g (with_size S1) (clusters ++ ext).
Proof. apply (chain_data_ext g Hg). intros k Hk. apply with_size_other. lia. Qed.

Lemma with_size_bytes S1 p :
  0 <= p < Z.of_nat (length (clusters ++ ext)) * cb ->
  fbyte g (with_size S1) (clusters ++ ext) p = fbyte g S1 (clusters ++ ext) p.
Proof.
  intros Hp. apply (fbyte_ext g Hg); [done|]. intros k Hk. apply with_size_other. by intros ->.
Qed.

Lemma written_bytes S1 p :
  file_patched S (clusters ++ ext) offset count (byte_at buffer) rest S1 -> 0 <= p < offset + count ->
  fbyte g (with_size S1) (clusters ++ ext) p = if p <? offset then fbyte g S clusters p else byte_at buffer (p - offset).
Proof.
  intros Hp Hr. destruct Hneed as [Hn _]. rewrite with_size_bytes by lia.
  rewrite (fp_bytes _ _ _ _ _ _ _ Hp) by lia.
  destruct (Z.leb_spec offset p), (Z.ltb_spec p (offset + count)), (Z.ltb_spec p offset); cbn [andb]; try lia.
  apply (fbyte_app_l g Hg). lia.
Qed.

(** C27: fat32_write does what a write at an offset means on this driver, also
    when the file must grow: it writes all the bytes, the file becomes its old
    contents up to the offset followed by the written bytes, its chain is the
    old one extended by exactly the clusters needed, taken from the lowest free
    ones, the directory entry records the new size, and every table entry and
    sector that belongs to other files is as before. *)
Theorem fat32_write_contents :
  exists S' b' w',
    run (fat32_write offset buffer count) (Ast S b w file) (Some count) (Ast S' b' w' written_file) /\
    chain g S' (clusters ++ ext) /\
    (forall p, 0 <= p < offset + count -> fbyte g S' (clusters ++ ext) p =
       if p <? offset then fbyte g S clusters p else byte_at buffer (p - offset)) /\
    le32_at (S' (dir_lba file)) (dir_offset file + 28) = offset + count /\
    (forall c, is_cluster g c -> c ∉ clusters ++ ext -> fat g S' c = fat g S c) /\
    (forall k, ~ (fat_start_lba g <= k < data_start_lba g) -> ~ in_chain g (clusters ++ ext) k ->
       k <> dir_lba file -> S' k = S k).
Proof.
  destruct run_fat32_write as (S1 & b' & w' & Hr & _ & Hp). exists (with_size S1), b', w'.
  split; [done|]. split; [apply with_size_chain, Hp|]. split; [intros p; by apply written_bytes|]. split_and!.
  - unfold with_size, upd. rewrite Z.eqb_refl, le32_put_eq; [done|lia| |].
    + rewrite (fp_len _ _ _ _ _ _ _ Hp). lia.
    + pose proof (u32_range (offset + count)). rewrite new_size_u32 in *. done.
  - intros c Hc Hni. rewrite <- (fp_fat _ _ _ _ _ _ _ Hp) by done. apply (fat_ext g Hg); [done|].
    intros k Hk. apply with_size_other. lia.
  - intros k Hk Hni Hne. rewrite with_size_other by done. by apply (fp_frame _ _ _ _ _ _ _ Hp).
Qed.

(** What is written can be read back: after a successful fat32_write, also
    one that grew the file, fat32_read at the same offset returns exactly the
    written bytes. *)
Theorem fat32_write_read (dst : list Z) (Hdst : count <= Z.of_nat (length dst)) :
  exists S' b' w' b2 dst',
    run (fat32_write offset buffer count) (Ast S b w file) (Some count) (Ast S' b' w' written_file) /\
    run (fat32_read written_file offset count) (Ast S' b' w' dst) (Some count) (Ast S' b2 w' dst') /\
    (forall j, 0 <= j < count -> byte_at dst' j = byte_at buffer j) /\
    (forall j, count <= j -> byte_at dst' j = byte_at dst j).
Proof.
  destruct run_fat32_write as (S1 & b' & w' & Hr & _ & Hp).
  pose proof (run_fat32_read R (Some wr) g Hg (with_size S1) b' w' dst written_file (l ++ ext) offset count) as Hrd.
  cbn [first_cluster written_file size] in Hrd.
  replace (offset <=? offset + count) with true in Hrd by lia.
  replace (Z.min count (offset + count - offset)) with count in Hrd by lia. cbv zeta in Hrd.
  destruct Hneed as [Hn _].
  destruct Hrd as (b2 & dst' & H2 & _ & H3 & H4); [apply with_size_chain, Hp|cbn [length app] in *; lia|lia|lia|].
  exists (with_size S1), b', w', b2, dst'. split_and!; [done|done| |done].
  intros j Hj. rewrite H3 by done. change (first_cluster file :: l ++ ext) with (clusters ++ ext).
  rewrite written_bytes by (done || lia). replace (offset + j <? offset) with false by lia. f_equal. lia.
Qed.
End Whole.
End Write.
