(* ===== verification/Fat32Names.v ===== *)
(** Short names of the FAT32 driver: what make_short_name stores is what the
    listings print.  Then the loops that follow cluster chains without a bound of
    their own: they end on every disk, whatever the table holds. *)

From S2P Require Import Prelude.
From S2P Require Import Bytes.
From S2P Require Import Block.
From S2P Require Import Fat32.
Open Scope arm.

(** * Short names *)

(** The 11 bytes of a short name with base [b] and extension [e]. *)
Definition short_bytes (b e : list Z) : list Z :=
  b ++ replicate (8 - length b) 32 ++ e ++ replicate (3 - length e) 32.

Definition name_char (c : Z) : Prop := 32 < c < 256.

Lemma put_app_mid (a : list Z) x r v : put (Z.of_nat (length a)) v (a ++ x :: r) = a ++ v :: r.
Proof. unfold put. rewrite Nat2Z.id. rewrite insert_app_r_alt by lia. by rewrite Nat.sub_diag. Qed.

Lemma short_bytes_base b c :
  (length b < 8)%nat -> put (Z.of_nat (length b)) c (short_bytes b []) = short_bytes (b ++ [c]) [].
Proof.
  intros Hb. unfold short_bytes. replace (8 - length b)%nat with (S (8 - length (b ++ [c])))
    by (rewrite length_app; cbn; lia).
  cbn [replicate app]. rewrite put_app_mid. by rewrite <- app_assoc.
Qed.

Lemma short_bytes_ext b e c :
  (length b <= 8)%nat -> (length e < 3)%nat ->
  put (8 + Z.of_nat (length e)) c (short_bytes b e) = short_bytes b (e ++ [c]).
Proof.
  intros Hb He. unfold short_bytes. replace (3 - length e)%nat with (S (3 - length (e ++ [c])))
    by (rewrite length_app; cbn; lia).
  cbn [replicate]. rewrite !app_assoc.
  replace (8 + Z.of_nat (length e)) with (Z.of_nat (length ((b ++ replicate (8 - length b) 32) ++ e)))
    by (rewrite !length_app, length_replicate; lia).
  rewrite put_app_mid. by rewrite <- !app_assoc.
Qed.

(** The text of a name: base, and extension after a dot. *)
Definition dotted (b : list Z) (e : option (list Z)) : list Z :=
  b ++ match e with Some e => 46 :: e | None => [] end.

Lemma short_name_forbidden_char c : short_name_forbidden c = false -> 32 < c.
Proof. unfold short_name_forbidden. rewrite !orb_false_iff, Z.leb_gt. tauto. Qed.

Lemma ascii_upper_range c : is_u8 c -> 0 <= ascii_upper c < 256.
Proof. unfold is_u8, ascii_upper. intros ?. case_if; lia. Qed.

Lemma name_char_snoc t c : Forall name_char t -> name_char c -> Forall name_char (t ++ [c]).
Proof. intros Ht Hc. apply Forall_app. split; [done|by constructor]. Qed.

(** The loop invariant: the buffer holds what was read so far. *)
Lemma short_name_loop_spec name b e in_ext s :
  is_bytes name -> (length b <= 8)%nat -> (length e <= 3)%nat -> Forall name_char b -> Forall name_char e ->
  (in_ext = false -> e = []) ->
  short_name_loop name (short_bytes b e) (Z.of_nat (length b)) (Z.of_nat (length e)) in_ext = Some s ->
  exists b' e', s = short_bytes b' (default [] e') /\ Forall name_char b' /\ Forall name_char (default [] e') /\
    (0 < length b' <= 8)%nat /\ (length (default [] e') <= 3)%nat /\ (e' <> Some []) /\
    dotted b (if in_ext then Some e else None) ++ map ascii_upper name = dotted b' e'.
Proof.
  intros Hn. revert b e in_ext. induction name as [|ch name IH]; intros b e in_ext Hb He Fb Fe Hin; cbn [short_name_loop].
  { destruct (_ || _) eqn:E; [done|]. intros [= <-]. b2p.
    exists b, (if in_ext then Some e else None). cbn [map]. rewrite app_nil_r.
    destruct in_ext; cbn [andb] in *; [|rewrite (Hin eq_refl) in *];
      change (default [] (Some e)) with e; try change (default [] (@None (list Z))) with (@nil Z).
    - destruct H0 as [?|H0]; [done|]. split_and!; try done; try lia. intros [= ->]. done.
    - split_and!; try done; lia. }
  apply Forall_cons in Hn as [Hch Hn]. specialize (IH Hn). pose proof (ascii_upper_range ch Hch) as Hu.
  set (c := ascii_upper ch) in *. cbn [map]. fold c.
  destruct (Z.eqb_spec c 47); [done|]. destruct (Z.eqb_spec c 46) as [Ec|].
  - destruct (in_ext || _) eqn:E; [done|]. apply orb_false_iff in E as [-> E].
    rewrite (Hin eq_refl) in *. intros HL.
    apply (IH b [] true) in HL; [|done..]. destruct HL as (b' & e' & HL). exists b', e'.
    rewrite Ec. destruct HL as (? & ? & ? & ? & ? & ? & <-). split_and!; try done; try lia.
    unfold dotted. by rewrite app_nil_r, <- app_assoc.
  - destruct (short_name_forbidden c) eqn:Ef; [done|]. apply short_name_forbidden_char in Ef.
    rewrite u8_id by lia. assert (Hnc : name_char c) by (unfold name_char; lia). destruct in_ext; cbn [negb].
    + destruct (Z.geb_spec (Z.of_nat (length e)) 3); [done|]. rewrite short_bytes_ext by lia. intros HL.
      replace (Z.of_nat (length e) + 1) with (Z.of_nat (length (e ++ [c]))) in HL by (rewrite length_app; cbn; lia).
      apply IH in HL; [|done|rewrite length_app; cbn; lia|done|by apply name_char_snoc|done].
      destruct HL as (b' & e' & ? & ? & ? & ? & ? & ? & Ed). exists b', e'. rewrite <- Ed. split_and!; try done; try lia.
      unfold dotted. rewrite <- !app_assoc. cbn [app]. by rewrite <- app_assoc.
    + rewrite (Hin eq_refl) in *. destruct (Z.geb_spec (Z.of_nat (length b)) 8); [done|].
      rewrite short_bytes_base by lia. intros HL.
      replace (Z.of_nat (length b) + 1) with (Z.of_nat (length (b ++ [c]))) in HL by (rewrite length_app; cbn; lia).
      apply (IH (b ++ [c]) []) in HL; [|rewrite length_app; cbn; lia|done|by apply name_char_snoc|done|done].
      destruct HL as (b' & e' & ? & ? & ? & ? & ? & ? & Ed). exists b', e'. rewrite <- Ed. split_and!; try done; try lia.
      unfold dotted. by rewrite !app_nil_r, <- app_assoc.
Qed.

(** Trailing spaces are cut, and nothing else. *)
Lemma trim_end_spec entry base n (t : list Z) :
  (length t <= n)%nat -> 0 <= base -> Forall name_char t ->
  (forall i, (i < length t)%nat -> byte_at entry (base + Z.of_nat i) = byte_at t (Z.of_nat i)) ->
  (forall i, (length t <= i < n)%nat -> byte_at entry (base + Z.of_nat i) = 32) ->
  trim_end entry base n = Z.of_nat (length t).
Proof.
  induction n as [|n IH]; intros Hl Hb0 Ht H1 H2; cbn [trim_end]; [lia|].
  destruct (decide (length t = S n)) as [E|E].
  - rewrite H1 by lia. destruct (lookup_lt_is_Some_2 t n) as [v Hv]; [lia|].
    rewrite (byte_at_lookup t (Z.of_nat n) v) by (rewrite ?Nat2Z.id; done || lia).
    pose proof (Forall_lookup_1 _ _ _ _ Ht Hv) as Hc. unfold name_char in Hc.
    destruct (Z.eqb_spec v 32); [lia|]. lia.
  - rewrite H2 by lia. cbn. apply IH; try done; [lia|]. intros i Hi. apply H2. lia.
Qed.

Lemma byte_at_short b e i :
  (length b <= 8)%nat -> (length e <= 3)%nat -> 0 <= i < 11 ->
  byte_at (short_bytes b e) i =
  if i <? 8 then (if i <? Z.of_nat (length b) then byte_at b i else 32)
  else if i - 8 <? Z.of_nat (length e) then byte_at e (i - 8) else 32.
Proof.
  intros Hb He Hi. unfold short_bytes. rewrite byte_at_app by lia.
  destruct (Z.ltb_spec i (Z.of_nat (length b))).
  { by replace (i <? 8) with true by lia. }
  rewrite byte_at_app, length_replicate by lia.
  destruct (Z.ltb_spec (i - Z.of_nat (length b)) (Z.of_nat (8 - length b))).
  { replace (i <? 8) with true by lia. apply byte_at_replicate. lia. }
  replace (i <? 8) with false by lia. rewrite byte_at_app by lia.
  replace (i - Z.of_nat (length b) - Z.of_nat (8 - length b)) with (i - 8) by lia.
  destruct (Z.ltb_spec (i - 8) (Z.of_nat (length e))); [done|]. apply byte_at_replicate. lia.
Qed.

Lemma sub_bytes_short buf off t :
  0 <= off -> (Z.to_nat off + length t <= length buf)%nat ->
  (forall i, (i < length t)%nat -> byte_at buf (off + Z.of_nat i) = byte_at t (Z.of_nat i)) ->
  sub_bytes buf off (Z.of_nat (length t)) = t.
Proof.
  intros Ho Hl H. unfold sub_bytes. apply bytes_ext.
  - rewrite length_take, length_drop. lia.
  - intros j Hj. rewrite length_take, length_drop in Hj. rewrite byte_at_take, byte_at_drop by lia.
    rewrite <- (Z2Nat.id j) by lia. rewrite <- H by lia. f_equal. lia.
Qed.

Lemma short_name_text_spec b e attr tail :
  (0 < length b <= 8)%nat -> (length (default [] e) <= 3)%nat -> Forall name_char b ->
  Forall name_char (default [] e) -> e <> Some [] -> (attr &? FAT32_ATTR_DIRECTORY) = false ->
  short_name_text (short_bytes b (default [] e) ++ tail) attr = dotted b e ++ [10].
Proof.
  intros Hb He Fb Fe Hne Ha. set (x := default [] e) in *.
  assert (Hlen : length (short_bytes b x) = 11%nat).
  { unfold short_bytes. rewrite !length_app, !length_replicate. lia. }
  assert (Hat : forall i, 0 <= i < 11 -> byte_at (short_bytes b x ++ tail) i = byte_at (short_bytes b x) i).
  { intros i Hi. rewrite byte_at_app by lia. by replace (i <? Z.of_nat (length (short_bytes b x))) with true by lia. }
  assert (Hbase : forall i, (i < length b)%nat -> byte_at (short_bytes b x ++ tail) (0 + Z.of_nat i) = byte_at b (Z.of_nat i)).
  { intros i Hi. rewrite Hat, byte_at_short by lia. replace (0 + Z.of_nat i <? 8) with true by lia.
    by replace (0 + Z.of_nat i <? Z.of_nat (length b)) with true by lia. }
  assert (Hext : forall i, (i < length x)%nat -> byte_at (short_bytes b x ++ tail) (8 + Z.of_nat i) = byte_at x (Z.of_nat i)).
  { intros i Hi. rewrite Hat, byte_at_short by lia. replace (8 + Z.of_nat i <? 8) with false by lia.
    replace (8 + Z.of_nat i - 8) with (Z.of_nat i) by lia. by replace (Z.of_nat i <? Z.of_nat (length x)) with true by lia. }
  unfold short_name_text. rewrite Ha.
  rewrite (trim_end_spec _ 0 8 b), (trim_end_spec _ 8 3 x); try done; try lia.
  2: { intros i Hi. rewrite Hat, byte_at_short by lia. replace (8 + Z.of_nat i <? 8) with false by lia.
       by replace (8 + Z.of_nat i - 8 <? Z.of_nat (length x)) with false by lia. }
  2: { intros i Hi. rewrite Hat, byte_at_short by lia. replace (0 + Z.of_nat i <? 8) with true by lia.
       by replace (0 + Z.of_nat i <? Z.of_nat (length b)) with false by lia. }
  rewrite !sub_bytes_short by (try done; rewrite ?length_app; lia). unfold dotted.
  destruct e as [e|]; unfold x in *; [change (default [] (Some e)) with e in *|].
  - destruct e as [|c e]; [done|]. cbn [length]. destruct (Z.gtb_spec (Z.of_nat (S (length e))) 0); [|lia].
    cbn [app]. by rewrite <- app_assoc.
  - cbn. by rewrite app_nil_r.
Qed.

(** A leading slash is not part of the name. *)
Definition strip_slash (n : list Z) : list Z :=
  match n with c :: rest => if c =? 47 then rest else n | [] => [] end.

(** A short name is stored without loss: whenever make_short_name accepts a
    name, the 8.3 entry it builds is printed by the directory listings as the
    same name in upper case, so names stored alike differ in letter case only. *)
Theorem short_name_roundtrip (name tail : list Z) (attr : Z) (s : list Z)
    (Hbytes : is_bytes name) (Hname : make_short_name (Some name) = Some s)
    (Hattr : (attr &? FAT32_ATTR_DIRECTORY) = false) :
  length s = 11%nat /\
  short_name_text (s ++ tail) attr =
    map ascii_upper (strip_slash (str_cut name)) ++ [10].
Proof.
  unfold make_short_name in Hname.
  assert (Hcut : is_bytes (str_cut name)).
  { clear Hname. induction Hbytes as [|c n Hc _ IH]; [constructor|]. cbn. destruct (c =? 0); [constructor|by constructor]. }
  set (n := strip_slash (str_cut name)).
  assert (Hloop : is_bytes n /\ short_name_loop n (replicate 11 32) 0 0 false = Some s).
  { subst n. destruct (str_cut name) as [|c rest]; [done|]. apply Forall_cons in Hcut as [Hc Hr]. cbn [strip_slash].
    destruct (Z.eqb_spec c 47) as [->|Hne]; [by destruct rest|]. split; [by constructor|done]. }
  destruct Hloop as [Hn Hl].
  apply (short_name_loop_spec n [] [] false) in Hl as (b & e & -> & Fb & Fe & Hb & He & Hne & Ht);
    [|done|cbn; lia|cbn; lia|constructor|constructor|done].
  split.
  - unfold short_bytes. rewrite !length_app, !length_replicate. lia.
  - rewrite short_name_text_spec by done. by rewrite <- Ht.
Qed.

Lemma short_name_roundtrip_witness :
  short_name_text ([72; 73; 32; 32; 32; 32; 32; 32; 84; 88; 84] ++ replicate 21 0) 0x20 =
    map ascii_upper [104; 105; 46; 116; 120; 116] ++ [10].
Proof.
  exact (proj2 (short_name_roundtrip [47; 104; 105; 46; 116; 120; 116] (replicate 21 0) 0x20
    [72; 73; 32; 32; 32; 32; 32; 32; 84; 88; 84]
    ltac:(unfold is_bytes, is_u8; repeat (apply Forall_cons; split; [lia|]); exact (Forall_nil_2 _))
    ltac:(vm_compute; reflexivity) ltac:(vm_compute; reflexivity))).
Defined.

(** * Loops that follow a chain end *)

Section Termination.
Context {D : Type}.

(** Enough fuel is as good as any more. *)
Lemma skip_clusters_fuel {X : Type} (step : Z -> fm D X Z) cluster_size fuel1 fuel2 skip cluster st :
  0 < cluster_size -> skip <= Z.of_nat fuel1 -> skip <= Z.of_nat fuel2 ->
  skip_clusters step fuel1 skip cluster_size cluster st = skip_clusters step fuel2 skip cluster_size cluster st.
Proof.
  intros Hc. revert fuel2 skip cluster st.
  induction fuel1 as [|fuel1 IH]; intros [|fuel2] skip cluster st H1 H2; cbn [skip_clusters];
    destruct (Z.geb_spec skip cluster_size); try lia; try done.
  unfold fbind. destruct (step cluster st) as [[c|] st']; [|done]. apply IH; lia.
Qed.

(** Calls that keep the mounted geometry, whatever the disk answers. *)
Class KeepsGeo {X A : Type} (m : fm D X A) : Prop :=
  keeps_geo : forall st o st', m st = (o, st') -> geo (fst (fst st')) = geo (fst (fst st)).

#[local] Instance keeps_ret {X A} (a : A) : KeepsGeo (X := X) (fret a).
Proof. by intros st o st' [= <- <-]. Qed.
#[local] Instance keeps_fail {X A} : KeepsGeo (X := X) (A := A) ffail.
Proof. by intros st o st' [= <- <-]. Qed.
#[local] Instance keeps_get {X} : KeepsGeo (X := X) fget.
Proof. by intros st o st' [= <- <-]. Qed.
#[local] Instance keeps_obj {X} : KeepsGeo (X := X) fobj.
Proof. by intros st o st' [= <- <-]. Qed.
#[local] Instance keeps_set {X} (x : X) : KeepsGeo (fset x).
Proof. by intros st o st' [= <- <-]. Qed.
#[local] Instance keeps_bind {X A B} (m : fm D X A) (k : A -> fm D X B) :
  KeepsGeo m -> (forall a, KeepsGeo (k a)) -> KeepsGeo (fbind m k).
Proof.
  intros Hm Hk st o st'. unfold fbind. destruct (m st) as [[a|] st1] eqn:E.
  - intros E2. rewrite (Hk a _ _ _ E2). by eapply Hm.
  - intros [= <- <-]. by eapply Hm.
Qed.
#[local] Instance keeps_try {X A} (m : fm D X A) : KeepsGeo m -> KeepsGeo (ftry m).
Proof. intros Hm st o st'. unfold ftry. destruct (m st) eqn:E. intros [= <- <-]. by eapply Hm. Qed.
#[local] Instance keeps_sector {X} buf : KeepsGeo (X := X) (fsector buf).
Proof. by intros [[fs d] x] o st' [= <- <-]. Qed.
#[local] Instance keeps_wbuf {X} buf : KeepsGeo (X := X) (fwbuf buf).
Proof. by intros [[fs d] x] o st' [= <- <-]. Qed.
#[local] Instance keeps_read {X} lba : KeepsGeo (X := X) (read_sector lba).
Proof.
  apply keeps_bind; [apply _|]. intros fs. destruct (reader fs) as [r|]; [|apply _]. destruct (_ && _); [apply _|].
  intros [[fs' d] x] o st'. unfold load_sector. destruct (call_reader _ _ _ _) as [[s buf] d']. by intros [= <- <-].
Qed.
#[local] Instance keeps_write {X} lba buf : KeepsGeo (X := X) (write_sector lba buf).
Proof.
  apply keeps_bind; [apply _|]. intros fs. destruct (writer fs) as [r|]; [|apply _]. destruct (_ || _); [apply _|].
  intros [[fs' d] x] o st'. destruct (r lba buf d) as [s d']. by intros [= <- <-].
Qed.

(** Walk down the code of a call. *)
Ltac keeps := repeat first [apply _ | apply keeps_bind; intros |
  match goal with |- context [match ?b with _ => _ end] => destruct b end].

#[local] Instance keeps_fat_entry {X} c ch : KeepsGeo (X := X) (read_fat_entry c ch).
Proof. unfold read_fat_entry. keeps. Qed.
#[local] Instance keeps_fat_copies {X} n copy off v : KeepsGeo (X := X) (write_fat_copies n copy off v).
Proof. revert copy. induction n; intros; cbn [write_fat_copies]; keeps. Qed.
#[local] Instance keeps_write_entry {X} c v : KeepsGeo (X := X) (write_fat_entry c v).
Proof. unfold write_fat_entry. keeps. Qed.
#[local] Instance keeps_find_free {X} n c : KeepsGeo (X := X) (find_free_loop n c).
Proof. revert c. induction n; intros; cbn [find_free_loop]; keeps. Qed.
#[local] Instance keeps_allocate {X} prev : KeepsGeo (X := X) (allocate_cluster prev).
Proof. unfold allocate_cluster, find_free_cluster. keeps. Qed.
#[local] Instance keeps_advance size c : KeepsGeo (advance_or_allocate_cluster size c).
Proof. unfold advance_or_allocate_cluster. keeps. Qed.
#[local] Instance keeps_read_step {X} c : KeepsGeo (X := X) (read_step c).
Proof. unfold read_step. keeps. Qed.
#[local] Instance keeps_read_sectors n c s co rem cop : KeepsGeo (read_sectors n c s co rem cop).
Proof. revert s co rem cop. induction n; intros; cbn [read_sectors]; keeps. Qed.
#[local] Instance keeps_write_sectors n buf c s co rem cop : KeepsGeo (write_sectors n buf c s co rem cop).
Proof. revert s co rem cop. induction n; intros; cbn [write_sectors]; keeps. Qed.

(** Every cluster that is reached with bytes left to copy takes some of them. *)
Class Consumes {X : Type} (m : Z -> fm D X (Z * Z)) (strict : bool) : Prop :=
  consumes : forall rem st r st', 0 < rem -> m rem st = (Some r, st') ->
    0 <= fst r <= rem /\ (strict = true -> fst r < rem).

Lemma bind_Some {X A B} (m : fm D X A) (k : A -> fm D X B) st b st' :
  fbind m k st = (Some b, st') -> exists a st1, m st = (Some a, st1) /\ k a st1 = (Some b, st').
Proof. unfold fbind. destruct (m st) as [[a|] st1]; [|done]. eauto. Qed.

(** Strip the leading calls of a hypothesis on a successful run. *)
Ltac steps H := repeat (apply bind_Some in H as (? & ? & _ & H)).

Lemma read_sectors_progress n cluster sect co cop :
  0 <= co <= Z.of_nat n * 512 ->
  Consumes (fun rem => read_sectors n cluster sect co rem cop) (co <? Z.of_nat n * 512).
Proof.
  revert sect co cop. induction n as [|n IH]; intros sect co cop Hco rem st r st' Hrem; cbn [read_sectors].
  { intros [= <- _]. cbn [fst]. split; [lia|]. intros Hs%Z.ltb_lt. lia. }
  destruct (Z.gtb_spec rem 0); [|lia]. unfold FAT32_SECTOR_SIZE. destruct (Z.geb_spec co 512).
  - intros HL. apply IH in HL as [HL1 HL2]; [|lia|lia]. split; [done|].
    intros Hs%Z.ltb_lt. apply HL2, Z.ltb_lt. lia.
  - intros HL. steps HL. set (cnt := Z.min (512 - co) rem) in *.
    destruct (Z.eq_dec (rem - cnt) 0) as [E|E].
    + rewrite E in HL. assert (r = (0, cop + cnt)) as ->; [|cbn [fst]; lia].
      destruct n; cbn [read_sectors] in HL; by injection HL.
    + apply IH in HL as [HL _]; lia.
Qed.

Lemma write_sectors_progress n buf cluster sect co cop :
  0 <= co <= Z.of_nat n * 512 ->
  Consumes (fun rem => write_sectors n buf cluster sect co rem cop) (co <? Z.of_nat n * 512).
Proof.
  revert sect co cop. induction n as [|n IH]; intros sect co cop Hco rem st r st' Hrem; cbn [write_sectors].
  { intros [= <- _]. cbn [fst]. split; [lia|]. intros Hs%Z.ltb_lt. lia. }
  destruct (Z.gtb_spec rem 0); [|lia]. unfold FAT32_SECTOR_SIZE. destruct (Z.geb_spec co 512).
  - intros HL. apply IH in HL as [HL1 HL2]; [|lia|lia]. split; [done|].
    intros Hs%Z.ltb_lt. apply HL2, Z.ltb_lt. lia.
  - intros HL. steps HL. set (cnt := Z.min (512 - co) rem) in *.
    destruct (Z.eq_dec (rem - cnt) 0) as [E|E].
    + rewrite E in HL. assert (r = (0, cop + cnt)) as ->; [|cbn [fst]; lia].
      destruct n; cbn [write_sectors] in HL; by injection HL.
    + apply IH in HL as [HL _]; lia.
Qed.

Definition spc {X : Type} (st : fat32_fs D * D * X) : Z := sectors_per_cluster (geo (fst (fst st))).

Lemma read_clusters_fuel fuel1 fuel2 cluster skip rem cop st :
  0 < spc st -> 0 <= skip < spc st * 512 -> rem <= Z.of_nat fuel1 -> rem <= Z.of_nat fuel2 ->
  read_clusters fuel1 cluster skip rem cop st = read_clusters fuel2 cluster skip rem cop st.
Proof.
  revert fuel2 cluster skip rem cop st.
  induction fuel1 as [|fuel1 IH]; intros [|fuel2] cluster skip rem cop st Hs Hsk H1 H2; cbn [read_clusters];
    destruct (Z.gtb_spec rem 0); try lia; try done.
  unfold fbind at 1 4, fget. unfold fbind at 1 3.
  destruct (read_sectors _ cluster 0 skip rem cop st) as [[[rem' cop']|] st1] eqn:E; [|done].
  pose proof (keeps_geo _ _ _ E) as Hg1.
  apply read_sectors_progress in E as [Hr1 Hr2]; [|unfold spc in *; lia|lia]. cbn [fst] in *.
  destruct (Z.gtb_spec rem' 0); [|done]. unfold fbind.
  destruct (read_step cluster st1) as [[c|] st2] eqn:E2; [|done]. pose proof (keeps_geo _ _ _ E2) as Hg2.
  assert (spc st2 = spc st) by (unfold spc; by rewrite Hg2, Hg1).
  assert (rem' < rem) by (apply Hr2, Z.ltb_lt; unfold spc in *; lia). apply IH; lia.
Qed.

Lemma write_clusters_fuel fuel1 fuel2 buf cluster skip rem cop st :
  0 < spc st -> 0 <= skip < spc st * 512 -> rem <= Z.of_nat fuel1 -> rem <= Z.of_nat fuel2 ->
  write_clusters fuel1 buf cluster skip rem cop st = write_clusters fuel2 buf cluster skip rem cop st.
Proof.
  revert fuel2 cluster skip rem cop st.
  induction fuel1 as [|fuel1 IH]; intros [|fuel2] cluster skip rem cop st Hs Hsk H1 H2; cbn [write_clusters];
    destruct (Z.gtb_spec rem 0); try lia; try done.
  destruct (_ || _); [done|]. unfold fbind at 1 4, fget. unfold fbind at 1 3.
  destruct (write_sectors _ buf cluster 0 skip rem cop st) as [[[rem' cop']|] st1] eqn:E; [|done].
  pose proof (keeps_geo _ _ _ E) as Hg1.
  apply write_sectors_progress in E as [Hr1 Hr2]; [|unfold spc in *; lia|lia]. cbn [fst] in *.
  destruct (Z.gtb_spec rem' 0); [|done]. unfold fbind.
  destruct (advance_or_allocate_cluster _ cluster st1) as [[c|] st2] eqn:E2; [|done].
  pose proof (keeps_geo _ _ _ E2) as Hg2.
  assert (spc st2 = spc st) by (unfold spc; by rewrite Hg2, Hg1).
  assert (rem' < rem) by (apply Hr2, Z.ltb_lt; unfold spc in *; lia). apply IH; lia.
Qed.

(** C28: The loops of fat32_read and fat32_write that carry no bound of their own
    end on every disk, also when callbacks fail and when the table is cyclic:
    each round of the skip loop advances by a cluster and each round of the
    copy loop transfers at least one byte, so as many rounds as there are bytes
    to skip and to transfer are enough, and more rounds change nothing. *)
Theorem fat32_loops_terminate {X : Type} (step : Z -> fm D X Z) (n1 n2 : nat) (buf : list Z)
    (cluster skip offset remaining copied : Z)
    (x : fat32_fs D * D * X) (r : fat32_fs D * D * list Z) (w : fat32_fs D * D * fat32_file)
    (Hn1 : offset <= Z.of_nat n1) (Hn2 : remaining <= Z.of_nat n2) (Hx : 0 < spc x)
    (Hr : 0 <= skip < spc r * 512) (Hw : 0 <= skip < spc w * 512) :
  skip_clusters step n1 offset (cluster_bytes (geo (fst (fst x)))) cluster x =
    skip_clusters step (Z.to_nat offset) offset (cluster_bytes (geo (fst (fst x)))) cluster x /\
  read_clusters n2 cluster skip remaining copied r =
    read_clusters (Z.to_nat remaining) cluster skip remaining copied r /\
  write_clusters n2 buf cluster skip remaining copied w =
    write_clusters (Z.to_nat remaining) buf cluster skip remaining copied w.
Proof.
  split_and!.
  - apply skip_clusters_fuel; [|lia..]. unfold cluster_bytes, FAT32_SECTOR_SIZE, spc in *. lia.
  - apply read_clusters_fuel; lia.
  - apply write_clusters_fuel; lia.
Qed.
End Termination.
