(* ===== verification/Fat32Readdir.v ===== *)
(** Directory reading of the FAT32 driver over a working disk: what
    fat32_readdir_path reports when the directory holds a file with clusters,
    whose look-up reuses the sector buffer the entries are read from. *)

From S2P Require Import Prelude.
From S2P Require Import Bytes.
From S2P Require Import Block.
From S2P Require Import Fat32.
From S2P Require Import Fat32Dir.
From S2P Require Import Fat32Disk.
From S2P Require Import Fat32Alloc.
From S2P Require Import Fat32Names.
Open Scope arm.

(** * The entries of a directory sector *)

(** Deleted entries, long names, volume labels, "." and "..". *)
Definition passed_over (s : list Z) (off : Z) : bool :=
  let entry := drop (Z.to_nat off) s in
  (byte_at entry 0 =? 0xe5) || (byte_at entry 11 =? FAT32_ATTR_LONG_NAME) ||
  (byte_at entry 11 &? FAT32_ATTR_VOLUME_ID) || dir_is_dot_entry entry.

(** The offsets of the files and directories among the [n] entries from [off]
    on: up to the end mark, a zero first byte. *)
Fixpoint live_entries (n : nat) (s : list Z) (off : Z) : list Z :=
  match n with
  | O => []
  | S n' =>
      if byte_at s off =? 0 then []
      else (if passed_over s off then [] else [off]) ++ live_entries n' s (off + 32)
  end.

(** What a directory reader is told about a file: its text name, size and attributes. *)
Definition file_dirent (s : list Z) (off : Z) (old : fat32_dirent) : fat32_dirent :=
  FatDirent (snd (dir_copy_name (drop (Z.to_nat off) s) (fd_name old)))
    (le32_at s (off + 28)) (byte_at s (off + 11)).

(** An entry of a regular file with a name, whose first cluster is [c]. *)
Definition file_entry (s : list Z) (off c : Z) : Prop :=
  trim_end (drop (Z.to_nat off) s) 0 8 <> 0 /\ byte_at s (off + 11) &? FAT32_ATTR_DIRECTORY = false /\
  entry_cluster s off = c.

Lemma name_append_fits name out bytes :
  0 <= out -> out + Z.of_nat (length bytes) < FAT32_SHORT_NAME_MAX -> fst (fst (name_append name out bytes)) = true.
Proof.
  unfold FAT32_SHORT_NAME_MAX. revert name out. induction bytes as [|v bytes IH]; intros name out H0 Hl; [done|].
  cbn [name_append length] in *. unfold FAT32_SHORT_NAME_MAX. destruct (Z.geb_spec (out + 1) 13); [lia|]. apply IH; lia.
Qed.

Lemma trim_end_range entry base n : 0 <= trim_end entry base n <= Z.of_nat n.
Proof. induction n as [|n IH]; cbn [trim_end]; [lia|]. case_match; lia. Qed.

(** A short name always fits the thirteen bytes of an entry's name. *)
Lemma dir_copy_name_fits entry name : trim_end entry 0 8 <> 0 -> fst (dir_copy_name entry name) = true.
Proof.
  intros Hn. unfold dir_copy_name. rewrite (proj2 (Z.eqb_neq _ _) Hn).
  pose proof (trim_end_range entry 0 8). pose proof (trim_end_range entry 8 3).
  match goal with |- context [name_append name 0 ?l] => pose proof (name_append_fits name 0 l ltac:(lia)) as Hf;
    destruct (name_append name 0 l) as [[f o] nm] eqn:E; assert (Z.of_nat (length l) < 13) end.
  { rewrite length_app. unfold sub_bytes. case_match; cbn [length]; rewrite ?length_take, ?length_drop; lia. }
  cbn in Hf. by rewrite Hf.
Qed.

Section Readdir.
Context {D : Type} (R : sector_reader D) (wr : sector_write_fn (D := D)) (g : geometry).
Context `{!GoodDisk R (Some wr) (total_sectors g)} (Hg : geo_ok g).
Implicit Types (S : Z -> list Z) (b w : list Z).
Abbreviation run := (run R (Some wr) g).
Abbreviation is_cluster := (is_cluster g).
Abbreviation chain := (chain g).
Abbreviation fat_lba := (fat_lba g).

(** ** Sectors and the table *)

Lemma run_dir_read_sector {X} lba S b w (x : X) :
  0 <= lba < total_sectors g -> run (dir_read_sector lba) (Ast S b w x) (Some tt) (Ast S (S lba) w x).
Proof.
  intros Hl. apply run_wf. intros _ fs d Hr. destruct Hr as [Hrd Hw Hge Hm Hb ? ? ? ? ?].
  pose proof (run_read_sector R (Some wr) g lba S b w x Hl fs d ltac:(by split)) as H.
  unfold read_sector, dir_read_sector, fbind, fget in *. cbn [fst] in *. rewrite Hrd, Hm, Hge in *.
  cbn [negb orb andb] in *. destruct (Z.geb_spec lba (total_sectors g)); [lia|exact H].
Qed.

Lemma run_dir_read_fat {X} c S b w (x : X) :
  is_cluster c ->
  run (dir_read_fat_entry c) (Ast S b w x) (fat_result g true (fat g S c)) (Ast S (S (fat_lba 0 c)) w x).
Proof.
  intros Hc. apply run_get. intros fs (_ & _ & -> & _). change (dir_cluster_is_data g c) with (cluster_is_data g c).
  rewrite is_cluster_data by done. cbn [negb].
  rewrite (fat_lba0_eq g Hg), (fat_offset_eq g Hg) by done. eapply run_bind.
  { apply run_dir_read_sector. pose proof (fat_lba_range g Hg 0 c Hc). pose proof (data_le_total g Hg).
    destruct Hg; lia. }
  apply run_get. intros fs' (_ & _ & -> & _ & -> & _). cbn [a_buf]. fold (fat g S c).
  unfold fat_result. cbn [andb].
  change (dir_cluster_is_data g) with (cluster_is_data g). change dir_cluster_is_eoc with cluster_is_eoc.
  destruct (_ || _); [apply run_fail|apply run_ret].
Qed.

Lemma last_cons_default {A} (l : list A) a c : default c (last (a :: l)) = default a (last l).
Proof. revert a c. induction l as [|v l IH]; intros a c; [done|]. change (last (a :: v :: l)) with (last (v :: l)). by rewrite !IH. Qed.

(** Following a chain leaves the table sector of its last cluster in the buffer. *)
Lemma run_dir_capacity n l c total S b w :
  chain S (c :: l) -> (length l < n)%nat ->
  total + Z.of_nat (Datatypes.S (length l)) * cluster_bytes g <= UINT32_MAX ->
  forall {X} (x : X), run (dir_capacity_loop n c total (cluster_bytes g)) (Ast S b w x)
    (Some (total + Z.of_nat (Datatypes.S (length l)) * cluster_bytes g))
    (Ast S (S (fat_lba 0 (default c (last l)))) w x).
Proof.
  assert (0 < cluster_bytes g) by (unfold cluster_bytes, FAT32_SECTOR_SIZE; destruct Hg; lia).
  revert n c total b. induction l as [|a l IH]; intros [|n] c total b Hch Hn Hmax X x; cbn in Hn; try lia.
  all: destruct Hch as [Hc Hch]; pose proof (run_dir_read_fat c S b w x Hc) as H1.
  all: cbn [dir_capacity_loop length] in *; destruct (Z.gtb_spec (total + cluster_bytes g) UINT32_MAX); [lia|].
  - rewrite fat_result_eoc in H1 by done. eapply run_bind; [apply H1|].
    change dir_cluster_is_eoc with cluster_is_eoc. rewrite Hch.
    replace (total + Z.of_nat 1 * cluster_bytes g) with (total + cluster_bytes g) by lia. apply run_ret.
  - destruct Hch as [E Hch]. assert (Ha : is_cluster a) by (apply (chain_cluster g S (a :: l)); [done|set_solver]).
    rewrite E, fat_result_link in H1 by done. eapply run_bind; [apply H1|].
    change dir_cluster_is_eoc with cluster_is_eoc. destruct (is_cluster_not_eoc g Hg a Ha) as [-> _].
    rewrite last_cons_default.
    replace (total + Z.of_nat (Datatypes.S (Datatypes.S (length l))) * cluster_bytes g)
      with (total + cluster_bytes g + Z.of_nat (Datatypes.S (length l)) * cluster_bytes g) by lia.
    apply IH; [done|lia|lia].
Qed.

(** The look-up of a file's information: its capacity is counted along the
    chain, in the buffer the entry itself was read from. *)
Lemma run_fill_info {X} lba off c l S b w (x : X) :
  file_entry b off c -> chain S (c :: l) ->
  Z.of_nat (length (c :: l)) * cluster_bytes g <= UINT32_MAX ->
  le32_at b (off + 28) <= Z.of_nat (length (c :: l)) * cluster_bytes g ->
  exists info, run (dir_fill_info lba off) (Ast S b w x) (Some info)
    (Ast S (S (fat_lba 0 (default c (last l)))) w x) /\
    pi_size info = le32_at b (off + 28) /\ pi_attributes info = byte_at b (off + 11).
Proof.
  intros (_ & Hd & Ec) Hch Hmax Hsz. pose proof (chain_length g Hg S _ Hch) as Hn. cbn [length] in *.
  exists (PathInfo c lba off (0 + Z.of_nat (Datatypes.S (length l)) * cluster_bytes g)
    (le32_at b (off + 28)) (byte_at b (off + 11))).
  split; [|done].
  apply run_get. intros fs (_ & _ & -> & _ & -> & _). cbn [a_buf]. rewrite Ec, Hd.
  change (dir_cluster_is_data g c) with (cluster_is_data g c).
  rewrite is_cluster_data by (done || apply Hch). cbn [negb]. rewrite andb_false_r.
  eapply run_bind.
  { apply run_get. intros fs1 (_ & _ & -> & _). change (dir_cluster_is_data g c) with (cluster_is_data g c).
    rewrite is_cluster_data by (done || apply Hch). cbn [negb].
    rewrite u32_id; [apply (run_dir_capacity _ l c 0); [done|lia|lia]|].
    destruct Hg. unfold FAT32_SECTOR_SIZE. lia. }
  destruct (Z.gtb_spec (le32_at b (off + 28)) (0 + Z.of_nat (Datatypes.S (length l)) * cluster_bytes g)); [lia|].
  apply run_ret.
Qed.

(** ** The entries loop *)

Lemma passed_over_spec s off :
  0 <= off ->
  (byte_at (drop (Z.to_nat off) s) 0 =? 0) = (byte_at s off =? 0) /\
  byte_at (drop (Z.to_nat off) s) 11 = byte_at s (off + 11).
Proof. intros H. rewrite !byte_at_drop, Z2Nat.id, Z.add_0_r by lia. done. Qed.

(** The visit of the file: it is reported, and the buffer is the table's. *)
Lemma run_visit_file start max lba off c l S b w x :
  0 <= off -> byte_at b off =? 0 = false -> passed_over b off = false -> 2 <= max ->
  file_entry b off c -> chain S (c :: l) ->
  Z.of_nat (length (c :: l)) * cluster_bytes g <= UINT32_MAX ->
  le32_at b (off + 28) <= Z.of_nat (length (c :: l)) * cluster_bytes g ->
  run (readdir_visit start max lba off (start, 0)) (Ast S b w x) (Some (Next (start + 1, 1)))
    (Ast S (S (fat_lba 0 (default c (last l)))) w (<[0%nat := file_dirent b off (fat_dirent_at x 0)]> x)).
Proof.
  intros H0 Hb Hp Hmax Hf Hch Hcap Hsz. unfold readdir_visit. apply run_get. intros fs (_ & _ & _ & _ & -> & _).
  cbn [a_buf]. destruct (passed_over_spec b off H0) as [-> _]. rewrite Hb. fold (passed_over b off). rewrite Hp.
  destruct (Z.ltb_spec start start); [lia|]. apply run_obj. cbn [a_obj].
  destruct (dir_copy_name _ _) as [fits nm] eqn:En.
  assert (fits = true) as -> by (pose proof (dir_copy_name_fits _ (fd_name (fat_dirent_at x 0)) (proj1 Hf)) as Hn; by rewrite En in Hn).
  apply run_set. cbn [negb].
  edestruct (run_fill_info lba off c l S b w
    (<[Z.to_nat 0 := FatDirent nm (fd_size (fat_dirent_at x 0)) (fd_attributes (fat_dirent_at x 0))]> x))
    as (info & Hi & E1 & E2); [done..|].
  eapply run_bind; [apply Hi|]. apply run_obj. apply run_set. cbn [a_obj].
  destruct (Z.eqb_spec (0 + 1) max); [lia|]. rewrite list_insert_insert_eq.
  unfold file_dirent. rewrite En, E1, E2. apply run_ret.
Qed.

Lemma run_readdir_entries start max lba n off pre o rest c l S b w x :
  0 <= off -> off + 32 * Z.of_nat n = 512 ->
  live_entries n b off = pre ++ o :: rest -> Z.of_nat (length pre) <= start -> 2 <= max -> o < 480 ->
  file_entry b o c -> chain S (c :: l) ->
  Z.of_nat (length (c :: l)) * cluster_bytes g <= UINT32_MAX ->
  le32_at b (o + 28) <= Z.of_nat (length (c :: l)) * cluster_bytes g ->
  byte_at (S (fat_lba 0 (default c (last l)))) (o + 32) = 0 ->
  run (walk_entries (readdir_visit start max) n lba off (start - Z.of_nat (length pre), 0)) (Ast S b w x)
    (Some (Stop 1))
    (Ast S (S (fat_lba 0 (default c (last l)))) w (<[0%nat := file_dirent b o (fat_dirent_at x 0)]> x)).
Proof.
  intros H0 Hn Hlive Hpre Hmax Ho Hf Hch Hcap Hsz Hend.
  revert off pre H0 Hn Hlive Hpre. induction n as [|n IH]; intros off pre H0 Hn Hlive Hpre; [by destruct pre|].
  cbn [live_entries walk_entries] in *. destruct (byte_at b off =? 0) eqn:Hb; [by destruct pre|].
  destruct (passed_over b off) eqn:Hp.
  - eapply run_bind.
    { unfold readdir_visit. apply run_get. intros fs (_ & _ & _ & _ & -> & _).
      cbn [a_buf]. destruct (passed_over_spec b off H0) as [-> _]. rewrite Hb. fold (passed_over b off). rewrite Hp.
      apply run_ret. }
    apply (IH (off + 32)); [lia|lia|done|done].
  - destruct pre as [|p pre]; cbn in Hlive.
    + injection Hlive as -> _. cbn [length]. rewrite Z.sub_0_r.
      eapply run_bind; [by apply (run_visit_file _ _ _ _ c l)|].
      destruct n as [|n]; [lia|]. cbn [walk_entries]. eapply (run_bind _ _ _ _ _ _ (Stop 1)); [|apply run_ret].
      unfold readdir_visit at 1. apply run_get. intros fs (_ & _ & _ & _ & -> & _).
      cbn [a_buf]. destruct (passed_over_spec (S (fat_lba 0 (default c (last l)))) (o + 32) ltac:(lia)) as [-> _].
      rewrite Hend, Z.eqb_refl. apply run_ret.
    + injection Hlive as -> Hlive. cbn [length] in *.
      eapply run_bind.
      * unfold readdir_visit. apply run_get. intros fs (_ & _ & _ & _ & -> & _).
        cbn [a_buf]. destruct (passed_over_spec b p H0) as [-> _]. rewrite Hb. fold (passed_over b p). rewrite Hp.
        destruct (Z.ltb_spec (start - Z.of_nat (Datatypes.S (length pre))) start); [|lia]. apply run_ret.
      * replace (start - Z.of_nat (Datatypes.S (length pre)) + 1) with (start - Z.of_nat (length pre)) by lia.
        apply IH; [lia|lia|done|lia].
Qed.

(** C40: Reading a directory loses entries.  The root directory of a mounted
    volume on a working disk holds, in its first sector, the live entries
    [pre], then the file [o] whose clusters are [c :: l], then any further
    entries [rest].  Asked for two or more entries from index [length pre] on,
    fat32_readdir_path reports the file [o] and succeeds with one entry, however
    many entries [rest] holds: counting the clusters of [o] has put the sector
    of the allocation table with the link of its last cluster in the buffer
    [fs->sector] that the loop takes its next entry from, and the theorem is
    for a table whose byte at the place of that next entry is zero (as it is
    when the cluster with that place in the table is free). *)
Theorem readdir_loses_entries (S : Z -> list Z) (b w : list Z) (x : list fat32_dirent)
    (pre rest : list Z) (o c : Z) (l : list Z) (max : Z)
    (Hlive : live_entries 16 (S (data_lba g (root_cluster g) 0)) 0 = pre ++ o :: rest)
    (Hfile : file_entry (S (data_lba g (root_cluster g) 0)) o c)
    (Hchain : chain S (c :: l)) (Hcap : Z.of_nat (length (c :: l)) * cluster_bytes g <= UINT32_MAX)
    (Hsize : le32_at (S (data_lba g (root_cluster g) 0)) (o + 28) <= Z.of_nat (length (c :: l)) * cluster_bytes g)
    (Hplace : o < 480) (Htable : byte_at (S (fat_lba 0 (default c (last l)))) (o + 32) = 0) (Hmax : 2 <= max) :
  run (fat32_readdir_path (Some [47]) (Z.of_nat (length pre)) max) (Ast S b w x) (Some 1)
    (Ast S (S (fat_lba 0 (default c (last l)))) w
       (<[0%nat := file_dirent (S (data_lba g (root_cluster g) 0)) o (fat_dirent_at x 0)]> x)).
Proof.
  assert (Hr : is_cluster (root_cluster g)) by (destruct Hg; unfold Fat32Disk.is_cluster; lia).
  assert (Hs : 0 <= 0 < sectors_per_cluster g) by (destruct Hg; lia).
  unfold fat32_readdir_path. destruct (Z.eqb_spec max 0); [lia|]. eapply run_bind.
  { unfold fat32_lookup_path. apply run_get. intros fs (_ & _ & -> & -> & _). apply run_ret. }
  cbn [pi_attributes pi_first_cluster]. change (negb (FAT32_ATTR_DIRECTORY &? FAT32_ATTR_DIRECTORY)) with false. cbv iota.
  eapply (run_bind _ _ _ _ _ _ (Stop 1)); [|apply run_ret]. unfold walk_dir. apply run_get. intros fs (_ & _ & -> & _).
  destruct (Z.to_nat (cluster_count g)) as [|k] eqn:Ek; [destruct Hg; lia|]. cbn [walk_chain].
  apply run_get. intros fs1 (_ & _ & -> & _). rewrite is_cluster_data by done. cbn [negb].
  eapply (run_bind _ _ _ _ _ _ (Stop 1)); [|apply run_ret].
  destruct (Z.to_nat (sectors_per_cluster g)) as [|m] eqn:Em; [lia|]. cbn [walk_sectors].
  apply run_get. intros fs2 (_ & _ & -> & _). rewrite (cluster_to_lba_eq g Hg) by done.
  eapply run_bind; [apply run_dir_read_sector|].
  { pose proof (data_lba_range g Hg _ 0 Hr Hs). pose proof (data_le_total g Hg).
    assert (0 <= data_start_lba g) by (destruct Hg; nia). lia. }
  eapply (run_bind _ _ _ _ _ _ (Stop 1)); [|apply run_ret].
  epose proof (run_readdir_entries (Z.of_nat (length pre)) max (data_lba g (root_cluster g) 0) 16 0 pre o rest c l
    S _ w x ltac:(lia) ltac:(lia) Hlive ltac:(lia) Hmax Hplace Hfile Hchain Hcap Hsize Htable) as H.
  rewrite Z.sub_diag in H. exact H.
Qed.
End Readdir.
