(* ===== verification/Fat32Demo.v ===== *)
(** A small FAT32 volume on the RAM disk: the theorems about the driver at a
    concrete volume, and what the driver does on concrete directories. *)

From S2P Require Import Prelude.
From S2P Require Import Bytes.
From S2P Require Import Block.
From S2P Require Import Fat32.
From S2P Require Import Fat32Dir.
From S2P Require Import Fat32Disk.
From S2P Require Import Fat32Alloc.
From S2P Require Import Fat32Files.
From S2P Require Import Fat32Write.
From S2P Require Import Fat32Names.
From S2P Require Import Fat32Readdir.
Open Scope arm.

(** Closed comparisons, by evaluation. *)
Ltac eval_le := repeat split; vm_compute; (discriminate || reflexivity).

(** * The volume *)

(** 20 sectors, one per cluster: boot sector, two copies of a one-sector
    table, clusters 2 (root directory) to 18. *)
Definition demo_boot : list Z :=
  let s := replicate 512 0 in
  let s := put_le16 s 11 512 in
  let s := put 13 1 s in
  let s := put_le16 s 14 1 in
  let s := put 16 2 s in
  let s := put_le16 s 19 20 in
  let s := put_le32 s 36 1 in
  put_le32 s 44 2.

(** Root directory in cluster 2, file A in cluster 3, file B in cluster 4. *)
Definition demo_fat : list Z :=
  put_le32 (put_le32 (put_le32 (replicate 512 0) 8 0x0fffffff) 12 0x0fffffff) 16 0x0fffffff.

Definition demo_name (c : Z) : list Z := c :: replicate 10 32.

Definition demo_root : list Z :=
  write_dir_entry (write_dir_entry (replicate 512 0) 0 (demo_name 65) 0x20 3 5) 32 (demo_name 66) 0x20 4 6.

Definition volume : ramdisk :=
  <[0 := demo_boot]> (<[1 := demo_fat]> (<[2 := demo_fat]> (<[3 := demo_root]> ∅))).

Definition unmounted : fat32_fs ramdisk :=
  FatFs None None (Geometry 0 0 0 0 0 0 0 0 0 0) (replicate 512 0) (replicate 512 0) false false.

Definition demo_geo : geometry := Geometry 512 1 1 2 1 20 1 3 2 17.

Definition mounted_volume : fat32_fs ramdisk * ramdisk := snd (fat32_mount_device unmounted (ram_device 20) volume).

Lemma demo_geo_ok : geo_ok demo_geo.
Proof. split; cbn; unfold FAT32_CLUSTER_BAD; lia. Qed.

Lemma volume_sectors l : length (ram_block volume l) = 512%nat.
Proof.
  assert (Hd : map_Forall (fun _ b => length b = 512%nat) volume).
  { repeat (apply map_Forall_insert_2; [reflexivity|]). apply map_Forall_empty. }
  unfold ram_block. destruct (volume !! l) as [v|] eqn:E; [by apply (Hd l)|done].
Qed.

(** A property of every cluster, by evaluation. *)
Lemma all_clusters (p : Z -> bool) :
  forallb p (seqZ 2 17) = true -> forall c, is_cluster demo_geo c -> p c = true.
Proof.
  intros H c Hc. rewrite forallb_forall in H. apply H. rewrite <- list_elem_of_In. apply elem_of_seqZ.
  unfold is_cluster in Hc. cbn in Hc. lia.
Qed.

(** ** Table *)

Lemma fat_entry_roundtrip_witness :
  exists S' b', run (ReadDevice (ram_device 20)) (Some (fat32_device_write_sector (ram_device 20))) demo_geo
      (write_fat_entry 5 3) (Ast (ram_block volume) (replicate 512 0) (replicate 512 0) tt) (Some tt)
      (Ast S' b' (replicate 512 0) tt) /\
    fat_copy demo_geo 1 S' 5 = 3 /\ fat_copy demo_geo 1 S' 4 = fat_copy demo_geo 1 (ram_block volume) 4.
Proof.
  assert (H5 : is_cluster demo_geo 5) by (unfold is_cluster; cbn; lia).
  assert (H4 : is_cluster demo_geo 4) by (unfold is_cluster; cbn; lia).
  assert (H3 : fat_value demo_geo 3) by (right; right; unfold is_cluster; cbn; lia).
  destruct (fat_entry_roundtrip (ReadDevice (ram_device 20)) (fat32_device_write_sector (ram_device 20)) demo_geo
    demo_geo_ok (ram_block volume) (replicate 512 0) (replicate 512 0) tt 5 3 H5 H3 ltac:(eval_le) volume_sectors)
    as (S' & b' & H1 & _ & H2 & _).
  exists S', b'. split; [exact H1|].
  split; [exact (H2 1 5 ltac:(eval_le) H5)|exact (H2 1 4 ltac:(eval_le) H4)].
Defined.

Lemma allocate_cluster_lowest_witness :
  exists S' b', run (ReadDevice (ram_device 20)) (Some (fat32_device_write_sector (ram_device 20))) demo_geo
      (allocate_cluster 3) (Ast (ram_block volume) (replicate 512 0) (replicate 512 0) tt) (Some 5)
      (Ast S' b' (replicate 512 0) tt) /\ fat demo_geo S' 3 = 5.
Proof.
  assert (H5 : is_cluster demo_geo 5) by (unfold is_cluster; cbn; lia).
  assert (H3 : is_cluster demo_geo 3) by (unfold is_cluster; cbn; lia).
  assert (Ht : chain_tail demo_geo (ram_block volume) 3) by (right; split; [exact H3|vm_compute; reflexivity]).
  destruct (proj1 (allocate_cluster_lowest (ReadDevice (ram_device 20)) (fat32_device_write_sector (ram_device 20))
    demo_geo demo_geo_ok (ram_block volume) (replicate 512 0) (replicate 512 0) tt 3 volume_sectors Ht) 5 H5 ltac:(vm_compute; reflexivity)) as (S' & b' & H1 & H2 & _).
  { intros c Hc. assert (c = 2 \/ c = 3 \/ c = 4) as [->|[->| ->]] by lia; vm_compute; split; discriminate. }
  exists S', b'. split; [exact H1|]. exact (H2 3 H3).
Defined.

(** Cluster 5 marked bad. *)
Definition worn_volume : ramdisk :=
  <[1 := put_le32 demo_fat 20 FAT32_CLUSTER_BAD]> volume.

Lemma bad_cluster_blocks_allocation_witness :
  fat demo_geo (ram_block worn_volume) 6 = 0 /\
  exists b', run (ReadDevice (ram_device 20)) (Some (fat32_device_write_sector (ram_device 20))) demo_geo
      (allocate_cluster 0) (Ast (ram_block worn_volume) (replicate 512 0) (replicate 512 0) tt) None
      (Ast (ram_block worn_volume) b' (replicate 512 0) tt).
Proof.
  split; [vm_compute; reflexivity|].
  apply (bad_cluster_blocks_allocation (ReadDevice (ram_device 20)) (fat32_device_write_sector (ram_device 20))
    demo_geo demo_geo_ok (ram_block worn_volume) (replicate 512 0) (replicate 512 0) tt 0 5).
  - unfold is_cluster; cbn; lia.
  - vm_compute. reflexivity.
  - intros c Hc. assert (c = 2 \/ c = 3 \/ c = 4) as [->|[->| ->]] by lia; vm_compute; discriminate.
Defined.

Lemma volume_chain_A : chain demo_geo (ram_block volume) [3].
Proof. split; [unfold is_cluster; cbn; lia|vm_compute; reflexivity]. Qed.

Lemma free_cluster_chain_exact_witness :
  exists S' b', run (ReadDevice (ram_device 20)) (Some (fat32_device_write_sector (ram_device 20))) demo_geo
      (free_cluster_chain 3) (Ast (ram_block volume) (replicate 512 0) (replicate 512 0) tt) (Some tt)
      (Ast S' b' (replicate 512 0) tt) /\ fat demo_geo S' 3 = 0 /\ fat demo_geo S' 4 = 0x0fffffff.
Proof.
  destruct (free_cluster_chain_exact (ReadDevice (ram_device 20)) (fat32_device_write_sector (ram_device 20))
    demo_geo demo_geo_ok (ram_block volume) (replicate 512 0) (replicate 512 0) tt 3 [] volume_sectors volume_chain_A)
    as (S' & b' & H1 & H2 & _).
  exists S', b'. split; [exact H1|]. split.
  - apply (H2 3). unfold is_cluster; cbn; lia.
  - rewrite (H2 4) by (unfold is_cluster; cbn; lia). vm_compute. reflexivity.
Defined.

(** ** Files *)

Definition file_A : fat32_file := FatFile 3 3 0 512 5.

Lemma fat32_read_window_witness :
  exists b' dst', run (ReadDevice (ram_device 20)) (Some (fat32_device_write_sector (ram_device 20))) demo_geo
      (fat32_read file_A 1 9) (Ast (ram_block volume) (replicate 512 0) (replicate 512 0) (replicate 9 7)) (Some 4)
      (Ast (ram_block volume) b' (replicate 512 0) dst') /\ byte_at dst' 4 = 7.
Proof.
  destruct (fat32_read_window (ReadDevice (ram_device 20)) (Some (fat32_device_write_sector (ram_device 20)))
    demo_geo demo_geo_ok (ram_block volume) (replicate 512 0) (replicate 512 0) (replicate 9 7) file_A [] 1 9
    volume_chain_A ltac:(eval_le) ltac:(eval_le) ltac:(eval_le)) as (b' & dst' & H1 & _ & _ & H2).
  exists b', dst'. split; [exact H1|]. exact (H2 4 ltac:(eval_le)).
Defined.

Lemma volume_no_bad : no_bad demo_geo (ram_block volume).
Proof.
  intros c Hc. pose proof (all_clusters (fun c => negb (fat demo_geo (ram_block volume) c =? FAT32_CLUSTER_BAD))
    ltac:(vm_compute; reflexivity) c Hc) as H. cbv beta in H. by b2p.
Qed.

Lemma volume_free : free_list demo_geo (ram_block volume) = [5] ++ seqZ 6 13.
Proof. vm_compute. reflexivity. Qed.

(** 600 bytes at offset 2 of a one-cluster file: one more cluster. *)
Lemma demo_extends : extends demo_geo [3] [5] (2 + 600).
Proof. split; [eval_le|right; eval_le]. Qed.

Lemma demo_dir_apart : ~ in_chain demo_geo ([3] ++ [5]) 3.
Proof.
  intros (c & s & Hc & Hs & E). unfold data_lba in E. cbn in *.
  assert (c = 3 \/ c = 5) as [->| ->] by set_solver; lia.
Qed.

Lemma fat32_write_contents_witness :
  exists S' b' w', run (ReadDevice (ram_device 20)) (Some (fat32_device_write_sector (ram_device 20))) demo_geo
      (fat32_write 2 (replicate 600 9) 600) (Ast (ram_block volume) (replicate 512 0) (replicate 512 0) file_A)
      (Some 600) (Ast S' b' w' (FatFile 3 3 0 1024 602)) /\ chain demo_geo S' [3; 5].
Proof.
  destruct (fat32_write_contents (ReadDevice (ram_device 20)) (fat32_device_write_sector (ram_device 20))
    demo_geo demo_geo_ok (ram_block volume) (replicate 512 0) (replicate 512 0) (replicate 600 9) file_A [] [5]
    (seqZ 6 13) 2 600 volume_sectors eq_refl volume_chain_A volume_no_bad volume_free eq_refl
    ltac:(eval_le) ltac:(eval_le) ltac:(eval_le) demo_extends ltac:(vm_compute; discriminate)
    ltac:(eval_le) ltac:(eval_le) demo_dir_apart) as (S' & b' & w' & H1 & H2 & _).
  exists S', b', w'. split; [exact H1|exact H2].
Defined.

Lemma fat32_write_read_witness :
  exists S' b' w' b2 dst',
    run (ReadDevice (ram_device 20)) (Some (fat32_device_write_sector (ram_device 20))) demo_geo
      (fat32_write 2 (replicate 600 9) 600) (Ast (ram_block volume) (replicate 512 0) (replicate 512 0) file_A)
      (Some 600) (Ast S' b' w' (FatFile 3 3 0 1024 602)) /\
    run (ReadDevice (ram_device 20)) (Some (fat32_device_write_sector (ram_device 20))) demo_geo
      (fat32_read (FatFile 3 3 0 1024 602) 2 600) (Ast S' b' w' (replicate 700 0)) (Some 600) (Ast S' b2 w' dst') /\
    byte_at dst' 599 = 9.
Proof.
  destruct (fat32_write_read (ReadDevice (ram_device 20)) (fat32_device_write_sector (ram_device 20))
    demo_geo demo_geo_ok (ram_block volume) (replicate 512 0) (replicate 512 0) (replicate 600 9) file_A [] [5]
    (seqZ 6 13) 2 600 volume_sectors eq_refl volume_chain_A volume_no_bad volume_free eq_refl
    ltac:(eval_le) ltac:(eval_le) ltac:(eval_le) demo_extends ltac:(vm_compute; discriminate)
    ltac:(eval_le) ltac:(eval_le) demo_dir_apart (replicate 700 0) ltac:(eval_le))
    as (S' & b' & w' & b2 & dst' & H1 & H2 & H3 & _).
  exists S', b', w', b2, dst'. split; [exact H1|]. split; [exact H2|].
  rewrite (H3 599 ltac:(eval_le)). vm_compute. reflexivity.
Defined.

(** ** Mounting and termination *)

Lemma fat32_mount_sound_witness :
  fst (fat32_mount unmounted (Some (ReadDevice (ram_device 20))) volume) = 0 /\
  let fs := fst (snd (fat32_mount unmounted (Some (ReadDevice (ram_device 20))) volume)) in
  mounted fs = true /\ u32 (cluster_to_lba (geo fs) 18 + 0) < total_sectors (geo fs).
Proof.
  split; [vm_compute; reflexivity|].
  assert (Hm : fat32_mount unmounted (Some (ReadDevice (ram_device 20))) volume =
    (0, (fst (snd (fat32_mount unmounted (Some (ReadDevice (ram_device 20))) volume)),
         snd (snd (fat32_mount unmounted (Some (ReadDevice (ram_device 20))) volume))))) by (vm_compute; reflexivity).
  assert (Hb : is_bytes (sector (fst (snd (fat32_mount unmounted (Some (ReadDevice (ram_device 20))) volume))))).
  { unfold is_bytes. apply Forall_forall. intros v Hv. apply list_elem_of_In in Hv. revert v Hv.
    assert (H : forallb (fun v => (0 <=? v) && (v <? 256))
      (sector (fst (snd (fat32_mount unmounted (Some (ReadDevice (ram_device 20))) volume)))) = true)
      by (vm_compute; reflexivity).
    intros v Hv. rewrite forallb_forall in H. specialize (H v Hv). unfold is_u8. b2p. lia. }
  destruct (fat32_mount_sound _ _ _ _ _ _ Hm Hb) as (H1 & _ & _ & _ & H2 & _).
  split; [exact H1|]. exact (proj2 (proj1 (proj2 (H2 18 0 18 0 ltac:(eval_le) ltac:(eval_le))))).
Defined.

(** A table whose cluster 3 links to itself. *)
Definition cyclic_volume : ramdisk := <[1 := put_le32 demo_fat 12 3]> volume.

Lemma fat32_loops_terminate_witness :
  read_clusters 100 3 0 5 0 (fst mounted_volume, cyclic_volume, replicate 5 0) =
    read_clusters (Z.to_nat 5) 3 0 5 0 (fst mounted_volume, cyclic_volume, replicate 5 0).
Proof.
  exact (proj1 (proj2 (fat32_loops_terminate (fun c => read_step c) 100 100 [] 3 0 5 5 0 (mounted_volume, tt)
    (fst mounted_volume, cyclic_volume, replicate 5 0) (fst mounted_volume, cyclic_volume, file_A)
    ltac:(eval_le) ltac:(eval_le) ltac:(eval_le) ltac:(eval_le) ltac:(eval_le)))).
Defined.

(** ** Directories *)

(** The entries fat32_readdir_path finds in the root of a volume. *)
Definition root_readdir (st : fat32_fs ramdisk * ramdisk) : option Z :=
  fst (fat32_readdir_path (Some [47]) 0 8 (st, replicate 8 empty_dirent)).

(** The text fat32_list_path prints for it. *)
Definition root_listing (st : fat32_fs ramdisk * ramdisk) : list Z :=
  let '(_, n, buf, _) := fat32_list_path (Some [47]) (replicate 32 0) 32 st in take (Z.to_nat n) buf.

(** On the mounted volume the root holds the files A and B, and the listing
    prints both. *)
Lemma root_holds_two :
  fst (fat32_mount_device unmounted (ram_device 20) volume) = 0 /\
  live_entries 16 demo_root 0 = [0; 32] /\
  root_listing mounted_volume = [65; 10; 66; 10] /\ root_readdir mounted_volume = Some 1.
Proof. split_and!; vm_compute; reflexivity. Qed.

(** Asked for eight entries, fat32_readdir_path reports A only: the place of
    the entry of B is read from the table, where cluster 8 is free. *)
Lemma readdir_loses_entries_witness :
  live_entries 16 demo_root 0 = [] ++ 0 :: [32] /\
  run (ReadDevice (ram_device 20)) (Some (fat32_device_write_sector (ram_device 20))) demo_geo
    (fat32_readdir_path (Some [47]) 0 8)
    (Ast (ram_block volume) (replicate 512 0) (replicate 512 0) (replicate 8 empty_dirent)) (Some 1)
    (Ast (ram_block volume) demo_fat (replicate 512 0)
       (FatDirent (65 :: 0 :: replicate 11 0) 5 0x20 :: replicate 7 empty_dirent)).
Proof.
  split; [vm_compute; reflexivity|].
  exact (readdir_loses_entries (ReadDevice (ram_device 20)) (fat32_device_write_sector (ram_device 20)) demo_geo
    demo_geo_ok (ram_block volume) (replicate 512 0) (replicate 512 0) (replicate 8 empty_dirent) [] [32] 0 3 [] 8
    ltac:(vm_compute; reflexivity) ltac:(split_and!; vm_compute; (discriminate || reflexivity))
    volume_chain_A ltac:(eval_le) ltac:(eval_le) ltac:(eval_le) ltac:(vm_compute; reflexivity) ltac:(eval_le)).
Defined.
