(* ===== verification/Framebuffer.v ===== *)
(** The framebuffer primitives of drivers/fb/fb.c and the bitmap font of
    kernel/font.c.

    Pixel memory is a map from the address of a 32-bit word to its value.  A
    framebuffer descriptor is a record: a window's backing buffer is drawn with
    the same functions as the screen.  Descriptor pointers are never null here;
    the null test that remains is the one on [fb->pixels].  Signed arithmetic
    that C leaves undefined on overflow is plain integer arithmetic. *)

From S2P Require Import Prelude.
From S2P Require Import Bytes.
Open Scope arm.

(** The value of a 32-bit pattern converted to [int32_t]. *)
Definition i32 (v : Z) : Z := let w := u32 v in if w <? 2 ^ 31 then w else w - 2 ^ 32.

Definition rd32 (m : gmap Z Z) (a : Z) : Z := default 0 (m !! a).
Definition wr32 (m : gmap Z Z) (a v : Z) : gmap Z Z := <[a := v]> m.

(** * fb.c *)

Record fb_t := Fb { fb_pixels : Z; fb_width : Z; fb_height : Z; fb_stride : Z }.

Definition fb_init (pixels width height stride : Z) : option fb_t :=
  if (pixels =? 0) || (width =? 0) || (height =? 0) || (stride <? width) then None
  else Some (Fb pixels width height stride).

(** [&fb->pixels[i]] *)
Definition px_at (fb : fb_t) (i : Z) : Z := fb_pixels fb + 4 * i.

Definition fb_putpixel (fb : fb_t) (x y color : Z) (m : gmap Z Z) : gmap Z Z :=
  if (fb_pixels fb =? 0) || (x >=? fb_width fb) || (y >=? fb_height fb) then m
  else wr32 m (px_at fb (u32 (y * fb_stride fb + x))) color.

Definition blend_argb (dst src : Z) : Z :=
  let alpha := Z.land (Z.shiftr src 24) 0xff in
  let inv := 255 - alpha in
  let mix s d := (s * alpha + d * inv) / 255 in
  let r := mix (Z.land (Z.shiftr src 16) 0xff) (Z.land (Z.shiftr dst 16) 0xff) in
  let g := mix (Z.land (Z.shiftr src 8) 0xff) (Z.land (Z.shiftr dst 8) 0xff) in
  let b := mix (Z.land src 0xff) (Z.land dst 0xff) in
  Z.lor (Z.lor (Z.lor 0xff000000 (Z.shiftl r 16)) (Z.shiftl g 8)) b.

Definition fb_putpixel_alpha (fb : fb_t) (x y color : Z) (m : gmap Z Z) : gmap Z Z :=
  if (fb_pixels fb =? 0) || (x >=? fb_width fb) || (y >=? fb_height fb) then m else
  let pixel := px_at fb (u32 (y * fb_stride fb + x)) in
  wr32 m pixel (blend_argb (rd32 m pixel) color).

Definition fb_fillrect (fb : fb_t) (x y w h color : Z) (m : gmap Z Z) : gmap Z Z :=
  if (fb_pixels fb =? 0) || (w =? 0) || (h =? 0) || (x >=? fb_width fb) || (y >=? fb_height fb) then m else
  let w := if w >? fb_width fb - x then fb_width fb - x else w in
  let h := if h >? fb_height fb - y then fb_height fb - y else h in
  let row_pixels := u32 (y * fb_stride fb + x) in
  for_range 0 h (fun row m =>
    for_range 0 w (fun col m => wr32 m (px_at fb (row_pixels + row * fb_stride fb + col)) color) m) m.

Definition fb_draw_rect (fb : fb_t) (x y w h color : Z) (m : gmap Z Z) : gmap Z Z :=
  if (fb_pixels fb =? 0) || (w =? 0) || (h =? 0) || (x >=? fb_width fb) || (y >=? fb_height fb) then m else
  let x1 := if x + w >? fb_width fb then fb_width fb else x + w in
  let y1 := if y + h >? fb_height fb then fb_height fb else y + h in
  let w := u32 (x1 - x) in
  let h := u32 (y1 - y) in
  let m := for_range 0 w (fun col m =>
    let m := fb_putpixel fb (u32 (x + col)) y color m in
    if h >? 1 then fb_putpixel fb (u32 (x + col)) (u32 (y + h - 1)) color m else m) m in
  for_range 1 (h - 1) (fun row m =>
    let m := fb_putpixel fb x (u32 (y + row)) color m in
    if w >? 1 then fb_putpixel fb (u32 (x + w - 1)) (u32 (y + row)) color m else m) m.

Definition iabs32 (value : Z) : Z := if value <? 0 then - value else value.

Definition fb_putpixel_i32 (fb : fb_t) (x y color : Z) (m : gmap Z Z) : gmap Z Z :=
  if (x <? 0) || (y <? 0) then m else fb_putpixel fb x y color m.

(** The [for (;;)] loop that draws a line, for any way to set a point. *)
Fixpoint line_loop {S} (fuel : nat) (point : Z -> Z -> S -> S)
    (x0 y0 x1 y1 dx sx dy sy err : Z) (m : S) : option S :=
  match fuel with
  | O => None
  | Datatypes.S fuel' =>
      let m := point x0 y0 m in
      if (x0 =? x1) && (y0 =? y1) then Some m else
      let e2 := 2 * err in
      let '(err, x0) := if e2 >=? dy then (err + dy, x0 + sx) else (err, x0) in
      let '(err, y0) := if e2 <=? dx then (err + dx, y0 + sy) else (err, y0) in
      line_loop fuel' point x0 y0 x1 y1 dx sx dy sy err m
  end.

Definition draw_line {S} (point : Z -> Z -> S -> S) (x0 y0 x1 y1 : Z) (m : S) : option S :=
  let dx := iabs32 (x1 - x0) in
  let sx := if x0 <? x1 then 1 else -1 in
  let dy := - iabs32 (y1 - y0) in
  let sy := if y0 <? y1 then 1 else -1 in
  line_loop (Datatypes.S (Z.to_nat (dx - dy))) point x0 y0 x1 y1 dx sx dy sy (dx + dy) m.

Definition fb_draw_line (fb : fb_t) (x0 y0 x1 y1 color : Z) : gmap Z Z -> option (gmap Z Z) :=
  draw_line (fun x y => fb_putpixel_i32 fb x y color) x0 y0 x1 y1.

Definition fb_draw_circle_points (fb : fb_t) (cx cy x y color : Z) (m : gmap Z Z) : gmap Z Z :=
  let m := fb_putpixel_i32 fb (cx + x) (cy + y) color m in
  let m := fb_putpixel_i32 fb (cx + y) (cy + x) color m in
  let m := fb_putpixel_i32 fb (cx - y) (cy + x) color m in
  let m := fb_putpixel_i32 fb (cx - x) (cy + y) color m in
  let m := fb_putpixel_i32 fb (cx - x) (cy - y) color m in
  let m := fb_putpixel_i32 fb (cx - y) (cy - x) color m in
  let m := fb_putpixel_i32 fb (cx + y) (cy - x) color m in
  fb_putpixel_i32 fb (cx + x) (cy - y) color m.

(** [while (x >= y)] *)
Fixpoint circle_loop (fuel : nat) (fb : fb_t) (cx cy x y err color : Z) (m : gmap Z Z) : option (gmap Z Z) :=
  match fuel with
  | O => None
  | S fuel' =>
      if negb (x >=? y) then Some m else
      let m := fb_draw_circle_points fb cx cy x y color m in
      let y := y + 1 in
      let err := if err <=? 0 then err + (2 * y + 1) else err in
      let '(x, err) := if err >? 0 then (x - 1, err - (2 * (x - 1) + 1)) else (x, err) in
      circle_loop fuel' fb cx cy x y err color m
  end.

Definition fb_draw_circle (fb : fb_t) (cx cy radius color : Z) (m : gmap Z Z) : option (gmap Z Z) :=
  if radius <? 0 then Some m else circle_loop (Z.to_nat radius + 2) fb cx cy radius 0 0 color m.

Definition fb_blit (fb : fb_t) (dst_x dst_y src w h : Z) (m : gmap Z Z) : gmap Z Z :=
  let src_stride := w in
  if (fb_pixels fb =? 0) || (src =? 0) || (w =? 0) || (h =? 0) ||
     (dst_x >=? fb_width fb) || (dst_y >=? fb_height fb) then m else
  let w := if w >? fb_width fb - dst_x then fb_width fb - dst_x else w in
  let h := if h >? fb_height fb - dst_y then fb_height fb - dst_y else h in
  let dst_row := u32 (dst_y * fb_stride fb + dst_x) in
  for_range 0 h (fun row m =>
    for_range 0 w (fun col m =>
      wr32 m (px_at fb (dst_row + row * fb_stride fb + col)) (rd32 m (src + 4 * (row * src_stride + col)))) m) m.

(** * font.c *)

Definition FONT_GLYPH_WIDTH : Z := 8.
Definition FONT_GLYPH_HEIGHT : Z := 8.
Definition FONT_CHAR_WIDTH : Z := 8.
Definition FONT_LINE_HEIGHT : Z := 10.
Definition FONT_FIRST_GLYPH : Z := 0x20.
Definition FONT_LAST_GLYPH : Z := 0x7e.

Definition NEWLINE : Z := 10.

Definition g_font_glyphs : list (list Z) := [
  [0x00; 0x00; 0x00; 0x00; 0x00; 0x00; 0x00; 0x00];
  [0x18; 0x18; 0x18; 0x18; 0x18; 0x00; 0x18; 0x00];
  [0x6C; 0x6C; 0x28; 0x00; 0x00; 0x00; 0x00; 0x00];
  [0x6C; 0xFE; 0x6C; 0x6C; 0xFE; 0x6C; 0x00; 0x00];
  [0x18; 0x7E; 0xC0; 0x7E; 0x06; 0xFC; 0x18; 0x00];
  [0xC6; 0xCC; 0x18; 0x30; 0x66; 0xC6; 0x00; 0x00];
  [0x38; 0x6C; 0x38; 0x76; 0xDC; 0xCC; 0x76; 0x00];
  [0x18; 0x18; 0x30; 0x00; 0x00; 0x00; 0x00; 0x00];
  [0x0C; 0x18; 0x30; 0x30; 0x30; 0x18; 0x0C; 0x00];
  [0x30; 0x18; 0x0C; 0x0C; 0x0C; 0x18; 0x30; 0x00];
  [0x00; 0x66; 0x3C; 0xFF; 0x3C; 0x66; 0x00; 0x00];
  [0x00; 0x18; 0x18; 0x7E; 0x18; 0x18; 0x00; 0x00];
  [0x00; 0x00; 0x00; 0x00; 0x18; 0x18; 0x30; 0x00];
  [0x00; 0x00; 0x00; 0x7E; 0x00; 0x00; 0x00; 0x00];
  [0x00; 0x00; 0x00; 0x00; 0x00; 0x18; 0x18; 0x00];
  [0x06; 0x0C; 0x18; 0x30; 0x60; 0xC0; 0x80; 0x00];
  [0x7C; 0xC6; 0xCE; 0xDE; 0xF6; 0xE6; 0x7C; 0x00];
  [0x18; 0x38; 0x18; 0x18; 0x18; 0x18; 0x7E; 0x00];
  [0x7C; 0xC6; 0x06; 0x1C; 0x30; 0x66; 0xFE; 0x00];
  [0x7C; 0xC6; 0x06; 0x3C; 0x06; 0xC6; 0x7C; 0x00];
  [0x1C; 0x3C; 0x6C; 0xCC; 0xFE; 0x0C; 0x1E; 0x00];
  [0xFE; 0xC0; 0xC0; 0xFC; 0x06; 0xC6; 0x7C; 0x00];
  [0x38; 0x60; 0xC0; 0xFC; 0xC6; 0xC6; 0x7C; 0x00];
  [0xFE; 0xC6; 0x0C; 0x18; 0x30; 0x30; 0x30; 0x00];
  [0x7C; 0xC6; 0xC6; 0x7C; 0xC6; 0xC6; 0x7C; 0x00];
  [0x7C; 0xC6; 0xC6; 0x7E; 0x06; 0x0C; 0x78; 0x00];
  [0x00; 0x18; 0x18; 0x00; 0x18; 0x18; 0x00; 0x00];
  [0x00; 0x18; 0x18; 0x00; 0x18; 0x18; 0x30; 0x00];
  [0x06; 0x0C; 0x18; 0x30; 0x18; 0x0C; 0x06; 0x00];
  [0x00; 0x00; 0x7E; 0x00; 0x7E; 0x00; 0x00; 0x00];
  [0x60; 0x30; 0x18; 0x0C; 0x18; 0x30; 0x60; 0x00];
  [0x7C; 0xC6; 0x0C; 0x18; 0x18; 0x00; 0x18; 0x00];
  [0x7C; 0xC6; 0xC6; 0xDE; 0xDC; 0xC0; 0x7C; 0x00];
  [0x38; 0x6C; 0xC6; 0xC6; 0xFE; 0xC6; 0xC6; 0x00];
  [0xFC; 0xC6; 0xC6; 0xFC; 0xC6; 0xC6; 0xFC; 0x00];
  [0x7C; 0xC6; 0xC0; 0xC0; 0xC0; 0xC6; 0x7C; 0x00];
  [0xF8; 0xCC; 0xC6; 0xC6; 0xC6; 0xCC; 0xF8; 0x00];
  [0xFE; 0xC0; 0xC0; 0xF8; 0xC0; 0xC0; 0xFE; 0x00];
  [0xFE; 0xC0; 0xC0; 0xF8; 0xC0; 0xC0; 0xC0; 0x00];
  [0x7C; 0xC6; 0xC0; 0xDE; 0xC6; 0xC6; 0x7E; 0x00];
  [0xC6; 0xC6; 0xC6; 0xFE; 0xC6; 0xC6; 0xC6; 0x00];
  [0x7E; 0x18; 0x18; 0x18; 0x18; 0x18; 0x7E; 0x00];
  [0x1E; 0x0C; 0x0C; 0x0C; 0x0C; 0xCC; 0x78; 0x00];
  [0xC6; 0xCC; 0xD8; 0xF0; 0xD8; 0xCC; 0xC6; 0x00];
  [0xC0; 0xC0; 0xC0; 0xC0; 0xC0; 0xC0; 0xFE; 0x00];
  [0xC6; 0xEE; 0xFE; 0xFE; 0xD6; 0xC6; 0xC6; 0x00];
  [0xC6; 0xE6; 0xF6; 0xDE; 0xCE; 0xC6; 0xC6; 0x00];
  [0x7C; 0xC6; 0xC6; 0xC6; 0xC6; 0xC6; 0x7C; 0x00];
  [0xFC; 0xC6; 0xC6; 0xFC; 0xC0; 0xC0; 0xC0; 0x00];
  [0x7C; 0xC6; 0xC6; 0xC6; 0xD6; 0xCC; 0x76; 0x00];
  [0xFC; 0xC6; 0xC6; 0xFC; 0xD8; 0xCC; 0xC6; 0x00];
  [0x7C; 0xC6; 0xC0; 0x7C; 0x06; 0xC6; 0x7C; 0x00];
  [0xFF; 0xDB; 0x18; 0x18; 0x18; 0x18; 0x18; 0x00];
  [0xC6; 0xC6; 0xC6; 0xC6; 0xC6; 0xC6; 0x7C; 0x00];
  [0xC6; 0xC6; 0xC6; 0xC6; 0x6C; 0x38; 0x10; 0x00];
  [0xC6; 0xC6; 0xC6; 0xD6; 0xD6; 0xD6; 0x6C; 0x00];
  [0xC6; 0xC6; 0x6C; 0x38; 0x6C; 0xC6; 0xC6; 0x00];
  [0xC6; 0xC6; 0xC6; 0x6C; 0x38; 0x10; 0x10; 0x00];
  [0xFE; 0x06; 0x0C; 0x18; 0x30; 0x60; 0xFE; 0x00];
  [0x3C; 0x30; 0x30; 0x30; 0x30; 0x30; 0x3C; 0x00];
  [0xC0; 0x60; 0x30; 0x18; 0x0C; 0x06; 0x02; 0x00];
  [0x3C; 0x0C; 0x0C; 0x0C; 0x0C; 0x0C; 0x3C; 0x00];
  [0x10; 0x38; 0x6C; 0xC6; 0x00; 0x00; 0x00; 0x00];
  [0x00; 0x00; 0x00; 0x00; 0x00; 0x00; 0x00; 0xFF];
  [0x30; 0x18; 0x0C; 0x00; 0x00; 0x00; 0x00; 0x00];
  [0x00; 0x00; 0x7C; 0x06; 0x7E; 0xC6; 0x7E; 0x00];
  [0xC0; 0xC0; 0xFC; 0xC6; 0xC6; 0xC6; 0xFC; 0x00];
  [0x00; 0x00; 0x7C; 0xC6; 0xC0; 0xC6; 0x7C; 0x00];
  [0x06; 0x06; 0x7E; 0xC6; 0xC6; 0xC6; 0x7E; 0x00];
  [0x00; 0x00; 0x7C; 0xC6; 0xFE; 0xC0; 0x7C; 0x00];
  [0x3C; 0x66; 0x60; 0xF8; 0x60; 0x60; 0x60; 0x00];
  [0x00; 0x00; 0x7E; 0xC6; 0xC6; 0x7E; 0x06; 0x7C];
  [0xC0; 0xC0; 0xFC; 0xC6; 0xC6; 0xC6; 0xC6; 0x00];
  [0x18; 0x00; 0x38; 0x18; 0x18; 0x18; 0x3C; 0x00];
  [0x06; 0x00; 0x0E; 0x06; 0x06; 0xC6; 0xC6; 0x7C];
  [0xC0; 0xC0; 0xC6; 0xCC; 0xF8; 0xCC; 0xC6; 0x00];
  [0x38; 0x18; 0x18; 0x18; 0x18; 0x18; 0x3C; 0x00];
  [0x00; 0x00; 0xCC; 0xFE; 0xFE; 0xD6; 0xD6; 0x00];
  [0x00; 0x00; 0xFC; 0xC6; 0xC6; 0xC6; 0xC6; 0x00];
  [0x00; 0x00; 0x7C; 0xC6; 0xC6; 0xC6; 0x7C; 0x00];
  [0x00; 0x00; 0xFC; 0xC6; 0xC6; 0xC6; 0xFC; 0xC0];
  [0x00; 0x00; 0x7E; 0xC6; 0xC6; 0xC6; 0x7E; 0x06];
  [0x00; 0x00; 0xFC; 0xC6; 0xC0; 0xC0; 0xC0; 0x00];
  [0x00; 0x00; 0x7E; 0xC0; 0x7C; 0x06; 0xFC; 0x00];
  [0x30; 0x30; 0xFC; 0x30; 0x30; 0x36; 0x1C; 0x00];
  [0x00; 0x00; 0xC6; 0xC6; 0xC6; 0xC6; 0x7E; 0x00];
  [0x00; 0x00; 0xC6; 0xC6; 0xC6; 0x6C; 0x38; 0x00];
  [0x00; 0x00; 0xC6; 0xD6; 0xD6; 0xFE; 0x6C; 0x00];
  [0x00; 0x00; 0xC6; 0x6C; 0x38; 0x6C; 0xC6; 0x00];
  [0x00; 0x00; 0xC6; 0xC6; 0xC6; 0x7E; 0x06; 0x7C];
  [0x00; 0x00; 0xFE; 0x0C; 0x38; 0x60; 0xFE; 0x00];
  [0x0E; 0x18; 0x18; 0x70; 0x18; 0x18; 0x0E; 0x00];
  [0x18; 0x18; 0x18; 0x18; 0x18; 0x18; 0x18; 0x00];
  [0x70; 0x18; 0x18; 0x0E; 0x18; 0x18; 0x70; 0x00];
  [0x76; 0xDC; 0x00; 0x00; 0x00; 0x00; 0x00; 0x00]].

Definition font_glyph (ch : Z) : option (list Z) :=
  if (ch <? FONT_FIRST_GLYPH) || (ch >? FONT_LAST_GLYPH) then None
  else g_font_glyphs !! Z.to_nat (ch - FONT_FIRST_GLYPH).

(** [bits & mask] for column [col] of a glyph row. *)
Definition glyph_bit (bits col : Z) : bool := bits &? Z.shiftl 1 (FONT_GLYPH_WIDTH - 1 - col).

Definition font_draw_char (fb : fb_t) (x y ch color : Z) (m : gmap Z Z) : gmap Z Z :=
  if fb_pixels fb =? 0 then m else
  match font_glyph ch with
  | None => m
  | Some glyph =>
      for_range 0 FONT_GLYPH_HEIGHT (fun row m =>
        for_range 0 FONT_GLYPH_WIDTH (fun col m =>
          if glyph_bit (byte_at glyph row) col then fb_putpixel fb (u32 (x + col)) (u32 (y + row)) color m else m) m) m
  end.

(** [while ( *text != 0)], from the position of the next character. *)
Fixpoint text_loop (fb : fb_t) (x cursor_x cursor_y : Z) (text : list Z) (color : Z) (m : gmap Z Z) : gmap Z Z :=
  match text with
  | [] => m
  | c :: text' =>
      if c =? 0 then m else
      if c =? NEWLINE then text_loop fb x x (u32 (cursor_y + FONT_LINE_HEIGHT)) text' color m
      else text_loop fb x (u32 (cursor_x + FONT_CHAR_WIDTH)) cursor_y text' color
             (font_draw_char fb cursor_x cursor_y c color m)
  end.

Definition font_draw_text (fb : fb_t) (x y : Z) (text : list Z) (color : Z) (m : gmap Z Z) : gmap Z Z :=
  text_loop fb x x y text color m.

Fixpoint width_loop (text : list Z) (widest run : Z) : Z :=
  match text with
  | [] => if run >? widest then run else widest
  | c :: text' =>
      if c =? 0 then (if run >? widest then run else widest) else
      if c =? NEWLINE then width_loop text' (if run >? widest then run else widest) 0
      else width_loop text' widest (u32 (run + FONT_CHAR_WIDTH))
  end.

Definition font_text_width (text : list Z) : Z := width_loop text 0 0.

(** The columns [x0 <= x < x1] and rows [y0 <= y < y1], as [int32_t]. *)
Record clip := Clip { cx0 : Z; cy0 : Z; cx1 : Z; cy1 : Z }.

(** The rows of a glyph from [row] on, for any column test; [break] at the
    height limit and [continue] outside the clip. *)
Fixpoint glyph_rows (fb : fb_t) (skip_row : Z -> bool) (keep_col : Z -> bool) (y max_h : Z)
    (glyph : list Z) (row cursor_x cursor_y color : Z) (m : gmap Z Z) : gmap Z Z :=
  match glyph with
  | [] => m
  | bits :: glyph' =>
      let draw_y := u32 (cursor_y + row) in
      if u32 (draw_y - y) >=? max_h then m else
      let m :=
        if skip_row draw_y then m else
        for_range 0 FONT_GLYPH_WIDTH (fun col m =>
          let draw_x := u32 (cursor_x + col) in
          if glyph_bit bits col && keep_col draw_x then fb_putpixel fb draw_x draw_y color m else m) m in
      glyph_rows fb skip_row keep_col y max_h glyph' (row + 1) cursor_x cursor_y color m
  end.

Fixpoint clipped_loop (fb : fb_t) (skip_row : Z -> bool) (keep_col : Z -> bool) (x y max_h : Z)
    (cursor_x cursor_y : Z) (text : list Z) (color : Z) (m : gmap Z Z) : gmap Z Z :=
  match text with
  | [] => m
  | c :: text' =>
      if c =? 0 then m else
      if c =? NEWLINE then
        let cursor_y := u32 (cursor_y + FONT_LINE_HEIGHT) in
        if u32 (cursor_y - y) >=? max_h then m
        else clipped_loop fb skip_row keep_col x y max_h x cursor_y text' color m
      else
        let m :=
          match font_glyph c with
          | None => m
          | Some glyph => glyph_rows fb skip_row keep_col y max_h glyph 0 cursor_x cursor_y color m
          end in
        clipped_loop fb skip_row keep_col x y max_h (u32 (cursor_x + FONT_CHAR_WIDTH)) cursor_y text' color m
  end.

Definition font_draw_text_clipped (fb : fb_t) (x y max_h : Z) (text : list Z) (color : Z) (m : gmap Z Z) : gmap Z Z :=
  if max_h =? 0 then m
  else clipped_loop fb (fun _ => false) (fun _ => true) x y max_h x y text color m.

Definition font_draw_text_rect_clipped (fb : fb_t) (x y max_h : Z) (c : clip) (text : list Z) (color : Z)
    (m : gmap Z Z) : gmap Z Z :=
  if (max_h =? 0) || (cx1 c <=? cx0 c) || (cy1 c <=? cy0 c) then m else
  clipped_loop fb (fun draw_y => (i32 draw_y <? cy0 c) || (i32 draw_y >=? cy1 c))
    (fun draw_x => (i32 draw_x >=? cx0 c) && (i32 draw_x <? cx1 c)) x y max_h x y text color m.

(** * What a drawing operation paints

    A paint gives each pixel either a new colour or nothing.  [draws] says that
    a step on pixel memory has the effect of a paint on one framebuffer, and
    changes no word outside it. *)

Definition paint : Type := Z -> Z -> option Z.

Definition blank : paint := fun _ _ => None.
(** [g] on top of [f]. *)
Definition over (g f : paint) : paint := fun x y => match g x y with Some c => Some c | None => f x y end.
Definition rect_paint (x y w h color : Z) : paint := fun px py =>
  if (x <=? px) && (px <? x + w) && (y <=? py) && (py <? y + h) then Some color else None.
Definition in_clip (c : clip) (x y : Z) : bool := (cx0 c <=? x) && (x <? cx1 c) && (cy0 c <=? y) && (y <? cy1 c).
Definition clip_paint (c : clip) (f : paint) : paint := fun x y => if in_clip c x y then f x y else None.
Definition points_paint (pts : list (Z * Z)) (color : Z) : paint := fun x y =>
  if bool_decide ((x, y) ∈ pts) then Some color else None.

Record fb_ok (fb : fb_t) : Prop := {
  fo_pixels : 0 < fb_pixels fb;
  fo_width : 0 <= fb_width fb < 2 ^ 30;
  fo_height : 0 <= fb_height fb < 2 ^ 30;
  fo_stride : fb_width fb <= fb_stride fb;
  fo_size : fb_height fb * fb_stride fb < 2 ^ 32 }.

Definition on_fb (fb : fb_t) (x y : Z) : Prop := 0 <= x < fb_width fb /\ 0 <= y < fb_height fb.
Definition px_addr (fb : fb_t) (x y : Z) : Z := px_at fb (y * fb_stride fb + x).
(** The address of no pixel of [fb]. *)
Definition off_fb (fb : fb_t) (a : Z) : Prop := forall x y, on_fb fb x y -> a <> px_addr fb x y.

Record draws (fb : fb_t) (m m' : gmap Z Z) (f : paint) : Prop := {
  dr_in : forall x y, on_fb fb x y -> rd32 m' (px_addr fb x y) = default (rd32 m (px_addr fb x y)) (f x y);
  dr_out : forall a, off_fb fb a -> rd32 m' a = rd32 m a }.

Lemma rd32_wr32 m a v b : rd32 (wr32 m a v) b = if b =? a then v else rd32 m b.
Proof.
  unfold rd32, wr32. destruct (Z.eqb_spec b a) as [->|].
  - by rewrite lookup_insert_eq.
  - by rewrite lookup_insert_ne by congruence.
Qed.

(** The writes of two nested loops over a grid of distinct words, whose values
    do not depend on the words of the grid. *)
Lemma grid_writes (addr : Z -> Z -> Z) (val : Z -> Z -> gmap Z Z -> Z) (v : Z -> Z -> Z) w h m :
  let grid a := exists r c, 0 <= r < h /\ 0 <= c < w /\ a = addr r c in
  0 <= w -> 0 <= h ->
  (forall r c r' c', 0 <= r < h -> 0 <= c < w -> 0 <= r' < h -> 0 <= c' < w -> addr r c = addr r' c' -> r = r' /\ c = c') ->
  (forall m' r c, 0 <= r < h -> 0 <= c < w -> (forall a, ~ grid a -> rd32 m' a = rd32 m a) -> val r c m' = v r c) ->
  let m' := for_range 0 h (fun r m => for_range 0 w (fun c m => wr32 m (addr r c) (val r c m)) m) m in
  (forall r c, 0 <= r < h -> 0 <= c < w -> rd32 m' (addr r c) = v r c) /\
  (forall a, ~ grid a -> rd32 m' a = rd32 m a).
Proof.
  intros grid Hw Hh Hinj Hval m'.
  set (done r0 c0 m1 := (forall r c, 0 <= r < h -> 0 <= c < w -> r < r0 \/ (r = r0 /\ c < c0) -> rd32 m1 (addr r c) = v r c) /\
    (forall a, ~ grid a -> rd32 m1 a = rd32 m a)).
  assert (Hrow : forall r m1, 0 <= r < h -> done r 0 m1 ->
    done r w (for_range 0 w (fun c m => wr32 m (addr r c) (val r c m)) m1)).
  { intros r m1 Hr H0. apply (for_range_ind (done r)); [done|done|]. intros c m2 Hc [H1 H2]. split.
    - intros r' c' Hr' Hc' Hlt. rewrite rd32_wr32. destruct (Z.eqb_spec (addr r' c') (addr r c)) as [E|E].
      + apply Hinj in E as [-> ->]; [|done..]. by apply Hval.
      + apply H1; [done|done|]. destruct Hlt as [|[-> Hlt]]; [by left|]. right. split; [done|].
        assert (c' <> c) by congruence. lia.
    - intros a Ha. rewrite rd32_wr32. destruct (Z.eqb_spec a (addr r c)) as [->|]; [|by apply H2].
      destruct Ha. by exists r, c. }
  assert (Hall : done h 0 m').
  { unfold m'. apply (for_range_ind (fun r => done r 0)); [done| |].
    - split; [intros; lia|done].
    - intros r m1 Hr H1. destruct (Hrow r m1 Hr H1) as [H2 H3]. split; [|done].
      intros r' c' Hr' Hc' Hlt. apply H2; [done|done|]. destruct (decide (r' = r)); [right; lia|left; lia]. }
  destruct Hall as [H1 H2]. split; [|done]. intros r c Hr Hc. apply H1; [done|done|lia].
Qed.

Section Drawing.
Context (fb : fb_t) (Hfb : fb_ok fb).

Lemma px_addr_inj x y x' y' : on_fb fb x y -> on_fb fb x' y' -> px_addr fb x y = px_addr fb x' y' -> x = x' /\ y = y'.
Proof.
  destruct Hfb as [? ? ? Hs ?]. unfold on_fb, px_addr, px_at. intros [? ?] [? ?] E.
  assert (y = y') as -> by (assert (E' : y * fb_stride fb + x = y' * fb_stride fb + x') by lia; nia). lia.
Qed.

Lemma draws_refl m : draws fb m m blank.
Proof. by split. Qed.

Lemma draws_trans m m1 m2 f g : draws fb m m1 f -> draws fb m1 m2 g -> draws fb m m2 (over g f).
Proof.
  intros [H1 H2] [H3 H4]. split.
  - intros x y Hxy. unfold over. rewrite H3 by done. destruct (g x y); [done|]. by apply H1.
  - intros a Ha. by rewrite H4, H2.
Qed.

Lemma draws_ext m m' f g : (forall x y, on_fb fb x y -> f x y = g x y) -> draws fb m m' f -> draws fb m m' g.
Proof. intros He [H1 H2]. split; [|done]. intros x y Hxy. by rewrite <- He, H1. Qed.

Lemma pixel_index x y : on_fb fb x y -> u32 (y * fb_stride fb + x) = y * fb_stride fb + x.
Proof. destruct Hfb. intros [? ?]. apply u32_id. nia. Qed.

Lemma putpixel_draws x y color m :
  0 <= x -> 0 <= y -> draws fb m (fb_putpixel fb x y color m) (rect_paint x y 1 1 color).
Proof.
  intros Hx Hy. unfold fb_putpixel. rewrite (proj2 (Z.eqb_neq (fb_pixels fb) 0)) by (destruct Hfb; lia).
  destruct (Z.geb_spec x (fb_width fb)), (Z.geb_spec y (fb_height fb)); cbn [orb].
  1-3: apply (draws_ext m m blank); [|apply draws_refl]; intros px py [? ?]; unfold blank, rect_paint;
    destruct (Z.leb_spec x px), (Z.ltb_spec px (x + 1)), (Z.leb_spec y py), (Z.ltb_spec py (y + 1)); cbn [andb]; try done; lia.
  assert (Hon : on_fb fb x y) by (unfold on_fb; lia). rewrite pixel_index by done.
  change (px_at fb (y * fb_stride fb + x)) with (px_addr fb x y). split.
  - intros px py Hp. rewrite rd32_wr32. unfold rect_paint.
    destruct (Z.eqb_spec (px_addr fb px py) (px_addr fb x y)) as [E|E].
    + apply px_addr_inj in E as [-> ->]; [|done..].
      by rewrite !Z.leb_refl, !(proj2 (Z.ltb_lt _ _)) by lia.
    + destruct (Z.leb_spec x px), (Z.ltb_spec px (x + 1)), (Z.leb_spec y py), (Z.ltb_spec py (y + 1)); cbn [andb]; try done.
      destruct E. by replace px with x by lia; replace py with y by lia.
  - intros a Ha. rewrite rd32_wr32. destruct (Z.eqb_spec a (px_addr fb x y)) as [->|]; [by destruct (Ha x y)|done].
Qed.

(** The common form of fb_fillrect and fb_blit. *)
Lemma grid_draws x y w h (val : Z -> Z -> gmap Z Z -> Z) (v : Z -> Z -> Z) m :
  0 <= x -> 0 <= y -> 0 <= w -> 0 <= h -> x + w <= fb_width fb -> y + h <= fb_height fb -> 0 < w -> 0 < h ->
  (forall m' r c, 0 <= r < h -> 0 <= c < w -> (forall a, off_fb fb a -> rd32 m' a = rd32 m a) -> val r c m' = v r c) ->
  draws fb m (for_range 0 h (fun r m => for_range 0 w (fun c m =>
      wr32 m (px_at fb (u32 (y * fb_stride fb + x) + r * fb_stride fb + c)) (val r c m)) m) m)
    (fun px py => if (x <=? px) && (px <? x + w) && (y <=? py) && (py <? y + h) then Some (v (py - y) (px - x)) else None).
Proof.
  intros Hx Hy Hw Hh Hxw Hyh Hw0 Hh0 Hval. rewrite pixel_index by (unfold on_fb; lia).
  set (addr r c := px_at fb (y * fb_stride fb + x + r * fb_stride fb + c)).
  assert (Haddr : forall r c, addr r c = px_addr fb (x + c) (y + r)) by (intros; unfold addr, px_addr; f_equal; lia).
  destruct (grid_writes addr val v w h m Hw Hh) as [H1 H2].
  - intros r c r' c' ? ? ? ? E. rewrite !Haddr in E. apply px_addr_inj in E; unfold on_fb; lia.
  - intros m' r c Hr Hc Ha. apply Hval; [done|done|]. intros a Hoff. apply Ha. intros (r' & c' & ? & ? & ->).
    rewrite Haddr in Hoff. apply (Hoff (x + c') (y + r')); [unfold on_fb; lia|done].
  - split.
    + intros px py Hp.
      destruct (Z.leb_spec x px), (Z.ltb_spec px (x + w)), (Z.leb_spec y py), (Z.ltb_spec py (y + h)); cbn [andb default];
        try (apply H2; intros (r & c & ? & ? & E); rewrite Haddr in E; apply px_addr_inj in E as [? ?];
             [lia|done|unfold on_fb; lia]).
      specialize (H1 (py - y) (px - x) ltac:(lia) ltac:(lia)). rewrite Haddr in H1.
      by replace (x + (px - x)) with px in H1 by lia; replace (y + (py - y)) with py in H1 by lia.
    + intros a Ha. apply H2. intros (r & c & ? & ? & ->). rewrite Haddr in Ha.
      apply (Ha (x + c) (y + r)); [unfold on_fb; lia|done].
Qed.

Lemma blank_outside m f : (forall x y, on_fb fb x y -> f x y = None) -> draws fb m m f.
Proof. intros Hf. apply (draws_ext m m blank); [|apply draws_refl]. intros x y Hxy. by rewrite Hf. Qed.

Lemma fillrect_draws x y w h color m :
  0 <= x -> 0 <= y -> 0 <= w -> 0 <= h -> draws fb m (fb_fillrect fb x y w h color m) (rect_paint x y w h color).
Proof.
  intros Hx Hy Hw Hh. unfold fb_fillrect. rewrite (proj2 (Z.eqb_neq (fb_pixels fb) 0)) by (destruct Hfb; lia). cbn [orb].
  destruct (_ || _) eqn:Hg.
  { apply blank_outside. intros px py [? ?]. unfold rect_paint. b2p.
    destruct (Z.leb_spec x px), (Z.ltb_spec px (x + w)), (Z.leb_spec y py), (Z.ltb_spec py (y + h)); cbn [andb]; try done.
    destruct Hg as [Hg|?]; b2p; [destruct Hg as [Hg|?]; b2p; [destruct Hg; b2p; lia|lia]|lia]. }
  b2p. set (w' := if w >? fb_width fb - x then _ else _). set (h' := if h >? fb_height fb - y then _ else _).
  assert (Hw' : w' = Z.min w (fb_width fb - x)) by (unfold w'; destruct (Z.gtb_spec w (fb_width fb - x)); lia).
  assert (Hh' : h' = Z.min h (fb_height fb - y)) by (unfold h'; destruct (Z.gtb_spec h (fb_height fb - y)); lia).
  clearbody w' h'. eapply draws_ext; [|apply (grid_draws x y w' h' (fun _ _ _ => color) (fun _ _ => color)); try done; lia].
  intros px py [? ?]. unfold rect_paint. cbn beta.
  destruct (Z.leb_spec x px), (Z.ltb_spec px (x + w')), (Z.leb_spec y py), (Z.ltb_spec py (y + h')),
    (Z.ltb_spec px (x + w)), (Z.ltb_spec py (y + h)); cbn [andb]; try done; lia.
Qed.

(** The words fb_blit reads. *)
Definition blit_paint (m : gmap Z Z) (src x y w h : Z) : paint := fun px py =>
  if (x <=? px) && (px <? x + w) && (y <=? py) && (py <? y + h)
  then Some (rd32 m (src + 4 * ((py - y) * w + (px - x)))) else None.

Lemma blit_draws x y src w h m :
  0 <= x -> 0 <= y -> 0 <= w -> 0 <= h -> src <> 0 ->
  (forall i, 0 <= i < w * h -> off_fb fb (src + 4 * i)) ->
  draws fb m (fb_blit fb x y src w h m) (blit_paint m src x y w h).
Proof.
  intros Hx Hy Hw Hh Hsrc Hoff. unfold fb_blit. rewrite (proj2 (Z.eqb_neq (fb_pixels fb) 0)) by (destruct Hfb; lia).
  rewrite (proj2 (Z.eqb_neq src 0)) by done. cbn [orb].
  destruct (_ || _) eqn:Hg.
  { apply blank_outside. intros px py [? ?]. unfold blit_paint. b2p.
    destruct (Z.leb_spec x px), (Z.ltb_spec px (x + w)), (Z.leb_spec y py), (Z.ltb_spec py (y + h)); cbn [andb]; try done.
    destruct Hg as [Hg|?]; b2p; [destruct Hg as [Hg|?]; b2p; [destruct Hg; b2p; lia|lia]|lia]. }
  b2p. set (w' := if w >? fb_width fb - x then _ else _). set (h' := if h >? fb_height fb - y then _ else _).
  assert (Hw' : w' = Z.min w (fb_width fb - x)) by (unfold w'; destruct (Z.gtb_spec w (fb_width fb - x)); lia).
  assert (Hh' : h' = Z.min h (fb_height fb - y)) by (unfold h'; destruct (Z.gtb_spec h (fb_height fb - y)); lia).
  clearbody w' h'.
  eapply draws_ext; [|apply (grid_draws x y w' h' (fun r c m => rd32 m (src + 4 * (r * w + c)))
    (fun r c => rd32 m (src + 4 * (r * w + c)))); try lia].
  - intros px py [? ?]. unfold blit_paint.
    destruct (Z.leb_spec x px), (Z.ltb_spec px (x + w')), (Z.leb_spec y py), (Z.ltb_spec py (y + h')),
      (Z.ltb_spec px (x + w)), (Z.ltb_spec py (y + h)); cbn [andb]; try done; lia.
  - intros m' r c Hr Hc Ha. apply Ha, Hoff. nia.
Qed.

(** Setting the points of a list that pass a test. *)
Lemma points_draws (keep : Z * Z -> bool) color pts : forall m,
  (forall p, p ∈ pts -> keep p = true -> 0 <= fst p /\ 0 <= snd p) ->
  draws fb m (foldl (fun m p => if keep p then fb_putpixel fb (fst p) (snd p) color m else m) m pts)
    (fun x y => if keep (x, y) then points_paint pts color x y else None).
Proof.
  induction pts as [|[x y] pts IH]; intros m Hp; cbn [foldl].
  { apply blank_outside. intros x y _. unfold points_paint. by destruct (keep (x, y)). }
  eapply draws_ext; [|eapply draws_trans; [|apply IH; intros p Hin; apply Hp; by constructor]].
  2: { instantiate (1 := if keep (x, y) then rect_paint x y 1 1 color else blank). destruct (keep (x, y)) eqn:Ek; [|apply draws_refl].
       cbn [fst snd]. destruct (Hp (x, y)) as [? ?]; [by left|done|]. by apply putpixel_draws. }
  intros px py _. unfold over, points_paint. destruct (keep (px, py)) eqn:Ek.
  - destruct (bool_decide ((px, py) ∈ pts)) eqn:Eb; [apply bool_decide_eq_true in Eb; by rewrite bool_decide_true by (by right)|].
    apply bool_decide_eq_false in Eb. destruct (decide ((px, py) = (x, y))) as [E|E].
    + rewrite bool_decide_true by (rewrite E; by left). injection E as -> ->. rewrite Ek. unfold rect_paint.
      by rewrite !Z.leb_refl, !(proj2 (Z.ltb_lt _ _)) by lia.
    + rewrite bool_decide_false by (rewrite elem_of_cons; tauto). destruct (keep (x, y)); [|done]. unfold rect_paint.
      destruct (Z.leb_spec x px), (Z.ltb_spec px (x + 1)), (Z.leb_spec y py), (Z.ltb_spec py (y + 1)); cbn [andb]; try done.
      destruct E. f_equal; lia.
  - destruct (keep (x, y)) eqn:Ek'; [|done]. unfold rect_paint.
    destruct (Z.leb_spec x px), (Z.ltb_spec px (x + 1)), (Z.leb_spec y py), (Z.ltb_spec py (y + 1)); cbn [andb]; try done.
    replace px with x in Ek by lia. replace py with y in Ek by lia. congruence.
Qed.
End Drawing.

(** * Lines

    The loop of draw_line visits a list of points that does not depend on how a
    point is set.  After [i] horizontal and [j] vertical steps the error term is
    [(j + 1) dx - (i + 1) |dy|]; every iteration takes at least one step and
    never one past the end point, so the loop ends after at most [dx + |dy|]
    iterations and stays in the box the end points span. *)

Definition set_points {S} (point : Z -> Z -> S -> S) (m : S) (pts : list (Z * Z)) : S :=
  foldl (fun m p => point (fst p) (snd p) m) m pts.

Lemma line_step dx D i j :
  0 <= i <= dx -> 0 <= j <= D -> i < dx \/ j < D ->
  let err := (j + 1) * dx - (i + 1) * D in
  (2 * err >= - D -> i < dx) /\ (2 * err <= dx -> j < D) /\ (2 * err >= - D \/ 2 * err <= dx).
Proof. intros Hi Hj Hlt err. unfold err. split_and!; nia. Qed.

Lemma line_loop_points x1 y1 dx D sx sy fuel : forall i j,
  0 <= i <= dx -> 0 <= j <= D -> (Z.to_nat ((dx - i) + (D - j)) < fuel)%nat ->
  exists pts,
    (forall p, p ∈ pts -> exists a b, 0 <= a <= dx - i /\ 0 <= b <= D - j /\ p = (x1 - sx * a, y1 - sy * b)) /\
    (sx <> 0 -> sy <> 0 -> forall (T : Type) (point : Z -> Z -> T -> T) m,
     line_loop fuel point (x1 - sx * (dx - i)) (y1 - sy * (D - j)) x1 y1 dx sx (- D) sy ((j + 1) * dx - (i + 1) * D) m
       = Some (set_points point m pts)).
Proof.
  induction fuel as [|fuel IH]; intros i j Hi Hj Hf; [lia|].
  destruct (decide (i = dx /\ j = D)) as [[-> ->]|Hne].
  { exists [(x1, y1)]. split.
    - intros p ->%list_elem_of_singleton. exists 0, 0. split_and!; try lia. by rewrite !Z.mul_0_r, !Z.sub_0_r.
    - intros _ _ T point m. cbn [line_loop]. rewrite !Z.sub_diag, !Z.mul_0_r, !Z.sub_0_r, !Z.eqb_refl. done. }
  destruct (line_step dx D i j Hi Hj ltac:(lia)) as (Sx & Sy & Sn). set (err := (j + 1) * dx - (i + 1) * D) in *.
  set (i' := if 2 * err >=? - D then i + 1 else i). set (j' := if 2 * err <=? dx then j + 1 else j).
  assert (Hi' : i <= i' <= dx /\ j <= j' <= D /\ i + j < i' + j').
  { unfold i', j'. destruct (Z.geb_spec (2 * err) (- D)), (Z.leb_spec (2 * err) dx); lia. }
  destruct (IH i' j') as (pts & Hp & Hloop); [lia|lia|lia|].
  exists ((x1 - sx * (dx - i), y1 - sy * (D - j)) :: pts). split.
  - intros p [->|Hin]%elem_of_cons; [exists (dx - i), (D - j); split_and!; [lia..|done]|].
    destruct (Hp p Hin) as (a & b & Ha & Hb & ->). exists a, b. split_and!; [lia..|done].
  - intros Hsx Hsy T point m. cbn [line_loop].
    rewrite andb_comm. destruct (Z.eqb_spec (y1 - sy * (D - j)) y1), (Z.eqb_spec (x1 - sx * (dx - i)) x1); cbn [andb]; try (exfalso; nia).
    all: etransitivity; [|apply (Hloop Hsx Hsy T point (point _ _ m))]; unfold i', j';
      destruct (2 * err >=? - D), (2 * err <=? dx); f_equal; unfold err; ring.
Qed.

Lemma draw_line_points x0 y0 x1 y1 :
  exists pts,
    (forall p, p ∈ pts -> Z.min x0 x1 <= fst p <= Z.max x0 x1 /\ Z.min y0 y1 <= snd p <= Z.max y0 y1) /\
    forall (T : Type) (point : Z -> Z -> T -> T) m, draw_line point x0 y0 x1 y1 m = Some (set_points point m pts).
Proof.
  set (dx := iabs32 (x1 - x0)). set (D := iabs32 (y1 - y0)).
  set (sx := if x0 <? x1 then 1 else -1). set (sy := if y0 <? y1 then 1 else -1).
  assert (Hx : 0 <= dx /\ x1 - sx * dx = x0 /\ sx <> 0).
  { unfold dx, sx, iabs32. destruct (Z.ltb_spec (x1 - x0) 0), (Z.ltb_spec x0 x1); lia. }
  assert (Hy : 0 <= D /\ y1 - sy * D = y0 /\ sy <> 0).
  { unfold D, sy, iabs32. destruct (Z.ltb_spec (y1 - y0) 0), (Z.ltb_spec y0 y1); lia. }
  destruct (line_loop_points x1 y1 dx D sx sy (S (Z.to_nat (dx - - D))) 0 0) as (pts & Hp & Hloop); [lia|lia|lia|].
  exists pts. split.
  - intros p Hin. destruct (Hp p Hin) as (a & b & Ha & Hb & ->). cbn [fst snd].
    assert (Hs : (sx = 1 \/ sx = -1) /\ (sy = 1 \/ sy = -1)) by (unfold sx, sy; destruct (_ <? _), (_ <? _); lia).
    destruct Hs as [[->| ->] [->| ->]]; lia.
  - intros T point m. unfold draw_line. fold dx D sx sy.
    rewrite <- (Hloop ltac:(lia) ltac:(lia) T point m). destruct Hx as (_ & Hx & _), Hy as (_ & Hy & _).
    rewrite !Z.sub_0_r, Hx, Hy. f_equal. ring.
Qed.

(** The points of a line, in the order they are set. *)
Definition line_points (x0 y0 x1 y1 : Z) : list (Z * Z) :=
  default [] (draw_line (fun x y l => l ++ [(x, y)]) x0 y0 x1 y1 []).

Lemma set_points_collect pts : forall acc, set_points (fun x y l => l ++ [(x, y)]) acc pts = acc ++ pts.
Proof.
  unfold set_points. induction pts as [|[x y] pts IH]; intros acc; cbn [foldl fst snd]; [by rewrite app_nil_r|].
  by rewrite IH, <- app_assoc.
Qed.

Lemma draw_line_sets x0 y0 x1 y1 {T} (point : Z -> Z -> T -> T) m :
  draw_line point x0 y0 x1 y1 m = Some (set_points point m (line_points x0 y0 x1 y1)).
Proof.
  destruct (draw_line_points x0 y0 x1 y1) as (pts & _ & Hd). rewrite Hd. unfold line_points. rewrite Hd. cbn [default].
  by rewrite set_points_collect.
Qed.

Lemma line_points_box x0 y0 x1 y1 p :
  p ∈ line_points x0 y0 x1 y1 -> Z.min x0 x1 <= fst p <= Z.max x0 x1 /\ Z.min y0 y1 <= snd p <= Z.max y0 y1.
Proof.
  destruct (draw_line_points x0 y0 x1 y1) as (pts & Hp & Hd). unfold line_points. rewrite Hd. cbn [default id].
  rewrite set_points_collect. apply Hp.
Qed.

(** The circle loop: [y] grows and [x] does not. *)
Lemma circle_loop_ends fb cx cy color fuel : forall x y err m,
  (Z.to_nat (x - y + 1) < fuel)%nat -> exists m', circle_loop fuel fb cx cy x y err color m = Some m'.
Proof.
  induction fuel as [|fuel IH]; intros x y err m Hf; [lia|]. cbn [circle_loop].
  destruct (Z.geb_spec x y); cbn [negb]; [|by eexists].
  destruct (if err <=? 0 then _ else _) as [|q|q]; cbn [Z.gtb Z.compare]; apply IH; lia.
Qed.

(** * Text *)

(** The lit pixels of a glyph row, a glyph and a text, up to the height limit. *)
Definition row_points (bits cursor_x draw_y : Z) : list (Z * Z) :=
  map (fun col => (u32 (cursor_x + col), draw_y)) (filter (fun col => glyph_bit bits col) (seqZ 0 FONT_GLYPH_WIDTH)).

Fixpoint glyph_points (y max_h : Z) (glyph : list Z) (row cursor_x cursor_y : Z) : list (Z * Z) :=
  match glyph with
  | [] => []
  | bits :: glyph' =>
      let draw_y := u32 (cursor_y + row) in
      if u32 (draw_y - y) >=? max_h then []
      else row_points bits cursor_x draw_y ++ glyph_points y max_h glyph' (row + 1) cursor_x cursor_y
  end.

Fixpoint text_points (x y max_h cursor_x cursor_y : Z) (text : list Z) : list (Z * Z) :=
  match text with
  | [] => []
  | c :: text' =>
      if c =? 0 then [] else
      if c =? NEWLINE then
        let cursor_y := u32 (cursor_y + FONT_LINE_HEIGHT) in
        if u32 (cursor_y - y) >=? max_h then [] else text_points x y max_h x cursor_y text'
      else
        match font_glyph c with
        | None => []
        | Some glyph => glyph_points y max_h glyph 0 cursor_x cursor_y
        end ++ text_points x y max_h (u32 (cursor_x + FONT_CHAR_WIDTH)) cursor_y text'
  end.

Definition set_kept (fb : fb_t) (skip_row keep_col : Z -> bool) (color : Z) (m : gmap Z Z) (pts : list (Z * Z)) : gmap Z Z :=
  foldl (fun m p => if negb (skip_row (snd p)) && keep_col (fst p) then fb_putpixel fb (fst p) (snd p) color m else m) m pts.

Lemma set_kept_row fb skip_row keep_col color bits cursor_x draw_y m :
  set_kept fb skip_row keep_col color m (row_points bits cursor_x draw_y) =
  if skip_row draw_y then m else
  for_range 0 FONT_GLYPH_WIDTH (fun col m =>
    let draw_x := u32 (cursor_x + col) in
    if glyph_bit bits col && keep_col draw_x then fb_putpixel fb draw_x draw_y color m else m) m.
Proof.
  unfold set_kept, row_points, for_range. rewrite Z.sub_0_r. generalize (seqZ 0 FONT_GLYPH_WIDTH). intros l. revert m.
  induction l as [|col l IH]; intros m; [by destruct (skip_row draw_y)|]. rewrite filter_cons.
  destruct (decide (glyph_bit bits col)) as [Hb|Hb]; cbn [map foldl fst snd].
  - rewrite IH. apply Is_true_eq_true in Hb. rewrite Hb. cbn [andb]. by destruct (skip_row draw_y).
  - rewrite IH. apply Is_true_false_1 in Hb. rewrite Hb. done.
Qed.

Lemma glyph_rows_points fb skip_row keep_col y max_h color glyph : forall row cursor_x cursor_y m,
  glyph_rows fb skip_row keep_col y max_h glyph row cursor_x cursor_y color m =
  set_kept fb skip_row keep_col color m (glyph_points y max_h glyph row cursor_x cursor_y).
Proof.
  induction glyph as [|bits glyph IH]; intros row cursor_x cursor_y m; [done|]. cbn [glyph_rows glyph_points].
  destruct (_ >=? _); [done|]. rewrite IH, <- set_kept_row. unfold set_kept. by rewrite foldl_app.
Qed.

Lemma clipped_loop_points fb skip_row keep_col x y max_h color text : forall cursor_x cursor_y m,
  clipped_loop fb skip_row keep_col x y max_h cursor_x cursor_y text color m =
  set_kept fb skip_row keep_col color m (text_points x y max_h cursor_x cursor_y text).
Proof.
  induction text as [|c text IH]; intros cursor_x cursor_y m; [done|]. cbn [clipped_loop text_points].
  destruct (c =? 0); [done|]. destruct (c =? NEWLINE).
  - destruct (_ >=? _); [done|apply IH].
  - rewrite IH. destruct (font_glyph c) as [glyph|]; [|done].
    rewrite glyph_rows_points. unfold set_kept. by rewrite foldl_app.
Qed.

(** Every glyph has eight rows. *)
Lemma font_glyph_rows ch glyph : font_glyph ch = Some glyph -> length glyph = 8%nat.
Proof.
  unfold font_glyph. destruct (_ || _); [done|]. intros Hg.
  assert (Hall : forallb (fun g => length g =? 8)%nat g_font_glyphs = true) by reflexivity.
  rewrite forallb_forall in Hall. apply Nat.eqb_eq, Hall. apply list_elem_of_In. by eapply list_elem_of_lookup_2.
Qed.

Lemma row_points_in bits cursor_x draw_y p :
  0 <= cursor_x -> cursor_x + 8 < 2 ^ 32 -> p ∈ row_points bits cursor_x draw_y ->
  cursor_x <= fst p < cursor_x + 8 /\ snd p = draw_y.
Proof.
  intros Hx Hx' Hp. unfold row_points in Hp. apply list_elem_of_fmap in Hp as (col & -> & Hc).
  apply list_elem_of_filter in Hc as [_ Hc%elem_of_seqZ]. unfold FONT_GLYPH_WIDTH in Hc. cbn [fst snd].
  rewrite u32_id by lia. lia.
Qed.

Lemma glyph_points_in y max_h glyph cursor_x cursor_y p : forall row,
  0 <= cursor_x -> cursor_x + 8 < 2 ^ 32 -> 0 <= y -> y <= cursor_y -> 0 <= row ->
  cursor_y + row + Z.of_nat (length glyph) < 2 ^ 32 -> p ∈ glyph_points y max_h glyph row cursor_x cursor_y ->
  cursor_x <= fst p < cursor_x + 8 /\ cursor_y + row <= snd p < cursor_y + row + Z.of_nat (length glyph) /\ snd p < y + max_h.
Proof.
  induction glyph as [|bits glyph IH]; intros row Hx Hx' Hy Hyc Hr Hlen Hp; cbn [glyph_points length] in *; [by apply not_elem_of_nil in Hp|].
  destruct (Z.geb_spec (u32 (u32 (cursor_y + row) - y)) max_h) as [|Hm]; [by apply not_elem_of_nil in Hp|].
  rewrite (u32_id (cursor_y + row)) in Hm, Hp by lia. rewrite u32_id in Hm by lia.
  apply elem_of_app in Hp as [Hp|Hp].
  - apply row_points_in in Hp as [? ->]; [|lia..]. lia.
  - apply IH in Hp; lia.
Qed.

(** A text without line breaks lights pixels of one line of glyphs. *)
Lemma text_points_in x y max_h text p : forall cursor_x,
  Forall (fun c => c <> NEWLINE) (str_cut text) -> 0 <= cursor_x -> 0 <= y -> y + 8 < 2 ^ 32 ->
  cursor_x + 8 * Z.of_nat (length (str_cut text)) < 2 ^ 32 -> p ∈ text_points x y max_h cursor_x y text ->
  cursor_x <= fst p < cursor_x + 8 * Z.of_nat (length (str_cut text)) /\ y <= snd p < y + 8 /\ snd p < y + max_h.
Proof.
  induction text as [|c text IH]; intros cursor_x Hnl Hx Hy Hy' Hlen Hp; cbn [text_points str_cut] in *; [by apply not_elem_of_nil in Hp|].
  destruct (Z.eqb_spec c 0); [by apply not_elem_of_nil in Hp|]. cbn [length] in Hlen |- *.
  apply Forall_cons in Hnl as [Hc Hnl]. destruct (Z.eqb_spec c NEWLINE); [done|]. unfold FONT_CHAR_WIDTH in Hp.
  apply elem_of_app in Hp as [Hp|Hp].
  - destruct (font_glyph c) as [glyph|] eqn:Eg; [|by apply not_elem_of_nil in Hp]. apply font_glyph_rows in Eg.
    apply glyph_points_in in Hp; rewrite ?Eg in *; lia.
  - rewrite u32_id in Hp by lia. apply IH in Hp; [lia|done|lia..].
Qed.

(** With no room nothing is lit. *)
Lemma text_points_zero x y text p : forall cursor_x cursor_y, ~ p ∈ text_points x y 0 cursor_x cursor_y text.
Proof.
  assert (Hg : forall glyph row cursor_x cursor_y, glyph_points y 0 glyph row cursor_x cursor_y = []).
  { intros [|bits glyph] row cursor_x cursor_y; [done|]. cbn [glyph_points].
    rewrite Z.geb_leb, (proj2 (Z.leb_le _ _)); [done|apply u32_range]. }
  induction text as [|c text IH]; intros cursor_x cursor_y Hp; cbn [text_points] in Hp; [by apply not_elem_of_nil in Hp|].
  destruct (c =? 0); [by apply not_elem_of_nil in Hp|]. destruct (c =? NEWLINE).
  - destruct (_ >=? _); [by apply not_elem_of_nil in Hp|]. by apply IH in Hp.
  - destruct (font_glyph c); [rewrite Hg in Hp|]; by apply IH in Hp.
Qed.
