(* ===== verification/Gui.v ===== *)
(** The window system: kernel/gui_events.c, gui_damage.c, gui_backing.c,
    gui_pool.c, gui_cursor.c and gui_input.c on the types of kernel/gui.h.

    There is one desktop, a static of gui_compositor.c; the state of the window
    system is that desktop with the two flags next to it, the kernel heap that
    holds the backing buffers, and pixel memory.  [desktop] pointers are not
    null in these functions: the callers that can see a null desktop test
    [g_gui_active].  The serial log of focus changes is not state, and each
    event queue operation runs with interrupts off, so it is one step. *)

From S2P Require Import Prelude.
From S2P Require Import Bytes.
From S2P Require Import ProcessRegions.
From S2P Require Import Input.
From S2P Require Import Framebuffer.
Open Scope arm.

(** * The kernel heap, as the window system uses it *)

Class KernelHeap (H : Type) := {
  h_malloc : Z -> H -> Z * H;
  h_free : Z -> H -> H }.

(** * gui.h *)

Definition GUI_MAX_WINDOWS : Z := 16.
Definition GUI_NO_WINDOW : Z := 0xffffffff.
Definition GUI_CURSOR_W : Z := 16.
Definition GUI_CURSOR_H : Z := 16.
Definition GUI_TITLE_LEN : Z := 32.
Definition GUI_DAMAGE_MAX : Z := 32.
Definition GUI_CLOSE_BTN_W : Z := 14.
Definition GUI_CLOSE_BTN_PAD : Z := 2.
Definition GUI_CLOSE_BTN_MIN_TITLE_H : Z := 10.
Definition GUI_EVENT_QUEUE_SIZE : Z := 32.
Definition GUI_NO_OWNER : Z := 0xffffffff.
Definition GUI_MAX_CURSOR_REGIONS : Z := 8.

Definition GUI_WINDOW_NO_FOCUS : Z := 1.
Definition GUI_WINDOW_NO_DRAG : Z := 2.
Definition GUI_WINDOW_SKIP_TASKBAR : Z := 4.
Definition GUI_WINDOW_DOCK : Z := 8.

Definition GUI_EVENT_KEY_PRESS : Z := 1.
Definition GUI_EVENT_KEY_RELEASE : Z := 2.
Definition GUI_EVENT_MOUSE_CLICK : Z := 3.
Definition GUI_EVENT_MOUSE_MOVE : Z := 4.
Definition GUI_EVENT_RESIZE : Z := 5.
Definition GUI_EVENT_CLOSE : Z := 6.
Definition GUI_EVENT_MINIMIZE : Z := 7.
Definition GUI_EVENT_MAXIMIZE : Z := 8.

Definition GUI_CURSOR_ARROW : Z := 0.
Definition GUI_CURSOR_HAND : Z := 1.
Definition GUI_CURSOR_REGION_DELETE : Z := 0xffffffff.

Record gui_event := GuiEvent { ev_type : Z; ev_data1 : Z; ev_data2 : Z }.
Record cursor_region := CursorRegion { cr_x : Z; cr_y : Z; cr_w : Z; cr_h : Z; cr_shape : Z; cr_used : bool }.

Record gui_window := Window {
  w_x : Z; w_y : Z; w_w : Z; w_h : Z;
  w_bg_color : Z; w_border_color : Z;
  w_owner_pid : Z;
  w_z : Z;
  w_flags : Z;
  w_title_h : Z;
  w_title : list Z;
  w_events : list gui_event; w_event_head : Z; w_event_tail : Z; w_event_count : Z;
  w_used : bool; w_owner_drawn : bool; w_minimized : bool;
  w_backing : Z; w_backing_capacity : Z;
  w_regions : list cursor_region }.

Record gui_cursor := Cursor {
  c_x : Z; c_y : Z; c_prev_x : Z; c_prev_y : Z; c_buttons_mask : Z; c_visible : bool; c_shape : Z }.

Record damage_rect := DamageRect { r_x : Z; r_y : Z; r_w : Z; r_h : Z }.

(** [d_damage] is the first [damage_count] entries of [damage_rects]. *)
Record gui_desktop := Desktop {
  d_fb : option fb_t;
  d_background_color : Z;
  d_focused : Z;
  d_next_z : Z;
  d_drag_id : Z; d_drag_off_x : Z; d_drag_off_y : Z;
  d_windows : list gui_window;
  d_cursor : gui_cursor;
  d_damage : list damage_rect;
  d_damage_full : bool }.

(** The statics of gui_compositor.c and the memory they reach. *)
Record gui (H : Type) := Gui {
  desk : gui_desktop;
  g_active : bool;
  g_dirty : bool;
  g_heap : H;
  g_px : gmap Z Z }.
Arguments Gui {H} _ _ _ _ _.
Arguments desk {H} _.
Arguments g_active {H} _.
Arguments g_dirty {H} _.
Arguments g_heap {H} _.
Arguments g_px {H} _.

(** ** Field updates *)

Definition set_bounds (w : gui_window) (x y ww h : Z) : gui_window :=
  Window x y ww h (w_bg_color w) (w_border_color w) (w_owner_pid w) (w_z w) (w_flags w) (w_title_h w) (w_title w)
    (w_events w) (w_event_head w) (w_event_tail w) (w_event_count w) (w_used w) (w_owner_drawn w) (w_minimized w)
    (w_backing w) (w_backing_capacity w) (w_regions w).
Definition set_z (w : gui_window) (z : Z) : gui_window :=
  Window (w_x w) (w_y w) (w_w w) (w_h w) (w_bg_color w) (w_border_color w) (w_owner_pid w) z (w_flags w) (w_title_h w)
    (w_title w) (w_events w) (w_event_head w) (w_event_tail w) (w_event_count w) (w_used w) (w_owner_drawn w)
    (w_minimized w) (w_backing w) (w_backing_capacity w) (w_regions w).
Definition set_flags (w : gui_window) (flags : Z) : gui_window :=
  Window (w_x w) (w_y w) (w_w w) (w_h w) (w_bg_color w) (w_border_color w) (w_owner_pid w) (w_z w) flags (w_title_h w)
    (w_title w) (w_events w) (w_event_head w) (w_event_tail w) (w_event_count w) (w_used w) (w_owner_drawn w)
    (w_minimized w) (w_backing w) (w_backing_capacity w) (w_regions w).
Definition set_titles (w : gui_window) (title_h : Z) (title : list Z) : gui_window :=
  Window (w_x w) (w_y w) (w_w w) (w_h w) (w_bg_color w) (w_border_color w) (w_owner_pid w) (w_z w) (w_flags w) title_h
    title (w_events w) (w_event_head w) (w_event_tail w) (w_event_count w) (w_used w) (w_owner_drawn w)
    (w_minimized w) (w_backing w) (w_backing_capacity w) (w_regions w).
Definition set_ring (w : gui_window) (events : list gui_event) (head tail count : Z) : gui_window :=
  Window (w_x w) (w_y w) (w_w w) (w_h w) (w_bg_color w) (w_border_color w) (w_owner_pid w) (w_z w) (w_flags w)
    (w_title_h w) (w_title w) events head tail count (w_used w) (w_owner_drawn w) (w_minimized w)
    (w_backing w) (w_backing_capacity w) (w_regions w).
Definition set_minimized (w : gui_window) (b : bool) : gui_window :=
  Window (w_x w) (w_y w) (w_w w) (w_h w) (w_bg_color w) (w_border_color w) (w_owner_pid w) (w_z w) (w_flags w)
    (w_title_h w) (w_title w) (w_events w) (w_event_head w) (w_event_tail w) (w_event_count w) (w_used w)
    (w_owner_drawn w) b (w_backing w) (w_backing_capacity w) (w_regions w).
Definition set_backing (w : gui_window) (drawn : bool) (backing capacity : Z) : gui_window :=
  Window (w_x w) (w_y w) (w_w w) (w_h w) (w_bg_color w) (w_border_color w) (w_owner_pid w) (w_z w) (w_flags w)
    (w_title_h w) (w_title w) (w_events w) (w_event_head w) (w_event_tail w) (w_event_count w) (w_used w)
    drawn (w_minimized w) backing capacity (w_regions w).
Definition set_regions (w : gui_window) (regions : list cursor_region) : gui_window :=
  Window (w_x w) (w_y w) (w_w w) (w_h w) (w_bg_color w) (w_border_color w) (w_owner_pid w) (w_z w) (w_flags w)
    (w_title_h w) (w_title w) (w_events w) (w_event_head w) (w_event_tail w) (w_event_count w) (w_used w)
    (w_owner_drawn w) (w_minimized w) (w_backing w) (w_backing_capacity w) regions.

Definition set_windows (d : gui_desktop) (ws : list gui_window) : gui_desktop :=
  Desktop (d_fb d) (d_background_color d) (d_focused d) (d_next_z d) (d_drag_id d) (d_drag_off_x d) (d_drag_off_y d)
    ws (d_cursor d) (d_damage d) (d_damage_full d).
Definition set_focused (d : gui_desktop) (id : Z) : gui_desktop :=
  Desktop (d_fb d) (d_background_color d) id (d_next_z d) (d_drag_id d) (d_drag_off_x d) (d_drag_off_y d)
    (d_windows d) (d_cursor d) (d_damage d) (d_damage_full d).
Definition set_next_z (d : gui_desktop) (z : Z) : gui_desktop :=
  Desktop (d_fb d) (d_background_color d) (d_focused d) z (d_drag_id d) (d_drag_off_x d) (d_drag_off_y d)
    (d_windows d) (d_cursor d) (d_damage d) (d_damage_full d).
Definition set_drag (d : gui_desktop) (id off_x off_y : Z) : gui_desktop :=
  Desktop (d_fb d) (d_background_color d) (d_focused d) (d_next_z d) id off_x off_y
    (d_windows d) (d_cursor d) (d_damage d) (d_damage_full d).
Definition set_cursor_state (d : gui_desktop) (c : gui_cursor) : gui_desktop :=
  Desktop (d_fb d) (d_background_color d) (d_focused d) (d_next_z d) (d_drag_id d) (d_drag_off_x d) (d_drag_off_y d)
    (d_windows d) c (d_damage d) (d_damage_full d).
Definition set_damage (d : gui_desktop) (rects : list damage_rect) (full : bool) : gui_desktop :=
  Desktop (d_fb d) (d_background_color d) (d_focused d) (d_next_z d) (d_drag_id d) (d_drag_off_x d) (d_drag_off_y d)
    (d_windows d) (d_cursor d) rects full.
Definition set_fb (d : gui_desktop) (fb : option fb_t) : gui_desktop :=
  Desktop fb (d_background_color d) (d_focused d) (d_next_z d) (d_drag_id d) (d_drag_off_x d) (d_drag_off_y d)
    (d_windows d) (d_cursor d) (d_damage d) (d_damage_full d).
Definition set_shape (c : gui_cursor) (shape : Z) : gui_cursor :=
  Cursor (c_x c) (c_y c) (c_prev_x c) (c_prev_y c) (c_buttons_mask c) (c_visible c) shape.
Definition set_buttons (c : gui_cursor) (mask : Z) : gui_cursor :=
  Cursor (c_x c) (c_y c) (c_prev_x c) (c_prev_y c) mask (c_visible c) (c_shape c).

Definition empty_region : cursor_region := CursorRegion 0 0 0 0 0 false.
Definition no_regions : list cursor_region := replicate (Z.to_nat GUI_MAX_CURSOR_REGIONS) empty_region.
Definition no_title : list Z := replicate (Z.to_nat GUI_TITLE_LEN) 0.
Definition no_event : gui_event := GuiEvent 0 0 0.

(** A window slot as it is after boot, with zeroed statics. *)
Definition empty_window : gui_window :=
  Window 0 0 0 0 0 0 GUI_NO_OWNER 0 0 0 no_title (replicate (Z.to_nat GUI_EVENT_QUEUE_SIZE) no_event) 0 0 0
    false false false 0 0 no_regions.

(** [desktop->windows[i]] *)
Definition win_at (d : gui_desktop) (i : Z) : gui_window := default empty_window (d_windows d !! Z.to_nat i).
Definition put_win (i : Z) (w : gui_window) (d : gui_desktop) : gui_desktop :=
  set_windows d (<[Z.to_nat i := w]> (d_windows d)).

(** * gui_events.c *)

Definition gui_window_push_event (w : gui_window) (type data1 data2 : Z) : Z * gui_window :=
  if negb (w_used w) then (-1, w) else
  let prev := if w_event_tail w =? 0 then GUI_EVENT_QUEUE_SIZE - 1 else w_event_tail w - 1 in
  if (type =? GUI_EVENT_MOUSE_MOVE) && (w_event_count w >? 0) &&
     (ev_type (default no_event (w_events w !! Z.to_nat prev)) =? GUI_EVENT_MOUSE_MOVE) then
    (0, set_ring w (<[Z.to_nat prev := GuiEvent GUI_EVENT_MOUSE_MOVE data1 data2]> (w_events w))
          (w_event_head w) (w_event_tail w) (w_event_count w))
  else if (w_event_count w >=? GUI_EVENT_QUEUE_SIZE) && (type =? GUI_EVENT_MOUSE_MOVE) then (0, w) else
  let '(head, count) :=
    if w_event_count w >=? GUI_EVENT_QUEUE_SIZE
    then (u32 (w_event_head w + 1) mod GUI_EVENT_QUEUE_SIZE, u32 (w_event_count w - 1))
    else (w_event_head w, w_event_count w) in
  (0, set_ring w (<[Z.to_nat (w_event_tail w) := GuiEvent type data1 data2]> (w_events w)) head
        (u32 (w_event_tail w + 1) mod GUI_EVENT_QUEUE_SIZE) (u32 (count + 1))).

Definition gui_window_pop_event (w : gui_window) : option gui_event * gui_window :=
  if negb (w_used w) then (None, w) else
  if w_event_count w =? 0 then (None, w) else
  (Some (default no_event (w_events w !! Z.to_nat (w_event_head w))),
   set_ring w (w_events w) (u32 (w_event_head w + 1) mod GUI_EVENT_QUEUE_SIZE) (w_event_tail w)
     (u32 (w_event_count w - 1))).

(** * gui_damage.c, on the desktop; the flag says whether gui_mark_dirty ran *)

(** The rectangles touch or overlap. *)
Definition rects_touch (x y w h : Z) (r : damage_rect) : bool :=
  (x <=? r_x r + r_w r) && (x + w >=? r_x r) && (y <=? r_y r + r_h r) && (y + h >=? r_y r).

(** The loop over [damage_rects]: [kept] holds the entries passed over, in
    front of the index, and removing the entry at the index moves the rest
    down. *)
Fixpoint merge_loop (rects kept : list damage_rect) (x y w h : Z) : list damage_rect * damage_rect :=
  match rects with
  | [] => (kept, DamageRect x y w h)
  | r :: rects' =>
      if rects_touch x y w h r then
        let ax1 := x + w in let ay1 := y + h in
        let bx1 := r_x r + r_w r in let by1 := r_y r + r_h r in
        let nx0 := if x <? r_x r then x else r_x r in
        let ny0 := if y <? r_y r then y else r_y r in
        let nx1 := if ax1 >? bx1 then ax1 else bx1 in
        let ny1 := if ay1 >? by1 then ay1 else by1 in
        merge_loop rects' kept nx0 ny0 (nx1 - nx0) (ny1 - ny0)
      else merge_loop rects' (kept ++ [r]) x y w h
  end.

Definition damage_add (d : gui_desktop) (x y w h : Z) : gui_desktop * bool :=
  match d_fb d with
  | None => (d, false)
  | Some fb =>
      if d_damage_full d then (d, false) else
      if (w <=? 0) || (h <=? 0) then (d, false) else
      let fb_w := i32 (fb_width fb) in
      let fb_h := i32 (fb_height fb) in
      let '(x, w) := if x <? 0 then (0, w + x) else (x, w) in
      let '(y, h) := if y <? 0 then (0, h + y) else (y, h) in
      if (x >=? fb_w) || (y >=? fb_h) then (d, false) else
      let w := if x + w >? fb_w then fb_w - x else w in
      let h := if y + h >? fb_h then fb_h - y else h in
      if (w <=? 0) || (h <=? 0) then (d, false) else
      if (x =? 0) && (y =? 0) && (w =? fb_w) && (h =? fb_h) then (set_damage d [] true, true) else
      let '(kept, r) := merge_loop (d_damage d) [] x y w h in
      if Z.of_nat (length kept) >=? GUI_DAMAGE_MAX then (set_damage d [] true, true)
      else (set_damage d (kept ++ [r]) false, true)
  end.

Definition damage_clear (d : gui_desktop) : gui_desktop := set_damage d [] false.

(** * Hit testing (gui_input.c) *)

Definition gui_window_contains (w : gui_window) (x y : Z) : bool :=
  w_used w && (x >=? i32 (w_x w)) && (x <? w_x w + w_w w) && (y >=? i32 (w_y w)) && (y <? w_y w + w_h w).

(** The index of the window hit; [None] is [GUI_NO_WINDOW]. *)
Definition gui_hit_test (d : gui_desktop) (x y : Z) : option Z :=
  fst (for_range 0 GUI_MAX_WINDOWS (fun i acc =>
    let '(best, best_z) := acc in
    let window := win_at d i in
    if w_minimized window then acc else
    if gui_window_contains window x y then
      if bool_decide (best = None) || (w_z window >=? best_z) then (Some i, w_z window) else acc
    else acc) (None, 0)).

Definition gui_rect_contains (rx ry rw rh x y : Z) : bool :=
  (x >=? i32 rx) && (x <? rx + rw) && (y >=? i32 ry) && (y <? ry + rh).

(** ** Buttons of the title bar, as (x, y, w, h) *)

Definition gui_close_box_rect (w : gui_window) : option (Z * Z * Z * Z) :=
  if negb (w_used w) || (w_title_h w =? 0) || (byte_at (w_title w) 0 =? 0) || (w_title_h w <? GUI_CLOSE_BTN_MIN_TITLE_H)
  then None else
  let bh := u32 (w_title_h w - 2 * GUI_CLOSE_BTN_PAD) in
  if bh <? 4 then None else
  let bw := if bh <? GUI_CLOSE_BTN_W then bh else GUI_CLOSE_BTN_W in
  if w_w w <? u32 (bw + 2 * GUI_CLOSE_BTN_PAD) then None else
  Some (u32 (w_x w + w_w w - bw - GUI_CLOSE_BTN_PAD), u32 (w_y w + GUI_CLOSE_BTN_PAD), bw, bh).

Definition gui_min_max_btn_row (w : gui_window) : option (Z * Z * Z * Z) :=
  if negb (w_used w) || (w_title_h w =? 0) || (byte_at (w_title w) 0 =? 0) || (w_title_h w <? GUI_CLOSE_BTN_MIN_TITLE_H)
  then None else
  let bh := u32 (w_title_h w - 2 * GUI_CLOSE_BTN_PAD) in
  if bh <? 4 then None else
  let bw := if bh <? GUI_CLOSE_BTN_W then bh else GUI_CLOSE_BTN_W in
  if w_w w <? u32 (3 * bw + 4 * GUI_CLOSE_BTN_PAD) then None else
  Some (u32 (w_x w + w_w w - bw - GUI_CLOSE_BTN_PAD), u32 (w_y w + GUI_CLOSE_BTN_PAD), bw, bh).

Definition gui_minimize_button_rect (w : gui_window) : option (Z * Z * Z * Z) :=
  match gui_min_max_btn_row w with
  | None => None
  | Some (right_x, y, bw, bh) => Some (u32 (right_x - 2 * bw - 2 * GUI_CLOSE_BTN_PAD), y, bw, bh)
  end.

Definition gui_maximize_button_rect (w : gui_window) : option (Z * Z * Z * Z) :=
  match gui_min_max_btn_row w with
  | None => None
  | Some (right_x, y, bw, bh) => Some (u32 (right_x - bw - GUI_CLOSE_BTN_PAD), y, bw, bh)
  end.

Inductive decoration := GUI_DECORATION_SLOT_MINIMIZE | GUI_DECORATION_SLOT_MAXIMIZE | GUI_DECORATION_SLOT_CLOSE.

Definition gui_try_decoration_slot (w : gui_window) (slot : decoration) (x y : Z) : option decoration :=
  let found :=
    match slot with
    | GUI_DECORATION_SLOT_MINIMIZE => gui_minimize_button_rect w
    | GUI_DECORATION_SLOT_MAXIMIZE => gui_maximize_button_rect w
    | GUI_DECORATION_SLOT_CLOSE => gui_close_box_rect w
    end in
  match found with
  | None => None
  | Some (rx, ry, rw, rh) => if gui_rect_contains rx ry rw rh x y then Some slot else None
  end.

(** The button at a point; [None] is [GUI_DECORATION_SLOT_NONE]. *)
Definition gui_hit_test_decoration (w : gui_window) (x y : Z) : option decoration :=
  match gui_try_decoration_slot w GUI_DECORATION_SLOT_MINIMIZE x y with
  | Some s => Some s
  | None =>
      match gui_try_decoration_slot w GUI_DECORATION_SLOT_MAXIMIZE x y with
      | Some s => Some s
      | None => gui_try_decoration_slot w GUI_DECORATION_SLOT_CLOSE x y
      end
  end.

(** * Cursor shape (gui_cursor.c) *)

Definition gui_cursor_region_contains (w : gui_window) (slot content_x content_y : Z) : bool :=
  let r := default empty_region (w_regions w !! Z.to_nat slot) in
  if (cr_w r <=? 0) || (cr_h r <=? 0) then false else
  (content_x >=? cr_x r) && (content_x <? cr_x r + cr_w r) && (content_y >=? cr_y r) && (content_y <? cr_y r + cr_h r).

Definition refreshed_shape (d : gui_desktop) : Z :=
  let x := c_x (d_cursor d) in
  let y := c_y (d_cursor d) in
  match gui_hit_test d x y with
  | None => GUI_CURSOR_ARROW
  | Some hit =>
      let window := win_at d hit in
      let content_x := x - i32 (w_x window) in
      let content_y := y - (i32 (w_y window) + i32 (w_title_h window)) in
      match find_range 0 GUI_MAX_CURSOR_REGIONS (fun i =>
              cr_used (default empty_region (w_regions window !! Z.to_nat i)) &&
              gui_cursor_region_contains window i content_x content_y) with
      | Some i => u8 (cr_shape (default empty_region (w_regions window !! Z.to_nat i)))
      | None =>
          if (w_title_h window >? 0) && negb (byte_at (w_title window) 0 =? 0) && (y >=? i32 (w_y window)) &&
             (y <? i32 (u32 (w_y window + w_title_h window)))
          then GUI_CURSOR_HAND else GUI_CURSOR_ARROW
      end
  end.

Definition gui_refresh_cursor_shape (d : gui_desktop) : gui_desktop :=
  set_cursor_state d (set_shape (d_cursor d) (refreshed_shape d)).

(** * Window policy (gui_pool.c) *)

Definition PANEL_TITLE : list Z := [112; 97; 110; 101; 108].

Definition gui_window_effective_flags (w : gui_window) : Z := if w_used w then w_flags w else 0.

Definition gui_rect_fits_framebuffer (fb : fb_t) (x y w h : Z) : bool :=
  if (w =? 0) || (h =? 0) || (x >=? fb_width fb) || (y >=? fb_height fb) then false
  else (w <=? fb_width fb - x) && (h <=? fb_height fb - y).

Definition gui_apply_builtin_policy (w : gui_window) : gui_window :=
  if negb (w_used w) then w else
  if streq_loop (w_title w) PANEL_TITLE
  then set_flags w (Z.lor (w_flags w) (Z.lor (Z.lor (Z.lor GUI_WINDOW_DOCK GUI_WINDOW_NO_FOCUS) GUI_WINDOW_NO_DRAG)
                                         GUI_WINDOW_SKIP_TASKBAR))
  else w.

(** [for (i = 0; i + 1 < GUI_TITLE_LEN; i++)] until the end of [title]. *)
Fixpoint title_loop (fuel : nat) (title : list Z) (i : Z) (out : list Z) : list Z :=
  match fuel, title with
  | S fuel', c :: title' => if c =? 0 then out else title_loop fuel' title' (i + 1) (put i c out)
  | _, _ => out
  end.

Definition gui_window_set_title (w : gui_window) (title : option (list Z)) : gui_window :=
  match title with
  | None => set_titles w (w_title_h w) no_title
  | Some t => set_titles w (w_title_h w) (title_loop (Z.to_nat (GUI_TITLE_LEN - 1)) t 0 no_title)
  end.

Definition gui_window_lookup (d : gui_desktop) (id : Z) : option gui_window :=
  if id >=? GUI_MAX_WINDOWS then None else
  if negb (w_used (win_at d id)) then None else Some (win_at d id).

(** The window's area below its title bar. *)
Definition content_h (w : gui_window) : Z := if w_h w >? w_title_h w then w_h w - w_title_h w else 0.

Definition gui_focus_window_ensure (d : gui_desktop) : Z * gui_desktop :=
  if negb (d_focused d =? GUI_NO_WINDOW) && (d_focused d <? GUI_MAX_WINDOWS) && w_used (win_at d (d_focused d)) &&
     negb (w_flags (win_at d (d_focused d)) &? GUI_WINDOW_NO_FOCUS)
  then (0, d) else
  match find_range 0 GUI_MAX_WINDOWS (fun i => w_used (win_at d i) && negb (w_flags (win_at d i) &? GUI_WINDOW_NO_FOCUS)) with
  | Some i => (0, set_focused d i)
  | None => (-1, set_focused d GUI_NO_WINDOW)
  end.

(** [for (i = 0; ...) if (matches && found++ == index) return i;] *)
Definition gui_window_for_pid (d : gui_desktop) (owner_pid index : Z) : Z :=
  if owner_pid =? GUI_NO_OWNER then GUI_NO_WINDOW else
  default GUI_NO_WINDOW
    (filter (fun i => w_used (win_at d i) && (w_owner_pid (win_at d i) =? owner_pid) &&
                      negb (w_flags (win_at d i) &? GUI_WINDOW_SKIP_TASKBAR))
       (seqZ 0 GUI_MAX_WINDOWS) !! Z.to_nat index).

(** (x, y, w, h) of a live window. *)
Definition gui_window_get_bounds (w : gui_window) : option (Z * Z * Z * Z) :=
  if negb (w_used w) then None else Some (w_x w, w_y w, w_w w, w_h w).

Section Gui.
Context {H : Type} `{KernelHeap H}.
Implicit Types (g : gui H) (w : gui_window).

Definition with_desk g (d : gui_desktop) : gui H := Gui d (g_active g) (g_dirty g) (g_heap g) (g_px g).
Definition upd_desk (f : gui_desktop -> gui_desktop) g : gui H := with_desk g (f (desk g)).
Definition upd_win (i : Z) (f : gui_window -> gui_window) g : gui H := upd_desk (fun d => put_win i (f (win_at d i)) d) g.
Definition win g (i : Z) : gui_window := win_at (desk g) i.

Definition gui_mark_dirty g : gui H := Gui (desk g) (g_active g) true (g_heap g) (g_px g).

Definition gui_damage_add (x y ww h : Z) g : gui H :=
  let '(d, dirty) := damage_add (desk g) x y ww h in
  Gui d (g_active g) (g_dirty g || dirty) (g_heap g) (g_px g).

Definition gui_damage_add_full g : gui H := gui_mark_dirty (upd_desk (fun d => set_damage d [] true) g).

Definition gui_request_redraw g : gui H :=
  let g := gui_mark_dirty g in
  if g_active g then gui_damage_add_full g else g.

Definition gui_clear_dirty g : gui H :=
  let g := Gui (desk g) (g_active g) false (g_heap g) (g_px g) in
  if g_active g then upd_desk damage_clear g else g.

(** ** gui_backing.c: the window, the heap and pixel memory *)

Definition gui_window_backing_fb w : fb_t := Fb (w_backing w) (w_w w) (content_h w) (w_w w).

Definition gui_window_backing_size w : option Z :=
  if (w_w w =? 0) || (w_h w =? 0) then None else
  if content_h w =? 0 then None else
  let bytes := w_w w * content_h w * 4 in
  if bytes >? UINT32_MAX then None else Some bytes.

Definition gui_window_alloc_backing (needed_bytes : Z) w (hp : H) (px : gmap Z Z) : Z * gui_window * H * gmap Z Z :=
  let '(new_backing, hp) := h_malloc needed_bytes hp in
  if new_backing =? 0 then (-1, w, hp, px) else
  let fb := Fb new_backing (w_w w) (content_h w) (w_w w) in
  let px := fb_fillrect fb 0 0 (fb_width fb) (fb_height fb) (w_bg_color w) px in
  let hp := if negb (w_backing w =? 0) then h_free (w_backing w) hp else hp in
  (0, set_backing w (w_owner_drawn w) new_backing needed_bytes, hp, px).

Definition gui_window_ensure_backing w (hp : H) (px : gmap Z Z) : Z * gui_window * H * gmap Z Z :=
  match gui_window_backing_size w with
  | None => (-1, w, hp, px)
  | Some needed_bytes =>
      if negb (w_backing w =? 0) && (w_backing_capacity w >=? needed_bytes) then (0, w, hp, px)
      else gui_window_alloc_backing needed_bytes w hp px
  end.

Definition gui_window_reset_backing w (hp : H) (px : gmap Z Z) : Z * gui_window * H * gmap Z Z :=
  match gui_window_backing_size w with
  | None => (-1, w, hp, px)
  | Some needed_bytes =>
      if negb (w_backing w =? 0) && (w_backing_capacity w >=? needed_bytes) then
        let fb := gui_window_backing_fb w in
        (0, w, hp, fb_fillrect fb 0 0 (fb_width fb) (fb_height fb) (w_bg_color w) px)
      else gui_window_alloc_backing needed_bytes w hp px
  end.

Definition gui_window_free_backing w (hp : H) : gui_window * H :=
  if w_backing w =? 0 then (w, hp) else (set_backing w false 0 0, h_free (w_backing w) hp).

(** A backing operation on window [i] of the desktop. *)
Definition on_backing (f : gui_window -> H -> gmap Z Z -> Z * gui_window * H * gmap Z Z) (i : Z) g : Z * gui H :=
  let '(status, w, hp, px) := f (win g i) (g_heap g) (g_px g) in
  (status, Gui (put_win i w (desk g)) (g_active g) (g_dirty g) hp px).

(** ** gui_pool.c *)

Definition gui_create_window_for_pid (owner_pid x y ww h bg_color border_color : Z) (title : option (list Z)) g
    : Z * Z * gui H :=
  match d_fb (desk g) with
  | None => (-1, GUI_NO_WINDOW, g)
  | Some fb =>
      if (ww <? 2) || (h <? 2) || negb (gui_rect_fits_framebuffer fb x y ww h) then (-1, GUI_NO_WINDOW, g) else
      match find_range 0 GUI_MAX_WINDOWS (fun i => negb (w_used (win g i))) with
      | None => (-1, GUI_NO_WINDOW, g)
      | Some i =>
          let old := win g i in
          let w := Window x y ww h bg_color border_color owner_pid (d_next_z (desk g)) 0 0 (w_title old)
                     (w_events old) 0 0 0 (w_used old) false (w_minimized old) 0 0 no_regions in
          let w := gui_window_set_title w title in
          let w := Window (w_x w) (w_y w) (w_w w) (w_h w) (w_bg_color w) (w_border_color w) (w_owner_pid w) (w_z w)
                     (w_flags w) (w_title_h w) (w_title w) (w_events w) (w_event_head w) (w_event_tail w)
                     (w_event_count w) true (w_owner_drawn w) false (w_backing w) (w_backing_capacity w) (w_regions w) in
          let w := gui_apply_builtin_policy w in
          let g := upd_desk (fun d => put_win i w (set_next_z d (u32 (d_next_z d + 1)))) g in
          let g := if (d_focused (desk g) =? GUI_NO_WINDOW) && negb (w_flags w &? GUI_WINDOW_NO_FOCUS)
                   then upd_desk (fun d => set_focused d i) g else g in
          let g := upd_desk gui_refresh_cursor_shape g in
          (0, i, gui_damage_add (i32 x) (i32 y) (i32 ww) (i32 h) g)
      end
  end.

Definition gui_create_window (x y ww h bg_color border_color : Z) g : Z * Z * gui H :=
  gui_create_window_for_pid GUI_NO_OWNER x y ww h bg_color border_color None g.

Definition gui_destroy_window (id : Z) g : Z * gui H :=
  if (id >=? GUI_MAX_WINDOWS) || negb (w_used (win g id)) then (-1, g) else
  let window := win g id in
  let '(w, hp) := gui_window_free_backing window (g_heap g) in
  let w := Window 0 0 0 0 0 0 GUI_NO_OWNER 0 0 0 no_title (w_events w) 0 0 0 false false (w_minimized w)
             (w_backing w) (w_backing_capacity w) no_regions in
  let g := Gui (put_win id w (desk g)) (g_active g) (g_dirty g) hp (g_px g) in
  let g := if d_focused (desk g) =? id
           then upd_desk (fun d => snd (gui_focus_window_ensure (set_focused d GUI_NO_WINDOW))) g else g in
  let g := upd_desk gui_refresh_cursor_shape g in
  (0, gui_damage_add (i32 (w_x window)) (i32 (w_y window)) (i32 (w_w window)) (i32 (w_h window)) g).

(** [for (i = GUI_MAX_WINDOWS; i-- > 0;)] *)
Definition gui_destroy_windows_for_pid (pid : Z) g : gui H :=
  if pid =? GUI_NO_OWNER then g else
  for_range 0 GUI_MAX_WINDOWS (fun k g =>
    let i := GUI_MAX_WINDOWS - 1 - k in
    if w_used (win g i) && (w_owner_pid (win g i) =? pid) then snd (gui_destroy_window i g) else g) g.

Definition gui_window_set_title_internal (id : Z) (title : option (list Z)) g : Z * gui H :=
  if (id >=? GUI_MAX_WINDOWS) || negb (w_used (win g id)) then (-1, g) else
  let g := upd_win id (fun w => gui_apply_builtin_policy (gui_window_set_title w title)) g in
  let g := upd_desk gui_refresh_cursor_shape g in
  let w := win g id in
  (0, if w_title_h w >? 0 then gui_damage_add (i32 (w_x w)) (i32 (w_y w)) (i32 (w_w w)) (i32 (w_title_h w)) g else g).

Definition gui_window_set_title_bar_internal (id title_h : Z) g : Z * gui H :=
  if (id >=? GUI_MAX_WINDOWS) || negb (w_used (win g id)) then (-1, g) else
  if title_h >=? w_h (win g id) then (-1, g) else
  let g := upd_win id (fun w => set_titles w title_h (w_title w)) g in
  let g := upd_desk gui_refresh_cursor_shape g in
  let w := win g id in
  (0, gui_damage_add (i32 (w_x w)) (i32 (w_y w)) (i32 (w_w w)) (i32 (w_h w)) g).

Definition gui_window_set_flags_internal (id flags : Z) g : Z * gui H :=
  if (id >=? GUI_MAX_WINDOWS) || negb (w_used (win g id)) then (-1, g) else
  let old_flags := w_flags (win g id) in
  let g := upd_win id (fun w => set_flags w flags) g in
  let g := if (flags &? GUI_WINDOW_NO_FOCUS) && (d_focused (desk g) =? id)
           then upd_desk (fun d => snd (gui_focus_window_ensure (set_focused d GUI_NO_WINDOW))) g else g in
  if Z.lxor old_flags flags &? Z.lor (Z.lor GUI_WINDOW_NO_FOCUS GUI_WINDOW_NO_DRAG) GUI_WINDOW_DOCK then
    let g := upd_desk gui_refresh_cursor_shape g in
    let w := win g id in
    (0, gui_damage_add (i32 (w_x w)) (i32 (w_y w)) (i32 (w_w w)) (i32 (w_h w)) g)
  else (0, g).

(** The damage of a window that went from one rectangle to another. *)
Definition damage_union (old_x old_y old_w old_h new_x new_y new_w new_h : Z) g : gui H :=
  let ux0 := if old_x <? new_x then old_x else new_x in
  let uy0 := if old_y <? new_y then old_y else new_y in
  let ux1 := if old_x + old_w >? new_x + new_w then old_x + old_w else new_x + new_w in
  let uy1 := if old_y + old_h >? new_y + new_h then old_y + old_h else new_y + new_h in
  gui_damage_add ux0 uy0 (ux1 - ux0) (uy1 - uy0) g.

Definition gui_move_window (id x y : Z) g : Z * gui H :=
  match d_fb (desk g) with
  | None => (-1, g)
  | Some fb =>
      if (id >=? GUI_MAX_WINDOWS) || (x >=? fb_width fb) || (y >=? fb_height fb) || negb (w_used (win g id))
      then (-1, g) else
      let old := win g id in
      let g := upd_win id (fun w => set_bounds w x y (w_w w) (w_h w)) g in
      let g := upd_desk gui_refresh_cursor_shape g in
      (0, damage_union (i32 (w_x old)) (i32 (w_y old)) (i32 (w_w old)) (i32 (w_h old))
            (i32 x) (i32 y) (i32 (w_w old)) (i32 (w_h old)) g)
  end.

Definition gui_resize_window (id x y ww h : Z) g : Z * gui H :=
  match d_fb (desk g) with
  | None => (-1, g)
  | Some fb =>
      if (id >=? GUI_MAX_WINDOWS) || (ww <? 2) || (h <? 2) || negb (gui_rect_fits_framebuffer fb x y ww h) ||
         negb (w_used (win g id))
      then (-1, g) else
      let old := win g id in
      let size_changed := negb (i32 (w_w old) =? i32 ww) || negb (i32 (w_h old) =? i32 h) in
      let g := upd_win id (fun w => set_bounds w x y ww h) g in
      let g := upd_desk gui_refresh_cursor_shape g in
      let '(status, g) :=
        if size_changed then
          let '(status, g) := on_backing gui_window_reset_backing id g in
          if negb (status =? 0) then
            (-1, upd_win id (fun w => set_bounds w (u32 (i32 (w_x old))) (u32 (i32 (w_y old)))
                                        (u32 (i32 (w_w old))) (u32 (i32 (w_h old)))) g)
          else (0, upd_win id (fun w => snd (gui_window_push_event w GUI_EVENT_RESIZE (i32 ww) (i32 h))) g)
        else (0, g) in
      if negb (status =? 0) then (-1, g) else
      (0, damage_union (i32 (w_x old)) (i32 (w_y old)) (i32 (w_w old)) (i32 (w_h old)) (i32 x) (i32 y) (i32 ww) (i32 h) g)
  end.

Definition gui_window_minimize (id : Z) g : Z * gui H :=
  if id >=? GUI_MAX_WINDOWS then (-1, g) else
  if negb (w_used (win g id)) || w_minimized (win g id) then (-1, g) else
  let g := upd_win id (fun w => snd (gui_window_push_event (set_minimized w true) GUI_EVENT_MINIMIZE 0 0)) g in
  (0, gui_request_redraw g).

Definition gui_window_restore (id : Z) g : Z * gui H :=
  if id >=? GUI_MAX_WINDOWS then (-1, g) else
  if negb (w_used (win g id)) || negb (w_minimized (win g id)) then (-1, g) else
  let g := upd_win id (fun w => set_minimized w false) g in
  let g := if negb (gui_window_effective_flags (win g id) &? GUI_WINDOW_NO_FOCUS)
           then upd_desk (fun d => set_focused d id) g else g in
  let g := upd_desk (fun d => put_win id (set_z (win_at d id) (d_next_z d)) (set_next_z d (u32 (d_next_z d + 1)))) g in
  let g := upd_win id (fun w => snd (gui_window_push_event w GUI_EVENT_MAXIMIZE 0 0)) g in
  (0, gui_request_redraw g).

Definition damage_window (w : gui_window) g : gui H :=
  gui_damage_add (i32 (w_x w)) (i32 (w_y w)) (i32 (w_w w)) (i32 (w_h w)) g.

Definition gui_focus_window (id : Z) g : Z * gui H :=
  if (id >=? GUI_MAX_WINDOWS) || negb (w_used (win g id)) then (-1, g) else
  if gui_window_effective_flags (win g id) &? GUI_WINDOW_NO_FOCUS then (0, damage_window (win g id) g) else
  let prev := d_focused (desk g) in
  let g := upd_desk (fun d => put_win id (set_z (win_at d id) (d_next_z d)) (set_next_z (set_focused d id) (u32 (d_next_z d + 1)))) g in
  let g := upd_desk gui_refresh_cursor_shape g in
  let g := if negb (prev =? GUI_NO_WINDOW) && (prev <? GUI_MAX_WINDOWS) && w_used (win g prev)
           then damage_window (win g prev) g else g in
  (0, damage_window (win g id) g).

(** ** gui_cursor.c *)

Definition gui_get_cursor g : Z * Z := (c_x (d_cursor (desk g)), c_y (d_cursor (desk g))).

Definition gui_set_cursor_shape (shape : Z) g : Z * gui H :=
  if negb (shape =? GUI_CURSOR_ARROW) && negb (shape =? GUI_CURSOR_HAND) then (-1, g) else
  (0, upd_desk (fun d => set_cursor_state d (set_shape (d_cursor d) (u8 shape))) g).

Definition gui_register_cursor_region (id slot x y ww h shape : Z) g : Z * gui H :=
  if (id >=? GUI_MAX_WINDOWS) || (slot >=? GUI_MAX_CURSOR_REGIONS) then (-1, g) else
  if negb (w_used (win g id)) then (-1, g) else
  let put_region r g := upd_win id (fun w => set_regions w (<[Z.to_nat slot := r]> (w_regions w))) g in
  let refresh g := if id =? d_focused (desk g) then upd_desk gui_refresh_cursor_shape g else g in
  if shape =? GUI_CURSOR_REGION_DELETE then (0, refresh (put_region empty_region g)) else
  if negb (shape =? GUI_CURSOR_ARROW) && negb (shape =? GUI_CURSOR_HAND) then (-1, g) else
  if (ww =? 0) || (h =? 0) || (ww >? 2 ^ 31 - 1) || (h >? 2 ^ 31 - 1) then (-1, g) else
  (0, refresh (put_region (CursorRegion x y (i32 ww) (i32 h) shape true) g)).

Definition gui_set_cursor (x y : Z) g : gui H :=
  match d_fb (desk g) with
  | None => g
  | Some fb =>
      let x := if x <? 0 then 0 else x in
      let y := if y <? 0 then 0 else y in
      let x := if u32 x >=? fb_width fb then i32 (fb_width fb) - 1 else x in
      let y := if u32 y >=? fb_height fb then i32 (fb_height fb) - 1 else y in
      let c := d_cursor (desk g) in
      let prev_x := c_x c in
      let prev_y := c_y c in
      let g := upd_desk (fun d => set_cursor_state d
                 (Cursor x y prev_x prev_y (c_buttons_mask c) (c_visible c) (c_shape c))) g in
      let g := upd_desk gui_refresh_cursor_shape g in
      let g := gui_damage_add prev_x prev_y GUI_CURSOR_W GUI_CURSOR_H g in
      gui_damage_add x y GUI_CURSOR_W GUI_CURSOR_H g
  end.

Definition gui_cursor_move (dx dy : Z) g : gui H :=
  gui_set_cursor (c_x (d_cursor (desk g)) + dx) (c_y (d_cursor (desk g)) + dy) g.

Definition gui_drag_start (id off_x off_y : Z) g : gui H :=
  if (id >=? GUI_MAX_WINDOWS) || negb (w_used (win g id)) then g else
  let w := win g id in
  if w_flags w &? GUI_WINDOW_NO_DRAG then g else
  if (w_title_h w >? 0) && ((off_y <? 0) || (u32 off_y >=? w_title_h w)) then g else
  upd_desk (fun d => set_drag d id off_x off_y) g.

Definition drag_end (d : gui_desktop) : gui_desktop := set_drag d GUI_NO_WINDOW (d_drag_off_x d) (d_drag_off_y d).

Definition gui_drag_update (cursor_x cursor_y : Z) g : gui H :=
  let d := desk g in
  if d_drag_id d =? GUI_NO_WINDOW then g else
  let id := d_drag_id d in
  let old := win g id in
  if negb (w_used old) then upd_desk drag_end g else
  let new_x := cursor_x - d_drag_off_x d in
  let new_y := cursor_y - d_drag_off_y d in
  let new_x := if new_x <? 0 then 0 else new_x in
  let new_y := if new_y <? 0 then 0 else new_y in
  let g := upd_win id (fun w => set_bounds w (u32 new_x) (u32 new_y) (w_w w) (w_h w)) g in
  let g := upd_desk gui_refresh_cursor_shape g in
  damage_union (i32 (w_x old)) (i32 (w_y old)) (i32 (w_w old)) (i32 (w_h old)) new_x new_y (i32 (w_w old)) (i32 (w_h old)) g.

Definition gui_drag_end g : gui H := upd_desk drag_end g.

Definition gui_cursor_button (button pressed : Z) g : gui H :=
  if button >? 2 then g else
  let mask := u8 (Z.shiftl 1 button) in
  let c := d_cursor (desk g) in
  let buttons := if negb (pressed =? 0) then Z.lor (c_buttons_mask c) mask
                 else Z.land (c_buttons_mask c) (u8 (Z.lnot mask)) in
  let g := upd_desk (fun d => set_cursor_state d (set_buttons (d_cursor d) buttons)) g in
  if negb (button =? 0) || (pressed =? 0) then g else
  match gui_hit_test (desk g) (c_x c) (c_y c) with
  | Some hit => snd (gui_focus_window hit g)
  | None => upd_desk (fun d => set_focused d GUI_NO_WINDOW) g
  end.

(** ** gui_input.c *)

(** The state of the process process_find returns for a pid. *)
Variable owner_state : Z -> option process_state.

Definition gui_window_owner_dead w : bool :=
  if negb (w_used w) || (w_owner_pid w =? GUI_NO_OWNER) then false else
  match owner_state (w_owner_pid w) with
  | None | Some PROCESS_ZOMBIE | Some PROCESS_UNUSED => true
  | Some _ => false
  end.

Definition push_to (id type data1 data2 : Z) g : Z * gui H :=
  let '(status, w) := gui_window_push_event (win g id) type data1 data2 in
  (status, upd_desk (put_win id w) g).

Definition dispatch_key (type key : Z) g : Z * gui H :=
  let f := d_focused (desk g) in
  if negb (f =? GUI_NO_WINDOW) && (f <? GUI_MAX_WINDOWS) && w_used (win g f) then push_to f type (i32 key) 0 g else (0, g).

Definition gui_dispatch_input (event : input_event) g : Z * gui H :=
  match event with
  | KeyPress key => dispatch_key GUI_EVENT_KEY_PRESS key g
  | KeyRelease key => dispatch_key GUI_EVENT_KEY_RELEASE key g
  | MouseMove _ _ =>
      let c := d_cursor (desk g) in
      match gui_hit_test (desk g) (c_x c) (c_y c) with
      | None => (0, g)
      | Some hit => push_to hit GUI_EVENT_MOUSE_MOVE (c_x c) (c_y c) g
      end
  | MouseButton _ _ => (-1, g)
  end.

(** A press of the left button on window [hit]. *)
Definition press_window (hit : Z) g : gui H :=
  let c := d_cursor (desk g) in
  let window := win g hit in
  match gui_hit_test_decoration window (c_x c) (c_y c) with
  | Some GUI_DECORATION_SLOT_CLOSE =>
      if gui_window_owner_dead window then snd (gui_destroy_window hit g)
      else snd (push_to hit GUI_EVENT_CLOSE 0 0 g)
  | Some GUI_DECORATION_SLOT_MINIMIZE => snd (gui_window_minimize hit g)
  | Some GUI_DECORATION_SLOT_MAXIMIZE => snd (push_to hit GUI_EVENT_MAXIMIZE 0 0 g)
  | None =>
      let g := gui_drag_start hit (c_x c - i32 (w_x window)) (c_y c - i32 (w_y window)) g in
      snd (push_to hit GUI_EVENT_MOUSE_CLICK (c_x c) (c_y c) g)
  end.

(** The pointer moved: the window being dragged, if any, follows it. *)
Definition follow_drag g : gui H :=
  if negb (d_drag_id (desk g) =? GUI_NO_WINDOW)
  then gui_drag_update (c_x (d_cursor (desk g))) (c_y (d_cursor (desk g))) g else g.

Definition gui_handle_desktop_input (event : input_event) g : Z * gui H :=
  match event with
  | MouseMove dx dy =>
      let g := follow_drag (gui_cursor_move dx dy g) in
      (0, snd (gui_dispatch_input event g))
  | MouseButton button pressed =>
      let g := gui_cursor_button button pressed g in
      if button =? 0 then
        if negb (pressed =? 0) then
          match gui_hit_test (desk g) (c_x (d_cursor (desk g))) (c_y (d_cursor (desk g))) with
          | Some hit => (0, press_window hit g)
          | None => (0, g)
          end
        else (0, gui_drag_end g)
      else (0, g)
  | KeyPress key =>
      let g := upd_desk (fun d => snd (gui_focus_window_ensure d)) g in
      if negb (d_focused (desk g) =? GUI_NO_WINDOW)
      then (0, snd (push_to (d_focused (desk g)) GUI_EVENT_KEY_PRESS (i32 key) 0 g)) else (0, g)
  | KeyRelease key =>
      if negb (d_focused (desk g) =? GUI_NO_WINDOW)
      then (0, snd (push_to (d_focused (desk g)) GUI_EVENT_KEY_RELEASE (i32 key) 0 g)) else (0, g)
  end.

Definition gui_handle_input (event : option input_event) g : Z * gui H :=
  if negb (g_active g) then (-1, g) else
  match event with None => (-1, g) | Some e => gui_handle_desktop_input e g end.
End Gui.
