(* ===== verification/GuiDraw.v ===== *)
(** The compositor: kernel/gui_compositor.c.

    Drawing reads the desktop and changes pixel memory.  The two loops of
    gui_draw whose end is not bounded by a counter carry fuel and give [None]
    when it runs out. *)

From S2P Require Import Prelude.
From S2P Require Import Bytes.
From S2P Require Import Framebuffer.
From S2P Require Import Gui.
Open Scope arm.

Definition g_cursor : list (list Z) := [
  [1; 0; 0; 0; 0; 0; 0; 0; 0; 0; 0; 0; 0; 0; 0; 0];
  [1; 1; 0; 0; 0; 0; 0; 0; 0; 0; 0; 0; 0; 0; 0; 0];
  [1; 2; 1; 0; 0; 0; 0; 0; 0; 0; 0; 0; 0; 0; 0; 0];
  [1; 2; 2; 1; 0; 0; 0; 0; 0; 0; 0; 0; 0; 0; 0; 0];
  [1; 2; 2; 2; 1; 0; 0; 0; 0; 0; 0; 0; 0; 0; 0; 0];
  [1; 2; 2; 2; 2; 1; 0; 0; 0; 0; 0; 0; 0; 0; 0; 0];
  [1; 2; 2; 2; 2; 2; 1; 0; 0; 0; 0; 0; 0; 0; 0; 0];
  [1; 2; 2; 2; 2; 2; 2; 1; 0; 0; 0; 0; 0; 0; 0; 0];
  [1; 2; 2; 2; 2; 2; 2; 2; 1; 0; 0; 0; 0; 0; 0; 0];
  [1; 2; 2; 2; 2; 2; 2; 2; 2; 1; 0; 0; 0; 0; 0; 0];
  [1; 2; 2; 2; 2; 2; 2; 2; 2; 2; 1; 0; 0; 0; 0; 0];
  [1; 2; 2; 2; 1; 1; 1; 1; 1; 1; 1; 0; 0; 0; 0; 0];
  [1; 2; 1; 0; 1; 1; 1; 0; 0; 1; 1; 0; 0; 0; 0; 0];
  [1; 1; 0; 0; 0; 1; 1; 0; 0; 0; 1; 1; 0; 0; 0; 0];
  [0; 0; 0; 0; 0; 1; 1; 0; 0; 0; 0; 1; 1; 0; 0; 0];
  [0; 0; 0; 0; 0; 0; 1; 1; 0; 0; 0; 0; 1; 0; 0; 0]].

Definition g_cursor_hand : list (list Z) := [
  [0; 0; 0; 0; 1; 1; 0; 0; 0; 0; 0; 0; 0; 0; 0; 0];
  [0; 0; 0; 1; 2; 2; 1; 0; 0; 0; 0; 0; 0; 0; 0; 0];
  [0; 0; 0; 1; 2; 2; 1; 0; 0; 0; 0; 0; 0; 0; 0; 0];
  [0; 0; 0; 1; 2; 2; 1; 0; 1; 1; 0; 0; 0; 0; 0; 0];
  [0; 0; 0; 1; 2; 2; 1; 1; 2; 2; 1; 0; 0; 0; 0; 0];
  [0; 0; 0; 1; 2; 2; 1; 2; 2; 2; 1; 1; 0; 0; 0; 0];
  [0; 0; 0; 1; 2; 2; 1; 2; 2; 2; 1; 2; 1; 0; 0; 0];
  [0; 0; 1; 1; 2; 2; 1; 2; 2; 2; 1; 2; 1; 0; 0; 0];
  [0; 1; 2; 2; 2; 2; 2; 2; 2; 2; 1; 2; 1; 0; 0; 0];
  [0; 1; 2; 2; 2; 2; 2; 2; 2; 2; 2; 2; 1; 0; 0; 0];
  [0; 0; 1; 2; 2; 2; 2; 2; 2; 2; 2; 1; 0; 0; 0; 0];
  [0; 0; 1; 2; 2; 2; 2; 2; 2; 2; 2; 1; 0; 0; 0; 0];
  [0; 0; 0; 1; 2; 2; 2; 2; 2; 2; 1; 0; 0; 0; 0; 0];
  [0; 0; 0; 1; 2; 2; 2; 2; 2; 2; 1; 0; 0; 0; 0; 0];
  [0; 0; 0; 0; 1; 2; 2; 2; 2; 1; 0; 0; 0; 0; 0; 0];
  [0; 0; 0; 0; 1; 1; 1; 1; 1; 1; 0; 0; 0; 0; 0; 0]].

Definition gui_blend_color (top bottom num denom : Z) : Z :=
  let tr := Z.land (Z.shiftr top 16) 0xff in
  let tg := Z.land (Z.shiftr top 8) 0xff in
  let tb := Z.land top 0xff in
  let br := Z.land (Z.shiftr bottom 16) 0xff in
  let bg := Z.land (Z.shiftr bottom 8) 0xff in
  let bb := Z.land bottom 0xff in
  let pack r g b := Z.lor (Z.lor (Z.lor (Z.land top 0xff000000) (u32 (Z.shiftl r 16))) (u32 (Z.shiftl g 8))) b in
  if denom =? 0 then top else
  if num >=? denom then pack br bg bb else
  let mix t b := u32 (t + Z.quot ((b - t) * i32 num) (i32 denom)) in
  pack (mix tr br) (mix tg bg) (mix tb bb).

Definition cursor_value (shape row col : Z) : Z :=
  byte_at (default [] ((if shape =? GUI_CURSOR_HAND then g_cursor_hand else g_cursor) !! Z.to_nat row)) col.

Definition gui_draw_cursor (fb : fb_t) (x y shape : Z) (m : gmap Z Z) : gmap Z Z :=
  for_range 0 GUI_CURSOR_H (fun row m =>
    for_range 0 GUI_CURSOR_W (fun col m =>
      let v := cursor_value shape row col in
      if v =? 0 then m else
      fb_putpixel fb (u32 (x + col)) (u32 (y + row)) (if v =? 1 then 0xff101010 else 0xffe0e0e0) m) m) m.

Definition gui_rects_overlap (ax ay aw ah bx by_ bw bh : Z) : bool :=
  (ax + aw >? bx) && (ax <? bx + bw) && (ay + ah >? by_) && (ay <? by_ + bh).

(** The rectangle of [x0 <= x < x1] and [y0 <= y < y1] inside a clip. *)
Definition clip_bounds (c : clip) (x0 y0 x1 y1 : Z) : Z * Z * Z * Z :=
  (if x0 <? cx0 c then cx0 c else x0, if y0 <? cy0 c then cy0 c else y0,
   if x1 >? cx1 c then cx1 c else x1, if y1 >? cy1 c then cy1 c else y1).

Definition gui_fillrect_clipped (fb : fb_t) (x y w h : Z) (c : clip) (color : Z) (m : gmap Z Z) : gmap Z Z :=
  if (w <=? 0) || (h <=? 0) then m else
  let '(x, y, x1, y1) := clip_bounds c x y (x + w) (y + h) in
  if (x1 <=? x) || (y1 <=? y) then m else
  fb_fillrect fb (u32 x) (u32 y) (u32 (x1 - x)) (u32 (y1 - y)) color m.

Definition gui_putpixel_clipped (fb : fb_t) (x y : Z) (c : clip) (color : Z) (m : gmap Z Z) : gmap Z Z :=
  if (x <? cx0 c) || (x >=? cx1 c) || (y <? cy0 c) || (y >=? cy1 c) || (x <? 0) || (y <? 0) then m else
  fb_putpixel fb x y color m.

(** The loop is the one of fb_draw_line, which always ends (draw_line_points). *)
Definition gui_draw_line_clipped (fb : fb_t) (x0 y0 x1 y1 : Z) (c : clip) (color : Z) (m : gmap Z Z) : gmap Z Z :=
  default m (draw_line (fun x y => gui_putpixel_clipped fb x y c color) x0 y0 x1 y1 m).

Definition gui_draw_rect_clipped (fb : fb_t) (x y w h : Z) (c : clip) (color : Z) (m : gmap Z Z) : gmap Z Z :=
  if (w <=? 0) || (h <=? 0) then m else
  let m := gui_fillrect_clipped fb x y w 1 c color m in
  let m := if h >? 1 then gui_fillrect_clipped fb x (y + h - 1) w 1 c color m else m in
  if h >? 2 then
    let m := gui_fillrect_clipped fb x (y + 1) 1 (h - 2) c color m in
    if w >? 1 then gui_fillrect_clipped fb (x + w - 1) (y + 1) 1 (h - 2) c color m else m
  else m.

Definition gui_blit_clipped (fb : fb_t) (dst_x dst_y src src_w src_h : Z) (c : clip) (m : gmap Z Z) : gmap Z Z :=
  if (src =? 0) || (src_w =? 0) || (src_h =? 0) then m else
  let '(x0, y0, x1, y1) := clip_bounds c dst_x dst_y (dst_x + i32 src_w) (dst_y + i32 src_h) in
  if (x1 <=? x0) || (y1 <=? y0) then m else
  let src_off_x := u32 (x0 - dst_x) in
  let src_off_y := u32 (y0 - dst_y) in
  for_range y0 y1 (fun row m =>
    let dst_row := u32 (u32 row * fb_stride fb + u32 x0) in
    let src_row := u32 (u32 (src_off_y + u32 (row - y0)) * src_w + src_off_x) in
    for_range x0 x1 (fun col m =>
      wr32 m (px_at fb (u32 (dst_row + u32 (col - x0)))) (rd32 m (src + 4 * u32 (src_row + u32 (col - x0))))) m) m.

(** The border colour of a window: highlighted when it has the focus. *)
Definition window_border (d : gui_desktop) (index : Z) (w : gui_window) : Z :=
  if (d_focused d =? index) && negb (w_flags w &? GUI_WINDOW_NO_FOCUS) then 0xffe0e8f0 else w_border_color w.

Definition title_text_y (w : gui_window) : Z :=
  u32 (w_y w + (if w_title_h w >? FONT_GLYPH_HEIGHT then (w_title_h w - FONT_GLYPH_HEIGHT) / 2 else 0)).

Definition gui_draw_window_title (fb : fb_t) (d : gui_desktop) (index : Z) (w : gui_window) (border : Z) (c : clip)
    (m : gmap Z Z) : gmap Z Z :=
  if (w_title_h w =? 0) || (byte_at (w_title w) 0 =? 0) then m else
  let bar_color := gui_blend_color border 0xff000000 2 3 in
  let text_y := title_text_y w in
  let m := gui_fillrect_clipped fb (i32 (w_x w)) (i32 (w_y w)) (i32 (w_w w)) (i32 (w_title_h w)) c bar_color m in
  let m := if w_title_h w >? 0
           then gui_fillrect_clipped fb (i32 (w_x w)) (i32 (u32 (w_y w + w_title_h w - 1))) (i32 (w_w w)) 1 c border m
           else m in
  let m := if (cx0 c <? i32 (u32 (w_x w + w_w w))) && (cx1 c >? i32 (u32 (w_x w + 2))) &&
              (cy0 c <? i32 (u32 (text_y + FONT_GLYPH_HEIGHT))) && (cy1 c >? i32 text_y)
           then font_draw_text_rect_clipped fb (u32 (w_x w + 2)) text_y (w_title_h w) c (w_title w) 0xfff0f4f8 m
           else m in
  let min_bg := if d_focused d =? index then 0xffa0a8b8 else 0xff586070 in
  let max_bg := min_bg in
  let cls_bg := if d_focused d =? index then 0xffe04a4a else 0xff8a3030 in
  let m := match gui_minimize_button_rect w with
    | None => m
    | Some (bx, by_, bw, bh) =>
        let m := gui_fillrect_clipped fb (i32 bx) (i32 by_) (i32 bw) (i32 bh) c min_bg m in
        gui_fillrect_clipped fb (i32 (u32 (bx + 2))) (i32 (u32 (by_ + bh - 3))) (i32 (u32 (bw - 4))) 1 c 0xfff0f4f8 m
    end in
  let m := match gui_maximize_button_rect w with
    | None => m
    | Some (bx, by_, bw, bh) =>
        let m := gui_fillrect_clipped fb (i32 bx) (i32 by_) (i32 bw) (i32 bh) c max_bg m in
        gui_draw_rect_clipped fb (i32 (u32 (bx + 2))) (i32 (u32 (by_ + 2))) (i32 (u32 (bw - 4))) (i32 (u32 (bh - 4))) c
          0xfff0f4f8 m
    end in
  match gui_close_box_rect w with
  | None => m
  | Some (bx, by_, bw, bh) =>
      let m := gui_fillrect_clipped fb (i32 bx) (i32 by_) (i32 bw) (i32 bh) c cls_bg m in
      let m := gui_draw_line_clipped fb (i32 (u32 (bx + 2))) (i32 (u32 (by_ + 2))) (i32 (u32 (bx + bw - 3)))
                 (i32 (u32 (by_ + bh - 3))) c 0xfff8f8f8 m in
      gui_draw_line_clipped fb (i32 (u32 (bx + bw - 3))) (i32 (u32 (by_ + 2))) (i32 (u32 (bx + 2)))
        (i32 (u32 (by_ + bh - 3))) c 0xfff8f8f8 m
  end.

Definition gui_draw_window (fb : fb_t) (d : gui_desktop) (index : Z) (w : gui_window) (m : gmap Z Z) : gmap Z Z :=
  if negb (w_used w) then m else
  if w_minimized w then m else
  let border := window_border d index w in
  let m :=
    if w_owner_drawn w && negb (w_backing w =? 0) then
      fb_blit fb (w_x w) (u32 (w_y w + w_title_h w)) (w_backing w) (w_w w) (content_h w) m
    else
      let m := fb_fillrect fb (w_x w) (w_y w) (w_w w) (w_h w) border m in
      if (w_w w >? 2) && (w_h w >? 2)
      then fb_fillrect fb (u32 (w_x w + 1)) (u32 (w_y w + 1)) (w_w w - 2) (w_h w - 2) (w_bg_color w) m else m in
  let m := fb_fillrect fb (w_x w) (w_y w) (w_w w) 1 border m in
  let m := if w_h w >? 1 then fb_fillrect fb (w_x w) (u32 (w_y w + w_h w - 1)) (w_w w) 1 border m else m in
  let m := if w_h w >? 2 then
             let m := fb_fillrect fb (w_x w) (u32 (w_y w + 1)) 1 (w_h w - 2) border m in
             if w_w w >? 1 then fb_fillrect fb (u32 (w_x w + w_w w - 1)) (u32 (w_y w + 1)) 1 (w_h w - 2) border m else m
           else m in
  gui_draw_window_title fb d index w border (Clip 0 0 (i32 (fb_width fb)) (i32 (fb_height fb))) m.

Definition gui_draw_window_clipped (fb : fb_t) (d : gui_desktop) (index : Z) (w : gui_window) (c : clip) (m : gmap Z Z)
    : gmap Z Z :=
  if negb (w_used w) || w_minimized w then m else
  if negb (gui_rects_overlap (i32 (w_x w)) (i32 (w_y w)) (i32 (w_w w)) (i32 (w_h w)) (cx0 c) (cy0 c)
             (cx1 c - cx0 c) (cy1 c - cy0 c)) then m else
  let border := window_border d index w in
  let m :=
    if w_owner_drawn w && negb (w_backing w =? 0) then
      gui_blit_clipped fb (i32 (w_x w)) (i32 (u32 (w_y w + w_title_h w))) (w_backing w) (w_w w) (content_h w) c m
    else
      let m := gui_fillrect_clipped fb (i32 (w_x w)) (i32 (w_y w)) (i32 (w_w w)) (i32 (w_h w)) c border m in
      if (w_w w >? 2) && (w_h w >? 2)
      then gui_fillrect_clipped fb (i32 (u32 (w_x w + 1))) (i32 (u32 (w_y w + 1))) (i32 (w_w w - 2)) (i32 (w_h w - 2)) c
             (w_bg_color w) m else m in
  let m := gui_fillrect_clipped fb (i32 (w_x w)) (i32 (w_y w)) (i32 (w_w w)) 1 c border m in
  let m := if w_h w >? 1
           then gui_fillrect_clipped fb (i32 (w_x w)) (i32 (u32 (w_y w + w_h w - 1))) (i32 (w_w w)) 1 c border m else m in
  let m := if w_h w >? 2 then
             let m := gui_fillrect_clipped fb (i32 (w_x w)) (i32 (u32 (w_y w + 1))) 1 (i32 (w_h w - 2)) c border m in
             if w_w w >? 1
             then gui_fillrect_clipped fb (i32 (u32 (w_x w + w_w w - 1))) (i32 (u32 (w_y w + 1))) 1 (i32 (w_h w - 2)) c border m
             else m
           else m in
  if (w_title_h w >? 0) && (cy0 c <? i32 (u32 (w_y w + w_title_h w))) && (cy1 c >? i32 (w_y w))
  then gui_draw_window_title fb d index w border c m else m.

(** The next window in row [row] whose left edge is at or after [x];
    [None] is [GUI_MAX_WINDOWS]. *)
Definition gui_next_window_at_or_after (d : gui_desktop) (row x : Z) : option Z :=
  fst (for_range 0 GUI_MAX_WINDOWS (fun i acc =>
    let '(best, best_x) := acc in
    let w := win_at d i in
    if negb (w_used w) || w_minimized w then acc else
    if (w_y w >? row) || (u32 (w_y w + w_h w) <=? row) then acc else
    if u32 (w_x w + w_w w) <=? x then acc else
    if (w_x w >=? x) && (w_x w <? best_x) then (Some i, w_x w) else acc) (None, UINT32_MAX)).

(** The lowest visible window above [min_z]. *)
Definition gui_next_window_above_z (d : gui_desktop) (min_z : Z) : option Z :=
  fst (for_range 0 GUI_MAX_WINDOWS (fun i acc =>
    let '(best, best_z) := acc in
    let w := win_at d i in
    if negb (w_used w) || w_minimized w || (w_z w <=? min_z) then acc else
    if w_z w <? best_z then (Some i, w_z w) else acc) (None, UINT32_MAX)).

(** [while (x < desktop->fb->width)] of one row. *)
Fixpoint row_loop (fuel : nat) (fb : fb_t) (d : gui_desktop) (row color x : Z) (m : gmap Z Z) : option (gmap Z Z) :=
  match fuel with
  | O => None
  | S fuel' =>
      if negb (x <? fb_width fb) then Some m else
      let w := gui_next_window_at_or_after d row x in
      let next := match w with None => fb_width fb | Some i => w_x (win_at d i) end in
      let m := if next >? x then fb_fillrect fb x row (next - x) 1 color m else m in
      match w with
      | None => Some m
      | Some i => row_loop fuel' fb d row color (u32 (w_x (win_at d i) + w_w (win_at d i))) m
      end
  end.

(** [for (;;)] over the windows from the bottom up. *)
Fixpoint z_loop (fuel : nat) (d : gui_desktop) (draw : Z -> gui_window -> gmap Z Z -> gmap Z Z) (last_z : Z) (m : gmap Z Z)
    : option (gmap Z Z) :=
  match fuel with
  | O => None
  | S fuel' =>
      match gui_next_window_above_z d last_z with
      | None => Some m
      | Some i => z_loop fuel' d draw (w_z (win_at d i)) (draw i (win_at d i) m)
      end
  end.

Definition WINDOW_FUEL : nat := S (Z.to_nat GUI_MAX_WINDOWS).

Definition desktop_bottom_color (d : gui_desktop) : Z := gui_blend_color (d_background_color d) 0xff000000 3 4.
Definition gradient_color (fb : fb_t) (d : gui_desktop) (row : Z) : Z :=
  gui_blend_color (d_background_color d) (desktop_bottom_color d) row (u32 (fb_height fb - 1)).

Definition draw_cursor_of (fb : fb_t) (d : gui_desktop) (m : gmap Z Z) : gmap Z Z :=
  gui_draw_cursor fb (c_x (d_cursor d)) (c_y (d_cursor d)) (c_shape (d_cursor d)) m.

(** The path of gui_draw that repaints the whole screen. *)
Definition draw_full (fb : fb_t) (d : gui_desktop) (m : gmap Z Z) : option (gmap Z Z) :=
  m ← for_range 0 (fb_height fb) (fun row om =>
        m ← om; row_loop (S (Z.to_nat (fb_width fb))) fb d row (gradient_color fb d row) 0 m) (Some m);
  m ← z_loop WINDOW_FUEL d (fun i w => gui_draw_window fb d i w) 0 m;
  Some (if c_visible (d_cursor d) then draw_cursor_of fb d m else m).

(** The part of a damage rectangle that is on the screen. *)
Definition damage_clip (fb : fb_t) (r : damage_rect) : clip :=
  let '(x0, y0, x1, y1) := clip_bounds (Clip 0 0 (i32 (fb_width fb)) (i32 (fb_height fb)))
                             (r_x r) (r_y r) (r_x r + r_w r) (r_y r + r_h r) in
  Clip x0 y0 x1 y1.

(** One iteration of the loop of gui_draw over the damage list. *)
Definition draw_damage (fb : fb_t) (d : gui_desktop) (r : damage_rect) (m : gmap Z Z) : option (gmap Z Z) :=
  let c := damage_clip fb r in
  if (cx1 c <=? cx0 c) || (cy1 c <=? cy0 c) then Some m else
  let m := for_range (cy0 c) (cy1 c) (fun row m =>
    fb_fillrect fb (u32 (cx0 c)) (u32 row) (u32 (cx1 c - cx0 c)) 1 (gradient_color fb d row) m) m in
  m ← z_loop WINDOW_FUEL d (fun i w m =>
        if (i32 (u32 (w_x w + w_w w)) >? cx0 c) && (i32 (w_x w) <? cx1 c) &&
           (i32 (u32 (w_y w + w_h w)) >? cy0 c) && (i32 (w_y w) <? cy1 c)
        then gui_draw_window_clipped fb d i w c m else m) 0 m;
  let x := c_x (d_cursor d) in
  let y := c_y (d_cursor d) in
  Some (if c_visible (d_cursor d) &&
           ((x + GUI_CURSOR_W >? cx0 c) && (x <? cx1 c) && (y + GUI_CURSOR_H >? cy0 c) && (y <? cy1 c))
        then draw_cursor_of fb d m else m).

Definition gui_draw (d : gui_desktop) (m : gmap Z Z) : option (gmap Z Z) :=
  match d_fb d with
  | None => Some m
  | Some fb =>
      if d_damage_full d then draw_full fb d m
      else foldl (fun om r => m ← om; draw_damage fb d r m) (Some m) (d_damage d)
  end.

Definition gui_init (d : gui_desktop) (fb : fb_t) (background_color : Z) : Z * gui_desktop :=
  if fb_pixels fb =? 0 then (-1, d) else
  let x := i32 (fb_width fb / 2) in
  let y := i32 (fb_height fb / 2) in
  let clear w := Window 0 0 0 0 0 0 GUI_NO_OWNER 0 0 0 no_title (w_events w) 0 0 0 false false (w_minimized w) 0 0
                   (w_regions w) in
  (0, Desktop (Some fb) background_color GUI_NO_WINDOW 1 GUI_NO_WINDOW 0 0
        (for_range 0 GUI_MAX_WINDOWS (fun i ws => <[Z.to_nat i := clear (default empty_window (ws !! Z.to_nat i))]> ws)
           (d_windows d))
        (Cursor x y x y 0 true GUI_CURSOR_ARROW) [] true).

Section Compositor.
Context {H : Type} `{KernelHeap H}.
Implicit Types (g : gui H).

Definition with_px g (m : gmap Z Z) : gui H := Gui (desk g) (g_active g) (g_dirty g) (g_heap g) m.

(** gui_window_ensure_backing on window [id], then [owner_drawn = 1]. *)
Definition prepare_drawing (id : Z) g : Z * gui H :=
  let '(status, g) := on_backing gui_window_ensure_backing id g in
  if negb (status =? 0) then (-1, g)
  else (0, upd_win id (fun w => set_backing w true (w_backing w) (w_backing_capacity w)) g).

Definition gui_window_draw_text (id x y : Z) (text : option (list Z)) (color : Z) g : Z * gui H :=
  match text with
  | None => (-1, g)
  | Some text =>
      if (id >=? GUI_MAX_WINDOWS) || negb (w_used (win g id)) then (-1, g) else
      let '(status, g) := prepare_drawing id g in
      if negb (status =? 0) then (-1, g) else
      let w := win g id in
      let x := if x <? 0 then 0 else x in
      let y := if y <? 0 then 0 else y in
      if (u32 x >=? w_w w) || (u32 y >=? content_h w) then (0, g) else
      let g := with_px g (font_draw_text (gui_window_backing_fb w) (u32 x) (u32 y) text color (g_px g)) in
      let dw := i32 (font_text_width text) in
      let dh := FONT_GLYPH_HEIGHT in
      let dw := if x + dw >? i32 (w_w w) then i32 (w_w w) - x else dw in
      let dh := if y + dh >? i32 (content_h w) then i32 (content_h w) - y else dh in
      (0, gui_damage_add (i32 (w_x w) + x) (i32 (w_y w) + i32 (w_title_h w) + y) dw dh g)
  end.

Definition gui_window_draw_rect (id x y ww h color : Z) g : Z * gui H :=
  if (id >=? GUI_MAX_WINDOWS) || negb (w_used (win g id)) then (-1, g) else
  if (ww =? 0) || (h =? 0) then (0, g) else
  let '(status, g) := prepare_drawing id g in
  if negb (status =? 0) then (-1, g) else
  let w := win g id in
  let '(x0, y0, x1, y1) := clip_bounds (Clip 0 0 (w_w w) (content_h w)) x y (x + ww) (y + h) in
  if (x1 <=? x0) || (y1 <=? y0) then (0, g) else
  let g := with_px g (fb_fillrect (gui_window_backing_fb w) (u32 x0) (u32 y0) (u32 (x1 - x0)) (u32 (y1 - y0)) color (g_px g)) in
  (0, gui_damage_add (i32 (w_x w) + i32 x0) (i32 (w_y w) + i32 (w_title_h w) + i32 y0) (i32 (x1 - x0)) (i32 (y1 - y0)) g).

Definition gui_window_clear (id color : Z) g : Z * gui H :=
  if (id >=? GUI_MAX_WINDOWS) || negb (w_used (win g id)) then (-1, g) else
  let '(status, g) := prepare_drawing id g in
  if negb (status =? 0) then (-1, g) else
  let w := win g id in
  let g := with_px g (fb_fillrect (gui_window_backing_fb w) 0 0 (w_w w) (content_h w) color (g_px g)) in
  (0, gui_damage_add (i32 (w_x w)) (i32 (w_y w) + i32 (w_title_h w)) (i32 (w_w w)) (i32 (content_h w)) g).

Definition gui_render (fb : fb_t) g : option (gui H) :=
  if negb (g_active g) then Some g else
  let g := upd_desk (fun d => set_fb d (Some fb)) g in
  m ← gui_draw (desk g) (g_px g);
  Some (with_px g m).

Definition gui_init_for_framebuffer (fb : option fb_t) g : option (gui H) :=
  let g := Gui (desk g) false false (g_heap g) (g_px g) in
  match fb with
  | None => Some g
  | Some fb =>
      let '(status, d) := gui_init (desk g) fb 0xff202428 in
      let g := with_desk g d in
      if negb (status =? 0) then Some g else
      m ← gui_draw (desk g) (g_px g);
      Some (Gui (damage_clear (desk g)) true (g_dirty g) (g_heap g) m)
  end.
End Compositor.
