(* ===== verification/GuiPaint.v ===== *)
(** What the compositor paints.

    Each drawing operation of gui_compositor.c has the effect of a paint; the
    clipped form of an operation has the effect of the same paint cut to the
    clip.  From this follow the two properties of gui_draw: a full redraw shows
    the scene the desktop describes, and a partial redraw that starts from a
    screen wrong only inside the damage list shows it too. *)

From S2P Require Import Prelude.
From S2P Require Import Bytes.
From S2P Require Import Framebuffer.
From S2P Require Import Gui.
From S2P Require Import GuiDraw.
Open Scope arm.

Lemma i32_id v : 0 <= v < 2 ^ 31 -> i32 v = v.
Proof. intros Hv. unfold i32. rewrite u32_id by lia. by rewrite (proj2 (Z.ltb_lt _ _)) by lia. Qed.

(** Decide the comparisons a pixel test is made of. *)
Ltac px_cases :=
  repeat match goal with
  | |- context [?a <=? ?b] => destruct (Z.leb_spec a b)
  | |- context [?a <? ?b] => destruct (Z.ltb_spec a b)
  end; cbn [andb orb negb]; try done; try lia.

Lemma foldl_agree {A B} (f g : A -> B -> A) l : forall a,
  (forall a b, b ∈ l -> f a b = g a b) -> foldl f a l = foldl g a l.
Proof.
  induction l as [|b l IH]; intros a Hfg; [done|]. cbn [foldl]. rewrite Hfg by set_solver. apply IH. set_solver.
Qed.

(** * Stacks of paints *)

Definition stack_paint {I} (P : I -> paint) (l : list I) : paint := foldl (fun f i => over (P i) f) blank l.

Lemma stack_snoc {I} (P : I -> paint) l i x y : stack_paint P (l ++ [i]) x y = over (P i) (stack_paint P l) x y.
Proof. unfold stack_paint. by rewrite foldl_app. Qed.

Lemma stack_none {I} (P : I -> paint) l x y : (forall i, i ∈ l -> P i x y = None) -> stack_paint P l x y = None.
Proof.
  induction l as [|i l IH] using rev_ind; intros Hn; [done|]. rewrite stack_snoc. unfold over.
  rewrite Hn by set_solver. apply IH. set_solver.
Qed.

Lemma stack_one {I} (P : I -> paint) l i x y c :
  i ∈ l -> P i x y = Some c -> (forall j, j ∈ l -> j <> i -> P j x y = None) -> stack_paint P l x y = Some c.
Proof.
  induction l as [|j l IH] using rev_ind; intros Hi Hc Hn; [by apply not_elem_of_nil in Hi|]. rewrite stack_snoc. unfold over.
  destruct (P j x y) as [c'|] eqn:Ej.
  - f_equal. apply elem_of_app in Hi as [Hi|Hi%list_elem_of_singleton]; [|congruence].
    destruct (decide (P j x y = P i x y)) as [E|E]; [congruence|].
    rewrite (Hn j) in Ej; [done|set_solver|]. intros ->. congruence.
  - apply IH; [|done|intros k Hk; apply Hn; set_solver].
    apply elem_of_app in Hi as [Hi|Hi%list_elem_of_singleton]; [done|]. subst. congruence.
Qed.

Section Paint.
Context (fb : fb_t) (Hfb : fb_ok fb).

(** Memory [m] has the words outside the framebuffer that [m0] has. *)
Definition same_off (m0 m : gmap Z Z) : Prop := forall a, off_fb fb a -> rd32 m a = rd32 m0 a.

Lemma draws_same_off m0 m m' f : same_off m0 m -> draws fb m m' f -> same_off m0 m'.
Proof. intros Hs Hd a Ha. by rewrite (dr_out _ _ _ _ Hd), Hs. Qed.

Lemma foldl_draws {I} (step : I -> gmap Z Z -> gmap Z Z) (P : I -> paint) m0 l : forall m,
  same_off m0 m -> (forall i m, i ∈ l -> same_off m0 m -> draws fb m (step i m) (P i)) ->
  draws fb m (foldl (fun m i => step i m) m l) (stack_paint P l).
Proof.
  induction l as [|i l IH] using rev_ind; intros m Hs Hstep; [apply draws_refl|]. rewrite foldl_app. cbn [foldl].
  assert (Hl : draws fb m (foldl (fun m i => step i m) m l) (stack_paint P l)) by (apply IH; [done|intros; apply Hstep; [set_solver|done]]).
  eapply draws_ext; [intros x y _; symmetry; apply stack_snoc|].
  eapply draws_trans; [exact Hl|]. apply Hstep; [set_solver|]. by eapply draws_same_off.
Qed.

Lemma for_range_draws lo hi (step : Z -> gmap Z Z -> gmap Z Z) (P : Z -> paint) m :
  (forall i m, lo <= i < hi -> draws fb m (step i m) (P i)) ->
  draws fb m (for_range lo hi step m) (stack_paint P (seqZ lo (hi - lo))).
Proof.
  intros Hstep. unfold for_range. apply (foldl_draws step P m); [done|]. intros i m' Hi%elem_of_seqZ _. apply Hstep. lia.
Qed.

(** * Clipped drawing *)

(** A clip inside the screen. *)
Record clip_in (c : clip) : Prop := {
  ci_x0 : 0 <= cx0 c; ci_y0 : 0 <= cy0 c; ci_x1 : cx1 c <= fb_width fb; ci_y1 : cy1 c <= fb_height fb }.

Definition screen : clip := Clip 0 0 (fb_width fb) (fb_height fb).

Lemma screen_in : clip_in screen.
Proof. split; cbn; lia. Qed.

Lemma in_screen x y : on_fb fb x y -> in_clip screen x y = true.
Proof. intros [? ?]. unfold in_clip, screen. cbn [cx0 cy0 cx1 cy1]. px_cases. Qed.

Lemma draws_screen m m' f : draws fb m m' (clip_paint screen f) <-> draws fb m m' f.
Proof. split; apply draws_ext; intros x y Hxy; unfold clip_paint; by rewrite in_screen. Qed.

Lemma clip_then c m m1 m2 f g :
  draws fb m m1 (clip_paint c f) -> draws fb m1 m2 (clip_paint c g) -> draws fb m m2 (clip_paint c (over g f)).
Proof.
  intros H1 H2. eapply draws_ext; [|eapply draws_trans; [exact H1|exact H2]].
  intros x y _. unfold over, clip_paint. by destruct (in_clip c x y).
Qed.

Lemma clip_blank c m f : (forall x y, in_clip c x y = true -> on_fb fb x y -> f x y = None) -> draws fb m m (clip_paint c f).
Proof. intros Hf. apply blank_outside. intros x y Hxy. unfold clip_paint. destruct (in_clip c x y) eqn:E; [by apply Hf|done]. Qed.

Lemma fillrect_clipped_draws x y w h c color m :
  clip_in c -> draws fb m (gui_fillrect_clipped fb x y w h c color m) (clip_paint c (rect_paint x y w h color)).
Proof.
  intros [? ? ? ?]. destruct Hfb as [? ? ? ? ?]. unfold gui_fillrect_clipped.
  destruct ((w <=? 0) || (h <=? 0)) eqn:Hg.
  { apply clip_blank. intros px py _ _. unfold rect_paint. b2p. destruct Hg; b2p; px_cases. }
  cbn [clip_bounds]. b2p.
  set (x0 := if x <? cx0 c then cx0 c else x). set (y0 := if y <? cy0 c then cy0 c else y).
  set (x1 := if x + w >? cx1 c then cx1 c else x + w). set (y1 := if y + h >? cy1 c then cy1 c else y + h).
  assert (Ex : x0 = Z.max x (cx0 c) /\ y0 = Z.max y (cy0 c) /\ x1 = Z.min (x + w) (cx1 c) /\ y1 = Z.min (y + h) (cy1 c)).
  { unfold x0, y0, x1, y1. destruct (Z.ltb_spec x (cx0 c)), (Z.ltb_spec y (cy0 c)), (Z.gtb_spec (x + w) (cx1 c)),
      (Z.gtb_spec (y + h) (cy1 c)); lia. }
  clearbody x0 y0 x1 y1. destruct ((x1 <=? x0) || (y1 <=? y0)) eqn:Hg.
  { apply clip_blank. intros px py Hc _. unfold in_clip in Hc. unfold rect_paint. b2p. destruct Hg; b2p; px_cases. }
  b2p. rewrite !u32_id by lia.
  eapply draws_ext; [|apply fillrect_draws; [by split|lia..]].
  intros px py [? ?]. unfold clip_paint, in_clip, rect_paint. px_cases.
Qed.

(** The point test of gui_putpixel_clipped. *)
Lemma putpixel_clipped_if x y c color m :
  clip_in c -> gui_putpixel_clipped fb x y c color m = if in_clip c x y then fb_putpixel fb x y color m else m.
Proof.
  intros [? ? ? ?]. unfold gui_putpixel_clipped, in_clip.
  destruct (Z.ltb_spec x (cx0 c)), (Z.geb_spec x (cx1 c)), (Z.ltb_spec y (cy0 c)), (Z.geb_spec y (cy1 c)); px_cases.
Qed.

Lemma points_clipped_draws c color pts m :
  clip_in c ->
  draws fb m (foldl (fun m p => if in_clip c (fst p) (snd p) then fb_putpixel fb (fst p) (snd p) color m else m) m pts)
    (clip_paint c (points_paint pts color)).
Proof.
  intros [? ? ? ?]. eapply draws_ext; [|apply (points_draws fb Hfb (fun p => in_clip c (fst p) (snd p)))].
  - intros x y _. done.
  - intros [x y] _ Hc. unfold in_clip in Hc. cbn in *. b2p. lia.
Qed.

Lemma line_clipped_draws x0 y0 x1 y1 c color m :
  clip_in c ->
  draws fb m (gui_draw_line_clipped fb x0 y0 x1 y1 c color m) (clip_paint c (points_paint (line_points x0 y0 x1 y1) color)).
Proof.
  intros Hc. unfold gui_draw_line_clipped. rewrite draw_line_sets. cbn [default]. unfold set_points.
  erewrite foldl_agree; [by apply points_clipped_draws|intros a b _; by apply putpixel_clipped_if].
Qed.

(** The outline gui_draw_rect_clipped draws. *)
Definition box_paint (x y w h color : Z) : paint :=
  if (w <=? 0) || (h <=? 0) then blank else
  let f := rect_paint x y w 1 color in
  let f := if h >? 1 then over (rect_paint x (y + h - 1) w 1 color) f else f in
  if h >? 2 then
    let f := over (rect_paint x (y + 1) 1 (h - 2) color) f in
    if w >? 1 then over (rect_paint (x + w - 1) (y + 1) 1 (h - 2) color) f else f
  else f.

Lemma clip_if (b : bool) c m m1 m2 f g :
  draws fb m m1 (clip_paint c f) -> (b = true -> draws fb m1 m2 (clip_paint c g)) ->
  draws fb m (if b then m2 else m1) (clip_paint c (if b then over g f else f)).
Proof. intros H1 H2. destruct b; [|done]. eapply clip_then; [done|by apply H2]. Qed.

Lemma rect_clipped_draws x y w h c color m :
  clip_in c -> draws fb m (gui_draw_rect_clipped fb x y w h c color m) (clip_paint c (box_paint x y w h color)).
Proof.
  intros Hc. unfold gui_draw_rect_clipped, box_paint.
  destruct ((w <=? 0) || (h <=? 0)); [by apply clip_blank|]. cbv zeta.
  set (m1 := gui_fillrect_clipped fb x y w 1 c color m).
  assert (H1 := fillrect_clipped_draws x y w 1 c color m Hc). fold m1 in H1.
  pose proof (clip_if (h >? 1) c m m1 _ _ _ H1 (fun _ => fillrect_clipped_draws x (y + h - 1) w 1 c color m1 Hc)) as H2.
  set (m2 := if h >? 1 then _ else m1) in *. destruct (h >? 2); [|exact H2].
  apply clip_if; [|intros _; by apply fillrect_clipped_draws].
  eapply clip_then; [exact H2|by apply fillrect_clipped_draws].
Qed.

Lemma text_clipped_draws x y max_h text c color m :
  clip_in c -> (forall p, p ∈ text_points x y max_h x y text -> 0 <= fst p < 2 ^ 31 /\ 0 <= snd p < 2 ^ 31) ->
  draws fb m (font_draw_text_rect_clipped fb x y max_h c text color m)
    (clip_paint c (points_paint (text_points x y max_h x y text) color)).
Proof.
  intros Hc Hp. unfold font_draw_text_rect_clipped. destruct (_ || _) eqn:Hg.
  { apply clip_blank. intros px py Hin _. unfold points_paint. rewrite bool_decide_false; [done|]. intros Hpt.
    unfold in_clip in Hin. b2p. destruct Hg as [Hg|?]; b2p; [|lia]. destruct Hg as [Hg|?]; b2p; [|lia]. subst max_h.
    apply (text_points_zero x y) in Hpt; done. }
  rewrite clipped_loop_points. unfold set_kept. set (pts := text_points x y max_h x y text) in *.
  erewrite foldl_agree; [by apply points_clipped_draws|]. intros a p Hin. destruct (Hp p Hin) as [Hx Hy].
  cbv beta. rewrite !i32_id by done. unfold in_clip.
  destruct (Z.geb_spec (snd p) (cy1 c)), (Z.geb_spec (fst p) (cx0 c)); px_cases.
Qed.

(** A stack of single pixels along a row, and of rows. *)
Lemma dot_some x y color px py : rect_paint x y 1 1 color px py = if (px =? x) && (py =? y) then Some color else None.
Proof. unfold rect_paint. destruct (Z.eqb_spec px x), (Z.eqb_spec py y); px_cases. Qed.

Lemma stack_row x0 n row (v : Z -> Z) px py :
  stack_paint (fun col => rect_paint col row 1 1 (v col)) (seqZ x0 n) px py =
  if (x0 <=? px) && (px <? x0 + n) && (py =? row) then Some (v px) else None.
Proof.
  destruct (_ && _) eqn:E; b2p.
  - subst. apply (stack_one _ _ px); [apply elem_of_seqZ; lia|rewrite dot_some, !Z.eqb_refl; done|].
    intros j _ Hj. rewrite dot_some. by rewrite (proj2 (Z.eqb_neq _ _)) by congruence.
  - apply stack_none. intros i Hi%elem_of_seqZ. rewrite dot_some. destruct (Z.eqb_spec px i), (Z.eqb_spec py row); try done.
    exfalso. subst. destruct E as [E|E]; b2p; [destruct E; b2p; lia|lia].
Qed.

Lemma stack_grid x0 n y0 k (v : Z -> Z -> Z) px py :
  stack_paint (fun row => stack_paint (fun col => rect_paint col row 1 1 (v row col)) (seqZ x0 n)) (seqZ y0 k) px py =
  if (x0 <=? px) && (px <? x0 + n) && (y0 <=? py) && (py <? y0 + k) then Some (v py px) else None.
Proof.
  destruct (_ && _) eqn:E; b2p.
  - apply (stack_one _ _ py); [apply elem_of_seqZ; lia| |].
    + rewrite stack_row, Z.eqb_refl. by rewrite (proj2 (Z.leb_le _ _)), (proj2 (Z.ltb_lt _ _)) by lia.
    + intros j _ Hj. rewrite stack_row, (proj2 (Z.eqb_neq py j)) by congruence. by rewrite andb_false_r.
  - apply stack_none. intros i Hi%elem_of_seqZ. rewrite stack_row. destruct (Z.eqb_spec py i); [|by rewrite andb_false_r].
    subst. destruct E as [E|E]; b2p; [|lia]. destruct E as [E|E]; b2p; [|lia]. destruct E; b2p; px_cases.
Qed.

Lemma wr_draws x y v m : on_fb fb x y -> draws fb m (wr32 m (px_addr fb x y) v) (rect_paint x y 1 1 v).
Proof.
  intros [? ?]. pose proof (putpixel_draws fb Hfb x y v m ltac:(lia) ltac:(lia)) as Hd. unfold fb_putpixel in Hd.
  rewrite (proj2 (Z.eqb_neq (fb_pixels fb) 0)) in Hd by (destruct Hfb; lia).
  rewrite !Z.geb_leb, !(proj2 (Z.leb_gt _ _)) in Hd by lia. cbn [orb] in Hd.
  rewrite pixel_index in Hd by (done || by split). exact Hd.
Qed.

Lemma blit_clipped_draws x y src w h c m :
  clip_in c -> 0 <= x < 2 ^ 30 -> 0 <= y < 2 ^ 31 -> 0 <= w < 2 ^ 30 -> 0 <= h < 2 ^ 30 -> w * h < 2 ^ 32 -> src <> 0 ->
  (forall i, 0 <= i < w * h -> off_fb fb (src + 4 * i)) ->
  draws fb m (gui_blit_clipped fb x y src w h c m) (clip_paint c (blit_paint m src x y w h)).
Proof.
  intros [? ? ? ?] Hx Hy Hw Hh Hsz Hsrc Hoff. pose proof Hfb as [? ? ? ? ?]. unfold gui_blit_clipped.
  rewrite (proj2 (Z.eqb_neq src 0)) by done. cbn [orb]. destruct ((w =? 0) || (h =? 0)) eqn:Hg.
  { apply clip_blank. intros px py _ _. unfold blit_paint. b2p. destruct Hg; b2p; px_cases. }
  cbn [clip_bounds]. b2p. rewrite !i32_id by lia.
  set (x0 := if x <? cx0 c then cx0 c else x). set (y0 := if y <? cy0 c then cy0 c else y).
  set (x1 := if x + w >? cx1 c then cx1 c else x + w). set (y1 := if y + h >? cy1 c then cy1 c else y + h).
  assert (Ex : x0 = Z.max x (cx0 c) /\ y0 = Z.max y (cy0 c) /\ x1 = Z.min (x + w) (cx1 c) /\ y1 = Z.min (y + h) (cy1 c)).
  { unfold x0, y0, x1, y1. destruct (Z.ltb_spec x (cx0 c)), (Z.ltb_spec y (cy0 c)), (Z.gtb_spec (x + w) (cx1 c)),
      (Z.gtb_spec (y + h) (cy1 c)); lia. }
  clearbody x0 y0 x1 y1. destruct ((x1 <=? x0) || (y1 <=? y0)) eqn:Hg.
  { apply clip_blank. intros px py Hc _. unfold in_clip in Hc. unfold blit_paint. b2p. destruct Hg; b2p; px_cases. }
  b2p. set (v row col := rd32 m (src + 4 * ((row - y) * w + (col - x)))).
  eapply draws_ext; [|apply (foldl_draws _ (fun row => stack_paint (fun col => rect_paint col row 1 1 (v row col)) (seqZ x0 (x1 - x0))) m)].
  - intros px py [? ?]. rewrite stack_grid. unfold clip_paint, in_clip, blit_paint. px_cases.
  - done.
  - intros row m1 Hrow%elem_of_seqZ Hs1. cbv beta zeta.
    apply (foldl_draws _ (fun col => rect_paint col row 1 1 (v row col)) m); [done|].
    intros col m2 Hcol%elem_of_seqZ Hs2. cbv beta. rewrite (u32_id row), (u32_id x0), (u32_id (row - y0)), (u32_id (y0 - y)),
      (u32_id (x0 - x)), (u32_id (col - x0)), (u32_id (y0 - y + (row - y0))) by lia.
    replace (y0 - y + (row - y0)) with (row - y) by lia.
    assert (Hr : 0 <= (row - y) * w <= (h - 1) * w)
      by (split; [apply Z.mul_nonneg_nonneg|apply Z.mul_le_mono_nonneg_r]; lia).
    assert (Hst : 0 <= row * fb_stride fb <= (fb_height fb - 1) * fb_stride fb)
      by (split; [apply Z.mul_nonneg_nonneg|apply Z.mul_le_mono_nonneg_r]; lia).
    rewrite (u32_id ((row - y) * w + (x0 - x))) by lia. replace ((row - y) * w + (x0 - x) + (col - x0)) with ((row - y) * w + (col - x)) by lia.
    rewrite (u32_id ((row - y) * w + (col - x))) by lia. rewrite (u32_id (row * fb_stride fb + x0)) by lia.
    rewrite Hs2 by (apply Hoff; lia). rewrite (u32_id (row * fb_stride fb + x0 + (col - x0))) by lia.
    replace (row * fb_stride fb + x0 + (col - x0)) with (row * fb_stride fb + col) by lia.
    apply wr_draws. unfold on_fb. lia.
Qed.

(** * Windows *)

(** The geometry drawing relies on: a window no larger than the screen, a title
    bar inside it, a backing buffer apart from the screen, and a title that is
    one line and fits the bar. *)
Record win_ok (w : gui_window) : Prop := {
  wo_x : 0 <= w_x w < 2 ^ 30;
  wo_y : 0 <= w_y w < 2 ^ 30;
  wo_w : 2 <= w_w w <= fb_width fb;
  wo_h : 2 <= w_h w <= fb_height fb;
  wo_title_h : 0 <= w_title_h w < w_h w;
  wo_backing : w_owner_drawn w = true -> w_backing w <> 0 ->
    forall i, 0 <= i < w_w w * content_h w -> off_fb fb (w_backing w + 4 * i);
  wo_line : w_title_h w > 0 -> Forall (fun c => c <> NEWLINE) (str_cut (w_title w));
  wo_fits : w_title_h w > 0 -> 2 + 8 * Z.of_nat (length (str_cut (w_title w))) <= w_w w }.

Lemma content_h_eq w : win_ok w -> content_h w = w_h w - w_title_h w.
Proof. intros []. unfold content_h. destruct (Z.gtb_spec (w_h w) (w_title_h w)); lia. Qed.

Definition text_top (w : gui_window) : Z := w_y w + (if w_title_h w >? 8 then (w_title_h w - 8) / 2 else 0).

Lemma text_top_eq w : win_ok w -> title_text_y w = text_top w /\ w_y w <= text_top w /\ (8 < w_title_h w -> text_top w + 8 <= w_y w + w_title_h w) /\
  (w_title_h w <= 8 -> text_top w = w_y w) /\ text_top w < 2 ^ 31 - 8.
Proof.
  intros []. destruct Hfb. unfold title_text_y, text_top, FONT_GLYPH_HEIGHT.
  destruct (Z.gtb_spec (w_title_h w) 8); [|rewrite u32_id by lia; lia].
  assert (0 <= (w_title_h w - 8) / 2 /\ 2 * ((w_title_h w - 8) / 2) <= w_title_h w - 8) by (Z.to_euclidean_division_equations; lia).
  rewrite u32_id by lia. lia.
Qed.

(** The buttons lie in the title bar. *)
Lemma close_box_geometry w bx by_ bw bh :
  win_ok w -> gui_close_box_rect w = Some (bx, by_, bw, bh) ->
  bh = w_title_h w - 4 /\ 4 <= bw <= bh /\ bw + 4 <= w_w w /\ bx = w_x w + w_w w - bw - 2 /\ by_ = w_y w + 2.
Proof.
  intros [] E. destruct Hfb. unfold gui_close_box_rect, GUI_CLOSE_BTN_MIN_TITLE_H, GUI_CLOSE_BTN_PAD, GUI_CLOSE_BTN_W in E.
  destruct (_ || _) eqn:Hg in E; [done|]. b2p. rewrite (u32_id (w_title_h w - 2 * 2)) in E by lia.
  destruct (Z.ltb_spec (w_title_h w - 2 * 2) 4) in E; [done|].
  destruct (Z.ltb_spec (w_title_h w - 2 * 2) 14) in E;
    (destruct (w_w w <? _) eqn:Hc in E; [done|]; b2p; rewrite u32_id in Hc by lia; injection E as <- <- <- <-;
     rewrite !u32_id by lia; lia).
Qed.

Lemma btn_row_geometry w bx by_ bw bh :
  win_ok w -> gui_min_max_btn_row w = Some (bx, by_, bw, bh) ->
  bh = w_title_h w - 4 /\ 4 <= bw <= bh /\ bw <= 14 /\ 3 * bw + 8 <= w_w w /\ bx = w_x w + w_w w - bw - 2 /\ by_ = w_y w + 2.
Proof.
  intros [] E. destruct Hfb. unfold gui_min_max_btn_row, GUI_CLOSE_BTN_MIN_TITLE_H, GUI_CLOSE_BTN_PAD, GUI_CLOSE_BTN_W in E.
  destruct (_ || _) eqn:Hg in E; [done|]. b2p. rewrite (u32_id (w_title_h w - 2 * 2)) in E by lia.
  destruct (Z.ltb_spec (w_title_h w - 2 * 2) 4) in E; [done|].
  destruct (Z.ltb_spec (w_title_h w - 2 * 2) 14) in E;
    (destruct (w_w w <? _) eqn:Hc in E; [done|]; b2p; rewrite u32_id in Hc by lia; injection E as <- <- <- <-;
     rewrite !u32_id by lia; lia).
Qed.

Record button_in (w : gui_window) (bx by_ bw bh : Z) : Prop := {
  bi_w : 4 <= bw; bi_h : 4 <= bh; bi_x : w_x w <= bx; bi_x1 : bx + bw <= w_x w + w_w w;
  bi_y : w_y w <= by_; bi_y1 : by_ + bh <= w_y w + w_title_h w }.

Lemma close_button w bx by_ bw bh : win_ok w -> gui_close_box_rect w = Some (bx, by_, bw, bh) -> button_in w bx by_ bw bh.
Proof. intros Hw E. destruct (close_box_geometry w bx by_ bw bh Hw E) as (? & ? & ? & ? & ?). split; lia. Qed.

Lemma minimize_button w bx by_ bw bh : win_ok w -> gui_minimize_button_rect w = Some (bx, by_, bw, bh) -> button_in w bx by_ bw bh.
Proof.
  intros Hw E. unfold gui_minimize_button_rect, GUI_CLOSE_BTN_PAD in E.
  destruct (gui_min_max_btn_row w) as [[[[rx ry] rw] rh]|] eqn:Er; [|done]. injection E as <- <- <- <-.
  destruct (btn_row_geometry w rx ry rw rh Hw Er) as (? & ? & ? & ? & ? & ?). destruct Hw, Hfb. rewrite u32_id by lia. split; lia.
Qed.

Lemma maximize_button w bx by_ bw bh : win_ok w -> gui_maximize_button_rect w = Some (bx, by_, bw, bh) -> button_in w bx by_ bw bh.
Proof.
  intros Hw E. unfold gui_maximize_button_rect, GUI_CLOSE_BTN_PAD in E.
  destruct (gui_min_max_btn_row w) as [[[[rx ry] rw] rh]|] eqn:Er; [|done]. injection E as <- <- <- <-.
  destruct (btn_row_geometry w rx ry rw rh Hw Er) as (? & ? & ? & ? & ? & ?). destruct Hw, Hfb. rewrite u32_id by lia. split; lia.
Qed.

(** The paint of a title bar. *)
Definition title_text (w : gui_window) : list (Z * Z) :=
  text_points (w_x w + 2) (text_top w) (w_title_h w) (w_x w + 2) (text_top w) (w_title w).

Definition bar_paint (w : gui_window) (border : Z) : paint :=
  over (points_paint (title_text w) 0xfff0f4f8)
    (over (rect_paint (w_x w) (w_y w + w_title_h w - 1) (w_w w) 1 border)
       (rect_paint (w_x w) (w_y w) (w_w w) (w_title_h w) (gui_blend_color border 0xff000000 2 3))).

Definition minimize_paint (w : gui_window) (bg : Z) : paint :=
  match gui_minimize_button_rect w with
  | None => blank
  | Some (bx, by_, bw, bh) =>
      over (rect_paint (bx + 2) (by_ + bh - 3) (bw - 4) 1 0xfff0f4f8) (rect_paint bx by_ bw bh bg)
  end.

Definition maximize_paint (w : gui_window) (bg : Z) : paint :=
  match gui_maximize_button_rect w with
  | None => blank
  | Some (bx, by_, bw, bh) =>
      over (box_paint (bx + 2) (by_ + 2) (bw - 4) (bh - 4) 0xfff0f4f8) (rect_paint bx by_ bw bh bg)
  end.

Definition close_paint (w : gui_window) (bg : Z) : paint :=
  match gui_close_box_rect w with
  | None => blank
  | Some (bx, by_, bw, bh) =>
      over (points_paint (line_points (bx + bw - 3) (by_ + 2) (bx + 2) (by_ + bh - 3)) 0xfff8f8f8)
        (over (points_paint (line_points (bx + 2) (by_ + 2) (bx + bw - 3) (by_ + bh - 3)) 0xfff8f8f8)
           (rect_paint bx by_ bw bh bg))
  end.

Definition title_paint (d : gui_desktop) (i : Z) (w : gui_window) : paint :=
  if (w_title_h w =? 0) || (byte_at (w_title w) 0 =? 0) then blank else
  let min_bg := if d_focused d =? i then 0xffa0a8b8 else 0xff586070 in
  let cls_bg := if d_focused d =? i then 0xffe04a4a else 0xff8a3030 in
  over (close_paint w cls_bg) (over (maximize_paint w min_bg) (over (minimize_paint w min_bg)
    (bar_paint w (window_border d i w)))).

(** A paint that stays in a rectangle. *)
Definition paints_in (f : paint) (x y w h : Z) : Prop :=
  forall px py, f px py <> None -> x <= px < x + w /\ y <= py < y + h.

Lemma paints_over f g x y w h : paints_in f x y w h -> paints_in g x y w h -> paints_in (over g f) x y w h.
Proof. intros Hf Hg px py Hp. unfold over in Hp. destruct (g px py) eqn:E; [apply Hg; congruence|by apply Hf]. Qed.

Lemma paints_blank x y w h : paints_in blank x y w h.
Proof. by intros px py Hp. Qed.

Lemma paints_rect x y w h color x' y' w' h' :
  x' <= x -> y' <= y -> x + w <= x' + w' -> y + h <= y' + h' -> paints_in (rect_paint x y w h color) x' y' w' h'.
Proof. intros ? ? ? ? px py Hp. unfold rect_paint in Hp. destruct (_ && _) eqn:E; [|done]. b2p. lia. Qed.

Lemma paints_points pts color x y w h :
  (forall p, p ∈ pts -> x <= fst p < x + w /\ y <= snd p < y + h) -> paints_in (points_paint pts color) x y w h.
Proof.
  intros Hp px py Hn. unfold points_paint in Hn. destruct (bool_decide _) eqn:E; [|done].
  apply bool_decide_eq_true in E. by apply (Hp (px, py)).
Qed.

Lemma paints_box x y w h color x' y' w' h' :
  x' <= x -> y' <= y -> x + w <= x' + w' -> y + h <= y' + h' -> paints_in (box_paint x y w h color) x' y' w' h'.
Proof.
  intros. unfold box_paint. destruct (_ || _) eqn:Hg; [apply paints_blank|]. b2p.
  destruct (Z.gtb_spec h 1), (Z.gtb_spec h 2), (Z.gtb_spec w 1); repeat apply paints_over; apply paints_rect; lia.
Qed.

Lemma title_text_in w p :
  win_ok w -> w_title_h w > 0 -> p ∈ title_text w ->
  w_x w + 2 <= fst p < w_x w + w_w w /\ text_top w <= snd p < text_top w + 8 /\ w_y w <= snd p < w_y w + w_title_h w.
Proof.
  intros Hw Ht Hp. pose proof (text_top_eq w Hw) as (_ & T1 & T2 & T3 & T4). pose proof Hw as [].
  destruct Hfb. specialize (wo_fits0 Ht). specialize (wo_line0 Ht).
  apply text_points_in in Hp; [|done|lia|lia|lia|lia].
  destruct (Z_lt_ge_dec 8 (w_title_h w)); lia.
Qed.

Lemma title_paint_in d i w : win_ok w -> paints_in (title_paint d i w) (w_x w) (w_y w) (w_w w) (w_title_h w).
Proof.
  intros Hw. unfold title_paint. destruct (_ || _) eqn:Hg; [apply paints_blank|]. b2p.
  assert (Ht : w_title_h w > 0) by (destruct Hw; lia). cbv zeta.
  apply paints_over; [apply paints_over; [apply paints_over|]|].
  - unfold bar_paint. pose proof Hw as []. repeat apply paints_over; try (apply paints_rect; lia).
    apply paints_points. intros p Hp. apply title_text_in in Hp; [lia|done|done].
  - unfold minimize_paint. destruct (gui_minimize_button_rect w) as [[[[bx by_] bw] bh]|] eqn:E; [|apply paints_blank].
    apply minimize_button in E as []; [|done]. apply paints_over; apply paints_rect; lia.
  - unfold maximize_paint. destruct (gui_maximize_button_rect w) as [[[[bx by_] bw] bh]|] eqn:E; [|apply paints_blank].
    apply maximize_button in E as []; [|done]. apply paints_over; [apply paints_rect|apply paints_box]; lia.
  - unfold close_paint. destruct (gui_close_box_rect w) as [[[[bx by_] bw] bh]|] eqn:E; [|apply paints_blank].
    apply close_button in E as []; [|done].
    repeat apply paints_over; [apply paints_rect; lia|..]; apply paints_points; intros p Hp; apply line_points_box in Hp; lia.
Qed.

(** ** The title bar *)

Ltac small := rewrite ?i32_id by lia; rewrite ?u32_id by lia; rewrite ?i32_id by lia.

Lemma bar_draws w c border m :
  win_ok w -> clip_in c -> w_title_h w > 0 ->
  let text_y := title_text_y w in
  let m1 := gui_fillrect_clipped fb (i32 (w_x w)) (i32 (w_y w)) (i32 (w_w w)) (i32 (w_title_h w)) c
              (gui_blend_color border 0xff000000 2 3) m in
  let m2 := gui_fillrect_clipped fb (i32 (w_x w)) (i32 (u32 (w_y w + w_title_h w - 1))) (i32 (w_w w)) 1 c border m1 in
  draws fb m
    (if (cx0 c <? i32 (u32 (w_x w + w_w w))) && (cx1 c >? i32 (u32 (w_x w + 2))) &&
        (cy0 c <? i32 (u32 (text_y + FONT_GLYPH_HEIGHT))) && (cy1 c >? i32 text_y)
     then font_draw_text_rect_clipped fb (u32 (w_x w + 2)) text_y (w_title_h w) c (w_title w) 0xfff0f4f8 m2 else m2)
    (clip_paint c (bar_paint w border)).
Proof.
  intros Hw Hc Ht text_y m1 m2. pose proof (text_top_eq w Hw) as (Ety & T1 & T2 & T3 & T4). pose proof Hw as [].
  pose proof Hfb as []. unfold text_y. rewrite Ety. unfold FONT_GLYPH_HEIGHT. clear text_y.
  assert (D2 : draws fb m m2 (clip_paint c (over (rect_paint (w_x w) (w_y w + w_title_h w - 1) (w_w w) 1 border)
    (rect_paint (w_x w) (w_y w) (w_w w) (w_title_h w) (gui_blend_color border 0xff000000 2 3))))).
  { unfold m2, m1. small. eapply clip_then; by apply fillrect_clipped_draws. }
  clearbody m2. clear m1. small. unfold bar_paint. eapply clip_then; [exact D2|].
  assert (Hin : forall p, p ∈ title_text w -> _) by (intros p Hp; exact (title_text_in w p Hw Ht Hp)).
  destruct (_ && _) eqn:Hg.
  - apply text_clipped_draws; [done|]. intros p Hp. specialize (Hin p Hp). lia.
  - apply clip_blank. intros x y Hxy _. unfold points_paint. rewrite bool_decide_false; [done|]. intros Hp.
    specialize (Hin _ Hp). cbn [fst snd] in Hin. unfold in_clip in Hxy. b2p.
    destruct Hg as [Hg|?]; b2p; [destruct Hg as [Hg|?]; b2p; [destruct Hg; b2p; lia|lia]|lia].
Qed.

Lemma minimize_draws w c bg m :
  win_ok w -> clip_in c ->
  draws fb m
    (match gui_minimize_button_rect w with
     | None => m
     | Some (bx, by_, bw, bh) =>
         let m := gui_fillrect_clipped fb (i32 bx) (i32 by_) (i32 bw) (i32 bh) c bg m in
         gui_fillrect_clipped fb (i32 (u32 (bx + 2))) (i32 (u32 (by_ + bh - 3))) (i32 (u32 (bw - 4))) 1 c 0xfff0f4f8 m
     end) (clip_paint c (minimize_paint w bg)).
Proof.
  intros Hw Hc. unfold minimize_paint. destruct (gui_minimize_button_rect w) as [[[[bx by_] bw] bh]|] eqn:E; [|by apply clip_blank].
  apply minimize_button in E as []; [|done]. pose proof Hw as []. pose proof Hfb as []. cbv zeta. small.
  eapply clip_then; by apply fillrect_clipped_draws.
Qed.

Lemma maximize_draws w c bg m :
  win_ok w -> clip_in c ->
  draws fb m
    (match gui_maximize_button_rect w with
     | None => m
     | Some (bx, by_, bw, bh) =>
         let m := gui_fillrect_clipped fb (i32 bx) (i32 by_) (i32 bw) (i32 bh) c bg m in
         gui_draw_rect_clipped fb (i32 (u32 (bx + 2))) (i32 (u32 (by_ + 2))) (i32 (u32 (bw - 4))) (i32 (u32 (bh - 4))) c
           0xfff0f4f8 m
     end) (clip_paint c (maximize_paint w bg)).
Proof.
  intros Hw Hc. unfold maximize_paint. destruct (gui_maximize_button_rect w) as [[[[bx by_] bw] bh]|] eqn:E; [|by apply clip_blank].
  apply maximize_button in E as []; [|done]. pose proof Hw as []. pose proof Hfb as []. cbv zeta. small.
  eapply clip_then; [by apply fillrect_clipped_draws|by apply rect_clipped_draws].
Qed.

Lemma close_draws w c bg m :
  win_ok w -> clip_in c ->
  draws fb m
    (match gui_close_box_rect w with
     | None => m
     | Some (bx, by_, bw, bh) =>
         let m := gui_fillrect_clipped fb (i32 bx) (i32 by_) (i32 bw) (i32 bh) c bg m in
         let m := gui_draw_line_clipped fb (i32 (u32 (bx + 2))) (i32 (u32 (by_ + 2))) (i32 (u32 (bx + bw - 3)))
                    (i32 (u32 (by_ + bh - 3))) c 0xfff8f8f8 m in
         gui_draw_line_clipped fb (i32 (u32 (bx + bw - 3))) (i32 (u32 (by_ + 2))) (i32 (u32 (bx + 2)))
           (i32 (u32 (by_ + bh - 3))) c 0xfff8f8f8 m
     end) (clip_paint c (close_paint w bg)).
Proof.
  intros Hw Hc. unfold close_paint. destruct (gui_close_box_rect w) as [[[[bx by_] bw] bh]|] eqn:E; [|by apply clip_blank].
  apply close_button in E as []; [|done]. pose proof Hw as []. pose proof Hfb as []. cbv zeta. small.
  eapply clip_then; [eapply clip_then; [by apply fillrect_clipped_draws|]|]; by apply line_clipped_draws.
Qed.

Lemma title_draws d i w c m :
  win_ok w -> clip_in c ->
  draws fb m (gui_draw_window_title fb d i w (window_border d i w) c m) (clip_paint c (title_paint d i w)).
Proof.
  intros Hw Hc. unfold gui_draw_window_title, title_paint. destruct (_ || _) eqn:Hg; [by apply clip_blank|]. b2p.
  assert (Ht : w_title_h w > 0) by (destruct Hw; lia).
  destruct (Z.gtb_spec (w_title_h w) 0); [|lia]. cbv zeta.
  eapply clip_then; [|by apply close_draws]. eapply clip_then; [|by apply maximize_draws].
  eapply clip_then; [|by apply minimize_draws]. by apply bar_draws.
Qed.

(** ** The window below the title bar *)

Definition inner_paint (m : gmap Z Z) (w : gui_window) (border : Z) : paint :=
  if w_owner_drawn w && negb (w_backing w =? 0)
  then blit_paint m (w_backing w) (w_x w) (w_y w + w_title_h w) (w_w w) (content_h w)
  else if (w_w w >? 2) && (w_h w >? 2)
  then over (rect_paint (w_x w + 1) (w_y w + 1) (w_w w - 2) (w_h w - 2) (w_bg_color w))
         (rect_paint (w_x w) (w_y w) (w_w w) (w_h w) border)
  else rect_paint (w_x w) (w_y w) (w_w w) (w_h w) border.

(** The four sides of the frame, over [f]. *)
Definition framed (w : gui_window) (border : Z) (f : paint) : paint :=
  let f := over (rect_paint (w_x w) (w_y w) (w_w w) 1 border) f in
  let f := if w_h w >? 1 then over (rect_paint (w_x w) (w_y w + w_h w - 1) (w_w w) 1 border) f else f in
  if w_h w >? 2 then
    let f := over (rect_paint (w_x w) (w_y w + 1) 1 (w_h w - 2) border) f in
    if w_w w >? 1 then over (rect_paint (w_x w + w_w w - 1) (w_y w + 1) 1 (w_h w - 2) border) f else f
  else f.

Definition win_paint (m : gmap Z Z) (d : gui_desktop) (i : Z) (w : gui_window) : paint :=
  if negb (w_used w) || w_minimized w then blank else
  over (title_paint d i w) (framed w (window_border d i w) (inner_paint m w (window_border d i w))).

Lemma clip_ext c m m' f g : (forall x y, on_fb fb x y -> f x y = g x y) -> draws fb m m' (clip_paint c f) -> draws fb m m' (clip_paint c g).
Proof. intros He. apply draws_ext. intros x y Hxy. unfold clip_paint. by rewrite He. Qed.

Lemma backing_paint_eq m0 m w x y w' h' :
  win_ok w -> same_off m0 m -> w_owner_drawn w = true -> w_backing w <> 0 ->
  w' = w_w w -> h' = content_h w -> forall px py, blit_paint m (w_backing w) x y w' h' px py = blit_paint m0 (w_backing w) x y w' h' px py.
Proof.
  intros Hw Hs Hd Hb -> -> px py. unfold blit_paint. destruct (_ && _) eqn:E; [|done]. b2p. f_equal. apply Hs.
  apply (wo_backing _ Hw Hd Hb). pose proof Hw as [].
  assert (0 <= (py - y) * w_w w <= (content_h w - 1) * w_w w) by (split; [apply Z.mul_nonneg_nonneg|apply Z.mul_le_mono_nonneg_r]; lia).
  lia.
Qed.

Lemma window_size w : win_ok w -> 0 <= content_h w < 2 ^ 30 /\ w_w w < 2 ^ 30 /\ w_w w * content_h w < 2 ^ 32.
Proof.
  intros Hw. pose proof (content_h_eq w Hw) as ->. pose proof Hw as []. pose proof Hfb as []. split_and!; [lia..|].
  apply Z.le_lt_trans with (fb_stride fb * fb_height fb); [|lia].
  apply Z.mul_le_mono_nonneg; lia.
Qed.

Lemma inner_paint_in m w border : win_ok w -> paints_in (inner_paint m w border) (w_x w) (w_y w) (w_w w) (w_h w).
Proof.
  intros Hw. pose proof (content_h_eq w Hw) as Ech. pose proof Hw as []. unfold inner_paint.
  destruct (_ && _); [|destruct (_ && _); [apply paints_over|]; apply paints_rect; lia].
  intros px py Hp. unfold blit_paint in Hp. destruct (_ && _) eqn:E; [|done]. b2p. lia.
Qed.

Lemma win_paint_in m d i w : win_ok w -> paints_in (win_paint m d i w) (w_x w) (w_y w) (w_w w) (w_h w).
Proof.
  intros Hw. pose proof Hw as []. unfold win_paint. destruct (_ || _); [apply paints_blank|]. apply paints_over.
  - unfold framed. cbv zeta. destruct (w_h w >? 1), (w_h w >? 2), (w_w w >? 1);
      repeat (apply paints_over; [|apply paints_rect; lia]); by apply inner_paint_in.
  - intros px py Hp. apply title_paint_in in Hp; [lia|done].
Qed.

(** The four sides drawn by any operation that fills a clipped rectangle. *)
Lemma frame_draws c m m1 w border f (fill : Z -> Z -> Z -> Z -> gmap Z Z -> gmap Z Z) :
  (forall x y ww h m, 0 <= x < 2 ^ 31 -> 0 <= y < 2 ^ 31 -> 0 <= ww -> 0 <= h ->
    draws fb m (fill x y ww h m) (clip_paint c (rect_paint x y ww h border))) ->
  win_ok w -> draws fb m m1 (clip_paint c f) ->
  draws fb m (let m := fill (w_x w) (w_y w) (w_w w) 1 m1 in
    let m := if w_h w >? 1 then fill (w_x w) (w_y w + w_h w - 1) (w_w w) 1 m else m in
    if w_h w >? 2 then let m := fill (w_x w) (w_y w + 1) 1 (w_h w - 2) m in
      if w_w w >? 1 then fill (w_x w + w_w w - 1) (w_y w + 1) 1 (w_h w - 2) m else m
    else m) (clip_paint c (framed w border f)).
Proof.
  intros Hfill Hw H1. pose proof Hw as []. pose proof Hfb as []. unfold framed. cbv zeta.
  assert (H2 := clip_then c _ _ _ _ _ H1 (Hfill (w_x w) (w_y w) (w_w w) 1 m1 ltac:(lia) ltac:(lia) ltac:(lia) ltac:(lia))).
  assert (H3 := clip_if (w_h w >? 1) c _ _ _ _ _ H2
    (fun _ => Hfill (w_x w) (w_y w + w_h w - 1) (w_w w) 1 _ ltac:(lia) ltac:(lia) ltac:(lia) ltac:(lia))).
  destruct (Z.gtb_spec (w_h w) 2); [|exact H3].
  apply clip_if; [|intros _; apply Hfill; lia]. eapply clip_then; [exact H3|apply Hfill; lia].
Qed.

Lemma draw_window_clipped_draws m0 d i w c m :
  win_ok w -> clip_in c -> same_off m0 m ->
  draws fb m (gui_draw_window_clipped fb d i w c m) (clip_paint c (win_paint m0 d i w)).
Proof.
  intros Hw Hc Hs. pose proof (win_paint_in m0 d i w Hw) as Hin. revert Hin.
  pose proof (window_size w Hw) as (Hch & Hww & Hsz). pose proof Hw as []. pose proof Hfb as [].
  unfold gui_draw_window_clipped, win_paint.
  destruct (_ || _); [by intros; apply clip_blank|]. set (border := window_border d i w). small. intros Hin.
  destruct (gui_rects_overlap _ _ _ _ _ _ _ _) eqn:Hov; cbn [negb].
  2: { apply clip_blank. intros px py Hxy _. destruct (over _ _ px py) eqn:E; [|done]. exfalso.
       assert (Hp := Hin px py ltac:(congruence)). unfold in_clip in Hxy. unfold gui_rects_overlap in Hov. b2p.
       destruct Hov as [Hov|?]; b2p; [destruct Hov as [Hov|?]; b2p; [destruct Hov; b2p; lia|lia]|lia]. }
  clear Hin Hov. pose proof (content_h_eq w Hw) as Ech. eapply clip_then.
  - refine (frame_draws c m (if w_owner_drawn w && negb (w_backing w =? 0)
        then gui_blit_clipped fb (w_x w) (w_y w + w_title_h w) (w_backing w) (w_w w) (content_h w) c m
        else let m := gui_fillrect_clipped fb (w_x w) (w_y w) (w_w w) (w_h w) c border m in
          if (w_w w >? 2) && (w_h w >? 2)
          then gui_fillrect_clipped fb (w_x w + 1) (w_y w + 1) (w_w w - 2) (w_h w - 2) c (w_bg_color w) m else m)
        w border _ (fun x y ww h m => gui_fillrect_clipped fb x y ww h c border m) _ Hw _).
    { intros. by apply fillrect_clipped_draws. }
    unfold inner_paint. destruct (w_owner_drawn w && negb (w_backing w =? 0)) eqn:Eb.
    + b2p. eapply clip_ext; [|apply blit_clipped_draws; try lia; try done; by apply wo_backing0].
      intros px py _. by apply backing_paint_eq.
    + apply (clip_if ((w_w w >? 2) && (w_h w >? 2))); [by apply fillrect_clipped_draws|intros _; by apply fillrect_clipped_draws].
  - destruct ((w_title_h w >? 0) && (cy0 c <? w_y w + w_title_h w) && (cy1 c >? w_y w)) eqn:Hg; [by apply title_draws|].
    apply clip_blank. intros px py Hxy _. destruct (title_paint d i w px py) eqn:E; [|done]. exfalso.
    assert (Hp := title_paint_in d i w Hw px py ltac:(congruence)). unfold in_clip in Hxy. b2p.
    destruct Hg as [Hg|?]; b2p; [destruct Hg; b2p; lia|lia].
Qed.

Lemma draw_window_draws m0 d i w m :
  win_ok w -> same_off m0 m -> draws fb m (gui_draw_window fb d i w m) (win_paint m0 d i w).
Proof.
  intros Hw Hs. pose proof (window_size w Hw) as (Hch & Hww & Hsz). pose proof Hw as []. pose proof Hfb as [].
  assert (Hfill : forall color x y ww h m, 0 <= x < 2 ^ 31 -> 0 <= y < 2 ^ 31 -> 0 <= ww -> 0 <= h ->
    draws fb m (fb_fillrect fb x y ww h color m) (clip_paint screen (rect_paint x y ww h color))).
  { intros. apply draws_screen. apply fillrect_draws; [done|lia..]. }
  apply draws_screen. unfold gui_draw_window, win_paint.
  destruct (w_used w); cbn [negb orb]; [|by apply clip_blank]. destruct (w_minimized w); [by apply clip_blank|].
  set (border := window_border d i w). cbv zeta. small.
  eapply clip_then; [|apply title_draws; [done|apply screen_in]].
  refine (frame_draws screen m (if w_owner_drawn w && negb (w_backing w =? 0)
      then fb_blit fb (w_x w) (w_y w + w_title_h w) (w_backing w) (w_w w) (content_h w) m
      else let m := fb_fillrect fb (w_x w) (w_y w) (w_w w) (w_h w) border m in
        if (w_w w >? 2) && (w_h w >? 2)
        then fb_fillrect fb (w_x w + 1) (w_y w + 1) (w_w w - 2) (w_h w - 2) (w_bg_color w) m else m)
      w border _ (fun x y ww h m => fb_fillrect fb x y ww h border m) (Hfill border) Hw _).
  unfold inner_paint. destruct (w_owner_drawn w && negb (w_backing w =? 0)) eqn:Eb.
  - b2p. eapply clip_ext; [|apply draws_screen, blit_draws; try lia; try done; by apply wo_backing0].
    intros px py _. by apply backing_paint_eq.
  - destruct ((w_w w >? 2) && (w_h w >? 2)) eqn:Eg; b2p; [|apply Hfill; lia].
    eapply clip_then; apply Hfill; lia.
Qed.
End Paint.
