(* ===== verification/GuiScene.v ===== *)
(** What gui_draw shows on the screen.

    The scene of a desktop is the gradient, the visible windows from the lowest
    to the highest [z], and the cursor.  A full redraw shows the scene; so does
    a partial redraw of a screen that is wrong at most inside the damage list.
    Both loops of gui_draw end. *)

From stdpp Require Import sorting.
From S2P Require Import Prelude.
From S2P Require Import Bytes.
From S2P Require Import Framebuffer.
From S2P Require Import Gui.
From S2P Require Import GuiDraw.
From S2P Require Import GuiPaint.
Open Scope arm.

Lemma bind_eq {A B} (f : A -> option B) mx x : mx = Some x -> mx ≫= f = f x.
Proof. by intros ->. Qed.

(** * The windows in drawing order *)

Definition visible (d : gui_desktop) (i : Z) : bool := w_used (win_at d i) && negb (w_minimized (win_at d i)).

Definition z_le (d : gui_desktop) (i j : Z) : Prop := w_z (win_at d i) <= w_z (win_at d j).

#[export] Instance z_le_dec d : RelDecision (z_le d).
Proof. intros i j. unfold z_le. apply _. Defined.

Definition stack_order (d : gui_desktop) : list Z :=
  merge_sort (z_le d) (filter (fun i => visible d i) (seqZ 0 GUI_MAX_WINDOWS)).

#[export] Instance z_le_trans d : Transitive (z_le d).
Proof. intros i j k. unfold z_le. lia. Qed.
#[export] Instance z_le_total d : Total (z_le d).
Proof. intros i j. unfold z_le. lia. Qed.

Lemma stack_order_elem d i : i ∈ stack_order d <-> 0 <= i < GUI_MAX_WINDOWS /\ visible d i = true.
Proof.
  unfold stack_order. rewrite merge_sort_Permutation, list_elem_of_filter, elem_of_seqZ, Is_true_true.
  split; intros [? ?]; (split; [done || lia|done || lia]).
Qed.

(** Every visible window has a [z] of its own, below the sentinel. *)
Definition z_ok (d : gui_desktop) : Prop :=
  (forall i, 0 <= i < GUI_MAX_WINDOWS -> visible d i = true -> 0 < w_z (win_at d i) < UINT32_MAX) /\
  (forall i j, 0 <= i < GUI_MAX_WINDOWS -> 0 <= j < GUI_MAX_WINDOWS -> visible d i = true -> visible d j = true ->
    w_z (win_at d i) = w_z (win_at d j) -> i = j).

Lemma next_above_spec d min_z :
  match gui_next_window_above_z d min_z with
  | Some i => 0 <= i < GUI_MAX_WINDOWS /\ visible d i = true /\ min_z < w_z (win_at d i) /\
      forall j, 0 <= j < GUI_MAX_WINDOWS -> visible d j = true -> min_z < w_z (win_at d j) -> w_z (win_at d i) <= w_z (win_at d j)
  | None => forall j, 0 <= j < GUI_MAX_WINDOWS -> visible d j = true -> min_z < w_z (win_at d j) -> UINT32_MAX <= w_z (win_at d j)
  end.
Proof.
  unfold gui_next_window_above_z.
  set (step := fun (i : Z) (acc : option Z * Z) => _).
  set (P := fun k (acc : option Z * Z) => (match fst acc with
    | Some i => 0 <= i < k /\ visible d i = true /\ min_z < w_z (win_at d i) /\ snd acc = w_z (win_at d i)
    | None => snd acc = UINT32_MAX end) /\
    forall j, 0 <= j < k -> visible d j = true -> min_z < w_z (win_at d j) -> snd acc <= w_z (win_at d j)).
  assert (HP : P GUI_MAX_WINDOWS (for_range 0 GUI_MAX_WINDOWS step (None, UINT32_MAX))).
  { apply (for_range_ind P); [unfold GUI_MAX_WINDOWS; lia|split; [done|intros; lia]|].
    intros i [best best_z] Hi [H1 H2]. cbn [fst snd] in *. unfold step.
    destruct (negb (w_used (win_at d i)) || w_minimized (win_at d i) || (w_z (win_at d i) <=? min_z)) eqn:Hg.
    - split; cbn [fst snd].
      + destruct best; [|done]. destruct H1 as (? & ? & ? & ?). split_and!; try done; lia.
      + intros j Hj Hv Hz. destruct (decide (j = i)) as [->|]; [|apply H2; [lia|done|done]]. exfalso.
        unfold visible in Hv. b2p. destruct Hg as [Hg|?]; b2p; [|lia]. destruct Hg; b2p; congruence.
    - b2p. assert (Hv : visible d i = true) by (unfold visible; rewrite H; by destruct (w_minimized (win_at d i))).
      destruct (Z.ltb_spec (w_z (win_at d i)) best_z); split; cbn [fst snd].
      + split_and!; [lia|lia|done|lia|done].
      + intros j Hj Hvj Hz. destruct (decide (j = i)) as [->|]; [lia|]. specialize (H2 j ltac:(lia) Hvj Hz). lia.
      + destruct best; [|done]. destruct H1 as (? & ? & ? & ?). split_and!; try done; lia.
      + intros j Hj Hvj Hz. destruct (decide (j = i)) as [->|]; [lia|]. by apply H2; [lia|..]. }
  destruct (for_range 0 GUI_MAX_WINDOWS step (None, UINT32_MAX)) as [[i|] z]; destruct HP as [H1 H2]; cbn [fst snd] in *.
  - destruct H1 as (? & ? & ? & ->). split_and!; try done; lia.
  - subst z. done.
Qed.

(** The loop over the windows draws them in stack order. *)
Lemma z_loop_order d draw : z_ok d -> forall l fuel last_z m,
  StronglySorted (z_le d) l -> NoDup l -> 0 <= last_z ->
  (forall i, i ∈ l <-> (0 <= i < GUI_MAX_WINDOWS /\ visible d i = true) /\ last_z < w_z (win_at d i)) -> (length l < fuel)%nat ->
  z_loop fuel d draw last_z m = Some (foldl (fun m i => draw i (win_at d i) m) m l).
Proof.
  intros [Hz Hu]. induction l as [|i l IH]; intros fuel last_z m Hs Hn Hl Hin Hf; (destruct fuel as [|fuel]; [cbn in Hf; lia|]);
    cbn [z_loop]; pose proof (next_above_spec d last_z) as Hnx; destruct (gui_next_window_above_z d last_z) as [j|].
  - destruct Hnx as (? & ? & ? & _). exfalso. by apply (not_elem_of_nil j), Hin.
  - done.
  - destruct Hnx as (Hj & Hvj & Hzj & Hmin). destruct (proj1 (Hin i) ltac:(by left)) as [[Hi Hvi] Hzi].
    apply StronglySorted_inv in Hs as [Hs Hle]. rewrite Forall_forall in Hle. apply NoDup_cons in Hn as [Hni Hn].
    assert (j = i) as ->.
    { apply Hu; [done..|]. assert (Hjl : j ∈ i :: l) by (apply Hin; done). apply elem_of_cons in Hjl as [->|Hjl]; [done|].
      specialize (Hmin i Hi Hvi Hzi). specialize (Hle j Hjl). unfold z_le in Hle. lia. }
    apply IH; [done|done|lia| |cbn in Hf; lia].
    intros k. split.
    + intros Hk. destruct (proj1 (Hin k) ltac:(by right)) as [[Hk1 Hk2] Hk3]. split; [done|].
      specialize (Hle k Hk). unfold z_le in Hle. destruct (decide (w_z (win_at d i) = w_z (win_at d k))) as [E|]; [|lia].
      apply Hu in E; [|done..]. by subst k.
    + intros [[Hk1 Hk2] Hk3]. assert (Hk : k ∈ i :: l) by (apply Hin; split; [done|lia]).
      apply elem_of_cons in Hk as [->|]; [lia|done].
  - destruct (proj1 (Hin i) ltac:(by left)) as [[Hi Hvi] Hzi]. specialize (Hnx i Hi Hvi Hzi). specialize (Hz i Hi Hvi). lia.
Qed.

Lemma stack_order_drawn d draw m :
  z_ok d -> z_loop WINDOW_FUEL d draw 0 m = Some (foldl (fun m i => draw i (win_at d i) m) m (stack_order d)).
Proof.
  intros Hz. apply z_loop_order; [done| | |lia| |].
  - apply StronglySorted_merge_sort; apply _.
  - unfold stack_order. rewrite merge_sort_Permutation. apply NoDup_filter, NoDup_seqZ.
  - intros i. rewrite stack_order_elem. destruct Hz as [Hz _]. split; [|tauto]. intros [Hi Hv]. specialize (Hz i Hi Hv). split; [done|lia].
  - unfold stack_order. rewrite merge_sort_Permutation. unfold WINDOW_FUEL.
    pose proof (length_filter (fun i => visible d i) (seqZ 0 GUI_MAX_WINDOWS)) as Hl. rewrite length_seqZ in Hl. lia.
Qed.

(** * The scene *)

Definition cursor_color (v : Z) : Z := if v =? 1 then 0xff101010 else 0xffe0e0e0.

Definition cursor_dots (d : gui_desktop) : paint := fun x y =>
  let c := d_cursor d in
  let v := cursor_value (c_shape c) (y - c_y c) (x - c_x c) in
  if (c_x c <=? x) && (x <? c_x c + GUI_CURSOR_W) && (c_y c <=? y) && (y <? c_y c + GUI_CURSOR_H) && negb (v =? 0)
  then Some (cursor_color v) else None.

Definition cursor_paint (d : gui_desktop) : paint := if c_visible (d_cursor d) then cursor_dots d else blank.

Section Scene.
Context (fb : fb_t) (Hfb : fb_ok fb).

Definition windows_paint (m : gmap Z Z) (d : gui_desktop) : paint :=
  stack_paint (fun i => win_paint m d i (win_at d i)) (stack_order d).

(** The colour of each pixel of the screen. *)
Definition scene_color (m : gmap Z Z) (d : gui_desktop) (x y : Z) : Z :=
  default (gradient_color fb d y) (over (cursor_paint d) (windows_paint m d) x y).

(** The desktop is drawable: the geometry of the visible windows, the order of
    their [z], and a cursor on the screen. *)
Record scene_ok (d : gui_desktop) : Prop := {
  so_win : forall i, 0 <= i < GUI_MAX_WINDOWS -> visible d i = true -> win_ok fb (win_at d i);
  so_z : z_ok d;
  so_cx : 0 <= c_x (d_cursor d) < 2 ^ 30;
  so_cy : 0 <= c_y (d_cursor d) < 2 ^ 30 }.

Lemma cursor_draws d m : scene_ok d -> draws fb m (draw_cursor_of fb d m) (cursor_dots d).
Proof.
  intros [_ _ Hx Hy]. unfold draw_cursor_of, gui_draw_cursor, GUI_CURSOR_H, GUI_CURSOR_W.
  set (x := c_x (d_cursor d)) in *. set (y := c_y (d_cursor d)) in *. set (sh := c_shape (d_cursor d)).
  set (dot row col := if cursor_value sh row col =? 0 then blank
    else rect_paint (x + col) (y + row) 1 1 (cursor_color (cursor_value sh row col))).
  assert (Hdot : forall row col px py, dot row col px py =
    if negb (cursor_value sh row col =? 0) && ((px =? x + col) && (py =? y + row)) then Some (cursor_color (cursor_value sh row col)) else None).
  { intros. unfold dot. destruct (_ =? 0); [done|]. by rewrite dot_some. }
  eapply draws_ext; [|apply (for_range_draws fb Hfb 0 16 _ (fun row => stack_paint (dot row) (seqZ 0 (16 - 0))))].
  - intros px py _. unfold cursor_dots. fold x y sh. cbv zeta. unfold GUI_CURSOR_W, GUI_CURSOR_H.
    destruct (_ && _) eqn:Hg.
    + b2p. apply (stack_one _ _ (py - y)); [apply elem_of_seqZ; lia| |].
      * apply (stack_one _ _ (px - x)); [apply elem_of_seqZ; lia| |].
        -- rewrite Hdot. replace (x + (px - x)) with px by lia. replace (y + (py - y)) with py by lia.
           rewrite !Z.eqb_refl, (proj2 (Z.eqb_neq _ 0)) by done. done.
        -- intros j _ Hj. rewrite Hdot. rewrite (proj2 (Z.eqb_neq px (x + j))) by lia. by rewrite andb_false_r.
      * intros j _ Hj. apply stack_none. intros k _. rewrite Hdot. rewrite (proj2 (Z.eqb_neq py (y + j))) by lia.
        by rewrite !andb_false_r.
    + apply stack_none. intros row Hrow%elem_of_seqZ. apply stack_none. intros col Hcol%elem_of_seqZ. rewrite Hdot.
      destruct (Z.eqb_spec px (x + col)), (Z.eqb_spec py (y + row)); rewrite ?andb_false_r; try done.
      replace (py - y) with row in Hg by lia. replace (px - x) with col in Hg by lia.
      destruct (cursor_value sh row col =? 0); [done|]. cbn [negb andb] in *. b2p.
      destruct Hg as [Hg|?]; b2p; [|done]. destruct Hg as [Hg|?]; b2p; [|lia]. destruct Hg as [Hg|?]; b2p; [|lia].
      destruct Hg; b2p; lia.
  - intros row m1 Hrow. apply (for_range_draws fb Hfb). intros col m2 Hcol. cbv zeta. unfold dot.
    destruct (_ =? 0); [apply draws_refl|]. rewrite !u32_id by lia. apply putpixel_draws; [done|lia..].
Qed.

Lemma stack_win_ok d i : scene_ok d -> i ∈ stack_order d -> win_ok fb (win_at d i).
Proof. intros Hs [Hi Hv]%stack_order_elem. by apply (so_win _ Hs). Qed.

(** ** The rows of the gradient around the windows *)

Definition in_window (d : gui_desktop) (i x y : Z) : Prop :=
  0 <= i < GUI_MAX_WINDOWS /\ visible d i = true /\
  w_x (win_at d i) <= x < w_x (win_at d i) + w_w (win_at d i) /\ w_y (win_at d i) <= y < w_y (win_at d i) + w_h (win_at d i).

Lemma next_at_spec d row x :
  scene_ok d -> 0 <= x ->
  match gui_next_window_at_or_after d row x with
  | Some i => x <= w_x (win_at d i) /\ in_window d i (w_x (win_at d i)) row /\
      forall j, in_window d j (w_x (win_at d j)) row -> x <= w_x (win_at d j) -> w_x (win_at d i) <= w_x (win_at d j)
  | None => forall j, in_window d j (w_x (win_at d j)) row -> w_x (win_at d j) < x
  end.
Proof.
  intros Hd Hx. unfold gui_next_window_at_or_after.
  set (step := fun (i : Z) (acc : option Z * Z) => _).
  set (P := fun k (acc : option Z * Z) => (match fst acc with
    | Some i => 0 <= i < k /\ x <= w_x (win_at d i) /\ in_window d i (w_x (win_at d i)) row /\ snd acc = w_x (win_at d i)
    | None => snd acc = UINT32_MAX end) /\
    forall j, 0 <= j < k -> in_window d j (w_x (win_at d j)) row -> x <= w_x (win_at d j) -> snd acc <= w_x (win_at d j)).
  assert (HP : P GUI_MAX_WINDOWS (for_range 0 GUI_MAX_WINDOWS step (None, UINT32_MAX))).
  { apply (for_range_ind P); [unfold GUI_MAX_WINDOWS; lia|split; [done|intros; lia]|].
    intros i [best best_x] Hi [H1 H2]. cbn [fst snd] in *. unfold step.
    assert (Hskip : ~ (in_window d i (w_x (win_at d i)) row /\ x <= w_x (win_at d i) < best_x) -> P (i + 1) (best, best_x)).
    { intros Hn. split; cbn [fst snd].
      - destruct best; [|done]. destruct H1 as (? & ? & ? & ?). split_and!; try done; lia.
      - intros j Hj Hw Hz. destruct (decide (j = i)) as [->|]; [|apply H2; [lia|done|done]].
        destruct (Z_le_gt_dec best_x (w_x (win_at d i))); [done|]. exfalso. apply Hn. split; [done|lia]. }
    destruct (negb (w_used (win_at d i)) || w_minimized (win_at d i)) eqn:Hg.
    { apply Hskip. intros [(_ & Hv & _) _]. unfold visible in Hv. b2p. destruct Hg; b2p; congruence. }
    b2p. assert (Hv : visible d i = true) by (unfold visible; rewrite H; by destruct (w_minimized (win_at d i))).
    destruct (so_win _ Hd i Hi Hv). pose proof Hfb as [].
    destruct ((w_y (win_at d i) >? row) || (u32 (w_y (win_at d i) + w_h (win_at d i)) <=? row)) eqn:Hr.
    { apply Hskip. rewrite u32_id in Hr by lia. intros [(_ & _ & _ & ?) _]. b2p. destruct Hr; b2p; lia. }
    rewrite u32_id in Hr by lia. b2p. rewrite u32_id by lia.
    destruct (Z.leb_spec (w_x (win_at d i) + w_w (win_at d i)) x); [apply Hskip; lia|].
    destruct ((w_x (win_at d i) >=? x) && (w_x (win_at d i) <? best_x)) eqn:Hb; b2p.
    - assert (in_window d i (w_x (win_at d i)) row) by (split_and!; try done; lia). split; cbn [fst snd].
      + split_and!; try done; lia.
      + intros j Hj Hw Hz. destruct (decide (j = i)) as [->|]; [lia|]. specialize (H2 j ltac:(lia) Hw Hz). lia.
    - apply Hskip. destruct Hb; b2p; lia. }
  destruct (for_range 0 GUI_MAX_WINDOWS step (None, UINT32_MAX)) as [[i|] z]; destruct HP as [H1 H2]; cbn [fst snd] in *.
  - destruct H1 as (? & ? & ? & ->). split_and!; try done. intros j Hw. apply H2; [apply Hw|done].
  - subst z. intros j Hw. destruct (Z_lt_ge_dec (w_x (win_at d j)) x); [done|]. specialize (H2 j ltac:(apply Hw) Hw ltac:(lia)).
    destruct Hw as (Hj & Hv & _). destruct (so_win _ Hd j Hj Hv). unfold UINT32_MAX in H2. lia.
Qed.

Lemma span_paint x next row color px py :
  (if next >? x then rect_paint x row (next - x) 1 color else blank) px py =
  if (x <=? px) && (px <? next) && (py =? row) then Some color else None.
Proof. destruct (Z.gtb_spec next x); unfold rect_paint, blank; destruct (Z.eqb_spec py row); px_cases. Qed.

(** One row: every pixel from [x] on that no visible window covers. *)
Lemma row_loop_done d row color fuel : scene_ok d -> 0 <= row < fb_height fb -> forall x m,
  0 <= x -> (Z.to_nat (fb_width fb - x) < fuel)%nat ->
  exists m', row_loop fuel fb d row color x m = Some m' /\
    exists P, draws fb m m' P /\ (forall px py, P px py = None \/ (py = row /\ P px py = Some color)) /\
      forall px, x <= px < fb_width fb -> (forall i, ~ in_window d i px row) -> P px row <> None.
Proof.
  intros Hd Hrow. induction fuel as [|fuel IH]; intros x m Hx Hf; [lia|]. cbn [row_loop].
  destruct (Z.ltb_spec x (fb_width fb)); cbn [negb].
  2: { exists m. split; [done|]. exists blank. split_and!; [apply draws_refl|by left|lia]. }
  pose proof (next_at_spec d row x Hd Hx) as Hnx.
  set (next := match gui_next_window_at_or_after d row x with Some i => w_x (win_at d i) | None => fb_width fb end).
  set (fill := if next >? x then rect_paint x row (next - x) 1 color else blank).
  set (m1 := if next >? x then fb_fillrect fb x row (next - x) 1 color m else m).
  assert (D1 : draws fb m m1 fill).
  { unfold m1, fill. destruct (Z.gtb_spec next x); [|apply draws_refl]. apply fillrect_draws; [done|lia..]. }
  assert (Hfill : forall px py, fill px py = if (x <=? px) && (px <? next) && (py =? row) then Some color else None).
  { intros px py. apply span_paint. }
  clearbody fill m1. destruct (gui_next_window_at_or_after d row x) as [i|]; unfold next in Hfill.
  - destruct Hnx as (Hle & Hw & Hmin). destruct Hw as (Hi & Hv & Hwx & Hwy). pose proof (so_win _ Hd i Hi Hv) as [].
    pose proof Hfb as []. rewrite u32_id by lia.
    destruct (IH (w_x (win_at d i) + w_w (win_at d i)) m1) as (m' & E & P & D2 & Hc & Hall); [lia|lia|].
    exists m'. split; [exact E|]. exists (over P fill). split_and!; [by eapply draws_trans| |].
    + intros px py. unfold over. destruct (Hc px py) as [->|[-> ->]]; [|by right]. rewrite Hfill.
      destruct (_ && _) eqn:Eg; [|by left]. b2p. subst. by right.
    + intros px Hpx Hno. unfold over. destruct (P px row) eqn:EP; [done|]. rewrite Hfill, Z.eqb_refl.
      destruct (Z.ltb_spec px (w_x (win_at d i))); [px_cases|]. exfalso.
      destruct (Z_lt_ge_dec px (w_x (win_at d i) + w_w (win_at d i))); [|by apply (Hall px ltac:(lia))].
      apply (Hno i). unfold in_window. auto with lia.
  - exists m1. split; [done|]. exists fill. split_and!; [done| |].
    + intros px py. rewrite Hfill. destruct (_ && _) eqn:Eg; [|by left]. b2p. subst. by right.
    + intros px Hpx _. rewrite Hfill, Z.eqb_refl. px_cases.
Qed.

Lemma rows_done d m :
  scene_ok d ->
  exists m', for_range 0 (fb_height fb) (fun row om =>
      m ← om; row_loop (S (Z.to_nat (fb_width fb))) fb d row (gradient_color fb d row) 0 m) (Some m) = Some m' /\
    exists P, draws fb m m' P /\ forall x y, on_fb fb x y ->
      (P x y = None \/ P x y = Some (gradient_color fb d y)) /\ ((forall i, ~ in_window d i x y) -> P x y <> None).
Proof.
  intros Hd. pose proof Hfb as [].
  set (step := fun (row : Z) (om : option (gmap Z Z)) => m ← om; row_loop _ fb d row _ 0 m).
  assert (HI : exists m', for_range 0 (fb_height fb) step (Some m) = Some m' /\
    exists P, draws fb m m' P /\ (forall x y, fb_height fb <= y -> P x y = None) /\ forall x y, on_fb fb x y -> y < fb_height fb ->
      (P x y = None \/ P x y = Some (gradient_color fb d y)) /\ ((forall i, ~ in_window d i x y) -> P x y <> None)).
  { apply (for_range_ind (fun k om => exists m', om = Some m' /\
      exists P, draws fb m m' P /\ (forall x y, k <= y -> P x y = None) /\ forall x y, on_fb fb x y -> y < k ->
      (P x y = None \/ P x y = Some (gradient_color fb d y)) /\ ((forall i, ~ in_window d i x y) -> P x y <> None))); [lia| |].
    - exists m. split; [done|]. exists blank. split_and!; [apply draws_refl|done|]. intros x y [? ?]. lia.
    - intros row om Hrow (m1 & -> & P & D1 & Hnone & Hold). unfold step. cbn [mbind option_bind].
      destruct (row_loop_done d row (gradient_color fb d row) (S (Z.to_nat (fb_width fb))) Hd Hrow 0 m1) as (m2 & E2 & Q & D2 & Hc & Hall); [lia|lia|].
      exists m2. split; [done|]. exists (over Q P). split_and!; [by eapply draws_trans| |].
      + intros x y Hy. unfold over. destruct (Hc x y) as [->|[-> _]]; [apply Hnone; lia|lia].
      + intros x y [Hx Hy] Hlt. unfold over. destruct (Hc x y) as [EQ|[-> EQ]].
        * rewrite EQ. destruct (decide (y = row)) as [->|]; [|apply Hold; [done|lia]]. rewrite (Hnone x row) by lia.
          split; [by left|]. intros Hno. exfalso. by apply (Hall x).
        * rewrite EQ. split; [by right|done]. }
  destruct HI as (m' & E & P & D & _ & HP). exists m'. split; [done|]. exists P. split; [done|].
  intros x y Hxy. apply HP; [done|apply Hxy].
Qed.

(** ** Windows over the gradient *)

Lemma windows_draws m0 d m :
  scene_ok d -> same_off fb m0 m ->
  exists m', z_loop WINDOW_FUEL d (fun i w => gui_draw_window fb d i w) 0 m = Some m' /\ draws fb m m' (windows_paint m0 d).
Proof.
  intros Hd Hs. eexists. split; [apply stack_order_drawn, Hd|].
  apply (foldl_draws fb Hfb (fun i m => gui_draw_window fb d i (win_at d i) m) _ m0); [done|].
  intros i m1 Hi Hs1. apply draw_window_draws; [done| |done]. by apply stack_win_ok.
Qed.

Lemma windows_clipped_draws m0 d c m :
  scene_ok d -> clip_in fb c -> same_off fb m0 m ->
  exists m', z_loop WINDOW_FUEL d (fun i w m =>
      if (i32 (u32 (w_x w + w_w w)) >? cx0 c) && (i32 (w_x w) <? cx1 c) &&
         (i32 (u32 (w_y w + w_h w)) >? cy0 c) && (i32 (w_y w) <? cy1 c)
      then gui_draw_window_clipped fb d i w c m else m) 0 m = Some m' /\
    draws fb m m' (clip_paint c (windows_paint m0 d)).
Proof.
  intros Hd Hc Hs. eexists. split; [apply stack_order_drawn, Hd|]. cbv beta.
  eapply draws_ext; [|apply (foldl_draws fb Hfb (fun i m =>
    if (i32 (u32 (w_x (win_at d i) + w_w (win_at d i))) >? cx0 c) && (i32 (w_x (win_at d i)) <? cx1 c) &&
       (i32 (u32 (w_y (win_at d i) + w_h (win_at d i))) >? cy0 c) && (i32 (w_y (win_at d i)) <? cy1 c)
    then gui_draw_window_clipped fb d i (win_at d i) c m else m)
    (fun i => clip_paint c (win_paint m0 d i (win_at d i))) m0); [done|]].
  - intros x y _. unfold windows_paint, clip_paint. destruct (in_clip c x y) eqn:E.
    + induction (stack_order d) as [|i l IH] using rev_ind; [done|]. rewrite !stack_snoc. unfold over. by rewrite E, IH.
    + apply stack_none. intros i _. by rewrite E.
  - intros i m1 Hi Hs1. pose proof (stack_win_ok d i Hd Hi) as Hw.
    destruct (_ && _) eqn:Hg; [by apply draw_window_clipped_draws|]. apply clip_blank. intros x y Hxy _.
    destruct (win_paint m0 d i (win_at d i) x y) eqn:E; [|done]. exfalso.
    assert (Hp := win_paint_in fb Hfb m0 d i (win_at d i) Hw x y ltac:(congruence)).
    destruct Hw. pose proof Hfb as []. rewrite !u32_id, !i32_id in Hg by lia. unfold in_clip in Hxy. b2p.
    destruct Hg as [Hg|?]; b2p; [destruct Hg as [Hg|?]; b2p; [destruct Hg; b2p; lia|lia]|lia].
Qed.

(** A visible window paints its whole rectangle when the bar of an owner-drawn
    window has a title. *)
Definition bar_titled (w : gui_window) : Prop :=
  w_owner_drawn w = true -> w_backing w <> 0 -> w_title_h w > 0 -> byte_at (w_title w) 0 <> 0.

Lemma over_covers g f x y : g x y <> None \/ f x y <> None -> over g f x y <> None.
Proof. unfold over. destruct (g x y); [done|]. by intros [?|?]. Qed.

Lemma framed_covers w border f x y : f x y <> None -> framed w border f x y <> None.
Proof.
  intros Hf. unfold framed. cbv zeta. destruct (w_h w >? 1), (w_h w >? 2), (w_w w >? 1); repeat (apply over_covers; right); done.
Qed.

Lemma win_paint_covers m d i x y :
  scene_ok d -> in_window d i x y -> bar_titled (win_at d i) -> win_paint m d i (win_at d i) x y <> None.
Proof.
  intros Hd (Hi & Hv & Hx & Hy) Ht. pose proof (so_win _ Hd i Hi Hv) as Hw. set (w := win_at d i) in *.
  pose proof (content_h_eq fb w Hw) as Ech. destruct Hw. unfold visible in Hv. fold w in Hv. b2p.
  unfold win_paint. rewrite H, H0. cbn [negb orb].
  destruct (w_owner_drawn w && negb (w_backing w =? 0)) eqn:Ed.
  - apply over_covers. b2p. destruct (Z_lt_ge_dec y (w_y w + w_title_h w)).
    + left. unfold title_paint. rewrite (proj2 (Z.eqb_neq (w_title_h w) 0)), (proj2 (Z.eqb_neq (byte_at _ _) 0)) by (lia || (apply Ht; [done..|lia])).
      cbn [orb]. cbv zeta. do 3 (apply over_covers; right). unfold bar_paint. do 2 (apply over_covers; right).
      unfold rect_paint. px_cases.
    + right. apply framed_covers. unfold inner_paint. rewrite H1, (proj2 (Z.eqb_neq (w_backing w) 0)) by done.
      cbn [negb andb]. unfold blit_paint. px_cases.
  - apply over_covers. right. apply framed_covers. unfold inner_paint. rewrite Ed.
    destruct ((w_w w >? 2) && (w_h w >? 2)); [apply over_covers; right|]; unfold rect_paint; px_cases.
Qed.

Lemma windows_paint_covers m d i x y :
  scene_ok d -> in_window d i x y -> bar_titled (win_at d i) -> windows_paint m d x y <> None.
Proof.
  intros Hd Hw Ht. assert (Hi : i ∈ stack_order d) by (apply stack_order_elem; split; apply Hw).
  pose proof (win_paint_covers m d i x y Hd Hw Ht) as Hp. unfold windows_paint.
  induction (stack_order d) as [|j l IH] using rev_ind; [by apply not_elem_of_nil in Hi|]. rewrite stack_snoc.
  apply over_covers. apply elem_of_app in Hi as [Hi|Hi%list_elem_of_singleton]; [right; auto|left; by subst].
Qed.

Lemma cursor_paint_draws d m :
  scene_ok d -> draws fb m (if c_visible (d_cursor d) then draw_cursor_of fb d m else m) (cursor_paint d).
Proof. intros Hd. unfold cursor_paint. destruct (c_visible _); [by apply cursor_draws|apply draws_refl]. Qed.

Lemma draw_full_scene d m :
  scene_ok d -> (forall i, 0 <= i < GUI_MAX_WINDOWS -> visible d i = true -> bar_titled (win_at d i)) ->
  exists m', draw_full fb d m = Some m' /\ same_off fb m m' /\ forall x y, on_fb fb x y -> rd32 m' (px_addr fb x y) = scene_color m d x y.
Proof.
  intros Hd Ht. unfold draw_full.
  destruct (rows_done d m Hd) as (m1 & E1 & P & D1 & HP). rewrite (bind_eq _ _ _ E1).
  assert (S1 : same_off fb m m1) by (by eapply draws_same_off).
  destruct (windows_draws m d m1 Hd S1) as (m2 & E2 & D2). rewrite (bind_eq _ _ _ E2).
  pose proof (draws_trans fb _ _ _ _ _ (draws_trans fb _ _ _ _ _ D1 D2) (cursor_paint_draws d m2 Hd)) as D3.
  eexists. split; [reflexivity|]. split; [by eapply draws_same_off; [|exact D3]|].
  intros x y Hxy. rewrite (dr_in _ _ _ _ D3) by done. unfold scene_color, over.
  destruct (cursor_paint d x y); [done|]. destruct (windows_paint m d x y) eqn:Ew; [done|].
  destruct (HP x y Hxy) as [[->| ->] Hall]; [|done]. exfalso. apply Hall; [|done].
  intros i Hi. apply (windows_paint_covers m d i x y Hd Hi) in Ew; [done|]. apply Ht; apply Hi.
Qed.

(** * Partial redraws *)

Definition in_rect (r : damage_rect) (x y : Z) : bool :=
  (r_x r <=? x) && (x <? r_x r + r_w r) && (r_y r <=? y) && (y <? r_y r + r_h r).

Lemma damage_clip_in r : clip_in fb (damage_clip fb r) /\ forall x y, on_fb fb x y -> in_clip (damage_clip fb r) x y = in_rect r x y.
Proof.
  pose proof Hfb as []. unfold damage_clip. cbn [clip_bounds cx0 cy0 cx1 cy1]. rewrite !i32_id by lia. split.
  - split; cbn [cx0 cy0 cx1 cy1]; destruct (Z.ltb_spec (r_x r) 0), (Z.ltb_spec (r_y r) 0), (Z.gtb_spec (r_x r + r_w r) (fb_width fb)),
      (Z.gtb_spec (r_y r + r_h r) (fb_height fb)); lia.
  - intros x y [? ?]. unfold in_clip, in_rect. cbn [cx0 cy0 cx1 cy1].
    destruct (Z.ltb_spec (r_x r) 0), (Z.ltb_spec (r_y r) 0), (Z.gtb_spec (r_x r + r_w r) (fb_width fb)),
      (Z.gtb_spec (r_y r + r_h r) (fb_height fb)); px_cases.
Qed.

(** The gradient rows of a clip. *)
Lemma clip_rows_draws d c m :
  clip_in fb c ->
  draws fb m (for_range (cy0 c) (cy1 c) (fun row m =>
      fb_fillrect fb (u32 (cx0 c)) (u32 row) (u32 (cx1 c - cx0 c)) 1 (gradient_color fb d row) m) m)
    (clip_paint c (fun _ y => Some (gradient_color fb d y))) \/ cx1 c <= cx0 c.
Proof.
  intros [? ? ? ?]. pose proof Hfb as []. destruct (Z_le_gt_dec (cx1 c) (cx0 c)); [by right|left].
  eapply draws_ext; [|apply (for_range_draws fb Hfb (cy0 c) (cy1 c) _
    (fun row => rect_paint (cx0 c) row (cx1 c - cx0 c) 1 (gradient_color fb d row)))].
  - intros x y _. unfold clip_paint. destruct (in_clip c x y) eqn:E.
    + unfold in_clip in E. b2p. apply (stack_one _ _ y); [apply elem_of_seqZ; lia| |].
      * generalize (gradient_color fb d y). intros color. unfold rect_paint. px_cases.
      * intros j _ Hj. generalize (gradient_color fb d j). intros color. unfold rect_paint. px_cases.
    + apply stack_none. intros row Hrow%elem_of_seqZ. generalize (gradient_color fb d row). intros color.
      unfold in_clip in E. unfold rect_paint. revert E. px_cases.
  - intros row m1 Hrow. rewrite !u32_id by lia. apply fillrect_draws; [done|lia..].
Qed.

(** The test on the cursor of one damage rectangle. *)
Definition cursor_near (d : gui_desktop) (c : clip) : bool :=
  let x := c_x (d_cursor d) in let y := c_y (d_cursor d) in
  (x + GUI_CURSOR_W >? cx0 c) && (x <? cx1 c) && (y + GUI_CURSOR_H >? cy0 c) && (y <? cy1 c).

Lemma cursor_far d c x y : cursor_near d c = false -> in_clip c x y = true -> cursor_dots d x y = None.
Proof.
  intros Hn Hc. unfold cursor_dots. cbv zeta. destruct (_ && negb _) eqn:E; [|done]. exfalso. b2p.
  unfold cursor_near in Hn. unfold in_clip in Hc. b2p.
  destruct Hn as [Hn|?]; b2p; [destruct Hn as [Hn|?]; b2p; [destruct Hn; b2p; lia|lia]|lia].
Qed.

Lemma draw_damage_draws m0 d r m :
  scene_ok d -> same_off fb m0 m ->
  exists m', draw_damage fb d r m = Some m' /\ same_off fb m0 m' /\ forall x y, on_fb fb x y ->
    (in_rect r x y = true -> rd32 m' (px_addr fb x y) = scene_color m0 d x y) /\
    (in_rect r x y = false -> rd32 m' (px_addr fb x y) = rd32 m (px_addr fb x y) \/ rd32 m' (px_addr fb x y) = scene_color m0 d x y).
Proof.
  intros Hd Hs. destruct (damage_clip_in r) as [Hc Hin]. unfold draw_damage. set (c := damage_clip fb r) in *.
  destruct ((cx1 c <=? cx0 c) || (cy1 c <=? cy0 c)) eqn:Hg.
  { exists m. split_and!; [done..|]. intros x y Hxy. split; [|by left]. intros Hr. exfalso.
    rewrite <- Hin in Hr by done. unfold in_clip in Hr. b2p. destruct Hg; b2p; lia. }
  b2p. destruct (clip_rows_draws d c m Hc) as [D1|]; [|lia]. set (m1 := for_range (cy0 c) (cy1 c) _ m) in *.
  assert (S1 : same_off fb m0 m1) by (by eapply draws_same_off).
  destruct (windows_clipped_draws m0 d c m1 Hd Hc S1) as (m2 & E2 & D2). rewrite (bind_eq _ _ _ E2).
  fold (cursor_near d c). pose proof (clip_then fb c _ _ _ _ _ D1 D2) as D12.
  assert (D3 : draws fb m2 (if c_visible (d_cursor d) && cursor_near d c then draw_cursor_of fb d m2 else m2)
    (if cursor_near d c then cursor_paint d else blank)).
  { unfold cursor_paint. destruct (c_visible _), (cursor_near d c); cbn [andb]; try apply draws_refl. by apply cursor_draws. }
  pose proof (draws_trans fb _ _ _ _ _ D12 D3) as D. eexists. split; [reflexivity|].
  split; [eapply draws_same_off; [exact Hs|exact D]|].
  intros x y Hxy. rewrite (dr_in _ _ _ _ D) by done. rewrite <- Hin by done. unfold scene_color, over, clip_paint. split.
  - intros Hcl. rewrite Hcl. destruct (cursor_near d c) eqn:En.
    + destruct (cursor_paint d x y); [done|]. by destruct (windows_paint m0 d x y).
    + assert (cursor_paint d x y = None) as ->.
      { unfold cursor_paint. destruct (c_visible _); [by eapply cursor_far|done]. }
      unfold blank. by destruct (windows_paint m0 d x y).
  - intros Hcl. rewrite Hcl. destruct (cursor_near d c); [|by left]. destruct (cursor_paint d x y); [by right|by left].
Qed.
End Scene.

(** C20: a full redraw shows the scene.  For a drawable desktop whose
    owner-drawn windows with a title bar have a title, gui_draw with the full
    damage flag ends, changes no memory outside the framebuffer, and leaves
    every pixel of the screen with the colour the scene gives it: cursor, then
    the highest visible window that paints there, then the gradient. *)
Theorem full_redraw_scene fb d m :
  fb_ok fb -> scene_ok fb d -> d_fb d = Some fb -> d_damage_full d = true ->
  (forall i, 0 <= i < GUI_MAX_WINDOWS -> visible d i = true -> bar_titled (win_at d i)) ->
  exists m', gui_draw d m = Some m' /\ (forall a, off_fb fb a -> rd32 m' a = rd32 m a) /\
    forall x y, on_fb fb x y -> rd32 m' (px_addr fb x y) = scene_color fb m d x y.
Proof. intros Hfb Hd Ed Ef Ht. unfold gui_draw. rewrite Ed, Ef. by apply draw_full_scene. Qed.

Lemma damage_fold fb d m0 : fb_ok fb -> scene_ok fb d -> forall rects m,
  same_off fb m0 m ->
  (forall x y, on_fb fb x y -> (forall r, r ∈ rects -> in_rect r x y = false) -> rd32 m (px_addr fb x y) = scene_color fb m0 d x y) ->
  exists m', foldl (fun om r => m ← om; draw_damage fb d r m) (Some m) rects = Some m' /\ same_off fb m0 m' /\
    forall x y, on_fb fb x y -> rd32 m' (px_addr fb x y) = scene_color fb m0 d x y.
Proof.
  intros Hfb Hd. induction rects as [|r rects IH]; intros m Hs Hok.
  { exists m. split_and!; [done..|]. intros x y Hxy. apply Hok; [done|]. intros r Hr. by apply not_elem_of_nil in Hr. }
  cbn [foldl]. destruct (draw_damage_draws fb Hfb m0 d r m Hd Hs) as (m1 & E & Hs1 & H1).
  rewrite (bind_eq _ _ m eq_refl), E. apply IH; [done|]. intros x y Hxy Hno. destruct (H1 x y Hxy) as [Hin Hout].
  destruct (in_rect r x y) eqn:Er; [by apply Hin|]. destruct (Hout eq_refl) as [->|]; [|done].
  apply Hok; [done|]. intros r' [->|Hr']%elem_of_cons; [done|by apply Hno].
Qed.

(** A desktop whose whole screen is damaged. *)
Definition all_damaged (d : gui_desktop) : gui_desktop := set_damage d [] true.

Lemma all_damaged_ok fb d : scene_ok fb d -> scene_ok fb (all_damaged d).
Proof. intros [H1 [H2 H3] H4 H5]. split; [exact H1|split; [exact H2|exact H3]|exact H4|exact H5]. Qed.

(** C21: a partial redraw repairs the screen.  The desktop is drawable
    ([scene_ok]: among others, the title of every window with a bar fits on one
    line of the bar), and every owner-drawn window with a bar has a title.  Then,
    when the pixels outside the damage list are those a full redraw from this
    state would give, gui_draw without the full flag ends with the picture of
    that full redraw on the whole screen; neither changes memory outside the
    framebuffer. *)
Theorem partial_redraw_repairs fb d m :
  fb_ok fb -> scene_ok fb d -> d_fb d = Some fb -> d_damage_full d = false ->
  (forall i, 0 <= i < GUI_MAX_WINDOWS -> visible d i = true -> bar_titled (win_at d i)) ->
  exists mf, gui_draw (all_damaged d) m = Some mf /\ (forall a, off_fb fb a -> rd32 mf a = rd32 m a) /\
    ((forall x y, on_fb fb x y -> (forall r, r ∈ d_damage d -> in_rect r x y = false) ->
        rd32 m (px_addr fb x y) = rd32 mf (px_addr fb x y)) ->
     exists mp, gui_draw d m = Some mp /\ (forall a, off_fb fb a -> rd32 mp a = rd32 m a) /\
       forall x y, on_fb fb x y -> rd32 mp (px_addr fb x y) = rd32 mf (px_addr fb x y)).
Proof.
  intros Hfb Hd Ed Ef Ht. destruct (draw_full_scene fb Hfb (all_damaged d) m (all_damaged_ok fb d Hd) Ht) as (mf & Emf & Sf & Hf).
  exists mf. unfold gui_draw at 1. cbn [all_damaged set_damage d_fb d_damage_full]. rewrite Ed. split; [exact Emf|]. split; [exact Sf|].
  intros Hok. destruct (damage_fold fb d m Hfb Hd (d_damage d) m) as (mp & Emp & Sp & Hp); [done| |].
  { intros x y Hxy Hno. rewrite Hok by done. exact (Hf x y Hxy). }
  exists mp. unfold gui_draw. rewrite Ed, Ef. split; [exact Emp|]. split; [exact Sp|].
  intros x y Hxy. rewrite Hp, Hf by done. reflexivity.
Qed.

(** * A concrete desktop *)

Definition demo_fb : fb_t := Fb 0x10000 40 24 40.

(** A titled window at (4, 2) under a smaller one at (16, 8). *)
Definition demo_low : gui_window :=
  Window 4 2 24 18 0xff203040 0xff808080 1 1 0 10 ([104; 105] ++ replicate 30 0) (replicate 32 no_event) 0 0 0 true false false 0 0 no_regions.
Definition demo_high : gui_window :=
  Window 16 8 20 12 0xff405060 0xff909090 1 2 0 0 no_title (replicate 32 no_event) 0 0 0 true false false 0 0 no_regions.

Definition demo_desktop (rects : list damage_rect) (full : bool) : gui_desktop :=
  Desktop (Some demo_fb) 0xff202428 1 3 GUI_NO_WINDOW 0 0
    (demo_low :: demo_high :: replicate 14 empty_window) (Cursor 20 12 20 12 0 true GUI_CURSOR_ARROW) rects full.

Lemma demo_fb_ok : fb_ok demo_fb.
Proof. split; cbn; lia. Qed.

Lemma demo_windows rects full i :
  0 <= i < GUI_MAX_WINDOWS -> visible (demo_desktop rects full) i = true ->
  (i = 0 /\ win_at (demo_desktop rects full) i = demo_low) \/ (i = 1 /\ win_at (demo_desktop rects full) i = demo_high).
Proof.
  intros Hi Hv. destruct (decide (i = 0)) as [->|]; [by left|]. destruct (decide (i = 1)) as [->|]; [by right|]. exfalso.
  unfold visible, win_at in Hv. cbn [demo_desktop d_windows] in Hv.
  replace (Z.to_nat i) with (S (S (Z.to_nat (i - 2)))) in Hv by lia.
  change ((demo_low :: demo_high :: replicate 14 empty_window) !! S (S (Z.to_nat (i - 2))))
    with (replicate 14 empty_window !! Z.to_nat (i - 2)) in Hv.
  rewrite lookup_replicate_2 in Hv by (unfold GUI_MAX_WINDOWS in Hi; lia). cbn in Hv. discriminate.
Qed.

Lemma demo_scene_ok rects full : scene_ok demo_fb (demo_desktop rects full).
Proof.
  split; [| |cbn; lia|cbn; lia].
  - intros i Hi Hv. destruct (demo_windows rects full i Hi Hv) as [[-> ->]|[-> ->]]; split; cbn; try lia; try done.
    intros _. repeat constructor; discriminate.
  - split.
    + intros i Hi Hv. destruct (demo_windows rects full i Hi Hv) as [[-> ->]|[-> ->]]; cbn; unfold UINT32_MAX; lia.
    + intros i j Hi Hj Hvi Hvj. destruct (demo_windows rects full i Hi Hvi) as [[-> ->]|[-> ->]],
        (demo_windows rects full j Hj Hvj) as [[-> ->]|[-> ->]]; cbn; lia.
Qed.

Lemma full_redraw_scene_witness :
  exists m', gui_draw (demo_desktop [] true) ∅ = Some m' /\
    forall x y, on_fb demo_fb x y -> rd32 m' (px_addr demo_fb x y) = scene_color demo_fb ∅ (demo_desktop [] true) x y.
Proof.
  destruct (full_redraw_scene demo_fb (demo_desktop [] true) ∅ demo_fb_ok (demo_scene_ok [] true) eq_refl eq_refl) as (m' & E & _ & Hs).
  - intros i Hi Hv. destruct (demo_windows [] true i Hi Hv) as [[-> ->]|[-> ->]]; intros Hd; discriminate Hd.
  - exists m'. split; [exact E|exact Hs].
Defined.

(** Two rectangles that cover the screen: nothing is assumed of it. *)
Definition demo_halves : list damage_rect := [DamageRect 0 0 20 24; DamageRect 20 0 20 24].

Lemma partial_redraw_repairs_witness :
  exists mf mp, gui_draw (all_damaged (demo_desktop demo_halves false)) ∅ = Some mf /\ gui_draw (demo_desktop demo_halves false) ∅ = Some mp /\
    forall x y, on_fb demo_fb x y -> rd32 mp (px_addr demo_fb x y) = rd32 mf (px_addr demo_fb x y).
Proof.
  destruct (partial_redraw_repairs demo_fb (demo_desktop demo_halves false) ∅ demo_fb_ok (demo_scene_ok _ _) eq_refl eq_refl)
    as (mf & Ef & _ & Hp).
  - intros i Hi Hv. destruct (demo_windows _ _ i Hi Hv) as [[-> ->]|[-> ->]]; intros Hd; discriminate Hd.
  - destruct Hp as (mp & Ep & _ & Hs).
    + intros x y [Hx Hy] Hno. exfalso. clear -Hx Hy Hno. cbn in Hx, Hy.
      assert (H1 := Hno (DamageRect 0 0 20 24) ltac:(by left)). assert (H2 := Hno (DamageRect 20 0 20 24) ltac:(right; by left)).
      unfold in_rect in H1, H2. cbn [r_x r_y r_w r_h] in H1, H2. revert H1 H2. px_cases.
    + exists mf, mp. split; [exact Ef|]. split; [exact Ep|exact Hs].
Defined.

(** What the condition on titles excludes: an owner-drawn window whose bar has
    no title.  A full redraw leaves the old pixels in the bar, a partial one
    paints the gradient there. *)
Definition untitled : gui_window :=
  Window 4 2 8 8 0xff203040 0xff808080 1 1 0 4 no_title (replicate 32 no_event) 0 0 0 true true false 0x40000 32 no_regions.

Definition untitled_desktop (full : bool) : gui_desktop :=
  Desktop (Some demo_fb) 0xff202428 0 2 GUI_NO_WINDOW 0 0 (untitled :: replicate 15 empty_window)
    (Cursor 20 12 20 12 0 false GUI_CURSOR_ARROW) [DamageRect 0 0 40 24] full.

Lemma untitled_bar_disagrees :
  let old := <[px_addr demo_fb 6 3 := 0x123456]> (∅ : gmap Z Z) in
  (fun m => rd32 m (px_addr demo_fb 6 3)) <$> gui_draw (untitled_desktop true) old = Some 0x123456 /\
  (fun m => rd32 m (px_addr demo_fb 6 3)) <$> gui_draw (untitled_desktop false) old = Some (gradient_color demo_fb (untitled_desktop false) 3).
Proof. split; vm_compute; reflexivity. Qed.
