(* ===== verification/GuiState.v ===== *)
(** The state of the window system: event queues, the damage list, and the
    invariant of the desktop under every entry point.

    The event queue of a window is a bounded queue in which consecutive mouse
    moves are merged.  The damage list covers everything it was told about.
    The invariant relates the windows to the screen, to the drawing order and
    to the kernel heap: each backing buffer is an allocation of exactly one
    window, and the window system holds no other allocation. *)

From S2P Require Import Prelude.
From S2P Require Import Bytes.
From S2P Require Import ProcessRegions.
From S2P Require Import Input.
From S2P Require Import Framebuffer.
From S2P Require Import Gui.
From S2P Require Import GuiDraw.
From S2P Require Import GuiPaint.
From S2P Require Import GuiScene.
Open Scope arm.

(** * Event queues *)

Definition ring_of (w : gui_window) : Prop :=
  ring_ok GUI_EVENT_QUEUE_SIZE (w_events w) (w_event_head w) (w_event_tail w) (w_event_count w).

(** The queued events, oldest first. *)
Definition queue (w : gui_window) : list gui_event :=
  ring_list no_event GUI_EVENT_QUEUE_SIZE (w_events w) (w_event_head w) (w_event_count w).

Definition is_move (e : gui_event) : bool := ev_type e =? GUI_EVENT_MOUSE_MOVE.

(** The abstract queue: a mouse move replaces a mouse move that is still last,
    and is dropped when the queue is full; any other event pushes out the
    oldest one when the queue is full. *)
Definition enqueue (q : list gui_event) (e : gui_event) : list gui_event :=
  if is_move e && match last q with Some l => is_move l | None => false end then removelast q ++ [e] else
  if Z.of_nat (length q) <? GUI_EVENT_QUEUE_SIZE then q ++ [e] else
  if is_move e then q else tail q ++ [e].

Lemma u32_wrap i : 0 <= i < GUI_EVENT_QUEUE_SIZE -> u32 (i + 1) mod GUI_EVENT_QUEUE_SIZE = (i + 1) mod GUI_EVENT_QUEUE_SIZE.
Proof. unfold GUI_EVENT_QUEUE_SIZE. intros. by rewrite u32_id by lia. Qed.

Lemma ring_tail_range w : ring_of w -> 0 <= w_event_tail w < GUI_EVENT_QUEUE_SIZE.
Proof. intros []. rewrite rk_tail. by apply Z.mod_pos_bound. Qed.

Lemma queue_length w : ring_of w -> Z.of_nat (length (queue w)) = w_event_count w.
Proof. intros Hr. unfold queue. rewrite (ring_length _ _ _ _ _ _ Hr). destruct Hr. lia. Qed.

(** A non-empty queue ends with the slot before the tail. *)
Lemma queue_last w :
  ring_of w -> 0 < w_event_count w ->
  let prev := if w_event_tail w =? 0 then GUI_EVENT_QUEUE_SIZE - 1 else w_event_tail w - 1 in
  let l := default no_event (w_events w !! Z.to_nat prev) in
  exists q, queue w = q ++ [l] /\
    forall e, ring_of (set_ring w (<[Z.to_nat prev := e]> (w_events w)) (w_event_head w) (w_event_tail w) (w_event_count w)) /\
      queue (set_ring w (<[Z.to_nat prev := e]> (w_events w)) (w_event_head w) (w_event_tail w) (w_event_count w)) = q ++ [e].
Proof.
  intros Hr Hc. cbv zeta.
  set (prev := if w_event_tail w =? 0 then _ else _). set (l := default no_event (w_events w !! Z.to_nat prev)).
  pose proof (fun e => ring_set_last no_event GUI_EVENT_QUEUE_SIZE (w_events w) (w_event_head w) (w_event_tail w) (w_event_count w) e Hr Hc) as Hset.
  exists (ring_list no_event GUI_EVENT_QUEUE_SIZE (w_events w) (w_event_head w) (w_event_count w - 1)). split.
  - destruct (Hset l) as (El & _ & Eq). fold prev in El, Eq. fold l in El. unfold queue. unfold ring_list.
    replace (w_event_count w) with (w_event_count w - 1 + 1) at 1 by lia. rewrite seqZ_snoc, fmap_app by (destruct Hr; lia).
    f_equal. cbn. by rewrite El.
  - intros e. destruct (Hset e) as (_ & Hok & Eq). split; [exact Hok|exact Eq].
Qed.

Lemma push_event_queue w type data1 data2 :
  ring_of w -> w_used w = true ->
  let '(status, w') := gui_window_push_event w type data1 data2 in
  status = 0 /\ ring_of w' /\ queue w' = enqueue (queue w) (GuiEvent type data1 data2) /\
  exists ev h t c, w' = set_ring w ev h t c.
Proof.
  intros Hr Hu. pose proof (queue_length w Hr) as Hl. pose proof (ring_tail_range w Hr) as Ht.
  unfold gui_window_push_event, enqueue. rewrite Hu. cbn [negb]. change (is_move (GuiEvent type data1 data2)) with (type =? GUI_EVENT_MOUSE_MOVE).
  set (prev := if w_event_tail w =? 0 then _ else _). set (l := default no_event (w_events w !! Z.to_nat prev)).
  assert (Hlast : 0 < w_event_count w -> last (queue w) = Some l).
  { intros Hc. destruct (queue_last w Hr Hc) as (q & Eq & _). fold prev l in Eq. by rewrite Eq, last_snoc. }
  destruct ((type =? GUI_EVENT_MOUSE_MOVE) && (w_event_count w >? 0) && (ev_type l =? GUI_EVENT_MOUSE_MOVE)) eqn:Hm.
  { b2p. subst type. destruct (queue_last w Hr ltac:(lia)) as (q & Eq & Hset). fold prev l in Eq, Hset.
    destruct (Hset (GuiEvent GUI_EVENT_MOUSE_MOVE data1 data2)) as [Hs1 Hs2]. split_and!; [done|done| |by eexists _, _, _, _].
    rewrite Hs2, Hlast by lia. unfold is_move. rewrite Z.eqb_refl. rewrite (proj2 (Z.eqb_eq _ _)) by done.
    cbn [andb]. by rewrite Eq, removelast_last. }
  assert (Hno : (type =? GUI_EVENT_MOUSE_MOVE) && match last (queue w) with Some l => is_move l | None => false end = false).
  { destruct (type =? GUI_EVENT_MOUSE_MOVE); [|done]. cbn [andb] in *. destruct (Z.gtb_spec (w_event_count w) 0).
    - rewrite Hlast by lia. cbn [andb] in Hm. exact Hm.
    - assert (Hn : queue w = []) by (apply nil_length_inv; lia). by rewrite Hn. }
  rewrite Hno, Hl. clear Hno Hm Hlast. pose proof Hr as [].
  destruct (Z.geb_spec (w_event_count w) GUI_EVENT_QUEUE_SIZE) as [Hfull|Hroom]; cbn [andb].
  - destruct (Z.ltb_spec (w_event_count w) GUI_EVENT_QUEUE_SIZE); [lia|].
    destruct (type =? GUI_EVENT_MOUSE_MOVE).
    { split_and!; [done|done|done|]. exists (w_events w), (w_event_head w), (w_event_tail w), (w_event_count w). by destruct w. }
    destruct (ring_pop no_event _ _ _ _ _ Hr ltac:(lia)) as [Hr1 E1].
    destruct (ring_push no_event _ _ _ _ _ (GuiEvent type data1 data2) Hr1 ltac:(lia)) as [Hr2 E2].
    unfold GUI_EVENT_QUEUE_SIZE in *. rewrite (u32_id (w_event_count w - 1)), (u32_id (w_event_count w - 1 + 1)) by lia.
    rewrite (u32_id (w_event_tail w + 1)), (u32_id (w_event_head w + 1)) by lia.
    split_and!; [done|exact Hr2| |by eexists _, _, _, _]. unfold queue, GUI_EVENT_QUEUE_SIZE. etransitivity; [exact E2|]. by rewrite E1.
  - destruct (Z.ltb_spec (w_event_count w) GUI_EVENT_QUEUE_SIZE); [|lia].
    destruct (ring_push no_event _ _ _ _ _ (GuiEvent type data1 data2) Hr Hroom) as [Hr2 E2].
    unfold GUI_EVENT_QUEUE_SIZE in *. rewrite (u32_id (w_event_tail w + 1)), (u32_id (w_event_count w + 1)) by lia.
    split_and!; [done|exact Hr2|exact E2|by eexists _, _, _, _].
Qed.

Lemma pop_event_queue w :
  ring_of w -> w_used w = true ->
  let '(e, w') := gui_window_pop_event w in
  ring_of w' /\ (exists ev h t c, w' = set_ring w ev h t c) /\
  match e with Some e => queue w = e :: queue w' | None => queue w = [] /\ w' = w end.
Proof.
  intros Hr Hu. pose proof (queue_length w Hr) as Hl. unfold gui_window_pop_event. rewrite Hu. cbn [negb].
  destruct (Z.eqb_spec (w_event_count w) 0).
  { split_and!; [done| |apply nil_length_inv; lia|done]. exists (w_events w), (w_event_head w), (w_event_tail w), (w_event_count w). by destruct w. }
  pose proof Hr as []. destruct (ring_pop no_event _ _ _ _ _ Hr ltac:(lia)) as [Hr1 E1].
  unfold GUI_EVENT_QUEUE_SIZE in *. rewrite !u32_id by lia. split_and!; [exact Hr1|by eexists _, _, _, _|].
  unfold queue. etransitivity; [exact E1|]. f_equal. unfold ring_at. rewrite Z.add_0_r, Z.mod_small by done. done.
Qed.

(** Calls on one window's queue, with the answers they give. *)
Inductive queue_call := QPush (type data1 data2 : Z) | QPop.

Definition run_queue_call (w : gui_window) (c : queue_call) : option gui_event * gui_window :=
  match c with
  | QPush type data1 data2 => (None, snd (gui_window_push_event w type data1 data2))
  | QPop => gui_window_pop_event w
  end.

Definition spec_queue_call (q : list gui_event) (c : queue_call) : option gui_event * list gui_event :=
  match c with
  | QPush type data1 data2 => (None, enqueue q (GuiEvent type data1 data2))
  | QPop => (head q, tail q)
  end.

Fixpoint answers {S} (step : S -> queue_call -> option gui_event * S) (s : S) (cs : list queue_call) : list (option gui_event) :=
  match cs with [] => [] | c :: cs' => let '(a, s') := step s c in a :: answers step s' cs' end.

(** a window's event queue is a queue of 32 events.  Whatever the sequence
    of pushes and pops on a live window, each call answers as the abstract queue
    does: events come out in the order they went in, a mouse move replaces a
    mouse move that is still the newest event, and on overflow the oldest event
    is lost, or the new one when it is a mouse move. *)
Theorem event_queue_refines w cs :
  ring_of w -> w_used w = true -> answers run_queue_call w cs = answers spec_queue_call (queue w) cs.
Proof.
  revert w. induction cs as [|c cs IH]; intros w Hr Hu; [done|]. cbn [answers].
  destruct c as [type data1 data2|]; cbn [run_queue_call spec_queue_call].
  - pose proof (push_event_queue w type data1 data2 Hr Hu) as Hp. destruct (gui_window_push_event w type data1 data2) as [s w'].
    destruct Hp as (_ & Hr' & <- & (? & ? & ? & ? & ->)). cbn [snd]. f_equal. by apply IH.
  - pose proof (pop_event_queue w Hr Hu) as Hp. destruct (gui_window_pop_event w) as [e w'].
    destruct Hp as (Hr' & Hsame & He). destruct e as [e|].
    + destruct Hsame as (? & ? & ? & ? & ->). rewrite He. cbn [head tail]. f_equal. by apply IH.
    + destruct He as [Hq ->]. rewrite IH, Hq by done. done.
Qed.

Lemma event_queue_refines_witness :
  answers run_queue_call demo_low [QPush 1 65 0; QPush 4 1 1; QPush 4 2 2; QPop; QPop; QPop] =
  [None; None; None; Some (GuiEvent 1 65 0); Some (GuiEvent 4 2 2); None].
Proof. rewrite (event_queue_refines demo_low); [reflexivity| |reflexivity].
  split; first [reflexivity|split; [discriminate|first [reflexivity|discriminate]]].
Defined.

(** * The damage list *)

Definition rect_in (fb : fb_t) (r : damage_rect) : Prop :=
  0 <= r_x r /\ 0 <= r_y r /\ 0 < r_w r /\ 0 < r_h r /\ r_x r + r_w r <= fb_width fb /\ r_y r + r_h r <= fb_height fb.

(** The desktop repaints pixel (x, y) on the next redraw. *)
Definition damaged (d : gui_desktop) (x y : Z) : Prop :=
  d_damage_full d = true \/ exists r, r ∈ d_damage d /\ in_rect r x y = true.

Record damage_ok (fb : fb_t) (d : gui_desktop) : Prop := {
  do_in : Forall (rect_in fb) (d_damage d);
  do_count : Z.of_nat (length (d_damage d)) <= GUI_DAMAGE_MAX;
  do_full : d_damage_full d = true -> d_damage d = [] }.

Lemma in_rect_iff r x y : in_rect r x y = true <-> r_x r <= x < r_x r + r_w r /\ r_y r <= y < r_y r + r_h r.
Proof. unfold in_rect. rewrite !andb_true_iff, !Z.leb_le, !Z.ltb_lt. lia. Qed.

Lemma merge_loop_spec fb rects : forall kept x y w h,
  Forall (rect_in fb) rects -> Forall (rect_in fb) kept -> rect_in fb (DamageRect x y w h) ->
  let '(kept', r) := merge_loop rects kept x y w h in
  Forall (rect_in fb) kept' /\ rect_in fb r /\ (length kept' <= length kept + length rects)%nat /\
  forall px py, (in_rect (DamageRect x y w h) px py = true \/ exists r0, (r0 ∈ rects \/ r0 ∈ kept) /\ in_rect r0 px py = true) ->
    in_rect r px py = true \/ exists r0, r0 ∈ kept' /\ in_rect r0 px py = true.
Proof.
  induction rects as [|r rects IH]; intros kept x y w h Hr Hk Hx; cbn [merge_loop].
  { split_and!; [done|done|lia|]. intros px py [?|(r0 & [Hn|?] & ?)]; [by left|by apply not_elem_of_nil in Hn|by right; eauto]. }
  apply Forall_cons in Hr as [Hr0 Hr]. unfold rect_in in Hr0, Hx. cbn [r_x r_y r_w r_h] in Hx.
  destruct (rects_touch x y w h r).
  - set (nx0 := if x <? r_x r then x else r_x r). set (ny0 := if y <? r_y r then y else r_y r).
    set (nx1 := if x + w >? r_x r + r_w r then x + w else r_x r + r_w r).
    set (ny1 := if y + h >? r_y r + r_h r then y + h else r_y r + r_h r).
    assert (E : nx0 = Z.min x (r_x r) /\ ny0 = Z.min y (r_y r) /\ nx1 = Z.max (x + w) (r_x r + r_w r) /\ ny1 = Z.max (y + h) (r_y r + r_h r)).
    { unfold nx0, ny0, nx1, ny1. destruct (Z.ltb_spec x (r_x r)), (Z.ltb_spec y (r_y r)), (Z.gtb_spec (x + w) (r_x r + r_w r)),
        (Z.gtb_spec (y + h) (r_y r + r_h r)); lia. }
    clearbody nx0 ny0 nx1 ny1.
    specialize (IH kept nx0 ny0 (nx1 - nx0) (ny1 - ny0) Hr Hk ltac:(unfold rect_in; cbn [r_x r_y r_w r_h]; lia)).
    destruct (merge_loop rects kept _ _ _ _) as [kept' r']. destruct IH as (I1 & I2 & I3 & I4).
    split_and!; [done|done|cbn [length]; lia|]. intros px py Hp. apply I4. rewrite !in_rect_iff in *. cbn [r_x r_y r_w r_h] in *.
    destruct Hp as [Hp|(r0 & Hin & Hp)]; [left; lia|]. destruct Hin as [[->|Hin]%elem_of_cons|Hin]; [|right; eauto..].
    left. rewrite in_rect_iff in Hp. lia.
  - specialize (IH (kept ++ [r]) x y w h Hr ltac:(apply Forall_app; split; [done|by constructor]) ltac:(unfold rect_in; cbn; lia)).
    destruct (merge_loop rects (kept ++ [r]) x y w h) as [kept' r']. destruct IH as (I1 & I2 & I3 & I4).
    rewrite length_app in I3. cbn [length] in *. split_and!; [done|done|lia|]. intros px py Hp. apply I4.
    destruct Hp as [Hp|(r0 & Hin & Hp)]; [by left|right]. exists r0. split; [|done].
    rewrite elem_of_app, list_elem_of_singleton. destruct Hin as [[->|Hin]%elem_of_cons|Hin]; tauto.
Qed.

Lemma damage_add_spec fb d x y w h :
  d_fb d = Some fb -> fb_ok fb -> damage_ok fb d ->
  let '(d', dirty) := damage_add d x y w h in
  damage_ok fb d' /\ d' = set_damage d (d_damage d') (d_damage_full d') /\
  (forall px py, damaged d px py -> damaged d' px py) /\
  (forall px py, on_fb fb px py -> x <= px < x + w -> y <= py < y + h -> damaged d' px py) /\
  (d' <> d -> dirty = true).
Proof.
  intros Efb Hfb [Hin Hcnt Hfull]. unfold damage_add. rewrite Efb. pose proof Hfb as [].
  assert (Hsame : d = set_damage d (d_damage d) (d_damage_full d)) by (by destruct d).
  assert (Hkeep : d_damage_full d = true \/ (forall px py, on_fb fb px py -> ~ (x <= px < x + w /\ y <= py < y + h)) ->
    damage_ok fb d /\ d = set_damage d (d_damage d) (d_damage_full d) /\
    (forall px py, damaged d px py -> damaged d px py) /\
    (forall px py, on_fb fb px py -> x <= px < x + w -> y <= py < y + h -> damaged d px py) /\ (d <> d -> false = true)).
  { intros Hor. split_and!; [done|done|done| |done]. intros px py Hon Hpx Hpy.
    destruct Hor as [?|Hno]; [by left|]. exfalso. by apply (Hno px py Hon). }
  destruct (d_damage_full d) eqn:Ef in |- *; [by apply Hkeep; left|].
  destruct ((w <=? 0) || (h <=? 0)) eqn:Hwh; [apply Hkeep; right; intros px py _; b2p; destruct Hwh; b2p; lia|]. b2p.
  rewrite !i32_id by lia.
  set (xw := if x <? 0 then (0, w + x) else (x, w)). set (yh := if y <? 0 then (0, h + y) else (y, h)).
  assert (Ex : fst xw = Z.max x 0 /\ fst xw + snd xw = x + w) by (unfold xw; destruct (Z.ltb_spec x 0); cbn; lia).
  assert (Ey : fst yh = Z.max y 0 /\ fst yh + snd yh = y + h) by (unfold yh; destruct (Z.ltb_spec y 0); cbn; lia).
  clearbody xw yh. destruct xw as [x0 w0], yh as [y0 h0]. cbn [fst snd] in *.
  destruct ((x0 >=? fb_width fb) || (y0 >=? fb_height fb)) eqn:Hoff.
  { apply Hkeep. right. intros px py [? ?]. b2p. destruct Hoff; b2p; lia. }
  b2p. set (w1 := if x0 + w0 >? fb_width fb then fb_width fb - x0 else w0).
  set (h1 := if y0 + h0 >? fb_height fb then fb_height fb - y0 else h0).
  assert (Ew : x0 + w1 = Z.min (x + w) (fb_width fb)) by (unfold w1; destruct (Z.gtb_spec (x0 + w0) (fb_width fb)); lia).
  assert (Eh : y0 + h1 = Z.min (y + h) (fb_height fb)) by (unfold h1; destruct (Z.gtb_spec (y0 + h0) (fb_height fb)); lia).
  clearbody w1 h1. destruct ((w1 <=? 0) || (h1 <=? 0)) eqn:Hwh.
  { apply Hkeep. right. intros px py [? ?]. b2p. destruct Hwh; b2p; lia. }
  b2p. assert (Hbig : damage_ok fb (set_damage d [] true) /\
    set_damage d [] true = set_damage d (d_damage (set_damage d [] true)) (d_damage_full (set_damage d [] true)) /\
    (forall px py, damaged d px py -> damaged (set_damage d [] true) px py) /\
    (forall px py, on_fb fb px py -> x <= px < x + w -> y <= py < y + h -> damaged (set_damage d [] true) px py) /\
    (set_damage d [] true <> d -> true = true)).
  { split_and!; [|done|by left|by left|done]. split; [constructor|cbn; unfold GUI_DAMAGE_MAX; lia|done]. }
  destruct (_ && _) in |- *; [exact Hbig|].
  pose proof (merge_loop_spec fb (d_damage d) [] x0 y0 w1 h1 Hin (Forall_nil_2 _) ltac:(unfold rect_in; cbn [r_x r_y r_w r_h]; lia)) as Hm.
  destruct (merge_loop (d_damage d) [] x0 y0 w1 h1) as [kept r]. destruct Hm as (M1 & M2 & M3 & M4).
  destruct (Z.geb_spec (Z.of_nat (length kept)) GUI_DAMAGE_MAX); [exact Hbig|].
  assert (Hcover : forall px py, in_rect r px py = true \/ (exists r0, r0 ∈ kept /\ in_rect r0 px py = true) ->
    damaged (set_damage d (kept ++ [r]) false) px py).
  { intros px py Hp. right. cbn [set_damage d_damage]. destruct Hp as [Hp|(r0 & Hk & Hp)]; [exists r|exists r0];
      (split; [rewrite elem_of_app, list_elem_of_singleton; tauto|done]). }
  split_and!; [|done| | |done].
  - split; cbn [set_damage d_damage d_damage_full]; [apply Forall_app; split; [done|by constructor]|rewrite length_app; cbn; lia|done].
  - intros px py [?|(r0 & Hr0 & Hp)]; [congruence|]. apply Hcover, M4. right. exists r0. split; [by left|done].
  - intros px py [? ?] Hpx Hpy. apply Hcover, M4. left. apply in_rect_iff. cbn [r_x r_y r_w r_h]. lia.
Qed.

(** damage is never lost.  gui_damage_add keeps the damage list inside the
    screen and within its 32 entries; every pixel marked before stays marked,
    every pixel of the new rectangle that is on the screen becomes marked, and
    the desktop is flagged dirty whenever the list changes. *)
Theorem damage_covers {H} (g : gui H) fb x y w h :
  d_fb (desk g) = Some fb -> fb_ok fb -> damage_ok fb (desk g) ->
  let g' := gui_damage_add x y w h g in
  damage_ok fb (desk g') /\
  (forall px py, damaged (desk g) px py -> damaged (desk g') px py) /\
  (forall px py, on_fb fb px py -> x <= px < x + w -> y <= py < y + h -> damaged (desk g') px py) /\
  (desk g' <> desk g -> g_dirty g' = true) /\ (g_dirty g = true -> g_dirty g' = true).
Proof.
  intros Efb Hfb Hd. pose proof (damage_add_spec fb (desk g) x y w h Efb Hfb Hd) as Hs. unfold gui_damage_add.
  destruct (damage_add (desk g) x y w h) as [d' dirty]. destruct Hs as (S1 & S2 & S3 & S4 & S5). cbn [desk g_dirty].
  split_and!; try done; intros Hx; [rewrite (S5 Hx)|rewrite Hx]; by rewrite ?orb_true_r.
Qed.

Definition demo_gui (d : gui_desktop) : gui unit := Gui d true false tt ∅.

Lemma damage_covers_witness :
  let g := gui_damage_add 3 3 4 4 (gui_damage_add 10 10 2 2 (demo_gui (demo_desktop [] false))) in
  d_damage (desk (gui_damage_add 6 6 5 5 g)) = [DamageRect 3 3 9 9] /\ damaged (desk (gui_damage_add 6 6 5 5 g)) 3 4.
Proof.
  cbv zeta. split; [reflexivity|].
  destruct (damage_covers (gui_damage_add 3 3 4 4 (gui_damage_add 10 10 2 2 (demo_gui (demo_desktop [] false)))) demo_fb 6 6 5 5)
    as (_ & Hkeep & _); [reflexivity|apply demo_fb_ok| |].
  - split; [|vm_compute; discriminate|done]. change (d_damage _) with [DamageRect 10 10 2 2; DamageRect 3 3 4 4].
    repeat (apply Forall_cons_2; [unfold rect_in; cbn; lia|]). apply Forall_nil_2.
  - apply Hkeep. right. exists (DamageRect 3 3 4 4). split; [|reflexivity]. apply list_elem_of_lookup. by exists 1%nat.
Defined.
