(* ===== verification/GuiInv.v ===== *)
(** The invariant of the desktop: every entry point of the window system keeps
    it, whatever its arguments and whatever the heap answers. *)

From S2P Require Import Prelude.
From S2P Require Import Bytes.
From S2P Require Import PageAlloc.
From S2P Require Import Kheap.
From S2P Require Import ProcessRegions.
From S2P Require Import Input.
From S2P Require Import Framebuffer.
From S2P Require Import Gui.
From S2P Require Import GuiDraw.
From S2P Require Import GuiPaint.
From S2P Require Import GuiScene.
From S2P Require Import GuiState.
Open Scope arm.

(** * What the window system needs of the kernel heap *)

(** [heap_inv h al]: the heap is well formed and [al] are its outstanding
    allocations with their sizes. *)
Class KernelHeapLaws (H : Type) `{KernelHeap H} := {
  heap_inv : H -> list (Z * Z) -> Prop;
  heap_perm : forall h al al', heap_inv h al -> al ≡ₚ al' -> heap_inv h al';
  malloc_ok : forall h al n p h', heap_inv h al -> 0 < n < 2 ^ 32 -> h_malloc n h = (p, h') ->
    (p = 0 /\ heap_inv h' al) \/ (0 < p /\ heap_inv h' ((p, n) :: al));
  free_ok : forall h p n al, heap_inv h ((p, n) :: al) -> heap_inv (h_free p h) al;
  heap_apart : forall h p n q k al, heap_inv h ((p, n) :: (q, k) :: al) -> p + n <= q \/ q + k <= p }.

#[export] Instance heap_inv_proper {H} `{KernelHeapLaws H} (h : H) : Proper ((≡ₚ) ==> iff) (heap_inv h).
Proof. intros al al' Hp. split; intros Hi; [by eapply heap_perm|]. eapply heap_perm; [exact Hi|by symmetry]. Qed.

(** The kernel heap of kheap.c keeps these promises. *)
#[export] Instance kheap_kernel_heap A `{PageAllocator A} : KernelHeap (kheap A) := {
  h_malloc := kmalloc; h_free := kfree }.

Section HeapInstance.
Context {A : Type} `{PageAllocatorLaws A}.

Lemma heap_run_positive (h : kheap A) al p n : heap_run h al -> (p, n) ∈ al -> 0 < p.
Proof.
  intros Hr Hin. pose proof (kheap_allocations_disjoint h al Hr) as [Hp _]. rewrite Forall_forall in Hp.
  by destruct (Hp _ Hin).
Qed.

#[export] Program Instance kheap_laws : KernelHeapLaws (kheap A) := {
  heap_inv h al := exists al', heap_run h al' /\ al' ≡ₚ al }.
Next Obligation. intros h al al' (l & Hr & Hp) Hq. exists l. split; [done|by rewrite Hp]. Qed.
Next Obligation.
  intros h al n p h' (l & Hr & Hp) Hn E. pose proof (run_kmalloc h l n Hr ltac:(lia)) as Hr'. cbn in E. rewrite E in Hr'.
  cbn [fst snd] in Hr'. destruct (Z.eqb_spec p 0); [left; split; [done|by exists l]|right].
  split; [|exists ((p, n) :: l); split; [done|by rewrite Hp]]. eapply heap_run_positive; [exact Hr'|by left].
Qed.
Next Obligation.
  intros h p n al (l & Hr & Hp). assert (Hin : (p, n) ∈ l) by (rewrite Hp; by left).
  apply list_elem_of_split in Hin as (l1 & l2 & ->). exists (l1 ++ l2). split; [by eapply run_kfree|].
  rewrite <- Permutation_middle in Hp. by apply Permutation_cons_inv in Hp.
Qed.
Next Obligation.
  intros h p n q k al (l & Hr & Hp). destruct (kheap_allocations_disjoint h l Hr) as [_ Hd].
  symmetry in Hp. apply Permutation_inj in Hp as [_ (f & Hf & Hl)].
  pose proof (Hl 0%nat) as L0. pose proof (Hl 1%nat) as L1. cbn in L0, L1.
  eapply (Hd (f 0%nat) (f 1%nat)); [|symmetry; exact L0|symmetry; exact L1]. intros E. apply Hf in E. discriminate.
Qed.
End HeapInstance.

(** * The invariant *)

(** A live window: on the screen at its top left corner, no larger than the
    screen, with a title bar inside it and a [z] below the next one. *)
Record live_ok (fb : fb_t) (next_z : Z) (w : gui_window) : Prop := {
  lo_x : 0 <= w_x w < fb_width fb;
  lo_y : 0 <= w_y w < fb_height fb;
  lo_w : 2 <= w_w w <= fb_width fb;
  lo_h : 2 <= w_h w <= fb_height fb;
  lo_title_h : 0 <= w_title_h w < w_h w;
  lo_z : 0 < w_z w < next_z }.

Record slot_ok (fb : fb_t) (next_z : Z) (w : gui_window) : Prop := {
  sl_ring : ring_of w;
  sl_title : length (w_title w) = 32%nat /\ byte_at (w_title w) 31 = 0;
  sl_regions : length (w_regions w) = 8%nat;
  sl_live : w_used w = true -> live_ok fb next_z w;
  sl_free : w_used w = false -> w_backing w = 0 }.

(** The backing buffers of a list of windows. *)
Definition backings (ws : list gui_window) : list (Z * Z) :=
  omap (fun w => if w_backing w =? 0 then None else Some (w_backing w, w_backing_capacity w)) ws.

Record desk_inv {H} `{KernelHeapLaws H} (fb : fb_t) (rest : list (Z * Z)) (d : gui_desktop) (hp : H) : Prop := {
  di_fb : d_fb d = Some fb;
  di_len : length (d_windows d) = 16%nat;
  di_slot : forall i, 0 <= i < GUI_MAX_WINDOWS -> slot_ok fb (d_next_z d) (win_at d i);
  di_z : forall i j, 0 <= i < GUI_MAX_WINDOWS -> 0 <= j < GUI_MAX_WINDOWS -> w_used (win_at d i) = true ->
    w_used (win_at d j) = true -> w_z (win_at d i) = w_z (win_at d j) -> i = j;
  di_next : 0 < d_next_z d <= UINT32_MAX;
  di_focus : d_focused d = GUI_NO_WINDOW \/ (0 <= d_focused d < GUI_MAX_WINDOWS /\ w_used (win_at d (d_focused d)) = true);
  di_drag : d_drag_id d = GUI_NO_WINDOW \/ (0 <= d_drag_id d < GUI_MAX_WINDOWS /\ 0 <= d_drag_off_x d /\ 0 <= d_drag_off_y d);
  di_cursor : 0 <= c_x (d_cursor d) < fb_width fb /\ 0 <= c_y (d_cursor d) < fb_height fb;
  di_damage : damage_ok fb d;
  di_heap : heap_inv hp (backings (d_windows d) ++ rest) }.

Lemma win_at_put i w d j :
  length (d_windows d) = 16%nat -> 0 <= i < GUI_MAX_WINDOWS -> 0 <= j -> win_at (put_win i w d) j = if j =? i then w else win_at d j.
Proof.
  unfold GUI_MAX_WINDOWS. intros Hl Hi Hj. unfold win_at, put_win. cbn [set_windows d_windows].
  destruct (Z.eqb_spec j i) as [->|Hne]; [by rewrite list_lookup_insert_eq by lia|]. by rewrite list_lookup_insert_ne by lia.
Qed.

Lemma win_at_lookup d i : length (d_windows d) = 16%nat -> 0 <= i < GUI_MAX_WINDOWS -> d_windows d !! Z.to_nat i = Some (win_at d i).
Proof.
  unfold GUI_MAX_WINDOWS. intros Hl Hi. unfold win_at. destruct (d_windows d !! Z.to_nat i) eqn:E; [done|].
  apply lookup_ge_None in E. lia.
Qed.

(** What replacing window [i] does to the list of backing buffers. *)
Lemma backings_put ws i w w' :
  ws !! i = Some w ->
  exists al, backings ws ≡ₚ backings [w] ++ al /\ backings (<[i := w']> ws) ≡ₚ backings [w'] ++ al.
Proof.
  intros E. exists (backings (take i ws ++ drop (S i) ws)). unfold backings.
  rewrite (insert_take_drop ws i w') by (apply lookup_lt_is_Some_1; eauto).
  rewrite <- (take_drop_middle ws i w E) at 1. rewrite !omap_app. cbn [omap list_omap].
  split; (rewrite Permutation_app_swap_app; by destruct (_ =? 0)).
Qed.

Lemma wins_damage {H} x y ww h (g : gui H) : d_windows (desk (gui_damage_add x y ww h g)) = d_windows (desk g).
Proof.
  unfold gui_damage_add, damage_add. destruct (d_fb (desk g)) as [fb'|]; [|done].
  destruct (d_damage_full (desk g)); [done|]. destruct (_ || _); [done|].
  destruct (if x <? 0 then _ else _) as [x0 w0]. destruct (if y <? 0 then _ else _) as [y0 h0].
  destruct (_ || _); [done|]. destruct (_ || _); [done|]. destruct (_ && _); [done|].
  destruct (merge_loop _ _ _ _ _ _) as [kp r]. by destruct (_ >=? _).
Qed.

Section Preserve.
Context {H : Type} `{KernelHeapLaws H} (fb : fb_t) (Hfb : fb_ok fb) (rest : list (Z * Z)).
Implicit Types (d : gui_desktop) (hp : H) (w : gui_window) (g : gui H).

Definition gui_inv g : Prop := desk_inv fb rest (desk g) (g_heap g).

(** [d'] differs from [d] in no field the invariant speaks of. *)
Lemma inv_same d d' hp :
  desk_inv fb rest d hp -> d_fb d' = d_fb d -> d_windows d' = d_windows d -> d_next_z d' = d_next_z d ->
  d_focused d' = d_focused d -> d_drag_id d' = d_drag_id d -> d_drag_off_x d' = d_drag_off_x d ->
  d_drag_off_y d' = d_drag_off_y d -> c_x (d_cursor d') = c_x (d_cursor d) -> c_y (d_cursor d') = c_y (d_cursor d) ->
  damage_ok fb d' -> desk_inv fb rest d' hp.
Proof.
  intros [] E1 E2 E3 E4 E5 E6 E7 E8 E9 Hdm. unfold win_at in *.
  split; rewrite ?E1, ?E2, ?E3, ?E4, ?E5, ?E6, ?E7, ?E8, ?E9; try done; intros *; unfold win_at; rewrite ?E2; eauto.
Qed.

Lemma inv_refresh d hp : desk_inv fb rest d hp -> desk_inv fb rest (gui_refresh_cursor_shape d) hp.
Proof. intros Hi. eapply inv_same; [exact Hi|done..|]. destruct Hi as [? ? ? ? ? ? ? ? [] ?]. by split. Qed.

Lemma inv_cursor d hp c :
  desk_inv fb rest d hp -> 0 <= c_x c < fb_width fb -> 0 <= c_y c < fb_height fb -> desk_inv fb rest (set_cursor_state d c) hp.
Proof. intros [] Hx Hy. split; try done. by destruct di_damage0. Qed.

Lemma inv_focus d hp id :
  desk_inv fb rest d hp -> id = GUI_NO_WINDOW \/ (0 <= id < GUI_MAX_WINDOWS /\ w_used (win_at d id) = true) ->
  desk_inv fb rest (set_focused d id) hp.
Proof. intros [] Hf. split; try done. by destruct di_damage0. Qed.

Lemma inv_drag d hp id off_x off_y :
  desk_inv fb rest d hp -> id = GUI_NO_WINDOW \/ (0 <= id < GUI_MAX_WINDOWS /\ 0 <= off_x /\ 0 <= off_y) ->
  desk_inv fb rest (set_drag d id off_x off_y) hp.
Proof. intros [] Hf. split; try done. by destruct di_damage0. Qed.

Lemma inv_damage_full d hp b : desk_inv fb rest d hp -> desk_inv fb rest (set_damage d [] b) hp.
Proof. intros []. split; done. Qed.

Lemma inv_damage_add g x y ww h : gui_inv g -> gui_inv (gui_damage_add x y ww h g).
Proof.
  intros Hi. unfold gui_inv, gui_damage_add. pose proof (damage_add_spec fb (desk g) x y ww h (di_fb _ _ _ _ Hi) Hfb (di_damage _ _ _ _ Hi)) as Hs.
  destruct (damage_add (desk g) x y ww h) as [d' dirty]. destruct Hs as (S1 & E & _). cbn [desk g_heap].
  eapply inv_same; [exact Hi|rewrite E; done..|exact S1].
Qed.

Lemma inv_redraw g : gui_inv g -> gui_inv (gui_request_redraw g).
Proof.
  intros Hi. unfold gui_request_redraw. cbn [gui_mark_dirty g_active]. destruct (g_active g); [|done].
  unfold gui_inv. cbn. by apply inv_damage_full.
Qed.

Lemma inv_upd_desk g f : desk_inv fb rest (f (desk g)) (g_heap g) -> gui_inv (upd_desk f g).
Proof. done. Qed.

(** Replacing window [i], with the heap that matches the new backing buffers. *)
Lemma inv_put_heap d hp hp' i w :
  desk_inv fb rest d hp -> 0 <= i < GUI_MAX_WINDOWS -> slot_ok fb (d_next_z d) w ->
  (w_used w = true -> w_used (win_at d i) = true /\ w_z w = w_z (win_at d i)) ->
  (d_focused d = i -> w_used w = true) ->
  heap_inv hp' (backings (<[Z.to_nat i := w]> (d_windows d)) ++ rest) ->
  desk_inv fb rest (put_win i w d) hp'.
Proof.
  intros Hinv Hi Hs Hu Hf Hh. pose proof Hinv as [].
  assert (Hat : forall j, 0 <= j -> win_at (put_win i w d) j = if j =? i then w else win_at d j) by (intros; by apply win_at_put).
  split; try done.
  - cbn. by rewrite length_insert.
  - intros j Hj. rewrite Hat by lia. destruct (j =? i); [done|by apply di_slot0].
  - intros j k Hj Hk. rewrite !Hat by lia. destruct (Z.eqb_spec j i), (Z.eqb_spec k i); subst; try (by intros; congruence).
    + intros Hw Hk' E. destruct (Hu Hw) as [? Ez]. apply di_z0; try done. congruence.
    + intros Hj' Hw E. destruct (Hu Hw) as [? Ez]. apply di_z0; try done. congruence.
    + by apply di_z0.
  - cbn [put_win set_windows d_focused]. destruct di_focus0 as [?|[Hr Hfu]]; [by left|right]. split; [done|].
    rewrite Hat by lia. destruct (Z.eqb_spec (d_focused d) i); [by apply Hf|done].
  - destruct di_damage0. by split.
Qed.

(** Two windows with the same backing buffer, if any. *)
Definition same_backing (w w' : gui_window) : Prop := backings [w] = backings [w'].

Lemma heap_put d hp i w :
  desk_inv fb rest d hp -> 0 <= i < GUI_MAX_WINDOWS -> same_backing w (win_at d i) ->
  heap_inv hp (backings (<[Z.to_nat i := w]> (d_windows d)) ++ rest).
Proof.
  intros Hinv Hi Eb. destruct Hinv. eapply heap_perm; [exact di_heap0|].
  destruct (backings_put (d_windows d) (Z.to_nat i) (win_at d i) w (win_at_lookup d i di_len0 Hi)) as (al & -> & ->).
  by rewrite Eb.
Qed.

Lemma inv_put d hp i w :
  desk_inv fb rest d hp -> 0 <= i < GUI_MAX_WINDOWS -> slot_ok fb (d_next_z d) w -> same_backing w (win_at d i) ->
  (w_used w = true -> w_used (win_at d i) = true /\ w_z w = w_z (win_at d i)) ->
  (d_focused d = i -> w_used w = true) ->
  desk_inv fb rest (put_win i w d) hp.
Proof. intros. eapply inv_put_heap; try done. by apply heap_put. Qed.

Lemma focused_used d hp i : desk_inv fb rest d hp -> d_focused d = i -> 0 <= i < GUI_MAX_WINDOWS -> w_used (win_at d i) = true.
Proof.
  intros Hi Hf Hr. destruct (di_focus _ _ _ _ Hi) as [E|[_ Hu]]; [|by rewrite <- Hf].
  unfold GUI_NO_WINDOW, GUI_MAX_WINDOWS in *. lia.
Qed.

Lemma inv_upd_win g i (f : gui_window -> gui_window) :
  gui_inv g -> 0 <= i < GUI_MAX_WINDOWS -> slot_ok fb (d_next_z (desk g)) (f (win g i)) ->
  same_backing (f (win g i)) (win g i) ->
  w_used (f (win g i)) = w_used (win g i) -> w_z (f (win g i)) = w_z (win g i) -> gui_inv (upd_win i f g).
Proof.
  intros Hi Hr Hs Eb Eu Ez. apply inv_put; try done.
  - intros Hu. split; [|done]. unfold win in Eu. congruence.
  - intros Hf. fold (win g i). rewrite Eu. by eapply focused_used.
Qed.

(** Putting a window with the next [z] into slot [i]. *)
Lemma inv_top d hp i w :
  desk_inv fb rest d hp -> 0 <= i < GUI_MAX_WINDOWS -> d_next_z d < UINT32_MAX ->
  slot_ok fb (d_next_z d + 1) w -> w_z w = d_next_z d -> w_used w = true -> same_backing w (win_at d i) ->
  desk_inv fb rest (put_win i w (set_next_z d (u32 (d_next_z d + 1)))) hp.
Proof.
  intros Hinv Hi Hz Hw Ez Hu Eb. pose proof Hinv as []. unfold UINT32_MAX in *. rewrite u32_id by lia.
  set (d' := put_win i _ _).
  assert (Hat : forall j, 0 <= j -> win_at d' j = if j =? i then w else win_at d j).
  { intros j Hj. unfold d'. by apply (win_at_put i _ (set_next_z d (d_next_z d + 1))). }
  assert (Hlt : forall j, 0 <= j < GUI_MAX_WINDOWS -> w_used (win_at d j) = true -> w_z (win_at d j) < d_next_z d).
  { intros j Hj Hwj. destruct (di_slot0 j Hj). destruct (sl_live0 Hwj). lia. }
  split; try done.
  - cbn. by rewrite length_insert.
  - intros j Hj. rewrite Hat by lia. change (d_next_z d') with (d_next_z d + 1). destruct (j =? i); [done|].
    destruct (di_slot0 j Hj). split; try done. intros Hwj. destruct (sl_live0 Hwj). split; try done. lia.
  - intros j k Hj Hk. rewrite !Hat by lia. destruct (Z.eqb_spec j i), (Z.eqb_spec k i); subst; try (by intros; congruence).
    + intros _ Hk' E. specialize (Hlt k Hk Hk'). lia.
    + intros Hj' _ E. specialize (Hlt j Hj Hj'). lia.
    + by apply di_z0.
  - cbn. unfold UINT32_MAX. lia.
  - cbn [d' put_win set_windows set_next_z d_focused]. destruct di_focus0 as [?|[Hr Hfu]]; [by left|right]. split; [done|].
    rewrite Hat by lia. by destruct (_ =? i).
  - destruct di_damage0. by split.
  - by apply (heap_put d hp i w).
Qed.

Lemma inv_raise d hp i :
  desk_inv fb rest d hp -> 0 <= i < GUI_MAX_WINDOWS -> w_used (win_at d i) = true -> d_next_z d < UINT32_MAX ->
  desk_inv fb rest (put_win i (set_z (win_at d i) (d_next_z d)) (set_next_z d (u32 (d_next_z d + 1)))) hp.
Proof.
  intros Hinv Hi Hu Hz. apply inv_top; try done. pose proof Hinv as []. destruct (di_slot0 i Hi). split; try done.
  intros Hw. destruct (sl_live0 Hw). split; try done. cbn. lia.
Qed.

(** ** Windows *)

Lemma slot_push nz w type data1 data2 :
  slot_ok fb nz w -> let w' := snd (gui_window_push_event w type data1 data2) in
  slot_ok fb nz w' /\ same_backing w' w /\ w_used w' = w_used w /\ w_z w' = w_z w.
Proof.
  intros Hs. destruct (w_used w) eqn:Hu.
  - pose proof (push_event_queue w type data1 data2 (sl_ring _ _ _ Hs) Hu) as Hp.
    destruct (gui_window_push_event w type data1 data2) as [s w']. destruct Hp as (_ & Hr & _ & (? & ? & ? & ? & ->)).
    destruct Hs. cbn [snd]. split_and!; try done. split; try done. intros Hw. destruct (sl_live0 Hw). by split.
  - unfold gui_window_push_event. rewrite Hu. cbn. done.
Qed.

Lemma inv_push g i type data1 data2 : gui_inv g -> 0 <= i < GUI_MAX_WINDOWS -> gui_inv (snd (push_to i type data1 data2 g)).
Proof.
  intros Hi Hr. unfold push_to. destruct (gui_window_push_event (win g i) type data1 data2) as [s w] eqn:E. cbn [snd].
  pose proof (slot_push _ _ type data1 data2 (di_slot _ _ _ _ Hi i Hr)) as Hs. fold (win g i) in Hs. rewrite E in Hs. cbn [snd] in Hs.
  destruct Hs as (S1 & S2 & S3 & S4). apply (inv_put (desk g)); try done.
  - intros Hu. split; [|done]. unfold win in S3. congruence.
  - intros Hf. rewrite S3. by eapply focused_used.
Qed.

Lemma title_loop_ok fuel : forall t i out, 0 <= i -> i + Z.of_nat fuel <= 31 -> length out = 32%nat -> byte_at out 31 = 0 ->
  length (title_loop fuel t i out) = 32%nat /\ byte_at (title_loop fuel t i out) 31 = 0.
Proof.
  induction fuel as [|fuel IH]; intros t i out Hi Hf Hl Hb; [done|]. destruct t as [|c t]; [done|]. cbn [title_loop].
  destruct (c =? 0); [done|]. apply IH; [lia|lia|by rewrite put_length|]. rewrite byte_at_put by lia.
  destruct (Z.eqb_spec 31 i); [lia|done].
Qed.

Lemma set_title_ok w title : length (w_title (gui_window_set_title w title)) = 32%nat /\ byte_at (w_title (gui_window_set_title w title)) 31 = 0.
Proof. destruct title as [t|]; cbn; [|done]. by apply (title_loop_ok (Z.to_nat (GUI_TITLE_LEN - 1))). Qed.

Lemma slot_title nz w title :
  slot_ok fb nz w -> let w' := gui_apply_builtin_policy (gui_window_set_title w title) in
  slot_ok fb nz w' /\ same_backing w' w /\ w_used w' = w_used w /\ w_z w' = w_z w.
Proof.
  intros Hs. pose proof (set_title_ok w title) as Ht.
  assert (Hw : exists t, gui_window_set_title w title = set_titles w (w_title_h w) t) by (destruct title; by eexists).
  destruct Hw as [t Et]. rewrite Et in *. clear Et. unfold gui_apply_builtin_policy.
  assert (Hset : forall fl, slot_ok fb nz (set_flags (set_titles w (w_title_h w) t) fl)).
  { intros fl. destruct Hs. split; try done. intros Hu. destruct (sl_live0 Hu). by split. }
  cbn [set_titles w_used]. destruct (w_used w) eqn:Hu; cbn [negb].
  - destruct (streq_loop _ _); (split_and!; [|done|done|done]); [apply Hset|].
    specialize (Hset (w_flags w)). by destruct w.
  - split_and!; try done. specialize (Hset (w_flags w)). by destruct w.
Qed.

Lemma slot_bounds nz w x y ww h :
  slot_ok fb nz w -> 0 <= x < fb_width fb -> 0 <= y < fb_height fb -> 2 <= ww <= fb_width fb -> 2 <= h <= fb_height fb ->
  w_title_h w < h -> slot_ok fb nz (set_bounds w x y ww h).
Proof. intros [] ? ? ? ? ?. split; try done. intros Hu. destruct (sl_live0 Hu). split; try done. cbn. lia. Qed.

Lemma fits_framebuffer x y ww h :
  gui_rect_fits_framebuffer fb x y ww h = true -> 0 <= x -> 0 <= y ->
  0 <= x < fb_width fb /\ 0 <= y < fb_height fb /\ ww <= fb_width fb /\ h <= fb_height fb.
Proof. unfold gui_rect_fits_framebuffer. destruct (_ || _) eqn:E; [done|]. intros. b2p. lia. Qed.

Lemma inv_ensure d hp : desk_inv fb rest d hp -> desk_inv fb rest (snd (gui_focus_window_ensure d)) hp.
Proof.
  intros Hi. unfold gui_focus_window_ensure. destruct (_ && _); [done|].
  destruct (find_range _ _ _) as [i|] eqn:E; cbn [snd]; apply inv_focus; try done; [right|by left].
  apply find_range_Some in E as (Hr & Hp & _). b2p. done.
Qed.

Lemma id_range id : 0 <= id -> (id >=? GUI_MAX_WINDOWS) = false -> 0 <= id < GUI_MAX_WINDOWS.
Proof. intros. b2p. lia. Qed.

(** ** Entry points

    Each keeps the invariant and hands out at most one [z]. *)

Definition next g : Z := d_next_z (desk g).

Definition kept (n : Z) g g' : Prop := gui_inv g' /\ next g' <= next g + n.

Lemma next_damage g x y ww h : next (gui_damage_add x y ww h g) = next g.
Proof.
  unfold next, gui_damage_add, damage_add. destruct (d_fb (desk g)) as [fb'|]; [|done].
  destruct (d_damage_full (desk g)); [done|]. destruct (_ || _); [done|].
  destruct (if x <? 0 then _ else _) as [x0 w0]. destruct (if y <? 0 then _ else _) as [y0 h0].
  destruct (_ || _); [done|]. destruct (_ || _); [done|]. destruct (_ && _); [done|].
  destruct (merge_loop _ _ _ _ _ _) as [kp r]. by destruct (_ >=? _).
Qed.

Lemma next_redraw g : next (gui_request_redraw g) = next g.
Proof. unfold gui_request_redraw. cbn. by destruct (g_active g). Qed.

Lemma next_push g i type data1 data2 : next (snd (push_to i type data1 data2 g)) = next g.
Proof. unfold push_to. by destruct (gui_window_push_event _ _ _ _). Qed.

Lemma next_ensure d : d_next_z (snd (gui_focus_window_ensure d)) = d_next_z d.
Proof. unfold gui_focus_window_ensure. destruct (_ && _); [done|]. by destruct (find_range _ _ _). Qed.

Lemma kept_refl n g : 0 <= n -> gui_inv g -> kept n g g.
Proof. intros ? ?. split; [done|lia]. Qed.

Lemma kept_damage n g0 g x y ww h : kept n g0 g -> kept n g0 (gui_damage_add x y ww h g).
Proof. intros [? ?]. split; [by apply inv_damage_add|by rewrite next_damage]. Qed.

Lemma kept_redraw n g0 g : kept n g0 g -> kept n g0 (gui_request_redraw g).
Proof. intros [? ?]. split; [by apply inv_redraw|by rewrite next_redraw]. Qed.

Lemma kept_refresh n g0 g : kept n g0 g -> kept n g0 (upd_desk gui_refresh_cursor_shape g).
Proof. intros [? ?]. split; [by apply inv_upd_desk, inv_refresh|done]. Qed.

Lemma kept_push n g0 g i type data1 data2 :
  kept n g0 g -> 0 <= i < GUI_MAX_WINDOWS -> kept n g0 (snd (push_to i type data1 data2 g)).
Proof. intros [? ?] ?. split; [by apply inv_push|by rewrite next_push]. Qed.

Lemma slot_at g i : gui_inv g -> 0 <= i < GUI_MAX_WINDOWS -> slot_ok fb (next g) (win g i).
Proof. intros Hi. apply (di_slot _ _ _ _ Hi). Qed.

Lemma create_kept pid x y ww h bg border title g :
  gui_inv g -> next g < UINT32_MAX -> 0 <= x -> 0 <= y ->
  kept 1 g (snd (gui_create_window_for_pid pid x y ww h bg border title g)).
Proof.
  intros Hi Hn Hx Hy. unfold gui_create_window_for_pid. rewrite (di_fb _ _ _ _ Hi).
  destruct (_ || _) eqn:Hg; [by apply kept_refl|]. b2p.
  destruct (fits_framebuffer x y ww h) as (? & ? & ? & ?); [done..|].
  destruct (find_range _ _ _) as [i|] eqn:Ef; [|by apply kept_refl]. apply find_range_Some in Ef as (Hr & Hu & _). b2p.
  cbn [snd]. apply kept_damage, kept_refresh.
  match goal with |- context [put_win i ?W _] => set (w := W) end.
  pose proof (slot_at g i Hi Hr) as Hs. pose proof (sl_free _ _ _ Hs Hu) as Hb.
  assert (Hw : slot_ok fb (next g + 1) w /\ w_z w = next g /\ w_used w = true /\ same_backing w (win g i)).
  { unfold w, gui_apply_builtin_policy. cbn [negb w_used]. unfold next.
    match goal with |- context [streq_loop (w_title ?W0) _] => set (w0 := W0) end.
    assert (H0' : slot_ok fb (d_next_z (desk g) + 1) w0).
    { unfold w0. pose proof (set_title_ok (Window x y ww h bg border pid (d_next_z (desk g)) 0 0 (w_title (win g i))
        (w_events (win g i)) 0 0 0 (w_used (win g i)) false (w_minimized (win g i)) 0 0 no_regions) title) as Ht.
      pose proof (di_next _ _ _ _ Hi). destruct Hs as [[] _ _ _ _]. destruct title as [t|]; (split; [split; try done; cbn; lia|exact Ht|done| |done]);
        intros _; split; cbn; lia. }
    assert (Hf : forall fl, slot_ok fb (d_next_z (desk g) + 1) (set_flags w0 fl)).
    { intros fl. destruct H0'. split; try done. intros Hu0. destruct (sl_live0 Hu0). by split. }
    assert (Hb0 : same_backing w0 (win g i)) by (unfold same_backing, w0; destruct title; cbn; by rewrite Hb).
    assert (Hz0 : w_z w0 = d_next_z (desk g) /\ w_used w0 = true) by (unfold w0; by destruct title).
    destruct Hz0 as [Hz1 Hz2]. destruct (streq_loop _ _); split_and!; try done. }
  clearbody w. destruct Hw as (W1 & W2 & W3 & W4).
  assert (Hput : desk_inv fb rest (put_win i w (set_next_z (desk g) (u32 (d_next_z (desk g) + 1)))) (g_heap g)) by (by apply inv_top).
  assert (Hnext : u32 (d_next_z (desk g) + 1) <= d_next_z (desk g) + 1).
  { pose proof (di_next _ _ _ _ Hi). unfold next, UINT32_MAX in *. rewrite u32_id by lia. lia. }
  destruct (_ && _); (split; [|exact Hnext]); [|done]. apply inv_upd_desk. cbn [desk upd_desk with_desk].
  apply inv_focus; [done|]. right. split; [done|]. rewrite win_at_put; [by rewrite Z.eqb_refl|apply (di_len _ _ _ _ Hi)|done|lia].
Qed.

Lemma destroy_kept id g : gui_inv g -> 0 <= id -> kept 0 g (snd (gui_destroy_window id g)).
Proof.
  intros Hi Hid. unfold gui_destroy_window. destruct (_ || _) eqn:Hg; [by apply kept_refl|]. b2p.
  assert (Hr : 0 <= id < GUI_MAX_WINDOWS) by lia. pose proof (slot_at g id Hi Hr) as Hs.
  destruct (gui_window_free_backing (win g id) (g_heap g)) as [w hp] eqn:Ew. cbn [snd]. apply kept_damage, kept_refresh.
  set (w' := Window _ _ _ _ _ _ _ _ _ _ _ _ _ _ _ _ _ _ _ _ _).
  assert (Hw : w_events w = w_events (win g id) /\ w_backing w = 0 /\
    heap_inv hp (backings (<[Z.to_nat id := w']> (d_windows (desk g))) ++ rest)).
  { pose proof Hi as []. destruct (backings_put (d_windows (desk g)) (Z.to_nat id) (win g id) w' (win_at_lookup (desk g) id di_len0 Hr)) as (al & E1 & E2).
    unfold gui_window_free_backing in Ew. destruct (Z.eqb_spec (w_backing (win g id)) 0) as [Eb|Eb]; injection Ew as <- <-.
    - split_and!; [done..|]. eapply heap_perm; [exact di_heap0|]. rewrite E1, E2. unfold w'. cbn. by rewrite Eb.
    - split_and!; [done..|]. rewrite E2. unfold w'. cbn. apply free_ok with (n := w_backing_capacity (win g id)).
      eapply heap_perm; [exact di_heap0|]. rewrite E1. cbn. by rewrite (proj2 (Z.eqb_neq _ _)) by done. }
  destruct Hw as (We & Wb & Wh).
  assert (Hslot : slot_ok fb (next g) w').
  { destruct Hs as [[] _ _ _ _]. unfold w'. split; try done. unfold ring_of. cbn. rewrite We. by split. }
  assert (Hput : forall d, desk_inv fb rest d (g_heap g) -> d_windows d = d_windows (desk g) -> d_next_z d = next g -> d_focused d <> id ->
    desk_inv fb rest (put_win id w' d) hp).
  { intros d Hd Ed En Hf. apply (inv_put_heap d (g_heap g)); [done|done|by rewrite En|done|done|by rewrite Ed]. }
  cbn [desk put_win set_windows d_focused]. destruct (Z.eqb_spec (d_focused (desk g)) id) as [Ef|Ef].
  - split; [|unfold next, upd_desk, with_desk; cbn [desk]; rewrite next_ensure; cbn; lia].
    apply inv_upd_desk. cbn [desk g_heap]. apply inv_ensure.
    change (desk_inv fb rest (put_win id w' (set_focused (desk g) GUI_NO_WINDOW)) hp).
    apply Hput; [apply inv_focus; [done|by left]|done|done|]. cbn. unfold GUI_NO_WINDOW, GUI_MAX_WINDOWS in *. lia.
  - split; [|unfold next; cbn; lia]. by apply Hput.
Qed.

Lemma exit_kept pid g : gui_inv g -> kept 0 g (gui_destroy_windows_for_pid pid g).
Proof.
  intros Hi. unfold gui_destroy_windows_for_pid. destruct (pid =? GUI_NO_OWNER); [by apply kept_refl|].
  apply (for_range_ind (fun _ g' => kept 0 g g')); [unfold GUI_MAX_WINDOWS; lia|by apply kept_refl|].
  intros k g' Hk [Hi' Hn]. destruct (_ && _); [|by split].
  destruct (destroy_kept (GUI_MAX_WINDOWS - 1 - k) g' Hi' ltac:(lia)) as [? ?]. split; [done|lia].
Qed.

(** A window update that keeps what the invariant says of the slot. *)
Lemma kept_upd_win n g0 g i f :
  kept n g0 g -> 0 <= i < GUI_MAX_WINDOWS ->
  slot_ok fb (next g) (f (win g i)) /\ same_backing (f (win g i)) (win g i) /\
  w_used (f (win g i)) = w_used (win g i) /\ w_z (f (win g i)) = w_z (win g i) ->
  kept n g0 (upd_win i f g).
Proof. intros [? ?] Hr (? & ? & ? & ?). split; [by apply inv_upd_win|done]. Qed.

Lemma title_kept id title g : gui_inv g -> 0 <= id -> kept 0 g (snd (gui_window_set_title_internal id title g)).
Proof.
  intros Hi Hid. unfold gui_window_set_title_internal. destruct (_ || _) eqn:Hg; [by apply kept_refl|]. b2p. cbn [snd].
  assert (Hk : kept 0 g (upd_desk gui_refresh_cursor_shape
    (upd_win id (fun w => gui_apply_builtin_policy (gui_window_set_title w title)) g))).
  { apply kept_refresh, kept_upd_win; [by apply kept_refl|lia|]. apply slot_title, slot_at; [done|lia]. }
  destruct (_ >? 0); [by apply kept_damage|done].
Qed.

Lemma title_bar_kept id title_h g : gui_inv g -> 0 <= id -> 0 <= title_h -> kept 0 g (snd (gui_window_set_title_bar_internal id title_h g)).
Proof.
  intros Hi Hid Ht. unfold gui_window_set_title_bar_internal. destruct (_ || _) eqn:Hg; [by apply kept_refl|]. b2p.
  destruct (Z.geb_spec title_h (w_h (win g id))); [by apply kept_refl|]. cbn [snd].
  apply kept_damage, kept_refresh, kept_upd_win; [by apply kept_refl|lia|].
  destruct (slot_at g id Hi ltac:(lia)). split_and!; try done. split; try done. intros Hu. destruct (sl_live0 Hu). split; try done.
Qed.

Lemma unfocus_kept n g0 g : kept n g0 g -> kept n g0 (upd_desk (fun d => snd (gui_focus_window_ensure (set_focused d GUI_NO_WINDOW))) g).
Proof.
  intros [Hi Hn]. split; [|unfold next, upd_desk, with_desk in *; cbn [desk]; by rewrite next_ensure].
  apply inv_upd_desk, inv_ensure, inv_focus; [done|by left].
Qed.

Lemma flags_kept id flags g : gui_inv g -> 0 <= id -> kept 0 g (snd (gui_window_set_flags_internal id flags g)).
Proof.
  intros Hi Hid. unfold gui_window_set_flags_internal. destruct (_ || _) eqn:Hg; [by apply kept_refl|]. b2p.
  assert (Hk : kept 0 g (upd_win id (fun w => set_flags w flags) g)).
  { apply kept_upd_win; [by apply kept_refl|lia|]. destruct (slot_at g id Hi ltac:(lia)). split_and!; try done. split; try done.
    intros Hu. destruct (sl_live0 Hu). by split. }
  set (g1 := if _ && _ then _ else _).
  assert (Hk1 : kept 0 g g1) by (unfold g1; destruct (_ && _); [by apply unfocus_kept|done]).
  clearbody g1. destruct (_ &? _); [|done]. cbn [snd]. by apply kept_damage, kept_refresh.
Qed.

Lemma move_kept id x y g : gui_inv g -> 0 <= id -> 0 <= x -> 0 <= y -> kept 0 g (snd (gui_move_window id x y g)).
Proof.
  intros Hi Hid Hx Hy. unfold gui_move_window. rewrite (di_fb _ _ _ _ Hi). destruct (_ || _) eqn:Hg; [by apply kept_refl|]. b2p.
  cbn [snd]. apply kept_damage, kept_refresh, kept_upd_win; [by apply kept_refl|lia|].
  pose proof (slot_at g id Hi ltac:(lia)) as Hs. destruct (sl_live _ _ _ Hs ltac:(done)). split_and!; try done.
  apply slot_bounds; try done; lia.
Qed.

(** ** Backing buffers *)

Lemma backing_size_range w n : live_ok fb (w_z w + 1) w -> gui_window_backing_size w = Some n -> 0 < n < 2 ^ 32 /\ n = w_w w * content_h w * 4.
Proof.
  intros [] E. unfold gui_window_backing_size in E. destruct (_ || _); [done|]. destruct (Z.eqb_spec (content_h w) 0); [done|].
  destruct (Z.gtb_spec (w_w w * content_h w * 4) UINT32_MAX) as [|Hm]; [done|]. injection E as <-. unfold UINT32_MAX in Hm.
  assert (0 < content_h w) by (unfold content_h in *; destruct (_ >? _) eqn:?; b2p; lia). split; [|done]. split; [|lia].
  apply Z.mul_pos_pos; [apply Z.mul_pos_pos|]; lia.
Qed.

(** What a backing operation on window [i] gives: either a failure that leaves
    the window alone, or a buffer that is an allocation and holds the content. *)
Lemma alloc_backing_inv g i n status w hp px :
  gui_inv g -> 0 <= i < GUI_MAX_WINDOWS -> 0 < n < 2 ^ 32 -> w_used (win g i) = true ->
  gui_window_alloc_backing n (win g i) (g_heap g) (g_px g) = (status, w, hp, px) ->
  desk_inv fb rest (put_win i w (desk g)) hp /\
  ((status = -1 /\ w = win g i) \/ (status = 0 /\ exists p, 0 < p /\ w = set_backing (win g i) (w_owner_drawn (win g i)) p n)).
Proof.
  intros Hi Hr Hn Hu E. unfold gui_window_alloc_backing in E. destruct (h_malloc n (g_heap g)) as [p h1] eqn:Em.
  pose proof Hi as []. pose proof (slot_at g i Hi Hr) as Hs.
  destruct (backings_put (d_windows (desk g)) (Z.to_nat i) (win g i) (set_backing (win g i) (w_owner_drawn (win g i)) p n)
    (win_at_lookup (desk g) i di_len0 Hr)) as (al & E1 & E2).
  destruct (malloc_ok _ _ n p h1 di_heap0 Hn Em) as [[-> Hh]|[Hp Hh]].
  - injection E as <- <- <- <-. split; [|left; done]. apply (inv_put_heap (desk g) (g_heap g)); try done.
    rewrite list_insert_id; [done|]. by apply win_at_lookup.
  - rewrite (proj2 (Z.eqb_neq p 0)) in E by lia. injection E as <- <- <- _. split; [|right; split; [done|by exists p]].
    apply (inv_put_heap (desk g) (g_heap g)); try done.
    + destruct Hs. split; try done; intros Hx; [destruct (sl_live0 Hx); by split|]. cbn in Hx. congruence.
    + rewrite E2. cbn. rewrite (proj2 (Z.eqb_neq p 0)) by lia. rewrite E1 in Hh. cbn in Hh.
      destruct (Z.eqb_spec (w_backing (win g i)) 0); cbn [negb]; [exact Hh|].
      apply free_ok with (n := w_backing_capacity (win g i)). eapply heap_perm; [exact Hh|apply perm_swap].
Qed.

Lemma live_self g i : gui_inv g -> 0 <= i < GUI_MAX_WINDOWS -> w_used (win g i) = true -> live_ok fb (w_z (win g i) + 1) (win g i).
Proof. intros Hi Hr Hu. destruct (sl_live _ _ _ (slot_at g i Hi Hr) Hu). split; try done. lia. Qed.

Lemma on_backing_kept (f : gui_window -> H -> gmap Z Z -> Z * gui_window * H * gmap Z Z) i g :
  (f = gui_window_ensure_backing \/ f = gui_window_reset_backing) ->
  gui_inv g -> 0 <= i < GUI_MAX_WINDOWS -> w_used (win g i) = true ->
  let '(status, g') := on_backing f i g in
  kept 0 g g' /\ w_used (win g' i) = true /\ next g' = next g /\ w_title_h (win g' i) = w_title_h (win g i) /\
  (status = 0 -> w_backing (win g' i) <> 0 /\ w_w (win g' i) = w_w (win g i) /\ content_h (win g' i) = content_h (win g i) /\
     4 * (w_w (win g' i) * content_h (win g' i)) <= w_backing_capacity (win g' i)).
Proof.
  intros Hf Hi Hr Hu. pose proof (live_self g i Hi Hr Hu) as Hl. pose proof Hi as [].
  assert (Hat : forall w, win_at (put_win i w (desk g)) i = w) by (intros; rewrite win_at_put by (done || lia); by rewrite Z.eqb_refl).
  assert (Hsame : desk_inv fb rest (put_win i (win g i) (desk g)) (g_heap g)).
  { apply (inv_put (desk g)); try done. by apply di_slot0. }
  unfold on_backing. destruct (f (win g i) (g_heap g) (g_px g)) as [[[status w] hp] px] eqn:E.
  assert (Hcase : (hp = g_heap g /\ w = win g i /\ (status = 0 -> exists n, gui_window_backing_size w = Some n /\ w_backing w <> 0 /\ n <= w_backing_capacity w)) \/
    exists n, gui_window_backing_size (win g i) = Some n /\ gui_window_alloc_backing n (win g i) (g_heap g) (g_px g) = (status, w, hp, px)).
  { destruct Hf as [-> | ->]; [unfold gui_window_ensure_backing in E|unfold gui_window_reset_backing in E];
      (destruct (gui_window_backing_size (win g i)) as [n|] eqn:En; [|injection E as <- <- <- _; left; split_and!; [done..|discriminate]]);
      (destruct (_ && _) eqn:Hg; [injection E as <- <- <- _; b2p; left; split_and!; [done..|intros _; exists n; done]|right; by exists n]). }
  unfold win. cbn [desk g_heap]. rewrite Hat. destruct Hcase as [(-> & -> & Hok)|(n & En & Ea)].
  - split_and!; [split; [done|unfold next; cbn; lia]|done|done|done|]. intros Hz. destruct (Hok Hz) as (n & En & Hb & Hc).
    destruct (backing_size_range _ _ Hl En) as [_ ->]. split_and!; try done. lia.
  - destruct (backing_size_range _ _ Hl En) as [Hn Ecap]. destruct (alloc_backing_inv g i n status w hp px Hi Hr Hn Hu Ea) as [Hinv Hw].
    destruct Hw as [[-> ->]|[-> (p & Hp & ->)]].
    + split_and!; [split; [done|unfold next; cbn; lia]|done|done|done|discriminate].
    + split_and!; [split; [done|unfold next; cbn; lia]|done|done|done|]. intros _. cbn. split_and!; try done; [lia|].
      change (content_h (set_backing _ _ _ _)) with (content_h (win g i)). unfold win in *. lia.
Qed.

Lemma size_unchanged w ww h :
  live_ok fb (w_z w + 1) w -> 2 <= ww <= fb_width fb -> 2 <= h <= fb_height fb ->
  negb (i32 (w_w w) =? i32 ww) || negb (i32 (w_h w) =? i32 h) = false -> w_w w = ww /\ w_h w = h.
Proof. intros [] ? ? E. destruct Hfb. rewrite !i32_id in E by lia. b2p. lia. Qed.

Lemma resize_kept id x y ww h g :
  gui_inv g -> 0 <= id -> 0 <= x -> 0 <= y -> kept 0 g (snd (gui_resize_window id x y ww h g)).
Proof.
  intros Hi Hid Hx Hy. unfold gui_resize_window. rewrite (di_fb _ _ _ _ Hi). destruct (_ || _) eqn:Hg; [by apply kept_refl|]. b2p.
  destruct (fits_framebuffer x y ww h) as (? & ? & ? & ?); [done..|].
  assert (Hr : 0 <= id < GUI_MAX_WINDOWS) by lia. assert (Hu : w_used (win g id) = true) by done.
  pose proof (live_self g id Hi Hr Hu) as Hl. pose proof (slot_at g id Hi Hr) as Hs. pose proof Hl as []. pose proof Hfb as [].
  pose proof Hi as [].
  set (g1 := upd_desk gui_refresh_cursor_shape (upd_win id (fun w => set_bounds w x y ww h) g)).
  assert (Hat : win g1 id = set_bounds (win g id) x y ww h).
  { change (win_at (put_win id (set_bounds (win_at (desk g) id) x y ww h) (desk g)) id = set_bounds (win g id) x y ww h).
    rewrite win_at_put by (done || lia). by rewrite Z.eqb_refl. }
  assert (Hback : forall d w, win_at d id = w -> set_bounds (set_bounds w x y ww h) (w_x w) (w_y w) (w_w w) (w_h w) = w) by (by intros ? [] _).
  assert (Hu32 : u32 (i32 (w_x (win g id))) = w_x (win g id) /\ u32 (i32 (w_y (win g id))) = w_y (win g id) /\
    u32 (i32 (w_w (win g id))) = w_w (win g id) /\ u32 (i32 (w_h (win g id))) = w_h (win g id)).
  { rewrite !i32_id by lia. rewrite !u32_id by lia. done. }
  destruct Hu32 as (-> & -> & -> & ->).
  assert (Hins : <[Z.to_nat id := set_bounds (set_bounds (win g id) x y ww h) (w_x (win g id)) (w_y (win g id)) (w_w (win g id)) (w_h (win g id))]>
    (d_windows (desk g)) = d_windows (desk g)).
  { rewrite (Hback (desk g) (win g id) eq_refl). apply list_insert_id. by apply win_at_lookup. }
  destruct (Z_lt_ge_dec (w_title_h (win g id)) h) as [Ht|Ht].
  - assert (Hk1 : kept 0 g g1).
    { apply kept_refresh, kept_upd_win; [by apply kept_refl|done|]. split_and!; try done. apply slot_bounds; try done; lia. }
    destruct (negb _ || negb _); [|cbn [Z.eqb negb snd]; by apply kept_damage].
    pose proof (on_backing_kept gui_window_reset_backing id g1 (or_intror eq_refl) (proj1 Hk1) Hr ltac:(by rewrite Hat)) as Hb.
    destruct (on_backing gui_window_reset_backing id g1) as [status g2]. destruct Hb as (Hk2 & Hu2 & Hn2 & Ht2 & _).
    destruct Hk1 as [_ Hn1], Hk2 as [Hi2 _]. rewrite Hat in Ht2. cbn [set_bounds w_title_h] in Ht2.
    pose proof (slot_at g2 id Hi2 Hr) as Hs2. assert (Hk2 : kept 0 g g2) by (split; [done|lia]).
    destruct (status =? 0); cbn [negb Z.eqb snd].
    + apply kept_damage. apply kept_upd_win; [done|done|by apply slot_push].
    + apply kept_upd_win; [done|done|]. split_and!; try done. apply slot_bounds; try done; lia.
  - destruct (negb _ || negb _) eqn:Hsz; [|apply size_unchanged in Hsz; [lia|done|lia|lia]].
    unfold on_backing. rewrite Hat. unfold gui_window_reset_backing, gui_window_backing_size.
    change (content_h (set_bounds (win g id) x y ww h)) with (if h >? w_title_h (win g id) then h - w_title_h (win g id) else 0).
    destruct (Z.gtb_spec h (w_title_h (win g id))); [lia|]. cbn [Z.eqb]. destruct ((w_w (set_bounds (win g id) x y ww h) =? 0) || (w_h (set_bounds (win g id) x y ww h) =? 0)); cbn [negb Z.eqb snd];
      (split; [|change (next g <= next g + 0); lia]); (eapply inv_same; [exact Hi| | | | | | | | | |]); try done;
      try (destruct di_damage0; by split); unfold g1, upd_win, upd_desk, with_desk, put_win, win, win_at;
      cbn [desk set_windows d_windows gui_refresh_cursor_shape set_cursor_state];
      rewrite !list_insert_insert_eq; rewrite list_lookup_insert_eq by (rewrite ?length_insert; unfold GUI_MAX_WINDOWS in *; lia);
      exact Hins.
Qed.

Lemma minimize_kept id g : gui_inv g -> 0 <= id -> kept 0 g (snd (gui_window_minimize id g)).
Proof.
  intros Hi Hid. unfold gui_window_minimize. destruct (Z.geb_spec id GUI_MAX_WINDOWS); [by apply kept_refl|].
  destruct (_ || _) eqn:Hg; [by apply kept_refl|]. b2p. cbn [snd]. apply kept_redraw, kept_upd_win; [by apply kept_refl|lia|].
  assert (Hs : slot_ok fb (next g) (set_minimized (win g id) true)).
  { destruct (slot_at g id Hi ltac:(lia)). split; try done. intros Hu. destruct (sl_live0 Hu). by split. }
  destruct (slot_push _ _ GUI_EVENT_MINIMIZE 0 0 Hs) as (S1 & S2 & S3 & S4). done.
Qed.

Lemma win_raised g i d :
  d_windows d = d_windows (desk g) -> length (d_windows d) = 16%nat -> 0 <= i < GUI_MAX_WINDOWS ->
  forall z, win_at (put_win i (set_z (win_at d i) z) d) i = set_z (win g i) z.
Proof. intros Ed Hl Hr z. rewrite win_at_put by (done || lia). rewrite Z.eqb_refl. unfold win, win_at. by rewrite Ed. Qed.

Lemma u32_next g : gui_inv g -> next g < UINT32_MAX -> u32 (next g + 1) <= next g + 1.
Proof. intros Hi Hn. pose proof (di_next _ _ _ _ Hi). unfold next, UINT32_MAX in *. rewrite u32_id by lia. lia. Qed.

Lemma restore_kept id g : gui_inv g -> next g < UINT32_MAX -> 0 <= id -> kept 1 g (snd (gui_window_restore id g)).
Proof.
  intros Hi Hn Hid. unfold gui_window_restore. destruct (Z.geb_spec id GUI_MAX_WINDOWS); [by apply kept_refl|].
  destruct (_ || _) eqn:Hg; [by apply kept_refl|]. b2p. cbn [snd]. apply kept_redraw.
  assert (Hr : 0 <= id < GUI_MAX_WINDOWS) by lia. set (g1 := upd_win id (fun w => set_minimized w false) g).
  assert (Hk1 : kept 0 g g1 /\ next g1 = next g).
  { split; [|done]. apply kept_upd_win; [by apply kept_refl|done|]. destruct (slot_at g id Hi Hr). split_and!; try done.
    split; try done. intros Hu. destruct (sl_live0 Hu). by split. }
  assert (Hu1 : w_used (win g1 id) = true).
  { unfold g1, win. cbn [upd_win upd_desk with_desk desk]. rewrite win_at_put by (apply Hi || done || lia). rewrite Z.eqb_refl. done. }
  clearbody g1. destruct Hk1 as [[Hi1 _] Hn1]. set (g2 := if negb _ then _ else _).
  assert (Hk2 : gui_inv g2 /\ next g2 = next g /\ w_used (win g2 id) = true).
  { unfold g2. destruct (negb _); [|done]. split_and!; try done. apply inv_upd_desk, inv_focus; [done|]. by right. }
  clearbody g2. destruct Hk2 as (Hi2 & Hn2 & Hu2). apply kept_upd_win; [|done|].
  - split; [|unfold next; cbn; change (d_next_z (desk g2)) with (next g2); rewrite Hn2; by apply u32_next].
    apply inv_upd_desk. apply inv_raise; try done. unfold next in *. lia.
  - apply slot_push. assert (Hi3 : desk_inv fb rest (put_win id (set_z (win_at (desk g2) id) (d_next_z (desk g2))) (set_next_z (desk g2) (u32 (d_next_z (desk g2) + 1)))) (g_heap g2)).
    { apply inv_raise; try done. unfold next in *. lia. }
    apply (di_slot _ _ _ _ Hi3). done.
Qed.

Lemma kept_damage_window n g0 g w : kept n g0 g -> kept n g0 (damage_window w g).
Proof. apply kept_damage. Qed.

Lemma focus_kept id g : gui_inv g -> next g < UINT32_MAX -> 0 <= id -> kept 1 g (snd (gui_focus_window id g)).
Proof.
  intros Hi Hn Hid. unfold gui_focus_window. destruct (_ || _) eqn:Hg; [by apply kept_refl|]. b2p.
  destruct (_ &? _); [cbn [snd]; by apply kept_damage, kept_refl|]. cbn [snd].
  set (g1 := upd_desk gui_refresh_cursor_shape _).
  assert (Hk : kept 1 g g1).
  { apply kept_refresh. split; [|unfold next; cbn; by apply u32_next].
    apply inv_upd_desk. change (desk_inv fb rest (set_focused (put_win id (set_z (win_at (desk g) id) (d_next_z (desk g)))
      (set_next_z (desk g) (u32 (d_next_z (desk g) + 1)))) id) (g_heap g)).
    apply inv_focus; [apply inv_raise; try done; lia|]. right. split; [lia|].
    rewrite win_at_put; [by rewrite Z.eqb_refl|apply (di_len _ _ _ _ Hi)|lia|lia]. }
  clearbody g1. apply kept_damage_window. destruct (_ && _); [by apply kept_damage_window|done].
Qed.

Lemma shape_kept shape g : gui_inv g -> kept 0 g (snd (gui_set_cursor_shape shape g)).
Proof.
  intros Hi. unfold gui_set_cursor_shape. destruct (_ && _); [by apply kept_refl|]. cbn [snd]. split; [|unfold next; cbn; lia].
  pose proof Hi as []. apply inv_upd_desk, inv_cursor; [done|cbn; lia..].
Qed.

Lemma region_kept id slot x y ww h shape g : gui_inv g -> 0 <= id -> kept 0 g (snd (gui_register_cursor_region id slot x y ww h shape g)).
Proof.
  intros Hi Hid. unfold gui_register_cursor_region. destruct (_ || _) eqn:Hg; [by apply kept_refl|]. b2p.
  destruct (negb (w_used (win g id))); [by apply kept_refl|].
  assert (Hput : forall r, let g1 := upd_win id (fun w => set_regions w (<[Z.to_nat slot := r]> (w_regions w))) g in
    kept 0 g (if id =? d_focused (desk g1) then upd_desk gui_refresh_cursor_shape g1 else g1)).
  { intros r g1. assert (Hk : kept 0 g g1).
    { apply kept_upd_win; [by apply kept_refl|lia|]. destruct (slot_at g id Hi ltac:(lia)). split_and!; try done.
      split; try done; [cbn; by rewrite length_insert|]. intros Hu. destruct (sl_live0 Hu). by split. }
    destruct (_ =? _); [by apply kept_refresh|done]. }
  cbv zeta in *. destruct (shape =? GUI_CURSOR_REGION_DELETE); [apply Hput|].
  destruct (_ && _); [by apply kept_refl|]. destruct (_ || _); [by apply kept_refl|apply Hput].
Qed.
End Preserve.
