(* ===== verification/GuiInput.v ===== *)
(** Input to the desktop: which window a point hits, and the invariant of the
    desktop under pointer, key and drawing calls, in any order. *)

From S2P Require Import Prelude.
From S2P Require Import Bytes.
From S2P Require Import PageAlloc.
From S2P Require Import Kheap.
From S2P Require Import ProcessRegions.
From S2P Require Import Input.
From S2P Require Import Framebuffer.
From S2P Require Import Gui.
From S2P Require Import GuiDraw.
From S2P Require Import GuiPaint.
From S2P Require Import GuiScene.
From S2P Require Import GuiState.
From S2P Require Import GuiInv.
Open Scope arm.

(** * Hit testing *)

(** A window that can be hit at (x, y). *)
Definition under (d : gui_desktop) (x y i : Z) : Prop :=
  0 <= i < GUI_MAX_WINDOWS /\ w_minimized (win_at d i) = false /\ gui_window_contains (win_at d i) x y = true.

Lemma hit_test_spec d x y :
  match gui_hit_test d x y with
  | Some i => under d x y i /\ forall j, under d x y j -> w_z (win_at d j) <= w_z (win_at d i)
  | None => forall j, ~ under d x y j
  end.
Proof.
  unfold gui_hit_test.
  set (P k (acc : option Z * Z) := match acc with
    | (Some i, z) => under d x y i /\ z = w_z (win_at d i) /\ forall j, j < k -> under d x y j -> w_z (win_at d j) <= z
    | (None, _) => forall j, j < k -> ~ under d x y j end).
  match goal with |- context [fst ?e] => assert (HP : P GUI_MAX_WINDOWS e) end.
  - apply for_range_ind; [unfold GUI_MAX_WINDOWS; lia|intros j Hj [Hr _]; lia|].
    intros i [best z] Hr Hacc.
    assert (Hsplit : forall j, j < i + 1 -> under d x y j -> j = i \/ j < i) by (intros; lia).
    destruct (w_minimized (win_at d i)) eqn:Hm; [|destruct (gui_window_contains (win_at d i) x y) eqn:Hc].
    1, 3: destruct best as [b|]; [destruct Hacc as (Hb & -> & Hmax); split_and!; try done|]; intros j Hj Hu;
      (destruct (Hsplit j Hj Hu) as [->|Hlt]; [destruct Hu as (_ & ? & ?); congruence|]); [by apply Hmax|by eapply Hacc].
    assert (Hi : under d x y i) by done.
    destruct best as [b|]; cbn [bool_decide orb].
    + destruct Hacc as (Hb & -> & Hmax). rewrite bool_decide_eq_false_2 by done. cbn [orb].
      destruct (Z.geb_spec (w_z (win_at d i)) (w_z (win_at d b))); (split_and!; [done|done|]); intros j Hj Hu;
        (destruct (Hsplit j Hj Hu) as [->|Hlt]; [lia|]); specialize (Hmax j Hlt Hu); lia.
    + rewrite bool_decide_eq_true_2 by done. cbn [orb]. split_and!; [done|done|]. intros j Hj Hu.
      destruct (Hsplit j Hj Hu) as [->|Hlt]; [lia|by destruct (Hacc j Hlt)].
  - destruct (for_range _ _ _ _) as [[i|] z]; cbn [fst].
    + destruct HP as (Hi & -> & Hmax). split; [done|]. intros j Hj. apply Hmax; [apply Hj|done].
    + intros j Hj. by apply (HP j); [apply Hj|].
Qed.

Section Input.
Context {H : Type} `{KernelHeapLaws H} (fb : fb_t) (Hfb : fb_ok fb) (rest : list (Z * Z)).
Context (owner_state : Z -> option process_state).
Implicit Types (d : gui_desktop) (hp : H) (w : gui_window) (g : gui H).
Abbreviation gui_inv := (gui_inv fb rest).
Abbreviation kept := (kept fb rest).

Lemma hit_range d x y i : gui_hit_test d x y = Some i -> under d x y i.
Proof. intros E. pose proof (hit_test_spec d x y) as Hs. rewrite E in Hs. by destruct Hs. Qed.

Lemma under_used d x y i : under d x y i -> w_used (win_at d i) = true.
Proof. intros (_ & _ & Hc). unfold gui_window_contains in Hc. by b2p. Qed.

(** ** Pointer calls *)

Lemma kept_trans n k g0 g1 g2 : kept n g0 g1 -> kept k g1 g2 -> kept (n + k) g0 g2.
Proof. intros [? ?] [? ?]. split; [done|lia]. Qed.

Lemma clamp_range x bound : 0 < bound < 2 ^ 30 -> - 2 ^ 32 < x < 2 ^ 32 ->
  let x1 := if x <? 0 then 0 else x in
  0 <= (if u32 x1 >=? bound then i32 bound - 1 else x1) < bound.
Proof.
  intros Hb Hx. cbv zeta. rewrite i32_id by lia. destruct (Z.ltb_spec x 0); rewrite u32_id by lia; destruct (_ >=? bound) eqn:E; b2p; lia.
Qed.

Lemma set_cursor_kept x y g :
  gui_inv g -> - 2 ^ 32 < x < 2 ^ 32 -> - 2 ^ 32 < y < 2 ^ 32 -> kept 0 g (gui_set_cursor x y g).
Proof.
  intros Hi Hx Hy. unfold gui_set_cursor. rewrite (di_fb _ _ _ _ Hi). cbv zeta. apply kept_damage, kept_damage, kept_refresh; try done.
  split; [|unfold next; cbn; lia]. pose proof Hi as []. pose proof Hfb as [].
  apply inv_upd_desk, inv_cursor; [done|apply clamp_range; lia..].
Qed.

(** A relative motion the adder of gui_cursor_move does not overflow on. *)
Definition small_move (dx dy : Z) : Prop := - 2 ^ 31 <= dx <= 2 ^ 30 /\ - 2 ^ 31 <= dy <= 2 ^ 30.

Lemma cursor_move_kept dx dy g : gui_inv g -> small_move dx dy -> kept 0 g (gui_cursor_move dx dy g).
Proof. intros Hi [? ?]. pose proof Hi as []. pose proof Hfb as []. apply set_cursor_kept; [done|lia..]. Qed.

Lemma drag_start_kept id off_x off_y g :
  gui_inv g -> 0 <= id -> 0 <= off_x -> 0 <= off_y -> kept 0 g (gui_drag_start id off_x off_y g).
Proof.
  intros Hi Hid Hx Hy. unfold gui_drag_start. destruct (_ || _) eqn:Hg; [by apply kept_refl|]. b2p.
  destruct (_ &? _); [by apply kept_refl|]. destruct (_ && _); [by apply kept_refl|].
  split; [|unfold next; cbn; lia]. apply inv_upd_desk, inv_drag; [done|]. right. lia.
Qed.

Lemma drag_end_kept n g0 g : kept n g0 g -> kept n g0 (upd_desk drag_end g).
Proof. intros [? ?]. split; [|done]. apply inv_upd_desk, inv_drag; [done|by left]. Qed.

Lemma drag_update_kept x y g :
  gui_inv g -> 0 <= x < fb_width fb -> 0 <= y < fb_height fb -> kept 0 g (gui_drag_update x y g).
Proof.
  intros Hi Hx Hy. unfold gui_drag_update. destruct (Z.eqb_spec (d_drag_id (desk g)) GUI_NO_WINDOW) as [|Hne]; [by apply kept_refl|].
  destruct (negb _) eqn:Hu; [by apply drag_end_kept, kept_refl|]. b2p.
  destruct (di_drag _ _ _ _ Hi) as [?|(Hr & Hox & Hoy)]; [done|]. cbv zeta.
  pose proof (live_self fb rest g _ Hi Hr Hu) as []. pose proof Hfb as [].
  assert (Hc : forall v off hi, 0 <= off -> 0 <= v < hi -> hi < 2 ^ 30 -> 0 <= u32 (if v - off <? 0 then 0 else v - off) < hi).
  { intros v off hi ? ? ?. destruct (Z.ltb_spec (v - off) 0); rewrite u32_id by lia; lia. }
  unfold damage_union. apply kept_damage; [done|]. apply kept_refresh, kept_upd_win; [by apply kept_refl|done|].
  split_and!; try done. apply slot_bounds; [by apply (slot_at fb rest g)|apply Hc; lia..|done|done|by destruct lo_title_h].
Qed.

Lemma set_buttons_kept n g0 g buttons :
  kept n g0 g -> kept n g0 (upd_desk (fun d => set_cursor_state d (set_buttons (d_cursor d) buttons)) g).
Proof. intros [Hi ?]. split; [|done]. apply inv_upd_desk, inv_cursor; [done|apply (di_cursor _ _ _ _ Hi)..]. Qed.

Lemma cursor_button_kept button pressed g :
  gui_inv g -> next g < UINT32_MAX -> kept 1 g (gui_cursor_button button pressed g).
Proof.
  intros Hi Hn. unfold gui_cursor_button. destruct (button >? 2); [by apply kept_refl|]. cbv zeta.
  set (g1 := upd_desk _ g). assert (Hk : kept 0 g g1) by (by apply set_buttons_kept, kept_refl).
  assert (Hn1 : next g1 = next g) by done. clearbody g1.
  destruct (_ || _); [destruct Hk; split; [done|lia]|].
  destruct (gui_hit_test (desk g1) _ _) as [hit|] eqn:E.
  - pose proof (hit_range _ _ _ _ E) as [Hr _]. destruct (focus_kept fb Hfb rest hit g1 (proj1 Hk)) as [? ?]; [lia..|].
    split; [done|lia].
  - destruct Hk. split; [|unfold next in *; cbn; lia]. apply inv_upd_desk, inv_focus; [done|by left].
Qed.

(** ** Input events *)

Lemma press_window_kept hit x y g :
  gui_inv g -> x = c_x (d_cursor (desk g)) -> y = c_y (d_cursor (desk g)) -> under (desk g) x y hit ->
  kept 0 g (press_window owner_state hit g).
Proof.
  intros Hi -> -> Hu. destruct Hu as (Hr & Hm & Hc). unfold press_window. cbv zeta.
  destruct (gui_hit_test_decoration _ _ _) as [[]|].
  - apply minimize_kept; [done..|lia].
  - by apply kept_push, Hr; apply kept_refl.
  - destruct (gui_window_owner_dead owner_state (win g hit)); [apply destroy_kept; [done..|lia]|by apply kept_push, Hr; apply kept_refl].
  - apply kept_push, Hr. unfold gui_window_contains in Hc. b2p. pose proof (live_self fb rest g _ Hi Hr ltac:(done)) as [].
    pose proof Hfb as []. unfold win in *. assert (i32 (w_x (win_at (desk g) hit)) = w_x (win_at (desk g) hit) /\ i32 (w_y (win_at (desk g) hit)) = w_y (win_at (desk g) hit))
      as [Ex Ey] by (split; apply i32_id; lia). rewrite Ex, Ey in *. apply drag_start_kept; [done|lia..].
Qed.

Lemma dispatch_kept event g : gui_inv g -> kept 0 g (snd (gui_dispatch_input event g)).
Proof.
  intros Hi. assert (Hk : kept 0 g g) by (by apply kept_refl).
  assert (Hkey : forall type key, kept 0 g (snd (dispatch_key type key g))).
  { intros type key. unfold dispatch_key. destruct (_ && _) eqn:E; [|done]. b2p. apply kept_push; [done|].
    destruct (di_focus _ _ _ _ Hi) as [?|[? _]]; [|done]. unfold GUI_NO_WINDOW, GUI_MAX_WINDOWS in *. lia. }
  destruct event; cbn [gui_dispatch_input]; [apply Hkey|apply Hkey| |done].
  destruct (gui_hit_test _ _ _) as [hit|] eqn:E; [|done]. apply kept_push; [done|]. by apply hit_range in E as [? _].
Qed.

Definition event_ok (event : input_event) : Prop :=
  match event with MouseMove dx dy => small_move dx dy | _ => True end.

Lemma push_focused_kept g0 g type data1 data2 :
  kept 0 g0 g -> (d_focused (desk g) =? GUI_NO_WINDOW) = false ->
  kept 0 g0 (snd (push_to (d_focused (desk g)) type data1 data2 g)).
Proof. intros Hk E. apply kept_push; [done|]. b2p. by destruct (di_focus _ _ _ _ (proj1 Hk)) as [?|[? _]]. Qed.

Lemma kept_more n k g0 g : kept n g0 g -> n <= k -> kept k g0 g.
Proof. intros [? ?] ?. split; [done|lia]. Qed.

Lemma follow_drag_kept g0 g : kept 0 g0 g -> kept 0 g0 (follow_drag g).
Proof.
  intros Hk. apply (kept_trans 0 0 _ _ _ Hk). unfold follow_drag. destruct (negb _); [|apply kept_refl; [lia|apply Hk]].
  apply drag_update_kept; [apply Hk|apply (di_cursor _ _ _ _ (proj1 Hk))..].
Qed.

Lemma snd_pair {X Y} (x : X) (y : Y) : snd (x, y) = y.
Proof. reflexivity. Qed.

Lemma mouse_move_eq dx dy g :
  gui_handle_desktop_input owner_state (MouseMove dx dy) g =
  (0, snd (gui_dispatch_input (MouseMove dx dy) (follow_drag (gui_cursor_move dx dy g)))).
Proof. reflexivity. Qed.

Lemma mouse_move_kept dx dy g :
  gui_inv g -> small_move dx dy -> kept 0 g (snd (gui_handle_desktop_input owner_state (MouseMove dx dy) g)).
Proof.
  intros Hi Hm. rewrite mouse_move_eq, snd_pair.
  pose proof (follow_drag_kept g _ (cursor_move_kept dx dy g Hi Hm)) as Hk.
  revert Hk. generalize (follow_drag (gui_cursor_move dx dy g)). intros g1 Hk.
  apply (kept_trans 0 0 _ _ _ Hk), dispatch_kept, Hk.
Qed.

Lemma key_press_kept key g : gui_inv g -> kept 0 g (snd (gui_handle_desktop_input owner_state (KeyPress key) g)).
Proof.
  intros Hi. unfold gui_handle_desktop_input. set (g1 := upd_desk _ g). assert (Hk : kept 0 g g1).
  { split; [by apply inv_upd_desk, inv_ensure|]. unfold g1, next. cbn [desk upd_desk with_desk]. rewrite next_ensure. lia. }
  clearbody g1. destruct (_ =? _) eqn:E; cbn [negb snd]; [done|by apply push_focused_kept].
Qed.

Lemma key_release_kept key g : gui_inv g -> kept 0 g (snd (gui_handle_desktop_input owner_state (KeyRelease key) g)).
Proof.
  intros Hi. unfold gui_handle_desktop_input. destruct (_ =? _) eqn:E; cbn [negb snd]; [by apply kept_refl|].
  apply push_focused_kept; [by apply kept_refl|done].
Qed.

Lemma mouse_button_kept button pressed g :
  gui_inv g -> next g < UINT32_MAX -> kept 1 g (snd (gui_handle_desktop_input owner_state (MouseButton button pressed) g)).
Proof.
  intros Hi Hn. unfold gui_handle_desktop_input. pose proof (cursor_button_kept button pressed g Hi Hn) as Hk.
  revert Hk. generalize (gui_cursor_button button pressed g). intros g1 Hk.
  destruct (button =? 0); [|exact Hk]. destruct (negb _); [|by apply drag_end_kept].
  destruct (gui_hit_test _ _ _) as [hit|] eqn:E; [|exact Hk]. cbn [snd]. apply hit_range in E.
  exact (kept_trans 1 0 _ _ _ Hk (press_window_kept hit _ _ g1 (proj1 Hk) eq_refl eq_refl E)).
Qed.

Lemma handle_input_kept event g :
  gui_inv g -> next g < UINT32_MAX -> (forall e, event = Some e -> event_ok e) ->
  kept 1 g (snd (gui_handle_input owner_state event g)).
Proof.
  intros Hi Hn He. unfold gui_handle_input. destruct (negb _); [by apply kept_refl|].
  destruct event as [e|]; [|by apply kept_refl]. specialize (He e eq_refl).
  destruct e; [apply (kept_more 0); [by apply key_press_kept|lia]|apply (kept_more 0); [by apply key_release_kept|lia]|
    apply (kept_more 0); [by apply mouse_move_kept|lia]|by apply mouse_button_kept].
Qed.

(** ** Drawing into a window *)

Lemma kept_px n g0 g m : kept n g0 g -> kept n g0 (with_px g m).
Proof. done. Qed.

Lemma prepare_kept id g :
  gui_inv g -> 0 <= id < GUI_MAX_WINDOWS -> w_used (win g id) = true -> kept 0 g (snd (prepare_drawing id g)).
Proof.
  intros Hi Hr Hu. unfold prepare_drawing.
  pose proof (on_backing_kept fb rest gui_window_ensure_backing id g (or_introl eq_refl) Hi Hr Hu) as Hb.
  destruct (on_backing _ _ _) as [status g1]. destruct Hb as (Hk & _). destruct (negb _); [done|]. cbn [snd].
  apply kept_upd_win; [done|done|]. destruct (slot_at fb rest g1 id (proj1 Hk) Hr). split_and!; try done.
  split; try done. intros Hu1. destruct (sl_live Hu1). by split.
Qed.

Ltac drawing :=
  match goal with |- context [prepare_drawing ?id ?g] =>
    let Hp := fresh in pose proof (prepare_kept id g ltac:(done) ltac:(lia) ltac:(done)) as Hp;
    destruct (prepare_drawing id g) as [status g1]; cbn [snd] in Hp; destruct (negb (status =? 0)); [done|]
  end.

Lemma draw_text_kept id x y text color g : gui_inv g -> 0 <= id -> kept 0 g (snd (gui_window_draw_text id x y text color g)).
Proof.
  intros Hi Hid. destruct text as [text|]; [|by apply kept_refl]. cbn [gui_window_draw_text].
  destruct (_ || _) eqn:Hg; [by apply kept_refl|]. b2p. drawing. cbv zeta. destruct (_ || _); [done|]. by apply kept_damage.
Qed.

Lemma draw_rect_kept id x y ww h color g : gui_inv g -> 0 <= id -> kept 0 g (snd (gui_window_draw_rect id x y ww h color g)).
Proof.
  intros Hi Hid. unfold gui_window_draw_rect. destruct (_ || _) eqn:Hg; [by apply kept_refl|]. b2p.
  destruct (_ || _); [by apply kept_refl|]. drawing. cbv zeta. destruct (clip_bounds _ _ _ _ _) as [[[x0 y0] x1] y1].
  destruct (_ || _); [done|]. by apply kept_damage.
Qed.

Lemma clear_kept id color g : gui_inv g -> 0 <= id -> kept 0 g (snd (gui_window_clear id color g)).
Proof.
  intros Hi Hid. unfold gui_window_clear. destruct (_ || _) eqn:Hg; [by apply kept_refl|]. b2p. drawing.
  cbv zeta. by apply kept_damage.
Qed.

Lemma kept_ring n g0 g id :
  kept n g0 g -> 0 <= id < GUI_MAX_WINDOWS -> kept n g0 (upd_win id (fun w => snd (gui_window_pop_event w)) g).
Proof.
  intros Hk Hr. apply kept_upd_win; [done|done|]. pose proof (slot_at fb rest g id (proj1 Hk) Hr) as Hs. pose proof Hs as [].
  destruct (w_used (win g id)) eqn:Hu; [|unfold gui_window_pop_event; rewrite Hu; done].
  pose proof (pop_event_queue _ sl_ring Hu) as Hp. destruct (gui_window_pop_event _) as [e w1]. cbn [snd].
  destruct Hp as (Hr1 & (ev & h & t & c & ->) & _). split_and!; try done. split; try done; intros Hu1.
  - destruct (sl_live eq_refl). by split.
  - cbn in Hu1. congruence.
Qed.

(** * Calls in any order *)

(** One call of the rest of the kernel into the window system. *)
Inductive gui_op :=
  | OpCreate (pid x y w h bg border : Z) (title : option (list Z))
  | OpDestroy (id : Z)
  | OpExit (pid : Z)
  | OpTitle (id : Z) (title : option (list Z))
  | OpTitleBar (id title_h : Z)
  | OpFlags (id flags : Z)
  | OpMove (id x y : Z)
  | OpResize (id x y w h : Z)
  | OpMinimize (id : Z)
  | OpRestore (id : Z)
  | OpFocus (id : Z)
  | OpCursorShape (shape : Z)
  | OpCursorRegion (id slot x y w h shape : Z)
  | OpInput (event : option input_event)
  | OpText (id x y : Z) (text : option (list Z)) (color : Z)
  | OpRect (id x y w h color : Z)
  | OpClear (id color : Z)
  | OpPoll (id : Z)
  | OpRedraw
  | OpClearDirty.

Definition gui_step g (op : gui_op) : gui H :=
  match op with
  | OpCreate pid x y w h bg border title => snd (gui_create_window_for_pid pid x y w h bg border title g)
  | OpDestroy id => snd (gui_destroy_window id g)
  | OpExit pid => gui_destroy_windows_for_pid pid g
  | OpTitle id title => snd (gui_window_set_title_internal id title g)
  | OpTitleBar id title_h => snd (gui_window_set_title_bar_internal id title_h g)
  | OpFlags id flags => snd (gui_window_set_flags_internal id flags g)
  | OpMove id x y => snd (gui_move_window id x y g)
  | OpResize id x y w h => snd (gui_resize_window id x y w h g)
  | OpMinimize id => snd (gui_window_minimize id g)
  | OpRestore id => snd (gui_window_restore id g)
  | OpFocus id => snd (gui_focus_window id g)
  | OpCursorShape shape => snd (gui_set_cursor_shape shape g)
  | OpCursorRegion id slot x y w h shape => snd (gui_register_cursor_region id slot x y w h shape g)
  | OpInput event => snd (gui_handle_input owner_state event g)
  | OpText id x y text color => snd (gui_window_draw_text id x y text color g)
  | OpRect id x y w h color => snd (gui_window_draw_rect id x y w h color g)
  | OpClear id color => snd (gui_window_clear id color g)
  | OpPoll id => if id <? GUI_MAX_WINDOWS then upd_win id (fun w => snd (gui_window_pop_event w)) g else g
  | OpRedraw => gui_request_redraw g
  | OpClearDirty => gui_clear_dirty g
  end.

(** The unsigned arguments are not negative; the pointer's step does not
    overflow the pointer. *)
Definition op_ok (op : gui_op) : Prop :=
  match op with
  | OpCreate _ x y _ _ _ _ _ => 0 <= x /\ 0 <= y
  | OpDestroy id | OpTitle id _ | OpFlags id _ | OpMinimize id | OpRestore id | OpFocus id | OpPoll id
  | OpCursorRegion id _ _ _ _ _ _ | OpText id _ _ _ _ | OpRect id _ _ _ _ _ | OpClear id _ => 0 <= id
  | OpTitleBar id title_h => 0 <= id /\ 0 <= title_h
  | OpMove id x y | OpResize id x y _ _ => 0 <= id /\ 0 <= x /\ 0 <= y
  | OpInput (Some event) => event_ok event
  | OpExit _ | OpCursorShape _ | OpInput None | OpRedraw | OpClearDirty => True
  end.

Lemma gui_step_kept g op : gui_inv g -> next g < UINT32_MAX -> op_ok op -> kept 1 g (gui_step g op).
Proof.
  intros Hi Hn Ho. destruct op; cbn [gui_step op_ok] in *; destruct_and?.
  - by apply create_kept.
  - apply (kept_more 0); [by apply destroy_kept|lia].
  - apply (kept_more 0); [by apply exit_kept|lia].
  - apply (kept_more 0); [by apply title_kept|lia].
  - apply (kept_more 0); [by apply title_bar_kept|lia].
  - apply (kept_more 0); [by apply flags_kept|lia].
  - apply (kept_more 0); [by apply move_kept|lia].
  - apply (kept_more 0); [by apply resize_kept|lia].
  - apply (kept_more 0); [by apply minimize_kept|lia].
  - by apply restore_kept.
  - by apply focus_kept.
  - apply (kept_more 0); [by apply shape_kept|lia].
  - apply (kept_more 0); [by apply region_kept|lia].
  - apply handle_input_kept; [done..|]. intros e ->. exact Ho.
  - apply (kept_more 0); [by apply draw_text_kept|lia].
  - apply (kept_more 0); [by apply draw_rect_kept|lia].
  - apply (kept_more 0); [by apply clear_kept|lia].
  - destruct (Z.ltb_spec id GUI_MAX_WINDOWS); [|by apply kept_refl]. apply kept_ring; [by apply kept_refl|done].
  - by apply kept_redraw, kept_refl.
  - unfold gui_clear_dirty. cbn [g_active]. destruct (g_active g); (split; [|unfold next; cbn; lia]); [by apply inv_damage_full|done].
Qed.

Definition gui_run g (ops : list gui_op) : gui H := foldl gui_step g ops.

Lemma gui_run_kept ops : forall g,
  gui_inv g -> next g + Z.of_nat (length ops) <= UINT32_MAX -> Forall op_ok ops -> gui_inv (gui_run g ops).
Proof.
  induction ops as [|op ops IH]; intros g Hi Hn Ho; [done|]. cbn [length] in Hn. apply Forall_cons in Ho as [Hop Ho].
  destruct (gui_step_kept g op Hi ltac:(lia) Hop) as [Hi1 Hn1]. apply IH; [done|lia|done].
Qed.
End Input.
