(* ===== verification/GuiSafety.v ===== *)
(** What the desktop promises: its state stays consistent under any sequence
    of calls, the pointer hits the window the user sees, and the two places
    where the window code breaks a promise. *)

From stdpp Require Import sorting.
From S2P Require Import Prelude.
From S2P Require Import Bytes.
From S2P Require Import ProcessRegions.
From S2P Require Import Input.
From S2P Require Import Framebuffer.
From S2P Require Import Gui.
From S2P Require Import GuiDraw.
From S2P Require Import GuiPaint.
From S2P Require Import GuiScene.
From S2P Require Import GuiState.
From S2P Require Import GuiInv.
From S2P Require Import GuiInput.
Open Scope arm.

(** * The start *)

(** The slots of the desktop before gui_init: the arrays have their size and
    no backing buffer is recorded. *)
Definition blank_slots (d : gui_desktop) : Prop :=
  length (d_windows d) = 16%nat /\
  Forall (fun w => length (w_events w) = Z.to_nat GUI_EVENT_QUEUE_SIZE /\ length (w_regions w) = 8%nat) (d_windows d).

(** gui_init leaves every slot cleared. *)
Definition cleared (w : gui_window) : Prop :=
  w_used w = false /\ w_backing w = 0 /\ w_title w = no_title /\ w_event_head w = 0 /\ w_event_tail w = 0 /\ w_event_count w = 0 /\
  length (w_events w) = Z.to_nat GUI_EVENT_QUEUE_SIZE /\ length (w_regions w) = 8%nat.

Lemma cleared_slot fb nz w : cleared w -> slot_ok fb nz w.
Proof.
  intros (Hu & Hb & Ht & Hh & Htl & Hc & He & Hr). split; try done.
  - unfold ring_of. rewrite Hh, Htl, Hc. split; try done; rewrite ?He; done.
  - by rewrite Ht.
  - congruence.
Qed.

Lemma init_cleared d fb bg :
  blank_slots d -> fb_pixels fb <> 0 ->
  let d' := snd (gui_init d fb bg) in
  length (d_windows d') = 16%nat /\ forall i, 0 <= i < GUI_MAX_WINDOWS -> cleared (win_at d' i).
Proof.
  intros [Hl Hs] Hp. unfold gui_init. rewrite (proj2 (Z.eqb_neq _ _) Hp). cbn [snd]. cbv zeta. unfold win_at. cbn [d_windows].
  match goal with |- context [for_range 0 _ ?f _] => set (step := f) end.
  set (P k (ws : list gui_window) := length ws = 16%nat /\ (forall i, 0 <= i < k -> cleared (default empty_window (ws !! Z.to_nat i))) /\
    forall i, k <= i -> ws !! Z.to_nat i = d_windows d !! Z.to_nat i).
  assert (HP : P GUI_MAX_WINDOWS (for_range 0 GUI_MAX_WINDOWS step (d_windows d))).
  { apply for_range_ind; [unfold GUI_MAX_WINDOWS; lia|split_and!; [done|intros; lia|done]|].
    unfold GUI_MAX_WINDOWS. intros i ws Hi (Hlen & Hlo & Hhi). unfold step. split_and!; [by rewrite length_insert| |].
    - intros j Hj. destruct (decide (j = i)) as [->|].
      + rewrite list_lookup_insert_eq by lia. cbn [default]. rewrite Hhi by lia.
        destruct (d_windows d !! Z.to_nat i) as [w|] eqn:E; [|by apply lookup_ge_None in E; lia]. cbn [default].
        destruct (proj1 (Forall_lookup _ _) Hs _ _ E). by unfold cleared.
      + rewrite list_lookup_insert_ne by lia. apply Hlo. lia.
    - intros j Hj. rewrite list_lookup_insert_ne by lia. apply Hhi. lia. }
  destruct HP as (? & ? & _). done.
Qed.

Lemma no_backings d :
  length (d_windows d) = 16%nat -> (forall i, 0 <= i < GUI_MAX_WINDOWS -> cleared (win_at d i)) -> backings (d_windows d) = [].
Proof.
  intros Hl Hc. assert (HF : Forall (fun w => w_backing w = 0) (d_windows d)).
  { apply Forall_lookup. intros i w E. assert (Hi : (i < 16)%nat) by (rewrite <- Hl; apply lookup_lt_is_Some; eauto).
    specialize (Hc (Z.of_nat i)). unfold win_at in Hc. rewrite Nat2Z.id, E in Hc. apply Hc. unfold GUI_MAX_WINDOWS. lia. }
  clear Hl Hc. unfold backings. induction HF as [|w ws E _ IH]; [done|]. cbn [omap list_omap]. rewrite E. exact IH.
Qed.

Section Start.
Context {H : Type} `{KernelHeapLaws H} (fb : fb_t) (Hfb : fb_ok fb) (rest : list (Z * Z)).

Lemma init_inv d bg hp :
  0 < fb_width fb -> 0 < fb_height fb -> blank_slots d -> heap_inv hp rest -> desk_inv fb rest (snd (gui_init d fb bg)) hp.
Proof.
  intros Hw Hh Hb Hp. pose proof Hfb as []. destruct (init_cleared d fb bg Hb ltac:(lia)) as [Hl Hc].
  pose proof (no_backings _ Hl Hc) as Eb. unfold gui_init in *. rewrite (proj2 (Z.eqb_neq (fb_pixels fb) 0)) in * by lia. cbn [snd] in *.
  split; try done.
  - intros i Hi. by apply cleared_slot, Hc.
  - intros i j Hi _ Hu. destruct (Hc i Hi). congruence.
  - by left.
  - by left.
  - cbn. rewrite !i32_id by (split; [pose proof (Z.div_pos (fb_width fb) 2); pose proof (Z.div_pos (fb_height fb) 2)|]; try lia;
      (eapply Z.le_lt_trans; [apply Z.div_le_upper_bound with (q := 2 ^ 30); lia|lia])).
    split; (split; [apply Z.div_pos; lia|apply Z.div_lt; lia]).
  - by rewrite Eb.
Qed.
End Start.

(** * The state stays consistent *)

(** C19: From the state gui_init leaves on a zeroed desktop, any sequence of
    window, drawing, pointer and key calls (fewer than 2^32 - 2 of them, so that
    the stacking counter does not wrap) keeps the desktop consistent: the
    focused window, if any, is in use; no two windows in use share a stacking
    position; each window in use starts on the screen, is no larger than it and
    is taller than its title bar; and the outstanding allocations of the kernel
    heap are exactly the backing buffers of the windows, with whatever was
    allocated before: nothing leaks and no buffer is freed twice. *)
Theorem desktop_stays_consistent {H} `{KernelHeapLaws H} (fb : fb_t) (rest : list (Z * Z)) (owner_state : Z -> option process_state)
    (d : gui_desktop) (bg : Z) (active dirty : bool) (hp : H) (px : gmap Z Z) (ops : list gui_op) :
  fb_ok fb -> 0 < fb_width fb -> 0 < fb_height fb -> blank_slots d -> heap_inv hp rest ->
  Forall op_ok ops -> 1 + Z.of_nat (length ops) <= UINT32_MAX ->
  let g := gui_run owner_state (Gui (snd (gui_init d fb bg)) active dirty hp px) ops in
  (d_focused (desk g) = GUI_NO_WINDOW \/
    (0 <= d_focused (desk g) < GUI_MAX_WINDOWS /\ w_used (win g (d_focused (desk g))) = true)) /\
  (forall i j, 0 <= i < GUI_MAX_WINDOWS -> 0 <= j < GUI_MAX_WINDOWS -> w_used (win g i) = true -> w_used (win g j) = true ->
    w_z (win g i) = w_z (win g j) -> i = j) /\
  (forall i, 0 <= i < GUI_MAX_WINDOWS -> w_used (win g i) = true ->
    0 <= w_x (win g i) < fb_width fb /\ 0 <= w_y (win g i) < fb_height fb /\
    2 <= w_w (win g i) <= fb_width fb /\ 0 <= w_title_h (win g i) < w_h (win g i) /\ w_h (win g i) <= fb_height fb) /\
  heap_inv (g_heap g) (backings (d_windows (desk g)) ++ rest).
Proof.
  intros Hfb Hw Hh Hb Hp Ho Hn g.
  assert (Hi : gui_inv fb rest g).
  { apply gui_run_kept; [done| | |done].
    - by apply init_inv.
    - unfold next. cbn [desk]. destruct Hfb. unfold gui_init. rewrite (proj2 (Z.eqb_neq (fb_pixels fb) 0)) by lia. cbn [snd d_next_z]. lia. }
  clearbody g. pose proof Hi as []. split_and!; [done|done| |done].
  intros i Hr Hu. destruct (sl_live _ _ _ (di_slot i Hr) Hu). unfold win. lia.
Qed.

(** * The pointer hits what the user sees *)

Lemma stack_top {I} (P : I -> paint) l1 i l2 x y :
  (forall j, j ∈ l2 -> P j x y = None) -> P i x y <> None -> stack_paint P (l1 ++ i :: l2) x y = P i x y.
Proof.
  intros Hn Hi. induction l2 as [|j l2 IH] using rev_ind; [rewrite stack_snoc; unfold over; by destruct (P i x y)|].
  rewrite app_comm_cons, app_assoc, stack_snoc. unfold over. rewrite Hn by set_solver. apply IH. set_solver.
Qed.

Lemma under_in_window fb d x y i : fb_ok fb -> scene_ok fb d -> (under d x y i <-> in_window d i x y).
Proof.
  intros Hfb Hd. unfold under, in_window, visible, gui_window_contains. split.
  - intros (Hi & Hm & Hc). destruct (w_used (win_at d i)) eqn:Hu; [|done].
    assert (Hv : visible d i = true) by (unfold visible; by rewrite Hm, Hu).
    destruct (so_win _ _ Hd i Hi Hv). pose proof Hfb as []. rewrite Hm. rewrite !i32_id in Hc by lia. b2p. split_and!; done || lia.
  - intros (Hi & Hv & Hx & Hy). destruct (so_win _ _ Hd i Hi Hv). pose proof Hfb as [].
    destruct (w_used (win_at d i)); [|done]. destruct (w_minimized (win_at d i)); [done|]. rewrite !i32_id by lia. split; [done|]. split; [done|]. px_cases.
Qed.

(** Of the windows that paint a pixel, the one of highest [z] shows. *)
Lemma topmost_shows d (P : Z -> paint) i x y :
  z_ok d -> i ∈ stack_order d -> P i x y <> None ->
  (forall j, j ∈ stack_order d -> P j x y <> None -> w_z (win_at d j) <= w_z (win_at d i)) ->
  stack_paint P (stack_order d) x y = P i x y.
Proof.
  intros [_ Hz] Hi Hp Hmax. pose proof Hi as (l1 & l2 & El)%list_elem_of_split.
  assert (Hss : StronglySorted (z_le d) (stack_order d)) by (apply StronglySorted_merge_sort; apply _).
  assert (Hnd : NoDup (stack_order d)) by (unfold stack_order; rewrite merge_sort_Permutation; apply NoDup_filter, NoDup_seqZ).
  assert (Hj : forall j, j ∈ l2 -> P j x y = None).
  { intros j Hj. destruct (P j x y) eqn:E; [|done]. exfalso.
    assert (Hjs : j ∈ stack_order d) by (rewrite El; set_solver). specialize (Hmax j Hjs ltac:(congruence)).
    rewrite El in Hss, Hnd. apply StronglySorted_app_1_r in Hss. apply StronglySorted_inv in Hss as [_ Hle]. rewrite Forall_forall in Hle.
    apply NoDup_app in Hnd as (_ & _ & Hnd). apply NoDup_cons in Hnd as [Hni _]. specialize (Hle j Hj). unfold z_le in Hle.
    apply stack_order_elem in Hi as [? ?], Hjs as [? ?]. apply Hni. replace i with j; [done|]. apply Hz; [done..|lia]. }
  rewrite El. by apply stack_top.
Qed.

Lemma paints_under fb d m x y j :
  fb_ok fb -> scene_ok fb d -> j ∈ stack_order d -> win_paint m d j (win_at d j) x y <> None -> under d x y j.
Proof.
  intros Hfb Hd Hj Hp. apply stack_order_elem in Hj as [Hr Hv].
  destruct (win_paint_in fb Hfb m d j (win_at d j) (so_win _ _ Hd j Hr Hv) x y Hp) as [Hx Hy].
  exact (proj2 (under_in_window fb d x y j Hfb Hd) (conj Hr (conj Hv (conj Hx Hy)))).
Qed.

(** The window hit shows. *)
Lemma hit_shows fb d m x y i :
  fb_ok fb -> scene_ok fb d -> cursor_paint d x y = None ->
  (forall i, 0 <= i < GUI_MAX_WINDOWS -> visible d i = true -> bar_titled (win_at d i)) -> gui_hit_test d x y = Some i ->
  in_window d i x y /\ win_paint m d i (win_at d i) x y = Some (scene_color fb m d x y).
Proof.
  intros Hfb Hd Hcur Hbar Eh. pose proof (hit_test_spec d x y) as Hs. rewrite Eh in Hs. destruct Hs as [Hi Hmax].
  pose proof (proj1 (under_in_window fb d x y i Hfb Hd) Hi) as Hw. split; [done|].
  pose proof (win_paint_covers fb m d i x y Hd Hw (Hbar i (proj1 Hw) (proj1 (proj2 Hw)))) as Hp.
  assert (Ho : i ∈ stack_order d) by (apply stack_order_elem; split; apply Hw).
  pose proof (topmost_shows d (fun i => win_paint m d i (win_at d i)) i x y (so_z _ _ Hd) Ho Hp
    (fun j Hj Hn => Hmax j (paints_under fb d m x y j Hfb Hd Hj Hn))) as E.
  unfold scene_color, over. rewrite Hcur. unfold windows_paint. rewrite E. revert Hp. cbv beta. generalize (win_paint m d i (win_at d i) x y).
  by intros [c|].
Qed.

(** C22: On a drawable desktop the window a click at (x, y) goes to is the one
    whose picture is on the screen at (x, y), the cursor apart: the colour the
    compositor shows there is the one that window paints. When no window is
    hit, the background shows. *)
Theorem click_hits_what_is_seen (fb : fb_t) (d : gui_desktop) (m : gmap Z Z) (x y : Z) :
  fb_ok fb -> scene_ok fb d -> on_fb fb x y -> cursor_paint d x y = None ->
  (forall i, 0 <= i < GUI_MAX_WINDOWS -> visible d i = true -> bar_titled (win_at d i)) ->
  match gui_hit_test d x y with
  | Some i => win_paint m d i (win_at d i) x y = Some (scene_color fb m d x y)
  | None => scene_color fb m d x y = gradient_color fb d y
  end.
Proof.
  intros Hfb Hd Hxy Hcur Hbar. destruct (gui_hit_test d x y) as [i|] eqn:Eh; [by apply hit_shows|].
  pose proof (hit_test_spec d x y) as Hs. rewrite Eh in Hs. unfold scene_color, over. rewrite Hcur.
  assert (E : windows_paint m d x y = None); [|by rewrite E]. apply stack_none. intros j Hj.
  pose proof (paints_under fb d m x y j Hfb Hd Hj) as Hn. revert Hn. generalize (win_paint m d j (win_at d j) x y). intros [c|] Hn; [|done].
  by destruct (Hs j (Hn ltac:(discriminate))).
Qed.

(** * A title bar that shrinks *)

(** Inside its frame and below its bar a window its owner draws shows its
    buffer. *)
Lemma content_paint fb m d i w x y :
  fb_ok fb -> win_ok fb w -> w_used w = true -> w_minimized w = false -> w_owner_drawn w = true -> w_backing w <> 0 ->
  w_x w < x < w_x w + w_w w - 1 -> w_y w + w_title_h w <= y < w_y w + w_h w - 1 -> w_y w < y ->
  win_paint m d i w x y = Some (rd32 m (w_backing w + 4 * ((y - (w_y w + w_title_h w)) * w_w w + (x - w_x w)))).
Proof.
  intros Hfb Hw Hu Hm Hd Hb Hx Hy Hy0. unfold win_paint. rewrite Hu, Hm. cbn [negb orb]. unfold over at 1.
  assert (Et : title_paint d i w x y = None).
  { destruct (title_paint d i w x y) eqn:E; [|done]. exfalso. assert (Hin := title_paint_in fb Hfb d i w Hw x y ltac:(congruence)). lia. }
  rewrite Et. assert (Ei : inner_paint m w (window_border d i w) x y =
    Some (rd32 m (w_backing w + 4 * ((y - (w_y w + w_title_h w)) * w_w w + (x - w_x w))))).
  { unfold inner_paint. rewrite Hd, (proj2 (Z.eqb_neq _ _) Hb). cbn [negb andb]. unfold blit_paint. rewrite (content_h_eq fb w Hw). px_cases. }
  assert (Ho : forall rx ry rw rh c f, ~ (rx <= x < rx + rw /\ ry <= y < ry + rh) -> over (rect_paint rx ry rw rh c) f x y = f x y).
  { intros rx ry rw rh c f Hno. unfold over, rect_paint. revert Hno. px_cases. }
  unfold framed. cbv zeta. destruct (w_h w >? 1), (w_h w >? 2), (w_w w >? 1); rewrite ?Ho by lia; exact Ei.
Qed.

(** What a call that lowers the title bar leaves. *)
Lemma title_bar_window {H} `{KernelHeapLaws H} fb rest (g : gui H) id title_h :
  fb_ok fb -> gui_inv fb rest g -> 0 <= id < GUI_MAX_WINDOWS -> w_used (win g id) = true -> 0 <= title_h < w_title_h (win g id) ->
  let r := gui_window_set_title_bar_internal id title_h g in
  fst r = 0 /\ gui_inv fb rest (snd r) /\ win (snd r) id = set_titles (win g id) title_h (w_title (win g id)).
Proof.
  intros Hfb Hi Hr Hu Hth. destruct (sl_live _ _ _ (di_slot _ _ _ _ Hi id Hr) Hu). change (win_at (desk g) id) with (win g id) in *.
  pose proof (title_bar_kept fb Hfb rest id title_h g Hi (proj1 Hr) (proj1 Hth)) as [Hi' _].
  cbv zeta. revert Hi'. unfold gui_window_set_title_bar_internal. destruct (Z.geb_spec id GUI_MAX_WINDOWS); [lia|]. rewrite Hu. cbn [negb orb].
  destruct (Z.geb_spec title_h (w_h (win g id))); [lia|]. intros Hi'. split; [done|]. split; [exact Hi'|].
  cbn [snd]. unfold win, win_at at 1. rewrite wins_damage.
  change (win_at (put_win id (set_titles (win g id) title_h (w_title (win g id))) (desk g)) id = set_titles (win g id) title_h (w_title (win g id))).
  rewrite win_at_put by (apply Hi || done || lia). by rewrite Z.eqb_refl.
Qed.

(** C24: When the title bar of a window shrinks, the backing buffer is not
    resized with the content it must hold, and the compositor copies words
    beyond the end of the buffer to the screen.  On any consistent desktop, take
    a window that its owner draws and whose buffer is exactly as large as its
    content, as the allocation makes it, and a lower title bar: the call
    succeeds and keeps the buffer; and wherever the window shows inside its
    frame, below what the content was, a full redraw paints the word at an
    address past the buffer's end. *)
Theorem title_bar_shrink_overreads {H} `{KernelHeapLaws H} (fb : fb_t) (rest : list (Z * Z)) (g : gui H) (id title_h : Z) :
  fb_ok fb -> gui_inv fb rest g -> 0 <= id < GUI_MAX_WINDOWS -> w_used (win g id) = true ->
  w_owner_drawn (win g id) = true -> w_backing (win g id) <> 0 ->
  w_backing_capacity (win g id) = 4 * (w_w (win g id) * content_h (win g id)) -> 0 <= title_h < w_title_h (win g id) ->
  let '(status, g') := gui_window_set_title_bar_internal id title_h g in
  let w := win g' id in
  status = 0 /\ w_backing w = w_backing (win g id) /\ w_backing_capacity w = w_backing_capacity (win g id) /\
  forall m x y, scene_ok fb (desk g') ->
    (forall i, 0 <= i < GUI_MAX_WINDOWS -> visible (desk g') i = true -> bar_titled (win g' i)) ->
    on_fb fb x y -> cursor_paint (desk g') x y = None -> gui_hit_test (desk g') x y = Some id ->
    w_x w < x < w_x w + w_w w - 1 -> w_y w + title_h + content_h (win g id) <= y < w_y w + w_h w - 1 ->
    let a := w_backing w + 4 * ((y - (w_y w + title_h)) * w_w w + (x - w_x w)) in
    w_backing w + w_backing_capacity w <= a /\
    exists m', gui_draw (all_damaged (desk g')) m = Some m' /\ rd32 m' (px_addr fb x y) = rd32 m a.
Proof.
  intros Hfb Hi Hr Hu Hd Hb Hcap Hth. destruct (title_bar_window fb rest g id title_h Hfb Hi Hr Hu Hth) as (Es & Hi' & Ew).
  destruct (gui_window_set_title_bar_internal id title_h g) as [status g']. cbn [fst snd] in *. cbv zeta. rewrite !Ew.
  destruct (sl_live _ _ _ (di_slot _ _ _ _ Hi id Hr) Hu). change (win_at (desk g) id) with (win g id) in *.
  split; [done|]. split; [done|]. split; [done|]. intros m x y Hsc Hbar Hxy Hcur Hhit Hx Hy.
  destruct (hit_shows fb (desk g') m x y id Hfb Hsc Hcur Hbar Hhit) as [(_ & Hv & _) Hp]. change (win_at (desk g') id) with (win g' id) in Hp.
  assert (Hw : win_ok fb (win g' id)) by (by apply (so_win _ _ Hsc)). unfold visible in Hv. change (win_at (desk g') id) with (win g' id) in Hv.
  assert (Hch : content_h (win g id) = w_h (win g id) - w_title_h (win g id)).
  { unfold content_h. destruct (Z.gtb_spec (w_h (win g id)) (w_title_h (win g id))); lia. }
  rewrite Ew in Hp, Hw, Hv. cbn [set_titles w_used w_minimized] in Hv. rewrite Hu in Hv. cbn [andb] in Hv. b2p.
  rewrite (content_paint fb m (desk g') id _ x y Hfb Hw) in Hp; try done; [|cbn [set_titles w_y w_title_h w_h] in *; lia..].
  cbn [set_titles w_backing w_backing_capacity w_x w_y w_w w_h w_title_h] in *. injection Hp as Hp. split; [rewrite Hcap; nia|].
  destruct (draw_full_scene fb Hfb (all_damaged (desk g')) m (all_damaged_ok fb _ Hsc) Hbar) as (m' & E & _ & Hs).
  exists m'. unfold gui_draw. cbn [all_damaged set_damage d_fb d_damage_full]. rewrite (di_fb _ _ _ _ Hi'). split; [exact E|].
  rewrite Hs by done. symmetry. exact Hp.
Qed.

(** * Runs on a small screen *)

(** A heap that hands out fresh addresses: the state is the next one. *)
#[export] Instance bump_heap : KernelHeap Z := {
  h_malloc n p := (p, p + n);
  h_free _ p := p }.

Definition apart (al : list (Z * Z)) : Prop :=
  forall p n q k l, al ≡ₚ (p, n) :: (q, k) :: l -> p + n <= q \/ q + k <= p.

Definition below (b : Z) (al : list (Z * Z)) : Prop := Forall (fun '(p, n) => 0 < p /\ p + n <= b) al.

Lemma apart_cons p n b al : below b al -> b <= p -> apart al -> apart ((p, n) :: al).
Proof.
  intros Hb Hp Ha p1 n1 q k l Hperm. unfold below in Hb. rewrite Forall_forall in Hb.
  assert (Hin : (p, n) ∈ (p1, n1) :: (q, k) :: l) by (rewrite <- Hperm; by left).
  assert (Hother : forall e l', (p, n) :: al ≡ₚ (p, n) :: e :: l' -> snd e + fst e <= p).
  { intros [a c] l' Hp'. apply Permutation_cons_inv in Hp'. destruct (Hb (a, c)); [rewrite Hp'; by left|]. cbn. lia. }
  apply elem_of_cons in Hin as [E|Hin]; [injection E as <- <-; right; rewrite Z.add_comm; by eapply (Hother (q, k))|].
  apply elem_of_cons in Hin as [E|Hin].
  - injection E as <- <-. left. rewrite Z.add_comm. eapply (Hother (p1, n1)). rewrite Hperm. apply Permutation_swap.
  - apply list_elem_of_split in Hin as (l1 & l2 & ->). apply (Ha p1 n1 q k (l1 ++ l2)).
    apply (Permutation_cons_inv (a := (p, n))). rewrite Hperm. symmetry. exact (Permutation_middle ((p1, n1) :: (q, k) :: l1) l2 (p, n)).
Qed.

#[export] Program Instance bump_laws : KernelHeapLaws Z := {
  heap_inv b al := 0 < b /\ below b al /\ apart al }.
Next Obligation. intros b al al' (Hb & Hl & Ha) Hp. split_and!; [done|unfold below; by rewrite <- Hp|]. intros p n q k l E. apply (Ha p n q k l). by rewrite Hp. Qed.
Next Obligation.
  intros b al n p b' (Hb & Hl & Ha) Hn E. injection E as <- <-. right. split; [done|]. split_and!; [lia| |by eapply apart_cons].
  apply Forall_cons. split; [lia|]. eapply Forall_impl; [exact Hl|]. intros [q k] [? ?]. lia.
Qed.
Next Obligation.
  intros b p n al (Hb & Hl & Ha). split_and!; [done|by apply Forall_cons in Hl as [_ ?]|].
  intros p1 n1 q k l E. apply (Ha p1 n1 q k ((p, n) :: l)). rewrite E. exact (Permutation_middle [(p1, n1); (q, k)] l (p, n)).
Qed.
Next Obligation. intros b p n q k al (_ & _ & Ha). by eapply Ha. Qed.

Lemma bump_start : heap_inv 0x100000 [].
Proof. split_and!; [lia|by constructor|]. intros p n q k l E. by apply Permutation_nil_cons in E. Qed.

Definition zero_desktop : gui_desktop :=
  Desktop None 0 0 0 0 0 0 (replicate 16 empty_window) (Cursor 0 0 0 0 0 false 0) [] false.

Definition small_fb : fb_t := Fb 0x10000 20 12 20.

Definition small_gui (px : gmap Z Z) : gui Z := Gui (snd (gui_init zero_desktop small_fb 0xff202428)) true false 0x100000 px.

Definition no_process : Z -> option process_state := fun _ => None.

(** Two windows, a click on the first, a drag, and the exit of its owner. *)
Definition busy_run : list gui_op :=
  [OpCreate 7 2 2 12 8 0xff000001 0xff000002 None; OpTitleBar 0 3; OpCreate 8 4 4 8 6 0xff000003 0xff000004 None;
   OpClear 0 0xff000005; OpClear 1 0xff000006; OpInput (Some (MouseMove (-7) (-3))); OpInput (Some (MouseButton 0 1));
   OpInput (Some (MouseMove 4 2)); OpInput (Some (MouseButton 0 0)); OpMinimize 1; OpRestore 1; OpResize 0 3 3 10 7; OpExit 8].

Lemma zero_blank : blank_slots zero_desktop.
Proof. split; [done|]. by repeat constructor. Qed.

Lemma desktop_stays_consistent_witness :
  let g := gui_run no_process (small_gui ∅) busy_run in
  w_used (win g 0) = true /\ w_used (win g 1) = false /\ length (backings (d_windows (desk g))) = 1%nat /\
  heap_inv (g_heap g) (backings (d_windows (desk g)) ++ []).
Proof.
  cbv zeta. do 3 (split; [lazy; reflexivity|]).
  apply (desktop_stays_consistent (H := Z) small_fb [] no_process zero_desktop 0xff202428 true false 0x100000 ∅ busy_run).
  - split; cbn; lia.
  - cbn. lia.
  - cbn. lia.
  - exact zero_blank.
  - exact bump_start.
  - repeat constructor; cbn; unfold small_move; lia.
  - cbn. unfold UINT32_MAX. lia.
Defined.

Lemma click_hits_what_is_seen_witness :
  gui_hit_test (demo_desktop [] true) 17 9 = Some 1 /\
  win_paint ∅ (demo_desktop [] true) 1 (win_at (demo_desktop [] true) 1) 17 9 = Some (scene_color demo_fb ∅ (demo_desktop [] true) 17 9).
Proof.
  split; [vm_compute; reflexivity|].
  pose proof (click_hits_what_is_seen demo_fb (demo_desktop [] true) ∅ 17 9 demo_fb_ok (demo_scene_ok [] true)) as Hc.
  assert (E : gui_hit_test (demo_desktop [] true) 17 9 = Some 1) by (vm_compute; reflexivity). rewrite E in Hc. apply Hc.
  - split; cbn; lia.
  - vm_compute. reflexivity.
  - intros i Hi Hv. destruct (demo_windows [] true i Hi Hv) as [[-> ->]|[-> ->]]; intros Hd; discriminate Hd.
Defined.

(** A window of 18 by 8 with a bar of six rows: its buffer is 144 bytes at
    0x100000.  With a bar of one row the word 8 bytes past the end shows at
    (3, 5). *)
Definition drawn_window : gui Z :=
  gui_run no_process (small_gui ∅) [OpCreate 7 1 2 18 8 0xff000001 0xff000002 (Some [104; 105]); OpTitleBar 0 6; OpClear 0 0xff000003].

Definition shrunk_window : gui Z := snd (gui_window_set_title_bar_internal 0 1 drawn_window).

Lemma shrunk_only i : 0 <= i < GUI_MAX_WINDOWS -> visible (desk shrunk_window) i = true -> i = 0.
Proof.
  intros Hi Hv. assert (Hall : forallb (fun i => negb (visible (desk shrunk_window) i) || (i =? 0)) (seqZ 0 GUI_MAX_WINDOWS) = true) by (vm_compute; reflexivity).
  rewrite forallb_forall in Hall. specialize (Hall i ltac:(apply list_elem_of_In, elem_of_seqZ; lia)). rewrite Hv in Hall. cbn in Hall. by apply Z.eqb_eq.
Qed.

Lemma shrunk_scene : scene_ok small_fb (desk shrunk_window).
Proof.
  assert (Ew : exists w, win_at (desk shrunk_window) 0 = w /\ w_x w = 1 /\ w_y w = 2 /\ w_w w = 18 /\ w_h w = 8 /\ w_title_h w = 1 /\ w_z w = 1 /\
    w_backing w = 0x100000 /\ content_h w = 7 /\ str_cut (w_title w) = [104; 105]).
  { eexists. split; [reflexivity|]. vm_compute. done. }
  destruct Ew as (w & Ew & Ex & Ey & Eww & Eh & Et & Ez & Eb & Ec & Es).
  split.
  - intros i Hi Hv. rewrite (shrunk_only i Hi Hv). rewrite Ew.
    split; rewrite ?Ex, ?Ey, ?Eww, ?Eh, ?Et, ?Es; cbn; try lia.
    + intros _ _ i0 Hi0 x y [Hx Hy]. rewrite Eb. rewrite Ec in Hi0. unfold px_addr, px_at. cbn in *. lia.
    + intros _. repeat constructor; discriminate.
  - split.
    + intros i Hi Hv. rewrite (shrunk_only i Hi Hv). rewrite Ew, Ez. unfold UINT32_MAX. lia.
    + intros i j Hi Hj Hvi Hvj _. by rewrite (shrunk_only i Hi Hvi), (shrunk_only j Hj Hvj).
  - vm_compute. split; [discriminate|reflexivity].
  - vm_compute. split; [discriminate|reflexivity].
Qed.

Lemma title_bar_shrink_overreads_witness :
  w_backing (win shrunk_window 0) + w_backing_capacity (win shrunk_window 0) = 0x100000 + 144 /\
  exists m', gui_draw (all_damaged (desk shrunk_window)) {[ 0x100000 + 152 := 0xdeadbeef ]} = Some m' /\ rd32 m' (px_addr small_fb 3 5) = 0xdeadbeef.
Proof.
  split; [vm_compute; reflexivity|].
  assert (Hi : gui_inv small_fb [] drawn_window).
  { apply gui_run_kept; [split; cbn; lia|apply init_inv; [split; cbn; lia|cbn; lia|cbn; lia|exact zero_blank|exact bump_start]|
      vm_compute; discriminate|repeat constructor; cbn; lia]. }
  pose proof (title_bar_shrink_overreads small_fb [] drawn_window 0 1 ltac:(split; cbn; lia) Hi ltac:(unfold GUI_MAX_WINDOWS; lia) eq_refl
    ltac:(vm_compute; reflexivity) ltac:(vm_compute; discriminate) ltac:(vm_compute; reflexivity) ltac:(vm_compute; split; [discriminate|reflexivity])) as Hs.
  assert (E : gui_window_set_title_bar_internal 0 1 drawn_window = (0, shrunk_window)) by (vm_compute; reflexivity).
  rewrite E in Hs. destruct Hs as (_ & _ & _ & Hs).
  destruct (Hs {[ 0x100000 + 152 := 0xdeadbeef ]} 3 5 shrunk_scene) as (_ & m' & Em & Hm).
  - intros i Hi' Hv. rewrite (shrunk_only i Hi' Hv). vm_compute. discriminate.
  - split; cbn; lia.
  - vm_compute. reflexivity.
  - vm_compute. reflexivity.
  - vm_compute. split; reflexivity.
  - vm_compute. split; [discriminate|reflexivity].
  - exists m'. split; [exact Em|]. rewrite Hm. vm_compute. reflexivity.
Defined.
