(* ===== verification/SyscallGui.v ===== *)
(** The window system calls (syscall_gui.c and the window lookups of
    syscall_helpers.c): argument checks, the owner check, the copies across the
    user boundary and the call into the window system.  The theorem says what a
    process can do to the windows of the others. *)

From S2P Require Import Prelude.
From S2P Require Import PageAlloc.
From S2P Require Import Vmm.
From S2P Require Import ProcessRegions.
From S2P Require Import Bytes.
From S2P Require Import UserCopy.
From S2P Require Import Input.
From S2P Require Import Framebuffer.
From S2P Require Import Gui.
From S2P Require Import GuiDraw.
From S2P Require Import GuiPaint.
From S2P Require Import GuiScene.
From S2P Require Import GuiState.
From S2P Require Import GuiInv.
From S2P Require Import GuiInput.
Open Scope arm.

Definition INT32_MAX : Z := 2 ^ 31 - 1.

(** The bytes of a [uint32_t]. *)
Definition le4 (v : Z) : list Z := [u8 v; u8 (Z.shiftr v 8); u8 (Z.shiftr v 16); u8 (Z.shiftr v 24)].

(** A [gui_event_t]; its two data words are signed. *)
Definition event_bytes (e : gui_event) : list Z := le4 (ev_type e) ++ le4 (u32 (ev_data1 e)) ++ le4 (u32 (ev_data2 e)).

Section Calls.
Context {A H : Type} `{PageAllocator A} `{KernelHeap H}.
Implicit Types (st : mach A) (g : gui H) (process : option process).

(** The value returned, the window system and memory; [None] is a data abort. *)
Definition answer : Type := option (Z * gui H * mach A).

(** ** Window lookups (syscall_helpers.c) *)

(** 0 when the window exists and belongs to the caller. *)
Definition owner_window_lookup process (window_id missing_error : Z) g : Z :=
  match process with
  | None => ERR_INVAL
  | Some p =>
      if window_id >=? GUI_MAX_WINDOWS then ERR_INVAL else
      if negb (g_active g) then ERR_AGAIN else
      if negb (w_used (win g window_id)) then missing_error else
      if negb (w_owner_pid (win g window_id) =? pid p) then ERR_BADF else 0
  end.

Definition sys_owner_window process window_id g : Z := owner_window_lookup process window_id ERR_NOENT g.
Definition sys_owner_window_badf process window_id g : Z := owner_window_lookup process window_id ERR_BADF g.

(** A kernel string buffer of [n] zeroes filled from the caller. *)
Definition import_string process (tt ptr n : Z) st : option (Z * list Z) :=
  match sys_user_copy_cstr st tt process ptr (Some (replicate (Z.to_nat n) 0)) 0 n with
  | None => None
  | Some (status, out) => Some (status, default [] out)
  end.

(** ** syscall_gui.c *)

Definition sys_window_create process (tt x y w h bg border title_ptr : Z) g st : answer :=
  match process with
  | None => Some (ERR_INVAL, g, st)
  | Some p =>
      if (x >? UINT32_MAX) || (y >? UINT32_MAX) || (w >? UINT32_MAX) || (h >? UINT32_MAX) || (w <? 8) || (h <? 8) ||
         (bg >? UINT32_MAX) || (border >? UINT32_MAX) then Some (ERR_INVAL, g, st) else
      let imported := if negb (title_ptr =? 0) then import_string process tt title_ptr GUI_TITLE_LEN st
                      else Some (0, replicate (Z.to_nat GUI_TITLE_LEN) 0) in
      match imported with
      | None => None
      | Some (status, title) =>
          if negb (status =? 0) then Some (ERR_INVAL, g, st) else
          if negb (g_active g) then Some (ERR_AGAIN, g, st) else
          let '(status, window_id, g) := gui_create_window_for_pid (pid p) x y w h bg border (Some title) g in
          if negb (status =? 0) then Some (ERR_AGAIN, g, st) else
          Some (window_id, gui_request_redraw g, st)
      end
  end.

Definition sys_window_destroy process (window_id : Z) g st : answer :=
  let status := sys_owner_window process window_id g in
  if negb (status =? 0) then Some (status, g, st) else
  let '(status, g) := gui_destroy_window window_id g in
  if negb (status =? 0) then Some (ERR_BADF, g, st) else
  Some (0, gui_request_redraw g, st).

Definition sys_window_draw_text process (tt window_id x y color str_ptr : Z) g st : answer :=
  if bool_decide (process = None) || (window_id >=? GUI_MAX_WINDOWS) || (x >? INT32_MAX) || (y >? INT32_MAX) ||
     (color >? UINT32_MAX) then Some (ERR_INVAL, g, st) else
  let status := sys_owner_window_badf process window_id g in
  if negb (status =? 0) then Some (status, g, st) else
  match import_string process tt str_ptr 128 st with
  | None => None
  | Some (status, text) =>
      if negb (status =? 0) then Some (ERR_INVAL, g, st) else
      let '(status, g) := gui_window_draw_text window_id x y (Some text) color g in
      if negb (status =? 0) then Some (ERR_BADF, g, st) else Some (0, g, st)
  end.

Definition sys_window_draw_rect process (window_id x y w h color : Z) g st : answer :=
  if bool_decide (process = None) || (window_id >=? GUI_MAX_WINDOWS) || (x >? INT32_MAX) || (y >? INT32_MAX) ||
     (w >? UINT32_MAX) || (h >? UINT32_MAX) || (color >? UINT32_MAX) then Some (ERR_INVAL, g, st) else
  let status := sys_owner_window_badf process window_id g in
  if negb (status =? 0) then Some (status, g, st) else
  let '(status, g) := gui_window_draw_rect window_id x y w h color g in
  if negb (status =? 0) then Some (ERR_BADF, g, st) else Some (0, g, st).

Definition sys_window_set_title process (tt window_id title_ptr title_h : Z) g st : answer :=
  if bool_decide (process = None) || (window_id >=? GUI_MAX_WINDOWS) || (title_h >? UINT32_MAX)
  then Some (ERR_INVAL, g, st) else
  let status := sys_owner_window_badf process window_id g in
  if negb (status =? 0) then Some (status, g, st) else
  match import_string process tt title_ptr GUI_TITLE_LEN st with
  | None => None
  | Some (status, title) =>
      if negb (status =? 0) then Some (ERR_INVAL, g, st) else
      if (title_h >? 0) && (title_h >=? w_h (win g window_id)) then Some (ERR_INVAL, g, st) else
      let '(status, g) := gui_window_set_title_internal window_id (Some title) g in
      if negb (status =? 0) then Some (ERR_BADF, g, st) else
      let g := gui_request_redraw g in
      if title_h >? 0 then
        let '(status, g) := gui_window_set_title_bar_internal window_id title_h g in
        if negb (status =? 0) then Some (ERR_INVAL, g, st) else Some (0, g, st)
      else Some (0, g, st)
  end.

Definition sys_window_redraw process (window_id : Z) g st : answer :=
  let status := sys_owner_window_badf process window_id g in
  if negb (status =? 0) then Some (status, g, st) else Some (0, gui_request_redraw g, st).

Definition sys_window_focus process (window_id : Z) g st : answer :=
  if bool_decide (process = None) || (window_id >=? GUI_MAX_WINDOWS) then Some (ERR_INVAL, g, st) else
  if negb (g_active g) then Some (ERR_AGAIN, g, st) else
  if negb (w_used (win g window_id)) then Some (ERR_NOENT, g, st) else
  let '(status, g) := gui_focus_window window_id g in
  if negb (status =? 0) then Some (ERR_INVAL, g, st) else Some (0, gui_request_redraw g, st).

Definition sys_window_for_pid process (owner_pid index : Z) g st : answer :=
  if bool_decide (process = None) || (owner_pid >? UINT32_MAX) || (index >=? GUI_MAX_WINDOWS)
  then Some (ERR_INVAL, g, st) else
  if negb (g_active g) then Some (ERR_AGAIN, g, st) else
  let window_id := gui_window_for_pid (desk g) owner_pid index in
  if window_id =? GUI_NO_WINDOW then Some (ERR_NOENT, g, st) else Some (window_id, g, st).

Definition sys_cursor_set_shape process (shape : Z) g st : answer :=
  if bool_decide (process = None) || (shape >? UINT32_MAX) then Some (ERR_INVAL, g, st) else
  if negb (g_active g) then Some (ERR_AGAIN, g, st) else
  let '(status, g) := gui_set_cursor_shape shape g in
  if negb (status =? 0) then Some (ERR_INVAL, g, st) else Some (0, gui_request_redraw g, st).

Definition sys_cursor_register_region process (window_id slot x y w h shape : Z) g st : answer :=
  match process with
  | None => Some (ERR_INVAL, g, st)
  | Some p =>
      if (window_id >? UINT32_MAX) || (slot >? UINT32_MAX) || (x >? INT32_MAX) || (y >? INT32_MAX) || (w >? INT32_MAX) ||
         (h >? INT32_MAX) || (shape >? UINT32_MAX) then Some (ERR_INVAL, g, st) else
      if negb (g_active g) then Some (ERR_AGAIN, g, st) else
      match gui_window_lookup (desk g) window_id with
      | None => Some (ERR_NOENT, g, st)
      | Some window =>
          if negb (w_used window) then Some (ERR_NOENT, g, st) else
          if negb (w_owner_pid window =? GUI_NO_OWNER) && negb (w_owner_pid window =? u32 (pid p))
          then Some (ERR_PERM, g, st) else
          let '(status, g) := gui_register_cursor_region window_id slot x y w h shape g in
          if negb (status =? 0) then Some (ERR_INVAL, g, st) else Some (0, gui_request_redraw g, st)
      end
  end.

Definition sys_window_flush process (window_id x y w h : Z) g st : answer :=
  if bool_decide (process = None) || (window_id >=? GUI_MAX_WINDOWS) || (x >? INT32_MAX) || (y >? INT32_MAX) ||
     (w >? INT32_MAX) || (h >? INT32_MAX) then Some (ERR_INVAL, g, st) else
  let status := sys_owner_window_badf process window_id g in
  if negb (status =? 0) then Some (status, g, st) else
  if (w =? 0) || (h =? 0) then Some (0, g, st) else
  let window := win g window_id in
  let '(x0, y0, x1, y1) := clip_bounds (Clip 0 0 (w_w window) (content_h window)) x y (x + w) (y + h) in
  if (x1 <=? x0) || (y1 <=? y0) then Some (0, g, st) else
  Some (0, gui_damage_add (i32 (w_x window) + i32 x0) (i32 (w_y window) + i32 (w_title_h window) + i32 y0)
             (i32 (x1 - x0)) (i32 (y1 - y0)) g, st).

Definition sys_window_get_bounds process (tt window_id out_ptr : Z) g st : answer :=
  let status := sys_owner_window process window_id g in
  if negb (status =? 0) then Some (status, g, st) else
  let window := win g window_id in
  let out := le4 (w_x window) ++ le4 (w_y window) ++ le4 (w_w window) ++ le4 (w_h window) in
  match sys_copy_to_user st tt process out_ptr (Some out) 16 with
  | None => None
  | Some (status, st) => Some (status, g, st)
  end.

Definition sys_window_set_bounds process (window_id x y w h : Z) g st : answer :=
  if bool_decide (process = None) || (window_id >=? GUI_MAX_WINDOWS) || (x >? INT32_MAX) || (y >? INT32_MAX) ||
     (w >? UINT32_MAX) || (h >? UINT32_MAX) then Some (ERR_INVAL, g, st) else
  let status := sys_owner_window process window_id g in
  if negb (status =? 0) then Some (status, g, st) else
  let '(status, g) := gui_resize_window window_id x y w h g in
  if negb (status =? 0) then Some (ERR_INVAL, g, st) else Some (0, g, st).

Definition sys_window_minimize process (window_id : Z) g st : answer :=
  let status := sys_owner_window process window_id g in
  if negb (status =? 0) then Some (status, g, st) else
  let '(status, g) := gui_window_minimize window_id g in
  if negb (status =? 0) then Some (ERR_INVAL, g, st) else Some (0, g, st).

Definition sys_window_restore process (window_id : Z) g st : answer :=
  if bool_decide (process = None) || (window_id >=? GUI_MAX_WINDOWS) then Some (ERR_INVAL, g, st) else
  if negb (g_active g) then Some (ERR_AGAIN, g, st) else
  if negb (w_used (win g window_id)) then Some (ERR_NOENT, g, st) else
  let '(status, g) := gui_window_restore window_id g in
  if negb (status =? 0) then Some (ERR_INVAL, g, st) else Some (0, g, st).

Definition sys_window_state process (tt window_id out_ptr : Z) g st : answer :=
  if bool_decide (process = None) || (window_id >=? GUI_MAX_WINDOWS) then Some (ERR_INVAL, g, st) else
  if negb (g_active g) then Some (ERR_AGAIN, g, st) else
  let window := win g window_id in
  if negb (w_used window) then Some (ERR_NOENT, g, st) else
  let state := if w_minimized window then Z.lor 0 1 else 0 in
  let state := if (d_focused (desk g) =? window_id) && negb (w_flags window &? GUI_WINDOW_NO_FOCUS)
               then Z.lor state 2 else state in
  match sys_copy_to_user st tt process out_ptr (Some (le4 state)) 4 with
  | None => None
  | Some (status, st) => Some (status, g, st)
  end.

(** [while (n < buf_count && window->event_count > 0)]: the events, and the
    stores of kmemcpy to the caller's buffer. *)
Fixpoint event_loop (fuel : nat) (tt window_id buf_ptr n : Z) g st : answer :=
  match fuel with
  | O => Some (n, g, st)
  | S fuel' =>
      if negb (w_event_count (win g window_id) >? 0) then Some (n, g, st) else
      let '(ev, window) := gui_window_pop_event (win g window_id) in
      match ev with
      | None => Some (n, g, st)
      | Some ev =>
          let g := upd_desk (put_win window_id window) g in
          match copy_out 12 tt (u64 (buf_ptr + n * 12)) (event_bytes ev) 0 st with
          | None => None
          | Some st => event_loop fuel' tt window_id buf_ptr (n + 1) g st
          end
      end
  end.

Definition sys_window_event process (tt window_id buf_ptr buf_count : Z) g st : answer :=
  if bool_decide (process = None) || (window_id >=? GUI_MAX_WINDOWS) || (buf_count =? 0) || (buf_count >? 64)
  then Some (ERR_INVAL, g, st) else
  let status := sys_user_buf_out st process buf_ptr (buf_count * 12) in
  if negb (status =? 0) then Some (status, g, st) else
  let status := sys_owner_window_badf process window_id g in
  if negb (status =? 0) then Some (status, g, st) else
  if w_event_count (win g window_id) =? 0 then Some (ERR_AGAIN, g, st) else
  event_loop (Z.to_nat buf_count) tt window_id buf_ptr 0 g st.

(** ** The window cases of syscall_call *)

Definition reg (xs : list Z) (i : nat) : Z := default 0 (xs !! i).

Definition window_call (n : Z) process (tt : Z) (xs : list Z) g st : answer :=
  let x0 := reg xs 0 in let x1 := reg xs 1 in let x2 := reg xs 2 in let x3 := reg xs 3 in
  let x4 := reg xs 4 in let x5 := reg xs 5 in let x6 := reg xs 6 in
  match n with
  | 70 => sys_window_create process tt x0 x1 x2 x3 x4 x5 x6 g st
  | 71 => sys_window_destroy process x0 g st
  | 72 => sys_window_draw_text process tt x0 x1 x2 x3 x4 g st
  | 73 => sys_window_draw_rect process x0 x1 x2 x3 x4 x5 g st
  | 74 => sys_window_event process tt x0 x1 x2 g st
  | 75 => sys_window_set_title process tt x0 x1 x2 g st
  | 76 => sys_window_redraw process x0 g st
  | 77 => sys_window_focus process x0 g st
  | 78 => sys_window_for_pid process x0 x1 g st
  | 79 => sys_cursor_set_shape process x0 g st
  | 80 => sys_window_flush process x0 x1 x2 x3 x4 g st
  | 81 => sys_window_get_bounds process tt x0 x1 g st
  | 82 => sys_window_set_bounds process x0 x1 x2 x3 x4 g st
  | 83 => sys_window_minimize process x0 g st
  | 84 => sys_window_restore process x0 g st
  | 85 => sys_window_state process tt x0 x1 g st
  | 86 => sys_cursor_register_region process x0 x1 x2 x3 x4 x5 x6 g st
  | _ => Some (ERR_INVAL, g, st)
  end.
End Calls.

(** * Which windows a call changes *)

Section Only.
Context {H : Type} `{KernelHeap H}.
Implicit Types (g : gui H).

(** No window but [id] differs. *)
Definition only (id : Z) g g' : Prop := forall j, 0 <= j -> j <> id -> win g' j = win g j.

Lemma only_refl id g : only id g g.
Proof. done. Qed.

Lemma only_trans id g1 g2 g3 : only id g1 g2 -> only id g2 g3 -> only id g1 g3.
Proof. intros E1 E2 j Hj Hne. by rewrite E2, E1. Qed.

Lemma only_same id g g' : d_windows (desk g') = d_windows (desk g) -> only id g g'.
Proof. intros E j _ _. unfold win, win_at. by rewrite E. Qed.

Lemma only_put id w g g' : 0 <= id -> d_windows (desk g') = <[Z.to_nat id := w]> (d_windows (desk g)) -> only id g g'.
Proof. intros Hid E j Hj Hne. unfold win, win_at. rewrite E, list_lookup_insert_ne by lia. done. Qed.

Lemma wins_redraw g : d_windows (desk (gui_request_redraw g)) = d_windows (desk g).
Proof. unfold gui_request_redraw. cbn. by destruct (g_active g). Qed.

Lemma wins_ensure d : d_windows (snd (gui_focus_window_ensure d)) = d_windows d.
Proof. unfold gui_focus_window_ensure. destruct (_ && _); [done|]. by destruct (find_range _ _ _). Qed.

Lemma only_damage id g g' x y ww h : only id g g' -> only id g (gui_damage_add x y ww h g').
Proof. intros Ho. eapply only_trans; [exact Ho|]. apply only_same, wins_damage. Qed.

Lemma only_redraw id g g' : only id g g' -> only id g (gui_request_redraw g').
Proof. intros Ho. eapply only_trans; [exact Ho|]. apply only_same, wins_redraw. Qed.

Lemma only_refresh id g g' : only id g g' -> only id g (upd_desk gui_refresh_cursor_shape g').
Proof. intros Ho. eapply only_trans; [exact Ho|]. by apply only_same. Qed.

Lemma only_win id g g' f : 0 <= id -> only id g g' -> only id g (upd_win id f g').
Proof. intros Hid Ho. eapply only_trans; [exact Ho|]. by eapply only_put. Qed.

Lemma only_backing id f g : 0 <= id -> only id g (snd (on_backing f id g)).
Proof. intros Hid. unfold on_backing. destruct (f _ _ _) as [[[status w] hp] px]. by eapply only_put. Qed.

Lemma destroy_only id g : 0 <= id -> only id g (snd (gui_destroy_window id g)).
Proof.
  intros Hid. unfold gui_destroy_window. destruct (_ || _); [done|]. destruct (gui_window_free_backing _ _) as [w hp]. cbn [snd].
  apply only_damage, only_refresh. set (g1 := Gui _ _ _ _ _). assert (Ho : only id g g1) by (by eapply only_put).
  destruct (_ =? _); [|done]. eapply only_trans; [exact Ho|]. apply only_same. cbn [upd_desk with_desk desk]. by rewrite wins_ensure.
Qed.

Lemma title_only id title g : 0 <= id -> only id g (snd (gui_window_set_title_internal id title g)).
Proof.
  intros Hid. unfold gui_window_set_title_internal. destruct (_ || _); [done|]. cbn [snd]. cbv zeta.
  destruct (_ >? 0); [apply only_damage|]; by apply only_refresh, only_win.
Qed.

Lemma title_bar_only id title_h g : 0 <= id -> only id g (snd (gui_window_set_title_bar_internal id title_h g)).
Proof.
  intros Hid. unfold gui_window_set_title_bar_internal. destruct (_ || _); [done|]. destruct (_ >=? _); [done|]. cbn [snd].
  by apply only_damage, only_refresh, only_win.
Qed.

Lemma resize_only id x y ww h g : 0 <= id -> only id g (snd (gui_resize_window id x y ww h g)).
Proof.
  intros Hid. unfold gui_resize_window. destruct (d_fb (desk g)) as [fb|]; [|done]. destruct (_ || _); [done|]. cbv zeta.
  set (g1 := upd_desk gui_refresh_cursor_shape _). assert (Ho : only id g g1) by (by apply only_refresh, only_win).
  clearbody g1. destruct (_ || _).
  - pose proof (only_backing id gui_window_reset_backing g1 Hid) as Hb. destruct (on_backing _ _ _) as [status g2]. cbn [snd] in Hb.
    pose proof (only_trans _ _ _ _ Ho Hb) as Ho2. destruct (negb (status =? 0)); [cbn [negb Z.eqb snd]; by apply only_win|].
    cbn [negb Z.eqb snd]. by apply only_damage, only_win.
  - cbn [negb Z.eqb snd]. by apply only_damage.
Qed.

Lemma minimize_only id g : 0 <= id -> only id g (snd (gui_window_minimize id g)).
Proof.
  intros Hid. unfold gui_window_minimize. destruct (_ >=? _); [done|]. destruct (_ || _); [done|]. cbn [snd].
  by apply only_redraw, only_win.
Qed.

Lemma prepare_only id g : 0 <= id -> only id g (snd (prepare_drawing id g)).
Proof.
  intros Hid. unfold prepare_drawing. pose proof (only_backing id gui_window_ensure_backing g Hid) as Hb.
  destruct (on_backing _ _ _) as [status g1]. cbn [snd] in Hb. destruct (negb _); [done|]. by apply only_win.
Qed.

Lemma draw_text_only id x y text color g : 0 <= id -> only id g (snd (gui_window_draw_text id x y text color g)).
Proof.
  intros Hid. destruct text as [text|]; [|done]. cbn [gui_window_draw_text]. destruct (_ || _); [done|].
  pose proof (prepare_only id g Hid) as Hp. destruct (prepare_drawing id g) as [status g1]. cbn [snd] in Hp.
  destruct (negb (status =? 0)); [done|]. cbv zeta. destruct (_ || _); [done|]. by apply only_damage.
Qed.

Lemma draw_rect_only id x y ww h color g : 0 <= id -> only id g (snd (gui_window_draw_rect id x y ww h color g)).
Proof.
  intros Hid. unfold gui_window_draw_rect. destruct (_ || _); [done|]. destruct (_ || _); [done|].
  pose proof (prepare_only id g Hid) as Hp. destruct (prepare_drawing id g) as [status g1]. cbn [snd] in Hp.
  destruct (negb (status =? 0)); [done|]. cbv zeta. destruct (clip_bounds _ _ _ _ _) as [[[x0 y0] x1] y1].
  destruct (_ || _); [done|]. by apply only_damage.
Qed.
End Only.
