(* ===== verification/WindowPixels.v ===== *)
(** The pixels the window calls store: every store of a drawing operation lands
    in the backing buffer of the window it draws, whose extent the capacity
    bounds, and the buffers of two windows are apart. *)

From S2P Require Import Prelude.
From S2P Require Import PageAlloc.
From S2P Require Import Bytes.
From S2P Require Import Framebuffer.
From S2P Require Import Gui.
From S2P Require Import GuiDraw.
From S2P Require Import GuiPaint.
From S2P Require Import GuiState.
From S2P Require Import GuiInv.
From S2P Require Import SyscallGui.
Open Scope arm.

(** * Stores into any framebuffer without overflow *)

Section Stores.
Context (fb : fb_t) (Hw : 0 <= fb_width fb <= fb_stride fb) (Hs : fb_height fb * fb_stride fb < 2 ^ 32).

Lemma same_off_refl m : same_off fb m m.
Proof. done. Qed.

Lemma same_off_trans m0 m1 m2 : same_off fb m0 m1 -> same_off fb m1 m2 -> same_off fb m0 m2.
Proof. intros H1 H2 a Ha. by rewrite H2, H1. Qed.

Lemma store_same_off x y v m : on_fb fb x y -> same_off fb m (wr32 m (px_addr fb x y) v).
Proof. intros Hon a Ha. rewrite rd32_wr32. destruct (Z.eqb_spec a (px_addr fb x y)) as [E|]; [by destruct (Ha x y)|done]. Qed.

Lemma loop_same_off lo hi (f : Z -> gmap Z Z -> gmap Z Z) m :
  lo <= hi -> (forall i m', lo <= i < hi -> same_off fb m' (f i m')) -> same_off fb m (for_range lo hi f m).
Proof.
  intros Hle Hf. apply (for_range_ind (fun _ m' => same_off fb m m')); [done|apply same_off_refl|].
  intros i m' Hi Hm. eapply same_off_trans; [exact Hm|by apply Hf].
Qed.

Lemma on_index x y : on_fb fb x y -> u32 (y * fb_stride fb + x) = y * fb_stride fb + x.
Proof. intros [? ?]. apply u32_id. nia. Qed.

Lemma putpixel_same_off x y color m : 0 <= x -> 0 <= y -> same_off fb m (fb_putpixel fb x y color m).
Proof.
  intros Hx Hy. unfold fb_putpixel. destruct (_ || _) eqn:Hg; [apply same_off_refl|]. b2p.
  assert (Hon : on_fb fb x y) by (unfold on_fb; lia). rewrite on_index by done. by apply store_same_off.
Qed.

Lemma fillrect_same_off x y w h color m : 0 <= x -> 0 <= y -> 0 <= w -> 0 <= h -> same_off fb m (fb_fillrect fb x y w h color m).
Proof.
  intros Hx Hy Hww Hh. unfold fb_fillrect. destruct (_ || _) eqn:Hg; [apply same_off_refl|]. b2p.
  set (w' := if w >? fb_width fb - x then _ else _). set (h' := if h >? fb_height fb - y then _ else _).
  assert (0 <= w' <= fb_width fb - x) by (unfold w'; destruct (Z.gtb_spec w (fb_width fb - x)); lia).
  assert (0 <= h' <= fb_height fb - y) by (unfold h'; destruct (Z.gtb_spec h (fb_height fb - y)); lia).
  clearbody w' h'. rewrite on_index by (unfold on_fb; lia). apply loop_same_off; [lia|]. intros row m1 Hrow.
  apply loop_same_off; [lia|]. intros col m2 Hcol.
  replace (px_at fb (y * fb_stride fb + x + row * fb_stride fb + col)) with (px_addr fb (x + col) (y + row)) by (unfold px_addr, px_at; lia).
  apply store_same_off. unfold on_fb. lia.
Qed.

Lemma char_same_off x y c color m : same_off fb m (font_draw_char fb x y c color m).
Proof.
  unfold font_draw_char. destruct (_ =? 0); [apply same_off_refl|]. destruct (font_glyph c) as [glyph|]; [|apply same_off_refl].
  apply loop_same_off; [unfold FONT_GLYPH_HEIGHT; lia|]. intros row m1 _. apply loop_same_off; [unfold FONT_GLYPH_WIDTH; lia|]. intros col m2 _.
  destruct (glyph_bit _ _); [|apply same_off_refl]. pose proof (u32_range (x + col)). pose proof (u32_range (y + row)).
  apply putpixel_same_off; lia.
Qed.

Lemma text_same_off x text color : forall cursor_x cursor_y m, same_off fb m (text_loop fb x cursor_x cursor_y text color m).
Proof.
  induction text as [|c text IH]; intros cursor_x cursor_y m; cbn [text_loop]; [apply same_off_refl|].
  destruct (c =? 0); [apply same_off_refl|]. destruct (c =? NEWLINE); [apply IH|].
  eapply same_off_trans; [apply char_same_off|apply IH].
Qed.
End Stores.

(** * Backing buffers *)

(** Address [a] is in the backing buffer of [w]. *)
Definition in_backing (w : gui_window) (a : Z) : Prop := w_backing w <> 0 /\ w_backing w <= a < w_backing w + w_backing_capacity w.

Lemma content_off b w h a : 0 <= w -> 0 <= h -> ~ (b <= a < b + w * h * 4) -> off_fb (Fb b w h w) a.
Proof.
  intros Hw Hh Ha x y [Hx Hy] E. apply Ha. unfold px_addr, px_at in E. cbn [fb_pixels fb_stride fb_width fb_height] in *. nia.
Qed.

(** What drawing on the content of [w] stores. *)
Lemma content_stores w px px' a :
  0 <= w_w w -> 0 <= content_h w -> w_backing w <> 0 -> w_w w * content_h w * 4 <= w_backing_capacity w ->
  same_off (gui_window_backing_fb w) px px' -> ~ in_backing w a -> rd32 px' a = rd32 px a.
Proof. intros Hw Hh Hb Hc Hpx Ha. apply Hpx, content_off; [done|done|]. intros Hr. apply Ha. split; [done|lia]. Qed.

Section Backings.
Context {H : Type} `{KernelHeapLaws H} (fb : fb_t) (Hfb : fb_ok fb) (rest : list (Z * Z)).
Implicit Types (g : gui H) (w : gui_window).
Abbreviation gui_inv := (gui_inv fb rest).

(** Two windows share no byte of backing buffer. *)
Lemma backings_apart g i j a :
  gui_inv g -> 0 <= i < GUI_MAX_WINDOWS -> 0 <= j < GUI_MAX_WINDOWS -> i <> j ->
  in_backing (win g i) a -> in_backing (win g j) a -> False.
Proof.
  intros Hi Hri Hrj Hne [Hbi Hai] [Hbj Haj]. pose proof Hi as []. unfold win in *.
  pose proof (win_at_lookup _ i di_len Hri) as Ei. pose proof (win_at_lookup _ j di_len Hrj) as Ej.
  destruct (backings_put _ _ _ empty_window Ei) as (al & E1 & E2).
  rewrite <- (list_lookup_insert_ne _ (Z.to_nat i) (Z.to_nat j) empty_window) in Ej by lia.
  destruct (backings_put _ _ _ empty_window Ej) as (al' & E3 & _). change (backings [empty_window]) with (@nil (Z * Z)) in E2. cbn [app] in E2.
  rewrite E2 in E3. rewrite E3 in E1. unfold backings in E1 at 2 3. cbn [omap list_omap] in E1.
  rewrite (proj2 (Z.eqb_neq _ _) Hbi), (proj2 (Z.eqb_neq _ _) Hbj) in E1. rewrite E1 in di_heap.
  destruct (heap_apart _ _ _ _ _ _ di_heap); lia.
Qed.

(** Window [id] keeps its owner, and the pixels the step from [g] to [g'] changes
    are in the buffer it has after the step. *)
Definition paints (id : Z) g g' : Prop :=
  w_used (win g' id) = w_used (win g id) /\ w_owner_pid (win g' id) = w_owner_pid (win g id) /\
  forall a, ~ in_backing (win g' id) a -> rd32 (g_px g') a = rd32 (g_px g) a.

Lemma px_damage x y ww h g : g_px (gui_damage_add x y ww h g) = g_px g.
Proof. unfold gui_damage_add. by destruct (damage_add _ _ _ _ _). Qed.

Lemma px_redraw g : g_px (gui_request_redraw g) = g_px g.
Proof. unfold gui_request_redraw. cbn. by destruct (g_active g). Qed.

Lemma paints_refl id g : paints id g g.
Proof. done. Qed.

Lemma paints_damage id g g' x y ww h : paints id g g' -> paints id g (gui_damage_add x y ww h g').
Proof. unfold paints, win, win_at. by rewrite wins_damage, px_damage. Qed.

Lemma win_upd id f g' : gui_inv g' -> 0 <= id < GUI_MAX_WINDOWS -> win (upd_win id f g') id = f (win g' id).
Proof.
  intros Hi Hr. unfold win. cbn [upd_win upd_desk with_desk desk]. rewrite win_at_put by (apply Hi || done || lia). by rewrite Z.eqb_refl.
Qed.

(** A change of the window that keeps its owner and its buffer. *)
Lemma paints_win id g g' f :
  gui_inv g' -> 0 <= id < GUI_MAX_WINDOWS -> paints id g g' ->
  w_used (f (win g' id)) = w_used (win g' id) -> w_owner_pid (f (win g' id)) = w_owner_pid (win g' id) ->
  w_backing (f (win g' id)) = w_backing (win g' id) -> w_backing_capacity (f (win g' id)) = w_backing_capacity (win g' id) ->
  paints id g (upd_win id f g').
Proof.
  intros Hi Hr (Hu & Ho & Hp) E1 E2 E3 E4. unfold paints. rewrite win_upd, E1, E2 by done.
  split; [done|]. split; [done|]. intros a Ha. apply Hp. intros Hb. apply Ha. unfold in_backing in *. by rewrite E3, E4.
Qed.

(** A new buffer, filled with the background colour. *)
Lemma alloc_pixels w hp px n status w' hp' px' :
  0 <= w_w w -> 0 <= content_h w -> n = w_w w * content_h w * 4 -> n < 2 ^ 32 ->
  gui_window_alloc_backing n w hp px = (status, w', hp', px') ->
  w_used w' = w_used w /\ w_owner_pid w' = w_owner_pid w /\ forall a, ~ in_backing w' a -> rd32 px' a = rd32 px a.
Proof.
  intros Hw Hh -> Hn E. unfold gui_window_alloc_backing in E. destruct (h_malloc _ hp) as [p hp1].
  destruct (Z.eqb_spec p 0) as [|Hp]; injection E as <- <- <- <-; [done|]. split; [done|]. split; [done|]. intros a Ha.
  refine (content_stores (set_backing w (w_owner_drawn w) p (w_w w * content_h w * 4)) px _ a Hw Hh Hp (Z.le_refl _) _ Ha).
  apply fillrect_same_off; cbn; lia.
Qed.

Lemma on_backing_pixels (f : gui_window -> H -> gmap Z Z -> Z * gui_window * H * gmap Z Z) id g :
  (f = gui_window_ensure_backing \/ f = gui_window_reset_backing) ->
  gui_inv g -> 0 <= id < GUI_MAX_WINDOWS -> w_used (win g id) = true -> paints id g (snd (on_backing f id g)).
Proof.
  intros Hf Hi Hr Hu. pose proof (live_self fb rest g id Hi Hr Hu) as Hl.
  unfold on_backing. destruct (f (win g id) (g_heap g) (g_px g)) as [[[status w] hp] px] eqn:E. cbn [snd]. unfold paints.
  assert (Hat : win (Gui (put_win id w (desk g)) (g_active g) (g_dirty g) hp px) id = w).
  { unfold win. cbn [desk]. rewrite win_at_put by (apply Hi || done || lia). by rewrite Z.eqb_refl. }
  rewrite Hat. cbn [g_px]. assert (Hww : 0 <= w_w (win g id)) by (destruct Hl; lia).
  assert (Hch : 0 <= content_h (win g id)) by (unfold content_h; destruct (_ >? _) eqn:?; b2p; lia).
  destruct Hf as [-> | ->]; [unfold gui_window_ensure_backing in E|unfold gui_window_reset_backing in E];
    (destruct (gui_window_backing_size (win g id)) as [n|] eqn:En; [|by injection E as <- <- <- <-]);
    destruct (backing_size_range fb _ _ Hl En) as [Hn Hsz];
    (destruct (_ && _) eqn:Hg; [|by eapply alloc_pixels; [| | | |exact E]; try lia]); b2p; injection E as <- <- <- <-; [done|].
  split; [done|]. split; [done|]. intros a Ha.
  refine (content_stores (win g id) _ _ a Hww Hch ltac:(done) ltac:(lia) _ Ha). apply fillrect_same_off; cbn; lia.
Qed.

(** A further draw on the content, after the buffer has been made sure of. *)
Lemma prepare_pixels id g (draw : fb_t -> gmap Z Z -> gmap Z Z) :
  gui_inv g -> 0 <= id < GUI_MAX_WINDOWS -> w_used (win g id) = true ->
  (forall b, 0 <= fb_width b <= fb_stride b -> fb_height b * fb_stride b < 2 ^ 32 -> forall px, same_off b px (draw b px)) ->
  let '(status, g1) := prepare_drawing id g in
  paints id g g1 /\ (status = 0 -> paints id g (with_px g1 (draw (gui_window_backing_fb (win g1 id)) (g_px g1)))).
Proof.
  intros Hi Hr Hu Hd. pose proof (on_backing_pixels gui_window_ensure_backing id g (or_introl eq_refl) Hi Hr Hu) as Hp.
  pose proof (on_backing_kept fb rest gui_window_ensure_backing id g (or_introl eq_refl) Hi Hr Hu) as Hk.
  unfold prepare_drawing. destruct (on_backing _ _ _) as [status g1]. cbn [snd] in Hp. destruct Hk as ([Hi1 _] & Hu1 & _ & _ & Hc).
  destruct (Z.eqb_spec status 0) as [E|]; cbn [negb]; [|split; [done|discriminate]]. destruct (Hc E) as (Hb & _ & _ & Hcap).
  set (f := fun w => set_backing w true (w_backing w) (w_backing_capacity w)). pose proof (win_upd id f g1 Hi1 Hr) as Ew.
  split; [by apply paints_win|intros _]. destruct Hp as (Hu' & Ho & Hp). unfold paints. change (win (with_px ?g _) id) with (win g id). rewrite Ew.
  pose proof (live_self fb rest g1 id Hi1 Hr Hu1) as Hl. assert (Hww : 0 <= w_w (win g1 id)) by (destruct Hl; lia).
  assert (Hch : 0 <= content_h (win g1 id) <= w_h (win g1 id)) by (destruct Hl; unfold content_h; destruct (_ >? _) eqn:?; b2p; lia).
  split; [done|]. split; [done|]. intros a Ha. rewrite <- (Hp a Ha).
  refine (content_stores (win g1 id) (g_px g1) _ a Hww (proj1 Hch) Hb ltac:(lia) _ Ha).
  apply Hd; cbn; [lia|]. destruct Hl. pose proof Hfb as []. nia.
Qed.

Lemma draw_text_pixels id x y text color g :
  gui_inv g -> 0 <= id -> w_used (win g id) = true -> paints id g (snd (gui_window_draw_text id x y text color g)).
Proof.
  intros Hi Hid Hu. destruct text as [text|]; [|done]. cbn [gui_window_draw_text]. destruct (_ || _) eqn:Hg; [done|]. b2p.
  set (x0 := if x <? 0 then 0 else x). set (y0 := if y <? 0 then 0 else y).
  pose proof (prepare_pixels id g (fun b px => font_draw_text b (u32 x0) (u32 y0) text color px) Hi ltac:(lia) Hu) as Hp.
  destruct (prepare_drawing id g) as [status g1]. destruct Hp as [Hp1 Hp2].
  { intros b Hw Hs px. by apply text_same_off. }
  destruct (Z.eqb_spec status 0); cbn [negb snd]; [|done]. cbv zeta. destruct (_ || _); [done|]. cbn [snd]. by apply paints_damage, Hp2.
Qed.

Lemma draw_rect_pixels id x y ww h color g :
  gui_inv g -> 0 <= id -> w_used (win g id) = true -> paints id g (snd (gui_window_draw_rect id x y ww h color g)).
Proof.
  intros Hi Hid Hu. unfold gui_window_draw_rect. destruct (_ || _) eqn:Hg; [done|]. b2p. destruct (_ || _); [done|].
  assert (Hd : forall x0 y0 ww0 h0 b, 0 <= fb_width b <= fb_stride b -> fb_height b * fb_stride b < 2 ^ 32 ->
    forall px, same_off b px (fb_fillrect b (u32 x0) (u32 y0) (u32 ww0) (u32 h0) color px)).
  { intros x0 y0 ww0 h0 b Hw Hs px. apply fillrect_same_off; try done; apply u32_range. }
  pose proof (fun x0 y0 ww0 h0 => prepare_pixels id g _ Hi ltac:(lia) Hu (Hd x0 y0 ww0 h0)) as Hp.
  destruct (prepare_drawing id g) as [status g1]. destruct (Z.eqb_spec status 0) as [E|]; cbn [negb snd]; [|exact (proj1 (Hp 0 0 0 0))].
  cbv zeta. destruct (clip_bounds _ _ _ _ _) as [[[x0 y0] x1] y1]. destruct (Hp x0 y0 (x1 - x0) (y1 - y0)) as [Hp1 Hp2].
  destruct (_ || _); [done|]. cbn [snd]. by apply paints_damage, Hp2.
Qed.

Lemma push_keeps_buffer w type data1 data2 :
  let w' := snd (gui_window_push_event w type data1 data2) in
  w_used w' = w_used w /\ w_owner_pid w' = w_owner_pid w /\ w_backing w' = w_backing w /\ w_backing_capacity w' = w_backing_capacity w.
Proof.
  unfold gui_window_push_event. destruct (negb _); [done|]. cbv zeta. destruct (_ && _); [done|].
  destruct (_ && _); [done|]. by destruct (if _ : bool then _ else _).
Qed.

Lemma paints_after id g g1 g2 :
  w_used (win g1 id) = w_used (win g id) -> w_owner_pid (win g1 id) = w_owner_pid (win g id) -> g_px g1 = g_px g ->
  paints id g1 g2 -> paints id g g2.
Proof. unfold paints. by intros <- <- <-. Qed.

Lemma resize_pixels id x y ww h g :
  gui_inv g -> 0 <= id -> 0 <= x -> 0 <= y -> w_used (win g id) = true ->
  g_px (snd (gui_resize_window id x y ww h g)) = g_px g \/ paints id g (snd (gui_resize_window id x y ww h g)).
Proof.
  intros Hi Hid Hx Hy Hu. pose proof (di_fb _ _ _ _ Hi) as Efb. unfold gui_resize_window. rewrite Efb.
  destruct (_ || _) eqn:Hg; [by left|]. b2p. assert (Hr : 0 <= id < GUI_MAX_WINDOWS) by lia.
  destruct (fits_framebuffer fb x y ww h) as (? & ? & ? & ?); [done..|].
  set (g1 := upd_desk gui_refresh_cursor_shape (upd_win id (fun w => set_bounds w x y ww h) g)).
  assert (Hat : win g1 id = set_bounds (win g id) x y ww h) by (apply (win_upd id (fun w => set_bounds w x y ww h) g); done).
  destruct (negb _ || negb _); [|left; cbn [negb Z.eqb snd]; exact (px_damage _ _ _ _ g1)].
  destruct (Z_lt_ge_dec (w_title_h (win g id)) h) as [Ht|Ht].
  - right. assert (Hi1 : gui_inv g1).
    { apply inv_upd_desk, inv_refresh. apply (inv_upd_win fb rest g id (fun w => set_bounds w x y ww h)); try done.
      apply slot_bounds; try done; try lia. apply (slot_at fb rest); done. }
    pose proof (on_backing_pixels gui_window_reset_backing id g1 (or_intror eq_refl) Hi1 Hr ltac:(by rewrite Hat)) as Hp.
    pose proof (on_backing_kept fb rest gui_window_reset_backing id g1 (or_intror eq_refl) Hi1 Hr ltac:(by rewrite Hat)) as Hk.
    apply (paints_after id g) in Hp; [|by rewrite Hat..|done].
    destruct (on_backing gui_window_reset_backing id g1) as [status g2]. cbn [snd] in Hp. destruct Hk as ([Hi2 _] & _).
    destruct (status =? 0); cbn [negb Z.eqb snd]; [apply paints_damage|]; apply paints_win; try done; apply push_keeps_buffer.
  - left. unfold on_backing. rewrite Hat. unfold gui_window_reset_backing, gui_window_backing_size.
    change (content_h (set_bounds (win g id) x y ww h)) with (if h >? w_title_h (win g id) then h - w_title_h (win g id) else 0).
    destruct (Z.gtb_spec h (w_title_h (win g id))); [lia|]. cbn [Z.eqb]. by destruct (_ || _).
Qed.
End Backings.

(** The pixels of windows of process [pid] after the step hold every pixel it
    changes. *)
Definition paints_for {H} (pid : Z) (g g' : gui H) : Prop :=
  forall a, (forall i, 0 <= i < GUI_MAX_WINDOWS -> w_used (win g' i) = true -> w_owner_pid (win g' i) = pid -> ~ in_backing (win g' i) a) ->
    rd32 (g_px g') a = rd32 (g_px g) a.

Lemma paints_for_same {H} pid (g g' : gui H) : g_px g' = g_px g -> paints_for pid g g'.
Proof. intros E a _. by rewrite E. Qed.

Lemma paints_for_own {H} `{KernelHeap H} pid id (g g' : gui H) :
  0 <= id < GUI_MAX_WINDOWS -> w_used (win g id) = true -> w_owner_pid (win g id) = pid ->
  g_px g' = g_px g \/ paints id g g' -> paints_for pid g g'.
Proof.
  intros Hr Hu Ho [E|(Eu & Eo & Hp)]; [by apply paints_for_same|]. intros a Ha. apply Hp, Ha; [done|by rewrite Eu|by rewrite Eo].
Qed.

Lemma paints_for_wins {H} pid (g g1 g2 : gui H) :
  d_windows (desk g2) = d_windows (desk g1) -> g_px g2 = g_px g1 -> paints_for pid g g1 -> paints_for pid g g2.
Proof. intros Ew Ep. unfold paints_for, win, win_at. by rewrite Ew, Ep. Qed.

(** * Operations that store no pixel *)

Section NoPixels.
Context {H : Type} `{KernelHeap H}.
Implicit Types (g : gui H).

Ltac no_px := repeat first [rewrite px_damage|rewrite px_redraw|progress cbn [snd upd_desk upd_win with_desk g_px]|case_match|done].

Lemma create_px pid x y ww h bg border title g : g_px (snd (gui_create_window_for_pid pid x y ww h bg border title g)) = g_px g.
Proof. unfold gui_create_window_for_pid. cbv zeta. no_px. Qed.

Lemma destroy_px id g : g_px (snd (gui_destroy_window id g)) = g_px g.
Proof. unfold gui_destroy_window. cbv zeta. no_px. Qed.

Lemma title_px id title g : g_px (snd (gui_window_set_title_internal id title g)) = g_px g.
Proof. unfold gui_window_set_title_internal. cbv zeta. no_px. Qed.

Lemma title_bar_px id title_h g : g_px (snd (gui_window_set_title_bar_internal id title_h g)) = g_px g.
Proof. unfold gui_window_set_title_bar_internal. cbv zeta. no_px. Qed.

Lemma minimize_px id g : g_px (snd (gui_window_minimize id g)) = g_px g.
Proof. unfold gui_window_minimize. cbv zeta. no_px. Qed.

Lemma restore_px id g : g_px (snd (gui_window_restore id g)) = g_px g.
Proof. unfold gui_window_restore. cbv zeta. no_px. Qed.

Lemma focus_px id g : g_px (snd (gui_focus_window id g)) = g_px g.
Proof. unfold gui_focus_window, damage_window. cbv zeta. no_px. Qed.

Lemma shape_px shape g : g_px (snd (gui_set_cursor_shape shape g)) = g_px g.
Proof. unfold gui_set_cursor_shape. no_px. Qed.

Lemma region_px id slot x y ww h shape g : g_px (snd (gui_register_cursor_region id slot x y ww h shape g)) = g_px g.
Proof. unfold gui_register_cursor_region. cbv zeta. no_px. Qed.
End NoPixels.
