(* ===== verification/WindowCalls.v ===== *)
(** What a process can do with the window system calls: they never fault, keep
    the desktop consistent, store only behind the caller's own buffers, and
    leave the windows of other processes alone, but for the calls meant for the
    task bar. *)

From S2P Require Import Prelude.
From S2P Require Import PageAlloc.
From S2P Require Import Pmm.
From S2P Require Import Vmm.
From S2P Require Import ProcessRegions.
From S2P Require Import Bytes.
From S2P Require Import UserVm.
From S2P Require Import UserCopy.
From S2P Require Import Input.
From S2P Require Import Framebuffer.
From S2P Require Import Gui.
From S2P Require Import GuiDraw.
From S2P Require Import GuiPaint.
From S2P Require Import GuiScene.
From S2P Require Import GuiState.
From S2P Require Import GuiInv.
From S2P Require Import GuiInput.
From S2P Require Import GuiSafety.
From S2P Require Import SyscallGui.
From S2P Require Import WindowPixels.
Open Scope arm.

(** What call [n], whose first argument is [asked], may do to window [i] of
    another process: SYS_WINDOW_FOCUS raises the window asked for,
    SYS_WINDOW_RESTORE restores it, raises it and tells it, and
    SYS_CURSOR_REGISTER_REGION sets a cursor region of it when it has no owner;
    nothing else, and nothing to another window. *)
Definition spared (n asked i : Z) (w w' : gui_window) : Prop :=
  w' = w \/
  (i = asked /\
   ((n = 77 /\ exists z, w' = set_z w z) \/
    (n = 84 /\ exists z, w' = snd (gui_window_push_event (set_z (set_minimized w false) z) GUI_EVENT_MAXIMIZE 0 0)) \/
    (n = 86 /\ w_owner_pid w = GUI_NO_OWNER /\ exists slot r, w' = set_regions w (<[slot := r]> (w_regions w))))).

Lemma spared_eq n asked i w w' : w' = w -> spared n asked i w w'.
Proof. by left. Qed.

(** A spared window has the buffer it had. *)
Lemma spared_buffer n asked i w w' a : spared n asked i w w' -> in_backing w a -> in_backing w' a.
Proof.
  unfold in_backing. intros [->|[_ [[_ [z ->]]|[[_ [z ->]]|(_ & _ & slot & r & ->)]]]]; [done|done| |done].
  pose proof (push_keeps_buffer (set_z (set_minimized w false) z) GUI_EVENT_MAXIMIZE 0 0) as (_ & _ & E1 & E2). by rewrite E1, E2.
Qed.

(** ** Memory *)

Section Memory.
Context {A : Type} `{PageAllocatorLaws A}.
Implicit Types (st : mach A) (L : gmap Z nat).

(** The stores from [st] to [st'] are to bytes EL0 may write. *)
Record mem_confined (tt : Z) st st' : Prop := {
  mc_space : same_space st st' tt;
  mc_frame : forall a, (forall v, 0 <= v < 2 ^ 48 -> el0_access st tt true v -> vmm_virt_to_phys st tt v <> a) ->
    rd8 (m_ram st') a = rd8 (m_ram st) a }.

Lemma mem_refl tt st : mem_confined tt st st.
Proof. by split. Qed.

Lemma mem_trans tt st1 st2 st3 : mem_confined tt st1 st2 -> mem_confined tt st2 st3 -> mem_confined tt st1 st3.
Proof.
  intros [S1 F1] [S2 F2]. split; [by eapply same_space_trans|]. intros a Ha. rewrite F2, F1; [done|done|].
  intros v Hv Hacc. rewrite (same_space_phys _ _ _ _ S1). apply Ha; [done|]. destruct S1 as [_ E]. unfold el0_access in *. by rewrite E in Hacc.
Qed.

Lemma stores_mem tt p L st st' ptr src len :
  user_space st tt p L -> buf_ok st p true ptr len -> stores st tt ptr src 0 len st' -> mem_confined tt st st'.
Proof.
  intros Hs Hb [S1 S2 _]. split; [done|]. intros a Ha. apply S2. intros i Hi.
  destruct (buf_ok_addr _ _ _ _ _ _ _ (ptr + i) Hs Hb ltac:(lia)) as [Hacc Hv]. apply Ha; [lia|done].
Qed.

Lemma copy_to_mem tt p L st ptr src len :
  user_space st tt p L -> is_u64 ptr -> is_u64 len ->
  exists status st', sys_copy_to_user st tt (Some p) ptr (Some src) len = Some (status, st') /\
    user_space st' tt p L /\ mem_confined tt st st'.
Proof.
  intros Hs Hp Hl. destruct (copy_to_user_ok st tt p L ptr src len Hs Hp Hl) as (s & st' & E & Hs' & Hc).
  exists s, st'. split_and!; [done|done|]. destruct Hc as [(_ & Hb & Hst)|(_ & _ & ->)]; [by eapply stores_mem|apply mem_refl].
Qed.

(** Part of an accepted buffer. *)
Lemma buf_ok_part st p w ptr len off n :
  buf_ok st p w ptr len -> 0 <= off -> 0 < n -> off + n <= len -> buf_ok st p w (ptr + off) n.
Proof.
  intros [?|(Hp & Hl & Hv & (k & r & Hr & H1 & H2) & Ha)] Ho Hn Hle; [lia|right].
  split_and!; [lia|lia| |exists k, r; split_and!; [done|lia|lia]|intros v Hv'; apply Ha; lia].
  unfold valid_range in *. lia.
Qed.

Lemma buf_stays_ok tt p L st st' w ptr len :
  user_space st tt p L -> same_space st st' tt -> buf_ok st p w ptr len -> buf_ok st' p w ptr len.
Proof.
  intros Hs Hsp [?|(? & ? & ? & ? & Hv)]; [by left|right]. split_and!; try done. intros v Hv'.
  pose proof (us_tt _ _ _ _ Hs) as Ett. rewrite Ett in Hsp. apply (same_space_access st); [done|by apply Hv].
Qed.

Lemma import_string_total tt p L st ptr n :
  user_space st tt p L -> is_u64 ptr -> 0 <= n < 2 ^ 32 ->
  exists status out, import_string (Some p) tt ptr n st = Some (status, out).
Proof.
  intros Hs Hp Hn. unfold import_string.
  destruct (user_copy_cstr_ok st tt p L ptr (replicate (Z.to_nat n) 0) 0 n Hs Hp) as (s & out & -> & _);
    [lia|done|rewrite length_replicate; lia|]. by eexists _, _.
Qed.
End Memory.

(** ** The calls *)

Section Windows.
Context {A H : Type} `{PageAllocatorLaws A} `{KernelHeapLaws H}.
Context (fb : fb_t) (Hfb : fb_ok fb) (rest : list (Z * Z)) (tt : Z) (p : process) (Hpid : 0 <= pid p < 2 ^ 32) (L : gmap Z nat).
Implicit Types (st : mach A) (g : gui H).
Abbreviation gui_inv := (gui_inv fb rest).
Abbreviation kept := (kept fb rest).

Definition spares (n asked : Z) g g' : Prop :=
  forall i, 0 <= i < GUI_MAX_WINDOWS -> w_used (win g i) = true -> w_owner_pid (win g i) <> pid p -> spared n asked i (win g i) (win g' i).

Definition call_ok (n asked : Z) g st (r : answer (A := A) (H := H)) : Prop :=
  exists v g' st', r = Some (v, g', st') /\ kept 1 g g' /\ spares n asked g g' /\ paints_for (pid p) g g' /\
    user_space st' tt p L /\ mem_confined tt st st'.

Lemma ok_gui n asked g st v g' :
  user_space st tt p L -> kept 1 g g' -> spares n asked g g' -> paints_for (pid p) g g' -> call_ok n asked g st (Some (v, g', st)).
Proof. intros. exists v, g', st. split_and!; try done. Qed.

Lemma spares_refl n asked g : spares n asked g g.
Proof. intros i _ _ _. by apply spared_eq. Qed.

Lemma ok_none n asked g st v : user_space st tt p L -> gui_inv g -> call_ok n asked g st (Some (v, g, st)).
Proof. intros. apply ok_gui; [done|by apply kept_refl|apply spares_refl|by apply paints_for_same]. Qed.

Lemma ok_mem n asked g st v st' : gui_inv g -> user_space st' tt p L -> mem_confined tt st st' -> call_ok n asked g st (Some (v, g, st')).
Proof. intros. exists v, g, st'. split_and!; [done|by apply kept_refl|apply spares_refl|by apply paints_for_same|done|done]. Qed.

Lemma spares_only n asked id g g' : only id g g' -> w_owner_pid (win g id) = pid p -> spares n asked g g'.
Proof. intros Ho Hp i Hi Hu Hne. apply spared_eq, Ho; [lia|congruence]. Qed.

Lemma spares_same n asked g g' : d_windows (desk g') = d_windows (desk g) -> spares n asked g g'.
Proof. intros E i Hi Hu Hne. apply spared_eq. unfold win, win_at. by rewrite E. Qed.

Lemma owner_lookup id missing g :
  negb (missing =? 0) = true -> owner_window_lookup (Some p) id missing g = 0 ->
  id < GUI_MAX_WINDOWS /\ w_used (win g id) = true /\ w_owner_pid (win g id) = pid p.
Proof.
  intros Hm. unfold owner_window_lookup. destruct (Z.geb_spec id GUI_MAX_WINDOWS); [done|].
  destruct (g_active g); [cbn [negb]|done]. destruct (w_used (win g id)); cbn [negb]; [|intros ->; done].
  destruct (Z.eqb_spec (w_owner_pid (win g id)) (pid p)); [done|cbn [negb]; done].
Qed.

(** The owner check either ends the call or finds a window of the caller. *)
Lemma ok_owner n asked id missing g st k :
  user_space st tt p L -> gui_inv g -> negb (missing =? 0) = true ->
  (id < GUI_MAX_WINDOWS -> w_used (win g id) = true -> w_owner_pid (win g id) = pid p -> call_ok n asked g st k) ->
  call_ok n asked g st (if negb (owner_window_lookup (Some p) id missing g =? 0)
                  then Some (owner_window_lookup (Some p) id missing g, g, st) else k).
Proof.
  intros Hs Hi Hm Hk. destruct (Z.eqb_spec (owner_window_lookup (Some p) id missing g) 0) as [E|]; cbn [negb]; [|by apply ok_none].
  by destruct (owner_lookup id missing g Hm E) as (? & ? & ?); apply Hk.
Qed.

(** A call into the window system on a window of the caller. *)
Lemma ok_own n asked id g st (r : Z * gui H) (fail : Z) :
  user_space st tt p L -> w_owner_pid (win g id) = pid p -> kept 0 g (snd r) -> only id g (snd r) -> paints_for (pid p) g (snd r) ->
  call_ok n asked g st (let '(status, g) := r in if negb (status =? 0) then Some (fail, g, st) else Some (0, g, st)).
Proof.
  intros Hs Ho Hk Hn Hp. destruct r as [status g']. cbn [snd] in *.
  destruct (negb _); (apply ok_gui; [done|apply (kept_more fb rest 0); [done|lia]|by eapply spares_only|done]).
Qed.

Lemma paints_for_redraw g g' : paints_for (pid p) g g' -> paints_for (pid p) g (gui_request_redraw g').
Proof. apply paints_for_wins; [apply wins_redraw|apply px_redraw]. Qed.

Lemma ok_own_redraw n asked id g st (r : Z * gui H) (fail : Z) :
  user_space st tt p L -> w_owner_pid (win g id) = pid p -> kept 0 g (snd r) -> only id g (snd r) -> paints_for (pid p) g (snd r) ->
  call_ok n asked g st (let '(status, g) := r in if negb (status =? 0) then Some (fail, g, st) else Some (0, gui_request_redraw g, st)).
Proof.
  intros Hs Ho Hk Hn Hp. destruct r as [status g']. cbn [snd] in *.
  destruct (negb _); (apply ok_gui; [done|apply (kept_more fb rest 0); [try apply kept_redraw; done|lia]|eapply spares_only; [try apply only_redraw; done|done]|try apply paints_for_redraw; done]).
Qed.

Lemma create_ok x y w h bg border title_ptr g st :
  user_space st tt p L -> gui_inv g -> next g < UINT32_MAX -> 0 <= x -> 0 <= y -> is_u64 title_ptr ->
  call_ok 70 x g st (sys_window_create (Some p) tt x y w h bg border title_ptr g st).
Proof.
  intros Hs Hi Hn Hx Hy Ht. unfold sys_window_create. destruct (_ || _); [by apply ok_none|].
  assert (Him : exists status title, (if negb (title_ptr =? 0) then import_string (Some p) tt title_ptr GUI_TITLE_LEN st
    else Some (0, replicate (Z.to_nat GUI_TITLE_LEN) 0)) = Some (status, title)).
  { destruct (negb _); [by eapply import_string_total|by eexists _, _]. }
  destruct Him as (status & title & ->). destruct (negb (status =? 0)); [by apply ok_none|].
  destruct (negb (g_active g)); [by apply ok_none|].
  pose proof (create_kept fb Hfb rest (pid p) x y w h bg border (Some title) g Hi Hn Hx Hy) as Hk.
  assert (Hsp : spares 70 x g (snd (gui_create_window_for_pid (pid p) x y w h bg border (Some title) g))).
  { clear Hk. unfold gui_create_window_for_pid. destruct (d_fb (desk g)) as [fb'|]; [|apply spares_refl].
    destruct (_ || _); [apply spares_refl|]. destruct (find_range _ _ _) as [i|] eqn:Ef; [|apply spares_refl].
    apply find_range_Some in Ef as (Hr & Hfree & _). cbn [snd]. intros j Hj Hu _. apply spared_eq.
    assert (Ho : forall g', only i g g' -> win g' j = win g j) by (intros g' Ho; apply Ho; [lia|]; intros ->; by rewrite Hu in Hfree).
    apply Ho. cbv zeta. apply only_damage, only_refresh. destruct (_ && _); by eapply only_put; [lia|]. }
  pose proof (paints_for_same (pid p) _ _ (create_px (pid p) x y w h bg border (Some title) g)) as Hpx.
  destruct (gui_create_window_for_pid _ _ _ _ _ _ _ _ _) as [[status' id] g']. cbn [snd] in *.
  destruct (negb _); apply ok_gui; try done; [by apply kept_redraw| |by apply paints_for_redraw].
  intros i Hi' Hu Hne. specialize (Hsp i Hi' Hu Hne). unfold win, win_at in *. by rewrite wins_redraw.
Qed.

Lemma destroy_ok id g st : user_space st tt p L -> gui_inv g -> 0 <= id -> call_ok 71 id g st (sys_window_destroy (Some p) id g st).
Proof.
  intros Hs Hi Hid. apply ok_owner; [done..|]. intros Hr Hu Ho.
  apply (ok_own_redraw 71 id id); [done|done|by apply destroy_kept|by apply destroy_only|apply paints_for_same, destroy_px].
Qed.

Lemma draw_text_ok id x y color str_ptr g st :
  user_space st tt p L -> gui_inv g -> 0 <= id -> is_u64 str_ptr ->
  call_ok 72 id g st (sys_window_draw_text (Some p) tt id x y color str_ptr g st).
Proof.
  intros Hs Hi Hid Hp. unfold sys_window_draw_text. destruct (_ || _); [by apply ok_none|]. apply ok_owner; [done..|]. intros Hr Hu Ho.
  destruct (import_string_total tt p L st str_ptr 128 Hs Hp ltac:(lia)) as (status & text & ->). destruct (negb (status =? 0)); [by apply ok_none|].
  apply (ok_own 72 id id); [done|done|by apply draw_text_kept|by apply draw_text_only|].
  apply (paints_for_own (pid p) id); [lia|done|done|right; by apply (draw_text_pixels fb Hfb rest)].
Qed.

Lemma draw_rect_ok id x y w h color g st :
  user_space st tt p L -> gui_inv g -> 0 <= id -> call_ok 73 id g st (sys_window_draw_rect (Some p) id x y w h color g st).
Proof.
  intros Hs Hi Hid. unfold sys_window_draw_rect. destruct (_ || _); [by apply ok_none|]. apply ok_owner; [done..|]. intros Hr Hu Ho.
  apply (ok_own 73 id id); [done|done|by apply draw_rect_kept|by apply draw_rect_only|].
  apply (paints_for_own (pid p) id); [lia|done|done|right; by apply (draw_rect_pixels fb Hfb rest)].
Qed.

Lemma redraw_ok id g st : user_space st tt p L -> gui_inv g -> call_ok 76 id g st (sys_window_redraw (Some p) id g st).
Proof.
  intros Hs Hi. apply ok_owner; [done..|]. intros _ _ _. apply ok_gui; [done|by apply kept_redraw, kept_refl|apply spares_same, wins_redraw|apply paints_for_same, px_redraw].
Qed.

Lemma flush_ok id x y w h g st : user_space st tt p L -> gui_inv g -> call_ok 80 id g st (sys_window_flush (Some p) id x y w h g st).
Proof.
  intros Hs Hi. unfold sys_window_flush. destruct (_ || _); [by apply ok_none|]. apply ok_owner; [done..|]. intros _ _ _.
  destruct (_ || _); [by apply ok_none|]. cbv zeta. destruct (clip_bounds _ _ _ _ _) as [[[x0 y0] x1] y1].
  destruct (_ || _); [by apply ok_none|]. apply ok_gui; [done|by apply kept_damage, kept_refl|apply spares_same, wins_damage|apply paints_for_same, px_damage].
Qed.

Lemma minimize_ok id g st : user_space st tt p L -> gui_inv g -> 0 <= id -> call_ok 83 id g st (sys_window_minimize (Some p) id g st).
Proof.
  intros Hs Hi Hid. apply ok_owner; [done..|]. intros Hr Hu Ho.
  apply (ok_own 83 id id); [done|done|by apply minimize_kept|by apply minimize_only|apply paints_for_same, minimize_px].
Qed.

Lemma set_bounds_ok id x y w h g st :
  user_space st tt p L -> gui_inv g -> 0 <= id -> 0 <= x -> 0 <= y ->
  call_ok 82 id g st (sys_window_set_bounds (Some p) id x y w h g st).
Proof.
  intros Hs Hi Hid Hx Hy. unfold sys_window_set_bounds. destruct (_ || _); [by apply ok_none|]. apply ok_owner; [done..|]. intros Hr Hu Ho.
  apply (ok_own 82 id id); [done|done|by apply resize_kept|by apply resize_only|].
  apply (paints_for_own (pid p) id); [lia|done|done|by apply (resize_pixels fb rest)].
Qed.

Lemma get_bounds_ok id out_ptr g st :
  user_space st tt p L -> gui_inv g -> is_u64 out_ptr -> call_ok 81 id g st (sys_window_get_bounds (Some p) tt id out_ptr g st).
Proof.
  intros Hs Hi Hp. apply ok_owner; [done..|]. intros _ _ _. cbv zeta.
  match goal with |- context [Some (?a ++ ?b)] => set (out := a ++ b) end.
  destruct (copy_to_mem tt p L st out_ptr out 16 Hs Hp ltac:(done)) as (s & st' & -> & Hs' & Hm). by apply ok_mem.
Qed.

Lemma title_call_ok id title_ptr title_h g st :
  user_space st tt p L -> gui_inv g -> 0 <= id -> is_u64 title_ptr -> 0 <= title_h ->
  call_ok 75 id g st (sys_window_set_title (Some p) tt id title_ptr title_h g st).
Proof.
  intros Hs Hi Hid Hp Hh. unfold sys_window_set_title. destruct (_ || _); [by apply ok_none|]. apply ok_owner; [done..|]. intros Hr Hu Ho.
  destruct (import_string_total tt p L st title_ptr GUI_TITLE_LEN Hs Hp ltac:(done)) as (status & title & ->).
  destruct (negb (status =? 0)); [by apply ok_none|]. destruct (_ && _); [by apply ok_none|].
  pose proof (title_kept fb Hfb rest id (Some title) g Hi Hid) as Hk. pose proof (title_only id (Some title) g Hid) as Hn.
  pose proof (title_px id (Some title) g) as Hx1. destruct (gui_window_set_title_internal _ _ _) as [s1 g1]. cbn [snd] in Hk, Hn, Hx1.
  destruct (negb (s1 =? 0)); [apply ok_gui; [done|by apply (kept_more fb rest 0)|by eapply spares_only|by apply paints_for_same]|].
  pose proof (kept_redraw fb rest _ _ _ Hk) as Hk1. pose proof (only_redraw _ _ _ Hn) as Hn1.
  pose proof (px_redraw g1) as Hx2. rewrite Hx1 in Hx2. cbv zeta. revert Hk1 Hn1 Hx2. generalize (gui_request_redraw g1). intros g2 Hk2 Hn2 Hx2.
  destruct (title_h >? 0); [|apply ok_gui; [done|by apply (kept_more fb rest 0)|by eapply spares_only|by apply paints_for_same]].
  pose proof (title_bar_kept fb Hfb rest id title_h g2 (proj1 Hk2) Hid Hh) as Hk3. pose proof (title_bar_only id title_h g2 Hid) as Hn3.
  apply (ok_own 75 id id g); [done|done|..]; [|by eapply only_trans|apply paints_for_same; by rewrite title_bar_px].
  exact (kept_trans fb rest 0 0 _ _ _ Hk2 Hk3).
Qed.

Lemma for_pid_ok owner_pid index g st :
  user_space st tt p L -> gui_inv g -> call_ok 78 owner_pid g st (sys_window_for_pid (Some p) owner_pid index g st).
Proof.
  intros Hs Hi. unfold sys_window_for_pid. destruct (_ || _); [by apply ok_none|]. destruct (negb _); [by apply ok_none|].
  cbv zeta. destruct (_ =? _); by apply ok_none.
Qed.

Lemma shape_ok shape g st : user_space st tt p L -> gui_inv g -> call_ok 79 shape g st (sys_cursor_set_shape (Some p) shape g st).
Proof.
  intros Hs Hi. unfold sys_cursor_set_shape. destruct (_ || _); [by apply ok_none|]. destruct (negb _); [by apply ok_none|].
  pose proof (shape_kept fb rest shape g Hi) as Hk.
  assert (Ew : d_windows (desk (snd (gui_set_cursor_shape shape g))) = d_windows (desk g)) by (unfold gui_set_cursor_shape; by destruct (_ && _)).
  pose proof (paints_for_same (pid p) _ _ (shape_px shape g)) as Hpx.
  destruct (gui_set_cursor_shape shape g) as [s g1]. cbn [snd] in *. destruct (negb _).
  - apply ok_gui; [done|by apply (kept_more fb rest 0)|by apply spares_same|done].
  - apply ok_gui; [done|apply (kept_more fb rest 0); [by apply kept_redraw|lia]| |by apply paints_for_redraw]. apply spares_same. by rewrite wins_redraw.
Qed.

Lemma state_ok id out_ptr g st :
  user_space st tt p L -> gui_inv g -> is_u64 out_ptr -> call_ok 85 id g st (sys_window_state (Some p) tt id out_ptr g st).
Proof.
  intros Hs Hi Hp. unfold sys_window_state. destruct (_ || _); [by apply ok_none|]. destruct (negb (g_active g)); [by apply ok_none|].
  cbv zeta. destruct (negb _); [by apply ok_none|]. match goal with |- context [Some (le4 ?s)] => set (out := le4 s) end.
  destruct (copy_to_mem tt p L st out_ptr out 4 Hs Hp ltac:(done)) as (s & st' & -> & Hs' & Hm). by apply ok_mem.
Qed.

Lemma win_same g g' i : d_windows (desk g') = d_windows (desk g) -> win g' i = win g i.
Proof. intros E. unfold win, win_at. by rewrite E. Qed.

(** Window [id] of [g] is [w]; the others are those of [g0]. *)
Definition shown (id : Z) (w : gui_window) g0 g : Prop := d_windows (desk g) = <[Z.to_nat id := w]> (d_windows (desk g0)).

Lemma shown_start id g : gui_inv g -> 0 <= id < GUI_MAX_WINDOWS -> shown id (win g id) g g.
Proof. intros Hi Hr. unfold shown. symmetry. apply list_insert_id, win_at_lookup; [apply (di_len _ _ _ _ Hi)|done]. Qed.

Lemma shown_win id w g0 g : gui_inv g0 -> 0 <= id < GUI_MAX_WINDOWS -> shown id w g0 g -> win g id = w.
Proof.
  intros Hi Hr E. unfold win, win_at. rewrite E, list_lookup_insert_eq; [done|]. pose proof (di_len _ _ _ _ Hi). unfold GUI_MAX_WINDOWS in *. lia.
Qed.

Lemma shown_put id w w' g0 g g' : shown id w g0 g -> d_windows (desk g') = <[Z.to_nat id := w']> (d_windows (desk g)) -> shown id w' g0 g'.
Proof. intros E E'. unfold shown. by rewrite E', E, list_insert_insert_eq. Qed.

Lemma shown_same id w g0 g g' : shown id w g0 g -> d_windows (desk g') = d_windows (desk g) -> shown id w g0 g'.
Proof. intros E E'. unfold shown. by rewrite E', E. Qed.

Lemma shown_spares n id w g g' :
  gui_inv g -> 0 <= id < GUI_MAX_WINDOWS -> shown id w g g' ->
  (w_owner_pid (win g id) <> pid p -> spared n id id (win g id) w) -> spares n id g g'.
Proof.
  intros Hi Hr Hs Hw i Hri _ Hne. destruct (decide (i = id)) as [->|]; [rewrite (shown_win id w g g') by done; auto|].
  apply spared_eq, (only_put id w g g'); [lia|exact Hs|lia|done].
Qed.

Lemma focus_shown id g :
  gui_inv g -> 0 <= id < GUI_MAX_WINDOWS ->
  exists w, (w = win g id \/ exists z, w = set_z (win g id) z) /\ shown id w g (snd (gui_focus_window id g)).
Proof.
  intros Hi Hr. pose proof (shown_start id g Hi Hr) as H0'.
  assert (Hself : exists w, (w = win g id \/ exists z, w = set_z (win g id) z) /\ shown id w g g) by (exists (win g id); auto).
  unfold gui_focus_window. destruct (_ || _); [done|]. destruct (_ &? _).
  - exists (win g id). split; [by left|]. eapply shown_same; [exact H0'|apply wins_damage].
  - cbv zeta. cbn [snd]. set (g1 := upd_desk gui_refresh_cursor_shape _).
    exists (set_z (win g id) (d_next_z (desk g))). split; [right; by eexists|].
    assert (Hs : shown id (set_z (win g id) (d_next_z (desk g))) g g1) by reflexivity. clearbody g1.
    eapply shown_same; [|apply wins_damage]. destruct (_ && _); [eapply shown_same; [exact Hs|apply wins_damage]|exact Hs].
Qed.

Lemma focus_ok id g st :
  user_space st tt p L -> gui_inv g -> next g < UINT32_MAX -> 0 <= id -> call_ok 77 id g st (sys_window_focus (Some p) id g st).
Proof.
  intros Hs Hi Hn Hid. unfold sys_window_focus. destruct (_ || _) eqn:Hg; [by apply ok_none|]. b2p. destruct (negb (g_active g)); [by apply ok_none|].
  destruct (negb _); [by apply ok_none|]. assert (Hr : 0 <= id < GUI_MAX_WINDOWS) by lia.
  pose proof (focus_kept fb Hfb rest id g Hi Hn Hid) as Hk. destruct (focus_shown id g Hi Hr) as (w & Hw & Hsh).
  assert (Hsp : spared 77 id id (win g id) w) by (destruct Hw; [by left|right; auto]).
  pose proof (paints_for_same (pid p) _ _ (focus_px id g)) as Hpx.
  destruct (gui_focus_window id g) as [s g1]. cbn [snd] in *. destruct (negb _).
  - apply ok_gui; [done|done| |done]. by apply (shown_spares 77 id w).
  - apply ok_gui; [done|by apply kept_redraw| |by apply paints_for_redraw].
    apply (shown_spares 77 id w); [done..|by eapply shown_same; [|apply wins_redraw]|done].
Qed.

Lemma restore_shown id g :
  gui_inv g -> 0 <= id < GUI_MAX_WINDOWS ->
  exists w, (w = win g id \/ exists z, w = snd (gui_window_push_event (set_z (set_minimized (win g id) false) z) GUI_EVENT_MAXIMIZE 0 0)) /\
    shown id w g (snd (gui_window_restore id g)).
Proof.
  intros Hi Hr. pose proof (shown_start id g Hi Hr) as H0'. unfold gui_window_restore.
  destruct (_ >=? _); [by eexists; split; [left|]|]. destruct (_ || _); [by eexists; split; [left|]|]. cbv zeta. cbn [snd].
  set (g1 := upd_win id (fun w => set_minimized w false) g).
  assert (Hs1 : shown id (set_minimized (win g id) false) g g1) by reflexivity. clearbody g1.
  set (g2 := if negb _ then _ else _). assert (Hs2 : shown id (set_minimized (win g id) false) g g2).
  { unfold g2. destruct (negb _); [by eapply shown_same|done]. }
  clearbody g2. set (g3 := upd_desk _ g2).
  assert (Hs3 : shown id (set_z (set_minimized (win g id) false) (d_next_z (desk g2))) g g3).
  { eapply shown_put; [exact Hs2|]. pose proof (shown_win id _ g g2 Hi Hr Hs2) as <-. reflexivity. }
  clearbody g3. eexists. split; [right; by exists (d_next_z (desk g2))|].
  eapply shown_same; [|apply wins_redraw]. eapply shown_put; [exact Hs3|].
  pose proof (shown_win id _ g g3 Hi Hr Hs3) as <-. reflexivity.
Qed.

Lemma restore_ok id g st :
  user_space st tt p L -> gui_inv g -> next g < UINT32_MAX -> 0 <= id -> call_ok 84 id g st (sys_window_restore (Some p) id g st).
Proof.
  intros Hs Hi Hn Hid. unfold sys_window_restore. destruct (_ || _) eqn:Hg; [by apply ok_none|]. b2p. destruct (negb (g_active g)); [by apply ok_none|].
  destruct (negb _); [by apply ok_none|]. assert (Hr : 0 <= id < GUI_MAX_WINDOWS) by lia.
  pose proof (restore_kept fb rest id g Hi Hn Hid) as Hk. destruct (restore_shown id g Hi Hr) as (w & Hw & Hsh).
  assert (Hsp : spared 84 id id (win g id) w) by (destruct Hw; [by left|right; auto]).
  pose proof (paints_for_same (pid p) _ _ (restore_px id g)) as Hpx.
  destruct (gui_window_restore id g) as [s g1]. cbn [snd] in *. destruct (negb _); (apply ok_gui; [done|done| |done]); by apply (shown_spares 84 id w).
Qed.

Lemma region_shown id slot x y w h shape g :
  gui_inv g -> 0 <= id < GUI_MAX_WINDOWS ->
  exists w', (w' = win g id \/ exists sl r, w' = set_regions (win g id) (<[sl := r]> (w_regions (win g id)))) /\
    shown id w' g (snd (gui_register_cursor_region id slot x y w h shape g)).
Proof.
  intros Hi Hr. pose proof (shown_start id g Hi Hr) as H0'.
  assert (Hself : exists w', (w' = win g id \/ exists sl r, w' = set_regions (win g id) (<[sl := r]> (w_regions (win g id)))) /\ shown id w' g g).
  { by exists (win g id); split; [left|]. }
  unfold gui_register_cursor_region. cbv zeta. destruct (_ || _); [done|]. destruct (negb _); [done|].
  assert (Hput : forall r, exists w', (w' = win g id \/ exists sl r, w' = set_regions (win g id) (<[sl := r]> (w_regions (win g id)))) /\
    shown id w' g (let g1 := upd_win id (fun w => set_regions w (<[Z.to_nat slot := r]> (w_regions w))) g in
      if id =? d_focused (desk g1) then upd_desk gui_refresh_cursor_shape g1 else g1)).
  { intros r. cbv zeta. eexists. split; [right; by exists (Z.to_nat slot), r|]. by destruct (_ =? _). }
  destruct (_ =? GUI_CURSOR_REGION_DELETE); [apply Hput|]. destruct (_ && _); [done|]. destruct (_ || _); [done|apply Hput].
Qed.

Lemma region_ok id slot x y w h shape g st :
  user_space st tt p L -> gui_inv g -> 0 <= id -> call_ok 86 id g st (sys_cursor_register_region (Some p) id slot x y w h shape g st).
Proof.
  intros Hs Hi Hid. unfold sys_cursor_register_region. destruct (_ || _); [by apply ok_none|]. destruct (negb (g_active g)); [by apply ok_none|].
  destruct (gui_window_lookup _ _) as [window|] eqn:El; [|by apply ok_none]. destruct (negb (w_used window)); [by apply ok_none|].
  destruct (_ && _) eqn:Hperm; [by apply ok_none|]. assert (Hrw : 0 <= id < GUI_MAX_WINDOWS /\ window = win g id).
  { unfold gui_window_lookup in El. destruct (Z.geb_spec id GUI_MAX_WINDOWS); [done|]. destruct (negb _); [done|]. injection El as <-. split; [lia|done]. }
  destruct Hrw as [Hr ->]. pose proof (region_kept fb rest id slot x y w h shape g Hi Hid) as Hk.
  destruct (region_shown id slot x y w h shape g Hi Hr) as (w' & Hw & Hsh).
  assert (Hsp : w_owner_pid (win g id) <> pid p -> spared 86 id id (win g id) w').
  { intros Hne. destruct Hw as [->|Hw]; [by left|right]. split; [done|]. do 2 right. split; [done|]. split; [|done].
    rewrite u32_id in Hperm by done. destruct (Z.eqb_spec (w_owner_pid (win g id)) GUI_NO_OWNER); [done|].
    destruct (Z.eqb_spec (w_owner_pid (win g id)) (pid p)); [done|]. discriminate Hperm. }
  clear Hperm El. pose proof (paints_for_same (pid p) _ _ (region_px id slot x y w h shape g)) as Hpx.
  destruct (gui_register_cursor_region _ _ _ _ _ _ _ _) as [s g1]. cbn [snd] in *. destruct (negb _).
  - apply ok_gui; [done|by apply (kept_more fb rest 0)| |done]. by apply (shown_spares 86 id w').
  - apply ok_gui; [done|by apply (kept_more fb rest 0); [apply kept_redraw|]| |by apply paints_for_redraw].
    apply (shown_spares 86 id w'); [done..|by eapply shown_same; [|apply wins_redraw]|done].
Qed.

Lemma event_loop_ok id buf_ptr count fuel : forall n g st,
  user_space st tt p L -> gui_inv g -> 0 <= id < GUI_MAX_WINDOWS -> buf_ok st p true buf_ptr (count * 12) ->
  0 <= n -> n + Z.of_nat fuel <= count ->
  exists v g' st', event_loop fuel tt id buf_ptr n g st = Some (v, g', st') /\ kept 0 g g' /\ (only id g g' /\ g_px g' = g_px g) /\
    user_space st' tt p L /\ mem_confined tt st st'.
Proof.
  induction fuel as [|fuel IH]; intros n g st Hs Hi Hr Hb Hn Hf; cbn [event_loop].
  { exists n, g, st. split_and!; [done|by apply kept_refl|done|done|done|done]. }
  assert (Hstop : exists v g' st', Some (n, g, st) = Some (v, g', st') /\ kept 0 g g' /\ (only id g g' /\ g_px g' = g_px g) /\ user_space st' tt p L /\ mem_confined tt st st').
  { exists n, g, st. split_and!; [done|by apply kept_refl|done|done|done|done]. }
  destruct (negb _); [done|]. destruct (gui_window_pop_event (win g id)) as [[ev|] window] eqn:Ep; [|done]. clear Hstop.
  assert (Eg : upd_desk (put_win id window) g = upd_win id (fun w => snd (gui_window_pop_event w)) g).
  { change (win_at (desk g) id) with (win g id) in Ep. unfold upd_win, upd_desk, with_desk. do 2 f_equal.
    change (win_at (desk g) id) with (win g id). by rewrite Ep. }
  assert (Hk1 : kept 0 g (upd_desk (put_win id window) g)) by (rewrite Eg; apply kept_ring; [by apply kept_refl|done]).
  assert (Ho1 : only id g (upd_desk (put_win id window) g)) by (eapply only_put; [lia|done]).
  assert (Hx1 : g_px (upd_desk (put_win id window) g) = g_px g) by done.
  revert Hk1 Ho1 Hx1. generalize (upd_desk (put_win id window) g). intros g1 Hk1 Ho1 Hx1.
  assert (Hb1 : buf_ok st p true (buf_ptr + n * 12) 12) by (eapply buf_ok_part; [exact Hb|lia..]).
  destruct (buf_ok_addr _ _ _ _ _ _ _ (buf_ptr + n * 12) Hs Hb1 ltac:(lia)) as [_ Ha]. rewrite u64_id by lia.
  destruct (copy_out_ok tt p L (buf_ptr + n * 12) 12 (event_bytes ev) 12 0 st Hs Hb1 ltac:(lia) ltac:(lia)) as (st1 & -> & Hs1 & Hst).
  assert (Hm1 : mem_confined tt st st1) by (eapply stores_mem; [exact Hs|exact Hb1|exact Hst]).
  assert (Hb2 : buf_ok st1 p true buf_ptr (count * 12)) by (eapply buf_stays_ok; [exact Hs|apply Hm1|done]).
  destruct (IH (n + 1) g1 st1 Hs1 (proj1 Hk1) Hr Hb2 ltac:(lia) ltac:(lia)) as (v & g2 & st2 & -> & Hk2 & [Ho2 Hx2] & Hs2 & Hm2).
  exists v, g2, st2. split_and!; [done|exact (kept_trans fb rest 0 0 _ _ _ Hk1 Hk2)|by eapply only_trans|congruence|done|by eapply mem_trans].
Qed.

Lemma event_call_ok id buf_ptr buf_count g st :
  user_space st tt p L -> gui_inv g -> 0 <= id -> is_u64 buf_ptr -> 0 <= buf_count ->
  call_ok 74 id g st (sys_window_event (Some p) tt id buf_ptr buf_count g st).
Proof.
  intros Hs Hi Hid Hp Hc. unfold sys_window_event. destruct (_ || _) eqn:Hg; [by apply ok_none|]. b2p. cbv zeta.
  assert (Hl : is_u64 (buf_count * 12)) by (unfold is_u64; lia).
  destruct (user_buf_range_spec st p L true buf_ptr (buf_count * 12) (us_pt _ _ _ _ Hs) (us_regions _ _ _ _ Hs) Hp Hl) as [_ Hiff].
  unfold sys_user_buf_out. destruct (Z.eqb_spec (user_buf_range st (Some p) buf_ptr (buf_count * 12) true) 0) as [E|]; cbn [negb]; [|by apply ok_none].
  apply Hiff in E. apply ok_owner; [done..|]. intros Hr Hu Ho. destruct (_ =? 0); [by apply ok_none|].
  destruct (event_loop_ok id buf_ptr buf_count (Z.to_nat buf_count) 0 g st Hs Hi ltac:(lia) E ltac:(lia) ltac:(lia))
    as (v & g' & st' & -> & Hk & [Hon Hpx] & Hs' & Hm).
  exists v, g', st'. split_and!; [done|apply (kept_more fb rest 0); [done|lia]|by eapply spares_only|by apply paints_for_same|done|done].
Qed.

Lemma window_call_ok n xs g st :
  user_space st tt p L -> gui_inv g -> next g < UINT32_MAX -> Forall is_u64 xs -> call_ok n (reg xs 0) g st (window_call n (Some p) tt xs g st).
Proof.
  intros Hs Hi Hn Hx. assert (Hreg : forall i, is_u64 (reg xs i)).
  { intros i. unfold reg. destruct (xs !! i) eqn:E; [by eapply (proj1 (Forall_lookup _ _) Hx)|done]. }
  assert (Hpos : forall i, 0 <= reg xs i) by (intros i; apply Hreg).
  unfold window_call. cbv zeta. revert Hreg Hpos. generalize (reg xs). intros x Hreg Hpos.
  repeat match goal with |- call_ok _ _ _ _ (match ?k with _ => _ end) => is_var k; destruct k end; try (by apply ok_none).
  all: first [by apply create_ok|by apply destroy_ok|by apply draw_text_ok|by apply draw_rect_ok|by apply event_call_ok|by apply title_call_ok
    |by apply redraw_ok|by apply focus_ok|by apply for_pid_ok|by apply shape_ok|by apply flush_ok|by apply get_bounds_ok|by apply set_bounds_ok
    |by apply minimize_ok|by apply restore_ok|by apply state_ok|by apply region_ok].
Qed.
End Windows.

(** C23: A window system call, whatever its number and its arguments, returns
    (no pointer of the caller makes it fault) and keeps the desktop consistent.
    The windows of other processes stay exactly as they were, except that
    SYS_WINDOW_FOCUS may raise the window it names, SYS_WINDOW_RESTORE may
    restore, raise and notify it, as the task bar does, and
    SYS_CURSOR_REGISTER_REGION may set a cursor region of it if it has no owner;
    their pixel buffers keep their contents, for every pixel stored is in the
    buffer of a window of the caller.  In user memory only bytes the caller
    could write itself change. *)
Theorem window_calls_isolated {A H : Type} `{PageAllocatorLaws A} `{KernelHeapLaws H} (fb : fb_t) (rest : list (Z * Z))
    (tt : Z) (p : process) (L : gmap Z nat) (n : Z) (xs : list Z) (g : gui H) (st : mach A) :
  fb_ok fb -> 0 <= pid p < 2 ^ 32 -> user_space st tt p L -> gui_inv fb rest g -> next g < UINT32_MAX -> Forall is_u64 xs ->
  exists v g' st', window_call n (Some p) tt xs g st = Some (v, g', st') /\ gui_inv fb rest g' /\
    (forall i, 0 <= i < GUI_MAX_WINDOWS -> w_used (win g i) = true -> w_owner_pid (win g i) <> pid p ->
      spared n (reg xs 0) i (win g i) (win g' i) /\ forall a, in_backing (win g i) a -> rd32 (g_px g') a = rd32 (g_px g) a) /\
    paints_for (pid p) g g' /\ user_space st' tt p L /\ mem_confined tt st st'.
Proof.
  intros Hfb Hpid Hs Hi Hn Hx.
  destruct (window_call_ok fb Hfb rest tt p Hpid L n xs g st Hs Hi Hn Hx) as (v & g' & st' & E & [Hk _] & Hsp & Hpx & Hs' & Hm).
  exists v, g', st'. split; [done|]. split; [done|]. split; [|done]. intros i Hr Hu Ho. pose proof (Hsp i Hr Hu Ho) as Hi'. split; [done|].
  intros a Ha. apply Hpx. intros j Hj Huj Hoj Hin. pose proof (spared_buffer _ _ _ _ _ a Hi' Ha) as Ha'.
  destruct (decide (i = j)) as [<-|Hne]; [|by apply (backings_apart fb rest g' i j a)].
  apply Ho. destruct Hi' as [Ei|[_ Hi']]; [congruence|]. rewrite <- Hoj. destruct Hi' as [[_ [z ->]]|[[_ [z ->]]|(_ & _ & sl & r & ->)]]; [done| |done].
  symmetry. apply (push_keeps_buffer (set_z (set_minimized (win g i) false) z) GUI_EVENT_MAXIMIZE 0 0).
Qed.

(** Process 7 draws into its window; that of process 8 and its pixels stay. *)
Definition two_owners : gui Z :=
  gui_run no_process (small_gui ∅) [OpCreate 7 2 2 12 8 0xff000001 0xff000002 None; OpCreate 8 4 4 8 8 0xff000003 0xff000004 None;
    OpClear 1 0xff0000ff].

Lemma two_owners_inv : gui_inv small_fb [] two_owners.
Proof.
  apply gui_run_kept.
  - split; cbn; lia.
  - apply init_inv; [split; cbn; lia|cbn; lia|cbn; lia|exact zero_blank|exact bump_start].
  - cbn. unfold UINT32_MAX. lia.
  - repeat constructor; cbn; lia.
Qed.

Lemma empty_user_space : user_space demo_space 0x40000000 demo_process {[0x40000000 := 0%nat]}.
Proof.
  apply (owned_user_space demo_space demo_process _ demo_vm_inv).
  - intros k r Hr. assert (E : live demo_process = []) by (vm_compute; reflexivity). rewrite E in Hr. discriminate Hr.
  - intros v Hlo Ha. exfalso. destruct Ha as [Ha _]. change (page_table demo_process) with 0x40000000 in Ha.
    rewrite (proj2 demo_space_inv) in Ha. discriminate Ha.
Qed.

Lemma window_calls_isolated_witness :
  pid demo_process = 7 /\ in_backing (win two_owners 1) (w_backing (win two_owners 1)) /\
  exists v g' st', window_call 73 (Some demo_process) 0x40000000 [0; 1; 1; 2; 2; 0xff00ff00] two_owners demo_space = Some (v, g', st') /\
    win g' 1 = win two_owners 1 /\ rd32 (g_px g') (w_backing (win two_owners 1)) = rd32 (g_px two_owners) (w_backing (win two_owners 1)).
Proof.
  assert (Hin : in_backing (win two_owners 1) (w_backing (win two_owners 1))).
  { split; [vm_compute; discriminate|]. split; [apply Z.le_refl|vm_compute; reflexivity]. }
  split; [reflexivity|]. split; [exact Hin|].
  destruct (window_calls_isolated small_fb [] 0x40000000 demo_process {[0x40000000 := 0%nat]} 73 [0; 1; 1; 2; 2; 0xff00ff00] two_owners demo_space)
    as (v & g' & st' & E & _ & Hsp & _).
  - split; cbn; lia.
  - cbn. lia.
  - exact empty_user_space.
  - exact two_owners_inv.
  - vm_compute. reflexivity.
  - repeat constructor; lia.
  - exists v, g', st'. split; [exact E|].
    destruct (Hsp 1) as [[Hw|[Hne _]] Hpx]; [unfold GUI_MAX_WINDOWS; lia|vm_compute; reflexivity|vm_compute; congruence| |discriminate Hne].
    split; [exact Hw|]. apply Hpx. exact Hin.
Defined.
