(* ===== verification/Dtb.v ===== *)
(** The reader of the flattened device tree (dtb_reader.h, dtb.c,
    dtb_framebuffer.c): the token stream, and what the kernel takes from it at
    boot.  Memory is the function from physical addresses to bytes. *)

From Stdlib Require Import String Ascii.
From S2P Require Import Prelude.
From S2P Require Import Bytes.
From S2P Require Import UserImage.
Open Scope arm.

Definition FDT_MAGIC : Z := 0xd00dfeed.
Definition FDT_BEGIN_NODE : Z := 1.
Definition FDT_END_NODE : Z := 2.
Definition FDT_PROP : Z := 3.
Definition FDT_NOP : Z := 4.
Definition FDT_END : Z := 9.

(** Offsets in [fdt_header_t]. *)
Definition FDT_HEADER_SIZE : Z := 40.

Record fdt_view := FdtView { v_strings : Z; v_cursor : Z; v_struct_end : Z; v_total_size : Z }.

(** Pointers are addresses; 0 is NULL. *)
Record fdt_token := FdtToken { t_token : Z; t_name : Z; t_prop_name : Z; t_value : Z; t_len : Z; t_depth : Z }.

Record dtb_memory := DtbMemory { m_base : Z; m_size : Z }.

Record dtb_framebuffer := DtbFramebuffer { f_base : Z; f_size : Z; f_width : Z; f_height : Z; f_stride_bytes : Z }.

Definition fdt_range_valid (offset size total_size : Z) : bool := (offset <=? total_size) && (size <=? total_size - offset).

Definition fdt_align4 (value : Z) : Z := Z.land (u64 (value + 3)) (not64 3).

Section Reader.
(** The byte at an address. *)
Variable rd : Z -> Z.

Definition fdt_be32 (ptr : Z) : Z :=
  Z.lor (Z.lor (Z.lor (Z.shiftl (rd ptr) 24) (Z.shiftl (rd (u64 (ptr + 1))) 16)) (Z.shiftl (rd (u64 (ptr + 2))) 8))
    (rd (u64 (ptr + 3))).

Definition fdt_read_cells (cells count : Z) : Z :=
  for_range 0 count (fun i value => Z.lor (u64 (Z.shiftl value 32)) (fdt_be32 (u64 (cells + 4 * i)))) 0.

(** [fdt_streq(a, lit)] for a literal without NUL. *)
Fixpoint fdt_streq (a : Z) (lit : list Z) : bool :=
  match lit with
  | [] => rd a =? 0
  | c :: lit' => if rd a =? c then fdt_streq (u64 (a + 1)) lit' else false
  end.

Fixpoint fdt_starts_with (value : Z) (prefix : list Z) : bool :=
  match prefix with
  | [] => true
  | c :: prefix' => if negb (rd value =? c) then false else fdt_starts_with (u64 (value + 1)) prefix'
  end.

Definition fdt_view_init (dtb_addr : Z) : option fdt_view :=
  if (dtb_addr =? 0) || negb (fdt_be32 dtb_addr =? FDT_MAGIC) then None else
  let total_size := fdt_be32 (u64 (dtb_addr + 4)) in
  let struct_offset := fdt_be32 (u64 (dtb_addr + 8)) in
  let strings_offset := fdt_be32 (u64 (dtb_addr + 12)) in
  let strings_size := fdt_be32 (u64 (dtb_addr + 32)) in
  let struct_size := fdt_be32 (u64 (dtb_addr + 36)) in
  if (total_size <? FDT_HEADER_SIZE) || negb (fdt_range_valid struct_offset struct_size total_size) ||
     negb (fdt_range_valid strings_offset strings_size total_size) then None else
  let cursor := u64 (dtb_addr + struct_offset) in
  Some (FdtView (u64 (dtb_addr + strings_offset)) cursor (u64 (cursor + struct_size)) total_size).

(** [while (cursor < view->struct_end && *cursor != '\0') cursor++;] *)
Fixpoint name_end (fuel : nat) (cursor struct_end : Z) : Z :=
  match fuel with
  | O => cursor
  | S fuel' => if (cursor <? struct_end) && negb (rd cursor =? 0) then name_end fuel' (cursor + 1) struct_end else cursor
  end.

(** The status, the view, the depth and the token. *)
Definition fdt_next_token (view : fdt_view) (depth : Z) (out : fdt_token) : Z * fdt_view * Z * fdt_token :=
  if v_cursor view >=? v_struct_end view then (-1, view, depth, out) else
  let token := fdt_be32 (v_cursor view) in
  let cursor := u64 (v_cursor view + 4) in
  let advance cursor := FdtView (v_strings view) cursor (v_struct_end view) (v_total_size view) in
  let out := FdtToken token 0 0 0 0 depth in
  if token =? FDT_BEGIN_NODE then
    let depth := depth + 1 in
    let out := FdtToken token cursor 0 0 0 depth in
    let cursor := name_end (Z.to_nat (v_struct_end view - cursor)) cursor (v_struct_end view) in
    if cursor >=? v_struct_end view then (-1, view, depth, out) else
    (0, advance (fdt_align4 (u64 (cursor + 1))), depth, out)
  else if token =? FDT_END_NODE then (0, advance cursor, depth - 1, out)
  else if token =? FDT_PROP then
    if u64 (cursor + 8) >? v_struct_end view then (-1, view, depth, out) else
    let len := fdt_be32 cursor in
    let nameoff := fdt_be32 (u64 (cursor + 4)) in
    let out := FdtToken token 0 (u64 (v_strings view + nameoff)) (u64 (cursor + 8)) len depth in
    let cursor := u64 (cursor + 8) in
    if u64 (cursor + len) >? v_struct_end view then (-1, view, depth, out) else
    (0, advance (fdt_align4 (u64 (cursor + len))), depth, out)
  else if (token =? FDT_NOP) || (token =? FDT_END) then (0, advance cursor, depth, out)
  else (-1, view, depth, out).

Definition no_token : fdt_token := FdtToken 0 0 0 0 0 0.

(** ** dtb.c *)

Definition ADDRESS_CELLS : list Z := chars "#address-cells"%string.
Definition SIZE_CELLS : list Z := chars "#size-cells"%string.

(** The bytes a [reg] entry needs, a [uint32_t]. *)
Definition reg_bytes (address_cells size_cells : Z) : Z := u32 (u32 (address_cells + size_cells) * 4).

Fixpoint memory_loop (fuel : nat) (view : fdt_view) (depth : Z) (in_memory : bool) (address_cells size_cells : Z)
    (memory : dtb_memory) : Z * dtb_memory :=
  match fuel with
  | O => (-1, memory)
  | S fuel' =>
      if negb (v_cursor view <? v_struct_end view) then (-1, memory) else
      let '(status, view, depth, t) := fdt_next_token view depth no_token in
      if negb (status =? 0) then (-1, memory) else
      if t_token t =? FDT_BEGIN_NODE then
        memory_loop fuel' view depth ((t_depth t =? 1) && fdt_starts_with (t_name t) (chars "memory"%string)) address_cells size_cells memory
      else if t_token t =? FDT_END_NODE then
        memory_loop fuel' view depth (in_memory && negb (t_depth t =? 1)) address_cells size_cells memory
      else if t_token t =? FDT_PROP then
        if (depth =? 0) && fdt_streq (t_prop_name t) ADDRESS_CELLS && (t_len t >=? 4) then
          memory_loop fuel' view depth in_memory (fdt_be32 (t_value t)) size_cells memory
        else if (depth =? 0) && fdt_streq (t_prop_name t) SIZE_CELLS && (t_len t >=? 4) then
          memory_loop fuel' view depth in_memory address_cells (fdt_be32 (t_value t)) memory
        else if in_memory && fdt_streq (t_prop_name t) (chars "reg"%string) then
          if (t_len t <? reg_bytes address_cells size_cells) || (address_cells >? 2) || (size_cells >? 2) then (-1, memory) else
          (0, DtbMemory (fdt_read_cells (t_value t) address_cells)
                (fdt_read_cells (u64 (t_value t + 4 * address_cells)) size_cells))
        else memory_loop fuel' view depth in_memory address_cells size_cells memory
      else if t_token t =? FDT_NOP then memory_loop fuel' view depth in_memory address_cells size_cells memory
      else if t_token t =? FDT_END then (-1, memory)
      else memory_loop fuel' view depth in_memory address_cells size_cells memory
  end.

(** Each token is at least four bytes long. *)
Definition fdt_fuel (view : fdt_view) : nat := S (Z.to_nat (v_struct_end view - v_cursor view)).

Definition dtb_get_memory (dtb_addr : Z) (memory : option dtb_memory) : Z * option dtb_memory :=
  match memory with
  | None => (-1, None)
  | Some m =>
      match fdt_view_init dtb_addr with
      | None => (-1, Some m)
      | Some view => let '(status, m) := memory_loop (fdt_fuel view) view (-1) false 2 1 m in (status, Some m)
      end
  end.

Definition dtb_total_size (dtb_addr : Z) : Z :=
  match fdt_view_init dtb_addr with None => 0 | Some view => v_total_size view end.

(** ** dtb_framebuffer.c *)

Definition compatible_has (value len : Z) (needle : list Z) : bool :=
  fst (for_range 0 len (fun i (acc : bool * Z) =>
    let '(found, start) := acc in
    if found then acc else
    if rd (u64 (value + i)) =? 0 then (fdt_streq (u64 (value + start)) needle, i + 1) else acc) (false, 0)).

(** What the loop keeps: inside a framebuffer node, and the fields seen. *)
Record fb_scan := FbScan {
  s_in : bool; s_reg : bool; s_width : bool; s_height : bool; s_stride : bool; s_address_cells : Z; s_size_cells : Z }.

Fixpoint framebuffer_loop (fuel : nat) (view : fdt_view) (depth : Z) (s : fb_scan) (f : dtb_framebuffer)
    : Z * dtb_framebuffer :=
  match fuel with
  | O => (-1, f)
  | S fuel' =>
      if negb (v_cursor view <? v_struct_end view) then (-1, f) else
      let '(status, view, depth, t) := fdt_next_token view depth no_token in
      if negb (status =? 0) then (-1, f) else
      let prop name := fdt_streq (t_prop_name t) name in
      let inside := (depth =? 1) && s_in s in
      if t_token t =? FDT_BEGIN_NODE then
        if t_depth t =? 1 then
          framebuffer_loop fuel' view depth (FbScan (fdt_starts_with (t_name t) (chars "framebuffer"%string)) false false false false
            (s_address_cells s) (s_size_cells s)) f
        else framebuffer_loop fuel' view depth s f
      else if t_token t =? FDT_END_NODE then
        if (t_depth t =? 1) && s_in s && s_reg s && s_width s && s_height s && s_stride s then (0, f) else
        if t_depth t =? 1 then
          framebuffer_loop fuel' view depth (FbScan false (s_reg s) (s_width s) (s_height s) (s_stride s)
            (s_address_cells s) (s_size_cells s)) f
        else framebuffer_loop fuel' view depth s f
      else if t_token t =? FDT_PROP then
        if (depth =? 0) && prop ADDRESS_CELLS && (t_len t >=? 4) then
          framebuffer_loop fuel' view depth (FbScan (s_in s) (s_reg s) (s_width s) (s_height s) (s_stride s)
            (fdt_be32 (t_value t)) (s_size_cells s)) f
        else if (depth =? 0) && prop SIZE_CELLS && (t_len t >=? 4) then
          framebuffer_loop fuel' view depth (FbScan (s_in s) (s_reg s) (s_width s) (s_height s) (s_stride s)
            (s_address_cells s) (fdt_be32 (t_value t))) f
        else if (depth =? 1) && prop (chars "compatible"%string) && compatible_has (t_value t) (t_len t) (chars "simple-framebuffer"%string) then
          framebuffer_loop fuel' view depth (FbScan true (s_reg s) (s_width s) (s_height s) (s_stride s)
            (s_address_cells s) (s_size_cells s)) f
        else if inside && prop (chars "reg"%string) then
          if (t_len t <? reg_bytes (s_address_cells s) (s_size_cells s)) || (s_address_cells s >? 2) || (s_size_cells s >? 2)
          then (-1, f) else
          framebuffer_loop fuel' view depth (FbScan (s_in s) true (s_width s) (s_height s) (s_stride s)
            (s_address_cells s) (s_size_cells s))
            (DtbFramebuffer (fdt_read_cells (t_value t) (s_address_cells s))
               (fdt_read_cells (u64 (t_value t + 4 * s_address_cells s)) (s_size_cells s)) (f_width f) (f_height f) (f_stride_bytes f))
        else if inside && prop (chars "width"%string) && (t_len t >=? 4) then
          framebuffer_loop fuel' view depth (FbScan (s_in s) (s_reg s) true (s_height s) (s_stride s)
            (s_address_cells s) (s_size_cells s))
            (DtbFramebuffer (f_base f) (f_size f) (fdt_be32 (t_value t)) (f_height f) (f_stride_bytes f))
        else if inside && prop (chars "height"%string) && (t_len t >=? 4) then
          framebuffer_loop fuel' view depth (FbScan (s_in s) (s_reg s) (s_width s) true (s_stride s)
            (s_address_cells s) (s_size_cells s))
            (DtbFramebuffer (f_base f) (f_size f) (f_width f) (fdt_be32 (t_value t)) (f_stride_bytes f))
        else if inside && prop (chars "stride"%string) && (t_len t >=? 4) then
          framebuffer_loop fuel' view depth (FbScan (s_in s) (s_reg s) (s_width s) (s_height s) true
            (s_address_cells s) (s_size_cells s))
            (DtbFramebuffer (f_base f) (f_size f) (f_width f) (f_height f) (fdt_be32 (t_value t)))
        else framebuffer_loop fuel' view depth s f
      else if t_token t =? FDT_NOP then framebuffer_loop fuel' view depth s f
      else if t_token t =? FDT_END then (-1, f)
      else framebuffer_loop fuel' view depth s f
  end.

Definition dtb_get_framebuffer (dtb_addr : Z) (framebuffer : option dtb_framebuffer) : Z * option dtb_framebuffer :=
  match framebuffer with
  | None => (-1, None)
  | Some f =>
      match fdt_view_init dtb_addr with
      | None => (-1, Some f)
      | Some view =>
          let '(status, f) := framebuffer_loop (fdt_fuel view) view (-1) (FbScan false false false false false 2 1) f in
          (status, Some f)
      end
  end.
End Reader.
