(* ===== verification/DtbTree.v ===== *)
(** Device trees as the format defines them, and what the reader finds in them.
    A blob whose structure block encodes a tree is read back token by token,
    and the kernel gets the memory of the first memory node. *)

From Stdlib Require Import String Ascii.
From S2P Require Import Prelude.
From S2P Require Import Bytes.
From S2P Require Import Block.
From S2P Require Import UserImage.
From S2P Require Import Dtb.
Open Scope arm.

(** * The format *)

(** A property: its name, where the name is in the strings block, its value. *)
Record fdt_prop := Prop_ { p_name : list Z; p_off : Z; p_value : list Z }.

Inductive fdt_item :=
  | IBegin (name : list Z)
  | IEnd
  | IProp (p : fdt_prop)
  | INop
  | IFin.

Definition be4 (v : Z) : list Z := [v / 2 ^ 24; (v / 2 ^ 16) mod 256; (v / 2 ^ 8) mod 256; v mod 256].

(** Zeroes up to the next multiple of four. *)
Definition pad (n : Z) : list Z := replicate (Z.to_nat ((- n) mod 4)) 0.

Definition len (l : list Z) : Z := Z.of_nat (length l).

Definition encode (it : fdt_item) : list Z :=
  match it with
  | IBegin name => be4 1 ++ name ++ [0] ++ pad (len name + 1)
  | IEnd => be4 2
  | IProp p => be4 3 ++ be4 (len (p_value p)) ++ be4 (p_off p) ++ p_value p ++ pad (len (p_value p))
  | INop => be4 4
  | IFin => be4 9
  end.

Definition text (l : list Z) : Prop := Forall (fun c => 0 < c < 256) l.

Definition item_ok (it : fdt_item) : Prop :=
  match it with
  | IBegin name => text name
  | IProp p => text (p_name p) /\ Forall (fun c => 0 <= c < 256) (p_value p) /\ len (p_value p) < 2 ^ 32 /\ 0 <= p_off p < 2 ^ 32
  | _ => True
  end.

Lemma len_app l1 l2 : len (l1 ++ l2) = len l1 + len l2.
Proof. unfold len. rewrite length_app. lia. Qed.

Lemma len_pad n : len (pad n) = (- n) mod 4.
Proof. unfold len, pad. rewrite length_replicate. pose proof (Z.mod_pos_bound (- n) 4). lia. Qed.

Lemma len_pos l : 0 <= len l.
Proof. unfold len. lia. Qed.

Lemma len_nil : len [] = 0.
Proof. done. Qed.

Lemma len_cons c l : len (c :: l) = 1 + len l.
Proof. unfold len. cbn [length]. lia. Qed.

Lemma pad_fills n : exists k, n + (- n) mod 4 = 4 * k.
Proof. exists ((n + (- n) mod 4) / 4). Z.to_euclidean_division_equations. lia. Qed.

Lemma len_encode it : 4 <= len (encode it) /\ len (encode it) mod 4 = 0.
Proof.
  destruct it as [name| |p| |]; [| done | | done..].
  - assert (E : len (encode (IBegin name)) = 4 + (len name + 1 + (- (len name + 1)) mod 4)).
    { cbn [encode]. rewrite !len_app, len_pad. change (len (be4 1)) with 4. change (len [0]) with 1. lia. }
    rewrite E. pose proof (len_pos name). pose proof (Z.mod_pos_bound (- (len name + 1)) 4). split; [lia|].
    destruct (pad_fills (len name + 1)) as [k ->]. replace (4 + 4 * k) with ((1 + k) * 4) by lia. apply Z_mod_mult.
  - assert (E : len (encode (IProp p)) = 12 + (len (p_value p) + (- len (p_value p)) mod 4)).
    { cbn [encode]. rewrite !len_app, len_pad. change (len (be4 3)) with 4. change (len (be4 (len (p_value p)))) with 4.
      change (len (be4 (p_off p))) with 4. lia. }
    rewrite E. pose proof (len_pos (p_value p)). pose proof (Z.mod_pos_bound (- len (p_value p)) 4). split; [lia|].
    destruct (pad_fills (len (p_value p))) as [k ->]. replace (12 + 4 * k) with ((3 + k) * 4) by lia. apply Z_mod_mult.
Qed.

(** * Bytes in memory *)

Section Layout.
Context (rd : Z -> Z).

Definition holds (a : Z) (bs : list Z) : Prop := forall i, 0 <= i < len bs -> rd (a + i) = byte_at bs i.

Lemma byte_at_joined l1 l2 i :
  0 <= i -> byte_at (l1 ++ l2) i = if i <? len l1 then byte_at l1 i else byte_at l2 (i - len l1).
Proof.
  intros Hi. unfold byte_at, len. destruct (Z.ltb_spec i (Z.of_nat (length l1))).
  - by rewrite lookup_app_l by lia.
  - rewrite lookup_app_r by lia. do 2 f_equal. lia.
Qed.

Lemma holds_app a l1 l2 : holds a (l1 ++ l2) <-> holds a l1 /\ holds (a + len l1) l2.
Proof.
  unfold holds. pose proof (len_pos l1). pose proof (len_pos l2). split.
  - intros Hh. split; intros i Hi.
    + rewrite Hh by (rewrite len_app; lia). rewrite byte_at_joined by lia. by destruct (Z.ltb_spec i (len l1)); [|lia].
    + replace (a + len l1 + i) with (a + (len l1 + i)) by lia. rewrite Hh by (rewrite len_app; lia). rewrite byte_at_joined by lia.
      destruct (Z.ltb_spec (len l1 + i) (len l1)); [lia|]. f_equal. lia.
  - intros [H1 H2] i Hi. rewrite len_app in Hi. rewrite byte_at_joined by lia. destruct (Z.ltb_spec i (len l1)); [by apply H1; lia|].
    rewrite <- H2 by lia. f_equal. lia.
Qed.

Lemma be_sum b0 b1 b2 b3 :
  0 <= b0 < 256 -> 0 <= b1 < 256 -> 0 <= b2 < 256 -> 0 <= b3 < 256 ->
  Z.lor (Z.lor (Z.lor (Z.shiftl b3 24) (Z.shiftl b2 16)) (Z.shiftl b1 8)) b0 = b0 + b1 * 256 + b2 * 65536 + b3 * 16777216.
Proof.
  intros. rewrite (Z.lor_comm _ b0), (Z.lor_comm (Z.lor _ _) (Z.shiftl b1 8)), (Z.lor_comm (Z.shiftl b3 24)), !Z.lor_assoc.
  rewrite (lor_shift b0 b1 8) by lia. rewrite (lor_shift _ b2 16) by lia. rewrite (lor_shift _ b3 24) by lia. done.
Qed.

Lemma holds_be4 a v : holds a (be4 v) -> 0 <= v < 2 ^ 32 -> 0 <= a -> a + 4 <= 2 ^ 64 -> fdt_be32 rd a = v.
Proof.
  intros Hh Hv Ha Hb. unfold fdt_be32. rewrite !u64_id by lia.
  assert (E0 := Hh 0 ltac:(done)). assert (E1 := Hh 1 ltac:(done)). assert (E2 := Hh 2 ltac:(done)). assert (E3 := Hh 3 ltac:(done)).
  rewrite Z.add_0_r in E0. rewrite E0, E1, E2, E3.
  change (byte_at (be4 v) 0) with (v / 2 ^ 24). change (byte_at (be4 v) 1) with ((v / 2 ^ 16) mod 256).
  change (byte_at (be4 v) 2) with ((v / 2 ^ 8) mod 256). change (byte_at (be4 v) 3) with (v mod 256).
  rewrite be_sum; Z.to_euclidean_division_equations; lia.
Qed.

(** ** Strings *)

Lemma streq_exact a s lit :
  holds a (s ++ [0]) -> text s -> text lit -> 0 <= a -> a + len s + len lit + 2 < 2 ^ 64 -> fdt_streq rd a lit = bool_decide (s = lit).
Proof.
  revert a s. induction lit as [|c lit IH]; intros a s Hh Hs Hl Ha Hb; pose proof (len_pos s).
  - cbn [fdt_streq]. assert (E := Hh 0 ltac:(rewrite len_app, len_cons, len_nil; lia)). rewrite Z.add_0_r in E. rewrite E.
    destruct s as [|d s]; [done|]. apply Forall_cons in Hs as [? _]. change (byte_at ((d :: s) ++ [0]) 0) with d. destruct (Z.eqb_spec d 0); [lia|]. first [done|by rewrite bool_decide_eq_false_2].
  - pose proof (len_pos lit). cbn [fdt_streq]. assert (E := Hh 0 ltac:(rewrite len_app, len_cons, len_nil; lia)). rewrite Z.add_0_r in E. rewrite E.
    apply Forall_cons in Hl as [Hc Hl]. destruct s as [|d s].
    + change (byte_at ([] ++ [0]) 0) with 0. destruct (Z.eqb_spec 0 c); [lia|]. first [done|by rewrite bool_decide_eq_false_2].
    + apply Forall_cons in Hs as [_ Hs]. assert (Hlen : len (d :: s) = 1 + len s) by apply len_cons.
      assert (Hlit : len (c :: lit) = 1 + len lit) by apply len_cons. change (byte_at ((d :: s) ++ [0]) 0) with d.
      destruct (Z.eqb_spec d c) as [->|]; [|rewrite bool_decide_eq_false_2; congruence].
      rewrite u64_id by lia. rewrite (IH (a + 1) s); [|by apply (holds_app a [c] (s ++ [0]))|done|done|lia|lia].
      apply bool_decide_ext. split; [congruence|]. by intros [= ?].
Qed.

(** The first bytes of a string. *)
Definition has_prefix (prefix s : list Z) : bool := bool_decide (take (length prefix) s = prefix).

Lemma starts_with_exact a s prefix :
  holds a (s ++ [0]) -> text s -> text prefix -> 0 <= a -> a + len s + len prefix + 2 < 2 ^ 64 ->
  fdt_starts_with rd a prefix = has_prefix prefix s.
Proof.
  revert a s. induction prefix as [|c prefix IH]; intros a s Hh Hs Hl Ha Hb; [done|]. pose proof (len_pos s). pose proof (len_pos prefix).
  cbn [fdt_starts_with]. assert (E := Hh 0 ltac:(rewrite len_app, len_cons, len_nil; lia)). rewrite Z.add_0_r in E. rewrite E.
  apply Forall_cons in Hl as [Hc Hl]. unfold has_prefix. destruct s as [|d s].
  - change (byte_at ([] ++ [0]) 0) with 0. destruct (Z.eqb_spec 0 c); [lia|]. done.
  - apply Forall_cons in Hs as [_ Hs]. assert (Hlen : len (d :: s) = 1 + len s) by apply len_cons.
    assert (Hp : len (c :: prefix) = 1 + len prefix) by apply len_cons. change (byte_at ((d :: s) ++ [0]) 0) with d.
    cbn [length take]. destruct (Z.eqb_spec d c) as [->|]; cbn [negb]; [|rewrite bool_decide_eq_false_2; congruence].
    rewrite u64_id by lia. rewrite (IH (a + 1) s); [|by apply (holds_app a [c] (s ++ [0]))|done|done|lia|lia].
    apply bool_decide_ext. split; [congruence|]. by intros [= ?].
Qed.

(** ** One token *)

Lemma name_end_exact name : forall fuel c send,
  holds c (name ++ [0]) -> text name -> c + len name < send -> len name < Z.of_nat fuel -> name_end rd fuel c send = c + len name.
Proof.
  induction name as [|d name IH]; intros fuel c send Hh Ht Hs Hf; (destruct fuel as [|fuel]; [match type of Hf with len ?l < _ => pose proof (len_pos l) end; lia|]);
    cbn [name_end]; rewrite ?len_nil, ?len_cons in *.
  - assert (E := Hh 0 ltac:(rewrite len_app, len_cons, len_nil; lia)). rewrite Z.add_0_r in E. rewrite E.
    change (byte_at ([] ++ [0]) 0) with 0. rewrite andb_false_r. lia.
  - pose proof (len_pos name). assert (E := Hh 0 ltac:(rewrite len_app, !len_cons, len_nil; lia)). rewrite Z.add_0_r in E. rewrite E.
    change (byte_at ((d :: name) ++ [0]) 0) with d. apply Forall_cons in Ht as [Hd Ht].
    destruct (Z.ltb_spec c send), (Z.eqb_spec d 0); cbn [andb negb]; [lia| |lia|lia].
    rewrite IH; [lia|by apply (holds_app c [d] (name ++ [0]))|done|lia|lia].
Qed.

Lemma align4_exact v : 0 <= v < 2 ^ 63 -> fdt_align4 v = v + (- v) mod 4.
Proof.
  intros Hv. unfold fdt_align4. rewrite u64_id by lia. change 3 with (2 ^ 2 - 1) at 2. rewrite land_high_mask by lia.
  change (2 ^ 2) with 4. Z.to_euclidean_division_equations. lia.
Qed.

(** Padding does not depend on the aligned address. *)
Lemma align_shift c n m k x : c mod 4 = 0 -> n = m + 4 * k -> x = c + n -> (- x) mod 4 = (- m) mod 4.
Proof.
  intros Hc -> ->. replace (- (c + (m + 4 * k))) with (- m + (- (c / 4) - k) * 4) by (pose proof (Z.div_mod c 4); lia). apply Z_mod_plus_full.
Qed.

Definition token_at (strings c d : Z) (it : fdt_item) : fdt_token :=
  match it with
  | IBegin _ => FdtToken FDT_BEGIN_NODE (c + 4) 0 0 0 (d + 1)
  | IEnd => FdtToken FDT_END_NODE 0 0 0 0 d
  | IProp p => FdtToken FDT_PROP 0 (strings + p_off p) (c + 12) (len (p_value p)) d
  | INop => FdtToken FDT_NOP 0 0 0 0 d
  | IFin => FdtToken FDT_END 0 0 0 0 d
  end.

Definition depth_after (d : Z) (it : fdt_item) : Z := match it with IBegin _ => d + 1 | IEnd => d - 1 | _ => d end.

Lemma encode_head it : exists rest, encode it = be4 (t_token (token_at 0 0 0 it)) ++ rest.
Proof. destruct it; (eexists; cbn [encode token_at t_token]; first [reflexivity|symmetry; apply app_nil_r]). Qed.

Lemma next_token_item strings c send tot d out it :
  holds c (encode it) -> item_ok it -> c mod 4 = 0 -> 0 <= c -> c + len (encode it) <= send -> send < 2 ^ 62 -> 0 <= strings < 2 ^ 62 ->
  fdt_next_token rd (FdtView strings c send tot) d out =
  (0, FdtView strings (c + len (encode it)) send tot, depth_after d it, token_at strings c d it).
Proof.
  intros Hh Hok Hal Hc Hs Hsend Hst. pose proof (len_encode it) as [Hlen _]. unfold fdt_next_token. cbn [v_cursor v_struct_end v_strings v_total_size].
  destruct (Z.geb_spec c send); [lia|].
  assert (Et : fdt_be32 rd c = t_token (token_at 0 0 0 it)).
  { destruct (encode_head it) as [rest Eh]. rewrite Eh in Hh. apply holds_app in Hh as [Hh _].
    apply holds_be4; [done|by destruct it|done|lia]. }
  rewrite Et, (u64_id (c + 4)) by lia. destruct it as [name| |p| |]; cbn [token_at t_token]; cbv zeta.
  - change (FDT_BEGIN_NODE =? FDT_BEGIN_NODE) with true. cbv iota. cbn [encode] in *.
    apply holds_app in Hh as [_ Hh]. rewrite app_assoc in Hh. apply holds_app in Hh as [Hh _]. change (len (be4 1)) with 4 in Hh.
    rewrite !len_app, len_pad in *. change (len (be4 1)) with 4 in *. change (len [0]) with 1 in *. pose proof (len_pos name).
    pose proof (Z.mod_pos_bound (- (len name + 1)) 4 ltac:(lia)).
    rewrite (name_end_exact name); [|done|done|lia|lia]. destruct (Z.geb_spec (c + 4 + len name) send); [lia|].
    rewrite u64_id, align4_exact by lia. rewrite (align_shift c (4 + len name + 1) (len name + 1) 1 (c + 4 + len name + 1)) by lia.
    match goal with |- (0, FdtView _ ?x _ _, _, _) = (0, FdtView _ ?y _ _, _, _) => replace x with y by lia end. done.
  - done.
  - change (FDT_PROP =? FDT_BEGIN_NODE) with false. change (FDT_PROP =? FDT_END_NODE) with false. change (FDT_PROP =? FDT_PROP) with true. cbv iota.
    cbn [encode] in *. destruct Hok as (_ & Hv & Hlv & Hoff). pose proof (len_pos (p_value p)).
    apply holds_app in Hh as [_ Hh]. apply holds_app in Hh as [H1 Hh]. apply holds_app in Hh as [H2 _].
    change (len (be4 3)) with 4 in *. change (len (be4 (len (p_value p)))) with 4 in *.
    rewrite !len_app, len_pad in *. change (len (be4 3)) with 4 in *. change (len (be4 (len (p_value p)))) with 4 in *. change (len (be4 (p_off p))) with 4 in *.
    pose proof (Z.mod_pos_bound (- len (p_value p)) 4 ltac:(lia)).
    rewrite (u64_id (c + 4 + 8)), (u64_id (c + 4 + 4)) by lia. destruct (Z.gtb_spec (c + 4 + 8) send); [lia|].
    rewrite (holds_be4 _ _ H1), (holds_be4 _ _ H2) by lia. rewrite (u64_id (c + 4 + 8 + _)) by lia.
    destruct (Z.gtb_spec (c + 4 + 8 + len (p_value p)) send); [lia|]. rewrite align4_exact, u64_id by lia.
    replace (c + 4 + 8) with (c + 12) by lia. rewrite (align_shift c (12 + len (p_value p)) (len (p_value p)) 3 (c + 12 + len (p_value p))) by lia.
    match goal with |- (0, FdtView _ ?x _ _, _, _) = (0, FdtView _ ?y _ _, _, _) => replace x with y by lia end. done.
  - done.
  - done.
Qed.

(** ** Values *)

(** The 32-bit big-endian word at byte [i] of a value. *)
Definition word_at (v : list Z) (i : Z) : Z :=
  byte_at v (i + 3) + byte_at v (i + 2) * 256 + byte_at v (i + 1) * 65536 + byte_at v i * 16777216.

(** The number [n] cells from cell [i] on denote. *)
Definition cells_at (v : list Z) (i n : Z) : Z :=
  if n =? 0 then 0 else if n =? 1 then word_at v (4 * i) else word_at v (4 * i) * 2 ^ 32 + word_at v (4 * (i + 1)).

Definition bytes (v : list Z) : Prop := Forall (fun c => 0 <= c < 256) v.

Lemma bytes_at v i : bytes v -> 0 <= byte_at v i < 256.
Proof. intros Hv. unfold byte_at. destruct (v !! Z.to_nat i) eqn:E; [by eapply (proj1 (Forall_lookup _ _) Hv)|cbn; lia]. Qed.

Lemma be32_value a v i :
  holds a v -> bytes v -> 0 <= i -> i + 4 <= len v -> 0 <= a -> a + len v < 2 ^ 64 -> fdt_be32 rd (a + i) = word_at v i.
Proof.
  intros Hh Hv Hi Hl Ha Hb. unfold fdt_be32. rewrite !u64_id by lia. replace (a + i + 1) with (a + (i + 1)) by lia.
  replace (a + i + 2) with (a + (i + 2)) by lia. replace (a + i + 3) with (a + (i + 3)) by lia.
  rewrite !Hh by lia. rewrite be_sum by (by apply bytes_at). done.
Qed.

Lemma word_range v i : bytes v -> 0 <= word_at v i < 2 ^ 32.
Proof.
  intros Hv. pose proof (bytes_at v i Hv). pose proof (bytes_at v (i + 1) Hv). pose proof (bytes_at v (i + 2) Hv).
  pose proof (bytes_at v (i + 3) Hv). unfold word_at. lia.
Qed.

Lemma read_cells_exact a v i n :
  holds a v -> bytes v -> 0 <= i -> 0 <= n <= 2 -> 4 * (i + n) <= len v -> 0 <= a -> a + len v < 2 ^ 64 ->
  fdt_read_cells rd (a + 4 * i) n = cells_at v i n.
Proof.
  intros Hh Hv Hi Hn Hl Ha Hb. unfold fdt_read_cells, cells_at.
  assert (Hn' : n = 0 \/ n = 1 \/ n = 2) by lia. destruct Hn' as [->|[->| ->]]; [done|..].
  - change (fdt_be32 rd (u64 (a + 4 * i + 0)) = word_at v (4 * i)). rewrite Z.add_0_r, u64_id by lia. by rewrite (be32_value a v) by (done || lia).
  - change (for_range 0 2 (fun j value => Z.lor (u64 (Z.shiftl value 32)) (fdt_be32 rd (u64 (a + 4 * i + 4 * j)))) 0)
      with (Z.lor (u64 (Z.shiftl (Z.lor (u64 (Z.shiftl 0 32)) (fdt_be32 rd (u64 (a + 4 * i + 0)))) 32)) (fdt_be32 rd (u64 (a + 4 * i + 4)))).
    rewrite Z.add_0_r. rewrite (u64_id (a + 4 * i)), (u64_id (a + 4 * i + 4)) by lia.
    rewrite (be32_value a v (4 * i)) by (done || lia). replace (a + 4 * i + 4) with (a + 4 * (i + 1)) by lia.
    rewrite (be32_value a v (4 * (i + 1))) by (done || lia). pose proof (word_range v (4 * i) Hv). pose proof (word_range v (4 * (i + 1)) Hv).
    change (Z.lor (u64 (Z.shiftl 0 32)) (word_at v (4 * i))) with (word_at v (4 * i)).
    rewrite u64_id by (rewrite Z.shiftl_mul_pow2; lia). rewrite Z.lor_comm, (lor_shift _ _ 32) by lia. change (2 =? 0) with false. change (2 =? 1) with false. cbv iota. lia.
Qed.

(** * The search for memory, on the items *)

Record mstate := MState { ms_depth : Z; ms_in : bool; ms_address_cells : Z; ms_size_cells : Z }.

(** The next state, or the result. *)
Definition mem_step (s : mstate) (it : fdt_item) : mstate + option dtb_memory :=
  let '(MState d inm ac sc) := s in
  match it with
  | IBegin name => inl (MState (d + 1) ((d + 1 =? 1) && has_prefix (chars "memory"%string) name) ac sc)
  | IEnd => inl (MState (d - 1) (inm && negb (d =? 1)) ac sc)
  | IProp p =>
      if (d =? 0) && bool_decide (p_name p = ADDRESS_CELLS) && (len (p_value p) >=? 4) then inl (MState d inm (word_at (p_value p) 0) sc)
      else if (d =? 0) && bool_decide (p_name p = SIZE_CELLS) && (len (p_value p) >=? 4) then inl (MState d inm ac (word_at (p_value p) 0))
      else if inm && bool_decide (p_name p = chars "reg"%string) then
        if (len (p_value p) <? reg_bytes ac sc) || (ac >? 2) || (sc >? 2) then inr None
        else inr (Some (DtbMemory (cells_at (p_value p) 0 ac) (cells_at (p_value p) ac sc)))
      else inl s
  | INop => inl s
  | IFin => inr None
  end.

Fixpoint mem_run (s : mstate) (items : list fdt_item) (memory : dtb_memory) : Z * dtb_memory :=
  match items with
  | [] => (-1, memory)
  | it :: items' =>
      match mem_step s it with
      | inl s' => mem_run s' items' memory
      | inr (Some m) => (0, m)
      | inr None => (-1, memory)
      end
  end.

Definition encode_all (items : list fdt_item) : list Z := concat (map encode items).

(** The name of a property is in the strings block. *)
Definition named (strings : Z) (it : fdt_item) : Prop :=
  match it with IProp p => holds (strings + p_off p) (p_name p ++ [0]) /\ len (p_name p) < 2 ^ 32 | _ => True end.

Lemma len_encode_all it items : len (encode_all (it :: items)) = len (encode it) + len (encode_all items).
Proof. unfold encode_all. cbn [map concat]. apply len_app. Qed.

Lemma text_literals : text ADDRESS_CELLS /\ text SIZE_CELLS /\ text (chars "reg"%string) /\ text (chars "memory"%string).
Proof. split_and!; by repeat constructor. Qed.

(** The reader's loop on a laid-out structure block is the search on its items. *)
Lemma memory_loop_items strings send tot items : forall fuel c d inm ac sc memory,
  holds c (encode_all items) -> Forall item_ok items -> Forall (named strings) items -> c mod 4 = 0 -> 0 <= c ->
  c + len (encode_all items) = send -> send < 2 ^ 62 -> 0 <= strings < 2 ^ 62 -> (length items < fuel)%nat ->
  0 <= ac < 2 ^ 32 -> 0 <= sc < 2 ^ 32 ->
  memory_loop rd fuel (FdtView strings c send tot) d inm ac sc memory = mem_run (MState d inm ac sc) items memory.
Proof.
  induction items as [|it items IH]; intros fuel c d inm ac sc memory Hh Hok Hnm Hal Hc Hs Hsend Hst Hf Hac Hsc;
    (destruct fuel as [|fuel]; [cbn in Hf; lia|]); cbn [memory_loop v_cursor v_struct_end].
  { rewrite (len_nil : len (encode_all []) = 0) in Hs. destruct (Z.ltb_spec c send); [lia|done]. }
  rewrite len_encode_all in Hs. pose proof (len_encode it) as [Hl4 Hlm]. pose proof (len_pos (encode_all items)).
  destruct (Z.ltb_spec c send); [cbn [negb]|lia].
  unfold encode_all in Hh. cbn [map concat] in Hh. apply holds_app in Hh as [Hi Hr]. fold (encode_all items) in Hr.
  apply Forall_cons in Hok as [Hok1 Hok], Hnm as [Hnm1 Hnm].
  rewrite (next_token_item strings c send tot d no_token it) by (done || lia). change (negb (0 =? 0)) with false. cbv iota.
  assert (Hnext : forall d' inm' ac' sc', 0 <= ac' < 2 ^ 32 -> 0 <= sc' < 2 ^ 32 ->
    memory_loop rd fuel (FdtView strings (c + len (encode it)) send tot) d' inm' ac' sc' memory = mem_run (MState d' inm' ac' sc') items memory).
  { intros. apply IH; try done; try lia; [|cbn in Hf; lia]. rewrite Z.add_mod, Hal, Hlm by lia. done. }
  cbn [mem_run]. destruct it as [name| |p| |]; cbn [token_at t_token t_depth t_name t_prop_name t_len t_value depth_after mem_step].
  - change (FDT_BEGIN_NODE =? FDT_BEGIN_NODE) with true. cbv iota. rewrite Hnext by done. cbn [encode] in Hi, Hl4, Hs.
    rewrite !len_app in Hs. change (len (be4 1)) with 4 in *. pose proof (len_pos name). pose proof (len_pos (pad (len name + 1))). change (len [0]) with 1 in *.
    rewrite (starts_with_exact (c + 4) name); [done| |done|apply text_literals|lia|change (len (chars "memory"%string)) with 6; lia].
    apply holds_app in Hi as [_ Hi]. rewrite app_assoc in Hi. by apply holds_app in Hi as [Hi _].
  - apply (Hnext (d - 1) (inm && negb (d =? 1)) ac sc Hac Hsc).
  - change (FDT_PROP =? FDT_BEGIN_NODE) with false. change (FDT_PROP =? FDT_END_NODE) with false. change (FDT_PROP =? FDT_PROP) with true. cbv iota.
    destruct Hnm1 as [Hn1 Hn2]. destruct Hok1 as (Ht & Hv & Hlv & Hoff). pose proof (len_pos (p_name p)). pose proof (len_pos (p_value p)).
    pose proof text_literals as (T1 & T2 & T3 & _). assert (L1 : len ADDRESS_CELLS = 14) by done. assert (L2 : len SIZE_CELLS = 11) by done.
    assert (L3 : len (chars "reg"%string) = 3) by done.
    rewrite (streq_exact _ _ ADDRESS_CELLS Hn1 Ht T1), (streq_exact _ _ SIZE_CELLS Hn1 Ht T2), (streq_exact _ _ (chars "reg"%string) Hn1 Ht T3) by lia.
    cbn [encode] in Hi, Hs. rewrite !len_app in Hs. change (len (be4 _)) with 4 in Hs. pose proof (len_pos (pad (len (p_value p)))).
    apply holds_app in Hi as [_ Hi]. apply holds_app in Hi as [_ Hi]. apply holds_app in Hi as [_ Hi]. apply holds_app in Hi as [Hi _].
    change (holds (c + 4 + 4 + 4) (p_value p)) in Hi. replace (c + 4 + 4 + 4) with (c + 12) in Hi by lia.
    assert (Hword : len (p_value p) >= 4 -> fdt_be32 rd (c + 12) = word_at (p_value p) 0).
    { intros Hge. rewrite <- (Z.add_0_r (c + 12)). apply be32_value; [done|done|lia..]. }
    pose proof (word_range (p_value p) 0 Hv).
    destruct ((d =? 0) && bool_decide (p_name p = ADDRESS_CELLS) && (len (p_value p) >=? 4)) eqn:E1; [b2p; rewrite Hword by lia; by apply Hnext|].
    destruct ((d =? 0) && bool_decide (p_name p = SIZE_CELLS) && (len (p_value p) >=? 4)) eqn:E2; [b2p; rewrite Hword by lia; by apply Hnext|].
    destruct (inm && bool_decide (p_name p = chars "reg"%string)); [|by apply Hnext].
    destruct (_ || _ || _) eqn:E3; [done|]. b2p.
    assert (Hrb : reg_bytes ac sc = (ac + sc) * 4) by (unfold reg_bytes; rewrite (u32_id (ac + sc)), u32_id; lia).
    assert (Ea : fdt_read_cells rd (c + 12) ac = cells_at (p_value p) 0 ac).
    { replace (c + 12) with (c + 12 + 4 * 0) by lia. apply read_cells_exact; try done; lia. }
    assert (Eb : fdt_read_cells rd (u64 (c + 12 + 4 * ac)) sc = cells_at (p_value p) ac sc).
    { rewrite u64_id by lia. apply read_cells_exact; try done; lia. }
    by rewrite Ea, Eb.
  - apply (Hnext d inm ac sc Hac Hsc).
  - done.
Qed.
End Layout.

(** * Trees *)

(** The items below a node: nodes inside nodes, properties first. *)
Inductive nested : list fdt_item -> Prop :=
  | nested_nil : nested []
  | nested_node name props kids rest :
      nested kids -> nested rest -> nested (IBegin name :: map IProp props ++ kids ++ IEnd :: rest).

(** A node below the root. *)
Record dt_node := DtNode { n_name : list Z; n_props : list fdt_prop; n_inner : list fdt_item }.

Definition node_items (n : dt_node) : list fdt_item := IBegin (n_name n) :: map IProp (n_props n) ++ n_inner n ++ [IEnd].

Definition tree_items (root_props : list fdt_prop) (nodes : list dt_node) : list fdt_item :=
  IBegin [] :: map IProp root_props ++ concat (map node_items nodes) ++ [IEnd; IFin].

(** The cell count the root gives: the last property of that name counts. *)
Definition cell_count (name : list Z) (initial : Z) (props : list fdt_prop) : Z :=
  foldl (fun n p => if bool_decide (p_name p = name) && (len (p_value p) >=? 4) then word_at (p_value p) 0 else n) initial props.

Definition is_memory (n : dt_node) : bool := has_prefix (chars "memory"%string) (n_name n).

Lemma run_root_props props : forall ac sc rest m,
  mem_run (MState 0 false ac sc) (map IProp props ++ rest) m =
  mem_run (MState 0 false (cell_count ADDRESS_CELLS ac props) (cell_count SIZE_CELLS sc props)) rest m.
Proof.
  induction props as [|p props IH]; intros ac sc rest m; [done|]. cbn [map app mem_run mem_step]. cbn [Z.eqb andb].
  unfold cell_count in *. cbn [foldl]. destruct (bool_decide (p_name p = ADDRESS_CELLS)) eqn:E1; cbn [andb].
  - apply bool_decide_eq_true in E1. rewrite E1. rewrite (bool_decide_eq_false_2 (ADDRESS_CELLS = SIZE_CELLS)) by done.
    cbn [andb]. destruct (_ >=? 4); by rewrite IH.
  - destruct (bool_decide (p_name p = SIZE_CELLS)); cbn [andb]; [destruct (_ >=? 4)|]; by rewrite IH.
Qed.

(** Properties that are not the [reg] of a memory node are passed over. *)
Lemma run_other_props props : forall d inm ac sc rest m,
  1 <= d -> (inm = true -> Forall (fun p => p_name p <> chars "reg"%string) props) ->
  mem_run (MState d inm ac sc) (map IProp props ++ rest) m = mem_run (MState d inm ac sc) rest m.
Proof.
  induction props as [|p props IH]; intros d inm ac sc rest m Hd Hr; [done|]. cbn [map app mem_run mem_step].
  destruct (Z.eqb_spec d 0); [lia|]. cbn [andb]. destruct inm; cbn [andb].
  - apply Forall_cons in Hr as [Hp Hr]; [|done]. rewrite (bool_decide_eq_false_2 _ Hp). by apply IH.
  - by apply IH.
Qed.

Lemma run_nested items : nested items -> forall d ac sc rest m,
  1 <= d -> mem_run (MState d false ac sc) (items ++ rest) m = mem_run (MState d false ac sc) rest m.
Proof.
  induction 1 as [|name props kids rest' _ IH1 _ IH2]; intros d ac sc rest m Hd; [done|].
  cbn [app mem_run mem_step]. destruct (Z.eqb_spec (d + 1) 1); [lia|]. cbn [andb].
  rewrite <- !app_assoc. rewrite run_other_props by (done || lia). rewrite IH1 by lia. cbn [app mem_run mem_step andb].
  replace (d + 1 - 1) with d by lia. by apply IH2.
Qed.

Lemma run_node n ac sc rest m :
  is_memory n = false -> nested (n_inner n) -> mem_run (MState 0 false ac sc) (node_items n ++ rest) m = mem_run (MState 0 false ac sc) rest m.
Proof.
  intros Hm Hn. unfold node_items. cbn [app mem_run mem_step]. unfold is_memory in Hm. rewrite Hm, andb_false_r.
  rewrite <- !app_assoc. rewrite run_other_props by (done || lia). rewrite run_nested by (done || lia). done.
Qed.

Lemma run_nodes nodes ac sc rest m :
  Forall (fun n => is_memory n = false /\ nested (n_inner n)) nodes ->
  mem_run (MState 0 false ac sc) (concat (map node_items nodes) ++ rest) m = mem_run (MState 0 false ac sc) rest m.
Proof.
  induction 1 as [|n nodes [H1 H2] _ IH]; [done|]. cbn [map concat]. rewrite <- app_assoc, run_node by done. apply IH.
Qed.

(** * Blobs *)

Record blob_at (rd : Z -> Z) (addr tot soff stoff ssize : Z) (items : list fdt_item) : Prop := {
  bl_addr : 0 < addr;
  bl_top : addr + tot < 2 ^ 62;
  bl_magic : holds rd addr (be4 FDT_MAGIC);
  bl_tot : holds rd (addr + 4) (be4 tot);
  bl_soff : holds rd (addr + 8) (be4 soff);
  bl_stoff : holds rd (addr + 12) (be4 stoff);
  bl_ssize : holds rd (addr + 32) (be4 ssize);
  bl_size : holds rd (addr + 36) (be4 (len (encode_all items)));
  bl_range : 40 <= tot < 2 ^ 32 /\ 0 <= soff /\ soff + len (encode_all items) <= tot /\ 0 <= stoff /\ 0 <= ssize /\ stoff + ssize <= tot;
  bl_align : (addr + soff) mod 4 = 0;
  bl_items : holds rd (addr + soff) (encode_all items);
  bl_ok : Forall item_ok items;
  bl_named : Forall (named rd (addr + stoff)) items }.

Lemma items_length items : 4 * Z.of_nat (length items) <= len (encode_all items).
Proof.
  induction items as [|it items IH]; [done|]. rewrite len_encode_all. pose proof (len_encode it). cbn [length]. lia.
Qed.

Lemma blob_view rd addr tot soff stoff ssize items :
  blob_at rd addr tot soff stoff ssize items ->
  fdt_view_init rd addr = Some (FdtView (addr + stoff) (addr + soff) (addr + soff + len (encode_all items)) tot).
Proof.
  intros [Ha Ht H1 H2 H3 H4 H5 H6 Hr _ _ _ _]. pose proof (len_pos (encode_all items)). unfold fdt_view_init.
  rewrite (holds_be4 rd _ _ H1) by (unfold FDT_MAGIC; lia). destruct (Z.eqb_spec addr 0); [lia|]. rewrite Z.eqb_refl. cbn [orb negb].
  rewrite !(u64_id (addr + _)) by lia. rewrite (holds_be4 rd _ _ H2), (holds_be4 rd _ _ H3), (holds_be4 rd _ _ H4), (holds_be4 rd _ _ H5), (holds_be4 rd _ _ H6) by lia.
  unfold FDT_HEADER_SIZE, fdt_range_valid.
  rewrite (proj2 (Z.ltb_ge tot 40)), (proj2 (Z.leb_le soff tot)), (proj2 (Z.leb_le (len (encode_all items)) (tot - soff))),
    (proj2 (Z.leb_le stoff tot)), (proj2 (Z.leb_le ssize (tot - stoff))) by lia.
  cbn [orb andb negb]. rewrite !u64_id by lia. done.
Qed.

Lemma get_memory_items rd addr tot soff stoff ssize items m :
  blob_at rd addr tot soff stoff ssize items ->
  dtb_get_memory rd addr (Some m) = (fst (mem_run (MState (-1) false 2 1) items m), Some (snd (mem_run (MState (-1) false 2 1) items m))).
Proof.
  intros Hb. unfold dtb_get_memory. rewrite (blob_view _ _ _ _ _ _ _ Hb). destruct Hb.
  pose proof (items_length items). pose proof (len_pos (encode_all items)).
  rewrite (memory_loop_items rd (addr + stoff) _ tot items); try done; try lia; [by destruct (mem_run _ _ _)|].
  unfold fdt_fuel. cbn [v_struct_end v_cursor]. lia.
Qed.

(** C39: Reading a device tree finds the memory it describes: in a blob that
    encodes any tree, whatever nodes and properties come before, dtb_get_memory
    returns the base and size in the [reg] property of the first node whose name
    starts with "memory", decoded with the cell counts of the root. *)
Theorem memory_found (rd : Z -> Z) (addr tot soff stoff ssize : Z) (root_props : list fdt_prop) (before : list dt_node)
    (node : dt_node) (after : list dt_node) (pre : list fdt_prop) (reg : fdt_prop) (post : list fdt_prop) (m : dtb_memory) :
  let ac := cell_count ADDRESS_CELLS 2 root_props in
  let sc := cell_count SIZE_CELLS 1 root_props in
  blob_at rd addr tot soff stoff ssize (tree_items root_props (before ++ node :: after)) ->
  Forall (fun n => is_memory n = false /\ nested (n_inner n)) before ->
  is_memory node = true -> n_props node = pre ++ reg :: post ->
  Forall (fun p => p_name p <> chars "reg"%string) pre -> p_name reg = chars "reg"%string ->
  0 <= ac <= 2 -> 0 <= sc <= 2 -> 4 * (ac + sc) <= len (p_value reg) ->
  dtb_get_memory rd addr (Some m) = (0, Some (DtbMemory (cells_at (p_value reg) 0 ac) (cells_at (p_value reg) ac sc))).
Proof.
  intros ac sc Hb Hbefore Hmem Hprops Hpre Hreg Hac Hsc Hlen. rewrite (get_memory_items _ _ _ _ _ _ _ m Hb).
  assert (E : mem_run (MState (-1) false 2 1) (tree_items root_props (before ++ node :: after)) m =
    (0, DtbMemory (cells_at (p_value reg) 0 ac) (cells_at (p_value reg) ac sc))); [|by rewrite E].
  unfold tree_items. cbn [mem_run mem_step]. change (-1 + 1) with 0. change (0 =? 1) with false. cbn [andb].
  rewrite run_root_props. fold ac sc. rewrite map_app, concat_app, <- app_assoc. rewrite run_nodes by done.
  cbn [map concat]. unfold node_items at 1. cbn [app mem_run mem_step]. change (0 + 1) with 1. change (1 =? 1) with true.
  unfold is_memory in Hmem. rewrite Hmem. cbn [andb]. rewrite Hprops, map_app, <- !app_assoc. rewrite run_other_props by (done || lia).
  cbn [map app mem_run mem_step]. change (1 =? 0) with false. cbn [andb]. rewrite (bool_decide_eq_true_2 _ Hreg).
  assert (Hrb : reg_bytes ac sc = (ac + sc) * 4) by (unfold reg_bytes; rewrite (u32_id (ac + sc)), u32_id; lia).
  rewrite Hrb, (proj2 (Z.ltb_ge (len (p_value reg)) ((ac + sc) * 4))) by lia. destruct (Z.gtb_spec ac 2), (Z.gtb_spec sc 2); [lia..|]. done.
Qed.

(** * A blob *)

(** The strings block: "#address-cells", "#size-cells", "reg". *)
Definition demo_strings : list Z := ADDRESS_CELLS ++ [0] ++ SIZE_CELLS ++ [0] ++ chars "reg"%string ++ [0].

Definition demo_root : list fdt_prop :=
  [Prop_ ADDRESS_CELLS 0 (be4 2); Prop_ SIZE_CELLS 15 (be4 2)].

Definition demo_cpus : dt_node :=
  DtNode (chars "cpus"%string) [Prop_ (chars "reg"%string) 27 (be4 7)]
    [IBegin (chars "memory"%string); IProp (Prop_ (chars "reg"%string) 27 (be4 0 ++ be4 1 ++ be4 0 ++ be4 1)); IEnd].

(** The memory node, its [reg] named at offset [off] of the strings. *)
Definition demo_memory (off : Z) : dt_node :=
  DtNode (chars "memory@40000000"%string) [Prop_ (chars "reg"%string) off (be4 0 ++ be4 0x40000000 ++ be4 1 ++ be4 0x8000000)] [].

Definition demo_items (off : Z) : list fdt_item := tree_items demo_root [demo_cpus; demo_memory off].

Definition demo_header (tot soff stoff ssize size : Z) : list Z :=
  be4 FDT_MAGIC ++ be4 tot ++ be4 soff ++ be4 stoff ++ be4 0 ++ be4 17 ++ be4 16 ++ be4 0 ++ be4 ssize ++ be4 size.

(** The blob: header, structure block at 40, strings after it. *)
Definition demo_blob (off : Z) : list Z :=
  let size := len (encode_all (demo_items off)) in
  demo_header (40 + size + len demo_strings) 40 (40 + size) (len demo_strings) size ++ encode_all (demo_items off) ++ demo_strings.

Definition demo_rd (blob : list Z) : Z -> Z := fun a => byte_at blob (a - 0x1000).

Lemma holds_check rd a bs : forallb (fun i => rd (a + i) =? byte_at bs i) (seqZ 0 (len bs)) = true -> holds rd a bs.
Proof.
  intros Hc i Hi. rewrite forallb_forall in Hc. apply Z.eqb_eq, (Hc i). apply list_elem_of_In, elem_of_seqZ. lia.
Qed.

(** [item_ok], as a test. *)
Definition item_okb (it : fdt_item) : bool :=
  match it with
  | IBegin name => forallb (fun c => (0 <? c) && (c <? 256)) name
  | IProp p => forallb (fun c => (0 <? c) && (c <? 256)) (p_name p) && forallb (fun c => (0 <=? c) && (c <? 256)) (p_value p) &&
      (len (p_value p) <? 2 ^ 32) && (0 <=? p_off p) && (p_off p <? 2 ^ 32)
  | _ => true
  end.

Lemma items_check items : forallb item_okb items = true -> Forall item_ok items.
Proof.
  intros Hc. apply Forall_forall. intros it Hin. rewrite forallb_forall in Hc. specialize (Hc it (proj1 (list_elem_of_In _ _) Hin)).
  destruct it as [name| |p| |]; cbn [item_okb item_ok] in *; try exact I; b2p.
  - apply Forall_forall. intros c Hin'%list_elem_of_In. rewrite forallb_forall in Hc. specialize (Hc c Hin'). b2p. lia.
  - repeat match goal with Hx : forallb _ _ = true |- _ => rewrite forallb_forall in Hx end.
    split_and!; try lia; apply Forall_forall; intros c Hin'%list_elem_of_In;
      match goal with Hx : forall x, In x _ -> _ |- _ => specialize (Hx c Hin') end; b2p; lia.
Qed.

Lemma demo_items_ok : Forall item_ok (demo_items 27).
Proof. apply items_check. vm_compute. reflexivity. Qed.

Lemma demo_blob_at : blob_at (demo_rd (demo_blob 27)) 0x1000 247 40 216 31 (demo_items 27).
Proof.
  assert (E : len (encode_all (demo_items 27)) = 176) by (vm_compute; reflexivity).
  split; rewrite ?E; [lia|lia|apply holds_check; vm_compute; reflexivity..|lia|done|apply holds_check; vm_compute; reflexivity|exact demo_items_ok|].
  unfold demo_items, tree_items. cbn [map app concat demo_root demo_cpus demo_memory node_items n_name n_props n_inner].
  repeat (apply Forall_cons; split); try exact I; try apply Forall_nil_2;
    (split; [apply holds_check; vm_compute; reflexivity|vm_compute; reflexivity]).
Qed.

Lemma memory_found_witness :
  dtb_get_memory (demo_rd (demo_blob 27)) 0x1000 (Some (DtbMemory 0 0)) = (0, Some (DtbMemory 0x40000000 0x108000000)).
Proof.
  apply (memory_found (demo_rd (demo_blob 27)) 0x1000 247 40 216 31 demo_root [demo_cpus] (demo_memory 27) [] []
    (Prop_ (chars "reg"%string) 27 (be4 0 ++ be4 0x40000000 ++ be4 1 ++ be4 0x8000000)) [] (DtbMemory 0 0)).
  - exact demo_blob_at.
  - constructor; [|constructor]. split; [reflexivity|]. apply (nested_node _ [_] []); constructor.
  - reflexivity.
  - reflexivity.
  - constructor.
  - reflexivity.
  - vm_compute. split; congruence.
  - vm_compute. split; congruence.
  - vm_compute. congruence.
Defined.

(** The offset of a property's name is not checked against the blob: with a
    blob the header check accepts, the answer of dtb_get_memory depends on the
    bytes that follow the blob in memory. *)
Theorem property_names_read_outside :
  let rd1 := demo_rd (demo_blob 31) in
  let rd2 := demo_rd (demo_blob 31 ++ chars "reg"%string) in
  dtb_total_size rd1 0x1000 = 247 /\ (forall a, 0x1000 <= a < 0x1000 + 247 -> rd1 a = rd2 a) /\
  fst (dtb_get_memory rd1 0x1000 (Some (DtbMemory 0 0))) = -1 /\ fst (dtb_get_memory rd2 0x1000 (Some (DtbMemory 0 0))) = 0.
Proof.
  cbv zeta. split; [vm_compute; reflexivity|]. split; [|split; vm_compute; reflexivity].
  intros a Ha. unfold demo_rd. rewrite byte_at_joined by lia. assert (E : len (demo_blob 31) = 247) by (vm_compute; reflexivity).
  rewrite E. destruct (Z.ltb_spec (a - 0x1000) 247); [done|lia].
Qed.
