(* ===== verification/Sched.v ===== *)
(** The cooperative scheduler of EL1 helper threads (sched/sched.c and the
    context switch of sched/switch.S): thread slots with their saved contexts
    and stacks, over the interface of the page allocator. *)

From S2P Require Import Prelude.
From S2P Require Import PageAlloc.
Open Scope arm.

Definition SCHED_MAX_THREADS : Z := 4.
Definition SCHED_STACK_PAGES : Z := 4.

Record sched_context := Ctx {
  x19 : Z; x20 : Z; x21 : Z; x22 : Z; x23 : Z; x24 : Z; x25 : Z; x26 : Z; x27 : Z; x28 : Z; x29 : Z; c_sp : Z; c_lr : Z }.

Inductive thread_state := THREAD_UNUSED | THREAD_READY | THREAD_RUNNING | THREAD_ZOMBIE.

#[export] Instance thread_state_eq_dec : EqDecision thread_state.
Proof. solve_decision. Defined.

(** [name] is the pointer; 0 is NULL. *)
Record kernel_thread := Thread {
  th_pid : Z; th_state : thread_state; th_context : sched_context; th_stack_base : Z; th_name : Z }.

(** The globals; [cpu] holds the registers [switch_context] exchanges, [irq]
    tells whether interrupts are enabled, [idle] that the processor is in the
    endless wait of [sched_thread_exit]. *)
Record sched (A : Type) := Sched {
  g_sched_ticks : Z; g_sched_quantums : Z; g_quantum_ticks : Z; g_ticks_left : Z;
  g_threads : list kernel_thread; g_current_thread : option Z; g_thread_count : Z; g_next_pid : Z;
  cpu : sched_context; irq : bool; idle : bool; pages : A }.
Arguments Sched {A}.
Arguments g_sched_ticks {A}. Arguments g_sched_quantums {A}. Arguments g_quantum_ticks {A}. Arguments g_ticks_left {A}.
Arguments g_threads {A}. Arguments g_current_thread {A}. Arguments g_thread_count {A}. Arguments g_next_pid {A}.
Arguments cpu {A}. Arguments irq {A}. Arguments idle {A}. Arguments pages {A}.

Definition no_context : sched_context := Ctx 0 0 0 0 0 0 0 0 0 0 0 0 0.
Definition no_thread : kernel_thread := Thread 0 THREAD_UNUSED no_context 0 0.

Definition with_state (st : thread_state) (t : kernel_thread) : kernel_thread :=
  Thread (th_pid t) st (th_context t) (th_stack_base t) (th_name t).
Definition with_context (c : sched_context) (t : kernel_thread) : kernel_thread :=
  Thread (th_pid t) (th_state t) c (th_stack_base t) (th_name t).
Definition with_stack (b : Z) (t : kernel_thread) : kernel_thread :=
  Thread (th_pid t) (th_state t) (th_context t) b (th_name t).

Definition with_lr (lr : Z) (c : sched_context) : sched_context :=
  Ctx (x19 c) (x20 c) (x21 c) (x22 c) (x23 c) (x24 c) (x25 c) (x26 c) (x27 c) (x28 c) (x29 c) (c_sp c) lr.

Section Sched.
Context {A : Type} `{PageAllocator A}.

(** Code addresses: where a new thread starts, and where [sched_start],
    [sched_yield] and [sched_thread_exit] continue after [switch_context]. *)
Variables (sched_thread_trampoline start_return yield_return exit_return : Z).

Implicit Type s : sched A.

Definition th s (i : Z) : kernel_thread := default no_thread (g_threads s !! Z.to_nat i).

Definition set_thread (i : Z) (f : kernel_thread -> kernel_thread) s : sched A :=
  Sched (g_sched_ticks s) (g_sched_quantums s) (g_quantum_ticks s) (g_ticks_left s)
    (<[Z.to_nat i := f (th s i)]> (g_threads s)) (g_current_thread s) (g_thread_count s) (g_next_pid s)
    (cpu s) (irq s) (idle s) (pages s).

Definition set_current (c : option Z) s : sched A :=
  Sched (g_sched_ticks s) (g_sched_quantums s) (g_quantum_ticks s) (g_ticks_left s) (g_threads s) c
    (g_thread_count s) (g_next_pid s) (cpu s) (irq s) (idle s) (pages s).

Definition set_counts (count next_pid : Z) s : sched A :=
  Sched (g_sched_ticks s) (g_sched_quantums s) (g_quantum_ticks s) (g_ticks_left s) (g_threads s) (g_current_thread s)
    count next_pid (cpu s) (irq s) (idle s) (pages s).

Definition set_pages (a : A) s : sched A :=
  Sched (g_sched_ticks s) (g_sched_quantums s) (g_quantum_ticks s) (g_ticks_left s) (g_threads s) (g_current_thread s)
    (g_thread_count s) (g_next_pid s) (cpu s) (irq s) (idle s) a.

(** [irq_disable()], [irq_enable()], the wait loop and the running code. *)
Definition set_irq (b : bool) s : sched A :=
  Sched (g_sched_ticks s) (g_sched_quantums s) (g_quantum_ticks s) (g_ticks_left s) (g_threads s) (g_current_thread s)
    (g_thread_count s) (g_next_pid s) (cpu s) b (idle s) (pages s).

Definition set_idle s : sched A :=
  Sched (g_sched_ticks s) (g_sched_quantums s) (g_quantum_ticks s) (g_ticks_left s) (g_threads s) (g_current_thread s)
    (g_thread_count s) (g_next_pid s) (cpu s) (irq s) true (pages s).

Definition set_cpu (c : sched_context) s : sched A :=
  Sched (g_sched_ticks s) (g_sched_quantums s) (g_quantum_ticks s) (g_ticks_left s) (g_threads s) (g_current_thread s)
    (g_thread_count s) (g_next_pid s) c (irq s) (idle s) (pages s).

(** The saved contexts of the slots are left as they were. *)
Definition sched_init (quantum_ticks : Z) s : sched A :=
  let quantum_ticks := if quantum_ticks =? 0 then 1 else quantum_ticks in
  Sched 0 0 quantum_ticks quantum_ticks
    (map (fun t => Thread 0 THREAD_UNUSED (th_context t) 0 0) (g_threads s)) None 0 1 (cpu s) (irq s) (idle s) (pages s).

Definition next_runnable_thread s : option Z :=
  let start := match g_current_thread s with Some i => i + 1 | None => 0 end in
  match find_range 0 SCHED_MAX_THREADS
          (fun offset => bool_decide (th_state (th s ((start + offset) mod SCHED_MAX_THREADS)) = THREAD_READY)) with
  | Some offset => Some ((start + offset) mod SCHED_MAX_THREADS)
  | None => None
  end.

Definition sched_create_kernel_thread (entry arg name : Z) s : Z * sched A :=
  if entry =? 0 then (-1, s) else
  match find_range 0 SCHED_MAX_THREADS (fun i => bool_decide (th_state (th s i) = THREAD_UNUSED)) with
  | None => (-1, s)
  | Some i =>
      let '(stack, a) := alloc_pages SCHED_STACK_PAGES (pages s) in
      let s := set_pages a s in
      if stack =? 0 then (-1, s) else
      let context := Ctx entry arg 0 0 0 0 0 0 0 0 0 (u64 (stack + SCHED_STACK_PAGES * PAGE_SIZE)) sched_thread_trampoline in
      let s := set_thread i (fun _ => Thread (g_next_pid s) THREAD_READY context stack name) s in
      (0, set_counts (u32 (g_thread_count s + 1)) (u32 (g_next_pid s + 1)) s)
  end.

(** switch.S: the call has put the return address in the link register. The old
    context is stored in its slot ([None]: a local of [sched_start]). *)
Definition switch_context (old : option Z) (new return_address : Z) s : sched A :=
  let saved := with_lr return_address (cpu s) in
  let s := match old with Some i => set_thread i (with_context saved) s | None => s end in
  set_cpu (th_context (th s new)) s.

(** The [ret] of [switch_context]: a thread that was switched out in
    [sched_yield] enables interrupts there; a new thread starts in the trampoline. *)
Definition resume s : sched A := if c_lr (cpu s) =? yield_return then set_irq true s else s.

Definition sched_start s : sched A :=
  match next_runnable_thread s with
  | None => s
  | Some next =>
      let s := set_current (Some next) s in
      let s := set_thread next (with_state THREAD_RUNNING) s in
      resume (switch_context None next start_return s)
  end.

Definition sched_yield s : sched A :=
  match g_current_thread s with
  | None => s
  | Some old =>
      let s := set_irq false s in
      match next_runnable_thread s with
      | None => set_irq true s
      | Some next =>
          if next =? old then set_irq true s else
          let s := set_thread old (with_state THREAD_READY) s in
          let s := set_thread next (with_state THREAD_RUNNING) s in
          let s := set_current (Some next) s in
          resume (switch_context (Some old) next yield_return s)
      end
  end.

(** The pages of a stack. *)
Definition free_stack (i : Z) s : sched A :=
  if th_stack_base (th s i) =? 0 then s else
  let s := set_pages (for_range 0 SCHED_STACK_PAGES
             (fun k a => free_page (u64 (th_stack_base (th s i) + u64 (k * PAGE_SIZE))) a) (pages s)) s in
  set_thread i (with_stack 0) s.

Definition sched_thread_exit s : sched A :=
  let s := set_irq false s in
  match g_current_thread s with
  | None => set_idle (set_irq true s)
  | Some old =>
      let s := set_thread old (with_state THREAD_ZOMBIE) s in
      let s := if g_thread_count s >? 0 then set_counts (g_thread_count s - 1) (g_next_pid s) s else s in
      match next_runnable_thread s with
      | None => set_idle (set_irq true (free_stack old s))
      | Some next =>
          let s := set_thread next (with_state THREAD_RUNNING) s in
          let s := set_current (Some next) s in
          let s := free_stack old s in
          resume (switch_context (Some old) next exit_return s)
      end
  end.

Definition sched_on_timer_tick s : sched A :=
  let ticks := if g_ticks_left s >? 0 then g_ticks_left s - 1 else g_ticks_left s in
  let '(quantums, ticks) :=
    if ticks =? 0 then (u64 (g_sched_quantums s + 1), g_quantum_ticks s) else (g_sched_quantums s, ticks) in
  Sched (u64 (g_sched_ticks s + 1)) quantums (g_quantum_ticks s) ticks (g_threads s) (g_current_thread s)
    (g_thread_count s) (g_next_pid s) (cpu s) (irq s) (idle s) (pages s).

Definition sched_ticks s : Z := g_sched_ticks s.
Definition sched_quantums s : Z := g_sched_quantums s.
End Sched.
