(* ===== verification/SchedSafety.v ===== *)
(** The scheduler of kernel threads keeps its table consistent: one running
    thread, every live thread on a stack of its own, contexts kept exactly
    while a thread waits, and no ready thread forgotten. *)

From S2P Require Import Prelude.
From S2P Require Import PageAlloc.
From S2P Require Import Pmm.
From S2P Require Import Sched.
Open Scope arm.

Definition live (t : kernel_thread) : bool := bool_decide (th_state t = THREAD_READY) || bool_decide (th_state t = THREAD_RUNNING).
Definition used (t : kernel_thread) : bool := negb (bool_decide (th_state t = THREAD_UNUSED)).

(** The stack pointer is in the four pages from [b] on, or at their end. *)
Definition in_stack (b sp : Z) : Prop := b <= sp <= b + 16384.

Section Safety.
Context {A : Type} `{PageAllocatorLaws A}.
Variables (trampoline start_return yield_return exit_return : Z).

Implicit Type s : sched A.

Definition count (P : kernel_thread -> bool) s : Z :=
  Z.b2z (P (th s 0)) + Z.b2z (P (th s 1)) + Z.b2z (P (th s 2)) + Z.b2z (P (th s 3)).

Definition stack_owned (a : A) (b : Z) : Prop :=
  b <> 0 /\ forall k, 0 <= k < 4 -> pa_managed a (b + k * 4096) /\ ~ pa_avail a (b + k * 4096).

(** The table is consistent. *)
Record sched_ok s : Prop := {
  ok_length : length (g_threads s) = 4%nat;
  ok_pages : pa_inv (pages s);
  ok_live : forall i, 0 <= i < 4 -> live (th s i) = true -> stack_owned (pages s) (th_stack_base (th s i));
  ok_dead : forall i, 0 <= i < 4 -> live (th s i) = false -> th_stack_base (th s i) = 0;
  ok_saved : forall i, 0 <= i < 4 -> th_state (th s i) = THREAD_READY ->
    in_stack (th_stack_base (th s i)) (c_sp (th_context (th s i))) /\
    (c_lr (th_context (th s i)) = trampoline \/ c_lr (th_context (th s i)) = yield_return);
  ok_disjoint : forall i j, 0 <= i < 4 -> 0 <= j < 4 -> i <> j -> live (th s i) = true -> live (th s j) = true ->
    th_stack_base (th s i) + 16384 <= th_stack_base (th s j) \/ th_stack_base (th s j) + 16384 <= th_stack_base (th s i);
  ok_running : forall i, 0 <= i < 4 -> th_state (th s i) = THREAD_RUNNING -> g_current_thread s = Some i /\ idle s = false;
  ok_current : forall i, g_current_thread s = Some i -> 0 <= i < 4 /\
    (if idle s then th_state (th s i) = THREAD_ZOMBIE
     else th_state (th s i) = THREAD_RUNNING /\ in_stack (th_stack_base (th s i)) (c_sp (cpu s)));
  ok_count : g_thread_count s = count live s;
  ok_next : g_next_pid s = 1 + count used s;
  ok_pid : forall i, 0 <= i < 4 -> used (th s i) = true -> 1 <= th_pid (th s i) < g_next_pid s;
  ok_distinct : forall i j, 0 <= i < 4 -> 0 <= j < 4 -> i <> j -> used (th s i) = true -> used (th s j) = true ->
    th_pid (th s i) <> th_pid (th s j) }.

(** ** The table after an update *)

Lemma th_set i f s j :
  length (g_threads s) = 4%nat -> 0 <= i < 4 -> 0 <= j -> th (set_thread i f s) j = if i =? j then f (th s i) else th s j.
Proof.
  intros Hl Hi Hj. unfold th at 1. cbn [set_thread g_threads].
  destruct (Z.eqb_spec i j) as [<-|Hn]; [by rewrite list_lookup_insert_eq by lia|]. by rewrite list_lookup_insert_ne by lia.
Qed.

Lemma length_set i f s : length (g_threads (set_thread i f s)) = length (g_threads s).
Proof. apply length_insert. Qed.

Lemma th_current c s i : th (set_current c s) i = th s i. Proof. done. Qed.
Lemma th_irq b s i : th (set_irq b s) i = th s i. Proof. done. Qed.
Lemma th_cpu c s i : th (set_cpu c s) i = th s i. Proof. done. Qed.
Lemma th_pages a s i : th (set_pages a s) i = th s i. Proof. done. Qed.
Lemma th_counts n m s i : th (set_counts n m s) i = th s i. Proof. done. Qed.
Lemma th_idle s i : th (set_idle s) i = th s i. Proof. done. Qed.

(** Length of the table after updates; slots after updates. *)
Ltac len4 :=
  repeat first [rewrite length_set | progress (cbn [set_current set_irq set_cpu set_pages set_counts set_idle g_threads])]; assumption.
Ltac slots :=
  repeat (rewrite th_current || rewrite th_irq || rewrite th_cpu || rewrite th_pages || rewrite th_counts || rewrite th_idle ||
    (rewrite th_set; [|len4|lia|lia])).

Lemma count_one P s s' k :
  0 <= k < 4 -> (forall i, 0 <= i < 4 -> i <> k -> P (th s' i) = P (th s i)) ->
  count P s' = count P s - Z.b2z (P (th s k)) + Z.b2z (P (th s' k)).
Proof.
  intros Hk He. assert (k = 0 \/ k = 1 \/ k = 2 \/ k = 3) as [->|[->|[->| ->]]] by lia; unfold count;
    repeat match goal with |- context [P (th s' ?i)] => progress (rewrite (He i) by lia) end; lia.
Qed.

Lemma count_same P s s' : (forall i, 0 <= i < 4 -> P (th s' i) = P (th s i)) -> count P s' = count P s.
Proof. intros He. unfold count. by rewrite !He by lia. Qed.

Lemma count_bound P s : 0 <= count P s <= 4.
Proof. unfold count. destruct (P (th s 0)), (P (th s 1)), (P (th s 2)), (P (th s 3)); cbn; lia. Qed.

Lemma count_lt P s k : 0 <= k < 4 -> P (th s k) = false -> count P s <= 3.
Proof.
  intros Hk Hp. unfold count. assert (k = 0 \/ k = 1 \/ k = 2 \/ k = 3) as [->|[->|[->| ->]]] by lia; rewrite Hp;
    destruct (P (th s 0)), (P (th s 1)), (P (th s 2)), (P (th s 3)); cbn; lia.
Qed.

Lemma count_pos P s k : 0 <= k < 4 -> P (th s k) = true -> 1 <= count P s.
Proof.
  intros Hk Hp. unfold count. assert (k = 0 \/ k = 1 \/ k = 2 \/ k = 3) as [->|[->|[->| ->]]] by lia; rewrite Hp;
    destruct (P (th s 0)), (P (th s 1)), (P (th s 2)), (P (th s 3)); cbn; lia.
Qed.

(** The next thread is the first ready one after the current. *)
Lemma next_runnable_Some s n :
  next_runnable_thread s = Some n -> 0 <= n < 4 /\ th_state (th s n) = THREAD_READY.
Proof.
  unfold next_runnable_thread, SCHED_MAX_THREADS. destruct (find_range _ _ _) as [o|] eqn:E; [|done]. intros [= <-].
  apply find_range_Some in E as (_ & Hp & _). apply bool_decide_eq_true in Hp. split; [apply Z.mod_pos_bound; lia|done].
Qed.

Lemma resume_fields s : exists b, resume yield_return s = set_irq b s /\ b = (irq s || (c_lr (cpu s) =? yield_return)).
Proof.
  unfold resume. case_if; [exists true|exists (irq s)]; (split; [by destruct s|]); [by rewrite orb_true_r|by rewrite orb_false_r].
Qed.

(** A switch from [old] to [next], with the slot of [old] becoming [t]. *)
Definition switched (old next : Z) (t : kernel_thread) (s s' : sched A) : Prop :=
  length (g_threads s') = 4%nat /\
  (forall i, 0 <= i -> th s' i = if next =? i then with_state THREAD_RUNNING (th s next) else if old =? i then t else th s i) /\
  cpu s' = th_context (th s next) /\ g_current_thread s' = Some next /\ g_next_pid s' = g_next_pid s /\ idle s' = idle s /\
  irq s' = (c_lr (th_context (th s next)) =? yield_return).

Lemma yield_switches s old next :
  length (g_threads s) = 4%nat -> g_current_thread s = Some old -> 0 <= old < 4 -> next_runnable_thread s = Some next -> next <> old ->
  let s' := sched_yield yield_return s in
  switched old next (with_context (with_lr yield_return (cpu s)) (with_state THREAD_READY (th s old))) s s' /\
  pages s' = pages s /\ g_thread_count s' = g_thread_count s.
Proof.
  intros Hl Hc Ho Hn Hne. destruct (next_runnable_Some _ _ Hn) as [Hb _]. cbv zeta. unfold sched_yield. rewrite Hc.
  change (next_runnable_thread (set_irq false s)) with (next_runnable_thread s). rewrite Hn, (proj2 (Z.eqb_neq next old)) by done.
  unfold switch_context.
  match goal with |- context [resume _ ?x] => destruct (resume_fields x) as (b & -> & Hb') end.
  assert (Ht : forall i, 0 <= i -> th (set_thread old (with_context (with_lr yield_return (cpu s))) (set_current (Some next)
      (set_thread next (with_state THREAD_RUNNING) (set_thread old (with_state THREAD_READY) (set_irq false s))))) i =
      if next =? i then with_state THREAD_RUNNING (th s next) else
      if old =? i then with_context (with_lr yield_return (cpu s)) (with_state THREAD_READY (th s old)) else th s i).
  { intros i Hi. slots.
    destruct (Z.eqb_spec next i) as [E1|E1], (Z.eqb_spec old i) as [E2|E2]; try done; try lia; rewrite <- ?E1, <- ?E2;
      rewrite ?Z.eqb_refl, ?(proj2 (Z.eqb_neq old next)), ?(proj2 (Z.eqb_neq next old)) by lia; done. }
  assert (Hcpu : th_context (th (set_thread old (with_context (with_lr yield_return (cpu s))) (set_current (Some next)
      (set_thread next (with_state THREAD_RUNNING) (set_thread old (with_state THREAD_READY) (set_irq false s))))) next) = th_context (th s next))
    by (rewrite Ht by lia; rewrite Z.eqb_refl; done).
  split; [|done]. split_and!; try done.
  - len4.
  - cbn [set_irq irq]. rewrite Hb'. cbn [set_cpu cpu irq]. by rewrite <- Hcpu.
Qed.

(** The four pages of a stack have been given back. *)
Definition stack_freed (a a' : A) (b : Z) : Prop :=
  pa_inv a' /\ (forall q, pa_managed a' q <-> pa_managed a q) /\
  (forall q, pa_avail a' q <-> pa_avail a q \/ exists k, 0 <= k < 4 /\ q = b + k * 4096).

Lemma free_run a b :
  pa_inv a -> stack_owned a b ->
  stack_freed a (for_range 0 SCHED_STACK_PAGES (fun k a => free_page (u64 (b + u64 (k * PAGE_SIZE))) a) a) b.
Proof.
  intros Hi [Hb Ho]. unfold SCHED_STACK_PAGES.
  cut ((fun n a' => pa_inv a' /\ (forall q, pa_managed a' q <-> pa_managed a q) /\
    (forall q, pa_avail a' q <-> pa_avail a q \/ exists k, 0 <= k < n /\ q = b + k * 4096)) 4
    (for_range 0 4 (fun k a => free_page (u64 (b + u64 (k * PAGE_SIZE))) a) a)); [done|].
  apply for_range_ind; [lia| |].
  - split_and!; [done|done|]. intros q. split; [auto|]. intros [?|(k & ? & _)]; [done|lia].
  - intros k a' Hk (Hi' & Hm & Ha). destruct (Ho k Hk) as [Hmk _]. destruct (managed_addr a _ Hi Hmk) as (_ & Hlo & Hhi).
    destruct (managed_addr a _ Hi (proj1 (Ho 0 ltac:(lia)))) as (_ & Hlo0 & _). unfold PAGE_SIZE.
    rewrite (u64_id (k * 4096)), u64_id by lia.
    destruct (free_page_law (b + k * 4096) a' Hi' ltac:(lia)) as (Hi2 & Hm2 & Ha2). split_and!; [done| |].
    + intros q. by rewrite Hm2, Hm.
    + intros q. rewrite Ha2, Ha. split.
      * intros [[?|(l & ? & ?)]|[-> _]]; [by left|right; exists l; split; [lia|done]|right; exists k; split; [lia|done]].
      * intros [?|(l & ? & ->)]; [auto|]. destruct (Z.eq_dec l k) as [->|]; [right; split; [done|by apply Hm]|].
        left. right. exists l. split; [lia|done].
Qed.

Lemma free_stack_fields s i :
  length (g_threads s) = 4%nat -> 0 <= i < 4 -> pa_inv (pages s) -> stack_owned (pages s) (th_stack_base (th s i)) ->
  let s' := free_stack i s in
  length (g_threads s') = 4%nat /\ (forall j, 0 <= j -> th s' j = if i =? j then with_stack 0 (th s i) else th s j) /\
  stack_freed (pages s) (pages s') (th_stack_base (th s i)) /\
  g_current_thread s' = g_current_thread s /\ g_thread_count s' = g_thread_count s /\ g_next_pid s' = g_next_pid s /\
  cpu s' = cpu s /\ irq s' = irq s /\ idle s' = idle s.
Proof.
  intros Hl Hi Hp Ho. cbv zeta. unfold free_stack. destruct (Z.eqb_spec (th_stack_base (th s i)) 0) as [E|_]; [by destruct Ho|].
  split_and!; try done.
  - len4.
  - intros j Hj. slots. done.
  - apply (free_run _ _ Hp Ho).
Qed.

(** What [sched_thread_exit] does to the exiting thread before it looks for the next. *)
Definition leaving (old : Z) s : sched A :=
  let s := set_thread old (with_state THREAD_ZOMBIE) (set_irq false s) in
  if g_thread_count s >? 0 then set_counts (g_thread_count s - 1) (g_next_pid s) s else s.

Lemma leaving_fields old s :
  length (g_threads s) = 4%nat -> 0 <= old < 4 ->
  let s' := leaving old s in
  length (g_threads s') = 4%nat /\ (forall j, 0 <= j -> th s' j = if old =? j then with_state THREAD_ZOMBIE (th s old) else th s j) /\
  g_thread_count s' = (if g_thread_count s >? 0 then g_thread_count s - 1 else g_thread_count s) /\
  pages s' = pages s /\ g_current_thread s' = g_current_thread s /\ g_next_pid s' = g_next_pid s /\
  cpu s' = cpu s /\ irq s' = false /\ idle s' = idle s.
Proof.
  intros Hl Ho. cbv zeta. unfold leaving. cbv zeta.
  change (g_thread_count (set_thread old (with_state THREAD_ZOMBIE) (set_irq false s))) with (g_thread_count s).
  case_if; split_and!; try done; try len4; intros j Hj; slots; done.
Qed.

Lemma exit_def s old :
  g_current_thread s = Some old ->
  sched_thread_exit yield_return exit_return s =
    match next_runnable_thread (leaving old s) with
    | None => set_idle (set_irq true (free_stack old (leaving old s)))
    | Some next => resume yield_return (switch_context (Some old) next exit_return
        (free_stack old (set_current (Some next) (set_thread next (with_state THREAD_RUNNING) (leaving old s)))))
    end.
Proof. intros Hc. unfold sched_thread_exit. change (g_current_thread (set_irq false s)) with (g_current_thread s). by rewrite Hc. Qed.

Definition dead (t : kernel_thread) : kernel_thread := with_stack 0 (with_state THREAD_ZOMBIE t).

Lemma exit_idles s old :
  length (g_threads s) = 4%nat -> 0 <= old < 4 -> pa_inv (pages s) -> stack_owned (pages s) (th_stack_base (th s old)) ->
  g_current_thread s = Some old -> next_runnable_thread (leaving old s) = None ->
  let s' := sched_thread_exit yield_return exit_return s in
  length (g_threads s') = 4%nat /\ (forall j, 0 <= j -> th s' j = if old =? j then dead (th s old) else th s j) /\
  stack_freed (pages s) (pages s') (th_stack_base (th s old)) /\ cpu s' = cpu s /\ g_current_thread s' = Some old /\
  g_thread_count s' = (if g_thread_count s >? 0 then g_thread_count s - 1 else g_thread_count s) /\
  g_next_pid s' = g_next_pid s /\ idle s' = true /\ irq s' = true.
Proof.
  intros Hl Ho Hp Hs Hc Hn. cbv zeta. rewrite (exit_def s old Hc), Hn.
  destruct (leaving_fields old s Hl Ho) as (Hl1 & Ht1 & Hc1 & Hp1 & Hcur1 & Hn1 & Hcpu1 & _).
  assert (Eold : th (leaving old s) old = with_state THREAD_ZOMBIE (th s old)) by (rewrite Ht1 by lia; by rewrite Z.eqb_refl).
  destruct (free_stack_fields (leaving old s) old Hl1 Ho) as (Hl2 & Ht2 & Hp2 & Hcur2 & Hc2 & Hn2 & Hcpu2 & _);
    [by rewrite Hp1|rewrite Hp1, Eold; exact Hs|].
  rewrite Eold, Hp1 in Hp2. cbn [set_idle set_irq g_thread_count cpu g_current_thread g_next_pid idle irq pages g_threads].
  split_and!; try done; try congruence.
  intros j Hj. slots. rewrite Ht2, Eold by done. destruct (Z.eqb_spec old j) as [E|E]; [done|]. rewrite Ht1, (proj2 (Z.eqb_neq old j)) by done. done.
Qed.

Lemma exit_switches s old next :
  length (g_threads s) = 4%nat -> 0 <= old < 4 -> pa_inv (pages s) -> stack_owned (pages s) (th_stack_base (th s old)) ->
  g_current_thread s = Some old -> next_runnable_thread (leaving old s) = Some next -> next <> old ->
  let s' := sched_thread_exit yield_return exit_return s in
  switched old next (with_context (with_lr exit_return (cpu s)) (dead (th s old))) s s' /\
  stack_freed (pages s) (pages s') (th_stack_base (th s old)) /\
  g_thread_count s' = (if g_thread_count s >? 0 then g_thread_count s - 1 else g_thread_count s).
Proof.
  intros Hl Ho Hp Hs Hc Hn Hne. cbv zeta. rewrite (exit_def s old Hc), Hn. destruct (next_runnable_Some _ _ Hn) as [Hb _].
  destruct (leaving_fields old s Hl Ho) as (Hl1 & Ht1 & Hc1 & Hp1 & Hcur1 & Hn1 & Hcpu1 & Hirq1 & Hidle1).
  set (s1 := leaving old s) in *. set (s2 := set_current (Some next) (set_thread next (with_state THREAD_RUNNING) s1)).
  assert (Hl2 : length (g_threads s2) = 4%nat) by (subst s2; len4).
  assert (Ht2 : forall j, 0 <= j -> th s2 j = if next =? j then with_state THREAD_RUNNING (th s1 next) else th s1 j)
    by (intros j Hj; subst s2; slots; done).
  assert (Eold : th s2 old = with_state THREAD_ZOMBIE (th s old)).
  { rewrite Ht2, (proj2 (Z.eqb_neq next old)), Ht1, Z.eqb_refl by lia. done. }
  assert (Ep : pages s2 = pages s) by exact Hp1.
  destruct (free_stack_fields s2 old Hl2 Ho) as (Hl3 & Ht3 & Hp3 & Hcur3 & Hc3 & Hn3 & Hcpu3 & Hirq3 & Hidle3);
    [by rewrite Ep|rewrite Ep, Eold; exact Hs|].
  set (s3 := free_stack old s2) in *. rewrite Eold, Ep in Hp3.
  assert (Ht4 : forall i, 0 <= i -> th (set_thread old (with_context (with_lr exit_return (cpu s3))) s3) i =
      if next =? i then with_state THREAD_RUNNING (th s next) else
      if old =? i then with_context (with_lr exit_return (cpu s)) (dead (th s old)) else th s i).
  { intros i Hi. slots. rewrite !Ht3, Eold, Ht2, Hcpu3 by lia. change (cpu s2) with (cpu s1). rewrite Hcpu1, Z.eqb_refl.
    destruct (Z.eqb_spec next i) as [E1|E1], (Z.eqb_spec old i) as [E2|E2]; try done; try lia.
    - by rewrite Ht1, (proj2 (Z.eqb_neq old next)) by lia.
    - by rewrite Ht1, (proj2 (Z.eqb_neq old i)) by lia. }
  unfold switch_context. match goal with |- context [resume _ ?x] => destruct (resume_fields x) as (b & -> & Hb') end.
  assert (Hcpu : th_context (th (set_thread old (with_context (with_lr exit_return (cpu s3))) s3) next) = th_context (th s next))
    by (rewrite Ht4 by lia; rewrite Z.eqb_refl; done).
  split; [|split; [exact Hp3|]].
  - change (idle s2) with (idle s1) in Hidle3. change (g_next_pid s2) with (g_next_pid s1) in Hn3. change (irq s2) with (irq s1) in Hirq3.
    split_and!; try done; try len4; try (cbn [set_irq set_cpu g_current_thread g_next_pid idle set_thread]; congruence).
    cbn [set_irq irq]. rewrite Hb'. cbn [set_cpu cpu irq set_thread]. rewrite Hirq3, Hirq1, Hcpu. done.
  - cbn [set_irq set_cpu set_thread g_thread_count]. rewrite Hc3. exact Hc1.
Qed.

(** ** Runs *)

Inductive event := Create (entry arg name : Z) | Start | Yield | Exit | Tick | Run (c : sched_context).

Definition exec (e : event) s : sched A :=
  match e with
  | Create entry arg name => snd (sched_create_kernel_thread trampoline entry arg name s)
  | Start => sched_start start_return yield_return s
  | Yield => sched_yield yield_return s
  | Exit => sched_thread_exit yield_return exit_return s
  | Tick => sched_on_timer_tick s
  | Run c => set_cpu c s
  end.

(** Timer ticks can come at any time; the rest is done by running code, which
    keeps its stack pointer on its stack; [sched_start] is for the boot code. *)
Definition allowed (e : event) s : Prop :=
  match e with
  | Tick => True
  | Start => idle s = false /\ g_current_thread s = None
  | Run c => idle s = false /\ forall i, g_current_thread s = Some i -> in_stack (th_stack_base (th s i)) (c_sp c)
  | _ => idle s = false
  end.

Definition step (s s' : sched A) : Prop := exists e, allowed e s /\ s' = exec e s.

Definition booted s : Prop :=
  exists quantum s0, s = sched_init quantum s0 /\ length (g_threads s0) = 4%nat /\ pa_inv (pages s0) /\ idle s0 = false.

Lemma freed_owned a a' b b' :
  stack_owned a b' -> stack_freed a a' b -> b + 16384 <= b' \/ b' + 16384 <= b -> stack_owned a' b'.
Proof.
  intros [Hb Ho] (_ & Hm & Ha) Hd. split; [done|]. intros k Hk. destruct (Ho k Hk) as [Hmk Hak].
  split; [by apply Hm|]. rewrite Ha. intros [?|(l & ? & ?)]; [done|lia].
Qed.

Lemma live_cases t : live t = true <-> th_state t = THREAD_READY \/ th_state t = THREAD_RUNNING.
Proof. unfold live. rewrite orb_true_iff, !bool_decide_eq_true. done. Qed.

Lemma used_cases t : used t = true <-> th_state t <> THREAD_UNUSED.
Proof. unfold used. rewrite negb_true_iff, bool_decide_eq_false. done. Qed.

Lemma live_used t : live t = true -> used t = true.
Proof. rewrite live_cases, used_cases. intros [-> | ->]; done. Qed.

(** Slots whose liveness, stack and identity are kept. *)
Definition same_slot (t t' : kernel_thread) : Prop :=
  live t' = live t /\ used t' = used t /\ th_stack_base t' = th_stack_base t /\ th_pid t' = th_pid t.

Lemma switch_ok s s' old next t :
  sched_ok s -> idle s = false -> g_current_thread s = Some old -> th_state (th s next) = THREAD_READY -> 0 <= next < 4 ->
  switched old next t s s' ->
  th_pid t = th_pid (th s old) -> used t = true -> th_state t <> THREAD_RUNNING ->
  (live t = true -> th_stack_base t = th_stack_base (th s old)) -> (live t = false -> th_stack_base t = 0) ->
  (th_state t = THREAD_READY -> in_stack (th_stack_base t) (c_sp (th_context t)) /\ c_lr (th_context t) = yield_return) ->
  pa_inv (pages s') ->
  (forall i, 0 <= i < 4 -> i <> old \/ live t = true -> live (th s i) = true -> stack_owned (pages s') (th_stack_base (th s i))) ->
  g_thread_count s' = g_thread_count s - 1 + Z.b2z (live t) ->
  sched_ok s'.
Proof.
  intros Hok Hidle Hcur Hready Hnext (Hl & Ht & Hcpu & Hc & Hn & Hi & Hirq) Hpid Hused Hstate Hlive Hdead Hsaved Hinv Hown Hcnt.
  destruct (ok_current s Hok old Hcur) as [Hold Hrun]. rewrite Hidle in Hrun. destruct Hrun as [Hrun Hsp].
  assert (Hne : next <> old) by (intros ->; congruence).
  assert (Lold : live (th s old) = true) by (apply live_cases; auto).
  assert (Lnext : live (th s next) = true) by (apply live_cases; auto).
  assert (Enext : th s' next = with_state THREAD_RUNNING (th s next)) by (rewrite Ht, Z.eqb_refl by lia; done).
  assert (Eold : th s' old = t) by (rewrite Ht, (proj2 (Z.eqb_neq next old)), Z.eqb_refl by lia; done).
  assert (Eother : forall i, 0 <= i < 4 -> i <> next -> i <> old -> th s' i = th s i).
  { intros i Hi' H1 H2. rewrite Ht, (proj2 (Z.eqb_neq next i)), (proj2 (Z.eqb_neq old i)) by lia. done. }
  assert (Hsame : forall i, 0 <= i < 4 -> i <> old -> same_slot (th s i) (th s' i)).
  { intros i Hi' Ho. destruct (Z.eq_dec i next) as [->|Hx]; [|rewrite Eother by done; done].
    rewrite Enext. split_and!; try done. unfold used. cbn. by rewrite Hready. }
  assert (Hbase : forall i, 0 <= i < 4 -> live (th s' i) = true -> live (th s i) = true /\ th_stack_base (th s' i) = th_stack_base (th s i) /\ (i <> old \/ live t = true)).
  { intros i Hi' HL. destruct (Z.eq_dec i old) as [->|Hx].
    - rewrite Eold in HL |- *. auto.
    - destruct (Hsame i Hi' Hx) as (E1 & _ & E2 & _). rewrite E1 in HL. auto. }
  assert (Hid : forall i, 0 <= i < 4 -> used (th s' i) = used (th s i) /\ th_pid (th s' i) = th_pid (th s i)).
  { intros i Hi'. destruct (Z.eq_dec i old) as [->|Hx].
    - rewrite Eold, Hused, (live_used _ Lold). done.
    - destruct (Hsame i Hi' Hx) as (_ & E1 & _ & E2). done. }
  split.
  - done.
  - done.
  - intros i Hi' HL. destruct (Hbase i Hi' HL) as (HL' & -> & Hor). by apply Hown.
  - intros i Hi' HL. destruct (Z.eq_dec i old) as [->|Hx]; [rewrite Eold in *; auto|].
    destruct (Hsame i Hi' Hx) as (E1 & _ & -> & _). rewrite E1 in HL. by apply (ok_dead s Hok).
  - intros i Hi' HR. destruct (Z.eq_dec i old) as [->|Hx]; [rewrite Eold in *; destruct (Hsaved HR); auto|].
    destruct (Z.eq_dec i next) as [->|Hx']; [rewrite Enext in HR; done|]. rewrite Eother in * by done. by apply (ok_saved s Hok).
  - intros i j Hi' Hj' Hij HLi HLj. destruct (Hbase i Hi' HLi) as (? & -> & _), (Hbase j Hj' HLj) as (? & -> & _). by apply (ok_disjoint s Hok).
  - intros i Hi' HR. rewrite Hc, Hi, Hidle. split; [|done]. f_equal. destruct (Z.eq_dec i next) as [|Hx]; [done|exfalso].
    destruct (Z.eq_dec i old) as [->|Hx']; [by rewrite Eold in HR|]. rewrite Eother in HR by done.
    destruct (ok_running s Hok i Hi' HR) as [E _]. congruence.
  - intros i Ei. rewrite Hc in Ei. injection Ei as <-. split; [done|]. rewrite Hi, Hidle, Enext, Hcpu. split; [done|].
    by apply (ok_saved s Hok).
  - rewrite Hcnt, (ok_count s Hok). rewrite (count_one live s s' old Hold); [rewrite Eold, Lold; cbn; lia|].
    intros i Hi' Hx. by destruct (Hsame i Hi' Hx).
  - rewrite Hn, (ok_next s Hok). f_equal. symmetry. apply count_same. intros i Hi'. by destruct (Hid i Hi').
  - intros i Hi'. destruct (Hid i Hi') as [-> ->]. rewrite Hn. by apply (ok_pid s Hok).
  - intros i j Hi' Hj'. destruct (Hid i Hi') as [-> ->], (Hid j Hj') as [-> ->]. by apply (ok_distinct s Hok).
Qed.

(** States that agree on everything the table speaks about. *)
Lemma ok_agree s s' :
  sched_ok s -> g_threads s' = g_threads s -> g_current_thread s' = g_current_thread s -> g_thread_count s' = g_thread_count s ->
  g_next_pid s' = g_next_pid s -> idle s' = idle s -> pages s' = pages s ->
  (forall i, g_current_thread s = Some i -> idle s = false -> in_stack (th_stack_base (th s i)) (c_sp (cpu s'))) -> sched_ok s'.
Proof.
  intros Hok Et Ec En Ep Ei Ea Hsp. assert (E : forall i, th s' i = th s i) by (intros i; unfold th; by rewrite Et).
  destruct Hok. split; rewrite ?Et, ?Ec, ?En, ?Ep, ?Ei, ?Ea; try done; try (setoid_rewrite E; done).
  - intros i Hi. rewrite E. destruct (ok_current0 i Hi) as [Hb Hc]. split; [done|]. destruct (idle s) eqn:Eid; [done|].
    split; [by destruct Hc|by apply Hsp].
  - unfold count. by rewrite !E.
  - unfold count. by rewrite !E.
Qed.

Lemma yield_ok s : sched_ok s -> idle s = false -> sched_ok (sched_yield yield_return s).
Proof.
  intros Hok Hidle. unfold sched_yield. destruct (g_current_thread s) as [old|] eqn:Hc; [|done].
  destruct (ok_current s Hok old Hc) as [Hold Hrun]. rewrite Hidle in Hrun. destruct Hrun as [Hrun Hsp].
  assert (Hquiet : sched_ok (set_irq true (set_irq false s))).
  { apply (ok_agree s); try done. intros i Hi _. cbn. assert (i = old) as -> by congruence. done. }
  change (next_runnable_thread (set_irq false s)) with (next_runnable_thread s).
  destruct (next_runnable_thread s) as [next|] eqn:Hn; [|done]. destruct (next_runnable_Some _ _ Hn) as [Hb Hr].
  assert (Hne : next <> old) by (intros ->; congruence).
  destruct (yield_switches s old next (ok_length s Hok) Hc Hold Hn Hne) as (Hs & Hp & Hcount).
  unfold sched_yield in Hs, Hp, Hcount. rewrite Hc in Hs, Hp, Hcount. change (next_runnable_thread (set_irq false s)) with (next_runnable_thread s) in Hs, Hp, Hcount.
  rewrite Hn in Hs, Hp, Hcount.
  eapply (switch_ok s _ old next); try exact Hs; try done.
  - rewrite Hp. apply (ok_pages s Hok).
  - intros i Hi _ HL. rewrite Hp. by apply (ok_live s Hok).
  - rewrite Hcount. change (Z.b2z (live _)) with 1. lia.
Qed.

Lemma leaving_next s old next :
  length (g_threads s) = 4%nat -> 0 <= old < 4 -> next_runnable_thread (leaving old s) = Some next ->
  0 <= next < 4 /\ next <> old /\ th_state (th s next) = THREAD_READY.
Proof.
  intros Hl Ho Hn. destruct (next_runnable_Some _ _ Hn) as [Hb Hr].
  destruct (leaving_fields old s Hl Ho) as (_ & Ht & _). rewrite Ht in Hr by lia.
  destruct (Z.eqb_spec old next) as [->|]; [done|]. split_and!; try done; lia.
Qed.

Lemma exit_idle_ok s old :
  sched_ok s -> 0 <= old < 4 -> live (th s old) = true -> 1 <= g_thread_count s -> stack_owned (pages s) (th_stack_base (th s old)) ->
  g_current_thread s = Some old -> next_runnable_thread (leaving old s) = None -> sched_ok (sched_thread_exit yield_return exit_return s).
Proof.
  intros Hok Hold Lold Hpos Hso Hc Hn.
  destruct (exit_idles s old (ok_length s Hok) Hold (ok_pages s Hok) Hso Hc Hn) as (Hl & Ht & Hf & Hcpu & Hcur & Hcount & Hnp & Hid & _).
  set (s' := sched_thread_exit yield_return exit_return s) in *.
  assert (Eold : th s' old = dead (th s old)) by (rewrite Ht, Z.eqb_refl by lia; done).
  assert (Eother : forall i, 0 <= i < 4 -> i <> old -> th s' i = th s i)
    by (intros i Hi Hx; rewrite Ht, (proj2 (Z.eqb_neq old i)) by lia; done).
  assert (HL : forall i, 0 <= i < 4 -> live (th s' i) = true -> i <> old /\ live (th s i) = true).
  { intros i Hi HL. destruct (Z.eq_dec i old) as [->|Hx]; [by rewrite Eold in HL|]. by rewrite Eother in HL by done. }
  assert (HU : forall i, 0 <= i < 4 -> used (th s' i) = used (th s i) /\ th_pid (th s' i) = th_pid (th s i)).
  { intros i Hi. destruct (Z.eq_dec i old) as [->|Hx]; [|by rewrite Eother by done]. rewrite Eold, (live_used _ Lold). done. }
  split.
  - done.
  - by apply Hf.
  - intros i Hi Hi'. destruct (HL i Hi Hi') as [Hx Hi2]. rewrite Eother by done.
    eapply freed_owned; [by apply (ok_live s Hok)|exact Hf|]. destruct (ok_disjoint s Hok i old Hi Hold Hx Hi2 Lold); lia.
  - intros i Hi Hi'. destruct (Z.eq_dec i old) as [->|Hx]; [by rewrite Eold|]. rewrite Eother in * by done. by apply (ok_dead s Hok).
  - intros i Hi Hi'. destruct (Z.eq_dec i old) as [->|Hx]; [by rewrite Eold in Hi'|]. rewrite Eother in * by done. by apply (ok_saved s Hok).
  - intros i j Hi Hj Hij HLi HLj. destruct (HL i Hi HLi), (HL j Hj HLj). rewrite !Eother by done. by apply (ok_disjoint s Hok).
  - intros i Hi Hi'. destruct (Z.eq_dec i old) as [->|Hx]; [by rewrite Eold in Hi'|]. rewrite Eother in * by done.
    destruct (ok_running s Hok i Hi Hi'). congruence.
  - intros i Hi. rewrite Hcur in Hi. injection Hi as <-. rewrite Hid, Eold. done.
  - rewrite Hcount, (count_one live s s' old Hold), Eold, Lold, <- (ok_count s Hok) by (intros; by rewrite Eother).
    destruct (Z.gtb_spec (g_thread_count s) 0); change (Z.b2z (live (dead _))) with 0; cbn [Z.b2z]; lia.
  - rewrite Hnp, (ok_next s Hok). f_equal. symmetry. apply count_same. intros i Hi. by destruct (HU i Hi).
  - intros i Hi. destruct (HU i Hi) as [-> ->]. rewrite Hnp. by apply (ok_pid s Hok).
  - intros i j Hi Hj. destruct (HU i Hi) as [-> ->], (HU j Hj) as [-> ->]. by apply (ok_distinct s Hok).
Qed.

Lemma exit_ok s : sched_ok s -> idle s = false -> sched_ok (sched_thread_exit yield_return exit_return s).
Proof.
  intros Hok Hidle. destruct (g_current_thread s) as [old|] eqn:Hc.
  2: { unfold sched_thread_exit. cbv zeta. change (g_current_thread (set_irq false s)) with (g_current_thread s). rewrite Hc.
       destruct Hok. split; try done; cbn [set_idle set_irq g_current_thread].
       - intros i Hi Hr. destruct (ok_running0 i Hi Hr). congruence.
       - congruence. }
  destruct (ok_current s Hok old Hc) as [Hold Hrun]. rewrite Hidle in Hrun. destruct Hrun as [Hrun Hsp].
  assert (Lold : live (th s old) = true) by (apply live_cases; auto).
  assert (Hpos : 1 <= g_thread_count s) by (rewrite (ok_count s Hok); by apply (count_pos _ _ old)).
  pose proof (ok_live s Hok old Hold Lold) as Hso.
  destruct (next_runnable_thread (leaving old s)) as [next|] eqn:Hn.
  - destruct (leaving_next s old next (ok_length s Hok) Hold Hn) as (Hb & Hne & Hr).
    destruct (exit_switches s old next (ok_length s Hok) Hold (ok_pages s Hok) Hso Hc Hn Hne) as (Hs & Hf & Hcount).
    eapply (switch_ok s _ old next); try exact Hs; try done.
    + by apply Hf.
    + intros i Hi [Hx|Hx] HL; [|done]. eapply freed_owned; [by apply (ok_live s Hok)|exact Hf|].
      destruct (ok_disjoint s Hok i old Hi Hold Hx HL Lold); lia.
    + rewrite Hcount. destruct (Z.gtb_spec (g_thread_count s) 0); change (Z.b2z (live _)) with 0; lia.
  - by apply (exit_idle_ok s old).
Qed.

Lemma start_fields s next :
  length (g_threads s) = 4%nat -> next_runnable_thread s = Some next ->
  let s' := sched_start start_return yield_return s in
  length (g_threads s') = 4%nat /\
  (forall i, 0 <= i -> th s' i = if next =? i then with_state THREAD_RUNNING (th s next) else th s i) /\
  cpu s' = th_context (th s next) /\ g_current_thread s' = Some next /\ g_next_pid s' = g_next_pid s /\ idle s' = idle s /\
  pages s' = pages s /\ g_thread_count s' = g_thread_count s.
Proof.
  intros Hl Hn. destruct (next_runnable_Some _ _ Hn) as [Hb _]. cbv zeta. unfold sched_start. rewrite Hn. unfold switch_context.
  match goal with |- context [resume _ ?x] => destruct (resume_fields x) as (b & -> & _) end.
  assert (Ht : forall i, 0 <= i -> th (set_thread next (with_state THREAD_RUNNING) (set_current (Some next) s)) i =
    if next =? i then with_state THREAD_RUNNING (th s next) else th s i) by (intros i Hi; slots; done).
  split_and!; try done; try len4. cbn [set_irq set_cpu cpu]. rewrite Ht, Z.eqb_refl by lia. done.
Qed.

Lemma start_ok s : sched_ok s -> idle s = false -> g_current_thread s = None -> sched_ok (sched_start start_return yield_return s).
Proof.
  intros Hok Hidle Hc. destruct (next_runnable_thread s) as [next|] eqn:Hn; [|unfold sched_start; by rewrite Hn].
  destruct (next_runnable_Some _ _ Hn) as [Hb Hr].
  destruct (start_fields s next (ok_length s Hok) Hn) as (Hl & Ht & Hcpu & Hcur & Hnp & Hid & Hp & Hcount).
  set (s' := sched_start start_return yield_return s) in *.
  assert (Enext : th s' next = with_state THREAD_RUNNING (th s next)) by (rewrite Ht, Z.eqb_refl by lia; done).
  assert (Eother : forall i, 0 <= i < 4 -> i <> next -> th s' i = th s i)
    by (intros i Hi Hx; rewrite Ht, (proj2 (Z.eqb_neq next i)) by lia; done).
  assert (Hsame : forall i, 0 <= i < 4 -> same_slot (th s i) (th s' i)).
  { intros i Hi. destruct (Z.eq_dec i next) as [->|Hx]; [|by rewrite Eother by done]. rewrite Enext.
    split_and!; try done; unfold live, used; cbn; by rewrite Hr. }
  assert (HL : forall i, 0 <= i < 4 -> live (th s' i) = live (th s i)) by (intros i Hi; apply (Hsame i Hi)).
  assert (HB : forall i, 0 <= i < 4 -> th_stack_base (th s' i) = th_stack_base (th s i)) by (intros i Hi; apply (Hsame i Hi)).
  assert (HU : forall i, 0 <= i < 4 -> used (th s' i) = used (th s i)) by (intros i Hi; apply (Hsame i Hi)).
  assert (HP : forall i, 0 <= i < 4 -> th_pid (th s' i) = th_pid (th s i)) by (intros i Hi; apply (Hsame i Hi)).
  split; try done.
  - rewrite Hp. apply (ok_pages s Hok).
  - intros i Hi. rewrite HL, HB, Hp by done. by apply (ok_live s Hok).
  - intros i Hi. rewrite HL, HB by done. by apply (ok_dead s Hok).
  - intros i Hi Hi'. destruct (Z.eq_dec i next) as [->|Hx]; [by rewrite Enext in Hi'|]. rewrite Eother in * by done. by apply (ok_saved s Hok).
  - intros i j Hi Hj. rewrite !HL, !HB by done. by apply (ok_disjoint s Hok).
  - intros i Hi Hi'. destruct (Z.eq_dec i next) as [->|Hx]; [by rewrite Hid|]. rewrite Eother in * by done.
    destruct (ok_running s Hok i Hi Hi'). congruence.
  - intros i Hi. rewrite Hcur in Hi. injection Hi as <-. rewrite Hid, Hidle, Enext, Hcpu. split; [done|]. split; [done|].
    by apply (ok_saved s Hok).
  - rewrite Hcount, (ok_count s Hok). symmetry. by apply count_same.
  - rewrite Hnp, (ok_next s Hok). f_equal. symmetry. by apply count_same.
  - intros i Hi. rewrite HU, HP, Hnp by done. by apply (ok_pid s Hok).
  - intros i j Hi Hj. rewrite !HU, !HP by done. by apply (ok_distinct s Hok).
Qed.

(** The thread [sched_create_kernel_thread] puts in slot [i]. *)
Definition fresh (s : sched A) (entry arg name stack : Z) : kernel_thread :=
  Thread (g_next_pid s) THREAD_READY (Ctx entry arg 0 0 0 0 0 0 0 0 0 (stack + 16384) trampoline) stack name.

Lemma create_cases s entry arg name :
  sched_ok s ->
  let '(status, s') := sched_create_kernel_thread trampoline entry arg name s in
  (status = -1 /\ (s' = s \/ s' = set_pages (pages s) s)) \/
  exists i stack, status = 0 /\ 0 <= i < 4 /\ th_state (th s i) = THREAD_UNUSED /\
    length (g_threads s') = 4%nat /\
    (forall j, 0 <= j -> th s' j = if i =? j then fresh s entry arg name stack else th s j) /\
    stack <> 0 /\ (forall k, 0 <= k < 4 -> pa_avail (pages s) (stack + k * 4096)) /\
    pa_inv (pages s') /\ (forall q, pa_managed (pages s') q <-> pa_managed (pages s) q) /\
    (forall q, pa_avail (pages s') q <-> pa_avail (pages s) q /\ ~ in_run stack 4 q) /\
    g_thread_count s' = g_thread_count s + 1 /\ g_next_pid s' = g_next_pid s + 1 /\
    g_current_thread s' = g_current_thread s /\ cpu s' = cpu s /\ irq s' = irq s /\ idle s' = idle s.
Proof.
  intros Hok. unfold sched_create_kernel_thread. case_if; [by left; auto|].
  destruct (find_range _ _ _) as [i|] eqn:Ef; [|by left; auto]. apply find_range_Some in Ef as (Hi & Hu & _). apply bool_decide_eq_true in Hu.
  unfold SCHED_STACK_PAGES, SCHED_MAX_THREADS in *. destruct (alloc_pages 4 (pages s)) as [stack a] eqn:Ea.
  destruct (alloc_pages_law 4 (pages s) stack a (ok_pages s Hok) ltac:(lia) Ea) as (Hinv & Hm & [[-> ->]|(Hs & Hav & Ha)]); [by left; auto|].
  destruct (Z.eqb_spec stack 0) as [|_]; [done|]. right. exists i, stack.
  destruct (avail_addr (pages s) _ (ok_pages s Hok) (Hav 3 ltac:(lia))) as (_ & _ & H3).
  destruct (avail_addr (pages s) _ (ok_pages s Hok) (Hav 0 ltac:(lia))) as (_ & H4 & _).
  assert (Hsp : u64 (stack + 4 * PAGE_SIZE) = stack + 16384) by (unfold PAGE_SIZE; rewrite u64_id; lia).
  assert (Hul : used (th s i) = false /\ live (th s i) = false) by (unfold live, used; rewrite Hu; done). destruct Hul as [Hu0 Hl0].
  pose proof (count_lt used s i Hi Hu0). pose proof (count_lt live s i Hi Hl0). pose proof (count_bound used s). pose proof (count_bound live s).
  pose proof (ok_length s Hok) as Hlen. split_and!; try done; try len4; try lia.
  - intros j Hj. slots. rewrite Hsp. done.
  - cbn. rewrite u32_id; rewrite (ok_count s Hok); lia.
  - cbn. rewrite u32_id; rewrite (ok_next s Hok); lia.
Qed.

Lemma stacks_apart b b' :
  b mod 4096 = 0 -> b' mod 4096 = 0 -> (forall k l, 0 <= k < 4 -> 0 <= l < 4 -> b + k * 4096 <> b' + l * 4096) ->
  b + 16384 <= b' \/ b' + 16384 <= b.
Proof.
  intros Hb Hb' Hd. apply Z.div_exact in Hb, Hb'; [|lia..]. set (x := b / 4096) in *. set (y := b' / 4096) in *.
  destruct (Z.le_gt_cases (x + 4) y); [lia|]. destruct (Z.le_gt_cases (y + 4) x); [lia|exfalso].
  destruct (Z.le_gt_cases y x); [apply (Hd 0 (x - y)); lia|apply (Hd (y - x) 0); lia].
Qed.

Lemma sched_create_ok s entry arg name : sched_ok s -> sched_ok (snd (sched_create_kernel_thread trampoline entry arg name s)).
Proof.
  intros Hok. pose proof (create_cases s entry arg name Hok) as Hcase.
  destruct (sched_create_kernel_thread _ _ _ _ _) as [status s']. cbn [snd].
  destruct Hcase as [[_ [->| ->]]|(i & b & _ & Hi & Hu & Hl & Ht & Hb & Hav & Hinv & Hm & Ha & Hcount & Hnp & Hcur & Hcpu & _ & Hid)];
    [done|by destruct s|].
  assert (Enew : th s' i = fresh s entry arg name b) by (rewrite Ht, Z.eqb_refl by lia; done).
  assert (Eother : forall j, 0 <= j < 4 -> j <> i -> th s' j = th s j)
    by (intros j Hj Hx; rewrite Ht, (proj2 (Z.eqb_neq i j)) by lia; done).
  assert (Hal : forall k, 0 <= k < 4 -> b mod 4096 = 0).
  { intros k Hk. destruct (avail_addr _ _ (ok_pages s Hok) (Hav 0 ltac:(lia))) as (E & _). rewrite Z.mul_0_l, Z.add_0_r in E. done. }
  assert (Hapart : forall j, 0 <= j < 4 -> live (th s j) = true -> b + 16384 <= th_stack_base (th s j) \/ th_stack_base (th s j) + 16384 <= b).
  { intros j Hj HL. destruct (ok_live s Hok j Hj HL) as [_ Ho].
    apply stacks_apart; [by apply (Hal 0)| |].
    - destruct (Ho 0 ltac:(lia)) as [Hmj _]. rewrite Z.mul_0_l, Z.add_0_r in Hmj. by destruct (managed_addr _ _ (ok_pages s Hok) Hmj).
    - intros k l Hk Hl' E. destruct (Ho l Hl') as [_ Hna]. apply Hna. rewrite <- E. by apply Hav. }
  split; try done.
  - intros j Hj HL. destruct (Z.eq_dec j i) as [->|Hx].
    + rewrite Enew. cbn [fresh th_stack_base]. split; [done|]. intros k Hk. split; [by apply Hm, (avail_managed _ _ (ok_pages s Hok)), Hav|].
      rewrite Ha. intros [_ Hno]. apply Hno. unfold in_run. lia.
    + rewrite Eother in * by done. destruct (ok_live s Hok j Hj HL) as [Hn Ho]. split; [done|]. intros k Hk. destruct (Ho k Hk). rewrite Hm, Ha. tauto.
  - intros j Hj HL. destruct (Z.eq_dec j i) as [->|Hx]; [by rewrite Enew in HL|]. rewrite Eother in * by done. by apply (ok_dead s Hok).
  - intros j Hj HR. destruct (Z.eq_dec j i) as [->|Hx]; [|rewrite Eother in * by done; by apply (ok_saved s Hok)].
    rewrite Enew. unfold in_stack. cbn [fresh th_stack_base th_context c_sp c_lr]. split; [lia|auto].
  - intros j k Hj Hk Hjk HLj HLk. destruct (Z.eq_dec j i) as [->|Hx], (Z.eq_dec k i) as [->|Hx']; [done|..].
    + rewrite Enew, Eother in * by done. by apply Hapart.
    + rewrite Enew, Eother in * by done. destruct (Hapart j Hj HLj); [by right|by left].
    + rewrite !Eother in * by done. by apply (ok_disjoint s Hok).
  - intros j Hj HR. destruct (Z.eq_dec j i) as [->|Hx]; [by rewrite Enew in HR|]. rewrite Eother in * by done.
    rewrite Hcur, Hid. by apply (ok_running s Hok).
  - intros j Hj. rewrite Hcur in Hj. destruct (ok_current s Hok j Hj) as [Hb' Hst]. split; [done|].
    rewrite Hid. assert (j <> i) by (intros ->; destruct (idle s); [congruence|destruct Hst; congruence]). by rewrite Eother, Hcpu by done.
  - rewrite Hcount, (ok_count s Hok). rewrite (count_one live s s' i Hi), Enew by (intros; by rewrite Eother).
    assert (E0 : live (th s i) = false) by (unfold live; by rewrite Hu). rewrite E0. change (Z.b2z (live (fresh _ _ _ _ _))) with 1. cbn [Z.b2z]. lia.
  - rewrite Hnp, (ok_next s Hok). rewrite (count_one used s s' i Hi), Enew by (intros; by rewrite Eother).
    assert (E0 : used (th s i) = false) by (unfold used; by rewrite Hu). rewrite E0. change (Z.b2z (used (fresh _ _ _ _ _))) with 1. cbn [Z.b2z]. lia.
  - intros j Hj HU. pose proof (count_bound used s). destruct (Z.eq_dec j i) as [->|Hx].
    + rewrite Enew. cbn [fresh th_pid]. rewrite Hnp, (ok_next s Hok). lia.
    + rewrite Eother in * by done. pose proof (ok_pid s Hok j Hj HU). lia.
  - intros j k Hj Hk Hjk HUj HUk. destruct (Z.eq_dec j i) as [->|Hx], (Z.eq_dec k i) as [->|Hx']; [done|..].
    + rewrite Enew, Eother in * by done. pose proof (ok_pid s Hok k Hk HUk). cbn [fresh th_pid]. lia.
    + rewrite Enew, Eother in * by done. pose proof (ok_pid s Hok j Hj HUj). cbn [fresh th_pid]. lia.
    + rewrite !Eother in * by done. by apply (ok_distinct s Hok).
Qed.

Lemma step_ok s s' : sched_ok s -> step s s' -> sched_ok s'.
Proof.
  intros Hok (e & Ha & ->). destruct e; cbn [allowed exec] in *.
  - by apply sched_create_ok.
  - destruct Ha. by apply start_ok.
  - by apply yield_ok.
  - by apply exit_ok.
  - unfold sched_on_timer_tick. destruct (if _ =? 0 then _ else _) as [q l]. apply (ok_agree s); try done.
    intros i Hi Hid. destruct (ok_current s Hok i Hi) as [_ Hc]. rewrite Hid in Hc. by destruct Hc.
  - destruct Ha as [Hid Hsp]. apply (ok_agree s); try done. intros i Hi _. by apply Hsp.
Qed.

Lemma booted_ok s : booted s -> sched_ok s.
Proof.
  intros (quantum & s0 & -> & Hl & Hp & Hid).
  assert (E : forall i, th_state (th (sched_init quantum s0) i) = THREAD_UNUSED /\ th_stack_base (th (sched_init quantum s0) i) = 0).
  { intros i. unfold th, sched_init. cbn [g_threads]. rewrite list_lookup_fmap. destruct (g_threads s0 !! Z.to_nat i); done. }
  assert (HL : forall i, live (th (sched_init quantum s0) i) = false) by (intros i; unfold live; by rewrite (proj1 (E i))).
  assert (HU : forall i, used (th (sched_init quantum s0) i) = false) by (intros i; unfold used; by rewrite (proj1 (E i))).
  split; try done; try (intros i; rewrite ?HL, ?HU; done); try (intros i j; rewrite ?HL, ?HU; done).
  - cbn. by rewrite length_map.
  - intros i _ _. apply E.
  - intros i _ Hr. rewrite (proj1 (E i)) in Hr. done.
  - intros i _ Hr. rewrite (proj1 (E i)) in Hr. done.
  - unfold count. by rewrite !HL.
  - unfold count. by rewrite !HU.
Qed.

Lemma reachable_ok s0 s : booted s0 -> rtc step s0 s -> sched_ok s.
Proof. intros Hb%booted_ok Hr. induction Hr as [|s s' s'' Hs Hr IH]; [done|]. apply IH. by eapply step_ok. Qed.

(** ** A thread that waits *)

(** Thread [i] waits, ready, with its context saved. *)
Definition parked (i : Z) (c : sched_context) s : Prop :=
  th_state (th s i) = THREAD_READY /\ th_context (th s i) = c /\ g_current_thread s <> Some i.

(** Thread [i] has been switched to, with the registers [c]. *)
Definition resumed (i : Z) (c : sched_context) s : Prop :=
  g_current_thread s = Some i /\ cpu s = c /\ (c_lr c = yield_return -> irq s = true).

Lemma switched_parked i c old next t s s' :
  0 <= i < 4 -> parked i c s -> g_current_thread s = Some old -> switched old next t s s' -> parked i c s' \/ resumed i c s'.
Proof.
  intros Hi (Hs & Hc & Hn) Hcur (_ & Ht & Hcpu & Hcur' & _ & _ & Hirq). assert (i <> old) by congruence.
  destruct (Z.eq_dec i next) as [->|Hx].
  - right. split_and!; [done|by rewrite Hcpu|]. intros E. rewrite Hirq, Hc, E. apply Z.eqb_refl.
  - left. unfold parked. rewrite Ht, (proj2 (Z.eqb_neq next i)), (proj2 (Z.eqb_neq old i)) by lia. split_and!; [done..|congruence].
Qed.

Lemma step_parked i c s s' : sched_ok s -> 0 <= i < 4 -> parked i c s -> step s s' -> parked i c s' \/ resumed i c s'.
Proof.
  intros Hok Hi Hp (e & Ha & ->). pose proof Hp as (Hs & Hc & Hn). pose proof (ok_length s Hok) as Hlen. destruct e; cbn [allowed exec] in *.
  - left. pose proof (create_cases s entry arg name Hok) as Hcase. destruct (sched_create_kernel_thread _ _ _ _ _) as [status s']. cbn [snd].
    destruct Hcase as [[_ [->| ->]]|(k & b & _ & Hk & Hu & _ & Ht & _ & _ & _ & _ & _ & _ & _ & Hcur & _)]; [done|by destruct s|].
    assert (i <> k) by congruence. unfold parked. rewrite Ht, (proj2 (Z.eqb_neq k i)), Hcur by lia. done.
  - destruct Ha as [Hid Hcur]. destruct (next_runnable_thread s) as [next|] eqn:En; [|left; unfold sched_start; by rewrite En].
    destruct (start_fields s next (ok_length s Hok) En) as (_ & Ht & Hcpu & Hcur' & _).
    destruct (Z.eq_dec i next) as [->|Hx]; [right|left].
    + split_and!; [done|by rewrite Hcpu|]. intros E. unfold sched_start. rewrite En. unfold switch_context, resume.
      cbn [set_cpu cpu]. slots. rewrite Z.eqb_refl. cbn [with_state th_context]. rewrite Hc, E, Z.eqb_refl. done.
    + unfold parked. rewrite Ht, (proj2 (Z.eqb_neq next i)) by lia. split_and!; [done..|congruence].
  - destruct (g_current_thread s) as [old|] eqn:Hcur; [|left; unfold sched_yield; by rewrite Hcur].
    destruct (ok_current s Hok old Hcur) as [Hold Hrun]. rewrite Ha in Hrun. destruct Hrun as [Hrun _].
    destruct (next_runnable_thread s) as [next|] eqn:En.
    + destruct (next_runnable_Some _ _ En) as [Hb Hr]. assert (next <> old) by congruence.
      destruct (yield_switches s old next (ok_length s Hok) Hcur Hold En) as [Hsw _]; [done|]. eapply switched_parked; [done|exact Hp|done|exact Hsw].
    + left. unfold sched_yield. rewrite Hcur. change (next_runnable_thread (set_irq false s)) with (next_runnable_thread s). rewrite En.
      split_and!; [done..|]. cbn. congruence.
  - destruct (g_current_thread s) as [old|] eqn:Hcur.
    2: { left. unfold sched_thread_exit. cbv zeta. change (g_current_thread (set_irq false s)) with (g_current_thread s). rewrite Hcur.
         split_and!; [done..|]. cbn. congruence. }
    destruct (ok_current s Hok old Hcur) as [Hold Hrun]. rewrite Ha in Hrun. destruct Hrun as [Hrun _].
    pose proof (ok_live s Hok old Hold (proj2 (live_cases _) (or_intror Hrun))) as Hso.
    destruct (next_runnable_thread (leaving old s)) as [next|] eqn:En.
    + destruct (leaving_next s old next (ok_length s Hok) Hold En) as (Hb & Hne & Hr).
      destruct (exit_switches s old next (ok_length s Hok) Hold (ok_pages s Hok) Hso Hcur En Hne) as [Hsw _].
      eapply switched_parked; [done|exact Hp|done|exact Hsw].
    + left. destruct (exit_idles s old (ok_length s Hok) Hold (ok_pages s Hok) Hso Hcur En) as (_ & Ht & _ & _ & Hcur' & _).
      unfold parked. rewrite Ht, (proj2 (Z.eqb_neq old i)), Hcur' by (lia || congruence). done.
  - left. unfold sched_on_timer_tick. by destruct (if _ =? 0 then _ else _) as [q l].
  - by left.
Qed.

(** A new thread that [sched_yield] switches to starts with interrupts disabled:
    only the code after [switch_context] enables them. *)
Lemma first_entry_masked s old next :
  sched_ok s -> g_current_thread s = Some old -> next_runnable_thread s = Some next -> next <> old ->
  c_lr (th_context (th s next)) = trampoline -> trampoline <> yield_return -> irq (sched_yield yield_return s) = false.
Proof.
  intros Hok Hcur En Hne Hlr Hd. destruct (ok_current s Hok old Hcur) as [Hb _].
  destruct (yield_switches s old next (ok_length s Hok) Hcur Hb En Hne) as [(_ & _ & _ & _ & _ & _ & ->) _]. rewrite Hlr. by apply Z.eqb_neq.
Qed.

(** ** Turns *)

(** How many slots lie between the current thread and thread [j]. *)
Definition turns (cur j : Z) : Z := (j - cur - 1) mod 4.

Lemma next_closer s cur j :
  g_current_thread s = Some cur -> 0 <= cur < 4 -> 0 <= j < 4 -> th_state (th s j) = THREAD_READY ->
  exists n, next_runnable_thread s = Some n /\ 0 <= n < 4 /\ (n = j \/ turns n j < turns cur j).
Proof.
  intros Hc Hcur Hj Hr. unfold next_runnable_thread, SCHED_MAX_THREADS. rewrite Hc.
  destruct (find_range_is_Some 0 4 (fun o => bool_decide (th_state (th s ((cur + 1 + o) mod 4)) = THREAD_READY)) (turns cur j)) as (o & E & Ho).
  { unfold turns. apply Z.mod_pos_bound. lia. }
  { apply bool_decide_eq_true. unfold turns. replace ((cur + 1 + (j - cur - 1) mod 4) mod 4) with j; [done|]. Z.to_euclidean_division_equations; lia. }
  rewrite E. apply find_range_Some in E as [Hb _]. eexists. split; [done|]. split; [apply Z.mod_pos_bound; lia|].
  unfold turns in *. Z.to_euclidean_division_equations; lia.
Qed.

Definition is_switch (e : event) : bool := match e with Yield | Exit => true | _ => false end.

Definition switches (es : list event) : Z := Z.of_nat (length (filter (fun e => is_switch e) es)).

Fixpoint run (es : list event) s : sched A := match es with [] => s | e :: es => run es (exec e s) end.

Fixpoint allowed_run (es : list event) s : Prop :=
  match es with [] => True | e :: es => allowed e s /\ allowed_run es (exec e s) end.

(** What happens to the current thread while [j] waits. *)
Lemma step_turns e s cur j c :
  sched_ok s -> allowed e s -> g_current_thread s = Some cur -> idle s = false -> 0 <= j < 4 -> parked j c s ->
  exists n, g_current_thread (exec e s) = Some n /\ idle (exec e s) = false /\
    (if is_switch e then n = j \/ turns n j < turns cur j else n = cur).
Proof.
  intros Hok Ha Hcur Hid Hj (Hr & _ & Hnj). destruct (ok_current s Hok cur Hcur) as [Hb Hrun]. rewrite Hid in Hrun. destruct Hrun as [Hrun _].
  destruct e; cbn [allowed exec is_switch] in *.
  - pose proof (create_cases s entry arg name Hok) as Hcase. destruct (sched_create_kernel_thread _ _ _ _ _) as [status s']. cbn [snd].
    destruct Hcase as [[_ [->| ->]]|(k & b & _ & _ & _ & _ & _ & _ & _ & _ & _ & _ & _ & _ & Hc' & _ & _ & Hi')]; eauto.
    rewrite Hc', Hi'. eauto.
  - destruct Ha; congruence.
  - destruct (next_closer s cur j Hcur Hb Hj Hr) as (n & En & Hn & Ht). destruct (next_runnable_Some _ _ En) as [_ Hrn].
    assert (n <> cur) by congruence.
    destruct (yield_switches s cur n (ok_length s Hok) Hcur Hb En) as [(_ & _ & _ & Hc' & _ & Hi' & _) _]; [done|]. rewrite Hi'. eauto.
  - destruct (leaving_fields cur s (ok_length s Hok) Hb) as (_ & Ht1 & _ & _ & Hc1 & _).
    destruct (next_closer (leaving cur s) cur j) as (n & En & Hn & Ht); [congruence|done|done| |].
    { rewrite Ht1 by lia. destruct (Z.eqb_spec cur j); [congruence|done]. }
    destruct (leaving_next s cur n (ok_length s Hok) Hb En) as (_ & Hne & _).
    pose proof (ok_live s Hok cur Hb (proj2 (live_cases _) (or_intror Hrun))) as Hso.
    destruct (exit_switches s cur n (ok_length s Hok) Hb (ok_pages s Hok) Hso Hcur En Hne) as [(_ & _ & _ & Hc' & _ & Hi' & _) _].
    rewrite Hi'. eauto.
  - unfold sched_on_timer_tick. destruct (if _ =? 0 then _ else _) as [q l]. eauto.
  - eauto.
Qed.

Lemma turn_comes j c es : forall s cur,
  sched_ok s -> allowed_run es s -> g_current_thread s = Some cur -> idle s = false -> 0 <= j < 4 -> parked j c s ->
  turns cur j < switches es -> exists es1 es2, es = es1 ++ es2 /\ g_current_thread (run es1 s) = Some j.
Proof.
  induction es as [|e es IH]; intros s cur Hok Ha Hcur Hid Hj Hp Ht.
  { unfold switches, turns in Ht. cbn in Ht. pose proof (Z.mod_pos_bound (j - cur - 1) 4). lia. }
  destruct Ha as [Ha Hrest]. destruct (step_turns e s cur j c Hok Ha Hcur Hid Hj Hp) as (n & Hn & Hidn & Hd).
  assert (Hs : step s (exec e s)) by (exists e; done).
  destruct (Z.eq_dec n j) as [->|Hx]; [exists [e], es; done|].
  destruct (step_parked j c s _ Hok Hj Hp Hs) as [Hp'|(Hc' & _)]; [|congruence].
  destruct (IH (exec e s) n) as (es1 & es2 & -> & Hr); try done; [by eapply step_ok| |exists (e :: es1), es2; done].
  unfold switches in *. rewrite filter_cons in Ht. destruct (is_switch e) eqn:Ee; [rewrite decide_True in Ht by done; cbn [length] in Ht; lia|].
  rewrite decide_False in Ht by (by intros []). subst n. lia.
Qed.

Lemma run_steps es : forall s, allowed_run es s -> rtc step s (run es s).
Proof.
  induction es as [|e es IH]; intros s Ha; [apply rtc_refl|]. destruct Ha as [Ha Hr].
  apply rtc_l with (exec e s); [by exists e|by apply IH].
Qed.

(** C29: Whatever helper threads do, the thread table stays consistent: at most one
    thread runs and it is the current one, every live thread has four pages of its
    own for its stack, which nobody else owns and on which its stack pointer is,
    the counter counts the live threads and process numbers are never given twice. *)
Theorem sched_table_consistent s0 s : booted s0 -> rtc step s0 s -> sched_ok s.
Proof. apply reachable_ok. Qed.

(** Steps during which thread [i] does not run. *)
Definition away (i : Z) (s s' : sched A) : Prop := step s s' /\ g_current_thread s' <> Some i.

(** C30: A thread that yields gets back exactly what it had: however long other
    threads run, are created, yield and exit meanwhile, when it is switched to
    again all its saved registers and its stack pointer are as they were, and
    interrupts are enabled. *)
Theorem yield_resumes_exactly s0 s i s2 s3 :
  booted s0 -> rtc step s0 s -> g_current_thread s = Some i -> idle s = false ->
  g_current_thread (sched_yield yield_return s) <> Some i -> rtc (away i) (sched_yield yield_return s) s2 ->
  step s2 s3 -> g_current_thread s3 = Some i ->
  cpu s3 = with_lr yield_return (cpu s) /\ irq s3 = true.
Proof.
  intros Hb Hr Hcur Hid Haway Hr2 Hs3 Hcur3. pose proof (reachable_ok _ _ Hb Hr) as Hok.
  destruct (ok_current s Hok i Hcur) as [Hi Hrun]. rewrite Hid in Hrun. destruct Hrun as [Hrun _].
  assert (Hpark : parked i (with_lr yield_return (cpu s)) (sched_yield yield_return s)).
  { destruct (next_runnable_thread s) as [next|] eqn:En.
    - destruct (next_runnable_Some _ _ En) as [Hbn Hrn]. assert (next <> i) by congruence.
      destruct (yield_switches s i next (ok_length s Hok) Hcur Hi En) as [(_ & Ht & _) _]; [done|].
      unfold parked. rewrite Ht, (proj2 (Z.eqb_neq next i)), Z.eqb_refl by lia. done.
    - exfalso. apply Haway. unfold sched_yield. rewrite Hcur.
      change (next_runnable_thread (set_irq false s)) with (next_runnable_thread s). rewrite En. done. }
  pose proof (yield_ok s Hok Hid) as Hok1. revert Hok1 Hpark Hs3. clear Haway.
  induction Hr2 as [x|x y z [Hxy Hny] _ IH]; intros Hokx Hpark Hs3.
  - destruct (step_parked i _ x s3 Hokx Hi Hpark Hs3) as [(_ & _ & ?)|(_ & Hc & Hirq)]; [done|]. split; [done|by apply Hirq].
  - apply IH; [by eapply step_ok| |done]. destruct (step_parked i _ x y Hokx Hi Hpark Hxy) as [|[? _]]; done.
Qed.

(** No ready thread is forgotten: in any run in which running threads yield or
    exit four times, every thread that was ready has been switched to. *)
Theorem sched_round_robin s0 s cur j es :
  booted s0 -> rtc step s0 s -> g_current_thread s = Some cur -> idle s = false -> 0 <= j < 4 ->
  th_state (th s j) = THREAD_READY -> allowed_run es s -> 4 <= switches es ->
  exists es1 es2, es = es1 ++ es2 /\ g_current_thread (run es1 s) = Some j.
Proof.
  intros Hb Hr Hcur Hid Hj Hready Ha Hn. pose proof (reachable_ok _ _ Hb Hr) as Hok.
  apply (turn_comes j (th_context (th s j)) es s cur); try done.
  - split_and!; try done. intros E. destruct (ok_current s Hok j E) as [_ Hrun]. rewrite Hid in Hrun. destruct Hrun. congruence.
  - unfold turns. pose proof (Z.mod_pos_bound (j - cur - 1) 4). lia.
Qed.

(** C31: When the last thread exits, the processor waits for ever with interrupts
    enabled and its stack pointer still in the four pages of its stack, which the
    page allocator may already give to somebody else. *)
Theorem exit_waits_on_freed_stack s0 s i :
  booted s0 -> rtc step s0 s -> g_current_thread s = Some i -> idle s = false ->
  (forall j, 0 <= j < 4 -> th_state (th s j) <> THREAD_READY) ->
  let s' := sched_thread_exit yield_return exit_return s in
  idle s' = true /\ irq s' = true /\ c_sp (cpu s') = c_sp (cpu s) /\
  exists b, in_stack b (c_sp (cpu s')) /\ forall k, 0 <= k < 4 -> ~ pa_avail (pages s) (b + k * 4096) /\ pa_avail (pages s') (b + k * 4096).
Proof.
  intros Hb Hr Hcur Hid Hno. pose proof (reachable_ok _ _ Hb Hr) as Hok.
  destruct (ok_current s Hok i Hcur) as [Hi Hrun]. rewrite Hid in Hrun. destruct Hrun as [Hrun Hsp].
  pose proof (ok_live s Hok i Hi (proj2 (live_cases _) (or_intror Hrun))) as Hso.
  destruct (next_runnable_thread (leaving i s)) as [next|] eqn:En.
  { destruct (leaving_next s i next (ok_length s Hok) Hi En) as (Hbn & _ & Hrn). by destruct (Hno next Hbn). }
  destruct (exit_idles s i (ok_length s Hok) Hi (ok_pages s Hok) Hso Hcur En) as (_ & _ & (_ & _ & Ha) & Hcpu & _ & _ & _ & Hid' & Hirq).
  cbv zeta. rewrite Hcpu. split_and!; try done. exists (th_stack_base (th s i)). split; [done|]. intros k Hk.
  split; [by apply Hso|]. apply Ha. right. by exists k.
Qed.
End Safety.

(** * Two threads *)

Definition demo_boot : sched pmm :=
  sched_init 5 (Sched 0 0 0 0 (replicate 4 no_thread) None 0 0 no_context true false (pmm_init 0x40000000 0x20000)).

Lemma demo_booted : booted demo_boot.
Proof.
  exists 5, (Sched 0 0 0 0 (replicate 4 no_thread) None 0 0 no_context true false (pmm_init 0x40000000 0x20000)).
  split_and!; [reflexivity..| |reflexivity]. cbn [pages].
  change (pmm_wf (pmm_init 0x40000000 0x20000)). refine (proj1 (pmm_init_spec _ _ _ _ _ _)); [lia|reflexivity|lia|lia].
Qed.

(** Two threads are created and the first is started. *)
Definition demo_events : list event := [Create 0x1000 7 0; Create 0x2000 8 0; Start].

Definition demo_sched : sched pmm := run 100 200 300 400 demo_events demo_boot.

Lemma demo_reached : rtc (step 100 200 300 400) demo_boot demo_sched.
Proof. apply run_steps. vm_compute. repeat split. Qed.

Lemma sched_table_consistent_witness : sched_ok 100 300 demo_sched.
Proof. apply (sched_table_consistent 100 200 300 400 demo_boot demo_sched); [exact demo_booted|exact demo_reached]. Defined.

Lemma yield_resumes_exactly_witness :
  cpu (sched_yield 300 (sched_yield 300 demo_sched)) = with_lr 300 (cpu demo_sched) /\ irq (sched_yield 300 (sched_yield 300 demo_sched)) = true.
Proof.
  apply (yield_resumes_exactly 100 200 300 400 demo_boot demo_sched 0 (sched_yield 300 demo_sched)).
  - exact demo_booted.
  - exact demo_reached.
  - vm_compute. reflexivity.
  - vm_compute. reflexivity.
  - vm_compute. congruence.
  - apply rtc_refl.
  - exists Yield. split; [vm_compute; reflexivity|cbn [exec]; reflexivity].
  - vm_compute. reflexivity.
Defined.

Lemma sched_round_robin_witness :
  exists es1 es2, [Yield; Tick; Yield; Yield; Yield] = es1 ++ es2 /\ g_current_thread (run 100 200 300 400 es1 demo_sched) = Some 1.
Proof.
  apply (sched_round_robin 100 200 300 400 demo_boot demo_sched 0 1 [Yield; Tick; Yield; Yield; Yield]).
  - exact demo_booted.
  - exact demo_reached.
  - vm_compute. reflexivity.
  - vm_compute. reflexivity.
  - lia.
  - vm_compute. reflexivity.
  - vm_compute. repeat split.
  - vm_compute. congruence.
Defined.

Lemma exit_waits_on_freed_stack_witness :
  let s := sched_thread_exit 300 400 demo_sched in
  let s' := sched_thread_exit 300 400 s in
  idle s' = true /\ irq s' = true /\ c_sp (cpu s') = c_sp (cpu s) /\
  exists b, in_stack b (c_sp (cpu s')) /\ forall k, 0 <= k < 4 -> ~ pa_avail (pages s) (b + k * 4096) /\ pa_avail (pages s') (b + k * 4096).
Proof.
  intros s. apply (exit_waits_on_freed_stack 100 200 300 400 demo_boot s 1).
  - exact demo_booted.
  - eapply rtc_r; [exact demo_reached|]. exists Exit. split; [vm_compute; reflexivity|cbn [exec]; reflexivity].
  - vm_compute. reflexivity.
  - vm_compute. reflexivity.
  - intros j Hj. assert (j = 0 \/ j = 1 \/ j = 2 \/ j = 3) as [->|[->|[->| ->]]] by lia; vm_compute; congruence.
Defined.
