(* ===== verification/Karm.v ===== *)
(** The runtime of user programs (programs/libkarm): memory and string helpers
    (string.c), the monotonic arena (arena.c, arena_map.c), growable buffers and
    strings in it (buffer.c) and whole-file transfers (file.c).  A program's
    memory is a map from addresses to bytes, absent bytes reading as zero;
    pointers are addresses and 0 is NULL. *)

From S2P Require Import Prelude.
From S2P Require Import Bytes.
Open Scope arm.

Definition KLI_NOMEM : Z := -2.
Definition KLI_INVAL : Z := -7.
Definition KLI_AGAIN : Z := -11.
Definition SIZE_MAX : Z := 2 ^ 64 - 1.

(** * Memory and strings (string.c) *)

Definition ldb (m : gmap Z Z) (a : Z) : Z := default 0 (m !! a).
Definition stb (m : gmap Z Z) (a v : Z) : gmap Z Z := <[a := v]> m.

(** One assignment [d[i] = s[i]]. *)
Definition copy_byte (dst src i : Z) (m : gmap Z Z) : gmap Z Z := stb m (u64 (dst + i)) (ldb m (u64 (src + i))).

Definition memcpy (dst src n : Z) (m : gmap Z Z) : gmap Z Z := for_range 0 n (copy_byte dst src) m.

Definition memset (dst c n : Z) (m : gmap Z Z) : gmap Z Z := for_range 0 n (fun i m => stb m (u64 (dst + i)) (u8 c)) m.

Definition memmove (dst src n : Z) (m : gmap Z Z) : gmap Z Z :=
  if (dst =? src) || (n =? 0) then m else
  if dst <? src then for_range 0 n (copy_byte dst src) m
  else for_range 0 n (fun i => copy_byte dst src (n - 1 - i)) m.

Fixpoint strlen_loop (fuel : nat) (m : gmap Z Z) (s n : Z) : Z :=
  match fuel with
  | O => n
  | S fuel' => if ldb m s =? 0 then n else strlen_loop fuel' m (u64 (s + 1)) (u64 (n + 1))
  end.

(** A string ends at the latest after the last byte the memory holds. *)
Definition strlen (s : Z) (m : gmap Z Z) : Z := strlen_loop (S (size m)) m s 0.

Fixpoint strcmp_loop (fuel : nat) (m : gmap Z Z) (a b : Z) : Z :=
  match fuel with
  | O => 0
  | S fuel' =>
      if negb (ldb m a =? 0) && (ldb m a =? ldb m b) then strcmp_loop fuel' m (u64 (a + 1)) (u64 (b + 1))
      else ldb m a - ldb m b
  end.

Definition strcmp (a b : Z) (m : gmap Z Z) : Z := strcmp_loop (S (size m)) m a b.

Definition strlcpy (dst src dst_size : Z) (m : gmap Z Z) : Z * gmap Z Z :=
  let src_len := strlen src m in
  if dst_size =? 0 then (src_len, m) else
  let copy_len := if src_len >=? dst_size then dst_size - 1 else src_len in
  let m := memcpy dst src copy_len m in
  (src_len, stb m (u64 (dst + copy_len)) 0).

(** [while (value > 0 && i < sizeof(tmp))]: the digits, last first. *)
Fixpoint digits_loop (fuel : nat) (value : Z) (tmp : list Z) : list Z :=
  match fuel with
  | O => tmp
  | S fuel' => if (value >? 0) && (Z.of_nat (length tmp) <? 24) then digits_loop fuel' (value / 10) (tmp ++ [48 + value mod 10]) else tmp
  end.

Definition digits (value : Z) : list Z := if value =? 0 then [48] else digits_loop 25 value [].

(** [while (i > 0 && out + 1 < buf_size) buf[out++] = tmp[--i];] on the digits
    still to write, most significant first. *)
Fixpoint emit_loop (tmp : list Z) (buf buf_size out : Z) (m : gmap Z Z) : Z * gmap Z Z :=
  match tmp with
  | [] => (out, m)
  | c :: tmp' => if u64 (out + 1) <? buf_size then emit_loop tmp' buf buf_size (out + 1) (stb m (u64 (buf + out)) c) else (out, m)
  end.

Definition kli_utoa (value buf buf_size : Z) (m : gmap Z Z) : Z * gmap Z Z :=
  if buf_size =? 0 then (0, m) else
  let '(out, m) := emit_loop (reverse (digits value)) buf buf_size 0 m in
  (out, stb m (u64 (buf + out)) 0).

(** [value] is an [int64_t]. *)
Definition kli_itoa (value buf buf_size : Z) (m : gmap Z Z) : Z * gmap Z Z :=
  let negative := value <? 0 in
  if buf_size =? 0 then (0, m) else
  let magnitude := if negative then u64 (not64 (u64 value) + 1) else value in
  let '(out, m) := if negative && (1 <? buf_size) then (1, stb m buf 45) else (0, m) in
  let '(out, m) := emit_loop (reverse (digits magnitude)) buf buf_size out m in
  (out, stb m (u64 (buf + out)) 0).

(** * The state of a program *)

Record kli_arena := Arena { a_base : Z; a_capacity : Z; a_offset : Z; a_mapping_size : Z }.

Definition no_arena : kli_arena := Arena 0 0 0 0.

(** Memory, the arena objects by address, and the kernel behind the calls. *)
Record kli (K : Type) := Kli { mem : gmap Z Z; arenas : gmap Z kli_arena; kernel : K }.
Arguments Kli {K}. Arguments mem {K}. Arguments arenas {K}. Arguments kernel {K}.

Record kli_buffer := Buffer { b_data : Z; b_length : Z; b_capacity : Z; b_arena : Z }.

Record kli_string := KString { s_buffer : kli_buffer }.

Definition no_buffer : kli_buffer := Buffer 0 0 0 0.

Section Karm.
Context {K : Type}.
Implicit Type st : kli K.

Definition ar st (arena : Z) : kli_arena := default no_arena (arenas st !! arena).
Definition set_ar (arena : Z) (a : kli_arena) st : kli K := Kli (mem st) (<[arena := a]> (arenas st)) (kernel st).
Definition set_mem (m : gmap Z Z) st : kli K := Kli m (arenas st) (kernel st).

(** * The arena (arena.c) *)

Definition arena_clear (arena : Z) st : kli K := if arena =? 0 then st else set_ar arena no_arena st.

Definition kli_arena_init (arena buffer capacity : Z) st : Z * kli K :=
  if arena =? 0 then (-1, st) else
  let st := arena_clear arena st in
  if (buffer =? 0) || (capacity =? 0) then (-1, st) else
  (0, set_ar arena (Arena buffer capacity 0 0) st).

Definition kli_arena_alloc_aligned (arena size alignment : Z) st : Z * kli K :=
  let a := ar st arena in
  if (arena =? 0) || (a_base a =? 0) || (size =? 0) || (alignment =? 0) || negb (Z.land alignment (alignment - 1) =? 0) ||
     (a_offset a >? a_capacity a) then (0, st) else
  if a_base a >? UINT64_MAX - a_offset a then (0, st) else
  let current := a_base a + a_offset a in
  if current >? UINT64_MAX - (alignment - 1) then (0, st) else
  let aligned := Z.land (u64 (current + alignment - 1)) (not64 (alignment - 1)) in
  let padding := u64 (aligned - current) in
  let remaining := a_capacity a - a_offset a in
  if (padding >? remaining) || (size >? remaining - padding) then (0, st) else
  (aligned, set_ar arena (Arena (a_base a) (a_capacity a) (u64 (a_offset a + u64 (padding + size))) (a_mapping_size a)) st).

Definition kli_arena_alloc (arena size : Z) st : Z * kli K := kli_arena_alloc_aligned arena size 8 st.

Definition kli_arena_remaining (arena : Z) st : Z :=
  let a := ar st arena in
  if (arena =? 0) || (a_base a =? 0) || (a_offset a >? a_capacity a) then 0 else a_capacity a - a_offset a.

Definition kli_arena_reset (arena : Z) st : kli K :=
  let a := ar st arena in
  if (arena =? 0) || (a_base a =? 0) then st else set_ar arena (Arena (a_base a) (a_capacity a) 0 (a_mapping_size a)) st.

(** * Buffers (buffer.c) *)

Definition KLI_BUFFER_MIN_CAPACITY : Z := 64.

Definition buffer_is_valid (buffer : option kli_buffer) st : bool :=
  match buffer with
  | None => false
  | Some b =>
      let a := ar st (b_arena b) in
      if (b_arena b =? 0) || (a_base a =? 0) || (a_offset a >? a_capacity a) || (b_length b >? b_capacity b) then false else
      if ((b_capacity b =? 0) && negb (b_data b =? 0)) || (negb (b_capacity b =? 0) && (b_data b =? 0)) then false else true
  end.

(** Status and the buffer; an operation that changes neither arena nor memory
    leaves the state out. *)
Definition kli_buffer_init (buffer : option kli_buffer) (arena : Z) st : Z * option kli_buffer :=
  match buffer with
  | None => (KLI_INVAL, None)
  | Some _ =>
      if (arena =? 0) || (a_base (ar st arena) =? 0) || (a_offset (ar st arena) >? a_capacity (ar st arena))
      then (KLI_INVAL, Some no_buffer)
      else (0, Some (Buffer 0 0 0 arena))
  end.

(** [while (new_capacity < minimum_capacity)] *)
Fixpoint grow (fuel : nat) (new_capacity minimum_capacity : Z) : Z :=
  match fuel with
  | O => new_capacity
  | S fuel' =>
      if new_capacity <? minimum_capacity then
        if new_capacity >? SIZE_MAX / 2 then minimum_capacity else grow fuel' (new_capacity * 2) minimum_capacity
      else new_capacity
  end.

Definition kli_buffer_reserve (buffer : option kli_buffer) (minimum_capacity : Z) st : Z * option kli_buffer * kli K :=
  match buffer with
  | None => (KLI_INVAL, None, st)
  | Some b =>
      if negb (buffer_is_valid buffer st) then (KLI_INVAL, buffer, st) else
      if minimum_capacity <=? b_capacity b then (0, buffer, st) else
      let new_capacity := if b_capacity b <? KLI_BUFFER_MIN_CAPACITY then KLI_BUFFER_MIN_CAPACITY else b_capacity b in
      let new_capacity := grow 64 new_capacity minimum_capacity in
      if new_capacity <? minimum_capacity then (KLI_NOMEM, buffer, st) else
      let '(new_data, st) := kli_arena_alloc (b_arena b) new_capacity st in
      if new_data =? 0 then (KLI_NOMEM, buffer, st) else
      let st := if negb (b_length b =? 0) then set_mem (memmove new_data (b_data b) (b_length b) (mem st)) st else st in
      (0, Some (Buffer new_data (b_length b) new_capacity (b_arena b)), st)
  end.

Definition kli_buffer_init_capacity (buffer : option kli_buffer) (arena initial_capacity : Z) st : Z * option kli_buffer * kli K :=
  let '(status, buffer) := kli_buffer_init buffer arena st in
  if (status <? 0) || (initial_capacity =? 0) then (status, buffer, st) else
  kli_buffer_reserve buffer initial_capacity st.

Definition kli_buffer_append (buffer : option kli_buffer) (data size : Z) st : Z * option kli_buffer * kli K :=
  match buffer with
  | None => (KLI_INVAL, None, st)
  | Some b =>
      if negb (buffer_is_valid buffer st) then (KLI_INVAL, buffer, st) else
      if size =? 0 then (0, buffer, st) else
      if (data =? 0) || (b_length b >? SIZE_MAX - size) then (KLI_INVAL, buffer, st) else
      let required := b_length b + size in
      let '(status, buffer, st) := kli_buffer_reserve buffer required st in
      if status <? 0 then (status, buffer, st) else
      match buffer with
      | None => (status, None, st)
      | Some b =>
          (0, Some (Buffer (b_data b) required (b_capacity b) (b_arena b)),
           set_mem (memmove (u64 (b_data b + b_length b)) data size (mem st)) st)
      end
  end.

(** [slot] is the address of the parameter [value]. *)
Definition kli_buffer_append_byte (slot : Z) (buffer : option kli_buffer) (value : Z) st : Z * option kli_buffer * kli K :=
  kli_buffer_append buffer slot 1 (set_mem (stb (mem st) slot value) st).

Definition kli_buffer_clear (buffer : option kli_buffer) st : option kli_buffer :=
  match buffer with
  | Some b => if negb (buffer_is_valid buffer st) then buffer else Some (Buffer (b_data b) 0 (b_capacity b) (b_arena b))
  | None => None
  end.

Definition kli_buffer_remaining (buffer : option kli_buffer) st : Z :=
  match buffer with
  | Some b => if negb (buffer_is_valid buffer st) then 0 else b_capacity b - b_length b
  | None => 0
  end.

(** * Strings (buffer.c) *)

Definition string_storage_is_valid (string : option kli_string) st : bool :=
  match string with
  | None => false
  | Some s =>
      let b := s_buffer s in
      if negb (buffer_is_valid (Some b) st) || (b_data b =? 0) || (b_capacity b =? 0) || (b_length b >=? b_capacity b) then false else
      let a := ar st (b_arena b) in
      if a_base a >? UINT64_MAX - a_offset a then false else
      let arena_used_end := a_base a + a_offset a in
      if (b_data b <? a_base a) || (b_data b >? arena_used_end) || (b_data b >? UINT64_MAX - b_capacity b) then false else
      if b_data b + b_capacity b >? arena_used_end then false else
      ldb (mem st) (b_data b + b_length b) =? 0
  end.

Definition text_has_nul (text length : Z) st : bool := existsb (fun i => ldb (mem st) (u64 (text + i)) =? 0) (seqZ 0 length).

(** [string->buffer.data[i] = 0;] *)
Definition put_nul (s : kli_string) (i : Z) st : kli K := set_mem (stb (mem st) (u64 (b_data (s_buffer s) + i)) 0) st.

Definition as_string (b : option kli_buffer) : option kli_string := option_map KString b.

Definition string_reserve_text (string : option kli_string) (text_capacity : Z) st : Z * option kli_string * kli K :=
  if negb (string_storage_is_valid string st) || (text_capacity =? SIZE_MAX) then (KLI_INVAL, string, st) else
  let '(status, buffer, st) := kli_buffer_reserve (option_map s_buffer string) (text_capacity + 1) st in
  match as_string buffer with
  | Some s => if status <? 0 then (status, Some s, st) else (0, Some s, put_nul s (b_length (s_buffer s)) st)
  | None => (status, None, st)
  end.

Definition kli_string_init_capacity (string : option kli_string) (arena initial_capacity : Z) st : Z * option kli_string * kli K :=
  match string with
  | None => (KLI_INVAL, None, st)
  | Some _ =>
      if initial_capacity =? SIZE_MAX then (KLI_INVAL, Some (KString no_buffer), st) else
      let '(status, buffer) := kli_buffer_init (Some no_buffer) arena st in
      if status <? 0 then (status, as_string buffer, st) else
      let '(status, buffer, st) := kli_buffer_reserve buffer (initial_capacity + 1) st in
      if status <? 0 then (status, Some (KString no_buffer), st) else
      match buffer with
      | None => (status, None, st)
      | Some b =>
          let s := KString (Buffer (b_data b) 0 (b_capacity b) (b_arena b)) in
          (0, Some s, put_nul s 0 st)
      end
  end.

Definition kli_string_init (string : option kli_string) (arena : Z) st : Z * option kli_string * kli K :=
  kli_string_init_capacity string arena 0 st.

(** The string with another length. *)
Definition with_length (s : kli_string) (n : Z) : kli_string :=
  KString (Buffer (b_data (s_buffer s)) n (b_capacity (s_buffer s)) (b_arena (s_buffer s))).

Definition kli_string_assign_n (string : option kli_string) (text length : Z) st : Z * option kli_string * kli K :=
  if negb (string_storage_is_valid string st) then (KLI_INVAL, string, st) else
  if negb (length =? 0) && (text =? 0) then (KLI_INVAL, string, st) else
  if (length =? SIZE_MAX) || (negb (length =? 0) && text_has_nul text length st) then (KLI_INVAL, string, st) else
  let '(status, string, st) := string_reserve_text string length st in
  match string with
  | None => (status, None, st)
  | Some s =>
      if status <? 0 then (status, Some s, st) else
      let st := if negb (length =? 0) then set_mem (memmove (b_data (s_buffer s)) text length (mem st)) st else st in
      (0, Some (with_length s length), put_nul s length st)
  end.

Definition kli_string_assign (string : option kli_string) (text : Z) st : Z * option kli_string * kli K :=
  if text =? 0 then (KLI_INVAL, string, st) else kli_string_assign_n string text (strlen text (mem st)) st.

Definition kli_string_append_n (string : option kli_string) (text length : Z) st : Z * option kli_string * kli K :=
  match string with
  | None => (KLI_INVAL, None, st)
  | Some s =>
      if negb (string_storage_is_valid string st) then (KLI_INVAL, string, st) else
      if length =? 0 then (0, string, st) else
      if (text =? 0) || text_has_nul text length st || (b_length (s_buffer s) >? SIZE_MAX - length) then (KLI_INVAL, string, st) else
      let required := b_length (s_buffer s) + length in
      if required =? SIZE_MAX then (KLI_INVAL, string, st) else
      let '(status, string, st) := string_reserve_text string required st in
      match string with
      | None => (status, None, st)
      | Some s =>
          if status <? 0 then (status, Some s, st) else
          let st := set_mem (memmove (u64 (b_data (s_buffer s) + b_length (s_buffer s))) text length (mem st)) st in
          (0, Some (with_length s required), put_nul s required st)
      end
  end.

Definition kli_string_append (string : option kli_string) (text : Z) st : Z * option kli_string * kli K :=
  if text =? 0 then (KLI_INVAL, string, st) else kli_string_append_n string text (strlen text (mem st)) st.

(** [slot] is the address of the parameter [value]. *)
Definition kli_string_append_char (slot : Z) (string : option kli_string) (value : Z) st : Z * option kli_string * kli K :=
  if value =? 0 then (KLI_INVAL, string, st) else
  kli_string_append_n string slot 1 (set_mem (stb (mem st) slot value) st).

Definition kli_string_clear (string : option kli_string) st : option kli_string * kli K :=
  match string with
  | Some s => if negb (string_storage_is_valid string st) then (string, st) else (Some (with_length s 0), put_nul s 0 st)
  | None => (None, st)
  end.

Definition kli_string_cstr (string : option kli_string) st : Z :=
  match string with
  | Some s => if negb (string_storage_is_valid string st) then 0 else b_data (s_buffer s)
  | None => 0
  end.

Definition kli_string_length (string : option kli_string) st : Z :=
  match string with
  | Some s => if negb (string_storage_is_valid string st) then 0 else b_length (s_buffer s)
  | None => 0
  end.

Definition kli_string_capacity (string : option kli_string) st : Z :=
  match string with
  | Some s => if negb (string_storage_is_valid string st) then 0 else b_capacity (s_buffer s) - 1
  | None => 0
  end.
End Karm.
