(* ===== verification/KarmStrings.v ===== *)
(** Arena allocations are aligned and disjoint, and the strings of a program are
    byte strings: what one operation does to one string leaves every other
    string alone, however they share arenas and whatever they alias. *)

From Stdlib Require Import Sorted.
From S2P Require Import Prelude.
From S2P Require Import Bytes.
From S2P Require Import Karm.
Open Scope arm.

(** * Memory *)

Lemma ldb_stb m a v x : ldb (stb m a v) x = if a =? x then v else ldb m x.
Proof.
  unfold ldb, stb. destruct (Z.eqb_spec a x) as [->|Hn]; [by rewrite lookup_insert_eq|by rewrite lookup_insert_ne].
Qed.

(** The bytes from [a] on. *)
Definition text_at (m : gmap Z Z) (a n : Z) : list Z := map (fun i => ldb m (a + i)) (seqZ 0 n).

Lemma text_at_ext m m' a n : (forall x, a <= x < a + n -> ldb m' x = ldb m x) -> text_at m' a n = text_at m a n.
Proof.
  intros He. apply map_ext_in. intros i Hi%list_elem_of_In%elem_of_seqZ. apply He. lia.
Qed.

Lemma text_at_move m m' a b n : (forall i, 0 <= i < n -> ldb m' (b + i) = ldb m (a + i)) -> text_at m' b n = text_at m a n.
Proof. intros He. apply map_ext_in. intros i Hi%list_elem_of_In%elem_of_seqZ. apply He. lia. Qed.

Lemma text_at_app m a n k : 0 <= n -> 0 <= k -> text_at m a (n + k) = text_at m a n ++ text_at m (a + n) k.
Proof.
  intros Hn Hk. unfold text_at. rewrite seqZ_app by lia. rewrite map_app. f_equal. rewrite Z.add_0_l.
  rewrite <- (Z.add_0_r n) at 1. rewrite <- fmap_add_seqZ. rewrite map_map. apply map_ext. intros i. f_equal. lia.
Qed.

Lemma text_at_nul m a n : existsb (fun i => ldb m (u64 (a + i)) =? 0) (seqZ 0 n) = false -> 0 <= a -> a + n <= 2 ^ 64 ->
  forall i, 0 <= i < n -> ldb m (a + i) <> 0.
Proof.
  intros He Ha Hn i Hi E. assert (existsb (fun i => ldb m (u64 (a + i)) =? 0) (seqZ 0 n) = true); [|congruence].
  apply existsb_exists. exists i. split; [apply list_elem_of_In, elem_of_seqZ; lia|]. rewrite u64_id by lia. by apply Z.eqb_eq.
Qed.

(** Forward copying is right when the target does not start inside the source. *)
Lemma copy_forward d s n m :
  0 <= n -> 0 <= d -> d + n <= 2 ^ 64 -> 0 <= s -> s + n <= 2 ^ 64 -> (d <= s \/ s + n <= d) ->
  forall x, ldb (for_range 0 n (copy_byte d s) m) x = if (d <=? x) && (x <? d + n) then ldb m (s + (x - d)) else ldb m x.
Proof.
  intros Hn Hd Hdn Hs Hsn Ho.
  apply (for_range_ind (fun k m' => forall x, ldb m' x = if (d <=? x) && (x <? d + k) then ldb m (s + (x - d)) else ldb m x)); [done| |].
  - intros x. destruct (Z.leb_spec d x), (Z.ltb_spec x (d + 0)); try done; lia.
  - intros k m' Hk IH x. unfold copy_byte. rewrite ldb_stb, !u64_id by lia. rewrite !IH.
    destruct (Z.eqb_spec (d + k) x) as [<-|Hne].
    + rewrite (proj2 (Z.leb_le d (d + k))), (proj2 (Z.ltb_lt (d + k) (d + (k + 1)))) by lia. cbn [andb].
      replace (s + (d + k - d)) with (s + k) by lia. destruct (Z.leb_spec d (s + k)), (Z.ltb_spec (s + k) (d + k)); try done. cbn [andb].
      exfalso. lia.
    + destruct (Z.leb_spec d x), (Z.ltb_spec x (d + k)), (Z.ltb_spec x (d + (k + 1))); try done; lia.
Qed.

Lemma copy_backward d s n m :
  0 <= n -> 0 <= d -> d + n <= 2 ^ 64 -> 0 <= s -> s + n <= 2 ^ 64 -> s <= d ->
  forall x, ldb (for_range 0 n (fun i => copy_byte d s (n - 1 - i)) m) x = if (d <=? x) && (x <? d + n) then ldb m (s + (x - d)) else ldb m x.
Proof.
  intros Hn Hd Hdn Hs Hsn Ho.
  cut (forall x, ldb (for_range 0 n (fun i => copy_byte d s (n - 1 - i)) m) x =
    if (d + (n - n) <=? x) && (x <? d + n) then ldb m (s + (x - d)) else ldb m x); [by rewrite Z.sub_diag, Z.add_0_r|].
  apply (for_range_ind (fun k m' => forall x, ldb m' x = if (d + (n - k) <=? x) && (x <? d + n) then ldb m (s + (x - d)) else ldb m x)); [done| |].
  - intros x. destruct (Z.leb_spec (d + (n - 0)) x), (Z.ltb_spec x (d + n)); try done; lia.
  - intros k m' Hk IH x. unfold copy_byte. rewrite ldb_stb, !u64_id by lia. rewrite !IH. set (j := n - 1 - k).
    destruct (Z.eqb_spec (d + j) x) as [<-|Hne].
    + rewrite (proj2 (Z.leb_le (d + (n - (k + 1))) (d + j))), (proj2 (Z.ltb_lt (d + j) (d + n))) by lia. cbn [andb].
      replace (s + (d + j - d)) with (s + j) by lia. destruct (Z.leb_spec (d + (n - k)) (s + j)), (Z.ltb_spec (s + j) (d + n)); try done; lia.
    + destruct (Z.leb_spec (d + (n - k)) x), (Z.leb_spec (d + (n - (k + 1))) x), (Z.ltb_spec x (d + n)); try done; lia.
Qed.

(** memmove copies the source as it was, also when the ranges overlap. *)
Lemma memmove_spec d s n m :
  0 <= n -> 0 <= d -> d + n <= 2 ^ 64 -> 0 <= s -> s + n <= 2 ^ 64 ->
  forall x, ldb (memmove d s n m) x = if (d <=? x) && (x <? d + n) then ldb m (s + (x - d)) else ldb m x.
Proof.
  intros Hn Hd Hdn Hs Hsn x. unfold memmove. destruct (Z.eqb_spec d s) as [->|Hne]; cbn [orb].
  { replace (s + (x - s)) with x by lia. by destruct ((s <=? x) && (x <? s + n)). }
  destruct (Z.eqb_spec n 0) as [->|Hn0].
  { destruct (Z.leb_spec d x), (Z.ltb_spec x (d + 0)); try done; lia. }
  destruct (Z.ltb_spec d s); [apply copy_forward|apply copy_backward]; lia.
Qed.

(** * The arena *)

(** A power of two is what [alignment & (alignment - 1)] lets through. *)
Lemma power_of_two a : 0 < a < 2 ^ 64 -> Z.land a (a - 1) = 0 -> exists k, 0 <= k < 64 /\ a = 2 ^ k.
Proof.
  intros Ha Hl. exists (Z.log2 a). pose proof (Z.log2_spec a ltac:(lia)) as [H1 H2]. pose proof (Z.log2_nonneg a).
  assert (Hlog : Z.log2 a < 64) by (apply Z.log2_lt_pow2; lia). split; [lia|].
  destruct (Z.eq_dec a (2 ^ Z.log2 a)) as [|Hne]; [done|exfalso].
  assert (Hb : Z.testbit (Z.land a (a - 1)) (Z.log2 a) = true); [|by rewrite Hl, Z.bits_0 in Hb].
  rewrite Z.land_spec, Z.bit_log2 by lia. assert (Hlg : Z.log2 (a - 1) = Z.log2 a) by (apply Z.log2_unique; lia).
  rewrite <- Hlg. by rewrite Z.bit_log2 by lia.
Qed.

(** The arena's block fits the address space. *)
Definition arena_ok (a : kli_arena) : Prop :=
  0 < a_base a /\ a_base a + a_capacity a < 2 ^ 64 /\ 0 <= a_offset a <= a_capacity a.

(** The first address from the used part on that is aligned. *)
Definition round_up (x alignment : Z) : Z := x + (- x) mod alignment.

Section Arena.
Context {K : Type}.
Implicit Type st : kli K.

Lemma ar_set arena a st x : ar (set_ar arena a st) x = if arena =? x then a else ar st x.
Proof.
  unfold ar, set_ar. cbn [arenas]. destruct (Z.eqb_spec arena x) as [->|Hn]; [by rewrite lookup_insert_eq|by rewrite lookup_insert_ne].
Qed.

Lemma align_exact x k : 0 <= x -> 0 <= k < 64 -> x + 2 ^ k - 1 < 2 ^ 64 -> Z.land (x + 2 ^ k - 1) (not64 (2 ^ k - 1)) = round_up x (2 ^ k).
Proof.
  intros Hx Hk Hb. pose proof (Z.pow_pos_nonneg 2 k). rewrite land_high_mask by lia. unfold round_up.
  assert (E : (- x) mod 2 ^ k = 2 ^ k - 1 - (x + 2 ^ k - 1) mod 2 ^ k); [|lia].
  symmetry. pose proof (Z.mod_pos_bound (x + 2 ^ k - 1) (2 ^ k)).
  apply (Z.mod_unique_pos _ _ (- ((x + 2 ^ k - 1) / 2 ^ k)) _); [lia|].
  pose proof (Z.div_mod (x + 2 ^ k - 1) (2 ^ k)). lia.
Qed.

Lemma round_up_spec x al : 0 < al -> round_up x al mod al = 0 /\ x <= round_up x al < x + al.
Proof.
  intros Ha. unfold round_up. pose proof (Z.mod_pos_bound (- x) al Ha). split; [|lia].
  rewrite Z.add_mod_idemp_r by lia. by rewrite Z.add_opp_diag_r, Z.mod_0_l by lia.
Qed.

(** The allocator returns the first aligned block that fits, or nothing. *)
Lemma alloc_exact st arena size al :
  arena <> 0 -> arena_ok (ar st arena) -> 0 < size < 2 ^ 64 -> 0 < al < 2 ^ 63 -> Z.land al (al - 1) = 0 ->
  a_base (ar st arena) + a_capacity (ar st arena) + al <= 2 ^ 64 ->
  let a := ar st arena in
  let p := round_up (a_base a + a_offset a) al in
  kli_arena_alloc_aligned arena size al st =
    if p + size <=? a_base a + a_capacity a
    then (p, set_ar arena (Arena (a_base a) (a_capacity a) (p + size - a_base a) (a_mapping_size a)) st)
    else (0, st).
Proof.
  intros Hn Ha Hsize Hal Hpow Hroom a p. destruct (power_of_two al ltac:(lia) Hpow) as (k & Hk & Ek).
  destruct Ha as (Hb & Hcap & Ho). fold a in Hb, Hcap, Ho, Hroom. destruct (round_up_spec (a_base a + a_offset a) al ltac:(lia)) as [_ Hr]. fold p in Hr.
  unfold kli_arena_alloc_aligned. fold a. rewrite Hpow.
  rewrite (proj2 (Z.eqb_neq arena 0)), (proj2 (Z.eqb_neq (a_base a) 0)), (proj2 (Z.eqb_neq size 0)), (proj2 (Z.eqb_neq al 0)) by lia.
  cbn [orb negb Z.eqb]. destruct (Z.gtb_spec (a_offset a) (a_capacity a)); [lia|].
  unfold UINT64_MAX. destruct (Z.gtb_spec (a_base a) (2 ^ 64 - 1 - a_offset a)); [lia|].
  destruct (Z.gtb_spec (a_base a + a_offset a) (2 ^ 64 - 1 - (al - 1))); [lia|].
  rewrite (u64_id (a_base a + a_offset a + al - 1)) by lia. rewrite Ek, align_exact, <- Ek by lia. fold p.
  rewrite (u64_id (p - _)) by lia.
  destruct (Z.leb_spec (p + size) (a_base a + a_capacity a)) as [Hfit|Hfit].
  - destruct (Z.gtb_spec (p - (a_base a + a_offset a)) (a_capacity a - a_offset a)); [lia|].
    destruct (Z.gtb_spec size (a_capacity a - a_offset a - (p - (a_base a + a_offset a)))); [lia|]. cbn [orb].
    do 3 f_equal. rewrite (u64_id (p - _ + size)), u64_id by lia. lia.
  - destruct (Z.gtb_spec (p - (a_base a + a_offset a)) (a_capacity a - a_offset a)); [done|].
    destruct (Z.gtb_spec size (a_capacity a - a_offset a - (p - (a_base a + a_offset a)))); [done|lia].
Qed.

(** A sequence of requests; the blocks that were granted, with their sizes. *)
Fixpoint allocs (arena : Z) (reqs : list (Z * Z)) st : list (Z * Z * Z) * kli K :=
  match reqs with
  | [] => ([], st)
  | (size, al) :: reqs =>
      let '(p, st) := kli_arena_alloc_aligned arena size al st in
      let '(blocks, st) := allocs arena reqs st in
      ((if p =? 0 then [] else [(p, size, al)]) ++ blocks, st)
  end.

Definition request_ok (a : kli_arena) (r : Z * Z) : Prop :=
  0 < fst r < 2 ^ 64 /\ 0 < snd r < 2 ^ 63 /\ Z.land (snd r) (snd r - 1) = 0 /\ a_base a + a_capacity a + snd r <= 2 ^ 64.

(** Arena allocations do not overlap: over any sequence of requests, every
    block granted is aligned as asked, lies in the arena beyond what was used
    before, and ends before the next one begins. *)
Theorem arena_blocks_disjoint st arena reqs :
  arena <> 0 -> arena_ok (ar st arena) -> Forall (request_ok (ar st arena)) reqs ->
  let '(blocks, st') := allocs arena reqs st in
  let a := ar st arena in
  Forall (fun '(p, n, al) => p mod al = 0 /\ a_base a + a_offset a <= p /\ p + n <= a_base a + a_capacity a) blocks /\
  StronglySorted (fun '(p, n, _) '(q, _, _) => p + n <= q) blocks /\ arena_ok (ar st' arena).
Proof.
  intros Hn Ha Hr. revert st Ha Hr. induction reqs as [|[size al] reqs IH]; intros st Ha Hr; cbn [allocs].
  { split_and!; [constructor..|done]. }
  apply Forall_cons in Hr as [(Hs & Hal & Hp & Hroom) Hr]. cbn [fst snd] in *. rewrite alloc_exact by done.
  destruct (round_up_spec (a_base (ar st arena) + a_offset (ar st arena)) al ltac:(lia)) as [Hmod Hb].
  set (p := round_up _ al) in *. pose proof Ha as (Hb1 & Hb2 & Hb3).
  destruct (Z.leb_spec (p + size) (a_base (ar st arena) + a_capacity (ar st arena))) as [Hfit|Hfit].
  - set (st1 := set_ar _ _ st). assert (E : ar st1 arena = Arena (a_base (ar st arena)) (a_capacity (ar st arena)) (p + size - a_base (ar st arena)) (a_mapping_size (ar st arena)))
      by (unfold st1; rewrite ar_set, Z.eqb_refl; done).
    specialize (IH st1). rewrite E in IH. destruct (allocs arena reqs st1) as [blocks st']. cbn [a_base a_capacity a_offset] in IH.
    destruct IH as (HF & HS & HA); [split_and!; cbn; lia|eapply Forall_impl; [exact Hr|done]|].
    destruct (Z.eqb_spec p 0); [lia|]. cbn [app]. split_and!; [|constructor; [done|]|done].
    + constructor; [split_and!; [done|lia..]|]. eapply Forall_impl; [exact HF|]. intros [[q n'] al'] (? & ? & ?). split_and!; [done|lia..].
    + eapply Forall_impl; [exact HF|]. intros [[q n'] al'] (? & ? & ?). lia.
  - specialize (IH st Ha Hr). destruct (allocs arena reqs st) as [blocks st']. cbn [Z.eqb app]. done.
Qed.
End Arena.

Definition demo_arena : kli unit := Kli ∅ {[ 1 := Arena 0x1004 0x100 0 0 ]} tt.

Lemma arena_blocks_disjoint_witness :
  fst (allocs 1 [(5, 8); (16, 16); (300, 8); (1, 1); (8, 8)] demo_arena) = [(0x1008, 5, 8); (0x1010, 16, 16); (0x1020, 1, 1); (0x1028, 8, 8)] /\
  StronglySorted (fun '(p, n, _) '(q, _, _) => p + n <= q) (fst (allocs 1 [(5, 8); (16, 16); (300, 8); (1, 1); (8, 8)] demo_arena)).
Proof.
  split; [vm_compute; reflexivity|].
  pose proof (arena_blocks_disjoint demo_arena 1 [(5, 8); (16, 16); (300, 8); (1, 1); (8, 8)]) as HT.
  destruct (allocs 1 [(5, 8); (16, 16); (300, 8); (1, 1); (8, 8)] demo_arena) as [blocks st']. cbn [fst]. apply HT.
  - lia.
  - split_and!; vm_compute; congruence.
  - repeat constructor; vm_compute; congruence.
Defined.

(** * Growth *)

Lemma grow_lower n : forall c min, 0 < c -> min <= c * 2 ^ Z.of_nat n -> min <= grow n c min.
Proof.
  induction n as [|n IH]; intros c min Hc Hm; cbn [grow]; [cbn in Hm; lia|].
  destruct (Z.ltb_spec c min); [|done]. case_if; [lia|]. apply IH; [lia|].
  rewrite Nat2Z.inj_succ, Z.pow_succ_r in Hm by lia. lia.
Qed.

Lemma grow_upper n : forall c min, 0 < c -> c <= grow n c min <= Z.max c (2 * min).
Proof.
  induction n as [|n IH]; intros c min Hc; cbn [grow]; [lia|].
  destruct (Z.ltb_spec c min); [|lia]. case_if; [lia|]. specialize (IH (c * 2) min ltac:(lia)). lia.
Qed.

(** * Strings *)

Section Strings.
Context {K : Type}.
Implicit Type st : kli K.

(** Arenas in use: in the lower address space, apart from one another. *)
Definition arenas_ok st : Prop :=
  ar st 0 = no_arena /\
  (forall p, a_base (ar st p) <> 0 -> arena_ok (ar st p) /\ a_base (ar st p) + a_capacity (ar st p) <= 2 ^ 62) /\
  (forall p q, p <> q -> a_base (ar st p) <> 0 -> a_base (ar st q) <> 0 ->
    a_base (ar st p) + a_capacity (ar st p) <= a_base (ar st q) \/ a_base (ar st q) + a_capacity (ar st q) <= a_base (ar st p)).

(** [x] is in the part of the arena that has not been given out. *)
Definition in_free (a : kli_arena) (x : Z) : Prop := a_base a + a_offset a <= x < a_base a + a_capacity a.

Definition data (s : kli_string) : Z := b_data (s_buffer s).
Definition len (s : kli_string) : Z := b_length (s_buffer s).
Definition cap (s : kli_string) : Z := b_capacity (s_buffer s).
Definition home st (s : kli_string) : kli_arena := ar st (b_arena (s_buffer s)).

(** The storage is in the used part of its arena and the text is terminated. *)
Definition str_ok st (s : kli_string) : Prop :=
  a_base (home st s) <> 0 /\ a_base (home st s) <= data s /\ data s + cap s <= a_base (home st s) + a_offset (home st s) /\
  0 <= len s < cap s /\ ldb (mem st) (data s + len s) = 0.

Definition text st (s : kli_string) : list Z := text_at (mem st) (data s) (len s).

Definition in_storage (s : kli_string) (x : Z) : Prop := data s <= x < data s + cap s.

Definition apart (s s' : kli_string) : Prop := data s + cap s <= data s' \/ data s' + cap s' <= data s.

(** What an operation on [s] may change: its own storage and the free part of its
    arena, from which the new storage may be taken. *)
Definition touches st (s : kli_string) st' (s' : kli_string) : Prop :=
  (forall x, ~ in_free (home st s) x -> ~ in_storage s x -> ldb (mem st') x = ldb (mem st) x) /\
  (forall p, p <> b_arena (s_buffer s) -> ar st' p = ar st p) /\
  (exists o, home st' s = Arena (a_base (home st s)) (a_capacity (home st s)) o (a_mapping_size (home st s)) /\ a_offset (home st s) <= o <= a_capacity (home st s)) /\
  b_arena (s_buffer s') = b_arena (s_buffer s) /\
  ((data s' = data s /\ cap s' = cap s) \/
   (a_base (home st s) + a_offset (home st s) <= data s' /\ data s' + cap s' <= a_base (home st s) + a_offset (home st' s))).

(** The strings of a program, by address. *)
Record world_ok st (ss : gmap Z kli_string) : Prop := {
  wo_arenas : arenas_ok st;
  wo_str : forall i s, ss !! i = Some s -> str_ok st s;
  wo_apart : forall i j s s', i <> j -> ss !! i = Some s -> ss !! j = Some s' -> apart s s' }.

Lemma touches_arenas st s st' s' : arenas_ok st -> a_base (home st s) <> 0 -> touches st s st' s' -> arenas_ok st'.
Proof.
  intros (Hz & Hr & Hd) Hb (_ & Ho & (o & Eo & Hoff) & _). set (p0 := b_arena (s_buffer s)) in *.
  assert (E : forall p, a_base (ar st' p) = a_base (ar st p) /\ a_capacity (ar st' p) = a_capacity (ar st p)).
  { intros p. destruct (Z.eq_dec p p0) as [->|Hn]; [|by rewrite Ho]. unfold home in Eo. fold p0 in Eo. by rewrite Eo. }
  assert (Hp0 : p0 <> 0) by (intros E0; unfold home in Hb; fold p0 in Hb; rewrite E0, Hz in Hb; done).
  split_and!.
  - by rewrite Ho.
  - intros p Hp. destruct (E p) as [E1 E2]. rewrite E1 in Hp. destruct (Hr p Hp) as [Hok Hc]. rewrite E1, E2. split; [|done].
    destruct (Z.eq_dec p p0) as [->|Hn]; [|by rewrite Ho]. unfold home in Eo, Hoff. fold p0 in Eo, Hoff. rewrite Eo.
    destruct Hok as (? & ? & ?). split_and!; cbn; lia.
  - intros p q Hpq Hp Hq. destruct (E p) as [E1 E2], (E q) as [E3 E4]. rewrite E1, E2, E3, E4 in *. by apply Hd.
Qed.

(** Another string is not affected. *)
Lemma touches_other st s st' s' t :
  arenas_ok st -> str_ok st t -> apart s t -> a_base (home st s) <> 0 -> touches st s st' s' ->
  str_ok st' t /\ text st' t = text st t /\ (data s' = data s /\ cap s' = cap s \/ apart s' t).
Proof.
  intros (Hz & Hr & Hd) (Hb & Hlo & Hhi & Hlen & Hnul) Hap Hbs (Hmem & Har & (o & Eo & Hoff) & _ & Hdata).
  assert (Hout : forall x, in_storage t x -> ldb (mem st') x = ldb (mem st) x).
  { intros x Hx. apply Hmem; [|unfold in_storage, apart in *; lia]. unfold in_storage, in_free, home in *.
    destruct (Z.eq_dec (b_arena (s_buffer s)) (b_arena (s_buffer t))) as [E|Hn]; [rewrite E; lia|].
    destruct (Hr _ Hb) as [(? & ? & ?) _]. destruct (Hr _ Hbs) as [(? & ? & ?) _]. destruct (Hd _ _ Hn Hbs Hb); lia. }
  assert (Ehome : a_base (home st' t) = a_base (home st t) /\ a_offset (home st t) <= a_offset (home st' t)).
  { unfold home in *. destruct (Z.eq_dec (b_arena (s_buffer t)) (b_arena (s_buffer s))) as [E|Hn]; [|rewrite Har by done; lia].
    rewrite E, Eo. cbn. split; [done|lia]. }
  destruct Ehome as [E1 E2]. split_and!.
  - split_and!; [by rewrite E1|lia|lia|lia|lia|]. rewrite Hout; [done|]. unfold in_storage. lia.
  - apply text_at_ext. intros x Hx. apply Hout. unfold in_storage. lia.
  - destruct Hdata as [?|[Hd1 Hd2]]; [by left|right]. unfold apart.
    destruct (Z.eq_dec (b_arena (s_buffer t)) (b_arena (s_buffer s))) as [E|Hn].
    + unfold home in *. rewrite E in *. lia.
    + destruct (Hr _ Hb) as [(? & ? & ?) _]. destruct (Hr _ Hbs) as [(? & ? & ?) _]. unfold home in *. rewrite Eo in Hd2. cbn in Hd2.
      destruct (Hd _ _ Hn Hb Hbs); lia.
Qed.

(** The world after an operation on string [i]. *)
Lemma touches_world st ss i s st' s' :
  world_ok st ss -> (forall j t, j <> i -> ss !! j = Some t -> apart s t) -> a_base (home st s) <> 0 ->
  touches st s st' s' -> str_ok st' s' ->
  world_ok st' (<[i := s']> ss) /\ forall j t, j <> i -> ss !! j = Some t -> text st' t = text st t.
Proof.
  intros [Ha Hs Hap] Hi Hb Ht Hok. split.
  - split.
    + by eapply touches_arenas.
    + intros j t [[<- <-]|[Hn Hj]]%lookup_insert_Some; [done|]. by destruct (touches_other st s st' s' t Ha (Hs j t Hj) (Hi j t (not_eq_sym Hn) Hj) Hb Ht).
    + assert (Hself : forall j t, j <> i -> ss !! j = Some t -> apart s' t).
      { intros j t Hn Hj. destruct (touches_other st s st' s' t Ha (Hs j t Hj) (Hi j t Hn Hj) Hb Ht) as (_ & _ & [[E1 E2]|?]); [|done].
        unfold apart. rewrite E1, E2. by apply (Hi j t). }
      intros j k t t' Hjk [[<- <-]|[Hn Hj]]%lookup_insert_Some [[<- <-]|[Hn' Hk]]%lookup_insert_Some; [done|..|by apply (Hap j k)].
      * by apply (Hself k t').
      * destruct (Hself j t (not_eq_sym Hn) Hj); [by right|by left].
  - intros j t Hn Hj. by destruct (touches_other st s st' s' t Ha (Hs j t Hj) (Hi j t Hn Hj) Hb Ht) as (_ & ? & _).
Qed.

(** Storage in the used part of the arena, or none yet. *)
Definition buf_ok st (b : kli_buffer) : Prop :=
  let a := ar st (b_arena b) in
  a_base a <> 0 /\
  ((b_data b = 0 /\ b_capacity b = 0 /\ b_length b = 0) \/
   (a_base a <= b_data b /\ b_data b + b_capacity b <= a_base a + a_offset a /\ 0 <= b_length b <= b_capacity b /\ 0 < b_capacity b)).

Lemma arena_nonnull st p : arenas_ok st -> a_base (ar st p) <> 0 -> p <> 0.
Proof. intros (Hz & _) Hb ->. by rewrite Hz in Hb. Qed.

Lemma buffer_valid st b : arenas_ok st -> buf_ok st b -> buffer_is_valid (Some b) st = true.
Proof.
  intros Ha [Hb Hc]. pose proof (arena_nonnull _ _ Ha Hb). destruct Ha as (_ & Hr & _). destruct (Hr _ Hb) as [(H1 & H2 & H3) _].
  cbn [buffer_is_valid]. rewrite (proj2 (Z.eqb_neq (b_arena b) 0)), (proj2 (Z.eqb_neq (a_base _) 0)) by done.
  destruct (Z.gtb_spec (a_offset (ar st (b_arena b))) (a_capacity (ar st (b_arena b)))); [lia|].
  destruct (Z.gtb_spec (b_length b) (b_capacity b)); [lia|]. cbn [orb].
  destruct (Z.eqb_spec (b_capacity b) 0), (Z.eqb_spec (b_data b) 0); try done; lia.
Qed.

(** Growing a buffer: no room, or its bytes are in a block of the size asked. *)
Lemma reserve_cases st b n :
  arenas_ok st -> buf_ok st b -> 0 <= n < 2 ^ 63 ->
  kli_buffer_reserve (Some b) n st = (KLI_NOMEM, Some b, st) \/
  exists b' st', kli_buffer_reserve (Some b) n st = (0, Some b', st') /\ touches st (KString b) st' (KString b') /\
    n <= b_capacity b' /\ b_capacity b <= b_capacity b' /\ b_length b' = b_length b /\
    (0 < n -> a_base (ar st (b_arena b)) <= b_data b' /\ b_data b' + b_capacity b' <= a_base (ar st (b_arena b)) + a_offset (ar st' (b_arena b))) /\
    (forall k, 0 <= k < b_length b -> ldb (mem st') (b_data b' + k) = ldb (mem st) (b_data b + k)) /\
    (forall x, ~ in_free (ar st (b_arena b)) x -> ldb (mem st') x = ldb (mem st) x) /\
    ((b' = b /\ st' = st) \/ a_base (ar st (b_arena b)) + a_offset (ar st (b_arena b)) <= b_data b').
Proof.
  intros Ha Hbuf Hn. pose proof Hbuf as [Hb Hc]. cbv zeta in Hb, Hc. pose proof (arena_nonnull _ _ Ha Hb) as Hne.
  destruct (proj1 (proj2 Ha) _ Hb) as [Hok Hcap]. pose proof Hok as (H1 & H2 & H3).
  unfold kli_buffer_reserve. rewrite buffer_valid by done. cbn [negb]. set (a := ar st (b_arena b)) in *.
  destruct (Z.leb_spec n (b_capacity b)) as [Hfit|Hfit].
  { right. exists b, st. split_and!; try done; [|intros Hn0; fold a; lia|by left]. unfold touches, home. cbn [s_buffer]. fold a. split_and!; try done; [|by left].
    exists (a_offset a). split; [by destruct a|lia]. }
  set (c0 := if b_capacity b <? KLI_BUFFER_MIN_CAPACITY then KLI_BUFFER_MIN_CAPACITY else b_capacity b).
  assert (Hc0 : 64 <= c0 <= 2 ^ 62 /\ b_capacity b <= c0).
  { unfold c0, KLI_BUFFER_MIN_CAPACITY. destruct (Z.ltb_spec (b_capacity b) 64); lia. }
  pose proof (grow_lower 64 c0 n ltac:(lia) ltac:(change (2 ^ Z.of_nat 64) with (2 ^ 64); lia)) as Hlow. pose proof (grow_upper 64 c0 n ltac:(lia)) as Hup.
  set (c := grow 64 c0 n) in *. destruct (Z.ltb_spec c n); [lia|]. unfold kli_arena_alloc.
  rewrite (alloc_exact st (b_arena b) c 8) by first [done|fold a; lia]. fold a. set (q := round_up (a_base a + a_offset a) 8).
  destruct (round_up_spec (a_base a + a_offset a) 8 ltac:(lia)) as [_ Hq]. fold q in Hq.
  destruct (Z.leb_spec (q + c) (a_base a + a_capacity a)) as [Hroom|Hroom]; [right|by left].
  destruct (Z.eqb_spec q 0); [lia|]. set (a' := Arena _ _ _ _). set (st1 := set_ar _ a' st).
  set (st2 := if negb (b_length b =? 0) then set_mem (memmove q (b_data b) (b_length b) (mem st1)) st1 else st1).
  assert (Har : forall p, ar st2 p = if b_arena b =? p then a' else ar st p).
  { intros p. rewrite <- (ar_set (b_arena b) a' st p). unfold st2. by destruct (negb _). }
  assert (Hmem : forall x, ldb (mem st2) x = if (q <=? x) && (x <? q + b_length b) then ldb (mem st) (b_data b + (x - q)) else ldb (mem st) x).
  { intros x. unfold st2. destruct (Z.eqb_spec (b_length b) 0) as [E|E]; cbn [negb].
    - rewrite E. destruct (Z.leb_spec q x), (Z.ltb_spec x (q + 0)); try done; lia.
    - cbn [set_mem mem]. rewrite memmove_spec by lia. done. }
  assert (Hfree : forall x, ~ in_free a x -> ldb (mem st2) x = ldb (mem st) x).
  { intros x Hx. rewrite Hmem. unfold in_free in Hx. destruct (Z.leb_spec q x), (Z.ltb_spec x (q + b_length b)); try done. exfalso. lia. }
  assert (Ehome : ar st2 (b_arena b) = a') by (rewrite Har, Z.eqb_refl; done).
  exists (Buffer q (b_length b) c (b_arena b)), st2. cbn [b_capacity b_length b_data b_arena]. rewrite Ehome.
  split_and!; try done; try lia.
  - unfold touches, home. cbn [s_buffer]. fold a. rewrite Ehome. split_and!; try done.
    + intros x Hx _. by apply Hfree.
    + intros p Hp. rewrite Har, (proj2 (Z.eqb_neq (b_arena b) p)) by done. done.
    + exists (q + c - a_base a). split; [done|lia].
    + right. unfold data, cap. cbn. lia.
  - intros _. unfold a'. cbn. lia.
  - intros k Hk. rewrite Hmem, (proj2 (Z.leb_le q (q + k))), (proj2 (Z.ltb_lt (q + k) (q + b_length b))) by lia. cbn [andb]. f_equal. lia.
Qed.

Lemma storage_valid st s : arenas_ok st -> str_ok st s -> string_storage_is_valid (Some s) st = true.
Proof.
  intros Ha (Hb & Hlo & Hhi & Hlen & Hnul). unfold home, data, cap, len in *. destruct (proj1 (proj2 Ha) _ Hb) as [(H1 & H2 & H3) _].
  cbn [string_storage_is_valid]. rewrite buffer_valid; [|done|split; [done|right; lia]]. cbn [negb orb].
  rewrite (proj2 (Z.eqb_neq (b_data _) 0)), (proj2 (Z.eqb_neq (b_capacity _) 0)) by lia. cbn [orb]. rewrite Z.geb_leb.
  destruct (Z.leb_spec (b_capacity (s_buffer s)) (b_length (s_buffer s))); [lia|].
  unfold UINT64_MAX. set (a := ar st _) in *.
  destruct (Z.gtb_spec (a_base a) (2 ^ 64 - 1 - a_offset a)); [lia|]. destruct (Z.ltb_spec (b_data (s_buffer s)) (a_base a)); [lia|].
  destruct (Z.gtb_spec (b_data (s_buffer s)) (a_base a + a_offset a)); [lia|].
  destruct (Z.gtb_spec (b_data (s_buffer s)) (2 ^ 64 - 1 - b_capacity (s_buffer s))); [lia|]. cbn [orb].
  destruct (Z.gtb_spec (b_data (s_buffer s) + b_capacity (s_buffer s)) (a_base a + a_offset a)); [lia|]. by apply Z.eqb_eq.
Qed.

(** Where a string's bytes are in the address space. *)
Lemma str_range st s : arenas_ok st -> str_ok st s -> 0 < data s /\ data s + cap s <= 2 ^ 62 /\ 0 <= len s < cap s.
Proof.
  intros Ha (Hb & Hlo & Hhi & Hlen & _). destruct (proj1 (proj2 Ha) _ Hb) as [(H1 & H2 & H3) H4]. unfold home in *. lia.
Qed.

Lemma reserve_text_cases st s n :
  arenas_ok st -> str_ok st s -> 0 <= n < 2 ^ 63 - 1 ->
  string_reserve_text (Some s) n st = (KLI_NOMEM, Some s, st) \/
  exists s' st', string_reserve_text (Some s) n st = (0, Some s', st') /\ touches st s st' s' /\ n < cap s' /\ len s' = len s /\
    str_ok st' s' /\ text st' s' = text st s /\ (forall x, ~ in_free (home st s) x -> ldb (mem st') x = ldb (mem st) x).
Proof.
  intros Ha Hs Hn. pose proof (str_range _ _ Ha Hs) as (Hr1 & Hr2 & Hr3). pose proof Hs as (Hb & Hlo & Hhi & Hlen & Hnul).
  unfold string_reserve_text. rewrite storage_valid by done. unfold SIZE_MAX. rewrite (proj2 (Z.eqb_neq n _)) by lia. cbn [negb orb option_map].
  destruct (reserve_cases st (s_buffer s) (n + 1)) as [->|(b' & st' & -> & Ht & Hcap & Hgrow & Hl & Hin & Hcopy & Hfr & Hor)]; [done| |lia|left; by destruct s|right].
  { split; [done|right]. unfold home, data, cap, len in *. lia. }
  cbn [as_string option_map]. change (0 <? 0) with false. cbn iota. set (s' := KString b'). set (st2 := put_nul s' _ st').
  destruct s as [b]. cbn [s_buffer] in *. unfold home, data, cap, len in *. cbn [s_buffer] in *.
  destruct (Hin ltac:(lia)) as [Hin1 Hin2]. pose proof Ht as (_ & Har & (o & Eo & Ho) & Ea & _). unfold home in Eo, Ho. cbn [s_buffer] in Eo, Ho, Ea.
  assert (Hu : u64 (b_data b' + b_length b') = b_data b' + b_length b).
  { destruct (proj1 (proj2 Ha) _ Hb) as [(? & ? & ?) ?]. rewrite Eo in Hin2. cbn in Hin2. rewrite Hl, u64_id; lia. }
  assert (Hmem : forall x, ldb (mem st2) x = if b_data b' + b_length b =? x then 0 else ldb (mem st') x).
  { intros x. unfold st2, put_nul. cbn [set_mem mem s_buffer s' b_data b_length]. fold s'. rewrite ldb_stb. cbn [s' s_buffer]. by rewrite Hu. }
  assert (Hframe : forall x, ~ in_free (ar st (b_arena b)) x -> ldb (mem st2) x = ldb (mem st) x).
  { intros x Hx. rewrite Hmem. destruct (Z.eqb_spec (b_data b' + b_length b) x) as [<-|]; [|by apply Hfr].
    destruct Hor as [[-> ->]|Hfresh]; [done|]. exfalso. apply Hx. unfold in_free. rewrite Eo in Hin2. cbn in Hin2. lia. }
  exists s', st2. unfold touches, home, in_storage, data, cap, len, s'. cbn [s_buffer]. split_and!; try done; try lia.
  - intros x Hx _. by apply Hframe.
  - by exists o.
  - destruct Ht as (_ & _ & _ & _ & [?|?]); [by left|right; done].
  - unfold str_ok, home, data, cap, len. cbn [s_buffer]. rewrite Ea, Hmem, Hl, Z.eqb_refl.
    change (ar st2 (b_arena b)) with (ar st' (b_arena b)). rewrite Eo in *. cbn [a_base a_offset] in *. split_and!; try done; lia.
  - unfold text, data, len. cbn [s_buffer]. rewrite Hl. apply text_at_move. intros k Hk. rewrite Hmem.
    destruct (Z.eqb_spec (b_data b' + b_length b) (b_data b' + k)); [lia|]. by apply Hcopy.
Qed.

(** Bytes a program may pass: anywhere but in the part of an arena that has not
    been given out; they may be part of a string, of the very one written too. *)
Definition source_ok st (t n : Z) : Prop :=
  0 < t /\ 0 <= n < 2 ^ 62 /\ t + n <= 2 ^ 63 /\
  forall p x, a_base (ar st p) <> 0 -> t <= x < t + n -> ~ in_free (ar st p) x.

(** Storing [n] bytes after the first [k] of the text and terminating it. *)
Definition written (s : kli_string) (k t n : Z) st : kli K :=
  put_nul s (k + n) (set_mem (memmove (u64 (data s + k)) t n (mem st)) st).

Lemma write_ok st s st1 s1 k t n :
  arenas_ok st -> str_ok st s -> source_ok st t n -> touches st s st1 s1 -> str_ok st1 s1 -> text st1 s1 = text st s -> len s1 = len s ->
  (forall x, ~ in_free (home st s) x -> ldb (mem st1) x = ldb (mem st) x) -> 0 <= k <= len s -> k + n < cap s1 ->
  let st2 := written s1 k t n st1 in
  let s2 := with_length s1 (k + n) in
  touches st s st2 s2 /\ str_ok st2 s2 /\ text st2 s2 = text_at (mem st) (data s) k ++ text_at (mem st) t n.
Proof.
  intros Ha Hs (Ht & Hn & Htn & Hsrc) Htch Hs1 Etext Elen Hfr Hk Hfit st2 s2. pose proof Hs as (Hb & _).
  assert (Ha1 : arenas_ok st1) by (by eapply touches_arenas).
  pose proof (str_range _ _ Ha1 Hs1) as (Hr1 & Hr2 & Hr3).
  assert (Hmem : forall x, ldb (mem st2) x = if data s1 + (k + n) =? x then 0 else
      if (data s1 + k <=? x) && (x <? data s1 + k + n) then ldb (mem st) (t + (x - (data s1 + k))) else ldb (mem st1) x).
  { intros x. unfold st2, written, put_nul. cbn [set_mem mem]. fold (data s1). rewrite ldb_stb, !u64_id by lia.
    destruct (Z.eqb_spec (data s1 + (k + n)) x); [done|]. rewrite memmove_spec by lia.
    destruct (Z.leb_spec (data s1 + k) x), (Z.ltb_spec x (data s1 + k + n)); try done. cbn [andb].
    apply Hfr. apply Hsrc; [done|lia]. }
  pose proof Htch as (Hm & Har & Ho & Earena & Hdata).
  assert (Hout : forall x, ~ in_storage s1 x -> ldb (mem st2) x = ldb (mem st1) x).
  { intros x Hx. unfold in_storage in Hx. rewrite Hmem. destruct (Z.eqb_spec (data s1 + (k + n)) x); [lia|].
    destruct (Z.leb_spec (data s1 + k) x), (Z.ltb_spec x (data s1 + k + n)); try done. lia. }
  split_and!; unfold touches.
  - split_and!; try done. intros x Hx Hx'. rewrite Hout; [by apply Hm|]. unfold in_storage in *.
    destruct Hdata as [[-> ->]|[Hd1 Hd2]]; [done|]. intros Hin. apply Hx. unfold in_free.
    destruct Ho as (o & Eo & Ho). rewrite Eo in Hd2. cbn in Hd2. lia.
  - destruct Hs1 as (Hb1 & Hlo1 & Hhi1 & _). change (home st2 s2) with (home st1 s1). unfold str_ok.
    change (home st2 s2) with (home st1 s1). change (data s2) with (data s1). change (cap s2) with (cap s1). change (len s2) with (k + n).
    split_and!; try done; try lia. rewrite Hmem, Z.eqb_refl. done.
  - unfold text. change (data s2) with (data s1). change (len s2) with (k + n). rewrite text_at_app by lia. f_equal.
    + assert (E : text_at (mem st) (data s) (k + (len s - k)) = text_at (mem st1) (data s1) (k + (len s - k))).
      { replace (k + (len s - k)) with (len s) by lia. rewrite <- Elen at 2. symmetry. exact Etext. }
      rewrite !text_at_app in E by lia. apply app_inj_1 in E as [-> _]; [|unfold text_at; by rewrite !length_map].
      apply text_at_ext. intros x Hx. rewrite Hmem. destruct (Z.eqb_spec (data s1 + (k + n)) x); [lia|].
      destruct (Z.leb_spec (data s1 + k) x), (Z.ltb_spec x (data s1 + k + n)); try done. lia.
    + apply text_at_move. intros j Hj. rewrite Hmem. destruct (Z.eqb_spec (data s1 + (k + n)) (data s1 + k + j)); [lia|].
      rewrite (proj2 (Z.leb_le (data s1 + k) _)), (proj2 (Z.ltb_lt _ (data s1 + k + n))) by lia. cbn [andb]. f_equal. lia.
Qed.

Lemma set_own_mem st : set_mem (mem st) st = st.
Proof. by destruct st. Qed.

(** What an operation that stores [t'] in [s] may answer. *)
Definition stores st (s : kli_string) (t' : list Z) (r : Z * option kli_string * kli K) : Prop :=
  r = (KLI_NOMEM, Some s, st) \/
  exists s' st', r = (0, Some s', st') /\ touches st s st' s' /\ str_ok st' s' /\ text st' s' = t'.

Lemma assign_cases st s t n :
  arenas_ok st -> str_ok st s -> source_ok st t n ->
  if text_has_nul t n st then kli_string_assign_n (Some s) t n st = (KLI_INVAL, Some s, st)
  else stores st s (text_at (mem st) t n) (kli_string_assign_n (Some s) t n st).
Proof.
  intros Ha Hs Hsrc. pose proof Hsrc as (Ht & Hn & _). unfold kli_string_assign_n. rewrite storage_valid by done. cbn [negb].
  rewrite (proj2 (Z.eqb_neq t 0)), andb_false_r by lia. unfold SIZE_MAX. rewrite (proj2 (Z.eqb_neq n _)) by lia. cbn [orb].
  destruct (text_has_nul t n st) eqn:En.
  { destruct (Z.eqb_spec n 0) as [->|_]; [done|]. done. }
  rewrite andb_false_r.
  destruct (reserve_text_cases st s n Ha Hs ltac:(lia)) as [->|(s1 & st1 & -> & Htch & Hcap & Hlen & Hs1 & Etext & Hfr)]; [by left|right].
  change (0 <? 0) with false. cbn iota. pose proof (str_range _ _ Ha Hs) as (_ & _ & Hl).
  destruct (write_ok st s st1 s1 0 t n Ha Hs Hsrc Htch Hs1 Etext Hlen Hfr ltac:(lia) ltac:(lia)) as (H1 & H2 & H3).
  assert (E : written s1 0 t n st1 =
    put_nul s1 n (if negb (n =? 0) then set_mem (memmove (b_data (s_buffer s1)) t n (mem st1)) st1 else st1)).
  { pose proof (str_range st1 s1 ltac:(eapply touches_arenas; [exact Ha|apply Hs|exact Htch]) Hs1) as (? & ? & ?).
    unfold written. rewrite Z.add_0_r, Z.add_0_l, u64_id by lia. destruct (Z.eqb_spec n 0) as [->|]; [|done].
    cbn [negb]. f_equal. unfold memmove. change (0 =? 0) with true. rewrite orb_true_r. apply set_own_mem. }
  rewrite Z.add_0_l in *. rewrite <- E. exists (with_length s1 n), (written s1 0 t n st1). done.
Qed.

Lemma append_cases st s t n :
  arenas_ok st -> str_ok st s -> source_ok st t n ->
  if text_has_nul t n st then kli_string_append_n (Some s) t n st = (KLI_INVAL, Some s, st)
  else stores st s (text st s ++ text_at (mem st) t n) (kli_string_append_n (Some s) t n st).
Proof.
  intros Ha Hs Hsrc. pose proof Hsrc as (Ht & Hn & _). pose proof (str_range _ _ Ha Hs) as (Hr & Hc & Hl).
  unfold kli_string_append_n. rewrite storage_valid by done. cbn [negb]. destruct (Z.eqb_spec n 0) as [->|Hn0].
  { right. exists s, st. split; [done|]. split; [|split; [done|]].
    - pose proof Hs as (Hb & _). destruct (proj1 (proj2 Ha) _ Hb) as [(_ & _ & ?) _]. unfold touches. split_and!; try done; [|by left].
      exists (a_offset (home st s)). split; [by destruct (home st s)|unfold home; lia].
    - change (text_at (mem st) t 0) with (@nil Z). by rewrite app_nil_r. }
  rewrite (proj2 (Z.eqb_neq t 0)) by lia. cbn [orb]. destruct (text_has_nul t n st); [done|]. cbn [orb]. unfold SIZE_MAX.
  unfold len, cap in *. destruct (Z.gtb_spec (b_length (s_buffer s)) (2 ^ 64 - 1 - n)); [lia|].
  rewrite (proj2 (Z.eqb_neq (b_length (s_buffer s) + n) _)) by lia.
  destruct (reserve_text_cases st s (b_length (s_buffer s) + n) Ha Hs ltac:(lia)) as [->|(s1 & st1 & -> & Htch & Hcap & Hlen & Hs1 & Etext & Hfr)]; [by left|right].
  change (0 <? 0) with false. cbn iota. unfold len, cap in *.
  destruct (write_ok st s st1 s1 (len s) t n Ha Hs Hsrc Htch Hs1 Etext Hlen Hfr ltac:(unfold len; lia) ltac:(unfold cap, len; lia)) as (H1 & H2 & H3).
  exists (with_length s1 (len s + n)), (written s1 (len s) t n st1). split_and!; try done.
  unfold written, data, len. by rewrite Hlen.
Qed.

Lemma clear_cases st s :
  arenas_ok st -> str_ok st s ->
  exists s' st', kli_string_clear (Some s) st = (Some s', st') /\ touches st s st' s' /\ str_ok st' s' /\ text st' s' = [].
Proof.
  intros Ha Hs. cbn [kli_string_clear]. rewrite storage_valid by done. cbn [negb]. pose proof (str_range _ _ Ha Hs) as (Hr & Hc & Hl).
  pose proof Hs as (Hb & Hlo & Hhi & _). destruct (proj1 (proj2 Ha) _ Hb) as [(_ & _ & Ho) _].
  assert (Hmem : forall x, ldb (mem (put_nul s 0 st)) x = if data s =? x then 0 else ldb (mem st) x).
  { intros x. unfold put_nul. cbn [set_mem mem]. fold (data s). by rewrite ldb_stb, Z.add_0_r, u64_id by lia. }
  exists (with_length s 0), (put_nul s 0 st). split_and!; try done; unfold touches.
  - split_and!; try done; [| |by left].
    + intros x _ Hx. rewrite Hmem. unfold in_storage in Hx. destruct (Z.eqb_spec (data s) x); [lia|done].
    + exists (a_offset (home st s)). change (home (put_nul s 0 st) s) with (home st s). split; [by destruct (home st s)|unfold home; lia].
  - unfold str_ok. change (home (put_nul s 0 st) (with_length s 0)) with (home st s). change (data (with_length s 0)) with (data s).
    change (cap (with_length s 0)) with (cap s). change (len (with_length s 0)) with 0. split_and!; try done; try lia.
    rewrite Hmem, Z.add_0_r, Z.eqb_refl. done.
Qed.

Lemma init_cases st s0 arena n :
  arenas_ok st -> a_base (ar st arena) <> 0 -> 0 <= n < 2 ^ 62 ->
  kli_string_init_capacity (Some s0) arena n st = (KLI_NOMEM, Some (KString no_buffer), st) \/
  exists s' st', kli_string_init_capacity (Some s0) arena n st = (0, Some s', st') /\
    touches st (KString (Buffer 0 0 0 arena)) st' s' /\ str_ok st' s' /\ text st' s' = [].
Proof.
  intros Ha Hb Hn. pose proof (arena_nonnull _ _ Ha Hb) as Hne. destruct (proj1 (proj2 Ha) _ Hb) as [(H1 & H2 & H3) H4].
  unfold kli_string_init_capacity, SIZE_MAX, kli_buffer_init. rewrite (proj2 (Z.eqb_neq n _)) by lia.
  rewrite (proj2 (Z.eqb_neq arena 0)), (proj2 (Z.eqb_neq (a_base _) 0)) by done. cbn [orb].
  destruct (Z.gtb_spec (a_offset (ar st arena)) (a_capacity (ar st arena))); [lia|]. change (0 <? 0) with false. cbn iota.
  destruct (reserve_cases st (Buffer 0 0 0 arena) (n + 1)) as [->|(b' & st' & -> & Ht & Hcap & _ & Hl & Hin & _ & Hfr & _)];
    [done|split; [done|by left]|lia|by left|right].
  change (0 <? 0) with false. cbn iota. cbn [b_arena b_length] in *. set (s' := KString _). destruct (Hin ltac:(lia)) as [Hin1 Hin2].
  pose proof Ht as (Hm & Har & (o & Eo & Ho) & Ea & Hd). unfold home in Eo, Ho. cbn [s_buffer b_arena] in *. rewrite Eo in Hin2. cbn in Hin2.
  assert (Hmem : forall x, ldb (mem (put_nul s' 0 st')) x = if b_data b' =? x then 0 else ldb (mem st') x).
  { intros x. unfold put_nul. cbn [set_mem mem]. by rewrite ldb_stb, Z.add_0_r, u64_id by (cbn; lia). }
  exists s', (put_nul s' 0 st'). split_and!; try done.
  - unfold touches, home. cbn [s_buffer b_arena]. split_and!; try done; [|by exists o].
    intros x Hx Hx'. rewrite Hmem, Hm by done. destruct (Z.eqb_spec (b_data b') x) as [<-|]; [|done].
    exfalso. destruct Hd as [[E _]|[Hd1 Hd2]]; unfold data, cap, home in *; cbn [s_buffer b_data b_arena] in *; [lia|].
    apply Hx. unfold in_free, home. cbn. rewrite Eo in Hd2. cbn in Hd2. lia.
  - unfold str_ok, home, data, cap, len. cbn [s' s_buffer b_data b_capacity b_length b_arena]. rewrite Ea.
    change (ar (put_nul s' 0 st') arena) with (ar st' arena). rewrite Eo. cbn [a_base a_offset]. split_and!; try done; try lia.
    fold s'. rewrite Hmem, Z.add_0_r, Z.eqb_refl. done.
Qed.

(** ** The strings of a program *)

Inductive text_op :=
  | TInit (arena capacity : Z)
  | TAssign (t n : Z)
  | TAppend (t n : Z)
  | TChar (slot value : Z)
  | TClear.

Definition apply_op (op : text_op) (s : kli_string) st : Z * option kli_string * kli K :=
  match op with
  | TInit arena capacity => kli_string_init_capacity (Some s) arena capacity st
  | TAssign t n => kli_string_assign_n (Some s) t n st
  | TAppend t n => kli_string_append_n (Some s) t n st
  | TChar slot value => kli_string_append_char slot (Some s) value st
  | TClear => let '(s, st) := kli_string_clear (Some s) st in (0, s, st)
  end.

Definition is_init (op : text_op) : bool := match op with TInit _ _ => true | _ => false end.

(** An operation on string [i]; a string that could not be initialised is none. *)
Definition string_step (i : Z) (op : text_op) st (ss : gmap Z kli_string) : Z * kli K * gmap Z kli_string :=
  let '(status, s, st) := apply_op op (default (KString no_buffer) (ss !! i)) st in
  (status, st, match s with
               | Some s => if is_init op && negb (status =? 0) then delete i ss else <[i := s]> ss
               | None => ss
               end).

(** Calls a program may make. *)
Definition op_ok (op : text_op) (i : Z) st (ss : gmap Z kli_string) : Prop :=
  match op with
  | TInit arena capacity => a_base (ar st arena) <> 0 /\ 0 <= capacity < 2 ^ 62
  | TAssign t n | TAppend t n => is_Some (ss !! i) /\ source_ok st t n
  | TChar slot value => is_Some (ss !! i) /\ 0 < slot < 2 ^ 62 /\ 0 < value < 256 /\
      forall p, a_base (ar st p) <> 0 -> ~ a_base (ar st p) <= slot < a_base (ar st p) + a_capacity (ar st p)
  | TClear => is_Some (ss !! i)
  end.

(** What the operation means on byte strings: the new text, from the old one and
    the bytes in memory when the call is made. *)
Definition new_text (op : text_op) (m : gmap Z Z) (old : list Z) : list Z :=
  match op with
  | TInit _ _ | TClear => []
  | TAssign t n => text_at m t n
  | TAppend t n => old ++ text_at m t n
  | TChar _ value => old ++ [value]
  end.

(** The bytes given contain a NUL. *)
Definition bad_source (op : text_op) (m : gmap Z Z) : Prop :=
  match op with TAssign t n | TAppend t n => 0 ∈ text_at m t n | _ => False end.

Definition texts st (ss : gmap Z kli_string) : gmap Z (list Z) := text st <$> ss.

Lemma has_nul_iff st t n : 0 < t -> t + n <= 2 ^ 63 -> text_has_nul t n st = true <-> 0 ∈ text_at (mem st) t n.
Proof.
  intros Ht Hn. unfold text_has_nul, text_at. rewrite existsb_exists. split.
  - intros (i & Hi & E). apply list_elem_of_In, elem_of_seqZ in Hi. rewrite u64_id in E by lia. apply Z.eqb_eq in E.
    apply list_elem_of_fmap. exists i. split; [done|]. apply elem_of_seqZ. lia.
  - intros (i & E & Hi)%list_elem_of_fmap. apply elem_of_seqZ in Hi. exists i. split; [apply list_elem_of_In, elem_of_seqZ; lia|].
    rewrite u64_id by lia. by apply Z.eqb_eq.
Qed.

(** A store outside the arenas. *)
Lemma poke_world st ss slot v :
  world_ok st ss -> (forall p, a_base (ar st p) <> 0 -> ~ a_base (ar st p) <= slot < a_base (ar st p) + a_capacity (ar st p)) ->
  let st' := set_mem (stb (mem st) slot v) st in
  world_ok st' ss /\ texts st' ss = texts st ss.
Proof.
  intros [Ha Hs Hap] Hout st'.
  assert (Hmem : forall j t x, ss !! j = Some t -> in_storage t x -> ldb (mem st') x = ldb (mem st) x).
  { intros j t x Hj Hx. unfold st'. cbn [set_mem mem]. rewrite ldb_stb. destruct (Z.eqb_spec slot x) as [->|]; [exfalso|done].
    destruct (Hs j t Hj) as (Hb & Hlo & Hhi & _). destruct (proj1 (proj2 Ha) _ Hb) as [(_ & _ & ?) _].
    apply (Hout _ Hb). unfold in_storage, home in *. lia. }
  split; [split; [done| |done]|].
  - intros j t Hj. pose proof (Hs j t Hj) as (Hb & Hlo & Hhi & Hlen & Hnul). split_and!; try done; try lia.
    rewrite (Hmem j t) by (done || unfold in_storage; lia). done.
  - apply map_eq. intros j. unfold texts. rewrite !lookup_fmap. destruct (ss !! j) as [t|] eqn:Hj; [|done]. cbn. f_equal.
    apply text_at_ext. intros x Hx. apply (Hmem j t); [done|]. destruct (Hs j t Hj) as (_ & _ & _ & ? & _). unfold in_storage. lia.
Qed.

(** From the answer for one string to the strings of the program. *)
Lemma stores_world st ss i s t' s' st' :
  world_ok st ss -> (forall j t, j <> i -> ss !! j = Some t -> apart s t) -> a_base (home st s) <> 0 ->
  touches st s st' s' -> str_ok st' s' -> text st' s' = t' ->
  world_ok st' (<[i := s']> ss) /\ texts st' (<[i := s']> ss) = <[i := t']> (texts st ss).
Proof.
  intros Hw Hap Hb Ht Hok Et. destruct (touches_world st ss i s st' s' Hw Hap Hb Ht Hok) as [Hw' Hother]. split; [done|].
  apply map_eq. intros j. unfold texts. rewrite lookup_fmap. destruct (Z.eq_dec j i) as [->|Hn].
  - rewrite !lookup_insert_eq. cbn. by rewrite Et.
  - rewrite !lookup_insert_ne, lookup_fmap by done. destruct (ss !! j) as [t|] eqn:Hj; [|done]. cbn. f_equal. by apply (Hother j).
Qed.

Lemma world_home st ss i s : world_ok st ss -> ss !! i = Some s -> a_base (home st s) <> 0 /\ forall j t, j <> i -> ss !! j = Some t -> apart s t.
Proof.
  intros [_ Hs Hap] Hi. split; [apply (Hs i s Hi)|]. intros j t Hn Hj. apply (Hap i j); [by apply not_eq_sym|done..].
Qed.

(** The answer of an operation that takes bytes [t'] from memory. *)
Lemma stores_refines st ss i s t' r :
  world_ok st ss -> ss !! i = Some s -> stores st s t' r ->
  let '(status, s', st') := r in
  exists s2, s' = Some s2 /\ world_ok st' (<[i := s2]> ss) /\
    ((status = 0 /\ texts st' (<[i := s2]> ss) = <[i := t']> (texts st ss)) \/
     (status = KLI_NOMEM /\ texts st' (<[i := s2]> ss) = texts st ss)).
Proof.
  intros Hw Hi. destruct (world_home _ _ _ _ Hw Hi) as [Hb Hap]. intros [->|(s' & st' & -> & Ht & Hok & Et)].
  - exists s. split; [done|]. rewrite insert_id by done. auto.
  - exists s'. destruct (stores_world st ss i s t' s' st' Hw Hap Hb Ht Hok Et). auto.
Qed.

Lemma delete_world st ss i : world_ok st ss -> world_ok st (delete i ss) /\ texts st (delete i ss) = delete i (texts st ss).
Proof.
  intros [Ha Hs Hap]. split; [|by unfold texts; rewrite fmap_delete]. split; [done| |].
  - intros j t [_ Hj]%lookup_delete_Some. by apply (Hs j).
  - intros j k t t' Hn [_ Hj]%lookup_delete_Some [_ Hk]%lookup_delete_Some. by apply (Hap j k).
Qed.

Lemma char_cases st ss i s slot v :
  world_ok st ss -> ss !! i = Some s -> op_ok (TChar slot v) i st ss ->
  let st0 := set_mem (stb (mem st) slot v) st in
  world_ok st0 ss /\ texts st0 ss = texts st ss /\ stores st0 s (text st s ++ [v]) (kli_string_append_char slot (Some s) v st).
Proof.
  intros Hw Hi (_ & Hslot & Hv & Hout) st0. destruct (poke_world st ss slot v Hw Hout) as [Hw0 Et]. fold st0 in Hw0, Et.
  split; [done|]. split; [done|]. unfold kli_string_append_char. rewrite (proj2 (Z.eqb_neq v 0)) by lia. fold st0.
  assert (Hsrc : source_ok st0 slot 1).
  { split_and!; try lia. intros p x Hb Hx [H1 H2]. apply (Hout p Hb). change (ar st0 p) with (ar st p) in *.
    destruct (proj1 (proj2 (wo_arenas _ _ Hw)) p Hb) as [(_ & _ & ?) _]. lia. }
  assert (Eb : text_at (mem st0) slot 1 = [v]).
  { change (text_at (mem st0) slot 1) with [ldb (mem st0) (slot + 0)]. unfold st0. cbn [set_mem mem]. by rewrite Z.add_0_r, ldb_stb, Z.eqb_refl. }
  pose proof (append_cases st0 s slot 1 (wo_arenas _ _ Hw0) (wo_str _ _ Hw0 i s Hi) Hsrc) as Hc.
  destruct (text_has_nul slot 1 st0) eqn:En.
  - exfalso. apply has_nul_iff in En; [|lia..]. rewrite Eb in En. apply list_elem_of_singleton in En. lia.
  - rewrite Eb in Hc. assert (E : text st0 s = text st s); [|by rewrite <- E].
    apply (f_equal (fun m => m !! i)) in Et. unfold texts in Et. rewrite !lookup_fmap, Hi in Et. by injection Et.
Qed.

(** C32: The dynamic strings of a program are byte strings.  Whatever strings share
    an arena, and even when the bytes given are part of a string, of the very one
    written too: an operation either makes the text of its string what it should
    be, or fails and changes no text; no other string ever changes; and it is
    refused as invalid exactly when the bytes given contain a NUL. *)
Theorem strings_refine i op st ss :
  world_ok st ss -> op_ok op i st ss ->
  let '(status, st', ss') := string_step i op st ss in
  world_ok st' ss' /\
  ((status = 0 /\ ~ bad_source op (mem st) /\
    texts st' ss' = <[i := new_text op (mem st) (default [] (texts st ss !! i))]> (texts st ss)) \/
   (status = KLI_NOMEM /\ ~ bad_source op (mem st) /\ texts st' ss' = if is_init op then delete i (texts st ss) else texts st ss) \/
   (status = KLI_INVAL /\ bad_source op (mem st) /\ texts st' ss' = texts st ss)).
Proof.
  intros Hw Hop. pose proof (wo_arenas _ _ Hw) as Ha. unfold string_step. destruct op as [arena c|t n|t n|slot v|]; cbn [apply_op is_init andb].
  - destruct Hop as [Hb Hc]. destruct (delete_world st ss i Hw) as [Hwd Ed].
    destruct (init_cases st (default (KString no_buffer) (ss !! i)) arena c Ha Hb Hc) as [->|(s' & st' & -> & Ht & Hok & Et)].
    { change (negb (KLI_NOMEM =? 0)) with true. cbn iota. split; [done|]. right. left. split_and!; [done|intros []|done]. }
    change (negb (0 =? 0)) with false. cbn iota.
    destruct (stores_world st (delete i ss) i (KString (Buffer 0 0 0 arena)) [] s' st' Hwd) as [Hw' Et']; try done.
    + intros j t Hn [_ Hj]%lookup_delete_Some. pose proof (wo_str _ _ Hw j t Hj) as Hst. destruct (str_range _ _ Ha Hst) as (? & _).
      left. unfold data, cap. cbn [s_buffer b_data b_capacity]. fold (data t). lia.
    + rewrite insert_delete_eq in Hw', Et'. split; [done|]. left. split_and!; [done|intros []|]. rewrite Et', Ed. by rewrite insert_delete_eq.
  - destruct Hop as [[s Hi] Hsrc]. rewrite Hi. change (default (KString no_buffer) (Some s)) with s.
    pose proof (assign_cases st s t n Ha (wo_str _ _ Hw i s Hi) Hsrc) as Hc. pose proof Hsrc as (Ht & _ & Htn & _).
    pose proof (has_nul_iff st t n Ht Htn) as Hnul. destruct (text_has_nul t n st).
    + rewrite Hc. rewrite insert_id by done. split; [done|]. right. right. split_and!; [done|by apply Hnul|done].
    + pose proof (stores_refines st ss i s _ _ Hw Hi Hc) as Hr. destruct (kli_string_assign_n _ _ _ _) as [[status s'] st'].
      destruct Hr as (s2 & -> & Hw' & [[-> Et]|[-> Et]]); (split; [done|]); [left|right; left]; (split_and!; [done|by intros E%Hnul|done]).
  - destruct Hop as [[s Hi] Hsrc]. rewrite Hi. change (default (KString no_buffer) (Some s)) with s.
    pose proof (append_cases st s t n Ha (wo_str _ _ Hw i s Hi) Hsrc) as Hc. pose proof Hsrc as (Ht & _ & Htn & _).
    pose proof (has_nul_iff st t n Ht Htn) as Hnul. destruct (text_has_nul t n st).
    + rewrite Hc. rewrite insert_id by done. split; [done|]. right. right. split_and!; [done|by apply Hnul|done].
    + pose proof (stores_refines st ss i s _ _ Hw Hi Hc) as Hr. destruct (kli_string_append_n _ _ _ _) as [[status s'] st'].
      assert (Eold : default [] (texts st ss !! i) = text st s) by (unfold texts; rewrite lookup_fmap, Hi; done).
      rewrite Eold. destruct Hr as (s2 & -> & Hw' & [[-> Et]|[-> Et]]); (split; [done|]); [left|right; left]; (split_and!; [done|by intros E%Hnul|done]).
  - pose proof Hop as [[s Hi] _]. rewrite Hi. change (default (KString no_buffer) (Some s)) with s.
    assert (Eold : default [] (texts st ss !! i) = text st s) by (unfold texts; rewrite lookup_fmap, Hi; done). rewrite Eold.
    destruct (char_cases st ss i s slot v Hw Hi Hop) as (Hw0 & Et0 & Hc).
    pose proof (stores_refines _ ss i s _ _ Hw0 Hi Hc) as Hr. destruct (kli_string_append_char _ _ _ _) as [[status s'] st']. rewrite Et0 in Hr.
    destruct Hr as (s2 & -> & Hw' & [[-> Et]|[-> Et]]); (split; [done|]); [left|right; left]; (split_and!; [done|intros []|done]).
  - destruct Hop as [s Hi]. rewrite Hi. change (default (KString no_buffer) (Some s)) with s. destruct (clear_cases st s Ha (wo_str _ _ Hw i s Hi)) as (s' & st' & -> & Ht & Hok & Et).
    destruct (world_home _ _ _ _ Hw Hi) as [Hb Hap]. destruct (stores_world st ss i s [] s' st' Hw Hap Hb Ht Hok Et) as [Hw' Et'].
    split; [done|]. left. split_and!; [done|intros []|done].
Qed.
End Strings.

(** * A string appended to itself *)

(** One arena with the string "hi", and the name "a" elsewhere. *)
Definition demo_program {K} (k : K) : kli K :=
  Kli (list_to_map [(0x500, 97); (0x1000, 104); (0x1001, 105)]) {[ 1 := Arena 0x1000 0x400 64 0 ]} k.

Definition demo_strings : gmap Z kli_string := {[ 10 := KString (Buffer 0x1000 2 64 1) ]}.

Lemma demo_ar {K} (k : K) p : ar (demo_program k) p = if p =? 1 then Arena 0x1000 0x400 64 0 else no_arena.
Proof.
  unfold ar, demo_program. cbn [arenas]. destruct (Z.eqb_spec p 1) as [->|Hn]; [by rewrite lookup_singleton_eq|by rewrite lookup_singleton_ne].
Qed.

Lemma demo_world {K} (k : K) : world_ok (demo_program k) demo_strings.
Proof.
  unfold demo_strings. split.
  - split_and!; [done|..].
    + intros p. rewrite demo_ar. destruct (p =? 1); [|done]. intros _. unfold arena_ok. cbn. lia.
    + intros p q Hn. rewrite !demo_ar. destruct (Z.eqb_spec p 1), (Z.eqb_spec q 1); try done. lia.
  - intros i s [<- <-]%lookup_singleton_Some. split_and!; vm_compute; congruence.
  - intros i j s s' Hn [<- <-]%lookup_singleton_Some [<- <-]%lookup_singleton_Some. done.
Qed.

Lemma strings_refine_witness :
  let '(status, st, ss) := string_step 10 (TAppend 0x1000 2) (demo_program tt) demo_strings in
  status = 0 /\ world_ok st ss /\ texts st ss = {[ 10 := [104; 105; 104; 105] ]}.
Proof.
  pose proof (strings_refine 10 (TAppend 0x1000 2) (demo_program tt) demo_strings) as HT.
  assert (Es : fst (fst (string_step 10 (TAppend 0x1000 2) (demo_program tt) demo_strings)) = 0) by (vm_compute; reflexivity).
  destruct (string_step 10 (TAppend 0x1000 2) (demo_program tt) demo_strings) as [[status st] ss]. cbn [fst] in Es. subst status.
  destruct HT as [Hw HT].
  - exact (demo_world tt).
  - split; [eexists; reflexivity|]. split_and!; try lia. intros p x. rewrite demo_ar. destruct (p =? 1); [|done]. unfold in_free. cbn. lia.
  - split; [done|]. split; [done|]. destruct HT as [(_ & _ & ->)|[(E & _)|(E & _)]]; [vm_compute; reflexivity|discriminate..].
Defined.
