(* ===== verification/KarmDigits.v ===== *)
(** Numbers printed by the runtime of user programs (kli_utoa, kli_itoa) read
    back as the same numbers, and never leave their buffer. *)

From S2P Require Import Prelude.
From S2P Require Import Bytes.
From S2P Require Import Karm.
From S2P Require Import KarmStrings.
Open Scope arm.

(** The number a decimal numeral denotes, and a numeral with a sign. *)
Definition dec (l : list Z) : Z := foldl (fun acc c => 10 * acc + (c - 48)) 0 l.

Definition signed_dec (l : list Z) : Z := match l with [] => 0 | c :: l' => if c =? 45 then - dec l' else dec l end.

Definition is_digit (c : Z) : Prop := 48 <= c <= 57.

(** The value of digits, least significant first. *)
Fixpoint le_dec (l : list Z) : Z := match l with [] => 0 | c :: l' => (c - 48) + 10 * le_dec l' end.

Lemma dec_reverse l : dec (reverse l) = le_dec l.
Proof.
  unfold dec. induction l as [|c l IH]; [done|]. rewrite reverse_cons, foldl_snoc. cbn [le_dec]. rewrite IH. lia.
Qed.

Lemma digits_loop_spec n : forall fuel v tmp,
  (n < fuel)%nat -> 0 <= v < 10 ^ Z.of_nat n -> (length tmp + n <= 24)%nat ->
  exists ds, digits_loop fuel v tmp = tmp ++ ds /\ le_dec ds = v /\ Forall is_digit ds /\ (length ds <= n)%nat /\ (0 < v -> ds <> []).
Proof.
  induction n as [|n IH]; intros [|fuel] v tmp Hf Hv Hl; try lia; cbn [digits_loop]; (destruct (Z.gtb_spec v 0) as [Hp|Hp];
    [|cbn [andb]; exists []; rewrite app_nil_r; split_and!; try done; cbn; lia]).
  { cbn in Hv. lia. }
  rewrite (proj2 (Z.ltb_lt (Z.of_nat (length tmp)) 24)) by lia. cbn [andb].
  destruct (IH fuel (v / 10) (tmp ++ [48 + v mod 10])) as (ds & E & Ed & HF & Hlen & _); [lia| |rewrite length_app; cbn; lia|].
  { rewrite Nat2Z.inj_succ, Z.pow_succ_r in Hv by lia. split; [apply Z.div_pos; lia|]. apply Z.div_lt_upper_bound; lia. }
  exists ((48 + v mod 10) :: ds). pose proof (Z.mod_pos_bound v 10 ltac:(lia)). pose proof (Z.div_mod v 10 ltac:(lia)).
  split_and!; [by rewrite E, <- app_assoc|cbn [le_dec]; rewrite Ed; lia|constructor; [unfold is_digit; lia|done]|cbn; lia|done].
Qed.

Lemma digits_spec v : 0 <= v < 2 ^ 64 -> le_dec (digits v) = v /\ Forall is_digit (digits v) /\ (0 < length (digits v) <= 20)%nat.
Proof.
  intros Hv. unfold digits. destruct (Z.eqb_spec v 0) as [->|Hn].
  { split_and!; try done; [repeat constructor; done|cbn; lia..]. }
  destruct (digits_loop_spec 20 25 v []) as (ds & E & Ed & HF & Hl & Hne); [lia|change (Z.of_nat 20) with 20; lia|cbn; lia|].
  rewrite E. cbn [app]. split_and!; try done. destruct ds; [by destruct (Hne ltac:(lia))|cbn; lia].
Qed.

Lemma text_at_cons m a n : 0 <= n -> text_at m a (1 + n) = ldb m a :: text_at m (a + 1) n.
Proof. intros Hn. rewrite text_at_app by lia. change (text_at m a 1) with [ldb m (a + 0)]. by rewrite Z.add_0_r. Qed.

(** Writing digits: as many as fit before the terminator. *)
Lemma emit_spec l : forall buf size out m,
  0 <= buf -> 0 <= out < size -> buf + size <= 2 ^ 64 -> size < 2 ^ 64 ->
  let '(out', m') := emit_loop l buf size out m in
  let k := Z.min (Z.of_nat (length l)) (size - 1 - out) in
  out' = out + k /\ text_at m' (buf + out) k = take (Z.to_nat k) l /\
  (forall x, ~ buf + out <= x < buf + out + k -> ldb m' x = ldb m x).
Proof.
  induction l as [|c l IH]; intros buf size out m Hb Ho Hs Hm; cbn [emit_loop].
  { cbn [length]. rewrite Z.min_l by lia. split_and!; [lia|done|done]. }
  rewrite (u64_id (out + 1)) by lia. destruct (Z.ltb_spec (out + 1) size) as [Hlt|Hge].
  - rewrite u64_id by lia. specialize (IH buf size (out + 1) (stb m (buf + out) c) Hb ltac:(lia) Hs Hm).
    destruct (emit_loop l buf size (out + 1) _) as [out' m']. cbv zeta in *. cbn [length].
    set (k := Z.min (Z.of_nat (length l)) (size - 1 - (out + 1))) in *.
    assert (Hk : Z.min (Z.of_nat (S (length l))) (size - 1 - out) = 1 + k) by (unfold k; lia). rewrite Hk.
    assert (0 <= k) by (unfold k; lia). destruct IH as (-> & Et & Hf). split_and!.
    + lia.
    + rewrite text_at_cons by lia. rewrite <- Z.add_assoc, Et, Hf, ldb_stb, Z.eqb_refl by lia.
      replace (Z.to_nat (1 + k)) with (S (Z.to_nat k)) by lia. done.
    + intros x Hx. rewrite Hf, ldb_stb by lia. destruct (Z.eqb_spec (buf + out) x); [lia|done].
  - cbv zeta. rewrite Z.min_r by (cbn; lia). replace (size - 1 - out) with 0 by lia. split_and!; [lia|done|done].
Qed.

Lemma number_text v : 0 <= v < 2 ^ 64 ->
  let l := reverse (digits v) in
  dec l = v /\ signed_dec l = v /\ 0 < Z.of_nat (length l) <= 20.
Proof.
  intros Hv l. destruct (digits_spec v Hv) as (Hd & HF & Hl). unfold l. rewrite length_reverse, dec_reverse. split_and!; try done; try lia.
  assert (HF' : Forall is_digit (reverse (digits v))) by (by apply Forall_reverse).
  pose proof (dec_reverse (digits v)) as E. rewrite Hd in E. destruct (reverse (digits v)) as [|c l'] eqn:El.
  { apply (f_equal length) in El. rewrite length_reverse in El. cbn in El. lia. }
  apply Forall_cons in HF' as [Hc _]. unfold signed_dec. destruct (Z.eqb_spec c 45); [unfold is_digit in Hc; lia|done].
Qed.

Lemma emit_all l buf size out m :
  0 <= buf -> 0 <= out -> out + Z.of_nat (length l) < size -> buf + size <= 2 ^ 64 -> size < 2 ^ 64 ->
  exists m', emit_loop l buf size out m = (out + Z.of_nat (length l), m') /\ text_at m' (buf + out) (Z.of_nat (length l)) = l /\
    (forall x, ~ buf + out <= x < buf + out + Z.of_nat (length l) -> ldb m' x = ldb m x).
Proof.
  intros Hb Ho Hfit Hs Hm. pose proof (emit_spec l buf size out m Hb ltac:(lia) Hs Hm) as He.
  destruct (emit_loop l buf size out m) as [out' m']. cbv zeta in He. rewrite Z.min_l in He by lia. destruct He as (-> & Et & Hf).
  exists m'. rewrite Et, Nat2Z.id, take_ge by lia. done.
Qed.

(** The result of printing: [n] bytes, a terminator, and nothing else changed. *)
Definition printed (m m' : gmap Z Z) (buf out : Z) (l : list Z) : Prop :=
  text_at m' buf out = l /\ ldb m' (buf + out) = 0 /\ forall x, ~ buf <= x <= buf + out -> ldb m' x = ldb m x.

(** Printed numbers read back: with a buffer of the 22 bytes the header asks
    for, kli_utoa writes a numeral that denotes its unsigned argument and kli_itoa
    one that denotes its signed argument, the most negative one too, both with a
    terminator and without touching anything else. *)
Theorem numbers_roundtrip buf size m :
  0 < buf -> 22 <= size < 2 ^ 64 -> buf + size <= 2 ^ 64 ->
  (forall v, 0 <= v < 2 ^ 64 -> let '(out, m') := kli_utoa v buf size m in
    out < size /\ printed m m' buf out (text_at m' buf out) /\ dec (text_at m' buf out) = v) /\
  (forall v, - 2 ^ 63 <= v < 2 ^ 63 -> let '(out, m') := kli_itoa v buf size m in
    out < size /\ printed m m' buf out (text_at m' buf out) /\ signed_dec (text_at m' buf out) = v).
Proof.
  intros Hb Hs Hbs.
  assert (Hend : forall m' out, 0 <= out < size -> (forall x, ~ buf <= x < buf + out -> ldb m' x = ldb m x) ->
    let m2 := stb m' (u64 (buf + out)) 0 in text_at m2 buf out = text_at m' buf out /\ printed m m2 buf out (text_at m2 buf out)).
  { intros m' out Ho Hf m2. unfold m2. rewrite u64_id by lia. split; [|split_and!; [done|by rewrite ldb_stb, Z.eqb_refl|]].
    - apply text_at_ext. intros x Hx. rewrite ldb_stb. destruct (Z.eqb_spec (buf + out) x); [lia|done].
    - intros x Hx. rewrite ldb_stb. destruct (Z.eqb_spec (buf + out) x); [lia|]. apply Hf. lia. }
  split; intros v Hv.
  - unfold kli_utoa. rewrite (proj2 (Z.eqb_neq size 0)) by lia. destruct (number_text v Hv) as (Hd & _ & Hl).
    set (l := reverse (digits v)) in *. destruct (emit_all l buf size 0 m) as (m' & -> & Et & Hf); [lia..|]. rewrite Z.add_0_r in Et, Hf. rewrite Z.add_0_l.
    destruct (Hend m' (Z.of_nat (length l)) ltac:(lia) Hf) as [E Hp]. split_and!; [lia|done|]. by rewrite E, Et.
  - unfold kli_itoa. rewrite (proj2 (Z.eqb_neq size 0)) by lia. destruct (Z.ltb_spec v 0) as [Hneg|Hpos].
    + rewrite (proj2 (Z.ltb_lt 1 size)) by lia. cbn [andb].
      assert (Emag : u64 (not64 (u64 v) + 1) = - v).
      { unfold not64, u64, Z.lnot. Z.to_euclidean_division_equations; lia. }
      rewrite Emag. destruct (number_text (- v) ltac:(lia)) as (Hd & _ & Hl). set (l := reverse (digits (- v))) in *.
      destruct (emit_all l buf size 1 (stb m buf 45)) as (m' & -> & Et & Hf); [lia..|].
      destruct (Hend m' (1 + Z.of_nat (length l)) ltac:(lia)) as [E Hp].
      { intros x Hx. rewrite Hf, ldb_stb by lia. destruct (Z.eqb_spec buf x); [lia|done]. }
      split_and!; [lia|done|]. rewrite E, text_at_cons, Et, Hf, ldb_stb, Z.eqb_refl by lia. cbn. rewrite Hd. lia.
    + cbn [andb]. destruct (number_text v ltac:(lia)) as (_ & Hd & Hl). set (l := reverse (digits v)) in *.
      destruct (emit_all l buf size 0 m) as (m' & -> & Et & Hf); [lia..|]. rewrite Z.add_0_r in Et, Hf. rewrite Z.add_0_l.
      destruct (Hend m' (Z.of_nat (length l)) ltac:(lia) Hf) as [E Hp]. split_and!; [lia|done|]. by rewrite E, Et.
Qed.

Lemma numbers_roundtrip_witness :
  let '(out, m) := kli_itoa (- 2 ^ 63) 0x1000 22 ∅ in
  out < 22 /\ printed ∅ m 0x1000 out (text_at m 0x1000 out) /\ signed_dec (text_at m 0x1000 out) = - 2 ^ 63.
Proof. apply (numbers_roundtrip 0x1000 22 ∅); lia. Defined.
