(* ===== verification/KarmFile.v ===== *)
(** Whole-file transfers and mapped arenas of the runtime of user programs
    (programs/libkarm file.c and arena_map.c), over the system calls as an
    interface: what they return and store, and what the programs rely on. *)

From S2P Require Import Prelude.
From S2P Require Import Bytes.
From S2P Require Import Karm.
From S2P Require Import KarmStrings.
Open Scope arm.

Definition KLI_FILE_IO_CHUNK : Z := 256.
Definition ARM_FILE_TYPE_REGULAR : Z := 1.
Definition ARM_O_RDONLY : Z := 0.

(** The system-call stubs of libkarm/syscall.h: each acts on the memory of the
    caller and on the kernel.  [kli_stat_v2] also gives the type and the size it
    stores in its structure. *)
Class KliCalls (K : Type) := {
  kli_mmap : Z -> Z -> Z -> kli K -> Z * kli K;
  kli_munmap : Z -> Z -> kli K -> Z * kli K;
  kli_stat_v2 : Z -> kli K -> Z * Z * Z * kli K;
  kli_open : Z -> Z -> kli K -> Z * kli K;
  kli_close : Z -> kli K -> Z * kli K;
  kli_read : Z -> Z -> Z -> kli K -> Z * kli K;
  kli_write : Z -> Z -> Z -> kli K -> Z * kli K }.

(** The conversion of a [long] to [int]. *)
Definition int_of (v : Z) : Z := let w := u32 v in if w <? 2 ^ 31 then w else w - 2 ^ 32.

Section File.
Context {K : Type} `{KliCalls K}.
Implicit Type st : kli K.

(** * arena_map.c *)

Definition mapped_arena_clear (arena : Z) st : kli K := if arena =? 0 then st else set_ar arena no_arena st.

Definition kli_arena_map (arena capacity : Z) st : Z * kli K :=
  if (arena =? 0) || (capacity =? 0) then (KLI_INVAL, st) else
  let st := mapped_arena_clear arena st in
  let '(address, st) := kli_mmap 0 capacity 0 st in
  if address <? 0 then (address, st) else
  let '(status, st) := kli_arena_init arena address capacity st in
  if negb (status =? 0) then let '(_, st) := kli_munmap address capacity st in (KLI_INVAL, st) else
  let a := ar st arena in
  (0, set_ar arena (Arena (a_base a) (a_capacity a) (a_offset a) capacity) st).

Definition kli_arena_destroy (arena : Z) st : Z * kli K :=
  let a := ar st arena in
  if (arena =? 0) || (a_base a =? 0) || (a_mapping_size a =? 0) then (KLI_INVAL, st) else
  let '(status, st) := kli_munmap (a_base a) (a_mapping_size a) st in
  if status <? 0 then (status, st) else (0, mapped_arena_clear arena st).

(** * file.c *)

Definition file_arena_is_valid (arena : Z) st : bool :=
  negb (arena =? 0) && negb (a_base (ar st arena) =? 0) && (a_offset (ar st arena) <=? a_capacity (ar st arena)).

(** Status and size. *)
Definition file_regular_size (path : Z) st : Z * Z * kli K :=
  if path =? 0 then (KLI_INVAL, 0, st) else
  let '(status, type, size, st) := kli_stat_v2 path st in
  if status <? 0 then (status, 0, st) else
  if negb (type =? ARM_FILE_TYPE_REGULAR) then (KLI_INVAL, 0, st) else (0, size, st).

Fixpoint write_all_loop (fuel : nat) (fd data size offset : Z) st : Z * kli K :=
  match fuel with
  | O => (0, st)
  | S fuel' =>
      if negb (offset <? size) then (0, st) else
      let remaining := size - offset in
      let '(written, st) := kli_write fd (u64 (data + offset)) remaining st in
      if written <? 0 then (written, st) else
      if written =? 0 then (KLI_AGAIN, st) else
      if written >? remaining then (KLI_INVAL, st) else
      write_all_loop fuel' fd data size (offset + written) st
  end.

Definition kli_fd_write_all (fd data size : Z) st : Z * kli K :=
  if size =? 0 then (0, st) else
  if data =? 0 then (KLI_INVAL, st) else
  write_all_loop (S (Z.to_nat size)) fd data size 0 st.

(** [arena->offset = arena_offset;] *)
Definition restore (arena arena_offset : Z) st : kli K :=
  let a := ar st arena in set_ar arena (Arena (a_base a) (a_capacity a) arena_offset (a_mapping_size a)) st.

(** The endless read loop, with the number of rounds allowed; [chunk] is the
    address of the local array. *)
Fixpoint read_all_loop (fuel : nat) (fd chunk : Z) (temporary : kli_buffer) st : Z * kli_buffer * kli K :=
  match fuel with
  | O => (KLI_AGAIN, temporary, st)
  | S fuel' =>
      let '(count, st) := kli_read (int_of fd) chunk KLI_FILE_IO_CHUNK st in
      if count <? 0 then (count, temporary, st) else
      if count =? 0 then (0, temporary, st) else
      if count >? KLI_FILE_IO_CHUNK then (KLI_INVAL, temporary, st) else
      let '(result, b, st) := kli_buffer_append (Some temporary) chunk count st in
      let temporary := default temporary b in
      if result <? 0 then (result, temporary, st) else read_all_loop fuel' fd chunk temporary st
  end.

(** Status and the buffer stored through [out]. *)
Definition kli_file_read_all (fuel : nat) (chunk path arena : Z) (out : option kli_buffer) st : Z * option kli_buffer * kli K :=
  match out with
  | None => (KLI_INVAL, None, st)
  | Some _ =>
      let out := Some no_buffer in
      if (path =? 0) || negb (file_arena_is_valid arena st) then (KLI_INVAL, out, st) else
      let arena_offset := a_offset (ar st arena) in
      let '(result, expected_size, st) := file_regular_size path st in
      if result <? 0 then (result, out, st) else
      let '(result, temporary, st) := kli_buffer_init_capacity (Some no_buffer) arena expected_size st in
      if result <? 0 then (result, out, restore arena arena_offset st) else
      let '(fd, st) := kli_open path ARM_O_RDONLY st in
      if fd <? 0 then (fd, out, restore arena arena_offset st) else
      let '(result, temporary, st) := read_all_loop fuel fd chunk (default no_buffer temporary) st in
      let '(close_status, st) := kli_close (int_of fd) st in
      let result := if (result =? 0) && (close_status <? 0) then close_status else result in
      if result <? 0 then (result, out, restore arena arena_offset st) else (0, Some temporary, st)
  end.

Fixpoint read_text_loop (fuel : nat) (fd chunk : Z) (temporary : kli_string) st : Z * kli_string * kli K :=
  match fuel with
  | O => (KLI_AGAIN, temporary, st)
  | S fuel' =>
      let '(count, st) := kli_read (int_of fd) chunk KLI_FILE_IO_CHUNK st in
      if count <? 0 then (count, temporary, st) else
      if count =? 0 then (0, temporary, st) else
      if count >? KLI_FILE_IO_CHUNK then (KLI_INVAL, temporary, st) else
      let '(result, s, st) := kli_string_append_n (Some temporary) chunk count st in
      let temporary := default temporary s in
      if result <? 0 then (result, temporary, st) else read_text_loop fuel' fd chunk temporary st
  end.

Definition kli_file_read_text (fuel : nat) (chunk path arena : Z) (out : option kli_string) st : Z * option kli_string * kli K :=
  match out with
  | None => (KLI_INVAL, None, st)
  | Some _ =>
      let out := Some (KString no_buffer) in
      if (path =? 0) || negb (file_arena_is_valid arena st) then (KLI_INVAL, out, st) else
      let arena_offset := a_offset (ar st arena) in
      let '(result, expected_size, st) := file_regular_size path st in
      if result <? 0 then (result, out, st) else
      let '(result, temporary, st) := kli_string_init_capacity (Some (KString no_buffer)) arena expected_size st in
      if result <? 0 then (result, out, restore arena arena_offset st) else
      let '(fd, st) := kli_open path ARM_O_RDONLY st in
      if fd <? 0 then (fd, out, restore arena arena_offset st) else
      let '(result, temporary, st) := read_text_loop fuel fd chunk (default (KString no_buffer) temporary) st in
      let '(close_status, st) := kli_close (int_of fd) st in
      let result := if (result =? 0) && (close_status <? 0) then close_status else result in
      if result <? 0 then (result, out, restore arena arena_offset st) else (0, Some temporary, st)
  end.
End File.

(** * What the calls promise *)

(** The NUL-terminated string at [path]. *)
Definition c_string (m : gmap Z Z) (path : Z) (name : list Z) : Prop :=
  text_at m path (Z.of_nat (length name)) = name /\ ldb m (path + Z.of_nat (length name)) = 0.

(** [contents] of files by name, the bytes [pending] on a descriptor, the [output]
    written to it. *)
Class KliCallLaws (K : Type) `{KliCalls K} := {
  contents : K -> list Z -> list Z;
  pending : K -> Z -> list Z;
  output : K -> Z -> list Z;
  stat_law path st : let '(status, type, size, st') := kli_stat_v2 path st in
    mem st' = mem st /\ arenas st' = arenas st /\ 0 <= size < 2 ^ 62 /\ contents (kernel st') = contents (kernel st);
  open_law path name st : c_string (mem st) path name -> let '(fd, st') := kli_open path ARM_O_RDONLY st in
    mem st' = mem st /\ arenas st' = arenas st /\ (fd < 0 \/ 0 <= fd < 2 ^ 31 /\ pending (kernel st') fd = contents (kernel st) name);
  close_law fd st : let '(_, st') := kli_close fd st in mem st' = mem st /\ arenas st' = arenas st;
  read_law fd buf n st : 0 <= n -> let '(count, st') := kli_read fd buf n st in
    arenas st' = arenas st /\ count <= n /\
    (forall x, ~ buf <= x < buf + count -> ldb (mem st') x = ldb (mem st) x) /\
    (0 <= count -> pending (kernel st) fd = text_at (mem st') buf count ++ pending (kernel st') fd) /\
    (count = 0 -> 0 < n -> pending (kernel st) fd = []);
  write_law fd buf n st : 0 <= n -> let '(count, st') := kli_write fd buf n st in
    mem st' = mem st /\ arenas st' = arenas st /\ count <= n /\
    output (kernel st') fd = output (kernel st) fd ++ text_at (mem st) buf (Z.max 0 count) }.

Section Exact.
Context {K : Type} `{KliCallLaws K}.
Implicit Type st : kli K.

Lemma write_all_loop_spec fd data size fuel : forall offset st,
  0 < data -> data + size <= 2 ^ 64 -> 0 <= offset <= size -> (Z.to_nat (size - offset) < fuel)%nat ->
  let '(status, st') := write_all_loop fuel fd data size offset st in
  mem st' = mem st /\ arenas st' = arenas st /\ status <= 0 /\
  exists k, 0 <= k <= size - offset /\ output (kernel st') fd = output (kernel st) fd ++ text_at (mem st) (data + offset) k /\
    (status = 0 -> k = size - offset).
Proof.
  induction fuel as [|fuel IH]; intros offset st Hd Hs Ho Hf; [lia|]. cbn [write_all_loop].
  destruct (Z.ltb_spec offset size) as [Hlt|Hge]; cbn [negb].
  2: { split_and!; [done|done|lia|]. exists 0. split; [lia|]. split; [by rewrite app_nil_r|lia]. }
  rewrite u64_id by lia. pose proof (write_law fd (data + offset) (size - offset) st ltac:(lia)) as Hw.
  destruct (kli_write fd (data + offset) (size - offset) st) as [w st1]. destruct Hw as (Em & Ea & Hw & Eo).
  destruct (Z.ltb_spec w 0) as [Hneg|Hpos].
  { split_and!; [done|done|lia|]. exists 0. rewrite Z.max_l in Eo by lia. split_and!; [lia..|done|lia]. }
  rewrite Z.max_r in Eo by done. destruct (Z.eqb_spec w 0) as [->|Hw0].
  { split_and!; [done|done|unfold KLI_AGAIN; lia|]. exists 0. split_and!; [lia..|done|unfold KLI_AGAIN; lia]. }
  destruct (Z.gtb_spec w (size - offset)); [lia|]. specialize (IH (offset + w) st1 Hd Hs ltac:(lia) ltac:(lia)).
  destruct (write_all_loop fuel fd data size (offset + w) st1) as [status st2].
  destruct IH as (Em2 & Ea2 & Hst & k & Hk & Eo2 & Hall). split_and!; [congruence|congruence|done|].
  exists (w + k). split; [lia|]. split; [|lia]. rewrite Eo2, Eo, text_at_app, <- app_assoc, Em by lia. by rewrite Z.add_assoc.
Qed.

(** kli_fd_write_all sends exactly the caller's bytes: however short the single
    writes are, on success the descriptor has received all of them in order, on an
    error a prefix, and memory is not changed. *)
Theorem fd_write_all_exact fd data size st :
  0 < data -> 0 <= size -> data + size <= 2 ^ 64 ->
  let '(status, st') := kli_fd_write_all fd data size st in
  mem st' = mem st /\ arenas st' = arenas st /\ status <= 0 /\
  exists k, 0 <= k <= size /\ output (kernel st') fd = output (kernel st) fd ++ text_at (mem st) data k /\ (status = 0 -> k = size).
Proof.
  intros Hd Hs Hb. unfold kli_fd_write_all. destruct (Z.eqb_spec size 0) as [->|Hn].
  { split_and!; [done|done|lia|]. exists 0. split_and!; [lia..|by rewrite app_nil_r|done]. }
  rewrite (proj2 (Z.eqb_neq data 0)) by lia.
  pose proof (write_all_loop_spec fd data size (S (Z.to_nat size)) 0 st Hd Hb ltac:(lia) ltac:(lia)) as Hl.
  destruct (write_all_loop _ fd data size 0 st) as [status st']. rewrite Z.sub_0_r, Z.add_0_r in Hl. done.
Qed.

(** ** Reading a text *)

(** The states while a text is being read: the arena has grown from [st0], the
    string is in the part taken since, and the rest of memory is as it was but for
    the chunk buffer. *)
Record reading (st0 : kli K) (arena chunk : Z) st (s : kli_string) : Prop := {
  rd_arenas : arenas_ok st;
  rd_str : str_ok st s;
  rd_home : b_arena (s_buffer s) = arena;
  rd_others : forall p, p <> arena -> ar st p = ar st0 p;
  rd_arena : exists o, ar st arena = Arena (a_base (ar st0 arena)) (a_capacity (ar st0 arena)) o (a_mapping_size (ar st0 arena)) /\
    a_offset (ar st0 arena) <= o <= a_capacity (ar st0 arena);
  rd_fresh : a_base (ar st0 arena) + a_offset (ar st0 arena) <= data s;
  rd_mem : forall x, ~ in_free (ar st0 arena) x -> ~ chunk <= x < chunk + KLI_FILE_IO_CHUNK -> ldb (mem st) x = ldb (mem st0) x }.

(** The chunk buffer is on the stack, outside every arena. *)
Definition chunk_ok st (chunk : Z) : Prop :=
  0 < chunk < 2 ^ 62 /\
  forall p, a_base (ar st p) <> 0 -> chunk + KLI_FILE_IO_CHUNK <= a_base (ar st p) \/ a_base (ar st p) + a_capacity (ar st p) <= chunk.

Lemma reading_chunk st0 arena chunk st s : chunk_ok st0 chunk -> reading st0 arena chunk st s -> chunk_ok st chunk.
Proof.
  intros [Hb Hc] Hr. split; [done|]. intros p. destruct (Z.eq_dec p arena) as [->|Hn]; [|rewrite (rd_others _ _ _ _ _ Hr) by done; apply Hc].
  destruct (rd_arena _ _ _ _ _ Hr) as (o & -> & _). apply (Hc arena).
Qed.

(** A system call that only stores in the chunk. *)
Lemma reading_call st0 arena chunk st s st' :
  chunk_ok st0 chunk -> reading st0 arena chunk st s -> arenas st' = arenas st ->
  (forall x, ~ chunk <= x < chunk + KLI_FILE_IO_CHUNK -> ldb (mem st') x = ldb (mem st) x) ->
  reading st0 arena chunk st' s /\ text st' s = text st s.
Proof.
  intros Hc Hr Ea Hm. assert (E : forall p, ar st' p = ar st p) by (intros p; unfold ar; by rewrite Ea).
  pose proof (reading_chunk _ _ _ _ _ Hc Hr) as [Hb Hout]. destruct Hr as [Har Hs Hh Ho Hg Hf Hmem].
  pose proof Hs as (Hbase & Hlo & Hhi & Hlen & Hnul). pose proof (str_range _ _ Har Hs) as (? & ? & ?).
  destruct (proj1 (proj2 Har) _ Hbase) as [(_ & _ & ?) _].
  assert (Hin : forall x, in_storage s x -> ldb (mem st') x = ldb (mem st) x).
  { intros x Hx. apply Hm. unfold in_storage in Hx. destruct (Hout _ Hbase); unfold home in *; lia. }
  split; [split|].
  - destruct Har as (A1 & A2 & A3). split_and!; [by rewrite E|intros p; rewrite E; apply A2|intros p q; rewrite !E; apply A3].
  - unfold str_ok, home in *. rewrite E. split_and!; try done; try lia. rewrite Hin; [done|unfold in_storage; lia].
  - done.
  - intros p Hp. rewrite E. by apply Ho.
  - rewrite E. exact Hg.
  - done.
  - intros x Hx Hx'. rewrite Hm by done. by apply Hmem.
  - apply text_at_ext. intros x Hx. apply Hin. unfold in_storage. lia.
Qed.

(** An append to the string. *)
Lemma reading_append st0 arena chunk st s st' s' :
  reading st0 arena chunk st s -> touches st s st' s' -> str_ok st' s' -> reading st0 arena chunk st' s'.
Proof.
  intros Hr Ht Hok. destruct Hr as [Har Hs Hh Ho (o & Eo & Hoo) Hf Hmem]. pose proof Hs as (Hbase & Hlo & Hhi & Hlen & _).
  pose proof (touches_arenas _ _ _ _ Har Hbase Ht) as Har'. destruct Ht as (Hm & Ho' & (o' & Eo' & Hoo') & Eh & Hd). unfold home in *. rewrite Hh in *.
  rewrite Eo in *. cbn [a_base a_capacity a_offset a_mapping_size] in *. split; try done.
  - intros p Hp. rewrite Ho' by done. by apply Ho.
  - exists o'. split; [done|lia].
  - destruct Hd as [[-> _]|[Hd _]]; [done|lia].
  - intros x Hx Hx'. rewrite Hm; [by apply Hmem|..]; unfold in_free, in_storage in *; cbn; lia.
Qed.

(** The runtime's own operations do not involve the kernel. *)
Lemma alloc_kernel arena size al st : kernel (snd (kli_arena_alloc_aligned arena size al st)) = kernel st.
Proof. unfold kli_arena_alloc_aligned. by repeat case_if. Qed.

Lemma reserve_kernel b n st : kernel (snd (kli_buffer_reserve b n st)) = kernel st.
Proof.
  destruct b as [b|]; [|done]. unfold kli_buffer_reserve. case_if; [done|]. case_if; [done|]. case_if; [done|].
  pose proof (alloc_kernel (b_arena b) (grow 64 (if b_capacity b <? KLI_BUFFER_MIN_CAPACITY then KLI_BUFFER_MIN_CAPACITY else b_capacity b) n) 8 st) as E.
  unfold kli_arena_alloc. destruct (kli_arena_alloc_aligned _ _ _ st) as [q st1]. cbn [snd] in E. case_if; [done|]. by destruct (negb _).
Qed.

Lemma append_kernel s t n st : kernel (snd (kli_string_append_n (Some s) t n st)) = kernel st.
Proof.
  unfold kli_string_append_n. do 4 (case_if; [done|]). unfold string_reserve_text. case_if; [done|]. cbn [option_map].
  pose proof (reserve_kernel (Some (s_buffer s)) (b_length (s_buffer s) + n + 1) st) as E.
  destruct (kli_buffer_reserve _ _ st) as [[status [b|]] st1]; cbn [snd as_string option_map] in *; [|done]. by repeat case_if.
Qed.

Lemma init_kernel s arena n st : kernel (snd (kli_string_init_capacity (Some s) arena n st)) = kernel st.
Proof.
  unfold kli_string_init_capacity. case_if; [done|]. destruct (kli_buffer_init (Some no_buffer) arena st) as [status b]. case_if; [done|].
  pose proof (reserve_kernel b (n + 1) st) as E. destruct (kli_buffer_reserve b (n + 1) st) as [[status' [b'|]] st1]; cbn [snd] in *; by case_if.
Qed.

Lemma int_of_id fd : 0 <= fd < 2 ^ 31 -> int_of fd = fd.
Proof. intros Hf. unfold int_of. cbv zeta. rewrite u32_id by lia. destruct (Z.ltb_spec fd (2 ^ 31)); lia. Qed.

Lemma chunk_source st chunk n : arenas_ok st -> chunk_ok st chunk -> 0 <= n <= KLI_FILE_IO_CHUNK -> source_ok st chunk n.
Proof.
  intros Ha [Hb Hc] Hn. unfold KLI_FILE_IO_CHUNK in *. split_and!; try lia. intros p x Hp Hx [F1 F2].
  destruct (proj1 (proj2 Ha) p Hp) as [(_ & _ & ?) _]. destruct (Hc p Hp); lia.
Qed.

Lemma read_text_loop_spec st0 arena chunk fd fuel : forall st s,
  chunk_ok st0 chunk -> reading st0 arena chunk st s -> 0 <= fd < 2 ^ 31 -> (length (pending (kernel st) fd) < fuel)%nat ->
  let '(result, s', st') := read_text_loop fuel fd chunk s st in
  reading st0 arena chunk st' s' /\ result <= 0 /\ (result = 0 -> text st' s' = text st s ++ pending (kernel st) fd).
Proof.
  induction fuel as [|fuel IH]; intros st s Hc Hr Hfd Hf; [lia|]. cbn [read_text_loop]. rewrite int_of_id by done.
  pose proof (read_law fd chunk KLI_FILE_IO_CHUNK st ltac:(unfold KLI_FILE_IO_CHUNK; lia)) as Hl.
  destruct (kli_read fd chunk KLI_FILE_IO_CHUNK st) as [count st1]. destruct Hl as (Ea & Hcount & Hm & Hp & Hz).
  destruct (reading_call st0 arena chunk st s st1 Hc Hr Ea) as [Hr1 Et]; [intros x Hx; apply Hm; lia|].
  destruct (Z.ltb_spec count 0) as [Hneg|Hpos]; [split_and!; [done|lia|lia]|]. specialize (Hp Hpos).
  destruct (Z.eqb_spec count 0) as [->|Hn0].
  { split_and!; [done|lia|]. intros _. rewrite Et, Hz by (done || unfold KLI_FILE_IO_CHUNK; lia). by rewrite app_nil_r. }
  destruct (Z.gtb_spec count KLI_FILE_IO_CHUNK); [lia|].
  pose proof (chunk_source st1 chunk count (rd_arenas _ _ _ _ _ Hr1) (reading_chunk _ _ _ _ _ Hc Hr1) ltac:(lia)) as Hsrc.
  pose proof (append_cases st1 s chunk count (rd_arenas _ _ _ _ _ Hr1) (rd_str _ _ _ _ _ Hr1) Hsrc) as Hap.
  destruct (text_has_nul chunk count st1).
  { rewrite Hap. change (KLI_INVAL <? 0) with true. cbn iota. unfold KLI_INVAL. split_and!; [done|lia|lia]. }
  destruct Hap as [Eap|(s2 & st2 & Eap & Ht & Hok & Et2)]; rewrite Eap.
  { change (KLI_NOMEM <? 0) with true. cbn iota. unfold KLI_NOMEM. split_and!; [done|lia|lia]. }
  change (0 <? 0) with false. cbn iota. change (default s (Some s2)) with s2.
  pose proof (append_kernel s chunk count st1) as Ek. rewrite Eap in Ek. cbn [snd] in Ek.
  assert (Hlen : length (text_at (mem st1) chunk count) = Z.to_nat count) by (unfold text_at; by rewrite length_map, length_seqZ).
  specialize (IH st2 s2 Hc ltac:(by eapply reading_append) Hfd). rewrite Ek in IH. specialize (IH ltac:(rewrite Hp, length_app in Hf; lia)).
  destruct (read_text_loop fuel fd chunk s2 st2) as [[result s3] st3]. destruct IH as (Hr3 & Hres & Hall). split_and!; [done|done|].
  intros E0. rewrite (Hall E0), Et2, Et, Hp, app_assoc. done.
Qed.

(** Strings do not notice changes outside the used part of the arenas. *)
Lemma frame_world st st' ss arena chunk :
  world_ok st ss -> chunk_ok st chunk -> (forall p, ar st' p = ar st p) ->
  (forall x, ~ in_free (ar st arena) x -> ~ chunk <= x < chunk + KLI_FILE_IO_CHUNK -> ldb (mem st') x = ldb (mem st) x) ->
  a_base (ar st arena) <> 0 -> world_ok st' ss /\ texts st' ss = texts st ss.
Proof.
  intros [Ha Hs Hap] [_ Hc] E Hm Hbase.
  assert (Hmem : forall j t x, ss !! j = Some t -> in_storage t x -> ldb (mem st') x = ldb (mem st) x).
  { intros j t x Hj Hx. destruct (Hs j t Hj) as (Hb & Hlo & Hhi & _). destruct (proj1 (proj2 Ha) _ Hb) as [(_ & _ & ?) _].
    destruct (proj1 (proj2 Ha) _ Hbase) as [(_ & _ & ?) _]. unfold in_storage, home in *. apply Hm; [|destruct (Hc _ Hb); lia].
    unfold in_free. destruct (Z.eq_dec arena (b_arena (s_buffer t))) as [->|Hn]; [lia|]. destruct (proj2 (proj2 Ha) _ _ Hn Hbase Hb); lia. }
  split; [split|].
  - destruct Ha as (A1 & A2 & A3). split_and!; [by rewrite E|intros p; rewrite E; apply A2|intros p q; rewrite !E; apply A3].
  - intros j t Hj. pose proof (Hs j t Hj) as (Hb & Hlo & Hhi & Hlen & Hnul). unfold str_ok, home in *. rewrite E. split_and!; try done; try lia.
    rewrite (Hmem j t) by (done || unfold in_storage; lia). done.
  - done.
  - apply map_eq. intros j. unfold texts. rewrite !lookup_fmap. destruct (ss !! j) as [t|] eqn:Hj; [|done]. cbn. f_equal.
    apply text_at_ext. intros x Hx. apply (Hmem j t); [done|]. destruct (Hs j t Hj) as (_ & _ & _ & ? & _). unfold in_storage. lia.
Qed.

Lemma reading_start st arena chunk st' s :
  arenas_ok st -> a_base (ar st arena) <> 0 -> touches st (KString (Buffer 0 0 0 arena)) st' s -> str_ok st' s -> reading st arena chunk st' s.
Proof.
  intros Ha Hb Ht Hok. pose proof (touches_arenas _ (KString (Buffer 0 0 0 arena)) _ _ Ha Hb Ht) as Ha'. pose proof (str_range _ _ Ha' Hok) as (? & ? & ?).
  destruct Ht as (Hm & Ho & Ho' & Eh & Hd). unfold home in *. cbn [s_buffer b_arena] in *. split; try done.
  - destruct Hd as [[E _]|[Hd _]]; [unfold data in *; cbn in E; lia|done].
  - intros x Hx _. apply Hm; [done|]. unfold in_storage, data, cap. cbn. lia.
Qed.

(** The end of a successful read: the string joins the others. *)
Lemma reading_done st arena chunk st' s ss i :
  world_ok st ss -> ss !! i = None -> chunk_ok st chunk -> a_base (ar st arena) <> 0 -> reading st arena chunk st' s ->
  world_ok st' (<[i := s]> ss) /\ texts st' (<[i := s]> ss) = <[i := text st' s]> (texts st ss).
Proof.
  intros Hw Hi Hc Hb Hr. set (st1 := Kli (mem st') (arenas st) (kernel st')).
  destruct (frame_world st st1 ss arena chunk Hw Hc ltac:(done) (rd_mem _ _ _ _ _ Hr) Hb) as [Hw1 Et1]. rewrite <- Et1.
  eapply (stores_world st1 ss i (KString (Buffer 0 0 0 arena))); try done.
  - intros j t Hn Hj. left. unfold data, cap. cbn [s_buffer b_data b_capacity]. fold (data t).
    pose proof (str_range _ _ (wo_arenas _ _ Hw1) (wo_str _ _ Hw1 j t Hj)) as (? & _). lia.
  - destruct Hr as [Har Hs Hh Ho (o & Eo & Hoo) Hf Hmem]. unfold touches, home. cbn [s_buffer b_arena]. split_and!; try done.
    + by exists o.
    + right. split; [exact Hf|]. destruct Hs as (_ & _ & Hhi & _). unfold home in Hhi. rewrite Hh, Eo in Hhi. cbn in Hhi. rewrite Eo. cbn. done.
  - apply (rd_str _ _ _ _ _ Hr).
Qed.

(** The end of a failed read: the arena is as it was. *)
Lemma reading_failed st arena chunk st' s ss :
  world_ok st ss -> chunk_ok st chunk -> a_base (ar st arena) <> 0 -> reading st arena chunk st' s ->
  let st2 := restore arena (a_offset (ar st arena)) st' in
  world_ok st2 ss /\ texts st2 ss = texts st ss /\ forall p, ar st2 p = ar st p.
Proof.
  intros Hw Hc Hb Hr st2.
  assert (E : forall p, ar st2 p = ar st p).
  { intros p. unfold st2, restore. rewrite ar_set. destruct (Z.eqb_spec arena p) as [<-|Hn]; [|by apply (rd_others _ _ _ _ _ Hr)].
    destruct (rd_arena _ _ _ _ _ Hr) as (o & -> & _). cbn. by destruct (ar st arena). }
  destruct (frame_world st st2 ss arena chunk Hw Hc E (rd_mem _ _ _ _ _ Hr) Hb). done.
Qed.

(** What reading a text may answer, with the strings [ss] of the program. *)
Definition text_answer st (ss : gmap Z kli_string) (i : Z) (bytes : list Z) (r : Z * option kli_string * kli K) : Prop :=
  let '(status, out, st') := r in
  (status = 0 /\ exists s, out = Some s /\ world_ok st' (<[i := s]> ss) /\ texts st' (<[i := s]> ss) = <[i := bytes]> (texts st ss)) \/
  (status < 0 /\ out = Some (KString no_buffer) /\ world_ok st' ss /\ texts st' ss = texts st ss /\ forall p, ar st' p = ar st p).

(** From the open file on. *)
Lemma read_opened st0 ss i arena chunk fuel fd s st :
  world_ok st0 ss -> ss !! i = None -> chunk_ok st0 chunk -> a_base (ar st0 arena) <> 0 -> reading st0 arena chunk st s -> text st s = [] ->
  0 <= fd < 2 ^ 31 -> (length (pending (kernel st) fd) < fuel)%nat ->
  text_answer st0 ss i (pending (kernel st) fd)
    (let '(result, temporary, st) := read_text_loop fuel fd chunk s st in
     let '(close_status, st) := kli_close (int_of fd) st in
     let result := if (result =? 0) && (close_status <? 0) then close_status else result in
     if result <? 0 then (result, Some (KString no_buffer), restore arena (a_offset (ar st0 arena)) st) else (0, Some temporary, st)).
Proof.
  intros Hw Hi Hc Hb Hr Et Hfd Hf. pose proof (read_text_loop_spec st0 arena chunk fd fuel st s Hc Hr Hfd Hf) as Hl.
  destruct (read_text_loop fuel fd chunk s st) as [[result s'] st1]. destruct Hl as (Hr1 & Hres & Hall).
  pose proof (close_law (int_of fd) st1) as Hcl. destruct (kli_close (int_of fd) st1) as [cs st2]. destruct Hcl as [Em Ea].
  destruct (reading_call st0 arena chunk st1 s' st2 Hc Hr1 Ea) as [Hr2 Et2]; [by rewrite Em|].
  destruct (reading_failed st0 arena chunk st2 s' ss Hw Hc Hb Hr2) as (Hw3 & Et3 & Ea3).
  destruct (Z.eqb_spec result 0) as [->|Hn]; cbn [andb].
  - destruct (Z.ltb_spec cs 0) as [Hneg|Hpos].
    + destruct (Z.ltb_spec cs 0); [|lia]. right. done.
    + change (0 <? 0) with false. cbn iota. left. split; [done|]. exists s'. destruct (reading_done st0 arena chunk st2 s' ss i Hw Hi Hc Hb Hr2) as [Hw4 Et4].
      rewrite Et2, (Hall eq_refl), Et in Et4. done.
  - destruct (Z.ltb_spec result 0); [|lia]. right. done.
Qed.

Lemma c_string_kept st m' path name :
  c_string (mem st) path name -> (forall x, path <= x < path + (Z.of_nat (length name) + 1) -> ldb m' x = ldb (mem st) x) -> c_string m' path name.
Proof.
  intros [N1 N2] Hsame. split; [|rewrite Hsame by lia; done]. rewrite <- N1 at 2. apply text_at_ext. intros x Hx. apply Hsame. lia.
Qed.

Lemma restore_same st st1 arena :
  (forall p, ar st1 p = ar st p) -> forall p, ar (restore arena (a_offset (ar st arena)) st1) p = ar st1 p.
Proof.
  intros E1 p. unfold restore. rewrite ar_set. destruct (Z.eqb_spec arena p) as [<-|]; [|done]. rewrite <- E1. by destruct (ar st1 arena).
Qed.

(** kli_file_read_text gives the program exactly the file: on success a new
    string whose text is the contents of the named file, and on any failure the
    arena is as it was and the result is empty; the texts of the other strings of
    the program never change. *)
Theorem read_text_exact fuel chunk path name arena s0 st ss i :
  world_ok st ss -> ss !! i = None -> a_base (ar st arena) <> 0 -> chunk_ok st chunk ->
  c_string (mem st) path name -> source_ok st path (Z.of_nat (length name) + 1) ->
  (length (contents (kernel st) name) < fuel)%nat ->
  text_answer st ss i (contents (kernel st) name) (kli_file_read_text fuel chunk path arena (Some s0) st).
Proof.
  intros Hw Hi Hb Hc Hname Hsrc Hf. pose proof (wo_arenas _ _ Hw) as Ha. pose proof (arena_nonnull _ _ Ha Hb) as Hne.
  destruct (proj1 (proj2 Ha) _ Hb) as [(_ & _ & Hoff) _]. pose proof Hsrc as (Hpath & _). cbn [kli_file_read_text].
  assert (Hv : file_arena_is_valid arena st = true).
  { unfold file_arena_is_valid. rewrite (proj2 (Z.eqb_neq arena 0)), (proj2 (Z.eqb_neq (a_base _) 0)) by done. cbn. apply Z.leb_le. lia. }
  rewrite Hv, (proj2 (Z.eqb_neq path 0)) by lia. cbn [orb negb]. unfold file_regular_size. rewrite (proj2 (Z.eqb_neq path 0)) by lia.
  pose proof (stat_law path st) as Hst. destruct (kli_stat_v2 path st) as [[[status type] size] st1]. destruct Hst as (Em & Ea & Hsize & Ec).
  assert (E1 : forall p, ar st1 p = ar st p) by (intros p; unfold ar; by rewrite Ea).
  destruct (frame_world st st1 ss arena chunk Hw Hc E1 ltac:(intros; by rewrite Em) Hb) as [Hw1 Et1].
  destruct (Z.ltb_spec status 0) as [Hneg|_].
  { destruct (Z.ltb_spec status 0); [|lia]. right. done. }
  destruct (type =? ARM_FILE_TYPE_REGULAR); cbn [negb].
  2: { change (KLI_INVAL <? 0) with true. right. unfold KLI_INVAL. split_and!; try done; lia. }
  change (0 <? 0) with false. cbn iota.
  assert (Hb1 : a_base (ar st1 arena) <> 0) by (by rewrite E1).
  assert (Hc1 : chunk_ok st1 chunk) by (split; [apply Hc|intros p; rewrite E1; apply Hc]).
  pose proof (init_kernel (KString no_buffer) arena size st1) as Ek.
  assert (Hans : forall bytes r, text_answer st1 ss i bytes r -> text_answer st ss i bytes r).
  { intros bytes [[x y] z]. unfold text_answer. rewrite Et1. setoid_rewrite E1. done. }
  destruct (init_cases st1 (KString no_buffer) arena size (wo_arenas _ _ Hw1) Hb1 Hsize) as [Ei|(s & st2 & Ei & Ht & Hok & Etx)];
    rewrite Ei in Ek |- *; cbn [snd] in Ek.
  { change (KLI_NOMEM <? 0) with true. cbn iota. apply Hans. right. unfold KLI_NOMEM.
    pose proof (restore_same st st1 arena E1) as E2.
    destruct (frame_world st1 (restore arena (a_offset (ar st arena)) st1) ss arena chunk Hw1 Hc1 E2 ltac:(done) Hb1). split_and!; try done; lia. }
  change (0 <? 0) with false. cbn iota. change (default (KString no_buffer) (Some s)) with s.
  pose proof (reading_start st1 arena chunk st2 s (wo_arenas _ _ Hw1) Hb1 Ht Hok) as Hr.
  assert (Hname2 : c_string (mem st2) path name).
  { apply (c_string_kept st); [done|]. intros x Hx. rewrite <- Em. apply Ht; [|unfold in_storage, data, cap; cbn; lia].
    unfold home. cbn [s_buffer b_arena]. rewrite E1. by apply Hsrc. }
  pose proof (open_law path name st2 Hname2) as Ho. destruct (kli_open path ARM_O_RDONLY st2) as [fd st3]. destruct Ho as (Em3 & Ea3 & Hfd).
  destruct (reading_call st1 arena chunk st2 s st3 Hc1 Hr Ea3) as [Hr3 Et3]; [by rewrite Em3|]. rewrite Etx in Et3. rewrite <- (E1 arena).
  destruct (Z.ltb_spec fd 0) as [Hneg|Hpos].
  { apply Hans. right. destruct (reading_failed st1 arena chunk st3 s ss Hw1 Hc1 Hb1 Hr3) as (? & ? & ?). done. }
  destruct Hfd as [|[Hfd Hpend]]; [lia|]. apply Hans. rewrite Ek, Ec in Hpend. rewrite <- Hpend. rewrite <- Hpend in Hf.
  by apply (read_opened st1 ss i arena chunk fuel fd s st3).
Qed.
End Exact.

(** * A kernel with one file *)

(** Every name denotes the same file; reads return at most three bytes, writes
    take at most two. *)
Record toy := Toy { t_content : list Z; t_pending : list Z; t_output : list Z }.

Fixpoint store (m : gmap Z Z) (a : Z) (l : list Z) : gmap Z Z :=
  match l with [] => m | c :: l' => store (stb m a c) (a + 1) l' end.

Definition with_kernel (k : toy) (m : gmap Z Z) (st : kli toy) : kli toy := Kli m (arenas st) k.

#[export] Instance toy_calls : KliCalls toy := {
  kli_mmap _ _ _ st := (KLI_NOMEM, st);
  kli_munmap _ _ st := (0, st);
  kli_stat_v2 _ st := (0, ARM_FILE_TYPE_REGULAR, Z.min 4096 (Z.of_nat (length (t_content (kernel st)))), st);
  kli_open _ _ st := (5, with_kernel (Toy (t_content (kernel st)) (t_content (kernel st)) (t_output (kernel st))) (mem st) st);
  kli_close _ st := (0, st);
  kli_read _ buf n st :=
    let k := kernel st in
    let part := take (Z.to_nat (Z.min n 3)) (t_pending k) in
    (Z.of_nat (length part), with_kernel (Toy (t_content k) (drop (length part) (t_pending k)) (t_output k)) (store (mem st) buf part) st);
  kli_write _ buf n st :=
    let k := kernel st in
    let count := Z.min n 2 in
    (count, with_kernel (Toy (t_content k) (t_pending k) (t_output k ++ text_at (mem st) buf count)) (mem st) st) }.

Lemma ldb_store l : forall m a x, ldb (store m a l) x = if (a <=? x) && (x <? a + Z.of_nat (length l)) then byte_at l (x - a) else ldb m x.
Proof.
  induction l as [|c l IH]; intros m a x; cbn [store length].
  { destruct (Z.leb_spec a x), (Z.ltb_spec x (a + Z.of_nat 0)); try done; lia. }
  rewrite IH, ldb_stb. destruct (Z.eqb_spec a x) as [<-|Hn].
  - destruct (Z.leb_spec (a + 1) a); [lia|]. destruct (Z.leb_spec a a), (Z.ltb_spec a (a + Z.of_nat (S (length l)))); try lia. cbn [andb]. by rewrite Z.sub_diag.
  - destruct (Z.leb_spec (a + 1) x), (Z.leb_spec a x), (Z.ltb_spec x (a + 1 + Z.of_nat (length l))), (Z.ltb_spec x (a + Z.of_nat (S (length l)))); try done; try lia.
    cbn [andb]. unfold byte_at. replace (Z.to_nat (x - a)) with (S (Z.to_nat (x - (a + 1)))) by lia. done.
Qed.

Lemma text_store m a l : text_at (store m a l) a (Z.of_nat (length l)) = l.
Proof.
  revert m a. induction l as [|c l IH]; intros m a; [done|]. cbn [length]. rewrite Nat2Z.inj_succ, <- Z.add_1_l, text_at_app by lia.
  cbn [store]. rewrite IH. change (text_at ?x a 1) with [ldb x (a + 0)]. rewrite Z.add_0_r, ldb_store, ldb_stb, Z.eqb_refl.
  destruct (Z.leb_spec (a + 1) a); [lia|done].
Qed.

#[export] Instance toy_laws : KliCallLaws toy.
Proof.
  unshelve eapply (Build_KliCallLaws toy toy_calls (fun k _ => t_content k) (fun k _ => t_pending k) (fun k _ => t_output k)).
  - intros path st. cbn. split_and!; try done; lia.
  - intros path name st _. cbn. split_and!; try done. right. done.
  - done.
  - intros fd buf n st Hn. cbn. set (part := take _ _). split_and!; try done.
    + unfold part. rewrite length_take. lia.
    + intros x Hx. rewrite ldb_store. destruct (Z.leb_spec buf x), (Z.ltb_spec x (buf + Z.of_nat (length part))); try done; lia.
    + intros _. rewrite text_store. unfold part at 1 2. rewrite length_take. symmetry.
      destruct (Nat.le_ge_cases (Z.to_nat (Z.min n 3)) (length (t_pending (kernel st)))); [rewrite Nat.min_l by done; apply take_drop|].
      rewrite Nat.min_r, take_ge, drop_ge by lia. apply app_nil_r.
    + intros E Hp. unfold part in E. rewrite length_take in E. destruct (t_pending (kernel st)); [done|]. cbn in E. lia.
  - intros fd buf n st Hn. cbn. split_and!; try done; [lia|]. by rewrite Z.max_r by lia.
Defined.

Definition demo_kernel : toy := Toy [72; 73; 74; 75; 76] [] [].

Lemma fd_write_all_exact_witness :
  let '(status, st) := kli_fd_write_all 1 0xfff 3 (demo_program demo_kernel) in
  status = 0 /\ t_output (kernel st) = [0; 104; 105].
Proof.
  pose proof (fd_write_all_exact 1 0xfff 3 (demo_program demo_kernel) ltac:(lia) ltac:(lia) ltac:(lia)) as HT.
  assert (Es : fst (kli_fd_write_all 1 0xfff 3 (demo_program demo_kernel)) = 0) by (vm_compute; reflexivity).
  destruct (kli_fd_write_all 1 0xfff 3 (demo_program demo_kernel)) as [status st]. cbn [fst] in Es. subst status.
  destruct HT as (_ & _ & _ & k & _ & Eo & Hall). split; [done|]. rewrite (Hall eq_refl) in Eo. exact Eo.
Defined.

Lemma read_text_exact_witness :
  text_answer (demo_program demo_kernel) demo_strings 11 (contents (kernel (demo_program demo_kernel)) [97])
    (kli_file_read_text 6 0x200 0x500 1 (Some (KString no_buffer)) (demo_program demo_kernel)) /\
  fst (fst (kli_file_read_text 6 0x200 0x500 1 (Some (KString no_buffer)) (demo_program demo_kernel))) = 0 /\
  contents (kernel (demo_program demo_kernel)) [97] = [72; 73; 74; 75; 76].
Proof.
  split; [|split; vm_compute; reflexivity].
  refine (read_text_exact 6 0x200 0x500 [97] 1 (KString no_buffer) (demo_program demo_kernel) demo_strings 11 _ _ _ _ _ _ _).
  - exact (demo_world demo_kernel).
  - reflexivity.
  - rewrite demo_ar. cbn. lia.
  - split; [lia|]. intros p. rewrite demo_ar. unfold KLI_FILE_IO_CHUNK. destruct (p =? 1); [|done]. cbn. lia.
  - split; vm_compute; reflexivity.
  - cbn [length]. split_and!; try lia. intros p x. rewrite demo_ar. destruct (p =? 1); [|done]. unfold in_free. cbn. lia.
  - cbn. lia.
Defined.
