(* ===== verification/Dhcp.v ===== *)
(** The network client (kernel/net): the parser of DHCP options
    (dhcp_options.c) and the Ethernet, IPv4, UDP and DHCP layers of dhcp.c, over
    the interface of a network card.  Frames are lists of bytes. *)

From Stdlib Require Import String Ascii.
From S2P Require Import Prelude.
From S2P Require Import Bytes.
From S2P Require Import Print.
From S2P Require Import UserImage.
Open Scope arm.

(** * Options (dhcp_options.c) *)

Definition DHCP_OPTIONS_HAS_SUBNET : Z := 1.
Definition DHCP_OPTIONS_HAS_GATEWAY : Z := 2.
Definition DHCP_OPTIONS_HAS_DNS : Z := 4.
Definition DHCP_OPTIONS_HAS_SERVER_ID : Z := 8.

Definition DHCP_OPTION_PAD : Z := 0.
Definition DHCP_OPTION_SUBNET : Z := 1.
Definition DHCP_OPTION_ROUTER : Z := 3.
Definition DHCP_OPTION_DNS : Z := 6.
Definition DHCP_OPTION_MSG_TYPE : Z := 53.
Definition DHCP_OPTION_SERVER_ID : Z := 54.
Definition DHCP_OPTION_END : Z := 255.

Record dhcp_options := DhcpOptions {
  o_message_type : Z; o_flags : Z; o_subnet : Z; o_gateway : Z; o_dns : Z; o_server_id : Z }.

Definition dhcp_options_clear : dhcp_options := DhcpOptions 0 0 0 0 0 0.

Definition dhcp_has_magic_cookie (options : list Z) (len : Z) : bool :=
  (len >=? 4) && (byte_at options 0 =? 0x63) && (byte_at options 1 =? 0x82) && (byte_at options 2 =? 0x53) && (byte_at options 3 =? 0x63).

(** The address at index [i] of the buffer. *)
Definition dhcp_get_ipv4 (buf : list Z) (i : Z) : Z :=
  Z.lor (Z.lor (Z.lor (byte_at buf i) (Z.shiftl (byte_at buf (i + 1)) 8)) (Z.shiftl (byte_at buf (i + 2)) 16))
    (Z.shiftl (byte_at buf (i + 3)) 24).

(** The effect of the option with this code, whose value is at index [pos]. *)
Definition take_option (options : list Z) (code opt_len pos : Z) (out : dhcp_options) : dhcp_options :=
  let ip := dhcp_get_ipv4 options pos in
  if (code =? DHCP_OPTION_MSG_TYPE) && (opt_len >=? 1) then
    DhcpOptions (byte_at options pos) (o_flags out) (o_subnet out) (o_gateway out) (o_dns out) (o_server_id out)
  else if (code =? DHCP_OPTION_SUBNET) && (opt_len >=? 4) then
    DhcpOptions (o_message_type out) (Z.lor (o_flags out) DHCP_OPTIONS_HAS_SUBNET) ip (o_gateway out) (o_dns out) (o_server_id out)
  else if (code =? DHCP_OPTION_ROUTER) && (opt_len >=? 4) then
    DhcpOptions (o_message_type out) (Z.lor (o_flags out) DHCP_OPTIONS_HAS_GATEWAY) (o_subnet out) ip (o_dns out) (o_server_id out)
  else if (code =? DHCP_OPTION_DNS) && (opt_len >=? 4) then
    DhcpOptions (o_message_type out) (Z.lor (o_flags out) DHCP_OPTIONS_HAS_DNS) (o_subnet out) (o_gateway out) ip (o_server_id out)
  else if (code =? DHCP_OPTION_SERVER_ID) && (opt_len >=? 4) then
    DhcpOptions (o_message_type out) (Z.lor (o_flags out) DHCP_OPTIONS_HAS_SERVER_ID) (o_subnet out) (o_gateway out) (o_dns out) ip
  else out.

(** [while (pos < len)]: every round consumes a byte at least. *)
Fixpoint options_loop (fuel : nat) (options : list Z) (len pos : Z) (out : dhcp_options) : Z * dhcp_options :=
  match fuel with
  | O => (0, out)
  | S fuel' =>
      if negb (pos <? len) then (0, out) else
      let code := byte_at options pos in
      let pos := pos + 1 in
      if code =? DHCP_OPTION_END then (0, out) else
      if code =? DHCP_OPTION_PAD then options_loop fuel' options len pos out else
      if pos >=? len then (-1, out) else
      let opt_len := byte_at options pos in
      let pos := pos + 1 in
      if opt_len >? len - pos then (-1, out) else
      options_loop fuel' options len (pos + opt_len) (take_option options code opt_len pos out)
  end.

Definition dhcp_options_parse (options : option (list Z)) (len : Z) (out : option dhcp_options) : Z * option dhcp_options :=
  match options, out with
  | Some options, Some _ =>
      let pos := if dhcp_has_magic_cookie options len then 4 else 0 in
      let '(status, out) := options_loop (S (Z.to_nat len)) options len pos dhcp_options_clear in (status, Some out)
  | _, _ => (-1, out)
  end.

(** * The client (dhcp.c) *)

Definition ETH_TYPE_IP : Z := 0x0800.
Definition IP_PROTO_UDP : Z := 17.
Definition NET_FRAME_MAX : Z := 1536.
Definition ETH_HEADER_LEN : Z := 14.
Definition IPV4_HEADER_LEN : Z := 20.
Definition UDP_HEADER_LEN : Z := 8.
Definition DHCP_DISCOVER : Z := 1.
Definition DHCP_OFFER : Z := 2.
Definition DHCP_REQUEST : Z := 3.
Definition DHCP_ACK : Z := 5.
Definition DHCP_PORT_SERVER : Z := 67.
Definition DHCP_PORT_CLIENT : Z := 68.
Definition DHCP_OPTIONS_LEN : Z := 312.

(** Offsets in [dhcp_packet_t], which is packed, and its size. *)
Definition PKT_XID : Z := 4.
Definition PKT_FLAGS : Z := 10.
Definition PKT_CIADDR : Z := 12.
Definition PKT_YIADDR : Z := 16.
Definition PKT_CHADDR : Z := 28.
Definition PKT_OPTIONS : Z := 236.
Definition PKT_SIZE : Z := 548.

(** Where [tx_dhcp_packet] puts the packet in the frame. *)
Definition tx_dhcp_packet : Z := ETH_HEADER_LEN + IPV4_HEADER_LEN + UDP_HEADER_LEN.

Record net_info := NetInfo {
  n_mac : list Z; n_ip : Z; n_subnet : Z; n_gateway : Z; n_dns : Z; n_dhcp_server : Z; n_dhcp_state : Z; n_discovered : Z }.

(** The card: its address, whether it is ready, sending a frame, and receiving
    one into a buffer (a count, and the buffer); [card_recv] is what
    [virtio_net_recv] names here, the card behind the frame budget of irq.c. *)
Class NetCard (D : Type) := {
  card_mac : D -> list Z;
  card_ready : D -> bool;
  card_send : list Z -> D -> Z * D;
  card_recv : list Z -> D -> Z * list Z * D;
  (** [virtio_net_probe_range] and [virtio_net_init]: base and hardware address *)
  card_probe : D -> option (Z * list Z);
  card_init : Z -> D -> Z * D }.

Record net (D : Type) := Net {
  g_net_info : net_info; g_net_dev : D; g_net_inited : bool; g_net_polling : bool; g_dhcp_xid : Z;
  g_net_rx_frame : list Z; g_net_tx_frame : list Z; uart : list Z }.
Arguments Net {D}. Arguments g_net_info {D}. Arguments g_net_dev {D}. Arguments g_net_inited {D}. Arguments g_net_polling {D}.
Arguments g_dhcp_xid {D}. Arguments g_net_rx_frame {D}. Arguments g_net_tx_frame {D}. Arguments uart {D}.

(** [set_ip_addr(&buf[i], ip)] *)
Definition set_ip_addr (i ip : Z) (buf : list Z) : list Z :=
  put (i + 3) (Z.land (Z.shiftr ip 24) 0xff) (put (i + 2) (Z.land (Z.shiftr ip 16) 0xff)
    (put (i + 1) (Z.land (Z.shiftr ip 8) 0xff) (put i (Z.land ip 0xff) buf))).

Definition get_ip_addr (buf : list Z) (i : Z) : Z :=
  u32 (Z.lor (Z.lor (Z.lor (byte_at buf i) (Z.shiftl (byte_at buf (i + 1)) 8)) (Z.shiftl (byte_at buf (i + 2)) 16))
    (Z.shiftl (byte_at buf (i + 3)) 24)).

Definition put_be16 (i value : Z) (buf : list Z) : list Z :=
  put (i + 1) (Z.land value 0xff) (put i (Z.land (Z.shiftr value 8) 0xff) buf).

(** The sum of the 16-bit words of the [len] bytes from [i] on. *)
Fixpoint sum_loop (fuel : nat) (buf : list Z) (i len sum : Z) : Z :=
  match fuel with
  | O => sum
  | S fuel' =>
      if len >? 1 then sum_loop fuel' buf (i + 2) (len - 2) (u32 (sum + Z.lor (Z.shiftl (byte_at buf i) 8) (byte_at buf (i + 1))))
      else if len >? 0 then u32 (sum + Z.shiftl (byte_at buf i) 8) else sum
  end.

(** [while (sum >> 16)]: three rounds end it for any 32-bit sum. *)
Fixpoint fold_loop (fuel : nat) (sum : Z) : Z :=
  match fuel with
  | O => sum
  | S fuel' => if negb (Z.shiftr sum 16 =? 0) then fold_loop fuel' (Z.land sum 0xffff + Z.shiftr sum 16) else sum
  end.

Definition checksum (buf : list Z) (i len : Z) : Z :=
  Z.land (Z.lnot (fold_loop 3 (sum_loop (S (Z.to_nat len)) buf i len 0))) 0xffff.

Definition print_ip (ip : Z) : list Z :=
  chars "IP="%string ++ print_dec64 (Z.land ip 0xff) ++ [46] ++ print_dec64 (Z.land (Z.shiftr ip 8) 0xff) ++ [46] ++
  print_dec64 (Z.land (Z.shiftr ip 16) 0xff) ++ [46] ++ print_dec64 (Z.land (Z.shiftr ip 24) 0xff).

Section Client.
Context {D : Type} `{NetCard D}.
Implicit Type s : net D.

Definition set_info (i : net_info) s : net D :=
  Net i (g_net_dev s) (g_net_inited s) (g_net_polling s) (g_dhcp_xid s) (g_net_rx_frame s) (g_net_tx_frame s) (uart s).
Definition set_tx (f : list Z -> list Z) s : net D :=
  Net (g_net_info s) (g_net_dev s) (g_net_inited s) (g_net_polling s) (g_dhcp_xid s) (g_net_rx_frame s) (f (g_net_tx_frame s)) (uart s).
Definition set_dev (d : D) s : net D :=
  Net (g_net_info s) d (g_net_inited s) (g_net_polling s) (g_dhcp_xid s) (g_net_rx_frame s) (g_net_tx_frame s) (uart s).
Definition set_rx (rx : list Z) s : net D :=
  Net (g_net_info s) (g_net_dev s) (g_net_inited s) (g_net_polling s) (g_dhcp_xid s) rx (g_net_tx_frame s) (uart s).
Definition set_polling (b : bool) s : net D :=
  Net (g_net_info s) (g_net_dev s) (g_net_inited s) b (g_dhcp_xid s) (g_net_rx_frame s) (g_net_tx_frame s) (uart s).
Definition puts (l : list Z) s : net D :=
  Net (g_net_info s) (g_net_dev s) (g_net_inited s) (g_net_polling s) (g_dhcp_xid s) (g_net_rx_frame s) (g_net_tx_frame s) (uart s ++ l).

Definition write_eth_header (mac : list Z) (eth_type : Z) (frame : list Z) : list Z :=
  let frame := copy_bytes frame 0 (replicate 6 0xff) 0 6 in
  let frame := copy_bytes frame 6 mac 0 6 in
  put 13 (Z.land eth_type 0xff) (put 12 (Z.land (Z.shiftr eth_type 8) 0xff) frame).

(** The header at index [p] of the frame, from the address [src_ip]. *)
Definition write_ipv4_header (p payload_len src_ip dest_ip proto : Z) (frame : list Z) : list Z :=
  let total_len := IPV4_HEADER_LEN + payload_len in
  let frame := fill_bytes frame p (p + IPV4_HEADER_LEN) 0 in
  let frame := put (p + 1) 0 (put p 0x45 frame) in
  let frame := put_be16 (p + 2) total_len frame in
  let frame := put (p + 9) proto (put (p + 8) 64 frame) in
  let frame := if src_ip =? 0 then put (p + 15) 0 (put (p + 14) 0 (put (p + 13) 0 (put (p + 12) 0 frame)))
               else set_ip_addr (p + 12) src_ip frame in
  let frame := if dest_ip =? 0 then put (p + 19) 255 (put (p + 18) 255 (put (p + 17) 255 (put (p + 16) 255 frame)))
               else set_ip_addr (p + 16) dest_ip frame in
  put_be16 (p + 10) (checksum frame p IPV4_HEADER_LEN) frame.

(** The UDP header at index [u]. *)
Definition write_udp_header (u src_port dest_port udp_len : Z) (frame : list Z) : list Z :=
  put (u + 7) 0 (put (u + 6) 0 (put_be16 (u + 4) udp_len (put_be16 (u + 2) dest_port (put_be16 u src_port frame)))).

Definition send_udp_frame (payload_len dest_ip dest_port src_port : Z) s : Z * net D :=
  let udp_len := UDP_HEADER_LEN + payload_len in
  if payload_len >? NET_FRAME_MAX - ETH_HEADER_LEN - IPV4_HEADER_LEN - UDP_HEADER_LEN then (-1, s) else
  let s := set_tx (write_eth_header (card_mac (g_net_dev s)) ETH_TYPE_IP) s in
  let s := set_tx (write_ipv4_header ETH_HEADER_LEN udp_len (n_ip (g_net_info s)) dest_ip IP_PROTO_UDP) s in
  let s := set_tx (write_udp_header (ETH_HEADER_LEN + IPV4_HEADER_LEN) src_port dest_port udp_len) s in
  let '(status, d) := card_send (take (Z.to_nat (ETH_HEADER_LEN + IPV4_HEADER_LEN + udp_len)) (g_net_tx_frame s)) (g_net_dev s) in
  (status, set_dev d s).

(** What [send_dhcp_discover] and [send_dhcp_request] store before the options:
    the 32-bit identifier in the byte order of the processor. *)
Definition packet_head (mac : list Z) (xid : Z) (requested_ip : option Z) (frame : list Z) : list Z :=
  let p := tx_dhcp_packet in
  let frame := fill_bytes frame p (p + PKT_SIZE) 0 in
  let frame := put (p + 2) 6 (put (p + 1) 1 (put p 1 frame)) in
  let frame := set_ip_addr (p + PKT_XID) xid frame in
  let frame := put (p + PKT_FLAGS + 1) 0 (put (p + PKT_FLAGS) 0x80 frame) in
  let frame := match requested_ip with Some ip => set_ip_addr (p + PKT_CIADDR) ip frame | None => frame end in
  let frame := copy_bytes frame (p + PKT_CHADDR) mac 0 6 in
  copy_bytes frame (p + PKT_OPTIONS) [0x63; 0x82; 0x53; 0x63] 0 4.

Definition report (what : string) (status : Z) s : net D :=
  if negb (status =? 0) then puts (chars what ++ print_hex64 (u32 status) ++ [10]) s else s.

Definition send_dhcp_discover s : net D :=
  let o := tx_dhcp_packet + PKT_OPTIONS in
  let s := set_tx (packet_head (card_mac (g_net_dev s)) (g_dhcp_xid s) None) s in
  let s := set_tx (fun f => put (o + 7) 0xff (put (o + 6) DHCP_DISCOVER (put (o + 5) 1 (put (o + 4) 53 f)))) s in
  let '(status, s) := send_udp_frame PKT_SIZE 0xffffffff DHCP_PORT_SERVER DHCP_PORT_CLIENT s in
  report "[net] DHCP discover send failed: " status s.

(** The options of a request, from index [o] on. *)
Definition request_options (o server_ip requested_ip : Z) (f : list Z) : list Z :=
  let f := put (o + 6) DHCP_REQUEST (put (o + 5) 1 (put (o + 4) 53 f)) in
  let '(i, f) := if negb (server_ip =? 0) then (o + 13, set_ip_addr (o + 9) server_ip (put (o + 8) 4 (put (o + 7) 54 f))) else (o + 7, f) in
  let f := set_ip_addr (i + 2) requested_ip (put (i + 1) 4 (put i 50 f)) in
  put (i + 6) 0xff f.

Definition send_dhcp_request (server_ip requested_ip : Z) s : net D :=
  let s := set_tx (packet_head (card_mac (g_net_dev s)) (g_dhcp_xid s) (Some requested_ip)) s in
  let s := set_tx (request_options (tx_dhcp_packet + PKT_OPTIONS) server_ip requested_ip) s in
  let '(status, s) := send_udp_frame PKT_SIZE 0xffffffff DHCP_PORT_SERVER DHCP_PORT_CLIENT s in
  report "[net] DHCP request send failed: " status s.

(** The packet is at index [p] of the received frame. *)
Definition parse_dhcp_offer (p : Z) (options : dhcp_options) s : net D :=
  let i := g_net_info s in
  let ip := get_ip_addr (g_net_rx_frame s) (p + PKT_YIADDR) in
  let i := NetInfo (n_mac i) ip (n_subnet i) (n_gateway i) (n_dns i)
             (if o_flags options &? DHCP_OPTIONS_HAS_SERVER_ID then o_server_id options else n_dhcp_server i)
             (if o_message_type options =? DHCP_OFFER then DHCP_OFFER else n_dhcp_state i) (n_discovered i) in
  puts (chars "[net] DHCP offer: "%string ++ print_ip ip ++ [10]) (set_info i s).

Definition parse_dhcp_ack (p : Z) (options : dhcp_options) s : net D :=
  let i := g_net_info s in
  let ip := get_ip_addr (g_net_rx_frame s) (p + PKT_YIADDR) in
  let acked := o_message_type options =? DHCP_ACK in
  let i := NetInfo (n_mac i) ip
             (if o_flags options &? DHCP_OPTIONS_HAS_SUBNET then o_subnet options else n_subnet i)
             (if o_flags options &? DHCP_OPTIONS_HAS_GATEWAY then o_gateway options else n_gateway i)
             (if o_flags options &? DHCP_OPTIONS_HAS_DNS then o_dns options else n_dns i)
             (if o_flags options &? DHCP_OPTIONS_HAS_SERVER_ID then o_server_id options else n_dhcp_server i)
             (if acked then DHCP_ACK else n_dhcp_state i) (if acked then 1 else n_discovered i) in
  puts (chars "[net] DHCP ack: "%string ++ print_ip ip ++ chars " gw="%string ++ print_ip (n_gateway i) ++ [10]) (set_info i s).

(** The UDP packet of [len] bytes at index [d]. *)
Definition parse_udp_packet (d len : Z) s : net D :=
  let rx := g_net_rx_frame s in
  if len <? 8 then s else
  if negb (Z.lor (Z.shiftl (byte_at rx (d + 2)) 8) (byte_at rx (d + 3)) =? DHCP_PORT_CLIENT) then s else
  let p := d + 8 in
  if len - 8 <? PKT_SIZE then s else
  if negb (byte_at rx p =? 2) || negb (get_ip_addr rx (p + PKT_XID) =? g_dhcp_xid s) then s else
  match dhcp_options_parse (Some (drop (Z.to_nat (p + PKT_OPTIONS)) rx)) DHCP_OPTIONS_LEN (Some dhcp_options_clear) with
  | (status, Some options) =>
      if negb (status =? 0) then s else
      if o_message_type options =? DHCP_OFFER then parse_dhcp_offer p options s
      else if o_message_type options =? DHCP_ACK then parse_dhcp_ack p options s
      else s
  | _ => s
  end.

Definition parse_ip_packet (d len : Z) s : net D :=
  let rx := g_net_rx_frame s in
  if len <? 20 then s else
  if negb (Z.land (byte_at rx d) 0xf0 =? 0x40) then s else
  let header_len := Z.land (byte_at rx d) 0x0f * 4 in
  if (header_len <? 20) || (header_len >? len) then s else
  if byte_at rx (d + 9) =? IP_PROTO_UDP then parse_udp_packet (d + header_len) (len - header_len) s else s.

Definition parse_eth_frame (len : Z) s : net D :=
  let rx := g_net_rx_frame s in
  if len <? 14 then s else
  if negb (kmemcmp rx (card_mac (g_net_dev s)) 6 =? 0) && negb (kmemcmp rx (replicate 6 0xff) 6 =? 0) then s else
  if Z.lor (Z.shiftl (byte_at rx 12) 8) (byte_at rx 13) =? ETH_TYPE_IP then parse_ip_packet 14 (len - 14) s else s.

(** [dev_addr] is the address of [g_net_dev]. *)
Definition net_init (dev_addr : Z) s : Z * net D :=
  let s := puts (chars "[net] probing for virtio-net..."%string ++ [10]) s in
  match card_probe (g_net_dev s) with
  | None => (-1, puts (chars "[net] virtio-net not found"%string ++ [10]) s)
  | Some (net_base, mac) =>
      let colon i := if 0 <? i then [58] else [] in
      let s := puts (chars "[net] found at "%string ++ print_hex64 net_base ++ chars " MAC="%string ++
                 concat (map (fun i => colon i ++ print_hex8 (byte_at mac i)) (seqZ 0 6)) ++ [10]) s in
      let '(status, d) := card_init net_base (g_net_dev s) in
      let s := set_dev d s in
      if negb (status =? 0) then (-1, puts (chars "[net] failed to initialize virtio-net"%string ++ [10]) s) else
      let s := set_info (NetInfo (copy_bytes (n_mac (g_net_info s)) 0 mac 0 6) 0 0 0 0 0 0 0) s in
      let s := Net (g_net_info s) (g_net_dev s) true (g_net_polling s) (u32 (0x12345678 + Z.land dev_addr 0xffff))
                 (g_net_rx_frame s) (g_net_tx_frame s)
                 (uart s ++ chars "[net] network initialized, starting DHCP..."%string ++ [10]) in
      (0, send_dhcp_discover s)
  end.

(** [while ((len = virtio_net_recv(...)) > 0)], for at most [fuel] frames. *)
Fixpoint recv_loop (fuel : nat) s : net D :=
  match fuel with
  | O => s
  | S fuel' =>
      let '(len, rx, d) := card_recv (g_net_rx_frame s) (g_net_dev s) in
      let s := set_dev d (set_rx rx s) in
      if len >? 0 then recv_loop fuel' (parse_eth_frame len s) else s
  end.

Definition net_poll (fuel : nat) s : net D :=
  if negb (g_net_inited s) || negb (card_ready (g_net_dev s)) then s else
  if g_net_polling s then s else
  let s := recv_loop fuel (set_polling true s) in
  let s := if (n_discovered (g_net_info s) =? 0) && (n_dhcp_state (g_net_info s) =? DHCP_OFFER)
           then send_dhcp_request (n_dhcp_server (g_net_info s)) (n_ip (g_net_info s)) s else s in
  set_polling false s.

Definition net_is_link_up s : bool := g_net_inited s.
End Client.
