(* ===== verification/DhcpLease.v ===== *)
(** The network client: options are parsed as they were encoded, nothing beyond
    the received bytes is read, and what a server's answer does to the lease. *)

From Stdlib Require Import String Ascii.
From S2P Require Import Prelude.
From S2P Require Import Bytes.
From S2P Require Import Print.
From S2P Require Import UserImage.
From S2P Require Import Dhcp.
Open Scope arm.

(** * Options *)

Lemma get_ipv4_agree a b p q :
  (forall k, 0 <= k < 4 -> byte_at a (p + k) = byte_at b (q + k)) -> dhcp_get_ipv4 a p = dhcp_get_ipv4 b q.
Proof.
  intros He. unfold dhcp_get_ipv4. pose proof (He 0 ltac:(lia)) as E0. rewrite !Z.add_0_r in E0. by rewrite E0, (He 1), (He 2), (He 3) by lia.
Qed.

(** An option's effect depends on the bytes of its value only. *)
Lemma take_option_agree a b c n p q out :
  (forall k, 0 <= k < n -> byte_at a (p + k) = byte_at b (q + k)) -> take_option a c n p out = take_option b c n q out.
Proof.
  intros He. unfold take_option.
  assert (E1 : n >=? 1 = true -> byte_at a p = byte_at b q).
  { intros Hn. rewrite Z.geb_leb in Hn. apply Z.leb_le in Hn. pose proof (He 0 ltac:(lia)) as E. by rewrite !Z.add_0_r in E. }
  assert (E4 : n >=? 4 = true -> dhcp_get_ipv4 a p = dhcp_get_ipv4 b q).
  { intros Hn. rewrite Z.geb_leb in Hn. apply Z.leb_le in Hn. apply get_ipv4_agree. intros k Hk. apply He. lia. }
  destruct (n >=? 1), (n >=? 4); rewrite ?andb_true_r, ?andb_false_r; rewrite ?E1, ?E4 by done; done.
Qed.

Lemma options_loop_agree a b len fuel : forall pos out,
  (forall k, 0 <= k < len -> byte_at a k = byte_at b k) -> 0 <= pos -> (forall k, 0 <= byte_at a k) ->
  options_loop fuel a len pos out = options_loop fuel b len pos out.
Proof.
  induction fuel as [|fuel IH]; intros pos out He Hp Hb; [done|]. cbn [options_loop].
  destruct (Z.ltb_spec pos len); cbn [negb]; [|done]. rewrite <- (He pos) by lia. pose proof (Hb (pos + 1)).
  case_if; [done|]. case_if; [apply IH; [done|lia|done]|]. case_if; [done|]. rewrite <- (He (pos + 1)) by lia. case_if; [done|].
  rewrite (take_option_agree a b _ _ (pos + 1 + 1) (pos + 1 + 1)) by (intros k Hk; apply He; lia). apply IH; [done|lia|done].
Qed.

(** The options of a packet. *)
Inductive oitem := OPad | OOpt (code : Z) (value : list Z).

Definition encode_option (it : oitem) : list Z := match it with OPad => [0] | OOpt c v => c :: zlen v :: v end.

Definition option_ok (it : oitem) : Prop := match it with OPad => True | OOpt c v => 0 < c < 255 /\ zlen v < 256 end.

Definition learn (out : dhcp_options) (it : oitem) : dhcp_options :=
  match it with OPad => out | OOpt c v => take_option v c (zlen v) 0 out end.

Lemma byte_at_in l1 l2 k : 0 <= k < zlen l2 -> byte_at (l1 ++ l2) (zlen l1 + k) = byte_at l2 k.
Proof.
  intros Hk. unfold byte_at, zlen in *. rewrite lookup_app_r by lia. f_equal. f_equal. lia.
Qed.

Lemma zlen_app l1 l2 : zlen (l1 ++ l2) = zlen l1 + zlen l2.
Proof. unfold zlen. rewrite length_app. lia. Qed.

Lemma zlen_cons c l : zlen (c :: l) = 1 + zlen l.
Proof. unfold zlen. cbn. lia. Qed.

Lemma options_loop_items items : forall fuel pre rest len out,
  Forall option_ok items -> zlen pre + zlen (concat (map encode_option items)) < len -> (length items < fuel)%nat ->
  options_loop fuel (pre ++ concat (map encode_option items) ++ 255 :: rest) len (zlen pre) out = (0, foldl learn out items).
Proof.
  induction items as [|it items IH]; intros fuel pre rest len out Hok Hlen Hf; (destruct fuel as [|fuel]; [cbn in Hf; lia|]);
    cbn [options_loop map concat foldl] in *; rewrite ?zlen_app in Hlen.
  { cbn [app]. rewrite (proj2 (Z.ltb_lt (zlen pre) len)) by (change (zlen []) with 0 in Hlen; lia). cbn [negb].
    rewrite <- (Z.add_0_r (zlen pre)), (byte_at_in pre) by (rewrite zlen_cons; unfold zlen; lia). done. }
  apply Forall_cons in Hok as [Hit Hok]. assert (0 <= zlen (concat (map encode_option items))) by (unfold zlen; lia).
  destruct it as [|c v]; cbn [encode_option] in *.
  - change (zlen [0]) with 1 in Hlen. rewrite (proj2 (Z.ltb_lt (zlen pre) len)) by lia. cbn [negb].
    assert (E : byte_at (pre ++ ([0] ++ concat (map encode_option items)) ++ 255 :: rest) (zlen pre) = 0).
    { rewrite <- (Z.add_0_r (zlen pre)), byte_at_in; [done|]. rewrite !zlen_app. change (zlen [0]) with 1. rewrite zlen_cons. unfold zlen. lia. }
    rewrite E. change (0 =? DHCP_OPTION_END) with false. change (0 =? DHCP_OPTION_PAD) with true. cbn iota.
    specialize (IH fuel (pre ++ [0]) rest len out Hok). rewrite zlen_app, <- app_assoc in IH. change (zlen [0]) with 1 in IH.
    rewrite <- app_assoc. apply IH; [lia|cbn in Hf; lia].
  - destruct Hit as [Hc Hv]. rewrite !zlen_cons in Hlen. assert (0 <= zlen v) by (unfold zlen; lia).
    rewrite (proj2 (Z.ltb_lt (zlen pre) len)) by lia. cbn [negb]. set (tail := concat (map encode_option items)) in *.
    set (buf := pre ++ ((c :: zlen v :: v) ++ tail) ++ 255 :: rest).
    assert (Hbuf : forall k, 0 <= k < 2 + zlen v -> byte_at buf (zlen pre + k) = byte_at (c :: zlen v :: v) k).
    { intros k Hk. unfold buf. rewrite byte_at_in by (rewrite !zlen_app, !zlen_cons; unfold zlen in *; lia). unfold byte_at.
      rewrite !lookup_app_l; [done|..]; rewrite ?length_app; cbn [length]; unfold zlen in Hk; lia. }
    pose proof (Hbuf 0 ltac:(lia)) as E0. rewrite Z.add_0_r in E0. change (byte_at (c :: zlen v :: v) 0) with c in E0.
    pose proof (Hbuf 1 ltac:(lia)) as E1. change (byte_at (c :: zlen v :: v) 1) with (zlen v) in E1.
    rewrite E0, E1. unfold DHCP_OPTION_END, DHCP_OPTION_PAD. rewrite (proj2 (Z.eqb_neq c 255)), (proj2 (Z.eqb_neq c 0)) by lia.
    rewrite Z.geb_leb, (proj2 (Z.leb_gt len (zlen pre + 1))) by lia. destruct (Z.gtb_spec (zlen v) (len - (zlen pre + 1 + 1))); [lia|].
    rewrite (take_option_agree buf v c (zlen v) (zlen pre + 1 + 1) 0).
    2: { intros k Hk. replace (zlen pre + 1 + 1 + k) with (zlen pre + (2 + k)) by lia. rewrite Hbuf by lia. unfold byte_at.
         replace (Z.to_nat (2 + k)) with (S (S (Z.to_nat (0 + k)))) by lia. done. }
    specialize (IH fuel (pre ++ c :: zlen v :: v) rest len (take_option v c (zlen v) 0 out) Hok).
    rewrite zlen_app, !zlen_cons in IH. replace (zlen pre + 1 + 1 + zlen v) with (zlen pre + (1 + (1 + zlen v))) by lia.
    unfold buf. rewrite <- app_assoc in IH |- *. apply IH; [lia|cbn in Hf; lia].
Qed.

(** The value of the last option with this code that is long enough. *)
Definition last_option (c n : Z) (items : list oitem) : option (list Z) :=
  foldl (fun acc it => match it with OOpt c' v => if (c' =? c) && (zlen v >=? n) then Some v else acc | OPad => acc end) None items.

Definition address (o : option (list Z)) : Z := match o with Some v => dhcp_get_ipv4 v 0 | None => 0 end.

Definition flag (bit : Z) (o : option (list Z)) : Z := match o with Some _ => bit | None => 0 end.

(** What a packet with these options says. *)
Definition meaning (items : list oitem) : dhcp_options :=
  let get c := last_option c 4 items in
  DhcpOptions (match last_option 53 1 items with Some v => byte_at v 0 | None => 0 end)
    (Z.lor (Z.lor (Z.lor (flag 1 (get 1)) (flag 2 (get 3))) (flag 4 (get 6))) (flag 8 (get 54)))
    (address (get 1)) (address (get 3)) (address (get 6)) (address (get 54)).

Lemma last_option_snoc c n items it :
  last_option c n (items ++ [it]) =
    match it with OOpt c' v => if (c' =? c) && (zlen v >=? n) then Some v else last_option c n items | OPad => last_option c n items end.
Proof. unfold last_option. by rewrite foldl_snoc. Qed.

Lemma learn_meaning items : foldl learn dhcp_options_clear items = meaning items.
Proof.
  induction items as [|it items IH] using rev_ind; [done|]. rewrite foldl_snoc, IH. unfold meaning. rewrite !last_option_snoc.
  destruct it as [|c v]; [done|]. cbn [learn]. unfold take_option, DHCP_OPTION_MSG_TYPE, DHCP_OPTION_SUBNET, DHCP_OPTION_ROUTER, DHCP_OPTION_DNS,
    DHCP_OPTION_SERVER_ID, DHCP_OPTIONS_HAS_SUBNET, DHCP_OPTIONS_HAS_GATEWAY, DHCP_OPTIONS_HAS_DNS, DHCP_OPTIONS_HAS_SERVER_ID.
  cbn [o_message_type o_flags o_subnet o_gateway o_dns o_server_id].
  destruct (last_option 1 4 items), (last_option 3 4 items), (last_option 6 4 items), (last_option 54 4 items);
    destruct (Z.eqb_spec c 53) as [->|]; destruct (zlen v >=? 1); destruct (zlen v >=? 4); try done;
    destruct (Z.eqb_spec c 1) as [->|]; try done; destruct (Z.eqb_spec c 3) as [->|]; try done;
    destruct (Z.eqb_spec c 6) as [->|]; try done; destruct (Z.eqb_spec c 54) as [->|]; done.
Qed.

(** * Received frames *)

Section Frames.
Context {D : Type} `{NetCard D}.
Implicit Type s : net D.

(** A server's answer, layer by layer: the frame is for us or for all, the IP
    header has [h] words, the UDP packet is for the client's port, and the DHCP
    packet has our identifier, an address and options. *)
Record reply (mac : list Z) (xid yiaddr : Z) (items : list oitem) (frame : list Z) (h : Z) : Prop := {
  rp_parts : exists src iphdr udphdr head rest dst, frame = (dst ++ src ++ [8; 0]) ++ iphdr ++ udphdr ++ head ++
      [0x63; 0x82; 0x53; 0x63] ++ concat (map encode_option items) ++ 255 :: rest /\
    zlen dst = 6 /\ zlen src = 6 /\ (dst = mac \/ dst = replicate 6 0xff) /\
    zlen iphdr = 4 * h /\ byte_at iphdr 0 = 0x40 + h /\ byte_at iphdr 9 = IP_PROTO_UDP /\
    zlen udphdr = 8 /\ byte_at udphdr 2 = 0 /\ byte_at udphdr 3 = DHCP_PORT_CLIENT /\
    zlen head = PKT_OPTIONS /\ byte_at head 0 = 2 /\ get_ip_addr head PKT_XID = xid /\ get_ip_addr head PKT_YIADDR = yiaddr;
  rp_header : 5 <= h <= 15;
  rp_size : 14 + 4 * h + 8 + PKT_SIZE <= zlen frame;
  rp_items : Forall option_ok items;
  rp_room : 4 + zlen (concat (map encode_option items)) < DHCP_OPTIONS_LEN }.

Lemma ip_addr_agree a b p q :
  (forall k, 0 <= k < 4 -> byte_at a (p + k) = byte_at b (q + k)) -> get_ip_addr a p = get_ip_addr b q.
Proof.
  intros He. unfold get_ip_addr. pose proof (He 0 ltac:(lia)) as E0. rewrite !Z.add_0_r in E0. by rewrite E0, (He 1), (He 2), (He 3) by lia.
Qed.

Lemma byte_at_l l1 l2 k : 0 <= k < zlen l1 -> byte_at (l1 ++ l2) k = byte_at l1 k.
Proof. intros Hk. unfold byte_at, zlen in *. by rewrite lookup_app_l by lia. Qed.

(** The options of the answer, as the parser sees them. *)
Lemma parse_options items rest len :
  Forall option_ok items -> 4 + zlen (concat (map encode_option items)) < len ->
  dhcp_options_parse (Some ([0x63; 0x82; 0x53; 0x63] ++ concat (map encode_option items) ++ 255 :: rest)) len (Some dhcp_options_clear) =
    (0, Some (meaning items)).
Proof.
  intros Hok Hlen. assert (Hc : 0 <= zlen (concat (map encode_option items))) by (unfold zlen; lia). unfold dhcp_options_parse.
  assert (E : dhcp_has_magic_cookie ([0x63; 0x82; 0x53; 0x63] ++ concat (map encode_option items) ++ 255 :: rest) len = true).
  { unfold dhcp_has_magic_cookie. rewrite Z.geb_leb, (proj2 (Z.leb_le 4 len)) by lia. done. }
  rewrite E. assert (Hn : (length items <= length (concat (map encode_option items)))%nat).
  { clear. induction items as [|it items IH]; [done|]. cbn [map concat length]. rewrite length_app. destruct it; cbn [encode_option length]; lia. }
  pose proof (options_loop_items items (S (Z.to_nat len)) [0x63; 0x82; 0x53; 0x63] rest len dhcp_options_clear Hok Hlen
    ltac:(unfold zlen in *; lia)) as HL. change (zlen [0x63; 0x82; 0x53; 0x63]) with 4 in HL. by rewrite HL, learn_meaning.
Qed.

(** The bytes of an answer, where the client looks for them. *)
Lemma reply_bytes mac xid yiaddr items frame h junk :
  reply mac xid yiaddr items frame h ->
  let rx := frame ++ junk in
  negb (kmemcmp rx mac 6 =? 0) && negb (kmemcmp rx (replicate 6 0xff) 6 =? 0) = false /\
  byte_at rx 12 = 8 /\ byte_at rx 13 = 0 /\ byte_at rx 14 = 0x40 + h /\ byte_at rx 23 = IP_PROTO_UDP /\
  byte_at rx (14 + 4 * h + 2) = 0 /\ byte_at rx (14 + 4 * h + 3) = DHCP_PORT_CLIENT /\ byte_at rx (14 + 4 * h + 8) = 2 /\
  get_ip_addr rx (14 + 4 * h + 8 + PKT_XID) = xid /\ get_ip_addr rx (14 + 4 * h + 8 + PKT_YIADDR) = yiaddr /\
  exists rest, drop (Z.to_nat (14 + 4 * h + 8 + PKT_OPTIONS)) rx = [0x63; 0x82; 0x53; 0x63] ++ concat (map encode_option items) ++ 255 :: rest.
Proof.
  intros [Hparts Hh _ _ _] rx.
  destruct Hparts as (src & iphdr & udphdr & head & rest & dst & Ef & Hd & Hs & Hdst & Hi & Hi0 & Hi9 & Hu & Hu2 & Hu3 & Hhd & Hop & Hx & Hy).
  unfold PKT_OPTIONS in *. set (opts := [0x63; 0x82; 0x53; 0x63] ++ concat (map encode_option items) ++ 255 :: rest) in *.
  assert (Hrx : rx = dst ++ src ++ [8; 0] ++ iphdr ++ udphdr ++ head ++ opts ++ junk) by (unfold rx; rewrite Ef, <- !app_assoc; done).
  assert (B : forall l1 l2 l3 k, rx = l1 ++ l2 ++ l3 -> 0 <= k < zlen l2 -> byte_at rx (zlen l1 + k) = byte_at l2 k).
  { intros l1 l2 l3 k -> Hk. rewrite byte_at_in by (rewrite zlen_app; unfold zlen in *; lia). by apply byte_at_l. }
  assert (Bd : forall k, 0 <= k < 6 -> byte_at rx k = byte_at dst k) by (intros k Hk; apply (B [] dst _ k Hrx); lia).
  assert (Bt : forall k, 0 <= k < 2 -> byte_at rx (12 + k) = byte_at [8; 0] k).
  { intros k Hk. replace 12 with (zlen (dst ++ src)) by (rewrite zlen_app; lia). eapply B; [rewrite Hrx, <- !app_assoc; done|done]. }
  assert (Bip : forall k, 0 <= k < 4 * h -> byte_at rx (14 + k) = byte_at iphdr k).
  { intros k Hk. replace 14 with (zlen (dst ++ src ++ [8; 0])) by (rewrite !zlen_app; change (zlen [8; 0]) with 2; lia).
    eapply B; [rewrite Hrx, <- !app_assoc; done|lia]. }
  assert (Budp : forall k, 0 <= k < 8 -> byte_at rx (14 + 4 * h + k) = byte_at udphdr k).
  { intros k Hk. replace (14 + 4 * h) with (zlen (dst ++ src ++ [8; 0] ++ iphdr)) by (rewrite !zlen_app; change (zlen [8; 0]) with 2; lia).
    eapply B; [rewrite Hrx, <- !app_assoc; done|lia]. }
  assert (Bhead : forall k, 0 <= k < 236 -> byte_at rx (14 + 4 * h + 8 + k) = byte_at head k).
  { intros k Hk. replace (14 + 4 * h + 8) with (zlen (dst ++ src ++ [8; 0] ++ iphdr ++ udphdr)) by (rewrite !zlen_app; change (zlen [8; 0]) with 2; lia).
    eapply B; [rewrite Hrx, <- !app_assoc; done|lia]. }
  split_and!.
  - destruct Hdst as [E|E]; rewrite E in Bd; apply kmemcmp_zero in Bd; rewrite Bd; [done|apply andb_false_r].
  - apply (Bt 0). lia.
  - apply (Bt 1). lia.
  - rewrite <- Hi0. apply (Bip 0). lia.
  - rewrite <- Hi9. apply (Bip 9). lia.
  - rewrite <- Hu2. apply Budp. lia.
  - rewrite <- Hu3. apply Budp. lia.
  - rewrite <- Hop, <- (Bhead 0) by lia. by rewrite Z.add_0_r.
  - rewrite <- Hx. apply ip_addr_agree. intros k Hk. rewrite <- Z.add_assoc. apply Bhead. unfold PKT_XID. lia.
  - rewrite <- Hy. apply ip_addr_agree. intros k Hk. rewrite <- Z.add_assoc. apply Bhead. unfold PKT_YIADDR. lia.
  - exists (rest ++ junk). rewrite Hrx, !(app_assoc _ _ (head ++ opts ++ junk)), (app_assoc _ head (opts ++ junk)).
    rewrite drop_app_length'; [unfold opts; by rewrite <- !app_assoc|]. rewrite !length_app. unfold zlen in *. cbn [length]. lia.
Qed.

(** What an answer does, by its message type. *)
Lemma reply_handled s mac xid yiaddr items frame h junk :
  card_mac (g_net_dev s) = mac -> g_dhcp_xid s = xid -> reply mac xid yiaddr items frame h -> g_net_rx_frame s = frame ++ junk ->
  get_ip_addr (g_net_rx_frame s) (14 + 4 * h + 8 + PKT_YIADDR) = yiaddr /\
  parse_eth_frame (zlen frame) s =
    if o_message_type (meaning items) =? DHCP_OFFER then parse_dhcp_offer (14 + 4 * h + 8) (meaning items) s
    else if o_message_type (meaning items) =? DHCP_ACK then parse_dhcp_ack (14 + 4 * h + 8) (meaning items) s else s.
Proof.
  intros Hmac Hxid Hr Hrx. pose proof (reply_bytes _ _ _ _ _ _ junk Hr) as HB. rewrite <- Hrx in HB. cbv zeta in HB.
  destruct HB as (Edst & E12 & E13 & E14 & E23 & Eu2 & Eu3 & Eop & Ex & Ey & rest & Eopts). destruct Hr as [_ Hh Hsize Hitems Hroom].
  split; [done|]. unfold PKT_SIZE in *. unfold parse_eth_frame. rewrite Hmac, Edst, E12, E13. destruct (Z.ltb_spec (zlen frame) 14); [lia|].
  change (Z.lor (Z.shiftl 8 8) 0 =? ETH_TYPE_IP) with true. cbn iota. unfold parse_ip_packet. destruct (Z.ltb_spec (zlen frame - 14) 20); [lia|].
  assert (Eh : Z.land (0x40 + h) 0xf0 = 0x40 /\ Z.land (0x40 + h) 0x0f = h).
  { assert (h = 5 \/ h = 6 \/ h = 7 \/ h = 8 \/ h = 9 \/ h = 10 \/ h = 11 \/ h = 12 \/ h = 13 \/ h = 14 \/ h = 15) as Hc by lia.
    clear -Hc. destruct Hc as [->|[->|[->|[->|[->|[->|[->|[->|[->|[->| ->]]]]]]]]]]; done. }
  destruct Eh as [E1 E2]. rewrite E14, E1, E2. change (negb (0x40 =? 0x40)) with false. cbn iota.
  destruct (Z.ltb_spec (h * 4) 20); [lia|]. destruct (Z.gtb_spec (h * 4) (zlen frame - 14)); [lia|]. cbn [orb].
  change (14 + 9) with 23. rewrite E23, Z.eqb_refl, (Z.mul_comm h 4). unfold parse_udp_packet. destruct (Z.ltb_spec (zlen frame - 14 - 4 * h) 8); [lia|].
  rewrite Eu2, Eu3. change (negb (Z.lor (Z.shiftl 0 8) DHCP_PORT_CLIENT =? DHCP_PORT_CLIENT)) with false. cbn iota.
  unfold PKT_SIZE. destruct (Z.ltb_spec (zlen frame - 14 - 4 * h - 8) 548); [lia|]. rewrite Eop. change (negb (2 =? 2)) with false. cbn [orb].
  rewrite Ex, Hxid, Z.eqb_refl. cbn [negb]. rewrite Eopts, (parse_options items rest DHCP_OPTIONS_LEN Hitems Hroom). done.
Qed.

(** ** The lease *)

(** A value the answer gives, or what was known before. *)
Definition given (c : Z) (items : list oitem) (old : Z) : Z :=
  match last_option c 4 items with Some v => dhcp_get_ipv4 v 0 | None => old end.

Lemma flag_given items :
  (forall old, (if o_flags (meaning items) &? DHCP_OPTIONS_HAS_SUBNET then o_subnet (meaning items) else old) = given 1 items old) /\
  (forall old, (if o_flags (meaning items) &? DHCP_OPTIONS_HAS_GATEWAY then o_gateway (meaning items) else old) = given 3 items old) /\
  (forall old, (if o_flags (meaning items) &? DHCP_OPTIONS_HAS_DNS then o_dns (meaning items) else old) = given 6 items old) /\
  (forall old, (if o_flags (meaning items) &? DHCP_OPTIONS_HAS_SERVER_ID then o_server_id (meaning items) else old) = given 54 items old).
Proof.
  unfold given, meaning. cbn [o_flags o_subnet o_gateway o_dns o_server_id].
  destruct (last_option 1 4 items), (last_option 3 4 items), (last_option 6 4 items), (last_option 54 4 items); done.
Qed.

(** The lease after an answer of the given type. *)
Definition lease_after (yiaddr : Z) (items : list oitem) (i : net_info) : net_info :=
  match last_option 53 1 items with
  | Some v =>
      if byte_at v 0 =? DHCP_OFFER then
        NetInfo (n_mac i) yiaddr (n_subnet i) (n_gateway i) (n_dns i) (given 54 items (n_dhcp_server i)) DHCP_OFFER (n_discovered i)
      else if byte_at v 0 =? DHCP_ACK then
        NetInfo (n_mac i) yiaddr (given 1 items (n_subnet i)) (given 3 items (n_gateway i)) (given 6 items (n_dns i))
          (given 54 items (n_dhcp_server i)) DHCP_ACK 1
      else i
  | None => i
  end.

Lemma reply_lease s mac xid yiaddr items frame h junk :
  card_mac (g_net_dev s) = mac -> g_dhcp_xid s = xid -> reply mac xid yiaddr items frame h -> g_net_rx_frame s = frame ++ junk ->
  let s' := parse_eth_frame (zlen frame) s in
  g_net_info s' = lease_after yiaddr items (g_net_info s) /\ g_net_dev s' = g_net_dev s /\ g_net_inited s' = g_net_inited s /\
  g_net_polling s' = g_net_polling s /\ g_dhcp_xid s' = g_dhcp_xid s.
Proof.
  intros Hmac Hxid Hr Hrx. destruct (reply_handled s mac xid yiaddr items frame h junk Hmac Hxid Hr Hrx) as [Ey ->]. cbv zeta.
  destruct (flag_given items) as (F1 & F2 & F3 & F4). unfold lease_after.
  assert (Et : o_message_type (meaning items) = match last_option 53 1 items with Some v => byte_at v 0 | None => 0 end) by done.
  rewrite Et. destruct (last_option 53 1 items) as [v|]; [|done].
  destruct (Z.eqb_spec (byte_at v 0) DHCP_OFFER) as [E|_].
  { unfold parse_dhcp_offer. cbn [puts set_info g_net_info g_net_dev g_net_inited g_net_polling g_dhcp_xid].
    rewrite Et, E, F4, Ey. done. }
  destruct (Z.eqb_spec (byte_at v 0) DHCP_ACK) as [E|_]; [|done].
  unfold parse_dhcp_ack. cbn [puts set_info g_net_info g_net_dev g_net_inited g_net_polling g_dhcp_xid].
  rewrite Et, E, F1, F2, F3, F4, Ey. done.
Qed.

(** ** Nothing beyond the received bytes is read *)

Lemma byte_at_dropped n l k : 0 <= n -> 0 <= k -> byte_at (drop (Z.to_nat n) l) k = byte_at l (n + k).
Proof. intros Hn Hk. unfold byte_at. rewrite lookup_drop. f_equal. f_equal. lia. Qed.

Lemma options_parse_agree a b len out :
  4 <= len -> (forall k, 0 <= k < len -> byte_at a k = byte_at b k) -> (forall k, 0 <= byte_at a k) ->
  dhcp_options_parse (Some a) len out = dhcp_options_parse (Some b) len out.
Proof.
  intros Hl He Hb. unfold dhcp_options_parse. destruct out; [|done].
  assert (E : dhcp_has_magic_cookie a len = dhcp_has_magic_cookie b len) by (unfold dhcp_has_magic_cookie; by rewrite (He 0), (He 1), (He 2), (He 3) by lia).
  rewrite E, (options_loop_agree a b); [done|done| |done]. by destruct (dhcp_has_magic_cookie b len).
Qed.

Lemma udp_agree a b d len s :
  0 <= d -> (forall k, 0 <= k < d + len -> byte_at a k = byte_at b k) -> (forall k, 0 <= byte_at a k) ->
  parse_udp_packet d len (set_rx a s) = set_rx a (parse_udp_packet d len (set_rx b s)).
Proof.
  intros Hd He Hb. unfold parse_udp_packet. cbn [set_rx g_net_rx_frame g_dhcp_xid].
  destruct (Z.ltb_spec len 8); [done|]. rewrite (He (d + 2)), (He (d + 3)) by lia. case_if; [done|].
  destruct (Z.ltb_spec (len - 8) PKT_SIZE) as [|Hsz]; [done|]. unfold PKT_SIZE in Hsz. rewrite (He (d + 8)) by lia.
  rewrite (ip_addr_agree a b _ (d + 8 + PKT_XID)) by (intros k Hk; apply He; unfold PKT_XID; lia). case_if; [done|].
  rewrite (options_parse_agree _ (drop (Z.to_nat (d + 8 + PKT_OPTIONS)) b)).
  2: { unfold DHCP_OPTIONS_LEN. lia. }
  2: { intros k Hk. unfold DHCP_OPTIONS_LEN, PKT_OPTIONS in *. rewrite !byte_at_dropped by lia. apply He. lia. }
  2: { intros k. unfold byte_at. rewrite lookup_drop. specialize (Hb (Z.of_nat (Z.to_nat (d + 8 + PKT_OPTIONS) + Z.to_nat k))). unfold byte_at in Hb.
       by rewrite Nat2Z.id in Hb. }
  destruct (dhcp_options_parse _ _ _) as [st [o|]]; [|done]. case_if; [done|].
  assert (Ey : get_ip_addr a (d + 8 + PKT_YIADDR) = get_ip_addr b (d + 8 + PKT_YIADDR))
    by (apply ip_addr_agree; intros k Hk; apply He; unfold PKT_YIADDR; lia).
  unfold parse_dhcp_offer, parse_dhcp_ack. cbn [set_rx g_net_rx_frame g_net_info]. rewrite Ey. by repeat case_if.
Qed.

(** handling a frame of [len] received bytes depends on those bytes only:
    whatever an earlier frame left behind them in the receive buffer, the
    client ends in the same state and prints the same; every header length and
    every option length it takes from the frame is checked against what was
    received before it is used. *)
Theorem frame_reads_inside s len a b :
  Forall (fun x => 0 <= x < 256) a -> (forall k, 0 <= k < len -> byte_at a k = byte_at b k) ->
  parse_eth_frame len (set_rx a s) = set_rx a (parse_eth_frame len (set_rx b s)).
Proof.
  intros Ha He. assert (Hb : forall k, 0 <= byte_at a k < 256).
  { intros k. unfold byte_at. destruct (a !! Z.to_nat k) as [x|] eqn:E; [|cbn; lia]. rewrite Forall_lookup in Ha. by apply (Ha _ _ E). }
  unfold parse_eth_frame. cbn [set_rx g_net_rx_frame g_net_dev]. destruct (Z.ltb_spec len 14); [done|].
  assert (Em : forall m, (kmemcmp a m 6 =? 0) = (kmemcmp b m 6 =? 0)).
  { intros m. apply eq_true_iff_eq. rewrite !Z.eqb_eq, !kmemcmp_zero. split; intros Hk i Hi; rewrite <- Hk by lia; [symmetry|]; apply He; lia. }
  rewrite !Em, !(He 12), !(He 13) by lia. case_if; [done|]. case_if; [|done].
  unfold parse_ip_packet. cbn [set_rx g_net_rx_frame]. destruct (Z.ltb_spec (len - 14) 20); [done|].
  rewrite (He 14), (He (14 + 9)) by lia. case_if; [done|].
  set (h := Z.land (byte_at b 14) 15 * 4). destruct (Z.ltb_spec h 20); [done|]. destruct (Z.gtb_spec h (len - 14)); [done|]. cbn [orb].
  case_if; [|done]. apply udp_agree; [lia|intros k Hk; apply He; lia|intros k; apply Hb].
Qed.
End Frames.

(** * A card with a queue of frames *)

Record queue_card := QueueCard { q_mac : list Z; q_in : list (list Z); q_out : list (list Z) }.

#[export] Instance queue_card_net : NetCard queue_card := {|
  card_mac := q_mac;
  card_ready _ := true;
  card_send f d := (0, QueueCard (q_mac d) (q_in d) (q_out d ++ [f]));
  card_recv rx d := match q_in d with
                    | f :: fs => (zlen f, f ++ drop (length f) rx, QueueCard (q_mac d) fs (q_out d))
                    | [] => (0, rx, d)
                    end;
  card_probe d := Some (0x0a000000, q_mac d);
  card_init _ d := (0, d) |}.

Definition sample_mac : list Z := [82; 84; 0; 18; 52; 86].

Definition sample_client (frames : list (list Z)) (discovered : Z) : net queue_card :=
  Net (NetInfo sample_mac 0 0 0 0 0 0 discovered) (QueueCard sample_mac frames []) true false 0x12345678 (replicate 1536 0) (replicate 1536 0) [].

Definition sample_items (type : Z) : list oitem := [OOpt 53 [type]; OPad; OOpt 54 [192; 168; 0; 1]; OOpt 1 [255; 255; 255; 0]].

(** An answer with this address and message type. *)
Definition sample_head (yiaddr : Z) : list Z :=
  set_ip_addr PKT_YIADDR yiaddr (set_ip_addr PKT_XID 0x12345678 (2 :: replicate 235 0)).

Definition sample_reply (yiaddr type : Z) : list Z :=
  (replicate 6 255 ++ replicate 6 2 ++ [8; 0]) ++ (0x45 :: replicate 8 0 ++ IP_PROTO_UDP :: replicate 10 0) ++
  ([0; 67; 0; 68; 2; 44; 0; 0]) ++ sample_head yiaddr ++ [0x63; 0x82; 0x53; 0x63] ++ concat (map encode_option (sample_items type)) ++ 255 :: replicate 291 0.

Lemma sample_is_reply type : type = DHCP_OFFER \/ type = DHCP_ACK ->
  reply sample_mac 0x12345678 0x0200a8c0 (sample_items type) (sample_reply 0x0200a8c0 type) 5.
Proof.
  intros Ht. split.
  - eexists _, _, _, _, _, _. split; [reflexivity|]. split_and!; try reflexivity. by right.
  - lia.
  - by destruct Ht as [->| ->].
  - repeat (apply Forall_cons_2 || apply Forall_nil_2); try exact I; (split; [lia|reflexivity]).
  - by destruct Ht as [->| ->].
Qed.

(** What the buffer held after the frame is of no matter. *)
Lemma frame_reads_inside_witness :
  forallb (fun x => (0 <=? x) && (x <? 256)) (sample_reply 0x0200a8c0 DHCP_ACK) = true /\
  let f := sample_reply 0x0200a8c0 DHCP_ACK in
  parse_eth_frame (zlen f) (set_rx f (sample_client [] 0)) =
    set_rx f (parse_eth_frame (zlen f) (set_rx (f ++ replicate 900 77) (sample_client [] 0))).
Proof.
  assert (B : forallb (fun x => (0 <=? x) && (x <? 256)) (sample_reply 0x0200a8c0 DHCP_ACK) = true) by reflexivity.
  split; [exact B|]. cbv zeta. apply frame_reads_inside.
  - apply List.Forall_forall. intros x Hx. rewrite forallb_forall in B. specialize (B x Hx). b2p. lia.
  - intros k Hk. symmetry. by apply byte_at_l.
Defined.
