(* ===== verification/DhcpSent.v ===== *)
(** The frames the network client sends: the checksum, stores into a frame, and
    the IPv4 header, which verifies. *)

From Stdlib Require Import String Ascii.
From S2P Require Import Prelude.
From S2P Require Import Bytes.
From S2P Require Import Print.
From S2P Require Import UserImage.
From S2P Require Import Block.
From S2P Require Import Dhcp.
From S2P Require Import DhcpLease.
Open Scope arm.

(** * The checksum *)

Definition word_at (f : list Z) (i : Z) : Z := 256 * byte_at f i + byte_at f (i + 1).

Definition bytes_in (f : list Z) (lo hi : Z) : Prop := forall j, lo <= j < hi -> 0 <= byte_at f j < 256.

Lemma word_lor f i : 0 <= byte_at f i -> 0 <= byte_at f (i + 1) < 256 -> Z.lor (Z.shiftl (byte_at f i) 8) (byte_at f (i + 1)) = word_at f i.
Proof. intros Ha Hb. rewrite Z.lor_comm, (lor_shift _ _ 8) by lia. unfold word_at. lia. Qed.

(** The sum of [n] words. *)
Fixpoint words (n : nat) (f : list Z) (i : Z) : Z := match n with O => 0 | S n' => word_at f i + words n' f (i + 2) end.

Lemma words_range n f : forall i, bytes_in f i (i + 2 * Z.of_nat n) -> 0 <= words n f i <= 65535 * Z.of_nat n.
Proof.
  induction n as [|n IH]; intros i Hb; [cbn; lia|]. cbn [words]. pose proof (Hb i ltac:(lia)). pose proof (Hb (i + 1) ltac:(lia)).
  specialize (IH (i + 2) ltac:(intros j Hj; apply Hb; lia)). unfold word_at. lia.
Qed.

Lemma sum_words n f : forall fuel i sum,
  bytes_in f i (i + 2 * Z.of_nat n) -> (n < fuel)%nat -> 0 <= sum -> sum + 65535 * Z.of_nat n < 2 ^ 32 ->
  sum_loop fuel f i (2 * Z.of_nat n) sum = sum + words n f i.
Proof.
  induction n as [|n IH]; intros [|fuel] i sum Hb Hf Hs Hm; try lia; cbn [sum_loop words].
  { change (2 * Z.of_nat 0) with 0. change (0 >? 1) with false. change (0 >? 0) with false. cbn iota. lia. }
  destruct (Z.gtb_spec (2 * Z.of_nat (S n)) 1); [|lia]. pose proof (Hb i ltac:(lia)). pose proof (Hb (i + 1) ltac:(lia)).
  rewrite word_lor by lia. replace (2 * Z.of_nat (S n) - 2) with (2 * Z.of_nat n) by lia. unfold word_at.
  rewrite u32_id by lia. rewrite IH; [lia|intros j Hj; apply Hb; lia|lia..].
Qed.

(** Folding keeps the residue modulo 2^16 - 1. *)
Lemma fold_spec x : 0 < x < 2 ^ 32 -> fold_loop 3 x = 1 + (x - 1) mod 65535.
Proof.
  intros Hx.
  assert (Step : forall y, Z.land y 0xffff + Z.shiftr y 16 = y mod 65536 + y / 65536).
  { intros y. change 0xffff with (2 ^ 16 - 1). rewrite land_low_mask, Z.shiftr_div_pow2 by lia. done. }
  cbn [fold_loop]. rewrite !Step, !Z.shiftr_div_pow2 by lia. change (2 ^ 16) with 65536.
  repeat case_if; Z.to_euclidean_division_equations; lia.
Qed.

Lemma checksum_value f p :
  bytes_in f p (p + 20) -> 0 < words 10 f p -> checksum f p 20 = 65534 - (words 10 f p - 1) mod 65535.
Proof.
  intros Hb Hp. unfold checksum. change (S (Z.to_nat 20)) with 21%nat. change 20 with (2 * Z.of_nat 10) at 1.
  pose proof (words_range 10 f p Hb) as Hr. change (Z.of_nat 10) with 10 in Hr.
  rewrite sum_words by (done || cbn; lia). rewrite Z.add_0_l, fold_spec by lia.
  pose proof (Z.mod_pos_bound (words 10 f p - 1) 65535 ltac:(lia)). set (v := (words 10 f p - 1) mod 65535) in *.
  change 0xffff with (2 ^ 16 - 1). rewrite land_low_mask by lia. unfold Z.lnot. symmetry. apply (Z.mod_unique_pos _ _ (-1)); lia.
Qed.

(** Words change with a 16-bit store in them. *)
Lemma words_store n f f' i k :
  (forall j, i <= j -> j <> i + 2 * Z.of_nat k -> j <> i + 2 * Z.of_nat k + 1 -> byte_at f' j = byte_at f j) -> (k < n)%nat ->
  words n f' i = words n f i - word_at f (i + 2 * Z.of_nat k) + word_at f' (i + 2 * Z.of_nat k).
Proof.
  revert i k. induction n as [|n IH]; intros i k He Hk; [lia|]. cbn [words]. destruct k as [|k].
  - rewrite Z.mul_0_r, Z.add_0_r in *. assert (E : words n f' (i + 2) = words n f (i + 2)); [|lia].
    assert (He' : forall j, i + 2 <= j -> byte_at f' j = byte_at f j) by (intros j Hj; apply He; lia). clear -He'. revert He'.
    generalize (i + 2). induction n as [|n IH]; intros a Ha; [done|]. cbn [words]. unfold word_at.
    rewrite (Ha a), (Ha (a + 1)), IH by (lia || (intros; apply Ha; lia)). done.
  - rewrite (IH (i + 2) k) by (lia || (intros j J0 J1 J2; apply He; lia)).
    assert (E : word_at f' i = word_at f i) by (unfold word_at; rewrite !He by lia; done). rewrite E.
    replace (i + 2 + 2 * Z.of_nat k) with (i + 2 * Z.of_nat (S k)) by lia. lia.
Qed.

(** What a receiver computes (RFC 1071): the one's complement sum of the words,
    the carry out of 16 bits added back at every addition. *)
Definition ones_add (a b : Z) : Z := (a + b) mod 65536 + (a + b) / 65536.

Fixpoint ones_sum (n : nat) (f : list Z) (i : Z) : Z :=
  match n with O => 0 | S n' => ones_add (word_at f i) (ones_sum n' f (i + 2)) end.

Lemma ones_sum_words n f : forall i, bytes_in f i (i + 2 * Z.of_nat n) ->
  0 <= ones_sum n f i < 65536 /\ ones_sum n f i mod 65535 = words n f i mod 65535 /\ (0 < words n f i -> 0 < ones_sum n f i).
Proof.
  induction n as [|n IH]; intros i Hb; [cbn; lia|]. cbn [ones_sum words]. pose proof (Hb i ltac:(lia)). pose proof (Hb (i + 1) ltac:(lia)).
  assert (Ht : bytes_in f (i + 2) (i + 2 + 2 * Z.of_nat n)) by (intros j Hj; apply Hb; lia).
  destruct (IH (i + 2) Ht) as (Hr & Hm & Hp). pose proof (words_range n f (i + 2) Ht).
  assert (Hw : 0 <= word_at f i < 65536) by (unfold word_at; lia). unfold ones_add.
  split; [Z.to_euclidean_division_equations; lia|]. split.
  - rewrite (Z.add_mod (word_at f i) (words n f (i + 2))), <- Hm, <- Z.add_mod by lia. Z.to_euclidean_division_equations; lia.
  - intros Hpos. destruct (Z.eq_dec (words n f (i + 2)) 0); Z.to_euclidean_division_equations; lia.
Qed.

(** A header with its checksum stored verifies: the words sum to all ones. *)
Lemma checksum_verifies f p :
  0 <= p -> p + 20 <= zlen f -> bytes_in f p (p + 20) -> 0 < words 10 f p -> byte_at f (p + 10) = 0 -> byte_at f (p + 11) = 0 ->
  ones_sum 10 (put_be16 (p + 10) (checksum f p 20) f) p = 0xffff.
Proof.
  intros Hp Hl Hb Hw Z1 Z2. set (c := checksum f p 20). set (f' := put_be16 (p + 10) c f).
  pose proof (checksum_value f p Hb Hw) as Ec. fold c in Ec. pose proof (Z.mod_pos_bound (words 10 f p - 1) 65535 ltac:(lia)).
  assert (Hc : 0 <= c < 65536) by lia. assert (Hby : forall x, 0 <= Z.land x 0xff < 256).
  { intros x. change 0xff with (2 ^ 8 - 1). rewrite land_low_mask by lia. apply Z.mod_pos_bound. lia. }
  assert (B : forall j, 0 <= j -> byte_at f' j = if j =? p + 11 then Z.land c 0xff else if j =? p + 10 then Z.land (Z.shiftr c 8) 0xff else byte_at f j).
  { intros j Hj. unfold f', put_be16. unfold zlen in Hl. rewrite !byte_at_put by (rewrite ?put_length; lia). replace (p + 10 + 1) with (p + 11) by lia. done. }
  assert (Hb' : bytes_in f' p (p + 20)) by (intros j Hj; rewrite B by lia; repeat case_if; [apply Hby|apply Hby|apply Hb; lia]).
  assert (Ew : words 10 f' p = words 10 f p + c).
  { assert (E10 : word_at f' (p + 10) = c).
    { unfold word_at. rewrite !B by lia. destruct (Z.eqb_spec (p + 10) (p + 11)); [lia|]. destruct (Z.eqb_spec (p + 10 + 1) (p + 11)); [|lia].
      rewrite Z.eqb_refl. change 0xff with (2 ^ 8 - 1). rewrite !land_low_mask, Z.shiftr_div_pow2 by lia. Z.to_euclidean_division_equations; lia. }
    rewrite (words_store 10 f f' p 5); [|intros j J0 J1 J2|lia].
    - change (2 * Z.of_nat 5) with 10. rewrite E10. unfold word_at. replace (p + 10 + 1) with (p + 11) by lia. rewrite Z1, Z2. lia.
    - change (2 * Z.of_nat 5) with 10 in *. rewrite B by lia. destruct (Z.eqb_spec j (p + 11)), (Z.eqb_spec j (p + 10)); try done; lia. }
  destruct (ones_sum_words 10 f' p Hb') as (Hr & Hm & Hp'). rewrite Ew in Hm, Hp'. clear -Ec Hr Hm Hp' Hw Hc.
  specialize (Hp' ltac:(lia)). Z.to_euclidean_division_equations; lia.
Qed.

(** * Stores into a frame *)

Lemma zlen_put i v f : zlen (put i v f) = zlen f.
Proof. unfold zlen. by rewrite put_length. Qed.

Lemma zlen_put_be16 i v f : zlen (put_be16 i v f) = zlen f.
Proof. unfold put_be16. by rewrite !zlen_put. Qed.

Lemma zlen_set_ip_addr i v f : zlen (set_ip_addr i v f) = zlen f.
Proof. unfold set_ip_addr. by rewrite !zlen_put. Qed.

Lemma zlen_fill f lo hi v : 0 <= lo <= hi -> hi <= zlen f -> zlen (fill_bytes f lo hi v) = zlen f.
Proof. intros H1 H2. unfold zlen in *. by rewrite (proj1 (fill_bytes_spec f lo hi v H1 H2)). Qed.

Lemma zlen_copy f i src n : 0 <= i -> 0 <= n -> i + n <= zlen f -> zlen (copy_bytes f i src 0 n) = zlen f.
Proof. intros H1 H2 H3. unfold zlen in *. by rewrite (proj1 (copy_bytes_spec f i src 0 n H1 H2 H3)). Qed.

Lemma byte_at_put_z i v f j : 0 <= i < zlen f -> 0 <= j -> byte_at (put i v f) j = if j =? i then v else byte_at f j.
Proof. apply byte_at_put. Qed.

Lemma land_byte x : Z.land x 0xff = x mod 256.
Proof. change 0xff with (2 ^ 8 - 1). by rewrite land_low_mask by lia. Qed.

Lemma byte_at_be16 i v f j : 0 <= i -> i + 2 <= zlen f -> 0 <= j ->
  byte_at (put_be16 i v f) j = if j =? i then v / 256 mod 256 else if j =? i + 1 then v mod 256 else byte_at f j.
Proof.
  intros Hi Hl Hj. unfold put_be16. rewrite !byte_at_put_z by (rewrite ?zlen_put; lia). rewrite !land_byte, Z.shiftr_div_pow2 by lia.
  change (2 ^ 8) with 256. destruct (Z.eqb_spec j (i + 1)), (Z.eqb_spec j i); done || lia.
Qed.

Lemma byte_at_ip i v f j : 0 <= i -> i + 4 <= zlen f -> 0 <= j ->
  byte_at (set_ip_addr i v f) j = if (i <=? j) && (j <? i + 4) then v / 2 ^ (8 * (j - i)) mod 256 else byte_at f j.
Proof.
  intros Hi Hl Hj. unfold set_ip_addr. rewrite !byte_at_put_z by (rewrite ?zlen_put; lia). rewrite !land_byte, !Z.shiftr_div_pow2 by lia.
  destruct (Z.eqb_spec j (i + 3)) as [->|]; [|destruct (Z.eqb_spec j (i + 2)) as [->|]; [|destruct (Z.eqb_spec j (i + 1)) as [->|];
    [|destruct (Z.eqb_spec j i) as [->|]]]].
  5: { destruct (Z.leb_spec i j), (Z.ltb_spec j (i + 4)); done || lia. }
  all: rewrite (proj2 (Z.leb_le _ _)), (proj2 (Z.ltb_lt _ _)) by lia; cbn [andb].
  - by replace (8 * (i + 3 - i)) with 24 by lia.
  - by replace (8 * (i + 2 - i)) with 16 by lia.
  - by replace (8 * (i + 1 - i)) with 8 by lia.
  - replace (8 * (i - i)) with 0 by lia. by rewrite Z.div_1_r.
Qed.

(** An address is read back where it was stored. *)
Lemma ip_addr_read f i v :
  0 <= v < 2 ^ 32 -> (forall k, 0 <= k < 4 -> byte_at f (i + k) = v / 2 ^ (8 * k) mod 256) -> get_ip_addr f i = v.
Proof.
  intros Hv He. unfold get_ip_addr. pose proof (He 0 ltac:(lia)) as E0. rewrite Z.add_0_r in E0. rewrite E0, (He 1), (He 2), (He 3) by lia.
  change (8 * 0) with 0. change (8 * 1) with 8. change (8 * 2) with 16. change (8 * 3) with 24. change (2 ^ 0) with 1.
  pose proof (Z.mod_pos_bound (v / 1) 256). pose proof (Z.mod_pos_bound (v / 2 ^ 8) 256). pose proof (Z.mod_pos_bound (v / 2 ^ 16) 256).
  pose proof (Z.mod_pos_bound (v / 2 ^ 24) 256).
  rewrite (lor_shift _ _ 8), (lor_shift _ _ 16), (lor_shift _ _ 24), u32_id by lia. Z.to_euclidean_division_equations; lia.
Qed.

(** * The IPv4 header *)

Definition ipv4_byte (n src dst proto k : Z) : Z :=
  if k =? 0 then 0x45 else if k =? 2 then (20 + n) / 256 mod 256 else if k =? 3 then (20 + n) mod 256 else
  if k =? 8 then 64 else if k =? 9 then proto else
  if (12 <=? k) && (k <? 16) then src / 2 ^ (8 * (k - 12)) mod 256 else
  if (16 <=? k) && (k <? 20) then dst / 2 ^ (8 * (k - 16)) mod 256 else 0.

Definition broadcast_if_none (dst : Z) : Z := if dst =? 0 then 0xffffffff else dst.

Definition ipv4_fields (p n src dst proto : Z) (f : list Z) : list Z :=
  set_ip_addr (p + 16) (broadcast_if_none dst) (set_ip_addr (p + 12) src
    (put (p + 9) proto (put (p + 8) 64 (put_be16 (p + 2) (20 + n) (put (p + 1) 0 (put p 0x45 (fill_bytes f p (p + 20) 0))))))).

Lemma write_ipv4_fields p n src dst proto f :
  write_ipv4_header p n src dst proto f = let f0 := ipv4_fields p n src dst proto f in put_be16 (p + 10) (checksum f0 p 20) f0.
Proof.
  unfold write_ipv4_header, ipv4_fields, broadcast_if_none, IPV4_HEADER_LEN.
  destruct (Z.eqb_spec src 0) as [->|]; destruct (Z.eqb_spec dst 0) as [->|]; unfold set_ip_addr; rewrite <- ?Z.add_assoc; done.
Qed.

Lemma ipv4_fields_bytes p n src dst proto f :
  0 <= p -> p + 20 <= zlen f ->
  zlen (ipv4_fields p n src dst proto f) = zlen f /\
  forall j, 0 <= j -> byte_at (ipv4_fields p n src dst proto f) j =
    if (p <=? j) && (j <? p + 20) then ipv4_byte n src (broadcast_if_none dst) proto (j - p) else byte_at f j.
Proof.
  intros Hp Hl. unfold ipv4_fields. assert (Hf : zlen (fill_bytes f p (p + 20) 0) = zlen f) by (apply zlen_fill; lia).
  split; [by rewrite !zlen_set_ip_addr, !zlen_put, zlen_put_be16, !zlen_put|]. intros j Hj.
  rewrite !byte_at_ip, !byte_at_put_z, byte_at_be16, !byte_at_put_z by (rewrite ?zlen_set_ip_addr, ?zlen_put, ?zlen_put_be16, ?zlen_put, ?Hf; lia).
  rewrite (proj2 (fill_bytes_spec f p (p + 20) 0 ltac:(lia) Hl)) by lia. unfold ipv4_byte.
  replace (j - (p + 16)) with (j - p - 16) by lia. replace (j - (p + 12)) with (j - p - 12) by lia.
  destruct (Z.leb_spec p j), (Z.ltb_spec j (p + 20)), (Z.leb_spec (p + 16) j), (Z.ltb_spec j (p + 16 + 4)), (Z.leb_spec (p + 12) j),
    (Z.ltb_spec j (p + 12 + 4)), (Z.leb_spec 12 (j - p)), (Z.ltb_spec (j - p) 16), (Z.leb_spec 16 (j - p)), (Z.ltb_spec (j - p) 20);
    try lia; cbn [andb]; repeat (case_match; b2p; try lia); done.
Qed.

Lemma ipv4_byte_range n src dst proto k : 0 <= proto < 256 -> 0 <= ipv4_byte n src dst proto k < 256.
Proof. intros Hp. unfold ipv4_byte. repeat case_if; try lia; apply Z.mod_pos_bound; lia. Qed.

(** A header a receiver takes: version and header length, no fragment, a time
    to live, the length, the protocol and the addresses; and its ten words, the
    checksum among them, have the one's complement sum of all ones. *)
Record ipv4_header (p n src dst proto : Z) (f' : list Z) : Prop := {
  ih_version : byte_at f' p = 0x45;
  ih_length : word_at f' (p + 2) = 20 + n;
  ih_whole : word_at f' (p + 6) = 0;
  ih_ttl : byte_at f' (p + 8) = 64;
  ih_proto : byte_at f' (p + 9) = proto;
  ih_src : get_ip_addr f' (p + 12) = src;
  ih_dst : get_ip_addr f' (p + 16) = dst;
  ih_verifies : ones_sum 10 f' p = 0xffff }.

Lemma write_ipv4_header_ok p n src dst proto f :
  0 <= p -> p + 20 <= zlen f -> 0 <= n < 65516 -> 0 <= proto < 256 -> 0 <= src < 2 ^ 32 -> 0 <= dst < 2 ^ 32 ->
  let f' := write_ipv4_header p n src dst proto f in
  zlen f' = zlen f /\ (forall j, 0 <= j -> j < p \/ p + 20 <= j -> byte_at f' j = byte_at f j) /\
  ipv4_header p n src (broadcast_if_none dst) proto f'.
Proof.
  intros Hp Hl Hn Hpr Hs Hd f'. unfold f'. rewrite write_ipv4_fields. cbv zeta.
  destruct (ipv4_fields_bytes p n src dst proto f Hp Hl) as [Hlen Hby]. set (f0 := ipv4_fields p n src dst proto f) in *.
  assert (Hin : forall k, 0 <= k < 20 -> byte_at f0 (p + k) = ipv4_byte n src (broadcast_if_none dst) proto k).
  { intros k Hk. rewrite Hby by lia. rewrite (proj2 (Z.leb_le _ _)), (proj2 (Z.ltb_lt _ _)) by lia. cbn [andb]. f_equal. lia. }
  set (c := checksum f0 p 20).
  assert (Hc : forall j, 0 <= j -> j <> p + 10 -> j <> p + 11 -> byte_at (put_be16 (p + 10) c f0) j = byte_at f0 j).
  { intros j Hj N1 N2. rewrite byte_at_be16 by (rewrite ?Hlen; lia). destruct (Z.eqb_spec j (p + 10)), (Z.eqb_spec j (p + 10 + 1)); done || lia. }
  split; [by rewrite zlen_put_be16|]. split.
  { intros j Hj Ho. rewrite Hc, Hby by lia. destruct (Z.leb_spec p j), (Z.ltb_spec j (p + 20)); done || lia. }
  assert (Hr : bytes_in f0 p (p + 20)).
  { intros j Hj. replace j with (p + (j - p)) by lia. rewrite Hin by lia. by apply ipv4_byte_range. }
  pose proof (Hin 0 ltac:(lia)) as E0. rewrite Z.add_0_r in E0. split.
  - by rewrite Hc by lia.
  - unfold word_at. rewrite !Hc by lia. rewrite <- (Z.add_assoc p 2 1), !Hin by lia.
    change (256 * ((20 + n) / 256 mod 256) + (20 + n) mod 256 = 20 + n).
    rewrite (Z.mod_small ((20 + n) / 256)) by (Z.to_euclidean_division_equations; lia). pose proof (Z.div_mod (20 + n) 256). lia.
  - unfold word_at. by rewrite !Hc, <- (Z.add_assoc p 6 1), !Hin by lia.
  - by rewrite Hc, (Hin 8) by lia.
  - by rewrite Hc, (Hin 9) by lia.
  - apply ip_addr_read; [lia|]. intros k Hk. rewrite Hc, <- Z.add_assoc, Hin by lia. unfold ipv4_byte.
    repeat (case_match; b2p; try lia). f_equal. f_equal. f_equal. lia.
  - apply ip_addr_read; [unfold broadcast_if_none; case_if; lia|]. intros k Hk. rewrite Hc, <- Z.add_assoc, Hin by lia. unfold ipv4_byte.
    repeat (case_match; b2p; try lia). f_equal. f_equal. f_equal. lia.
  - apply checksum_verifies; try done; [by rewrite Hlen| |by rewrite Hin by lia..].
    cbn [words]. pose proof (words_range 9 f0 (p + 2) ltac:(intros j Hj; apply Hr; lia)) as [Hw _]. unfold word_at at 1.
    pose proof (Hr (p + 1) ltac:(lia)). rewrite E0. change (ipv4_byte n src (broadcast_if_none dst) proto 0) with 0x45.
    cbn [words] in Hw. lia.
Qed.
