(* ===== verification/DhcpRequest.v ===== *)
(** The frames of the client's requests: a frame is a UDP packet to the server
    whose IPv4 header verifies, and the options of a request say, to the parser
    of options too, what the client asks for. *)

From Stdlib Require Import String Ascii.
From S2P Require Import Prelude.
From S2P Require Import Bytes.
From S2P Require Import Print.
From S2P Require Import UserImage.
From S2P Require Import Block.
From S2P Require Import Dhcp.
From S2P Require Import DhcpLease.
From S2P Require Import DhcpSent.
Open Scope arm.

(** * What a buffer holds *)

(** The bytes [l] are at index [o] of the buffer. *)
Definition holds (f : list Z) (o : Z) (l : list Z) : Prop := forall k, 0 <= k < zlen l -> byte_at f (o + k) = byte_at l k.

Lemma holds_put_keep f o l i v :
  0 <= o -> o + zlen l <= zlen f -> 0 <= i < zlen f -> i < o \/ o + zlen l <= i -> holds f o l -> holds (put i v f) o l.
Proof. intros Ho Hl Hi Hout Hh k Hk. rewrite byte_at_put_z by lia. destruct (Z.eqb_spec (o + k) i); [lia|by apply Hh]. Qed.

(** Storing the next byte. *)
Lemma holds_put_next f o l i v :
  holds f o l -> 0 <= o -> i = o + zlen l -> i < zlen f -> holds (put i v f) o (l ++ [v]).
Proof.
  intros Hh Ho -> Hl k Hk. assert (0 <= zlen l) by (unfold zlen; lia). rewrite zlen_app in Hk. change (zlen [v]) with 1 in Hk.
  rewrite byte_at_put_z by lia. destruct (Z.eqb_spec (o + k) (o + zlen l)) as [E|].
  - replace k with (zlen l + 0) by lia. by rewrite byte_at_in by (change (zlen [v]) with 1; lia).
  - rewrite byte_at_l by lia. apply Hh. lia.
Qed.

Definition ip_bytes (ip : Z) : list Z :=
  [Z.land ip 0xff; Z.land (Z.shiftr ip 8) 0xff; Z.land (Z.shiftr ip 16) 0xff; Z.land (Z.shiftr ip 24) 0xff].

Lemma holds_ip_next f o l i ip :
  holds f o l -> 0 <= o -> i = o + zlen l -> i + 4 <= zlen f -> holds (set_ip_addr i ip f) o (l ++ ip_bytes ip).
Proof.
  intros Hh Ho -> Hl. unfold set_ip_addr, ip_bytes. set (b0 := Z.land ip 255). set (b1 := Z.land (Z.shiftr ip 8) 255).
  set (b2 := Z.land (Z.shiftr ip 16) 255). set (b3 := Z.land (Z.shiftr ip 24) 255).
  replace (l ++ [b0; b1; b2; b3]) with ((((l ++ [b0]) ++ [b1]) ++ [b2]) ++ [b3]) by (by rewrite <- !app_assoc).
  repeat apply holds_put_next; rewrite ?zlen_put, ?zlen_app; change (zlen [b0]) with 1; change (zlen [b1]) with 1; change (zlen [b2]) with 1; done || lia.
Qed.

(** What a buffer holds at its start is a prefix of it. *)
Lemma holds_prefix f l : zlen l <= zlen f -> holds f 0 l -> exists rest, f = l ++ rest.
Proof.
  intros Hl Hh. exists (drop (length l) f). rewrite <- (take_drop (length l) f) at 1. f_equal. unfold zlen in Hl.
  apply list_eq_same_length with (length l); [done|rewrite length_take; lia|].
  intros i x y Hi Hx Hy. rewrite lookup_take_lt in Hx by done. specialize (Hh (Z.of_nat i)). unfold zlen, byte_at in Hh.
  rewrite Z.add_0_l, Nat2Z.id, Hx, Hy in Hh. cbn in Hh. apply Hh. lia.
Qed.

(** * The options of a request *)

Ltac at_end := unfold zlen; cbn; lia.

Definition cookie : list Z := [0x63; 0x82; 0x53; 0x63].

Definition request_items (server_ip requested_ip : Z) : list oitem :=
  OOpt 53 [DHCP_REQUEST] :: (if server_ip =? 0 then [] else [OOpt 54 (ip_bytes server_ip)]) ++ [OOpt 50 (ip_bytes requested_ip)].

Definition option_bytes (items : list oitem) : list Z := cookie ++ concat (map encode_option items) ++ [255].

Lemma zlen_request srv ip f o : zlen (request_options o srv ip f) = zlen f.
Proof. unfold request_options. destruct (srv =? 0); cbn [negb]; rewrite !zlen_put, ?zlen_set_ip_addr, !zlen_put, ?zlen_set_ip_addr, ?zlen_put; done. Qed.

Lemma request_options_outside srv ip f o j :
  0 <= o -> o + 20 <= zlen f -> 0 <= j < o -> byte_at (request_options o srv ip f) j = byte_at f j.
Proof.
  intros Ho Hl Hj. unfold request_options, set_ip_addr. destruct (srv =? 0); cbn [negb];
    rewrite !byte_at_put_z by (rewrite ?zlen_put; lia); repeat (case_match; b2p; try lia); done.
Qed.

Lemma request_options_hold srv ip f o :
  0 <= o -> o + 20 <= zlen f -> holds f o cookie -> holds (request_options o srv ip f) o (option_bytes (request_items srv ip)).
Proof.
  intros Ho Hl Hc. unfold request_options, option_bytes, request_items.
  assert (H1 : holds (put (o + 6) DHCP_REQUEST (put (o + 5) 1 (put (o + 4) 53 f))) o (((cookie ++ [53]) ++ [1]) ++ [DHCP_REQUEST])).
  { repeat (apply holds_put_next; [|done|at_end|rewrite ?zlen_put; lia]). done. }
  assert (zlen (put (o + 6) DHCP_REQUEST (put (o + 5) 1 (put (o + 4) 53 f))) = zlen f) by (by rewrite !zlen_put).
  destruct (srv =? 0); cbn [negb].
  - pose proof (holds_put_next _ _ _ (o + 7) 50 H1 Ho ltac:(at_end) ltac:(lia)) as H2.
    pose proof (holds_put_next _ _ _ (o + 7 + 1) 4 H2 Ho ltac:(at_end) ltac:(rewrite ?zlen_put; lia)) as H3.
    pose proof (holds_ip_next _ _ _ (o + 7 + 2) ip H3 Ho ltac:(at_end) ltac:(rewrite ?zlen_put; lia)) as H4.
    pose proof (holds_put_next _ _ _ (o + 7 + 6) 255 H4 Ho ltac:(at_end) ltac:(rewrite ?zlen_set_ip_addr, ?zlen_put; lia)) as H5.
    exact H5.
  - pose proof (holds_put_next _ _ _ (o + 7) 54 H1 Ho ltac:(at_end) ltac:(lia)) as G2.
    pose proof (holds_put_next _ _ _ (o + 8) 4 G2 Ho ltac:(at_end) ltac:(rewrite ?zlen_put; lia)) as G3.
    pose proof (holds_ip_next _ _ _ (o + 9) srv G3 Ho ltac:(at_end) ltac:(rewrite ?zlen_put; lia)) as G4.
    pose proof (holds_put_next _ _ _ (o + 13) 50 G4 Ho ltac:(at_end) ltac:(rewrite ?zlen_set_ip_addr, ?zlen_put; lia)) as H2.
    pose proof (holds_put_next _ _ _ (o + 13 + 1) 4 H2 Ho ltac:(at_end) ltac:(rewrite ?zlen_put, ?zlen_set_ip_addr, ?zlen_put; lia)) as H3.
    pose proof (holds_ip_next _ _ _ (o + 13 + 2) ip H3 Ho ltac:(at_end) ltac:(rewrite ?zlen_put, ?zlen_set_ip_addr, ?zlen_put; lia)) as H4.
    pose proof (holds_put_next _ _ _ (o + 13 + 6) 255 H4 Ho ltac:(at_end)
      ltac:(rewrite ?zlen_set_ip_addr, ?zlen_put, ?zlen_set_ip_addr, ?zlen_put; lia)) as H5.
    exact H5.
Qed.

(** * The packet before its options *)

Definition request_fields (mac : list Z) (xid : Z) (ciaddr : Z) (f : list Z) (p : Z) : Prop :=
  byte_at f p = 1 /\ byte_at f (p + 1) = 1 /\ byte_at f (p + 2) = 6 /\ get_ip_addr f (p + PKT_XID) = xid /\
  word_at f (p + PKT_FLAGS) = 0x8000 /\ get_ip_addr f (p + PKT_CIADDR) = ciaddr /\
  forall k, 0 <= k < 6 -> byte_at f (p + PKT_CHADDR + k) = byte_at mac k.

Lemma request_fields_agree mac xid ip a b p q :
  (forall k, 0 <= k < 236 -> byte_at b (q + k) = byte_at a (p + k)) -> request_fields mac xid ip a p -> request_fields mac xid ip b q.
Proof.
  intros He (A1 & A2 & A3 & A4 & A5 & A6 & A7). unfold request_fields, PKT_XID, PKT_FLAGS, PKT_CIADDR, PKT_CHADDR in *. split_and!.
  - pose proof (He 0 ltac:(lia)) as E. rewrite !Z.add_0_r in E. by rewrite E.
  - by rewrite He by lia.
  - by rewrite He by lia.
  - rewrite <- A4. apply ip_addr_agree. intros k Hk. rewrite <- !Z.add_assoc. apply He. lia.
  - rewrite <- A5. unfold word_at. rewrite <- !Z.add_assoc. by rewrite !He by lia.
  - rewrite <- A6. apply ip_addr_agree. intros k Hk. rewrite <- !Z.add_assoc. apply He. lia.
  - intros k Hk. rewrite <- A7 by done. rewrite <- !Z.add_assoc. apply He. lia.
Qed.

Definition requested (r : option Z) : Z := match r with Some ip => ip | None => 0 end.

Definition xid_flags (xid : Z) (r : option Z) (f : list Z) : list Z :=
  let f := put 44 6 (put 43 1 (put 42 1 (fill_bytes f 42 590 0))) in
  let f := put 53 0 (put 52 0x80 (set_ip_addr 46 xid f)) in
  match r with Some ip => set_ip_addr 54 ip f | None => f end.

Lemma packet_head_eq mac xid r f :
  packet_head mac xid r f = copy_bytes (copy_bytes (xid_flags xid r f) 70 mac 0 6) 278 cookie 0 4.
Proof. destruct r; reflexivity. Qed.

Lemma xid_flags_bytes xid r f j :
  590 <= zlen f -> 0 <= j ->
  zlen (xid_flags xid r f) = zlen f /\
  byte_at (xid_flags xid r f) j =
    if (54 <=? j) && (j <? 58) then requested r / 2 ^ (8 * (j - 54)) mod 256 else if j =? 53 then 0 else if j =? 52 then 0x80 else
    if (46 <=? j) && (j <? 50) then xid / 2 ^ (8 * (j - 46)) mod 256 else if j =? 44 then 6 else if j =? 43 then 1 else if j =? 42 then 1 else
    if (42 <=? j) && (j <? 590) then 0 else byte_at f j.
Proof.
  intros Hl Hj. assert (Hf : zlen (fill_bytes f 42 590 0) = zlen f) by (apply zlen_fill; lia).
  pose proof (proj2 (fill_bytes_spec f 42 590 0 ltac:(lia) Hl) j Hj) as Hb. unfold xid_flags. destruct r as [ip|]; cbn [requested].
  - split; [by rewrite zlen_set_ip_addr, !zlen_put, zlen_set_ip_addr, !zlen_put|].
    rewrite byte_at_ip, !byte_at_put_z, byte_at_ip, !byte_at_put_z, Hb by (rewrite ?zlen_put, ?zlen_set_ip_addr, ?zlen_put, ?Hf; lia). done.
  - split; [by rewrite !zlen_put, zlen_set_ip_addr, !zlen_put|].
    rewrite !byte_at_put_z, byte_at_ip, !byte_at_put_z, Hb by (rewrite ?zlen_put, ?zlen_set_ip_addr, ?zlen_put, ?Hf; lia).
    destruct (Z.leb_spec 54 j), (Z.ltb_spec j 58); cbn [andb]; try done. rewrite Z.div_0_l by (apply Z.pow_nonzero; lia).
    repeat (case_match; b2p; try lia); done.
Qed.

Lemma packet_head_ok mac xid r f :
  590 <= zlen f -> 0 <= xid < 2 ^ 32 -> 0 <= requested r < 2 ^ 32 ->
  let f' := packet_head mac xid r f in
  zlen f' = zlen f /\ request_fields mac xid (requested r) f' 42 /\ holds f' 278 cookie.
Proof.
  intros Hl Hx Hr f'. unfold f'. rewrite packet_head_eq. pose proof (proj1 (xid_flags_bytes xid r f 0 Hl ltac:(lia))) as Hz.
  set (g := xid_flags xid r f) in *. assert (Hz1 : zlen (copy_bytes g 70 mac 0 6) = zlen f) by (rewrite zlen_copy; lia).
  assert (B : forall j, 0 <= j -> byte_at (copy_bytes (copy_bytes g 70 mac 0 6) 278 cookie 0 4) j =
    if (278 <=? j) && (j <? 278 + 4) then byte_at cookie (0 + (j - 278)) else
    if (70 <=? j) && (j <? 70 + 6) then byte_at mac (0 + (j - 70)) else byte_at g j).
  { intros j Hj. unfold zlen in Hz, Hz1, Hl. rewrite (proj2 (copy_bytes_spec (copy_bytes g 70 mac 0 6) 278 cookie 0 4 ltac:(lia) ltac:(lia) ltac:(lia)) j Hj).
    rewrite (proj2 (copy_bytes_spec g 70 mac 0 6 ltac:(lia) ltac:(lia) ltac:(lia)) j Hj). done. }
  assert (G : forall j, 0 <= j < 70 -> byte_at (copy_bytes (copy_bytes g 70 mac 0 6) 278 cookie 0 4) j = byte_at g j).
  { intros j Hj. rewrite B by lia. destruct (Z.leb_spec 278 j); [lia|]. destruct (Z.leb_spec 70 j); [lia|]. done. }
  split; [rewrite zlen_copy; lia|]. split.
  - assert (X : forall j, 0 <= j -> byte_at g j = _) by (intros j Hj; exact (proj2 (xid_flags_bytes xid r f j Hl Hj))).
    unfold request_fields, PKT_XID, PKT_FLAGS, PKT_CIADDR, PKT_CHADDR. unfold word_at. split_and!.
    1-3: rewrite G, X by lia; done.
    2: rewrite !G, !X by lia; done.
    1-2: apply ip_addr_read; [lia|]; intros k Hk; rewrite G, X by lia; repeat (case_match; b2p; try lia); f_equal; f_equal; f_equal; lia.
    intros k Hk. rewrite B by lia. repeat (case_match; b2p; try lia). f_equal. lia.
  - intros k Hk. change (zlen cookie) with 4 in Hk. rewrite B by lia. repeat (case_match; b2p; try lia). f_equal. lia.
Qed.

(** * The frame *)

Section Sent.
Context {D : Type} `{NetCard D}.
Implicit Type s : net D.

(** A UDP packet for everyone on the wire: Ethernet, IPv4 and UDP headers, no
    UDP checksum. *)
Record udp_frame (mac : list Z) (src dst sport dport : Z) (payload frame : list Z) : Prop := {
  uf_to : holds frame 0 (replicate 6 0xff);
  uf_from : forall k, 0 <= k < 6 -> byte_at frame (6 + k) = byte_at mac k;
  uf_type : word_at frame 12 = ETH_TYPE_IP;
  uf_ipv4 : ipv4_header 14 (8 + zlen payload) src dst IP_PROTO_UDP frame;
  uf_sport : word_at frame 34 = sport;
  uf_dport : word_at frame 36 = dport;
  uf_length : word_at frame 38 = 8 + zlen payload;
  uf_checksum : word_at frame 40 = 0;
  uf_size : zlen frame = 42 + zlen payload;
  uf_payload : drop 42 frame = payload }.

Definition eth_done (s : net D) : list Z := write_eth_header (card_mac (g_net_dev s)) ETH_TYPE_IP (g_net_tx_frame s).
Definition ip_done (n dst : Z) (s : net D) : list Z := write_ipv4_header 14 (8 + n) (n_ip (g_net_info s)) dst IP_PROTO_UDP (eth_done s).
Definition udp_done (n dst dport sport : Z) (s : net D) : list Z := write_udp_header 34 sport dport (8 + n) (ip_done n dst s).

Lemma send_udp_frame_eq n dst dport sport s :
  n <= 1494 ->
  send_udp_frame n dst dport sport s =
    let f := udp_done n dst dport sport s in
    let '(status, d) := card_send (take (Z.to_nat (34 + (8 + n))) f) (g_net_dev s) in (status, set_dev d (set_tx (fun _ => f) s)).
Proof.
  intros Hn. unfold send_udp_frame. change (NET_FRAME_MAX - ETH_HEADER_LEN - IPV4_HEADER_LEN - UDP_HEADER_LEN) with 1494.
  destruct (Z.gtb_spec n 1494); [lia|]. reflexivity.
Qed.

Lemma eth_done_bytes s :
  zlen (g_net_tx_frame s) = NET_FRAME_MAX ->
  zlen (eth_done s) = NET_FRAME_MAX /\ forall j, 0 <= j -> byte_at (eth_done s) j =
    if j =? 13 then 0 else if j =? 12 then 8 else if (6 <=? j) && (j <? 12) then byte_at (card_mac (g_net_dev s)) (j - 6) else
    if j <? 6 then 0xff else byte_at (g_net_tx_frame s) j.
Proof.
  intros Hl. unfold NET_FRAME_MAX in *. unfold eth_done, write_eth_header. set (mac := card_mac (g_net_dev s)). set (f := g_net_tx_frame s) in *.
  assert (H1 : zlen (copy_bytes f 0 (replicate 6 255) 0 6) = 1536) by (rewrite zlen_copy; lia).
  assert (H2 : zlen (copy_bytes (copy_bytes f 0 (replicate 6 255) 0 6) 6 mac 0 6) = 1536) by (rewrite zlen_copy; lia).
  split; [by rewrite !zlen_put|]. intros j Hj. rewrite !byte_at_put_z by (rewrite ?zlen_put; lia). unfold zlen in H1, H2, Hl.
  rewrite (proj2 (copy_bytes_spec (copy_bytes f 0 (replicate 6 255) 0 6) 6 mac 0 6 ltac:(lia) ltac:(lia) ltac:(lia)) j Hj).
  rewrite (proj2 (copy_bytes_spec f 0 (replicate 6 255) 0 6 ltac:(lia) ltac:(lia) ltac:(lia)) j Hj).
  change (6 + 6) with 12. rewrite Z.add_0_l.
  destruct (Z.eqb_spec j 13); [done|]. destruct (Z.eqb_spec j 12); [done|]. destruct (Z.leb_spec 6 j), (Z.ltb_spec j 12); cbn [andb]; try lia; try done.
  all: destruct (Z.leb_spec 0 j), (Z.ltb_spec j (0 + 6)), (Z.ltb_spec j 6); cbn [andb]; try lia; try done.
  assert (j = 0 \/ j = 1 \/ j = 2 \/ j = 3 \/ j = 4 \/ j = 5) as Hc by lia. clear -Hc. destruct Hc as [->|[->|[->|[->|[->| ->]]]]]; done.
Qed.

Lemma ones_sum_agree n a b : forall i,
  (forall k, i <= k < i + 2 * Z.of_nat n -> byte_at b k = byte_at a k) -> ones_sum n b i = ones_sum n a i.
Proof.
  induction n as [|n IH]; intros i He; [done|]. cbn [ones_sum]. unfold word_at. rewrite (He i), (He (i + 1)) by lia.
  rewrite IH; [done|]. intros k Hk. apply He. lia.
Qed.

Lemma ipv4_header_agree p n src dst proto a b :
  (forall k, p <= k < p + 20 -> byte_at b k = byte_at a k) -> ipv4_header p n src dst proto a -> ipv4_header p n src dst proto b.
Proof.
  intros He [H1 H2 Hw Ht H3 H4 H5 H6]. split.
  - by rewrite He by lia.
  - rewrite <- H2. unfold word_at. by rewrite !He by lia.
  - rewrite <- Hw. unfold word_at. by rewrite !He by lia.
  - by rewrite He by lia.
  - by rewrite He by lia.
  - rewrite <- H4. apply ip_addr_agree. intros k Hk. apply He. lia.
  - rewrite <- H5. apply ip_addr_agree. intros k Hk. apply He. lia.
  - rewrite <- H6. apply ones_sum_agree. intros k Hk. apply He. lia.
Qed.

Lemma byte_at_taken m l k : 0 <= k < m -> byte_at (take (Z.to_nat m) l) k = byte_at l k.
Proof. intros Hk. unfold byte_at. by rewrite lookup_take_lt by lia. Qed.

(** Storing the UDP header. *)
Lemma udp_done_bytes n dst dport sport s :
  zlen (ip_done n dst s) = NET_FRAME_MAX ->
  let f := udp_done n dst dport sport s in
  zlen f = NET_FRAME_MAX /\ (forall j, 0 <= j -> j < 34 \/ 42 <= j -> byte_at f j = byte_at (ip_done n dst s) j) /\
  word_at f 34 = sport mod 65536 /\ word_at f 36 = dport mod 65536 /\ word_at f 38 = (8 + n) mod 65536 /\ word_at f 40 = 0.
Proof.
  intros Hl. unfold NET_FRAME_MAX in *. unfold udp_done, write_udp_header. set (g := ip_done n dst s) in *. cbv zeta.
  assert (B : forall j, 0 <= j -> byte_at (put (34 + 7) 0 (put (34 + 6) 0 (put_be16 (34 + 4) (8 + n) (put_be16 (34 + 2) dport (put_be16 34 sport g))))) j =
    if j =? 41 then 0 else if j =? 40 then 0 else if j =? 38 then (8 + n) / 256 mod 256 else if j =? 39 then (8 + n) mod 256 else
    if j =? 36 then dport / 256 mod 256 else if j =? 37 then dport mod 256 else if j =? 34 then sport / 256 mod 256 else
    if j =? 35 then sport mod 256 else byte_at g j).
  { intros j Hj. rewrite !byte_at_put_z, !byte_at_be16 by (rewrite ?zlen_put, ?zlen_put_be16; lia). reflexivity. }
  assert (W : forall v, 256 * (v / 256 mod 256) + v mod 256 = v mod 65536).
  { intros v. change 65536 with (256 * 256). rewrite Z.rem_mul_r by lia. lia. }
  split; [by rewrite !zlen_put, !zlen_put_be16|]. split.
  { intros j Hj Ho. rewrite B by lia. by repeat (case_match; b2p; try lia). }
  unfold word_at. rewrite <- !W, !B by lia. done.
Qed.

(** The frame that goes to the card. *)
Lemma sent_udp_frame n dst dport sport s :
  zlen (g_net_tx_frame s) = NET_FRAME_MAX -> 0 <= n <= 1494 -> 0 <= n_ip (g_net_info s) < 2 ^ 32 -> 0 <= dst < 2 ^ 32 ->
  0 <= sport < 65536 -> 0 <= dport < 65536 ->
  udp_frame (card_mac (g_net_dev s)) (n_ip (g_net_info s)) (broadcast_if_none dst) sport dport
    (take (Z.to_nat n) (drop 42 (g_net_tx_frame s))) (take (Z.to_nat (34 + (8 + n))) (udp_done n dst dport sport s)).
Proof.
  intros Hl Hn Hip Hd Hsp Hdp. destruct (eth_done_bytes s Hl) as [Le Be]. unfold NET_FRAME_MAX in *.
  pose proof (write_ipv4_header_ok 14 (8 + n) (n_ip (g_net_info s)) dst IP_PROTO_UDP (eth_done s) ltac:(lia) ltac:(lia) ltac:(lia)
    ltac:(unfold IP_PROTO_UDP; lia) Hip Hd) as Hi. fold (ip_done n dst s) in Hi. cbv zeta in Hi. destruct Hi as (Li & Bi & Hi).
  destruct (udp_done_bytes n dst dport sport s ltac:(unfold NET_FRAME_MAX; lia)) as (Lu & Bu & W1 & W2 & W3 & W4). unfold NET_FRAME_MAX in Lu.
  rewrite (Z.mod_small sport) in W1 by lia. rewrite (Z.mod_small dport) in W2 by lia. rewrite (Z.mod_small (8 + n)) in W3 by lia.
  set (f := udp_done n dst dport sport s) in *. set (m := 34 + (8 + n)).
  assert (T : forall j, 0 <= j < m -> byte_at (take (Z.to_nat m) f) j = byte_at f j) by (intros; by apply byte_at_taken).
  assert (Lp : zlen (take (Z.to_nat n) (drop 42 (g_net_tx_frame s))) = n) by (unfold zlen in *; rewrite length_take, length_drop; lia).
  split; rewrite ?Lp.
  - intros k Hk. change (zlen (replicate 6 255)) with 6 in Hk. rewrite T, Bu, Bi, Be by lia.
    assert (0 + k = 0 \/ 0 + k = 1 \/ 0 + k = 2 \/ 0 + k = 3 \/ 0 + k = 4 \/ 0 + k = 5) as Hc by lia. clear -Hc. rewrite Z.add_0_l in *.
    destruct Hc as [->|[->|[->|[->|[->| ->]]]]]; done.
  - intros k Hk. rewrite T, Bu, Bi, Be by lia. repeat (case_match; b2p; try lia). f_equal. lia.
  - unfold word_at. rewrite !T, !Bu, !Bi, !Be by lia. done.
  - apply (ipv4_header_agree _ _ _ _ _ (ip_done n dst s)); [|done]. intros k Hk. rewrite T, Bu by lia. done.
  - rewrite <- W1. unfold word_at. by rewrite !T by lia.
  - rewrite <- W2. unfold word_at. by rewrite !T by lia.
  - rewrite <- W3. unfold word_at. by rewrite !T by lia.
  - rewrite <- W4. unfold word_at. by rewrite !T by lia.
  - unfold zlen in *. rewrite length_take. lia.
  - rewrite skipn_firstn_comm. replace (Z.to_nat m - 42)%nat with (Z.to_nat n) by lia. f_equal.
    apply list_eq_same_length with (length f - 42)%nat; unfold zlen in *; [rewrite length_drop; lia|rewrite length_drop; lia|].
    intros i x y Hi' Hx Hy. rewrite lookup_drop in Hx, Hy. specialize (Bu (Z.of_nat (42 + i)) ltac:(lia) ltac:(lia)).
    rewrite Bi, Be in Bu by lia. repeat (case_match; b2p; try lia). unfold byte_at in Bu. rewrite Nat2Z.id, Hx, Hy in Bu. done.
Qed.

(** The frame of a request from this state. *)
Definition request_state (srv ip : Z) (s : net D) : net D :=
  set_tx (request_options 278 srv ip) (set_tx (packet_head (card_mac (g_net_dev s)) (g_dhcp_xid s) (Some ip)) s).

Definition request_frame (srv ip : Z) (s : net D) : list Z :=
  take 590 (udp_done PKT_SIZE 0xffffffff DHCP_PORT_SERVER DHCP_PORT_CLIENT (request_state srv ip s)).

Lemma send_dhcp_request_eq srv ip s :
  g_net_dev (send_dhcp_request srv ip s) = snd (card_send (request_frame srv ip s) (g_net_dev s)) /\
  g_net_info (send_dhcp_request srv ip s) = g_net_info s /\
  uart (send_dhcp_request srv ip s) = uart s ++
    (if fst (card_send (request_frame srv ip s) (g_net_dev s)) =? 0 then []
     else chars "[net] DHCP request send failed: "%string ++ print_hex64 (u32 (fst (card_send (request_frame srv ip s) (g_net_dev s)))) ++ [10]).
Proof.
  unfold send_dhcp_request. change (tx_dhcp_packet + PKT_OPTIONS) with 278. fold (request_state srv ip s).
  rewrite send_udp_frame_eq by (unfold PKT_SIZE; lia). cbv zeta. change (Z.to_nat (34 + (8 + PKT_SIZE))) with 590%nat. fold (request_frame srv ip s).
  change (g_net_dev (request_state srv ip s)) with (g_net_dev s). destruct (card_send _ _) as [st d]. cbn [fst snd]. unfold report.
  destruct (st =? 0); cbn [negb puts set_dev set_tx uart g_net_dev g_net_info request_state]; [by rewrite app_nil_r|done].
Qed.

(** C37: the frame of a request, whatever was in the transmit buffer before: it
    is broadcast from the card's address, its IPv4 header carries the right
    length and addresses and passes a receiver's check (the one's complement sum
    of its ten words is 0xffff), its UDP ports are the client's and the server's
    and its UDP checksum is the zero that means none, its packet has the exchange's identifier, the requested address
    and the card's address, and its options are a request naming the server (if
    one is known) and the address, which the client's own option parser reads
    back. *)
Theorem request_frame_valid srv ip s :
  zlen (g_net_tx_frame s) = NET_FRAME_MAX -> 0 <= n_ip (g_net_info s) < 2 ^ 32 -> 0 <= g_dhcp_xid s < 2 ^ 32 -> 0 <= ip < 2 ^ 32 ->
  let frame := request_frame srv ip s in
  exists packet, udp_frame (card_mac (g_net_dev s)) (n_ip (g_net_info s)) 0xffffffff DHCP_PORT_CLIENT DHCP_PORT_SERVER packet frame /\
    zlen packet = PKT_SIZE /\ request_fields (card_mac (g_net_dev s)) (g_dhcp_xid s) ip packet 0 /\
    holds packet PKT_OPTIONS (option_bytes (request_items srv ip)) /\
    dhcp_options_parse (Some (drop (Z.to_nat PKT_OPTIONS) packet)) DHCP_OPTIONS_LEN (Some dhcp_options_clear) =
      (0, Some (meaning (request_items srv ip))) /\
    g_net_dev (send_dhcp_request srv ip s) = snd (card_send frame (g_net_dev s)).
Proof.
  intros Hl Hip Hx Hr frame. set (s1 := request_state srv ip s). set (tx := g_net_tx_frame s1).
  destruct (packet_head_ok (card_mac (g_net_dev s)) (g_dhcp_xid s) (Some ip) (g_net_tx_frame s)) as (L1 & F1 & C1);
    [rewrite Hl; unfold NET_FRAME_MAX; lia|done..|].
  set (f1 := packet_head _ _ _ _) in *. assert (Etx : tx = request_options 278 srv ip f1) by done.
  unfold NET_FRAME_MAX in Hl. assert (Ltx : zlen tx = 1536) by (rewrite Etx, zlen_request; lia).
  assert (Hout : forall j, 0 <= j < 278 -> byte_at tx j = byte_at f1 j) by (intros; rewrite Etx; apply request_options_outside; lia).
  assert (Hopt : holds tx 278 (option_bytes (request_items srv ip))) by (rewrite Etx; apply request_options_hold; [lia|lia|done]).
  pose proof (sent_udp_frame PKT_SIZE 0xffffffff DHCP_PORT_SERVER DHCP_PORT_CLIENT s1 Ltx ltac:(unfold PKT_SIZE; lia) Hip ltac:(lia)
    ltac:(unfold DHCP_PORT_CLIENT; lia) ltac:(unfold DHCP_PORT_SERVER; lia)) as Huf.
  set (packet := take (Z.to_nat PKT_SIZE) (drop 42 (g_net_tx_frame s1))) in *.
  assert (P : forall k, 0 <= k < 548 -> byte_at packet k = byte_at tx (42 + k)).
  { intros k Hk. unfold packet. rewrite (byte_at_taken PKT_SIZE) by (unfold PKT_SIZE; lia). by rewrite (byte_at_dropped 42) by lia. }
  assert (Lp : zlen packet = 548) by (unfold packet, zlen in *; rewrite length_take, length_drop; fold tx; unfold PKT_SIZE; lia).
  assert (Lo : zlen (option_bytes (request_items srv ip)) <= 20) by (unfold request_items; destruct (srv =? 0); unfold zlen; cbn; lia).
  assert (Hpo : holds packet 236 (option_bytes (request_items srv ip))).
  { intros k Hk. rewrite P by lia. rewrite <- (Hopt k Hk). f_equal. lia. }
  exists packet. split; [exact Huf|]. split; [exact Lp|]. split.
  { apply (request_fields_agree _ _ _ f1 packet 42); [|done]. intros k Hk. by rewrite P, Hout by lia. }
  split; [exact Hpo|]. split; [|apply send_dhcp_request_eq].
  destruct (holds_prefix (drop (Z.to_nat PKT_OPTIONS) packet) (option_bytes (request_items srv ip))) as [rest Er].
  { unfold zlen in *. rewrite length_drop. unfold PKT_OPTIONS. lia. }
  { intros k Hk. rewrite Z.add_0_l, (byte_at_dropped PKT_OPTIONS) by (unfold PKT_OPTIONS; lia). by apply Hpo. }
  rewrite Er. unfold option_bytes. rewrite <- !app_assoc. cbn [app]. apply (parse_options (request_items srv ip) rest).
  - unfold request_items. destruct (srv =? 0); repeat (apply Forall_cons_2 || apply Forall_nil_2); (split; [lia|unfold zlen; cbn; lia]).
  - unfold request_items. by destruct (srv =? 0).
Qed.
End Sent.

(** A request from a client that has not sent anything yet. *)
Lemma request_frame_valid_witness :
  exists packet, udp_frame sample_mac 0 0xffffffff 68 67 packet (request_frame 0x0100a8c0 0x0200a8c0 (sample_client [] 0)) /\ zlen packet = 548.
Proof.
  destruct (request_frame_valid 0x0100a8c0 0x0200a8c0 (sample_client [] 0)) as (packet & H1 & H2 & _); [reflexivity|cbn; lia..|].
  exists packet. split; [exact H1|exact H2].
Defined.
