(* ===== verification/DhcpExchange.v ===== *)
(** The exchange with a server as the polling function drives it: the answers a
    card delivers are taken in order, and a request goes out when an offer is
    pending. *)

From Stdlib Require Import String Ascii.
From S2P Require Import Prelude.
From S2P Require Import Bytes.
From S2P Require Import Print.
From S2P Require Import UserImage.
From S2P Require Import Dhcp.
From S2P Require Import DhcpLease.
From S2P Require Import DhcpSent.
From S2P Require Import DhcpRequest.
Open Scope arm.

(** What the client relies on: receiving does not change the card's address. *)
Class NetCardLaws (D : Type) `{NetCard D} := {
  card_recv_mac : forall rx d, card_mac (snd (card_recv rx d)) = card_mac d }.

(** An answer of a server: its frame, the words of the IPv4 header, the address
    and the options. *)
Record answer := Answer { a_frame : list Z; a_words : Z; a_ip : Z; a_items : list oitem }.

Definition answer_to (mac : list Z) (xid : Z) (a : answer) : Prop := reply mac xid (a_ip a) (a_items a) (a_frame a) (a_words a).

Definition lease_of (i : net_info) (answers : list answer) : net_info := foldl (fun i a => lease_after (a_ip a) (a_items a) i) i answers.

Section Exchange.
Context {D : Type} `{NetCardLaws D}.
Implicit Type s : net D.

(** From this buffer and card, these frames arrive, and then nothing: each is
    at the start of the buffer, with anything behind it. *)
Inductive delivers : list Z -> D -> list (list Z) -> D -> Prop :=
  | delivers_none rx d n rx' d' : card_recv rx d = (n, rx', d') -> n <= 0 -> delivers rx d [] d'
  | delivers_frame rx d frame junk d1 frames d' :
      card_recv rx d = (zlen frame, frame ++ junk, d1) -> delivers (frame ++ junk) d1 frames d' -> delivers rx d (frame :: frames) d'.

Lemma parse_keeps len s :
  g_net_tx_frame (parse_eth_frame len s) = g_net_tx_frame s /\ g_net_rx_frame (parse_eth_frame len s) = g_net_rx_frame s.
Proof.
  unfold parse_eth_frame, parse_ip_packet, parse_udp_packet. repeat case_if; try done.
  destruct (dhcp_options_parse _ _ _) as [st [o|]]; [|done]. by repeat case_if.
Qed.

Lemma reply_nonempty mac xid y items frame h : reply mac xid y items frame h -> 0 < zlen frame.
Proof. intros [_ Hh Hs _ _]. unfold PKT_SIZE in Hs. lia. Qed.

(** The frames are handled in the order they arrive. *)
Lemma recv_loop_answers answers : forall fuel s d',
  Forall (answer_to (card_mac (g_net_dev s)) (g_dhcp_xid s)) answers ->
  delivers (g_net_rx_frame s) (g_net_dev s) (map a_frame answers) d' -> (length answers < fuel)%nat ->
  let s' := recv_loop fuel s in
  g_net_info s' = lease_of (g_net_info s) answers /\ g_net_dev s' = d' /\ g_net_tx_frame s' = g_net_tx_frame s /\ g_dhcp_xid s' = g_dhcp_xid s.
Proof.
  induction answers as [|a answers IH]; intros [|fuel] s d' Hall Hd Hf; try (cbn in Hf; lia); cbn [recv_loop map] in *.
  { inversion Hd as [rx d n rx' d1 Er Hn|]; subst. rewrite Er. destruct (Z.gtb_spec n 0); [lia|]. done. }
  inversion Hd as [|rx d frame junk d1 frames d2 Er Hrest]; subst. apply Forall_cons in Hall as [Ha Hall]. unfold answer_to in Ha.
  pose proof (reply_nonempty _ _ _ _ _ _ Ha) as Hpos. pose proof (card_recv_mac (g_net_rx_frame s) (g_net_dev s)) as Hm. rewrite Er in *. cbn [snd] in Hm.
  destruct (Z.gtb_spec (zlen (a_frame a)) 0); [|lia]. set (s1 := set_dev d1 (set_rx (a_frame a ++ junk) s)).
  destruct (reply_lease s1 _ (g_dhcp_xid s) _ _ _ _ junk Hm eq_refl Ha eq_refl) as (Ei & Ed & _ & _ & Ex).
  destruct (parse_keeps (zlen (a_frame a)) s1) as [Et Erx]. set (s2 := parse_eth_frame (zlen (a_frame a)) s1) in *.
  destruct (IH fuel s2 d') as (I1 & I2 & I3 & I4).
  - rewrite Ed, Ex. cbn [s1 set_dev set_rx g_net_dev g_dhcp_xid]. by rewrite Hm.
  - rewrite Ed, Erx. exact Hrest.
  - cbn in Hf. lia.
  - cbv zeta. rewrite I1, I2, I3, I4, Ei, Et, Ex. done.
Qed.

(** A request goes out when an offer is pending. *)
Definition wants_request (i : net_info) : bool := (n_discovered i =? 0) && (n_dhcp_state i =? DHCP_OFFER).

(** The card after a poll that leaves the lease [i]: it has sent the request for
    the offered address, or nothing. *)
Definition card_after (s : net D) (i : net_info) (d' : D) : D :=
  if wants_request i then snd (card_send (request_frame (n_dhcp_server i) (n_ip i) (set_info i (set_dev d' s))) d') else d'.

Lemma request_frame_agree srv ip s t :
  card_mac (g_net_dev s) = card_mac (g_net_dev t) -> g_net_info s = g_net_info t -> g_net_tx_frame s = g_net_tx_frame t ->
  g_dhcp_xid s = g_dhcp_xid t -> request_frame srv ip s = request_frame srv ip t.
Proof.
  intros E1 E2 E3 E4. unfold request_frame, request_state, udp_done, ip_done, eth_done. cbn [set_tx g_net_tx_frame g_net_dev g_net_info g_dhcp_xid].
  by rewrite E1, E2, E3, E4.
Qed.

Lemma poll_answers fuel s answers d' :
  g_net_inited s = true -> card_ready (g_net_dev s) = true -> g_net_polling s = false ->
  Forall (answer_to (card_mac (g_net_dev s)) (g_dhcp_xid s)) answers ->
  delivers (g_net_rx_frame s) (g_net_dev s) (map a_frame answers) d' -> (length answers < fuel)%nat ->
  let s' := net_poll fuel s in
  g_net_info s' = lease_of (g_net_info s) answers /\ g_net_dev s' = card_after s (lease_of (g_net_info s) answers) d' /\ g_net_polling s' = false.
Proof.
  intros Hi Hr Hp Hall Hd Hf. unfold net_poll. rewrite Hi, Hr, Hp. cbn [negb orb].
  destruct (recv_loop_answers answers fuel (set_polling true s) d' Hall Hd Hf) as (I1 & I2 & I3 & I4). set (t := recv_loop fuel _) in *.
  cbn [set_polling g_net_info g_net_tx_frame g_dhcp_xid] in I1, I3, I4. set (i := lease_of (g_net_info s) answers) in *. cbv zeta.
  rewrite I1. unfold card_after, wants_request. destruct ((n_discovered i =? 0) && (n_dhcp_state i =? DHCP_OFFER)); [|done].
  destruct (send_dhcp_request_eq (n_dhcp_server i) (n_ip i) t) as (S1 & S2 & _). cbn [set_polling g_net_info g_net_dev g_net_polling].
  split; [by rewrite S2|]. split; [|done]. rewrite S1, I2. f_equal. f_equal. apply request_frame_agree; cbn; congruence.
Qed.

(** C38: a poll takes the answers of servers in the order the card delivers them:
    the lease is the one they give, one after the other (the address of each;
    server, mask, gateway and name server when the options have them); then the
    request for the offered address goes to the card, exactly when an offer is
    pending and no address was acknowledged; and the client can be polled again. *)
Theorem poll_exchange fuel s answers d' :
  g_net_inited s = true -> card_ready (g_net_dev s) = true -> g_net_polling s = false ->
  Forall (answer_to (card_mac (g_net_dev s)) (g_dhcp_xid s)) answers ->
  delivers (g_net_rx_frame s) (g_net_dev s) (map a_frame answers) d' -> (length answers < fuel)%nat ->
  let s' := net_poll fuel s in
  g_net_info s' = lease_of (g_net_info s) answers /\ g_net_dev s' = card_after s (lease_of (g_net_info s) answers) d' /\ g_net_polling s' = false.
Proof. apply poll_answers. Qed.

(** An offer that arrives after an acknowledgement replaces the acknowledged
    address: the client shows the offered one, which nobody confirmed, and as it
    already counts as configured no request for it is sent. *)
Theorem late_offer_replaces_lease fuel s a v d' :
  g_net_inited s = true -> card_ready (g_net_dev s) = true -> g_net_polling s = false -> n_discovered (g_net_info s) = 1 ->
  answer_to (card_mac (g_net_dev s)) (g_dhcp_xid s) a -> last_option 53 1 (a_items a) = Some v -> byte_at v 0 = DHCP_OFFER ->
  delivers (g_net_rx_frame s) (g_net_dev s) [a_frame a] d' -> (1 < fuel)%nat ->
  let s' := net_poll fuel s in
  n_ip (g_net_info s') = a_ip a /\ n_discovered (g_net_info s') = 1 /\ n_dhcp_state (g_net_info s') = DHCP_OFFER /\ g_net_dev s' = d'.
Proof.
  intros Hi Hr Hp Hdis Ha Hv Hb Hd Hf. cbv zeta.
  destruct (poll_answers fuel s [a] d' Hi Hr Hp ltac:(by apply Forall_singleton) Hd Hf) as (-> & -> & _).
  unfold card_after, wants_request, lease_of. cbn [foldl]. unfold lease_after. rewrite Hv, Hb. change (DHCP_OFFER =? DHCP_OFFER) with true. cbn iota.
  cbn [n_ip n_discovered n_dhcp_state]. rewrite Hdis. done.
Qed.
End Exchange.

(** * A card with a queue of frames, offered and then acknowledged an address *)

#[export] Instance queue_card_laws : NetCardLaws queue_card.
Proof. split. intros rx [m q o]. by destruct q. Qed.

Definition offer : answer := Answer (sample_reply 0x0200a8c0 DHCP_OFFER) 5 0x0200a8c0 (sample_items DHCP_OFFER).

Lemma offer_answers : answer_to sample_mac 0x12345678 offer.
Proof. apply sample_is_reply. by left. Qed.

Lemma offer_delivered : delivers (replicate 1536 0) (QueueCard sample_mac [a_frame offer] []) [a_frame offer] (QueueCard sample_mac [] []).
Proof. eapply (delivers_frame _ _ _ (drop 590 (replicate 1536 0))); [reflexivity|]. eapply delivers_none; [reflexivity|lia]. Qed.

(** One offer: the lease is pending, and the request for it is sent. *)
Lemma poll_exchange_witness :
  let s' := net_poll 2 (sample_client [a_frame offer] 0) in
  g_net_info s' = lease_of (g_net_info (sample_client [a_frame offer] 0)) [offer] /\
  n_ip (lease_of (g_net_info (sample_client [a_frame offer] 0)) [offer]) = 0x0200a8c0 /\
  wants_request (lease_of (g_net_info (sample_client [a_frame offer] 0)) [offer]) = true.
Proof.
  split; [|split; reflexivity].
  apply (poll_exchange 2 (sample_client [a_frame offer] 0) [offer] (QueueCard sample_mac [] [])); try reflexivity.
  - apply Forall_singleton. exact offer_answers.
  - exact offer_delivered.
  - cbn. lia.
Defined.

(** An acknowledged client gets an offer. *)
Lemma late_offer_replaces_lease_witness :
  n_discovered (g_net_info (sample_client [a_frame offer] 1)) = 1 /\ n_ip (g_net_info (sample_client [a_frame offer] 1)) = 0 /\
  n_ip (g_net_info (net_poll 2 (sample_client [a_frame offer] 1))) = 0x0200a8c0.
Proof.
  split; [reflexivity|]. split; [reflexivity|].
  apply (late_offer_replaces_lease 2 (sample_client [a_frame offer] 1) offer [DHCP_OFFER] (QueueCard sample_mac [] [])); try reflexivity.
  - exact offer_answers.
  - exact offer_delivered.
  - lia.
Defined.
