(* ===== verification/Usb.v ===== *)
(** The USB core (drivers/usb/usb_core.c): standard requests over the interface
    of a host controller, and the walk over a configuration descriptor.
    Pointers into the descriptor buffer are indices, and every read of it is
    checked against the bytes the buffer has: [None] is an access outside it.
    Pointers to variables of the caller, which the code also tests, are never
    null here. *)

From S2P Require Import Prelude.
From S2P Require Import Bytes.
Open Scope arm.

Definition USB_DESC_DEVICE : Z := 1.
Definition USB_DESC_CONFIGURATION : Z := 2.
Definition USB_DESC_INTERFACE : Z := 4.
Definition USB_DESC_ENDPOINT : Z := 5.
Definition USB_DESC_HID : Z := 0x21.
Definition USB_REQ_SET_ADDRESS : Z := 5.
Definition USB_REQ_GET_DESCRIPTOR : Z := 6.
Definition USB_REQ_SET_CONFIGURATION : Z := 9.
Definition USB_EP_TRANSFER_INTERRUPT : Z := 3.
Definition USB_CLASS_HID : Z := 3.
Definition USB_MAX_INTERFACES : Z := 4.
Definition USB_MAX_ENDPOINTS : Z := 4.

(** Sizes of the packed descriptors. *)
Definition DEVICE_SIZE : Z := 18.
Definition CONFIG_SIZE : Z := 9.
Definition INTERFACE_SIZE : Z := 9.
Definition ENDPOINT_SIZE : Z := 7.
Definition HID_SIZE : Z := 9.

Record usb_setup := UsbSetup { bmRequestType : Z; bRequest : Z; wValue : Z; wIndex : Z; wLength : Z }.

(** A read of the byte at index [i] of a buffer. *)
Definition load8 (buf : list Z) (i : Z) : option Z := if i <? 0 then None else buf !! Z.to_nat i.

(** A 16-bit field at index [i], in the byte order of the processor. *)
Definition field16 (buf : list Z) (i : Z) : option Z :=
  lo ← load8 buf i; hi ← load8 buf (i + 1); Some (Z.lor lo (Z.shiftl hi 8)).

(** * The walk over a configuration *)

Record usb_endpoint_ref := EndpointRef { ep_desc : Z; ep_address : Z; ep_transfer_type : Z; ep_max_packet : Z }.

(** The endpoints found, [endpoint_count] of them. *)
Record usb_interface_ref := InterfaceRef { if_desc : Z; if_endpoints : list usb_endpoint_ref; if_hid : option Z }.

(** The interfaces found, [interface_count] of them. *)
Record usb_config_walk := ConfigWalk { w_config : Z; w_interfaces : list usb_interface_ref; w_buffer_end : Z }.

Definition interface_count (out : usb_config_walk) : Z := Z.of_nat (length (w_interfaces out)).
Definition endpoint_count (i : usb_interface_ref) : Z := Z.of_nat (length (if_endpoints i)).

Definition add_interface (i : usb_interface_ref) (out : usb_config_walk) : usb_config_walk :=
  ConfigWalk (w_config out) (w_interfaces out ++ [i]) (w_buffer_end out).

(** Changes the interface [cur_iface] points to. *)
Definition change_interface (cur : nat) (f : usb_interface_ref -> usb_interface_ref) (out : usb_config_walk) : usb_config_walk :=
  ConfigWalk (w_config out) (alter f cur (w_interfaces out)) (w_buffer_end out).

Definition endpoint_at (buf : list Z) (cursor : Z) : option usb_endpoint_ref :=
  address ← load8 buf (cursor + 2); attributes ← load8 buf (cursor + 3); packet ← field16 buf (cursor + 4);
  Some (EndpointRef cursor address (Z.land attributes 3) packet).

(** One descriptor: the status, the interface that is current then, and what was found. *)
Definition walk_descriptor (buf : list Z) (cursor len type : Z) (cur_iface : option nat) (out : usb_config_walk)
  : option (Z * option nat * usb_config_walk) :=
  if type =? USB_DESC_INTERFACE then
    if len <? INTERFACE_SIZE then Some (-1, cur_iface, out) else
    if interface_count out <? USB_MAX_INTERFACES then
      Some (0, Some (length (w_interfaces out)), add_interface (InterfaceRef cursor [] None) out)
    else Some (0, None, out)
  else if type =? USB_DESC_ENDPOINT then
    match cur_iface with
    | None => Some (0, None, out)
    | Some cur =>
        let count := match w_interfaces out !! cur with Some i => endpoint_count i | None => 0 end in
        if count >=? USB_MAX_ENDPOINTS then Some (0, cur_iface, out) else
        if len <? ENDPOINT_SIZE then Some (-1, cur_iface, out) else
        ep ← endpoint_at buf cursor;
        Some (0, cur_iface, change_interface cur (fun i => InterfaceRef (if_desc i) (if_endpoints i ++ [ep]) (if_hid i)) out)
    end
  else if type =? USB_DESC_HID then
    if len <? HID_SIZE then Some (-1, cur_iface, out) else
    Some (0, cur_iface,
      match cur_iface with
      | Some cur => change_interface cur (fun i => InterfaceRef (if_desc i) (if_endpoints i) (Some cursor)) out
      | None => out
      end)
  else Some (0, cur_iface, out).

(** [while (cursor < buffer_end)]: every round consumes two bytes at least.  Both
    bytes of the header are read before either is looked at. *)
Fixpoint walk_loop (fuel : nat) (buf : list Z) (cursor : Z) (cur_iface : option nat) (out : usb_config_walk) : option (Z * usb_config_walk) :=
  match fuel with
  | O => Some (0, out)
  | S fuel' =>
      if negb (cursor <? w_buffer_end out) then Some (0, out) else
      len ← load8 buf cursor;
      type ← load8 buf (cursor + 1);
      if len <? 2 then Some (-1, out) else
      if cursor + len >? w_buffer_end out then Some (-1, out) else
      r ← walk_descriptor buf cursor len type cur_iface out;
      let '(status, cur_iface, out) := r in
      if status =? 0 then walk_loop fuel' buf (cursor + len) cur_iface out else Some (status, out)
  end.

(** [out] is what the structure held before. *)
Definition usb_walk_configuration (buffer : option (list Z)) (buffer_len : Z) (out : usb_config_walk) : option (Z * usb_config_walk) :=
  match buffer with
  | None => Some (-1, out)
  | Some buf =>
      if buffer_len <? 4 then Some (-1, out) else
      len ← load8 buf 0;
      if len <? 4 then Some (-1, out) else
      type ← load8 buf 1;
      if negb (type =? USB_DESC_CONFIGURATION) then Some (-1, out) else
      walk_loop (S (Z.to_nat buffer_len)) buf len None (ConfigWalk 0 [] buffer_len)
  end.

(** The first interface of the walk with this class, subclass and protocol. *)
Fixpoint find_interface (buf : list Z) (ifaces : list usb_interface_ref) (class_code subclass protocol : Z) : option (option usb_interface_ref) :=
  match ifaces with
  | [] => Some None
  | i :: ifaces =>
      c ← load8 buf (if_desc i + 5);
      if negb (c =? class_code) then find_interface buf ifaces class_code subclass protocol else
      sub ← load8 buf (if_desc i + 6);
      if negb (sub =? subclass) then find_interface buf ifaces class_code subclass protocol else
      proto ← load8 buf (if_desc i + 7);
      if negb (proto =? protocol) then find_interface buf ifaces class_code subclass protocol else Some (Some i)
  end.

Definition usb_find_interface (buf : list Z) (walk : option usb_config_walk) (class_code subclass protocol : Z) : option (option usb_interface_ref) :=
  match walk with
  | None => Some None
  | Some walk => find_interface buf (w_interfaces walk) class_code subclass protocol
  end.

Definition usb_find_endpoint_in (iface : option usb_interface_ref) (max_packet : Z) : option usb_endpoint_ref :=
  match iface with
  | None => None
  | Some iface =>
      List.find (fun ep => (Z.land (ep_address ep) 0x80 =? 0x80) && (ep_transfer_type ep =? USB_EP_TRANSFER_INTERRUPT) &&
                      (ep_max_packet ep >=? max_packet)) (if_endpoints iface)
  end.

(** * Requests *)

(** The host controller driver: [H] is its state, [X] an addressed device.  A
    transfer gives a status and the data buffer as it leaves it. *)
Class UsbHost (H X : Type) := {
  xhci_pci_probe : H -> Z * H;
  xhci_init : H -> Z * H;
  max_ports : H -> Z;
  xhci_port_reset : Z -> H -> Z * H;
  xhci_address_device : Z -> Z -> H -> Z * option X * H;
  xhci_control_transfer : usb_setup -> option (list Z) -> Z -> H -> Z * option (list Z) * H;
  xhci_control_transfer_device : option X -> usb_setup -> option (list Z) -> Z -> H -> Z * option X * option (list Z) * H;
  xhci_interrupt_in : Z -> Z -> Z -> list Z -> H -> Z * list Z * H;
  xhci_interrupt_in_device : X -> Z -> Z -> Z -> list Z -> H -> Z * X * list Z * H }.

Section Usb.
Context {H X : Type} `{UsbHost H X}.

(** The driver's handle ([None] when it has no controller) and the address. *)
Record usb_device := UsbDevice { ud_xhci : option X; ud_address : Z }.

(** An installed transfer function gets the active controller's presence. *)
Definition usb_control_xfer_fn : Type := bool -> usb_setup -> option (list Z) -> Z -> H -> Z * option (list Z) * H.

Record usb := Usb { g_xfer_fn : option usb_control_xfer_fn; g_active_ctrl : bool; g_host : H }.

Definition set_host (h : H) (u : usb) : usb := Usb (g_xfer_fn u) (g_active_ctrl u) h.

Definition usb_install_controller (fn : option usb_control_xfer_fn) (u : usb) : usb := Usb fn (g_active_ctrl u) (g_host u).

Definition xfer (setup : usb_setup) (data : option (list Z)) (len : Z) (u : usb) : Z * option (list Z) * usb :=
  match g_xfer_fn u with
  | None => (-1, data, u)
  | Some fn => let '(rc, data, h) := fn (g_active_ctrl u) setup data len (g_host u) in (rc, data, set_host h u)
  end.

Definition usb_set_address (address : Z) (u : usb) : Z * usb :=
  let '(rc, _, u) := xfer (UsbSetup 0 USB_REQ_SET_ADDRESS address 0 0) None 0 u in (rc, u).

Definition usb_get_device_descriptor (out : list Z) (u : usb) : Z * option (list Z) * usb :=
  xfer (UsbSetup 0x80 USB_REQ_GET_DESCRIPTOR (Z.shiftl USB_DESC_DEVICE 8) 0 DEVICE_SIZE) (Some out) DEVICE_SIZE u.

Definition usb_set_configuration (value : Z) (u : usb) : Z * usb :=
  let '(rc, _, u) := xfer (UsbSetup 0 USB_REQ_SET_CONFIGURATION value 0 0) None 0 u in (rc, u).

Definition usb_installed_xfer (setup : usb_setup) (data : option (list Z)) (data_len : Z) (u : usb) : Z * option (list Z) * usb :=
  xfer setup data data_len u.

Definition usb_device_xfer (dev : usb_device) (setup : usb_setup) (data : option (list Z)) (data_len : Z) (u : usb)
  : Z * usb_device * option (list Z) * usb :=
  let '(rc, x, data, h) := xhci_control_transfer_device (ud_xhci dev) setup data data_len (g_host u) in
  (rc, UsbDevice x (ud_address dev), data, set_host h u).

Definition usb_device_get_device_descriptor (dev : usb_device) (out : list Z) (u : usb) : Z * usb_device * option (list Z) * usb :=
  usb_device_xfer dev (UsbSetup 0x80 USB_REQ_GET_DESCRIPTOR (Z.shiftl USB_DESC_DEVICE 8) 0 DEVICE_SIZE) (Some out) DEVICE_SIZE u.

Definition usb_device_set_configuration (dev : usb_device) (value : Z) (u : usb) : Z * usb_device * usb :=
  let '(rc, dev, _, u) := usb_device_xfer dev (UsbSetup 0 USB_REQ_SET_CONFIGURATION value 0 0) None 0 u in (rc, dev, u).

(** How many bytes of the configuration to ask for, if its header is sound. *)
Definition config_total (buffer : option (list Z)) (buffer_len : Z) : option (option Z) :=
  buf ← buffer;
  len ← load8 buf 0;
  if len <? CONFIG_SIZE then Some None else
  type ← load8 buf 1;
  if negb (type =? USB_DESC_CONFIGURATION) then Some None else
  total ← field16 buf 2;
  if total <? len then Some None else Some (Some (if total >? buffer_len then buffer_len else total)).

Definition config_setup (index len : Z) : usb_setup :=
  UsbSetup 0x80 USB_REQ_GET_DESCRIPTOR (Z.lor (Z.shiftl USB_DESC_CONFIGURATION 8) index) 0 len.

Definition usb_device_get_config_descriptor (dev : usb_device) (index : Z) (buffer : option (list Z)) (buffer_len : Z) (out : usb_config_walk) (u : usb)
  : option (Z * usb_device * option (list Z) * usb_config_walk * usb) :=
  if bool_decide (buffer = None) || (buffer_len <? CONFIG_SIZE) then Some (-1, dev, buffer, out, u) else
  let '(rc, dev, buffer, u) := usb_device_xfer dev (config_setup index CONFIG_SIZE) buffer CONFIG_SIZE u in
  if rc <? 0 then Some (rc, dev, buffer, out, u) else
  total ← config_total buffer buffer_len;
  match total with
  | None => Some (-1, dev, buffer, out, u)
  | Some total =>
      let '(rc, dev, buffer, u) := usb_device_xfer dev (config_setup index total) buffer total u in
      if rc <? 0 then Some (rc, dev, buffer, out, u) else
      r ← usb_walk_configuration buffer total out;
      Some (fst r, dev, buffer, snd r, u)
  end.

Definition usb_get_config_descriptor (index : Z) (buffer : option (list Z)) (buffer_len : Z) (out : usb_config_walk) (u : usb)
  : option (Z * option (list Z) * usb_config_walk * usb) :=
  if bool_decide (buffer = None) || (buffer_len <? CONFIG_SIZE) then Some (-1, buffer, out, u) else
  let '(rc, buffer, u) := xfer (config_setup index CONFIG_SIZE) buffer CONFIG_SIZE u in
  if rc <? 0 then Some (rc, buffer, out, u) else
  total ← config_total buffer buffer_len;
  match total with
  | None => Some (-1, buffer, out, u)
  | Some total =>
      let '(rc, buffer, u) := xfer (config_setup index total) buffer total u in
      if rc <? 0 then Some (rc, buffer, out, u) else
      r ← usb_walk_configuration buffer total out;
      Some (fst r, buffer, snd r, u)
  end.

(** [desc] is the uninitialised descriptor on the stack. *)
Definition usb_enumerate_default_device (address config_value : Z) (desc : list Z) (buffer : option (list Z)) (buffer_len : Z) (out : usb_config_walk) (u : usb)
  : option (Z * option (list Z) * usb_config_walk * usb) :=
  if bool_decide (buffer = None) then Some (-1, buffer, out, u) else
  let '(rc, u) := usb_set_address address u in
  if rc <? 0 then Some (-1, buffer, out, u) else
  let '(rc, _, u) := usb_get_device_descriptor desc u in
  if rc <? 0 then Some (-1, buffer, out, u) else
  r ← usb_get_config_descriptor 0 buffer buffer_len out u;
  let '(rc, buffer, out, u) := r in
  if rc <? 0 then Some (-1, buffer, out, u) else
  let '(rc, u) := usb_set_configuration config_value u in
  Some (if rc <? 0 then -1 else 0, buffer, out, u).

Definition usb_enumerate_port (port_index address config_value : Z) (desc : list Z) (buffer : option (list Z)) (buffer_len : Z)
  (dev : usb_device) (out : usb_config_walk) (u : usb) : option (Z * usb_device * option (list Z) * usb_config_walk * usb) :=
  if negb (g_active_ctrl u) || bool_decide (buffer = None) then Some (-1, dev, buffer, out, u) else
  let '(rc, x, h) := xhci_address_device port_index address (g_host u) in
  let u := set_host h u in
  if negb (rc =? 0) then Some (-1, UsbDevice x (ud_address dev), buffer, out, u) else
  let dev := UsbDevice x address in
  let '(rc, dev, _, u) := usb_device_get_device_descriptor dev desc u in
  if rc <? 0 then Some (-1, dev, buffer, out, u) else
  r ← usb_device_get_config_descriptor dev 0 buffer buffer_len out u;
  let '(rc, dev, buffer, out, u) := r in
  if rc <? 0 then Some (-1, dev, buffer, out, u) else
  let '(rc, dev, u) := usb_device_set_configuration dev config_value u in
  Some (if rc <? 0 then -1 else 0, dev, buffer, out, u).

Definition usb_active_controller (u : usb) : bool := g_active_ctrl u.

Definition xhci_xfer_trampoline : usb_control_xfer_fn :=
  fun active setup data data_len h => if negb active then (-1, data, h) else xhci_control_transfer setup data data_len h.

Definition usb_init (u : usb) : Z * usb :=
  let '(n, h) := xhci_pci_probe (g_host u) in
  let u := set_host h u in
  if n =? 0 then (0, u) else
  let '(rc, h) := xhci_init (g_host u) in
  let u := set_host h u in
  if negb (rc =? 0) then (0, u) else
  (1, usb_install_controller (Some xhci_xfer_trampoline) (Usb (g_xfer_fn u) true (g_host u))).

Definition usb_port_reset (port_index : Z) (u : usb) : Z * usb :=
  if negb (g_active_ctrl u) then (0, u) else let '(rc, h) := xhci_port_reset port_index (g_host u) in (rc, set_host h u).

Definition usb_port_count (u : usb) : Z := if negb (g_active_ctrl u) then 0 else max_ports (g_host u).
End Usb.
Arguments usb_device : clear implicits.
Arguments usb : clear implicits.
