(* ===== verification/Hid.v ===== *)
(** USB keyboards and mice (drivers/usb/hid.c, hid_driver.c): boot reports become
    events of the input queue.  Counters of the runtime service are not kept. *)

From S2P Require Import Prelude.
From S2P Require Import Bytes.
From S2P Require Import Input.
From S2P Require Import Usb.
Open Scope arm.

(** * Reports (hid.c) *)

Definition HID_BOOT_KEYBOARD_REPORT_SIZE : Z := 8.
Definition HID_BOOT_MOUSE_REPORT_SIZE : Z := 3.
Definition HID_KEY_NONE : Z := 0.
Definition HID_MOD_LCTRL : Z := 1.
Definition HID_MOD_LSHIFT : Z := 2.
Definition HID_MOD_RCTRL : Z := 16.
Definition HID_MOD_RSHIFT : Z := 32.

Record hid_boot_keyboard_report := KeyboardReport { modifiers : Z; reserved : Z; keys : list Z }.
Record hid_boot_mouse_report := MouseReport { buttons : Z; m_dx : Z; m_dy : Z }.

Definition int8 (b : Z) : Z := if b >=? 128 then b - 256 else b.

(** The structures laid over the bytes of a buffer. *)
Definition keyboard_report_at (buf : list Z) : hid_boot_keyboard_report :=
  KeyboardReport (byte_at buf 0) (byte_at buf 1) (map (byte_at buf) (seqZ 2 6)).
Definition mouse_report_at (buf : list Z) : hid_boot_mouse_report :=
  MouseReport (byte_at buf 0) (int8 (byte_at buf 1)) (int8 (byte_at buf 2)).

Definition hid_parse_boot_keyboard (buf : option (list Z)) (len : Z) (out : hid_boot_keyboard_report) : Z * hid_boot_keyboard_report :=
  match buf with
  | None => (-1, out)
  | Some buf => if len <? HID_BOOT_KEYBOARD_REPORT_SIZE then (-1, out) else (0, keyboard_report_at buf)
  end.

Definition hid_parse_boot_mouse (buf : option (list Z)) (len : Z) (out : hid_boot_mouse_report) : Z * hid_boot_mouse_report :=
  match buf with
  | None => (-1, out)
  | Some buf => if len <? HID_BOOT_MOUSE_REPORT_SIZE then (-1, out) else (0, mouse_report_at buf)
  end.

(** Characters by usage code, from code 0 on; 0 where there is none. *)
Definition kHIDUnshifted : list Z :=
  replicate 4 0 ++ seqZ 97 26 ++ seqZ 49 9 ++ [48; 10; 0x1b; 8; 9; 32; 45; 61; 91; 93; 92; 0; 59; 39; 96; 44; 46; 47] ++ replicate 71 0.

Definition kHIDShifted : list Z :=
  replicate 4 0 ++ seqZ 65 26 ++ [33; 64; 35; 36; 37; 94; 38; 42; 40; 41; 10; 0x1b; 8; 9; 32; 95; 43; 123; 125; 124; 0; 58; 34; 126; 60; 62; 63] ++
  replicate 71 0.

Definition hid_usage_to_ascii (usage : Z) (shifted : bool) : Z :=
  if usage >=? 0x80 then 0 else if shifted then byte_at kHIDShifted usage else byte_at kHIDUnshifted usage.

(** [switch (usage)] of [hid_usage_to_input_key]. *)
Definition usage_nav (usage : Z) : option input_nav_key :=
  if usage =? 0x49 then Some INPUT_NAV_INSERT else if usage =? 0x4a then Some INPUT_NAV_HOME else
  if usage =? 0x4b then Some INPUT_NAV_PGUP else if usage =? 0x4c then Some INPUT_NAV_DELETE else
  if usage =? 0x4d then Some INPUT_NAV_END else if usage =? 0x4e then Some INPUT_NAV_PGDN else
  if usage =? 0x4f then Some INPUT_NAV_RIGHT else if usage =? 0x50 then Some INPUT_NAV_LEFT else
  if usage =? 0x51 then Some INPUT_NAV_DOWN else if usage =? 0x52 then Some INPUT_NAV_UP else None.

Definition hid_usage_to_input_key (usage modifiers : Z) : Z :=
  let ctrl := modifiers &? Z.lor HID_MOD_LCTRL HID_MOD_RCTRL in
  let shifted := modifiers &? Z.lor HID_MOD_LSHIFT HID_MOD_RSHIFT in
  if ctrl && (usage >=? 4) && (usage <=? 0x1d) then input_key_from_ctrl_letter (u8 (97 + usage - 4)) else
  match usage_nav usage with Some nav => input_key_from_nav nav | None => hid_usage_to_ascii usage shifted end.

(** * Devices (hid_driver.c) *)

Definition USB_HID_MAX_DEVICES : Z := 4.
Definition USB_HID_POLL_BUDGET : Z := USB_HID_MAX_DEVICES.
Definition USB_HID_SET_PROTOCOL : Z := 11.
Definition USB_HID_BOOT_PROTOCOL : Z := 0.

Section Driver.
Context {H X : Type} `{UsbHost H X}.

(** What the driver keeps of the keys of a keyboard, a slot for each of six. *)
Record key_slots := KeySlots { prev_keys : list Z; prev_key_values : list Z; release_pending : list Z }.

Record usb_hid_device := HidDevice {
  device_address : Z; protocol : Z; interface_number : Z; endpoint_in : Z; interval : Z; max_packet : Z;
  hd_usb_device : usb_device X; slots : key_slots; prev_buttons : Z }.

Record usb_hid_state := HidState { devices : list usb_hid_device; count : Z }.

Definition boot_report_size (protocol : Z) : Z :=
  if protocol =? 1 then HID_BOOT_KEYBOARD_REPORT_SIZE else if protocol =? 2 then HID_BOOT_MOUSE_REPORT_SIZE else 0.

Definition no_keys : key_slots := KeySlots (replicate 6 HID_KEY_NONE) (replicate 6 0) (replicate 6 0).

(** The device structure of a boot interface with this endpoint. *)
Definition boot_device (buf : list Z) (iface : usb_interface_ref) (proto : Z) (ep : usb_endpoint_ref) (usb_device : option (usb_device X))
  : option usb_hid_device :=
  number ← load8 buf (if_desc iface + 2);
  interval ← load8 buf (ep_desc ep + 6);
  Some (HidDevice (match usb_device with Some d => ud_address d | None => 0 end) proto number
    (Z.land (ep_address ep) 0x0f) interval (ep_max_packet ep)
    (match usb_device with Some d => d | None => UsbDevice None 0 end) no_keys 0).

(** The store of the structure into [devices]; [None] outside the array. *)
Definition store_device (dev : usb_hid_device) (state : usb_hid_state) : option usb_hid_state :=
  if (count state <? 0) || (count state >=? Z.of_nat (length (devices state))) then None
  else Some (HidState (<[Z.to_nat (count state) := dev]> (devices state)) (count state + 1)).

(** [for (i = 0; i < walk->interface_count; i++)], with its [break]. *)
Fixpoint add_loop (buf : list Z) (ifaces : list usb_interface_ref) (usb_device : option (usb_device X)) (state : usb_hid_state) (added : Z)
  : option (Z * usb_hid_state) :=
  match ifaces with
  | [] => Some (added, state)
  | iface :: ifaces =>
      class ← load8 buf (if_desc iface + 5);
      if negb (class =? USB_CLASS_HID) then add_loop buf ifaces usb_device state added else
      proto ← load8 buf (if_desc iface + 7);
      if negb (proto =? 1) && negb (proto =? 2) then add_loop buf ifaces usb_device state added else
      match usb_find_endpoint_in (Some iface) (boot_report_size proto) with
      | None => add_loop buf ifaces usb_device state added
      | Some ep =>
          if count state >=? USB_HID_MAX_DEVICES then Some (added, state) else
          dev ← boot_device buf iface proto ep usb_device;
          state ← store_device dev state;
          add_loop buf ifaces usb_device state (added + 1)
      end
  end.

(** The walk's descriptors are in [buf]. *)
Definition usb_hid_add_device (state : usb_hid_state) (buf : list Z) (walk : option usb_config_walk) (usb_device : option (usb_device X))
  : option (Z * usb_hid_state) :=
  match walk with None => Some (0, state) | Some walk => add_loop buf (w_interfaces walk) usb_device state 0 end.

Definition usb_hid_init (state : usb_hid_state) (buf : list Z) (walk : option usb_config_walk) : option (Z * usb_hid_state) :=
  match walk with None => Some (0, state) | Some _ => usb_hid_add_device (HidState (devices state) 0) buf walk None end.

(** ** Keyboards *)

Definition key_in_report (report : hid_boot_keyboard_report) (key : Z) : bool := existsb (fun k => k =? key) (keys report).

Definition key_slot (s : key_slots) (key : Z) : option Z := find_range 0 6 (fun i => byte_at (prev_keys s) i =? key).

Definition empty_key_slot (s : key_slots) : option Z := find_range 0 6 (fun i => byte_at (prev_keys s) i =? HID_KEY_NONE).

Definition set_pending (i v : Z) (s : key_slots) : key_slots := KeySlots (prev_keys s) (prev_key_values s) (put i v (release_pending s)).

Definition set_slot (i key value : Z) (s : key_slots) : key_slots :=
  KeySlots (put i key (prev_keys s)) (put i value (prev_key_values s)) (put i 0 (release_pending s)).

Definition produced (out : list input_event) : Z := Z.of_nat (length out).

(** The loop over the slots: whether the function returned in it. *)
Fixpoint release_loop (indices : list Z) (report : hid_boot_keyboard_report) (out_len : Z) (s : key_slots) (out : list input_event)
  : bool * key_slots * list input_event :=
  match indices with
  | [] => (false, s, out)
  | i :: indices =>
      let prev := byte_at (prev_keys s) i in
      if prev =? HID_KEY_NONE then release_loop indices report out_len s out else
      if key_in_report report prev then release_loop indices report out_len (set_pending i 0 s) out else
      if byte_at (release_pending s) i =? 0 then release_loop indices report out_len (set_pending i 1 s) out else
      let value := byte_at (prev_key_values s) i in
      let out := if negb (value =? 0) then out ++ [KeyRelease value] else out in
      let s := set_slot i HID_KEY_NONE 0 s in
      if produced out >=? out_len then (true, s, out) else release_loop indices report out_len s out
  end.

(** The loop over the keys of the report. *)
Fixpoint press_loop (curs : list Z) (modifiers out_len : Z) (s : key_slots) (out : list input_event) : key_slots * list input_event :=
  match curs with
  | [] => (s, out)
  | cur :: curs =>
      if cur =? HID_KEY_NONE then press_loop curs modifiers out_len s out else
      match key_slot s cur with
      | Some seen_slot => press_loop curs modifiers out_len (set_pending seen_slot 0 s) out
      | None =>
          match empty_key_slot s with
          | None => press_loop curs modifiers out_len s out
          | Some slot =>
              let key := hid_usage_to_input_key cur modifiers in
              let s := set_slot slot cur key s in
              if negb (key =? 0) then
                let out := out ++ [KeyPress key] in
                if produced out >=? out_len then (s, out) else press_loop curs modifiers out_len s out
              else press_loop curs modifiers out_len s out
          end
      end
  end.

Definition keyboard_events (s : key_slots) (report : hid_boot_keyboard_report) (out_len : Z) : key_slots * list input_event :=
  if out_len =? 0 then (s, []) else
  let '(returned, s, out) := release_loop (seqZ 0 6) report out_len s [] in
  if returned then (s, out) else press_loop (keys report) (modifiers report) out_len s out.

(** The events are those written to [out], as many as the function returns. *)
Definition usb_hid_keyboard_report (dev : usb_hid_device) (report : hid_boot_keyboard_report) (out_len : Z) : usb_hid_device * list input_event :=
  let '(s, out) := keyboard_events (slots dev) report out_len in
  (HidDevice (device_address dev) (protocol dev) (interface_number dev) (endpoint_in dev) (interval dev) (max_packet dev) (hd_usb_device dev)
     s (prev_buttons dev), out).

(** ** Mice *)

(** [for (i = 0; i < 3; i++)] over the buttons. *)
Fixpoint button_loop (indices : list Z) (report : hid_boot_mouse_report) (changed out_len : Z) (out : list input_event) : list input_event :=
  match indices with
  | [] => out
  | i :: indices =>
      let mask := Z.shiftl 1 i in
      if Z.land changed mask =? 0 then button_loop indices report changed out_len out else
      if produced out >=? out_len then out else
      button_loop indices report changed out_len (out ++ [MouseButton i (if negb (Z.land (buttons report) mask =? 0) then 1 else 0)])
  end.

Definition mouse_events (prev : Z) (report : hid_boot_mouse_report) (out_len : Z) : list input_event :=
  let out := if (negb (m_dx report =? 0) || negb (m_dy report =? 0)) && (0 <? out_len) then [MouseMove (m_dx report) (m_dy report)] else [] in
  button_loop [0; 1; 2] report (Z.lxor (buttons report) prev) out_len out.

Definition usb_hid_mouse_report (dev : usb_hid_device) (report : hid_boot_mouse_report) (out_len : Z) : usb_hid_device * list input_event :=
  if out_len =? 0 then (dev, []) else
  (HidDevice (device_address dev) (protocol dev) (interface_number dev) (endpoint_in dev) (interval dev) (max_packet dev) (hd_usb_device dev)
     (slots dev) (buttons report), mouse_events (prev_buttons dev) report out_len).

(** ** Polling *)

(** The controller, and the queue the events go to. *)
Record hid_world := HidWorld { hw_usb : usb H; hw_input : input }.

(** The transfer of a report into a buffer on the stack, which holds [junk]. *)
Definition read_report (dev : usb_hid_device) (junk : list Z) (w : hid_world) : Z * usb_hid_device * list Z * hid_world :=
  match ud_xhci (hd_usb_device dev) with
  | Some x =>
      let '(n, x, buf, h) := xhci_interrupt_in_device x (endpoint_in dev) (max_packet dev) (interval dev) junk (g_host (hw_usb w)) in
      (n, HidDevice (device_address dev) (protocol dev) (interface_number dev) (endpoint_in dev) (interval dev) (max_packet dev)
            (UsbDevice (Some x) (ud_address (hd_usb_device dev))) (slots dev) (prev_buttons dev),
       buf, HidWorld (set_host h (hw_usb w)) (hw_input w))
  | None =>
      let '(n, buf, h) := xhci_interrupt_in (endpoint_in dev) (max_packet dev) (interval dev) junk (g_host (hw_usb w)) in
      (n, dev, buf, HidWorld (set_host h (hw_usb w)) (hw_input w))
  end.

(** [for (i = 0; i < produced; i++) input_queue_push(&events[i]);] *)
Definition push_events (out : list input_event) (w : hid_world) : hid_world :=
  HidWorld (hw_usb w) (foldl (fun q e => snd (input_queue_push (Some e) q)) (hw_input w) out).

(** [junk] is what the report structure on the stack holds before. *)
Definition usb_hid_poll_device (junk : list Z) (dev : usb_hid_device) (w : hid_world) : Z * usb_hid_device * hid_world :=
  if endpoint_in dev =? 0 then (-1, dev, w) else
  if negb (usb_active_controller (hw_usb w)) then (-1, dev, w) else
  if protocol dev =? 1 then
    let '(n, dev, buf, w) := read_report dev (take 8 junk) w in
    if n <=? 0 then (n, dev, w) else
    let '(dev, out) := usb_hid_keyboard_report dev (keyboard_report_at buf) 8 in (produced out, dev, push_events out w)
  else if protocol dev =? 2 then
    let '(n, dev, buf, w) := read_report dev (take 3 junk) w in
    if n <=? 0 then (n, dev, w) else
    let '(dev, out) := usb_hid_mouse_report dev (mouse_report_at buf) 4 in (produced out, dev, push_events out w)
  else (-1, dev, w).

(** The state after the reset of a device's structure. *)
Definition reset_device (dev : usb_hid_device) : usb_hid_device :=
  HidDevice 0 0 0 0 0 (max_packet dev) (UsbDevice None 0) no_keys 0.

Definition usb_hid_state_reset (state : usb_hid_state) : usb_hid_state := HidState (map reset_device (devices state)) 0.

(** The loop over the registered devices. *)
Definition poll_one (junk : list Z) (i : Z) (t : Z * usb_hid_state * hid_world) : Z * usb_hid_state * hid_world :=
  let '(total, state, w) := t in
  match devices state !! Z.to_nat i with
  | Some dev =>
      let '(n, dev, w) := usb_hid_poll_device junk dev w in
      (if n >? 0 then total + n else total, HidState (<[Z.to_nat i := dev]> (devices state)) (count state), w)
  | None => t
  end.

Definition usb_hid_poll_all (junk : list Z) (state : usb_hid_state) (w : hid_world) : Z * usb_hid_state * hid_world :=
  for_range 0 (Z.min (count state) USB_HID_POLL_BUDGET) (poll_one junk) (0, state, w).

Definition usb_hid_set_protocol_boot (dev : usb_hid_device) (u : usb H) : Z * usb_hid_device * usb H :=
  let setup := UsbSetup 0x21 USB_HID_SET_PROTOCOL USB_HID_BOOT_PROTOCOL (interface_number dev) 0 in
  match ud_xhci (hd_usb_device dev) with
  | Some _ =>
      let '(rc, d, _, u) := usb_device_xfer (hd_usb_device dev) setup None 0 u in
      (rc, HidDevice (device_address dev) (protocol dev) (interface_number dev) (endpoint_in dev) (interval dev) (max_packet dev) d (slots dev)
             (prev_buttons dev), u)
  | None => let '(rc, _, u) := usb_installed_xfer setup None 0 u in (rc, dev, u)
  end.
End Driver.
