(* ===== verification/HidKeys.v ===== *)
(** USB keyboards and mice: the events of a device and what it keeps of its keys
    and buttons stay in step, whatever reports arrive. *)

From S2P Require Import Prelude.
From S2P Require Import Bytes.
From S2P Require Import Input.
From S2P Require Import Usb.
From S2P Require Import Hid.
Open Scope arm.

(** * Keys that are down *)

(** The key values of the occupied slots. *)
Definition values (vs : list Z) : list Z := filter (fun v => v <> 0) vs.

Definition down (s : key_slots) : list Z := values (prev_key_values s).

(** A slot without a key has no value, and no key is in two slots. *)
Record slots_ok (s : key_slots) : Prop := {
  so_keys : length (prev_keys s) = 6%nat;
  so_values : length (prev_key_values s) = 6%nat;
  so_pending : length (release_pending s) = 6%nat;
  so_empty : forall i, 0 <= i < 6 -> byte_at (prev_keys s) i = 0 -> byte_at (prev_key_values s) i = 0;
  so_distinct : forall i j, 0 <= i < 6 -> 0 <= j < 6 -> byte_at (prev_keys s) i = byte_at (prev_keys s) j -> byte_at (prev_keys s) i <> 0 -> i = j }.

(** A reader of the events that notes which keys are down: a release is of a key
    that is down. *)
Definition note (l : list Z) (e : input_event) (l' : list Z) : Prop :=
  match e with
  | KeyPress k => l' ≡ₚ k :: l
  | KeyRelease k => l ≡ₚ k :: l'
  | _ => False
  end.

Inductive noted : list Z -> list input_event -> list Z -> Prop :=
  | noted_nil l l' : l ≡ₚ l' -> noted l [] l'
  | noted_cons l e m es l' : note l e m -> noted m es l' -> noted l (e :: es) l'.

Lemma noted_perm_r l es m m' : noted l es m -> m ≡ₚ m' -> noted l es m'.
Proof. intros Hn Hp. induction Hn; econstructor; eauto. by etrans. Qed.

Lemma note_perm_l l m e l' : l ≡ₚ m -> note m e l' -> note l e l'.
Proof. intros Hp He. destruct e; cbn [note] in *; try done; by rewrite Hp. Qed.

Lemma noted_snoc l es m e l' : noted l es m -> note m e l' -> noted l (es ++ [e]) l'.
Proof.
  intros Hn He. induction Hn as [l m Hp|l e' m' es l1 Hn' Hn IH]; cbn [app].
  - apply (noted_cons _ _ l'); [by eapply note_perm_l|by constructor].
  - econstructor; eauto.
Qed.

Lemma values_put vs i v :
  0 <= i < Z.of_nat (length vs) -> byte_at vs i = 0 -> v <> 0 -> values (put i v vs) ≡ₚ v :: values vs.
Proof.
  intros Hi Hb Hv. unfold byte_at, put in *. remember (Z.to_nat i) as n eqn:En. assert (Hn : (n < length vs)%nat) by lia. clear En Hi i. revert n Hb Hn.
  induction vs as [|x vs IH]; intros [|n] Hb Hn; cbn [length] in *; try lia; unfold values in *.
  - cbn in Hb. subst x. cbn [insert list_insert]. rewrite filter_cons_True by done. by rewrite (filter_cons_False _ 0) by (intros Hz; by apply Hz).
  - cbn [insert list_insert]. rewrite !filter_cons. destruct (decide (x <> 0)); rewrite (IH n) by (done || lia); [apply Permutation_swap|done].
Qed.

Lemma values_clear vs i :
  0 <= i < Z.of_nat (length vs) -> byte_at vs i <> 0 -> values vs ≡ₚ byte_at vs i :: values (put i 0 vs).
Proof.
  intros Hi Hb. rewrite <- (values_put (put i 0 vs) i (byte_at vs i)); [|by rewrite put_length| |done].
  - unfold put, byte_at in *. rewrite list_insert_insert_eq. rewrite list_insert_id; [done|]. destruct (vs !! Z.to_nat i) eqn:E; [done|].
    apply lookup_ge_None in E. lia.
  - rewrite byte_at_put by lia. by rewrite Z.eqb_refl.
Qed.

(** ** Changes of a slot *)

Lemma set_pending_ok i v s : slots_ok s -> slots_ok (set_pending i v s) /\ down (set_pending i v s) = down s.
Proof. intros [A1 A2 A3 A4 A5]. split; [|done]. split; cbn; rewrite ?put_length; done. Qed.

Lemma set_slot_ok i k v s :
  slots_ok s -> 0 <= i < 6 -> (k = 0 -> v = 0) -> (k <> 0 -> forall j, 0 <= j < 6 -> byte_at (prev_keys s) j <> k) -> slots_ok (set_slot i k v s).
Proof.
  intros [A1 A2 A3 A4 A5] Hi Hk Hn. split; cbn; rewrite ?put_length; try done.
  - intros j Hj. rewrite !byte_at_put by lia. destruct (Z.eqb_spec j i); [done|by apply A4].
  - intros j1 j2 H1 H2. rewrite !byte_at_put by lia. destruct (Z.eqb_spec j1 i), (Z.eqb_spec j2 i); subst; try done.
    + intros E Hz. symmetry in E. by apply Hn in E.
    + intros E Hz. subst k. by destruct (Hn Hz j1 H1).
    + by apply A5.
Qed.

(** Giving a slot up, with its release. *)
Lemma release_slot i s :
  slots_ok s -> 0 <= i < 6 ->
  let v := byte_at (prev_key_values s) i in
  slots_ok (set_slot i 0 0 s) /\ (if v =? 0 then down s = down (set_slot i 0 0 s) else down s ≡ₚ v :: down (set_slot i 0 0 s)).
Proof.
  intros Hok Hi v. split; [by apply set_slot_ok|]. unfold down. cbn [set_slot prev_key_values]. pose proof (so_values s Hok) as Hl.
  destruct (Z.eqb_spec v 0) as [E|N]; [|apply values_clear; [lia|done]].
  unfold values, put. f_equal. rewrite list_insert_id; [done|]. unfold v, byte_at in E.
  destruct (prev_key_values s !! Z.to_nat i) eqn:El; [cbn in E; by subst|]. apply lookup_ge_None in El. lia.
Qed.

(** Taking a free slot for a new key, with its press. *)
Lemma press_slot i k v s :
  slots_ok s -> 0 <= i < 6 -> byte_at (prev_keys s) i = 0 -> k <> 0 -> (forall j, 0 <= j < 6 -> byte_at (prev_keys s) j <> k) ->
  slots_ok (set_slot i k v s) /\ (if v =? 0 then down (set_slot i k v s) = down s else down (set_slot i k v s) ≡ₚ v :: down s).
Proof.
  intros Hok Hi He Hk Hn. split; [by apply set_slot_ok|]. unfold down. cbn [set_slot prev_key_values]. pose proof (so_values s Hok) as Hl.
  pose proof (so_empty s Hok i Hi He) as Hv. destruct (Z.eqb_spec v 0) as [->|N]; [|apply values_put; [lia|done|done]].
  unfold values, put. f_equal. rewrite list_insert_id; [done|]. unfold byte_at in Hv.
  destruct (prev_key_values s !! Z.to_nat i) eqn:El; [cbn in Hv; by subst|]. apply lookup_ge_None in El. lia.
Qed.

(** ** The loops *)

Lemma release_loop_noted indices report out_len : forall s out r s' out' l,
  slots_ok s -> Forall (fun i => 0 <= i < 6) indices -> noted l out (down s) ->
  release_loop indices report out_len s out = (r, s', out') -> slots_ok s' /\ noted l out' (down s').
Proof.
  induction indices as [|i indices IH]; intros s out r s' out' l Hok Hi Hn E; cbn [release_loop] in E; [by simplify_eq|].
  apply Forall_cons in Hi as [Hi His]. case_if; [eapply IH; eauto|]. case_if.
  { destruct (set_pending_ok i 0 s Hok) as [Hok1 Ed]. eapply IH; [exact Hok1|done| |exact E]. by rewrite Ed. }
  case_if. { destruct (set_pending_ok i 1 s Hok) as [Hok1 Ed]. eapply IH; [exact Hok1|done| |exact E]. by rewrite Ed. }
  destruct (release_slot i s Hok Hi) as [Hok1 Hd]. unfold HID_KEY_NONE in *. set (s1 := set_slot i 0 0 s) in *. set (v := byte_at (prev_key_values s) i) in *.
  assert (Hn1 : noted l (if negb (v =? 0) then out ++ [KeyRelease v] else out) (down s1)).
  { destruct (v =? 0); cbn [negb]; [by rewrite <- Hd|]. by eapply noted_snoc. }
  set (out1 := if negb (v =? 0) then out ++ [KeyRelease v] else out) in *. destruct (produced out1 >=? out_len); [by simplify_eq|]. eapply IH; eauto.
Qed.

Lemma press_loop_noted curs mods out_len : forall s out s' out' l,
  slots_ok s -> noted l out (down s) -> press_loop curs mods out_len s out = (s', out') -> slots_ok s' /\ noted l out' (down s').
Proof.
  induction curs as [|cur curs IH]; intros s out s' out' l Hok Hn E; cbn [press_loop] in E; [by simplify_eq|].
  destruct (Z.eqb_spec cur HID_KEY_NONE) as [|Hc]; [eapply IH; eauto|].
  destruct (key_slot s cur) as [j|] eqn:Ek.
  { destruct (set_pending_ok j 0 s Hok) as [Hok1 Ed]. eapply IH; [exact Hok1| |exact E]. by rewrite Ed. }
  destruct (empty_key_slot s) as [i|] eqn:Ee; [|eapply IH; eauto].
  unfold empty_key_slot in Ee. apply find_range_Some in Ee as (Hi & He & _). unfold key_slot in Ek. pose proof (find_range_None _ _ _ Ek) as Hk. b2p.
  assert (Hnew : forall j, 0 <= j < 6 -> byte_at (prev_keys s) j <> cur) by (intros j Hj Ej; specialize (Hk j Hj); cbn in Hk; b2p; done).
  destruct (press_slot i cur (hid_usage_to_input_key cur mods) s Hok Hi He Hc Hnew) as [Hok1 Hd]. set (v := hid_usage_to_input_key cur mods) in *.
  set (s1 := set_slot i cur v s) in *. destruct (v =? 0); cbn [negb] in E.
  - eapply IH; [exact Hok1| |exact E]. by rewrite Hd.
  - assert (Hn1 : noted l (out ++ [KeyPress v]) (down s1)) by (by eapply noted_snoc). case_if; [by simplify_eq|]. eapply IH; eauto.
Qed.

Lemma keyboard_events_noted s report out_len s' out :
  slots_ok s -> keyboard_events s report out_len = (s', out) -> slots_ok s' /\ noted (down s) out (down s').
Proof.
  intros Hok E. unfold keyboard_events in E. case_if; [simplify_eq; split; [done|by constructor]|].
  destruct (release_loop _ _ _ _ _) as [[r s1] out1] eqn:Er.
  apply (release_loop_noted _ _ _ _ _ _ _ _ (down s)) in Er as [Hok1 Hn1]; [|done| |by constructor].
  - destruct r; [by simplify_eq|]. eapply press_loop_noted; eauto.
  - change (seqZ 0 6) with [0; 1; 2; 3; 4; 5]. repeat (apply Forall_cons_2; [lia|]). by apply Forall_nil_2.
Qed.

(** The slots and all events after a list of reports, each with room for [out_len] events. *)
Fixpoint keyboard_run (s : key_slots) (reports : list (hid_boot_keyboard_report * Z)) : key_slots * list input_event :=
  match reports with
  | [] => (s, [])
  | (report, out_len) :: reports =>
      let '(s, out) := keyboard_events s report out_len in
      let '(s, rest) := keyboard_run s reports in (s, out ++ rest)
  end.

Lemma noted_app l es m fs l' : noted l es m -> noted m fs l' -> noted l (es ++ fs) l'.
Proof.
  intros H1 H2. induction H1 as [l m Hp|l e m0 es m Hn H1 IH]; [|econstructor; eauto]. cbn [app].
  inversion H2 as [? ? Hp'|? e m1 fs' ? Hn H3]; subst; [constructor; by etrans|]. apply (noted_cons _ _ m1); [by eapply note_perm_l|done].
Qed.

(** C33: whatever reports a keyboard sends and however few events there is room
    for, a reader that takes a key as down from its press to its release never
    sees a release of a key that is not down, and always has exactly the keys
    down that the driver has in its slots; no key is ever in two slots. *)
Theorem key_events_track s reports :
  slots_ok s -> let '(s', out) := keyboard_run s reports in slots_ok s' /\ noted (down s) out (down s').
Proof.
  revert s. induction reports as [|[report out_len] reports IH]; intros s Hok; cbn [keyboard_run]; [split; [done|by constructor]|].
  destruct (keyboard_events s report out_len) as [s1 out] eqn:E. apply keyboard_events_noted in E as [Hok1 Hn1]; [|done].
  specialize (IH s1 Hok1). destruct (keyboard_run s1 reports) as [s2 rest]. destruct IH as [Hok2 Hn2]. split; [done|]. by eapply noted_app.
Qed.

Lemma no_keys_ok : slots_ok no_keys.
Proof.
  assert (Z0 : forall i, byte_at (replicate 6 0) i = 0).
  { intros i. unfold byte_at. destruct (replicate 6 0 !! Z.to_nat i) eqn:E; [|done]. apply lookup_replicate in E as [-> _]. done. }
  split; [done|done|done|intros i _ _; apply Z0|]. intros i j _ _ _ Hz. exfalso. apply Hz. apply Z0.
Qed.

(** 'a' and then 'a' with 'b', and three empty reports. *)
Definition sample_reports : list (hid_boot_keyboard_report * Z) :=
  (fun k => (KeyboardReport 0 0 k, 8)) <$> [[4; 0; 0; 0; 0; 0]; [4; 5; 0; 0; 0; 0]; [0; 0; 0; 0; 0; 0]; [0; 0; 0; 0; 0; 0]].

Lemma key_events_track_witness :
  keyboard_run no_keys sample_reports = (no_keys, [KeyPress 97; KeyPress 98; KeyRelease 97; KeyRelease 98]) /\
  noted [] [KeyPress 97; KeyPress 98; KeyRelease 97; KeyRelease 98] [].
Proof. split; [reflexivity|]. exact (proj2 (key_events_track no_keys sample_reports no_keys_ok)). Defined.

(** ** A release takes two reports *)

Definition is_press (e : input_event) : Prop := match e with KeyPress _ => True | _ => False end.

Lemma release_loop_silent indices report out_len : forall s out,
  length (release_pending s) = 6%nat -> NoDup indices -> Forall (fun i => 0 <= i < 6 /\ byte_at (release_pending s) i = 0) indices ->
  exists s', release_loop indices report out_len s out = (false, s', out).
Proof.
  induction indices as [|i indices IH]; intros s out Hl Hnd Hp; cbn [release_loop]; [by eexists|].
  apply NoDup_cons in Hnd as [Hni Hnd]. apply Forall_cons in Hp as [[Hi Hp0] Hp]. rewrite Hp0.
  assert (Hkeep : forall v, exists s', release_loop indices report out_len (set_pending i v s) out = (false, s', out)).
  { intros v. apply IH; [cbn; by rewrite put_length|done|]. rewrite Forall_forall in *. intros j Hj. destruct (Hp j Hj) as [Hr Hz]. split; [done|].
    cbn [set_pending release_pending]. rewrite byte_at_put by lia. destruct (Z.eqb_spec j i) as [->|]; [by destruct (Hni Hj)|done]. }
  case_if; [by apply IH|]. case_if; [apply Hkeep|]. change (0 =? 0) with true. cbn iota. apply Hkeep.
Qed.

Lemma press_loop_presses curs mods out_len : forall s out,
  Forall is_press out -> Forall is_press (snd (press_loop curs mods out_len s out)).
Proof.
  induction curs as [|cur curs IH]; intros s out Hp; cbn [press_loop]; [done|]. case_if; [by apply IH|].
  destruct (key_slot s cur); [by apply IH|]. destruct (empty_key_slot s) as [i|]; [|by apply IH]. case_if; [|by apply IH].
  assert (Hp1 : Forall is_press (out ++ [KeyPress (hid_usage_to_input_key cur mods)])) by (apply Forall_app; split; [done|by apply Forall_singleton]).
  case_if; [done|by apply IH].
Qed.

(** The first report in which a key is missing gives no release, not even when
    every key is missing: the key is only marked, and released by the next. *)
Theorem missing_key_is_only_marked s report out_len :
  slots_ok s -> (forall i, 0 <= i < 6 -> byte_at (release_pending s) i = 0) -> Forall is_press (snd (keyboard_events s report out_len)).
Proof.
  intros Hok Hz. unfold keyboard_events. case_if; [by apply Forall_nil_2|].
  destruct (release_loop_silent (seqZ 0 6) report out_len s []) as [s1 E]; [apply (so_pending s Hok)| | |].
  - apply NoDup_seqZ.
  - apply Forall_forall. intros i Hi. apply elem_of_seqZ in Hi. split; [lia|apply Hz; lia].
  - rewrite E. apply press_loop_presses. by apply Forall_nil_2.
Qed.

(** * Mice *)

Definition button_note (b : Z -> bool) (e : input_event) : Z -> bool :=
  match e with MouseButton i p => fun j => if j =? i then negb (p =? 0) else b j | _ => b end.

Lemma land_bit x i : 0 <= i -> (Z.land x (Z.shiftl 1 i) =? 0) = negb (Z.testbit x i).
Proof.
  intros Hi. rewrite Z.shiftl_1_l. destruct (Z.testbit x i) eqn:E; cbn [negb].
  - apply Z.eqb_neq. intros Hz. assert (Z.testbit (Z.land x (2 ^ i)) i = true) as Ht by (rewrite Z.land_spec, E, Z.pow2_bits_true by lia; done).
    rewrite Hz, Z.bits_0 in Ht. done.
  - apply Z.eqb_eq. apply Z.bits_inj'. intros n Hn. rewrite Z.land_spec, Z.bits_0, Z.pow2_bits_eqb by lia.
    destruct (Z.eqb_spec i n) as [->|]; [by rewrite E|by rewrite andb_false_r].
Qed.

(** A reader of the button events has, after every report, the three buttons as
    the report has them. *)
Theorem mouse_events_track prev report j :
  0 <= j < 3 -> foldl button_note (Z.testbit prev) (mouse_events prev report 4) j = Z.testbit (buttons report) j.
Proof.
  intros Hj. unfold mouse_events. match goal with |- context [button_loop _ _ _ _ ?o] => set (out := o) end.
  assert (Hout : produced out <= 1 /\ forall b, foldl button_note b out = b) by (unfold out; destruct (_ && _); (split; [unfold produced; cbn; lia|done])).
  destruct Hout as [Hlen Hout]. destruct out as [|e [|]] eqn:Eo; [| |unfold produced in Hlen; cbn in Hlen; lia]; clear Hlen; cbn [button_loop];
    rewrite !land_bit, !Z.lxor_spec by lia; specialize (Hout (Z.testbit prev));
    assert (j = 0 \/ j = 1 \/ j = 2) as Hc by lia; destruct Hc as [->|[->| ->]];
    destruct (Z.testbit (buttons report) 0) eqn:B0, (Z.testbit (buttons report) 1) eqn:B1, (Z.testbit (buttons report) 2) eqn:B2,
      (Z.testbit prev 0) eqn:P0, (Z.testbit prev 1) eqn:P1, (Z.testbit prev 2) eqn:P2;
    unfold produced; cbn -[Z.testbit] in *;
    repeat match goal with |- context [Z.of_nat ?n >=? 4] => change (Z.of_nat n >=? 4) with false end; cbn -[Z.testbit]; rewrite ?Hout; cbn -[Z.testbit]; rewrite ?P0, ?P1, ?P2; done.
Qed.
