(* ===== verification/UsbWalk.v ===== *)
(** The walk over a configuration descriptor: on any received bytes it reads at
    most one byte past them, depends on them alone, ends, and so does the driver
    that reads the descriptors it found. *)

From S2P Require Import Prelude.
From S2P Require Import Bytes.
From S2P Require Import Input.
From S2P Require Import Usb.
From S2P Require Import Hid.
Open Scope arm.

(** * What a walk gives *)

Definition endpoint_ok (len : Z) (e : usb_endpoint_ref) : Prop := 0 <= ep_desc e /\ ep_desc e + ENDPOINT_SIZE <= len.

Record interface_ok (len : Z) (i : usb_interface_ref) : Prop := {
  io_desc : 0 <= if_desc i /\ if_desc i + INTERFACE_SIZE <= len;
  io_count : endpoint_count i <= USB_MAX_ENDPOINTS;
  io_endpoints : Forall (endpoint_ok len) (if_endpoints i);
  io_hid : forall h, if_hid i = Some h -> 0 <= h /\ h + HID_SIZE <= len }.

Record walk_ok (len : Z) (w : usb_config_walk) : Prop := {
  wo_end : w_buffer_end w = len;
  wo_count : interface_count w <= USB_MAX_INTERFACES;
  wo_interfaces : Forall (interface_ok len) (w_interfaces w) }.

(** The current interface is one of those found. *)
Definition current_ok (cur : option nat) (w : usb_config_walk) : Prop := forall c, cur = Some c -> (c < length (w_interfaces w))%nat.

Lemma change_interface_ok len c f w :
  walk_ok len w -> (forall i, w_interfaces w !! c = Some i -> interface_ok len i -> interface_ok len (f i)) -> walk_ok len (change_interface c f w).
Proof.
  intros [W1 W2 W3] Hf. split; [done|unfold interface_count in *; cbn; by rewrite length_alter|]. cbn [change_interface w_interfaces].
  rewrite Forall_lookup in W3 |- *. intros n i Hn. destruct (decide (n = c)) as [->|Hne].
  - rewrite list_lookup_alter_eq in Hn. apply fmap_Some in Hn as (i0 & Hi0 & ->). apply Hf; [done|by eapply W3].
  - rewrite list_lookup_alter_ne in Hn by done. by eapply W3.
Qed.

(** ** Reads inside the received bytes

    [same_bytes len a b]: the buffers hold [len] bytes at least, the same ones. *)
Definition same_bytes (len : Z) (a b : list Z) : Prop := len <= zlen b /\ forall k, 0 <= k < len -> byte_at a k = byte_at b k.

Lemma load8_in buf i : 0 <= i < zlen buf -> load8 buf i = Some (byte_at buf i).
Proof.
  intros Hi. unfold load8, byte_at, zlen in *. destruct (Z.ltb_spec i 0); [lia|]. destruct (buf !! Z.to_nat i) eqn:E; [done|].
  apply lookup_ge_None in E. lia.
Qed.

Lemma load8_out buf i : zlen buf <= i -> load8 buf i = None.
Proof. intros Hi. unfold load8, zlen in *. destruct (i <? 0); [done|]. apply lookup_ge_None. lia. Qed.

Lemma load8_same len a b i : len <= zlen a -> same_bytes len a b -> 0 <= i < len -> load8 b i = load8 a i.
Proof. intros Ha [Hb He] Hi. rewrite !load8_in by lia. by rewrite He. Qed.

Lemma endpoint_at_in a cursor : 0 <= cursor -> cursor + ENDPOINT_SIZE <= zlen a ->
  endpoint_at a cursor = Some (EndpointRef cursor (byte_at a (cursor + 2)) (Z.land (byte_at a (cursor + 3)) 3)
    (Z.lor (byte_at a (cursor + 4)) (Z.shiftl (byte_at a (cursor + 4 + 1)) 8))).
Proof. intros H0 Hl. unfold ENDPOINT_SIZE in Hl. unfold endpoint_at, field16. rewrite !load8_in by lia. done. Qed.

Lemma endpoint_at_same len a b cursor :
  len <= zlen a -> same_bytes len a b -> 0 <= cursor -> cursor + ENDPOINT_SIZE <= len -> endpoint_at b cursor = endpoint_at a cursor.
Proof.
  intros Ha Hb H0 Hl. unfold ENDPOINT_SIZE in Hl. unfold endpoint_at, field16. by rewrite !(load8_same len a b) by (done || lia).
Qed.

(** ** One descriptor *)

Lemma walk_descriptor_ok a cursor dlen type cur w len :
  len <= zlen a -> walk_ok len w -> current_ok cur w -> 0 <= cursor -> cursor + dlen <= len ->
  exists st cur' w', walk_descriptor a cursor dlen type cur w = Some (st, cur', w') /\ walk_ok len w' /\ current_ok cur' w'.
Proof.
  intros Ha Hw Hc H0 Hl. unfold walk_descriptor. destruct (type =? USB_DESC_INTERFACE).
  { destruct (Z.ltb_spec dlen INTERFACE_SIZE); [by eexists _, _, _|]. destruct (Z.ltb_spec (interface_count w) USB_MAX_INTERFACES); [|by eexists _, _, _].
    eexists _, _, _. split; [done|]. destruct Hw as [W1 W2 W3]. split.
    - split; [done|unfold interface_count, USB_MAX_INTERFACES in *; cbn; rewrite length_app; cbn; lia|]. cbn [add_interface w_interfaces].
      apply Forall_app. split; [done|]. apply Forall_singleton. split; cbn; [lia|unfold endpoint_count; cbn; done|by apply Forall_nil_2|done].
    - intros c [= <-]. cbn. rewrite length_app. cbn. lia. }
  destruct (type =? USB_DESC_ENDPOINT).
  { destruct cur as [c|]; [|by eexists _, _, _]. destruct (w_interfaces w !! c) as [i|] eqn:Ei.
    2: { apply lookup_ge_None in Ei. specialize (Hc c eq_refl). lia. }
    rewrite Z.geb_leb. destruct (Z.leb_spec USB_MAX_ENDPOINTS (endpoint_count i)); [by eexists _, _, _|].
    destruct (Z.ltb_spec dlen ENDPOINT_SIZE); [by eexists _, _, _|]. rewrite endpoint_at_in by lia. cbn [mbind option_bind].
    eexists _, _, _. split; [done|]. split.
    - apply change_interface_ok; [done|]. intros i' Hi' [I1 I2 I3 I4]. rewrite Ei in Hi'. simplify_eq.
      split; cbn [if_desc if_endpoints if_hid]; try done.
      + unfold endpoint_count, USB_MAX_ENDPOINTS in *. cbn. rewrite length_app. cbn. lia.
      + apply Forall_app. split; [done|]. apply Forall_singleton. unfold endpoint_ok. cbn. lia.
    - intros c' Hc'. cbn. rewrite length_alter. by apply Hc. }
  destruct (type =? USB_DESC_HID); [|by eexists _, _, _].
  destruct (Z.ltb_spec dlen HID_SIZE); [by eexists _, _, _|]. eexists _, _, _. split; [done|]. destruct cur as [c|]; [|done]. split.
  - apply change_interface_ok; [done|]. intros i Hi [I1 I2 I3 I4]. split; cbn [if_desc if_endpoints if_hid]; try done. intros h [= <-]. lia.
  - intros c' Hc'. cbn. rewrite length_alter. by apply Hc.
Qed.

Lemma walk_descriptor_same a b cursor dlen type cur w len :
  len <= zlen a -> same_bytes len a b -> 0 <= cursor -> cursor + dlen <= len ->
  walk_descriptor b cursor dlen type cur w = walk_descriptor a cursor dlen type cur w.
Proof.
  intros Ha Hb H0 Hl. unfold walk_descriptor. case_if; [done|]. case_if; [|done]. destruct cur; [|done]. case_if; [done|].
  destruct (Z.ltb_spec dlen ENDPOINT_SIZE) as [|He]; [done|]. by rewrite (endpoint_at_same len a b) by (done || lia).
Qed.

(** ** The loop *)

Lemma walk_loop_ok a len fuel : len < zlen a -> forall cursor cur w,
  walk_ok len w -> current_ok cur w -> 0 <= cursor ->
  exists st w', walk_loop fuel a cursor cur w = Some (st, w') /\ walk_ok len w' /\
    forall b, len < zlen b -> same_bytes len a b -> walk_loop fuel b cursor cur w = Some (st, w').
Proof.
  intros Ha. induction fuel as [|fuel IH]; intros cursor cur w Hw Hc H0; cbn [walk_loop]; [by eexists _, _|].
  pose proof (wo_end _ _ Hw) as He. rewrite He. destruct (Z.ltb_spec cursor len); cbn [negb]; [|by eexists _, _].
  rewrite !(load8_in a) by lia. cbn [mbind option_bind].
  assert (Hb : forall b, len < zlen b -> same_bytes len a b -> load8 b cursor = Some (byte_at a cursor)).
  { intros b Hlb Hb. rewrite (load8_same len a b) by (done || lia). by apply load8_in; lia. }
  destruct (Z.ltb_spec (byte_at a cursor) 2).
  { eexists _, _. split; [done|]. split; [done|]. intros b Hlb Hs. rewrite (Hb b Hlb Hs), (load8_in b) by lia. cbn [mbind option_bind].
    by rewrite (proj2 (Z.ltb_lt _ _)) by done. }
  destruct (Z.gtb_spec (cursor + byte_at a cursor) len).
  { eexists _, _. split; [done|]. split; [done|]. intros b Hlb Hs. rewrite (Hb b Hlb Hs), (load8_in b) by lia. cbn [mbind option_bind].
    rewrite (proj2 (Z.ltb_ge _ _)) by done. by rewrite (proj2 (Z.gtb_lt _ _)) by lia. }
  destruct (walk_descriptor_ok a cursor (byte_at a cursor) (byte_at a (cursor + 1)) cur w len) as (st1 & cur1 & w1 & Ed & Hw1 & Hc1);
    try done; [lia|]. rewrite Ed. cbn [mbind option_bind].
  assert (Hs : forall b, len < zlen b -> same_bytes len a b -> load8 b (cursor + 1) = Some (byte_at a (cursor + 1)) /\
    walk_descriptor b cursor (byte_at a cursor) (byte_at a (cursor + 1)) cur w = Some (st1, cur1, w1)).
  { intros b Hlb Hs. rewrite (load8_same len a b), load8_in by (done || lia). split; [done|]. rewrite <- Ed. apply (walk_descriptor_same a b _ _ _ _ _ len); done || lia. }
  destruct (st1 =? 0) eqn:Est.
  - destruct (IH (cursor + byte_at a cursor) cur1 w1 Hw1 Hc1 ltac:(lia)) as (st & w' & E & Hw' & Hrest). exists st, w'. split; [done|]. split; [done|].
    intros b Hlb Hsb. destruct (Hs b Hlb Hsb) as [-> E2]. rewrite (Hb b Hlb Hsb). cbn [mbind option_bind].
    rewrite (proj2 (Z.ltb_ge _ _)) by done. destruct (Z.gtb_spec (cursor + byte_at a cursor) len); [lia|]. rewrite E2. cbn [mbind option_bind].
    rewrite Est. by apply Hrest.
  - exists st1, w1. split; [done|]. split; [done|]. intros b Hlb Hsb. destruct (Hs b Hlb Hsb) as [-> E2]. rewrite (Hb b Hlb Hsb). cbn [mbind option_bind].
    rewrite (proj2 (Z.ltb_ge _ _)) by done. destruct (Z.gtb_spec (cursor + byte_at a cursor) len); [lia|]. rewrite E2. cbn [mbind option_bind].
    by rewrite Est.
Qed.

Lemma walk_descriptor_end buf cursor dlen type cur w st cur' w' :
  walk_descriptor buf cursor dlen type cur w = Some (st, cur', w') -> w_buffer_end w' = w_buffer_end w.
Proof. unfold walk_descriptor. destruct cur; repeat case_if; try (by intros [= <- <- <-]). destruct (endpoint_at buf cursor); [by intros [= <- <- <-]|done]. Qed.

(** The loop ends: more fuel than bytes gives the same result. *)
Lemma walk_loop_fuel buf f1 : forall f2 cursor cur w,
  Z.of_nat f1 > w_buffer_end w - cursor -> Z.of_nat f2 > w_buffer_end w - cursor -> (0 < f1)%nat -> (0 < f2)%nat ->
  walk_loop f1 buf cursor cur w = walk_loop f2 buf cursor cur w.
Proof.
  induction f1 as [|f1 IH]; intros [|f2] cursor cur w H1 H2 P1 P2; try lia. cbn [walk_loop].
  destruct (Z.ltb_spec cursor (w_buffer_end w)); cbn [negb]; [|done].
  destruct (load8 buf cursor) as [len|]; [cbn [mbind option_bind]|done]. destruct (load8 buf (cursor + 1)) as [type|]; [cbn [mbind option_bind]|done].
  destruct (Z.ltb_spec len 2); [done|]. destruct (Z.gtb_spec (cursor + len) (w_buffer_end w)); [done|].
  destruct (walk_descriptor buf _ _ _ _ _) as [[[st1 cur1] w1]|] eqn:Ed; [cbn [mbind option_bind]|done].
  apply walk_descriptor_end in Ed. case_if; [|done]. apply IH; rewrite ?Ed; lia.
Qed.

(** With one received byte left, the header read goes one byte past them. *)
Lemma last_byte_overread buf cursor cur w fuel :
  zlen buf = w_buffer_end w -> 0 <= cursor -> cursor + 1 = w_buffer_end w -> walk_loop (S fuel) buf cursor cur w = None.
Proof.
  intros Hl H0 Hc. cbn [walk_loop]. destruct (Z.ltb_spec cursor (w_buffer_end w)); [cbn [negb]|lia].
  rewrite (load8_in buf cursor), (load8_out buf (cursor + 1)) by lia. done.
Qed.

(** ** The driver that uses the walk *)

Section Devices.
Context {X : Type}.

Lemma find_endpoint_in l f (e : usb_endpoint_ref) : List.find f l = Some e -> e ∈ l.
Proof.
  induction l as [|x l IH]; cbn; [done|]. destruct (f x); [intros [= ->]; by apply elem_of_cons; left|]. intros Hf. apply elem_of_cons. right. by apply IH.
Qed.

(** The table of devices. *)
Record table_ok (state : usb_hid_state (X := X)) : Prop := {
  tb_size : length (devices state) = Z.to_nat USB_HID_MAX_DEVICES;
  tb_count : 0 <= count state <= USB_HID_MAX_DEVICES }.

Lemma boot_device_ok a len i proto ep (d : option (usb_device X)) :
  len <= zlen a -> 0 <= if_desc i -> if_desc i + 9 <= len -> endpoint_ok len ep ->
  exists dev, boot_device a i proto ep d = Some dev /\ forall b, same_bytes len a b -> boot_device b i proto ep d = Some dev.
Proof.
  intros Ha D0 D1 [E0 E1]. unfold ENDPOINT_SIZE in E1. unfold boot_device. rewrite !(load8_in a) by lia. eexists. split; [done|].
  intros b Hs. by rewrite !(load8_same len a b), !load8_in by (done || lia).
Qed.

Lemma store_device_ok dev (state : usb_hid_state (X := X)) :
  table_ok state -> count state < USB_HID_MAX_DEVICES ->
  exists state', store_device dev state = Some state' /\ table_ok state' /\ count state' = count state + 1.
Proof.
  intros [T1 T2] Hc. unfold store_device. rewrite T1. unfold USB_HID_MAX_DEVICES in *. destruct (Z.ltb_spec (count state) 0); [lia|].
  destruct (Z.geb_spec (count state) (Z.of_nat (Z.to_nat 4))); [lia|]. eexists. split; [done|]. split; [|done].
  split; [cbn; by rewrite length_insert|cbn; unfold USB_HID_MAX_DEVICES; lia].
Qed.

Lemma add_loop_ok a len (d : option (usb_device X)) ifaces : len <= zlen a -> Forall (interface_ok len) ifaces -> forall state added,
  table_ok state ->
  exists added' state', add_loop a ifaces d state added = Some (added', state') /\ table_ok state' /\ count state' - count state = added' - added /\
    forall b, same_bytes len a b -> add_loop b ifaces d state added = Some (added', state').
Proof.
  intros Ha. induction ifaces as [|i ifaces IH]; intros Hok state added Ht; cbn [add_loop].
  { eexists _, _. split_and!; [done|done|lia|done]. }
  apply Forall_cons in Hok as [[[D0 D1] _ Heps _] Hok]. specialize (IH Hok). unfold INTERFACE_SIZE in D1.
  assert (Hb : forall b, same_bytes len a b -> load8 b (if_desc i + 5) = Some (byte_at a (if_desc i + 5)) /\
    load8 b (if_desc i + 7) = Some (byte_at a (if_desc i + 7))).
  { intros b Hs. rewrite !(load8_same len a b), !load8_in by (done || lia). done. }
  rewrite !(load8_in a) by lia. cbn [mbind option_bind].
  assert (Hnext : forall f : list Z -> option (Z * usb_hid_state), (forall b, f b = add_loop b ifaces d state added) ->
    exists added' state', f a = Some (added', state') /\ table_ok state' /\ count state' - count state = added' - added /\
      forall b, same_bytes len a b -> f b = Some (added', state')).
  { intros f Hf. destruct (IH state added Ht) as (ad & st & E & Hrest). exists ad, st. rewrite Hf. split; [done|].
    destruct Hrest as (T & C & B). split; [done|]. split; [done|]. intros b Hs. rewrite Hf. by apply B. }
  destruct (negb (byte_at a (if_desc i + 5) =? USB_CLASS_HID)) eqn:Ec.
  { destruct (Hnext (fun b => add_loop b ifaces d state added)) as (ad & st & E & T & C & B); [done|]. exists ad, st. split_and!; try done.
    intros b Hs. destruct (Hb b Hs) as [-> _]. cbn [mbind option_bind]. rewrite Ec. by apply B. }
  destruct (negb (byte_at a (if_desc i + 7) =? 1) && negb (byte_at a (if_desc i + 7) =? 2)) eqn:Ep.
  { destruct (Hnext (fun b => add_loop b ifaces d state added)) as (ad & st & E & T & C & B); [done|]. exists ad, st. split_and!; try done.
    intros b Hs. destruct (Hb b Hs) as [-> ->]. cbn [mbind option_bind]. rewrite Ec, Ep. by apply B. }
  destruct (usb_find_endpoint_in _ _) as [ep|] eqn:Ee.
  2: { destruct (Hnext (fun b => add_loop b ifaces d state added)) as (ad & st & E & T & C & B); [done|]. exists ad, st. split_and!; try done.
       intros b Hs. destruct (Hb b Hs) as [-> ->]. cbn [mbind option_bind]. rewrite Ec, Ep, Ee. by apply B. }
  destruct (Z.geb_spec (count state) USB_HID_MAX_DEVICES) as [Hfull|Hroom].
  { eexists _, _. split_and!; [done|done|lia|]. intros b Hs. destruct (Hb b Hs) as [-> ->]. cbn [mbind option_bind]. rewrite Ec, Ep, Ee.
    destruct (Z.geb_spec (count state) USB_HID_MAX_DEVICES); [done|lia]. }
  apply find_endpoint_in in Ee as Hin. rewrite Forall_forall in Heps.
  destruct (boot_device_ok a len i (byte_at a (if_desc i + 7)) ep d Ha) as (dev & Ebd & Ebd'); [done|done|by apply Heps|].
  destruct (store_device_ok dev state Ht ltac:(lia)) as (state1 & Est & Ht1 & Hc1).
  rewrite Ebd. cbn [mbind option_bind]. rewrite Est. cbn [mbind option_bind].
  destruct (IH state1 (added + 1) Ht1) as (ad & st & E & T & C & B). exists ad, st. split_and!; try done; [lia|].
  intros b Hs. destruct (Hb b Hs) as [-> ->]. cbn [mbind option_bind]. rewrite Ec, Ep, Ee.
  destruct (Z.geb_spec (count state) USB_HID_MAX_DEVICES); [lia|]. rewrite (Ebd' b Hs). cbn [mbind option_bind].
  rewrite Est. cbn [mbind option_bind]. by apply B.
Qed.

(** C34: the walk over a configuration is safe on any [len] bytes a device may
    send.  In a buffer with one byte more it makes no access outside (the last
    of these reads is one byte past the received ones, see
    [last_byte_overread]), and its result depends on the received bytes only.
    The interfaces, endpoints and class descriptors it finds lie inside them
    with their full size, in tables that do not overflow.  The registration of
    input devices after it reads the received bytes only, and never stores past
    the four slots of the driver's table.  The loop ends: more fuel gives the
    same result. *)
Theorem walk_confined a len out :
  len < zlen a ->
  exists st w, usb_walk_configuration (Some a) len out = Some (st, w) /\
    (forall b, len < zlen b -> same_bytes len a b -> usb_walk_configuration (Some b) len out = Some (st, w)) /\
    (st = 0 -> walk_ok len w /\
      (forall state d, table_ok state -> exists added state', table_ok state' /\ count state' = count state + added /\
         forall b, same_bytes len a b -> usb_hid_add_device state b (Some w) d = Some (added, state')) /\
      forall fuel, Z.of_nat fuel > len -> walk_loop fuel a (byte_at a 0) None (ConfigWalk 0 [] len) = Some (0, w)).
Proof.
  intros Ha. unfold usb_walk_configuration. destruct (Z.ltb_spec len 4); [exists (-1), out; split; [done|split; [done|discriminate]]|].
  assert (Hb : forall b, len < zlen b -> same_bytes len a b -> load8 b 0 = Some (byte_at a 0) /\ load8 b 1 = Some (byte_at a 1)).
  { intros b Hlb Hs. rewrite !(load8_same len a b), !load8_in by (done || lia). done. }
  rewrite !(load8_in a) by lia. cbn [mbind option_bind].
  destruct (Z.ltb_spec (byte_at a 0) 4) as [H4|H4].
  { exists (-1), out. split; [done|]. split; [|discriminate]. intros b Hlb Hs. destruct (Hb b Hlb Hs) as [-> _]. cbn [mbind option_bind].
    by rewrite (proj2 (Z.ltb_lt _ _)). }
  destruct (negb (byte_at a 1 =? USB_DESC_CONFIGURATION)) eqn:Et.
  { exists (-1), out. split; [done|]. split; [|discriminate]. intros b Hlb Hs. destruct (Hb b Hlb Hs) as [-> ->]. cbn [mbind option_bind].
    by rewrite (proj2 (Z.ltb_ge _ _)), Et. }
  destruct (walk_loop_ok a len (S (Z.to_nat len)) Ha (byte_at a 0) None (ConfigWalk 0 [] len)) as (st & w & E & Hw & Hsame); [|by intros c|lia|].
  { split; [done|unfold interface_count, USB_MAX_INTERFACES; cbn; lia|by apply Forall_nil_2]. }
  exists st, w. split; [done|]. split.
  { intros b Hlb Hs. destruct (Hb b Hlb Hs) as [-> ->]. cbn [mbind option_bind]. rewrite (proj2 (Z.ltb_ge _ _)), Et by done. by apply Hsame. }
  intros ->. split; [done|]. split.
  - intros state d Ht. destruct (add_loop_ok a len d (w_interfaces w) ltac:(lia) (wo_interfaces _ _ Hw) state 0 Ht) as (ad & st & _ & T & C & B).
    exists ad, st. split; [done|]. split; [lia|exact B].
  - intros fuel Hf. rewrite <- E. apply walk_loop_fuel; cbn; lia.
Qed.
End Devices.

(** * A boot keyboard *)

Definition keyboard_config : list Z :=
  [9; 2; 34; 0; 1; 1; 0; 0xa0; 50] ++ [9; 4; 0; 0; 1; 3; 1; 1; 0] ++ [9; 0x21; 0x11; 1; 0; 1; 0x22; 63; 0] ++ [7; 5; 0x81; 3; 8; 0; 10].

Definition keyboard_walk : usb_config_walk := ConfigWalk 0 [InterfaceRef 9 [EndpointRef 27 0x81 3 8] (Some 18)] 34.

Lemma walk_confined_witness :
  usb_walk_configuration (Some (keyboard_config ++ [9])) 34 (ConfigWalk 0 [] 0) = Some (0, keyboard_walk) /\ walk_ok 34 keyboard_walk.
Proof.
  destruct (walk_confined (X := unit) (keyboard_config ++ [9]) 34 (ConfigWalk 0 [] 0)) as (st & w & E & _ & Hw); [reflexivity|].
  assert (E' : usb_walk_configuration (Some (keyboard_config ++ [9])) 34 (ConfigWalk 0 [] 0) = Some (0, keyboard_walk)) by reflexivity.
  rewrite E' in E. injection E as <- <-. split; [exact E'|]. exact (proj1 (Hw eq_refl)).
Defined.

(** The configuration with a stray byte behind it, in a buffer of its size. *)
Lemma stray_byte_overread : usb_walk_configuration (Some (keyboard_config ++ [9])) 35 (ConfigWalk 0 [] 0) = None.
Proof. reflexivity. Qed.

(** * A report that is too short *)

(** A controller whose transfers deliver one zero byte. *)
Definition one_byte_host : UsbHost unit unit := {|
  xhci_pci_probe h := (1, h);
  xhci_init h := (0, h);
  max_ports _ := 1;
  xhci_port_reset _ h := (1, h);
  xhci_address_device _ _ h := (0, Some tt, h);
  xhci_control_transfer _ data _ h := (0, data, h);
  xhci_control_transfer_device x _ data _ h := (0, x, data, h);
  xhci_interrupt_in _ _ _ buf h := (1, put 0 0 buf, h);
  xhci_interrupt_in_device x _ _ _ buf h := (1, x, put 0 0 buf, h) |}.

Definition a_keyboard : usb_hid_device (X := unit) := HidDevice 1 1 0 1 10 8 (UsbDevice (Some tt) 1) no_keys 0.

Definition quiet_world : hid_world (H := unit) := HidWorld (Usb None true tt) (Input (replicate 64 (KeyPress 0)) 0 0 0 0 0 ESC_STATE_IDLE 0).

(** The poll does not compare the bytes it got with the size of a report: what
    the stack held becomes a key press. *)
Theorem short_report_reads_stack :
  fst (fst (usb_hid_poll_device (H0 := one_byte_host) (replicate 8 0) a_keyboard quiet_world)) = 0 /\
  fst (fst (usb_hid_poll_device (H0 := one_byte_host) [0; 0; 4; 0; 0; 0; 0; 0] a_keyboard quiet_world)) = 1 /\
  queued (hw_input (snd (usb_hid_poll_device (H0 := one_byte_host) [0; 0; 4; 0; 0; 0; 0; 0] a_keyboard quiet_world))) = [KeyPress 97].
Proof. split_and!; reflexivity. Qed.
