(* ===== verification/Runtime.v ===== *)
(** The runtime service (kernel/irq.c): work that interrupt handlers defer, done
    in passes with budgets and a deadline, and the redraws it splits into
    batches.  The clock is the sequence of values its reads give. *)

From S2P Require Import Prelude.
From S2P Require Import Bytes.
From S2P Require Import Input.
From S2P Require Import Gui.
Open Scope arm.

Definition RUNTIME_INPUT_EVENT_BUDGET : Z := 16.
Definition RUNTIME_NETWORK_FRAME_BUDGET : Z := 16.
Definition RUNTIME_REDRAW_DAMAGE_BUDGET : Z := 8.
Definition RUNTIME_WORK_PERIODIC : Z := 1.
Definition RUNTIME_WORK_INPUT : Z := 2.
Definition RUNTIME_WORK_NETWORK : Z := 4.
Definition RUNTIME_WORK_ALL : Z := 7.
Definition RUNTIME_METRIC_INPUT_CONSUMED : Z := 1.
Definition RUNTIME_METRIC_REDRAW : Z := 2.
Definition RUNTIME_METRIC_NETWORK_FRAMES : Z := 3.
Definition RUNTIME_METRIC_DAMAGE_ITEMS : Z := 5.
Definition RUNTIME_METRIC_FULL_REDRAWS : Z := 6.
Definition RUNTIME_METRIC_REDRAW_EXHAUSTIONS : Z := 7.
Definition RUNTIME_METRIC_COUNT : Z := 8.
Definition RUNTIME_REDRAW_COUNT_MASK : Z := 0x0f.
Definition RUNTIME_REDRAW_FULL : Z := 16.
Definition RUNTIME_REDRAW_SUCCESS : Z := 32.
Definition RUNTIME_REDRAW_EXHAUSTED : Z := 64.
Definition RUNTIME_PHASE_DEADLINE : Z := 8.

(** [g_runtime_phase], [g_runtime_redraw_state] and the fields of
    [g_runtime_stats]; [reads] counts the reads of the clock. *)
Record runtime := Runtime {
  g_runtime_phase : Z;
  g_runtime_redraw_state : Z;
  request_count : Z;
  coalesced_request_count : Z;
  run_count : Z;
  empty_run_count : Z;
  requeue_count : Z;
  last_duration_ticks : Z;
  max_duration_ticks : Z;
  total_duration_ticks : Z;
  over_budget_count : Z;
  input_budget_exhaustion_count : Z;
  network_budget_exhaustion_count : Z;
  counter_frequency_hz : Z;
  budget_ticks : Z;
  metric_total : list Z;
  input_queue_overflow_count : Z;
  metric_last : list Z;
  metric_max : list Z;
  max_input_queue_depth : Z;
  input_queue_high_water : Z;
  pending_work : Z;
  last_work : Z;
  reads : nat }.

Definition set_phase (v0 : Z) (r : runtime) : runtime :=
  Runtime v0 (g_runtime_redraw_state r) (request_count r) (coalesced_request_count r) (run_count r) (empty_run_count r)
    (requeue_count r) (last_duration_ticks r) (max_duration_ticks r) (total_duration_ticks r) (over_budget_count r)
    (input_budget_exhaustion_count r) (network_budget_exhaustion_count r) (counter_frequency_hz r) (budget_ticks r)
    (metric_total r) (input_queue_overflow_count r) (metric_last r) (metric_max r) (max_input_queue_depth r)
    (input_queue_high_water r) (pending_work r) (last_work r) (reads r).
Definition set_redraw (v0 : Z) (r : runtime) : runtime :=
  Runtime (g_runtime_phase r) v0 (request_count r) (coalesced_request_count r) (run_count r) (empty_run_count r)
    (requeue_count r) (last_duration_ticks r) (max_duration_ticks r) (total_duration_ticks r) (over_budget_count r)
    (input_budget_exhaustion_count r) (network_budget_exhaustion_count r) (counter_frequency_hz r) (budget_ticks r)
    (metric_total r) (input_queue_overflow_count r) (metric_last r) (metric_max r) (max_input_queue_depth r)
    (input_queue_high_water r) (pending_work r) (last_work r) (reads r).
Definition set_requests (v0 : Z) (v1 : Z) (r : runtime) : runtime :=
  Runtime (g_runtime_phase r) (g_runtime_redraw_state r) v0 v1 (run_count r) (empty_run_count r) (requeue_count r)
    (last_duration_ticks r) (max_duration_ticks r) (total_duration_ticks r) (over_budget_count r)
    (input_budget_exhaustion_count r) (network_budget_exhaustion_count r) (counter_frequency_hz r) (budget_ticks r)
    (metric_total r) (input_queue_overflow_count r) (metric_last r) (metric_max r) (max_input_queue_depth r)
    (input_queue_high_water r) (pending_work r) (last_work r) (reads r).
Definition set_runs (v0 : Z) (v1 : Z) (v2 : Z) (r : runtime) : runtime :=
  Runtime (g_runtime_phase r) (g_runtime_redraw_state r) (request_count r) (coalesced_request_count r) v0 v1 v2
    (last_duration_ticks r) (max_duration_ticks r) (total_duration_ticks r) (over_budget_count r)
    (input_budget_exhaustion_count r) (network_budget_exhaustion_count r) (counter_frequency_hz r) (budget_ticks r)
    (metric_total r) (input_queue_overflow_count r) (metric_last r) (metric_max r) (max_input_queue_depth r)
    (input_queue_high_water r) (pending_work r) (last_work r) (reads r).
Definition set_durations (v0 : Z) (v1 : Z) (v2 : Z) (r : runtime) : runtime :=
  Runtime (g_runtime_phase r) (g_runtime_redraw_state r) (request_count r) (coalesced_request_count r) (run_count r)
    (empty_run_count r) (requeue_count r) v0 v1 v2 (over_budget_count r) (input_budget_exhaustion_count r)
    (network_budget_exhaustion_count r) (counter_frequency_hz r) (budget_ticks r) (metric_total r)
    (input_queue_overflow_count r) (metric_last r) (metric_max r) (max_input_queue_depth r) (input_queue_high_water r)
    (pending_work r) (last_work r) (reads r).
Definition set_over_budget (v0 : Z) (r : runtime) : runtime :=
  Runtime (g_runtime_phase r) (g_runtime_redraw_state r) (request_count r) (coalesced_request_count r) (run_count r)
    (empty_run_count r) (requeue_count r) (last_duration_ticks r) (max_duration_ticks r) (total_duration_ticks r) v0
    (input_budget_exhaustion_count r) (network_budget_exhaustion_count r) (counter_frequency_hz r) (budget_ticks r)
    (metric_total r) (input_queue_overflow_count r) (metric_last r) (metric_max r) (max_input_queue_depth r)
    (input_queue_high_water r) (pending_work r) (last_work r) (reads r).
Definition set_exhaustions (v0 : Z) (v1 : Z) (r : runtime) : runtime :=
  Runtime (g_runtime_phase r) (g_runtime_redraw_state r) (request_count r) (coalesced_request_count r) (run_count r)
    (empty_run_count r) (requeue_count r) (last_duration_ticks r) (max_duration_ticks r) (total_duration_ticks r)
    (over_budget_count r) v0 v1 (counter_frequency_hz r) (budget_ticks r) (metric_total r) (input_queue_overflow_count r)
    (metric_last r) (metric_max r) (max_input_queue_depth r) (input_queue_high_water r) (pending_work r) (last_work r)
    (reads r).
Definition set_timing (v0 : Z) (v1 : Z) (r : runtime) : runtime :=
  Runtime (g_runtime_phase r) (g_runtime_redraw_state r) (request_count r) (coalesced_request_count r) (run_count r)
    (empty_run_count r) (requeue_count r) (last_duration_ticks r) (max_duration_ticks r) (total_duration_ticks r)
    (over_budget_count r) (input_budget_exhaustion_count r) (network_budget_exhaustion_count r) v0 v1 (metric_total r)
    (input_queue_overflow_count r) (metric_last r) (metric_max r) (max_input_queue_depth r) (input_queue_high_water r)
    (pending_work r) (last_work r) (reads r).
Definition set_metrics (v0 : list Z) (v1 : list Z) (v2 : list Z) (r : runtime) : runtime :=
  Runtime (g_runtime_phase r) (g_runtime_redraw_state r) (request_count r) (coalesced_request_count r) (run_count r)
    (empty_run_count r) (requeue_count r) (last_duration_ticks r) (max_duration_ticks r) (total_duration_ticks r)
    (over_budget_count r) (input_budget_exhaustion_count r) (network_budget_exhaustion_count r) (counter_frequency_hz r)
    (budget_ticks r) v0 (input_queue_overflow_count r) v1 v2 (max_input_queue_depth r) (input_queue_high_water r)
    (pending_work r) (last_work r) (reads r).
Definition set_queue_marks (v0 : Z) (v1 : Z) (v2 : Z) (r : runtime) : runtime :=
  Runtime (g_runtime_phase r) (g_runtime_redraw_state r) (request_count r) (coalesced_request_count r) (run_count r)
    (empty_run_count r) (requeue_count r) (last_duration_ticks r) (max_duration_ticks r) (total_duration_ticks r)
    (over_budget_count r) (input_budget_exhaustion_count r) (network_budget_exhaustion_count r) (counter_frequency_hz r)
    (budget_ticks r) (metric_total r) v0 (metric_last r) (metric_max r) v1 v2 (pending_work r) (last_work r) (reads r).
Definition set_pending_work (v0 : Z) (r : runtime) : runtime :=
  Runtime (g_runtime_phase r) (g_runtime_redraw_state r) (request_count r) (coalesced_request_count r) (run_count r)
    (empty_run_count r) (requeue_count r) (last_duration_ticks r) (max_duration_ticks r) (total_duration_ticks r)
    (over_budget_count r) (input_budget_exhaustion_count r) (network_budget_exhaustion_count r) (counter_frequency_hz r)
    (budget_ticks r) (metric_total r) (input_queue_overflow_count r) (metric_last r) (metric_max r) (max_input_queue_depth r)
    (input_queue_high_water r) v0 (last_work r) (reads r).
Definition set_last_work (v0 : Z) (r : runtime) : runtime :=
  Runtime (g_runtime_phase r) (g_runtime_redraw_state r) (request_count r) (coalesced_request_count r) (run_count r)
    (empty_run_count r) (requeue_count r) (last_duration_ticks r) (max_duration_ticks r) (total_duration_ticks r)
    (over_budget_count r) (input_budget_exhaustion_count r) (network_budget_exhaustion_count r) (counter_frequency_hz r)
    (budget_ticks r) (metric_total r) (input_queue_overflow_count r) (metric_last r) (metric_max r) (max_input_queue_depth r)
    (input_queue_high_water r) (pending_work r) v0 (reads r).
Definition set_reads (v0 : nat) (r : runtime) : runtime :=
  Runtime (g_runtime_phase r) (g_runtime_redraw_state r) (request_count r) (coalesced_request_count r) (run_count r)
    (empty_run_count r) (requeue_count r) (last_duration_ticks r) (max_duration_ticks r) (total_duration_ticks r)
    (over_budget_count r) (input_budget_exhaustion_count r) (network_budget_exhaustion_count r) (counter_frequency_hz r)
    (budget_ticks r) (metric_total r) (input_queue_overflow_count r) (metric_last r) (metric_max r) (max_input_queue_depth r)
    (input_queue_high_water r) (pending_work r) (last_work r) v0.

Section Service.
(** The value of the [n]-th read of the counter. *)
Variable counter : nat -> Z.

Definition read_counter (r : runtime) : Z * runtime := (counter (reads r), set_reads (S (reads r)) r).

Definition runtime_service_reset (r : runtime) : runtime :=
  Runtime 0 0 0 0 0 0 0 0 0 0 0 0 0 (counter_frequency_hz r) (budget_ticks r) (replicate 8 0) 0 (replicate 8 0) (replicate 8 0) 0 0 0 0 (reads r).

Definition runtime_service_configure_timing (frequency budget : Z) (r : runtime) : runtime := set_timing frequency budget r.

Definition runtime_service_deadline (r : runtime) : bool * runtime :=
  if g_runtime_phase r =? RUNTIME_PHASE_DEADLINE then (true, r) else
  let '(now, r) := read_counter r in
  if now <? last_duration_ticks r then (false, r) else
  let r := set_pending_work (Z.lor (pending_work r) (last_work r)) r in
  let r := set_phase RUNTIME_PHASE_DEADLINE r in
  (true, set_over_budget (u64 (over_budget_count r + 1)) r).

Definition runtime_service_report_metric (metric value : Z) (r : runtime) : runtime :=
  if (g_runtime_phase r =? 0) || (metric >=? RUNTIME_METRIC_COUNT) || (value =? 0) then r else
  let current := u32 (byte_at (metric_last r) metric + value) in
  let r := set_metrics (put metric (u64 (byte_at (metric_total r) metric + value)) (metric_total r)) (put metric current (metric_last r))
             (if current >? byte_at (metric_max r) metric then put metric current (metric_max r) else metric_max r) r in
  snd (runtime_service_deadline r).

(** The second result is the desktop [gui_render] is called with, if it is. *)
Definition runtime_service_gui_render (desktop : option gui_desktop) (r : runtime) : runtime * option (option gui_desktop) :=
  let '(late, r) := runtime_service_deadline r in
  if late then (r, None) else
  match desktop with
  | None => (set_redraw 1 r, Some None)
  | Some d =>
      if d_damage_full d then (set_redraw (Z.lor RUNTIME_REDRAW_FULL 1) r, Some (Some d)) else
      let original_count := Z.of_nat (length (d_damage d)) in
      let batch := if original_count >? RUNTIME_REDRAW_DAMAGE_BUDGET then RUNTIME_REDRAW_DAMAGE_BUDGET else original_count in
      let state := if original_count >? batch then Z.lor (batch + 1) RUNTIME_REDRAW_EXHAUSTED else batch + 1 in
      (set_redraw (u8 state) r, Some (Some (set_damage d (take (Z.to_nat batch) (d_damage d)) false)))
  end.

Definition runtime_service_report_redraw (r : runtime) : runtime :=
  let state := g_runtime_redraw_state r in
  let r := runtime_service_report_metric RUNTIME_METRIC_REDRAW 1 r in
  if state =? 0 then r else
  let batch := u32 (Z.land state RUNTIME_REDRAW_COUNT_MASK - 1) in
  let r :=
    if state &? RUNTIME_REDRAW_FULL then runtime_service_report_metric RUNTIME_METRIC_FULL_REDRAWS 1 r else
    let r := runtime_service_report_metric RUNTIME_METRIC_DAMAGE_ITEMS batch r in
    if state &? RUNTIME_REDRAW_EXHAUSTED then runtime_service_report_metric RUNTIME_METRIC_REDRAW_EXHAUSTIONS 1 r else r in
  if negb (g_runtime_redraw_state r =? 0) then set_redraw (Z.lor state RUNTIME_REDRAW_SUCCESS) r else r.

(** The flag says whether [gui_clear_dirty] was called. *)
Definition runtime_service_gui_clear_dirty (desktop : option gui_desktop) (r : runtime) : runtime * option gui_desktop * bool :=
  let state := g_runtime_redraw_state r in
  let r := set_redraw 0 r in
  match desktop with
  | None => (r, None, false)
  | Some d =>
      if negb (state &? RUNTIME_REDRAW_SUCCESS) then (r, desktop, false) else
      let batch := u32 (Z.land state RUNTIME_REDRAW_COUNT_MASK - 1) in
      if (state &? RUNTIME_REDRAW_FULL) || (Z.of_nat (length (d_damage d)) <=? batch) then (r, Some (damage_clear d), true) else
      (r, Some (set_damage d (drop (Z.to_nat batch) (d_damage d)) (d_damage_full d)), false)
  end.

Definition runtime_service_report_input_queue (depth high_water overflow_count : Z) (r : runtime) : runtime :=
  if g_runtime_phase r =? 0 then r else
  set_queue_marks (if overflow_count >? input_queue_overflow_count r then overflow_count else input_queue_overflow_count r)
    (if depth >? max_input_queue_depth r then depth else max_input_queue_depth r)
    (if high_water >? input_queue_high_water r then high_water else input_queue_high_water r) r.

Definition runtime_service_get_stats (r : runtime) : runtime := r.

Definition runtime_service_request (work : Z) (r : runtime) : runtime :=
  let accepted := Z.land work RUNTIME_WORK_ALL in
  if accepted =? 0 then r else
  let pending := pending_work r in
  let r := set_requests (u64 (request_count r + 1))
             (if pending &? accepted then u64 (coalesced_request_count r + 1) else coalesced_request_count r) r in
  set_pending_work (Z.lor pending accepted) r.

(** [input] says which of the two counters is counted up. *)
Definition runtime_service_requeue_budget (work : Z) (input : bool) (r : runtime) : runtime :=
  if Z.land (pending_work r) work =? 0 then
    let r := if input then set_exhaustions (u64 (input_budget_exhaustion_count r + 1)) (network_budget_exhaustion_count r) r
             else set_exhaustions (input_budget_exhaustion_count r) (u64 (network_budget_exhaustion_count r + 1)) r in
    let r := set_requests (u64 (request_count r + 1)) (coalesced_request_count r) r in
    set_pending_work (Z.lor (pending_work r) work) r
  else r.

(** [input_queue_poll] with the reports it ends with. *)
Definition poll_and_report (q : input) (r : runtime) : option input_event * input * runtime :=
  match input_queue_poll q with
  | (None, q') => (None, q', r)
  | (Some e, q') =>
      let r := runtime_service_report_metric RUNTIME_METRIC_INPUT_CONSUMED 1 r in
      (Some e, q', runtime_service_report_input_queue (g_event_count q) (g_event_high_water q) (g_event_overflow_count q) r)
  end.

Definition runtime_service_input_poll (q : input) (r : runtime) : option input_event * input * runtime :=
  if g_runtime_phase r =? 0 then poll_and_report q r else
  if Z.land (g_runtime_phase r) RUNTIME_WORK_INPUT =? 0 then (None, q, r) else
  if byte_at (metric_last r) RUNTIME_METRIC_INPUT_CONSUMED <? RUNTIME_INPUT_EVENT_BUDGET then poll_and_report q r else
  (None, q, if input_queue_available q >? 0 then runtime_service_requeue_budget RUNTIME_WORK_INPUT true r else r).

(** Whether the call goes through to [net_poll]. *)
Definition runtime_service_net_poll (r : runtime) : bool := negb (Z.land (g_runtime_phase r) RUNTIME_WORK_NETWORK =? 0).

(** [len] is what the card gives if it is asked: it reports a frame it delivers. *)
Definition runtime_service_virtio_net_recv (len : Z) (r : runtime) : Z * runtime :=
  if Z.land (g_runtime_phase r) RUNTIME_WORK_NETWORK =? 0 then (0, r) else
  if byte_at (metric_last r) RUNTIME_METRIC_NETWORK_FRAMES >=? RUNTIME_NETWORK_FRAME_BUDGET then
    (0, runtime_service_requeue_budget RUNTIME_WORK_NETWORK false r)
  else (len, if len >? 0 then runtime_service_report_metric RUNTIME_METRIC_NETWORK_FRAMES 1 r else r).

(** ** A pass *)

(** The callbacks, with the rest of the kernel's state. *)
Context {W : Type}.
Variable kernel_on_timer_tick : W -> runtime -> W * runtime.
Variable kernel_io_poll_network : W -> runtime -> W * runtime.

(** What a pass starts with. *)
Definition begin_pass (r : runtime) : runtime :=
  let r := set_last_work (pending_work r) (set_pending_work 0 r) in
  set_metrics (metric_total r) (replicate 8 0) (metric_max r) (set_redraw 0 (set_phase 0 r)).

Definition timer_part (work : Z) (w : W) (r : runtime) : W * runtime :=
  let part := Z.land work (Z.lor RUNTIME_WORK_PERIODIC RUNTIME_WORK_INPUT) in
  if part =? 0 then (w, r) else
  let '(w, r) := kernel_on_timer_tick w (set_phase part r) in
  (w, snd (runtime_service_deadline r)).

Definition network_part (work : Z) (w : W) (r : runtime) : W * runtime :=
  if (Z.land work RUNTIME_WORK_NETWORK =? 0) || (g_runtime_phase r =? RUNTIME_PHASE_DEADLINE) then (w, r) else
  let '(late, r) := runtime_service_deadline (set_phase RUNTIME_WORK_NETWORK r) in
  if late then (w, r) else
  let '(w, r) := kernel_io_poll_network w r in
  (w, snd (runtime_service_deadline r)).

Definition end_pass (started : Z) (r : runtime) : runtime :=
  let '(now, r) := read_counter r in
  let duration := u64 (now - started) in
  let r := set_phase 0 r in
  let r := set_durations duration (if duration >? max_duration_ticks r then duration else max_duration_ticks r)
             (u64 (total_duration_ticks r + duration)) r in
  set_runs (u64 (run_count r + 1)) (empty_run_count r) (if pending_work r =? 0 then requeue_count r else u64 (requeue_count r + 1)) r.

Definition runtime_service_run_pending (w : W) (r : runtime) : Z * W * runtime :=
  let work := pending_work r in
  let r := begin_pass r in
  if work =? 0 then (0, w, set_runs (run_count r) (u64 (empty_run_count r + 1)) (requeue_count r) r) else
  let '(started, r) := read_counter r in
  let r := set_durations (u64 (started + budget_ticks r)) (max_duration_ticks r) (total_duration_ticks r) r in
  let '(w, r) := timer_part work w r in
  let '(w, r) := network_part work w r in
  (work, w, end_pass started r).
End Service.

(** * Interrupt handlers *)

Definition IRQ_HANDLER_SLOTS : Z := 64.

Section Handlers.
(** A handler with its context, and the table of them. *)
Context {F : Type}.

Definition irq_register_handler (irq : Z) (handler : option F) (g_irq_handlers : list (option F)) : Z * list (option F) :=
  if (irq >=? IRQ_HANDLER_SLOTS) || match handler with Some _ => false | None => true end then (-1, g_irq_handlers)
  else (0, <[Z.to_nat irq := handler]> g_irq_handlers).

Definition irq_unregister_handler (irq : Z) (g_irq_handlers : list (option F)) : list (option F) :=
  if irq <? IRQ_HANDLER_SLOTS then <[Z.to_nat irq := None]> g_irq_handlers else g_irq_handlers.
End Handlers.
