(* ===== verification/RuntimeSafety.v ===== *)
(** The runtime service: work is done or kept for the next pass, a pass stays in
    its budgets, and damage is drawn or kept. *)

From S2P Require Import Prelude.
From S2P Require Import Bytes.
From S2P Require Import Input.
From S2P Require Import Gui.
From S2P Require Import Runtime.
Open Scope arm.

(** * Calls of the service *)

(** The classes of work in [a] are all in [b]. *)
Definition work_in (a b : Z) : Prop := forall i, Z.testbit a i = true -> Z.testbit b i = true.

Lemma work_in_refl a : work_in a a.
Proof. by intros i. Qed.
Lemma work_in_trans a b c : work_in a b -> work_in b c -> work_in a c.
Proof. intros H1 H2 i Hi. by apply H2, H1. Qed.
Lemma work_in_lor_l a b : work_in a (Z.lor a b).
Proof. intros i Hi. by rewrite Z.lor_spec, Hi. Qed.
Lemma work_in_lor_r a b : work_in b (Z.lor a b).
Proof. intros i Hi. by rewrite Z.lor_spec, Hi, orb_true_r. Qed.

Section Calls.
Variable counter : nat -> Z.

(** What no call undoes: pending work stays, and a pass that is cut by its
    deadline has all its work pending again. *)
Record later (r r' : runtime) : Prop := {
  lt_pending : work_in (pending_work r) (pending_work r');
  lt_last : last_work r' = last_work r;
  lt_phase : g_runtime_phase r' = g_runtime_phase r \/
    (g_runtime_phase r' = RUNTIME_PHASE_DEADLINE /\ work_in (last_work r') (pending_work r')) }.

Lemma later_refl r : later r r.
Proof. split; [apply work_in_refl|done|by left]. Qed.

Lemma later_trans r1 r2 r3 : later r1 r2 -> later r2 r3 -> later r1 r3.
Proof.
  intros [A1 A2 A3] [B1 B2 B3]. split; [by eapply work_in_trans|congruence|]. destruct B3 as [B3|B3]; [|by right].
  destruct A3 as [A3|[A3 A4]]; [left; congruence|right]. split; [congruence|]. rewrite B2. by eapply work_in_trans.
Qed.

(** Calls that touch none of the three. *)
Lemma later_same r r' :
  pending_work r' = pending_work r -> last_work r' = last_work r -> g_runtime_phase r' = g_runtime_phase r -> later r r'.
Proof. intros E1 E2 E3. split; [rewrite E1; apply work_in_refl|done|by left]. Qed.

Lemma deadline_later r : later r (snd (runtime_service_deadline counter r)).
Proof.
  unfold runtime_service_deadline. case_if; [apply later_refl|]. cbn [read_counter]. case_if; [by apply later_same|].
  split; cbn; [apply work_in_lor_l|done|right; split; [done|apply work_in_lor_r]].
Qed.

Lemma metric_later m v r : later r (runtime_service_report_metric counter m v r).
Proof.
  unfold runtime_service_report_metric. case_if; [apply later_refl|]. eapply later_trans; [|apply deadline_later]. by apply later_same.
Qed.

Lemma request_later work r : later r (runtime_service_request work r).
Proof.
  unfold runtime_service_request. case_if; [apply later_refl|]. split; cbn; [apply work_in_lor_l|done|by left].
Qed.

Lemma requeue_later work b r : later r (runtime_service_requeue_budget work b r).
Proof.
  unfold runtime_service_requeue_budget. case_if; [|apply later_refl]. destruct b; (split; cbn; [apply work_in_lor_l|done|by left]).
Qed.

Lemma queue_later d h o r : later r (runtime_service_report_input_queue d h o r).
Proof. unfold runtime_service_report_input_queue. case_if; [apply later_refl|by apply later_same]. Qed.

Lemma poll_later q r : later r (snd (runtime_service_input_poll counter q r)).
Proof.
  assert (Hp : later r (snd (poll_and_report counter q r))).
  { unfold poll_and_report. destruct (input_queue_poll q) as [[e|] q']; cbn [snd]; [|apply later_refl].
    eapply later_trans; [apply metric_later|apply queue_later]. }
  unfold runtime_service_input_poll. case_if; [done|]. case_if; [apply later_refl|]. case_if; [done|]. cbn [snd].
  case_if; [apply requeue_later|apply later_refl].
Qed.

Lemma recv_later len r : later r (snd (runtime_service_virtio_net_recv counter len r)).
Proof.
  unfold runtime_service_virtio_net_recv. case_if; [apply later_refl|]. case_if; [apply requeue_later|]. cbn [snd].
  case_if; [apply metric_later|apply later_refl].
Qed.

Lemma redraw_later x r : later r (set_redraw x r).
Proof. by apply later_same. Qed.

Lemma render_later d r : later r (fst (runtime_service_gui_render counter d r)).
Proof.
  unfold runtime_service_gui_render. pose proof (deadline_later r) as Hd. destruct (runtime_service_deadline counter r) as [late r1]. cbn [snd] in Hd.
  destruct late; [done|]. destruct d as [d|]; [|eapply later_trans; [exact Hd|apply redraw_later]].
  case_if; (eapply later_trans; [exact Hd|apply redraw_later]).
Qed.

Lemma redrawn_later r : later r (runtime_service_report_redraw counter r).
Proof.
  unfold runtime_service_report_redraw. pose proof (metric_later RUNTIME_METRIC_REDRAW 1 r) as H1.
  set (r1 := runtime_service_report_metric counter RUNTIME_METRIC_REDRAW 1 r) in *. case_if; [done|].
  match goal with |- later _ (if negb (g_runtime_redraw_state ?x =? 0) then _ else _) => assert (H2 : later r1 x) end.
  { case_if; [apply metric_later|]. case_if; [eapply later_trans; apply metric_later|apply metric_later]. }
  case_if; [eapply later_trans; [|apply redraw_later]|]; by eapply later_trans.
Qed.

Lemma clear_later d r : later r (fst (fst (runtime_service_gui_clear_dirty d r))).
Proof. unfold runtime_service_gui_clear_dirty. destruct d; repeat case_if; apply redraw_later. Qed.

(** The calls the rest of the kernel makes while a pass runs, and whether each
    took an input event or a network frame.  The counts of consumed events and
    of frames are reported by the queue and the card only. *)
Inductive call :=
  | CallMetric (metric value : Z)
  | CallRequest (work : Z)
  | CallInput (q : input)
  | CallRecv (len : Z)
  | CallRender (d : option gui_desktop)
  | CallRedrawn
  | CallClear (d : option gui_desktop).

Definition call_ok (c : call) : Prop :=
  match c with CallMetric m _ => 0 <= m /\ m <> RUNTIME_METRIC_INPUT_CONSUMED /\ m <> RUNTIME_METRIC_NETWORK_FRAMES | _ => True end.

(** How many events and frames a call took, and the service after it. *)
Definition run_call (c : call) (r : runtime) : Z * Z * runtime :=
  match c with
  | CallMetric m v => (0, 0, runtime_service_report_metric counter m v r)
  | CallRequest work => (0, 0, runtime_service_request work r)
  | CallInput q =>
      let '(e, _, r) := runtime_service_input_poll counter q r in (match e with Some _ => 1 | None => 0 end, 0, r)
  | CallRecv len => let '(n, r) := runtime_service_virtio_net_recv counter len r in (0, if n >? 0 then 1 else 0, r)
  | CallRender d => (0, 0, fst (runtime_service_gui_render counter d r))
  | CallRedrawn => (0, 0, runtime_service_report_redraw counter r)
  | CallClear d => (0, 0, fst (fst (runtime_service_gui_clear_dirty d r)))
  end.

Fixpoint run_calls (cs : list call) (r : runtime) : Z * Z * runtime :=
  match cs with
  | [] => (0, 0, r)
  | c :: cs =>
      let '(e1, f1, r) := run_call c r in
      let '(e2, f2, r) := run_calls cs r in (e1 + e2, f1 + f2, r)
  end.

Lemma call_later c r : later r (snd (run_call c r)).
Proof.
  destruct c as [m v|work|q|len|d| |d]; cbn [run_call snd].
  - apply metric_later.
  - apply request_later.
  - pose proof (poll_later q r) as Hp. by destruct (runtime_service_input_poll counter q r) as [[e q'] r'].
  - pose proof (recv_later len r) as Hp. by destruct (runtime_service_virtio_net_recv counter len r) as [n r'].
  - apply render_later.
  - apply redrawn_later.
  - apply clear_later.
Qed.

Lemma calls_later cs : forall r, later r (snd (run_calls cs r)).
Proof.
  induction cs as [|c cs IH]; intros r; cbn [run_calls]; [apply later_refl|]. pose proof (call_later c r) as H1.
  destruct (run_call c r) as [[e1 f1] r1]. pose proof (IH r1) as H2. destruct (run_calls cs r1) as [[e2 f2] r2]. by eapply later_trans.
Qed.

(** * Budgets *)

(** In a pass, with these numbers of events and frames taken so far. *)
Record metered (e f : Z) (r : runtime) : Prop := {
  me_phase : g_runtime_phase r <> 0;
  me_length : length (metric_last r) = 8%nat;
  me_events : byte_at (metric_last r) RUNTIME_METRIC_INPUT_CONSUMED = e;
  me_frames : byte_at (metric_last r) RUNTIME_METRIC_NETWORK_FRAMES = f;
  me_range : 0 <= e <= RUNTIME_INPUT_EVENT_BUDGET /\ 0 <= f <= RUNTIME_NETWORK_FRAME_BUDGET }.

Lemma metered_same e f r r' :
  metered e f r -> metric_last r' = metric_last r -> (g_runtime_phase r' = g_runtime_phase r \/ g_runtime_phase r' = RUNTIME_PHASE_DEADLINE) ->
  metered e f r'.
Proof. intros [M1 M2 M3 M4 M5] E Hp. split; rewrite ?E; try done. by destruct Hp as [->| ->]. Qed.

Lemma later_phase r r' : later r r' -> g_runtime_phase r' = g_runtime_phase r \/ g_runtime_phase r' = RUNTIME_PHASE_DEADLINE.
Proof. intros [_ _ [E|[E _]]]; [by left|by right]. Qed.

Lemma deadline_metrics r : metric_last (snd (runtime_service_deadline counter r)) = metric_last r.
Proof. unfold runtime_service_deadline. case_if; [done|]. cbn [read_counter]. by case_if. Qed.

Lemma metric_last_report m v r :
  metric_last (runtime_service_report_metric counter m v r) = metric_last r \/
  (g_runtime_phase r <> 0 /\ m < 8 /\
   metric_last (runtime_service_report_metric counter m v r) = put m (u32 (byte_at (metric_last r) m + v)) (metric_last r)).
Proof.
  unfold runtime_service_report_metric. destruct (Z.eqb_spec (g_runtime_phase r) 0); cbn [orb]; [by left|]. rewrite Z.geb_leb.
  destruct (Z.leb_spec RUNTIME_METRIC_COUNT m); cbn [orb]; [by left|]. destruct (v =? 0); [by left|]. right. split; [done|].
  split; [done|]. by rewrite deadline_metrics.
Qed.

(** Reporting another metric. *)
Lemma metered_other e f m v r :
  metered e f r -> 0 <= m -> m <> RUNTIME_METRIC_INPUT_CONSUMED -> m <> RUNTIME_METRIC_NETWORK_FRAMES ->
  metered e f (runtime_service_report_metric counter m v r).
Proof.
  intros Hm H0 H1 H3. pose proof (later_phase _ _ (metric_later m v r)) as Hp. destruct (metric_last_report m v r) as [E|(Hph & Hm8 & E)].
  - by eapply metered_same.
  - destruct Hm as [M1 M2 M3 M4 M5]. unfold RUNTIME_METRIC_INPUT_CONSUMED, RUNTIME_METRIC_NETWORK_FRAMES in *.
    split; rewrite ?E, ?put_length; try done; [by destruct Hp as [->| ->]|..];
      unfold RUNTIME_METRIC_INPUT_CONSUMED, RUNTIME_METRIC_NETWORK_FRAMES; rewrite byte_at_put by lia; (destruct (Z.eqb_spec 1 m), (Z.eqb_spec 3 m)); done || lia.
Qed.

(** Reporting one event, or one frame, below the budget. *)
Lemma metered_event e f r :
  metered e f r -> e < RUNTIME_INPUT_EVENT_BUDGET -> metered (e + 1) f (runtime_service_report_metric counter RUNTIME_METRIC_INPUT_CONSUMED 1 r).
Proof.
  intros [M1 M2 M3 M4 M5] He. unfold RUNTIME_INPUT_EVENT_BUDGET, RUNTIME_NETWORK_FRAME_BUDGET in *.
  assert (E : metric_last (runtime_service_report_metric counter RUNTIME_METRIC_INPUT_CONSUMED 1 r) = put 1 (u32 (e + 1)) (metric_last r)).
  { unfold runtime_service_report_metric. destruct (Z.eqb_spec (g_runtime_phase r) 0); [done|]. cbn [orb].
    change (RUNTIME_METRIC_INPUT_CONSUMED >=? RUNTIME_METRIC_COUNT) with false. cbn [orb Z.eqb]. rewrite deadline_metrics, M3. done. }
  pose proof (later_phase _ _ (metric_later RUNTIME_METRIC_INPUT_CONSUMED 1 r)) as Hp. rewrite u32_id in E by lia.
  split; rewrite ?E, ?put_length; try done; [by destruct Hp as [->| ->]|..|unfold RUNTIME_INPUT_EVENT_BUDGET, RUNTIME_NETWORK_FRAME_BUDGET; lia];
    unfold RUNTIME_METRIC_INPUT_CONSUMED, RUNTIME_METRIC_NETWORK_FRAMES in *; rewrite byte_at_put by lia; done.
Qed.

Lemma metered_frame e f r :
  metered e f r -> f < RUNTIME_NETWORK_FRAME_BUDGET -> metered e (f + 1) (runtime_service_report_metric counter RUNTIME_METRIC_NETWORK_FRAMES 1 r).
Proof.
  intros [M1 M2 M3 M4 M5] He. unfold RUNTIME_INPUT_EVENT_BUDGET, RUNTIME_NETWORK_FRAME_BUDGET in *.
  assert (E : metric_last (runtime_service_report_metric counter RUNTIME_METRIC_NETWORK_FRAMES 1 r) = put 3 (u32 (f + 1)) (metric_last r)).
  { unfold runtime_service_report_metric. destruct (Z.eqb_spec (g_runtime_phase r) 0); [done|]. cbn [orb].
    change (RUNTIME_METRIC_NETWORK_FRAMES >=? RUNTIME_METRIC_COUNT) with false. cbn [orb Z.eqb]. rewrite deadline_metrics, M4. done. }
  pose proof (later_phase _ _ (metric_later RUNTIME_METRIC_NETWORK_FRAMES 1 r)) as Hp. rewrite u32_id in E by lia.
  split; rewrite ?E, ?put_length; try done; [by destruct Hp as [->| ->]|..|unfold RUNTIME_INPUT_EVENT_BUDGET, RUNTIME_NETWORK_FRAME_BUDGET; lia];
    unfold RUNTIME_METRIC_INPUT_CONSUMED, RUNTIME_METRIC_NETWORK_FRAMES in *; rewrite byte_at_put by lia; done.
Qed.

Lemma metered_redrawn e f r : metered e f r -> metered e f (runtime_service_report_redraw counter r).
Proof.
  intros Hm. unfold runtime_service_report_redraw. assert (O : forall m v r', metered e f r' -> 0 <= m -> m <> 1 -> m <> 3 ->
    metered e f (runtime_service_report_metric counter m v r')) by (intros; by apply metered_other).
  assert (H1 : metered e f (runtime_service_report_metric counter RUNTIME_METRIC_REDRAW 1 r)) by (by apply O).
  case_if; [done|]. match goal with |- metered _ _ (if negb (g_runtime_redraw_state ?x =? 0) then _ else _) => assert (H2 : metered e f x) end.
  { case_if; [by apply O|]. case_if; repeat apply O; done. }
  case_if; [|done]. eapply metered_same; [exact H2|done|by left].
Qed.

Lemma requeue_metrics work b r : metric_last (runtime_service_requeue_budget work b r) = metric_last r.
Proof. unfold runtime_service_requeue_budget. case_if; [|done]. by destruct b. Qed.

Lemma call_metered c r e f :
  metered e f r -> call_ok c -> let '(de, df, r') := run_call c r in metered (e + de) (f + df) r'.
Proof.
  intros Hm Hc. pose proof (later_phase _ _ (call_later c r)) as Hp. destruct c as [m v|work|q|len|d| |d]; cbn [run_call] in *; rewrite ?Z.add_0_r.
  - destruct Hc as (H0 & H1 & H3). by apply metered_other.
  - eapply metered_same; [exact Hm| |exact Hp]. unfold runtime_service_request. by case_if.
  - unfold runtime_service_input_poll in *. destruct (Z.eqb_spec (g_runtime_phase r) 0) as [E|_]; [by destruct (me_phase _ _ _ Hm)|].
    case_if; [by rewrite !Z.add_0_r|]. rewrite (me_events _ _ _ Hm) in *. destruct (Z.ltb_spec e RUNTIME_INPUT_EVENT_BUDGET) as [Hlt|Hge].
    + unfold poll_and_report in *. destruct (input_queue_poll q) as [[ev|] q']; rewrite !Z.add_0_r; [|done].
      pose proof (metered_event e f r Hm Hlt) as H1. eapply metered_same; [exact H1| |].
      * unfold runtime_service_report_input_queue. by case_if.
      * apply later_phase, queue_later.
    + rewrite !Z.add_0_r. eapply metered_same; [exact Hm| |exact Hp]. cbn [snd]. case_if; [apply requeue_metrics|done].
  - unfold runtime_service_virtio_net_recv in *. case_if; [by rewrite !Z.add_0_r|]. rewrite (me_frames _ _ _ Hm) in *. rewrite Z.geb_leb in *.
    destruct (Z.leb_spec RUNTIME_NETWORK_FRAME_BUDGET f) as [Hge|Hlt].
    + change (0 >? 0) with false. cbn iota. rewrite !Z.add_0_r. eapply metered_same; [exact Hm|apply requeue_metrics|exact Hp].
    + rewrite Z.add_0_r. destruct (len >? 0); [by apply metered_frame|by rewrite Z.add_0_r].
  - eapply metered_same; [exact Hm| |exact Hp]. unfold runtime_service_gui_render. pose proof (deadline_metrics r) as E.
    destruct (runtime_service_deadline counter r) as [late r1]. cbn [snd] in E. destruct late; [done|]. destruct d; [|done]. by case_if.
  - by apply metered_redrawn.
  - eapply metered_same; [exact Hm| |exact Hp]. unfold runtime_service_gui_clear_dirty. destruct d; by repeat case_if.
Qed.

(** In one pass of the service, however often the kernel asks, at most
    sixteen input events are taken from the queue and at most sixteen frames
    from the network card. *)
Theorem pass_budgets cs r :
  metered 0 0 r -> Forall call_ok cs ->
  let '(events, frames, r') := run_calls cs r in
  0 <= events <= RUNTIME_INPUT_EVENT_BUDGET /\ 0 <= frames <= RUNTIME_NETWORK_FRAME_BUDGET /\ metered events frames r'.
Proof.
  intros Hm Hc. enough (Hg : forall cs r e f, metered e f r -> Forall call_ok cs ->
    let '(de, df, r') := run_calls cs r in metered (e + de) (f + df) r').
  { specialize (Hg cs r 0 0 Hm Hc). destruct (run_calls cs r) as [[e f] r']. rewrite !Z.add_0_l in Hg.
    destruct (me_range _ _ _ Hg) as [R1 R2]. split; [exact R1|]. split; [exact R2|exact Hg]. }
  clear. induction cs as [|c cs IH]; intros r e f Hm Hc; cbn [run_calls]; [by rewrite !Z.add_0_r|]. apply Forall_cons in Hc as [Hc Hcs].
  pose proof (call_metered c r e f Hm Hc) as H1. destruct (run_call c r) as [[e1 f1] r1]. pose proof (IH r1 _ _ H1 Hcs) as H2.
  destruct (run_calls cs r1) as [[e2 f2] r2]. by rewrite !Z.add_assoc.
Qed.

(** * A pass *)

Section Pass.
Context {W : Type}.
Variable kernel_on_timer_tick : W -> runtime -> W * runtime.
Variable kernel_io_poll_network : W -> runtime -> W * runtime.

(** The callbacks reach the service through its calls only. *)
Hypothesis tick_calls : forall w r, exists cs, snd (kernel_on_timer_tick w r) = snd (run_calls cs r).
Hypothesis network_calls : forall w r, exists cs, snd (kernel_io_poll_network w r) = snd (run_calls cs r).

Definition timer_work (work : Z) : Z := Z.land work (Z.lor RUNTIME_WORK_PERIODIC RUNTIME_WORK_INPUT).

(** What a pass does that is not cut: each callback whose work is there runs,
    in its phase. *)
Definition callbacks_run (work : Z) (r1 r2 : runtime) (w : W) : W :=
  let w1 := if timer_work work =? 0 then w else fst (kernel_on_timer_tick w r1) in
  if Z.land work RUNTIME_WORK_NETWORK =? 0 then w1 else fst (kernel_io_poll_network w1 r2).

Lemma timer_work_small work : timer_work work <> RUNTIME_PHASE_DEADLINE.
Proof.
  intros E. apply (f_equal (fun z => Z.testbit z 3)) in E. unfold timer_work in E. rewrite Z.land_spec in E.
  change (Z.testbit (Z.lor RUNTIME_WORK_PERIODIC RUNTIME_WORK_INPUT) 3) with false in E. by rewrite andb_false_r in E.
Qed.

Lemma deadline_answer r :
  g_runtime_phase r <> RUNTIME_PHASE_DEADLINE ->
  if fst (runtime_service_deadline counter r) then g_runtime_phase (snd (runtime_service_deadline counter r)) = RUNTIME_PHASE_DEADLINE
  else g_runtime_phase (snd (runtime_service_deadline counter r)) = g_runtime_phase r.
Proof.
  intros Hn. unfold runtime_service_deadline. destruct (Z.eqb_spec (g_runtime_phase r) RUNTIME_PHASE_DEADLINE); [done|].
  unfold read_counter. by destruct (_ <? _).
Qed.

(** The first part: the callback ran, and either the pass is cut with its work
    pending, or it goes on in its phase. *)
Lemma timer_part_keeps work w r w1 r1 :
  g_runtime_phase r = 0 -> last_work r = work -> timer_part counter kernel_on_timer_tick work w r = (w1, r1) ->
  last_work r1 = work /\ (exists ra, (timer_work work <> 0 -> g_runtime_phase ra = timer_work work) /\
    w1 = (if timer_work work =? 0 then w else fst (kernel_on_timer_tick w ra))) /\
  (g_runtime_phase r1 = RUNTIME_PHASE_DEADLINE -> work_in work (pending_work r1)).
Proof.
  intros Hp Hl E. unfold timer_part in E. fold (timer_work work) in E. destruct (Z.eqb_spec (timer_work work) 0) as [E0|N0].
  { injection E as <- <-. split; [done|]. split; [by exists r|]. rewrite Hp. done. }
  set (ra := set_phase (timer_work work) r) in *. destruct (tick_calls w ra) as [cs Ecs].
  destruct (kernel_on_timer_tick w ra) as [w2 r2] eqn:Et. cbn [snd] in Ecs. injection E as <- <-. subst r2.
  assert (HL : later ra (snd (runtime_service_deadline counter (snd (run_calls cs ra)))))
    by (eapply later_trans; [apply calls_later|apply deadline_later]).
  destruct HL as [_ L2 L3]. split; [by rewrite L2|]. split; [exists ra; by rewrite Et|]. intros Hd.
  destruct L3 as [L3|[_ L4]]; [rewrite L3 in Hd; by destruct (timer_work_small work)|].
  rewrite L2 in L4. change (last_work ra) with (last_work r) in L4. by rewrite Hl in L4.
Qed.

(** C35: no deferred work is lost.  A pass takes the work that was pending; at its
    end either all of that work is pending again, because the deadline cut the
    pass, or every callback whose work was there has run, the timer's in the
    phase of its work and the network's in its own; and the service is idle
    again. *)
Theorem pass_keeps_work w r work w' r' :
  runtime_service_run_pending counter kernel_on_timer_tick kernel_io_poll_network w r = (work, w', r') ->
  work = pending_work r /\ g_runtime_phase r' = 0 /\ last_work r' = work /\
  (work_in work (pending_work r') \/
   exists r1 r2, (timer_work work <> 0 -> g_runtime_phase r1 = timer_work work) /\ g_runtime_phase r2 = RUNTIME_WORK_NETWORK /\
     w' = callbacks_run work r1 r2 w).
Proof.
  intros E. unfold runtime_service_run_pending in E. destruct (Z.eqb_spec (pending_work r) 0) as [E0|N0].
  { injection E as <- <- <-. cbn. rewrite E0. split_and!; try done. left. intros i. by rewrite Z.bits_0. }
  cbn [read_counter] in E. set (started := counter _) in E. set (r0 := set_durations _ _ _ _) in E.
  destruct (timer_part _ _ _ _ _) as [w1 r1] eqn:Et. destruct (timer_part_keeps (pending_work r) w r0 w1 r1 eq_refl eq_refl Et) as (Hl1 & Hw1 & Hd1).
  destruct Hw1 as (ra & Hra & Hw1). destruct (network_part _ _ _ _ _) as [w2 r2] eqn:En. injection E as <- <- <-.
  assert (Eend : forall x, pending_work (end_pass counter started x) = pending_work x /\ g_runtime_phase (end_pass counter started x) = 0 /\
    last_work (end_pass counter started x) = last_work x) by done. destruct (Eend r2) as (-> & -> & ->). split; [done|]. split; [done|].
  unfold network_part in En. destruct (Z.eqb_spec (Z.land (pending_work r) RUNTIME_WORK_NETWORK) 0) as [Ez|Nz]; cbn [orb] in En.
  { injection En as <- <-. split; [done|]. right. exists ra, (set_phase RUNTIME_WORK_NETWORK r0). split; [done|]. split; [done|].
    unfold callbacks_run. rewrite Ez. exact Hw1. }
  destruct (Z.eqb_spec (g_runtime_phase r1) RUNTIME_PHASE_DEADLINE) as [Ed|Nd].
  { injection En as <- <-. split; [done|]. left. by apply Hd1. }
  set (rb := set_phase RUNTIME_WORK_NETWORK r1) in *. pose proof (deadline_later rb) as HL. pose proof (deadline_answer rb ltac:(done)) as HA.
  destruct (runtime_service_deadline counter rb) as [late rc]. cbn [fst snd] in HL, HA. destruct late.
  { injection En as <- <-. destruct HL as [_ L2 [L3|[_ L4]]]; [by rewrite L3 in HA|]. split; [by rewrite L2|]. left. by rewrite L2 in L4; rewrite <- Hl1. }
  destruct (network_calls w1 rc) as [cs Ecs]. destruct (kernel_io_poll_network w1 rc) as [w3 r3] eqn:Ek. cbn [snd] in Ecs. injection En as <- <-. subst r3.
  split.
  - rewrite (lt_last _ _ (later_trans _ _ _ (calls_later cs rc) (deadline_later _))), (lt_last _ _ HL). done.
  - right. exists ra, rc. split; [done|]. split; [done|]. unfold callbacks_run. apply Z.eqb_neq in Nz. rewrite Nz, <- Hw1, Ek. done.
Qed.
End Pass.

(** * Redraws *)

(** [flush_dirty_redraw] of kernel.c over [board_display_redraw], for a transfer
    that succeeds or fails: the desktop the compositor saw, and the one after. *)
Definition flush_dirty_redraw (ok : bool) (d : gui_desktop) (r : runtime) : runtime * option gui_desktop * option (option gui_desktop) :=
  let '(r, seen) := runtime_service_gui_render counter (Some d) r in
  let r := if ok then runtime_service_report_redraw counter r else r in
  let '(r, d', _) := runtime_service_gui_clear_dirty (Some d) r in (r, d', seen).

Lemma deadline_redraw r : g_runtime_redraw_state (snd (runtime_service_deadline counter r)) = g_runtime_redraw_state r.
Proof. unfold runtime_service_deadline. case_if; [done|]. cbn [read_counter]. by case_if. Qed.

Lemma metric_redraw m v r : g_runtime_redraw_state (runtime_service_report_metric counter m v r) = g_runtime_redraw_state r.
Proof. unfold runtime_service_report_metric. case_if; [done|]. by rewrite deadline_redraw. Qed.

Lemma report_redraw_state r :
  g_runtime_redraw_state (runtime_service_report_redraw counter r) =
    if g_runtime_redraw_state r =? 0 then 0 else Z.lor (g_runtime_redraw_state r) RUNTIME_REDRAW_SUCCESS.
Proof.
  unfold runtime_service_report_redraw. destruct (Z.eqb_spec (g_runtime_redraw_state r) 0) as [E|N]; [by rewrite metric_redraw|].
  match goal with |- g_runtime_redraw_state (if negb (g_runtime_redraw_state ?x =? 0) then _ else _) = _ =>
    assert (Ex : g_runtime_redraw_state x = g_runtime_redraw_state r) by (repeat case_if; by rewrite !metric_redraw) end.
  rewrite Ex. apply Z.eqb_neq in N. by rewrite N.
Qed.

(** The state of a redraw of [n] pending rectangles, and what the end of it finds. *)
Lemma batch_state n :
  0 <= n ->
  let batch := if n >? 8 then 8 else n in
  let state := u8 (if n >? batch then Z.lor (batch + 1) 64 else batch + 1) in
  state <> 0 /\ (Z.land state 32 =? 0) = true /\ (Z.land (Z.lor state 32) 32 =? 0) = false /\ (Z.land (Z.lor state 32) 16 =? 0) = true /\
  u32 (Z.land (Z.lor state 32) 15 - 1) = batch.
Proof.
  intros Hn. cbv zeta. destruct (Z.gtb_spec n 8) as [H8|H8].
  - destruct (Z.gtb_spec n 8); [done|lia].
  - destruct (Z.gtb_spec n n); [lia|].
    assert (n = 0 \/ n = 1 \/ n = 2 \/ n = 3 \/ n = 4 \/ n = 5 \/ n = 6 \/ n = 7 \/ n = 8) as Hc by lia. clear -Hc.
    destruct Hc as [->|[->|[->|[->|[->|[->|[->|[->| ->]]]]]]]]; done.
Qed.

(** No damage is forgotten.  A redraw of a desktop with pending rectangles
    shows the compositor the first eight of them; when the display took the
    picture exactly those are gone, and when it did not, or the deadline kept the
    picture from being drawn, all are still there. *)
Theorem redraw_keeps_damage ok d r :
  d_damage_full d = false -> g_runtime_redraw_state r = 0 ->
  let '(r', d', seen) := flush_dirty_redraw ok d r in
  g_runtime_redraw_state r' = 0 /\
  match seen with
  | Some (Some shown) => d_damage shown = take 8 (d_damage d) /\
      d' = Some (if ok then set_damage d (drop 8 (d_damage d)) false else d)
  | Some None => False
  | None => d' = Some d
  end.
Proof.
  intros Hfull H0. unfold flush_dirty_redraw, runtime_service_gui_render. pose proof (deadline_redraw r) as Hr.
  destruct (runtime_service_deadline counter r) as [late r1]. cbn [snd] in Hr. destruct late.
  { unfold runtime_service_gui_clear_dirty. destruct ok; rewrite ?report_redraw_state, Hr, H0; done. }
  rewrite Hfull. unfold RUNTIME_REDRAW_DAMAGE_BUDGET, RUNTIME_REDRAW_EXHAUSTED. set (n := Z.of_nat (length (d_damage d))).
  destruct (batch_state n ltac:(lia)) as (S1 & S2 & S3 & S4 & S5). set (batch := if n >? 8 then 8 else n) in *.
  set (state := u8 (if n >? batch then _ else _)) in *. cbv zeta. unfold runtime_service_gui_clear_dirty.
  assert (Etake : take (Z.to_nat batch) (d_damage d) = take 8 (d_damage d)).
  { unfold batch. destruct (Z.gtb_spec n 8); [done|]. rewrite !take_ge by (unfold n in *; lia). done. }
  destruct ok.
  - rewrite report_redraw_state. cbn [set_redraw g_runtime_redraw_state]. apply Z.eqb_neq in S1. rewrite S1.
    unfold has_bits, RUNTIME_REDRAW_SUCCESS, RUNTIME_REDRAW_FULL, RUNTIME_REDRAW_COUNT_MASK. rewrite S3, S4, S5. cbn [negb orb]. fold n.
    destruct (Z.leb_spec n batch) as [Hle|Hgt]; (split; [done|]); (split; [exact Etake|]); f_equal.
    + unfold damage_clear. rewrite drop_ge; [done|]. unfold batch, n in *. destruct (Z.gtb_spec (Z.of_nat (length (d_damage d))) 8); lia.
    + rewrite Hfull. unfold batch in *. destruct (Z.gtb_spec n 8); [done|lia].
  - cbn [set_redraw g_runtime_redraw_state]. unfold has_bits, RUNTIME_REDRAW_SUCCESS. rewrite S2. done.
Qed.
End Calls.

(** * A pass with all three kinds of work *)

Definition no_marks (pending : Z) : runtime :=
  Runtime 0 0 0 0 0 0 0 0 0 0 0 0 0 62500000 100 (replicate 8 0) 0 (replicate 8 0) (replicate 8 0) 0 0 pending 0 0.

(** A clock that counts, and callbacks that count themselves and ask for input work. *)
Definition ticking (n : nat) : Z := 10 * Z.of_nat n.

Definition counting_tick (w : Z * Z) (r : runtime) : (Z * Z) * runtime := ((fst w + 1, snd w), snd (run_calls ticking [CallRequest 2] r)).
Definition counting_network (w : Z * Z) (r : runtime) : (Z * Z) * runtime := ((fst w, snd w + 1), snd (run_calls ticking [CallRecv 60; CallRecv 0] r)).

Lemma pass_keeps_work_witness :
  let '(work, w', r') := runtime_service_run_pending ticking counting_tick counting_network (0, 0) (no_marks 7) in
  w' = (1, 1) /\ pending_work r' = 2 /\ work = 7 /\ g_runtime_phase r' = 0.
Proof.
  destruct (runtime_service_run_pending ticking counting_tick counting_network (0, 0) (no_marks 7)) as [[work w'] r'] eqn:E.
  pose proof E as E1. vm_compute in E1. injection E1 as <- <- <-. split; [reflexivity|]. split; [reflexivity|].
  destruct (pass_keeps_work ticking counting_tick counting_network (fun _ _ => ex_intro _ _ eq_refl) (fun _ _ => ex_intro _ _ eq_refl)
    _ _ _ _ _ E) as (H1 & H2 & _). split; [exact H1|exact H2].
Defined.

(** Twenty frames are waiting: sixteen are taken. *)
Lemma pass_budgets_witness :
  fst (run_calls ticking (replicate 20 (CallRecv 60)) (set_durations 1000 0 0 (set_phase 4 (no_marks 0)))) = (0, 16) /\
  0 <= snd (fst (run_calls ticking (replicate 20 (CallRecv 60)) (set_durations 1000 0 0 (set_phase 4 (no_marks 0))))) <= 16.
Proof.
  split; [reflexivity|].
  pose proof (pass_budgets ticking (replicate 20 (CallRecv 60)) (set_durations 1000 0 0 (set_phase 4 (no_marks 0)))) as HB.
  destruct (run_calls _ _ _) as [[e f] r']. apply HB; [|apply Forall_replicate; exact I].
  split; try reflexivity; [discriminate|]. unfold RUNTIME_INPUT_EVENT_BUDGET, RUNTIME_NETWORK_FRAME_BUDGET. lia.
Defined.

(** Ten rectangles: two are left. *)
Definition ten_rects (d : gui_desktop) : gui_desktop := set_damage d (replicate 10 (DamageRect 0 0 1 1)) false.

Lemma redraw_keeps_damage_witness :
  let d := ten_rects (Desktop None 0 0 0 0 0 0 [] (Cursor 0 0 0 0 0 false 0) [] false) in
  let '(r', d', seen) := flush_dirty_redraw ticking true d (set_durations 1000 0 0 (set_phase 1 (no_marks 0))) in
  d' = Some (set_damage d (replicate 2 (DamageRect 0 0 1 1)) false) /\ g_runtime_redraw_state r' = 0.
Proof.
  cbv zeta.
  pose proof (redraw_keeps_damage ticking true (ten_rects (Desktop None 0 0 0 0 0 0 [] (Cursor 0 0 0 0 0 false 0) [] false))
    (set_durations 1000 0 0 (set_phase 1 (no_marks 0))) eq_refl eq_refl) as HR.
  destruct (flush_dirty_redraw _ _ _ _) as [[r' d'] seen] eqn:E. vm_compute in E. injection E as <- <- <-.
  split; [reflexivity|]. exact (proj1 HR).
Defined.
