(* ===== verification/BootStatus.v ===== *)
(** Boot bookkeeping: the status of each initialisation phase with its packed
    table of names (kernel/init_status.c), and the retries of the first program
    (kernel/panel_boot_recovery.c). *)

From Stdlib Require Import String Ascii.
From S2P Require Import Prelude.
From S2P Require Import Bytes.
From S2P Require Import UserImage.
Open Scope arm.

(** * Phases *)

Definition INIT_PHASE_COUNT : Z := 14.
Definition INIT_STATUS_SKIPPED : Z := 0.
Definition INIT_STATUS_OK : Z := 1.
Definition INIT_STATUS_WARN : Z := 2.
Definition INIT_STATUS_FAIL : Z := 3.

(** The names, in the order of the phases. *)
Definition phase_names : list (list Z) :=
  [chars "board"%string; chars "dtb"%string; chars "pmm"%string; chars "kheap"%string; chars "vmm"%string; chars "console"%string;
   chars "vfs"%string; chars "irq/timer"%string; chars "storage"%string; chars "display"%string; chars "network"%string;
   chars "input"%string; chars "panel"%string; chars "sched"%string].

(** [INIT_STATUS_NAME_OFFSET_...]: each is the one before plus the size of its literal. *)
Fixpoint offsets_from (o : Z) (names : list (list Z)) : list Z :=
  match names with [] => [] | n :: names => o :: offsets_from (o + Z.of_nat (length n) + 1) names end.

Definition g_init_status_name_offsets : list Z := offsets_from 0 phase_names.

Definition g_init_status_names : list Z := concat (map (fun n => n ++ [0]) phase_names).

(** [g_init_status_values] *)
Definition init_status_reset (values : list Z) : list Z := fill_bytes values 0 INIT_PHASE_COUNT INIT_STATUS_SKIPPED.

Definition init_status_set (phase status : Z) (values : list Z) : list Z :=
  if u32 phase >=? INIT_PHASE_COUNT then values else put phase (u8 status) values.

Definition init_status_get (phase : Z) (values : list Z) : Z :=
  if u32 phase >=? INIT_PHASE_COUNT then INIT_STATUS_FAIL else byte_at values phase.

(** The name, as the string at its offset, and the status. *)
Definition init_status_at (index : Z) (values : list Z) : option (list Z * Z) :=
  if index >=? INIT_PHASE_COUNT then None else
  Some (str_cut (drop (Z.to_nat (byte_at g_init_status_name_offsets index)) g_init_status_names), byte_at values index).

Definition init_status_count : Z := INIT_PHASE_COUNT.

Definition init_status_label (status : Z) : list Z :=
  if status =? INIT_STATUS_OK then chars "OK"%string else if status =? INIT_STATUS_WARN then chars "WARN"%string else
  if status =? INIT_STATUS_FAIL then chars "FAIL"%string else chars "SKIPPED"%string.

Lemma put_bytes_other phase p status values :
  length values = 14%nat -> 0 <= phase < 14 -> 0 <= p < 14 -> byte_at (put phase status values) p = if p =? phase then status else byte_at values p.
Proof. intros Hl H1 H2. by rewrite byte_at_put by lia. Qed.

(** Every phase has its own name at its offset of the packed table, and the
    status that was last set; setting one phase changes no other. *)
Theorem phases_reported values phase p status :
  length values = 14%nat -> 0 <= phase < 14 -> 0 <= p < 14 -> 0 <= status < 256 ->
  init_status_at p (init_status_set phase status values) =
    Some (default [] (phase_names !! Z.to_nat p), if p =? phase then status else init_status_get p values) /\
  init_status_get p (init_status_set phase status values) = (if p =? phase then status else init_status_get p values).
Proof.
  intros Hl Hph Hp Hs. unfold init_status_at, init_status_set, init_status_get, INIT_PHASE_COUNT. rewrite !Z.geb_leb, !u32_id by lia.
  rewrite (proj2 (Z.leb_gt 14 phase)), (proj2 (Z.leb_gt 14 p)) by lia. rewrite put_bytes_other by done.
  rewrite (u8_id status) by lia. split; [|done]. do 2 f_equal.
  assert (p = 0 \/ p = 1 \/ p = 2 \/ p = 3 \/ p = 4 \/ p = 5 \/ p = 6 \/ p = 7 \/ p = 8 \/ p = 9 \/ p = 10 \/ p = 11 \/ p = 12 \/ p = 13) as Hc by lia.
  clear -Hc. destruct Hc as [->|[->|[->|[->|[->|[->|[->|[->|[->|[->|[->|[->|[->| ->]]]]]]]]]]]]]; reflexivity.
Qed.

(** * The first program's retries *)

Definition PANEL_BOOT_RECOVERY_MAX_ATTEMPTS : Z := 3.

Inductive panel_boot_recovery_action := PANEL_BOOT_RECOVERY_CONTINUE | PANEL_BOOT_RECOVERY_STOP_EXHAUSTED.

Definition panel_boot_recovery_decide (attempts_used last_exit_code : Z) : panel_boot_recovery_action :=
  if attempts_used >=? PANEL_BOOT_RECOVERY_MAX_ATTEMPTS then PANEL_BOOT_RECOVERY_STOP_EXHAUSTED else PANEL_BOOT_RECOVERY_CONTINUE.

Section Recovery.
Context {C : Type}.

(** The lines go to [log] when there is one. *)
Definition panel_boot_recovery_log (log : option (list string)) (line : string) : option (list string) :=
  match log with Some l => Some (l ++ [line]) | None => None end.

(** [while (attempts < MAX)], with its [break]. *)
Fixpoint attempt_loop (fuel : nat) (run : C -> Z * C) (ctx : C) (log : option (list string)) (attempts last_exit : Z)
  : Z * Z * C * option (list string) :=
  match fuel with
  | O => (last_exit, attempts, ctx, log)
  | S fuel' =>
      if negb (attempts <? PANEL_BOOT_RECOVERY_MAX_ATTEMPTS) then (last_exit, attempts, ctx, log) else
      let attempts := attempts + 1 in
      let log := panel_boot_recovery_log log (if attempts =? 1 then "panel:start"%string else "panel:retry"%string) in
      let '(last_exit, ctx) := run ctx in
      let log := panel_boot_recovery_log log "panel:exit"%string in
      match panel_boot_recovery_decide attempts last_exit with
      | PANEL_BOOT_RECOVERY_CONTINUE => attempt_loop fuel' run ctx log attempts last_exit
      | _ => (last_exit, attempts, ctx, log)
      end
  end.

Definition panel_boot_recovery_run (run : option (C -> Z * C)) (ctx : C) (log : option (list string)) : Z * C * option (list string) :=
  match run with
  | None => (0, ctx, panel_boot_recovery_log log "panel:no run"%string)
  | Some run =>
      let '(last_exit, attempts, ctx, log) := attempt_loop 3 run ctx log 0 0 in
      (last_exit, ctx, if attempts >=? PANEL_BOOT_RECOVERY_MAX_ATTEMPTS then panel_boot_recovery_log log "panel:stop"%string else log)
  end.

(** The program is run three times whatever it exits with, the last exit code
    is the result, and the log says so. *)
Theorem recovery_runs_three (run : C -> Z * C) ctx log :
  panel_boot_recovery_run (Some run) ctx (Some log) =
    (let c1 := snd (run ctx) in let c2 := snd (run c1) in
     (fst (run c2), snd (run c2),
      Some (log ++ ["panel:start"; "panel:exit"; "panel:retry"; "panel:exit"; "panel:retry"; "panel:exit"; "panel:stop"]%string))).
Proof.
  unfold panel_boot_recovery_run. cbn [attempt_loop]. destruct (run ctx) as [e1 c1]. cbn [snd]. destruct (run c1) as [e2 c2]. cbn [snd].
  destruct (run c2) as [e3 c3]. cbn [fst snd].
  transitivity (e3, c3, Some ((((((((log ++ ["panel:start"%string]) ++ ["panel:exit"%string]) ++ ["panel:retry"%string]) ++ ["panel:exit"%string]) ++
    ["panel:retry"%string]) ++ ["panel:exit"%string]) ++ ["panel:stop"%string]))); [reflexivity|]. by rewrite <- !app_assoc.
Qed.
End Recovery.
