(* ===== verification/Editor.v ===== *)
(** The text editor (programs/apps/editor.c): its buffer, caret movement, keys,
    loading and saving.  Drawing is what the window calls do with the line that
    [draw_line] gives. *)

From Stdlib Require Import String Ascii.
From S2P Require Import Prelude.
From S2P Require Import Bytes.
From S2P Require Import UserImage.
Open Scope arm.

Definition O_RDONLY : Z := 0.
Definition O_RDWR : Z := 2.
Definition O_CREAT : Z := 0x40.
Definition FILE_CAP : Z := 512.
Definition RENDER_COLS : Z := 128.
Definition PATH_CAP : Z := 32.
Definition STATUS_CAP : Z := 48.
Definition INPUT_KEY_LEFT : Z := 0x103.
Definition INPUT_KEY_RIGHT : Z := 0x104.
Definition INPUT_KEY_UP : Z := 0x101.
Definition INPUT_KEY_DOWN : Z := 0x102.
Definition INPUT_KEY_HOME : Z := 0x107.
Definition INPUT_KEY_END : Z := 0x108.
Definition INPUT_KEY_DELETE : Z := 0x10a.
Definition NEWLINE : Z := 10.

(** The system calls the editor makes on files; a read gives back the buffer. *)
Class NoteCalls (W : Type) := {
  kli_open : list Z -> Z -> W -> Z * W;
  kli_read : Z -> list Z -> Z -> W -> Z * list Z * W;
  kli_seek : Z -> Z -> W -> W;
  kli_write : Z -> list Z -> W -> Z * W;
  kli_close : Z -> W -> W }.

Record editor_state := Editor { file : list Z; file_len : Z; caret : Z; status : list Z }.

Definition set_caret (c : Z) (e : editor_state) : editor_state := Editor (file e) (file_len e) c (status e).
Definition set_status (s : list Z) (e : editor_state) : editor_state := Editor (file e) (file_len e) (caret e) s.

(** [while (i + 1 < out_size && src\[i\] != 0)], then the terminator. *)
Fixpoint copy_loop (fuel : nat) (out : list Z) (out_size : Z) (src : list Z) (i : Z) : list Z :=
  match fuel with
  | O => put i 0 out
  | S fuel' =>
      if (i + 1 <? out_size) && negb (byte_at src i =? 0) then copy_loop fuel' (put i (byte_at src i) out) out_size src (i + 1) else put i 0 out
  end.

Definition copy_cstr (out : list Z) (out_size : Z) (src : list Z) : list Z := copy_loop (Z.to_nat out_size) out out_size src 0.

Definition copy_path (out src : list Z) : list Z := copy_cstr out PATH_CAP src.

Definition resolve_path (argc : Z) (argv : list (option (list Z))) (out : list Z) : list Z :=
  match argv !! 1%nat with
  | Some (Some a) => if argc >=? 2 then copy_path out a else copy_path out (chars "/tmp/note"%string)
  | _ => copy_path out (chars "/tmp/note"%string)
  end.

Definition is_fat_path (path : list Z) : bool :=
  let prefix := chars "/fat/"%string in
  match find_range 0 5 (fun i => negb (byte_at path i =? byte_at prefix i)) with Some _ => false | None => negb (byte_at path 5 =? 0) end.

Definition editor_init : editor_state := Editor (replicate 512 0) 0 0 (replicate 48 0).

(** ** Lines *)

Definition editor_line_start (e : editor_state) (caret : Z) : Z :=
  let caret := if caret >? file_len e then file_len e else caret in
  for_range 0 caret (fun i start => if byte_at (file e) i =? NEWLINE then i + 1 else start) 0.

Definition editor_line_end (e : editor_state) (caret : Z) : Z :=
  let caret := if caret >? file_len e then file_len e else caret in
  match find_range caret (file_len e) (fun i => byte_at (file e) i =? NEWLINE) with Some i => i | None => file_len e end.

Definition editor_left (e : editor_state) : editor_state :=
  if caret e >? editor_line_start e (caret e) then set_caret (caret e - 1) e else e.

Definition editor_right (e : editor_state) : editor_state :=
  if caret e <? editor_line_end e (caret e) then set_caret (caret e + 1) e else e.

Definition editor_up (e : editor_state) : editor_state :=
  let line_start := editor_line_start e (caret e) in
  if line_start =? 0 then e else
  let col := caret e - line_start in
  let prev_end := line_start - 1 in
  let prev_start := editor_line_start e prev_end in
  let prev_len := prev_end - prev_start in
  set_caret (prev_start + (if col <? prev_len then col else prev_len)) e.

Definition editor_down (e : editor_state) : editor_state :=
  let line_end := editor_line_end e (caret e) in
  if line_end >=? file_len e then e else
  let line_start := editor_line_start e (caret e) in
  let col := caret e - line_start in
  let next_start := line_end + 1 in
  let next_end := editor_line_end e next_start in
  let next_len := next_end - next_start in
  set_caret (next_start + (if col <? next_len then col else next_len)) e.

(** ** Changes *)

(** [for (i = file_len; i > caret; i--) file\[i\] = file\[i - 1\];] *)
Definition shift_right (f : list Z) (len c : Z) : list Z := for_range 0 (len - c) (fun k d => put (len - k) (byte_at d (len - k - 1)) d) f.

(** [for (i = caret; i + 1 < file_len; i++) file\[i\] = file\[i + 1\];] *)
Definition shift_left (f : list Z) (len c : Z) : list Z := for_range c (len - 1) (fun i d => put i (byte_at d (i + 1)) d) f.

Definition editor_insert (c : Z) (e : editor_state) : Z * editor_state :=
  if file_len e + 1 >=? FILE_CAP then (-1, e) else
  let f := put (caret e) c (shift_right (file e) (file_len e) (caret e)) in
  (0, Editor (put (file_len e + 1) 0 f) (file_len e + 1) (caret e + 1) (status e)).

Definition editor_backspace (e : editor_state) : Z * editor_state :=
  if caret e =? 0 then (-1, e) else
  let c := caret e - 1 in
  let f := shift_left (file e) (file_len e) c in
  (0, Editor (put (file_len e - 1) 0 f) (file_len e - 1) c (status e)).

Definition editor_delete (e : editor_state) : Z * editor_state :=
  if caret e >=? file_len e then (-1, e) else
  let f := shift_left (file e) (file_len e) (caret e) in
  (0, Editor (put (file_len e - 1) 0 f) (file_len e - 1) (caret e) (status e)).

(** The text of the caret's line that is drawn, and the caret's column. *)
Definition draw_line (e : editor_state) : list Z * Z :=
  let line_start := editor_line_start e (caret e) in
  let line_end := editor_line_end e (caret e) in
  (take (Z.to_nat (Z.min (line_end - line_start) (RENDER_COLS - 1))) (drop (Z.to_nat line_start) (file e)), caret e - line_start).

Section Files.
Context {W : Type} `{NoteCalls W}.

Definition load_note (path buf : list Z) (cap : Z) (w : W) : Z * list Z * W :=
  let flags := if is_fat_path path then Z.lor O_RDWR O_CREAT else O_RDONLY in
  let '(fd, w) := kli_open path flags w in
  if fd <? 0 then (-1, buf, w) else
  let '(n, buf, w) := kli_read fd buf (cap - 1) w in
  let w := kli_close fd w in
  if n <? 0 then (-1, buf, w) else (n, put n 0 buf, w).

Definition save_note (path bytes : list Z) (w : W) : Z * W :=
  let flags := if is_fat_path path then Z.lor O_RDWR O_CREAT else O_RDWR in
  let '(fd, w) := kli_open path flags w in
  if fd <? 0 then (-1, w) else
  let w := kli_seek fd 0 w in
  let '(written, w) := kli_write fd bytes w in
  let w := kli_close fd w in
  (if written =? Z.of_nat (length bytes) then 0 else -1, w).

Definition editor_load (path : list Z) (e : editor_state) (w : W) : editor_state * W :=
  let '(loaded, buf, w) := load_note path (file e) FILE_CAP w in
  let e :=
    if loaded <? 0 then Editor (put 0 0 buf) 0 (caret e) (copy_cstr (status e) STATUS_CAP (chars "OPEN FAILED"%string))
    else Editor buf loaded (caret e) (copy_cstr (status e) STATUS_CAP (chars "OPENED"%string)) in
  (if caret e >? file_len e then set_caret (file_len e) e else e, w).

(** The bytes written are the first [file_len] of the buffer. *)
Definition editor_save (path : list Z) (e : editor_state) (w : W) : editor_state * W :=
  let '(rc, w) := save_note path (take (Z.to_nat (file_len e)) (file e)) w in
  (set_status (copy_cstr (status e) STATUS_CAP (if rc =? 0 then chars "SAVED"%string else chars "SAVE FAILED"%string)) e, w).

Definition modified (r : Z * editor_state) : bool * editor_state :=
  let '(rc, e) := r in
  if rc =? 0 then (true, set_status (copy_cstr (status e) STATUS_CAP (chars "MODIFIED"%string)) e) else (false, e).

(** One key of the event loop of [main], other than the one that closes the
    window: whether the window is to be redrawn, and the state. *)
Definition editor_key (path : list Z) (key : Z) (e : editor_state) (w : W) : bool * editor_state * W :=
  if key =? 19 then let '(e, w) := editor_save path e w in (true, e, w)
  else if key =? INPUT_KEY_LEFT then (true, editor_left e, w)
  else if key =? INPUT_KEY_RIGHT then (true, editor_right e, w)
  else if key =? INPUT_KEY_UP then (true, editor_up e, w)
  else if key =? INPUT_KEY_DOWN then (true, editor_down e, w)
  else if key =? INPUT_KEY_HOME then (true, set_caret (editor_line_start e (caret e)) e, w)
  else if key =? INPUT_KEY_END then (true, set_caret (editor_line_end e (caret e)) e, w)
  else if (key =? 8) || (key =? 127) then (modified (editor_backspace e), w)
  else if key =? INPUT_KEY_DELETE then (modified (editor_delete e), w)
  else if (key =? 13) || (key =? 10) then (modified (editor_insert NEWLINE e), w)
  else if (key >=? 32) && (key <=? 126) then (modified (editor_insert key e), w)
  else (false, e, w).

Inductive editor_event := CloseEvent | KeyPressEvent (key : Z) | OtherEvent.

(** The loop over a batch of events: whether the editor ends, whether it redraws. *)
Fixpoint editor_events (path : list Z) (events : list editor_event) (dirty : bool) (e : editor_state) (w : W) : bool * bool * editor_state * W :=
  match events with
  | [] => (false, dirty, e, w)
  | CloseEvent :: _ => (true, dirty, e, w)
  | OtherEvent :: events => editor_events path events dirty e w
  | KeyPressEvent key :: events =>
      if key =? 17 then (true, dirty, e, w) else
      let '(d, e, w) := editor_key path key e w in editor_events path events (dirty || d) e w
  end.
End Files.
