(* ===== verification/EditorText.v ===== *)
(** The editor's buffer and caret are a page of lines: whatever keys arrive, they
    do to the buffer what they do to the lines. *)

From Stdlib Require Import String Ascii.
From S2P Require Import Prelude.
From S2P Require Import Bytes.
From S2P Require Import UserImage.
From S2P Require Import Editor.
Open Scope arm.

Definition size (l : list Z) : Z := Z.of_nat (length l).

Lemma size_app a b : size (a ++ b) = size a + size b.
Proof. unfold size. rewrite length_app. lia. Qed.
Lemma size_cons x a : size (x :: a) = 1 + size a.
Proof. unfold size. cbn. lia. Qed.
Lemma size_reverse a : size (reverse a) = size a.
Proof. unfold size. by rewrite length_reverse. Qed.
Lemma size_nonneg a : 0 <= size a.
Proof. unfold size. lia. Qed.

(** * The buffer *)

(** The buffer holds this text, terminated. *)
Record shows (f : list Z) (t : list Z) : Prop := {
  sh_length : length f = 512%nat;
  sh_room : size t < FILE_CAP;
  sh_bytes : forall j, 0 <= j < size t -> byte_at f j = byte_at t j;
  sh_end : byte_at f (size t) = 0 }.

Lemma byte_left a b j : 0 <= j < size a -> byte_at (a ++ b) j = byte_at a j.
Proof. intros Hj. unfold byte_at, size in *. by rewrite lookup_app_l by lia. Qed.

Lemma byte_right a b j : size a <= j -> byte_at (a ++ b) j = byte_at b (j - size a).
Proof. intros Hj. unfold byte_at, size in *. rewrite lookup_app_r by lia. f_equal. f_equal. lia. Qed.

Lemma shift_right_bytes f len c :
  0 <= c <= len -> len < Z.of_nat (length f) ->
  length (shift_right f len c) = length f /\
  forall j, 0 <= j -> byte_at (shift_right f len c) j = if (c <? j) && (j <=? len) then byte_at f (j - 1) else byte_at f j.
Proof.
  intros Hc Hl. unfold shift_right.
  set (c' := len - c). assert (Ec : c = len - c') by lia. rewrite Ec. clearbody c'. subst c. rename c' into m.
  apply (for_range_ind (fun k d => length d = length f /\ forall j, 0 <= j ->
    byte_at d j = if (len - k <? j) && (j <=? len) then byte_at f (j - 1) else byte_at f j) 0 m); [lia| |].
  - split; [done|]. intros j Hj. destruct (Z.ltb_spec (len - 0) j), (Z.leb_spec j len); done || lia.
  - intros k d Hk [Hlen Hb]. split; [by rewrite put_length|]. intros j Hj. rewrite byte_at_put by lia.
    destruct (Z.eqb_spec j (len - k)) as [->|N].
    + rewrite Hb by lia. destruct (Z.ltb_spec (len - k) (len - k - 1)), (Z.ltb_spec (len - (k + 1)) (len - k)), (Z.leb_spec (len - k) len); done || lia.
    + rewrite Hb by lia. destruct (Z.ltb_spec (len - k) j), (Z.ltb_spec (len - (k + 1)) j), (Z.leb_spec j len); done || lia.
Qed.

Lemma shift_left_bytes f len c :
  0 <= c < len -> len <= Z.of_nat (length f) ->
  length (shift_left f len c) = length f /\
  forall j, 0 <= j -> byte_at (shift_left f len c) j = if (c <=? j) && (j <? len - 1) then byte_at f (j + 1) else byte_at f j.
Proof.
  intros Hc Hl. unfold shift_left.
  apply (for_range_ind (fun k d => length d = length f /\ forall j, 0 <= j ->
    byte_at d j = if (c <=? j) && (j <? k) then byte_at f (j + 1) else byte_at f j) c (len - 1)); [lia| |].
  - split; [done|]. intros j Hj. destruct (Z.leb_spec c j), (Z.ltb_spec j c); done || lia.
  - intros k d Hk [Hlen Hb]. split; [by rewrite put_length|]. intros j Hj. rewrite byte_at_put by lia.
    destruct (Z.eqb_spec j k) as [->|N].
    + rewrite Hb by lia. destruct (Z.leb_spec c (k + 1)), (Z.ltb_spec (k + 1) k), (Z.leb_spec c k), (Z.ltb_spec k (k + 1)); done || lia.
    + rewrite Hb by lia. destruct (Z.leb_spec c j), (Z.ltb_spec j k), (Z.ltb_spec j (k + 1)); done || lia.
Qed.

(** A character between the two halves of the text. *)
Lemma insert_shows f a b x :
  shows f (a ++ b) -> size (a ++ b) + 1 < FILE_CAP ->
  shows (put (size (a ++ b) + 1) 0 (put (size a) x (shift_right f (size (a ++ b)) (size a)))) (a ++ x :: b).
Proof.
  intros [S1 S2 S3 S4] Hr. unfold FILE_CAP in *. rewrite size_app in *. pose proof (size_nonneg a). pose proof (size_nonneg b).
  destruct (shift_right_bytes f (size a + size b) (size a)) as [L1 B1]; [lia|lia|].
  split; rewrite ?size_app, ?size_cons, ?put_length; [lia|unfold FILE_CAP; lia| |].
  - intros j Hj. rewrite !byte_at_put by (rewrite ?put_length; lia). destruct (Z.eqb_spec j (size a + size b + 1)); [lia|].
    destruct (Z.eqb_spec j (size a)) as [->|].
    { rewrite byte_right by lia. by rewrite Z.sub_diag. }
    rewrite B1 by lia. destruct (Z.ltb_spec (size a) j), (Z.leb_spec j (size a + size b)); cbn [andb]; try lia.
    + rewrite S3 by lia. rewrite !byte_right by lia. unfold byte_at. replace (Z.to_nat (j - size a)) with (S (Z.to_nat (j - 1 - size a))) by lia. done.
    + rewrite S3, !byte_left by lia. done.
  - rewrite byte_at_put by (rewrite ?put_length; lia). replace (size a + (1 + size b)) with (size a + size b + 1) by lia. by rewrite Z.eqb_refl.
Qed.

(** The character between the two halves goes. *)
Lemma remove_shows f a b x :
  shows f (a ++ x :: b) -> shows (put (size (a ++ x :: b) - 1) 0 (shift_left f (size (a ++ x :: b)) (size a))) (a ++ b).
Proof.
  intros [S1 S2 S3 S4]. unfold FILE_CAP in *. rewrite !size_app, size_cons in *. pose proof (size_nonneg a). pose proof (size_nonneg b).
  destruct (shift_left_bytes f (size a + (1 + size b)) (size a)) as [L1 B1]; [lia|lia|].
  split; rewrite ?size_app, ?put_length; [lia|unfold FILE_CAP; lia| |].
  - intros j Hj. rewrite byte_at_put by lia. destruct (Z.eqb_spec j (size a + (1 + size b) - 1)); [lia|]. rewrite B1 by lia.
    destruct (Z.leb_spec (size a) j), (Z.ltb_spec j (size a + (1 + size b) - 1)); cbn [andb]; try lia.
    + rewrite S3 by lia. rewrite !byte_right by lia. unfold byte_at. replace (Z.to_nat (j + 1 - size a)) with (S (Z.to_nat (j - size a))) by lia. done.
    + rewrite S3, !byte_left by lia. done.
  - rewrite byte_at_put by lia. replace (size a + (1 + size b) - 1) with (size a + size b) by lia. by rewrite Z.eqb_refl.
Qed.

(** * Lines in the buffer *)

(** Where a line starts and ends. *)
Lemma line_start_is e c s :
  0 <= s <= c -> c <= file_len e -> s = 0 \/ byte_at (file e) (s - 1) = NEWLINE ->
  (forall j, s <= j < c -> byte_at (file e) j <> NEWLINE) -> editor_line_start e c = s.
Proof.
  intros Hs Hc Hb Hn. unfold editor_line_start. destruct (Z.gtb_spec c (file_len e)); [lia|].
  set (r := for_range 0 c _ 0).
  assert (Hr : 0 <= r <= c /\ (r = 0 \/ byte_at (file e) (r - 1) = NEWLINE) /\ forall j, r <= j < c -> byte_at (file e) j <> NEWLINE).
  { apply (for_range_ind (fun k r => 0 <= r <= k /\ (r = 0 \/ byte_at (file e) (r - 1) = NEWLINE) /\
      forall j, r <= j < k -> byte_at (file e) j <> NEWLINE) 0 c); [lia|split; [lia|split; [by left|lia]]|].
    intros k r' Hk (R1 & R2 & R3). destruct (Z.eqb_spec (byte_at (file e) k) NEWLINE) as [E|N].
    - split; [lia|]. split; [right; by replace (k + 1 - 1) with k by lia|lia].
    - split; [lia|]. split; [done|]. intros j Hj. destruct (Z.eq_dec j k) as [->|]; [done|apply R3; lia]. }
  destruct Hr as (R1 & R2 & R3). destruct (Z.lt_trichotomy r s) as [Hlt|[|Hgt]]; [|done|].
  - destruct Hb as [|Hb]; [lia|]. by destruct (R3 (s - 1) ltac:(lia)).
  - destruct R2 as [|R2]; [lia|]. by destruct (Hn (r - 1) ltac:(lia)).
Qed.

Lemma line_end_is e c s :
  0 <= c <= s -> s <= file_len e -> s = file_len e \/ byte_at (file e) s = NEWLINE ->
  (forall j, c <= j < s -> byte_at (file e) j <> NEWLINE) -> editor_line_end e c = s.
Proof.
  intros Hc Hs Hb Hn. unfold editor_line_end. destruct (Z.gtb_spec c (file_len e)); [lia|].
  destruct (find_range _ _ _) as [i|] eqn:E.
  - apply find_range_Some in E as (Hi & Hp & Hfirst). b2p. destruct (Z.lt_trichotomy i s) as [Hlt|[|Hgt]]; [|done|].
    + by destruct (Hn i ltac:(lia)).
    + destruct Hb as [|Hb]; [lia|]. specialize (Hfirst s ltac:(lia)). cbn in Hfirst. b2p. done.
  - destruct Hb as [|Hb]; [done|]. destruct (Z.eq_dec s (file_len e)); [done|]. pose proof (find_range_None _ _ _ E s ltac:(lia)) as Hf. cbn in Hf. b2p. done.
Qed.

(** * Pages *)

(** The lines above the caret's line, nearest first; the characters before the
    caret in its line, nearest first; those after it; the lines below. *)
Record page := Page { above : list (list Z); before : list Z; after : list Z; below : list (list Z) }.

Definition lines_above (ls : list (list Z)) : list Z := concat (map (fun l => l ++ [NEWLINE]) (reverse ls)).
Definition lines_below (ls : list (list Z)) : list Z := concat (map (fun l => NEWLINE :: l) ls).

Definition head_of (p : page) : list Z := lines_above (above p) ++ reverse (before p).
Definition tail_of (p : page) : list Z := after p ++ lines_below (below p).
Definition text (p : page) : list Z := head_of p ++ tail_of p.

Definition plain (l : list Z) : Prop := Forall (fun c => c <> NEWLINE) l.
Record page_ok (p : page) : Prop := {
  po_above : Forall plain (above p); po_before : plain (before p); po_after : plain (after p); po_below : Forall plain (below p) }.

(** The editor shows this page. *)
Record repr (e : editor_state) (p : page) : Prop := {
  rp_ok : page_ok p; rp_shows : shows (file e) (text p); rp_len : file_len e = size (text p); rp_caret : caret e = size (head_of p) }.

Lemma lines_above_cons l ls : lines_above (l :: ls) = lines_above ls ++ l ++ [NEWLINE].
Proof. unfold lines_above. rewrite reverse_cons, map_app, concat_app. cbn. by rewrite app_nil_r. Qed.

Lemma lines_above_end ls : lines_above ls = [] /\ ls = [] \/ exists t, lines_above ls = t ++ [NEWLINE] /\ ls <> [].
Proof. destruct ls as [|l ls]; [by left|]. right. rewrite lines_above_cons. exists (lines_above ls ++ l). by rewrite <- app_assoc. Qed.

Lemma plain_at l j : plain l -> 0 <= j < size l -> byte_at l j <> NEWLINE.
Proof.
  intros Hp Hj. unfold byte_at, size in *. destruct (l !! Z.to_nat j) as [x|] eqn:E; [|apply lookup_ge_None in E; lia].
  unfold plain in Hp. rewrite Forall_lookup in Hp. by apply (Hp _ _ E).
Qed.

Lemma plain_reverse l : plain l -> plain (reverse l).
Proof. apply Forall_reverse. Qed.

(** The caret's line in the text, whatever side of the caret its parts are on. *)
Definition line_at (p : page) : list Z := reverse (before p) ++ after p.

Lemma text_line p : text p = lines_above (above p) ++ line_at p ++ lines_below (below p).
Proof. unfold text, head_of, tail_of, line_at. by rewrite <- !app_assoc. Qed.

Lemma line_plain p : page_ok p -> plain (line_at p).
Proof. intros [_ H1 H2 _]. apply Forall_app. split; [by apply plain_reverse|done]. Qed.

(** A line of the text found from a place in it. *)
Lemma line_found e ls l ms c :
  shows (file e) (lines_above ls ++ l ++ lines_below ms) -> file_len e = size (lines_above ls ++ l ++ lines_below ms) -> plain l ->
  size (lines_above ls) <= c <= size (lines_above ls) + size l ->
  editor_line_start e c = size (lines_above ls) /\ editor_line_end e c = size (lines_above ls) + size l.
Proof.
  intros Hs Hl Hp Hc. rewrite !size_app in Hl. pose proof (size_nonneg (lines_above ls)). pose proof (size_nonneg l). pose proof (size_nonneg (lines_below ms)).
  assert (B : forall j, 0 <= j < file_len e -> byte_at (file e) j = byte_at (lines_above ls ++ l ++ lines_below ms) j)
    by (intros j Hj; apply (sh_bytes _ _ Hs); rewrite !size_app; lia).
  assert (Hn : forall j, size (lines_above ls) <= j < size (lines_above ls) + size l -> byte_at (file e) j <> NEWLINE).
  { intros j Hj. rewrite B by lia. rewrite byte_right, byte_left by lia. apply plain_at; [done|lia]. }
  split.
  - apply line_start_is; [lia|lia| |intros j Hj; apply Hn; lia].
    destruct (lines_above_end ls) as [[E _]|(t & E & _)]; [left; by rewrite E|right]. rewrite E, size_app in *. change (size [NEWLINE]) with 1 in *.
    pose proof (size_nonneg t). rewrite B, byte_left, byte_right by (rewrite ?size_app; change (size [NEWLINE]) with 1; lia).
    replace (size t + 1 - 1 - size t) with 0 by lia. done.
  - apply line_end_is; [lia|lia| |intros j Hj; apply Hn; lia].
    destruct ms as [|m ms]; [left; rewrite Hl; change (size (lines_below [])) with 0; lia|right].
    assert (1 <= size (lines_below (m :: ms))) by (cbn; rewrite size_cons; pose proof (size_nonneg (m ++ concat (map (fun l => NEWLINE :: l) ms))); lia).
    rewrite B, !byte_right by lia. replace (size (lines_above ls) + size l - size (lines_above ls) - size l) with 0 by lia. done.
Qed.

Lemma repr_line e p :
  repr e p -> editor_line_start e (caret e) = size (lines_above (above p)) /\
    editor_line_end e (caret e) = size (lines_above (above p)) + size (line_at p) /\ caret e = size (lines_above (above p)) + size (before p) /\
    size (line_at p) = size (before p) + size (after p) /\ file_len e = size (lines_above (above p)) + size (line_at p) + size (lines_below (below p)).
Proof.
  intros [Hok Hs Hl Hc]. unfold head_of in Hc. rewrite size_app, size_reverse in Hc. rewrite text_line in *.
  assert (Esz : size (line_at p) = size (before p) + size (after p)) by (unfold line_at; by rewrite size_app, size_reverse).
  pose proof (size_nonneg (before p)). pose proof (size_nonneg (after p)).
  destruct (line_found e _ _ _ (caret e) Hs Hl (line_plain p Hok)) as [-> ->]; [lia|]. rewrite !size_app in Hl. split_and!; try done. lia.
Qed.

(** ** What keys do to a page *)

Definition p_left (p : page) : page := match before p with x :: l => Page (above p) l (x :: after p) (below p) | [] => p end.
Definition p_right (p : page) : page := match after p with x :: r => Page (above p) (x :: before p) r (below p) | [] => p end.
Definition p_home (p : page) : page := Page (above p) [] (line_at p) (below p).
Definition p_end (p : page) : page := Page (above p) (reverse (line_at p)) [] (below p).

(** The line [l] with the caret at column [n], or at its end. *)
Definition at_column (ls : list (list Z)) (n : nat) (l : list Z) (ms : list (list Z)) : page := Page ls (reverse (take n l)) (drop n l) ms.

Definition p_up (p : page) : page :=
  match above p with l :: ls => at_column ls (length (before p)) l (line_at p :: below p) | [] => p end.
Definition p_down (p : page) : page :=
  match below p with l :: ms => at_column (line_at p :: above p) (length (before p)) l ms | [] => p end.

Definition p_insert (c : Z) (p : page) : page :=
  if size (text p) + 1 >=? FILE_CAP then p else
  if c =? NEWLINE then Page (reverse (before p) :: above p) [] (after p) (below p) else Page (above p) (c :: before p) (after p) (below p).

Definition p_backspace (p : page) : page :=
  match before p, above p with
  | _ :: l, _ => Page (above p) l (after p) (below p)
  | [], l :: ls => Page ls (reverse l) (after p) (below p)
  | [], [] => p
  end.

Definition p_delete (p : page) : page :=
  match after p, below p with
  | _ :: r, _ => Page (above p) (before p) r (below p)
  | [], l :: ms => Page (above p) (before p) l ms
  | [], [] => p
  end.

(** ** Movement *)

(** A page with the same text and the caret elsewhere. *)
Lemma move_repr e p q c : repr e p -> page_ok q -> text q = text p -> c = size (head_of q) -> repr (set_caret c e) q.
Proof. intros [_ Hs Hl _] Hq Ht ->. split; [done|by rewrite Ht|by rewrite Ht|done]. Qed.

Lemma left_repr e p : repr e p -> repr (editor_left e) (p_left p).
Proof.
  intros Hr. destruct (repr_line e p Hr) as (E1 & _ & E3 & _ & _). unfold editor_left, p_left. rewrite E1.
  destruct (rp_ok _ _ Hr) as [O1 O2 O3 O4]. destruct (before p) as [|x l] eqn:Eb; cbn [size] in E3.
  - destruct (Z.gtb_spec (caret e) (size (lines_above (above p)))) as [Hgt|_]; [|done]. change (size []) with 0 in E3. lia.
  - rewrite size_cons in E3. pose proof (size_nonneg l). destruct (Z.gtb_spec (caret e) (size (lines_above (above p)))) as [_|]; [|lia].
    apply Forall_cons in O2 as [O2 O2']. eapply move_repr; [exact Hr|split; try done; by apply Forall_cons| |].
    + rewrite !text_line. unfold line_at. cbn [above before after below]. rewrite Eb, reverse_cons, <- !app_assoc. done.
    + unfold head_of. cbn [above before]. rewrite size_app, size_reverse. lia.
Qed.

Lemma right_repr e p : repr e p -> repr (editor_right e) (p_right p).
Proof.
  intros Hr. destruct (repr_line e p Hr) as (_ & E2 & E3 & E4 & _). unfold editor_right, p_right. rewrite E2.
  destruct (rp_ok _ _ Hr) as [O1 O2 O3 O4]. destruct (after p) as [|x r] eqn:Ea.
  - change (size []) with 0 in E4. destruct (Z.ltb_spec (caret e) (size (lines_above (above p)) + size (line_at p))); [lia|done].
  - rewrite size_cons in E4. pose proof (size_nonneg r). destruct (Z.ltb_spec (caret e) (size (lines_above (above p)) + size (line_at p))); [|lia].
    apply Forall_cons in O3 as [O3 O3']. eapply move_repr; [exact Hr|split; try done; by apply Forall_cons| |].
    + rewrite !text_line. unfold line_at. cbn [above before after below]. rewrite Ea, reverse_cons, <- !app_assoc. done.
    + unfold head_of. cbn [above before]. rewrite size_app, size_reverse, size_cons. lia.
Qed.

Lemma home_repr e p : repr e p -> repr (set_caret (editor_line_start e (caret e)) e) (p_home p).
Proof.
  intros Hr. destruct (repr_line e p Hr) as (E1 & _). destruct (rp_ok _ _ Hr) as [O1 O2 O3 O4].
  eapply move_repr; [exact Hr|split; try done; [by apply Forall_nil_2|apply line_plain, (rp_ok _ _ Hr)]| |].
  - rewrite !text_line. done.
  - rewrite E1. unfold head_of. cbn. by rewrite app_nil_r.
Qed.

Lemma end_repr e p : repr e p -> repr (set_caret (editor_line_end e (caret e)) e) (p_end p).
Proof.
  intros Hr. destruct (repr_line e p Hr) as (_ & E2 & _). destruct (rp_ok _ _ Hr) as [O1 O2 O3 O4].
  eapply move_repr; [exact Hr|split; try done; [apply plain_reverse, line_plain, (rp_ok _ _ Hr)|by apply Forall_nil_2]| |].
  - rewrite !text_line. unfold line_at at 1. cbn [before after p_end]. by rewrite reverse_involutive, app_nil_r.
  - rewrite E2. unfold head_of. cbn [above before p_end]. by rewrite reverse_involutive, size_app.
Qed.

Lemma column_ok ls n l ms : Forall plain ls -> plain l -> Forall plain ms -> page_ok (at_column ls n l ms).
Proof. intros H1 H2 H3. split; cbn; try done; [apply plain_reverse; by apply Forall_take|by apply Forall_drop]. Qed.

Lemma column_text ls n l ms : text (at_column ls n l ms) = lines_above ls ++ l ++ lines_below ms.
Proof. rewrite text_line. unfold line_at, at_column. cbn [above before after below]. by rewrite reverse_involutive, take_drop. Qed.

Lemma column_head ls n l ms : size (head_of (at_column ls n l ms)) = size (lines_above ls) + Z.min (Z.of_nat n) (size l).
Proof. unfold head_of, at_column. cbn [above before]. rewrite reverse_involutive, size_app. unfold size. rewrite length_take. lia. Qed.

Lemma up_repr e p : repr e p -> repr (editor_up e) (p_up p).
Proof.
  intros Hr. destruct (repr_line e p Hr) as (E1 & _ & E3 & _ & _). unfold editor_up, p_up. rewrite E1.
  pose proof (line_plain p (rp_ok _ _ Hr)) as Hlp. destruct (rp_ok _ _ Hr) as [O1 O2 O3 O4]. destruct (above p) as [|l ls] eqn:Ea; [done|].
  apply Forall_cons in O1 as [Ol Ols]. assert (Etext : text p = lines_above ls ++ l ++ lines_below (line_at p :: below p)).
  { rewrite text_line, Ea, lines_above_cons. unfold lines_below. cbn [map concat]. by rewrite <- !app_assoc. }
  rewrite lines_above_cons, !size_app in *. change (size [NEWLINE]) with 1 in *. pose proof (size_nonneg (lines_above ls)). pose proof (size_nonneg l).
  destruct (Z.eqb_spec (size (lines_above ls) + (size l + 1)) 0); [lia|].
  destruct (line_found e ls l (line_at p :: below p) (size (lines_above ls) + (size l + 1) - 1)) as [-> _];
    [rewrite <- Etext; apply (rp_shows _ _ Hr)|rewrite <- Etext; apply (rp_len _ _ Hr)|done|lia|].
  eapply move_repr; [exact Hr|apply column_ok; [done|done|by apply Forall_cons]|by rewrite column_text|].
  rewrite column_head. fold (size (before p)). case_match; b2p; lia.
Qed.

Lemma down_repr e p : repr e p -> repr (editor_down e) (p_down p).
Proof.
  intros Hr. destruct (repr_line e p Hr) as (E1 & E2 & E3 & _ & E5). unfold editor_down, p_down. rewrite E1, E2, E5.
  pose proof (line_plain p (rp_ok _ _ Hr)) as Hlp. destruct (rp_ok _ _ Hr) as [O1 O2 O3 O4]. destruct (below p) as [|m ms] eqn:Eb.
  { change (size (lines_below [])) with 0. rewrite Z.geb_leb, (proj2 (Z.leb_le _ _)) by lia. done. }
  apply Forall_cons in O4 as [Om Oms]. assert (Etext : text p = lines_above (line_at p :: above p) ++ m ++ lines_below ms).
  { rewrite text_line, Eb, lines_above_cons. unfold lines_below. cbn [map concat]. by rewrite <- !app_assoc. }
  assert (Eb' : size (lines_below (m :: ms)) = 1 + size m + size (lines_below ms)) by (unfold lines_below; cbn [map concat]; rewrite size_app, size_cons; lia).
  rewrite Eb'. pose proof (size_nonneg (lines_above (above p))). pose proof (size_nonneg (line_at p)). pose proof (size_nonneg m). pose proof (size_nonneg (lines_below ms)).
  rewrite Z.geb_leb, (proj2 (Z.leb_gt _ _)) by lia.
  assert (Eabove : size (lines_above (line_at p :: above p)) = size (lines_above (above p)) + size (line_at p) + 1)
    by (rewrite lines_above_cons, !size_app; change (size [NEWLINE]) with 1; lia).
  destruct (line_found e (line_at p :: above p) m ms (size (lines_above (above p)) + size (line_at p) + 1)) as [_ ->];
    [rewrite <- Etext; apply (rp_shows _ _ Hr)|rewrite <- Etext; apply (rp_len _ _ Hr)|done|lia|].
  eapply move_repr; [exact Hr|apply column_ok; [by apply Forall_cons|done|done]|by rewrite column_text|].
  rewrite column_head, Eabove. fold (size (before p)). case_match; b2p; lia.
Qed.

(** ** Changes *)

Lemma insert_repr e p c : repr e p -> repr (snd (editor_insert c e)) (p_insert c p).
Proof.
  intros Hr. pose proof (rp_ok _ _ Hr) as [O1 O2 O3 O4]. destruct Hr as [Hok Hs Hl Hc]. unfold editor_insert, p_insert. rewrite Hl.
  rewrite !Z.geb_leb. destruct (Z.leb_spec FILE_CAP (size (text p) + 1)) as [|Hroom]; [by split|]. cbn [snd]. rewrite Hc.
  set (q := if c =? NEWLINE then _ else _). assert (Hq : page_ok q /\ head_of q = head_of p ++ [c] /\ tail_of q = tail_of p).
  { unfold q, head_of, tail_of. destruct (Z.eqb_spec c NEWLINE) as [->|N]; cbn [above before after below].
    - split; [split; cbn; try done; [apply Forall_cons; split; [by apply plain_reverse|done]|by apply Forall_nil_2]|].
      rewrite lines_above_cons. change (reverse []) with (@nil Z). by rewrite app_nil_r, <- !app_assoc.
    - split; [split; cbn; try done; by apply Forall_cons|]. by rewrite reverse_cons, <- !app_assoc. }
  destruct Hq as (Hqok & Eh & Et). assert (Etext : text q = head_of p ++ c :: tail_of p) by (unfold text; by rewrite Eh, Et, <- app_assoc).
  assert (Esz : size (text q) = size (text p) + 1) by (rewrite Etext; unfold text; rewrite !size_app, size_cons; lia).
  split; [done| | |].
  - rewrite Etext. cbn [file]. unfold text in *. by apply insert_shows.
  - by rewrite Esz.
  - cbn [caret]. rewrite Eh, size_app. done.
Qed.

(** The character at the split goes, the caret is at the split. *)
Lemma removed_repr e p q a x b :
  repr e p -> page_ok q -> text p = a ++ x :: b -> head_of q = a -> tail_of q = b ->
  repr (Editor (put (file_len e - 1) 0 (shift_left (file e) (file_len e) (size a))) (file_len e - 1) (size a) (status e)) q.
Proof.
  intros [_ Hs Hl _] Hq Et <- <-. rewrite Et in Hs. rewrite Hl, Et. split; [done| | |done].
  - cbn [file]. unfold text. by apply remove_shows.
  - cbn [file_len]. unfold text. rewrite !size_app, size_cons. lia.
Qed.

Lemma backspace_repr e p : repr e p -> repr (snd (editor_backspace e)) (p_backspace p).
Proof.
  intros Hr. pose proof (rp_ok _ _ Hr) as [O1 O2 O3 O4]. pose proof (rp_caret _ _ Hr) as Hc. unfold editor_backspace, p_backspace.
  destruct (before p) as [|x l] eqn:Eb; [destruct (above p) as [|l ls] eqn:Ea|].
  - unfold head_of in Hc. rewrite Eb, Ea in Hc. change (caret e = 0) in Hc. rewrite Hc. done.
  - apply Forall_cons in O1 as [Ol Ols]. set (q := Page ls (reverse l) (after p) (below p)).
    assert (Eh : head_of p = head_of q ++ [NEWLINE]).
    { unfold head_of, q. cbn [above before]. rewrite Eb, Ea, lines_above_cons, reverse_involutive. change (reverse []) with (@nil Z). by rewrite app_nil_r, <- app_assoc. }
    rewrite Hc, Eh, size_app. change (size [NEWLINE]) with 1. pose proof (size_nonneg (head_of q)). destruct (Z.eqb_spec (size (head_of q) + 1) 0); [lia|].
    cbn [snd]. replace (size (head_of q) + 1 - 1) with (size (head_of q)) by lia.
    eapply removed_repr; [exact Hr|split; cbn; try done; by apply plain_reverse| |done|done]. unfold text. by rewrite Eh, <- app_assoc.
  - apply Forall_cons in O2 as [Ox Ol]. set (q := Page (above p) l (after p) (below p)).
    assert (Eh : head_of p = head_of q ++ [x]) by (unfold head_of, q; cbn [above before]; by rewrite Eb, reverse_cons, <- app_assoc).
    rewrite Hc, Eh, size_app. change (size [x]) with 1. pose proof (size_nonneg (head_of q)). destruct (Z.eqb_spec (size (head_of q) + 1) 0); [lia|].
    cbn [snd]. replace (size (head_of q) + 1 - 1) with (size (head_of q)) by lia.
    eapply removed_repr; [exact Hr|split; cbn; done| |done|done]. unfold text. by rewrite Eh, <- app_assoc.
Qed.

Lemma delete_repr e p : repr e p -> repr (snd (editor_delete e)) (p_delete p).
Proof.
  intros Hr. pose proof (rp_ok _ _ Hr) as [O1 O2 O3 O4]. pose proof (rp_caret _ _ Hr) as Hc. pose proof (rp_len _ _ Hr) as Hl.
  unfold editor_delete, p_delete. rewrite Z.geb_leb.
  assert (Hgo : forall q x, page_ok q -> head_of q = head_of p -> tail_of p = x :: tail_of q ->
    repr (snd (if file_len e <=? caret e then (-1, e) else (0, Editor (put (file_len e - 1) 0 (shift_left (file e) (file_len e) (caret e))) (file_len e - 1) (caret e) (status e)))) q).
  { intros q x Hq Eh Et. unfold text in Hl. rewrite size_app, Et, size_cons in Hl. pose proof (size_nonneg (tail_of q)).
    rewrite (proj2 (Z.leb_gt _ _)) by lia. cbn [snd]. rewrite Hc. eapply removed_repr; [exact Hr|done| |done|reflexivity]. unfold text. by rewrite Et. }
  destruct (after p) as [|x r] eqn:Ea; [destruct (below p) as [|m ms] eqn:Eb|].
  - unfold text, tail_of in Hl. rewrite Ea, Eb, size_app in Hl. change (size ([] ++ lines_below [])) with 0 in Hl.
    rewrite (proj2 (Z.leb_le _ _)) by lia. done.
  - apply Forall_cons in O4 as [Om Oms]. apply (Hgo _ NEWLINE); [split; cbn; done|done|]. unfold tail_of. rewrite Ea, Eb. done.
  - apply Forall_cons in O3 as [Ox Or]. apply (Hgo _ x); [split; cbn; done|done|]. unfold tail_of. rewrite Ea. done.
Qed.

(** ** Loading *)

(** A text as its first line and the lines below it. *)
Fixpoint split_lines (t : list Z) : list Z * list (list Z) :=
  match t with
  | [] => ([], [])
  | c :: t => let '(l, ms) := split_lines t in if c =? NEWLINE then ([], l :: ms) else (c :: l, ms)
  end.

Definition page_of (t : list Z) : page := let '(l, ms) := split_lines t in Page [] [] l ms.

Lemma page_of_ok t : page_ok (page_of t) /\ text (page_of t) = t /\ head_of (page_of t) = [].
Proof.
  assert (Hs : forall l ms, split_lines t = (l, ms) -> plain l /\ Forall plain ms /\ l ++ lines_below ms = t).
  { induction t as [|c t IH]; intros l ms E; cbn [split_lines] in E; [simplify_eq; split; [by apply Forall_nil_2|split; [by apply Forall_nil_2|done]]|].
    destruct (split_lines t) as [l1 ms1]. destruct (IH l1 ms1 eq_refl) as (H1 & H2 & H3). destruct (Z.eqb_spec c NEWLINE) as [->|N]; simplify_eq.
    - split; [by apply Forall_nil_2|]. split; [by apply Forall_cons|done].
    - split; [by apply Forall_cons|]. split; done. }
  unfold page_of. destruct (split_lines t) as [l ms]. destruct (Hs l ms eq_refl) as (H1 & H2 & H3).
  split; [split; cbn; try done; by apply Forall_nil_2|]. split; [exact H3|done].
Qed.

Lemma shows_take f t : shows f t -> take (Z.to_nat (size t)) f = t.
Proof.
  intros [S1 S2 S3 _]. unfold FILE_CAP, size in *. apply list_eq_same_length with (length t); [done|rewrite length_take; lia|].
  intros i x y Hi Hx Hy. rewrite lookup_take_lt in Hx by lia. specialize (S3 (Z.of_nat i) ltac:(lia)). unfold byte_at in S3.
  rewrite Nat2Z.id, Hx, Hy in S3. done.
Qed.

Section Keys.
Context {W : Type} `{NoteCalls W}.

(** What the editor relies on: a read keeps the buffer's length and fits in it. *)
Class NoteCallLaws : Prop := {
  kli_read_fits : forall fd buf cap w n buf' w', kli_read fd buf cap w = (n, buf', w') -> length buf' = length buf /\ n <= Z.max 0 cap }.

(** A new editor shows the file it loaded, or nothing, with the caret at its start. *)
Lemma load_repr `{NoteCallLaws} path w e w' :
  editor_load path editor_init w = (e, w') ->
  exists t, repr e (page_of t) /\ (forall n buf w1, load_note path (replicate 512 0) FILE_CAP w = (n, buf, w1) -> 0 <= n -> t = take (Z.to_nat n) buf).
Proof.
  intros E. unfold editor_load in E. cbn [file caret status editor_init] in E. destruct (load_note _ _ _ _) as [[n buf] w1] eqn:El.
  assert (Hl : length buf = 512%nat /\ n < 512 /\ (0 <= n -> byte_at buf n = 0)).
  { unfold load_note in El. destruct (kli_open _ _ _) as [fd w2]. destruct (fd <? 0); [simplify_eq; split; [apply length_replicate|split; [lia|intros; lia]]|].
    destruct (kli_read _ _ _ _) as [[m buf1] w3] eqn:Er. apply kli_read_fits in Er as [L1 L2]. rewrite length_replicate in L1.
    destruct (Z.ltb_spec m 0); simplify_eq; [split; [congruence|split; [lia|intros; lia]]|]. rewrite put_length. unfold FILE_CAP in L2.
    split; [done|]. split; [lia|]. intros _. rewrite byte_at_put by lia. by rewrite Z.eqb_refl. }
  destruct Hl as (Hl & Hn & Hz). exists (if n <? 0 then [] else take (Z.to_nat n) buf).
  set (t := if n <? 0 then _ else _). destruct (page_of_ok t) as (P1 & P2 & P3).
  assert (Hsz : size t = if n <? 0 then 0 else n).
  { unfold t. destruct (Z.ltb_spec n 0); [done|]. unfold size. rewrite length_take. lia. }
  split.
  - cbn [file_len caret] in E. destruct (Z.ltb_spec n 0) as [Hneg|Hpos]; cbn [caret file_len] in E.
    + injection E as <- <-. split; rewrite ?P2, ?P3, ?Hsz; try done. cbn [file].
      assert (Et : t = []) by (unfold t; destruct (Z.ltb_spec n 0); [done|lia]). rewrite Et.
      split; [by rewrite put_length|done|intros j Hj; change (size []) with 0 in Hj; lia|].
      rewrite byte_at_put by (rewrite ?Hl; change (size []) with 0; lia). done.
    + destruct (Z.gtb_spec 0 n); [lia|]. injection E as <- <-. split; rewrite ?P2, ?P3, ?Hsz; try done. cbn [file].
      unfold t in *. split; rewrite ?Hsz; [done|unfold FILE_CAP; lia| |by apply Hz]. intros j Hj. unfold byte_at. by rewrite lookup_take_lt by lia.
  - intros n' buf' w1' E' Hn'. injection E' as <- <- <-. unfold t. destruct (Z.ltb_spec n 0); [lia|done].
Qed.

(** ** Keys *)

Definition page_key (path : list Z) (key : Z) (p : page) (w : W) : page * W :=
  if key =? 19 then (p, snd (save_note path (text p) w))
  else if key =? INPUT_KEY_LEFT then (p_left p, w)
  else if key =? INPUT_KEY_RIGHT then (p_right p, w)
  else if key =? INPUT_KEY_UP then (p_up p, w)
  else if key =? INPUT_KEY_DOWN then (p_down p, w)
  else if key =? INPUT_KEY_HOME then (p_home p, w)
  else if key =? INPUT_KEY_END then (p_end p, w)
  else if (key =? 8) || (key =? 127) then (p_backspace p, w)
  else if key =? INPUT_KEY_DELETE then (p_delete p, w)
  else if (key =? 13) || (key =? 10) then (p_insert NEWLINE p, w)
  else if (key >=? 32) && (key <=? 126) then (p_insert key p, w)
  else (p, w).

Fixpoint page_events (path : list Z) (events : list editor_event) (p : page) (w : W) : bool * page * W :=
  match events with
  | [] => (false, p, w)
  | CloseEvent :: _ => (true, p, w)
  | OtherEvent :: events => page_events path events p w
  | KeyPressEvent key :: events => if key =? 17 then (true, p, w) else let '(p, w) := page_key path key p w in page_events path events p w
  end.

Lemma status_repr s e p : repr e p -> repr (set_status s e) p.
Proof. by intros [H1 H2 H3 H4]. Qed.

Lemma modified_repr r p : repr (snd r) p -> repr (snd (modified r)) p.
Proof. destruct r as [rc e]. cbn. intros Hr. case_if; [by apply status_repr|done]. Qed.

Lemma key_repr path key e p w :
  repr e p -> let '(d, e', w1) := editor_key path key e w in let '(p', w2) := page_key path key p w in repr e' p' /\ w1 = w2.
Proof.
  intros Hr. unfold editor_key, page_key. destruct (key =? 19).
  { unfold editor_save. rewrite (rp_len _ _ Hr), (shows_take _ _ (rp_shows _ _ Hr)). destruct (save_note path (text p) w) as [rc w1].
    split; [by apply status_repr|done]. }
  assert (Hm : forall r q, repr (snd r) q -> let '(d, e', w1) := (modified r, w) in repr e' q /\ w1 = w).
  { intros r q Hq. pose proof (modified_repr r q Hq) as Hq'. by destruct (modified r). }
  destruct (key =? INPUT_KEY_LEFT); [split; [by apply left_repr|done]|]. destruct (key =? INPUT_KEY_RIGHT); [split; [by apply right_repr|done]|].
  destruct (key =? INPUT_KEY_UP); [split; [by apply up_repr|done]|]. destruct (key =? INPUT_KEY_DOWN); [split; [by apply down_repr|done]|].
  destruct (key =? INPUT_KEY_HOME); [split; [by apply home_repr|done]|]. destruct (key =? INPUT_KEY_END); [split; [by apply end_repr|done]|].
  destruct ((key =? 8) || (key =? 127)); [apply Hm; by apply backspace_repr|]. destruct (key =? INPUT_KEY_DELETE); [apply Hm; by apply delete_repr|].
  destruct ((key =? 13) || (key =? 10)); [apply Hm; by apply insert_repr|]. destruct ((key >=? 32) && (key <=? 126)); [apply Hm; by apply insert_repr|done].
Qed.

(** C36: whatever events the editor gets, its buffer and caret are those of a page
    of lines to which the same keys were applied: a printable key puts its
    character at the caret unless the 511 characters are used up, a newline
    splits the line, backspace and delete join lines at their ends, left and
    right stay in the line, up and down keep the column as far as the line goes;
    and every save writes exactly the page's text. *)
Theorem editor_refines path events dirty e p w :
  repr e p ->
  let '(closed, _, e', w1) := editor_events path events dirty e w in
  let '(closed', p', w2) := page_events path events p w in closed = closed' /\ repr e' p' /\ w1 = w2.
Proof.
  revert dirty e p w. induction events as [|[|key|] events IH]; intros dirty e p w Hr; cbn [editor_events page_events]; [done|done| |by apply IH].
  destruct (key =? 17); [done|]. pose proof (key_repr path key e p w Hr) as Hk. destruct (editor_key path key e w) as [[d e1] w1].
  destruct (page_key path key p w) as [p1 w2]. destruct Hk as [Hr1 ->]. by apply IH.
Qed.
End Keys.

(** * A short session *)

(** A file system that keeps what was last written. *)
#[export] Instance last_write : NoteCalls (list Z) := {|
  kli_open _ _ w := (3, w);
  kli_read _ buf _ w := (0, buf, w);
  kli_seek _ _ w := w;
  kli_write _ bytes _ := (Z.of_nat (length bytes), bytes);
  kli_close _ w := w |}.

Definition typed : list editor_event := KeyPressEvent <$> [104; 105; 13; 33; INPUT_KEY_UP; INPUT_KEY_DELETE; 19].

Lemma init_repr : repr editor_init (page_of []).
Proof.
  split; [split; cbn; by apply Forall_nil_2| |done|done]. split; [apply length_replicate|done| |done].
  intros j Hj. change (size (text (page_of []))) with 0 in Hj. lia.
Qed.

Lemma editor_refines_witness :
  let '(closed, _, e', w1) := editor_events (chars "/tmp/note"%string) typed false editor_init [] in
  w1 = [104; 10; 33] /\ repr e' (Page [] [104] [] [[33]]).
Proof.
  pose proof (editor_refines (chars "/tmp/note"%string) typed false editor_init (page_of []) [] init_repr) as HR.
  destruct (editor_events _ _ _ _ _) as [[[closed d] e'] w1] eqn:E. destruct HR as (_ & HR & HW). split; [exact HW|exact HR].
Defined.
