(* ===== verification/DeskModel.v ===== *)
(** Geometry of the desktop programs: rectangles (programs/libarmdesk/rect.h) and
    the panel's layout and decisions (programs/apps/panel_model.h). *)

From S2P Require Import Prelude.
From S2P Require Import Bytes.
From S2P Require Import Framebuffer.
Open Scope arm.

(** * Rectangles, half-open in both directions *)

Record armdesk_rect := Rect { rc_x : Z; rc_y : Z; rc_w : Z; rc_h : Z }.

Definition armdesk_rect_is_empty (r : armdesk_rect) : bool := (rc_w r <=? 0) || (rc_h r <=? 0).

(** In 64 bits, where the sum of two 32-bit numbers fits. *)
Definition armdesk_rect_right (r : armdesk_rect) : Z := rc_x r + rc_w r.
Definition armdesk_rect_bottom (r : armdesk_rect) : Z := rc_y r + rc_h r.

Definition armdesk_rect_contains (r : armdesk_rect) (x y : Z) : bool :=
  if armdesk_rect_is_empty r then false else
  (x >=? rc_x r) && (y >=? rc_y r) && (x <? armdesk_rect_right r) && (y <? armdesk_rect_bottom r).

Definition armdesk_rect_intersects (a b : armdesk_rect) : bool :=
  if armdesk_rect_is_empty a || armdesk_rect_is_empty b then false else
  (rc_x a <? armdesk_rect_right b) && (rc_x b <? armdesk_rect_right a) && (rc_y a <? armdesk_rect_bottom b) && (rc_y b <? armdesk_rect_bottom a).

Definition armdesk_rect_intersection (a b : armdesk_rect) : armdesk_rect :=
  let left := if rc_x a >? rc_x b then rc_x a else rc_x b in
  let top := if rc_y a >? rc_y b then rc_y a else rc_y b in
  let right := if armdesk_rect_right a <? armdesk_rect_right b then armdesk_rect_right a else armdesk_rect_right b in
  let bottom := if armdesk_rect_bottom a <? armdesk_rect_bottom b then armdesk_rect_bottom a else armdesk_rect_bottom b in
  if (right <=? left) || (bottom <=? top) then Rect 0 0 0 0 else
  Rect (i32 left) (i32 top) (i32 (right - left)) (i32 (bottom - top)).

Definition armdesk_rect_clamp_to_bounds (r : armdesk_rect) (width height : Z) : armdesk_rect := armdesk_rect_intersection r (Rect 0 0 width height).

(** * The panel *)

Definition PANEL_APP_COUNT : Z := 6.
Definition PANEL_PINNED_COUNT : Z := 4.
Definition PANEL_ITEM_Y : Z := 4.
Definition PANEL_ITEM_H : Z := 32.
Definition PANEL_MENU_BUTTON_X : Z := 8.
Definition PANEL_MENU_BUTTON_W : Z := 56.
Definition PANEL_APP_X : Z := 72.
Definition PANEL_APP_W : Z := 36.
Definition PANEL_APP_GAP : Z := 6.
Definition PANEL_CLOCK_X : Z := 552.
Definition PANEL_CLOCK_W : Z := 80.
Definition PANEL_MENU_W : Z := 224.
Definition PANEL_MENU_ITEM_X : Z := 8.
Definition PANEL_MENU_ITEM_Y : Z := 32.
Definition PANEL_MENU_ITEM_W : Z := PANEL_MENU_W - 16.
Definition PANEL_MENU_ITEM_H : Z := 24.
Definition PANEL_MENU_ITEM_GAP : Z := 4.
Definition PANEL_TARGET_NONE : Z := -1.
Definition PANEL_TARGET_MENU : Z := PANEL_APP_COUNT.
Definition PANEL_TARGET_CLOCK : Z := PANEL_APP_COUNT + 1.
Definition PANEL_TICKS_PER_SECOND : Z := 100.
Definition PANEL_WINDOW_STATE_MINIMIZED : Z := 1.
Definition PANEL_WINDOW_STATE_FOCUSED : Z := 2.

Inductive panel_visual_state_t := PANEL_VISUAL_CLOSED | PANEL_VISUAL_RUNNING | PANEL_VISUAL_FOCUSED | PANEL_VISUAL_MINIMIZED.

Inductive panel_activation_action_t :=
  | PANEL_ACTION_NONE | PANEL_ACTION_LAUNCH | PANEL_ACTION_WAIT | PANEL_ACTION_FOCUS | PANEL_ACTION_RESTORE | PANEL_ACTION_MINIMIZE.

Definition panel_app_x (index : Z) : Z := PANEL_APP_X + index * (PANEL_APP_W + PANEL_APP_GAP).

Definition panel_target_at (x y : Z) : Z :=
  if (y <? PANEL_ITEM_Y) || (y >=? PANEL_ITEM_Y + PANEL_ITEM_H) then PANEL_TARGET_NONE else
  if (x >=? PANEL_MENU_BUTTON_X) && (x <? PANEL_MENU_BUTTON_X + PANEL_MENU_BUTTON_W) then PANEL_TARGET_MENU else
  match find_range 0 PANEL_PINNED_COUNT (fun i => (x >=? panel_app_x i) && (x <? panel_app_x i + PANEL_APP_W)) with
  | Some i => i
  | None => if (x >=? PANEL_CLOCK_X) && (x <? PANEL_CLOCK_X + PANEL_CLOCK_W) then PANEL_TARGET_CLOCK else PANEL_TARGET_NONE
  end.

Definition panel_menu_item_y (index : Z) : Z := PANEL_MENU_ITEM_Y + index * (PANEL_MENU_ITEM_H + PANEL_MENU_ITEM_GAP).

Definition panel_menu_item_at (x y : Z) : Z :=
  if (x <? PANEL_MENU_ITEM_X) || (x >=? PANEL_MENU_ITEM_X + PANEL_MENU_ITEM_W) then -1 else
  match find_range 0 PANEL_APP_COUNT (fun i => (y >=? panel_menu_item_y i) && (y <? panel_menu_item_y i + PANEL_MENU_ITEM_H)) with
  | Some i => i
  | None => -1
  end.

Definition focused (states : list Z) (i : Z) : bool := byte_at states i &? PANEL_WINDOW_STATE_FOCUSED.
Definition minimized (states : list Z) (i : Z) : bool := byte_at states i &? PANEL_WINDOW_STATE_MINIMIZED.

(** The loop that also notes whether a window is visible. *)
Definition panel_visual_state (states : option (list Z)) (count : Z) : panel_visual_state_t :=
  match states with
  | None => PANEL_VISUAL_CLOSED
  | Some states =>
      if count <=? 0 then PANEL_VISUAL_CLOSED else
      match find_range 0 count (focused states) with
      | Some _ => PANEL_VISUAL_FOCUSED
      | None =>
          let any_visible := for_range 0 count (fun i v => v || negb (minimized states i)) false in
          if any_visible then PANEL_VISUAL_RUNNING else PANEL_VISUAL_MINIMIZED
      end
  end.

Definition panel_app_visual_state (states : option (list Z)) (window_count process_count : Z) : panel_visual_state_t :=
  if window_count >? 0 then panel_visual_state states window_count
  else if process_count >? 0 then PANEL_VISUAL_RUNNING else PANEL_VISUAL_CLOSED.

Definition panel_pick_window (states : option (list Z)) (count : Z) : Z :=
  match states with
  | None => -1
  | Some states =>
      if count <=? 0 then -1 else
      match find_range 0 count (focused states) with
      | Some i => (i + 1) mod count
      | None => match find_range 0 count (fun i => negb (minimized states i)) with Some i => i | None => 0 end
      end
  end.

Definition panel_activation_action (states : option (list Z)) (window_count process_count : Z) : panel_activation_action_t :=
  if window_count <=? 0 then if process_count >? 0 then PANEL_ACTION_WAIT else PANEL_ACTION_LAUNCH else
  match states with
  | None => PANEL_ACTION_NONE
  | Some l =>
      if (window_count =? 1) && focused l 0 then PANEL_ACTION_NONE else
      let target := panel_pick_window states window_count in
      if target <? 0 then PANEL_ACTION_NONE else
      if minimized l target then PANEL_ACTION_RESTORE else PANEL_ACTION_FOCUS
  end.

Definition panel_format_uptime (ticks : Z) : list Z :=
  let total_seconds := ticks / PANEL_TICKS_PER_SECOND in
  let hours := (total_seconds / 3600) mod 100 in
  let minutes := (total_seconds / 60) mod 60 in
  let seconds := total_seconds mod 60 in
  [48 + hours / 10; 48 + hours mod 10; 58; 48 + minutes / 10; 48 + minutes mod 10; 58; 48 + seconds / 10; 48 + seconds mod 10; 0].

(** * Properties *)

Definition int32 (v : Z) : Prop := - 2 ^ 31 <= v < 2 ^ 31.
Definition rect_ok (r : armdesk_rect) : Prop := int32 (rc_x r) /\ int32 (rc_y r) /\ int32 (rc_w r) /\ int32 (rc_h r).

Lemma i32_signed v : int32 v -> i32 v = v.
Proof.
  intros Hv. unfold int32 in Hv. unfold i32. destruct (Z.ltb_spec v 0).
  - assert (E : u32 v = v + 2 ^ 32) by (unfold u32; symmetry; apply (Z.mod_unique_pos _ _ (-1)); lia). rewrite E, (proj2 (Z.ltb_ge _ _)) by lia. lia.
  - rewrite u32_id by lia. by rewrite (proj2 (Z.ltb_lt _ _)) by lia.
Qed.

(** The intersection of two rectangles has exactly their common points, for all
    32-bit coordinates, and two rectangles meet exactly when it is not empty. *)
Theorem intersection_exact a b x y :
  rect_ok a -> rect_ok b ->
  armdesk_rect_contains (armdesk_rect_intersection a b) x y = armdesk_rect_contains a x y && armdesk_rect_contains b x y /\
  armdesk_rect_intersects a b = negb (armdesk_rect_is_empty (armdesk_rect_intersection a b)).
Proof.
  intros (A1 & A2 & A3 & A4) (B1 & B2 & B3 & B4). unfold int32 in *.
  unfold armdesk_rect_intersects, armdesk_rect_contains, armdesk_rect_intersection, armdesk_rect_is_empty, armdesk_rect_right, armdesk_rect_bottom.
  destruct a as [ax ay aw ah], b as [bx by_ bw bh]; cbn [rc_x rc_y rc_w rc_h] in *. rewrite !Z.geb_leb, !Z.gtb_ltb.
  set (left := if bx <? ax then ax else bx). set (top := if by_ <? ay then ay else by_).
  set (right := if ax + aw <? bx + bw then ax + aw else bx + bw). set (bottom := if ay + ah <? by_ + bh then ay + ah else by_ + bh).
  assert (Hl : left = Z.max ax bx) by (unfold left; destruct (Z.ltb_spec bx ax); lia).
  assert (Ht : top = Z.max ay by_) by (unfold top; destruct (Z.ltb_spec by_ ay); lia).
  assert (Hr : right = Z.min (ax + aw) (bx + bw)) by (unfold right; destruct (Z.ltb_spec (ax + aw) (bx + bw)); lia).
  assert (Hb : bottom = Z.min (ay + ah) (by_ + bh)) by (unfold bottom; destruct (Z.ltb_spec (ay + ah) (by_ + bh)); lia).
  clearbody left top right bottom.
  destruct (Z.leb_spec right left) as [H1|H1]; cbn [orb]; [|destruct (Z.leb_spec bottom top) as [H2|H2]]; cbn [rc_x rc_y rc_w rc_h].
  1-2: split; [change (0 <=? 0) with true; cbn [orb]; symmetry; apply not_true_iff_false; intros E|
               change (0 <=? 0) with true; cbn [orb negb]; apply not_true_iff_false; intros E];
       repeat (case_match; b2p; try done); b2p; lia.
  rewrite !i32_signed by (unfold int32; lia). destruct (Z.leb_spec (right - left) 0); [lia|]. destruct (Z.leb_spec (bottom - top) 0); [lia|]. cbn [orb negb].
  destruct (Z.leb_spec aw 0); [lia|]. destruct (Z.leb_spec ah 0); [lia|]. destruct (Z.leb_spec bw 0); [lia|]. destruct (Z.leb_spec bh 0); [lia|]. cbn [orb].
  split.
  - apply eq_true_iff_eq. rewrite !andb_true_iff, !Z.leb_le, !Z.ltb_lt. lia.
  - rewrite !(proj2 (Z.ltb_lt _ _)) by lia. done.
Qed.

(** A click in the panel hits the button it is drawn in, and no point is in two. *)
Theorem panel_targets_exact x y i :
  0 <= i < PANEL_PINNED_COUNT ->
  (panel_target_at x y = i <-> PANEL_ITEM_Y <= y < PANEL_ITEM_Y + PANEL_ITEM_H /\ panel_app_x i <= x < panel_app_x i + PANEL_APP_W).
Proof.
  intros Hi. unfold panel_target_at, panel_app_x, PANEL_PINNED_COUNT, PANEL_ITEM_Y, PANEL_ITEM_H, PANEL_TARGET_NONE, PANEL_TARGET_MENU,
    PANEL_TARGET_CLOCK, PANEL_APP_COUNT, PANEL_MENU_BUTTON_X, PANEL_MENU_BUTTON_W, PANEL_APP_X, PANEL_APP_W, PANEL_APP_GAP, PANEL_CLOCK_X, PANEL_CLOCK_W in *.
  rewrite !Z.geb_leb. destruct (Z.ltb_spec y 4); cbn [orb]; [lia|]. destruct (Z.leb_spec (4 + 32) y); [lia|].
  destruct (Z.leb_spec 8 x), (Z.ltb_spec x (8 + 56)); cbn [andb]; try lia.
  all: destruct (find_range _ _ _) as [j|] eqn:E; [apply find_range_Some in E as (Hj & Hp & _); rewrite Z.geb_leb in Hp; b2p; lia|].
  all: pose proof (find_range_None _ _ _ E i ltac:(lia)) as Hn; cbn beta in Hn; rewrite Z.geb_leb in Hn; apply andb_false_iff in Hn;
    rewrite Z.leb_gt, Z.ltb_ge in Hn; repeat case_if; lia.
Qed.
